(* ===== verification/_CoqProject ===== *)
-Q . S2P
Prelude.v
Ports.v
KString.v
Bytes.v
Ring.v
Pipe.v
KMalloc.v
Pmm.v
Paging.v
Swap.v
Vmem.v
BlockDev.v
Fat12.v
FatCodec.v
FatFile.v
FatDir.v
Sched.v
Vga.v
Ata.v
Idt.v
Gdt.v
Mouse.v
Rtc.v
Ramfs.v
Elf.v
Process.v
Signal.v
Users.v
Dmesg.v
Keyboard.v
Controller.v
Draw.v
Gui.v
Snake.v
Listing.v
Serial.v
Net.v
NetProps.v
Dhcp.v
Libc.v
User.v
Text.v
Ed.v
Awk.v
Tar.v
Kush.v
Programs.v
Vi.v
Vfs.v
VfsBackends.v
Procfs.v
Ext2.v
Syscall.v
Shell.v
Commands.v
KernelMain.v
