(* ===== verification/Prelude.v ===== *)
(** * KumOS: a verification development

    KumOS is a small 32-bit x86 operating system in C. This library models its kernel
    (src/src), and the C library of its user programs (src/user), as Gallina functions
    and proves what makes the components correct. This file is the root: the header
    describes the whole development; below it are the notions all files share.

    ** How C is modelled

    - An operation that can go wrong returns [res]: [Ok], [Fault] (an access outside
      the object, a wild dereference, a division by zero: what C leaves undefined) or
      [Timeout] (the fuel given was not enough). Operations on the state of a component
      are in the monad [M S] over its state record, in the order of the C statements;
      [wp m Q s] says that [m] run from [s] ends in [Q] without fault or timeout.
    - Integers are [Z]; where a value has a width the wrap is written out ([u8], [u16],
      [u32], [i32]). A [char *] is the list of bytes from the pointer to the end of its
      object. A table is a list, updated by index, and a pointer into it is an index;
      kernel pointers that the code computes with are addresses, and memory is a map.
    - [static] variables are the fields of the component's state record. Globals that
      another component owns are reached through that component's operations.
    - Loops whose end depends on a device take fuel: the iteration limit of the code
      where it has one. Loops over data use the length of the data as fuel, and the
      theorems say that it is enough: no theorem assumes that a function returns.
    - What is not in the repository is a type with a class of operations: the disk
      ([BlockDev.Disk]), the network card ([Net.Nic]), I/O ports ([Ports.Ports],
      [Ports.Ports16]), other tasks that run during [sched_yield] (a function on the
      state), user signal handlers. User programs see the kernel through the classes
      [User.Os] and [Kush.Paths]. Classes of laws ([BlockDev.ReliableDisk], [Ata.AtaDisk], [NetProps.Wire],
      [Serial.UartLine], [Rtc.CmosClock], [User.Streams], [Tar.Files]) state the documented behaviour
      the code relies on, and each has an instance that computes. Where the code relies on
      more, that is a hypothesis of its own ([Ata.takes_flush]: a drive that takes FLUSH
      CACHE while it is busy, which only runs with writes need). [NetProps.Wire] follows the
      data sheet of the card: the interrupt status is cleared by writing ones, and what is
      received is a ring of 8 KiB; [Tar.Files] lets several spellings of a name be one file
      and a disk be full.

    ** Bounds

    - The kernel reaches page tables by their physical address, and only the first 16 MiB
      are mapped that way. The theorems on virtual memory ([Paging], [Vmem], [Elf], pipes
      of [Syscall]) hold whatever the amount of memory as long as the frames in use and
      those handed out next lie below 16 MiB ([Paging.low_total], [Paging.low_next]); their
      witnesses start from 128 MiB. Once a page table lies above, the code faults
      ([Paging.paging_map_high_frame_faults]).
    - [Ext2] finds inodes in the first block group only, as the code does, and files of at
      most 12 blocks and one indirect block.
    - The walk over a FAT chain has 4096 steps, more than the table has entries: [FatDir]
      shows that they are enough for any content whose links stay inside the table. The
      dispatch of a command line has a level per character of the line, and [KernelMain]
      shows that the call behind the last level is never made.

    ** The files and what they show

    Foundations. [KString]: the string library of the kernel (kstring.c), with
    overlap-free copies and the number printer. [Bytes]: packed structures and byte
    order. [Ring]: the list a ring buffer stands for. [Ports]: port accesses.

    Memory. [KMalloc] (kmalloc.c): the heap is always tiled by blocks whose free ones
    are exactly the free list; kmalloc returns fresh, disjoint blocks and kfree releases
    exactly one, merging it with a free block above. [Pmm] (paging.c, frames): the reference counts implement ownership.
    [Paging] (paging.c, tables): paging_init, paging_map and paging_unmap change the
    translation of exactly the pages they name; kernel accesses go through the tables
    they edit. [Swap] (swap.c) and [Vmem] (vmalloc, heap region, copy-on-write, the
    page-fault handler): a page swapped out and faulted in has the same words; a write
    fault on a copy-on-write page gives a private copy, or the page itself to its only
    owner. [Elf] (elf.c): segments are loaded
    through the page tables to where the headers say.

    Storage. [BlockDev]: the interface of a sector device; [Ata] (ata.c) implements it
    with port accesses to a drive. [Fat12], [FatCodec], [FatFile], [FatDir] (fat12.c):
    what fat12_write stores fat12_read returns, other files keep their content, deletion
    frees exactly the clusters of the file, and freeing a chain ends on any table whose
    links stay inside it. [Ext2] (ext2.c): reading by path gives the bytes that the ext2
    format has for it, specified over the bytes of the disk. [Ramfs] (fs.c)
    implements a finite map of names to contents.

    Tasks. [Sched] (sched.c, sched_switch.asm): a well-formed table along every run, at
    most one running task, round-robin fairness, delivery of exit codes, and the context
    switch as pushes and pops on task stacks. [Process] (process.c), [Signal] (signal.c,
    timer.c), [Pipe] (pipe.c): the ring is a FIFO under preemption between any two
    accesses. [Idt] (idt.c, isr_stubs.asm): the handlers of interrupts and what the stubs
    do to the registers. [Gdt] (gdt.c): descriptors and the task state segment.

    Devices and logs. [Vga] (vga.c) implements a terminal: printing refines a screen of
    lines with wrapping and scrolling. [Keyboard] (keyboard.c): scan codes, modifiers,
    line editing; [Controller]: its start-up, which ends with any PS/2 controller. [Mouse]
    (mouse.c): packets and the cursor. [Rtc] (rtc.c): the time in each format of the clock. [Serial] (serial.c), [Dmesg] (dmesg.c): the log holds the
    last bytes logged. [Users] (users.c): accounts and login. [Draw] and [Gui] (gui.c):
    what the drawing primitives paint, the cursor, and the terminal window as a list of
    lines.

    Network. [Net], [NetProps] (net.c): the card driver, ARP, IPv4, UDP, TCP; a datagram
    arrives with its payload, a segment is appended to the stream of its peer, the
    checksum is the ones-complement sum. [Dhcp] (dhcp.c, dns.c): messages are parsed back
    to what they encode.

    Files and system calls. [Vfs], [VfsBackends] (vfs.c): descriptors, longest-prefix
    mounts and the three back ends over Ramfs, Fat12 and the console. [Procfs] (procfs.c):
    the texts about the other components; reading a file of /proc in pieces gives the text
    built when it was opened. [Syscall] (syscall.c): every call, over one state that
    composes the components, with user pointers resolved through the page tables.

    The kernel shell (kernel.c). [Shell]: its variables, printing, words, history and the
    calculator; [Commands]: one function per command; [KernelMain]: kum, the dispatch of a
    line and the loop. Privileges change by kum only, the guarded commands do nothing
    without them, and the recursion of kum through the dispatch ends. [Snake]: the game as
    turns on its arrays. [Listing]: the tables that other components print.

    User programs. [Libc] (kumos_libc.h): memmove, qsort, number conversions, printf and
    relatives. [User]: the wrappers of the calls, the heap. [Text] (sort.c, uniq.c, wc.c,
    grep.c, utils.c): sorting, counting and matching lines, however the input arrives in
    pieces. [Tar] (tar.c): archives are extracted to the files they were made from. [Ed]
    (ed.c) and [Vi] (vi.c): the edits of both editors are those of a list of lines. [Awk]
    (awk.c): a column of the input. [Kush] (kush.c): the user shell, its words, built-in
    commands, pipelines and scripts; cp copies a file. [Programs] (userspace.c, syscall.h
    and the small programs): output, numbers and loops over the calls.

    Some theorems state defects the model exhibits; they are plain lemmas beside the
    component they concern (for example [Vfs.vfs_pipe_ends_coincide]).

    ** Not modelled

    Start-up: the assembly (boot.asm), the build, and the first part of kernel_main, which
    calls the initialisation functions of the components one after the other (each of them
    is modelled with its component) and logs to the serial line. The shell is modelled from
    the point where interrupts are on. The TLB, caches and instruction timing: each modelled
    operation is atomic except where a file says otherwise ([Pipe] splits the ring operations
    at every access). Interrupts with a change of privilege: the stubs in [Idt] are those of
    kernel code. User memory is what the program's objects are: the calls in [User] copy
    bytes into and out of them, and what the kernel does with the pointers is in [Syscall]. *)

From stdpp Require Export base option list list_numbers numbers gmap.
From Stdlib Require Export ZArith Lia.

Declare Scope kum_scope.
Delimit Scope kum_scope with kum.
#[global] Open Scope kum_scope.
#[global] Open Scope Z_scope.

(** ** Outcomes

    A C operation returns a value, performs an access outside the object it
    points into (or divides by zero), or does not finish within the given
    fuel. *)
Inductive res (A : Type) : Type :=
| Ok (a : A)
| Fault
| Timeout.
Arguments Ok {A} a.
Arguments Fault {A}.
Arguments Timeout {A}.

#[global] Instance res_ret : MRet res := λ A a, Ok a.
#[global] Instance res_bind : MBind res := λ A B f m,
  match m with Ok a => f a | Fault => Fault | Timeout => Timeout end.

Definition res_of {A} (o : option A) : res A :=
  match o with Some a => Ok a | None => Fault end.

(** Stateful operations with faults: [M S A] passes the state of a component
    along, in the order of the C statements. *)
Definition M (S A : Type) : Type := S → res (A * S).

#[global] Instance M_ret {S} : MRet (M S) := λ A a s, Ok (a, s).
#[global] Instance M_bind {S} : MBind (M S) := λ A B f m s,
  match m s with
  | Ok (a, s') => f a s'
  | Fault => Fault
  | Timeout => Timeout
  end.

Definition get {S} : M S S := λ s, Ok (s, s).
Definition put {S} (s : S) : M S unit := λ _, Ok (tt, s).
Definition modify {S} (f : S → S) : M S unit := λ s, Ok (tt, f s).
Definition gets {S A} (f : S → A) : M S A := λ s, Ok (f s, s).
Definition lift {S A} (r : res A) : M S A := λ s,
  match r with Ok a => Ok (a, s) | Fault => Fault | Timeout => Timeout end.

(** An operation of a component inside a larger state: [g] reads the component's
    state and [p] puts it back. *)
Definition zoom {S T A} (g : S → T) (p : T → S → S) (m : M T A) : M S A := λ s,
  match m (g s) with Ok (a, t) => Ok (a, p t s) | Fault => Fault | Timeout => Timeout end.

(** [wp m Q s]: run from [s], [m] neither faults nor runs out of fuel, and its
    result and final state satisfy [Q]. *)
Definition wp {S A} (m : M S A) (Q : A → S → Prop) (s : S) : Prop :=
  match m s with Ok (a, s') => Q a s' | _ => False end.

(** ** Machine integers *)
Definition u8 (x : Z) : Z := x mod 2 ^ 8.
Definition u16 (x : Z) : Z := x mod 2 ^ 16.
Definition u32 (x : Z) : Z := x mod 2 ^ 32.

(** [int] arithmetic wraps to the signed 32-bit range (the representative the
    compiler's two's-complement arithmetic yields). *)
Definition i32 (x : Z) : Z := (x + 2 ^ 31) mod 2 ^ 32 - 2 ^ 31.

(** A [char] is signed on x86: the value of a byte read through [char *]. *)
Definition schar (b : Z) : Z := if b <? 128 then b else b - 256.

Definition is_byte (b : Z) : Prop := 0 ≤ b < 256.
Definition bytes (l : list Z) : Prop := Forall is_byte l.

(** ** Arrays

    A C array is a list; an access outside it is a [Fault]. *)
Definition arr_get {A} (l : list A) (i : Z) : res A :=
  if (0 <=? i) then res_of (l !! Z.to_nat i) else Fault.
Definition arr_set {A} (l : list A) (i : Z) (x : A) : res (list A) :=
  if (0 <=? i) && (i <? Z.of_nat (length l)) then Ok (<[Z.to_nat i := x]> l)
  else Fault.

#[global] Arguments arr_get {A} l i : simpl never.
#[global] Arguments arr_set {A} l i x : simpl never.
#[global] Arguments u8 x : simpl never.
#[global] Arguments u16 x : simpl never.
#[global] Arguments u32 x : simpl never.
#[global] Arguments i32 x : simpl never.

(** [for (i = 0; i < n; i++) if (f(a[i])) return i;]: the index of the first
    element satisfying [f]. *)
Fixpoint find_idx {A} (f : A → bool) (l : list A) : option nat :=
  match l with
  | [] => None
  | x :: l' => if f x then Some 0%nat else S <$> find_idx f l'
  end.

(** [for (i = lo; i < hi; i++) body(i);], and with [n] turns left. *)
Fixpoint for_up {S} (n : nat) (i : Z) (body : Z → M S unit) : M S unit :=
  match n with
  | O => mret tt
  | S n' => body i ;; for_up n' (i + 1) body
  end.
Definition for_range {S} (lo hi : Z) (body : Z → M S unit) : M S unit :=
  for_up (Z.to_nat (hi - lo)) lo body.

(** ** Transition sequences *)
Inductive star {A} (R : A → A → Prop) : A → A → Prop :=
| star_refl a : star R a a
| star_snoc a b c : star R a b → R b c → star R a c.

(** ** Tactics *)

(** Turn boolean tests in the context into propositions. *)
Ltac bool_hyps :=
  repeat match goal with
  | H : (_ && _)%bool = true |- _ => apply andb_true_iff in H as [? ?]
  | H : (_ || _)%bool = false |- _ => apply orb_false_iff in H as [? ?]
  | H : negb _ = true |- _ => apply negb_true_iff in H
  | H : negb _ = false |- _ => apply negb_false_iff in H
  | H : (_ =? _)%Z = true |- _ => apply Z.eqb_eq in H
  | H : (_ =? _)%Z = false |- _ => apply Z.eqb_neq in H
  | H : (_ <? _)%Z = true |- _ => apply Z.ltb_lt in H
  | H : (_ <? _)%Z = false |- _ => apply Z.ltb_ge in H
  | H : (_ <=? _)%Z = true |- _ => apply Z.leb_le in H
  | H : (_ <=? _)%Z = false |- _ => apply Z.leb_gt in H
  | H : (_ && _)%bool = false |- _ => apply andb_false_iff in H
  | H : (_ || _)%bool = true |- _ => apply orb_true_iff in H
  end.

(** Case analysis on the boolean conditions of the goal, as propositions. *)
Ltac case_if :=
  match goal with
  | |- context [if ?b then _ else _] =>
      lazymatch type of b with
      | bool => let E := fresh "E" in destruct b eqn:E; bool_hyps
      end
  end.

(** Split the first comparison of the goal into its two cases. *)
Ltac case_z :=
  match goal with
  | |- context [(?a =? ?b)%Z] => destruct (Z.eqb_spec a b)
  | |- context [(?a <? ?b)%Z] => destruct (Z.ltb_spec a b)
  | |- context [(?a <=? ?b)%Z] => destruct (Z.leb_spec a b)
  end.

(** Write a list of known length as its elements. *)
Ltac explode l :=
  repeat match goal with
  | H : length l = S _ |- _ => let x := fresh "x" in destruct l as [|x l]; [discriminate H|]; cbn in H; injection H as H
  end;
  match goal with H : length l = O |- _ => apply nil_length_inv in H; subst l end.

Create HintDb kum.

(** ** Outcomes and the state monad *)

Lemma res_bind_Ok {A B} (m : res A) (f : A → res B) (b : B) :
  (m ≫= f) = Ok b ↔ ∃ a, m = Ok a ∧ f a = Ok b.
Proof. destruct m; cbn; naive_solver. Qed.

Lemma M_bind_Ok {S A B} (m : M S A) (f : A → M S B) (s : S) (r : B * S) :
  (m ≫= f) s = Ok r ↔ ∃ a s', m s = Ok (a, s') ∧ f a s' = Ok r.
Proof. unfold mbind, M_bind. destruct (m s) as [[a s']| |]; naive_solver. Qed.

Lemma M_bind_step {S A B} (m : M S A) (f : A → M S B) (s s' : S) (a : A) :
  m s = Ok (a, s') → (m ≫= f) s = f a s'.
Proof. unfold mbind, M_bind. by intros ->. Qed.

Lemma M_bind_fault {S A B} (m : M S A) (f : A → M S B) (s : S) :
  m s = Fault → (m ≫= f) s = Fault.
Proof. unfold mbind, M_bind. by intros ->. Qed.

Lemma lift_Ok {S A} (r : res A) (a : A) (s s' : S) :
  lift r s = Ok (a, s') ↔ r = Ok a ∧ s' = s.
Proof. unfold lift. destruct r; naive_solver. Qed.

Lemma wp_ret {S A} (a : A) (Q : A → S → Prop) s : Q a s → wp (mret a) Q s.
Proof. done. Qed.

Lemma wp_bind {S A B} (m : M S A) (f : A → M S B) Q s :
  wp m (λ a s', wp (f a) Q s') s → wp (m ≫= f) Q s.
Proof. unfold wp, mbind, M_bind. by destruct (m s) as [[a s']| |]. Qed.

Lemma wp_mono {S A} (m : M S A) (P Q : A → S → Prop) s :
  wp m P s → (∀ a s', P a s' → Q a s') → wp m Q s.
Proof. unfold wp. destruct (m s) as [[a s']| |]; naive_solver. Qed.

Lemma wp_and {S A} (m : M S A) (P Q : A → S → Prop) s :
  wp m P s → wp m Q s → wp m (λ a s', P a s' ∧ Q a s') s.
Proof. unfold wp. by destruct (m s) as [[a s']| |]. Qed.

Lemma wp_Ok {S A} (m : M S A) Q s :
  wp m Q s ↔ ∃ a s', m s = Ok (a, s') ∧ Q a s'.
Proof. unfold wp. destruct (m s) as [[a s']| |]; naive_solver. Qed.

Lemma wp_get {S} (Q : S → S → Prop) s : Q s s → wp get Q s.
Proof. done. Qed.
Lemma wp_gets {S A} (f : S → A) Q (s : S) : Q (f s) s → wp (gets f) Q s.
Proof. done. Qed.
Lemma wp_put {S} (s0 : S) (Q : unit → S → Prop) s : Q tt s0 → wp (put s0) Q s.
Proof. done. Qed.
Lemma wp_modify {S} f (Q : unit → S → Prop) s : Q tt (f s) → wp (modify f) Q s.
Proof. done. Qed.
Lemma wp_lift {S A} (r : res A) (a : A) Q (s : S) : r = Ok a → Q a s → wp (lift r) Q s.
Proof. by intros ->. Qed.

(** A loop by its invariant. *)
Lemma wp_for_up {S} (I : Z → S → Prop) n i body (Q : unit → S → Prop) s :
  I i s →
  (∀ k s, i ≤ k < i + Z.of_nat n → I k s → wp (body k) (λ _ s', I (k + 1) s') s) →
  (∀ s, I (i + Z.of_nat n) s → Q tt s) →
  wp (for_up n i body) Q s.
Proof.
  revert i s. induction n as [|n IH]; intros i s Hi Hb HQ; cbn [for_up].
  - apply HQ. by rewrite Z.add_0_r.
  - apply wp_bind. eapply wp_mono; [apply Hb; [lia|done]|]. intros [] s' Hs'. apply IH; [done| |].
    + intros k s1 Hk. apply Hb. lia.
    + intros s1. replace (i + 1 + Z.of_nat n) with (i + Z.of_nat (Datatypes.S n)) by lia. apply HQ.
Qed.

Lemma wp_for_range {S} (I : Z → S → Prop) lo hi body (Q : unit → S → Prop) s :
  lo ≤ hi → I lo s →
  (∀ k s, lo ≤ k < hi → I k s → wp (body k) (λ _ s', I (k + 1) s') s) →
  (∀ s, I hi s → Q tt s) →
  wp (for_range lo hi body) Q s.
Proof.
  intros Hle Hi Hb HQ. apply (wp_for_up I); [done| |].
  - intros k s' Hk. apply Hb. lia.
  - intros s'. rewrite Z2Nat.id by lia. replace (lo + (hi - lo)) with hi by lia. apply HQ.
Qed.

#[export] Hint Resolve wp_ret wp_get wp_gets wp_put wp_modify : kum.

(** ** Machine integers *)

Lemma u8_range x : 0 ≤ u8 x < 256.
Proof. unfold u8. apply Z.mod_pos_bound. lia. Qed.
Lemma u16_range x : 0 ≤ u16 x < 65536.
Proof. unfold u16. apply Z.mod_pos_bound. lia. Qed.
Lemma u32_range x : 0 ≤ u32 x < 4294967296.
Proof. unfold u32. apply Z.mod_pos_bound. lia. Qed.
Lemma u8_small x : 0 ≤ x < 256 → u8 x = x.
Proof. intros. unfold u8. apply Z.mod_small. lia. Qed.
Lemma u16_small x : 0 ≤ x < 65536 → u16 x = x.
Proof. intros. unfold u16. apply Z.mod_small. lia. Qed.
Lemma u32_small x : 0 ≤ x < 4294967296 → u32 x = x.
Proof. intros. unfold u32. apply Z.mod_small. lia. Qed.
Lemma i32_small x : -2147483648 ≤ x < 2147483648 → i32 x = x.
Proof. intros. unfold i32. rewrite Z.mod_small; lia. Qed.

#[export] Hint Resolve u8_range u16_range u32_range : kum.

(** ** Arrays *)
Section arrays.
Context {A : Type}.
Implicit Types (l : list A) (x : A) (i j : Z).

Lemma arr_get_Ok l i x :
  arr_get l i = Ok x ↔ 0 ≤ i ∧ l !! Z.to_nat i = Some x.
Proof.
  unfold arr_get. destruct (Z.leb_spec 0 i); [|naive_solver lia].
  destruct (l !! Z.to_nat i); cbn; naive_solver.
Qed.

Lemma arr_get_in l i :
  0 ≤ i < Z.of_nat (length l) → ∃ x, arr_get l i = Ok x ∧ l !! Z.to_nat i = Some x.
Proof.
  intros Hi. destruct (lookup_lt_is_Some_2 l (Z.to_nat i)) as [x Hx]; [lia|].
  exists x. split; [|done]. apply arr_get_Ok. split; [lia|done].
Qed.

Lemma arr_get_nat l (n : nat) x : l !! n = Some x → arr_get l (Z.of_nat n) = Ok x.
Proof. intros. apply arr_get_Ok. rewrite Nat2Z.id. split; [lia|done]. Qed.

Lemma arr_set_in l i x :
  0 ≤ i < Z.of_nat (length l) → arr_set l i x = Ok (<[Z.to_nat i := x]> l).
Proof.
  intros. unfold arr_set.
  rewrite (proj2 (Z.leb_le _ _)), (proj2 (Z.ltb_lt _ _)) by lia. done.
Qed.

Lemma arr_set_Ok l i x l' :
  arr_set l i x = Ok l' ↔
  0 ≤ i < Z.of_nat (length l) ∧ l' = <[Z.to_nat i := x]> l.
Proof.
  unfold arr_set. destruct (Z.leb_spec 0 i), (Z.ltb_spec i (Z.of_nat (length l)));
    cbn; naive_solver lia.
Qed.

Lemma arr_get_set_eq l i x l' : arr_set l i x = Ok l' → arr_get l' i = Ok x.
Proof.
  intros [? ->]%arr_set_Ok. apply arr_get_Ok. split; [lia|].
  apply list_lookup_insert_eq. lia.
Qed.

Lemma arr_get_set_ne l i j x l' :
  arr_set l i x = Ok l' → i ≠ j → arr_get l' j = arr_get l j.
Proof.
  intros [? ->]%arr_set_Ok ?. unfold arr_get. destruct (Z.leb_spec 0 j); [|done].
  rewrite list_lookup_insert_ne; [done|lia].
Qed.

(** ** First-match scans *)

Lemma find_idx_Some (f : A → bool) l n :
  find_idx f l = Some n ↔
  (∃ x, l !! n = Some x ∧ f x = true) ∧
  ∀ m y, (m < n)%nat → l !! m = Some y → f y = false.
Proof.
  revert n. induction l as [|x l IH]; intros n; cbn; [naive_solver|].
  destruct (f x) eqn:Ex.
  - split.
    + intros [= <-]. split; [by exists x|]. intros; lia.
    + intros [_ H]. destruct n as [|n]; [done|].
      rewrite (H 0%nat x) in Ex; [done|lia|done].
  - rewrite fmap_Some. split.
    + intros (k & [Hk Hlt]%IH & ->). split; [done|].
      intros [|m] y ? Hy; cbn in Hy; [naive_solver|]. eapply Hlt; [|done]. lia.
    + intros [(z & Hz & Hf) Hlt]. destruct n as [|n]; cbn in Hz; [congruence|].
      exists n. split; [|done]. apply IH. split; [naive_solver|].
      intros m y ? Hy. apply (Hlt (S m) y); [lia|done].
Qed.

Lemma find_idx_None (f : A → bool) l :
  find_idx f l = None ↔ ∀ x, x ∈ l → f x = false.
Proof.
  induction l as [|x l IH]; cbn; [set_solver|].
  destruct (f x) eqn:Ex.
  - split; [done|]. intros H. rewrite H in Ex; [done|]. set_solver.
  - rewrite fmap_None, IH. set_solver.
Qed.

Lemma find_idx_lt (f : A → bool) l n : find_idx f l = Some n → (n < length l)%nat.
Proof. intros [(x & ?%lookup_lt_Some & _) _]%find_idx_Some. done. Qed.

Lemma find_idx_lookup (f : A → bool) l n :
  find_idx f l = Some n → ∃ x, l !! n = Some x ∧ f x = true.
Proof. by intros [? _]%find_idx_Some. Qed.

Lemma find_idx_is_Some (f : A → bool) l x :
  x ∈ l → f x = true → is_Some (find_idx f l).
Proof.
  intros Hx Hf. destruct (find_idx f l) eqn:E; [done|].
  rewrite find_idx_None in E. rewrite E in Hf; done.
Qed.

End arrays.

(** ** Transition sequences *)

(** An invariant of every step is an invariant of every run. *)
Lemma star_invariant {A} (R : A → A → Prop) (P : A → Prop) a b :
  (∀ x y, P x → R x y → P y) → P a → star R a b → P b.
Proof. intros Hstep Ha. induction 1; eauto. Qed.

Lemma star_trans {A} (R : A → A → Prop) a b c :
  star R a b → star R b c → star R a c.
Proof. intros Hab. induction 1; eauto using star. Qed.

#[export] Hint Constructors star : kum.

(** ** Masks and flags *)

Lemma land_low n x : 0 ≤ n → Z.land x (2 ^ n - 1) = x mod 2 ^ n.
Proof. intros. rewrite <- Z.land_ones, Z.ones_equiv by lia. done. Qed.

Lemma land_high n x : 0 ≤ n → Z.land x (Z.lnot (2 ^ n - 1)) = x - x mod 2 ^ n.
Proof.
  intros. rewrite <- Z.ldiff_land. replace (2 ^ n - 1) with (Z.ones n) by (rewrite Z.ones_equiv; lia).
  rewrite Z.ldiff_ones_r, Z.shiftl_mul_pow2, Z.shiftr_div_pow2 by lia.
  pose proof (Z.div_mod x (2 ^ n)). lia.
Qed.

Lemma lor_aligned n x y : 0 ≤ n → (2 ^ n | x) → 0 ≤ y < 2 ^ n → Z.lor x y = x + y.
Proof.
  intros Hn [q ->] Hy.
  assert (Z.land (q * 2 ^ n) y = 0) as Hz.
  { apply Z.bits_inj'. intros i Hi. rewrite Z.land_spec, Z.bits_0.
    destruct (Z.lt_ge_cases i n) as [Hlt|Hge].
    - by rewrite Z.mul_pow2_bits_low by lia.
    - assert (Z.testbit y i = false) as ->; [|apply andb_false_r].
      apply Z.testbit_false; [lia|]. rewrite Z.div_small; [done|].
      pose proof (Z.pow_le_mono_r 2 n i). lia. }
  rewrite <- Z.lxor_lor, Z.add_nocarry_lxor by done. done.
Qed.

(** [e & (1 << k)] as a condition. *)
Lemma flag_test e k : 0 ≤ k → negb (Z.land e (2 ^ k) =? 0) = Z.testbit e k.
Proof.
  intros Hk. destruct (Z.testbit e k) eqn:E.
  - destruct (Z.eqb_spec (Z.land e (2 ^ k)) 0) as [Hz|]; [|done].
    apply (f_equal (λ z, Z.testbit z k)) in Hz.
    rewrite Z.land_spec, E, Z.pow2_bits_true, Z.bits_0 in Hz by lia. done.
  - apply negb_false_iff, Z.eqb_eq, Z.bits_inj'. intros i Hi.
    rewrite Z.land_spec, Z.bits_0, Z.pow2_bits_eqb by lia.
    destruct (Z.eqb_spec k i) as [->|]; [by rewrite E|apply andb_false_r].
Qed.

Lemma aligned_sub_mod n x : 0 ≤ n → (2 ^ n | x - x mod 2 ^ n).
Proof.
  intros. exists (x / 2 ^ n). pose proof (Z.div_mod x (2 ^ n)). lia.
Qed.

Lemma aligned_add_mod n x y : 0 ≤ n → (2 ^ n | x) → 0 ≤ y < 2 ^ n → (x + y) mod 2 ^ n = y.
Proof.
  intros Hn [q ->] Hy. rewrite Z.add_comm, Z_mod_plus_full. by apply Z.mod_small.
Qed.

(** ** Counting *)

Fixpoint countb {A} (f : A → bool) (l : list A) : Z :=
  match l with
  | [] => 0
  | x :: l' => (if f x then 1 else 0) + countb f l'
  end.

Section counting.
Context {A : Type}.
Implicit Types (f g : A → bool) (l : list A).

Lemma countb_bounds f l : 0 ≤ countb f l ≤ Z.of_nat (length l).
Proof. induction l as [|x l IH]; cbn [countb length]; [lia|]. destruct (f x); lia. Qed.

Lemma countb_app f l l' : countb f (l ++ l') = countb f l + countb f l'.
Proof. induction l as [|x l IH]; cbn; [done|]. rewrite IH. lia. Qed.

Lemma countb_ext f g l : (∀ x, x ∈ l → f x = g x) → countb f l = countb g l.
Proof.
  induction l as [|x l IH]; intros Hext; cbn; [done|].
  rewrite (Hext x), IH; [done| |]; set_solver.
Qed.

Lemma countb_pos f l : 0 < countb f l → ∃ x, x ∈ l ∧ f x = true.
Proof.
  induction l as [|x l IH]; cbn; [lia|]. destruct (f x) eqn:E.
  - intros _. exists x. split; [by left|done].
  - intros Hc. destruct IH as (y & Hy & Hf); [lia|]. exists y. split; [by right|done].
Qed.

(** Clearing the test at one element of a list without duplicates. *)
Lemma countb_clear f g l a :
  NoDup l → a ∈ l → f a = true → g a = false → (∀ x, x ∈ l → x ≠ a → f x = g x) →
  countb f l = countb g l + 1.
Proof.
  induction l as [|x l IH]; intros Hnd Ha Hf Hg Hext; [by apply not_elem_of_nil in Ha|].
  apply NoDup_cons in Hnd as [Hx Hnd]. cbn.
  apply elem_of_cons in Ha as [->|Ha].
  - rewrite Hf, Hg, (countb_ext f g l); [lia|].
    intros y Hy. apply Hext; [by right|]. by intros ->.
  - assert (x ≠ a) as Hne by (by intros ->).
    rewrite (IH Hnd Ha Hf Hg), (Hext x) by (done || set_solver). destruct (g x); lia.
Qed.
End counting.

Lemma countb_insert {A} (p : A → bool) l i x y :
  l !! i = Some x → countb p (<[i := y]> l) = countb p l - Z.b2z (p x) + Z.b2z (p y).
Proof.
  revert i. induction l as [|z l IH]; intros [|i] Hi; cbn in Hi; simplify_eq.
  - cbn. destruct (p x), (p y); cbn; lia.
  - change (<[S i := y]> (z :: l)) with (z :: <[i := y]> l). cbn [countb]. rewrite (IH i Hi). lia.
Qed.
