(* ===== verification/Ports.v ===== *)
(** * Input/output ports

    Devices are reached with the IN and OUT instructions. A device, or the bus with
    all of them, is a type [D]; what an access does to it is a parameter. Each driver
    has its own [inb] and [outb] over its own state. *)

From S2P Require Import Prelude.

(** One-byte port accesses. *)
Class Ports (D : Type) := {
  port_read : Z → D → Z * D;
  port_write : Z → Z → D → D
}.

(** Two-byte port accesses. *)
Class Ports16 (D : Type) := {
  port_readw : Z → D → Z * D;
  port_writew : Z → Z → D → D
}.
