(* ===== verification/KString.v ===== *)
(** * The kernel string library (src/src/kstring.c)

    A [char *] argument is the list of bytes from the pointer to the end of the
    object it points into, so [s++] is the tail of the list and a read or write
    past the end of the object is a [Fault].  Functions that write through a
    destination pointer return the destination object after the call.  Counters
    that index one object do not wrap: an object is smaller than the 32-bit
    address space. *)

From Stdlib Require Ascii String.
From S2P Require Import Prelude.
Export String.StringSyntax.

(** String literals as byte lists; [lit] has the terminating NUL. *)
Fixpoint str (s : String.string) : list Z :=
  match s with
  | String.EmptyString => []
  | String.String c s' => Z.of_N (Ascii.N_of_ascii c) :: str s'
  end.
Definition lit (s : String.string) : list Z := str s ++ [0].
Arguments str _%_string_scope : simpl never.
Arguments lit _%_string_scope : simpl never.

Fixpoint kstrlen (s : list Z) : res Z :=
  match s with
  | [] => Fault
  | c :: s' => if c =? 0 then Ok 0 else n ← kstrlen s'; Ok (n + 1)
  end.

Fixpoint kstrcmp (a b : list Z) : res Z :=
  match a, b with
  | x :: a', y :: b' =>
      if negb (x =? 0) && (x =? y) then kstrcmp a' b' else Ok (x - y)
  | _, _ => Fault
  end.

Fixpoint kstrncmp (a b : list Z) (n : nat) {struct n} : res Z :=
  match n with
  | O => Ok 0
  | S n' =>
      match a, b with
      | x :: a', y :: b' =>
          if negb (x =? 0) && (x =? y) then kstrncmp a' b' n' else Ok (x - y)
      | _, _ => Fault
      end
  end.

Fixpoint kstrcpy (dst src : list Z) {struct src} : res (list Z) :=
  match src, dst with
  | c :: src', _ :: dst' =>
      if c =? 0 then Ok (0 :: dst')
      else d ← kstrcpy dst' src'; Ok (c :: d)
  | _, _ => Fault
  end.

Fixpoint kmemset (s : list Z) (c : Z) (n : nat) {struct n} : res (list Z) :=
  match n with
  | O => Ok s
  | S n' =>
      match s with
      | [] => Fault
      | _ :: s' => r ← kmemset s' c n'; Ok (u8 c :: r)
      end
  end.

Fixpoint kmemcpy (dst src : list Z) (n : nat) {struct n} : res (list Z) :=
  match n with
  | O => Ok dst
  | S n' =>
      match dst, src with
      | _ :: dst', c :: src' => r ← kmemcpy dst' src' n'; Ok (c :: r)
      | _, _ => Fault
      end
  end.

(** The second loop of [kstrncpy] zero-fills what the first one left. *)
Fixpoint kstrncpy (dst src : list Z) (n : nat) {struct n} : res (list Z) :=
  match n with
  | O => Ok dst
  | S n' =>
      match src with
      | [] => Fault
      | c :: src' =>
          if c =? 0 then kmemset dst 0 n
          else match dst with
               | [] => Fault
               | _ :: dst' => d ← kstrncpy dst' src' n'; Ok (c :: d)
               end
      end
  end.

Fixpoint kstrcat (dst src : list Z) : res (list Z) :=
  match dst with
  | [] => Fault
  | d :: dst' =>
      if d =? 0 then kstrcpy dst src
      else r ← kstrcat dst' src; Ok (d :: r)
  end.

Fixpoint kstartswith (s prefix : list Z) : res Z :=
  match prefix with
  | [] => Fault
  | p :: prefix' =>
      if p =? 0 then Ok 1
      else match s with
           | [] => Fault
           | c :: s' => if c =? p then kstartswith s' prefix' else Ok 0
           end
  end.

Definition digits : list Z := lit "0123456789ABCDEF".

(** [tmp] has room for 33 characters: [cap] of them are left. *)
Fixpoint kitoa_loop (cap : nat) (val base : Z) (tmp : list Z) : res (list Z) :=
  if val =? 0 then Ok tmp
  else match cap with
       | O => Fault
       | S cap' =>
           if base =? 0 then Fault
           else d ← arr_get digits (val mod base);
                kitoa_loop cap' (val / base) base (tmp ++ [d])
       end.

Definition kitoa (val : Z) (buf : list Z) (base : Z) : res (list Z) :=
  if val =? 0 then b ← arr_set buf 0 48; arr_set b 1 0
  else
    tmp ← kitoa_loop 33 val (u32 base) [];
    b ← kmemcpy buf (rev tmp) (length tmp);
    arr_set b (Z.of_nat (length tmp)) 0.

(** Pointer results are offsets into the argument; [None] is NULL. *)
Fixpoint kstrchr (s : list Z) (c : Z) : res (option Z) :=
  match s with
  | [] => Fault
  | x :: s' =>
      if x =? 0 then Ok (if c =? 0 then Some 0 else None)
      else if x =? u8 c then Ok (Some 0)
      else r ← kstrchr s' c; Ok (option_map (λ k, k + 1) r)
  end.

Fixpoint kstrrchr_loop (s : list Z) (c pos : Z) (last : option Z) : res (option Z) :=
  match s with
  | [] => Fault
  | x :: s' =>
      if x =? 0 then Ok last
      else kstrrchr_loop s' c (pos + 1) (if x =? u8 c then Some pos else last)
  end.
Definition kstrrchr (s : list Z) (c : Z) : res (option Z) := kstrrchr_loop s c 0 None.

(** [room] is what [i < n-1] leaves of the loop; the result is the destination
    and the number of characters copied. *)
Fixpoint kstrncpy_safe_loop (dst src : list Z) (room : nat) : res (list Z * Z) :=
  match dst with
  | [] => Fault
  | _ :: dst' =>
      match room with
      | O => Ok (0 :: dst', 0)
      | S room' =>
          match src with
          | [] => Fault
          | c :: src' =>
              if c =? 0 then Ok (0 :: dst', 0)
              else '(d, i) ← kstrncpy_safe_loop dst' src' room'; Ok (c :: d, i + 1)
          end
      end
  end.
Definition kstrncpy_safe (dst src : list Z) (n : Z) : res (list Z * Z) :=
  kstrncpy_safe_loop dst src (Z.to_nat (u32 (n - 1))).

(** ** Abstraction: the C string held by an object *)

Definition nonzero (s : list Z) : Prop := Forall (λ c, c ≠ 0) s.

(** [cstr buf s]: the object [buf] holds the NUL-terminated string [s]. *)
Definition cstr (buf s : list Z) : Prop := ∃ rest, buf = s ++ 0 :: rest ∧ nonzero s.

(** The string an object holds, up to its first NUL (or to its end). *)
Fixpoint cstring (buf : list Z) : list Z :=
  match buf with
  | [] => []
  | c :: buf' => if c =? 0 then [] else c :: cstring buf'
  end.

(** Byte strings in lexicographic order. *)
Fixpoint lex (s t : list Z) : comparison :=
  match s, t with
  | [], [] => Eq
  | [], _ => Lt
  | _, [] => Gt
  | x :: s', y :: t' => match x ?= y with Eq => lex s' t' | c => c end
  end.

(** The number a digit string denotes. *)
Definition digit_value (c : Z) : Z := if c <? 65 then c - 48 else c - 55.
Definition num_value (base : Z) (s : list Z) : Z :=
  foldl (λ acc c, acc * base + digit_value c) 0 s.
#[global] Arguments num_value base s : simpl never.

(** ** Lemmas *)

Lemma cstr_cons c buf s : c ≠ 0 → cstr (c :: buf) (c :: s) ↔ cstr buf s.
Proof.
  intros Hc. unfold cstr, nonzero. split.
  - intros (r & [= ->] & [_ ?]%Forall_cons). eauto.
  - intros (r & -> & ?). exists r. split; [done|]. by constructor.
Qed.

Lemma cstr_inv buf s :
  cstr buf s →
  (∃ rest, s = [] ∧ buf = 0 :: rest) ∨
  (∃ c buf' s', s = c :: s' ∧ buf = c :: buf' ∧ c ≠ 0 ∧ cstr buf' s').
Proof.
  intros (r & -> & Hs). destruct s as [|c s]; [left; eauto|right].
  apply Forall_cons in Hs as [? ?]. exists c, (s ++ 0 :: r), s.
  repeat split; [done|]. exists r. done.
Qed.

Lemma cstr_cstring buf s : cstr buf s → cstring buf = s.
Proof.
  intros (r & -> & Hs). induction Hs as [|c s Hc Hs IH]; cbn; [done|].
  apply Z.eqb_neq in Hc. by rewrite Hc, IH.
Qed.

Lemma cstr_lit s : nonzero (str s) → cstr (lit s) (str s).
Proof. intros. by exists []. Qed.

Lemma cstr_arg n : nonzero n → cstr (n ++ [0]) n.
Proof. intros. by exists []. Qed.

Lemma cstr_length buf s : cstr buf s → (length s < length buf)%nat.
Proof. intros (r & -> & _). rewrite length_app. cbn. lia. Qed.

Lemma cstr_nonzero buf s : cstr buf s → nonzero s.
Proof. by intros (r & _ & ?). Qed.

Lemma cstr_app_r buf s t : cstr buf s → cstr (buf ++ t) s.
Proof. intros (r & -> & ?). exists (r ++ t). by rewrite <- app_assoc. Qed.

(** Case analysis on a string held by an object. *)
Ltac cstr_cases H :=
  apply cstr_inv in H as [(?rest & ? & ?)|(?c & ?buf & ?s & ? & ? & ? & H)]; simplify_eq.

Lemma kstrlen_cstr buf s : cstr buf s → kstrlen buf = Ok (Z.of_nat (length s)).
Proof.
  revert buf. induction s as [|c s IH]; intros buf H.
  - by cstr_cases H.
  - cstr_cases H. cbn.
    rewrite (proj2 (Z.eqb_neq _ _)) by done. rewrite (IH buf0) by done. cbn. f_equal. lia.
Qed.

Lemma lex_eq s t : lex s t = Eq ↔ s = t.
Proof.
  revert t. induction s as [|x s IH]; intros [|y t]; cbn; try done.
  destruct (x ?= y) eqn:E.
  - apply Z.compare_eq in E as ->. rewrite (IH t). naive_solver.
  - split; [done|]. intros [= -> ->]. by rewrite Z.compare_refl in E.
  - split; [done|]. intros [= -> ->]. by rewrite Z.compare_refl in E.
Qed.

(** [kstrcmp] orders strings lexicographically by unsigned byte. *)
Lemma kstrcmp_lex a b s t :
  cstr a s → cstr b t → bytes s → bytes t →
  ∃ d, kstrcmp a b = Ok d ∧ (d ?= 0) = lex s t.
Proof.
  revert a b t. induction s as [|x s IH]; intros a b t Ha Hb Hs Ht.
  - cstr_cases Ha. cstr_cases Hb; cbn; [eauto|].
    eexists. split; [done|]. apply Forall_cons in Ht as [[? ?] _]. apply Z.compare_lt_iff. lia.
  - cstr_cases Ha.
    apply Forall_cons in Hs as [[? ?] Hs]. cstr_cases Hb; cbn.
    + rewrite (proj2 (Z.eqb_neq c 0)) by done. eexists. split; [done|].
      apply Z.compare_gt_iff. lia.
    + apply Forall_cons in Ht as [[? ?] Ht].
      rewrite (proj2 (Z.eqb_neq c 0)) by done. cbn.
      destruct (Z.eqb_spec c c0) as [->|Hne].
      * rewrite Z.compare_refl. eauto.
      * eexists. split; [done|].
        destruct (Z.compare_spec c c0); [done| |].
        -- apply Z.compare_lt_iff. lia.
        -- apply Z.compare_gt_iff. lia.
Qed.

Lemma kstrcmp_eq0 a b s t :
  cstr a s → cstr b t → ∃ d, kstrcmp a b = Ok d ∧ (d = 0 ↔ s = t).
Proof.
  revert a b t. induction s as [|x s IH]; intros a b t Ha Hb.
  - cstr_cases Ha. cstr_cases Hb; cbn; eexists;
      (split; [done|]); [done|]. split; [lia|done].
  - cstr_cases Ha. cstr_cases Hb; cbn;
      rewrite (proj2 (Z.eqb_neq c 0)) by done; cbn.
    + eexists. split; [done|]. split; [lia|done].
    + destruct (Z.eqb_spec c c0) as [->|Hne].
      * destruct (IH _ _ _ Ha Hb) as (d & -> & Hd). exists d. rewrite Hd. naive_solver.
      * eexists. split; [done|]. split; [lia|]. intros [= ? ?]. done.
Qed.

(** Boolean form used by the callers that test [kstrcmp(a, b) == 0]. *)
Lemma kstrcmp_test a b s t :
  cstr a s → cstr b t →
  ∃ d, kstrcmp a b = Ok d ∧ (d =? 0) = bool_decide (s = t).
Proof.
  intros Ha Hb. destruct (kstrcmp_eq0 a b s t Ha Hb) as (d & Hd & Hiff).
  exists d. split; [done|]. destruct (Z.eqb_spec d 0), (bool_decide_reflect (s = t)); naive_solver.
Qed.

(** The strings are compared on their first [n] characters. *)
Lemma kstrncmp_eq0 a b s t n :
  cstr a s → cstr b t → ∃ d, kstrncmp a b n = Ok d ∧ (d = 0 ↔ take n s = take n t).
Proof.
  revert a b s t. induction n as [|n IH]; intros a b s t Ha Hb; cbn.
  { exists 0. rewrite !take_0. done. }
  cstr_cases Ha; cstr_cases Hb; cbn; rewrite ?(proj2 (Z.eqb_neq c 0)) by done; cbn.
  - exists 0. done.
  - eexists. split; [done|]. split; [lia|done].
  - eexists. split; [done|]. split; [lia|done].
  - destruct (Z.eqb_spec c c0) as [->|Hne].
    + destruct (IH _ _ _ _ Ha Hb) as (d & -> & Hd). exists d. split; [done|]. cbn. rewrite Hd. split; [congruence|by intros [= ?]].
    + eexists. split; [done|]. split; [lia|]. intros [= ? ?]. done.
Qed.

(** [kstrncmp] reads no byte past the first difference, so the second object
    may be shorter than [n] when the first string differs before its end. *)
Lemma kstrncmp_same a b n :
  (n ≤ length a)%nat → take n a = take n b → kstrncmp a b n = Ok 0.
Proof.
  revert a b. induction n as [|n IH]; intros a b Hl E; [done|].
  destruct a as [|x a]; cbn in Hl; [lia|]. destruct b as [|y b]; [done|].
  cbn in E. injection E as -> E. cbn. rewrite Z.eqb_refl.
  destruct (Z.eqb_spec y 0); cbn; [f_equal; lia|]. apply IH; [lia|done].
Qed.

Lemma kstrncmp_total a b n :
  (n ≤ length a)%nat → (n ≤ length b)%nat → ∃ d, kstrncmp a b n = Ok d.
Proof.
  revert a b. induction n as [|n IH]; intros a b Ha Hb; [by exists 0|].
  destruct a as [|x a], b as [|y b]; cbn in Ha, Hb; try lia. cbn.
  case_if; [apply IH; lia|by eexists].
Qed.

Lemma kstrncmp_prefix a b s t n :
  cstr a s → cstr b t → n = length t →
  ∃ d, kstrncmp a b n = Ok d ∧ (d = 0 ↔ t `prefix_of` s).
Proof.
  intros Ha Hb ->. destruct (kstrncmp_eq0 a b s t (length t) Ha Hb) as (d & Hd & Hiff).
  exists d. split; [done|]. rewrite Hiff, firstn_all. split.
  - intros <-. exists (drop (length t) s). by rewrite take_drop.
  - intros [k ->]. by rewrite take_app_length.
Qed.

Lemma kstrcpy_cstr dst src s :
  cstr src s → (length s < length dst)%nat →
  kstrcpy dst src = Ok (s ++ 0 :: drop (S (length s)) dst).
Proof.
  revert dst src. induction s as [|x s IH]; intros dst src H Hlen;
    (destruct dst as [|y dst]; [cbn in Hlen; lia|]); cstr_cases H; cbn.
  - done.
  - rewrite (proj2 (Z.eqb_neq _ _)) by done. rewrite (IH dst) by (done || (cbn in Hlen; lia)).
    done.
Qed.

(** A destination with no room for the terminator is overrun. *)
Lemma kstrcpy_overrun dst src s :
  cstr src s → (length dst ≤ length s)%nat → kstrcpy dst src = Fault.
Proof.
  revert dst src. induction s as [|x s IH]; intros dst src H Hlen;
    cstr_cases H; cbn.
  - destruct dst; [done|cbn in Hlen; lia].
  - destruct dst as [|y dst]; [done|]. rewrite (proj2 (Z.eqb_neq _ _)) by done.
    rewrite (IH dst) by (done || (cbn in Hlen; lia)). done.
Qed.

Lemma kstrcpy_roundtrip dst src s :
  cstr src s → (length s < length dst)%nat →
  ∃ dst', kstrcpy dst src = Ok dst' ∧ cstr dst' s ∧ length dst' = length dst.
Proof.
  intros Hs Hlen. eexists. split; [by apply kstrcpy_cstr|]. split.
  - eexists. split; [done|]. by eapply cstr_nonzero.
  - rewrite length_app. cbn. rewrite length_drop. lia.
Qed.

Lemma kstrcat_cstr dst src s t :
  cstr dst s → cstr src t → (length s + length t < length dst)%nat →
  ∃ dst', kstrcat dst src = Ok dst' ∧ cstr dst' (s ++ t) ∧ length dst' = length dst.
Proof.
  revert dst. induction s as [|c s IH]; intros dst Hd Hs Hlen.
  - cstr_cases Hd. cbn [kstrcat].
    rewrite Z.eqb_refl. by apply kstrcpy_roundtrip.
  - cstr_cases Hd. cbn [kstrcat].
    rewrite (proj2 (Z.eqb_neq _ _)) by done. cbn in Hlen.
    destruct (IH buf Hd Hs) as (d & -> & Hd' & Hl); [lia|].
    eexists. split; [done|]. cbn. split; [by apply cstr_cons|lia].
Qed.

Lemma kmemset_fill s c n :
  (n ≤ length s)%nat → kmemset s c n = Ok (replicate n (u8 c) ++ drop n s).
Proof.
  revert s. induction n as [|n IH]; intros s Hn; cbn; [by destruct s|].
  destruct s as [|x s]; cbn in *; [lia|]. rewrite IH by lia. done.
Qed.

Lemma kmemcpy_copy dst src n :
  (n ≤ length dst)%nat → (n ≤ length src)%nat →
  kmemcpy dst src n = Ok (take n src ++ drop n dst).
Proof.
  revert dst src. induction n as [|n IH]; intros dst src Hd Hs; cbn; [by destruct dst|].
  destruct dst as [|x dst]; cbn in *; [lia|]. destruct src as [|y src]; cbn in *; [lia|].
  rewrite IH by lia. done.
Qed.

Lemma kmemcpy_overrun dst src n :
  (length dst < n ∨ length src < n)%nat → kmemcpy dst src n = Fault.
Proof.
  revert dst src. induction n as [|n IH]; intros dst src H; cbn; [lia|].
  destruct dst as [|x dst], src as [|y src]; cbn in *; try done. rewrite IH by lia. done.
Qed.

Lemma kstrncpy_cstr dst src s n :
  cstr src s → (n ≤ length dst)%nat →
  kstrncpy dst src n =
    Ok (take n s ++ replicate (n - length s) 0 ++ drop n dst).
Proof.
  revert dst src s. induction n as [|n IH]; intros dst src s H Hn; cbn.
  { rewrite take_0. by destruct dst. }
  cstr_cases H; cbn [Z.eqb].
  - change (kmemset dst 0 (S n) = Ok ([] ++ replicate (S n) 0 ++ drop (S n) dst)).
    rewrite kmemset_fill by done. done.
  - rewrite (proj2 (Z.eqb_neq _ _)) by done.
    destruct dst as [|y dst]; cbn in *; [lia|]. rewrite (IH dst buf s0) by (done || lia). done.
Qed.

Lemma digits_get k :
  0 ≤ k < 16 → ∃ d, arr_get digits k = Ok d ∧ digit_value d = k ∧ d ≠ 0.
Proof.
  intros Hk.
  assert (k ∈ seqZ 0 16) as Hin by (apply elem_of_seqZ; lia).
  clear Hk; revert k Hin. apply Forall_forall.
  repeat (constructor; [eexists; split; [vm_compute; reflexivity|by vm_compute]|]). constructor.
Qed.

Lemma num_value_snoc base s d : num_value base (s ++ [d]) = num_value base s * base + digit_value d.
Proof. unfold num_value. by rewrite foldl_app. Qed.

(** The loop produces the digits of [val], least significant first, in at most
    [cap] steps. *)
Lemma kitoa_loop_digits cap val base tmp :
  2 ≤ base ≤ 16 → 0 ≤ val < base ^ Z.of_nat cap →
  ∃ ds, kitoa_loop cap val base tmp = Ok (tmp ++ ds) ∧ nonzero ds ∧
        (length ds ≤ cap)%nat ∧ num_value base (rev ds) = val ∧
        (0 < val → ∃ d, last ds = Some d ∧ digit_value d ≠ 0).
Proof.
  intros Hb. revert val tmp. induction cap as [|cap IH]; intros val tmp Hv.
  - assert (val = 0) as -> by (change (base ^ Z.of_nat 0) with 1 in Hv; lia).
    exists []. cbn. rewrite app_nil_r. repeat split; [constructor|lia|lia].
  - cbn. destruct (Z.eqb_spec val 0) as [->|Hne].
    { exists []. rewrite app_nil_r. repeat split; [constructor|cbn; lia|lia]. }
    rewrite (proj2 (Z.eqb_neq base 0)) by lia.
    pose proof (Z.mod_pos_bound val base ltac:(lia)).
    destruct (digits_get (val mod base)) as (d & -> & Hd & Hd0); [lia|]. cbn.
    destruct (IH (val / base) (tmp ++ [d])) as (ds & Hl & Hnz & Hlen & Hnum & Hlast).
    { rewrite Nat2Z.inj_succ, Z.pow_succ_r in Hv by lia.
      split; [apply Z.div_pos; lia|]. apply Z.div_lt_upper_bound; lia. }
    exists (d :: ds). rewrite Hl, <- app_assoc. cbn [rev app length].
    rewrite num_value_snoc, Hnum, Hd. repeat split.
    + by constructor.
    + lia.
    + rewrite (Z.div_mod val base) at 3 by lia. lia.
    + intros _. destruct (decide (0 < val / base)) as [Hp|Hz].
      * destruct (Hlast Hp) as (d' & Hd' & ?). exists d'. split; [|done].
        destruct ds; [done|]. cbn. done.
      * assert (val / base = 0) as Hz' by (pose proof (Z.div_pos val base); lia).
        rewrite Hz' in Hl. destruct cap; cbn in Hl; injection Hl as Hl;
          rewrite <- (app_nil_r (tmp ++ [d])) in Hl at 1;
          apply app_inv_head in Hl as <-; exists d; (split; [done|]);
          rewrite Hd; intros Hm; rewrite (Z.div_mod val base) in Hne by lia; lia.
Qed.

Lemma nonzero_rev s : nonzero s → nonzero (rev s).
Proof. unfold nonzero. rewrite !List.Forall_forall. intros H x Hx%in_rev. eauto. Qed.

Lemma u32_pow_bound base : 2 ≤ base → 4294967296 ≤ base ^ Z.of_nat 33.
Proof.
  intros. etransitivity; [|apply (Z.pow_le_mono_l 2); lia]. cbn. lia.
Qed.

(** More room does not change the digits. *)
Lemma kitoa_loop_room cap k val base tmp r : kitoa_loop cap val base tmp = Ok r → (cap ≤ k)%nat → kitoa_loop k val base tmp = Ok r.
Proof.
  revert k val tmp. induction cap as [|cap IH]; intros k val tmp; destruct k as [|k]; cbn [kitoa_loop]; destruct (val =? 0); try done; intros Hr Hk; [lia|].
  destruct (base =? 0); [done|]. destruct (arr_get digits (val mod base)); [|done..]. cbn [mbind res_bind] in *. apply IH; [done|lia].
Qed.

(** [kitoa] writes the canonical numeral of [val] in bases 2 to 16: [k] digits and the
    terminator have to fit. *)
Lemma kitoa_digits k val buf base :
  2 ≤ base ≤ 16 → 0 ≤ val < base ^ Z.of_nat k → (1 ≤ k ≤ 33)%nat → (k < length buf)%nat →
  ∃ buf' s, kitoa val buf base = Ok buf' ∧ cstr buf' s ∧ length buf' = length buf ∧
            num_value base s = val ∧ (length s ≤ k)%nat ∧
            (0 < val → ∃ d, head s = Some d ∧ digit_value d ≠ 0).
Proof.
  intros Hb Hv Hk Hlen. unfold kitoa. destruct (Z.eqb_spec val 0) as [->|Hne].
  { destruct buf as [|x [|y buf]]; cbn in Hlen; [lia..|].
    rewrite arr_set_in by (cbn [length]; lia). change (<[Z.to_nat 0:=48]> (x :: y :: buf)) with (48 :: y :: buf).
    cbn [mbind res_bind]. rewrite arr_set_in by (cbn [length]; lia).
    exists (48 :: 0 :: buf), [48]. split; [done|].
    split; [by exists buf; split; [done|repeat constructor]|].
    repeat split; cbn; lia. }
  rewrite (u32_small base) by lia.
  destruct (kitoa_loop_digits k val base []) as (ds & Eds & Hnz & Hl & Hnum & Hlast); [lia|lia|].
  rewrite (kitoa_loop_room _ 33 _ _ _ _ Eds) by lia. cbn.
  rewrite kmemcpy_copy by (rewrite ?length_rev; lia). cbn.
  rewrite (take_ge (rev ds)) by (rewrite length_rev; lia).
  destruct (drop (length ds) buf) as [|x rest] eqn:E.
  { apply (f_equal length) in E. rewrite length_drop in E. cbn in E. lia. }
  rewrite arr_set_in by (rewrite length_app, length_rev; cbn; lia).
  rewrite Nat2Z.id, insert_app_r_alt, length_rev, Nat.sub_diag by (rewrite length_rev; lia).
  exists (rev ds ++ 0 :: rest), (rev ds). repeat split.
  - exists rest. split; [done|]. by apply nonzero_rev.
  - apply (f_equal length) in E. rewrite length_drop in E. rewrite length_app, length_rev.
    cbn in *. lia.
  - done.
  - rewrite length_rev. lia.
  - intros Hp. destruct (Hlast Hp) as (d & Hd & ?). exists d. split; [|done].
    revert Hd. clear. destruct ds as [|a ds] using rev_ind; [done|].
    rewrite last_snoc, rev_app_distr. done.
Qed.
Lemma kitoa_numeral val buf base :
  2 ≤ base ≤ 16 → 0 ≤ val < 4294967296 → (34 ≤ length buf)%nat →
  ∃ buf' s, kitoa val buf base = Ok buf' ∧ cstr buf' s ∧ length buf' = length buf ∧
            num_value base s = val ∧ (length s ≤ 33)%nat ∧
            (0 < val → ∃ d, head s = Some d ∧ digit_value d ≠ 0).
Proof. intros. pose proof (u32_pow_bound base). apply kitoa_digits; lia. Qed.

Lemma kstrchr_first s t c :
  cstr s t → 0 < c < 128 →
  kstrchr s c = Ok (Z.of_nat <$> find_idx (λ x, x =? c) t).
Proof.
  intros Hs Hc. revert s Hs. induction t as [|x t IH]; intros s Hs; cstr_cases Hs; cbn.
  - rewrite (proj2 (Z.eqb_neq c 0)) by lia. done.
  - rewrite (proj2 (Z.eqb_neq _ 0)) by done. rewrite u8_small by lia.
    destruct (Z.eqb_spec c0 c); [done|]. rewrite IH by done. cbn.
    destruct (find_idx _ s0); cbn; [|done]. do 2 f_equal. lia.
Qed.

(** [kstrncpy_safe] truncates to [n-1] characters and always terminates. *)
Lemma kstrncpy_safe_cstr dst src s n :
  cstr src s → 1 ≤ n ≤ Z.of_nat (length dst) → Z.of_nat (length dst) < 4294967296 →
  ∃ dst', kstrncpy_safe dst src n = Ok (dst', Z.min (n - 1) (Z.of_nat (length s))) ∧
          cstr dst' (take (Z.to_nat (n - 1)) s) ∧ length dst' = length dst.
Proof.
  intros Hs Hn Hd. unfold kstrncpy_safe. rewrite u32_small by lia.
  assert (n = Z.of_nat (Z.to_nat (n - 1)) + 1) as Hn' by lia.
  revert Hn Hn'. generalize (Z.to_nat (n - 1)) as r. intros r Hn Hn'.
  assert (r < length dst)%nat as Hr by lia. replace (n - 1) with (Z.of_nat r) by lia.
  clear n Hn Hn'. revert dst src s Hs Hd Hr.
  induction r as [|r IH]; intros dst src s Hs Hd Hr; (destruct dst as [|y dst]; cbn in Hr; [lia|]).
  - exists (0 :: dst). cbn. rewrite take_0. repeat split; [f_equal; f_equal; lia|].
    by exists dst; split; [|constructor].
  - cbn [kstrncpy_safe_loop]. cstr_cases Hs.
    + exists (0 :: dst). cbn. split; [f_equal; f_equal; lia|]. split; [|done].
      by exists dst; split; [|constructor].
    + rewrite (proj2 (Z.eqb_neq _ _)) by done.
      destruct (IH dst buf s0) as (d & -> & Hd' & Hl); [done|cbn in Hd; lia|lia|].
      cbn. eexists. split; [f_equal; f_equal; lia|]. split; [by apply cstr_cons|cbn; lia].
Qed.

(** ** Literals, by evaluation *)
Lemma nonzero_test s : forallb (λ c, negb (c =? 0)) s = true → nonzero s.
Proof.
  intros Hs. apply Forall_forall. intros c Hc. rewrite forallb_forall in Hs. specialize (Hs c).
  rewrite <- list_elem_of_In in Hs. specialize (Hs Hc). by bool_hyps.
Qed.
Lemma bytes_test s : forallb (λ c, (0 <=? c) && (c <? 256)) s = true → bytes s.
Proof.
  intros Hs. apply Forall_forall. intros c Hc. rewrite forallb_forall in Hs. specialize (Hs c).
  rewrite <- list_elem_of_In in Hs. specialize (Hs Hc). bool_hyps. unfold is_byte. lia.
Qed.
Lemma lit_test s : forallb (λ c, negb (c =? 0)) (str s) = true → cstr (lit s) (str s).
Proof. intros. by apply cstr_lit, nonzero_test. Qed.
