(* ===== verification/Bytes.v ===== *)
(** * Byte objects and byte order

    Packet headers and on-disk structures are packed structs laid over byte arrays.
    A field access is a little-endian load or store at an offset ([ld16], [st16], ...);
    [put_at] and [get_at] fault outside the object, as array accesses do.  The laws
    below say what a store leaves behind and how the byte-swapping macros of
    src/src/net.h turn little-endian stores into network order. *)

From S2P Require Import Prelude KString.

(** Overwrite the first bytes of an object. *)
Fixpoint overwrite (bs buf : list Z) : res (list Z) :=
  match bs, buf with
  | [], _ => Ok buf
  | b :: bs', _ :: buf' => r ← overwrite bs' buf'; Ok (b :: r)
  | _ :: _, [] => Fault
  end.

(** Store [bs] at offset [n]. *)
Fixpoint put_at (n : nat) (bs buf : list Z) : res (list Z) :=
  match n with
  | O => overwrite bs buf
  | S n' =>
      match buf with
      | [] => Fault
      | x :: buf' => r ← put_at n' bs buf'; Ok (x :: r)
      end
  end.

(** The object from offset [n] on: [p + n] of a pointer to its start. *)
Definition from (n : Z) (buf : list Z) : res (list Z) :=
  if (0 <=? n) && (n <=? Z.of_nat (length buf)) then Ok (drop (Z.to_nat n) buf) else Fault.

(** [n] bytes at offset [off]. *)
Definition get_at (off n : Z) (buf : list Z) : res (list Z) :=
  if (0 <=? off) && (off + n <=? Z.of_nat (length buf))
  then Ok (take (Z.to_nat n) (drop (Z.to_nat off) buf)) else Fault.

Definition is_u16 (x : Z) : Prop := 0 ≤ x < 65536.
Definition is_u32 (x : Z) : Prop := 0 ≤ x < 4294967296.

Definition le16 (v : Z) : list Z := [v mod 256; v / 256 mod 256].
Definition le32 (v : Z) : list Z := [v mod 256; v / 256 mod 256; v / 65536 mod 256; v / 16777216 mod 256].
Definition be16 (v : Z) : list Z := [v / 256 mod 256; v mod 256].
Definition be32 (v : Z) : list Z := [v / 16777216 mod 256; v / 65536 mod 256; v / 256 mod 256; v mod 256].

Definition st8 (off : nat) (v : Z) (buf : list Z) : res (list Z) := put_at off [u8 v] buf.
Definition st16 (off : nat) (v : Z) (buf : list Z) : res (list Z) := put_at off (le16 v) buf.
Definition st32 (off : nat) (v : Z) (buf : list Z) : res (list Z) := put_at off (le32 v) buf.

Definition ld8 (off : Z) (buf : list Z) : res Z := arr_get buf off.
Definition ld16 (off : Z) (buf : list Z) : res Z :=
  a ← arr_get buf off; b ← arr_get buf (off + 1); Ok (a + 256 * b).
Definition ld32 (off : Z) (buf : list Z) : res Z :=
  a ← ld16 off buf; b ← ld16 (off + 2) buf; Ok (a + 65536 * b).

(** [kmemcpy(buf + off, src, n)] and [kmemset(buf + off, c, n)]. *)
Definition memcpy_at (off : nat) (src : list Z) (n : nat) (buf : list Z) : res (list Z) :=
  d ← kmemcpy (drop off buf) src n; Ok (take off buf ++ d).
Definition memset_at (off : nat) (c : Z) (n : nat) (buf : list Z) : res (list Z) :=
  d ← kmemset (drop off buf) c n; Ok (take off buf ++ d).

(** ** Byte order (src/src/net.h) *)
Definition NET_HTONS (x : Z) : Z := u16 (Z.lor (Z.shiftr x 8) (Z.shiftl x 8)).
Definition NET_HTONL (x : Z) : Z :=
  Z.lor (Z.lor (Z.lor (Z.shiftr x 24) (Z.land (Z.shiftr x 8) 0xFF00))
               (Z.land (u32 (Z.shiftl x 8)) 0xFF0000))
        (u32 (Z.shiftl x 24)).

(** ** Laws *)

Lemma overwrite_app bs buf rest :
  length bs = length buf → overwrite bs (buf ++ rest) = Ok (bs ++ rest).
Proof.
  revert buf. induction bs as [|b bs IH]; intros [|x buf]; cbn; try done.
  intros [= E]. by rewrite (IH buf E).
Qed.

Lemma put_at_app n bs pre old post :
  length pre = n → length old = length bs →
  put_at n bs (pre ++ old ++ post) = Ok (pre ++ bs ++ post).
Proof.
  revert pre. induction n as [|n IH]; intros [|x pre]; cbn; try done.
  - intros _ E. by apply overwrite_app.
  - intros [= E] Eo. by rewrite (IH pre E Eo).
Qed.

Lemma get_at_app off n pre bs post :
  Z.of_nat (length pre) = off → Z.of_nat (length bs) = n →
  get_at off n (pre ++ bs ++ post) = Ok bs.
Proof.
  intros <- <-. unfold get_at. rewrite !length_app.
  rewrite (proj2 (Z.leb_le _ _)), (proj2 (Z.leb_le _ _)) by lia. cbn.
  rewrite !Nat2Z.id, drop_app_length, take_app_length. done.
Qed.

Lemma memcpy_at_app off src n pre old post d :
  length pre = off → length old = n → take n src = d → length d = n →
  memcpy_at off src n (pre ++ old ++ post) = Ok (pre ++ d ++ post).
Proof.
  intros <- <- <- Hd. rewrite length_take in Hd. unfold memcpy_at. rewrite drop_app_length, take_app_length.
  rewrite kmemcpy_copy by (rewrite ?length_app; lia). cbn. by rewrite drop_app_length.
Qed.

Lemma le16_ld v : 0 ≤ v < 65536 → v mod 256 + 256 * (v / 256 mod 256) = v.
Proof. intros. rewrite (Z.mod_small (v / 256)) by (split; [apply Z.div_pos|apply Z.div_lt_upper_bound]; lia).
  pose proof (Z.div_mod v 256). lia. Qed.

Lemma div_256_2 v : v / 65536 = v / 256 / 256.
Proof. rewrite Z.div_div by lia. done. Qed.
Lemma div_256_3 v : v / 16777216 = v / 256 / 256 / 256.
Proof. rewrite !Z.div_div by lia. done. Qed.

(** The bytes of a 32-bit word. *)
Lemma word_bytes v :
  0 ≤ v < 4294967296 →
  v mod 256 + 256 * (v / 256 mod 256) + 65536 * (v / 65536 mod 256 + 256 * (v / 16777216 mod 256)) = v.
Proof.
  intros Hv. rewrite div_256_3, div_256_2.
  pose proof (Z.div_mod v 256). pose proof (Z.div_mod (v / 256) 256). pose proof (Z.div_mod (v / 256 / 256) 256).
  pose proof (Z.mod_pos_bound v 256). pose proof (Z.mod_pos_bound (v / 256) 256). pose proof (Z.mod_pos_bound (v / 256 / 256) 256).
  rewrite (Z.mod_small (v / 256 / 256 / 256)) by lia. lia.
Qed.

(** Combining bytes with shifts and [|]. *)
Lemma lor_bytes a b n : 0 ≤ n → 0 ≤ a < 2 ^ n → Z.lor a (Z.shiftl b n) = a + 2 ^ n * b.
Proof.
  intros. rewrite Z.lor_comm, Z.shiftl_mul_pow2 by done. rewrite (lor_aligned n); [lia|done|by exists b|done].
Qed.

Lemma NET_HTONS_swap a b : is_byte a → is_byte b → NET_HTONS (a + 256 * b) = b + 256 * a.
Proof.
  unfold is_byte, NET_HTONS. intros Ha Hb.
  rewrite Z.shiftr_div_pow2 by lia. change (2 ^ 8) with 256.
  replace ((a + 256 * b) / 256) with b by (apply (Z.div_unique _ 256 b a); lia).
  rewrite lor_bytes by lia. unfold u16.
  change (2 ^ 8) with 256. change (2 ^ 16) with 65536.
  replace (b + 256 * (a + 256 * b)) with (b + 256 * a + b * 65536) by lia.
  rewrite Z_mod_plus_full. apply Z.mod_small. lia.
Qed.

(** Masking out one byte. *)
Lemma land_byte n x : 0 ≤ n → Z.land x (Z.shiftl 255 n) = (x / 2 ^ n mod 256) * 2 ^ n.
Proof.
  intros Hn. apply Z.bits_inj'. intros i Hi. rewrite Z.land_spec, Z.shiftl_spec by done.
  change 255 with (Z.ones 8). change 256 with (2 ^ 8).
  destruct (Z.lt_ge_cases i n) as [Hlt|Hge].
  - rewrite Z.mul_pow2_bits_low by lia. rewrite (Z.testbit_neg_r _ (i - n)) by lia. by rewrite andb_false_r.
  - rewrite Z.mul_pow2_bits by lia. rewrite Z.testbit_mod_pow2 by lia.
    rewrite Z.testbit_ones by lia. rewrite <- Z.shiftr_div_pow2, Z.shiftr_spec by lia.
    replace (i - n + n) with i by lia. rewrite (proj2 (Z.leb_le 0 _)) by lia. cbn. apply andb_comm.
Qed.

Lemma NET_HTONL_swap a b c d :
  is_byte a → is_byte b → is_byte c → is_byte d →
  NET_HTONL (a + 256 * b + 65536 * (c + 256 * d)) = d + 256 * c + 65536 * (b + 256 * a).
Proof.
  unfold is_byte, NET_HTONL. intros Ha Hb Hc Hd. set (x := a + _ + _).
  change 0xFF00 with (Z.shiftl 255 8). change 0xFF0000 with (Z.shiftl 255 16).
  rewrite !land_byte by lia. rewrite !Z.shiftr_div_pow2, !Z.shiftl_mul_pow2 by lia.
  change (2 ^ 8) with 256. change (2 ^ 16) with 65536. change (2 ^ 24) with 16777216.
  assert (x / 16777216 = d) as -> by (symmetry; apply (Z.div_unique _ _ d (x - d * 16777216)); lia).
  assert (x / 256 / 256 mod 256 = c) as ->.
  { rewrite Z.div_div by lia. replace (x / (256 * 256)) with (c + d * 256)
      by (apply (Z.div_unique _ _ _ (a + 256 * b)); lia). rewrite Z_mod_plus_full. apply Z.mod_small. lia. }
  assert (u32 (x * 256) / 65536 mod 256 = b) as ->.
  { unfold u32. change (2 ^ 32) with 4294967296.
    replace ((x * 256) mod 4294967296) with (a * 256 + b * 65536 + c * 16777216)
      by (apply (Z.mod_unique _ _ d); lia).
    replace ((a * 256 + b * 65536 + c * 16777216) / 65536) with (b + c * 256)
      by (apply (Z.div_unique _ _ _ (a * 256)); lia). rewrite Z_mod_plus_full. apply Z.mod_small. lia. }
  assert (u32 (x * 16777216) = a * 16777216) as ->.
  { unfold u32. symmetry. apply (Z.mod_unique _ _ (b + 256 * (c + 256 * d))); lia. }
  rewrite (Z.lor_comm d), (lor_aligned 8 (c * 256)) by (try lia; by exists c).
  rewrite (Z.lor_comm (c * 256 + d)), (lor_aligned 16 (b * 65536)) by (try lia; by exists b).
  rewrite Z.lor_comm, (lor_aligned 24 (a * 16777216)) by (try lia; by exists a). lia.
Qed.

Lemma mod_byte v : is_byte (v mod 256).
Proof. unfold is_byte. apply Z.mod_pos_bound. lia. Qed.
#[export] Hint Resolve mod_byte : kum.

Lemma byte_decomp16 a b : is_byte a → is_byte b → le16 (a + 256 * b) = [a; b].
Proof.
  unfold is_byte, le16. intros Ha Hb.
  replace ((a + 256 * b) / 256) with b by (apply (Z.div_unique _ 256 b a); lia).
  replace (a + 256 * b) with (a + b * 256) by lia.
  by rewrite Z_mod_plus_full, !Z.mod_small by lia.
Qed.

Lemma byte_decomp32 a b c d :
  is_byte a → is_byte b → is_byte c → is_byte d →
  le32 (a + 256 * b + 65536 * (c + 256 * d)) = [a; b; c; d].
Proof.
  unfold is_byte, le32. intros Ha Hb Hc Hd. rewrite div_256_3, div_256_2.
  set (x := a + _ + _).
  replace (x / 256) with (b + (c + d * 256) * 256) by (apply (Z.div_unique _ _ _ a); lia).
  replace ((b + (c + d * 256) * 256) / 256) with (c + d * 256) by (apply (Z.div_unique _ _ _ b); lia).
  replace ((c + d * 256) / 256) with d by (apply (Z.div_unique _ _ _ c); lia).
  replace x with (a + (b + (c + d * 256) * 256) * 256) by lia.
  by rewrite !Z_mod_plus_full, !Z.mod_small by lia.
Qed.

(** A byte-swapped value stored little-endian is in network order. *)
Lemma le16_htons v : 0 ≤ v < 65536 → le16 (NET_HTONS v) = be16 v.
Proof.
  intros Hv. rewrite <- (le16_ld v Hv) at 1.
  rewrite NET_HTONS_swap by apply mod_byte. by rewrite byte_decomp16 by apply mod_byte.
Qed.
Lemma le32_htonl v : 0 ≤ v < 4294967296 → le32 (NET_HTONL v) = be32 v.
Proof.
  intros Hv. rewrite <- (word_bytes v Hv) at 1.
  rewrite NET_HTONL_swap by apply mod_byte. by rewrite byte_decomp32 by apply mod_byte.
Qed.

(** Loading it little-endian and swapping gives it back. *)
Lemma htons_be16 v : 0 ≤ v < 65536 → NET_HTONS (v / 256 mod 256 + 256 * (v mod 256)) = v.
Proof. intros Hv. rewrite NET_HTONS_swap by apply mod_byte. by apply le16_ld. Qed.
Lemma htonl_be32 v :
  0 ≤ v < 4294967296 →
  NET_HTONL (v / 16777216 mod 256 + 256 * (v / 65536 mod 256) + 65536 * (v / 256 mod 256 + 256 * (v mod 256))) = v.
Proof. intros Hv. rewrite NET_HTONL_swap by apply mod_byte. by apply word_bytes. Qed.

Lemma NET_HTONL_range v : 0 ≤ v < 4294967296 → 0 ≤ NET_HTONL v < 4294967296.
Proof.
  intros Hv. rewrite <- (word_bytes v Hv), NET_HTONL_swap by apply mod_byte.
  pose proof (mod_byte v). pose proof (mod_byte (v / 256)). pose proof (mod_byte (v / 65536)).
  pose proof (mod_byte (v / 16777216)). unfold is_byte in *. lia.
Qed.
Lemma NET_HTONL_involutive v : 0 ≤ v < 4294967296 → NET_HTONL (NET_HTONL v) = v.
Proof.
  intros Hv. rewrite <- (word_bytes v Hv) at 1. rewrite NET_HTONL_swap by apply mod_byte. by apply htonl_be32.
Qed.
