(* ===== verification/Ring.v ===== *)
(** * Ring buffers

    The kernel keeps bytes and frames in power-of-two or fixed-size ring buffers
    addressed by a [head] (next free cell) and a [tail] (oldest cell): the pipe
    buffer, the keyboard queue, the receive buffer of a TCP socket, the UDP
    receive ring.  One cell stays free, so [head = tail] means empty.  This file
    gives the list such a ring stands for and the laws of push and pop that the
    components share. *)

From S2P Require Import Prelude.

Section ring.
Context {A : Type} `{!Inhabited A}.
Implicit Types (buf : list A) (N h t : Z).

Definition ring_count (N h t : Z) : Z := (h - t) mod N.

(** The queued elements, oldest first. *)
Definition ring_list (N : Z) (buf : list A) (h t : Z) : list A :=
  (λ k, buf !!! Z.to_nat ((t + k) mod N)) <$> seqZ 0 (ring_count N h t).

Definition ring_wf (N : Z) (buf : list A) (h t : Z) : Prop :=
  1 < N ∧ Z.of_nat (length buf) = N ∧ 0 ≤ h < N ∧ 0 ≤ t < N.

Lemma ring_count_range N h t : 0 < N → 0 ≤ ring_count N h t < N.
Proof. intros. by apply Z.mod_pos_bound. Qed.

Lemma ring_count_cases N h t :
  0 ≤ h < N → 0 ≤ t < N →
  ring_count N h t = if h <? t then h - t + N else h - t.
Proof.
  intros Hh Ht. unfold ring_count. case_z.
  - rewrite <- (Z.mod_small (h - t + N) N) by lia.
    rewrite <- (Z_mod_plus_full (h - t) 1 N). f_equal. lia.
  - apply Z.mod_small. lia.
Qed.

Lemma succ_mod_cases N h : 0 ≤ h < N → (h + 1) mod N = if h =? N - 1 then 0 else h + 1.
Proof.
  intros Hh. case_z; subst.
  - replace (N - 1 + 1) with N by lia. apply Z.mod_same. lia.
  - apply Z.mod_small. lia.
Qed.

Lemma ring_succ_range N h : 0 < N → 0 ≤ (h + 1) mod N < N.
Proof. intros. by apply Z.mod_pos_bound. Qed.

Lemma ring_count_push N h t :
  0 ≤ h < N → 0 ≤ t < N → ring_count N h t < N - 1 →
  ring_count N ((h + 1) mod N) t = ring_count N h t + 1.
Proof.
  intros Hh Ht. pose proof (ring_succ_range N h ltac:(lia)).
  rewrite !ring_count_cases by lia. rewrite succ_mod_cases by lia.
  repeat case_z; lia.
Qed.

Lemma ring_count_pop N h t :
  0 ≤ h < N → 0 ≤ t < N → h ≠ t →
  ring_count N h ((t + 1) mod N) = ring_count N h t - 1.
Proof.
  intros Hh Ht Hne. pose proof (ring_succ_range N t ltac:(lia)).
  rewrite !ring_count_cases by lia. rewrite succ_mod_cases by lia.
  repeat case_z; lia.
Qed.

Lemma ring_count_0 N h t : 0 ≤ h < N → 0 ≤ t < N → ring_count N h t = 0 ↔ h = t.
Proof. intros. rewrite ring_count_cases by lia. case_z; lia. Qed.

Lemma ring_list_length N buf h t :
  0 < N → Z.of_nat (length (ring_list N buf h t)) = ring_count N h t.
Proof.
  intros HN. unfold ring_list. rewrite length_fmap, length_seqZ.
  pose proof (ring_count_range N h t HN). lia.
Qed.

Lemma ring_list_empty N buf t : ring_list N buf t t = [].
Proof. unfold ring_list, ring_count. by rewrite Z.sub_diag, Zmod_0_l. Qed.

(** The cell an index of the queue lives in. *)
Lemma ring_cell N h t k :
  0 ≤ h < N → 0 ≤ t < N → 0 ≤ k < ring_count N h t → (t + k) mod N ≠ h.
Proof.
  intros Hh Ht. rewrite ring_count_cases by lia. intros Hk Heq.
  assert ((t + k) mod N = if t + k <? N then t + k else t + k - N) as Hm.
  { case_z; [apply Z.mod_small; revert Hk; case_z; lia|].
    rewrite <- (Z.mod_small (t + k - N) N) by (revert Hk; case_z; lia).
    rewrite <- (Z_mod_plus_full (t + k - N) 1 N). f_equal. lia. }
  rewrite Hm in Heq. revert Heq Hk. repeat case_z; lia.
Qed.

Lemma ring_head_cell N h t :
  0 ≤ h < N → 0 ≤ t < N → (t + ring_count N h t) mod N = h.
Proof.
  intros Hh Ht. unfold ring_count. rewrite Zplus_mod_idemp_r.
  rewrite <- (Z.mod_small h N) at 2 by lia. f_equal. lia.
Qed.

(** Storing at [head] leaves the queued elements as they are. *)
Lemma ring_list_store N buf h t b :
  ring_wf N buf h t → ring_list N (<[Z.to_nat h := b]> buf) h t = ring_list N buf h t.
Proof.
  intros (HN & Hl & Hh & Ht). unfold ring_list. apply list_fmap_ext.
  intros i k Hk. apply lookup_seqZ in Hk as [-> Hk].
  pose proof (ring_cell N h t (0 + Z.of_nat i) Hh Ht ltac:(lia)).
  pose proof (Z.mod_pos_bound (t + (0 + Z.of_nat i)) N ltac:(lia)).
  rewrite list_lookup_total_insert_ne; [done|lia].
Qed.

(** Advancing [head] over a stored cell queues its element. *)
Lemma ring_list_advance N buf h t :
  ring_wf N buf h t → ring_count N h t < N - 1 →
  ring_list N buf ((h + 1) mod N) t = ring_list N buf h t ++ [buf !!! Z.to_nat h].
Proof.
  intros (HN & Hl & Hh & Ht) Hc. unfold ring_list at 1.
  rewrite ring_count_push by lia. pose proof (ring_count_range N h t ltac:(lia)).
  rewrite seqZ_app, fmap_app by lia. rewrite (seqZ_cons _ 1) by lia. change (Z.pred 1) with 0. cbn [fmap list_fmap].
  rewrite Z.add_0_l, ring_head_cell by lia. done.
Qed.

Lemma ring_push N buf h t b :
  ring_wf N buf h t → ring_count N h t < N - 1 →
  ring_list N (<[Z.to_nat h := b]> buf) ((h + 1) mod N) t = ring_list N buf h t ++ [b].
Proof.
  intros Hwf Hc. pose proof Hwf as (HN & Hl & Hh & Ht).
  rewrite ring_list_advance; [|by repeat split; rewrite ?length_insert; lia|done].
  rewrite ring_list_store by done. rewrite list_lookup_total_insert_eq by lia. done.
Qed.

Lemma ring_pop N buf h t :
  ring_wf N buf h t → h ≠ t →
  ring_list N buf h t = (buf !!! Z.to_nat t) :: ring_list N buf h ((t + 1) mod N).
Proof.
  intros (HN & Hl & Hh & Ht) Hne. unfold ring_list at 1.
  pose proof (ring_count_range N h t ltac:(lia)).
  pose proof (proj1 (ring_count_0 N h t Hh Ht)).
  rewrite seqZ_cons by lia. cbn. rewrite Z.add_0_r, (Z.mod_small t) by lia. f_equal.
  unfold ring_list. rewrite ring_count_pop by lia.
  apply list_eq. intros i. rewrite !list_lookup_fmap. unfold Z.pred, Z.succ.
  destruct (decide (Z.of_nat i < ring_count N h t - 1)) as [Hi|Hi].
  - rewrite !lookup_seqZ_lt by lia. cbn. do 2 f_equal.
    rewrite Zplus_mod_idemp_l. do 2 f_equal. lia.
  - rewrite !lookup_seqZ_ge by lia. done.
Qed.

Lemma ring_wf_push N buf h t b :
  ring_wf N buf h t → ring_wf N (<[Z.to_nat h := b]> buf) ((h + 1) mod N) t.
Proof.
  intros (HN & Hl & Hh & Ht). pose proof (ring_succ_range N h ltac:(lia)).
  repeat split; rewrite ?length_insert; lia.
Qed.

Lemma ring_wf_pop N buf h t : ring_wf N buf h t → ring_wf N buf h ((t + 1) mod N).
Proof.
  intros (HN & Hl & Hh & Ht). pose proof (ring_succ_range N t ltac:(lia)).
  repeat split; lia.
Qed.

End ring.

(** [(head - tail + N) % N] computed on [uint32_t], for [N] a power of two. *)
Lemma ring_count_u32 k h t :
  0 ≤ k ≤ 32 → u32 (u32 (h - t) + 2 ^ k) mod 2 ^ k = ring_count (2 ^ k) h t.
Proof.
  intros Hk. unfold u32, ring_count.
  rewrite Zplus_mod_idemp_l.
  rewrite Z.mod_mod_divide.
  - rewrite <- (Z_mod_plus_full (h - t) 1). f_equal. lia.
  - exists (2 ^ (32 - k)). rewrite <- Z.pow_add_r by lia. f_equal. lia.
Qed.

#[export] Hint Resolve ring_wf_push ring_wf_pop ring_succ_range : kum.
