(* ===== verification/Pipe.v ===== *)
(** * Kernel pipes (src/src/pipe.c)

    The static table [pipes] is a list of [pipe_t]; a [pipe_t *] is the index of
    its slot, so every access goes through the table and sees what other tasks
    did to it.  [sched_yield] lets other tasks run: the blocking operations take
    what those tasks do to the table as a parameter [sched_yield].  The second
    part models one writer and one reader that are preempted between any two
    accesses to the shared ring. *)

From S2P Require Import Prelude Ring.

Definition PIPE_BUF_SIZE : Z := 4096.
Definition PIPE_MAX : Z := 16.

Record pipe_t := mkPipe {
  p_buf : list Z;
  p_head : Z;
  p_tail : Z;
  p_writers : Z;
  p_readers : Z;
  p_used : Z
}.

Definition pipe_zero : pipe_t := mkPipe (replicate 4096 0) 0 0 0 0 0.

Definition set_buf (p : pipe_t) (b : list Z) (h : Z) : pipe_t :=
  mkPipe b h (p_tail p) (p_writers p) (p_readers p) (p_used p).
Definition set_tail (p : pipe_t) (t : Z) : pipe_t :=
  mkPipe (p_buf p) (p_head p) t (p_writers p) (p_readers p) (p_used p).
Definition set_writers (p : pipe_t) (n : Z) : pipe_t :=
  mkPipe (p_buf p) (p_head p) (p_tail p) n (p_readers p) (p_used p).
Definition set_readers (p : pipe_t) (n : Z) : pipe_t :=
  mkPipe (p_buf p) (p_head p) (p_tail p) (p_writers p) n (p_used p).
Definition set_used (p : pipe_t) (n : Z) : pipe_t :=
  mkPipe (p_buf p) (p_head p) (p_tail p) (p_writers p) (p_readers p) n.

Definition pipe_init : list pipe_t := replicate 16 pipe_zero.

(** The slot after the [kmemset] and the five assignments of [pipe_create]. *)
Definition pipe_new : pipe_t := mkPipe (replicate 4096 0) 0 0 1 1 1.
Arguments pipe_new : simpl never.

Definition pipe_create (pipes : list pipe_t) : Z * list pipe_t :=
  match find_idx (λ p, p_used p =? 0) pipes with
  | Some i =>
      (Z.of_nat i, <[i := pipe_new]> pipes)
  | None => (-1, pipes)
  end.

(** NULL ([None]) or the slot. *)
Definition pipe_get (id : Z) (pipes : list pipe_t) : option pipe_t :=
  if (id <? 0) || (PIPE_MAX <=? id) then None
  else match pipes !! Z.to_nat id with
       | Some p => if p_used p =? 0 then None else Some p
       | None => None
       end.

(** The common tail of the two close operations. *)
Definition pipe_release (p : pipe_t) : pipe_t :=
  if (p_readers p =? 0) && (p_writers p =? 0) then set_used p 0 else p.

Definition pipe_close_read (id : Z) (pipes : list pipe_t) : list pipe_t :=
  if (id <? 0) || (PIPE_MAX <=? id) then pipes
  else alter (λ p,
         let p1 := if 0 <? p_readers p then set_readers p (p_readers p - 1) else p in
         pipe_release p1) (Z.to_nat id) pipes.

Definition pipe_close_write (id : Z) (pipes : list pipe_t) : list pipe_t :=
  if (id <? 0) || (PIPE_MAX <=? id) then pipes
  else alter (λ p,
         let p1 := if 0 <? p_writers p then set_writers p (p_writers p - 1) else p in
         pipe_release p1) (Z.to_nat id) pipes.

Definition pipe_has_data (id : Z) (pipes : list pipe_t) : bool :=
  match pipe_get id pipes with
  | None => false
  | Some p => negb (p_head p =? p_tail p)
  end.

Definition pipe_avail (p : pipe_t) : Z :=
  u32 (u32 (p_head p - p_tail p) + PIPE_BUF_SIZE) mod PIPE_BUF_SIZE.
Definition pipe_free (p : pipe_t) : Z := u32 (PIPE_BUF_SIZE - 1 - pipe_avail p).

Section blocking.
Context (sched_yield : list pipe_t → list pipe_t).

(** The loop of [pipe_write]; one unit of fuel is one test of [written < len]
    or one yield. *)
Fixpoint pipe_write_loop (fuel : nat) (id : Z) (src : list Z) (len written : Z)
    (pipes : list pipe_t) : res (Z * list pipe_t) :=
  match fuel with
  | O => Timeout
  | S fuel' =>
      if written <? len then
        p ← arr_get pipes id;
        if pipe_free p =? 0 then
          if p_readers p =? 0 then Ok (i32 written, pipes)
          else pipe_write_loop fuel' id src len written (sched_yield pipes)
        else
          c ← arr_get src written;
          b ← arr_set (p_buf p) (p_head p) c;
          pipes' ← arr_set pipes id (set_buf p b (u32 (p_head p + 1) mod PIPE_BUF_SIZE));
          pipe_write_loop fuel' id src len (written + 1) pipes'
      else Ok (i32 written, pipes)
  end.

Definition pipe_write (fuel : nat) (id : Z) (src : list Z) (len : Z)
    (pipes : list pipe_t) : res (Z * list pipe_t) :=
  match pipe_get id pipes with
  | None => Ok (-1, pipes)
  | Some p =>
      if p_readers p =? 0 then Ok (-1, pipes)
      else pipe_write_loop fuel id src len 0 pipes
  end.

Fixpoint pipe_read_loop (fuel : nat) (id : Z) (dst : list Z) (len nread : Z)
    (pipes : list pipe_t) : res (Z * list Z * list pipe_t) :=
  match fuel with
  | O => Timeout
  | S fuel' =>
      if nread <? len then
        p ← arr_get pipes id;
        if p_head p =? p_tail p then
          if p_writers p =? 0 then Ok (i32 nread, dst, pipes)
          else pipe_read_loop fuel' id dst len nread (sched_yield pipes)
        else
          c ← arr_get (p_buf p) (p_tail p);
          dst' ← arr_set dst nread c;
          pipes' ← arr_set pipes id (set_tail p (u32 (p_tail p + 1) mod PIPE_BUF_SIZE));
          pipe_read_loop fuel' id dst' len (nread + 1) pipes'
      else Ok (i32 nread, dst, pipes)
  end.

Definition pipe_read (fuel : nat) (id : Z) (dst : list Z) (len : Z)
    (pipes : list pipe_t) : res (Z * list Z * list pipe_t) :=
  match pipe_get id pipes with
  | None => Ok (-1, dst, pipes)
  | Some _ => pipe_read_loop fuel id dst len 0 pipes
  end.

End blocking.

(** ** One writer and one reader, preempted between any two shared accesses

    [writer_pc] and [reader_pc] are the program points of the two loops.  A
    writer step is the test [pipe_free(p) == 0], the store [p->buf[p->head] =
    src[written++]], or the update of [p->head]; a reader step is the test
    [p->head == p->tail], the load [dst[nread++] = p->buf[p->tail]], or the
    update of [p->tail]. *)
Inductive writer_pc := WCheck | WStore | WAdvance.
Inductive reader_pc := RCheck | RLoad | RAdvance.

Record spsc := mkSpsc {
  s_pipe : pipe_t;
  s_wpc : writer_pc;
  s_rpc : reader_pc;
  s_src : list Z;       (** what the writer still has to send *)
  s_sent : list Z;      (** what the writer has stored, in order *)
  s_rcvd : list Z       (** what the reader has loaded, in order *)
}.

Inductive spsc_step : spsc → spsc → Prop :=
| W_check p r c src sent rcvd :
    pipe_free p ≠ 0 →
    spsc_step (mkSpsc p WCheck r (c :: src) sent rcvd)
              (mkSpsc p WStore r (c :: src) sent rcvd)
| W_store p r c src sent rcvd b :
    arr_set (p_buf p) (p_head p) c = Ok b →
    spsc_step (mkSpsc p WStore r (c :: src) sent rcvd)
              (mkSpsc (set_buf p b (p_head p)) WAdvance r src (sent ++ [c]) rcvd)
| W_advance p r src sent rcvd :
    spsc_step (mkSpsc p WAdvance r src sent rcvd)
              (mkSpsc (set_buf p (p_buf p) (u32 (p_head p + 1) mod PIPE_BUF_SIZE))
                      WCheck r src sent rcvd)
| R_check p w src sent rcvd :
    p_head p ≠ p_tail p →
    spsc_step (mkSpsc p w RCheck src sent rcvd)
              (mkSpsc p w RLoad src sent rcvd)
| R_load p w src sent rcvd c :
    arr_get (p_buf p) (p_tail p) = Ok c →
    spsc_step (mkSpsc p w RLoad src sent rcvd)
              (mkSpsc p w RAdvance src sent (rcvd ++ [c]))
| R_advance p w src sent rcvd :
    spsc_step (mkSpsc p w RAdvance src sent rcvd)
              (mkSpsc (set_tail p (u32 (p_tail p + 1) mod PIPE_BUF_SIZE))
                      w RCheck src sent rcvd).

(** ** Abstraction: the byte queue a pipe stands for *)

Definition pipe_wf (p : pipe_t) : Prop :=
  ring_wf PIPE_BUF_SIZE (p_buf p) (p_head p) (p_tail p).

Definition pipe_queue (p : pipe_t) : list Z :=
  ring_list PIPE_BUF_SIZE (p_buf p) (p_head p) (p_tail p).

(** Every slot of the table has a well-formed ring. *)
Definition pipes_wf (pipes : list pipe_t) : Prop :=
  length pipes = 16%nat ∧ Forall pipe_wf pipes.

Definition same_ends (p q : pipe_t) : Prop :=
  p_writers p = p_writers q ∧ p_readers p = p_readers q ∧ p_used p = p_used q.

(** ** Lemmas *)

Lemma same_ends_trans p q r : same_ends p q → same_ends q r → same_ends p r.
Proof. unfold same_ends. intros (-> & -> & ->) (-> & -> & ->). done. Qed.

Lemma pipe_succ h : 0 ≤ h < PIPE_BUF_SIZE →
  u32 (h + 1) mod PIPE_BUF_SIZE = (h + 1) mod PIPE_BUF_SIZE.
Proof. unfold PIPE_BUF_SIZE. intros. by rewrite u32_small by lia. Qed.

Lemma pipe_avail_queue p :
  pipe_wf p → pipe_avail p = Z.of_nat (length (pipe_queue p)).
Proof.
  intros _. unfold pipe_queue. rewrite ring_list_length by done.
  apply (ring_count_u32 12). lia.
Qed.

Lemma pipe_queue_bound p : pipe_wf p → (length (pipe_queue p) ≤ 4095)%nat.
Proof.
  intros _. pose proof (ring_list_length PIPE_BUF_SIZE (p_buf p) (p_head p) (p_tail p) eq_refl).
  pose proof (ring_count_range PIPE_BUF_SIZE (p_head p) (p_tail p) eq_refl).
  unfold pipe_queue. unfold PIPE_BUF_SIZE in *. lia.
Qed.

Lemma pipe_free_queue p :
  pipe_wf p → pipe_free p = 4095 - Z.of_nat (length (pipe_queue p)).
Proof.
  intros Hwf. pose proof (pipe_queue_bound p Hwf). unfold pipe_free.
  rewrite pipe_avail_queue by done. unfold PIPE_BUF_SIZE. apply u32_small. lia.
Qed.

Lemma pipe_count_queue p :
  pipe_wf p → ring_count PIPE_BUF_SIZE (p_head p) (p_tail p) = Z.of_nat (length (pipe_queue p)).
Proof. intros. unfold pipe_queue. by rewrite ring_list_length. Qed.

Lemma pipe_empty_queue p : pipe_wf p → (p_head p =? p_tail p) = bool_decide (pipe_queue p = []).
Proof.
  intros Hwf. pose proof (pipe_count_queue p Hwf) as Hc. pose proof Hwf as (_ & _ & Hh & Ht).
  pose proof (ring_count_0 _ _ _ Hh Ht) as H0.
  destruct (Z.eqb_spec (p_head p) (p_tail p)), (bool_decide_reflect (pipe_queue p = [])); try done.
  - destruct (pipe_queue p); [done|]. cbn in Hc. lia.
  - destruct (pipe_queue p); [|done]. cbn in Hc. lia.
Qed.

(** One byte written, one byte read. *)
Lemma pipe_push1 p c :
  pipe_wf p → pipe_free p ≠ 0 →
  let p' := set_buf p (<[Z.to_nat (p_head p) := c]> (p_buf p))
                    (u32 (p_head p + 1) mod PIPE_BUF_SIZE) in
  arr_set (p_buf p) (p_head p) c = Ok (<[Z.to_nat (p_head p) := c]> (p_buf p)) ∧
  pipe_wf p' ∧ pipe_queue p' = pipe_queue p ++ [c] ∧ same_ends p' p.
Proof.
  intros Hwf Hf p'. pose proof Hwf as (HN & Hl & Hh & Ht).
  pose proof (pipe_free_queue p Hwf). pose proof (pipe_queue_bound p Hwf).
  subst p'. rewrite pipe_succ by done. split; [by apply arr_set_in; rewrite Hl|].
  split; [by apply ring_wf_push|]. split; [|done].
  apply ring_push; [done|]. rewrite pipe_count_queue by done. unfold PIPE_BUF_SIZE. lia.
Qed.

Lemma pipe_pop1 p :
  pipe_wf p → p_head p ≠ p_tail p →
  let p' := set_tail p (u32 (p_tail p + 1) mod PIPE_BUF_SIZE) in
  ∃ c, arr_get (p_buf p) (p_tail p) = Ok c ∧ pipe_wf p' ∧
       pipe_queue p = c :: pipe_queue p' ∧ same_ends p' p.
Proof.
  intros Hwf Hne p'. pose proof Hwf as (HN & Hl & Hh & Ht). subst p'.
  rewrite pipe_succ by done.
  destruct (arr_get_in (p_buf p) (p_tail p)) as (c & Hc & Hc'); [lia|].
  exists c. split; [done|]. split; [by apply ring_wf_pop|]. split; [|done].
  unfold pipe_queue at 1. rewrite ring_pop by done. f_equal.
  by apply list_lookup_total_correct.
Qed.

Section blocking_lemmas.
Context (sched_yield : list pipe_t → list pipe_t).

Lemma pipe_write_loop_fits fuel id src len written pipes p :
  pipes !! Z.to_nat id = Some p → 0 ≤ id → pipe_wf p →
  0 ≤ written ≤ len → len ≤ Z.of_nat (length src) → len - written ≤ pipe_free p →
  (Z.to_nat (len - written) < fuel)%nat →
  ∃ p', pipe_write_loop sched_yield fuel id src len written pipes =
          Ok (i32 len, <[Z.to_nat id := p']> pipes) ∧
        pipe_wf p' ∧ same_ends p' p ∧
        pipe_queue p' = pipe_queue p ++
          take (Z.to_nat (len - written)) (drop (Z.to_nat written) src).
Proof.
  intros Hp Hid. revert fuel written pipes p Hp.
  induction fuel as [|fuel IH]; intros written pipes p Hp Hwf Hw Hlen Hfree Hfuel; [lia|].
  cbn. destruct (Z.ltb_spec written len) as [Hlt|Hge].
  - rewrite (proj2 (arr_get_Ok pipes id p)) by done. cbn.
    rewrite (proj2 (Z.eqb_neq (pipe_free p) 0)) by lia.
    destruct (arr_get_in src written) as (c & -> & Hc); [lia|]. cbn.
    destruct (pipe_push1 p c Hwf) as (-> & Hwf' & Hq & He); [lia|]. cbn.
    pose proof (lookup_lt_Some _ _ _ Hp).
    rewrite arr_set_in by lia. cbn.
    edestruct IH as (p' & -> & ? & ? & Hq'); [by apply list_lookup_insert_eq|exact Hwf'|lia|lia| |lia|].
    { pose proof (pipe_free_queue _ Hwf). rewrite pipe_free_queue by done.
      rewrite Hq, length_app. cbn. lia. }
    exists p'. rewrite list_insert_insert_eq. split; [done|]. split; [done|].
    split; [by eapply same_ends_trans|].
    rewrite Hq', Hq, <- app_assoc. cbn. f_equal.
    replace (Z.to_nat (len - written)) with (S (Z.to_nat (len - (written + 1)))) by lia.
    replace (Z.to_nat (written + 1)) with (S (Z.to_nat written)) by lia.
    by rewrite (drop_S _ c (Z.to_nat written)).
  - assert (written = len) as -> by lia. exists p.
    rewrite list_insert_id by done. rewrite Z.sub_diag. cbn. by rewrite app_nil_r.
Qed.

Lemma pipe_read_loop_takes fuel id dst len nread pipes p k :
  pipes !! Z.to_nat id = Some p → 0 ≤ id → pipe_wf p →
  0 ≤ nread ≤ len → len ≤ Z.of_nat (length dst) →
  k = Nat.min (Z.to_nat (len - nread)) (length (pipe_queue p)) →
  k = Z.to_nat (len - nread) ∨ p_writers p = 0 → (k < fuel)%nat →
  ∃ p', pipe_read_loop sched_yield fuel id dst len nread pipes =
          Ok (i32 (nread + Z.of_nat k),
              take (Z.to_nat nread) dst ++ take k (pipe_queue p) ++ drop (Z.to_nat nread + k) dst,
              <[Z.to_nat id := p']> pipes) ∧
        pipe_wf p' ∧ same_ends p' p ∧ pipe_queue p' = drop k (pipe_queue p).
Proof.
  intros Hp Hid. revert fuel nread dst pipes p k Hp.
  induction fuel as [|fuel IH]; intros nread dst pipes p k Hp Hwf Hn Hlen Hk Hend Hfuel; [lia|].
  cbn. destruct (Z.ltb_spec nread len) as [Hlt|Hge].
  - rewrite (proj2 (arr_get_Ok pipes id p)) by done. cbn.
    rewrite pipe_empty_queue by done. case_bool_decide as Hq.
    + rewrite Hq in Hk. cbn in Hk. assert (k = 0%nat) as -> by lia.
      destruct Hend as [?|Hw]; [lia|]. rewrite Hw. cbn. exists p.
      rewrite list_insert_id, Hq, Z.add_0_r, Nat.add_0_r by done. cbn. by rewrite take_drop.
    + assert (p_head p ≠ p_tail p) as Hne.
      { pose proof (pipe_empty_queue p Hwf) as He. rewrite bool_decide_false in He by done.
        by apply Z.eqb_neq. }
      destruct (pipe_pop1 p Hwf Hne) as (c & -> & Hwf' & Hqc & He). cbn.
      rewrite (arr_set_in dst) by lia. cbn. pose proof (lookup_lt_Some _ _ _ Hp).
      rewrite arr_set_in by lia. cbn.
      edestruct (IH (nread + 1)) as (p' & -> & ? & ? & Hq');
        [by apply list_lookup_insert_eq|exact Hwf'|lia|rewrite length_insert; lia|done| | |].
      * destruct Hend as [?|?]; [left|right; by destruct He as (-> & _)].
        rewrite Hqc in Hk. cbn in Hk. lia.
      * rewrite Hqc in Hk. cbn in Hk. lia.
      * rewrite Hqc in *. cbn [length] in Hk.
        set (k' := Nat.min (Z.to_nat (len - (nread + 1))) _) in *.
        assert (k = S k') as -> by lia.
        exists p'. rewrite list_insert_insert_eq. split; [|split; [done|split; [|done]]].
        -- replace (nread + 1 + Z.of_nat k') with (nread + Z.of_nat (S k')) by lia.
           do 3 f_equal. replace (Z.to_nat (nread + 1)) with (S (Z.to_nat nread)) by lia.
           rewrite (take_S_r _ _ c) by (apply list_lookup_insert_eq; lia).
           rewrite take_insert_ge by lia. rewrite drop_insert_lt by lia. cbn.
           rewrite <- app_assoc. cbn. do 3 f_equal. f_equal. lia.
        -- by eapply same_ends_trans.
  - assert (nread = len) as -> by lia. assert (k = 0%nat) as -> by lia. exists p.
    rewrite list_insert_id, Z.add_0_r, Nat.add_0_r by done. cbn. rewrite take_0. cbn. by rewrite take_drop.
Qed.

End blocking_lemmas.

Lemma pipe_get_Some id pipes p :
  pipe_get id pipes = Some p ↔
  0 ≤ id < 16 ∧ pipes !! Z.to_nat id = Some p ∧ p_used p ≠ 0.
Proof.
  unfold pipe_get, PIPE_MAX.
  destruct (Z.ltb_spec id 0), (Z.leb_spec 16 id); cbn; [naive_solver lia..|].
  destruct (pipes !! Z.to_nat id) as [q|]; [|naive_solver].
  destruct (Z.eqb_spec (p_used q) 0); naive_solver.
Qed.

(** ** Liveness of a blocked writer *)

(** [drains]: whenever the writer yields on a full pipe, the tasks that run
    before it is scheduled again keep the pipe open and well formed and take at
    least one byte out of it. *)
Definition drains (sched_yield : list pipe_t → list pipe_t) (id : Z) : Prop :=
  ∀ pipes p, pipe_get id pipes = Some p → pipe_wf p → p_readers p ≠ 0 →
    pipe_free p = 0 →
    ∃ q, pipe_get id (sched_yield pipes) = Some q ∧ pipe_wf q ∧ p_readers q ≠ 0 ∧
         pipe_free q ≠ 0.

Lemma pipe_write_loop_live sched_yield fuel id src len written pipes p :
  drains sched_yield id → pipe_get id pipes = Some p → pipe_wf p → p_readers p ≠ 0 →
  0 ≤ written ≤ len → len ≤ Z.of_nat (length src) →
  2 * (len - written) < Z.of_nat fuel →
  ∃ pipes', pipe_write_loop sched_yield fuel id src len written pipes = Ok (i32 len, pipes').
Proof.
  intros Hdr. revert written pipes p.
  induction fuel as [fuel IH] using lt_wf_ind; intros written pipes p Hget Hwf Hr Hw Hl Hf.
  destruct fuel as [|fuel]; [lia|].
  assert (∀ pipes q, pipe_get id pipes = Some q → pipe_wf q → p_readers q ≠ 0 →
    pipe_free q ≠ 0 → written < len → ∀ f, (f ≤ fuel)%nat → 2 * (len - written) - 1 < Z.of_nat (S f) →
    ∃ pipes', pipe_write_loop sched_yield (S f) id src len written pipes = Ok (i32 len, pipes')) as Hstep.
  { clear pipes p Hget Hwf Hr. intros pipes q Hget Hwf Hr Hne Hlt f Hf1 Hf2.
    pose proof Hget as (Hid & Hq & Hu)%pipe_get_Some. cbn.
    rewrite (proj2 (Z.ltb_lt written len)) by lia.
    rewrite (proj2 (arr_get_Ok pipes id q)) by (split; [lia|done]). cbn.
    rewrite (proj2 (Z.eqb_neq _ 0)) by done.
    destruct (arr_get_in src written) as (c & -> & _); [lia|]. cbn.
    destruct (pipe_push1 q c Hwf Hne) as (-> & Hwf' & _ & (Hw' & Hr' & Hu')). cbn.
    pose proof (lookup_lt_Some _ _ _ Hq). rewrite arr_set_in by lia. cbn.
    eapply IH; [lia| |exact Hwf'|by rewrite Hr'|lia|lia|lia].
    apply pipe_get_Some. split; [done|]. split; [by apply list_lookup_insert_eq|].
    by rewrite Hu'. }
  destruct (decide (written = len)) as [->|Hne].
  { cbn. rewrite Z.ltb_irrefl. eauto. }
  destruct (decide (pipe_free p = 0)) as [Hz|Hz]; [|by eapply Hstep; eauto with lia].
  pose proof Hget as (Hid & Hp & Hu)%pipe_get_Some.
  destruct (Hdr pipes p Hget Hwf Hr Hz) as (q & Hq & Hwfq & Hrq & Hfq).
  destruct fuel as [|fuel]; [lia|]. remember (S fuel) as f1 eqn:Ef. cbn [pipe_write_loop].
  rewrite (proj2 (Z.ltb_lt written len)) by lia.
  rewrite (proj2 (arr_get_Ok pipes id p)) by (split; [lia|done]). cbn [mbind res_bind].
  rewrite Hz, (proj2 (Z.eqb_neq (p_readers p) 0)) by done. cbn [Z.eqb].
  subst f1. eapply Hstep; eauto with lia.
Qed.

(** ** Preempted writer and reader *)

(** The store the writer has not yet published, the load the reader has not yet
    released. *)
Definition w_pending (s : spsc) : list Z :=
  match s_wpc s with
  | WAdvance => [p_buf (s_pipe s) !!! Z.to_nat (p_head (s_pipe s))]
  | _ => []
  end.
Definition r_pending (s : spsc) : list Z :=
  match s_rpc s with
  | RAdvance => [p_buf (s_pipe s) !!! Z.to_nat (p_tail (s_pipe s))]
  | _ => []
  end.

Record spsc_inv (s : spsc) : Prop := {
  inv_wf : pipe_wf (s_pipe s);
  inv_room : s_wpc s ≠ WCheck → pipe_free (s_pipe s) ≠ 0;
  inv_data : s_rpc s ≠ RCheck → p_head (s_pipe s) ≠ p_tail (s_pipe s);
  inv_trace : ∃ released, s_rcvd s = released ++ r_pending s ∧
                s_sent s = released ++ pipe_queue (s_pipe s) ++ w_pending s
}.

Lemma set_buf_queue_store p b h c :
  pipe_wf p → arr_set (p_buf p) (p_head p) c = Ok b → h = p_head p →
  pipe_wf (set_buf p b h) ∧ pipe_queue (set_buf p b h) = pipe_queue p ∧
  b !!! Z.to_nat h = c ∧
  (p_head p ≠ p_tail p → b !!! Z.to_nat (p_tail p) = p_buf p !!! Z.to_nat (p_tail p)).
Proof.
  intros Hwf [? ->]%arr_set_Ok ->. pose proof Hwf as (HN & Hl & Hh & Ht).
  split; [by repeat split; cbn; rewrite ?length_insert; lia|].
  split; [by apply ring_list_store|].
  split; [by apply list_lookup_total_insert_eq; lia|].
  intros. apply list_lookup_total_insert_ne. lia.
Qed.

Lemma spsc_step_inv s s' : spsc_inv s → spsc_step s s' → spsc_inv s'.
Proof.
  intros [Hwf Hroom Hdata (rel & Hrcvd & Hsent)] Hstep.
  destruct Hstep; unfold w_pending, r_pending in *; cbn in *.
  - split; cbn; eauto.
  - destruct (set_buf_queue_store p b (p_head p) c Hwf) as (Hwf' & Hq & Hb & Ht); [done..|].
    assert (pipe_free (set_buf p b (p_head p)) = pipe_free p) as Hf.
    { by rewrite !pipe_free_queue, Hq by done. }
    split; cbn; [done|rewrite Hf; eauto|done|]. exists rel. unfold w_pending, r_pending. cbn.
    rewrite Hb, Hq, Hsent, <- !app_assoc. cbn. split; [|done].
    destruct r; [done..|]. rewrite Ht by (by apply Hdata). done.
  - pose proof Hwf as (HN & Hl & Hh & Ht).
    assert (ring_count PIPE_BUF_SIZE (p_head p) (p_tail p) < PIPE_BUF_SIZE - 1) as Hc.
    { rewrite pipe_count_queue by done. pose proof (pipe_free_queue p Hwf).
      pose proof (pipe_queue_bound p Hwf). specialize (Hroom ltac:(done)).
      unfold PIPE_BUF_SIZE. lia. }
    rewrite pipe_succ by done.
    pose proof (ring_succ_range PIPE_BUF_SIZE (p_head p) eq_refl).
    split; cbn; [by repeat split; cbn; lia|done| |].
    + intros Hr. specialize (Hdata Hr). intros Heq.
      pose proof (ring_count_push _ _ _ Hh Ht Hc) as Hp. rewrite Heq in Hp.
      pose proof (ring_count_range PIPE_BUF_SIZE (p_head p) (p_tail p) eq_refl).
      rewrite (proj2 (ring_count_0 _ _ _ Ht Ht)) in Hp by done. lia.
    + exists rel. unfold w_pending, r_pending. cbn. split; [done|].
      unfold pipe_queue. cbn. rewrite ring_list_advance, app_nil_r by done. done.
  - split; cbn; eauto.
  - pose proof Hwf as (HN & Hl & Hh & Ht). apply arr_get_Ok in H as [_ Hc].
    split; cbn; [done|done|by intros; apply Hdata|]. exists rel.
    unfold w_pending, r_pending. cbn. rewrite (list_lookup_total_correct _ _ _ Hc).
    split; [|done]. by rewrite app_nil_r in Hrcvd; subst.
  - pose proof Hwf as (HN & Hl & Hh & Ht). specialize (Hdata ltac:(done)).
    rewrite pipe_succ by done. pose proof (ring_succ_range PIPE_BUF_SIZE (p_tail p) eq_refl).
    assert (pipe_queue p = (p_buf p !!! Z.to_nat (p_tail p)) ::
      ring_list PIPE_BUF_SIZE (p_buf p) (p_head p) ((p_tail p + 1) mod PIPE_BUF_SIZE)) as Hq
      by by apply ring_pop.
    assert (pipe_wf (set_tail p ((p_tail p + 1) mod PIPE_BUF_SIZE))) as Hwf'
      by by apply ring_wf_pop.
    split; cbn; [done| |done|].
    + intros Hw. specialize (Hroom Hw).
      pose proof (pipe_free_queue _ Hwf). pose proof (pipe_queue_bound p Hwf).
      rewrite pipe_free_queue by done. unfold pipe_queue at 1. cbn.
      apply (f_equal length) in Hq. cbn in Hq. lia.
    + exists rcvd. unfold w_pending, r_pending. cbn. rewrite app_nil_r. split; [done|].
      rewrite Hsent, Hq, Hrcvd, <- app_assoc. done.
Qed.

(** The state in which a writer with message [msg] and a reader start on an
    empty pipe. *)
Definition spsc_init (p : pipe_t) (msg : list Z) : spsc := mkSpsc p WCheck RCheck msg [] [].

Lemma spsc_init_inv p msg : pipe_wf p → pipe_queue p = [] → spsc_inv (spsc_init p msg).
Proof.
  intros Hwf Hq. split; cbn; [done..|]. exists []. cbn. by rewrite Hq.
Qed.

Lemma spsc_step_msg s s' :
  spsc_step s s' → s_sent s' ++ s_src s' = s_sent s ++ s_src s.
Proof. destruct 1; cbn; by rewrite <- ?app_assoc. Qed.

(** ** Properties *)

(** A write that fits into the free space of an open pipe returns
    its length without yielding, appends exactly the bytes of the source to the
    queue, and leaves the other pipes and the end counters alone. *)
Theorem pipe_write_appends sched_yield fuel id src len pipes p :
  pipe_get id pipes = Some p → pipe_wf p → p_readers p ≠ 0 →
  0 ≤ len ≤ Z.of_nat (length src) → len ≤ pipe_free p → (Z.to_nat len < fuel)%nat →
  ∃ p', pipe_write sched_yield fuel id src len pipes =
          Ok (len, <[Z.to_nat id := p']> pipes) ∧
        pipe_wf p' ∧ same_ends p' p ∧
        pipe_queue p' = pipe_queue p ++ take (Z.to_nat len) src.
Proof.
  intros Hget Hwf Hr Hlen Hfree Hfuel. unfold pipe_write. rewrite Hget.
  rewrite (proj2 (Z.eqb_neq _ 0)) by done.
  pose proof Hget as (Hid & Hp & _)%pipe_get_Some.
  pose proof (pipe_free_queue p Hwf).
  destruct (pipe_write_loop_fits sched_yield fuel id src len 0 pipes p)
    as (p' & -> & ? & ? & Hq); try (done || lia).
  exists p'. rewrite i32_small by lia. rewrite Z.sub_0_r in Hq. done.
Qed.

Definition ex_pipe (n : nat) : pipe_t := mkPipe (replicate 4096 0) (Z.of_nat n) 0 1 1 1.
Definition no_yield (pipes : list pipe_t) : list pipe_t := pipes.

Lemma ex_pipe_wf n : (n < 4096)%nat → pipe_wf (ex_pipe n).
Proof. intros. unfold pipe_wf, ring_wf, PIPE_BUF_SIZE. cbn. lia. Qed.

Lemma pipe_write_appends_witness :
  ∃ p', pipe_write no_yield 4 0 [7; 8; 9] 3 [ex_pipe 2] = Ok (3, [p']) ∧
        pipe_queue p' = [0; 0; 7; 8; 9].
Proof.
  destruct (pipe_write_appends no_yield 4 0 [7; 8; 9] 3 [ex_pipe 2] (ex_pipe 2))
    as (p' & Hw & _ & _ & Hq).
  - reflexivity.
  - apply ex_pipe_wf. lia.
  - discriminate.
  - cbn. lia.
  - vm_compute. discriminate.
  - cbn. lia.
  - exists p'. split; [exact Hw|]. rewrite Hq. vm_compute. reflexivity.
Defined.

(** A read on an open pipe that holds enough bytes, or whose
    writers are gone, returns the oldest bytes in order, as many as asked for or
    as there are, stores them at the start of the destination and removes them
    from the queue. *)
Theorem pipe_read_takes sched_yield fuel id dst len pipes p n :
  pipe_get id pipes = Some p → pipe_wf p → 0 ≤ len ≤ Z.of_nat (length dst) →
  n = Nat.min (Z.to_nat len) (length (pipe_queue p)) →
  n = Z.to_nat len ∨ p_writers p = 0 → (n < fuel)%nat →
  ∃ p', pipe_read sched_yield fuel id dst len pipes =
          Ok (Z.of_nat n, take n (pipe_queue p) ++ drop n dst,
              <[Z.to_nat id := p']> pipes) ∧
        pipe_wf p' ∧ same_ends p' p ∧ pipe_queue p' = drop n (pipe_queue p).
Proof.
  intros Hget Hwf Hlen -> Hend Hfuel. unfold pipe_read. rewrite Hget.
  pose proof Hget as (Hid & Hp & _)%pipe_get_Some.
  pose proof (pipe_queue_bound p Hwf).
  destruct (pipe_read_loop_takes sched_yield fuel id dst len 0 pipes p
    (Nat.min (Z.to_nat len) (length (pipe_queue p)))) as (p' & -> & ? & ? & Hq);
    rewrite ?Z.sub_0_r; try (done || lia).
  exists p'. rewrite i32_small by lia. done.
Qed.

Lemma pipe_read_takes_witness :
  ∃ p', pipe_read no_yield 4 0 [1; 1; 1] 2 [ex_pipe 3] = Ok (2, [0; 0; 1], [p']) ∧
        pipe_queue p' = [0].
Proof.
  destruct (pipe_read_takes no_yield 4 0 [1; 1; 1] 2 [ex_pipe 3] (ex_pipe 3) 2)
    as (p' & Hw & _ & _ & Hq).
  - reflexivity.
  - apply ex_pipe_wf. lia.
  - cbn. lia.
  - vm_compute. reflexivity.
  - left. reflexivity.
  - lia.
  - exists p'. split; [rewrite Hw; vm_compute; reflexivity|]. rewrite Hq. vm_compute. reflexivity.
Defined.

(** If every yield of a writer blocked on a full pipe lets a reader
    take at least one byte, [pipe_write] finishes and returns the full length,
    whatever the length, after at most two loop rounds per byte. *)
Theorem pipe_write_terminates sched_yield id src len pipes p :
  drains sched_yield id → pipe_get id pipes = Some p → pipe_wf p → p_readers p ≠ 0 →
  0 ≤ len ≤ Z.of_nat (length src) → len < 2147483648 →
  ∃ pipes', pipe_write sched_yield (S (2 * Z.to_nat len)) id src len pipes = Ok (len, pipes').
Proof.
  intros Hdr Hget Hwf Hr Hlen Hmax. unfold pipe_write. rewrite Hget.
  rewrite (proj2 (Z.eqb_neq _ 0)) by done.
  destruct (pipe_write_loop_live sched_yield (S (2 * Z.to_nat len)) id src len 0 pipes p)
    as (pipes' & ->); try (done || lia).
  exists pipes'. by rewrite i32_small by lia.
Qed.

(** A reader that empties slot 0 whenever it runs. *)
Definition drain0 (pipes : list pipe_t) : list pipe_t :=
  alter (λ p, set_tail p (p_head p)) 0%nat pipes.

Lemma drain0_drains : drains drain0 0.
Proof.
  intros pipes p (_ & Hp & Hu)%pipe_get_Some (HN & Hl & Hh & Ht) Hr _.
  exists (set_tail p (p_head p)). unfold drain0.
  assert (pipe_wf (set_tail p (p_head p))) as Hwf by by repeat split; cbn; lia.
  split; [|split; [done|split; [done|]]].
  - apply pipe_get_Some. split; [lia|]. split; [|done].
    change (Z.to_nat 0) with 0%nat in *. rewrite list_lookup_alter_eq, Hp. done.
  - rewrite pipe_free_queue by done. unfold pipe_queue. cbn. rewrite ring_list_empty. done.
Qed.

Lemma pipe_write_terminates_witness :
  drains drain0 0 ∧
  ∃ pipes', pipe_write drain0 11 0 [1; 2; 3; 4; 5] 5 [ex_pipe 4093] = Ok (5, pipes').
Proof.
  split; [exact drain0_drains|].
  destruct (pipe_write_terminates drain0 0 [1; 2; 3; 4; 5] 5 [ex_pipe 4093] (ex_pipe 4093))
    as (pipes' & Hw).
  - exact drain0_drains.
  - reflexivity.
  - apply ex_pipe_wf. lia.
  - discriminate.
  - cbn. lia.
  - lia.
  - exists pipes'. exact Hw.
Defined.

(** C4: whatever the interleaving of a writer and a reader preempted
    between their accesses to the ring, the reader receives a prefix of the
    message, nothing is lost or duplicated (what was stored is what was
    released followed by what is queued), and when both are between two rounds
    and the pipe is empty everything stored has been received. *)
Theorem spsc_fifo p msg s :
  pipe_wf p → pipe_queue p = [] → star spsc_step (spsc_init p msg) s →
  s_sent s ++ s_src s = msg ∧ s_rcvd s `prefix_of` msg ∧
  (s_wpc s = WCheck → s_rpc s = RCheck →
     s_sent s = s_rcvd s ++ pipe_queue (s_pipe s)).
Proof.
  intros Hwf Hq Hrun.
  assert (spsc_inv s) as [Hwf' Hroom Hdata (rel & Hr & Hs)].
  { eapply star_invariant; [apply spsc_step_inv|by apply spsc_init_inv|done]. }
  assert (s_sent s ++ s_src s = msg) as Hm.
  { apply (star_invariant spsc_step (λ s, s_sent s ++ s_src s = msg) (spsc_init p msg) s);
      [|done|done]. intros x y Hx Hst. by rewrite (spsc_step_msg _ _ Hst). }
  split; [done|]. split.
  - rewrite <- Hm, Hr, Hs, <- !app_assoc. apply prefix_app. unfold r_pending.
    destruct (s_rpc s) eqn:Er; [apply prefix_nil..|].
    unfold pipe_queue. rewrite ring_pop; [|done|by apply Hdata].
    cbn. apply prefix_cons, prefix_nil.
  - intros Hw Hrc. unfold w_pending, r_pending in *. rewrite Hw in Hs. rewrite Hrc in Hr.
    rewrite !app_nil_r in *. by subst.
Qed.

Lemma spsc_fifo_witness :
  ∃ s, star spsc_step (spsc_init (ex_pipe 0) [5; 6]) s ∧ s_rcvd s = [5] ∧
       s_rcvd s `prefix_of` [5; 6].
Proof.
  assert (∃ s, star spsc_step (spsc_init (ex_pipe 0) [5; 6]) s ∧ s_rcvd s = [5])
    as (s & Hrun & Hr).
  { eexists. split.
    - eapply star_snoc; [eapply star_snoc; [eapply star_snoc; [eapply star_snoc;
        [eapply star_snoc; [apply star_refl|]|]|]|]|].
      + apply W_check. vm_compute. discriminate.
      + apply W_store. vm_compute. reflexivity.
      + apply W_advance.
      + apply R_check. vm_compute. discriminate.
      + apply R_load. vm_compute. reflexivity.
    - reflexivity. }
  exists s. split; [exact Hrun|]. split; [exact Hr|].
  apply (spsc_fifo (ex_pipe 0) [5; 6]).
  - apply ex_pipe_wf. lia.
  - vm_compute. reflexivity.
  - exact Hrun.
Defined.

(** [pipe_create] fails only when every slot is taken; otherwise it
    hands out a slot that was free, as an open, empty, well-formed pipe with one
    reader and one writer, and touches no other slot; closing both ends of it
    frees the slot again. *)
Theorem pipe_lifecycle pipes id pipes' :
  pipes_wf pipes → pipe_create pipes = (id, pipes') →
  (id = -1 ∧ pipes' = pipes ∧ Forall (λ p, p_used p ≠ 0) pipes) ∨
  ∃ p, pipe_get id pipes = None ∧ pipe_get id pipes' = Some p ∧
       pipe_queue p = [] ∧ p_readers p = 1 ∧ p_writers p = 1 ∧ pipes_wf pipes' ∧
       (∀ j, j ≠ id → pipe_get j pipes' = pipe_get j pipes) ∧
       pipe_get id (pipe_close_write id (pipe_close_read id pipes')) = None.
Proof.
  intros [Hlen Hwf]. unfold pipe_create.
  destruct (find_idx _ pipes) as [i|] eqn:Ei; intros [= <- <-].
  - right. pose proof (find_idx_lookup _ _ _ Ei) as (q & Hq & Hu). bool_hyps.
    pose proof (lookup_lt_Some _ _ _ Hq) as Hi.
    exists pipe_new.
    assert (<[i:=pipe_new]> pipes !! i = Some pipe_new) as Hip by by apply list_lookup_insert_eq.
    split; [|split; [|split; [|split; [done|split; [done|split; [|split]]]]]].
    + destruct (pipe_get (Z.of_nat i) pipes) eqn:E; [|done].
      apply pipe_get_Some in E as (_ & E & ?). rewrite Nat2Z.id in E. congruence.
    + apply pipe_get_Some. rewrite Nat2Z.id. split; [lia|done].
    + by vm_compute.
    + split; [by rewrite length_insert|]. apply Forall_insert; [done|].
      unfold pipe_wf, pipe_new, ring_wf, PIPE_BUF_SIZE. cbn. lia.
    + intros j Hj. unfold pipe_get. destruct (Z.ltb_spec j 0); [done|].
      cbn. rewrite list_lookup_insert_ne by lia. done.
    + unfold pipe_close_read, pipe_close_write, PIPE_MAX.
      rewrite (proj2 (Z.ltb_ge (Z.of_nat i) 0)), (proj2 (Z.leb_gt 16 (Z.of_nat i))) by lia.
      cbn [orb]. rewrite Nat2Z.id.
      destruct (pipe_get _ _) eqn:E; [|done].
      apply pipe_get_Some in E as (_ & E & Hne). rewrite Nat2Z.id in E.
      rewrite !list_lookup_alter_eq in E. setoid_rewrite Hip in E.
      injection E as <-. done.
  - left. split; [done|]. split; [done|]. apply Forall_forall.
    rewrite find_idx_None in Ei. intros x Hx. specialize (Ei x Hx). by bool_hyps.
Qed.

Lemma pipe_lifecycle_witness :
  ∃ pipes', pipe_create pipe_init = (0, pipes') ∧
    pipe_get 0 (pipe_close_write 0 (pipe_close_read 0 pipes')) = None.
Proof.
  eexists. split; [reflexivity|].
  destruct (pipe_lifecycle pipe_init 0 (snd (pipe_create pipe_init)))
    as [(H & _)|(p & _ & _ & _ & _ & _ & _ & _ & H)].
  - split; [reflexivity|]. apply Forall_replicate. repeat split; cbn; lia.
  - reflexivity.
  - discriminate.
  - exact H.
Defined.
