(* ===== verification/KMalloc.v ===== *)
(** * The kernel heap (src/src/kmalloc.c)

    The heap grows upwards from [heap_start]; a block is a 16-byte header
    followed by its payload, and the free blocks form a doubly linked list.  The
    model keeps the headers in a map from addresses to [block_t]; a pointer is an
    address and NULL is 0.  Reading or updating a header where none was written
    is a [Fault].  Payload bytes are not modelled; what the invariant says of the
    map concerns the headers of the current blocks only, so entries left behind
    by a coalesced header may hold anything. *)

From S2P Require Import Prelude.

Definition MAGIC_FREE : Z := 0xDEADBEEF.
Definition MAGIC_USED : Z := 0xCAFEBABE.
Definition MIN_SPLIT : Z := 16.
Definition HDR : Z := 16.     (** [sizeof(block_t)] *)

Record block_t := mkBlock { magic : Z; size : Z; prev : Z; next : Z }.

Record kheap := mkHeap {
  free_list : Z;
  heap_start : Z;
  heap_end : Z;
  heap_cap : Z;
  hmem : gmap Z block_t
}.

Definition set_free_list (st : kheap) (v : Z) : kheap :=
  mkHeap v (heap_start st) (heap_end st) (heap_cap st) (hmem st).
Definition set_heap_end (st : kheap) (v : Z) : kheap :=
  mkHeap (free_list st) (heap_start st) v (heap_cap st) (hmem st).
Definition set_hmem (st : kheap) (m : gmap Z block_t) : kheap :=
  mkHeap (free_list st) (heap_start st) (heap_end st) (heap_cap st) m.

Definition set_magic (v : Z) (b : block_t) : block_t := mkBlock v (size b) (prev b) (next b).
Definition set_size (v : Z) (b : block_t) : block_t := mkBlock (magic b) v (prev b) (next b).
Definition set_prev (v : Z) (b : block_t) : block_t := mkBlock (magic b) (size b) v (next b).
Definition set_next (v : Z) (b : block_t) : block_t := mkBlock (magic b) (size b) (prev b) v.

(** [*a] and [a->field = ...]. *)
Definition rd (st : kheap) (a : Z) : res block_t := res_of (hmem st !! a).
Definition upd (st : kheap) (a : Z) (f : block_t → block_t) : res kheap :=
  b ← rd st a; Ok (set_hmem st (<[a := f b]> (hmem st))).

Definition kmalloc_init (start sz : Z) (st : kheap) : kheap :=
  mkHeap 0 start start (u32 (start + sz)) (hmem st).

Definition extend_heap (need : Z) (st : kheap) : res (Z * kheap) :=
  let total := u32 (HDR + need) in
  if heap_cap st <? u32 (heap_end st + total) then Ok (0, st)
  else
    let b := heap_end st in
    let st1 := set_hmem st (<[b := mkBlock MAGIC_FREE need 0 (free_list st)]> (hmem st)) in
    st2 ← (if free_list st1 =? 0 then Ok st1 else upd st1 (free_list st1) (set_prev b));
    Ok (b, set_heap_end (set_free_list st2 b) (u32 (heap_end st + total))).

(** [if (b->prev) b->prev->next = x; else free_list = x;
     if (b->next) b->next->prev = y;] *)
Definition relink (b x y : Z) (st : kheap) : res kheap :=
  h ← rd st b;
  st1 ← (if prev h =? 0 then Ok (set_free_list st x) else upd st (prev h) (set_next x));
  h1 ← rd st1 b;
  if next h1 =? 0 then Ok st1 else upd st1 (next h1) (set_prev y).

(** The removal of [b] from the free list. *)
Definition unlink (b : Z) (st : kheap) : res kheap :=
  h ← rd st b; relink b (next h) (prev h) st.

Definition coalesce (b : Z) (st : kheap) : res kheap :=
  h ← rd st b;
  let nx := u32 (b + HDR + size h) in
  if nx <? heap_end st then
    n ← rd st nx;
    if magic n =? MAGIC_FREE then
      st1 ← upd st b (set_size (u32 (size h + HDR + size n)));
      unlink nx st1
    else Ok st
  else Ok st.

(** The split of [b]: a free header is written behind the first [sz] bytes of the
    payload and takes the place of [b] in the free list. *)
Definition split_block (b sz : Z) (st : kheap) : res kheap :=
  h ← rd st b;
  let split := u32 (b + HDR + sz) in
  let st1 := set_hmem st
    (<[split := mkBlock MAGIC_FREE (u32 (size h - sz - HDR)) (prev h) (next h)]> (hmem st)) in
  st2 ← relink b split split st1;
  upd st2 b (set_size sz).

(** [b->magic = MAGIC_USED; b->prev = b->next = 0; return b + 1;] *)
Definition mark_used (b : Z) (st : kheap) : res (Z * kheap) :=
  st1 ← upd st b (λ h, set_prev 0 (set_next 0 (set_magic MAGIC_USED h)));
  Ok (u32 (b + HDR), st1).

(** The first-fit loop; [None] when no free block is large enough. *)
Fixpoint kmalloc_scan (fuel : nat) (b sz : Z) (st : kheap) : res (option (Z * kheap)) :=
  match fuel with
  | O => Timeout
  | S fuel' =>
      if b =? 0 then Ok None
      else
        h ← rd st b;
        if size h <? sz then kmalloc_scan fuel' (next h) sz st
        else
          st1 ← (if u32 (sz + HDR + MIN_SPLIT) <=? size h then split_block b sz st
                 else unlink b st);
          r ← mark_used b st1;
          Ok (Some r)
  end.

Definition round8 (sz : Z) : Z := Z.land (u32 (sz + 7)) (Z.lnot 7).

Definition kmalloc (fuel : nat) (sz : Z) (st : kheap) : res (Z * kheap) :=
  if sz =? 0 then Ok (0, st)
  else
    let sz := round8 sz in
    found ← kmalloc_scan fuel (free_list st) sz st;
    match found with
    | Some r => Ok r
    | None =>
        '(b, st1) ← extend_heap sz st;
        if b =? 0 then Ok (0, st1)
        else st2 ← unlink b st1; mark_used b st2
    end.

Definition kfree (ptr : Z) (st : kheap) : res kheap :=
  if ptr =? 0 then Ok st
  else
    let b := u32 (ptr - HDR) in
    h ← rd st b;
    if negb (magic h =? MAGIC_USED) then Ok st
    else
      st1 ← upd st b (λ h, set_next (free_list st) (set_prev 0 (set_magic MAGIC_FREE h)));
      st2 ← (if free_list st1 =? 0 then Ok st1 else upd st1 (free_list st1) (set_prev b));
      coalesce b (set_free_list st2 b).

Fixpoint kmalloc_used_loop (fuel : nat) (pos used : Z) (st : kheap) : res Z :=
  match fuel with
  | O => Timeout
  | S fuel' =>
      if pos <? heap_end st then
        h ← rd st pos;
        kmalloc_used_loop fuel' (u32 (pos + HDR + size h))
          (if magic h =? MAGIC_USED then u32 (used + size h) else used) st
      else Ok used
  end.
Definition kmalloc_used (fuel : nat) (st : kheap) : res Z :=
  kmalloc_used_loop fuel (heap_start st) 0 st.

Fixpoint kmalloc_free_loop (fuel : nat) (b fr : Z) (st : kheap) : res Z :=
  match fuel with
  | O => Timeout
  | S fuel' =>
      if b =? 0 then Ok fr
      else h ← rd st b; kmalloc_free_loop fuel' (next h) (u32 (fr + size h)) st
  end.
Definition kmalloc_free (fuel : nat) (st : kheap) : res Z :=
  kmalloc_free_loop fuel (free_list st) 0 st.

(** ** The heap as a sequence of blocks *)

(** A block of the heap: its header address, payload size and state. *)
Record blk := mkBlk { baddr : Z; bsize : Z; bused : bool }.

Definition links (m : gmap Z block_t) (a : Z) : option (Z * Z) :=
  (λ b, (prev b, next b)) <$> m !! a.
Definition hdr (m : gmap Z block_t) (a : Z) : option (Z * Z) :=
  (λ b, (magic b, size b)) <$> m !! a.

Definition magic_of (u : bool) : Z := if u then MAGIC_USED else MAGIC_FREE.

(** [tiles m s e bs]: the blocks [bs] fill the addresses from [s] to [e]. *)
Fixpoint tiles (m : gmap Z block_t) (s e : Z) (bs : list blk) : Prop :=
  match bs with
  | [] => s = e
  | b :: bs' =>
      baddr b = s ∧ 0 ≤ bsize b ∧ hdr m s = Some (magic_of (bused b), bsize b) ∧
      tiles m (s + HDR + bsize b) e bs'
  end.

(** [dseg m p h l n]: the nodes [l] are doubly linked, entered at [h] from
    predecessor [p], and the last one points to [n]. *)
Fixpoint dseg (m : gmap Z block_t) (p h : Z) (l : list Z) (n : Z) : Prop :=
  match l with
  | [] => h = n
  | a :: l' =>
      h = a ∧ a ≠ 0 ∧ ∃ k, links m a = Some (p, k) ∧ dseg m a k l' n
  end.

Definition last_or (p : Z) (l : list Z) : Z := default p (last l).

(** The invariant: [bs] tiles the heap and [fl] lists the free ones. *)
Record heap_rep (st : kheap) (bs : list blk) (fl : list Z) : Prop := {
  rep_tiles : tiles (hmem st) (heap_start st) (heap_end st) bs;
  rep_list : dseg (hmem st) 0 (free_list st) fl 0;
  rep_nodup : NoDup fl;
  rep_free : ∀ a, a ∈ fl ↔ ∃ b, b ∈ bs ∧ baddr b = a ∧ bused b = false;
  rep_start : 0 < heap_start st;
  rep_end : heap_end st ≤ heap_cap st;
  rep_cap : heap_cap st < 2 ^ 32
}.

(** The payload bytes in used and in free blocks. *)
Definition sum_size (f : blk → bool) (bs : list blk) : Z :=
  foldr (λ b acc, (if f b then bsize b else 0) + acc) 0 bs.

(** ** Tilings *)

Lemma tiles_app m s e l1 l2 :
  tiles m s e (l1 ++ l2) ↔ ∃ k, tiles m s k l1 ∧ tiles m k e l2.
Proof.
  revert s. induction l1 as [|b l1 IH]; intros s; cbn.
  - split; [eauto|]. by intros (k & -> & ?).
  - split.
    + intros (? & ? & ? & (k & ? & ?)%IH). exists k. done.
    + intros (k & (? & ? & ? & ?) & ?). repeat (split; [done|]). apply IH. eauto.
Qed.

Lemma tiles_frame m m' s e bs :
  (∀ b, b ∈ bs → hdr m' (baddr b) = hdr m (baddr b)) → tiles m s e bs → tiles m' s e bs.
Proof.
  revert s. induction bs as [|b bs IH]; intros s Hf; cbn; [done|].
  intros (<- & ? & ? & ?). repeat (split; [done|]).
  split; [by rewrite Hf by set_solver|]. apply IH; [set_solver|done].
Qed.

Lemma tiles_le m s e bs : tiles m s e bs → s ≤ e.
Proof.
  revert s. induction bs as [|b bs IH]; intros s; cbn; [lia|].
  intros (? & ? & _ & Ht%IH). unfold HDR in *. lia.
Qed.

Lemma tiles_elem m s e bs b :
  tiles m s e bs → b ∈ bs →
  s ≤ baddr b ∧ 0 ≤ bsize b ∧ baddr b + HDR + bsize b ≤ e ∧
  hdr m (baddr b) = Some (magic_of (bused b), bsize b).
Proof.
  revert s. induction bs as [|c bs IH]; intros s; cbn; [set_solver|].
  intros (<- & ? & ? & Ht) [->|Hin]%elem_of_cons.
  - apply tiles_le in Ht. repeat split; (done || lia).
  - destruct (IH _ Ht Hin) as (? & ? & ? & ?). unfold HDR in *. repeat split; (done || lia).
Qed.

(** The blocks before and after a block do not overlap it. *)
Lemma tiles_around m s e l1 b l2 :
  tiles m s e (l1 ++ b :: l2) →
  (∀ c, c ∈ l1 → baddr c + HDR + bsize c ≤ baddr b) ∧
  (∀ c, c ∈ l2 → baddr b + HDR + bsize b ≤ baddr c).
Proof.
  intros (k & H1 & H2)%tiles_app. cbn in H2. destruct H2 as (<- & ? & ? & H2).
  split; intros c Hc.
  - by apply (tiles_elem _ _ _ _ _ H1 Hc).
  - by apply (tiles_elem _ _ _ _ _ H2 Hc).
Qed.

Lemma tiles_addr_inj m s e bs b c :
  tiles m s e bs → b ∈ bs → c ∈ bs → baddr b = baddr c → b = c.
Proof.
  intros Ht Hb Hc He. apply list_elem_of_split in Hb as (l1 & l2 & ->).
  destruct (tiles_around _ _ _ _ _ _ Ht) as [Ha Hz].
  apply elem_of_app in Hc as [Hc|[->|Hc]%elem_of_cons]; [|done|].
  - pose proof (Ha c Hc). destruct (tiles_elem _ _ _ _ c Ht) as (? & ? & ? & ?); [set_solver|].
    unfold HDR in *. lia.
  - pose proof (Hz c Hc). destruct (tiles_elem _ _ _ _ b Ht) as (? & ? & ? & ?); [set_solver|].
    unfold HDR in *. lia.
Qed.

(** Addresses inside the extent of a block belong to no other block. *)
Lemma tiles_other m s e l1 b l2 c a :
  tiles m s e (l1 ++ b :: l2) → c ∈ l1 ∨ c ∈ l2 →
  baddr b ≤ a < baddr b + HDR + bsize b → baddr c ≠ a.
Proof.
  intros Ht Hc Ha Heq. destruct (tiles_around _ _ _ _ _ _ Ht) as [T1 T2].
  destruct (tiles_elem _ _ _ _ c Ht) as (? & ? & ? & _); [set_solver|].
  destruct Hc as [Hc|Hc]; [pose proof (T1 c Hc)|pose proof (T2 c Hc)]; unfold HDR in *; lia.
Qed.

Lemma tiles_total m s e bs :
  tiles m s e bs →
  e - s = sum_size bused bs + sum_size (λ b, negb (bused b)) bs + HDR * Z.of_nat (length bs).
Proof.
  revert s. induction bs as [|b bs IH]; intros s; cbn [tiles]; [cbn; lia|].
  intros (_ & _ & _ & Ht%IH). unfold sum_size in *. cbn [foldr length] in *.
  destruct (bused b); cbn in *; lia.
Qed.

(** ** The free list *)

Lemma dseg_app m p h l1 l2 n :
  dseg m p h (l1 ++ l2) n ↔ ∃ k, dseg m p h l1 k ∧ dseg m (last_or p l1) k l2 n.
Proof.
  revert p h. induction l1 as [|a l1 IH]; intros p h; cbn.
  - split; [eauto|]. by intros (k & -> & ?).
  - assert (∀ q, last_or a l1 = last_or q (a :: l1)) as Hl.
    { intros q. unfold last_or. destruct l1; [done|].
      rewrite last_cons_cons. by destruct (last _) eqn:E; [|apply last_None in E]. }
    split.
    + intros (-> & ? & k & ? & (j & ? & ?)%IH). exists j. rewrite <- Hl. eauto 10.
    + intros (j & (-> & ? & k & ? & ?) & Hj). rewrite <- Hl in Hj.
      split; [done|]. split; [done|]. exists k. split; [done|]. apply IH. eauto.
Qed.

Lemma dseg_frame m m' p h l n :
  (∀ a, a ∈ l → links m' a = links m a) → dseg m p h l n → dseg m' p h l n.
Proof.
  revert p h. induction l as [|a l IH]; intros p h Hf; cbn; [done|].
  intros (-> & ? & k & ? & ?). repeat (split; [done|]). exists k.
  split; [by rewrite Hf by set_solver|]. apply IH; [set_solver|done].
Qed.

Lemma dseg_nonzero m p h l n : dseg m p h l n → 0 ∉ l.
Proof.
  revert p h. induction l as [|a l IH]; intros p h; cbn; [set_solver|].
  intros (_ & ? & k & _ & ?%IH). set_solver.
Qed.

Lemma links_insert m a b a' :
  links (<[a := b]> m) a' = if decide (a = a') then Some (prev b, next b) else links m a'.
Proof. unfold links. rewrite lookup_insert. by case_decide. Qed.

Lemma hdr_insert m a b a' :
  hdr (<[a := b]> m) a' = if decide (a = a') then Some (magic b, size b) else hdr m a'.
Proof. unfold hdr. rewrite lookup_insert. by case_decide. Qed.

Lemma links_lookup m a p n :
  links m a = Some (p, n) ↔ ∃ b, m !! a = Some b ∧ prev b = p ∧ next b = n.
Proof. unfold links. rewrite fmap_Some. naive_solver. Qed.

Lemma hdr_lookup m a g s :
  hdr m a = Some (g, s) ↔ ∃ b, m !! a = Some b ∧ magic b = g ∧ size b = s.
Proof. unfold hdr. rewrite fmap_Some. naive_solver. Qed.

(** Setting the [next] of the last node of a segment. *)
Lemma dseg_set_next m p h l a k n b :
  dseg m p h (l ++ [a]) k → NoDup (l ++ [a]) → m !! a = Some b →
  dseg (<[a := set_next n b]> m) p h (l ++ [a]) n.
Proof.
  intros (j & H1 & (-> & ? & k' & Hl & _))%dseg_app [_ [Hna _]]%NoDup_app Hb.
  apply dseg_app. exists a. split.
  - eapply dseg_frame; [|done]. intros c Hc. rewrite links_insert.
    rewrite decide_False; [done|]. set_solver.
  - cbn. split; [done|]. split; [done|]. exists n. split; [|done].
    rewrite links_insert, decide_True by done. cbn.
    apply links_lookup in Hl as (b' & Hb' & <- & _). by simplify_eq.
Qed.

(** Setting the [prev] of the first node of a segment. *)
Lemma dseg_set_prev m p q h l n b :
  dseg m p h (h :: l) n → NoDup (h :: l) → m !! h = Some b →
  dseg (<[h := set_prev q b]> m) q h (h :: l) n.
Proof.
  intros (_ & ? & k & Hl & Hd) [Hn _]%NoDup_cons Hb. cbn.
  split; [done|]. split; [done|]. exists k. split.
  - rewrite links_insert, decide_True by done. cbn.
    apply links_lookup in Hl as (b' & Hb' & _ & <-). by simplify_eq.
  - eapply dseg_frame; [|done]. intros c Hc. rewrite links_insert.
    rewrite decide_False; [done|]. set_solver.
Qed.

Lemma last_or_snoc p l a : last_or p (l ++ [a]) = a.
Proof. unfold last_or. by rewrite last_snoc. Qed.

(** ** Relinking *)

(** [st'] differs from [st] in the links of the nodes [l] (and in the list head). *)
Record relinked (l : list Z) (st st' : kheap) : Prop := {
  rl_start : heap_start st' = heap_start st;
  rl_end : heap_end st' = heap_end st;
  rl_cap : heap_cap st' = heap_cap st;
  rl_hdr : ∀ a, hdr (hmem st') a = hdr (hmem st) a;
  rl_mem : ∀ a, a ∉ l → hmem st' !! a = hmem st !! a
}.

Lemma relinked_links l st st' a :
  relinked l st st' → a ∉ l → links (hmem st') a = links (hmem st) a.
Proof. intros H Ha. unfold links. by rewrite (rl_mem _ _ _ H). Qed.

Lemma relinked_trans l k st1 st2 st3 :
  relinked l st1 st2 → relinked k st2 st3 → relinked (l ++ k) st1 st3.
Proof.
  intros [? ? ? Hh1 Hm1] [? ? ? Hh2 Hm2]. split; try congruence.
  intros a [? ?]%not_elem_of_app. by rewrite Hm2, Hm1.
Qed.

Lemma relinked_refl l st x : relinked l st (set_free_list st x).
Proof. by split. Qed.

Lemma upd_ok st a b f :
  hmem st !! a = Some b → upd st a f = Ok (set_hmem st (<[a := f b]> (hmem st))).
Proof. intros Hb. unfold upd, rd. by rewrite Hb. Qed.

Lemma upd_links st a b f :
  hmem st !! a = Some b → magic (f b) = magic b → size (f b) = size b →
  upd st a f = Ok (set_hmem st (<[a := f b]> (hmem st))) ∧
  relinked [a] st (set_hmem st (<[a := f b]> (hmem st))).
Proof.
  intros Hb Hm Hs. unfold upd, rd. rewrite Hb. split; [done|]. split; cbn; [done..| |].
  - intros c. rewrite hdr_insert. case_decide; [|done]. subst.
    rewrite Hm, Hs. unfold hdr. by rewrite Hb.
  - intros c Hc. rewrite lookup_insert_ne; [done|]. set_solver.
Qed.

Lemma set_prev_front st p y h l n :
  dseg (hmem st) p h l n → NoDup l → n = 0 →
  ∃ st', (if h =? 0 then Ok st else upd st h (set_prev y)) = Ok st' ∧
         relinked l st st' ∧ free_list st' = free_list st ∧ dseg (hmem st') y h l n.
Proof.
  intros Hd Hnd ->. destruct l as [|a l].
  - cbn in Hd. subst. exists st. cbn. done.
  - pose proof Hd as (-> & Ha & k & (b & Hb & _)%links_lookup & _).
    rewrite (proj2 (Z.eqb_neq a 0)) by done.
    destruct (upd_links st a b (set_prev y) Hb) as [-> [? ? ? Hh Hm]]; [done..|].
    eexists. split; [done|]. split; [|split; [done|by eapply dseg_set_prev]].
    split; try done. intros c Hc. apply Hm. set_solver.
Qed.

Lemma set_next_back st x l k :
  dseg (hmem st) 0 (free_list st) l k → NoDup l →
  ∃ st', (if last_or 0 l =? 0 then Ok (set_free_list st x)
          else upd st (last_or 0 l) (set_next x)) = Ok st' ∧
         relinked l st st' ∧ dseg (hmem st') 0 (free_list st') l x.
Proof.
  intros Hd Hnd. destruct l as [|a l _] using rev_ind.
  - exists (set_free_list st x). by split.
  - rewrite last_or_snoc. pose proof (dseg_nonzero _ _ _ _ _ Hd) as Hnz.
    rewrite (proj2 (Z.eqb_neq a 0)) by set_solver.
    pose proof Hd as (j & _ & (-> & _ & k' & (b & Hb & _)%links_lookup & _))%dseg_app.
    destruct (upd_links st a b (set_next x) Hb) as [-> [? ? ? Hh Hm]]; [done..|].
    eexists. split; [done|]. split; [|by eapply dseg_set_next].
    split; try done. intros c Hc. apply Hm. set_solver.
Qed.

Lemma relink_spec st b x y l1 l2 :
  dseg (hmem st) 0 (free_list st) (l1 ++ b :: l2) 0 → NoDup (l1 ++ b :: l2) →
  ∃ st' N, relink b x y st = Ok st' ∧ relinked (l1 ++ l2) st st' ∧
    links (hmem st) b = Some (last_or 0 l1, N) ∧
    dseg (hmem st') 0 (free_list st') l1 x ∧ dseg (hmem st') y N l2 0.
Proof.
  intros (j & H1 & (-> & Hb0 & N & Hl & H2))%dseg_app (Hnd1 & Hdis & Hnd2)%NoDup_app.
  apply NoDup_cons in Hnd2 as [Hb2 Hnd2].
  pose proof Hl as (h & Hh & Hp & HN)%links_lookup.
  unfold relink, rd. rewrite Hh. cbn. rewrite Hp.
  destruct (set_next_back st x l1 b H1 Hnd1) as (st1 & -> & Hr1 & Hd1). cbn.
  rewrite (rl_mem _ _ _ Hr1) by set_solver. rewrite Hh. cbn. rewrite HN.
  destruct (set_prev_front st1 b y N l2 0) as (st2 & -> & Hr2 & Hf & Hd2); [|done..|].
  { eapply dseg_frame; [|done]. intros a Ha. eapply relinked_links; [done|]. set_solver. }
  exists st2, N. split; [done|]. split; [by eapply relinked_trans|]. split; [done|].
  split; [|done]. rewrite Hf. eapply dseg_frame; [|done].
  intros a Ha. eapply relinked_links; [done|]. set_solver.
Qed.

(** Removing a node of the free list. *)
Lemma unlink_spec st b l1 l2 :
  dseg (hmem st) 0 (free_list st) (l1 ++ b :: l2) 0 → NoDup (l1 ++ b :: l2) →
  ∃ st', unlink b st = Ok st' ∧ relinked (l1 ++ l2) st st' ∧
         dseg (hmem st') 0 (free_list st') (l1 ++ l2) 0.
Proof.
  intros Hd Hnd. unfold unlink.
  pose proof Hd as (j & _ & (-> & _ & k & (h & Hh & Hp & Hn)%links_lookup & _))%dseg_app.
  unfold rd at 1. rewrite Hh. cbn.
  destruct (relink_spec st b (next h) (prev h) l1 l2 Hd Hnd)
    as (st' & N & -> & Hr & Hl & H1 & H2).
  exists st'. split; [done|]. split; [done|]. apply dseg_app. exists (next h).
  apply links_lookup in Hl as (h' & ? & ? & ?). simplify_eq. split; [done|]. congruence.
Qed.

(** ** Blocks of a represented heap *)

Lemma rep_block st bs fl b :
  heap_rep st bs fl → b ∈ bs →
  heap_start st ≤ baddr b ∧ 0 ≤ bsize b ∧ baddr b + HDR + bsize b ≤ heap_end st ∧
  ∃ h, hmem st !! baddr b = Some h ∧ magic h = magic_of (bused b) ∧ size h = bsize b.
Proof.
  intros [Ht _ _ _ _ _ _] Hb. destruct (tiles_elem _ _ _ _ _ Ht Hb) as (? & ? & ? & Hh).
  apply hdr_lookup in Hh. eauto.
Qed.

(** A used block is not on the free list. *)
Lemma rep_used_notin st bs fl b :
  heap_rep st bs fl → b ∈ bs → bused b = true → baddr b ∉ fl.
Proof.
  intros Hr Hb Hu Hin. pose proof Hr as [Ht _ _ Hf _ _ _].
  apply Hf in Hin as (c & Hc & Ha & Hu').
  assert (c = b) as -> by (eapply tiles_addr_inj; eauto). congruence.
Qed.

Lemma tiles_update m m' s e l1 b b' l2 :
  tiles m s e (l1 ++ b :: l2) → baddr b' = baddr b → bsize b' = bsize b →
  (∀ a, a ≠ baddr b → hdr m' a = hdr m a) →
  hdr m' (baddr b) = Some (magic_of (bused b'), bsize b) →
  tiles m' s e (l1 ++ b' :: l2).
Proof.
  intros Ht Ha Hs Hf Hb. pose proof (tiles_around _ _ _ _ _ _ Ht) as [H1 H2].
  destruct (tiles_elem _ _ _ _ b Ht) as (? & ? & ? & _); [set_solver|].
  pose proof Ht as (k & Ht1 & (<- & ? & ? & Ht2))%tiles_app. apply tiles_app. exists (baddr b).
  split.
  - eapply tiles_frame; [|done]. intros c Hc. apply Hf. pose proof (H1 c Hc).
    destruct (tiles_elem _ _ _ _ c Ht) as (? & ? & ? & _); [set_solver|]. unfold HDR in *. lia.
  - cbn. rewrite Ha, Hs. repeat (split; [done|]).
    eapply tiles_frame; [|done]. intros c Hc. apply Hf. pose proof (H2 c Hc). unfold HDR in *. lia.
Qed.

Lemma mark_used_spec st b h :
  hmem st !! b = Some h → 0 ≤ b → b + HDR < 2 ^ 32 →
  ∃ st', mark_used b st = Ok (b + HDR, st') ∧
    free_list st' = free_list st ∧ heap_start st' = heap_start st ∧
    heap_end st' = heap_end st ∧ heap_cap st' = heap_cap st ∧
    hdr (hmem st') b = Some (MAGIC_USED, size h) ∧
    (∀ a, a ≠ b → hmem st' !! a = hmem st !! a).
Proof.
  intros Hh ? ?. unfold mark_used, upd, rd. rewrite Hh. cbn.
  rewrite u32_small by (unfold HDR in *; lia). eexists. split; [done|].
  repeat (split; [done|]). split.
  - unfold set_hmem. cbn. by rewrite hdr_insert, decide_True.
  - intros a Ha. cbn. by rewrite lookup_insert_ne.
Qed.

Lemma mem_eq_hdr (m m' : gmap Z block_t) a : m' !! a = m !! a → hdr m' a = hdr m a.
Proof. unfold hdr. by intros ->. Qed.
Lemma mem_eq_links (m m' : gmap Z block_t) a : m' !! a = m !! a → links m' a = links m a.
Proof. unfold links. by intros ->. Qed.

(** Taking a whole free block off the list. *)
Lemma take_whole_spec st bs fl t1 t2 b s :
  heap_rep st bs fl → bs = t1 ++ mkBlk b s false :: t2 →
  ∃ st' fl', (st1 ← unlink b st; mark_used b st1) = Ok (b + HDR, st') ∧
    heap_rep st' (t1 ++ mkBlk b s true :: t2) fl' ∧ heap_end st' = heap_end st ∧
    heap_start st' = heap_start st ∧ heap_cap st' = heap_cap st.
Proof.
  intros Hrep ->. pose proof Hrep as [Ht Hd Hnd Hf Hs He Hc].
  destruct (rep_block _ _ _ (mkBlk b s false) Hrep) as (? & ? & ? & h & Hh & Hm & Hsz);
    [set_solver|]. cbn in *.
  assert (b ∈ fl) as (l1 & l2 & ->)%list_elem_of_split.
  { apply Hf. exists (mkBlk b s false). split; [set_solver|done]. }
  destruct (unlink_spec st b l1 l2 Hd Hnd) as (st1 & -> & Hr & Hd1).
  pose proof Hnd as (Hnd1 & Hx & [Hnb Hnd2]%NoDup_cons)%NoDup_app.
  assert (b ∉ l1 ++ l2) as Hb by set_solver.
  assert (hmem st1 !! b = Some h) as Hh1 by (by rewrite (rl_mem _ _ _ Hr)).
  destruct (mark_used_spec st1 b h Hh1) as (st2 & HM & Hfl & Hst & Hen & Hcp & Hhb & Hot);
    [lia|unfold HDR in *; lia|].
  cbn. rewrite HM. exists st2, (l1 ++ l2). split; [done|].
  destruct Hr as [R1 R2 R3 R4 R5]. split; [|repeat split; congruence].
  split; rewrite ?Hfl, ?Hst, ?Hen, ?Hcp, ?R1, ?R2, ?R3; try done.
  - eapply tiles_update; [exact Ht|done|done| |]; cbn.
    + intros a Ha. rewrite (mem_eq_hdr _ _ _ (Hot a Ha)). apply R4.
    + by rewrite Hhb, Hsz.
  - eapply dseg_frame; [|done]. intros a Ha. apply mem_eq_links, Hot. set_solver.
  - apply NoDup_app. split; [done|]. split; [set_solver|done].
  - intros a. split.
    + intros Ha. destruct (proj1 (Hf a)) as (c & Hc1 & Hc2 & Hc3); [set_solver|].
      exists c. split; [|done]. apply elem_of_app in Hc1 as [|[->|]%elem_of_cons]; set_solver.
    + intros (c & Hc1 & <- & Hc3).
      apply elem_of_app in Hc1 as [|[->|]%elem_of_cons]; [|done|].
      all: assert (baddr c ≠ b) by (eapply (tiles_other _ _ _ _ _ _ c b Ht);
        [set_solver|unfold HDR; cbn; lia]).
      all: assert (baddr c ∈ l1 ++ b :: l2) by (apply Hf; exists c; set_solver); set_solver.
Qed.

Lemma split_block_spec st b sz l1 l2 h :
  dseg (hmem st) 0 (free_list st) (l1 ++ b :: l2) 0 → NoDup (l1 ++ b :: l2) →
  hmem st !! b = Some h → magic h = MAGIC_FREE →
  0 < b → 0 ≤ sz → b + HDR + sz < 2 ^ 32 → 0 ≤ size h - sz - HDR < 2 ^ 32 →
  b + HDR + sz ∉ l1 ++ b :: l2 →
  ∃ st', split_block b sz st = Ok st' ∧
    heap_start st' = heap_start st ∧ heap_end st' = heap_end st ∧ heap_cap st' = heap_cap st ∧
    (∀ a, hdr (hmem st') a =
       if decide (a = b) then Some (MAGIC_FREE, sz)
       else if decide (a = b + HDR + sz) then Some (MAGIC_FREE, size h - sz - HDR)
       else hdr (hmem st) a) ∧
    dseg (hmem st') 0 (free_list st') (l1 ++ (b + HDR + sz) :: l2) 0.
Proof.
  intros Hd Hnd Hh Hm Hb0 Hsz Hsp Hrest Hnin. unfold split_block, rd at 1. rewrite Hh. cbn.
  rewrite (u32_small (b + HDR + sz)) by (unfold HDR in *; lia).
  rewrite (u32_small (size h - sz - HDR)) by (unfold HDR in *; lia).
  set (sp := b + HDR + sz) in *.
  set (hs := mkBlock MAGIC_FREE (size h - sz - HDR) (prev h) (next h)).
  set (st1 := set_hmem st (<[sp := hs]> (hmem st))).
  assert (sp ≠ b) as Hspb by (unfold sp, HDR; lia).
  pose proof Hnd as (Hnd1 & Hx & [Hnb Hnd2]%NoDup_cons)%NoDup_app.
  destruct (relink_spec st1 b sp sp l1 l2) as (st2 & N & -> & Hr & Hl & H1 & H2); [|done|].
  { eapply dseg_frame; [|exact Hd]. intros a Ha. cbn. rewrite links_insert.
    rewrite decide_False; [done|]. congruence. }
  destruct Hr as [R1 R2 R3 R4 R5]. cbn.
  assert (hmem st2 !! b = Some h) as Hh2.
  { rewrite R5 by set_solver. cbn. by rewrite lookup_insert_ne. }
  assert (hmem st2 !! sp = Some hs) as Hsp2.
  { rewrite R5 by set_solver. cbn. by rewrite lookup_insert_eq. }
  unfold upd, rd. rewrite Hh2. cbn. eexists. split; [done|].
  cbn. split; [done|]. split; [done|]. split; [done|]. split.
  - intros a. rewrite hdr_insert. cbn. rewrite Hm.
    destruct (decide (b = a)) as [->|]; [by rewrite decide_True|].
    rewrite decide_False by done. rewrite R4. cbn. rewrite hdr_insert.
    destruct (decide (sp = a)) as [->|]; [by rewrite decide_True|]. by rewrite decide_False.
  - assert (∀ a, a ≠ b → links (<[b := set_size sz h]> (hmem st2)) a = links (hmem st2) a) as Hlk.
    { intros a Ha. by rewrite links_insert, decide_False. }
    apply dseg_app. exists sp. split.
    { eapply dseg_frame; [|exact H1]. intros a Ha. apply Hlk. set_solver. }
    cbn. split; [done|]. split; [unfold sp, HDR; lia|]. exists N. split.
    + rewrite Hlk by done. apply links_lookup. exists hs. split; [done|]. cbn.
      apply links_lookup in Hl as (h' & Hh' & ? & ?). cbn in Hh'.
      rewrite lookup_insert_ne in Hh' by done. by simplify_eq.
    + eapply dseg_frame; [|exact H2]. intros a Ha. apply Hlk. set_solver.
Qed.

(** Taking the front of a free block and leaving the rest on the list. *)
Lemma take_split_spec st bs fl t1 t2 b s sz :
  heap_rep st bs fl → bs = t1 ++ mkBlk b s false :: t2 → 0 ≤ sz → sz + HDR ≤ s →
  ∃ st' fl', (st1 ← split_block b sz st; mark_used b st1) = Ok (b + HDR, st') ∧
    heap_rep st' (t1 ++ mkBlk b sz true :: mkBlk (b + HDR + sz) (s - sz - HDR) false :: t2) fl' ∧
    heap_end st' = heap_end st ∧ heap_start st' = heap_start st ∧ heap_cap st' = heap_cap st.
Proof.
  intros Hrep -> Hsz Hfit. pose proof Hrep as [Ht Hd Hnd Hf Hs He Hc].
  destruct (rep_block _ _ _ (mkBlk b s false) Hrep) as (? & ? & ? & h & Hh & Hm & Hsh);
    [set_solver|]. cbn in *.
  assert (b ∈ fl) as (l1 & l2 & ->)%list_elem_of_split.
  { apply Hf. exists (mkBlk b s false). split; [set_solver|done]. }
  pose proof Hnd as (Hnd1 & Hx & [Hnb Hnd2]%NoDup_cons)%NoDup_app.
  assert (∀ c a, c ∈ t1 ∨ c ∈ t2 → b ≤ a < b + HDR + s → baddr c ≠ a) as Hoth.
  { intros c a Hin Ha. by eapply (tiles_other _ _ _ _ (mkBlk b s false)). }
  assert (b + HDR + sz ∉ l1 ++ b :: l2) as Hspn.
  { intros (c & Hin & Hca & _)%Hf. apply elem_of_app in Hin as [Hin|[->|Hin]%elem_of_cons].
    - by eapply (Hoth c (b + HDR + sz)); [left|unfold HDR in *; lia|].
    - cbn in Hca. unfold HDR in *. lia.
    - by eapply (Hoth c (b + HDR + sz)); [right|unfold HDR in *; lia|]. }
  destruct (split_block_spec st b sz l1 l2 h) as (st1 & -> & S1 & S2 & S3 & Hhd & Hd1);
    try (done || (unfold HDR in *; lia)).
  assert (∃ h1, hmem st1 !! b = Some h1 ∧ magic h1 = MAGIC_FREE ∧ size h1 = sz)
    as (h1 & Hh1 & _ & Hs1).
  { apply hdr_lookup. by rewrite Hhd, decide_True. }
  destruct (mark_used_spec st1 b h1 Hh1) as (st2 & HM & Hfl & Hst & Hen & Hcp & Hhb & Hot);
    [lia|unfold HDR in *; lia|].
  cbn. rewrite HM. exists st2, (l1 ++ (b + HDR + sz) :: l2).
  split; [done|]. split; [|repeat split; congruence].
  assert (∀ c, c ∈ t1 ∨ c ∈ t2 → hdr (hmem st2) (baddr c) = hdr (hmem st) (baddr c)) as Hfr.
  { intros c Hin. pose proof (Hoth c b Hin ltac:(unfold HDR in *; lia)).
    pose proof (Hoth c (b + HDR + sz) Hin ltac:(unfold HDR in *; lia)).
    rewrite (mem_eq_hdr _ _ _ (Hot (baddr c) ltac:(done))), Hhd.
    by rewrite !decide_False by done. }
  split; rewrite ?Hfl, ?Hst, ?Hen, ?Hcp, ?S1, ?S2, ?S3; try done.
  - pose proof Ht as (k & Ht1 & (Hk & _ & _ & Ht2))%tiles_app. cbn in Hk. subst k.
    apply tiles_app. exists b. split; [eapply tiles_frame; [|exact Ht1]; auto|].
    cbn. split; [done|]. split; [done|]. split; [by rewrite Hhb, Hs1|].
    split; [done|]. split; [lia|]. split.
    + rewrite (mem_eq_hdr _ _ _ (Hot (b + HDR + sz) ltac:(unfold HDR in *; lia))), Hhd.
      rewrite decide_False by (unfold HDR in *; lia). rewrite decide_True by done. by rewrite Hsh.
    + replace (b + HDR + sz + HDR + (s - sz - HDR)) with (b + HDR + s) by lia.
      eapply tiles_frame; [|exact Ht2]. auto.
  - eapply dseg_frame; [|exact Hd1]. intros a Ha. apply mem_eq_links, Hot.
    unfold HDR in *. intros ->. apply elem_of_app in Ha as [Ha|[?|?]%elem_of_cons]; [set_solver|lia|done].
  - apply NoDup_app. split; [done|]. split; [set_solver|]. constructor; [set_solver|done].
  - intros a. split.
    + intros Ha. destruct (decide (a = b + HDR + sz)) as [->|Hne].
      { exists (mkBlk (b + HDR + sz) (s - sz - HDR) false). split; [set_solver|done]. }
      destruct (proj1 (Hf a)) as (c & Hc1 & Hc2 & Hc3); [set_solver|].
      exists c. split; [|done]. apply elem_of_app in Hc1 as [|[->|]%elem_of_cons]; set_solver.
    + intros (c & Hc1 & <- & Hc3).
      apply elem_of_app in Hc1 as [Hin|[->|[->|Hin]%elem_of_cons]%elem_of_cons]; [|done|set_solver|].
      all: pose proof (Hoth c b ltac:(auto) ltac:(unfold HDR in *; lia)).
      all: assert (baddr c ∈ l1 ++ b :: l2) by (apply Hf; exists c; set_solver); set_solver.
Qed.

(** ** First fit *)

(** [carve bs a sz bs']: the free block at [a] becomes a used block of at least
    [sz] bytes, whole or with its rest left as a free block. *)
Inductive carve : list blk → Z → Z → list blk → Prop :=
| carve_whole t1 t2 a s sz :
    sz ≤ s → carve (t1 ++ mkBlk a s false :: t2) a sz (t1 ++ mkBlk a s true :: t2)
| carve_split t1 t2 a s sz :
    sz + HDR + MIN_SPLIT ≤ s →
    carve (t1 ++ mkBlk a s false :: t2) a sz
          (t1 ++ mkBlk a sz true :: mkBlk (a + HDR + sz) (s - sz - HDR) false :: t2).

Definition same_bounds (st' st : kheap) : Prop :=
  heap_end st' = heap_end st ∧ heap_start st' = heap_start st ∧ heap_cap st' = heap_cap st.

Lemma kmalloc_scan_spec st bs fl sz rest pre b fuel :
  heap_rep st bs fl → 0 ≤ sz → sz + 32 < 2 ^ 32 → fl = pre ++ rest →
  dseg (hmem st) (last_or 0 pre) b rest 0 → (length rest < fuel)%nat →
  (kmalloc_scan fuel b sz st = Ok None ∧
     ∀ c, c ∈ bs → baddr c ∈ rest → bsize c < sz) ∨
  ∃ a st' bs' fl', kmalloc_scan fuel b sz st = Ok (Some (a + HDR, st')) ∧
     carve bs a sz bs' ∧ heap_rep st' bs' fl' ∧ same_bounds st' st.
Proof.
  intros Hrep Hsz Hov. revert rest pre b. induction fuel as [|fuel IH];
    intros rest pre b Hfl Hd Hlen; [lia|].
  destruct rest as [|a rest].
  { cbn in Hd. subst b. left. split; [done|]. set_solver. }
  destruct Hd as (-> & Ha & k & Hl & Hd).
  assert (a ∈ fl) as ([a' s u] & Hc & Ha' & Hu)%(rep_free _ _ _ Hrep) by set_solver.
  cbn in Ha', Hu. subst a' u.
  destruct (rep_block _ _ _ _ Hrep Hc) as (? & ? & ? & h & Hh & Hm & Hs). cbn in *.
  rewrite (proj2 (Z.eqb_neq a 0)) by done. unfold rd. rewrite Hh. cbn. rewrite Hs.
  apply links_lookup in Hl as (h' & Hh' & _ & <-). simplify_eq.
  destruct (Z.ltb_spec (size h') sz) as [Hlt|Hge].
  - destruct (IH rest (pre ++ [a]) (next h')) as [[Hn Hall]|Hsome]; [by rewrite <- app_assoc| |lia| |].
    + by rewrite last_or_snoc.
    + left. split; [done|]. intros c Hcb [Hca|Hin]%elem_of_cons; [|by apply Hall].
      assert (c = mkBlk a (size h') false) as ->; [|done].
      eapply tiles_addr_inj; [apply Hrep|done|done|done].
    + right. exact Hsome.
  - right. apply list_elem_of_split in Hc as (t1 & t2 & Hbs).
    rewrite u32_small by (unfold HDR, MIN_SPLIT; lia).
    destruct (Z.leb_spec (sz + HDR + MIN_SPLIT) (size h')) as [Hfit|Hno].
    + destruct (take_split_spec st bs _ t1 t2 a (size h') sz Hrep Hbs Hsz)
        as (st' & fl' & (st1 & -> & Hmk)%res_bind_Ok & Hrep' & ? & ? & ?);
        [unfold MIN_SPLIT in *; lia|].
      cbn. rewrite Hmk. cbn. do 4 eexists. split; [done|]. split; [|done].
      rewrite Hbs. by apply carve_split.
    + destruct (take_whole_spec st bs _ t1 t2 a (size h') Hrep Hbs)
        as (st' & fl' & (st1 & -> & Hmk)%res_bind_Ok & Hrep' & ? & ? & ?).
      cbn. rewrite Hmk. cbn. do 4 eexists. split; [done|]. split; [|done].
      rewrite Hbs. by apply carve_whole.
Qed.

(** ** Growing the heap *)

Lemma extend_heap_spec st bs fl need :
  heap_rep st bs fl → 0 ≤ need → heap_cap st + HDR + need < 2 ^ 32 →
  (heap_cap st < heap_end st + HDR + need ∧ extend_heap need st = Ok (0, st)) ∨
  (heap_end st + HDR + need ≤ heap_cap st ∧
   ∃ st', extend_heap need st = Ok (heap_end st, st') ∧
     heap_rep st' (bs ++ [mkBlk (heap_end st) need false]) (heap_end st :: fl) ∧
     heap_end st' = heap_end st + HDR + need ∧
     heap_start st' = heap_start st ∧ heap_cap st' = heap_cap st).
Proof.
  intros Hrep Hn Hov. pose proof Hrep as [Ht Hd Hnd Hf Hs He Hc].
  pose proof (tiles_le _ _ _ _ Ht). unfold extend_heap.
  rewrite (u32_small (HDR + need)) by (unfold HDR in *; lia).
  rewrite (u32_small (heap_end st + (HDR + need))) by (unfold HDR in *; lia).
  destruct (Z.ltb_spec (heap_cap st) (heap_end st + (HDR + need))); [left; split; [lia|done]|].
  right. split; [lia|]. set (e := heap_end st) in *.
  assert (∀ c, c ∈ bs → baddr c ≠ e) as Hne.
  { intros c Hin. destruct (tiles_elem _ _ _ _ _ Ht Hin) as (? & ? & ? & _). unfold HDR in *. lia. }
  assert (e ∉ fl) as Hefl by (intros (c & ? & ? & _)%Hf; by eapply Hne).
  set (m1 := <[e := mkBlock MAGIC_FREE need 0 (free_list st)]> (hmem st)).
  destruct (set_prev_front (set_hmem st m1) 0 e (free_list st) fl 0) as (st2 & Hst2 & Hr & Hfl & Hd2);
    [|done|done|].
  { eapply dseg_frame; [|exact Hd]. intros a Ha. cbn. unfold m1. rewrite links_insert.
    rewrite decide_False; [done|]. congruence. }
  cbn in *. rewrite Hst2. cbn. eexists. split; [done|].
  destruct Hr as [R1 R2 R3 R4 R5]. cbn in *.
  split; [|split; [lia|done]]. split; cbn; rewrite ?R1, ?R2, ?R3; try (done || lia).
  - apply tiles_app. exists e. split.
    + eapply tiles_frame; [|exact Ht]. intros c Hin. rewrite R4. unfold m1.
      rewrite hdr_insert. rewrite decide_False; [done|]. intros Heq. by apply (Hne c).
    + cbn. repeat (split; [done|]). split; [|lia].
      rewrite R4. unfold m1. by rewrite hdr_insert, decide_True.
  - split; [done|]. split; [lia|]. exists (free_list st). split; [|done].
    unfold links. rewrite R5 by done. unfold m1. by rewrite lookup_insert_eq.
  - by constructor.
  - intros a. rewrite elem_of_cons, Hf. split.
    + intros [->|(c & ? & ? & ?)]; [|exists c; set_solver].
      exists (mkBlk e need false). set_solver.
    + intros (c & [?|Hin]%elem_of_app & <- & ?); [right; eauto|left].
      apply list_elem_of_singleton in Hin as ->. done.
Qed.

(** ** Allocation *)

Definition used_blocks (bs : list blk) : list blk := filter (λ b, bused b = true) bs.

Definition disjoint_blk (b c : blk) : Prop :=
  baddr b + HDR + bsize b ≤ baddr c ∨ baddr c + HDR + bsize c ≤ baddr b.

Lemma tiles_disjoint m s e bs b c :
  tiles m s e bs → b ∈ bs → c ∈ bs → b ≠ c → disjoint_blk b c.
Proof.
  intros Ht (l1 & l2 & ->)%list_elem_of_split Hc Hne.
  destruct (tiles_around _ _ _ _ _ _ Ht) as [H1 H2].
  apply elem_of_app in Hc as [Hc|[->|Hc]%elem_of_cons]; [right; auto|done|left; auto].
Qed.

Lemma round8_spec sz :
  0 ≤ sz → sz + 7 < 2 ^ 32 → sz ≤ round8 sz ≤ sz + 7 ∧ (8 | round8 sz).
Proof.
  intros. unfold round8. rewrite u32_small by lia.
  change (Z.lnot 7) with (Z.lnot (Z.ones 3)).
  rewrite <- Z.ldiff_land, Z.ldiff_ones_r by lia.
  rewrite Z.shiftl_mul_pow2, Z.shiftr_div_pow2 by lia. change (2 ^ 3) with 8.
  split; [Z.div_mod_to_equations; lia|]. by exists ((sz + 7) / 8).
Qed.

Lemma carve_used bs a sz bs' :
  carve bs a sz bs' →
  ∃ n, sz ≤ n ∧ used_blocks bs' ≡ₚ mkBlk a n true :: used_blocks bs.
Proof.
  destruct 1 as [t1 t2 a s sz|t1 t2 a s sz]; unfold used_blocks; rewrite !filter_app; cbn;
    rewrite ?filter_cons; cbn.
  - exists s. split; [done|]. symmetry. apply Permutation_middle.
  - exists sz. split; [lia|]. symmetry. apply Permutation_middle.
Qed.

Lemma used_blocks_elem bs b : b ∈ used_blocks bs ↔ b ∈ bs ∧ bused b = true.
Proof. unfold used_blocks. rewrite list_elem_of_filter. naive_solver. Qed.

Lemma kmalloc_cases fuel sz st bs fl :
  heap_rep st bs fl → 0 < sz → heap_cap st + sz + 48 < 2 ^ 32 → (length fl < fuel)%nat →
  (kmalloc fuel sz st = Ok (0, st) ∧
     (∀ c, c ∈ bs → bused c = false → bsize c < round8 sz) ∧
     heap_cap st < heap_end st + HDR + round8 sz) ∨
  ∃ a n st' bs' fl', kmalloc fuel sz st = Ok (a + HDR, st') ∧ heap_rep st' bs' fl' ∧
     round8 sz ≤ n ∧ used_blocks bs' ≡ₚ mkBlk a n true :: used_blocks bs ∧
     heap_end st ≤ heap_end st' ∧ heap_start st' = heap_start st ∧ heap_cap st' = heap_cap st.
Proof.
  intros Hrep Hsz Hov Hfuel. pose proof Hrep as [Ht Hd Hnd Hf Hs He Hc].
  pose proof (tiles_le _ _ _ _ Ht).
  destruct (round8_spec sz) as [Hr8 _]; [lia..|].
  unfold kmalloc. rewrite (proj2 (Z.eqb_neq sz 0)) by lia. cbn zeta.
  destruct (kmalloc_scan_spec st bs fl (round8 sz) fl [] (free_list st) fuel)
    as [[-> Hall]|(a & st' & bs' & fl' & -> & Hcv & Hrep' & (? & ? & ?))]; try (done || lia).
  - cbn. destruct (extend_heap_spec st bs fl (round8 sz) Hrep)
      as [[? ->]|(? & st1 & -> & Hrep1 & He1 & Hs1 & Hc1)];
      [lia|unfold HDR; lia| |].
    + left. cbn. split; [done|]. split; [|done]. intros c Hin Hu. apply Hall; [done|].
      apply Hf. eauto.
    + right. cbn. rewrite (proj2 (Z.eqb_neq (heap_end st) 0)) by lia.
      destruct (take_whole_spec st1 _ _ bs [] (heap_end st) (round8 sz) Hrep1 eq_refl)
        as (st2 & fl2 & -> & Hrep2 & ? & ? & ?).
      exists (heap_end st), (round8 sz), st2, (bs ++ [mkBlk (heap_end st) (round8 sz) true]), fl2.
      repeat (split; [done || (unfold HDR in *; lia)|]). split; [|split; [|split]].
      * unfold used_blocks. rewrite filter_app. cbn.
        by rewrite Permutation_app_comm.
      * unfold HDR in *; lia.
      * congruence.
      * congruence.
  - right. cbn. destruct (carve_used _ _ _ _ Hcv) as (n & Hn & Hp).
    exists a, n, st', bs', fl'. repeat (split; [done || lia|]). done.
Qed.

(** ** Release *)

(** The free block behind another is unlinked, and the other takes its room. *)
Lemma merge_rep st st2 t1 a n s t2 l1 l2 :
  heap_rep st (t1 ++ mkBlk a n false :: mkBlk (a + HDR + n) s false :: t2) (l1 ++ (a + HDR + n) :: l2) →
  same_bounds st2 st → dseg (hmem st2) 0 (free_list st2) (l1 ++ l2) 0 →
  (∀ c, hdr (hmem st2) c = if decide (a = c) then Some (MAGIC_FREE, n + HDR + s) else hdr (hmem st) c) →
  heap_rep st2 (t1 ++ mkBlk a (n + HDR + s) false :: t2) (l1 ++ l2).
Proof.
  intros [Ht Hd Hnd Hf Hs He Hc] (R1 & R2 & R3) Hd2 R4.
  pose proof Ht as (k & Ht1 & (Hk & Hn & _ & _ & Hs0 & _ & Ht2))%tiles_app. cbn in Hk, Hn, Hs0, Ht2. subst k.
  pose proof Hnd as (Hnd1 & Hx & [Hnb Hnd2]%NoDup_cons)%NoDup_app.
  assert (∀ c, c ∈ t1 ∨ c ∈ mkBlk (a + HDR + n) s false :: t2 → baddr c ≠ a) as Hoth.
  { intros c Hin. eapply (tiles_other _ _ _ _ _ _ c a Ht); [done|]. cbn. unfold HDR. lia. }
  assert (∀ c, c ∈ t1 ∨ c ∈ t2 → baddr c ≠ a + HDR + n) as Hoth2.
  { intros c Hin. replace (t1 ++ mkBlk a n false :: mkBlk (a + HDR + n) s false :: t2)
      with ((t1 ++ [mkBlk a n false]) ++ mkBlk (a + HDR + n) s false :: t2) in Ht by by rewrite <- app_assoc.
    eapply (tiles_other _ _ _ _ _ _ c (a + HDR + n) Ht); [set_solver|]. cbn. unfold HDR. lia. }
  split; rewrite ?R1, ?R2, ?R3; try done.
  - apply tiles_app. exists a. split.
    + eapply tiles_frame; [|exact Ht1]. intros c Hin. rewrite R4, decide_False; [done|]. intros Heq. by eapply (Hoth c); [left|].
    + cbn. split; [done|]. split; [unfold HDR; lia|]. split; [by rewrite R4, decide_True|].
      replace (a + HDR + (n + HDR + s)) with (a + HDR + n + HDR + s) by lia.
      eapply tiles_frame; [|exact Ht2]. intros c Hin. rewrite R4, decide_False; [done|]. intros Heq. by eapply (Hoth c); [set_solver|].
  - apply NoDup_app. split; [done|]. split; [set_solver|done].
  - intros b. split.
    + intros Hb. destruct (proj1 (Hf b)) as (c & Hc1 & Hc2 & Hc3); [set_solver|].
      apply elem_of_app in Hc1 as [?|[->|[->|?]%elem_of_cons]%elem_of_cons]; [exists c; set_solver| |cbn in Hc2; set_solver|exists c; set_solver].
      exists (mkBlk a (n + HDR + s) false). set_solver.
    + intros (c & Hc1 & <- & Hc3). apply elem_of_app in Hc1 as [?|[->|?]%elem_of_cons].
      2: { assert (a ∈ l1 ++ (a + HDR + n) :: l2) as Hin by (apply Hf; exists (mkBlk a n false); set_solver).
           cbn. apply elem_of_app in Hin as [|[?|]%elem_of_cons]; [set_solver| |set_solver]. unfold HDR in *. lia. }
      all: pose proof (Hoth2 c ltac:(auto)); assert (baddr c ∈ l1 ++ (a + HDR + n) :: l2) by (apply Hf; exists c; set_solver); set_solver.
Qed.

(** A free block of payload [n] at [a] followed by the blocks [t]: it takes in the
    next block, header and payload, when that one is free, and no other. *)
Definition absorb (a n : Z) (t : list blk) : list blk :=
  match t with
  | mkBlk _ s false :: t' => mkBlk a (n + HDR + s) false :: t'
  | _ => mkBlk a n false :: t
  end.

Lemma used_absorb a n t : used_blocks (absorb a n t) = used_blocks t.
Proof. by destruct t as [|[? ? []] t]. Qed.

Lemma coalesce_spec st t1 a n t2 fl :
  heap_rep st (t1 ++ mkBlk a n false :: t2) fl →
  ∃ st' fl', coalesce a st = Ok st' ∧ heap_rep st' (t1 ++ absorb a n t2) fl' ∧ same_bounds st' st.
Proof.
  intros Hrep. pose proof Hrep as [Ht Hd Hnd Hf Hs He Hc].
  destruct (rep_block _ _ _ (mkBlk a n false) Hrep) as (? & ? & ? & h & Hh & Hm & Hsz);
    [set_solver|]. cbn in *.
  unfold coalesce, rd. rewrite Hh. cbn. rewrite Hsz, u32_small by (unfold HDR in *; lia).
  pose proof Ht as (k & Ht1 & (Hk & _ & _ & Ht2))%tiles_app. cbn in Hk. subst k.
  destruct (Z.ltb_spec (a + HDR + n) (heap_end st)) as [Hlt|Hge].
  2:{ destruct t2 as [|[a2 s u] t2]; [by exists st, fl|]. cbn in Ht2. destruct Ht2 as (-> & ? & _ & Ht2).
      pose proof (tiles_le _ _ _ _ Ht2). unfold HDR in *. lia. }
  destruct t2 as [|[a2 s u] t2]; [cbn in Ht2; lia|].
  destruct Ht2 as (Ha2 & Hs2 & Hh2 & Ht2). cbn in Ha2, Hs2, Hh2, Ht2. subst a2.
  apply hdr_lookup in Hh2 as (h2 & Hh2 & Hm2 & Hsz2). rewrite Hh2. cbn. rewrite Hm2, Hsz2.
  destruct u; cbn; [by exists st, fl|].
  destruct (tiles_elem _ _ _ _ (mkBlk (a + HDR + n) s false) Ht) as (? & ? & ? & _);
    [set_solver|]. cbn in *.
  unfold upd at 1, rd at 1. rewrite Hh. cbn.
  rewrite u32_small by (unfold HDR in *; lia).
  set (h' := set_size (n + HDR + s) h). set (st1 := set_hmem st (<[a := h']> (hmem st))).
  assert (a + HDR + n ∈ fl) as (l1 & l2 & ->)%list_elem_of_split.
  { apply Hf. exists (mkBlk (a + HDR + n) s false). set_solver. }
  destruct (unlink_spec st1 (a + HDR + n) l1 l2) as (st2 & -> & [R1 R2 R3 R4 R5] & Hd2); [|done|].
  { eapply dseg_frame; [|exact Hd]. intros c Hin. cbn. rewrite links_insert.
    case_decide; [|done]. subst. unfold links. by rewrite Hh. }
  exists st2, (l1 ++ l2). split; [done|]. split; [|by split].
  apply (merge_rep st); [done|by split|done|]. intros c. rewrite R4. cbn. rewrite hdr_insert. case_decide; [|done]. cbn. by rewrite Hm.
Qed.

Lemma kfree_cases st t1 a n t2 fl :
  heap_rep st (t1 ++ mkBlk a n true :: t2) fl →
  ∃ st' fl', kfree (a + HDR) st = Ok st' ∧ heap_rep st' (t1 ++ absorb a n t2) fl' ∧ same_bounds st' st.
Proof.
  intros Hrep. pose proof Hrep as [Ht Hd Hnd Hf Hs He Hc].
  assert (mkBlk a n true ∈ t1 ++ mkBlk a n true :: t2) as Hin by set_solver.
  destruct (rep_block _ _ _ _ Hrep Hin) as (? & ? & ? & h & Hh & Hm & Hsz). cbn in *.
  pose proof (rep_used_notin _ _ _ _ Hrep Hin eq_refl) as Hna. cbn in Hna.
  unfold kfree. rewrite (proj2 (Z.eqb_neq (a + HDR) 0)) by (unfold HDR; lia). cbn zeta.
  rewrite u32_small by (unfold HDR in *; lia). replace (a + HDR - HDR) with a by lia.
  unfold rd at 1. rewrite Hh. cbn [mbind res_bind res_of].
  rewrite Hm. change (negb (MAGIC_USED =? MAGIC_USED)) with false. cbv iota.
  rewrite (upd_ok st a h _ Hh). cbn [mbind res_bind].
  set (h' := set_next _ _). set (st1 := set_hmem st (<[a := h']> (hmem st))).
  destruct (set_prev_front st1 0 a (free_list st1) fl 0) as (st2 & -> & Hr & Hfl & Hd2);
    [|done|done|].
  { eapply dseg_frame; [|exact Hd]. intros c Hcin. cbn. rewrite links_insert.
    rewrite decide_False; [done|]. congruence. }
  destruct Hr as [R1 R2 R3 R4 R5]. cbn in *.
  assert (heap_rep (set_free_list st2 a) (t1 ++ mkBlk a n false :: t2) (a :: fl)) as Hrep2.
  { split; cbn; rewrite ?R1, ?R2, ?R3; try done.
    - eapply tiles_update; [exact Ht|done|done| |]; cbn.
      + intros c Hca. rewrite R4, hdr_insert. by rewrite decide_False.
      + rewrite R4, hdr_insert, decide_True by done. cbn. by rewrite Hsz.
    - split; [done|]. split; [lia|]. exists (free_list st). split; [|done].
      unfold links. rewrite R5 by done. cbn. by rewrite lookup_insert_eq.
    - by constructor.
    - intros c. rewrite elem_of_cons, Hf. split.
      + intros [->|(d & Hd1 & ? & ?)]; [exists (mkBlk a n false); set_solver|].
        exists d. split; [|done]. apply elem_of_app in Hd1 as [|[->|]%elem_of_cons]; set_solver.
      + intros (d & Hd1 & <- & ?). apply elem_of_app in Hd1 as [|[->|]%elem_of_cons];
          [right|by left|right]; exists d; set_solver. }
  destruct (coalesce_spec _ _ _ _ _ _ Hrep2) as (st3 & fl' & -> & Hrep3 & Hbd).
  exists st3, fl'. split; [done|]. split; [done|].
  unfold same_bounds in *. cbn in Hbd. rewrite R1, R2, R3 in Hbd. done.
Qed.

(** ** Accounting *)

Lemma sum_size_bounds f bs m s e :
  tiles m s e bs → 0 ≤ sum_size f bs ≤ e - s.
Proof.
  unfold sum_size. revert s. induction bs as [|b bs IH]; intros s; cbn; [lia|].
  intros (_ & ? & _ & Ht%IH). unfold HDR in *. destruct (f b); lia.
Qed.

Lemma kmalloc_used_loop_spec st bs pos acc fuel :
  tiles (hmem st) pos (heap_end st) bs → 0 ≤ pos → 0 ≤ acc → heap_end st < 2 ^ 32 →
  acc + sum_size bused bs < 2 ^ 32 → (length bs < fuel)%nat →
  kmalloc_used_loop fuel pos acc st = Ok (acc + sum_size bused bs).
Proof.
  revert pos acc fuel. induction bs as [|b bs IH]; intros pos acc fuel Ht Hp Ha He Hs Hf;
    (destruct fuel as [|fuel]; [lia|]); cbn in Ht; cbn [kmalloc_used_loop].
  - subst. rewrite Z.ltb_irrefl. cbn. f_equal. lia.
  - destruct Ht as (<- & ? & (h & Hh & Hm & Hsz)%hdr_lookup & Ht).
    pose proof (tiles_le _ _ _ _ Ht). pose proof (sum_size_bounds bused _ _ _ _ Ht).
    rewrite (proj2 (Z.ltb_lt _ _)) by (unfold HDR in *; lia).
    unfold rd. rewrite Hh. cbn [mbind res_bind res_of]. rewrite Hm, Hsz.
    rewrite (u32_small (baddr b + HDR + bsize b)) by (unfold HDR in *; lia).
    cbn [sum_size foldr] in *. unfold sum_size in *. cbn [foldr] in *.
    destruct (bused b); cbn [magic_of]; cbn in Hf.
    + change (MAGIC_USED =? MAGIC_USED) with true. cbv iota.
      rewrite u32_small by lia. rewrite IH; try (done || lia).
      * f_equal. lia.
      * unfold HDR in *. lia.
    + change (MAGIC_FREE =? MAGIC_USED) with false. cbv iota.
      rewrite IH; try (done || (unfold HDR in *; lia)).
Qed.

(** Sum of the payload sizes read at a list of addresses. *)
Definition size_at (m : gmap Z block_t) (a : Z) : Z :=
  match m !! a with Some h => size h | None => 0 end.
Definition sum_at (m : gmap Z block_t) (l : list Z) : Z :=
  foldr (λ a acc, size_at m a + acc) 0 l.

Lemma sum_at_perm m l k : l ≡ₚ k → sum_at m l = sum_at m k.
Proof. induction 1; cbn; unfold sum_at in *; cbn in *; lia. Qed.

Lemma sum_at_free m s e bs :
  tiles m s e bs →
  sum_at m (baddr <$> filter (λ b, bused b = false) bs) = sum_size (λ b, negb (bused b)) bs.
Proof.
  revert s. induction bs as [|b bs IH]; intros s; [done|].
  cbn [tiles]. intros (<- & _ & (h & Hh & _ & Hsz)%hdr_lookup & Ht%IH).
  rewrite filter_cons. unfold sum_size in *. cbn [foldr].
  destruct (bused b) eqn:Eb; cbn.
  - done.
  - assert (size_at m (baddr b) = bsize b) as Hsa by (unfold size_at; by rewrite Hh).
    unfold sum_at in *. rewrite decide_True by done. cbn. rewrite Hsa. lia.
Qed.

Lemma rep_free_perm st bs fl :
  heap_rep st bs fl → fl ≡ₚ baddr <$> filter (λ b, bused b = false) bs.
Proof.
  intros [Ht _ Hnd Hf _ _ _]. apply NoDup_Permutation; [done| |].
  - revert Ht. generalize (heap_start st) as s. clear. revert bs.
    induction bs as [|b bs IH]; intros s Ht; [constructor|].
    pose proof (tiles_around _ _ _ [] b bs Ht) as [_ H2].
    cbn in Ht. destruct Ht as (<- & ? & _ & Ht).
    rewrite filter_cons. case_decide; [|by eapply IH]. cbn. constructor; [|by eapply IH].
    intros (c & Hc & [_ Hin]%list_elem_of_filter)%list_elem_of_fmap.
    pose proof (H2 c Hin). unfold HDR in *. lia.
  - intros a. rewrite Hf, list_elem_of_fmap. setoid_rewrite list_elem_of_filter. naive_solver.
Qed.

Lemma kmalloc_free_loop_spec st p b l acc fuel :
  dseg (hmem st) p b l 0 → 0 ≤ acc →
  (∀ a, a ∈ l → 0 ≤ size_at (hmem st) a) → acc + sum_at (hmem st) l < 2 ^ 32 →
  (length l < fuel)%nat →
  kmalloc_free_loop fuel b acc st = Ok (acc + sum_at (hmem st) l).
Proof.
  revert p b acc fuel. induction l as [|a l IH]; intros p b acc fuel Hd Ha Hpos Hs Hf;
    (destruct fuel as [|fuel]; [lia|]); cbn [kmalloc_free_loop].
  - cbn in Hd. subst. cbn. f_equal. lia.
  - destruct Hd as (-> & Hne & k & (h & Hh & _ & <-)%links_lookup & Hd).
    rewrite (proj2 (Z.eqb_neq a 0)) by done. unfold rd. rewrite Hh. cbn [mbind res_bind res_of].
    pose proof (Hpos a ltac:(set_solver)) as Hp. unfold sum_at in *. cbn [foldr] in *.
    assert (0 ≤ foldr (λ a acc, size_at (hmem st) a + acc) 0 l) as Hl.
    { clear -Hpos. induction l as [|c l IH]; cbn; [done|].
      pose proof (Hpos c ltac:(set_solver)). assert (∀ x, x ∈ a :: l → 0 ≤ size_at (hmem st) x).
      { set_solver. } specialize (IH H0). lia. }
    assert (size_at (hmem st) a = size h) as Hsa by (unfold size_at; by rewrite Hh).
    rewrite Hsa in *. rewrite u32_small by lia. cbn in Hf. rewrite (IH a); try (done || lia).
    + f_equal. lia.
    + set_solver.
Qed.

(** A heap just set up is represented by no blocks. *)
Lemma heap_rep_empty st :
  free_list st = 0 → heap_end st = heap_start st → 0 < heap_start st →
  heap_end st ≤ heap_cap st → heap_cap st < 2 ^ 32 → heap_rep st [] [].
Proof.
  intros Hf He ? ? ?. split; cbn; try done.
  - constructor.
  - intros a. split; [set_solver|]. intros (b & Hb & _). set_solver.
Qed.

(** ** Runs of the allocator *)

(** A caller allocates with a request that leaves the address arithmetic within
    32 bits, or releases NULL or the payload of a block that is still a block of
    the heap (twice, if it likes). *)
Inductive heap_step (st st' : kheap) : Prop :=
| step_malloc fuel sz r :
    kmalloc fuel sz st = Ok (r, st') → 0 ≤ sz → heap_cap st + sz + 48 < 2 ^ 32 →
    heap_step st st'
| step_free bs fl b :
    heap_rep st bs fl → b ∈ bs → kfree (baddr b + HDR) st = Ok st' → heap_step st st'
| step_free_null : kfree 0 st = Ok st' → heap_step st st'.

Lemma kmalloc_scan_fuel fuel b sz st r :
  kmalloc_scan fuel b sz st = Ok r → ∀ k, kmalloc_scan (fuel + k) b sz st = Ok r.
Proof.
  revert b. induction fuel as [|fuel IH]; intros b; cbn; [done|].
  destruct (b =? 0); [done|]. intros (h & -> & Hr)%res_bind_Ok k. cbn.
  destruct (size h <? sz); [by apply IH|done].
Qed.

Lemma kmalloc_fuel fuel sz st r :
  kmalloc fuel sz st = Ok r → ∀ k, kmalloc (fuel + k) sz st = Ok r.
Proof.
  unfold kmalloc. destruct (sz =? 0); [done|]. cbn zeta.
  intros (o & Ho & Hr)%res_bind_Ok k. rewrite (kmalloc_scan_fuel _ _ _ _ _ Ho). done.
Qed.

Lemma kfree_twice st bs fl a n :
  heap_rep st bs fl → mkBlk a n false ∈ bs → kfree (a + HDR) st = Ok st.
Proof.
  intros Hrep Hin. pose proof (rep_start _ _ _ Hrep). pose proof (rep_end _ _ _ Hrep).
  pose proof (rep_cap _ _ _ Hrep).
  destruct (rep_block _ _ _ _ Hrep Hin) as (? & ? & ? & h & Hh & Hm & Hsz). cbn in *.
  unfold kfree. rewrite (proj2 (Z.eqb_neq (a + HDR) 0)) by (unfold HDR; lia). cbn zeta.
  rewrite u32_small by (unfold HDR in *; lia). replace (a + HDR - HDR) with a by lia.
  unfold rd at 1. rewrite Hh. cbn [mbind res_bind res_of]. by rewrite Hm.
Qed.

Lemma heap_step_rep st st' :
  (∃ bs fl, heap_rep st bs fl) → heap_step st st' → ∃ bs fl, heap_rep st' bs fl.
Proof.
  intros (bs & fl & Hrep) [fuel sz r Hk Hsz Hov|bs2 fl2 [a n u] Hrep2 Hb Hk|Hk].
  - destruct (decide (sz = 0)) as [->|Hnz].
    { unfold kmalloc in Hk. cbn in Hk. simplify_eq. eauto. }
    apply (kmalloc_fuel _ _ _ _) with (k := S (length fl)) in Hk.
    destruct (kmalloc_cases (fuel + S (length fl)) sz st bs fl Hrep)
      as [(Hk2 & _)|(a & n & st2 & bs' & fl' & Hk2 & ? & _)]; [lia|lia|lia| |];
      rewrite Hk2 in Hk; simplify_eq; eauto.
  - cbn in Hk. destruct u.
    + apply list_elem_of_split in Hb as (t1 & t2 & ->).
      destruct (kfree_cases _ _ _ _ _ _ Hrep2) as (st2 & fl' & Hk2 & ? & _).
      rewrite Hk2 in Hk. simplify_eq. eauto.
    + rewrite (kfree_twice _ _ _ _ _ Hrep2 Hb) in Hk. simplify_eq. eauto.
  - cbn in Hk. simplify_eq. eauto.
Qed.

(** ** Properties *)

(** C1: on a well-formed heap [kmalloc] terminates.  It either returns a
    payload of at least the requested size inside the heap whose block is
    disjoint from every block allocated before, all of which stay allocated, and
    the heap stays well formed; or it returns NULL, leaves the state alone, and
    then no free block and no growth could have served the request. *)
Theorem kmalloc_correct fuel sz st bs fl :
  heap_rep st bs fl → 0 < sz → heap_cap st + sz + 48 < 2 ^ 32 → (length fl < fuel)%nat →
  (kmalloc fuel sz st = Ok (0, st) ∧
     (∀ c, c ∈ bs → bused c = false → bsize c < round8 sz) ∧
     heap_cap st < heap_end st + HDR + round8 sz) ∨
  ∃ b st' bs' fl', kmalloc fuel sz st = Ok (baddr b + HDR, st') ∧
     heap_rep st' bs' fl' ∧ sz ≤ bsize b ∧
     heap_start st ≤ baddr b ∧ baddr b + HDR + bsize b ≤ heap_cap st ∧
     used_blocks bs' ≡ₚ b :: used_blocks bs ∧
     ∀ c, c ∈ used_blocks bs → disjoint_blk b c.
Proof.
  intros Hrep Hsz Hov Hfuel.
  destruct (kmalloc_cases fuel sz st bs fl Hrep Hsz Hov Hfuel)
    as [?|(a & n & st' & bs' & fl' & Hk & Hrep' & Hn & Hp & He & Hs & Hc)]; [by left|right].
  destruct (round8_spec sz) as [Hr8 _];
    [lia|pose proof (rep_start _ _ _ Hrep); pose proof (rep_end _ _ _ Hrep);
         pose proof (tiles_le _ _ _ _ (rep_tiles _ _ _ Hrep)); lia|].
  exists (mkBlk a n true), st', bs', fl'. cbn. split; [done|]. split; [done|]. split; [lia|].
  assert (∀ c, c = mkBlk a n true ∨ c ∈ used_blocks bs → c ∈ bs') as Hin.
  { intros c Hc'. eapply proj1, used_blocks_elem. rewrite Hp. by apply elem_of_cons. }
  destruct (rep_block _ _ _ _ Hrep' (Hin _ (or_introl eq_refl))) as (? & ? & ? & _). cbn in *.
  pose proof (rep_end _ _ _ Hrep'). split; [lia|]. split; [lia|]. split; [done|].
  intros c Hcu. eapply tiles_disjoint; [exact (rep_tiles _ _ _ Hrep')|by auto|by auto|].
  intros <-.
  assert (NoDup (used_blocks bs')) as Hnd.
  { apply NoDup_filter. pose proof (rep_tiles _ _ _ Hrep') as Ht. revert Ht.
    generalize (heap_start st'). clear. induction bs' as [|b bs' IH]; intros s Ht; [constructor|].
    pose proof (tiles_around _ _ _ [] b bs' Ht) as [_ H2]. destruct Ht as (_ & ? & _ & Ht).
    constructor; [|by eapply IH]. intros Hb. pose proof (H2 b Hb). unfold HDR in *. lia. }
  rewrite Hp in Hnd. by apply NoDup_cons in Hnd as [? _].
Qed.

(** The heap as [kernel_main] sets it up, and after one allocation. *)
Definition heap0 : kheap := kmalloc_init 0x200000 0x80000 (mkHeap 0 0 0 0 ∅).
Definition heap1 : kheap :=
  mkHeap 0 0x200000 0x200078 0x280000 {[0x200000 := mkBlock MAGIC_USED 104 0 0]}.

Lemma heap0_rep : heap_rep heap0 [] [].
Proof. apply heap_rep_empty; vm_compute; done. Qed.

Lemma heap1_rep : heap_rep heap1 [mkBlk 0x200000 104 true] [].
Proof.
  split; cbn; try (reflexivity || lia).
  - repeat split; try reflexivity. lia.
  - constructor.
  - intros a. split; [set_solver|].
    intros (b & Hb%list_elem_of_singleton & _ & Hu). by subst.
Qed.

Lemma kmalloc_correct_witness :
  ∃ b st', kmalloc 1 100 heap0 = Ok (baddr b + HDR, st') ∧ 100 ≤ bsize b.
Proof.
  destruct (kmalloc_correct 1 100 heap0 [] []) as [(H & _)|(b & st' & bs' & fl' & H & _ & Hs & _)].
  - exact heap0_rep.
  - lia.
  - vm_compute. reflexivity.
  - cbn. lia.
  - exfalso. vm_compute in H. discriminate.
  - exists b, st'. split; [exact H|exact Hs].
Defined.

(** C2: releasing an allocated block leaves exactly the blocks there were, with this
    one free and, when the block above it is free, merged with it into one block of
    both payloads and the header between them (a free block below it stays apart):
    every other allocation stays as it was and the heap well formed, with that block
    list. Releasing a block that is already free changes nothing. *)
Theorem kfree_correct st t1 b t2 fl :
  heap_rep st (t1 ++ b :: t2) fl →
  if bused b then
    ∃ st' fl', kfree (baddr b + HDR) st = Ok st' ∧
      heap_rep st' (t1 ++ absorb (baddr b) (bsize b) t2) fl' ∧ same_bounds st' st ∧
      used_blocks (t1 ++ b :: t2) ≡ₚ b :: used_blocks (t1 ++ absorb (baddr b) (bsize b) t2)
  else kfree (baddr b + HDR) st = Ok st.
Proof.
  destruct b as [a n u]. intros Hrep. cbn. destruct u; [|apply (kfree_twice _ _ _ _ n Hrep); set_solver].
  destruct (kfree_cases _ _ _ _ _ _ Hrep) as (st' & fl' & ? & ? & ?).
  exists st', fl'. do 3 (split; [done|]). unfold used_blocks at 1 2. rewrite !filter_app.
  fold (used_blocks (absorb a n t2)). rewrite used_absorb. cbn. by rewrite Permutation_middle.
Qed.

(** An allocated block below a free one. *)
Definition heap2 : kheap :=
  mkHeap 0x200078 0x200000 0x2000B0 0x280000
    {[0x200000 := mkBlock MAGIC_USED 104 0 0; 0x200078 := mkBlock MAGIC_FREE 40 0 0]}.

Lemma heap2_rep : heap_rep heap2 [mkBlk 0x200000 104 true; mkBlk 0x200078 40 false] [0x200078].
Proof.
  split; cbn; try (reflexivity || lia).
  - repeat split; try reflexivity; lia.
  - split; [reflexivity|]. split; [lia|]. exists 0. split; reflexivity.
  - apply NoDup_singleton.
  - intros a. rewrite list_elem_of_singleton. split.
    + intros ->. exists (mkBlk 0x200078 40 false). set_solver.
    + intros (b & [->|[->|Hb]%elem_of_cons]%elem_of_cons & <- & Hu); [discriminate|reflexivity|set_solver].
Qed.

Lemma kfree_correct_witness :
  ∃ st' fl', kfree 0x200010 heap2 = Ok st' ∧ heap_rep st' [mkBlk 0x200000 160 false] fl'.
Proof.
  destruct (kfree_correct heap2 [] (mkBlk 0x200000 104 true) [mkBlk 0x200078 40 false] [0x200078] heap2_rep)
    as (st' & fl' & Hk & Hrep & _).
  exists st', fl'. split; [exact Hk|exact Hrep].
Defined.

(** C3: whatever sequence of allocations and releases runs on the heap set
    up by [kmalloc_init], the blocks tile the heap and the free list holds
    exactly the free blocks, each once. *)
Theorem heap_invariant start sz m st :
  0 < start → 0 ≤ sz → start + sz < 2 ^ 32 →
  star heap_step (kmalloc_init start sz m) st → ∃ bs fl, heap_rep st bs fl.
Proof.
  intros Hs Hz Hlt.
  apply (star_invariant heap_step (λ st, ∃ bs fl, heap_rep st bs fl)); [apply heap_step_rep|].
  exists [], []. apply heap_rep_empty; cbn; rewrite ?u32_small by lia; (done || lia).
Qed.

Lemma heap_invariant_witness :
  ∃ st, star heap_step heap0 st ∧ ∃ bs fl, heap_rep st bs fl.
Proof.
  assert (∃ st, star heap_step heap0 st) as (st & Hrun).
  { eexists. eapply star_snoc; [apply star_refl|].
    eapply (step_malloc _ _ 1 100); [vm_compute; reflexivity|lia|vm_compute; reflexivity]. }
  exists st. split; [exact Hrun|].
  apply (heap_invariant 0x200000 0x80000 (mkHeap 0 0 0 0 ∅)); [lia|lia|lia|exact Hrun].
Defined.

(** [kmalloc_used] and [kmalloc_free] report the payload bytes of
    the allocated and of the free blocks; with the headers they add up to the
    heap between [heap_start] and [heap_end]. *)
Theorem heap_accounting fuel st bs fl :
  heap_rep st bs fl → (length bs < fuel)%nat →
  ∃ used free, kmalloc_used fuel st = Ok used ∧ kmalloc_free fuel st = Ok free ∧
    used = sum_size bused bs ∧ free = sum_size (λ b, negb (bused b)) bs ∧
    used + free + HDR * Z.of_nat (length bs) = heap_end st - heap_start st.
Proof.
  intros Hrep Hfuel. pose proof Hrep as [Ht Hd Hnd Hf Hs He Hc].
  pose proof (sum_size_bounds bused _ _ _ _ Ht).
  pose proof (sum_size_bounds (λ b, negb (bused b)) _ _ _ _ Ht).
  pose proof (rep_free_perm _ _ _ Hrep) as Hp.
  assert (sum_at (hmem st) fl = sum_size (λ b, negb (bused b)) bs) as Hsum.
  { by rewrite (sum_at_perm _ _ _ Hp), (sum_at_free _ _ _ _ Ht). }
  exists (sum_size bused bs), (sum_size (λ b, negb (bused b)) bs).
  split; [exact (kmalloc_used_loop_spec st bs _ 0 fuel Ht ltac:(lia) ltac:(lia) ltac:(lia) ltac:(lia) Hfuel)|]. split.
  - unfold kmalloc_free. rewrite (kmalloc_free_loop_spec st 0 _ fl); try (done || lia).
    + by rewrite Hsum.
    + intros a (b & Hb & <- & _)%Hf.
      destruct (rep_block _ _ _ _ Hrep Hb) as (_ & ? & _ & h & Hh & _ & Hsz).
      unfold size_at. rewrite Hh. lia.
    + rewrite Hp, length_fmap. pose proof (length_filter (λ b, bused b = false) bs). lia.
  - split; [done|]. split; [done|]. rewrite (tiles_total _ _ _ _ Ht). done.
Qed.

Lemma heap_accounting_witness :
  ∃ used free, kmalloc_used 2 heap1 = Ok used ∧ kmalloc_free 2 heap1 = Ok free ∧
    used + free + 16 = 0x78.
Proof.
  destruct (heap_accounting 2 heap1 [mkBlk 0x200000 104 true] [] heap1_rep)
    as (u & f & Hu & Hf & _ & _ & Hs).
  - cbn. lia.
  - exists u, f. split; [exact Hu|]. split; [exact Hf|exact Hs].
Defined.

(** The size arithmetic of [kmalloc] wraps: on any heap without
    free blocks a request between 0xFFFFFFE9 and 0xFFFFFFF0 bytes "succeeds"
    although the heap does not grow by a single byte. *)
Theorem kmalloc_wraps fuel sz st bs :
  heap_rep st bs [] → 0xFFFFFFE9 ≤ sz ≤ 0xFFFFFFF0 → heap_end st + HDR < 2 ^ 32 →
  ∃ st', kmalloc (S fuel) sz st = Ok (heap_end st + HDR, st') ∧ heap_end st' = heap_end st.
Proof.
  intros Hrep Hsz Hlt. pose proof Hrep as [Ht Hd _ _ Hs He Hc]. cbn in Hd.
  pose proof (tiles_le _ _ _ _ Ht).
  assert (round8 sz = 0xFFFFFFF0) as Hr.
  { destruct (round8_spec sz) as [Hr [k Hk]]; lia. }
  unfold kmalloc. rewrite (proj2 (Z.eqb_neq sz 0)) by lia. cbn zeta. rewrite Hr, Hd.
  cbn [kmalloc_scan Z.eqb mbind res_bind]. unfold extend_heap.
  change (u32 (HDR + 4294967280)) with 0. rewrite Z.add_0_r, u32_small by lia.
  rewrite (proj2 (Z.ltb_ge _ _)) by lia. rewrite Hd. cbn [free_list set_hmem].
  rewrite Hd. cbn [mbind res_bind Z.eqb].
  rewrite (proj2 (Z.eqb_neq (heap_end st) 0)) by lia.
  unfold unlink, relink, rd, mark_used, upd, rd. cbn. rewrite !lookup_insert_eq. cbn.
  rewrite !lookup_insert_eq. cbn. rewrite !lookup_insert_eq. cbn.
  rewrite u32_small by (unfold HDR in *; lia). eauto.
Qed.

Lemma kmalloc_wraps_witness :
  ∃ st', kmalloc 1 0xFFFFFFF0 heap1 = Ok (0x200088, st') ∧ heap_end st' = 0x200078.
Proof.
  apply (kmalloc_wraps 0 0xFFFFFFF0 heap1 [mkBlk 0x200000 104 true]).
  - exact heap1_rep.
  - lia.
  - vm_compute. reflexivity.
Defined.
