(* ===== verification/Pmm.v ===== *)
(** * The physical memory manager (src/src/paging.c, pmm_* functions)

    [pmm_refs] holds one reference count per 4 KiB frame; frames outside the
    managed range keep the value 0xFF. *)

From stdpp Require Import functions.
From S2P Require Import Prelude.

Definition PAGE_SIZE : Z := 0x1000.
Definition PMM_MAX_FRAMES : Z := 65536.

Record pmm := mkPmm {
  pmm_refs : list Z;
  pmm_total_frames : Z;
  pmm_used_frames : Z;
  pmm_base_frame : Z
}.

Definition frame_idx (phys : Z) : Z := phys / PAGE_SIZE.

(** [for (f = from; f < from + n; f++) l[f] = v;] *)
Definition fill_range (l : list Z) (from n v : Z) : list Z :=
  take (Z.to_nat from) l ++ replicate (Z.to_nat n) v ++ drop (Z.to_nat (from + n)) l.

Definition pmm_init (mem_kb : Z) : pmm :=
  let refs0 := replicate (Z.to_nat PMM_MAX_FRAMES) 0xFF in
  let start := 0x00100000 in
  let end0 := u32 (mem_kb * 1024) in
  let end1 := if PMM_MAX_FRAMES * PAGE_SIZE <? end0 then PMM_MAX_FRAMES * PAGE_SIZE else end0 in
  let base := frame_idx start in
  let total0 := u32 (end1 - start) / PAGE_SIZE in
  let total := if PMM_MAX_FRAMES - base <? total0 then PMM_MAX_FRAMES - base else total0 in
  let refs1 := fill_range refs0 base total 0 in
  let kern_end := frame_idx 0x00500000 in
  let refs2 := fill_range refs1 base (kern_end - base) 1 in
  mkPmm refs2 total (kern_end - base) base.

(** The scan from [pmm_base_frame] over [pmm_total_frames] frames, cut off at the
    end of the table; 0 means no frame. *)
Definition pmm_managed (p : pmm) : list Z :=
  take (Z.to_nat (pmm_total_frames p)) (drop (Z.to_nat (pmm_base_frame p)) (pmm_refs p)).

Definition pmm_alloc (p : pmm) : Z * pmm :=
  match find_idx (λ r, r =? 0) (pmm_managed p) with
  | Some k =>
      let i := pmm_base_frame p + Z.of_nat k in
      (u32 (i * PAGE_SIZE),
       mkPmm (<[Z.to_nat i := 1]> (pmm_refs p)) (pmm_total_frames p)
             (u32 (pmm_used_frames p + 1)) (pmm_base_frame p))
  | None => (0, p)
  end.

Definition pmm_free (addr : Z) (p : pmm) : pmm :=
  let idx := frame_idx addr in
  if PMM_MAX_FRAMES <=? idx then p
  else
    let r := pmm_refs p !!! Z.to_nat idx in
    if r =? 0 then p
    else
      let r' := r - 1 in
      mkPmm (<[Z.to_nat idx := r']> (pmm_refs p)) (pmm_total_frames p)
            (if (r' =? 0) && negb (pmm_used_frames p =? 0)
             then pmm_used_frames p - 1 else pmm_used_frames p)
            (pmm_base_frame p).

Definition pmm_ref (addr : Z) (p : pmm) : pmm :=
  let idx := frame_idx addr in
  if (idx <? PMM_MAX_FRAMES) && (pmm_refs p !!! Z.to_nat idx <? 254) then
    mkPmm (<[Z.to_nat idx := pmm_refs p !!! Z.to_nat idx + 1]> (pmm_refs p))
          (pmm_total_frames p) (pmm_used_frames p) (pmm_base_frame p)
  else p.

Definition pmm_refcount (addr : Z) (p : pmm) : Z :=
  let idx := frame_idx addr in
  if idx <? PMM_MAX_FRAMES then pmm_refs p !!! Z.to_nat idx else 0.

(** ** The invariant *)

Definition count_used (l : list Z) : Z :=
  foldr (λ r acc, (if r =? 0 then 0 else 1) + acc) 0 l.

Record pmm_wf (p : pmm) : Prop := {
  wf_len : length (pmm_refs p) = Z.to_nat PMM_MAX_FRAMES;
  wf_bytes : bytes (pmm_refs p);
  wf_base : pmm_base_frame p = 256;
  wf_total : 0 ≤ pmm_total_frames p ≤ 65280;
  wf_used : pmm_used_frames p = count_used (pmm_managed p)
}.

(** Frames the manager hands out. *)
Definition managed_frame (p : pmm) (addr : Z) : Prop :=
  pmm_base_frame p ≤ frame_idx addr < pmm_base_frame p + pmm_total_frames p.
Definition aligned (addr : Z) : Prop := (PAGE_SIZE | addr).

(** ** Lemmas *)

Lemma count_used_app l k : count_used (l ++ k) = count_used l + count_used k.
Proof. induction l as [|x l IH]; cbn; [done|]. unfold count_used in *. cbn. lia. Qed.

Lemma count_used_bounds l : 0 ≤ count_used l ≤ Z.of_nat (length l).
Proof. induction l as [|x l IH]; cbn [count_used foldr length]; unfold count_used in *; [lia|]. case_z; lia. Qed.

Lemma count_used_all l :
  (∀ i x, l !! i = Some x → x ≠ 0) → Z.of_nat (length l) ≤ count_used l.
Proof.
  induction l as [|x l IH]; intros Hl; [done|]. unfold count_used in *. cbn [foldr length].
  rewrite (proj2 (Z.eqb_neq x 0)) by (by apply (Hl 0%nat)).
  specialize (IH (λ i, Hl (S i))). lia.
Qed.

Lemma count_used_insert l i x y :
  l !! i = Some x →
  count_used (<[i := y]> l) =
    count_used l - (if x =? 0 then 0 else 1) + (if y =? 0 then 0 else 1).
Proof.
  intros Hx. pose proof (lookup_lt_Some _ _ _ Hx) as Hi.
  rewrite <- (take_drop_middle l i x Hx) at 2.
  rewrite insert_take_drop by done. rewrite !count_used_app. cbn [count_used foldr].
  unfold count_used. cbn [foldr]. lia.
Qed.

(** Cell [base + k] of the table is cell [k] of the managed range. *)
Lemma managed_lookup p k :
  pmm_wf p → (k < Z.to_nat (pmm_total_frames p))%nat →
  pmm_managed p !! k = pmm_refs p !! (256 + k)%nat.
Proof.
  intros [Hl _ Hb Ht _] Hk. unfold pmm_managed. rewrite lookup_take_lt, lookup_drop, Hb by lia.
  done.
Qed.

Lemma managed_length p : pmm_wf p → length (pmm_managed p) = Z.to_nat (pmm_total_frames p).
Proof.
  intros [Hl _ Hb Ht _]. unfold pmm_managed.
  rewrite length_take, length_drop, Hl, Hb. unfold PMM_MAX_FRAMES. lia.
Qed.

Lemma managed_insert p k y u :
  pmm_wf p → (k < Z.to_nat (pmm_total_frames p))%nat →
  pmm_managed (mkPmm (<[(256 + k)%nat := y]> (pmm_refs p)) (pmm_total_frames p) u
                     (pmm_base_frame p)) = <[k := y]> (pmm_managed p).
Proof.
  intros [Hl _ Hb Ht _] Hk. unfold pmm_managed. cbn. rewrite Hb.
  change (Z.to_nat 256) with 256%nat.
  rewrite drop_insert_ge by lia. rewrite take_insert_lt by lia.
  f_equal. lia.
Qed.

Lemma managed_insert_out p i y u :
  pmm_wf p → (i < 256 ∨ 256 + Z.to_nat (pmm_total_frames p) ≤ i)%nat →
  pmm_managed (mkPmm (<[i := y]> (pmm_refs p)) (pmm_total_frames p) u
                     (pmm_base_frame p)) = pmm_managed p.
Proof.
  intros [Hl _ Hb Ht _] Hi. unfold pmm_managed. cbn. rewrite Hb.
  change (Z.to_nat 256) with 256%nat. destruct Hi as [Hi|Hi].
  - by rewrite drop_insert_lt by lia.
  - rewrite drop_insert_ge by lia. by rewrite take_insert_ge by lia.
Qed.

Lemma frame_idx_mul i : frame_idx (i * PAGE_SIZE) = i.
Proof. unfold frame_idx, PAGE_SIZE. by apply Z.div_mul. Qed.

(** What [pmm_alloc] does. *)
Lemma pmm_alloc_cases p :
  pmm_wf p →
  (pmm_alloc p = (0, p) ∧ count_used (pmm_managed p) = pmm_total_frames p) ∨
  ∃ k, (k < Z.to_nat (pmm_total_frames p))%nat ∧
    pmm_refs p !! (256 + k)%nat = Some 0 ∧
    (∀ j, (j < k)%nat → pmm_refs p !!! (256 + j)%nat ≠ 0) ∧
    pmm_alloc p = ((256 + Z.of_nat k) * PAGE_SIZE,
      mkPmm (<[(256 + k)%nat := 1]> (pmm_refs p)) (pmm_total_frames p)
            (pmm_used_frames p + 1) (pmm_base_frame p)).
Proof.
  intros Hwf. pose proof Hwf as [Hl _ Hb Ht Hu]. unfold pmm_alloc.
  destruct (find_idx _ (pmm_managed p)) as [k|] eqn:Ek; [right|left].
  - pose proof (find_idx_lt _ _ _ Ek) as Hk. rewrite managed_length in Hk by done.
    pose proof Ek as [(x & Hx & Hz%Z.eqb_eq) Hbefore]%find_idx_Some. subst x.
    exists k. split; [done|]. split; [by rewrite <- managed_lookup|]. split.
    + intros j Hj. pose proof (managed_lookup p j Hwf ltac:(lia)) as Hm.
      destruct (lookup_lt_is_Some_2 (pmm_managed p) j) as [y Hy];
        [rewrite managed_length by done; lia|].
      rewrite (list_lookup_total_correct _ _ y) by congruence.
      specialize (Hbefore j y Hj Hy). by bool_hyps.
    + rewrite Hb. unfold PAGE_SIZE. f_equal; [rewrite u32_small; lia|].
      f_equal; [f_equal; lia|]. apply u32_small.
      pose proof (count_used_bounds (pmm_managed p)). rewrite managed_length in H by done. lia.
  - split; [done|]. rewrite find_idx_None in Ek.
    rewrite <- (Z2Nat.id (pmm_total_frames p)), <- managed_length by (done || lia).
    revert Ek. generalize (pmm_managed p) as l. clear. induction l as [|x l IH]; intros H; [done|].
    cbn [length]. unfold count_used in *. cbn [foldr].
    rewrite IH by set_solver. rewrite (H x) by set_solver. lia.
Qed.

Lemma bytes_insert l i x : bytes l → is_byte x → bytes (<[i := x]> l).
Proof. intros. by apply Forall_insert. Qed.

Lemma bytes_lookup_total l i : bytes l → is_byte (l !!! i).
Proof.
  intros Hl. destruct (l !! i) as [x|] eqn:E.
  - rewrite (list_lookup_total_correct _ _ _ E). by eapply Forall_lookup_1 in E.
  - rewrite list_lookup_total_alt, E. cbn. unfold is_byte. cbn. lia.
Qed.

Lemma managed_frame_idx p addr :
  pmm_wf p → managed_frame p addr →
  ∃ k, (k < Z.to_nat (pmm_total_frames p))%nat ∧ frame_idx addr = 256 + Z.of_nat k ∧
       Z.to_nat (frame_idx addr) = (256 + k)%nat ∧ frame_idx addr < PMM_MAX_FRAMES ∧
       pmm_managed p !! k = Some (pmm_refs p !!! (256 + k)%nat) ∧
       is_byte (pmm_refs p !!! (256 + k)%nat).
Proof.
  intros Hwf Hm. pose proof Hwf as [Hl Hby Hb Ht _]. unfold managed_frame in Hm. rewrite Hb in Hm.
  exists (Z.to_nat (frame_idx addr - 256)). split; [lia|]. split; [lia|]. split; [lia|].
  split; [unfold PMM_MAX_FRAMES; lia|]. split.
  - rewrite managed_lookup by (done || lia). apply list_lookup_lookup_total_lt.
    rewrite Hl. unfold PMM_MAX_FRAMES. lia.
  - by apply bytes_lookup_total.
Qed.

Lemma count_used_lookup l k x : l !! k = Some x → x ≠ 0 → 1 ≤ count_used l.
Proof.
  revert k. induction l as [|y l IH]; intros [|k]; cbn [lookup]; [done..| |]; intros H Hx;
    unfold count_used in *; cbn [foldr].
  - injection H as ->. rewrite (proj2 (Z.eqb_neq x 0)) by done.
    pose proof (count_used_bounds l). unfold count_used in *. lia.
  - specialize (IH k H Hx). case_z; lia.
Qed.

Ltac pmm_cbn := cbn [pmm_refs pmm_total_frames pmm_used_frames pmm_base_frame].

(** Every operation on frames in use keeps the invariant. *)
Lemma pmm_alloc_wf p : pmm_wf p → pmm_wf (pmm_alloc p).2.
Proof.
  intros Hwf. destruct (pmm_alloc_cases p Hwf) as [[-> _]|(k & Hk & Hz & _ & ->)]; [done|].
  pose proof Hwf as [Hl Hby Hb Ht Hu]. cbn [snd]. split; pmm_cbn; try done.
  - by rewrite length_insert.
  - apply bytes_insert; [done|]. unfold is_byte. lia.
  - rewrite managed_insert by done. rewrite Hu.
    rewrite <- managed_lookup in Hz by done. rewrite (count_used_insert _ _ _ 1 Hz). cbn [Z.eqb]. lia.
Qed.

Lemma pmm_free_wf p addr : pmm_wf p → managed_frame p addr → pmm_wf (pmm_free addr p).
Proof.
  intros Hwf Hm. pose proof Hwf as [Hl Hby Hb Ht Hu].
  destruct (managed_frame_idx p addr Hwf Hm) as (k & Hk & _ & Hi & Hlt & Hlk & Hr).
  unfold pmm_free. rewrite (proj2 (Z.leb_gt _ _)) by done. rewrite Hi.
  set (r := pmm_refs p !!! (256 + k)%nat) in *.
  destruct (Z.eqb_spec r 0) as [|Hne]; [done|]. unfold is_byte in Hr.
  pose proof (count_used_lookup _ _ _ Hlk Hne).
  split; pmm_cbn; try done.
  - by rewrite length_insert.
  - apply bytes_insert; [done|]. unfold is_byte. lia.
  - rewrite managed_insert by done. rewrite (count_used_insert _ _ _ (r - 1) Hlk), Hu.
    rewrite (proj2 (Z.eqb_neq r 0)) by done.
    destruct (Z.eqb_spec (r - 1) 0), (Z.eqb_spec (count_used (pmm_managed p)) 0); cbn; lia.
Qed.

Lemma pmm_ref_wf p addr :
  pmm_wf p → managed_frame p addr → pmm_refcount addr p ≠ 0 → pmm_wf (pmm_ref addr p).
Proof.
  intros Hwf Hm Hne. pose proof Hwf as [Hl Hby Hb Ht Hu].
  destruct (managed_frame_idx p addr Hwf Hm) as (k & Hk & _ & Hi & Hlt & Hlk & Hr).
  unfold pmm_ref, pmm_refcount in *. rewrite Hi in *.
  rewrite (proj2 (Z.ltb_lt _ _)) in * by done. cbn [andb].
  set (r := pmm_refs p !!! (256 + k)%nat) in *. unfold is_byte in Hr.
  destruct (Z.ltb_spec r 254); [|done]. split; pmm_cbn; try done.
  - by rewrite length_insert.
  - apply bytes_insert; [done|]. unfold is_byte. lia.
  - rewrite managed_insert by done. rewrite (count_used_insert _ _ _ (r + 1) Hlk), Hu.
    rewrite (proj2 (Z.eqb_neq r 0)), (proj2 (Z.eqb_neq (r + 1) 0)) by lia. lia.
Qed.

Lemma count_used_replicate n v :
  count_used (replicate n v) = if v =? 0 then 0 else Z.of_nat n.
Proof.
  induction n as [|n IH]; cbn [replicate]; [by case_z|]. unfold count_used in *.
  cbn [foldr]. rewrite IH. case_z; lia.
Qed.

Lemma fill_range_length l from n v :
  0 ≤ from → 0 ≤ n → from + n ≤ Z.of_nat (length l) → length (fill_range l from n v) = length l.
Proof.
  intros. unfold fill_range. rewrite !length_app, length_take, length_replicate, length_drop. lia.
Qed.

Lemma bytes_fill l from n v : bytes l → is_byte v → bytes (fill_range l from n v).
Proof.
  intros Hl Hv. unfold fill_range, bytes. rewrite !Forall_app. repeat split.
  - by apply Forall_take.
  - by apply Forall_replicate.
  - by apply Forall_drop.
Qed.

(** On a machine with at least 5 MiB, initialisation establishes the invariant:
    the kernel image is marked used and accounted for. *)
Lemma pmm_init_wf mem_kb : 5120 ≤ mem_kb < 4194304 → pmm_wf (pmm_init mem_kb).
Proof.
  intros Hm. unfold pmm_init.
  rewrite (u32_small (mem_kb * 1024)) by lia.
  change (frame_idx 1048576) with 256. change (frame_idx 5242880) with 1280.
  change (PMM_MAX_FRAMES * PAGE_SIZE) with 268435456. change (PMM_MAX_FRAMES - 256) with 65280.
  set (e := if 268435456 <? _ then _ else _).
  assert (5242880 ≤ e ≤ 268435456) as He by (unfold e; case_z; lia).
  rewrite (u32_small (e - 1048576)) by lia.
  set (t := if 65280 <? _ then _ else _).
  assert (1024 ≤ t ≤ 65280) as Ht.
  { unfold t, PAGE_SIZE. case_z; [lia|]. split; [|done]. apply Z.div_le_lower_bound; lia. }
  change (1280 - 256) with 1024. clearbody t e.
  set (r0 := replicate (Z.to_nat PMM_MAX_FRAMES) 255).
  assert (length r0 = Z.to_nat 65536) as Hr0 by apply length_replicate.
  assert (bytes r0) as Hb0 by (apply Forall_replicate; unfold is_byte; lia).
  clearbody r0.
  split; cbn.
  - rewrite !fill_range_length; rewrite ?fill_range_length; unfold PMM_MAX_FRAMES; lia.
  - apply bytes_fill; [apply bytes_fill; [done|]|]; unfold is_byte; lia.
  - done.
  - lia.
  - unfold pmm_managed. cbn. unfold fill_range at 1.
    rewrite drop_app_ge, length_take, fill_range_length by
      (rewrite ?length_take, ?fill_range_length; lia).
    replace (Z.to_nat 256 - Z.to_nat 256 `min` length r0)%nat with 0%nat by lia.
    rewrite drop_0. rewrite take_app_ge by (rewrite length_replicate; lia).
    rewrite length_replicate, count_used_app, count_used_replicate. cbn [Z.eqb].
    unfold fill_range. rewrite drop_app_ge by (rewrite length_take; lia).
    rewrite length_take, drop_app_le by (rewrite length_replicate; lia).
    rewrite drop_replicate, take_app_le by (rewrite length_replicate; lia).
    rewrite take_replicate, count_used_replicate. cbn [Z.eqb]. lia.
Qed.

(** ** Reference counts and the frame table *)

Lemma pmm_refcount_managed p addr :
  pmm_wf p → managed_frame p addr →
  pmm_refcount addr p = pmm_refs p !!! Z.to_nat (frame_idx addr).
Proof.
  intros Hwf Hm. destruct (managed_frame_idx p addr Hwf Hm) as (k & _ & _ & _ & Hlt & _).
  unfold pmm_refcount. by rewrite (proj2 (Z.ltb_lt _ _)).
Qed.

(** The count of frame [idx] after the table cell [j] is overwritten. *)
Lemma refs_insert (l : list Z) (j i : nat) v :
  (j < length l)%nat → (<[j := v]> l) !!! i = if decide (i = j) then v else l !!! i.
Proof.
  intros Hj. case_decide as E; [subst; by apply list_lookup_total_insert_eq|].
  by apply list_lookup_total_insert_ne.
Qed.

(** ** Clients and their references

    [owners] counts, for every frame number, the references clients hold: one
    from each successful [pmm_alloc], one more from each [pmm_ref], one less
    from each [pmm_free]. Clients release and share only what they hold. *)
Inductive pmm_op_step : pmm * (Z → Z) → pmm * (Z → Z) → Prop :=
| step_alloc p own a p' :
    pmm_alloc p = (a, p') → a ≠ 0 →
    pmm_op_step (p, own) (p', <[frame_idx a := own (frame_idx a) + 1]> own)
| step_alloc_fail p own p' :
    pmm_alloc p = (0, p') → pmm_op_step (p, own) (p', own)
| step_ref p own a :
    managed_frame p a → 0 < own (frame_idx a) < 254 →
    pmm_op_step (p, own) (pmm_ref a p, <[frame_idx a := own (frame_idx a) + 1]> own)
| step_free p own a :
    managed_frame p a → 0 < own (frame_idx a) →
    pmm_op_step (p, own) (pmm_free a p, <[frame_idx a := own (frame_idx a) - 1]> own).

(** The table records exactly the references held. *)
Definition pmm_refines (p : pmm) (own : Z → Z) : Prop :=
  pmm_wf p ∧ ∀ a, managed_frame p a → pmm_refs p !!! Z.to_nat (frame_idx a) = own (frame_idx a).

Lemma pmm_alloc_spec p a p' :
  pmm_wf p → pmm_alloc p = (a, p') →
  (a = 0 ∧ p' = p ∧ ∀ b, managed_frame p b → pmm_refcount b p ≠ 0) ∨
  (managed_frame p a ∧ aligned a ∧ a ≠ 0 ∧ pmm_wf p' ∧
   pmm_refcount a p = 0 ∧ pmm_refcount a p' = 1 ∧
   (∀ b, frame_idx b ≠ frame_idx a → 0 ≤ frame_idx b → pmm_refcount b p' = pmm_refcount b p) ∧
   (∀ b, managed_frame p b → frame_idx b < frame_idx a → pmm_refcount b p ≠ 0) ∧
   (∀ b, managed_frame p' b ↔ managed_frame p b) ∧
   pmm_used_frames p' = pmm_used_frames p + 1).
Proof.
  intros Hwf Ha. pose proof (pmm_alloc_wf p Hwf) as Hwf'. rewrite Ha in Hwf'. cbn in Hwf'.
  pose proof Hwf as [Hl Hby Hb Ht Hu].
  destruct (pmm_alloc_cases p Hwf) as [[Hc Hfull]|(k & Hk & Hz & Hlow & Hc)];
    rewrite Ha in Hc; injection Hc as -> ->; [left|right].
  - do 2 (split; [done|]). intros b Hm. rewrite pmm_refcount_managed by done.
    destruct (managed_frame_idx p b Hwf Hm) as (k & Hk & _ & -> & _ & Hlk & _).
    intros Hz. rewrite Hz in Hlk.
    pose proof (count_used_insert _ _ _ 1 Hlk) as Hc.
    pose proof (count_used_bounds (<[k:=1]> (pmm_managed p))) as Hbd.
    rewrite length_insert, managed_length in Hbd by done. cbn [Z.eqb] in Hc. lia.
  - assert (Z.to_nat (256 + Z.of_nat k) = (256 + k)%nat) as Hn by lia.
    assert ((256 + k < length (pmm_refs p))%nat) as Hlen by (rewrite Hl; unfold PMM_MAX_FRAMES; lia).
    assert (managed_frame p ((256 + Z.of_nat k) * PAGE_SIZE)) as Hm.
    { unfold managed_frame. rewrite frame_idx_mul. lia. }
    split; [done|]. split; [by exists (256 + Z.of_nat k)|]. split; [unfold PAGE_SIZE; lia|].
    split; [done|]. unfold pmm_refcount; pmm_cbn; rewrite ?frame_idx_mul, ?Hn.
    rewrite (list_lookup_total_correct _ _ _ Hz), refs_insert, decide_True by done.
    rewrite (proj2 (Z.ltb_lt (256 + Z.of_nat k) _)) by (unfold PMM_MAX_FRAMES; lia).
    do 2 (split; [done|]). split; [|split; [|done]].
    + intros b Hne H0. rewrite refs_insert by done. by rewrite decide_False by lia.
    + intros b Hmb Hlt. destruct (managed_frame_idx p b Hwf Hmb) as (j & ? & ? & -> & Hjl & _).
      rewrite (proj2 (Z.ltb_lt _ _)) by done. apply Hlow. lia.
Qed.

Lemma pmm_refines_step p own p' own' :
  pmm_refines p own → pmm_op_step (p, own) (p', own') → pmm_refines p' own'.
Proof.
  intros [Hwf Hown] Hstep. pose proof (wf_len _ Hwf) as Hl.
  assert (∀ a b, managed_frame p a → managed_frame p b →
    Z.to_nat (frame_idx b) = Z.to_nat (frame_idx a) → frame_idx b = frame_idx a) as Hinj.
  { intros a b. unfold managed_frame. rewrite (wf_base _ Hwf). lia. }
  assert (∀ a, managed_frame p a → (Z.to_nat (frame_idx a) < length (pmm_refs p))%nat) as Hin.
  { intros a. unfold managed_frame. rewrite Hl, (wf_base _ Hwf). pose proof (wf_total _ Hwf).
    unfold PMM_MAX_FRAMES. lia. }
  inversion Hstep as [? ? a ? Ha Hne|? ? ? Ha|? ? a Hm Hr|? ? a Hm Hr]; subst.
  - destruct (pmm_alloc_spec _ _ _ Hwf Ha) as [[-> _]|(Hm & _ & _ & Hwf' & H0 & H1 & Hoth & _ & Hmm & _)];
      [done|].
    split; [done|]. intros b Hb%Hmm.
    rewrite <- (pmm_refcount_managed p') by (try apply Hmm; done).
    destruct (decide (frame_idx b = frame_idx a)) as [E|E].
    + unfold pmm_refcount in *. rewrite E, H1. rewrite fn_lookup_insert.
      rewrite <- Hown by done.
      rewrite <- (pmm_refcount_managed p) by done. unfold pmm_refcount. lia.
    + rewrite Hoth, fn_lookup_insert_ne, pmm_refcount_managed, Hown; try done.
      unfold managed_frame in Hb. rewrite (wf_base _ Hwf) in Hb. lia.
  - destruct (pmm_alloc_spec _ _ _ Hwf Ha) as [(_ & -> & _)|(_ & _ & ? & _)]; [|done].
    by split.
  - pose proof (Hown a Hm) as Hra. pose proof (pmm_refcount_managed p a Hwf Hm) as Hrc.
    split; [apply pmm_ref_wf; [done..|lia]|].
    destruct (managed_frame_idx p a Hwf Hm) as (_ & _ & _ & _ & Hlt & _).
    unfold pmm_ref. rewrite Hra, (proj2 (Z.ltb_lt _ _)), (proj2 (Z.ltb_lt _ 254)) by lia.
    cbn [andb]; intros b Hb. pmm_cbn. rewrite refs_insert by auto. case_decide as E.
    + rewrite (Hinj a b), fn_lookup_insert by done. done.
    + rewrite fn_lookup_insert_ne by congruence. by apply Hown.
  - pose proof (Hown a Hm) as Hra. split; [by apply pmm_free_wf|].
    destruct (managed_frame_idx p a Hwf Hm) as (_ & _ & _ & _ & Hlt & _).
    unfold pmm_free. rewrite (proj2 (Z.leb_gt _ _)) by done.
    rewrite Hra, (proj2 (Z.eqb_neq _ _)) by lia.
    cbn [andb]; intros b Hb. pmm_cbn. rewrite refs_insert by auto. case_decide as E.
    + rewrite (Hinj a b), fn_lookup_insert by done. done.
    + rewrite fn_lookup_insert_ne by congruence. by apply Hown.
Qed.

(** The state after boot: the frames of the kernel image (1 to 5 MiB) are held by
    the kernel, every other managed frame is free. *)
Definition kernel_owns (i : Z) : Z := if (256 <=? i) && (i <? 1280) then 1 else 0.

Lemma fill_range_lookup l from n v i :
  0 ≤ from → 0 ≤ n → from + n ≤ Z.of_nat (length l) →
  fill_range l from n v !!! i =
    if (from <=? Z.of_nat i) && (Z.of_nat i <? from + n) then v else l !!! i.
Proof.
  intros H0 Hn Hl. unfold fill_range. rewrite !list_lookup_total_alt.
  destruct (Z.leb_spec from (Z.of_nat i)), (Z.ltb_spec (Z.of_nat i) (from + n)); cbn [andb].
  - rewrite lookup_app_r by (rewrite length_take; lia).
    rewrite lookup_app_l by (rewrite length_take, length_replicate; lia).
    rewrite lookup_replicate_2; [done|]. rewrite length_take. lia.
  - rewrite lookup_app_r by (rewrite length_take; lia).
    rewrite lookup_app_r by (rewrite length_take, length_replicate; lia).
    rewrite lookup_drop, length_take, length_replicate. do 2 f_equal. lia.
  - rewrite lookup_app_l by (rewrite length_take; lia).
    by rewrite lookup_take_lt by lia.
  - lia.
Qed.

Lemma pmm_init_refines mem_kb :
  5120 ≤ mem_kb < 4194304 → pmm_refines (pmm_init mem_kb) kernel_owns.
Proof.
  intros Hm. pose proof (pmm_init_wf mem_kb Hm) as Hwf. split; [done|].
  intros a Ha. pose proof (wf_total _ Hwf) as Ht. unfold managed_frame in Ha.
  revert Ht Ha. unfold pmm_init, kernel_owns. pmm_cbn.
  change (frame_idx 1048576) with 256. change (frame_idx 5242880) with 1280.
  set (t := if PMM_MAX_FRAMES - 256 <? _ then _ else _). clearbody t. intros Ht Ha.
  assert (length (replicate (Z.to_nat PMM_MAX_FRAMES) 255) = Z.to_nat 65536) as Hlen
    by apply length_replicate.
  rewrite !fill_range_lookup by (rewrite ?fill_range_length; rewrite ?Hlen; lia).
  rewrite Z2Nat.id by lia. rewrite (proj2 (Z.leb_le 256 _)), (proj2 (Z.ltb_lt _ (256 + t))) by lia.
  cbn [andb]. done.
Qed.

(** C5: whatever sequence of allocations, shares and releases the clients of the
    frame allocator perform after boot on a machine with at least 5 MiB, the
    table holds exactly the number of references each managed frame has (clients
    release what they hold and keep at most 254 references to a frame), the used
    counter equals the number of referenced frames, and the next allocation either
    returns a frame nobody holds or fails because every frame is held. *)
Theorem pmm_ownership mem_kb p own :
  5120 ≤ mem_kb < 4194304 →
  star pmm_op_step (pmm_init mem_kb, kernel_owns) (p, own) →
  (∀ a, managed_frame p a → pmm_refcount a p = own (frame_idx a)) ∧
  pmm_used_frames p = count_used (pmm_managed p) ∧
  (∀ a p', pmm_alloc p = (a, p') →
    if decide (a = 0) then ∀ b, managed_frame p b → own (frame_idx b) ≠ 0
    else managed_frame p a ∧ aligned a ∧ own (frame_idx a) = 0).
Proof.
  intros Hm Hs.
  assert (pmm_refines p own) as [Hwf Hown].
  { apply (star_invariant _ (λ s, pmm_refines s.1 s.2) _ _) in Hs; [done| |].
    - intros [? ?] [? ?]. apply pmm_refines_step.
    - by apply pmm_init_refines. }
  assert (∀ a, managed_frame p a → pmm_refcount a p = own (frame_idx a)) as Hrc.
  { intros a Ha. by rewrite pmm_refcount_managed, Hown. }
  split; [done|]. split; [apply Hwf|]. intros a p' Ha.
  destruct (pmm_alloc_spec _ _ _ Hwf Ha) as [(-> & _ & Hb)|(Hma & Hal & Hne & _ & H0 & _)].
  - rewrite decide_True by done. intros b Hmb. rewrite <- Hrc by done. by apply Hb.
  - rewrite decide_False by done. rewrite <- Hrc by done. done.
Qed.

Lemma pmm_ownership_witness :
  let p := pmm_init 32768 in
  let p1 := (pmm_alloc p).2 in
  (pmm_alloc p).1 = 5242880 ∧ pmm_refcount 5242880 p1 = 1 ∧
  pmm_refcount 5242880 (pmm_free 5242880 p1) = 0 ∧
  pmm_refcount 5242880 p1 =
    <[frame_idx 5242880 := kernel_owns (frame_idx 5242880) + 1]> kernel_owns (frame_idx 5242880).
Proof.
  intros p p1. split; [vm_compute; reflexivity|]. split; [vm_compute; reflexivity|].
  split; [vm_compute; reflexivity|].
  assert (Hfst : (pmm_alloc p).1 = 5242880) by (vm_compute; reflexivity).
  assert (Hman : managed_frame p1 5242880) by (split; vm_compute; congruence).
  assert (Ha : pmm_alloc p = (5242880, p1)) by (rewrite <- Hfst; apply surjective_pairing).
  clearbody p1.
  apply (pmm_ownership 32768 p1 (<[frame_idx 5242880 := kernel_owns (frame_idx 5242880) + 1]> kernel_owns));
    [lia| |exact Hman].
  eapply star_snoc; [apply star_refl|]. exact (step_alloc _ _ _ _ Ha ltac:(lia)).
Defined.

Lemma pmm_free_spec p a :
  pmm_wf p → managed_frame p a → pmm_refcount a p ≠ 0 →
  pmm_wf (pmm_free a p) ∧ pmm_refcount a (pmm_free a p) = pmm_refcount a p - 1 ∧
  (∀ b, 0 ≤ frame_idx b → frame_idx b ≠ frame_idx a →
    pmm_refcount b (pmm_free a p) = pmm_refcount b p) ∧
  (∀ b, managed_frame (pmm_free a p) b ↔ managed_frame p b) ∧
  pmm_total_frames (pmm_free a p) = pmm_total_frames p ∧
  pmm_used_frames (pmm_free a p) = pmm_used_frames p - (if pmm_refcount a p =? 1 then 1 else 0).
Proof.
  intros Hwf Hm Hr. split; [by apply pmm_free_wf|].
  destruct (managed_frame_idx p a Hwf Hm) as (k & Hk & _ & Hi & Hlt & Hlk & _).
  rewrite pmm_refcount_managed in * by done. rewrite Hi in *.
  assert ((256 + k < length (pmm_refs p))%nat) as Hlen
    by (rewrite (wf_len _ Hwf); pose proof (wf_total _ Hwf); unfold PMM_MAX_FRAMES; lia).
  pose proof (count_used_lookup _ _ _ Hlk Hr). pose proof (wf_used _ Hwf).
  unfold pmm_refcount, pmm_free. rewrite Hi, (proj2 (Z.leb_gt _ _)), (proj2 (Z.eqb_neq _ 0)) by done.
  pmm_cbn. rewrite refs_insert, decide_True, (proj2 (Z.ltb_lt (frame_idx a) _)) by done.
  split; [done|]. split.
  { intros b Hb Hne. rewrite refs_insert, decide_False by (done || lia). done. }
  do 2 (split; [done|]). set (r := pmm_refs p !!! (256 + k)%nat) in *.
  destruct (Z.eqb_spec (r - 1) 0), (Z.eqb_spec r 1), (Z.eqb_spec (pmm_used_frames p) 0);
    cbn; lia.
Qed.

Lemma pmm_ref_spec p a :
  pmm_wf p → managed_frame p a → 0 < pmm_refcount a p < 254 →
  pmm_wf (pmm_ref a p) ∧ pmm_refcount a (pmm_ref a p) = pmm_refcount a p + 1 ∧
  (∀ b, 0 ≤ frame_idx b → frame_idx b ≠ frame_idx a →
    pmm_refcount b (pmm_ref a p) = pmm_refcount b p) ∧
  (∀ b, managed_frame (pmm_ref a p) b ↔ managed_frame p b) ∧
  pmm_total_frames (pmm_ref a p) = pmm_total_frames p ∧
  pmm_used_frames (pmm_ref a p) = pmm_used_frames p.
Proof.
  intros Hwf Hm Hr. split; [apply pmm_ref_wf; [done..|lia]|].
  destruct (managed_frame_idx p a Hwf Hm) as (k & Hk & _ & Hi & Hlt & _).
  rewrite pmm_refcount_managed in * by done. rewrite Hi in *.
  assert ((256 + k < length (pmm_refs p))%nat) as Hlen
    by (rewrite (wf_len _ Hwf); pose proof (wf_total _ Hwf); unfold PMM_MAX_FRAMES; lia).
  unfold pmm_refcount, pmm_ref. rewrite Hi, (proj2 (Z.ltb_lt _ _)), (proj2 (Z.ltb_lt _ 254)) by lia.
  cbn [andb]. pmm_cbn. rewrite refs_insert, decide_True by done.
  split; [done|]. split; [|done].
  intros b Hb Hne. rewrite refs_insert, decide_False by (done || lia). done.
Qed.

(** ** References beyond 254 are lost *)

Lemma pmm_free_refs_iter n addr p :
  pmm_wf p → managed_frame p addr → (Z.of_nat n ≤ pmm_refcount addr p) →
  let p' := Nat.iter n (pmm_free addr) p in
  pmm_wf p' ∧ managed_frame p' addr ∧ pmm_refcount addr p' = pmm_refcount addr p - Z.of_nat n.
Proof.
  intros Hwf Hm. induction n as [|n IH]; intros Hn; [split; [done|split; [done|cbn [Nat.iter nat_rect]; lia]]|].
  rewrite Nat.iter_succ. destruct IH as (Hwf1 & Hm1 & Hr1); [lia|].
  set (q := Nat.iter n (pmm_free addr) p) in *. clearbody q.
  assert (managed_frame (pmm_free addr q) addr) as Hm2.
  { unfold pmm_free. repeat case_match; done. }
  split; [by apply pmm_free_wf|]. split; [done|].
  rewrite pmm_refcount_managed by (try apply pmm_free_wf; done).
  pose proof (pmm_refcount_managed q addr Hwf1 Hm1) as Hrq.
  destruct (managed_frame_idx q addr Hwf1 Hm1) as (_ & _ & _ & _ & Hlt & _).
  unfold pmm_free. rewrite (proj2 (Z.leb_gt _ _)) by done.
  rewrite (proj2 (Z.eqb_neq _ 0)) by lia. pmm_cbn.
  rewrite refs_insert, decide_True; [lia|done|].
  rewrite (wf_len _ Hwf1). unfold managed_frame in Hm1. rewrite (wf_base _ Hwf1) in Hm1. lia.
Qed.

Lemma pmm_ref_live p addr :
  pmm_wf p → managed_frame p addr → pmm_refcount addr p ≠ 0 →
  managed_frame (pmm_ref addr p) addr ∧ pmm_refcount addr (pmm_ref addr p) ≠ 0.
Proof.
  intros Hw Hm Hr. split; [unfold pmm_ref; case_match; done|].
  destruct (managed_frame_idx p _ Hw Hm) as (k & Hk & _ & Hi & Hlt & _ & Hb).
  rewrite pmm_refcount_managed in Hr by done. rewrite Hi in Hr.
  unfold pmm_refcount, pmm_ref. rewrite Hi. rewrite (proj2 (Z.ltb_lt _ _)) by done. cbn [andb].
  case_if; [|done]. pmm_cbn. rewrite refs_insert, decide_True; [|done|].
  - unfold is_byte in Hb. lia.
  - rewrite (wf_len _ Hw). pose proof (wf_total _ Hw). unfold PMM_MAX_FRAMES. lia.
Qed.

Lemma pmm_ref_iter_live n p addr :
  pmm_wf p → managed_frame p addr → pmm_refcount addr p ≠ 0 →
  pmm_wf (Nat.iter n (pmm_ref addr) p).
Proof.
  intros Hw Hm Hr.
  enough (pmm_wf (Nat.iter n (pmm_ref addr) p) ∧ managed_frame (Nat.iter n (pmm_ref addr) p) addr ∧
    pmm_refcount addr (Nat.iter n (pmm_ref addr) p) ≠ 0) by naive_solver.
  induction n as [|n (Hw' & Hm' & Hr')]; [done|]. rewrite Nat.iter_succ.
  split; [by apply pmm_ref_wf|]. by apply pmm_ref_live.
Qed.

(** [pmm_ref] stops counting at 254 without telling its caller: a client
    that shares a frame once more leaves the table unchanged, and after as many
    releases as there were counted references the frame is free although one
    client still holds it. *)
Theorem pmm_ref_saturates p addr :
  pmm_wf p → managed_frame p addr → pmm_refcount addr p = 254 →
  pmm_ref addr p = p ∧
  pmm_refcount addr (Nat.iter 254 (pmm_free addr) (pmm_ref addr p)) = 0.
Proof.
  intros Hwf Hm Hr.
  assert (pmm_ref addr p = p) as He.
  { rewrite pmm_refcount_managed in Hr by done. unfold pmm_ref. rewrite Hr. cbn.
    by rewrite andb_false_r. }
  split; [done|]. rewrite He.
  destruct (pmm_free_refs_iter 254 addr p Hwf Hm) as (_ & _ & ->); lia.
Qed.

Lemma pmm_ref_saturates_witness :
  let p := Nat.iter 253 (pmm_ref 0x00400000) (pmm_init 32768) in
  pmm_refcount 0x00400000 p = 254 ∧ pmm_ref 0x00400000 p = p.
Proof.
  intros p. assert (Hr : pmm_refcount 0x00400000 p = 254) by (vm_compute; reflexivity).
  assert (Hm : managed_frame p 0x00400000) by (split; vm_compute; congruence).
  assert (Hw : pmm_wf p); [|exact (conj Hr (proj1 (pmm_ref_saturates p 0x00400000 Hw Hm Hr)))].
  subst p. clear Hr Hm.
  apply pmm_ref_iter_live; [apply pmm_init_wf; lia|split; vm_compute; congruence|vm_compute; congruence].
Defined.
