(* ===== verification/Paging.v ===== *)
(** * Virtual memory (src/src/paging.c, paging_* functions)

    Physical memory is a map from word addresses to 32-bit words. The page
    directory and the page tables live in it, and every access of the kernel goes
    through the two-level walk of the directory in CR3, as on the machine; an
    access to an unmapped page is a [Fault]. The kernel runs with CR0.WP clear, so
    only the present bit matters to it. The TLB is not modelled: each operation
    that changes a present entry is followed by the flush of that page. *)

From S2P Require Import Prelude Pmm.

Definition PAGE_ENTRIES : Z := 1024.
Definition PAGE_PRESENT : Z := 1.
Definition PAGE_WRITE : Z := 2.
Definition PAGE_USER : Z := 4.
Definition PAGE_COW : Z := 512.
Definition HEAP_VIRT_BASE : Z := 0x00200000.
Definition HEAP_VIRT_MAX : Z := 0x01000000.
Definition VMALLOC_BASE : Z := 0x01000000.
Definition VMALLOC_END : Z := 0x02000000.
Definition NUM_PREINIT_TABLES : Z := 4.

Definition page_base (e : Z) : Z := Z.land e (Z.lnot 0xFFF).
Definition PAGE_ALIGN (a : Z) : Z := page_base (u32 (a + PAGE_SIZE - 1)).
Definition PAGE_DIR_IDX (a : Z) : Z := Z.shiftr a 22.
Definition PAGE_TBL_IDX (a : Z) : Z := Z.land (Z.shiftr a 12) 0x3FF.
Definition has_flag (e f : Z) : bool := negb (Z.land e f =? 0).

(** ** State *)

Record hblock_t := mkHblock { hb_addr : Z; hb_size : Z; hb_used : bool }.
Record vregion_t := mkVregion { vr_start : Z; vr_size : Z; vr_active : bool }.
Record swap_entry_t := mkSwapEntry { se_virt : Z; se_used : bool }.

(** [hblocks] and [vregions] hold the first [hnum_blocks] and [vnum_regions]
    entries of their arrays; the code reads no other entry. *)
Record vm := mkVm {
  mem : gmap Z Z;
  cr3 : Z;
  pm : pmm;
  hblocks : list hblock_t;
  heap_brk_ptr : Z;
  heap_bytes_used : Z;
  vregions : list vregion_t;
  vmalloc_ptr : Z;
  fault_count : Z;
  cow_count : Z;
  swap_table : list swap_entry_t;
  swap_buf : list (list Z);
  swap_ready : bool;
  swap_used : Z
}.

Definition set_mem (m : gmap Z Z) (s : vm) : vm :=
  mkVm m (cr3 s) (pm s) (hblocks s) (heap_brk_ptr s) (heap_bytes_used s) (vregions s)
       (vmalloc_ptr s) (fault_count s) (cow_count s) (swap_table s) (swap_buf s)
       (swap_ready s) (swap_used s).
Definition set_pm (p : pmm) (s : vm) : vm :=
  mkVm (mem s) (cr3 s) p (hblocks s) (heap_brk_ptr s) (heap_bytes_used s) (vregions s)
       (vmalloc_ptr s) (fault_count s) (cow_count s) (swap_table s) (swap_buf s)
       (swap_ready s) (swap_used s).
Definition set_cr3 (c : Z) (s : vm) : vm :=
  mkVm (mem s) c (pm s) (hblocks s) (heap_brk_ptr s) (heap_bytes_used s) (vregions s)
       (vmalloc_ptr s) (fault_count s) (cow_count s) (swap_table s) (swap_buf s)
       (swap_ready s) (swap_used s).

(** ** Memory accesses *)

Definition mread (m : gmap Z Z) (a : Z) : Z := default 0 (m !! a).

(** The hardware walk: the physical address behind a virtual one. *)
Definition xlat (s : vm) (v : Z) : option Z :=
  let pde := mread (mem s) (cr3 s + 4 * PAGE_DIR_IDX v) in
  if has_flag pde PAGE_PRESENT then
    let pte := mread (mem s) (page_base pde + 4 * PAGE_TBL_IDX v) in
    if has_flag pte PAGE_PRESENT then Some (page_base pte + v mod PAGE_SIZE) else None
  else None.

Definition vload (v : Z) : M vm Z := λ s,
  match xlat s v with Some p => Ok (mread (mem s) p, s) | None => Fault end.
Definition vstore (v x : Z) : M vm unit := λ s,
  match xlat s v with Some p => Ok (tt, set_mem (<[p := x]> (mem s)) s) | None => Fault end.

(** Byte loops over whole pages, a word at a time. *)
Fixpoint store_words (v : Z) (l : list Z) : M vm unit :=
  match l with
  | [] => mret tt
  | x :: l' => vstore v x ;; store_words (v + 4) l'
  end.
Fixpoint load_words (v : Z) (n : nat) : M vm (list Z) :=
  match n with
  | O => mret []
  | S n' => x ← vload v; l ← load_words (v + 4) n'; mret (x :: l)
  end.
Fixpoint copy_words (dst src : Z) (n : nat) : M vm unit :=
  match n with
  | O => mret tt
  | S n' => x ← vload src; vstore dst x ;; copy_words (dst + 4) (src + 4) n'
  end.
Definition kmemset_page (v : Z) : M vm unit := store_words v (replicate 1024 0).
Definition kmemcpy_page (dst src : Z) : M vm unit := copy_words dst src 1024.

Definition palloc : M vm Z := λ s, let '(a, p') := pmm_alloc (pm s) in Ok (a, set_pm p' s).
Definition pfree (a : Z) : M vm unit := modify (λ s, set_pm (pmm_free a (pm s)) s).
Definition pref (a : Z) : M vm unit := modify (λ s, set_pm (pmm_ref a (pm s)) s).

(** The managed frames below 16 MiB, how many of them the machine has, and that the
    next [n] frames handed out, if any, are among them. *)
Notation LOW_FRAMES := 3840.
Notation low_total s := (Z.min (pmm_total_frames (pm s)) LOW_FRAMES).
Notation low_next n s := (Z.min (pmm_total_frames (pm s)) (pmm_used_frames (pm s) + n) ≤ LOW_FRAMES).

Section paging.
(** Where the linker places [page_dir] and [kern_tables]. *)
Variables page_dir kern_tables : Z.

(** ** Page table operations *)

Definition pte_ptr (virt : Z) (alloc : bool) : M vm (option Z) :=
  let di := PAGE_DIR_IDX virt in
  let ti := PAGE_TBL_IDX virt in
  pde ← vload (page_dir + 4 * di);
  ok ← (if has_flag pde PAGE_PRESENT then mret true
        else if negb alloc then mret false
        else
          phys ← palloc;
          if phys =? 0 then mret false
          else
            kmemset_page phys ;;
            vstore (page_dir + 4 * di) (Z.lor (Z.lor phys PAGE_PRESENT) PAGE_WRITE) ;;
            mret true);
  if (ok : bool) then
    pde' ← vload (page_dir + 4 * di);
    mret (Some (page_base pde' + 4 * ti))
  else mret None.

Definition paging_map (virt phys flags : Z) : M vm unit :=
  r ← pte_ptr virt true;
  match r with
  | None => mret tt
  | Some pte => vstore pte (Z.lor (Z.lor (page_base phys) PAGE_PRESENT) flags)
  end.

(** The entry for [virt] when there is one and it is present. *)
Definition pte_lookup (virt : Z) : M vm (option (Z * Z)) :=
  r ← pte_ptr virt false;
  match r with
  | None => mret None
  | Some pte =>
      e ← vload pte;
      mret (if has_flag e PAGE_PRESENT then Some (pte, e) else None)
  end.

Definition paging_unmap (virt : Z) : M vm unit :=
  r ← pte_lookup virt;
  match r with
  | None => mret tt
  | Some (pte, e) => pfree (page_base e) ;; vstore pte 0
  end.

Definition paging_virt_to_phys (virt : Z) : M vm Z :=
  r ← pte_lookup virt;
  match r with
  | None => mret 0
  | Some (_, e) => mret (Z.lor (page_base e) (Z.land virt 0xFFF))
  end.

Definition paging_is_mapped (virt : Z) : M vm bool :=
  r ← pte_lookup virt; mret (bool_decide (is_Some r)).

Definition paging_switch (dir_phys : Z) : M vm unit := modify (set_cr3 dir_phys).
Definition paging_current_dir : M vm Z := gets cr3.

(** [paging_init] runs before paging is enabled, so its stores are physical. *)
Fixpoint phys_words (a : Z) (l : list Z) (m : gmap Z Z) : gmap Z Z :=
  match l with
  | [] => m
  | x :: l' => phys_words (a + 4) l' (<[a := x]> m)
  end.

Definition kern_table (t : Z) : list Z :=
  (λ p : nat, Z.lor (Z.lor (u32 ((t * PAGE_ENTRIES + Z.of_nat p) * PAGE_SIZE)) PAGE_PRESENT)
                    PAGE_WRITE) <$> seq 0 1024.

Definition dir_entry (t : Z) : Z :=
  Z.lor (Z.lor (kern_tables + t * PAGE_SIZE) PAGE_PRESENT) PAGE_WRITE.

(** One iteration of the initialisation loop. *)
Definition init_step (m : gmap Z Z) (t : Z) : gmap Z Z :=
  phys_words (page_dir + 4 * t) [dir_entry t]
    (phys_words (kern_tables + t * PAGE_SIZE) (kern_table t)
       (phys_words (kern_tables + t * PAGE_SIZE) (replicate 1024 0) m)).

Definition paging_init (mem_kb : Z) (s : vm) : vm :=
  let m0 := phys_words page_dir (replicate 1024 0) (mem s) in
  set_cr3 page_dir (set_mem (foldl init_step m0 [0; 1; 2; 3]) (set_pm (pmm_init mem_kb) s)).

End paging.

(** ** Bit fields of addresses and entries *)

Lemma page_base_eq e : page_base e = e - e mod 4096.
Proof. unfold page_base. apply (land_high 12). lia. Qed.
Lemma page_base_range e : 0 ≤ e < 2 ^ 32 → 0 ≤ page_base e ≤ e.
Proof. rewrite page_base_eq. pose proof (Z.mod_pos_bound e 4096). pose proof (Z.mod_le e 4096). lia. Qed.
Lemma page_base_aligned e : (4096 | page_base e).
Proof. rewrite page_base_eq. apply (aligned_sub_mod 12). lia. Qed.
Lemma page_base_flags p f : (4096 | p) → 0 ≤ f < 4096 → page_base (p + f) = p.
Proof. intros. rewrite page_base_eq, (aligned_add_mod 12) by (done || lia). lia. Qed.
Lemma page_base_id p : (4096 | p) → page_base p = p.
Proof. intros. rewrite <- (Z.add_0_r p) at 1. apply page_base_flags; [done|lia]. Qed.
Lemma dir_idx_eq v : PAGE_DIR_IDX v = v / 4096 / 1024.
Proof. unfold PAGE_DIR_IDX. rewrite Z.shiftr_div_pow2, Zdiv.Zdiv_Zdiv by lia. done. Qed.
Lemma tbl_idx_eq v : PAGE_TBL_IDX v = (v / 4096) mod 1024.
Proof.
  unfold PAGE_TBL_IDX. rewrite Z.shiftr_div_pow2 by lia. apply (land_low 10). lia.
Qed.
Lemma present_odd e : has_flag e PAGE_PRESENT = Z.odd e.
Proof. unfold has_flag. change PAGE_PRESENT with (2 ^ 0). rewrite flag_test by lia. apply Z.bit0_odd. Qed.
Lemma present_add p f : (4096 | p) → has_flag (p + f) PAGE_PRESENT = Z.odd f.
Proof.
  intros [q ->]. rewrite present_odd, Z.odd_add, Z.odd_mul. cbn. by rewrite andb_false_r, xorb_false_l.
Qed.
Lemma lor_flags p f : (4096 | p) → 0 ≤ f < 4096 → Z.lor p f = p + f.
Proof. intros. apply (lor_aligned 12); [lia|done|lia]. Qed.
Lemma lor_flags2 p f g : (4096 | p) → 0 ≤ f < 4096 → 0 ≤ g < 4096 →
  Z.lor (Z.lor p f) g = p + Z.lor f g ∧ 0 ≤ Z.lor f g < 4096.
Proof.
  intros. assert (0 ≤ Z.lor f g < 4096).
  { replace (Z.lor f g) with (Z.lor f g mod 2 ^ 12); [apply Z.mod_pos_bound; lia|].
    rewrite <- Z.land_ones, Z.land_lor_distr_l, !Z.land_ones, !Z.mod_small by lia. done. }
  split; [|done]. rewrite <- Z.lor_assoc. by rewrite lor_flags.
Qed.
Lemma odd_lor1 f : Z.odd (Z.lor 1 f) = true.
Proof. rewrite <- !Z.bit0_odd, Z.lor_spec. done. Qed.

Lemma mread_insert m a b x : mread (<[a := x]> m) b = if decide (a = b) then x else mread m b.
Proof.
  unfold mread. case_decide; [subst; by rewrite lookup_insert_eq|by rewrite lookup_insert_ne].
Qed.

(** ** The invariant of the page tables *)
Section proofs.
Variables page_dir kern_tables : Z.

Definition pde (m : gmap Z Z) (di : Z) : Z := mread m (page_dir + 4 * di).
Definition present (m : gmap Z Z) (di : Z) : Prop := Z.odd (pde m di) = true.
Definition tbl (m : gmap Z Z) (di : Z) : Z := page_base (pde m di).

(** The present entry for virtual page number [vp]. *)
Definition mapping (m : gmap Z Z) (vp : Z) : option Z :=
  if Z.odd (pde m (vp / 1024)) then
    let e := mread m (tbl m (vp / 1024) + 4 * (vp mod 1024)) in
    if Z.odd e then Some e else None
  else None.

Record tables (m : gmap Z Z) : Prop := {
  t_dir : (4096 | page_dir) ∧ 0x100000 ≤ page_dir < 0x500000;
  t_al di : 0 ≤ di < 1024 → present m di →
    (4096 | tbl m di) ∧ 0 ≤ tbl m di < 2 ^ 24 ∧ tbl m di ≠ page_dir;
  t_inj di dj : 0 ≤ di < 1024 → 0 ≤ dj < 1024 → present m di → present m dj →
    tbl m di = tbl m dj → di = dj;
  t_kern di : 0 ≤ di < 4 → present m di ∧ tbl m di < 0x500000;
  t_user di : 4 ≤ di < 1024 → present m di → 0x500000 ≤ tbl m di;
  t_ident vp : 0 ≤ vp < 4096 → mapping m vp = Some (4096 * vp + 3)
}.

(** Pages the walk reads. *)
Definition spage (m : gmap Z Z) (p : Z) : Prop :=
  p = page_dir ∨ ∃ di, 0 ≤ di < 1024 ∧ present m di ∧ p = tbl m di.

Lemma spage_agree m m' p :
  (∀ di, 0 ≤ di < 1024 → pde m' di = pde m di) → spage m' p ↔ spage m p.
Proof.
  intros Hp. unfold spage, present, tbl.
  split; (intros [?|(di & Hdi & Hpr & ->)]; [by left|right; exists di]).
  - by rewrite <- Hp by done.
  - by rewrite Hp by done.
Qed.

(** Two memories that agree on those pages have the same mappings. *)
Lemma tables_agree m m' :
  tables m →
  (∀ p i, spage m p → 0 ≤ i < 1024 → mread m' (p + 4 * i) = mread m (p + 4 * i)) →
  tables m' ∧ (∀ vp, 0 ≤ vp < 2 ^ 20 → mapping m' vp = mapping m vp) ∧
  (∀ di, 0 ≤ di < 1024 → pde m' di = pde m di).
Proof.
  intros Ht Hag.
  assert (∀ di, 0 ≤ di < 1024 → pde m' di = pde m di) as Hpde.
  { intros di Hdi. apply Hag; [by left|done]. }
  assert (∀ vp, 0 ≤ vp < 2 ^ 20 → mapping m' vp = mapping m vp) as Hmap.
  { intros vp Hvp. unfold mapping, tbl.
    assert (0 ≤ vp / 1024 < 1024) by (split; [apply Z.div_pos; lia|apply Z.div_lt_upper_bound; lia]).
    rewrite Hpde by done.
    destruct (Z.odd (pde m (vp / 1024))) eqn:Hp; [|done].
    rewrite Hag; [done|right; by exists (vp / 1024)|].
    apply Z.mod_pos_bound. lia. }
  split; [|done]. destruct Ht as [Hd Hal Hinj Hk Hu Hid]. unfold present, tbl in *.
  split; unfold present, tbl; [done|..].
  - intros di Hdi. rewrite Hpde by done. by apply Hal.
  - intros di dj Hdi Hdj. rewrite !Hpde by done. by apply Hinj.
  - intros di Hdi. rewrite Hpde by lia. by apply Hk.
  - intros di Hdi. rewrite Hpde by lia. by apply Hu.
  - intros vp Hvp. rewrite Hmap by lia. by apply Hid.
Qed.

Lemma xlat_mapping s v :
  cr3 s = page_dir →
  xlat s v = (λ e, page_base e + v mod 4096) <$> mapping (mem s) (v / 4096).
Proof.
  intros Hc. unfold xlat, mapping, tbl, pde. rewrite Hc, dir_idx_eq, tbl_idx_eq, !present_odd.
  by repeat case_match.
Qed.

Lemma vpage_range v : 0 ≤ v < 2 ^ 32 → 0 ≤ v / 4096 < 2 ^ 20.
Proof. intros. split; [apply Z.div_pos; lia|apply Z.div_lt_upper_bound; lia]. Qed.

Lemma xlat_agree s m' v :
  cr3 s = page_dir → 0 ≤ v < 2 ^ 32 →
  (∀ vp, 0 ≤ vp < 2 ^ 20 → mapping m' vp = mapping (mem s) vp) →
  xlat (set_mem m' s) v = xlat s v.
Proof.
  intros Hc Hv Hm. rewrite !xlat_mapping by done. cbn [mem set_mem].
  rewrite Hm; [done|]. by apply vpage_range.
Qed.

(** The kernel addresses the first 16 MiB directly. *)
Lemma xlat_ident s a : cr3 s = page_dir → tables (mem s) → 0 ≤ a < 2 ^ 24 → xlat s a = Some a.
Proof.
  intros Hc Ht Ha. rewrite xlat_mapping by done.
  rewrite (t_ident _ Ht).
  - cbn. f_equal. rewrite page_base_flags by (try lia; by exists (a / 4096); lia).
    pose proof (Z.div_mod a 4096). lia.
  - split; [apply Z.div_pos; lia|apply Z.div_lt_upper_bound; lia].
Qed.

Lemma vload_ident s a :
  cr3 s = page_dir → tables (mem s) → 0 ≤ a < 2 ^ 24 → vload a s = Ok (mread (mem s) a, s).
Proof. intros. unfold vload. by rewrite xlat_ident. Qed.
Lemma vstore_ident s a x :
  cr3 s = page_dir → tables (mem s) → 0 ≤ a < 2 ^ 24 →
  vstore a x s = Ok (tt, set_mem (<[a := x]> (mem s)) s).
Proof. intros. unfold vstore. by rewrite xlat_ident. Qed.

(** A page that the walk does not read. *)
Definition data_page (m : gmap Z Z) (p : Z) : Prop := (4096 | p) ∧ ¬ spage m p.

Lemma spage_aligned m p : tables m → spage m p → (4096 | p).
Proof.
  intros Ht [->|(di & Hdi & Hp & ->)]; [apply (t_dir _ Ht)|by apply (t_al _ Ht)].
Qed.

Lemma aligned_word_ne p q i j :
  (4096 | p) → (4096 | q) → p ≠ q → 0 ≤ i < 1024 → 0 ≤ j < 1024 → p + 4 * i ≠ q + 4 * j.
Proof. intros [a ->] [b ->] Hne Hi Hj. lia. Qed.

Lemma data_store_agree m p i x :
  tables m → data_page m p → 0 ≤ i < 1024 →
  ∀ q j, spage m q → 0 ≤ j < 1024 → mread (<[p + 4 * i := x]> m) (q + 4 * j) = mread m (q + 4 * j).
Proof.
  intros Ht [Hal Hn] Hi q j Hq Hj. rewrite mread_insert.
  rewrite decide_False; [done|]. apply aligned_word_ne; try done.
  - by eapply spage_aligned.
  - by intros ->.
Qed.

Lemma xlat_off s v p o :
  cr3 s = page_dir → (4096 | v) → xlat s v = Some p → 0 ≤ o < 4096 →
  xlat s (v + o) = Some (p + o) ∧ (4096 | p).
Proof.
  intros Hc [q ->] Hx Ho. rewrite xlat_mapping in Hx |- * by done.
  rewrite Z.div_mul in Hx by lia.
  rewrite (Z.add_comm (q * 4096)), Z.div_add, Z_mod_plus_full by lia.
  rewrite Z.mod_small, Z.div_small by lia. rewrite Z.add_0_l.
  rewrite Z_mod_mult in Hx. apply fmap_Some in Hx as (e & -> & ->). cbn. split; [f_equal; lia|].
  rewrite Z.add_0_r. apply page_base_aligned.
Qed.

(** Stores through a virtual page that is backed by a data page: they reach
    exactly the words of that page and leave every mapping alone. *)
Lemma store_words_page l s v p i :
  cr3 s = page_dir → tables (mem s) → 0 ≤ v < 2 ^ 32 → (4096 | v) →
  xlat s v = Some p → data_page (mem s) p → 0 ≤ i → i + Z.of_nat (length l) ≤ 1024 →
  ∃ m', store_words (v + 4 * i) l s = Ok (tt, set_mem m' s) ∧
    tables m' ∧ (∀ vp, 0 ≤ vp < 2 ^ 20 → mapping m' vp = mapping (mem s) vp) ∧
    (∀ di, 0 ≤ di < 1024 → pde m' di = pde (mem s) di) ∧
    (∀ j, 0 ≤ j < Z.of_nat (length l) → mread m' (p + 4 * (i + j)) = l !!! Z.to_nat j) ∧
    (∀ a, (∀ j, 0 ≤ j < Z.of_nat (length l) → a ≠ p + 4 * (i + j)) → mread m' a = mread (mem s) a).
Proof.
  revert s i. induction l as [|x l IH]; intros s i Hc Ht Hv Hva Hx Hdp Hi Hl.
  { exists (mem s). cbn. split; [by destruct s|]. split; [done|]. repeat split; intros; done || lia. }
  cbn [length] in Hl.
  assert (xlat s (v + 4 * i) = Some (p + 4 * i)) as Hxi.
  { apply xlat_off; [done..|lia]. }
  destruct (tables_agree (mem s) (<[p + 4 * i := x]> (mem s)) Ht) as (Ht1 & Hm1 & Hp1).
  { apply data_store_agree; [done..|lia]. }
  set (s1 := set_mem (<[p + 4 * i := x]> (mem s)) s).
  destruct (IH s1 (i + 1)) as (m' & Hrun & Ht' & Hm' & Hp' & Hw & Ho); try done.
  { unfold s1. by rewrite xlat_agree. }
  { destruct Hdp as [? Hn]. split; [done|]. unfold s1. by rewrite (spage_agree (mem s)). }
  { lia. } { lia. }
  exists m'. cbn [store_words]. unfold mbind, M_bind, vstore. rewrite Hxi. fold s1.
  replace (v + 4 * i + 4) with (v + 4 * (i + 1)) by lia. rewrite Hrun.
  split; [done|]. split; [done|]. split; [intros vp Hvp; rewrite Hm' by done; by apply Hm1|].
  split; [intros di Hdi; rewrite Hp' by done; by apply Hp1|]. cbn [length].
  split.
  - intros j Hj. destruct (decide (j = 0)) as [->|Hj0].
    + rewrite Ho by (intros; lia). unfold s1; cbn [mem set_mem]. rewrite mread_insert.
      by rewrite decide_True by lia.
    + replace (p + 4 * (i + j)) with (p + 4 * (i + 1 + (j - 1))) by lia.
      rewrite Hw by lia. replace (Z.to_nat j) with (S (Z.to_nat (j - 1))) by lia. done.
  - intros a Ha. rewrite Ho.
    + unfold s1; cbn [mem set_mem]. rewrite mread_insert, decide_False; [done|].
      specialize (Ha 0 ltac:(lia)). lia.
    + intros j Hj. specialize (Ha (j + 1) ltac:(lia)). lia.
Qed.
Lemma vp_split di ti : 0 ≤ ti < 1024 → (1024 * di + ti) / 1024 = di ∧ (1024 * di + ti) mod 1024 = ti.
Proof.
  intros. rewrite (Z.mul_comm 1024), (Z.add_comm (di * 1024)), Z.div_add, Z_mod_plus_full by lia.
  rewrite Z.div_small, Z.mod_small by lia. lia.
Qed.

Lemma vp_range vp : 0 ≤ vp < 2 ^ 20 → 0 ≤ vp / 1024 < 1024 ∧ 0 ≤ vp mod 1024 < 1024 ∧
  vp = 1024 * (vp / 1024) + vp mod 1024.
Proof.
  intros. split; [split; [apply Z.div_pos; lia|apply Z.div_lt_upper_bound; lia]|].
  split; [apply Z.mod_pos_bound; lia|apply Z.div_mod; lia].
Qed.

(** Writing one entry of a user table changes one mapping. *)
Lemma tables_set_pte m di ti e :
  tables m → 4 ≤ di < 1024 → present m di → 0 ≤ ti < 1024 →
  let m' := <[tbl m di + 4 * ti := e]> m in
  tables m' ∧ (∀ dj, 0 ≤ dj < 1024 → pde m' dj = pde m dj) ∧
  (∀ vp, 0 ≤ vp < 2 ^ 20 →
    mapping m' vp = if decide (vp = 1024 * di + ti) then (if Z.odd e then Some e else None)
                    else mapping m vp).
Proof.
  intros Ht Hdi Hpr Hti m'. destruct (t_al _ Ht di ltac:(lia) Hpr) as (Hal & Hr & Hne).
  assert (∀ dj, 0 ≤ dj < 1024 → pde m' dj = pde m dj) as Hpde.
  { intros dj Hdj. unfold pde, m'. rewrite mread_insert, decide_False; [done|].
    apply aligned_word_ne; try done. apply (t_dir _ Ht). }
  assert (∀ vp, 0 ≤ vp < 2 ^ 20 → mapping m' vp = if decide (vp = 1024 * di + ti)
    then (if Z.odd e then Some e else None) else mapping m vp) as Hmap.
  { intros vp Hvp. destruct (vp_range vp Hvp) as (Hd & Htm & Heq).
    unfold mapping, tbl. rewrite Hpde by done. case_decide as E.
    - subst vp. destruct (vp_split di ti Hti) as [-> ->]. rewrite Hpr.
      unfold m', tbl. by rewrite mread_insert, decide_True.
    - destruct (Z.odd (pde m (vp / 1024))) eqn:Hq; [|done].
      unfold m'. rewrite mread_insert, decide_False; [done|]. unfold tbl.
      destruct (decide (vp / 1024 = di)) as [Ed|Ed]; [rewrite Ed; lia|].
      apply aligned_word_ne; try done; [by apply (t_al _ Ht)|].
      intros Hc. apply Ed. symmetry. apply (t_inj _ Ht); try done. lia. }
  split; [|done]. destruct Ht as [Hd Hal' Hinj Hk Hu Hid]. unfold present, tbl in *.
  split; unfold present, tbl; [done|..].
  - intros dj Hdj. rewrite Hpde by done. by apply Hal'.
  - intros dj dk Hdj Hdk. rewrite !Hpde by done. by apply Hinj.
  - intros dj Hdj. rewrite Hpde by lia. by apply Hk.
  - intros dj Hdj. rewrite Hpde by lia. by apply Hu.
  - intros vp Hvp. rewrite Hmap by lia. rewrite decide_False by lia. by apply Hid.
Qed.

(** Entering a cleared page as a new table changes no mapping. *)
Lemma tables_set_pde m di p :
  tables m → 4 ≤ di < 1024 → ¬ present m di →
  (4096 | p) → 0x500000 ≤ p < 2 ^ 24 →
  (∀ dj, 0 ≤ dj < 1024 → present m dj → tbl m dj ≠ p) →
  (∀ i, 0 ≤ i < 1024 → mread m (p + 4 * i) = 0) →
  let m' := <[page_dir + 4 * di := p + 3]> m in
  tables m' ∧
  (∀ dj, 0 ≤ dj < 1024 → pde m' dj = if decide (dj = di) then p + 3 else pde m dj) ∧
  (∀ vp, 0 ≤ vp < 2 ^ 20 → mapping m' vp = mapping m vp).
Proof.
  intros Ht Hdi Hpr Hal Hr Hfresh Hz m'. pose proof (t_dir _ Ht) as [Hdal Hdr].
  assert (∀ dj, 0 ≤ dj < 1024 → pde m' dj = if decide (dj = di) then p + 3 else pde m dj) as Hpde.
  { intros dj Hdj. unfold pde, m'. rewrite mread_insert.
    repeat case_decide; try done; lia. }
  assert (Z.odd (p + 3) = true ∧ page_base (p + 3) = p) as [Hodd Hbase].
  { split; [|by apply page_base_flags]. rewrite <- present_odd, present_add by done. done. }
  assert (∀ q i, (4096 | q) → q ≠ page_dir → 0 ≤ i < 1024 →
    mread m' (q + 4 * i) = mread m (q + 4 * i)) as Hoth.
  { intros q i Hq Hne Hi. unfold m'. rewrite mread_insert, decide_False; [done|].
    apply aligned_word_ne; try done. lia. }
  assert (∀ vp, 0 ≤ vp < 2 ^ 20 → mapping m' vp = mapping m vp) as Hmap.
  { intros vp Hvp. destruct (vp_range vp Hvp) as (Hd & Htm & Heq).
    unfold mapping, tbl. rewrite Hpde by done. case_decide as E.
    - rewrite Hodd, Hbase, Hoth, Hz by (done || lia). cbn.
      unfold present in Hpr. rewrite E. by destruct (Z.odd (pde m di)).
    - destruct (Z.odd (pde m (vp / 1024))) eqn:Hq; [|done].
      destruct (t_al _ Ht (vp / 1024) Hd Hq) as (? & ? & ?). by rewrite Hoth. }
  split; [|done].
  assert (∀ dj, 0 ≤ dj < 1024 → present m' dj →
    (dj = di ∧ tbl m' dj = p) ∨ (dj ≠ di ∧ present m dj ∧ tbl m' dj = tbl m dj)) as Hcases.
  { intros dj Hdj. unfold present, tbl. rewrite Hpde by done. case_decide; [left|right]; subst; done. }
  split; [done|..].
  - intros dj Hdj Hp. destruct (Hcases dj Hdj Hp) as [[-> ->]|(_ & ? & ->)].
    + split; [done|]. split; lia.
    + by apply (t_al _ Ht).
  - intros dj dk Hdj Hdk Hp Hq.
    destruct (Hcases dj Hdj Hp) as [[-> ->]|(? & ? & ->)], (Hcases dk Hdk Hq) as [[-> ->]|(? & ? & ->)].
    + done.
    + intros Hc. by destruct (Hfresh dk).
    + intros Hc. by destruct (Hfresh dj).
    + by apply (t_inj _ Ht).
  - intros dj Hdj. unfold present, tbl. rewrite Hpde by lia. rewrite decide_False by lia.
    by apply (t_kern _ Ht).
  - intros dj Hdj Hp. destruct (Hcases dj ltac:(lia) Hp) as [[-> ->]|(_ & ? & ->)]; [lia|].
    by apply (t_user _ Ht).
  - intros vp Hvp. rewrite Hmap by lia. by apply (t_ident _ Ht).
Qed.

(** ** The invariant of the address space

    The kernel reaches the frames it is handed through the identity mapping of the
    first 16 MiB, while the manager covers up to 256 MiB; it hands out the lowest
    free frame first. The invariant says that every frame in use lies below 16 MiB:
    it holds after [paging_init] whatever the size of the machine, and is kept as
    long as a frame is only taken while the [LOW_FRAMES] managed frames below 16 MiB
    are not all in use. Every table and every mapped page above 16 MiB owns its
    frame. *)
Definition rc (s : vm) (p : Z) : Z := pmm_refcount p (pm s).


Record vm_wf (s : vm) : Prop := {
  w_cr3 : cr3 s = page_dir;
  w_tables : tables (mem s);
  w_pmm : pmm_wf (pm s);
  w_low p : managed_frame (pm s) p → rc s p ≠ 0 → p < 2 ^ 24;
  w_kern a : 0x100000 ≤ a < 0x500000 → rc s a ≠ 0;
  w_tab di : 4 ≤ di < 1024 → present (mem s) di →
    managed_frame (pm s) (tbl (mem s) di) ∧ rc s (tbl (mem s) di) ≠ 0;
  w_map vp e : 4096 ≤ vp < 2 ^ 20 → mapping (mem s) vp = Some e →
    managed_frame (pm s) (page_base e) ∧ 0x500000 ≤ page_base e ∧ rc s (page_base e) ≠ 0 ∧
    ∀ di, 0 ≤ di < 1024 → present (mem s) di → tbl (mem s) di ≠ page_base e;
  w_inj vp vq e f : 4096 ≤ vp < 2 ^ 20 → 4096 ≤ vq < 2 ^ 20 →
    mapping (mem s) vp = Some e → mapping (mem s) vq = Some f → page_base e = page_base f → vp = vq
}.

(** A frame a client of the manager holds and has not mapped. *)
Record own_frame (s : vm) (p : Z) : Prop := {
  o_al : (4096 | p);
  o_man : managed_frame (pm s) p;
  o_lo : 0x500000 ≤ p < 2 ^ 24;
  o_rc : rc s p ≠ 0;
  o_tab di : 0 ≤ di < 1024 → present (mem s) di → tbl (mem s) di ≠ p;
  o_map vp e : 4096 ≤ vp < 2 ^ 20 → mapping (mem s) vp = Some e → page_base e ≠ p
}.

(** Words of referenced frames that hold no table are kept. *)
Definition keeps (s s' : vm) : Prop :=
  ∀ p i, (4096 | p) → 0 ≤ p → ¬ spage (mem s) p → rc s p ≠ 0 → 0 ≤ i < 1024 →
    mread (mem s') (p + 4 * i) = mread (mem s) (p + 4 * i).

(** [s'] differs from [s] in tables and in newly referenced frames only. *)
Record ext (s s' : vm) : Prop := {
  e_rest : s' = set_mem (mem s') (set_pm (pm s') s);
  e_keeps : keeps s s';
  e_spage p : spage (mem s') p → spage (mem s) p ∨ rc s p = 0;
  e_rc b : (4096 | b) → 0 ≤ b → rc s b ≠ 0 → rc s' b = rc s b;
  e_man b : managed_frame (pm s') b ↔ managed_frame (pm s) b;
  e_total : pmm_total_frames (pm s') = pmm_total_frames (pm s);
  e_used : pmm_used_frames (pm s) ≤ pmm_used_frames (pm s') ≤ pmm_used_frames (pm s) + 1
}.

Lemma managed_low s p : vm_wf s → managed_frame (pm s) p → 0x100000 ≤ p.
Proof.
  intros Hw Hm. unfold managed_frame, frame_idx, PAGE_SIZE in Hm.
  rewrite (wf_base _ (w_pmm _ Hw)) in Hm.
  pose proof (Z.div_mod p 4096 ltac:(lia)). pose proof (Z.mod_pos_bound p 4096 ltac:(lia)). lia.
Qed.

Lemma own_frame_data s p : vm_wf s → own_frame s p → data_page (mem s) p.
Proof.
  intros Hw Ho. split; [apply Ho|]. intros [->|(di & Hdi & Hp & ->)].
  - pose proof (t_dir _ (w_tables _ Hw)). pose proof (o_lo _ _ Ho). lia.
  - by eapply (o_tab _ _ Ho di).
Qed.

(** An address in the frame of an aligned address below 16 MiB is below it too. *)
Lemma below_of_idx a b : (4096 | a) → frame_idx b ≤ frame_idx a → a < 2 ^ 24 → b < 2 ^ 24.
Proof.
  intros [q ->] Hi Ha. change 4096 with PAGE_SIZE in *. rewrite frame_idx_mul in Hi.
  unfold frame_idx, PAGE_SIZE in *. pose proof (Z.div_mod b 4096). pose proof (Z.mod_pos_bound b 4096). lia.
Qed.

Lemma idx_of_aligned p q : (4096 | p) → (4096 | q) → frame_idx p = frame_idx q → p = q.
Proof. intros [a ->] [b ->]. rewrite !frame_idx_mul. lia. Qed.

(** While fewer than [LOW_FRAMES] frames are in use, the first free frame is one of them. *)
Lemma alloc_low s a p' :
  vm_wf s → low_next 1 s → pmm_alloc (pm s) = (a, p') → a < 2 ^ 24.
Proof.
  intros Hw Hn Ha. pose proof (w_pmm _ Hw) as Hp.
  destruct (pmm_alloc_cases (pm s) Hp) as [[E _]|(k & Hk & _ & Hlow & E)]; rewrite Ha in E; injection E as -> _; [lia|].
  assert (Z.of_nat k ≤ count_used (take k (pmm_managed (pm s)))) as Hc.
  { pose proof (managed_length _ Hp). rewrite <- (length_take_le (pmm_managed (pm s)) k) at 1 by lia.
    apply count_used_all. intros i x Hx. apply lookup_take_Some in Hx as [Hx Hi].
    pose proof (Hlow i Hi) as Hne. rewrite managed_lookup in Hx by (done || lia).
    by rewrite (list_lookup_total_correct _ _ _ Hx) in Hne. }
  pose proof (wf_used _ Hp) as Hu. rewrite <- (take_drop k (pmm_managed (pm s))), count_used_app in Hu.
  pose proof (count_used_bounds (drop k (pmm_managed (pm s)))). unfold PAGE_SIZE. lia.
Qed.

Lemma palloc_spec s :
  vm_wf s → low_next 1 s →
  (palloc s = Ok (0, s) ∧ ∀ b, managed_frame (pm s) b → rc s b ≠ 0) ∨
  ∃ a p', palloc s = Ok (a, set_pm p' s) ∧ a ≠ 0 ∧ rc s a = 0 ∧
    pmm_refcount a p' = 1 ∧
    vm_wf (set_pm p' s) ∧ own_frame (set_pm p' s) a ∧
    (∀ b, (4096 | b) → 0 ≤ b → b ≠ a → pmm_refcount b p' = rc s b) ∧
    (∀ b, managed_frame p' b ↔ managed_frame (pm s) b) ∧
    pmm_used_frames p' = pmm_used_frames (pm s) + 1 ∧
    pmm_total_frames p' = pmm_total_frames (pm s).
Proof.
  intros Hw Hn. unfold palloc. destruct (pmm_alloc (pm s)) as [a p'] eqn:Ha.
  pose proof (w_pmm _ Hw) as Hp. pose proof (alloc_low _ _ _ Hw Hn Ha) as Hlow.
  destruct (pmm_alloc_spec _ _ _ Hp Ha) as
    [(-> & -> & Hall)|(Hm & [q Hal] & Hne & Hp' & Hz & H1 & Hoth & _ & Hmm & Hu)]; [left|right].
  { split; [by destruct s|done]. }
  assert (pmm_total_frames p' = pmm_total_frames (pm s)) as Htot.
  { revert Ha. unfold pmm_alloc. case_match; intros [= <- <-]; done. }
  assert (4096 | a) as Hal4 by (by exists q).
  pose proof (managed_low _ _ Hw Hm) as Hrange.
  assert (∀ b, (4096 | b) → 0 ≤ b → b ≠ a → pmm_refcount b p' = rc s b) as Hoth'.
  { intros b Hb H0 Hba. apply Hoth; [intros Hc; apply Hba; by apply idx_of_aligned|].
    apply Z.div_pos; [done|]. done. }
  assert (∀ b, 0 ≤ b → rc s b ≠ 0 → pmm_refcount b p' ≠ 0) as Hkeep.
  { intros b Hb Hr. unfold rc in Hr. destruct (decide (frame_idx b = frame_idx a)) as [E|E].
    - unfold pmm_refcount in *. rewrite E. lia.
    - rewrite Hoth; [done|done|]. by apply Z.div_pos. }
  assert (0x500000 ≤ a) as Hlo.
  { destruct (decide (0x500000 ≤ a)); [done|]. destruct (w_kern _ Hw a); [lia|done]. }
  exists a, p'. do 4 (split; [done|]). split; [|split].
  - destruct Hw as [Hc Ht _ Hs Hk Htab Hmap Hinj]. split; cbn; try done.
    + intros b Hb Hr. destruct (decide (frame_idx b = frame_idx a)) as [E|E].
      * apply (below_of_idx a); [by exists q| |done]. by rewrite E.
      * apply Hs; [by apply Hmm|]. unfold rc in *. cbn in Hr. rewrite Hoth in Hr; [done|done|].
        unfold managed_frame in Hb. rewrite (wf_base _ Hp') in Hb. lia.
    + intros b Hb. apply Hkeep; [lia|by apply Hk].
    + intros di Hdi Hpr. destruct (Htab di Hdi Hpr) as [? ?].
      destruct (t_al _ Ht di ltac:(lia) Hpr) as (? & ? & ?).
      split; [by apply Hmm|]. apply Hkeep; [lia|done].
    + intros vp e Hvp He. destruct (Hmap vp e Hvp He) as (? & ? & ? & ?).
      split; [by apply Hmm|]. split; [done|]. split; [apply Hkeep; [lia|done]|done].
  - split; cbn; try done.
    + by apply Hmm.
    + unfold rc. cbn. lia.
    + intros di Hdi Hpr Hc. destruct (decide (4 ≤ di)).
      * destruct (w_tab _ Hw di ltac:(lia) Hpr) as [_ Hr]. by rewrite Hc in Hr.
      * destruct (t_kern _ (w_tables _ Hw) di ltac:(lia)). lia.
    + intros vp e Hvp He Hc. destruct (w_map _ Hw vp e Hvp He) as (_ & _ & Hr & _).
      by rewrite Hc in Hr.
  - done.
Qed.

(** ** Reading and copying pages *)

(** The words of physical page [p] from word [i] on. *)
Definition words (m : gmap Z Z) (p i : Z) (n : nat) : list Z :=
  (λ k : nat, mread m (p + 4 * (i + Z.of_nat k))) <$> seq 0 n.

Lemma words_length m p i n : length (words m p i n) = n.
Proof. unfold words. by rewrite length_fmap, length_seq. Qed.

Lemma words_cons m p i n : words m p i (S n) = mread m (p + 4 * i) :: words m p (i + 1) n.
Proof.
  unfold words. cbn [seq fmap list_fmap]. rewrite Z.add_0_r. f_equal.
  rewrite <- fmap_S_seq, <- list_fmap_compose. apply list_fmap_ext. intros ? k _. cbn. do 2 f_equal. lia.
Qed.

Lemma words_lookup m p i n k : 0 ≤ k < Z.of_nat n → words m p i n !!! Z.to_nat k = mread m (p + 4 * (i + k)).
Proof.
  intros Hk. unfold words. erewrite list_lookup_total_correct;
    [|rewrite list_lookup_fmap, lookup_seq_lt by lia; reflexivity]. do 3 f_equal. lia.
Qed.

Lemma load_words_page n s v p i :
  cr3 s = page_dir → (4096 | v) → xlat s v = Some p → 0 ≤ i → i + Z.of_nat n ≤ 1024 →
  load_words (v + 4 * i) n s = Ok (words (mem s) p i n, s).
Proof.
  intros Hc Hal Hx. revert i. induction n as [|n IH]; intros i Hi Hn; [done|].
  cbn [load_words]. unfold mbind, M_bind, vload.
  destruct (xlat_off s v p (4 * i)) as [-> _]; [done..|lia|].
  replace (v + 4 * i + 4) with (v + 4 * (i + 1)) by lia. rewrite IH by lia. by rewrite words_cons.
Qed.

Lemma load_page s v p :
  cr3 s = page_dir → (4096 | v) → xlat s v = Some p →
  load_words v 1024 s = Ok (words (mem s) p 0 1024, s).
Proof.
  intros. rewrite <- (Z.add_0_r v) at 1. by apply (load_words_page 1024 s v p 0).
Qed.

(** Copying between different pages stores the words of the source. *)
Lemma copy_as_store n s src p dst q i :
  cr3 s = page_dir → tables (mem s) → 0 ≤ src < 2 ^ 32 → 0 ≤ dst < 2 ^ 32 →
  (4096 | src) → (4096 | dst) → xlat s src = Some p → xlat s dst = Some q →
  data_page (mem s) q → p ≠ q → 0 ≤ i → i + Z.of_nat n ≤ 1024 →
  copy_words (dst + 4 * i) (src + 4 * i) n s = store_words (dst + 4 * i) (words (mem s) p i n) s.
Proof.
  intros Hc Ht Hsr Hdr Hsa Hda Hxs Hxd Hdp Hne. revert s i Hc Ht Hxs Hxd Hdp.
  induction n as [|n IH]; intros s i Hc Ht Hxs Hxd Hdp Hi Hn; [done|].
  rewrite words_cons. cbn [copy_words store_words]. unfold mbind, M_bind, vload at 1, vstore at 1 2.
  destruct (xlat_off s src p (4 * i)) as [-> Hpa]; [done..|lia|].
  destruct (xlat_off s dst q (4 * i)) as [-> Hqa]; [done..|lia|].
  destruct (tables_agree (mem s) (<[q + 4 * i := mread (mem s) (p + 4 * i)]> (mem s)) Ht)
    as (Ht1 & Hm1 & Hp1).
  { apply data_store_agree; [done..|lia]. }
  replace (dst + 4 * i + 4) with (dst + 4 * (i + 1)) by lia.
  replace (src + 4 * i + 4) with (src + 4 * (i + 1)) by lia.
  rewrite IH; [f_equal| done | done | | | | lia | lia].
  - unfold words. apply list_fmap_ext. intros j k Hk. cbn [mem set_mem].
    apply lookup_seq in Hk as [-> Hk].
    rewrite mread_insert, decide_False; [done|]. apply aligned_word_ne; try done; lia.
  - by rewrite xlat_agree.
  - by rewrite xlat_agree.
  - destruct Hdp as [? Hn']. split; [done|]. by rewrite (spage_agree (mem s)).
Qed.

(** Not every managed frame can be referenced while the counter is below the total. *)
Lemma free_frame_exists s :
  vm_wf s → pmm_used_frames (pm s) < pmm_total_frames (pm s) →
  (∀ b, managed_frame (pm s) b → rc s b ≠ 0) → False.
Proof.
  intros Hw Hu Hall. pose proof (w_pmm _ Hw) as Hp.
  destruct (pmm_alloc (pm s)) as [a p'] eqn:Ha.
  destruct (pmm_alloc_cases (pm s) Hp) as [[_ Hfull]|(k & Hk & Hz & _ & E)].
  - rewrite (wf_used _ Hp) in Hu. lia.
  - assert (managed_frame (pm s) ((256 + Z.of_nat k) * PAGE_SIZE)) as Hm.
    { unfold managed_frame. rewrite frame_idx_mul, (wf_base _ Hp). pose proof (wf_total _ Hp). lia. }
    apply (Hall _ Hm). unfold rc. rewrite pmm_refcount_managed, frame_idx_mul by done.
    replace (Z.to_nat (256 + Z.of_nat k)) with (256 + k)%nat by lia.
    by apply list_lookup_total_correct.
Qed.

(** A memory with the same mappings and directory keeps the invariant. *)
Lemma vm_wf_agree s m' :
  vm_wf s → tables m' →
  (∀ vp, 0 ≤ vp < 2 ^ 20 → mapping m' vp = mapping (mem s) vp) →
  (∀ di, 0 ≤ di < 1024 → pde m' di = pde (mem s) di) →
  vm_wf (set_mem m' s) ∧ ∀ b, own_frame s b → own_frame (set_mem m' s) b.
Proof.
  intros Hw Ht Hmap Hpde.
  assert (∀ di, 0 ≤ di < 1024 → present m' di → present (mem s) di ∧ tbl m' di = tbl (mem s) di) as Hpr.
  { intros di Hdi. unfold present, tbl. by rewrite Hpde. }
  split.
  - destruct Hw as [Hc _ Hp Hs Hk Htab Hm Hinj]. split; cbn; try done.
    + intros di Hdi Hq. destruct (Hpr di ltac:(lia) Hq) as [? ->]. by apply Htab.
    + intros vp e Hvp. rewrite Hmap by lia. intros He. destruct (Hm vp e Hvp He) as (? & ? & ? & Hnt).
      do 3 (split; [done|]). intros di Hdi Hq. destruct (Hpr di Hdi Hq) as [? ->]. by apply Hnt.
    + intros vp vq e f Hvp Hvq. rewrite !Hmap by lia. by apply Hinj.
  - intros b [Hal Hman Hlo Hrc Htab Hm]. split; cbn; try done.
    + intros di Hdi Hq. destruct (Hpr di Hdi Hq) as [? ->]. by apply Htab.
    + intros vp e Hvp. rewrite Hmap by lia. by apply Hm.
Qed.

(** Writing a page of data through a virtual address keeps the invariant. *)
Lemma store_data_wf s v p l :
  vm_wf s → 0 ≤ v < 2 ^ 32 → (4096 | v) → xlat s v = Some p → data_page (mem s) p →
  length l = 1024%nat →
  ∃ m', store_words v l s = Ok (tt, set_mem m' s) ∧ vm_wf (set_mem m' s) ∧
    (∀ vp, 0 ≤ vp < 2 ^ 20 → mapping m' vp = mapping (mem s) vp) ∧
    (∀ di, 0 ≤ di < 1024 → pde m' di = pde (mem s) di) ∧
    (∀ j, 0 ≤ j < 1024 → mread m' (p + 4 * j) = l !!! Z.to_nat j) ∧
    (∀ q j, (4096 | q) → q ≠ p → 0 ≤ j < 1024 → mread m' (q + 4 * j) = mread (mem s) (q + 4 * j)) ∧
    (∀ b, own_frame s b → own_frame (set_mem m' s) b).
Proof.
  intros Hw Hv Hal Hx Hdp Hl.
  destruct (store_words_page l s v p 0) as (m' & Hrun & Ht & Hmap & Hpde & Hwd & Hoth);
    try done; try lia; [apply Hw|apply Hw|].
  destruct (vm_wf_agree s m' Hw Ht Hmap Hpde) as [Hw' Hown].
  exists m'. rewrite Z.mul_0_r, Z.add_0_r in Hrun. do 4 (split; [done|]). split; [|split; [|done]].
  - intros j Hj. rewrite <- (Hwd j) by lia. f_equal.
  - intros q j Hq Hne Hj. apply Hoth. intros k Hk.
    apply aligned_word_ne; try done; [apply Hdp|lia].
Qed.

(** In particular into a frame a client holds. *)
Lemma store_frame_wf s p l :
  vm_wf s → own_frame s p → length l = 1024%nat →
  ∃ m', store_words p l s = Ok (tt, set_mem m' s) ∧ vm_wf (set_mem m' s) ∧
    (∀ vp, 0 ≤ vp < 2 ^ 20 → mapping m' vp = mapping (mem s) vp) ∧
    (∀ di, 0 ≤ di < 1024 → pde m' di = pde (mem s) di) ∧
    (∀ j, 0 ≤ j < 1024 → mread m' (p + 4 * j) = l !!! Z.to_nat j) ∧
    (∀ q j, (4096 | q) → q ≠ p → 0 ≤ j < 1024 → mread m' (q + 4 * j) = mread (mem s) (q + 4 * j)) ∧
    (∀ b, own_frame s b → own_frame (set_mem m' s) b).
Proof.
  intros Hw Ho Hl. pose proof (o_lo _ _ Ho) as Hr.
  apply store_data_wf; [done|lia|apply Ho| |by apply own_frame_data|done].
  apply xlat_ident; [apply Hw|apply Hw|lia].
Qed.

Lemma ext_refl s : ext s s.
Proof. split; try done; [by destruct s|by left|lia]. Qed.

Lemma addr_split virt :
  2 ^ 24 ≤ virt < 2 ^ 32 →
  PAGE_DIR_IDX virt = virt / 4096 / 1024 ∧ PAGE_TBL_IDX virt = (virt / 4096) mod 1024 ∧
  4 ≤ virt / 4096 / 1024 < 1024 ∧ 0 ≤ (virt / 4096) mod 1024 < 1024 ∧
  4096 ≤ virt / 4096 < 2 ^ 20 ∧
  virt / 4096 = 1024 * (virt / 4096 / 1024) + (virt / 4096) mod 1024.
Proof.
  intros Hv. rewrite dir_idx_eq, tbl_idx_eq.
  assert (4096 ≤ virt / 4096 < 2 ^ 20)
    by (split; [apply Z.div_le_lower_bound; lia|apply Z.div_lt_upper_bound; lia]).
  destruct (vp_range (virt / 4096)) as (? & ? & ?); [lia|].
  do 2 (split; [done|]). split; [|done]. split; [|lia]. apply Z.div_le_lower_bound; lia.
Qed.

Lemma dir_word_range s di : vm_wf s → 0 ≤ di < 1024 → 0 ≤ page_dir + 4 * di < 2 ^ 24.
Proof. intros Hw Hdi. pose proof (t_dir _ (w_tables _ Hw)). lia. Qed.

Lemma vload_dir s di : vm_wf s → 0 ≤ di < 1024 →
  vload (page_dir + 4 * di) s = Ok (pde (mem s) di, s).
Proof. intros Hw Hdi. apply vload_ident; [apply Hw..|]. by eapply dir_word_range. Qed.

(** Finding the entry of a page whose table exists. *)
Lemma pte_ptr_present s virt alloc :
  vm_wf s → 0 ≤ virt < 2 ^ 32 → present (mem s) (virt / 4096 / 1024) →
  pte_ptr page_dir virt alloc s =
    Ok (Some (tbl (mem s) (virt / 4096 / 1024) + 4 * ((virt / 4096) mod 1024)), s).
Proof.
  intros Hw Hv Hp. destruct (vp_range (virt / 4096) (vpage_range virt Hv)) as (Hd & Ht & _).
  unfold pte_ptr, mbind, M_bind. rewrite dir_idx_eq, tbl_idx_eq, vload_dir by (done || lia).
  rewrite present_odd, Hp. cbn. rewrite vload_dir by (done || lia). done.
Qed.

Lemma pte_ptr_absent s virt :
  vm_wf s → 0 ≤ virt < 2 ^ 32 → ¬ present (mem s) (virt / 4096 / 1024) →
  pte_ptr page_dir virt false s = Ok (None, s).
Proof.
  intros Hw Hv Hp. destruct (vp_range (virt / 4096) (vpage_range virt Hv)) as (Hd & Ht & _).
  unfold pte_ptr, mbind, M_bind. rewrite dir_idx_eq, vload_dir by (done || lia).
  rewrite present_odd. unfold present in Hp. by destruct (Z.odd _).
Qed.

(** A held, cleared frame entered in the directory as a table. *)
Lemma set_pde_wf s di p :
  vm_wf s → 4 ≤ di < 1024 → ¬ present (mem s) di → own_frame s p →
  (∀ i, 0 ≤ i < 1024 → mread (mem s) (p + 4 * i) = 0) →
  let s' := set_mem (<[page_dir + 4 * di := p + 3]> (mem s)) s in
  vm_wf s' ∧ present (mem s') di ∧ tbl (mem s') di = p ∧
  (∀ vp, 0 ≤ vp < 2 ^ 20 → mapping (mem s') vp = mapping (mem s) vp) ∧
  (∀ b, own_frame s b → b ≠ p → own_frame s' b) ∧
  (∀ q, spage (mem s') q → spage (mem s) q ∨ q = p).
Proof.
  intros Hw Hdi Hpr Ho Hz s'. pose proof (o_al _ _ Ho) as Hal.
  destruct (tables_set_pde (mem s) di p) as (Ht & Hpde & Hmap); try done;
    [apply Hw|apply Ho|apply Ho|].
  change (<[page_dir + 4 * di := p + 3]> (mem s)) with (mem s') in Ht, Hpde, Hmap.
  assert (Z.odd (p + 3) = true ∧ page_base (p + 3) = p) as [Hodd Hbase].
  { split; [|by apply page_base_flags]. rewrite <- present_odd, present_add by done. done. }
  assert (∀ dj, 0 ≤ dj < 1024 → present (mem s') dj → (dj = di ∧ tbl (mem s') dj = p) ∨
    (present (mem s) dj ∧ tbl (mem s') dj = tbl (mem s) dj)) as Hcases.
  { intros dj Hdj. unfold present, tbl. rewrite Hpde by done.
    case_decide; [left|right]; subst; done. }
  split; [|split; [|split; [|split; [done|split]]]].
  - destruct Hw as [Hc _ Hp Hs Hk Htab Hm Hinj]. split; try done.
    + intros dj Hdj Hq. destruct (Hcases dj ltac:(lia) Hq) as [[-> E]|[? E]]; rewrite E;
        [|by apply Htab]. split; [apply Ho|apply (o_rc _ _ Ho)].
    + intros vp e Hvp. rewrite Hmap by lia. intros He.
      destruct (Hm vp e Hvp He) as (? & ? & ? & Hnt). do 3 (split; [done|]).
      intros dj Hdj Hq. destruct (Hcases dj Hdj Hq) as [[-> E]|[? E]]; rewrite E; [|by apply Hnt].
      intros Hc'. by eapply (o_map _ _ Ho).
    + intros vp vq e f Hvp Hvq. rewrite !Hmap by lia. by apply Hinj.
  - unfold present. rewrite Hpde by lia. by rewrite decide_True.
  - unfold tbl. rewrite Hpde by lia. by rewrite decide_True.
  - intros b Hb Hne. destruct Hb as [Hbal Hman Hlo Hrc Htab Hm]. split; try done.
    + intros dj Hdj Hq. destruct (Hcases dj Hdj Hq) as [[-> E]|[? E]]; rewrite E;
        [done|by apply Htab].
    + intros vp e Hvp. rewrite Hmap by lia. by apply Hm.
  - intros q [->|(dj & Hdj & Hq & ->)]; [by left; left|].
    destruct (Hcases dj Hdj Hq) as [[-> E]|[? E]]; rewrite E; [by right|].
    left. right. by exists dj.
Qed.

(** Finding or creating the entry of a page. *)
Lemma pte_ptr_alloc s virt :
  vm_wf s → low_next 1 s → 2 ^ 24 ≤ virt < 2 ^ 32 →
  (pte_ptr page_dir virt true s = Ok (None, s) ∧ ∀ b, managed_frame (pm s) b → rc s b ≠ 0) ∨
  ∃ s', pte_ptr page_dir virt true s =
      Ok (Some (tbl (mem s') (virt / 4096 / 1024) + 4 * ((virt / 4096) mod 1024)), s') ∧
    vm_wf s' ∧ present (mem s') (virt / 4096 / 1024) ∧ ext s s' ∧
    (∀ vp, 0 ≤ vp < 2 ^ 20 → mapping (mem s') vp = mapping (mem s) vp) ∧
    (∀ b, own_frame s b → own_frame s' b).
Proof.
  intros Hw Hn Hv. destruct (addr_split virt Hv) as (Ed & Et & Hd & Hti & _).
  destruct (decide (Z.odd (pde (mem s) (virt / 4096 / 1024)) = true)) as [Hp|Hp].
  { right. exists s. rewrite pte_ptr_present by (done || lia). do 3 (split; [done|]). split; [apply ext_refl|done]. }
  destruct (palloc_spec s Hw Hn) as
    [[Ha Hall]|(a & p' & Ha & Hne & Hz & H1 & Hw1 & Ho1 & Hoth & Hman & Hu & Htot)].
  - left. split; [|done]. unfold pte_ptr, mbind, M_bind. rewrite Ed, vload_dir by (done || lia).
    rewrite present_odd. destruct (Z.odd _); [done|]. cbn [negb]. by rewrite Ha.
  - right. pose proof (o_al _ _ Ho1) as Hal.
    destruct (store_frame_wf (set_pm p' s) a (replicate 1024 0) Hw1 Ho1) as
      (m2 & Hset & Hw2 & Hmap2 & Hpde2 & Hwd2 & Hoth2 & Ho2'); [apply length_replicate|].
    pose proof (Ho2' a Ho1) as Ho2.
    set (s2 := set_mem m2 (set_pm p' s)) in *.
    destruct (set_pde_wf s2 (virt / 4096 / 1024) a) as (Hw3 & Hp3 & Ht3 & Hmap3 & Hown3 & Hsp3); try done.
    { unfold present. unfold s2; cbn [mem set_mem]. by rewrite Hpde2 by lia. }
    { intros i Hi. unfold s2; cbn [mem set_mem]. rewrite Hwd2 by lia.
      by rewrite lookup_total_replicate_2 by lia. }
    exists (set_mem (<[page_dir + 4 * (virt / 4096 / 1024) := a + 3]> (mem s2)) s2).
    split.
    { unfold pte_ptr, mbind, M_bind. rewrite Ed, Et, vload_dir by (done || lia).
      rewrite present_odd. destruct (Z.odd _); [done|]. cbn [negb]. rewrite Ha.
      rewrite (proj2 (Z.eqb_neq a 0)) by done. unfold kmemset_page. rewrite Hset. fold s2.
      rewrite vstore_ident by (first [apply Hw2 | eapply dir_word_range; [done|lia]]).
      rewrite <- Z.lor_assoc, lor_flags by done. change (Z.lor PAGE_PRESENT PAGE_WRITE) with 3.
      cbn. rewrite vload_dir by (done || lia). done. }
    split; [done|]. split; [done|]. split; [|split].
    + split; try done.
      * intros q i Hq Hq0 Hns Hr Hi. cbn [mem set_mem]. rewrite mread_insert, decide_False.
        -- unfold s2; cbn [mem set_mem]. apply Hoth2; try done. by intros ->.
        -- apply aligned_word_ne; try done; [apply (t_dir _ (w_tables _ Hw))| |lia].
           intros ->. apply Hns. by left.
      * intros q Hq. destruct (Hsp3 q Hq) as [Hq2| ->]; [left|by right].
        by rewrite <- (spage_agree _ m2).
      * intros b Hb H0 Hr. unfold rc at 1. cbn. apply Hoth; try done. by intros ->.
      * cbn. lia.
    + intros vp Hvp. rewrite Hmap3 by done. unfold s2; cbn [mem set_mem]. by rewrite Hmap2.
    + intros b Hb. apply Hown3; [|intros ->; by destruct (o_rc _ _ Hb)].
      assert (b ≠ a) by (intros ->; by destruct (o_rc _ _ Hb)).
      destruct Hb as [Hbal Hbm Hlo Hrc Htab Hm]. split; try done.
      * by apply Hman.
      * unfold rc; cbn. rewrite Hoth; try done. lia.
      * intros di Hdi. unfold present, tbl, s2; cbn [mem set_mem]. rewrite Hpde2 by done.
        by apply Htab.
      * intros vp e Hvp. unfold s2; cbn [mem set_mem]. rewrite Hmap2 by lia. by apply Hm.
Qed.

(** Where the entry of [virt] is. *)
Definition pte_addr (s : vm) (virt : Z) : Z :=
  tbl (mem s) (virt / 4096 / 1024) + 4 * ((virt / 4096) mod 1024).

Lemma pte_lookup_eq s virt :
  vm_wf s → 0 ≤ virt < 2 ^ 32 →
  pte_lookup page_dir virt s = Ok (pair (pte_addr s virt) <$> mapping (mem s) (virt / 4096), s).
Proof.
  intros Hw Hv. destruct (vp_range (virt / 4096) (vpage_range virt Hv)) as (Hd & Ht & _).
  unfold pte_lookup, mbind, M_bind, mapping.
  destruct (Z.odd (pde (mem s) (virt / 4096 / 1024))) eqn:Hp.
  - destruct (t_al _ (w_tables _ Hw) _ Hd Hp) as (Hal & Hr & _).
    rewrite pte_ptr_present by done.
    rewrite vload_ident; [|apply Hw..|]; [|destruct Hal as [q E]; rewrite E in *; lia].
    rewrite present_odd. clear Hp. destruct (Z.odd _); reflexivity.
  - assert (¬ present (mem s) (virt / 4096 / 1024)) by (unfold present; by rewrite Hp).
    by rewrite pte_ptr_absent.
Qed.

(** Overwriting one entry of a user table. The new entry is absent, or maps a
    frame that no table and no other page uses. *)
Lemma set_pte_wf s di ti e :
  vm_wf s → 4 ≤ di < 1024 → present (mem s) di → 0 ≤ ti < 1024 →
  (Z.odd e = true →
    managed_frame (pm s) (page_base e) ∧ 0x500000 ≤ page_base e ∧ rc s (page_base e) ≠ 0 ∧
    (∀ dj, 0 ≤ dj < 1024 → present (mem s) dj → tbl (mem s) dj ≠ page_base e) ∧
    (∀ vp f, 4096 ≤ vp < 2 ^ 20 → vp ≠ 1024 * di + ti → mapping (mem s) vp = Some f →
       page_base f ≠ page_base e)) →
  let s' := set_mem (<[tbl (mem s) di + 4 * ti := e]> (mem s)) s in
  vm_wf s' ∧
  (∀ vp, 0 ≤ vp < 2 ^ 20 →
    mapping (mem s') vp = if decide (vp = 1024 * di + ti) then (if Z.odd e then Some e else None)
                          else mapping (mem s) vp) ∧
  (∀ b, own_frame s b → (Z.odd e = true → b ≠ page_base e) → own_frame s' b) ∧
  (∀ p i, (4096 | p) → ¬ spage (mem s) p → 0 ≤ i < 1024 →
    mread (mem s') (p + 4 * i) = mread (mem s) (p + 4 * i)) ∧
  (∀ p, spage (mem s') p ↔ spage (mem s) p).
Proof.
  intros Hw Hdi Hpr Hti He s'.
  destruct (tables_set_pte (mem s) di ti e) as (Ht & Hpde & Hmap); try done; [apply Hw|].
  change (<[tbl (mem s) di + 4 * ti := e]> (mem s)) with (mem s') in Ht, Hpde, Hmap.
  assert (∀ dj, 0 ≤ dj < 1024 → present (mem s') dj →
    present (mem s) dj ∧ tbl (mem s') dj = tbl (mem s) dj) as Hsame.
  { intros dj Hdj. unfold present, tbl. by rewrite Hpde. }
  split; [|split; [done|split; [|split; [|intros q; by apply spage_agree]]]].
  - destruct Hw as [Hc _ Hp Hs Hk Htab Hm Hinj]. split; try done.
    + intros dj Hdj Hq. destruct (Hsame dj ltac:(lia) Hq) as [? E]. rewrite E. by apply Htab.
    + intros vp f Hvp. rewrite Hmap by lia. case_decide as E.
      * destruct (Z.odd e) eqn:Ho; [|done]. intros [= <-].
        destruct (He eq_refl) as (? & ? & ? & Hnt & _). do 3 (split; [done|]).
        intros dj Hdj Hq. destruct (Hsame dj Hdj Hq) as [? E']. rewrite E'. by apply Hnt.
      * intros Hf. destruct (Hm vp f Hvp Hf) as (? & ? & ? & Hnt). do 3 (split; [done|]).
        intros dj Hdj Hq. destruct (Hsame dj Hdj Hq) as [? E']. rewrite E'. by apply Hnt.
    + intros vp vq f g Hvp Hvq. rewrite !Hmap by lia.
      destruct (Z.odd e) eqn:Ho; [destruct (He eq_refl) as (_ & _ & _ & _ & Hn)|];
        repeat case_decide; try done; try congruence; intros Hf Hg Hfg;
        simplify_eq; try (by eapply Hinj).
      * by destruct (Hn vq g).
      * by destruct (Hn vp f).
  - intros b [Hbal Hman Hlo Hrc Htab Hm] Hne. split; try done.
    + intros dj Hdj Hq. destruct (Hsame dj Hdj Hq) as [? E]. rewrite E. by apply Htab.
    + intros vp f Hvp. rewrite Hmap by lia. case_decide; [|by apply Hm].
      destruct (Z.odd e); [|done]. intros [= <-]. by apply not_eq_sym, Hne.
  - intros q i Hq Hns Hi. cbn [mem set_mem s']. rewrite mread_insert, decide_False; [done|].
    apply aligned_word_ne; try done; [by apply (t_al _ (w_tables _ Hw)); [lia|]|].
    intros <-. apply Hns. right. exists di. repeat split; try done; lia.
Qed.

(** Releasing a frame nothing uses. *)
Lemma pfree_wf s p :
  vm_wf s → (4096 | p) → 0x500000 ≤ p → managed_frame (pm s) p → rc s p ≠ 0 →
  (∀ di, 0 ≤ di < 1024 → present (mem s) di → tbl (mem s) di ≠ p) →
  (∀ vp e, 4096 ≤ vp < 2 ^ 20 → mapping (mem s) vp = Some e → page_base e ≠ p) →
  let s' := set_pm (pmm_free p (pm s)) s in
  vm_wf s' ∧ rc s' p = rc s p - 1 ∧
  (∀ b, (4096 | b) → 0 ≤ b → b ≠ p → rc s' b = rc s b) ∧
  (∀ b, own_frame s b → b ≠ p → own_frame s' b).
Proof.
  intros Hw Hal Hlo Hman Hr Hnt Hnm s'.
  destruct (pmm_free_spec (pm s) p (w_pmm _ Hw) Hman Hr) as (Hp' & Hrc & Hoth & Hmm & Htot & _).
  assert (∀ b, (4096 | b) → 0 ≤ b → b ≠ p → rc s' b = rc s b) as Hoth'.
  { intros b Hb H0 Hne. apply Hoth; [by apply Z.div_pos|].
    intros Hc. apply Hne. by apply idx_of_aligned. }
  split; [|split; [done|split; [done|]]].
  - destruct Hw as [Hc Ht Hp Hs Hk Htab Hm Hinj]. split; try done.
    + intros b Hb Hb0. destruct (decide (frame_idx b = frame_idx p)) as [E|E].
      * apply (below_of_idx p); [done|by rewrite E|by apply Hs].
      * apply Hs; [by apply Hmm|]. unfold rc, s' in *. cbn in Hb0. rewrite Hoth in Hb0; [done| |done].
        apply Hmm in Hb. unfold managed_frame in Hb. rewrite (wf_base _ Hp) in Hb. lia.
    + intros a Ha. unfold rc, s'. cbn. rewrite Hoth; [by apply Hk| |].
      * apply Z.div_pos; [lia|done].
      * unfold frame_idx, PAGE_SIZE. destruct Hal as [q ->]. rewrite Z.div_mul by lia.
        assert (a / 4096 < 1280) by (apply Z.div_lt_upper_bound; lia). lia.
    + intros di Hdi Hpr. destruct (Htab di Hdi Hpr).
      destruct (t_al _ Ht di ltac:(lia) Hpr) as (? & ? & _).
      split; [by apply Hmm|]. rewrite Hoth'; try done; [by apply H2|]. apply Hnt; [lia|done].
    + intros vp e Hvp He. destruct (Hm vp e Hvp He) as (? & ? & ? & ?).
      split; [by apply Hmm|]. split; [done|]. split; [|done].
      rewrite Hoth'; try done; [apply page_base_aligned|lia|by eapply Hnm].
  - intros b [Hbal Hbm Hblo Hrc' Htab Hm] Hne. split; try done.
    + by apply Hmm.
    + rewrite Hoth'; try done. lia.
Qed.

Lemma pte_vstore s virt e :
  vm_wf s → 0 ≤ virt < 2 ^ 32 → present (mem s) (virt / 4096 / 1024) →
  vstore (pte_addr s virt) e s = Ok (tt, set_mem (<[pte_addr s virt := e]> (mem s)) s).
Proof.
  intros Hw Hv Hp. destruct (vp_range (virt / 4096) (vpage_range virt Hv)) as (Hd & Ht & _).
  destruct (t_al _ (w_tables _ Hw) _ Hd Hp) as ([q Hal] & Hr & _).
  apply vstore_ident; [apply Hw..|]. unfold pte_addr. lia.
Qed.

Lemma mapping_present m vp e : mapping m vp = Some e → present m (vp / 1024) ∧ Z.odd e = true.
Proof. unfold mapping, present. repeat case_match; intros [=]; subst; done. Qed.

Lemma pte_vload s virt e :
  vm_wf s → 0 ≤ virt < 2 ^ 32 → mapping (mem s) (virt / 4096) = Some e →
  vload (pte_addr s virt) s = Ok (e, s).
Proof.
  intros Hw Hv He. destruct (vp_range (virt / 4096) (vpage_range virt Hv)) as (Hd & Ht & _).
  destruct (mapping_present _ _ _ He) as [Hp _].
  destruct (t_al _ (w_tables _ Hw) _ Hd Hp) as ([q Hal] & Hr & _).
  unfold pte_addr. rewrite vload_ident by (first [apply Hw | lia]).
  unfold mapping in He. unfold present in Hp. rewrite Hp in He.
  destruct (Z.odd _); [|done]. by injection He as ->.
Qed.

(** What [paging_map] does with a frame its caller holds. *)
Lemma paging_map_spec s virt phys flags :
  vm_wf s → low_next 1 s → 2 ^ 24 ≤ virt < 2 ^ 32 → own_frame s phys → 0 ≤ flags < 4096 →
  (paging_map page_dir virt phys flags s = Ok (tt, s) ∧ ∀ b, managed_frame (pm s) b → rc s b ≠ 0) ∨
  ∃ s', paging_map page_dir virt phys flags s = Ok (tt, s') ∧ vm_wf s' ∧ ext s s' ∧
    (∀ vp, 0 ≤ vp < 2 ^ 20 → mapping (mem s') vp =
       if decide (vp = virt / 4096) then Some (phys + Z.lor 1 flags) else mapping (mem s) vp) ∧
    (∀ b, own_frame s b → b ≠ phys → own_frame s' b).
Proof.
  intros Hw Hn Hv Ho Hf. unfold paging_map, mbind, M_bind.
  destruct (addr_split virt Hv) as (_ & _ & Hd & Hti & Hvp & Hsplit).
  destruct (pte_ptr_alloc s virt Hw Hn Hv) as [[-> Hall]|(s1 & -> & Hw1 & Hp1 & He1 & Hm1 & Ho1)];
    [by left|right].
  pose proof (Ho1 phys Ho) as Hop. pose proof (o_al _ _ Ho) as Hal.
  rewrite page_base_id by done.
  destruct (lor_flags2 phys PAGE_PRESENT flags) as [-> Hr]; [done|unfold PAGE_PRESENT; lia|done|].
  change PAGE_PRESENT with 1 in *. fold (pte_addr s1 virt). rewrite pte_vstore by (done || lia).
  assert (Z.odd (phys + Z.lor 1 flags) = true) as Hodd.
  { rewrite <- present_odd, present_add by done. apply odd_lor1. }
  assert (page_base (phys + Z.lor 1 flags) = phys) as Hb by (by apply page_base_flags).
  destruct (set_pte_wf s1 (virt / 4096 / 1024) ((virt / 4096) mod 1024) (phys + Z.lor 1 flags))
    as (Hw2 & Hm2 & Ho2 & Hk2 & Hsp2); try done.
  { rewrite Hb. intros _. split; [apply Hop|]. split; [apply Hop|]. split; [apply (o_rc _ _ Hop)|].
    split; [apply Hop|]. intros vp f Hvp' _. by apply Hop. }
  rewrite <- Hsplit in Hm2. eexists. split; [done|]. split; [done|]. split; [|split].
  - destruct He1 as [Hrest Hk Hsp He Hman Htot Hu]. split; try done.
    + rewrite Hrest. done.
    + intros q i Hq Hq0 Hns Hrc Hi. unfold pte_addr. rewrite Hk2; try done; [by apply Hk|].
      intros Hsq. by destruct (Hsp q Hsq).
    + intros q Hq%Hsp2. by apply Hsp.
  - intros vp Hvp'. unfold pte_addr. rewrite Hm2 by done. rewrite Hodd. case_decide; [done|].
    by apply Hm1.
  - intros b Hb1 Hne. apply Ho2; [by apply Ho1|]. rewrite Hb. done.
Qed.

(** Clearing the entry of a mapped page and releasing its frame. *)
Lemma paging_unmap_spec s virt e :
  vm_wf s → 2 ^ 24 ≤ virt < 2 ^ 32 → mapping (mem s) (virt / 4096) = Some e →
  ∃ s', paging_unmap page_dir virt s = Ok (tt, s') ∧ vm_wf s' ∧
    s' = set_mem (mem s') (set_pm (pmm_free (page_base e) (pm s)) s) ∧
    (∀ vp, 0 ≤ vp < 2 ^ 20 → mapping (mem s') vp =
       if decide (vp = virt / 4096) then None else mapping (mem s) vp) ∧
    rc s' (page_base e) = rc s (page_base e) - 1 ∧
    (∀ b, (4096 | b) → 0 ≤ b → b ≠ page_base e → rc s' b = rc s b) ∧
    (∀ b, own_frame s b → own_frame s' b) ∧
    (∀ p i, (4096 | p) → ¬ spage (mem s) p → 0 ≤ i < 1024 →
      mread (mem s') (p + 4 * i) = mread (mem s) (p + 4 * i)) ∧
    (∀ p, spage (mem s') p ↔ spage (mem s) p).
Proof.
  intros Hw Hv He. destruct (addr_split virt Hv) as (_ & _ & Hd & Hti & Hvp & Hsplit).
  destruct (mapping_present _ _ _ He) as [Hp Hodd].
  destruct (w_map _ Hw _ _ Hvp He) as (Hman & Hlo & Hrc & Hnt).
  destruct (set_pte_wf s (virt / 4096 / 1024) ((virt / 4096) mod 1024) 0)
    as (Hw2 & Hm2 & Ho2 & Hk2 & Hsp2); try done.
  rewrite <- Hsplit in Hm2.
  set (s2 := set_mem (<[_ := 0]> (mem s)) s) in *.
  assert (∀ di, 0 ≤ di < 1024 → present (mem s2) di → tbl (mem s2) di ≠ page_base e) as Hnt2.
  { intros di Hdi Hpr Hc. assert (spage (mem s2) (tbl (mem s2) di)) as Hsp by (right; by exists di).
    rewrite Hc in Hsp. apply Hsp2 in Hsp as [E|(dj & Hdj & Hpj & E)].
    - pose proof (t_dir _ (w_tables _ Hw)). lia.
    - by apply (Hnt dj). }
  destruct (pfree_wf s2 (page_base e)) as (Hw3 & Hr3 & Hoth3 & Ho3); try done.
  { apply page_base_aligned. }
  { intros vp f Hvp' Hf. rewrite Hm2 in Hf by lia. case_decide; [done|].
    intros Hc. by eapply (w_inj _ Hw) in Hc. }
  exists (set_pm (pmm_free (page_base e) (pm s2)) s2).
  split; [|split; [done|split; [done|split; [done|split; [done|split; [done|split; [|done]]]]]]].
  - unfold paging_unmap, mbind, M_bind. rewrite pte_lookup_eq, He by (done || lia). cbn.
    unfold vstore. rewrite xlat_ident; [done|apply Hw|apply Hw|].
    destruct (t_al _ (w_tables _ Hw) (virt / 4096 / 1024) ltac:(lia) Hp) as ([q Hal] & Hr & _).
    unfold pte_addr. lia.
  - intros b Hb. apply Ho3; [by apply Ho2|]. intros ->. by destruct (o_map _ _ Hb _ _ Hvp He).
Qed.

Lemma paging_unmap_none s virt :
  vm_wf s → 0 ≤ virt < 2 ^ 32 → mapping (mem s) (virt / 4096) = None →
  paging_unmap page_dir virt s = Ok (tt, s).
Proof.
  intros Hw Hv He. unfold paging_unmap, mbind, M_bind. by rewrite pte_lookup_eq, He.
Qed.

(** The lookups read the entry the walk would use. *)
Lemma paging_virt_to_phys_eq s virt :
  vm_wf s → 0 ≤ virt < 2 ^ 32 →
  paging_virt_to_phys page_dir virt s = Ok (default 0 (xlat s virt), s).
Proof.
  intros Hw Hv. unfold paging_virt_to_phys, mbind, M_bind.
  rewrite pte_lookup_eq, xlat_mapping by (done || apply Hw).
  destruct (mapping (mem s) (virt / 4096)) as [e|]; cbn; [|done].
  rewrite (land_low 12), lor_flags by (try apply page_base_aligned; try apply Z.mod_pos_bound; lia).
  done.
Qed.

Lemma paging_is_mapped_eq s virt :
  vm_wf s → 0 ≤ virt < 2 ^ 32 →
  paging_is_mapped page_dir virt s = Ok (bool_decide (is_Some (mapping (mem s) (virt / 4096))), s).
Proof.
  intros Hw Hv. unfold paging_is_mapped, mbind, M_bind.
  rewrite pte_lookup_eq by done. by destruct (mapping (mem s) (virt / 4096)).
Qed.

(** ** Initialisation *)

Lemma phys_words_out l a m b :
  (∀ i, 0 ≤ i < Z.of_nat (length l) → b ≠ a + 4 * i) → mread (phys_words a l m) b = mread m b.
Proof.
  revert a m. induction l as [|x l IH]; intros a m Hb; cbn [phys_words]; [done|].
  cbn [length] in Hb. rewrite IH.
  - rewrite mread_insert, decide_False; [done|]. specialize (Hb 0 ltac:(lia)). lia.
  - intros i Hi. specialize (Hb (i + 1) ltac:(lia)). lia.
Qed.

Lemma phys_words_in l a m i :
  0 ≤ i < Z.of_nat (length l) → mread (phys_words a l m) (a + 4 * i) = l !!! Z.to_nat i.
Proof.
  revert a m i. induction l as [|x l IH]; intros a m i Hi; cbn [phys_words length] in *; [lia|].
  destruct (decide (i = 0)) as [->|Hne].
  - rewrite phys_words_out by (intros; lia). rewrite mread_insert, decide_True by lia. done.
  - replace (a + 4 * i) with (a + 4 + 4 * (i - 1)) by lia. rewrite IH by lia.
    replace (Z.to_nat i) with (S (Z.to_nat (i - 1))) by lia. done.
Qed.

(** A page of words against another page. *)
Lemma phys_words_page l p q m i j :
  (4096 | p) → (4096 | q) → p ≠ q → 0 ≤ i → i + Z.of_nat (length l) ≤ 1024 → 0 ≤ j < 1024 →
  mread (phys_words (q + 4 * i) l m) (p + 4 * j) = mread m (p + 4 * j).
Proof.
  intros Hp Hq Hne Hi Hl Hj. apply phys_words_out. intros k Hk.
  replace (q + 4 * i + 4 * k) with (q + 4 * (i + k)) by lia. apply aligned_word_ne; try done. lia.
Qed.

(** The linker's placement: page-aligned objects in the kernel image. *)
Definition placed : Prop :=
  (4096 | page_dir) ∧ (4096 | kern_tables) ∧
  0x100000 ≤ page_dir < 0x500000 ∧ 0x100000 ≤ kern_tables ∧ kern_tables + 4 * 4096 ≤ 0x500000 ∧
  (page_dir < kern_tables ∨ kern_tables + 4 * 4096 ≤ page_dir).

Lemma kern_table_lookup t p :
  0 ≤ t < 4 → 0 ≤ p < 1024 → kern_table t !!! Z.to_nat p = 4096 * (1024 * t + p) + 3.
Proof.
  intros Ht Hp. unfold kern_table. erewrite list_lookup_total_correct;
    [|rewrite list_lookup_fmap, lookup_seq_lt by lia; reflexivity].
  rewrite Nat.add_0_l, Z2Nat.id by lia.
  unfold PAGE_ENTRIES, PAGE_SIZE. rewrite u32_small by lia.
  rewrite <- Z.lor_assoc. change (Z.lor PAGE_PRESENT PAGE_WRITE) with 3.
  rewrite lor_flags; [lia|by exists (t * 1024 + p)|lia].
Qed.

Lemma dir_entry_eq t : placed → 0 ≤ t < 4 → dir_entry kern_tables t = kern_tables + 4096 * t + 3.
Proof.
  intros (_ & [k Hk] & _) Ht. unfold dir_entry, PAGE_SIZE. rewrite <- Z.lor_assoc.
  change (Z.lor PAGE_PRESENT PAGE_WRITE) with 3. rewrite lor_flags; [lia| |lia].
  exists (k + t). lia.
Qed.

(** After [n] iterations: the first [n] tables are the identity and entered in
    the directory, whose other entries are absent. *)
Definition init_inv (n : Z) (m : gmap Z Z) : Prop :=
  (∀ t, 0 ≤ t < n → mread m (page_dir + 4 * t) = kern_tables + 4096 * t + 3) ∧
  (∀ t, n ≤ t < 1024 → mread m (page_dir + 4 * t) = 0) ∧
  (∀ t p, 0 ≤ t < n → 0 ≤ p < 1024 →
     mread m (kern_tables + 4096 * t + 4 * p) = 4096 * (1024 * t + p) + 3).

Lemma init_step_inv n m : placed → 0 ≤ n < 4 → init_inv n m → init_inv (n + 1) (init_step page_dir kern_tables m n).
Proof.
  intros Hpl Hn (H1 & H2 & H3).
  pose proof Hpl as (Hd & [k Hk] & Hdr & Hkl & Hkh & Hdis). unfold init_step, PAGE_SIZE.
  rewrite (Z.mul_comm n 4096), dir_entry_eq by done.
  assert (∀ t, 0 ≤ t < 4 → (4096 | kern_tables + 4096 * t)) as Hal
    by (intros t Ht; exists (k + t); lia).
  assert (length (kern_table n) = 1024%nat) as Hlen by (unfold kern_table; by rewrite length_fmap, length_seq).
  set (m1 := phys_words (kern_tables + 4096 * n) (replicate 1024 0) m).
  set (m2 := phys_words (kern_tables + 4096 * n) (kern_table n) m1).
  assert (∀ t, 0 ≤ t < 1024 → mread m2 (page_dir + 4 * t) = mread m (page_dir + 4 * t)) as Hdir.
  { intros t Ht. unfold m2, m1. rewrite <- (Z.add_0_r (kern_tables + 4096 * n)).
    rewrite !(phys_words_page _ page_dir _ _ 0 t); auto; rewrite ?length_replicate, ?Hlen; lia. }
  assert (∀ t p, 0 ≤ t < 4 → t ≠ n → 0 ≤ p < 1024 →
    mread m2 (kern_tables + 4096 * t + 4 * p) = mread m (kern_tables + 4096 * t + 4 * p)) as Htab.
  { intros t p Ht Hne Hp. unfold m2, m1. rewrite <- (Z.add_0_r (kern_tables + 4096 * n)).
    rewrite !(phys_words_page _ (kern_tables + 4096 * t) _ _ 0 p); auto;
      rewrite ?length_replicate, ?Hlen; lia. }
  assert (∀ t p, 0 ≤ t < 4 → 0 ≤ p < 1024 →
    mread (phys_words (page_dir + 4 * n) [kern_tables + 4096 * n + 3] m2) (kern_tables + 4096 * t + 4 * p)
    = mread m2 (kern_tables + 4096 * t + 4 * p)) as Hent.
  { intros t p Ht Hp. apply phys_words_page; auto; cbn [length]; lia. }
  split; [|split].
  - intros t Ht. cbn [phys_words]. rewrite mread_insert. case_decide; [lia|].
    rewrite Hdir by lia. apply H1. lia.
  - intros t Ht. cbn [phys_words]. rewrite mread_insert, decide_False by lia.
    rewrite Hdir by lia. apply H2. lia.
  - intros t p Ht Hp. rewrite Hent by lia. destruct (decide (t = n)) as [->|Hne].
    + unfold m2. rewrite phys_words_in by (rewrite Hlen; lia). by apply kern_table_lookup.
    + rewrite Htab by lia. apply H3; lia.
Qed.

Lemma init_tables m : placed → init_inv 4 m → tables m ∧ (∀ di, 4 ≤ di < 1024 → ¬ present m di).
Proof.
  intros (Hd & [k Hk] & Hdr & Hkl & Hkh & Hdis) (H1 & H2 & H3).
  assert (∀ di, 4 ≤ di < 1024 → ¬ present m di) as Habs.
  { intros di Hdi. unfold present, pde. rewrite H2 by done. done. }
  assert (∀ t, 0 ≤ t < 4 → present m t ∧ tbl m t = kern_tables + 4096 * t) as Htab.
  { intros t Ht. unfold present, tbl, pde. rewrite H1 by done.
    assert (4096 | kern_tables + 4096 * t) by (exists (k + t); lia).
    split; [|by apply page_base_flags]. rewrite <- present_odd, present_add by done. done. }
  split; [|done]. split; [done|..].
  - intros di Hdi Hp. destruct (decide (di < 4)); [|by destruct (Habs di); [lia|]].
    destruct (Htab di ltac:(lia)) as [_ ->]. split; [exists (k + di); lia|]. lia.
  - intros di dj Hdi Hdj Hp Hq.
    destruct (decide (di < 4)); [|by destruct (Habs di); [lia|]].
    destruct (decide (dj < 4)); [|by destruct (Habs dj); [lia|]].
    destruct (Htab di ltac:(lia)) as [_ ->], (Htab dj ltac:(lia)) as [_ ->]. lia.
  - intros di Hdi. destruct (Htab di Hdi) as [? ->]. split; [done|lia].
  - intros di Hdi Hp. by destruct (Habs di).
  - intros vp Hvp. destruct (vp_range vp ltac:(lia)) as (_ & Hm & Hs).
    assert (0 ≤ vp / 1024 < 4) as Hq by (split; [apply Z.div_pos; lia|apply Z.div_lt_upper_bound; lia]).
    destruct (Htab _ Hq) as [Hp Ht]. unfold mapping. unfold present in Hp. rewrite Hp, Ht, H3 by done.
    rewrite <- Hs. rewrite <- present_odd, present_add; [done|by exists vp; lia].
Qed.

(** A fresh address space over a manager in which the kernel image is held. *)
Lemma fresh_wf s :
  placed → init_inv 4 (mem s) → cr3 s = page_dir → pmm_refines (pm s) kernel_owns →
  1024 ≤ pmm_total_frames (pm s) → vm_wf s.
Proof.
  intros Hpl Hinv Hcr [Hp Hown] Htot. destruct (init_tables _ Hpl Hinv) as [Ht Habs].
  assert (∀ vp, 4096 ≤ vp < 2 ^ 20 → mapping (mem s) vp = None) as Hnone.
  { intros vp Hvp. destruct (mapping (mem s) vp) as [e|] eqn:E; [|done].
    apply mapping_present in E as [E _]. destruct (vp_range vp ltac:(lia)) as (? & _ & _).
    destruct (Habs (vp / 1024)); [|done]. split; [apply Z.div_le_lower_bound; lia|lia]. }
  split; try done.
  - intros a Ha. unfold rc. rewrite pmm_refcount_managed, Hown by done. unfold kernel_owns, frame_idx, PAGE_SIZE.
    pose proof (Z.div_mod a 4096). pose proof (Z.mod_pos_bound a 4096). intros Hk.
    destruct (Z.ltb_spec (a / 4096) 1280); [lia|]. by rewrite andb_false_r in Hk.
  - intros a Ha. assert (256 ≤ frame_idx a < 1280) as Hi.
    { unfold frame_idx, PAGE_SIZE. split; [apply Z.div_le_lower_bound; lia|apply Z.div_lt_upper_bound; lia]. }
    assert (managed_frame (pm s) a) as Hman
      by (unfold managed_frame; rewrite (wf_base _ Hp); lia).
    unfold rc. rewrite pmm_refcount_managed, Hown by done. unfold kernel_owns.
    rewrite (proj2 (Z.leb_le _ _)), (proj2 (Z.ltb_lt _ _)) by lia. done.
  - intros di Hdi Hpr. by destruct (Habs di).
  - intros vp e Hvp. by rewrite Hnone.
  - intros vp vq e f Hvp _. by rewrite Hnone.
Qed.

Lemma pmm_init_total mem_kb :
  5120 ≤ mem_kb < 4194304 → 1024 ≤ pmm_total_frames (pmm_init mem_kb).
Proof.
  intros Hm. unfold pmm_init. cbn [pmm_total_frames]. cbv zeta.
  rewrite (u32_small (mem_kb * 1024)) by lia. change (frame_idx 1048576) with 256.
  change (PMM_MAX_FRAMES * PAGE_SIZE) with 268435456. change (PMM_MAX_FRAMES - 256) with 65280.
  set (e := if 268435456 <? _ then _ else _).
  assert (5242880 ≤ e ≤ 268435456) as He by (unfold e; case_z; lia).
  rewrite (u32_small (e - 1048576)) by lia. case_z; [lia|].
  unfold PAGE_SIZE. apply Z.div_le_lower_bound; lia.
Qed.

Lemma paging_init_inv mem_kb s :
  placed → init_inv 4 (mem (paging_init page_dir kern_tables mem_kb s)).
Proof.
  intros Hpl. pose proof (λ n m, init_step_inv n m Hpl) as Hstep.
  cbn [paging_init mem set_cr3 set_mem foldl].
  apply (Hstep 3), (Hstep 2), (Hstep 1), (Hstep 0); try lia.
  split; [intros; lia|split; [|intros; lia]]. intros t Ht.
  rewrite phys_words_in by (rewrite length_replicate; lia). apply lookup_total_replicate_2. lia.
Qed.

Lemma paging_init_wf mem_kb s :
  placed → 5120 ≤ mem_kb < 4194304 → vm_wf (paging_init page_dir kern_tables mem_kb s).
Proof.
  intros Hpl Hm. apply fresh_wf; [done|by apply paging_init_inv|done|..].
  - apply pmm_init_refines. lia.
  - by apply pmm_init_total.
Qed.

End proofs.

(** * Properties *)

(** After [paging_init] on a machine with 5 MiB to 4 GiB the invariant of the
    address space holds, the walk maps the first 16 MiB to themselves, nothing
    above them is mapped, and the kernel image is held. *)
Theorem paging_init_correct page_dir kern_tables mem_kb s :
  placed page_dir kern_tables → 5120 ≤ mem_kb < 4194304 →
  let s' := paging_init page_dir kern_tables mem_kb s in
  vm_wf page_dir s' ∧
  (∀ a, 0 ≤ a < 2 ^ 24 → xlat s' a = Some a) ∧
  (∀ a, 2 ^ 24 ≤ a < 2 ^ 32 → xlat s' a = None).
Proof.
  intros Hpl Hm s'. pose proof (paging_init_wf _ _ mem_kb s Hpl Hm) as Hw. split; [done|]. split.
  - intros a Ha. by apply (xlat_ident page_dir); [apply Hw..|].
  - intros a Ha. rewrite (xlat_mapping page_dir) by apply Hw.
    destruct (mapping _ _ _) as [e|] eqn:E; [|done].
    apply mapping_present in E as [E _]. destruct (addr_split a Ha) as (_ & _ & Hd & _).
    destruct (init_tables page_dir kern_tables _ Hpl (paging_init_inv _ _ mem_kb s Hpl)) as [_ Habs].
    by destruct (Habs (a / 4096 / 1024)).
Qed.

Definition vm0 : vm :=
  mkVm ∅ 0 (mkPmm [] 0 0 0) [] HEAP_VIRT_BASE 0 [] VMALLOC_BASE 0 0 [] [] false 0.

Lemma placed_example : placed 0x200000 0x201000.
Proof. repeat split; try lia; [by exists 512|by exists 513]. Qed.

Lemma paging_init_correct_witness :
  vm_wf 0x200000 (paging_init 0x200000 0x201000 131072 vm0) ∧
  xlat (paging_init 0x200000 0x201000 131072 vm0) 0xABCDEF = Some 0xABCDEF.
Proof.
  destruct (paging_init_correct 0x200000 0x201000 131072 vm0 placed_example ltac:(lia)) as (Hw & Hi & _).
  split; [exact Hw|]. apply Hi. lia.
Defined.

(** C6: [paging_map], called above the identity mapping with a frame its
    caller holds, while the next frame handed out lies below 16 MiB (on a machine with
    more memory, such as the 128 MB of the Makefile: while fewer than 3840 frames are
    in use), either does nothing because no frame is left for a page table, or makes the walk send exactly the addresses of that page to the frame: every
    other translation, the words of every referenced frame that is not a table,
    their reference counts and the invariant are kept. *)
Theorem paging_map_correct page_dir s virt phys flags :
  vm_wf page_dir s → low_next 1 s →
  2 ^ 24 ≤ virt < 2 ^ 32 → own_frame page_dir s phys → 0 ≤ flags < 4096 →
  (paging_map page_dir virt phys flags s = Ok (tt, s) ∧
   ∀ b, managed_frame (pm s) b → pmm_refcount b (pm s) ≠ 0) ∨
  ∃ s', paging_map page_dir virt phys flags s = Ok (tt, s') ∧ vm_wf page_dir s' ∧
    (∀ v, 0 ≤ v < 2 ^ 32 →
       xlat s' v = if decide (v / 4096 = virt / 4096) then Some (phys + v mod 4096) else xlat s v) ∧
    paging_virt_to_phys page_dir virt s' = Ok (phys + virt mod 4096, s') ∧
    keeps page_dir s s' ∧
    (∀ b, (4096 | b) → 0 ≤ b → pmm_refcount b (pm s) ≠ 0 → pmm_refcount b (pm s') = pmm_refcount b (pm s)).
Proof.
  intros Hw Hn Hv Ho Hf.
  destruct (paging_map_spec _ s virt phys flags Hw Hn Hv Ho Hf) as [[? ?]|(s' & Hrun & Hw' & He & Hm & _)];
    [by left|right].
  assert (∀ v, 0 ≤ v < 2 ^ 32 → xlat s' v =
    if decide (v / 4096 = virt / 4096) then Some (phys + v mod 4096) else xlat s v) as Hx.
  { intros v Hv'. rewrite (xlat_mapping page_dir s'), (xlat_mapping page_dir s) by (exact (w_cr3 _ _ Hw') || exact (w_cr3 _ _ Hw)).
    rewrite Hm by (by apply vpage_range). case_decide; [|done]. cbn. do 2 f_equal.
    destruct (lor_flags2 phys 1 flags); [apply Ho|lia..|]. apply page_base_flags; [apply Ho|done]. }
  exists s'. split; [done|]. split; [done|]. split; [done|]. split; [|split].
  - rewrite paging_virt_to_phys_eq, Hx by (done || lia). by rewrite decide_True.
  - apply He.
  - intros b Hb H0 Hr. by apply (e_rc _ _ _ He).
Qed.

Lemma paging_map_correct_witness :
  let s0 := paging_init 0x200000 0x201000 131072 vm0 in
  ∃ a s1 s2, palloc s0 = Ok (a, s1) ∧ paging_map 0x200000 0x40000000 a 2 s1 = Ok (tt, s2) ∧
    xlat s2 0x40000123 = Some (a + 0x123).
Proof.
  cbv zeta. pose proof (paging_init_wf 0x200000 0x201000 131072 vm0 placed_example ltac:(lia)) as Hw.
  assert (pm (paging_init 0x200000 0x201000 131072 vm0) = pmm_init 131072) as Hpm by reflexivity.
  revert Hw Hpm. generalize (paging_init 0x200000 0x201000 131072 vm0) as s0. intros s0 Hw Hpm.
  assert (pmm_used_frames (pm s0) = 1024) as Hu0 by (rewrite Hpm; vm_compute; reflexivity).
  assert (pmm_refcount 0x501000 (pmm_alloc (pmm_init 131072)).2 = 0) as Hfree by (vm_compute; reflexivity).
  destruct (palloc_spec _ s0 Hw ltac:(lia)) as [[Ha Hall]|(a & p' & Ha & _ & _ & _ & Hw1 & Ho1 & _ & _ & Hu1 & _)].
  - exfalso. apply (Hall 0x501000); [rewrite Hpm; split; vm_compute; congruence|].
    unfold rc. rewrite Hpm. vm_compute. reflexivity.
  - assert (p' = (pmm_alloc (pmm_init 131072)).2) as ->.
    { revert Ha. unfold palloc. rewrite Hpm. clear. destruct (pmm_alloc (pmm_init 131072)) as [b q].
      intros H. injection H as _ H. by rewrite H. }
    destruct (paging_map_correct 0x200000 _ 0x40000000 a 2 Hw1 ltac:(cbn [pm set_pm]; lia) ltac:(lia) Ho1 ltac:(lia))
      as [[_ Hall]|(s2 & Hrun & _ & Hx & _)].
    + exfalso. refine (Hall 0x501000 _ Hfree). split; vm_compute; congruence.
    + exists a, (set_pm (pmm_alloc (pmm_init 131072)).2 s0), s2. split; [exact Ha|]. split; [exact Hrun|].
      rewrite Hx by lia. rewrite decide_True by reflexivity. reflexivity.
Defined.

(** [paging_unmap] above the identity mapping removes exactly the
    translation of that page and one reference to its frame; every other
    translation, reference count and the words of every page that is not a table
    are kept, and an unmapped page is left alone. *)
Theorem paging_unmap_correct page_dir s virt :
  vm_wf page_dir s → 2 ^ 24 ≤ virt < 2 ^ 32 →
  ∃ s', paging_unmap page_dir virt s = Ok (tt, s') ∧ vm_wf page_dir s' ∧
    (∀ v, 0 ≤ v < 2 ^ 32 → xlat s' v = if decide (v / 4096 = virt / 4096) then None else xlat s v) ∧
    (∀ b, (4096 | b) → 0 ≤ b → pmm_refcount b (pm s') = pmm_refcount b (pm s) -
       (if decide (xlat s (page_base virt) = Some b) then 1 else 0)) ∧
    (∀ p i, (4096 | p) → ¬ spage page_dir (mem s) p → 0 ≤ i < 1024 →
      mread (mem s') (p + 4 * i) = mread (mem s) (p + 4 * i)).
Proof.
  intros Hw Hv. pose proof (addr_split virt Hv) as (_ & _ & _ & _ & Hvp & _).
  assert (xlat s (page_base virt) = page_base <$> mapping page_dir (mem s) (virt / 4096)) as Hxb.
  { rewrite (xlat_mapping page_dir) by apply Hw. rewrite page_base_eq.
    replace (virt - virt mod 4096) with (virt / 4096 * 4096) by (pose proof (Z.div_mod virt 4096); lia).
    rewrite Z.div_mul, Z_mod_mult by lia. destruct (mapping _ _ _); cbn; [|done]. f_equal. lia. }
  destruct (mapping page_dir (mem s) (virt / 4096)) as [e|] eqn:E.
  - destruct (paging_unmap_spec _ s virt e Hw Hv E) as (s' & Hrun & Hw' & _ & Hm & Hr & Hro & _ & Hk & _).
    exists s'. split; [done|]. split; [done|]. split; [|split; [|done]].
    + intros v Hv'. rewrite (xlat_mapping page_dir s'), (xlat_mapping page_dir s) by (exact (w_cr3 _ _ Hw') || exact (w_cr3 _ _ Hw)).
      rewrite Hm by (by apply vpage_range). by case_decide.
    + intros b Hb H0. rewrite Hxb. case_decide as Eb.
      * injection Eb as <-. exact Hr.
      * rewrite Z.sub_0_r. apply Hro; try done. intros ->. done.
  - exists s. split; [apply paging_unmap_none; [done|lia|done]|]. split; [done|]. split; [|split; [|done]].
    + intros v Hv'. case_decide as Ev; [|done]. rewrite (xlat_mapping page_dir), Ev, E by apply Hw. done.
    + intros b _ _. rewrite Hxb, decide_False by done. lia.
Qed.

Lemma paging_unmap_correct_witness :
  ∃ s', paging_unmap 0x200000 0x40000000 (paging_init 0x200000 0x201000 131072 vm0) = Ok (tt, s') ∧
    xlat s' 0x40000000 = None.
Proof.
  destruct (paging_unmap_correct 0x200000 (paging_init 0x200000 0x201000 131072 vm0) 0x40000000
    (paging_init_wf _ _ 131072 vm0 placed_example ltac:(lia)) ltac:(lia)) as (s' & Hrun & _ & Hx & _).
  exists s'. split; [exact Hrun|]. rewrite Hx by lia. reflexivity.
Defined.

(** Page tables are cleared through the identity mapping, which ends at
    16 MiB, while the manager hands out frames up to 256 MiB: when the lowest free
    frame lies above it, mapping a page whose table is missing makes the kernel
    itself fault. *)
Theorem paging_map_high_frame_faults page_dir s virt phys flags a p' :
  cr3 s = page_dir → tables page_dir (mem s) → 2 ^ 24 ≤ virt < 2 ^ 32 →
  ¬ present page_dir (mem s) (virt / 4096 / 1024) →
  pmm_alloc (pm s) = (a, p') → 2 ^ 24 ≤ a < 2 ^ 32 → xlat s a = None →
  paging_map page_dir virt phys flags s = Fault.
Proof.
  intros Hc Ht Hv Hp Ha Hr Hx. destruct (addr_split virt Hv) as (Ed & _ & Hd & _).
  pose proof (t_dir _ _ Ht) as [_ Hdir].
  unfold paging_map, pte_ptr, mbind, M_bind.
  rewrite Ed, (vload_ident page_dir) by (done || lia). fold (pde page_dir (mem s) (virt / 4096 / 1024)).
  rewrite present_odd. unfold present in Hp. destruct (Z.odd _); [done|]. cbn [negb].
  unfold palloc. rewrite Ha. rewrite (proj2 (Z.eqb_neq a 0)) by lia.
  unfold kmemset_page. change (replicate 1024 0) with (0 :: replicate 1023 0). cbn [store_words].
  unfold mbind, M_bind, vstore at 1.
  change (xlat (set_pm p' s) a) with (xlat s a). by rewrite Hx.
Qed.

Lemma paging_map_high_frame_faults_witness :
  paging_map 0x200000 0x40000000 0x500000 2
    (set_pm (mkPmm (replicate (Z.to_nat 4096) 1 ++ replicate (Z.to_nat 61440) 0) 7936 3840 256)
       (paging_init 0x200000 0x201000 32768 vm0)) = Fault.
Proof.
  set (p := mkPmm (replicate (Z.to_nat 4096) 1 ++ replicate (Z.to_nat 61440) 0) 7936 3840 256).
  pose proof (init_tables _ _ _ placed_example (paging_init_inv _ _ 32768 vm0 placed_example)) as [Ht Habs].
  assert (Hcr : cr3 (paging_init 0x200000 0x201000 32768 vm0) = 0x200000) by reflexivity.
  revert Ht Habs Hcr. generalize (paging_init 0x200000 0x201000 32768 vm0) as s0. intros s0 Ht Habs Hcr.
  assert (Hfst : (pmm_alloc p).1 = 2 ^ 24) by (vm_compute; reflexivity).
  apply (paging_map_high_frame_faults 0x200000 (set_pm p s0) _ _ _ (2 ^ 24) (pmm_alloc p).2);
    [exact Hcr|exact Ht|lia|apply Habs; vm_compute; split; congruence
    |rewrite <- Hfst; apply surjective_pairing|lia|].
  rewrite (xlat_mapping 0x200000) by exact Hcr.
  destruct (mapping _ _ _) as [e|] eqn:E; [|reflexivity].
  apply mapping_present in E as [E _]. destruct (Habs 4 ltac:(lia)). exact E.
Defined.
