(* ===== verification/Swap.v ===== *)
(** * Swapping pages out and in (src/src/swap.c)

    Swap slots are pages of a static buffer of the kernel; the serial log lines
    are left out. *)

From S2P Require Import Prelude Pmm Paging.

Definition SWAP_SLOTS : Z := 256.

Definition set_swap (t : list swap_entry_t) (b : list (list Z)) (r : bool) (u : Z) (s : vm) : vm :=
  mkVm (mem s) (cr3 s) (pm s) (hblocks s) (heap_brk_ptr s) (heap_bytes_used s) (vregions s)
       (vmalloc_ptr s) (fault_count s) (cow_count s) t b r u.

Definition swap_is_used (v : Z) (e : swap_entry_t) : bool := se_used e && (se_virt e =? v).

Definition swap_is_swapped (virt_addr : Z) : M vm bool :=
  let v := page_base virt_addr in
  gets (λ s, bool_decide (is_Some (find_idx (swap_is_used v) (swap_table s)))).

Definition alloc_slot (s : vm) : option nat := find_idx (λ e, negb (se_used e)) (swap_table s).

Definition swap_used_slots : M vm Z := gets swap_used.

Section swap.
Variable page_dir : Z.

Definition swap_init (fat12_mounted : bool) : M vm Z :=
  if negb fat12_mounted then mret (-1)
  else
    modify (set_swap (replicate (Z.to_nat SWAP_SLOTS) (mkSwapEntry 0 false))
              (replicate (Z.to_nat SWAP_SLOTS) (replicate 1024 0)) true 0) ;;
    mret 0.

Definition swap_out (virt_addr : Z) : M vm Z :=
  s ← get;
  if negb (swap_ready s) then mret (-1)
  else
    let v := page_base virt_addr in
    sw ← swap_is_swapped v;
    if (sw : bool) then mret 0
    else
      match alloc_slot s with
      | None => mret (-1)
      | Some slot =>
          w ← load_words v 1024;
          modify (λ s, set_swap (swap_table s) (<[slot := w]> (swap_buf s)) (swap_ready s) (swap_used s) s) ;;
          paging_unmap page_dir v ;;
          phys ← paging_virt_to_phys page_dir v;
          pfree phys ;;
          modify (λ s, set_swap (<[slot := mkSwapEntry v true]> (swap_table s)) (swap_buf s)
                                (swap_ready s) (u32 (swap_used s + 1)) s) ;;
          mret 0
      end.

Definition swap_in (virt_addr : Z) : M vm Z :=
  s ← get;
  if negb (swap_ready s) then mret (-1)
  else
    let v := page_base virt_addr in
    match find_idx (swap_is_used v) (swap_table s) with
    | None => mret (-1)
    | Some i =>
        phys ← palloc;
        if phys =? 0 then mret (-1)
        else
          store_words phys (swap_buf s !!! i) ;;
          paging_map page_dir v phys (Z.lor PAGE_WRITE PAGE_USER) ;;
          modify (λ s, set_swap (<[i := mkSwapEntry v false]> (swap_table s)) (swap_buf s)
                                (swap_ready s) (u32 (swap_used s - 1)) s) ;;
          mret 0
    end.

End swap.

(** ** Facts about the other components of the state *)

Section proofs.
Variable page_dir : Z.

(** The invariant reads memory, CR3 and the frame table only. *)
Lemma vm_wf_eq s s' : vm_wf page_dir s → mem s' = mem s → cr3 s' = cr3 s → pm s' = pm s → vm_wf page_dir s'.
Proof.
  intros [H1 H2 H3 H4 H5 H6 H7 H8] Em Ec Ep.
  split; unfold rc in *; rewrite ?Em, ?Ec, ?Ep; assumption.
Qed.

(** Releasing frame 0, which the manager does not manage. *)
Lemma pfree0_wf s :
  vm_wf page_dir s → 1 < rc s 0 →
  vm_wf page_dir (set_pm (pmm_free 0 (pm s)) s) ∧
  (∀ b, 0x100000 ≤ b → rc (set_pm (pmm_free 0 (pm s)) s) b = rc s b) ∧
  pmm_used_frames (pmm_free 0 (pm s)) = pmm_used_frames (pm s) ∧
  pmm_total_frames (pmm_free 0 (pm s)) = pmm_total_frames (pm s).
Proof.
  intros Hw Hr. unfold rc, pmm_refcount in Hr.
  change (frame_idx 0) with 0 in Hr. change (Z.to_nat 0) with 0%nat in Hr. change (0 <? PMM_MAX_FRAMES) with true in Hr. cbv iota in Hr.
  assert (pmm_free 0 (pm s) = mkPmm (<[0%nat := (pmm_refs (pm s) !!! 0%nat) - 1]> (pmm_refs (pm s)))
    (pmm_total_frames (pm s)) (pmm_used_frames (pm s)) (pmm_base_frame (pm s))) as E.
  { unfold pmm_free. change (frame_idx 0) with 0. change (Z.to_nat 0) with 0%nat. cbv zeta.
    change (PMM_MAX_FRAMES <=? 0) with false. cbv iota.
    destruct (Z.eqb_spec (pmm_refs (pm s) !!! 0%nat) 0); [lia|].
    destruct (Z.eqb_spec ((pmm_refs (pm s) !!! 0%nat) - 1) 0); [lia|]. done. }
  rewrite E. pose proof (w_pmm _ _ Hw) as Hp. pose proof (wf_len _ Hp) as Hl.
  pose proof (bytes_lookup_total (pmm_refs (pm s)) 0 (wf_bytes _ Hp)) as Hb. unfold is_byte in Hb.
  assert (∀ b, 0x100000 ≤ b → pmm_refcount b (mkPmm (<[0%nat := (pmm_refs (pm s) !!! 0%nat) - 1]>
    (pmm_refs (pm s))) (pmm_total_frames (pm s)) (pmm_used_frames (pm s)) (pmm_base_frame (pm s)))
    = rc s b) as Hsame.
  { intros b Hb'. unfold rc, pmm_refcount. cbn [pmm_refs].
    rewrite refs_insert, decide_False; [done| |rewrite Hl; unfold PMM_MAX_FRAMES; lia].
    assert (256 ≤ frame_idx b) by (unfold frame_idx, PAGE_SIZE; apply Z.div_le_lower_bound; lia). lia. }
  split; [|split; [done|done]]. destruct Hw as [Hc Ht _ Hs Hk Htab Hm Hinj]. split; try done.
  - pose proof Hp as [_ Hby Hbase Htot Hu]. split; cbn.
    + by rewrite length_insert.
    + apply bytes_insert; [done|]. unfold is_byte. lia.
    + done.
    + done.
    + rewrite managed_insert_out; [done|done|]. left. lia.
  - intros b Hbm Hr0. apply Hs; [done|]. unfold rc in Hr0. cbn in Hr0. rewrite Hsame in Hr0; [done|].
    unfold managed_frame, frame_idx, PAGE_SIZE in Hbm. cbn in Hbm. rewrite (wf_base _ Hp) in Hbm.
    pose proof (Z.div_mod b 4096). pose proof (Z.mod_pos_bound b 4096). lia.
  - intros a Ha. unfold rc. cbn. rewrite Hsame by lia. by apply Hk.
  - intros di Hdi Hpr. destruct (Htab di Hdi Hpr) as [Hman Hrc]. split; [done|].
    unfold rc. cbn. pose proof (t_user _ _ Ht di Hdi Hpr). rewrite Hsame; [done|]. lia.
  - intros vp e Hvp He. destruct (Hm vp e Hvp He) as (? & ? & ? & ?). split; [done|]. split; [done|].
    split; [|done]. unfold rc. cbn. rewrite Hsame; [done|]. lia.
Qed.

Lemma page_base_div v : page_base v / 4096 = v / 4096.
Proof.
  rewrite page_base_eq. pose proof (Z.div_mod v 4096 ltac:(lia)).
  replace (v - v mod 4096) with (v / 4096 * 4096) by lia. by rewrite Z.div_mul.
Qed.

Lemma page_base_idem v : page_base (page_base v) = page_base v.
Proof. apply page_base_id, page_base_aligned. Qed.

Lemma page_base_high v : 2 ^ 24 ≤ v < 2 ^ 32 → 2 ^ 24 ≤ page_base v < 2 ^ 32.
Proof.
  intros Hv. pose proof (page_base_range v ltac:(lia)). split; [|lia].
  destruct (page_base_aligned v) as [q Hq]. rewrite page_base_eq in *.
  pose proof (Z.mod_pos_bound v 4096 ltac:(lia)). lia.
Qed.

Lemma xlat_page s v e : vm_wf page_dir s → mapping page_dir (mem s) (v / 4096) = Some e →
  xlat s (page_base v) = Some (page_base e).
Proof.
  intros Hw He. rewrite (xlat_mapping page_dir), page_base_div, He by apply Hw. cbn.
  destruct (page_base_aligned v) as [q ->]. rewrite Z_mod_mult. f_equal. lia.
Qed.

(** What a well-formed swap area is. *)
Definition swap_wf (s : vm) : Prop :=
  length (swap_buf s) = length (swap_table s) ∧ Forall (λ w, length w = 1024%nat) (swap_buf s).

(** The page leaves memory: it is unmapped, its frame released, its words saved. *)
Lemma swap_out_spec s virt e slot :
  vm_wf page_dir s → swap_wf s → swap_ready s = true → 2 ^ 24 ≤ virt < 2 ^ 32 →
  mapping page_dir (mem s) (virt / 4096) = Some e →
  find_idx (swap_is_used (page_base virt)) (swap_table s) = None →
  alloc_slot s = Some slot → 1 < rc s 0 →
  ∃ s', swap_out page_dir virt s = Ok (0, s') ∧ vm_wf page_dir s' ∧ swap_wf s' ∧ swap_ready s' = true ∧
    (∀ vp, 0 ≤ vp < 2 ^ 20 → mapping page_dir (mem s') vp =
       if decide (vp = virt / 4096) then None else mapping page_dir (mem s) vp) ∧
    rc s' (page_base e) = rc s (page_base e) - 1 ∧
    pmm_used_frames (pm s') ≤ pmm_used_frames (pm s) ∧
    pmm_total_frames (pm s') = pmm_total_frames (pm s) ∧
    find_idx (swap_is_used (page_base virt)) (swap_table s') = Some slot ∧
    swap_buf s' !! slot = Some (words (mem s) (page_base e) 0 1024) ∧
    (∀ p i, (4096 | p) → ¬ spage page_dir (mem s) p → 0 ≤ i < 1024 →
      mread (mem s') (p + 4 * i) = mread (mem s) (p + 4 * i)) ∧
    (∀ p, spage page_dir (mem s') p ↔ spage page_dir (mem s) p).
Proof.
  intros Hw [Hlen Hbuf] Hready Hv He Hnone Hslot Hrc0.
  pose proof (page_base_high virt Hv) as Hvb. pose proof (page_base_aligned virt) as Hal.
  assert (slot < length (swap_table s))%nat as Hsl by (by eapply find_idx_lt).
  assert (length (words (mem s) (page_base e) 0 1024) = 1024%nat) as Hlw by apply words_length.
  pose proof (load_page page_dir s _ _ (w_cr3 _ _ Hw) Hal (xlat_page _ _ _ Hw He)) as Hload.
  revert Hlw Hload. generalize (words (mem s) (page_base e) 0 1024) as w. intros w Hlw Hload.
  set (s1 := set_swap (swap_table s) (<[slot := w]> (swap_buf s)) (swap_ready s) (swap_used s) s).
  assert (vm_wf page_dir s1) as Hw1 by (by apply (vm_wf_eq s)).
  destruct (paging_unmap_spec page_dir s1 (page_base virt) e) as
    (s2 & Hrun & Hw2 & Hs2 & Hm2 & Hr2 & Hro2 & _ & Hk2 & Hsp2); try done.
  { by rewrite page_base_div. }
  rewrite page_base_div in Hm2.
  assert (1 < rc s2 0) as Hrc2.
  { rewrite Hro2; try done; [by exists 0|].
    destruct (w_map _ _ Hw1 (virt / 4096) e) as (_ & ? & _); [|done|lia].
    pose proof (addr_split virt Hv). tauto. }
  destruct (pfree0_wf s2 Hw2 Hrc2) as (Hw3 & Hr3 & Hu3 & Ht3).
  assert (swap_table s2 = swap_table s ∧ swap_buf s2 = <[slot := w]> (swap_buf s) ∧
    swap_ready s2 = swap_ready s) as (Et & Eb & Er) by (rewrite Hs2; done).
  eexists. split.
  - unfold swap_out, mbind, M_bind, get. rewrite Hready. cbn [negb].
    unfold swap_is_swapped, gets. rewrite page_base_idem, Hnone.
    rewrite bool_decide_eq_false_2, Hslot by (by intros [? [=]]).
    rewrite Hload. unfold modify. fold s1. rewrite Hrun.
    rewrite paging_virt_to_phys_eq by (done || lia).
    rewrite (xlat_mapping page_dir), page_base_div by (exact (w_cr3 _ _ Hw2)).
    rewrite Hm2, decide_True by (done || apply vpage_range; lia). cbn [default fmap option_fmap option_map].
    reflexivity.
  - cbn. split; [by apply (vm_wf_eq (set_pm (pmm_free 0 (pm s2)) s2))|].
    unfold swap_wf. cbn. rewrite Et, Eb, Er. split.
    { split; [by rewrite !length_insert|]. by apply Forall_insert. }
    split; [done|]. split; [done|]. split.
    { change (rc (set_pm (pmm_free 0 (pm s2)) s2) (page_base e) = rc s (page_base e) - 1).
      destruct (w_map _ _ Hw1 (virt / 4096) e) as (_ & ? & _ & _); [pose proof (addr_split virt Hv); tauto|done|].
      rewrite Hr3, Hr2 by lia. done. }
    rewrite Hu3, Ht3, Hs2. cbn.
    destruct (w_map _ _ Hw1 (virt / 4096) e) as (Hman & _ & Hne & _);
      [pose proof (addr_split virt Hv); tauto|done|].
    destruct (pmm_free_spec (pm s) (page_base e) (w_pmm _ _ Hw) Hman Hne) as (_ & _ & _ & _ & Htf & Huf).
    split; [rewrite Huf; case_z; lia|]. split; [done|]. split.
    { apply find_idx_Some. split.
      - exists (mkSwapEntry (page_base virt) true). split; [by apply list_lookup_insert_eq|].
        unfold swap_is_used. cbn. by rewrite Z.eqb_refl.
      - intros m y Hm Hy. rewrite list_lookup_insert_ne in Hy by lia.
        rewrite find_idx_None in Hnone. apply Hnone. by eapply list_elem_of_lookup_2. }
    split; [|done]. apply list_lookup_insert_eq. lia.
Qed.

(** The page returns: a fresh frame with the saved words is mapped. *)
Lemma swap_in_spec s virt i w :
  vm_wf page_dir s → swap_ready s = true → 2 ^ 24 ≤ virt < 2 ^ 32 →
  find_idx (swap_is_used (page_base virt)) (swap_table s) = Some i →
  swap_buf s !! i = Some w → length w = 1024%nat →
  pmm_used_frames (pm s) + 1 < low_total s →
  ∃ s' p, swap_in page_dir virt s = Ok (0, s') ∧ vm_wf page_dir s' ∧ (4096 | p) ∧ rc s p = 0 ∧
    (∀ vp, 0 ≤ vp < 2 ^ 20 → mapping page_dir (mem s') vp =
       if decide (vp = virt / 4096) then Some (p + 7) else mapping page_dir (mem s) vp) ∧
    (∀ j, 0 ≤ j < 1024 → mread (mem s') (p + 4 * j) = w !!! Z.to_nat j) ∧
    keeps page_dir s s' ∧
    swap_table s' = <[i := mkSwapEntry (page_base virt) false]> (swap_table s) ∧
    swap_buf s' = swap_buf s.
Proof.
  intros Hw Hready Hv Hi Hwi Hlw Hfree.
  pose proof (page_base_high virt Hv) as Hvb.
  destruct (palloc_spec page_dir s Hw ltac:(lia)) as
    [[Ha Hall]|(a & p1 & Ha & Hne & Hz & H1 & Hw1 & Ho1 & Hoth & Hman & Hu & Htot)].
  { exfalso. eapply (free_frame_exists page_dir s); [done|lia|done]. }
  destruct (store_frame_wf page_dir (set_pm p1 s) a w Hw1 Ho1 Hlw) as
    (m2 & Hset & Hw2 & Hmap2 & Hpde2 & Hwd2 & Hoth2 & Ho2).
  set (s2 := set_mem m2 (set_pm p1 s)) in *. pose proof (Ho2 a Ho1) as Hoa.
  destruct (paging_map_spec page_dir s2 (page_base virt) a (Z.lor PAGE_WRITE PAGE_USER)) as
    [[_ Hall]|(s3 & Hrun & Hw3 & He3 & Hm3 & _)]; try done.
  { cbn [s2 pm set_mem set_pm]. lia. }
  { exfalso. eapply (free_frame_exists page_dir s2); [done| |done]. cbn. lia. }
  rewrite page_base_div in Hm3. change (Z.lor 1 (Z.lor PAGE_WRITE PAGE_USER)) with 7 in Hm3.
  destruct He3 as [Hrest Hk3 Hsp3 Hrc3 _ _ _].
  eexists _, a. split.
  - unfold swap_in, mbind, M_bind, get. rewrite Hready. cbn [negb]. rewrite Hi, Ha.
    rewrite (proj2 (Z.eqb_neq a 0)) by done. rewrite (list_lookup_total_correct _ _ _ Hwi).
    rewrite Hset. fold s2. rewrite Hrun. cbn. reflexivity.
  - split; [by apply (vm_wf_eq s3)|]. split; [apply Hoa|]. split; [done|]. split.
    { intros vp Hvp. cbn. rewrite Hm3 by done. case_decide; [done|]. by apply Hmap2. }
    split.
    { intros j Hj. cbn. rewrite Hk3; [by apply Hwd2|apply Hoa|pose proof (o_lo _ _ _ Hoa); lia| |apply (o_rc _ _ _ Hoa)|done].
      apply own_frame_data; done. }
    split; [|by rewrite Hrest].
    intros q j Hq Hq0 Hns Hr Hj. cbn. assert (q ≠ a) by (by intros ->).
    rewrite Hk3; try done; [by apply Hoth2| |].
    { intros Hs. apply Hns. by rewrite <- (spage_agree _ _ m2). }
    unfold rc, s2. cbn. by rewrite Hoth.
Qed.

End proofs.
