(* ===== verification/Vmem.v ===== *)
(** * Kernel heap regions, vmalloc, copy-on-write and the page-fault handler
    (src/src/paging.c, from heap_init on) *)

From S2P Require Import Prelude Pmm Paging Swap.

Definition HEAP_MAX_BLOCKS : Z := 512.
Definition VMALLOC_MAX_REGIONS : Z := 64.

Definition set_heap (b : list hblock_t) (brk used : Z) (s : vm) : vm :=
  mkVm (mem s) (cr3 s) (pm s) b brk used (vregions s) (vmalloc_ptr s) (fault_count s)
       (cow_count s) (swap_table s) (swap_buf s) (swap_ready s) (swap_used s).
Definition set_vregions (r : list vregion_t) (ptr : Z) (s : vm) : vm :=
  mkVm (mem s) (cr3 s) (pm s) (hblocks s) (heap_brk_ptr s) (heap_bytes_used s) r ptr
       (fault_count s) (cow_count s) (swap_table s) (swap_buf s) (swap_ready s) (swap_used s).
Definition set_counts (f c : Z) (s : vm) : vm :=
  mkVm (mem s) (cr3 s) (pm s) (hblocks s) (heap_brk_ptr s) (heap_bytes_used s) (vregions s)
       (vmalloc_ptr s) f c (swap_table s) (swap_buf s) (swap_ready s) (swap_used s).

Section vmem.
Variable page_dir : Z.

(** ** The region heap *)

Definition heap_init : M vm unit := modify (set_heap [] HEAP_VIRT_BASE 0).

(** The loop over [n] pages from [addr]; [false] when no frame is left. *)
Fixpoint heap_grow_loop (n : nat) (addr : Z) : M vm bool :=
  match n with
  | O => mret true
  | S n' =>
      mapped ← paging_is_mapped page_dir addr;
      ok ← (if (mapped : bool) then mret true
            else
              phys ← palloc;
              if phys =? 0 then mret false
              else paging_map page_dir addr phys PAGE_WRITE ;; kmemset_page addr ;; mret true);
      if (ok : bool) then heap_grow_loop n' (addr + PAGE_SIZE) else mret false
  end.

Definition heap_grow (size : Z) : M vm bool :=
  s ← get;
  let new_brk := PAGE_ALIGN (heap_brk_ptr s + size) in
  if HEAP_VIRT_MAX <=? new_brk then mret false
  else
    let addr := PAGE_ALIGN (heap_brk_ptr s) in
    ok ← heap_grow_loop (Z.to_nat ((new_brk - addr) / PAGE_SIZE)) addr;
    if (ok : bool) then
      modify (λ s, set_heap (hblocks s) new_brk (heap_bytes_used s) s) ;; mret true
    else mret false.

Definition heap_alloc (size0 : Z) : M vm Z :=
  if size0 =? 0 then mret 0
  else
    let size := Z.land (u32 (size0 + 7)) (Z.lnot 7) in
    s ← get;
    match find_idx (λ b, negb (hb_used b) && (size <=? hb_size b)) (hblocks s) with
    | Some i =>
        let b := default (mkHblock 0 0 false) (hblocks s !! i) in
        modify (λ s, set_heap (<[i := mkHblock (hb_addr b) (hb_size b) true]> (hblocks s))
                       (heap_brk_ptr s) (u32 (heap_bytes_used s + hb_size b)) s) ;;
        mret (hb_addr b)
    | None =>
        if HEAP_MAX_BLOCKS <=? Z.of_nat (length (hblocks s)) then mret 0
        else
          let addr := heap_brk_ptr s in
          ok ← heap_grow size;
          if negb ok then mret 0
          else
            modify (λ s, set_heap (hblocks s ++ [mkHblock addr size true]) (heap_brk_ptr s)
                           (u32 (heap_bytes_used s + size)) s) ;;
            mret addr
    end.

Definition heap_free (addr : Z) : M vm unit :=
  s ← get;
  match find_idx (λ b, (hb_addr b =? addr) && hb_used b) (hblocks s) with
  | Some i =>
      let b := default (mkHblock 0 0 false) (hblocks s !! i) in
      modify (set_heap (<[i := mkHblock (hb_addr b) (hb_size b) false]> (hblocks s)) (heap_brk_ptr s)
                (if hb_size b <=? heap_bytes_used s then heap_bytes_used s - hb_size b
                 else heap_bytes_used s))
  | None => mret tt
  end.

Definition heap_brk : M vm Z := gets heap_brk_ptr.
Definition heap_used : M vm Z := gets heap_bytes_used.
Definition heap_capacity : M vm Z := gets (λ s, u32 (heap_brk_ptr s - HEAP_VIRT_BASE)).

(** ** vmalloc *)

Fixpoint unmap_pages (n : nat) (virt : Z) : M vm unit :=
  match n with
  | O => mret tt
  | S n' => paging_unmap page_dir virt ;; unmap_pages n' (u32 (virt + PAGE_SIZE))
  end.

(** Page [k] of the region; [n] pages are left. On exhaustion the pages mapped so
    far are unmapped again. *)
Fixpoint vmalloc_loop (n k : nat) (virt : Z) : M vm bool :=
  match n with
  | O => mret true
  | S n' =>
      phys ← palloc;
      if phys =? 0 then unmap_pages k virt ;; mret false
      else
        let v := u32 (virt + Z.of_nat k * PAGE_SIZE) in
        paging_map page_dir v phys PAGE_WRITE ;;
        kmemset_page v ;;
        vmalloc_loop n' (S k) virt
  end.

Definition vmalloc (size0 : Z) : M vm Z :=
  s ← get;
  if (size0 =? 0) || (VMALLOC_MAX_REGIONS <=? Z.of_nat (length (vregions s))) then mret 0
  else
    let size := PAGE_ALIGN size0 in
    if VMALLOC_END <=? u32 (vmalloc_ptr s + size) then mret 0
    else
      let virt := vmalloc_ptr s in
      ok ← vmalloc_loop (Z.to_nat (size / PAGE_SIZE)) 0 virt;
      if negb ok then mret 0
      else
        modify (λ s, set_vregions (vregions s ++ [mkVregion virt size true])
                       (u32 (vmalloc_ptr s + size)) s) ;;
        mret virt.

Definition vmfree (virt : Z) : M vm unit :=
  s ← get;
  match find_idx (λ r, vr_active r && (vr_start r =? virt)) (vregions s) with
  | Some i =>
      let r := default (mkVregion 0 0 false) (vregions s !! i) in
      unmap_pages (Z.to_nat (vr_size r / PAGE_SIZE)) virt ;;
      modify (λ s, set_vregions (<[i := mkVregion (vr_start r) (vr_size r) false]> (vregions s))
                     (vmalloc_ptr s) s)
  | None => mret tt
  end.

(** ** Copy-on-write and faults *)

Definition vmalloc_copy_on_write (virt : Z) : M vm Z :=
  r ← pte_lookup page_dir (page_base virt);
  match r with
  | None => mret 0
  | Some (pte, e) =>
      pref (page_base e) ;;
      vstore pte (Z.lor (Z.land e (Z.lnot PAGE_WRITE)) PAGE_COW) ;;
      mret 1
  end.

(** How the handler ends: the access is retried, or the machine halts with the
    fault on the screen. *)
Inductive fault_end := Retry | Halt.

Definition count_fault : M vm unit := modify (λ s, set_counts (u32 (fault_count s + 1)) (cow_count s) s).
Definition count_cow : M vm unit := modify (λ s, set_counts (fault_count s) (u32 (cow_count s + 1)) s).

Definition fault_demand (present : bool) (fault_addr : Z) : M vm (option fault_end) :=
  if negb present && (HEAP_VIRT_BASE <=? fault_addr) && (fault_addr <? HEAP_VIRT_MAX) then
    let page := page_base fault_addr in
    phys ← palloc;
    if phys =? 0 then mret None
    else
      paging_map page_dir page phys PAGE_WRITE ;;
      kmemset_page page ;;
      count_fault ;;
      mret (Some Retry)
  else mret None.

Definition fault_cow (present write : bool) (fault_addr : Z) : M vm (option fault_end) :=
  if present && write then
    let page := page_base fault_addr in
    r ← pte_ptr page_dir page false;
    match r with
    | None => mret None
    | Some pte =>
        e ← vload pte;
        if has_flag e PAGE_COW then
          let old_phys := page_base e in
          s ← get;
          if 1 <? pmm_refcount old_phys (pm s) then
            new_phys ← palloc;
            if new_phys =? 0 then mret None
            else
              kmemcpy_page new_phys old_phys ;;
              pfree old_phys ;;
              vstore pte (Z.lor (Z.lor new_phys PAGE_PRESENT) PAGE_WRITE) ;;
              count_cow ;; count_fault ;;
              mret (Some Retry)
          else
            vstore pte (Z.lor (Z.land e (Z.lnot PAGE_COW)) PAGE_WRITE) ;;
            count_cow ;; count_fault ;;
            mret (Some Retry)
        else mret None
    end
  else mret None.

Definition fault_swap (present : bool) (fault_addr : Z) : M vm (option fault_end) :=
  if negb present then
    let page := page_base fault_addr in
    sw ← swap_is_swapped page;
    if (sw : bool) then
      r ← swap_in page_dir page;
      if r =? 0 then count_fault ;; mret (Some Retry) else mret None
    else mret None
  else mret None.

Definition page_fault_handler (err_code fault_addr : Z) : M vm fault_end :=
  let present := has_flag err_code 1 in
  let write := has_flag err_code 2 in
  r1 ← fault_demand present fault_addr;
  match r1 with
  | Some e => mret e
  | None =>
      r2 ← fault_cow present write fault_addr;
      match r2 with
      | Some e => mret e
      | None =>
          r3 ← fault_swap present fault_addr;
          match r3 with Some e => mret e | None => mret Halt end
      end
  end.

(** ** Address spaces of processes *)

(** Copy of the present and absent entries of one user table, page by page. *)
Fixpoint clone_table (n : nat) (j src_tbl new_tbl : Z) : M vm unit :=
  match n with
  | O => mret tt
  | S n' =>
      e ← vload (src_tbl + 4 * j);
      (if e =? 0 then mret tt
       else
         new_phys ← palloc;
         if new_phys =? 0 then mret tt
         else
           kmemcpy_page new_phys (page_base e) ;;
           vstore (new_tbl + 4 * j) (Z.lor new_phys (Z.land e 0xFFF))) ;;
      clone_table n' (j + 1) src_tbl new_tbl
  end.

Fixpoint clone_dir_loop (n : nat) (i new_dir : Z) : M vm bool :=
  match n with
  | O => mret true
  | S n' =>
      e ← vload (page_dir + 4 * i);
      ok ← (if e =? 0 then mret true
            else if i <? 256 then vstore (new_dir + 4 * i) e ;; mret true
            else
              new_tbl ← palloc;
              if new_tbl =? 0 then pfree new_dir ;; mret false
              else
                kmemset_page new_tbl ;;
                clone_table 1024 0 (page_base e) new_tbl ;;
                vstore (new_dir + 4 * i) (Z.lor new_tbl (Z.land e 0xFFF)) ;;
                mret true);
      if (ok : bool) then clone_dir_loop n' (i + 1) new_dir else mret false
  end.

Definition paging_clone_dir : M vm Z :=
  new_dir ← palloc;
  if new_dir =? 0 then mret 0
  else
    kmemset_page new_dir ;;
    ok ← clone_dir_loop 1024 0 new_dir;
    mret (if (ok : bool) then new_dir else 0).

Fixpoint free_table (n : nat) (j tbl : Z) : M vm unit :=
  match n with
  | O => mret tt
  | S n' =>
      e ← vload (tbl + 4 * j);
      (if e =? 0 then mret tt else pfree (page_base e)) ;;
      free_table n' (j + 1) tbl
  end.

Fixpoint free_user_loop (n : nat) (i dir : Z) : M vm unit :=
  match n with
  | O => mret tt
  | S n' =>
      e ← vload (dir + 4 * i);
      (if e =? 0 then mret tt
       else free_table 1024 0 (page_base e) ;; pfree (page_base e)) ;;
      free_user_loop n' (i + 1) dir
  end.

Definition paging_free_user (dir_phys : Z) : M vm unit :=
  free_user_loop 768 256 dir_phys ;; pfree dir_phys.

End vmem.

(** * Proofs *)

Section proofs.
Variable page_dir : Z.

(** Taking one more reference to a mapped frame. *)
Lemma pref_wf s p :
  vm_wf page_dir s → (4096 | p) → managed_frame (pm s) p → 0 < rc s p < 254 →
  let s' := set_pm (pmm_ref p (pm s)) s in
  vm_wf page_dir s' ∧ rc s' p = rc s p + 1 ∧
  (∀ b, (4096 | b) → 0 ≤ b → b ≠ p → rc s' b = rc s b) ∧
  pmm_used_frames (pm s') = pmm_used_frames (pm s) ∧
  pmm_total_frames (pm s') = pmm_total_frames (pm s) ∧
  (∀ b, managed_frame (pm s') b ↔ managed_frame (pm s) b).
Proof.
  intros Hw Hal Hman Hr s'. pose proof (w_pmm _ _ Hw) as Hp.
  destruct (pmm_ref_spec (pm s) p Hp Hman Hr) as (Hp' & Hrc & Hoth & Hmm & Htot & Hu).
  assert (∀ b, (4096 | b) → 0 ≤ b → b ≠ p → rc s' b = rc s b) as Hoth'.
  { intros b Hb H0 Hne. apply Hoth; [by apply Z.div_pos|].
    intros Hc. apply Hne. by apply idx_of_aligned. }
  assert (∀ b, 0 ≤ b → rc s b ≠ 0 → rc s' b ≠ 0) as Hkeep.
  { intros b Hb Hb0. unfold rc in *. destruct (decide (frame_idx b = frame_idx p)) as [E|E].
    - unfold pmm_refcount in *. rewrite E in *. cbn. cbn in Hrc. rewrite Hrc. lia.
    - cbn. rewrite Hoth; [done|by apply Z.div_pos|done]. }
  split; [|split; [done|split; [done|done]]].
  destruct Hw as [Hc Ht _ Hs Hk Htab Hm Hinj]. split; try done.
  - intros b Hb Hb0. apply Hmm in Hb. destruct (decide (frame_idx b = frame_idx p)) as [E|E].
    + apply (below_of_idx p); [done|by rewrite E|]. apply Hs; [done|lia].
    + apply Hs; [done|]. unfold rc, s' in Hb0. cbn in Hb0. rewrite Hoth in Hb0; [done| |done].
      unfold managed_frame in Hb. rewrite (wf_base _ Hp) in Hb. lia.
  - intros a Ha. apply Hkeep; [lia|by apply Hk].
  - intros di Hdi Hpr. destruct (Htab di Hdi Hpr) as [? ?]. pose proof (t_user _ _ Ht di Hdi Hpr).
    split; [by apply Hmm|]. apply Hkeep; [|done]. unfold s'. cbn. lia.
  - intros vp e Hvp He. destruct (Hm vp e Hvp He) as (? & ? & ? & ?).
    split; [by apply Hmm|]. split; [done|]. split; [apply Hkeep; [lia|done]|done].
Qed.

(** Changing flag bits of an entry keeps the page it maps. *)
Lemma page_base_set e f g : 0 ≤ f < 4096 → 0 ≤ g < 4096 →
  page_base (Z.lor (Z.land e (Z.lnot f)) g) = page_base e.
Proof.
  intros Hf Hg. unfold page_base. rewrite Z.land_lor_distr_l.
  rewrite <- Z.land_assoc.
  assert (Z.land g (Z.lnot 4095) = 0) as ->.
  { rewrite (land_high 12) by lia. rewrite Z.mod_small; lia. }
  rewrite Z.lor_0_r. f_equal. apply Z.bits_inj'. intros n Hn.
  rewrite Z.land_spec, !Z.lnot_spec by lia. change 4095 with (Z.ones 12).
  destruct (Z.lt_ge_cases n 12).
  - rewrite Z.ones_spec_low by lia. by rewrite andb_false_r.
  - rewrite Z.ones_spec_high by lia. assert (Z.testbit f n = false) as ->; [|done].
    apply Z.testbit_false; [lia|]. rewrite Z.div_small; [done|].
    pose proof (Z.pow_le_mono_r 2 12 n). lia.
Qed.

Lemma odd_set e k g : 0 < k → Z.even g = true →
  Z.odd (Z.lor (Z.land e (Z.lnot (2 ^ k))) g) = Z.odd e.
Proof.
  intros Hk Hg. rewrite <- !Z.bit0_odd, Z.lor_spec, Z.land_spec, Z.lnot_spec by lia.
  rewrite Z.pow2_bits_false by lia. rewrite Z.bit0_odd with (a := g), <- Z.negb_even, Hg.
  by rewrite andb_true_r, orb_false_r.
Qed.

(** The flags of a shared entry, and of the entry when write permission is back. *)
Lemma cow_flags e :
  let e1 := Z.lor (Z.land e (Z.lnot PAGE_WRITE)) PAGE_COW in
  let f := Z.lor (Z.land e1 (Z.lnot PAGE_COW)) PAGE_WRITE in
  has_flag e1 PAGE_WRITE = false ∧ has_flag e1 PAGE_COW = true ∧ has_flag f PAGE_WRITE = true ∧ has_flag f PAGE_COW = false.
Proof.
  cbv zeta. unfold has_flag. change PAGE_COW with (2 ^ 9). change PAGE_WRITE with (2 ^ 1).
  rewrite !flag_test, !Z.lor_spec, !Z.land_spec, !Z.lnot_spec, !Z.pow2_bits_eqb by lia.
  cbn. by rewrite ?andb_false_r, ?orb_true_r.
Qed.

Lemma vload_page s virt e i :
  vm_wf page_dir s → mapping page_dir (mem s) (virt / 4096) = Some e → 0 ≤ i < 1024 →
  vload (page_base virt + 4 * i) s = Ok (mread (mem s) (page_base e + 4 * i), s).
Proof.
  intros Hw He Hi. unfold vload.
  destruct (xlat_off page_dir s (page_base virt) (page_base e) (4 * i)) as [-> _];
    [apply Hw|apply page_base_aligned|by apply (xlat_page page_dir)|lia|done].
Qed.

Lemma xlat_other s s' v :
  vm_wf page_dir s → vm_wf page_dir s' → 0 ≤ v < 2 ^ 32 →
  mapping page_dir (mem s') (v / 4096) = mapping page_dir (mem s) (v / 4096) → xlat s' v = xlat s v.
Proof.
  intros Hw Hw' Hv Hm. rewrite (xlat_mapping page_dir s'), (xlat_mapping page_dir s), Hm
    by (exact (w_cr3 _ _ Hw') || exact (w_cr3 _ _ Hw)). done.
Qed.

(** Mapped pages above the identity mapping are not tables. *)
Lemma mapped_data s vp e :
  vm_wf page_dir s → 4096 ≤ vp < 2 ^ 20 → mapping page_dir (mem s) vp = Some e →
  ¬ spage page_dir (mem s) (page_base e) ∧ rc s (page_base e) ≠ 0 ∧
  managed_frame (pm s) (page_base e) ∧ 0x500000 ≤ page_base e < 2 ^ 24.
Proof.
  intros Hw Hvp He. destruct (w_map _ _ Hw vp e Hvp He) as (Hman & Hlo & Hr & Hnt).
  split; [|split; [done|split; [done|]]].
  - intros [E|(di & Hdi & Hp & E)]; [|by eapply Hnt].
    pose proof (t_dir _ _ (w_tables _ _ Hw)). lia.
  - pose proof (w_low _ _ Hw _ Hman Hr). lia.
Qed.

(** The handler on a missing page above the heap goes to the swap area. *)
Lemma handler_missing s err virt :
  2 ^ 24 ≤ virt → has_flag err 1 = false →
  page_fault_handler page_dir err virt s =
    match fault_swap page_dir false virt s with
    | Ok (Some e, s') => Ok (e, s')
    | Ok (None, s') => Ok (Halt, s')
    | Fault => Fault
    | Timeout => Timeout
    end.
Proof.
  intros Hv He. unfold page_fault_handler, mbind, M_bind. rewrite He. unfold fault_demand.
  unfold HEAP_VIRT_MAX. rewrite (proj2 (Z.ltb_ge virt 16777216)) by lia. rewrite andb_false_r.
  unfold fault_cow, mret, M_ret. cbn [negb andb]. cbv beta iota zeta. by destruct (fault_swap page_dir false virt s) as [[[?|] ?]| |].
Qed.

End proofs.

(** C7: a page above the identity mapping that is swapped out is unmapped, and the
    fault of its next access brings it back with the same words, leaving the
    translation and the words of every other mapped page alone (the swap area has a
    free slot, two frames below 16 MiB are free for the way back, which on a machine
    with more memory means that at most 3838 frames are in use, and the count of
    frame 0, which [swap_out] releases by mistake, has not run down). *)
Theorem swap_roundtrip page_dir s virt e slot err :
  vm_wf page_dir s → swap_wf s → swap_ready s = true → 2 ^ 24 ≤ virt < 2 ^ 32 →
  mapping page_dir (mem s) (virt / 4096) = Some e →
  find_idx (swap_is_used (page_base virt)) (swap_table s) = None →
  alloc_slot s = Some slot → 1 < pmm_refcount 0 (pm s) →
  pmm_used_frames (pm s) + 1 < low_total s → has_flag err 1 = false →
  ∃ s1 s2, swap_out page_dir virt s = Ok (0, s1) ∧ xlat s1 virt = None ∧
    page_fault_handler page_dir err virt s1 = Ok (Retry, s2) ∧ vm_wf page_dir s2 ∧
    (∀ i, 0 ≤ i < 1024 → ∃ w, vload (page_base virt + 4 * i) s = Ok (w, s) ∧
       vload (page_base virt + 4 * i) s2 = Ok (w, s2)) ∧
    (∀ v f, 2 ^ 24 ≤ v < 2 ^ 32 → v / 4096 ≠ virt / 4096 →
       xlat s2 v = xlat s v ∧
       (mapping page_dir (mem s) (v / 4096) = Some f → ∀ i, 0 ≤ i < 1024 →
         mread (mem s2) (page_base f + 4 * i) = mread (mem s) (page_base f + 4 * i))).
Proof.
  intros Hw Hsw Hready Hv He Hnone Hslot Hr0 Hfree Herr.
  pose proof (addr_split virt Hv) as (_ & _ & _ & _ & Hvp & _).
  destruct (swap_out_spec page_dir s virt e slot) as
    (s1 & Hout & Hw1 & [Hlen Hbuf] & Hr1 & Hm1 & _ & Hu1 & Ht1 & Hi1 & Hb1 & Hk1 & Hsp1); try done.
  pose proof (page_base_high virt Hv) as Hvb.
  destruct (swap_in_spec page_dir s1 (page_base virt) slot (words (mem s) (page_base e) 0 1024)) as
    (s2 & p & Hin & Hw2 & Hpa & Hz & Hm2 & Hwd & Hk2 & _ & _);
    [done|done|done|by rewrite page_base_idem|done|apply words_length|lia|].
  rewrite page_base_div in Hm2.
  set (s3 := set_counts (u32 (fault_count s2 + 1)) (cow_count s2) s2).
  assert (vm_wf page_dir s3) as Hw3 by (by apply (vm_wf_eq _ s2)).
  assert (mapping page_dir (mem s3) (virt / 4096) = Some (p + 7)) as He3.
  { cbn. rewrite Hm2 by lia. by rewrite decide_True. }
  exists s1, s3. split; [done|]. split.
  { rewrite (xlat_mapping page_dir) by apply Hw1. rewrite Hm1 by lia. by rewrite decide_True. }
  split.
  { rewrite handler_missing by (done || lia). unfold fault_swap, swap_is_swapped, gets, mbind, M_bind.
    cbn [negb]. cbv beta iota. rewrite page_base_idem, Hi1, bool_decide_eq_true_2, Hin by done. done. }
  split; [done|]. split.
  - intros i Hi. eexists. split; [by eapply vload_page|].
    rewrite (vload_page page_dir s3 virt (p + 7)) by done.
    rewrite page_base_flags by (done || lia). cbn. rewrite Hwd by done.
    rewrite words_lookup by lia. by rewrite Z.add_0_l.
  - intros v f Hv' Hne. pose proof (addr_split v Hv') as (_ & _ & _ & _ & Hvp' & _).
    assert (mapping page_dir (mem s3) (v / 4096) = mapping page_dir (mem s) (v / 4096)) as Hmv.
    { cbn. rewrite Hm2, decide_False, Hm1, decide_False by (done || lia). done. }
    split; [apply (xlat_other page_dir); try done; lia|].
    intros Hf i Hi. destruct (mapped_data page_dir s _ f Hw Hvp' Hf) as (Hns & _ & _ & Hlo).
    assert (mapping page_dir (mem s1) (v / 4096) = Some f) as Hf1.
    { rewrite Hm1, decide_False by (done || lia). done. }
    destruct (mapped_data page_dir s1 _ f Hw1 Hvp' Hf1) as (Hns1 & Hrc1 & _).
    cbn. rewrite Hk2 by (try apply page_base_aligned; done || lia).
    apply Hk1; try done. apply page_base_aligned.
Qed.

(** A booted machine with 128 MiB on which one page is mapped at 1 GiB. *)
Lemma example_mapped :
  ∃ a s, vm_wf 0x200000 s ∧ (4096 | a) ∧
    mapping 0x200000 (mem s) 0x40000 = Some (a + 7) ∧ rc s a = 1 ∧ rc s 0 = 255 ∧
    pmm_used_frames (pm s) + 2 < low_total s ∧ vmalloc_ptr s = VMALLOC_BASE ∧ vregions s = [].
Proof.
  pose proof (paging_init_wf 0x200000 0x201000 131072 vm0 placed_example ltac:(lia)) as Hw.
  assert (pm (paging_init 0x200000 0x201000 131072 vm0) = pmm_init 131072) as Hpm by reflexivity.
  assert (vmalloc_ptr (paging_init 0x200000 0x201000 131072 vm0) = VMALLOC_BASE ∧
          vregions (paging_init 0x200000 0x201000 131072 vm0) = []) as Hvr by (split; reflexivity).
  revert Hw Hpm Hvr. generalize (paging_init 0x200000 0x201000 131072 vm0) as s0. intros s0 Hw Hpm Hvr.
  assert (pmm_used_frames (pm s0) = 1024 ∧ pmm_total_frames (pm s0) = 32512 ∧ rc s0 0 = 255) as (Hu & Ht & H0).
  { unfold rc. rewrite Hpm. repeat split; vm_compute; reflexivity. }
  clear Hpm.
  destruct (palloc_spec _ s0 Hw ltac:(lia)) as
    [[_ Hall]|(a & p' & Ha & Hne & Hz & H1 & Hw1 & Ho1 & Hoth & Hman & Hu1 & Ht1)].
  { exfalso. eapply (free_frame_exists _ s0 Hw); [lia|done]. }
  destruct (paging_map_spec 0x200000 (set_pm p' s0) 0x40000000 a 6 Hw1 ltac:(cbn [pm set_pm]; lia) ltac:(lia) Ho1 ltac:(lia)) as
    [[_ Hall]|(s2 & _ & Hw2 & He2 & Hm2 & _)].
  { exfalso. eapply (free_frame_exists _ _ Hw1); [cbn; lia|done]. }
  exists a, s2. split; [done|]. split; [apply Ho1|]. split.
  { rewrite Hm2 by lia. by rewrite decide_True. }
  destruct He2 as [Hrest _ _ Hrc _ Htot Hused].
  assert (pmm_refcount 0 p' = 255) as H0'. { rewrite Hoth; try done. by exists 0. }
  pose proof (o_al _ _ _ Ho1). pose proof (o_lo _ _ _ Ho1).
  split; [rewrite Hrc; try done; [lia|unfold rc; cbn; lia]|].
  split; [rewrite Hrc; try done; [by exists 0|unfold rc; cbn; lia]|].
  rewrite Hrest. cbn in *. split; [lia|]. done.
Qed.

Lemma swap_roundtrip_witness :
  ∃ s s1 s2 w, swap_out 0x200000 0x40000000 s = Ok (0, s1) ∧ xlat s1 0x40000000 = None ∧
    page_fault_handler 0x200000 6 0x40000000 s1 = Ok (Retry, s2) ∧
    vload 0x40000000 s = Ok (w, s) ∧ vload 0x40000000 s2 = Ok (w, s2).
Proof.
  destruct example_mapped as (a & s & Hw & Hal & Hm & Hr & Hr0 & Hu & _).
  set (s' := set_swap (replicate (Z.to_nat SWAP_SLOTS) (mkSwapEntry 0 false))
              (replicate (Z.to_nat SWAP_SLOTS) (replicate 1024 0)) true 0 s).
  destruct (swap_roundtrip 0x200000 s' 0x40000000 (a + 7) 0 6) as (s1 & s2 & Hout & Hx & Hpf & _ & Hw' & _).
  - exact (vm_wf_eq _ s s' Hw eq_refl eq_refl eq_refl).
  - split; [reflexivity|]. apply Forall_replicate. reflexivity.
  - reflexivity.
  - lia.
  - exact Hm.
  - vm_compute. reflexivity.
  - vm_compute. reflexivity.
  - change (1 < rc s 0). lia.
  - change (pmm_used_frames (pm s) + 1 < low_total s). lia.
  - reflexivity.
  - destruct (Hw' 0 ltac:(lia)) as (w & H1 & H2). exists s', s1, s2, w.
    split; [exact Hout|]. split; [exact Hx|]. split; [exact Hpf|]. split; [exact H1|exact H2].
Defined.

Section cow.
Variable page_dir : Z.

(** Sharing a page: its frame gets one more reference, its entry loses the write
    bit and gets the copy-on-write bit, nothing else changes. *)
Lemma cow_share_spec s virt e :
  vm_wf page_dir s → 2 ^ 24 ≤ virt < 2 ^ 32 → mapping page_dir (mem s) (virt / 4096) = Some e →
  rc s (page_base e) < 254 →
  ∃ s', vmalloc_copy_on_write page_dir virt s = Ok (1, s') ∧ vm_wf page_dir s' ∧
    s' = set_mem (mem s') (set_pm (pmm_ref (page_base e) (pm s)) s) ∧
    (∀ vp, 0 ≤ vp < 2 ^ 20 → mapping page_dir (mem s') vp =
       if decide (vp = virt / 4096) then Some (Z.lor (Z.land e (Z.lnot PAGE_WRITE)) PAGE_COW)
       else mapping page_dir (mem s) vp) ∧
    rc s' (page_base e) = rc s (page_base e) + 1 ∧
    pmm_used_frames (pm s') = pmm_used_frames (pm s) ∧
    pmm_total_frames (pm s') = pmm_total_frames (pm s) ∧
    (∀ b, (4096 | b) → 0 ≤ b → b ≠ page_base e → rc s' b = rc s b) ∧
    (∀ p i, (4096 | p) → ¬ spage page_dir (mem s) p → 0 ≤ i < 1024 →
      mread (mem s') (p + 4 * i) = mread (mem s) (p + 4 * i)) ∧
    (∀ p, spage page_dir (mem s') p ↔ spage page_dir (mem s) p).
Proof.
  intros Hw Hv He Hr. destruct (addr_split virt Hv) as (_ & _ & Hd & Hti & Hvp & Hsplit).
  destruct (mapping_present _ _ _ _ He) as [Hp Hodd].
  destruct (w_map _ _ Hw _ _ Hvp He) as (Hman & Hlo & Hrc & Hnt).
  assert (0 < rc s (page_base e)) as Hpos.
  { unfold rc in *. rewrite pmm_refcount_managed in * by (apply Hw || done).
    pose proof (bytes_lookup_total (pmm_refs (pm s)) (Z.to_nat (frame_idx (page_base e)))
      (wf_bytes _ (w_pmm _ _ Hw))) as Hb. unfold is_byte in Hb. lia. }
  destruct (pref_wf page_dir s (page_base e)) as (Hw1 & Hr1 & Ho1 & Hu1 & Ht1 & Hm1); try done.
  { apply page_base_aligned. }
  set (s1 := set_pm (pmm_ref (page_base e) (pm s)) s) in *.
  set (e' := Z.lor (Z.land e (Z.lnot PAGE_WRITE)) PAGE_COW).
  assert (page_base e' = page_base e) as Hb
    by (apply page_base_set; unfold PAGE_WRITE, PAGE_COW; lia).
  assert (Z.odd e' = true) as Hodd' by (unfold e'; by rewrite (odd_set e 1)).
  destruct (set_pte_wf page_dir s1 (virt / 4096 / 1024) ((virt / 4096) mod 1024) e')
    as (Hw2 & Hm2 & _ & Hk2 & Hsp2); try done.
  { intros _. rewrite Hb. split; [by apply Hm1|]. split; [done|]. split; [lia|]. split; [done|].
    rewrite <- Hsplit. intros vp f Hvp' Hne Hf Hc. by eapply (w_inj _ _ Hw) in Hc. }
  rewrite <- Hsplit in Hm2. rewrite Hodd' in Hm2.
  eexists. split; [|split; [exact Hw2|]].
  - unfold vmalloc_copy_on_write, mbind, M_bind.
    rewrite pte_lookup_eq, page_base_div, He by (try done; pose proof (page_base_high virt Hv); lia).
    cbn [fmap option_fmap option_map]. unfold pref, modify. fold s1. fold e'.
    replace (pte_addr page_dir s (page_base virt)) with (pte_addr page_dir s1 virt)
      by (unfold pte_addr; by rewrite page_base_div).
    rewrite (pte_vstore page_dir s1) by (done || lia). done.
  - split; [done|]. split; [done|]. split; [done|]. split; [done|]. split; [done|].
    split; [done|]. split; done.
Qed.

(** A fresh frame with the words of another. *)
Lemma fresh_copy s b :
  vm_wf page_dir s → (4096 | b) → rc s b ≠ 0 → 0 ≤ b < 2 ^ 24 → pmm_used_frames (pm s) < low_total s →
  ∃ a p1 m2, let s2 := set_mem m2 (set_pm p1 s) in
    palloc s = Ok (a, set_pm p1 s) ∧ kmemcpy_page a b (set_pm p1 s) = Ok (tt, s2) ∧
    (a ≠ 0 ∧ a ≠ b ∧ rc s a = 0 ∧ pmm_refcount a p1 = 1) ∧ vm_wf page_dir s2 ∧ own_frame page_dir s2 a ∧ data_page page_dir (mem s) a ∧
    (∀ c, (4096 | c) → 0 ≤ c → c ≠ a → pmm_refcount c p1 = rc s c) ∧ (∀ c, managed_frame p1 c ↔ managed_frame (pm s) c) ∧
    (∀ vp, 0 ≤ vp < 2 ^ 20 → mapping page_dir m2 vp = mapping page_dir (mem s) vp) ∧
    (∀ di, 0 ≤ di < 1024 → pde page_dir m2 di = pde page_dir (mem s) di) ∧
    (∀ i, 0 ≤ i < 1024 → mread m2 (a + 4 * i) = mread (mem s) (b + 4 * i)) ∧
    (∀ q j, (4096 | q) → q ≠ a → 0 ≤ j < 1024 → mread m2 (q + 4 * j) = mread (mem s) (q + 4 * j)).
Proof.
  intros Hw Hale Hrc Hlo Hfree. destruct (palloc_spec page_dir s Hw ltac:(lia)) as
    [[_ Hall]|(a & p1 & Ha & Hne & Hz & H1 & Hw1 & Ho1 & Hoth & Hmm & _ & _)].
  { exfalso. eapply (free_frame_exists page_dir s); [done|lia|done]. }
  assert (a ≠ b) as Hab by (intros ->; lia). pose proof (o_lo _ _ _ Ho1) as Hloa. pose proof (o_al _ _ _ Ho1) as Hal.
  pose proof (own_frame_data page_dir (set_pm p1 s) a Hw1 Ho1) as Hda.
  destruct (store_frame_wf page_dir (set_pm p1 s) a (words (mem s) b 0 1024) Hw1 Ho1 (words_length _ _ _ _))
    as (m2 & Hst & Hw2 & Hm2 & Hpde2 & Hwd2 & Hot2 & Hown2).
  exists a, p1, m2. split; [done|]. split.
  { rewrite <- Hst. unfold kmemcpy_page. pose proof (copy_as_store page_dir 1024 (set_pm p1 s) b b a a 0) as Hc.
    rewrite !Z.mul_0_r, !Z.add_0_r in Hc. apply Hc; try done; try lia; [apply Hw1..| |]; apply (xlat_ident page_dir); try apply Hw1; lia. }
  do 2 (split; [done|]). split; [by apply Hown2|]. do 5 (split; [done|]). split; [|done].
  intros i Hi. rewrite Hwd2, words_lookup by lia. by rewrite Z.add_0_l.
Qed.

(** A write fault on a shared page: the page moves to a fresh writable copy. *)
Lemma cow_fault_spec s virt e err :
  vm_wf page_dir s → 2 ^ 24 ≤ virt < 2 ^ 32 → mapping page_dir (mem s) (virt / 4096) = Some e →
  has_flag e PAGE_COW = true → 1 < rc s (page_base e) →
  pmm_used_frames (pm s) < low_total s →
  has_flag err 1 = true → has_flag err 2 = true →
  ∃ s' p, page_fault_handler page_dir err virt s = Ok (Retry, s') ∧ vm_wf page_dir s' ∧
    (4096 | p) ∧ rc s p = 0 ∧ p ≠ page_base e ∧
    (∀ vp, 0 ≤ vp < 2 ^ 20 → mapping page_dir (mem s') vp =
       if decide (vp = virt / 4096) then Some (p + 3) else mapping page_dir (mem s) vp) ∧
    (∀ i, 0 ≤ i < 1024 → mread (mem s') (p + 4 * i) = mread (mem s) (page_base e + 4 * i)) ∧
    rc s' (page_base e) = rc s (page_base e) - 1 ∧ rc s' p = 1 ∧
    (∀ q i, (4096 | q) → q ≠ p → ¬ spage page_dir (mem s) q → 0 ≤ i < 1024 →
      mread (mem s') (q + 4 * i) = mread (mem s) (q + 4 * i)).
Proof.
  intros Hw Hv He Hcow Hr Hfree Hp Hwr.
  destruct (addr_split virt Hv) as (_ & _ & Hd & Hti & Hvp & Hsplit).
  destruct (mapping_present _ _ _ _ He) as [Hpr Hodd].
  destruct (mapped_data page_dir s _ e Hw Hvp He) as (Hns & Hrc & Hman & Hlo).
  pose proof (page_base_aligned e) as Hale.
  destruct (fresh_copy s (page_base e)) as (a & p1 & m2 & Ha & Hcpy & (Hne & Hae & Hz & H1) & Hw2 & Hoa2 & Hda & Hoth & Hmm & Hm2 & Hpde2 & Hwd2 & Hot2); [done|done|lia|lia|done|].
  pose proof (o_al _ _ _ Hoa2) as Hal. pose proof (o_lo _ _ _ Hoa2) as Hloa. set (s1 := set_pm p1 s) in *. set (s2 := set_mem m2 s1) in *.
  assert (present page_dir (mem s2) (virt / 4096 / 1024)) as Hpr2.
  { unfold present. cbn. rewrite Hpde2 by lia. exact Hpr. }
  assert (Z.odd (a + 3) = true) as Hodd3 by (rewrite <- present_odd, present_add by done; done).
  assert (page_base (a + 3) = a) as Hb3 by (by apply page_base_flags).
  destruct (set_pte_wf page_dir s2 (virt / 4096 / 1024) ((virt / 4096) mod 1024) (a + 3))
    as (Hw3 & Hm3 & _ & Hk3 & Hsp3); try done.
  { rewrite Hb3. intros _. split; [apply Hoa2|]. split; [apply Hoa2|].
    split; [apply (o_rc _ _ _ Hoa2)|]. split; [apply Hoa2|]. intros vp f Hvp' _. by apply Hoa2. }
  rewrite <- Hsplit, Hodd3 in Hm3.
  assert (∀ q, spage page_dir m2 q ↔ spage page_dir (mem s) q) as Hspm by (intros q; by apply spage_agree).
  set (s3 := set_mem (<[_ := a + 3]> (mem s2)) s2) in *.
  assert (rc s3 (page_base e) = rc s (page_base e)) as Hrc3 by (apply Hoth; [done|lia|done]).
  destruct (pfree_wf page_dir s3 (page_base e)) as (Hw4 & Hr4 & Hro4 & _); try done; try lia.
  { by apply Hmm. }
  { intros di Hdi Hq Hc. apply Hns, Hspm. apply Hsp3. right. by exists di. }
  { intros vp f Hvp' Hf Hc. rewrite Hm3 in Hf by lia. case_decide as E.
    - injection Hf as <-. by rewrite Hb3 in Hc.
    - cbn in Hf. rewrite Hm2 in Hf by lia. by eapply (w_inj _ _ Hw) in Hc. }
  exists (set_counts (u32 (fault_count s + 1)) (u32 (cow_count s + 1))
            (set_pm (pmm_free (page_base e) (pm s3)) s3)), a.
  split.
  { unfold page_fault_handler, fault_demand, fault_cow, mbind, M_bind, mret, M_ret. rewrite Hp, Hwr.
    cbn [negb andb]. cbv beta iota zeta.
    pose proof (page_base_high virt Hv) as Hvb.
    rewrite pte_ptr_present by (done || lia || by rewrite page_base_div).
    rewrite page_base_div. fold (pte_addr page_dir s virt).
    pose proof (pte_vload page_dir s virt e Hw ltac:(lia) He) as Hld. rewrite Hld.
    rewrite Hcow. unfold get. rewrite (proj2 (Z.ltb_lt 1 _)) by exact Hr. rewrite Ha.
    rewrite (proj2 (Z.eqb_neq a 0)) by done. fold s1. rewrite Hcpy. unfold pfree, modify.
    rewrite <- Z.lor_assoc, lor_flags by done. change (Z.lor PAGE_PRESENT PAGE_WRITE) with 3.
    unfold vstore. rewrite (xlat_ident page_dir); [| apply Hw2 | apply Hw2 |].
    2:{ destruct (t_al _ _ (w_tables _ _ Hw) (virt / 4096 / 1024) ltac:(lia) Hpr) as ([q Hq] & ? & _).
        unfold pte_addr. lia. }
    replace (pte_addr page_dir s virt) with (tbl page_dir (mem s2) (virt / 4096 / 1024) + 4 * ((virt / 4096) mod 1024)).
    2:{ unfold pte_addr, tbl. cbn. by rewrite Hpde2 by lia. }
    reflexivity. }
  split; [by apply (vm_wf_eq page_dir (set_pm (pmm_free (page_base e) (pm s3)) s3))|].
  do 3 (split; [done|]). split.
  { intros vp Hvp'. cbn [mem set_counts set_pm]. rewrite Hm3 by done. case_decide; [done|]. cbn. by apply Hm2. }
  split.
  { intros i Hi. cbn [mem set_counts set_pm]. unfold s3. rewrite Hk3; [|done|intros Hq%Hspm; by apply Hda|done].
    cbn. by apply Hwd2. }
  split.
  { change (rc (set_pm (pmm_free (page_base e) (pm s3)) s3) (page_base e) = rc s (page_base e) - 1). by rewrite Hr4, Hrc3. }
  split.
  { change (rc (set_pm (pmm_free (page_base e) (pm s3)) s3) a = 1). rewrite Hro4 by (done || lia). exact H1. }
  intros q i Hq Hqa Hnq Hi. cbn [mem set_counts set_pm]. unfold s3.
  rewrite Hk3; [|done|by intros ?%Hspm|done]. cbn. by apply Hot2.
Qed.

(** A write fault on a page whose frame has one reference left: write permission
    comes back in place. *)
Lemma cow_sole_spec s virt e err :
  vm_wf page_dir s → 2 ^ 24 ≤ virt < 2 ^ 32 → mapping page_dir (mem s) (virt / 4096) = Some e →
  has_flag e PAGE_COW = true → rc s (page_base e) = 1 → has_flag err 1 = true → has_flag err 2 = true →
  let f := Z.lor (Z.land e (Z.lnot PAGE_COW)) PAGE_WRITE in
  ∃ s', page_fault_handler page_dir err virt s = Ok (Retry, s') ∧ vm_wf page_dir s' ∧ pm s' = pm s ∧
    (∀ vp, 0 ≤ vp < 2 ^ 20 → mapping page_dir (mem s') vp =
       if decide (vp = virt / 4096) then Some f else mapping page_dir (mem s) vp) ∧
    (∀ p i, (4096 | p) → ¬ spage page_dir (mem s) p → 0 ≤ i < 1024 →
      mread (mem s') (p + 4 * i) = mread (mem s) (p + 4 * i)).
Proof.
  intros Hw Hv He Hcow Hr Hp Hwr f. destruct (addr_split virt Hv) as (_ & _ & Hd & Hti & Hvp & Hsplit).
  destruct (mapping_present _ _ _ _ He) as [Hpr Hodd].
  destruct (w_map _ _ Hw _ _ Hvp He) as (Hman & Hlo & Hrc & Hnt).
  assert (page_base f = page_base e) as Hb by (apply page_base_set; unfold PAGE_WRITE, PAGE_COW; lia).
  assert (Z.odd f = true) as Hoddf by (unfold f; by rewrite (odd_set e 9)).
  destruct (set_pte_wf page_dir s (virt / 4096 / 1024) ((virt / 4096) mod 1024) f)
    as (Hw2 & Hm2 & _ & Hk2 & _); try done.
  { intros _. rewrite Hb. do 4 (split; [done|]).
    rewrite <- Hsplit. intros vp g Hvp' Hne Hg Hc. by eapply (w_inj _ _ Hw) in Hc. }
  rewrite <- Hsplit, Hoddf in Hm2. set (s1 := set_mem _ s) in *.
  exists (set_counts (u32 (fault_count s + 1)) (u32 (cow_count s + 1)) s1).
  split; [|split; [by apply (vm_wf_eq page_dir s1)|done]].
  unfold page_fault_handler, fault_demand, fault_cow, mbind, M_bind, mret, M_ret. rewrite Hp, Hwr.
  cbn [negb andb]. cbv beta iota zeta. pose proof (page_base_high virt Hv) as Hvb.
  rewrite pte_ptr_present by (done || lia || by rewrite page_base_div).
  rewrite page_base_div. fold (pte_addr page_dir s virt).
  rewrite (pte_vload page_dir s virt e Hw) by (done || lia).
  rewrite Hcow. unfold get, rc in *. rewrite Hr. cbn [Z.ltb Z.compare Pos.compare Pos.compare_cont]. fold f.
  rewrite pte_vstore by (done || lia). done.
Qed.

(** Giving back a reference that is not the last one. *)
Lemma pfree_shared_wf s p :
  vm_wf page_dir s → (4096 | p) → managed_frame (pm s) p → 1 < rc s p →
  vm_wf page_dir (set_pm (pmm_free p (pm s)) s) ∧ rc (set_pm (pmm_free p (pm s)) s) p = rc s p - 1.
Proof.
  intros Hw Hal Hman Hr. pose proof (w_pmm _ _ Hw) as Hp. unfold rc in Hr.
  destruct (pmm_free_spec (pm s) p Hp Hman ltac:(lia)) as (Hp' & Hrc & Hoth & Hmm & Htot & _).
  assert (∀ b, 0 ≤ frame_idx b → rc (set_pm (pmm_free p (pm s)) s) b = 0 ↔ rc s b = 0) as Hz.
  { intros b Hb. unfold rc. cbn [pm set_pm]. destruct (decide (frame_idx b = frame_idx p)) as [E|E]; [|by rewrite Hoth].
    unfold pmm_refcount in *. rewrite E. cbv zeta in *. rewrite Hrc. lia. }
  assert (∀ b, 0 ≤ b → 0 ≤ frame_idx b) as Hpos by (intros; by apply Z.div_pos).
  split; [|done]. destruct Hw as [Hc Ht _ Hs Hk Htab Hm Hinj]. split; try done.
  - intros b Hb Hb0. apply Hmm in Hb. apply Hs; [done|]. intros E. apply Hb0, Hz; [|done].
    unfold managed_frame in Hb. rewrite (wf_base _ Hp) in Hb. lia.
  - intros a Ha E. apply (Hk a Ha), Hz; [apply Hpos; lia|done].
  - intros di Hdi Hpr. destruct (Htab di Hdi Hpr) as [? Hr']. pose proof (t_user _ _ Ht di Hdi Hpr).
    split; [by apply Hmm|]. intros E. apply Hr', Hz; [apply Hpos; lia|done].
  - intros vp e Hvp He. destruct (Hm vp e Hvp He) as (? & ? & Hr' & ?).
    split; [by apply Hmm|]. split; [done|]. split; [|done]. intros E. apply Hr', Hz; [apply Hpos; lia|done].
Qed.

End cow.

(** C8: [vmalloc_copy_on_write] on a mapped page shares its frame and takes away write
    permission. The write fault it provokes moves the page to a fresh, writable frame
    with the same words, and the old frame keeps its words and the reference taken for
    the other user; if instead the fault comes when the frame has one reference left
    (in whatever state), write permission is restored in place and no frame is taken.
    In both cases no other translation changes. A copy needs a free frame below 16 MiB:
    fewer than 3840 frames in use on a machine with more memory. *)
Theorem cow_correct page_dir s virt e err :
  vm_wf page_dir s → 2 ^ 24 ≤ virt < 2 ^ 32 → mapping page_dir (mem s) (virt / 4096) = Some e →
  pmm_refcount (page_base e) (pm s) < 254 → pmm_used_frames (pm s) < low_total s →
  has_flag err 1 = true → has_flag err 2 = true →
  ∃ s1 e1, vmalloc_copy_on_write page_dir virt s = Ok (1, s1) ∧ vm_wf page_dir s1 ∧
    mapping page_dir (mem s1) (virt / 4096) = Some e1 ∧ page_base e1 = page_base e ∧
    has_flag e1 PAGE_WRITE = false ∧ has_flag e1 PAGE_COW = true ∧
    pmm_refcount (page_base e) (pm s1) = pmm_refcount (page_base e) (pm s) + 1 ∧
    (∃ s2 p, page_fault_handler page_dir err virt s1 = Ok (Retry, s2) ∧ vm_wf page_dir s2 ∧
      mapping page_dir (mem s2) (virt / 4096) = Some (p + PAGE_PRESENT + PAGE_WRITE) ∧
      (4096 | p) ∧ p ≠ page_base e ∧ pmm_refcount p (pm s2) = 1 ∧
      pmm_refcount (page_base e) (pm s2) = pmm_refcount (page_base e) (pm s) ∧
      (∀ i, 0 ≤ i < 1024 →
        mread (mem s2) (p + 4 * i) = mread (mem s) (page_base e + 4 * i) ∧
        mread (mem s2) (page_base e + 4 * i) = mread (mem s) (page_base e + 4 * i)) ∧
      (∀ v, 0 ≤ v < 2 ^ 32 → v / 4096 ≠ virt / 4096 → xlat s2 v = xlat s v)) ∧
    (∀ t, vm_wf page_dir t → mapping page_dir (mem t) (virt / 4096) = Some e1 →
      pmm_refcount (page_base e) (pm t) = 1 →
      ∃ t' f, page_fault_handler page_dir err virt t = Ok (Retry, t') ∧ vm_wf page_dir t' ∧ pm t' = pm t ∧
        mapping page_dir (mem t') (virt / 4096) = Some f ∧ page_base f = page_base e ∧
        has_flag f PAGE_WRITE = true ∧ has_flag f PAGE_COW = false ∧
        (∀ i, 0 ≤ i < 1024 → mread (mem t') (page_base e + 4 * i) = mread (mem t) (page_base e + 4 * i)) ∧
        (∀ v, 0 ≤ v < 2 ^ 32 → v / 4096 ≠ virt / 4096 → xlat t' v = xlat t v)).
Proof.
  intros Hw Hv He Hr Hfree Hp Hwr. pose proof (addr_split virt Hv) as (_ & _ & _ & _ & Hvp & _).
  destruct (mapped_data page_dir s _ e Hw Hvp He) as (Hns & Hrc & Hman & Hlo).
  pose proof (page_base_aligned e) as Hal.
  destruct (cow_share_spec page_dir s virt e Hw Hv He Hr) as
    (s1 & Hsh & Hw1 & _ & Hm1 & Hr1 & Hu1 & Ht1 & Ho1 & Hk1 & Hsp1).
  set (e' := Z.lor (Z.land e (Z.lnot PAGE_WRITE)) PAGE_COW) in *.
  assert (mapping page_dir (mem s1) (virt / 4096) = Some e') as He1
    by (rewrite Hm1 by lia; by rewrite decide_True).
  assert (page_base e' = page_base e) as Hb
    by (apply page_base_set; unfold PAGE_WRITE, PAGE_COW; lia).
  destruct (cow_flags e) as (Hf1 & Hf2 & Hf3 & Hf4). fold e' in Hf1, Hf2, Hf3, Hf4.
  assert (0 ≤ rc s (page_base e)) as Hpos.
  { unfold rc. rewrite pmm_refcount_managed by (apply Hw || done).
    apply bytes_lookup_total, (wf_bytes _ (w_pmm _ _ Hw)). }
  exists s1, e'. do 7 (split; [done|]). split.
  - destruct (cow_fault_spec page_dir s1 virt e' err) as
      (s2 & p & Hf & Hw2 & Hpa & Hz & Hne & Hm2 & Hwd & Hr2 & Hrp & Hk2); try done.
    { rewrite Hb. lia. } { lia. }
    rewrite Hb in *. exists s2, p. do 2 (split; [done|]).
    split; [rewrite Hm2 by lia; rewrite decide_True by done; unfold PAGE_PRESENT, PAGE_WRITE; f_equal; lia|].
    do 3 (split; [done|]). split; [unfold rc in *; lia|]. split.
    + intros i Hi. split; [rewrite Hwd by done; by apply Hk1|].
      rewrite Hk2; try done; [by apply Hk1|]. by rewrite Hsp1.
    + intros v Hv' Hvne. apply (xlat_other page_dir); try done. pose proof (vpage_range v Hv').
      rewrite Hm2, decide_False, Hm1, decide_False by done. done.
  - intros t Hwt Het Hrt. destruct (cow_sole_spec page_dir t virt e' err) as (t' & Hf & Hw2 & Hpm & Hm2 & Hk2);
      try done; [by unfold rc; rewrite Hb|].
    exists t', (Z.lor (Z.land e' (Z.lnot PAGE_COW)) PAGE_WRITE). do 3 (split; [done|]).
    split; [by rewrite Hm2, decide_True by lia|].
    split; [rewrite page_base_set by (unfold PAGE_WRITE, PAGE_COW; lia); done|]. do 2 (split; [done|]). split.
    + intros i Hi. apply Hk2; [done| |done]. rewrite <- Hb. by eapply mapped_data.
    + intros v Hv' Hvne. apply (xlat_other page_dir); try done. pose proof (vpage_range v Hv').
      by rewrite Hm2, decide_False.
Qed.

Lemma cow_correct_witness :
  ∃ s s1 s2 t' a p f, vmalloc_copy_on_write 0x200000 0x40000000 s = Ok (1, s1) ∧
    page_fault_handler 0x200000 3 0x40000000 s1 = Ok (Retry, s2) ∧ p ≠ a ∧
    mread (mem s2) p = mread (mem s) a ∧
    page_fault_handler 0x200000 3 0x40000000 (set_pm (pmm_free a (pm s1)) s1) = Ok (Retry, t') ∧
    mapping 0x200000 (mem t') 0x40000 = Some f ∧ page_base f = a ∧ has_flag f PAGE_WRITE = true.
Proof.
  destruct example_mapped as (a & s & Hw & Hal & Hm & Hr & Hr0 & Hu & _).
  assert (Hb : page_base (a + 7) = a) by (apply page_base_flags; [exact Hal|lia]).
  destruct (cow_correct 0x200000 s 0x40000000 (a + 7) 3 Hw ltac:(lia) Hm) as
    (s1 & e1 & Hsh & Hw1 & Hm1 & Hb1 & _ & _ & Hr1 & (s2 & p & Hpf & _ & _ & _ & Hne & _ & _ & Hwd & _) & Hsole).
  - rewrite Hb. unfold rc in Hr. lia.
  - lia.
  - reflexivity.
  - reflexivity.
  - rewrite Hb in *. destruct (w_map _ _ Hw1 0x40000 e1 ltac:(lia) Hm1) as (Hman & _).
    rewrite Hb1 in Hman. unfold rc in Hr.
    destruct (pfree_shared_wf 0x200000 s1 a Hw1 Hal Hman) as [Hwt Hrt]; [unfold rc; lia|].
    destruct (Hsole (set_pm (pmm_free a (pm s1)) s1) Hwt Hm1) as (t' & f & Hpf' & _ & _ & Hmf & Hbf & Hwf & _).
    { unfold rc in Hrt. rewrite Hrt. lia. }
    exists s, s1, s2, t', a, p, f. split; [exact Hsh|]. split; [exact Hpf|]. split; [exact Hne|].
    split; [|split; [exact Hpf'|split; [exact Hmf|split; [exact Hbf|exact Hwf]]]].
    destruct (Hwd 0 ltac:(lia)) as [H _]. rewrite !Z.mul_0_r, !Z.add_0_r in H. exact H.
Defined.

Section vmalloc.
Variable page_dir : Z.

(** [s'] comes from [s] by taking at most [n] frames: nothing referenced is lost. *)
Record grows (n : Z) (s s' : vm) : Prop := {
  g_rest : s' = set_mem (mem s') (set_pm (pm s') s);
  g_keeps : keeps page_dir s s';
  g_spage p : spage page_dir (mem s') p → spage page_dir (mem s) p ∨ rc s p = 0;
  g_rc b : (4096 | b) → 0 ≤ b → rc s b ≠ 0 → rc s' b = rc s b;
  g_total : pmm_total_frames (pm s') = pmm_total_frames (pm s);
  g_used : pmm_used_frames (pm s') ≤ pmm_used_frames (pm s) + n
}.

Lemma grows_refl s : grows 0 s s.
Proof. split; try done; [by destruct s|by left|lia]. Qed.

Lemma spage_nonneg m p : tables page_dir m → spage page_dir m p → 0 ≤ p.
Proof.
  intros Ht [->|(di & Hdi & Hp & ->)]; [pose proof (t_dir _ _ Ht); lia|].
  by destruct (t_al _ _ Ht di Hdi Hp) as (_ & ? & _); lia.
Qed.

Lemma grows_trans n1 n2 s1 s2 s3 :
  tables page_dir (mem s3) → grows n1 s1 s2 → grows n2 s2 s3 → grows (n1 + n2) s1 s3.
Proof.
  intros Ht3 [R1 K1 P1 C1 T1 U1] [R2 K2 P2 C2 T2 U2]. split; try lia.
  - rewrite R2, R1. done.
  - intros p i Hp H0 Hns Hr Hi. rewrite K2; try done; [by apply K1| |by rewrite C1].
    intros Hs. by destruct (P1 p Hs).
  - intros p Hp. pose proof (spage_aligned _ _ _ Ht3 Hp) as Ha. pose proof (spage_nonneg _ _ Ht3 Hp).
    destruct (P2 p Hp) as [H2|H2]; [by apply P1|].
    destruct (decide (rc s1 p = 0)) as [|Hne]; [by right|]. rewrite C1 in H2 by done. done.
  - intros b Hb H0 Hr. rewrite C2; [by apply C1|done|done|by rewrite C1].
Qed.

(** One page of a region: a fresh zeroed frame is mapped. *)
Lemma vmalloc_page_spec s v :
  vm_wf page_dir s → 2 ^ 24 ≤ v < 2 ^ 32 → (4096 | v) →
  pmm_used_frames (pm s) + 2 ≤ low_total s →
  ∃ a s1 s2 s3, palloc s = Ok (a, s1) ∧ a ≠ 0 ∧
    paging_map page_dir v a PAGE_WRITE s1 = Ok (tt, s2) ∧ kmemset_page v s2 = Ok (tt, s3) ∧
    vm_wf page_dir s3 ∧ grows 2 s s3 ∧ (4096 | a) ∧ rc s a = 0 ∧ rc s3 a = 1 ∧
    (∀ vp, 0 ≤ vp < 2 ^ 20 → mapping page_dir (mem s3) vp =
       if decide (vp = v / 4096) then Some (a + 3) else mapping page_dir (mem s) vp) ∧
    (∀ i, 0 ≤ i < 1024 → mread (mem s3) (a + 4 * i) = 0).
Proof.
  intros Hw Hv Hal Hfree.
  destruct (palloc_spec page_dir s Hw ltac:(lia)) as
    [[_ Hall]|(a & p1 & Ha & Hne & Hz & H1 & Hw1 & Ho1 & Hoth & Hmm & Hu1 & Ht1)].
  { exfalso. eapply (free_frame_exists page_dir s Hw); [lia|done]. }
  destruct (paging_map_spec page_dir (set_pm p1 s) v a PAGE_WRITE) as
    [[_ Hall]|(s2 & Hrun & Hw2 & He2 & Hm2 & _)]; try done.
  { cbn [pm set_pm]. lia. }
  { exfalso. eapply (free_frame_exists page_dir _ Hw1); [cbn; lia|done]. }
  change (Z.lor 1 PAGE_WRITE) with 3 in Hm2.
  pose proof (addr_split v Hv) as (_ & _ & _ & _ & Hvp & _).
  pose proof (o_al _ _ _ Ho1) as Haa. pose proof (o_lo _ _ _ Ho1) as Hlo.
  assert (mapping page_dir (mem s2) (v / 4096) = Some (a + 3)) as Hmv
    by (rewrite Hm2 by lia; by rewrite decide_True).
  assert (page_base (a + 3) = a) as Hb by (by apply page_base_flags).
  destruct (mapped_data page_dir s2 _ _ Hw2 Hvp Hmv) as (Hns & Hr2 & _). rewrite Hb in *.
  destruct (store_data_wf page_dir s2 v a (replicate 1024 0)) as
    (m3 & Hset & Hw3 & Hm3 & Hp3 & Hwd & Hoth3 & _); try done; try lia.
  { pose proof (xlat_page page_dir s2 v (a + 3) Hw2 Hmv) as Hx. by rewrite Hb, page_base_id in Hx. }
  destruct He2 as [R2 K2 P2 C2 _ T2 U2]. cbn in U2, T2.
  exists a, (set_pm p1 s), s2, (set_mem m3 s2). do 5 (split; [done|]). split.
  { split; try done.
    - rewrite R2. done.
    - intros q i Hq H0 Hnq Hrq Hi. assert (q ≠ a) by (by intros ->). cbn.
      rewrite Hoth3 by done. rewrite K2; try done. unfold rc. cbn. by rewrite Hoth.
    - intros q Hq. apply (spage_agree page_dir (mem s2) m3) in Hq; [|done].
      pose proof (spage_aligned _ _ _ (w_tables _ _ Hw2) Hq) as Hqa.
      pose proof (spage_nonneg _ _ (w_tables _ _ Hw2) Hq).
      destruct (P2 q Hq) as [|Hq0]; [by left|right].
      destruct (decide (q = a)) as [->|]; [done|]. unfold rc in Hq0. cbn in Hq0. by rewrite Hoth in Hq0.
    - intros b Hb' H0 Hrb. assert (b ≠ a) by (by intros ->).
      change (rc s2 b = rc s b). rewrite C2; try done; unfold rc; cbn; by rewrite Hoth.
    - cbn. lia.
    - cbn. lia. }
  do 2 (split; [done|]). split; [change (rc s2 a = 1); rewrite C2; try done; [lia|unfold rc; cbn; lia]|].
  split.
  - intros vp Hvp'. cbn. rewrite Hm3 by done. by apply Hm2.
  - intros i Hi. cbn. rewrite Hwd by done. apply lookup_total_replicate_2. lia.
Qed.

Lemma vmalloc_loop_spec n k s virt :
  vm_wf page_dir s → (4096 | virt) → 2 ^ 24 ≤ virt →
  virt + (Z.of_nat k + Z.of_nat n) * 4096 ≤ 2 ^ 32 →
  pmm_used_frames (pm s) + 2 * Z.of_nat n ≤ low_total s →
  ∃ s', vmalloc_loop page_dir n k virt s = Ok (true, s') ∧ vm_wf page_dir s' ∧
    grows (2 * Z.of_nat n) s s' ∧
    (∀ vp, 0 ≤ vp < 2 ^ 20 → ¬ (virt / 4096 + Z.of_nat k ≤ vp < virt / 4096 + Z.of_nat k + Z.of_nat n) →
       mapping page_dir (mem s') vp = mapping page_dir (mem s) vp) ∧
    (∀ j, Z.of_nat k ≤ j < Z.of_nat k + Z.of_nat n → ∃ a, (4096 | a) ∧ rc s a = 0 ∧ rc s' a = 1 ∧
       mapping page_dir (mem s') (virt / 4096 + j) = Some (a + 3) ∧
       ∀ i, 0 ≤ i < 1024 → mread (mem s') (a + 4 * i) = 0).
Proof.
  revert k s. induction n as [|n IH]; intros k s Hw Hal Hlo Hhi Hfree.
  { exists s. split; [done|]. split; [done|]. split; [apply grows_refl|]. split; [done|]. intros; lia. }
  destruct Hal as [q Hq]. assert (virt / 4096 = q) as Hdiv by (rewrite Hq; apply Z.div_mul; lia).
  set (v := virt + Z.of_nat k * 4096).
  assert (v / 4096 = q + Z.of_nat k) as Hdv
    by (unfold v; rewrite Hq, <- Z.mul_add_distr_r; apply Z.div_mul; lia).
  destruct (vmalloc_page_spec s v) as
    (a & s1 & s2 & s3 & H1 & Hne & H2 & H3 & Hw3 & Hg3 & Haa & Hz & Hra & Hm3 & Hw0);
    [done|lia|exists (q + Z.of_nat k); lia|lia|].
  destruct (IH (S k) s3) as (s' & Hrun & Hw' & Hg' & Hm' & Hpg); [done|by exists q|done|lia|..].
  { pose proof (g_used _ _ _ Hg3). rewrite (g_total _ _ _ Hg3). lia. }
  assert (0 ≤ a) as Ha0.
  { destruct (mapped_data page_dir s3 (v / 4096) (a + 3) Hw3) as (_ & _ & _ & Hr).
    - rewrite Hdv. lia.
    - rewrite Hm3 by lia. by rewrite decide_True.
    - rewrite page_base_flags in Hr by (done || lia). lia. }
  exists s'. split.
  { cbn [vmalloc_loop]. unfold mbind, M_bind. rewrite H1, (proj2 (Z.eqb_neq a 0)) by done.
    rewrite u32_small by (unfold PAGE_SIZE; lia). unfold PAGE_SIZE. fold v. by rewrite H2, H3. }
  split; [done|]. split.
  { replace (2 * Z.of_nat (S n)) with (2 + 2 * Z.of_nat n) by lia.
    eapply grows_trans; [apply Hw'|done|done]. }
  rewrite Hdiv in *. rewrite Hdv in Hm3. split.
  - intros vp Hvp Hout. rewrite Hm' by lia. rewrite Hm3 by done. by rewrite decide_False by lia.
  - intros j Hj. destruct (decide (j = Z.of_nat k)) as [->|Hjk].
    + exists a. split; [done|]. split; [done|]. split; [by rewrite (g_rc _ _ _ Hg') by (done || lia)|]. split.
      * rewrite Hm' by lia. rewrite Hm3 by lia. by rewrite decide_True.
      * intros i Hi. rewrite (g_keeps _ _ _ Hg'); try done; [by apply Hw0| |lia].
        destruct (mapped_data page_dir s3 (q + Z.of_nat k) (a + 3) Hw3) as (Hns & _); [lia|..].
        { rewrite Hm3 by lia. by rewrite decide_True. }
        by rewrite page_base_flags in Hns by (done || lia).
    + destruct (Hpg j ltac:(lia)) as (b & Hb & Hzb & Hrb & Hmb & Hwb). exists b.
      split; [done|]. split; [|done]. destruct (decide (rc s b = 0)) as [|Hnz]; [done|].
      assert (0 ≤ b).
      { destruct (mapped_data page_dir s' (q + j) (b + 3) Hw') as (_ & _ & _ & Hr); [lia|done|].
        rewrite page_base_flags in Hr by (done || lia). lia. }
      by rewrite (g_rc _ _ _ Hg3) in Hzb.
Qed.

End vmalloc.

Lemma page_align_eq a : 0 ≤ a → a + 4095 < 2 ^ 32 →
  (4096 | PAGE_ALIGN a) ∧ a ≤ PAGE_ALIGN a < a + 4096.
Proof.
  intros H0 H1. unfold PAGE_ALIGN, PAGE_SIZE. rewrite u32_small by lia.
  replace (a + 4096 - 1) with (a + 4095) by lia. split; [apply page_base_aligned|].
  rewrite page_base_eq. pose proof (Z.mod_pos_bound (a + 4095) 4096 ltac:(lia)). lia.
Qed.

(** C9: [vmalloc] of up to 16 MiB, with room for the region, a free region slot
    and two free frames per page among the 3840 below 16 MiB, returns the next address of the area and maps
    each page of the rounded-up region to a fresh zeroed frame of its own with one
    reference; the words and counts of all frames in use, every other mapping and
    the invariant are kept, the region is recorded and the area pointer advances
    past it. *)
Theorem vmalloc_correct page_dir s size :
  vm_wf page_dir s → 0 < size ≤ 2 ^ 24 →
  (4096 | vmalloc_ptr s) → VMALLOC_BASE ≤ vmalloc_ptr s → vmalloc_ptr s + PAGE_ALIGN size < VMALLOC_END →
  Z.of_nat (length (vregions s)) < VMALLOC_MAX_REGIONS →
  pmm_used_frames (pm s) + 2 * (PAGE_ALIGN size / 4096) ≤ low_total s →
  ∃ s', vmalloc page_dir size s = Ok (vmalloc_ptr s, s') ∧ vm_wf page_dir s' ∧
    size ≤ PAGE_ALIGN size ∧
    vregions s' = vregions s ++ [mkVregion (vmalloc_ptr s) (PAGE_ALIGN size) true] ∧
    vmalloc_ptr s' = vmalloc_ptr s + PAGE_ALIGN size ∧
    (∀ o, 0 ≤ o < PAGE_ALIGN size → (4096 | o) → ∃ a, xlat s' (vmalloc_ptr s + o) = Some a ∧
       pmm_refcount a (pm s) = 0 ∧ pmm_refcount a (pm s') = 1 ∧
       ∀ i, 0 ≤ i < 1024 → mread (mem s') (a + 4 * i) = 0) ∧
    (∀ v, 0 ≤ v < 2 ^ 32 → ¬ (vmalloc_ptr s ≤ v < vmalloc_ptr s + PAGE_ALIGN size) → xlat s' v = xlat s v) ∧
    keeps page_dir s s' ∧
    (∀ b, (4096 | b) → 0 ≤ b → pmm_refcount b (pm s) ≠ 0 → pmm_refcount b (pm s') = pmm_refcount b (pm s)).
Proof.
  intros Hw Hs Hal Hlo Hhi Hslots Hfree. unfold VMALLOC_BASE, VMALLOC_END in *.
  destruct (page_align_eq size) as ([q Hq] & Hge); [lia..|].
  assert (PAGE_ALIGN size / 4096 = q) as Hdiv by (rewrite Hq; apply Z.div_mul; lia).
  destruct Hal as [r Hr]. assert (vmalloc_ptr s / 4096 = r) as Hrd by (rewrite Hr; apply Z.div_mul; lia).
  destruct (vmalloc_loop_spec page_dir (Z.to_nat q) 0 s (vmalloc_ptr s)) as
    (s1 & Hrun & Hw1 & [Hrest Hk _ Hrc _ _] & Hm1 & Hpg); try done; try lia; [by exists r|].
  rewrite Hrd in *.
  set (s2 := set_vregions (vregions s1 ++ [mkVregion (vmalloc_ptr s) (PAGE_ALIGN size) true])
               (u32 (vmalloc_ptr s1 + PAGE_ALIGN size)) s1).
  assert (vm_wf page_dir s2) as Hw2 by (by apply (vm_wf_eq page_dir s1)).
  assert (vmalloc_ptr s1 = vmalloc_ptr s ∧ vregions s1 = vregions s) as [Ep Er] by (rewrite Hrest; done).
  exists s2. split.
  { unfold vmalloc, mbind, M_bind, get. rewrite (proj2 (Z.eqb_neq size 0)) by lia.
    rewrite (proj2 (Z.leb_gt _ _)) by done. cbn [orb]. rewrite u32_small by lia.
    rewrite (proj2 (Z.leb_gt VMALLOC_END _)) by (unfold VMALLOC_END; lia).
    unfold PAGE_SIZE. rewrite Hdiv, Hrun. done. }
  split; [done|]. split; [lia|]. split; [cbn; by rewrite Er|].
  split; [cbn; rewrite Ep; apply u32_small; lia|]. split; [|split; [|split]].
  - intros o Ho [j Hj]. destruct (Hpg j ltac:(lia)) as (a & Haa & Hz & H1 & Hmj & Hwd).
    exists a. split; [|done]. rewrite (xlat_mapping page_dir) by apply Hw2. rewrite Hr, Hj.
    rewrite <- Z.mul_add_distr_r, Z.div_mul, Z_mod_mult by lia. cbn. rewrite Hmj. cbn.
    f_equal. rewrite page_base_flags by (done || lia). lia.
  - intros v Hv Hout. apply (xlat_other page_dir); try done. cbn. apply Hm1; [by apply vpage_range|].
    pose proof (Z.div_mod v 4096 ltac:(lia)). pose proof (Z.mod_pos_bound v 4096 ltac:(lia)). lia.
  - exact Hk.
  - intros b Hb H0 Hrb. by apply Hrc.
Qed.

Lemma vmalloc_correct_witness :
  ∃ s s' a, vmalloc 0x200000 4096 s = Ok (VMALLOC_BASE, s') ∧ xlat s' VMALLOC_BASE = Some a ∧
    mread (mem s') a = 0.
Proof.
  destruct example_mapped as (b & s & Hw & Hal & Hm & Hr & Hr0 & Hu & Hp & Hv).
  destruct (vmalloc_correct 0x200000 s 4096) as (s' & Hrun & _ & _ & _ & _ & Hpg & _).
  - exact Hw.
  - lia.
  - rewrite Hp. exists 4096. reflexivity.
  - rewrite Hp. reflexivity.
  - rewrite Hp. reflexivity.
  - rewrite Hv. reflexivity.
  - change (PAGE_ALIGN 4096 / 4096) with 1. lia.
  - destruct (Hpg 0) as (a & Hx & _ & _ & Hz); [split; vm_compute; congruence|exists 0; reflexivity|].
    rewrite Hp, Z.add_0_r in Hx. exists s, s', a. rewrite Hp in Hrun. split; [exact Hrun|].
    split; [exact Hx|]. rewrite <- (Z.add_0_r a). apply (Hz 0). lia.
Defined.

(** A request within the last page of the 32-bit range is rounded up past it
    to a region of no pages: [vmalloc] reports success and returns the address of
    the next region without mapping anything. *)
Theorem vmalloc_wraps page_dir s size :
  0xFFFFF001 ≤ size < 2 ^ 32 → Z.of_nat (length (vregions s)) < VMALLOC_MAX_REGIONS →
  0 ≤ vmalloc_ptr s < VMALLOC_END →
  ∃ s', vmalloc page_dir size s = Ok (vmalloc_ptr s, s') ∧
    mem s' = mem s ∧ pm s' = pm s ∧ vmalloc_ptr s' = vmalloc_ptr s.
Proof.
  intros Hs Hslots Hp. unfold VMALLOC_END in Hp.
  assert (PAGE_ALIGN size = 0) as E.
  { unfold PAGE_ALIGN, PAGE_SIZE. rewrite page_base_eq.
    assert (u32 (size + 4096 - 1) = size + 4095 - 2 ^ 32) as ->.
    { unfold u32. symmetry. apply (Z.mod_unique _ _ 1); lia. }
    rewrite Z.mod_small; lia. }
  eexists. split.
  - unfold vmalloc, mbind, M_bind, get. rewrite E, (proj2 (Z.eqb_neq size 0)) by lia.
    rewrite (proj2 (Z.leb_gt _ _)) by done. cbn [orb]. rewrite u32_small by lia.
    rewrite (proj2 (Z.leb_gt VMALLOC_END _)) by (unfold VMALLOC_END; lia). cbn. reflexivity.
  - cbn. split; [done|]. split; [done|]. rewrite Z.add_0_r. apply u32_small. lia.
Qed.

Lemma vmalloc_wraps_witness :
  ∃ s', vmalloc 0x200000 0xFFFFFFFF vm0 = Ok (VMALLOC_BASE, s') ∧ xlat s' VMALLOC_BASE = None.
Proof.
  destruct (vmalloc_wraps 0x200000 vm0 0xFFFFFFFF ltac:(lia) ltac:(reflexivity)
    ltac:(split; vm_compute; congruence)) as (s' & Hrun & Hm & _).
  exists s'. split; [exact Hrun|]. unfold xlat. rewrite Hm. reflexivity.
Defined.

(** ** The region heap *)
Section heap.
Variable page_dir : Z.

Lemma ident_mapped s addr :
  vm_wf page_dir s → 0 ≤ addr < 2 ^ 24 → paging_is_mapped page_dir addr s = Ok (true, s).
Proof.
  intros Hw Ha. rewrite paging_is_mapped_eq by (done || lia).
  rewrite (t_ident _ _ (w_tables _ _ Hw)); [done|].
  split; [apply Z.div_pos; lia|apply Z.div_lt_upper_bound; lia].
Qed.

Lemma heap_grow_loop_ident n s addr :
  vm_wf page_dir s → 0 ≤ addr → addr + Z.of_nat n * 4096 ≤ 2 ^ 24 →
  heap_grow_loop page_dir n addr s = Ok (true, s).
Proof.
  intros Hw. revert addr. induction n as [|n IH]; intros addr H0 H1; [done|].
  cbn [heap_grow_loop]. unfold mbind, M_bind. rewrite ident_mapped by (done || lia).
  unfold mret, M_ret. cbv beta iota. apply IH; unfold PAGE_SIZE; lia.
Qed.

End heap.

(** The region heap lies inside the identity mapping, so [heap_alloc] finds its
    pages mapped and takes no frame for them: a frame of the region that was free
    stays free for [pmm_alloc], which hands the same memory out again. *)
Theorem heap_alloc_aliases_frames page_dir s size b :
  vm_wf page_dir s → 0 < size < HEAP_VIRT_MAX →
  find_idx (λ h, negb (hb_used h) && (Z.land (u32 (size + 7)) (Z.lnot 7) <=? hb_size h)) (hblocks s) = None →
  Z.of_nat (length (hblocks s)) < HEAP_MAX_BLOCKS →
  (4096 | heap_brk_ptr s) → HEAP_VIRT_BASE ≤ heap_brk_ptr s < HEAP_VIRT_MAX →
  PAGE_ALIGN (heap_brk_ptr s + Z.land (u32 (size + 7)) (Z.lnot 7)) < HEAP_VIRT_MAX →
  heap_brk_ptr s ≤ b < heap_brk_ptr s + size → pmm_refcount b (pm s) = 0 →
  ∃ s', heap_alloc page_dir size s = Ok (heap_brk_ptr s, s') ∧
    pm s' = pm s ∧ pmm_refcount b (pm s') = 0 ∧ xlat s' b = Some b.
Proof.
  intros Hw Hs Hfind Hlen Hal Hlo Hroom Hb Hfree.
  unfold HEAP_VIRT_MAX, HEAP_VIRT_BASE in *.
  set (size' := Z.land (u32 (size + 7)) (Z.lnot 7)) in *.
  assert (size ≤ size' < size + 8) as Hs'.
  { unfold size'. rewrite (land_high 3) by lia. rewrite u32_small by lia.
    pose proof (Z.mod_pos_bound (size + 7) (2 ^ 3) ltac:(lia)). lia. }
  destruct (page_align_eq (heap_brk_ptr s + size')) as [[q Hq] Hge]; [lia..|].
  assert (PAGE_ALIGN (heap_brk_ptr s) = heap_brk_ptr s) as Hbrk.
  { destruct (page_align_eq (heap_brk_ptr s)) as [[r Hr] ?]; [lia..|]. destruct Hal as [k Hk]. lia. }
  assert (heap_grow page_dir size' s = Ok (true, set_heap (hblocks s)
    (PAGE_ALIGN (heap_brk_ptr s + size')) (heap_bytes_used s) s)) as Hgrow.
  { unfold heap_grow, mbind, M_bind, get.
    rewrite (proj2 (Z.leb_gt HEAP_VIRT_MAX _)) by done. rewrite Hbrk.
    destruct Hal as [k Hk]. unfold PAGE_SIZE. rewrite Hq, Hk, <- Z.mul_sub_distr_r, Z.div_mul by lia.
    rewrite <- Hk, heap_grow_loop_ident by (done || lia). done. }
  eexists. split.
  - unfold heap_alloc, mbind, M_bind, get. rewrite (proj2 (Z.eqb_neq size 0)) by lia. fold size'.
    rewrite Hfind, (proj2 (Z.leb_gt HEAP_MAX_BLOCKS _)), Hgrow by done. cbn [negb]. reflexivity.
  - cbn [pm set_heap]. split; [done|]. split; [done|]. apply (xlat_ident page_dir); [apply Hw|apply Hw|lia].
Qed.

Lemma heap_alloc_aliases_frames_witness :
  ∃ s', heap_alloc 0x200000 0x400000 (paging_init 0x200000 0x201000 131072 vm0) = Ok (0x200000, s') ∧
    (pmm_alloc (pm s')).1 = 0x500000 ∧ xlat s' 0x500000 = Some 0x500000.
Proof.
  pose proof (paging_init_wf 0x200000 0x201000 131072 vm0 placed_example ltac:(lia)) as Hw.
  assert (Hpm : pm (paging_init 0x200000 0x201000 131072 vm0) = pmm_init 131072) by reflexivity.
  assert (Hh : hblocks (paging_init 0x200000 0x201000 131072 vm0) = []) by reflexivity.
  assert (Hb : heap_brk_ptr (paging_init 0x200000 0x201000 131072 vm0) = 0x200000) by reflexivity.
  revert Hw Hpm Hh Hb. generalize (paging_init 0x200000 0x201000 131072 vm0) as s. intros s Hw Hpm Hh Hb.
  destruct (heap_alloc_aliases_frames 0x200000 s 0x400000 0x500000) as (s' & Hrun & Hp & _ & Hx).
  - exact Hw.
  - split; reflexivity.
  - rewrite Hh. reflexivity.
  - rewrite Hh. reflexivity.
  - rewrite Hb. exists 512. reflexivity.
  - rewrite Hb. split; [vm_compute; congruence|reflexivity].
  - rewrite Hb. reflexivity.
  - rewrite Hb. lia.
  - rewrite Hpm. vm_compute. reflexivity.
  - exists s'. rewrite Hb in Hrun. split; [exact Hrun|]. rewrite Hp, Hpm. split; [vm_compute; reflexivity|exact Hx].
Defined.
