(* ===== verification/BlockDev.v ===== *)
(** * Block devices

    The interface the file systems use of the ATA driver (src/src/ata.c): one
    sector of 512 bytes is read or written by its number on a drive, or the call
    fails. The driver itself is port input and output; what it promises to its
    clients is the class [ReliableDisk]. *)

From S2P Require Import Prelude.

Definition SECTOR : nat := 512.

(** [ata_read] and [ata_write] of one sector; [None] is a negative result. *)
Class Disk (D : Type) := {
  ata_read : D → Z → Z → option (list Z);
  ata_write : D → Z → Z → list Z → option D
}.

Definition is_sector (s : list Z) : Prop := length s = SECTOR ∧ bytes s.

(** Drive [drive] of a device has [n] sectors that can be read and written: a
    sector reads as what was last written to it. *)
Class ReliableDisk (D : Type) `{Disk D} (ok : D → Prop) (drive n : Z) := {
  rd_read d lba : ok d → 0 ≤ lba < n → ∃ s, ata_read d drive lba = Some s ∧ is_sector s;
  rd_write d lba s : ok d → 0 ≤ lba < n → is_sector s →
    ∃ d', ata_write d drive lba s = Some d' ∧ ok d' ∧
      ata_read d' drive lba = Some s ∧
      ∀ lba', 0 ≤ lba' < n → lba' ≠ lba → ata_read d' drive lba' = ata_read d drive lba'
}.

(** ** A disk in memory

    Drive 0 is a list of sectors; every other drive is absent. *)
Definition memdisk := list (list Z).

#[export] Instance memdisk_disk : Disk memdisk := {
  ata_read d drive lba :=
    if (drive =? 0) && (0 <=? lba) then d !! Z.to_nat lba else None;
  ata_write d drive lba s :=
    if (drive =? 0) && (0 <=? lba) && (lba <? Z.of_nat (length d))
    then Some (<[Z.to_nat lba := s]> d) else None
}.

Definition memdisk_ok (n : Z) (d : memdisk) : Prop :=
  Z.of_nat (length d) = n ∧ Forall is_sector d.

#[export] Instance memdisk_reliable n : ReliableDisk memdisk (memdisk_ok n) 0 n.
Proof.
  split.
  - intros d lba [Hl Hs] Hlba. cbn. rewrite (proj2 (Z.leb_le 0 lba)) by lia.
    destruct (lookup_lt_is_Some_2 d (Z.to_nat lba)) as [s Es]; [lia|].
    exists s. split; [done|]. by eapply Forall_lookup_1 in Es.
  - intros d lba s [Hl Hs] Hlba Hsec. cbn.
    rewrite (proj2 (Z.leb_le 0 lba)), (proj2 (Z.ltb_lt lba _)) by lia. cbn.
    eexists. split; [done|]. split; [|split].
    + split; [|by apply Forall_insert]. cbn. rewrite <- Hl. f_equal. apply length_insert.
    + apply list_lookup_insert_eq. lia.
    + intros lba' Hl' Hne. rewrite (proj2 (Z.leb_le 0 lba')) by lia.
      apply list_lookup_insert_ne. lia.
Qed.

(** A blank disk. *)
Lemma blank_sector : is_sector (replicate SECTOR 0).
Proof. split; [apply length_replicate|]. apply Forall_replicate. unfold is_byte. lia. Qed.

Lemma blank_disk_ok n : memdisk_ok (Z.of_nat n) (replicate n (replicate SECTOR 0)).
Proof. split; [by rewrite length_replicate|]. apply Forall_replicate, blank_sector. Qed.
