(* ===== verification/Fat12.v ===== *)
(** * The FAT12 file system (src/src/fat12.c)

    The volume is mounted from a drive of a block device; the file allocation
    table is cached in [g_fat], a buffer of nine sectors, and written back by
    [fat_flush]. The sector buffer [g_sector] is filled before every use and is
    a local value here. The boot sector is read into [g_bpb], whose 62 bytes are
    its first 62; the read fills a whole sector, and the 450 bytes that land
    behind the structure are not modelled. *)

From S2P Require Import Prelude KString BlockDev.

Definition ATTR_HIDDEN : Z := 0x02.
Definition ATTR_SYSTEM : Z := 0x04.
Definition ATTR_VOLUME : Z := 0x08.
Definition ATTR_DIR : Z := 0x10.
Definition ATTR_ARCHIVE : Z := 0x20.
Definition DIRENT_FREE : Z := 0xE5.
Definition DIRENT_END : Z := 0x00.
Definition FAT_BUF_SIZE : Z := 9 * 512.

(** Little-endian fields at an offset. *)
Definition byte_at (l : list Z) (i : nat) : Z := l !!! i.
Definition le16 (l : list Z) (i : nat) : Z := byte_at l i + 256 * byte_at l (i + 1).
Definition le32 (l : list Z) (i : nat) : Z := le16 l i + 65536 * le16 l (i + 2).
Definition put_bytes (l : list Z) (i : nat) (b : list Z) : list Z :=
  take i l ++ b ++ drop (i + length b) l.
Definition enc16 (v : Z) : list Z := [v mod 256; v / 256 mod 256].
Definition enc32 (v : Z) : list Z := [v mod 256; v / 256 mod 256; v / 65536 mod 256; v / 16777216 mod 256].

Record bpb_t := mkBpb {
  bytes_per_sector : Z;
  sectors_per_cluster : Z;
  reserved_sectors : Z;
  fat_count : Z;
  root_entry_count : Z;
  total_sectors_16 : Z;
  sectors_per_fat : Z;
  total_sectors_32 : Z;
  volume_label : list Z;
  fs_type : list Z
}.

Definition bpb_of (s : list Z) : bpb_t :=
  mkBpb (le16 s 11) (byte_at s 13) (le16 s 14) (byte_at s 16) (le16 s 17) (le16 s 19)
        (le16 s 22) (le32 s 32) (take 11 (drop 43 s)) (take 8 (drop 54 s)).

(** Directory entries: 32 bytes of a sector. *)
Definition dirent_at (sec : list Z) (i : nat) : list Z := take 32 (drop (32 * i) sec).
Definition de_name (e : list Z) : list Z := take 11 e.
Definition de_attr (e : list Z) : Z := byte_at e 11.
Definition de_cluster (e : list Z) : Z := le16 e 26.
Definition de_size (e : list Z) : Z := le32 e 28.

Record fat12_entry_t := mkEntry {
  fe_name : list Z; fe_size : Z; fe_cluster : Z; fe_attr : Z; fe_is_dir : bool
}.

Section fat12.
Context {D : Type} `{Disk D}.

Record fat12 := mkFat {
  disk : D;
  g_drive : Z;
  g_mounted : bool;
  g_bpb : bpb_t;
  g_fat_start : Z;
  g_root_start : Z;
  g_data_start : Z;
  g_root_sectors : Z;
  g_total_clusters : Z;
  g_fat : list Z;
  g_fat_dirty : bool
}.

Definition set_disk (d : D) (v : fat12) : fat12 :=
  mkFat d (g_drive v) (g_mounted v) (g_bpb v) (g_fat_start v) (g_root_start v) (g_data_start v)
        (g_root_sectors v) (g_total_clusters v) (g_fat v) (g_fat_dirty v).
Definition set_fat (f : list Z) (dirty : bool) (v : fat12) : fat12 :=
  mkFat (disk v) (g_drive v) (g_mounted v) (g_bpb v) (g_fat_start v) (g_root_start v)
        (g_data_start v) (g_root_sectors v) (g_total_clusters v) f dirty.

(** A sector of the mounted drive; [None] when the driver reports an error. *)
Definition rd (lba : Z) : M fat12 (option (list Z)) :=
  gets (λ v, ata_read (disk v) (g_drive v) (u32 lba)).
Definition wr (lba : Z) (s : list Z) : M fat12 bool := λ v,
  match ata_write (disk v) (g_drive v) (u32 lba) s with
  | Some d => Ok (true, set_disk d v)
  | None => Ok (false, v)
  end.

Definition cluster_to_lba (v : fat12) (cluster : Z) : Z :=
  u32 (g_data_start v + (cluster - 2) * sectors_per_cluster (g_bpb v)).

(** ** The allocation table *)

Definition fat_idx (n : Z) : Z := n + n / 2.

Definition fat_get_in (f : list Z) (n : Z) : res Z :=
  b0 ← arr_get f (fat_idx n);
  b1 ← arr_get f (fat_idx n + 1);
  let val := Z.lor b0 (Z.shiftl b1 8) in
  Ok (if Z.land n 1 =? 0 then Z.land val 0x0FFF else Z.shiftr val 4).

Definition fat_set_in (f : list Z) (n val : Z) : res (list Z) :=
  let idx := fat_idx n in
  b0 ← arr_get f idx;
  b1 ← arr_get f (idx + 1);
  if Z.land n 1 =? 0 then
    f' ← arr_set f idx (Z.land val 0xFF);
    arr_set f' (idx + 1) (Z.lor (Z.land b1 0xF0) (Z.land (Z.shiftr val 8) 0x0F))
  else
    f' ← arr_set f idx (Z.lor (Z.land b0 0x0F) (Z.shiftl (Z.land val 0x0F) 4));
    arr_set f' (idx + 1) (Z.land (Z.shiftr val 4) 0xFF).

Definition fat_get (n : Z) : M fat12 Z := v ← get; lift (fat_get_in (g_fat v) n).
Definition fat_set (n val : Z) : M fat12 unit :=
  v ← get; f ← lift (fat_set_in (g_fat v) n val); put (set_fat f true v).

(** The first free cluster from [i] on among [n] of them; 0 when there is none. *)
Fixpoint fat_scan (f : list Z) (n : nat) (i : Z) : res Z :=
  match n with
  | O => Ok 0
  | S n' => e ← fat_get_in f i; if e =? 0 then Ok i else fat_scan f n' (i + 1)
  end.

Definition fat_alloc : M fat12 Z :=
  v ← get;
  i ← lift (fat_scan (g_fat v) (Z.to_nat (u32 (g_total_clusters v + 2) - 2)) 2);
  if i =? 0 then mret 0 else fat_set i 0xFFF ;; mret i.

(** [g_fat + s*512] as one sector of data. *)
Definition fat_sector (f : list Z) (s : nat) : res (list Z) :=
  let sec := take SECTOR (drop (s * SECTOR) f) in
  if Nat.eqb (length sec) SECTOR then Ok sec else Fault.

Fixpoint flush_sectors (n s : nat) (lba : Z) : M fat12 bool :=
  match n with
  | O => mret true
  | S n' =>
      v ← get;
      sec ← lift (fat_sector (g_fat v) s);
      ok ← wr (lba + Z.of_nat s) sec;
      if (ok : bool) then flush_sectors n' (S s) lba else mret false
  end.

Fixpoint flush_copies (n : nat) (copy : Z) : M fat12 bool :=
  match n with
  | O => mret true
  | S n' =>
      v ← get;
      let sects := sectors_per_fat (g_bpb v) in
      ok ← flush_sectors (Z.to_nat sects) 0 (g_fat_start v + copy * sects);
      if (ok : bool) then flush_copies n' (copy + 1) else mret false
  end.

Definition fat_flush : M fat12 bool :=
  v ← get;
  if negb (g_fat_dirty v) then mret true
  else
    ok ← flush_copies (Z.to_nat (fat_count (g_bpb v))) 0;
    if (ok : bool) then modify (λ v, set_fat (g_fat v) false v) ;; mret true else mret false.

(** ** Names *)

Definition upcase (c : Z) : Z := if (97 <=? c) && (c <=? 122) then c - 32 else c.

(** The base name, up to the dot or eight characters; the rest of the name is
    returned too. *)
Fixpoint to83_base (name : list Z) (j : Z) (out : list Z) : res (list Z * list Z) :=
  match name with
  | [] => Fault
  | c :: name' =>
      if (c =? 0) || (c =? 46) || (8 <=? j) then Ok (name, out)
      else o ← arr_set out j (upcase c); to83_base name' (j + 1) o
  end.

Fixpoint to83_ext (name : list Z) (j : Z) (out : list Z) : res (list Z) :=
  match name with
  | [] => Fault
  | c :: name' =>
      if (c =? 0) || (11 <=? j) then Ok out
      else o ← arr_set out j (upcase c); to83_ext name' (j + 1) o
  end.

Definition name_to_83 (name : list Z) : res (list Z) :=
  r ← to83_base name 0 (replicate 11 32);
  match r with
  | ([], _) => Fault
  | (c :: rest, out) => if c =? 46 then to83_ext rest 8 out else Ok out
  end.

(** Characters up to the first blank. *)
Fixpoint until_blank (l : list Z) : list Z :=
  match l with
  | [] => []
  | c :: l' => if c =? 32 then [] else c :: until_blank l'
  end.

Definition name_from_83 (raw : list Z) : list Z :=
  until_blank (take 8 raw) ++
  (if byte_at raw 8 =? 32 then [] else 46 :: until_blank (take 3 (drop 8 raw))) ++ [0].

(** ** Mounting *)

(** The loop over [sectors_per_fat] sectors, each copied to [g_fat + s*512]. *)
Fixpoint load_fat (n s : nat) : M fat12 bool :=
  match n with
  | O => mret true
  | S n' =>
      v ← get;
      r ← rd (g_fat_start v + Z.of_nat s);
      match r with
      | None => mret false
      | Some sec =>
          if Nat.leb (s * SECTOR + SECTOR) (length (g_fat v)) then
            modify (λ v, set_fat (put_bytes (g_fat v) (s * SECTOR) sec) (g_fat_dirty v) v) ;;
            load_fat n' (S s)
          else lift Fault
      end
  end.

Definition fat12_mount (drive : Z) : M fat12 Z :=
  modify (λ v, mkFat (disk v) drive false (g_bpb v) (g_fat_start v) (g_root_start v)
                 (g_data_start v) (g_root_sectors v) (g_total_clusters v) (g_fat v) (g_fat_dirty v)) ;;
  r ← rd 0;
  match r with
  | None => mret (-1)
  | Some sec =>
      let b := bpb_of sec in
      modify (λ v, mkFat (disk v) (g_drive v) (g_mounted v) b (g_fat_start v) (g_root_start v)
                 (g_data_start v) (g_root_sectors v) (g_total_clusters v) (g_fat v) (g_fat_dirty v)) ;;
      c1 ← lift (kstrncmp (fs_type b) (lit "FAT12") 5);
      c2 ← lift (kstrncmp (fs_type b) (lit "FAT   ") 5);
      if (negb (c1 =? 0) && negb (c2 =? 0)) &&
         (negb (bytes_per_sector b =? 512) || (fat_count b <? 1) || (2 <? fat_count b)
          || (root_entry_count b =? 0)) then mret (-1)
      else
        let fat_start := reserved_sectors b in
        let root_start := u32 (fat_start + fat_count b * sectors_per_fat b) in
        let root_sectors := (root_entry_count b * 32 + 511) / 512 in
        let data_start := u32 (root_start + root_sectors) in
        let total := if total_sectors_16 b =? 0 then total_sectors_32 b else total_sectors_16 b in
        if sectors_per_cluster b =? 0 then lift Fault
        else
          let clusters := u32 (total - data_start) / sectors_per_cluster b in
          modify (λ v, mkFat (disk v) (g_drive v) (g_mounted v) (g_bpb v) fat_start root_start
                     data_start root_sectors clusters (g_fat v) (g_fat_dirty v)) ;;
          ok ← load_fat (Z.to_nat (sectors_per_fat b)) 0;
          if negb ok then mret (-1)
          else
            modify (λ v, mkFat (disk v) (g_drive v) true (g_bpb v) (g_fat_start v) (g_root_start v)
                       (g_data_start v) (g_root_sectors v) (g_total_clusters v) (g_fat v) false) ;;
            mret 0
  end.

(** ** The root directory *)

(** The entries of one sector from index [i] on. [None]: go on with the next
    sector. *)
Definition entry_visible (e : list Z) : bool :=
  (Z.land (de_attr e) (Z.lor ATTR_VOLUME ATTR_SYSTEM) =? 0) &&
  (Z.land (de_attr e) ATTR_HIDDEN =? 0).

Definition entry_of (e : list Z) : fat12_entry_t :=
  mkEntry (name_from_83 (de_name e)) (de_size e) (de_cluster e) (de_attr e)
          (negb (Z.land (de_attr e) ATTR_DIR =? 0)).

(** Entries of a sector appended to [acc], at most [max] in all; the flag tells
    whether the end mark was met. *)
Fixpoint list_sector (n i : nat) (sec : list Z) (max : Z) (acc : list fat12_entry_t)
    : list fat12_entry_t * bool :=
  match n with
  | O => (acc, false)
  | S n' =>
      if max <=? Z.of_nat (length acc) then (acc, false)
      else
        let e := dirent_at sec i in
        let first := byte_at e 0 in
        if first =? DIRENT_END then (acc, true)
        else if (first =? DIRENT_FREE) || negb (entry_visible e) then list_sector n' (S i) sec max acc
        else list_sector n' (S i) sec max (acc ++ [entry_of e])
  end.

Fixpoint list_root (n : nat) (s max : Z) (acc : list fat12_entry_t) : M fat12 (list fat12_entry_t) :=
  match n with
  | O => mret acc
  | S n' =>
      if max <=? Z.of_nat (length acc) then mret acc
      else
        v ← get;
        r ← rd (g_root_start v + s);
        match r with
        | None => mret acc
        | Some sec =>
            match list_sector 16 0 sec max acc with
            | (acc', true) => mret acc'
            | (acc', false) => list_root n' (s + 1) max acc'
            end
        end
  end.

(** The entries written to the caller's array, and their number; [None] is -1. *)
Definition fat12_list (max : Z) : M fat12 (option (list fat12_entry_t)) :=
  v ← get;
  if negb (g_mounted v) then mret None
  else l ← list_root (Z.to_nat (g_root_sectors v)) 0 max []; mret (Some l).

(** Where an entry was found. *)
Record dirfind_t := mkFind { df_sector : Z; df_index : nat; df_de : list Z }.

(** The result of scanning one sector: the end mark was met, an entry matched, or
    the scan goes on. *)
Inductive scan := ScanEnd | ScanHit (i : nat) | ScanNext.

Fixpoint find_in_sector (n i : nat) (sec want : list Z) : res scan :=
  match n with
  | O => Ok ScanNext
  | S n' =>
      let e := dirent_at sec i in
      let first := byte_at e 0 in
      if first =? DIRENT_END then Ok ScanEnd
      else if first =? DIRENT_FREE then find_in_sector n' (S i) sec want
      else
        c ← kstrncmp e want 11;
        if c =? 0 then Ok (ScanHit i) else find_in_sector n' (S i) sec want
  end.

Fixpoint find_in_root (n : nat) (s : Z) (want : list Z) : M fat12 (option dirfind_t) :=
  match n with
  | O => mret None
  | S n' =>
      v ← get;
      r ← rd (g_root_start v + s);
      match r with
      | None => mret None
      | Some sec =>
          h ← lift (find_in_sector 16 0 sec want);
          match h with
          | ScanEnd => mret None
          | ScanHit i => mret (Some (mkFind (u32 (g_root_start v + s)) i (dirent_at sec i)))
          | ScanNext => find_in_root n' (s + 1) want
          end
      end
  end.

Definition fat12_find (name : list Z) : M fat12 (option dirfind_t) :=
  want ← lift (name_to_83 name);
  v ← get;
  find_in_root (Z.to_nat (g_root_sectors v)) 0 want.

(** ** Reading *)

Definition in_chain (cluster : Z) : bool := (0x002 <=? cluster) && (cluster <=? 0xFEF).

(** Sectors [s..] of a cluster while bytes remain: the bytes read, what remains,
    and whether a read failed. *)
Fixpoint read_cluster (n : nat) (lba remaining : Z) (acc : list Z) : M fat12 (list Z * Z * bool) :=
  match n with
  | O => mret (acc, remaining, true)
  | S n' =>
      if remaining <=? 0 then mret (acc, remaining, true)
      else
        r ← rd lba;
        match r with
        | None => mret (acc, remaining, false)
        | Some sec =>
            let tk := if 512 <? remaining then 512 else remaining in
            read_cluster n' (lba + 1) (remaining - tk) (acc ++ take (Z.to_nat tk) sec)
        end
  end.

Fixpoint read_chain (fuel : nat) (cluster remaining : Z) (acc : list Z) : M fat12 (list Z) :=
  if in_chain cluster && (0 <? remaining) then
    match fuel with
    | O => lift Timeout
    | S fuel' =>
        v ← get;
        r ← read_cluster (Z.to_nat (sectors_per_cluster (g_bpb v))) (cluster_to_lba v cluster) remaining acc;
        match r with
        | (acc', rem', true) => next ← fat_get cluster; read_chain fuel' next rem' acc'
        | (acc', _, false) => mret acc'
        end
    end
  else mret acc.

(** The bytes stored in the buffer of [bufsz] bytes, [None] for -1. A chain that
    does not end has been walked for longer than there are clusters. *)
Definition fat12_read (name : list Z) (bufsz : Z) : M fat12 (option (list Z)) :=
  v ← get;
  if negb (g_mounted v) then mret None
  else
    f ← fat12_find name;
    match f with
    | None => mret None
    | Some d =>
        let size := de_size (df_de d) in
        let remaining := if bufsz <? size then bufsz else size in
        l ← read_chain (Z.to_nat remaining + 4096) (de_cluster (df_de d)) remaining [];
        mret (Some l)
    end.

(** ** Deleting *)

Fixpoint free_chain (fuel : nat) (cluster : Z) : M fat12 unit :=
  if in_chain cluster then
    match fuel with
    | O => lift Timeout
    | S fuel' => next ← fat_get cluster; fat_set cluster 0 ;; free_chain fuel' next
    end
  else mret tt.

Definition fat12_delete (name : list Z) : M fat12 Z :=
  v ← get;
  if negb (g_mounted v) then mret (-1)
  else
    f ← fat12_find name;
    match f with
    | None => mret (-1)
    | Some d =>
        free_chain 4096 (de_cluster (df_de d)) ;;
        fat_flush ;;
        r ← rd (df_sector d);
        match r with
        | None => mret (-1)
        | Some sec =>
            ok ← wr (df_sector d) (<[(32 * df_index d)%nat := DIRENT_FREE]> sec);
            mret (if (ok : bool) then 0 else -1)
        end
    end.

(** ** Writing *)

(** [g_sector] with the next bytes of the source: [None] when fewer than [take]
    bytes are left in the caller's buffer. *)
Definition sector_of (src : list Z) (tk : nat) : res (list Z) :=
  if Nat.leb tk (length src) then Ok (take tk src ++ replicate (SECTOR - tk) 0) else Fault.

Fixpoint write_cluster (n : nat) (lba : Z) (src : list Z) (remaining : Z)
    : M fat12 (list Z * Z * bool) :=
  match n with
  | O => mret (src, remaining, true)
  | S n' =>
      if remaining <=? 0 then mret (src, remaining, true)
      else
        let tk := if 512 <? remaining then 512 else remaining in
        sec ← lift (sector_of src (Z.to_nat tk));
        ok ← wr lba sec;
        if (ok : bool) then write_cluster n' (lba + 1) (drop (Z.to_nat tk) src) (remaining - tk)
        else mret (src, remaining, false)
  end.

(** The clusters of the file: [first] and [prev] are 0 before the first one. The
    result is the first and the last cluster, [None] when the disk is full or a
    write failed. *)
Fixpoint write_chain (fuel : nat) (first prev : Z) (src : list Z) (remaining : Z)
    : M fat12 (option (Z * Z)) :=
  if 0 <? remaining then
    match fuel with
    | O => lift Timeout
    | S fuel' =>
        c ← fat_alloc;
        if c =? 0 then mret None
        else
          (if prev =? 0 then mret tt else fat_set prev c) ;;
          v ← get;
          r ← write_cluster (Z.to_nat (sectors_per_cluster (g_bpb v))) (cluster_to_lba v c) src remaining;
          match r with
          | (src', rem', true) =>
              write_chain fuel' (if first =? 0 then c else first) c src' rem'
          | (_, _, false) => mret None
          end
    end
  else mret (Some (first, prev)).

(** The new entry in a sector image. *)
Definition new_dirent (fn83 : list Z) (cluster size : Z) : list Z :=
  fn83 ++ [ATTR_ARCHIVE] ++ replicate 10 0 ++ enc16 0 ++ enc16 0x4A21 ++ enc16 cluster ++ enc32 size.

(** The first free or end slot of a sector. *)
Fixpoint free_slot (n i : nat) (sec : list Z) : option nat :=
  match n with
  | O => None
  | S n' =>
      let first := byte_at (dirent_at sec i) 0 in
      if (first =? DIRENT_FREE) || (first =? DIRENT_END) then Some i else free_slot n' (S i) sec
  end.

Definition add_dirent (sec : list Z) (i : nat) (e : list Z) : list Z :=
  let first := byte_at (dirent_at sec i) 0 in
  let sec1 := put_bytes sec (32 * i) e in
  if (first =? DIRENT_END) && Nat.ltb (i + 1) 16 then <[(32 * (i + 1))%nat := DIRENT_END]> sec1 else sec1.

Fixpoint add_to_root (n : nat) (s : Z) (e : list Z) : M fat12 Z :=
  match n with
  | O => mret (-1)
  | S n' =>
      v ← get;
      r ← rd (g_root_start v + s);
      match r with
      | None => mret (-1)
      | Some sec =>
          match free_slot 16 0 sec with
          | Some i =>
              ok ← wr (g_root_start v + s) (add_dirent sec i e);
              mret (if (ok : bool) then 0 else -1)
          | None => add_to_root n' (s + 1) e
          end
      end
  end.

Definition fat12_write (name buf : list Z) (size : Z) : M fat12 Z :=
  v ← get;
  if negb (g_mounted v) then mret (-1)
  else
    fat12_delete name ;;
    r ← (if size =? 0 then mret (Some 0)
         else
           w ← write_chain (Z.to_nat size + 4096) 0 0 buf size;
           match w with
           | None => mret None
           | Some (first, prev) => fat_set prev 0xFFF ;; mret (Some first)
           end);
    match r with
    | None => mret (-1)
    | Some first =>
        ok ← fat_flush;
        if negb ok then mret (-1)
        else
          fn83 ← lift (name_to_83 name);
          v ← get;
          add_to_root (Z.to_nat (g_root_sectors v)) 0 (new_dirent fn83 first size)
    end.

(** ** Formatting *)

Definition boot_sector (label : option (list Z)) : list Z :=
  let lab := match label with
             | None => replicate 11 32
             | Some l => let t := upcase <$> take 11 l in t ++ replicate (11 - length t) 32
             end in
  [0xEB; 0x3C; 0x90] ++ str "KUMOS1.0" ++ enc16 512 ++ [1] ++ enc16 1 ++ [2] ++ enc16 224 ++
  enc16 2880 ++ [0xF0] ++ enc16 9 ++ enc16 18 ++ enc16 2 ++ enc32 0 ++ enc32 0 ++ [0; 0; 0x29] ++
  enc32 0x4B554D4F ++ lab ++ str "FAT12   " ++ replicate 448 0 ++ [0x55; 0xAA].

Fixpoint write_sectors (drive lba : Z) (l : list (list Z)) : M fat12 bool :=
  match l with
  | [] => mret true
  | s :: l' => λ v,
      match ata_write (disk v) drive lba s with
      | Some d => write_sectors drive (lba + 1) l' (set_disk d v)
      | None => Ok (false, v)
      end
  end.

Definition fat_image : list (list Z) :=
  ([0xF0; 0xFF; 0xFF] ++ replicate 509 0) :: replicate 8 (replicate 512 0).

(** The label is the C string up to its NUL. *)
Definition fat12_format (drive : Z) (label : option (list Z)) : M fat12 Z :=
  ok ← write_sectors drive 0 (boot_sector label :: fat_image ++ fat_image ++ replicate 14 (replicate 512 0));
  if (ok : bool) then fat12_mount drive else mret (-1).

End fat12.
Arguments fat12 D : clear implicits.
