(* ===== verification/FatCodec.v ===== *)
(** * The twelve-bit codec of the allocation table

    Two entries share three bytes: entry [2k] is the first byte and the low half
    of the second, entry [2k+1] the high half of the second and the third. *)

From S2P Require Import Prelude BlockDev Fat12.

Lemma land_byte_cases (P : Z → Prop) (b : Z) :
  is_byte b → (∀ x, x ∈ seqZ 0 256 → P x) → P b.
Proof. intros Hb H. apply H. apply elem_of_seqZ. unfold is_byte in Hb. lia. Qed.

Lemma land_F0 b : is_byte b → Z.land b 0xF0 = 16 * (b / 16).
Proof.
  intros Hb. apply (land_byte_cases (λ b, Z.land b 0xF0 = 16 * (b / 16)) b Hb).
  apply Forall_forall. apply (bool_decide_unpack _). vm_compute. exact I.
Qed.

Lemma word_of_bytes b0 b1 : is_byte b0 → is_byte b1 → Z.lor b0 (Z.shiftl b1 8) = b0 + 256 * b1.
Proof.
  intros H0 H1. unfold is_byte in *. rewrite Z.lor_comm, Z.shiftl_mul_pow2 by lia.
  rewrite (lor_aligned 8); [lia|lia|by exists b1|lia].
Qed.

(** The value of entry [n] in terms of the bytes it occupies. *)
Definition fat_val (n b0 b1 : Z) : Z :=
  if Z.even n then b0 + 256 * (b1 mod 16) else b0 / 16 + 16 * b1.

Lemma land1_even n : (Z.land n 1 =? 0) = Z.even n.
Proof. rewrite (land_low 1) by lia. rewrite Zmod_even. by destruct (Z.even n). Qed.

Lemma fat_get_in_val f n b0 b1 :
  is_byte b0 → is_byte b1 →
  arr_get f (fat_idx n) = Ok b0 → arr_get f (fat_idx n + 1) = Ok b1 →
  fat_get_in f n = Ok (fat_val n b0 b1).
Proof.
  intros H0 H1 E0 E1. unfold fat_get_in. rewrite E0, E1. cbn. rewrite land1_even, word_of_bytes by done.
  unfold fat_val, is_byte in *. f_equal. destruct (Z.even n).
  - change 0xFFF with (2 ^ 12 - 1). rewrite land_low by lia.
    rewrite (Z.div_mod b1 16) at 1 by lia. pose proof (Z.mod_pos_bound b1 16 ltac:(lia)).
    symmetry. apply (Z.mod_unique _ _ (b1 / 16)); lia.
  - rewrite Z.shiftr_div_pow2 by lia. change (2 ^ 4) with 16.
    replace (b0 + 256 * b1) with (b0 + (16 * b1) * 16) by lia. rewrite Z.div_add by lia. lia.
Qed.

Lemma fat_val_range n b0 b1 : is_byte b0 → is_byte b1 → 0 ≤ fat_val n b0 b1 < 4096.
Proof.
  unfold is_byte, fat_val. intros H0 H1. destruct (Z.even n).
  - pose proof (Z.mod_pos_bound b1 16 ltac:(lia)). lia.
  - pose proof (Z.div_mod b0 16 ltac:(lia)). pose proof (Z.mod_pos_bound b0 16 ltac:(lia)). lia.
Qed.

Lemma arr_get_byte f i : bytes f → 0 ≤ i < Z.of_nat (length f) → ∃ b, arr_get f i = Ok b ∧ is_byte b.
Proof.
  intros Hf Hi. destruct (arr_get_in f i Hi) as (b & Hb & Hl). exists b. split; [done|].
  by eapply Forall_lookup_1 in Hl.
Qed.

(** Entries inside the table. *)
Definition fat_ok (f : list Z) (n : Z) : Prop := 0 ≤ n ∧ fat_idx n + 1 < Z.of_nat (length f).

Lemma fat_idx_nonneg n : 0 ≤ n → 0 ≤ fat_idx n.
Proof. intros. unfold fat_idx. pose proof (Z.div_pos n 2). lia. Qed.

Lemma fat_get_in_range f n : bytes f → fat_ok f n → ∃ e, fat_get_in f n = Ok e ∧ 0 ≤ e < 4096.
Proof.
  intros Hf [H0 Hn]. pose proof (fat_idx_nonneg n H0).
  destruct (arr_get_byte f (fat_idx n)) as (b0 & E0 & Hb0); [done|lia|].
  destruct (arr_get_byte f (fat_idx n + 1)) as (b1 & E1 & Hb1); [done|lia|].
  exists (fat_val n b0 b1). split; [by apply fat_get_in_val|]. by apply fat_val_range.
Qed.

(** The bytes [fat_set] stores. *)
Definition set_b0 (n b0 v : Z) : Z := if Z.even n then v mod 256 else b0 mod 16 + 16 * (v mod 16).
Definition set_b1 (n b1 v : Z) : Z := if Z.even n then 16 * (b1 / 16) + v / 256 else v / 16.

Lemma set_bytes n b0 b1 v :
  is_byte b0 → is_byte b1 → 0 ≤ v < 4096 →
  is_byte (set_b0 n b0 v) ∧ is_byte (set_b1 n b1 v) ∧ fat_val n (set_b0 n b0 v) (set_b1 n b1 v) = v.
Proof.
  unfold is_byte, set_b0, set_b1, fat_val. intros H0 H1 Hv. destruct (Z.even n).
  - pose proof (Z.div_mod v 256 ltac:(lia)). pose proof (Z.mod_pos_bound v 256 ltac:(lia)).
    pose proof (Z.div_mod b1 16 ltac:(lia)). pose proof (Z.mod_pos_bound b1 16 ltac:(lia)).
    assert ((16 * (b1 / 16) + v / 256) mod 16 = v / 256) as ->; [|lia].
    symmetry. apply (Z.mod_unique _ _ (b1 / 16)); lia.
  - pose proof (Z.div_mod v 16 ltac:(lia)). pose proof (Z.mod_pos_bound v 16 ltac:(lia)).
    pose proof (Z.mod_pos_bound b0 16 ltac:(lia)).
    assert ((b0 mod 16 + 16 * (v mod 16)) / 16 = v mod 16) as ->; [|lia].
    symmetry. apply (Z.div_unique _ _ _ (b0 mod 16)); lia.
Qed.

Lemma fat_set_in_val f n b0 b1 v :
  fat_ok f n → is_byte b0 → is_byte b1 → 0 ≤ v < 4096 →
  arr_get f (fat_idx n) = Ok b0 → arr_get f (fat_idx n + 1) = Ok b1 →
  fat_set_in f n v =
    Ok (<[Z.to_nat (fat_idx n + 1) := set_b1 n b1 v]> (<[Z.to_nat (fat_idx n) := set_b0 n b0 v]> f)).
Proof.
  intros [Hn0 Hn] H0 H1 Hv E0 E1. pose proof (fat_idx_nonneg n Hn0).
  unfold fat_set_in. rewrite E0, E1. cbn. rewrite land1_even.
  unfold set_b0, set_b1, is_byte in *. destruct (Z.even n).
  - rewrite arr_set_in by lia. cbn. rewrite arr_set_in by (rewrite length_insert; lia).
    change 255 with (2 ^ 8 - 1). rewrite land_low by lia. change (2 ^ 8) with 256.
    do 3 f_equal. rewrite land_F0 by done. change 15 with (2 ^ 4 - 1). rewrite land_low by lia.
    rewrite Z.shiftr_div_pow2 by lia. change (2 ^ 8) with 256. change (2 ^ 4) with 16.
    assert (0 ≤ v / 256 < 16) by (split; [apply Z.div_pos|apply Z.div_lt_upper_bound]; lia).
    rewrite (Z.mod_small (v / 256)) by lia. apply (lor_aligned 4); [lia|by exists (b1 / 16); lia|lia].
  - rewrite arr_set_in by lia. cbn. rewrite arr_set_in by (rewrite length_insert; lia).
    change 15 with (2 ^ 4 - 1). rewrite !land_low by lia. change (2 ^ 4) with 16.
    rewrite Z.shiftl_mul_pow2, Z.shiftr_div_pow2 by lia. change (2 ^ 4) with 16.
    change 255 with (2 ^ 8 - 1). rewrite land_low by lia. change (2 ^ 8) with 256.
    assert (0 ≤ v / 16 < 256) by (split; [apply Z.div_pos|apply Z.div_lt_upper_bound]; lia).
    rewrite (Z.mod_small (v / 16)) by lia. do 3 f_equal.
    rewrite Z.lor_comm, (lor_aligned 4); [lia|lia|by exists (v mod 16)|].
    pose proof (Z.mod_pos_bound b0 16 ltac:(lia)). lia.
Qed.

Lemma even_odd_idx n : 0 ≤ n →
  (Z.even n = true ∧ ∃ k, 0 ≤ k ∧ n = 2 * k ∧ fat_idx n = 3 * k) ∨
  (Z.even n = false ∧ ∃ k, 0 ≤ k ∧ n = 2 * k + 1 ∧ fat_idx n = 3 * k + 1).
Proof.
  intros Hn. unfold fat_idx. destruct (Z.even n) eqn:E.
  - left. split; [done|]. apply Z.even_spec in E as [k ->]. exists k.
    rewrite (Z.mul_comm 2 k), Z.div_mul by lia. lia.
  - right. split; [done|]. rewrite <- Z.negb_odd, negb_false_iff in E. apply Z.odd_spec in E as [k ->].
    exists k. replace (2 * k + 1) with (1 + k * 2) by lia. rewrite Z.div_add by lia. change (1 / 2) with 0. lia.
Qed.

(** Setting an entry: it reads back, and every other entry keeps its value. *)
Lemma two_bytes_get (f : list Z) k x y i : 0 ≤ k → k + 1 < Z.of_nat (length f) → 0 ≤ i < Z.of_nat (length f) →
  arr_get (<[Z.to_nat (k + 1) := y]> (<[Z.to_nat k := x]> f)) i =
    if decide (i = k + 1) then Ok y else if decide (i = k) then Ok x else arr_get f i.
Proof.
  intros Hk Hk1 Hi. unfold arr_get. rewrite (proj2 (Z.leb_le 0 i)) by lia.
  destruct (decide (i = k + 1)) as [->|N1]; [by rewrite list_lookup_insert_eq by (rewrite length_insert; lia)|].
  rewrite list_lookup_insert_ne by lia. destruct (decide (i = k)) as [->|N0]; [by rewrite list_lookup_insert_eq by lia|].
  by rewrite list_lookup_insert_ne by lia.
Qed.

Lemma fat_set_in_spec f n v :
  bytes f → fat_ok f n → 0 ≤ v < 4096 →
  ∃ f', fat_set_in f n v = Ok f' ∧ bytes f' ∧ length f' = length f ∧
    fat_get_in f' n = Ok v ∧
    ∀ m, fat_ok f m → m ≠ n → fat_get_in f' m = fat_get_in f m.
Proof.
  intros Hf Hok Hv. pose proof Hok as [Hn0 Hn]. pose proof (fat_idx_nonneg n Hn0).
  destruct (arr_get_byte f (fat_idx n)) as (b0 & E0 & Hb0); [done|lia|].
  destruct (arr_get_byte f (fat_idx n + 1)) as (b1 & E1 & Hb1); [done|lia|].
  rewrite (fat_set_in_val f n b0 b1 v) by done.
  destruct (set_bytes n b0 b1 v Hb0 Hb1 Hv) as (Hs0 & Hs1 & Hval).
  set (f' := <[Z.to_nat (fat_idx n + 1) := _]> _).
  assert (∀ i, 0 ≤ i < Z.of_nat (length f) → arr_get f' i =
    if decide (i = fat_idx n + 1) then Ok (set_b1 n b1 v)
    else if decide (i = fat_idx n) then Ok (set_b0 n b0 v) else arr_get f i) as Hget by (intros i Hi; apply two_bytes_get; lia).
  exists f'. split; [done|]. split; [by do 2 (apply Forall_insert; [|done])|].
  split; [unfold f'; by rewrite !length_insert|]. split.
  - rewrite (fat_get_in_val f' n (set_b0 n b0 v) (set_b1 n b1 v)); [by rewrite Hval|done|done| |].
    + rewrite Hget by lia. rewrite decide_False, decide_True by lia. done.
    + rewrite Hget by lia. by rewrite decide_True.
  - intros m [Hm0 Hm] Hne. pose proof (fat_idx_nonneg m Hm0).
    destruct (arr_get_byte f (fat_idx m)) as (c0 & F0 & Hc0); [done|lia|].
    destruct (arr_get_byte f (fat_idx m + 1)) as (c1 & F1 & Hc1); [done|lia|].
    rewrite (fat_get_in_val f m c0 c1) by done.
    pose proof (Hget (fat_idx m) ltac:(lia)) as G0. pose proof (Hget (fat_idx m + 1) ltac:(lia)) as G1.
    destruct (even_odd_idx n Hn0) as [(En & k & Hk & Hnk & Hin)|(En & k & Hk & Hnk & Hin)],
      (even_odd_idx m Hm0) as [(Em & j & Hj & Hmj & Him)|(Em & j & Hj & Hmj & Him)].
    + rewrite !decide_False in G0 by lia. rewrite !decide_False in G1 by lia. rewrite F0 in G0. rewrite F1 in G1.
      by apply fat_get_in_val.
    + destruct (decide (j = k)) as [->|].
      * rewrite decide_True in G0 by lia. rewrite !decide_False in G1 by lia. rewrite F1 in G1.
        rewrite (fat_get_in_val f' m (set_b1 n b1 v) c1) by done. f_equal.
        replace (fat_idx m) with (fat_idx n + 1) in F0 by lia. rewrite E1 in F0. injection F0 as ->.
        unfold fat_val, set_b1. rewrite En, Em. f_equal.
        assert (0 ≤ v / 256 < 16) by (split; [apply Z.div_pos|apply Z.div_lt_upper_bound]; lia).
        symmetry. apply (Z.div_unique _ _ _ (v / 256)); lia.
      * rewrite !decide_False in G0 by lia. rewrite !decide_False in G1 by lia. rewrite F0 in G0. rewrite F1 in G1.
        by apply fat_get_in_val.
    + destruct (decide (j = k)) as [->|].
      * rewrite !decide_False in G0 by lia. rewrite decide_False, decide_True in G1 by lia.
        rewrite F0 in G0. rewrite (fat_get_in_val f' m c0 (set_b0 n b0 v)) by done. f_equal.
        replace (fat_idx m + 1) with (fat_idx n) in F1 by lia. rewrite E0 in F1. injection F1 as ->.
        unfold fat_val, set_b0. rewrite En, Em. do 2 f_equal.
        pose proof (Z.mod_pos_bound c1 16 ltac:(lia)).
        symmetry. apply (Z.mod_unique _ _ (v mod 16)); lia.
      * rewrite !decide_False in G0 by lia. rewrite !decide_False in G1 by lia. rewrite F0 in G0. rewrite F1 in G1.
        by apply fat_get_in_val.
    + rewrite !decide_False in G0 by lia. rewrite !decide_False in G1 by lia. rewrite F0 in G0. rewrite F1 in G1.
      by apply fat_get_in_val.
Qed.
