(* ===== verification/FatFile.v ===== *)
(** * Files on a FAT12 volume

    The chains [fat12_write] builds and [fat12_read] and [fat12_delete] walk,
    proved against the block-device interface. *)

From S2P Require Import Prelude KString BlockDev Fat12 FatCodec.

Section files.
Context {D : Type} `{Disk D} (ok : D → Prop) (drive nsec : Z) `{!ReliableDisk D ok drive nsec}.
Implicit Types (v : fat12 D).

(** ** A mounted volume *)

Definition spc v : Z := sectors_per_cluster (g_bpb v).

Record vol_wf v : Prop := {
  v_ok : ok (disk v);
  v_drive : g_drive v = drive;
  v_mounted : g_mounted v = true;
  v_spc : 1 ≤ spc v ≤ 255;
  v_clusters : 0 ≤ g_total_clusters v ≤ 3070;
  v_fat_len : length (g_fat v) = Z.to_nat FAT_BUF_SIZE;
  v_fat_bytes : bytes (g_fat v);
  v_spf : 0 ≤ sectors_per_fat (g_bpb v) ≤ 9;
  v_copies : 0 ≤ fat_count (g_bpb v);
  v_area1 : 0 ≤ g_fat_start v;
  v_area2 : g_fat_start v + fat_count (g_bpb v) * sectors_per_fat (g_bpb v) ≤ g_root_start v;
  v_area3 : g_root_start v + g_root_sectors v ≤ g_data_start v;
  v_root : 0 ≤ g_root_sectors v;
  v_area4 : g_data_start v + g_total_clusters v * spc v ≤ nsec;
  v_nsec : nsec ≤ 2 ^ 32
}.

(** Only the disk and the cached table differ. *)
Definition same_vol v v' : Prop :=
  v' = mkFat (disk v') (g_drive v) (g_mounted v) (g_bpb v) (g_fat_start v) (g_root_start v)
             (g_data_start v) (g_root_sectors v) (g_total_clusters v) (g_fat v') (g_fat_dirty v').

Lemma same_vol_refl v : same_vol v v.
Proof. by destruct v. Qed.
Lemma same_vol_trans v1 v2 v3 : same_vol v1 v2 → same_vol v2 v3 → same_vol v1 v3.
Proof. unfold same_vol. intros H1 H2. rewrite H2. rewrite H1. done. Qed.

Definition sector v (lba : Z) : option (list Z) := ata_read (disk v) drive lba.
Definition entry v (c : Z) : res Z := fat_get_in (g_fat v) c.

(** A cluster of the data area. *)
Definition cluster_ok v (c : Z) : Prop := 2 ≤ c < g_total_clusters v + 2.
Definition lba_of v (c : Z) : Z := g_data_start v + (c - 2) * spc v.

Lemma vol_wf_same v v' :
  vol_wf v → same_vol v v' → ok (disk v') → length (g_fat v') = length (g_fat v) → bytes (g_fat v') →
  vol_wf v'.
Proof.
  intros [] Hs Hok Hl Hb. rewrite Hs in *. cbn in *. split; cbn; try done. by rewrite Hl.
Qed.

Lemma cluster_fat_ok v c : vol_wf v → 0 ≤ c < g_total_clusters v + 2 → fat_ok (g_fat v) c.
Proof.
  intros Hw Hc. pose proof (v_clusters _ Hw). unfold fat_ok. rewrite (v_fat_len _ Hw).
  unfold FAT_BUF_SIZE, fat_idx. split; [lia|].
  assert (c / 2 < 1536) by (apply Z.div_lt_upper_bound; lia). lia.
Qed.

Lemma lba_range v c i : vol_wf v → cluster_ok v c → 0 ≤ i < spc v →
  g_data_start v ≤ lba_of v c + i < nsec ∧ 0 ≤ g_data_start v ∧
  u32 (lba_of v c + i) = lba_of v c + i.
Proof.
  intros Hw [H1 H2] Hi. destruct Hw. unfold lba_of.
  assert (0 ≤ (c - 2) * spc v) by (apply Z.mul_nonneg_nonneg; lia).
  assert ((c - 2) * spc v + spc v ≤ g_total_clusters v * spc v).
  { replace ((c - 2) * spc v + spc v) with ((c - 1) * spc v) by lia. apply Z.mul_le_mono_nonneg_r; lia. }
  assert (0 ≤ fat_count (g_bpb v) * sectors_per_fat (g_bpb v)) by (apply Z.mul_nonneg_nonneg; lia).
  split; [lia|]. split; [lia|]. apply u32_small. lia.
Qed.

(** Different clusters occupy different sectors. *)
Lemma lba_disjoint v c c' i j :
  vol_wf v → c ≠ c' → 0 ≤ i < spc v → 0 ≤ j < spc v → lba_of v c + i ≠ lba_of v c' + j.
Proof.
  intros Hw Hne Hi Hj. unfold lba_of. pose proof (v_spc _ Hw).
  destruct (Z.lt_total c c') as [Hlt|[->|Hlt]]; [|done|].
  - assert ((c - 2) * spc v + spc v ≤ (c' - 2) * spc v).
    { replace ((c - 2) * spc v + spc v) with ((c - 1) * spc v) by lia. apply Z.mul_le_mono_nonneg_r; lia. }
    lia.
  - assert ((c' - 2) * spc v + spc v ≤ (c - 2) * spc v).
    { replace ((c' - 2) * spc v + spc v) with ((c' - 1) * spc v) by lia. apply Z.mul_le_mono_nonneg_r; lia. }
    lia.
Qed.

(** ** Sectors *)

Lemma rd_spec v lba : vol_wf v → 0 ≤ lba < nsec →
  rd lba v = Ok (sector v lba, v) ∧ ∃ s, sector v lba = Some s ∧ is_sector s.
Proof.
  intros Hw Hl. pose proof (v_nsec _ Hw). unfold rd, gets, sector.
  rewrite (v_drive _ Hw), u32_small by lia. split; [done|]. apply rd_read; [apply Hw|done].
Qed.

Lemma wr_spec v lba s : vol_wf v → 0 ≤ lba < nsec → is_sector s →
  ∃ v', wr lba s v = Ok (true, v') ∧ vol_wf v' ∧ v' = set_disk (disk v') v ∧
    sector v' lba = Some s ∧
    ∀ lba', 0 ≤ lba' < nsec → lba' ≠ lba → sector v' lba' = sector v lba'.
Proof.
  intros Hw Hl Hs. pose proof (v_nsec _ Hw). unfold wr.
  rewrite (v_drive _ Hw), u32_small by lia.
  destruct (rd_write (disk v) lba s (v_ok _ Hw) Hl Hs) as (d' & -> & Hok & Hr & Ho).
  eexists. split; [done|]. split; [|done].
  by apply (vol_wf_same v); [|done|..|apply Hw].
Qed.

(** ** Chunks of a file

    Bytes [512*i ..] of [src], of which [rem] belong to the file, padded with zeros
    to a sector. *)
Definition chunk (src : list Z) (rem i : Z) : list Z :=
  let tk := Z.to_nat (Z.min 512 (rem - 512 * i)) in
  take tk (drop (Z.to_nat (512 * i)) src) ++ replicate (SECTOR - tk) 0.

Lemma chunk_sector src rem i :
  bytes src → rem ≤ Z.of_nat (length src) → 0 ≤ i → 512 * i < rem → is_sector (chunk src rem i).
Proof.
  intros Hb Hl Hi Hr. unfold chunk, is_sector. split.
  - rewrite length_app, length_take, length_drop, length_replicate. unfold SECTOR. lia.
  - apply Forall_app. split; [by apply Forall_take, Forall_drop|].
    apply Forall_replicate. unfold is_byte. lia.
Qed.

Lemma chunk_shift src rem i w :
  0 ≤ i → 0 ≤ w → chunk src rem (w + i) = chunk (drop (Z.to_nat (512 * w)) src) (rem - 512 * w) i.
Proof.
  intros Hi Hw. unfold chunk. rewrite drop_drop.
  replace (rem - 512 * (w + i)) with (rem - 512 * w - 512 * i) by lia.
  do 4 f_equal. lia.
Qed.

(** [n] sectors from [lba] hold the first bytes of [src]. *)
Definition stored v (lba n : Z) (src : list Z) (rem : Z) : Prop :=
  ∀ i, 0 ≤ i < n → 512 * i < rem → sector v (lba + i) = Some (chunk src rem i).

Lemma write_cluster_spec n lba src rem v :
  vol_wf v → 0 ≤ lba → lba + Z.of_nat n ≤ nsec → bytes src → 0 ≤ rem ≤ Z.of_nat (length src) →
  let w := Z.min rem (512 * Z.of_nat n) in
  ∃ v', write_cluster n lba src rem v = Ok ((drop (Z.to_nat w) src, rem - w, true), v') ∧
    vol_wf v' ∧ v' = set_disk (disk v') v ∧ stored v' lba (Z.of_nat n) src rem ∧
    ∀ l, 0 ≤ l < nsec → ¬ (lba ≤ l < lba + Z.of_nat n) → sector v' l = sector v l.
Proof.
  revert lba src rem v. induction n as [|n IH]; intros lba src rem v Hw H0 Hl Hb Hr w.
  { exists v. replace w with 0 by lia. cbn. rewrite Z.sub_0_r.
    split; [done|]. split; [done|]. split; [by destruct v|]. split; [|done]. intros i Hi. lia. }
  cbn [write_cluster]. destruct (Z.leb_spec rem 0) as [Hle|Hgt].
  { exists v. replace w with 0 by lia. cbn. rewrite Z.sub_0_r.
    split; [done|]. split; [done|]. split; [by destruct v|]. split; [|done]. intros i Hi Hlt. lia. }
  set (tk := if 512 <? rem then 512 else rem).
  assert (tk = Z.min 512 rem) as Htk by (unfold tk; case_z; lia). clearbody tk.
  unfold mbind, M_bind, sector_of, lift.
  rewrite (proj2 (Nat.leb_le _ _)) by lia.
  assert (take (Z.to_nat tk) src ++ replicate (SECTOR - Z.to_nat tk) 0 = chunk src rem 0) as ->.
  { unfold chunk. rewrite Z.mul_0_r, Z.sub_0_r, drop_0, Htk. done. }
  destruct (wr_spec v lba (chunk src rem 0)) as (v1 & -> & Hw1 & E1 & Hs1 & Ho1);
    [done|lia|apply chunk_sector; [done|lia..]|].
  destruct (IH (lba + 1) (drop (Z.to_nat tk) src) (rem - tk) v1) as (v2 & Hrun & Hw2 & E2 & Hst & Ho2);
    [done|lia|lia|by apply Forall_drop|rewrite length_drop; lia|].
  exists v2. rewrite Hrun. split; [|split; [done|split; [by rewrite E2, E1|split]]].
  - rewrite drop_drop. unfold w.
    assert (∀ a a' b b', a = a' → b = b' → (Ok (drop a src, b, true, v2) : res (list Z * Z * bool * _)) = Ok (drop a' src, b', true, v2)) as Hc by (by intros ? ? ? ? -> ->).
    apply Hc; lia.
  - intros i Hi Hlt. destruct (decide (i = 0)) as [->|Hi0].
    + rewrite Ho2, Z.add_0_r by lia. done.
    + replace (lba + i) with (lba + 1 + (i - 1)) by lia. rewrite Hst by lia. f_equal.
      replace i with (1 + (i - 1)) at 2 by lia. rewrite chunk_shift by lia.
      by replace tk with (512 * 1) by lia.
  - intros l Hl1 Hl2. rewrite Ho2 by lia. apply Ho1; lia.
Qed.

Lemma read_cluster_spec n lba src rem acc v :
  vol_wf v → 0 ≤ lba → lba + Z.of_nat n ≤ nsec → 0 ≤ rem ≤ Z.of_nat (length src) →
  stored v lba (Z.of_nat n) src rem →
  let w := Z.min rem (512 * Z.of_nat n) in
  read_cluster n lba rem acc v = Ok ((acc ++ take (Z.to_nat w) src, rem - w, true), v).
Proof.
  revert lba src rem acc. induction n as [|n IH]; intros lba src rem acc Hw H0 Hl Hr Hst w.
  { replace w with 0 by lia. cbn. by rewrite Z.sub_0_r, app_nil_r. }
  cbn [read_cluster]. destruct (Z.leb_spec rem 0) as [Hle|Hgt].
  { replace w with 0 by lia. cbn. by rewrite Z.sub_0_r, app_nil_r. }
  unfold mbind, M_bind. destruct (rd_spec v lba Hw) as [-> _]; [lia|].
  pose proof (Hst 0 ltac:(lia) ltac:(lia)) as Hs0. rewrite Z.add_0_r in Hs0. rewrite Hs0.
  set (tk := if 512 <? rem then 512 else rem).
  assert (tk = Z.min 512 rem) as Htk by (unfold tk; case_z; lia). clearbody tk.
  assert (take (Z.to_nat tk) (chunk src rem 0) = take (Z.to_nat tk) src) as ->.
  { unfold chunk. rewrite Z.mul_0_r, Z.sub_0_r, drop_0, <- Htk, take_app_le, take_take
      by (rewrite length_take; lia). f_equal. lia. }
  rewrite (IH (lba + 1) (drop (Z.to_nat tk) src) (rem - tk)); try done; try lia.
  - replace (rem - tk - Z.min (rem - tk) (512 * Z.of_nat n)) with (rem - w) by (unfold w; lia).
    rewrite <- app_assoc. do 4 f_equal.
    replace (Z.to_nat w) with (Z.to_nat tk + Z.to_nat (Z.min (rem - tk) (512 * Z.of_nat n)))%nat by (unfold w; lia).
    by rewrite take_take_drop.
  - rewrite length_drop. lia.
  - intros i Hi Hlt. replace (lba + 1 + i) with (lba + (1 + i)) by lia. rewrite Hst by lia.
    rewrite chunk_shift by lia. by replace tk with (512 * 1) by lia.
Qed.

(** ** The allocation table of a volume *)

Lemma entry_range v c : vol_wf v → 0 ≤ c < g_total_clusters v + 2 →
  ∃ e, entry v c = Ok e ∧ 0 ≤ e < 4096.
Proof.
  intros Hw Hc. apply fat_get_in_range; [apply Hw|]. by apply cluster_fat_ok.
Qed.

Lemma fat_get_spec v c : fat_get c v = match entry v c with Ok e => Ok (e, v) | Fault => Fault | Timeout => Timeout end.
Proof. done. Qed.

(** Setting an entry of a data cluster. *)
Lemma fat_set_spec v c x :
  vol_wf v → 0 ≤ c < g_total_clusters v + 2 → 0 ≤ x < 4096 →
  ∃ v', fat_set c x v = Ok (tt, v') ∧ vol_wf v' ∧ v' = set_fat (g_fat v') true v ∧
    entry v' c = Ok x ∧
    ∀ c', fat_ok (g_fat v) c' → c' ≠ c → entry v' c' = entry v c'.
Proof.
  intros Hw Hc Hx.
  destruct (fat_set_in_spec (g_fat v) c x (v_fat_bytes _ Hw) (cluster_fat_ok v c Hw Hc) Hx)
    as (f' & E & Hb & Hl & Hg & Ho).
  exists (set_fat f' true v). split; [unfold fat_set, mbind, M_bind, get, lift; by rewrite E|].
  split; [|done]. apply (vol_wf_same v); try done. apply Hw.
Qed.

(** Free clusters. *)
Definition is_free v (c : Z) : bool := match entry v c with Ok e => e =? 0 | _ => false end.
Definition clusters v : list Z := seqZ 2 (g_total_clusters v).
Definition nfree v : Z := countb (is_free v) (clusters v).

Lemma elem_clusters v c : c ∈ clusters v ↔ cluster_ok v c.
Proof. unfold clusters, cluster_ok. rewrite elem_of_seqZ. lia. Qed.

Lemma fat_scan_spec v n i :
  vol_wf v → 2 ≤ i → i + Z.of_nat n ≤ g_total_clusters v + 2 →
  ∃ c, fat_scan (g_fat v) n i = Ok c ∧
    ((c = 0 ∧ ∀ j, i ≤ j < i + Z.of_nat n → is_free v j = false) ∨
     (i ≤ c < i + Z.of_nat n ∧ is_free v c = true)).
Proof.
  intros Hw. revert i. induction n as [|n IH]; intros i Hi Hn.
  { exists 0. split; [done|]. left. split; [done|]. intros; lia. }
  cbn [fat_scan]. destruct (entry_range v i Hw ltac:(lia)) as (e & He & Hr).
  unfold entry in He. rewrite He. cbn. destruct (Z.eqb_spec e 0) as [->|Hne].
  { exists i. split; [done|]. right. split; [lia|]. unfold is_free, entry. by rewrite He. }
  destruct (IH (i + 1)) as (c & Hc & Hcase); [lia..|]. exists c. split; [done|].
  destruct Hcase as [[-> Hnone]|[Hr' Hf]]; [left|right; split; [lia|done]].
  split; [done|]. intros j Hj. destruct (decide (j = i)) as [->|]; [|apply Hnone; lia].
  unfold is_free, entry. rewrite He. by apply Z.eqb_neq.
Qed.

Lemma fat_alloc_spec v :
  vol_wf v → 0 < nfree v →
  ∃ c v', fat_alloc v = Ok (c, v') ∧ cluster_ok v c ∧ entry v c = Ok 0 ∧ vol_wf v' ∧
    v' = set_fat (g_fat v') true v ∧ entry v' c = Ok 0xFFF ∧
    ∀ c', fat_ok (g_fat v) c' → c' ≠ c → entry v' c' = entry v c'.
Proof.
  intros Hw Hfree. pose proof (v_clusters _ Hw) as Htot.
  destruct (fat_scan_spec v (Z.to_nat (g_total_clusters v)) 2 Hw) as (c & Hc & Hcase); [lia..|].
  destruct Hcase as [[-> Hnone]|[Hr Hf]].
  { exfalso. apply countb_pos in Hfree as (x & Hx%elem_clusters & Hf). unfold cluster_ok in Hx.
    rewrite Hnone in Hf; [done|lia]. }
  destruct (fat_set_spec v c 0xFFF Hw) as (v' & Hset & Hw' & E' & Hg & Ho); [lia..|].
  exists c, v'. split.
  { unfold fat_alloc, mbind, M_bind, get, lift. rewrite u32_small by lia.
    replace (g_total_clusters v + 2 - 2) with (g_total_clusters v) by lia. rewrite Hc.
    rewrite (proj2 (Z.eqb_neq c 0)) by lia. by rewrite Hset. }
  split; [unfold cluster_ok; lia|]. split; [|done].
  unfold is_free in Hf. destruct (entry v c) as [e| |]; [|done..]. apply Z.eqb_eq in Hf. by subst.
Qed.

Lemma clusters_nodup v : NoDup (clusters v).
Proof. apply NoDup_seqZ. Qed.

Lemma is_free_entry v v' c : entry v' c = entry v c → is_free v' c = is_free v c.
Proof. unfold is_free. by intros ->. Qed.

Lemma is_free_ok v c e : entry v c = Ok e → is_free v c = (e =? 0).
Proof. unfold is_free. by intros ->. Qed.

(** Taking a free cluster lowers the count by one; relinking a used one does not
    change it. *)
Lemma nfree_take v v' c x :
  cluster_ok v c → entry v c = Ok 0 → entry v' c = Ok x → x ≠ 0 →
  g_total_clusters v' = g_total_clusters v →
  (∀ c', cluster_ok v c' → c' ≠ c → entry v' c' = entry v c') →
  nfree v = nfree v' + 1.
Proof.
  intros Hc H0 Hx Hne Ht Ho. unfold nfree, clusters. rewrite Ht.
  apply (countb_clear _ _ _ c); [apply NoDup_seqZ|by apply elem_clusters|..].
  - by rewrite (is_free_ok _ _ 0).
  - rewrite (is_free_ok _ _ x) by done. by apply Z.eqb_neq.
  - intros y Hy%elem_clusters Hyc. symmetry. by apply is_free_entry, Ho.
Qed.

Lemma nfree_relink v v' c x y :
  entry v c = Ok y → y ≠ 0 → entry v' c = Ok x → x ≠ 0 →
  g_total_clusters v' = g_total_clusters v →
  (∀ c', cluster_ok v c' → c' ≠ c → entry v' c' = entry v c') →
  nfree v' = nfree v.
Proof.
  intros Hy Hy0 Hx Hx0 Ht Ho. unfold nfree, clusters. rewrite Ht.
  apply countb_ext. intros z Hz%elem_clusters. destruct (decide (z = c)) as [->|Hne].
  - rewrite (is_free_ok _ _ x), (is_free_ok _ _ y) by done.
    by rewrite !(proj2 (Z.eqb_neq _ 0)).
  - by apply is_free_entry, Ho.
Qed.

(** ** Chains

    [holds v cs src rem]: the clusters [cs] are linked in this order, the last one
    is marked as the end, and their sectors hold the first [rem] bytes of [src]. *)
Definition next_of (cs : list Z) : Z := match cs with [] => 0xFFF | c :: _ => c end.
Definition step_bytes v (rem : Z) : Z := Z.min rem (512 * spc v).

Fixpoint holds v (cs : list Z) (src : list Z) (rem : Z) : Prop :=
  match cs with
  | [] => rem = 0
  | c :: cs' =>
      0 < rem ∧ cluster_ok v c ∧ stored v (lba_of v c) (spc v) src rem ∧
      entry v c = Ok (next_of cs') ∧
      holds v cs' (drop (Z.to_nat (step_bytes v rem)) src) (rem - step_bytes v rem)
  end.

Lemma in_chain_cluster v c : vol_wf v → cluster_ok v c → in_chain c = true.
Proof.
  intros Hw [H1 H2]. pose proof (v_clusters _ Hw). unfold in_chain.
  rewrite (proj2 (Z.leb_le _ _)), (proj2 (Z.leb_le _ _)) by lia. done.
Qed.

Lemma cluster_lba v c : vol_wf v → cluster_ok v c → cluster_to_lba v c = lba_of v c.
Proof.
  intros Hw Hc. pose proof (v_spc _ Hw). destruct (lba_range v c 0 Hw Hc) as (_ & _ & E); [lia|].
  rewrite Z.add_0_r in E. exact E.
Qed.

Lemma cluster_span v c : vol_wf v → cluster_ok v c → 0 ≤ lba_of v c ∧ lba_of v c + spc v ≤ nsec.
Proof.
  intros Hw Hc. pose proof (v_spc _ Hw). destruct (lba_range v c 0 Hw Hc) as (? & ? & _); [lia|].
  destruct (lba_range v c (spc v - 1) Hw Hc) as (? & _); lia.
Qed.

(** Reading along a chain yields the bytes it holds. *)
Lemma read_chain_spec cs v src rem acc fuel :
  vol_wf v → holds v cs src rem → 0 ≤ rem ≤ Z.of_nat (length src) → (length cs ≤ fuel)%nat →
  read_chain fuel (next_of cs) rem acc v = Ok (acc ++ take (Z.to_nat rem) src, v).
Proof.
  revert src rem acc fuel. induction cs as [|c cs IH]; intros src rem acc fuel Hw Hh Hr Hf.
  { cbn in Hh. subst rem. destruct fuel; cbn; by rewrite app_nil_r. }
  destruct Hh as (Hpos & Hc & Hst & He & Hh). cbn [length] in Hf. destruct fuel as [|fuel]; [lia|].
  cbn [read_chain next_of]. rewrite (in_chain_cluster v) by done.
  rewrite (proj2 (Z.ltb_lt 0 rem)) by done. cbn [andb].
  pose proof (v_spc _ Hw) as Hspc. destruct (cluster_span v c Hw Hc) as [Hl0 Hl1].
  unfold mbind, M_bind, get. rewrite cluster_lba by done. fold (spc v).
  rewrite (read_cluster_spec (Z.to_nat (spc v)) (lba_of v c) src rem acc v);
    rewrite ?Z2Nat.id by lia; try done.
  fold (step_bytes v rem). rewrite fat_get_spec, He.
  assert (0 < step_bytes v rem ≤ rem) as Hsb by (unfold step_bytes; lia).
  rewrite (IH (drop (Z.to_nat (step_bytes v rem)) src)); [|done|done|rewrite length_drop; lia|lia].
  do 2 f_equal. rewrite <- app_assoc. f_equal.
  replace (Z.to_nat rem) with (Z.to_nat (step_bytes v rem) + Z.to_nat (rem - step_bytes v rem))%nat by lia.
  by rewrite take_take_drop.
Qed.

(** What [holds] depends on. *)
Lemma holds_ext cs v v' src rem :
  vol_wf v → same_vol v v' → (∀ c, c ∈ cs → entry v' c = entry v c) →
  (∀ c i, c ∈ cs → cluster_ok v c → 0 ≤ i < spc v → sector v' (lba_of v c + i) = sector v (lba_of v c + i)) →
  holds v cs src rem → holds v' cs src rem.
Proof.
  intros Hw Hs. assert (spc v' = spc v ∧ g_data_start v' = g_data_start v ∧
    g_total_clusters v' = g_total_clusters v) as (E1 & E2 & E3) by (rewrite Hs; done).
  revert src rem. induction cs as [|c cs IH]; intros src rem He Hsec; [done|].
  intros (Hpos & Hc & Hst & Hen & Hh). cbn. unfold step_bytes in *. rewrite E1.
  assert (cluster_ok v' c) by (unfold cluster_ok in *; by rewrite E3).
  split; [done|]. split; [done|]. split; [|split].
  - intros i Hi Hlt. unfold lba_of. rewrite E1, E2. fold (lba_of v c).
    rewrite Hsec by (done || by left). by apply Hst.
  - rewrite He; [done|by left].
  - apply IH; [|intros; apply Hsec; try done; by right|done]. intros; apply He; by right.
Qed.

(** Sectors outside the clusters of a list keep their content. *)
Definition outside v (cs : list Z) (l : Z) : Prop :=
  ∀ c i, c ∈ cs → 0 ≤ i < spc v → l ≠ lba_of v c + i.

Lemma same_vol_disk v d : same_vol v (set_disk d v).
Proof. by destruct v. Qed.
Lemma same_vol_fat v f b : same_vol v (set_fat f b v).
Proof. by destruct v. Qed.

Lemma same_vol_fields v v' : same_vol v v' →
  spc v' = spc v ∧ g_data_start v' = g_data_start v ∧ g_total_clusters v' = g_total_clusters v ∧
  g_root_start v' = g_root_start v ∧ g_root_sectors v' = g_root_sectors v.
Proof. intros ->. done. Qed.

(** Linking the previous cluster to the new one. *)
Lemma link_prev_spec v prev c :
  vol_wf v → cluster_ok v c → (prev = 0 ∨ cluster_ok v prev ∧ entry v prev = Ok 0xFFF) →
  ∃ v', (if prev =? 0 then mret tt else fat_set prev c) v = Ok (tt, v') ∧ vol_wf v' ∧
    v' = set_fat (g_fat v') (g_fat_dirty v') v ∧ nfree v' = nfree v ∧
    (prev ≠ 0 → entry v' prev = Ok c) ∧
    (∀ c', cluster_ok v c' → c' ≠ prev → entry v' c' = entry v c').
Proof.
  intros Hw Hc Hprev. pose proof (v_clusters _ Hw).
  destruct (Z.eqb_spec prev 0) as [->|Hne].
  { exists v. split; [done|]. split; [done|]. split; [by destruct v|]. done. }
  destruct Hprev as [|[Hp Hpe]]; [done|]. unfold cluster_ok in *.
  destruct (fat_set_spec v prev c Hw) as (v' & Hset & Hw' & E & Hg & Ho); [lia..|].
  assert (∀ c', cluster_ok v c' → c' ≠ prev → entry v' c' = entry v c') as Ho'.
  { intros c' Hc' Hne'. apply Ho; [|done]. apply cluster_fat_ok; [done|]. unfold cluster_ok in Hc'. lia. }
  exists v'. split; [done|]. split; [done|]. split; [by rewrite E|]. split; [|done].
  eapply nfree_relink; [exact Hpe|done|exact Hg|lia|by rewrite E|exact Ho'].
Qed.

Lemma last_default (l : list Z) a b c : List.last (a :: l) b = List.last (a :: l) c.
Proof. revert a. induction l as [|x l IH]; intros a; [done|]. apply (IH x). Qed.

(** Writing the clusters of a file. Every cluster taken was free, the chain starts
    where the previous cluster now points, and nothing else changes. *)
(** A turn of the loop: a free cluster is taken, linked to the one before and filled. *)
Lemma write_chain_turn fuel first prev src rem v :
  vol_wf v → bytes src → 0 < rem ≤ Z.of_nat (length src) → (prev = 0 ∨ cluster_ok v prev ∧ entry v prev = Ok 0xFFF) → 0 < nfree v →
  let w := Z.min rem (512 * spc v) in
  ∃ c v', write_chain (S fuel) first prev src rem v = write_chain fuel (if first =? 0 then c else first) c (drop (Z.to_nat w) src) (rem - w) v' ∧
    vol_wf v' ∧ same_vol v v' ∧ cluster_ok v c ∧ c ≠ prev ∧ entry v c = Ok 0 ∧ entry v' c = Ok 0xFFF ∧ (prev ≠ 0 → entry v' prev = Ok c) ∧
    (∀ x, cluster_ok v x → x ≠ c → x ≠ prev → entry v' x = entry v x) ∧ nfree v = nfree v' + 1 ∧
    stored v' (lba_of v c) (spc v) src rem ∧ (∀ l, 0 ≤ l < nsec → ¬ (lba_of v c ≤ l < lba_of v c + spc v) → sector v' l = sector v l).
Proof.
  intros Hw Hb Hr Hprev Hfree w. pose proof (v_spc _ Hw) as Hspc.
  destruct (fat_alloc_spec v Hw Hfree) as (c & v1 & Hal & Hc & Hc0 & Hw1 & E1 & Hc1 & Ho1).
  assert (same_vol v v1) as Hs1 by (rewrite E1; apply same_vol_fat).
  assert (∀ x, cluster_ok v1 x ↔ cluster_ok v x) as Hok by (intros x; unfold cluster_ok; by rewrite (proj1 (proj2 (proj2 (same_vol_fields _ _ Hs1))))).
  assert (∀ x, cluster_ok v x → x ≠ c → entry v1 x = entry v x) as Ho1'.
  { intros x Hx Hxc. apply Ho1; [|done]. apply cluster_fat_ok; [done|unfold cluster_ok in Hx; lia]. }
  assert (c ≠ prev) as Hcp by (intros <-; destruct Hprev as [->|[_ ?]]; [unfold cluster_ok in Hc; lia|congruence]).
  destruct (link_prev_spec v1 prev c Hw1) as (v2 & Hlk & Hw2 & E2 & Hn2 & Hp2 & Ho2).
  { by apply Hok. } { destruct Hprev as [->|[Hp Hpe]]; [by left|right]. split; [by apply Hok|by rewrite Ho1']. }
  assert (same_vol v v2) as Hs2 by (eapply same_vol_trans; [done|]; rewrite E2; apply same_vol_fat).
  destruct (same_vol_fields _ _ Hs2) as (Es2 & Ed2 & Et2 & _).
  assert (cluster_ok v2 c) as Hc2 by (unfold cluster_ok; by rewrite Et2).
  assert (lba_of v2 c = lba_of v c) as El by (unfold lba_of; by rewrite Es2, Ed2).
  destruct (cluster_span v2 c Hw2 Hc2) as [Hl0 Hl1].
  destruct (write_cluster_spec (Z.to_nat (spc v2)) (lba_of v2 c) src rem v2) as (v3 & Hwc & Hw3 & E3 & Hst3 & Ho3); rewrite ?Z2Nat.id in * by lia; try done; [lia|].
  rewrite Es2, El in *. fold w in Hwc. exists c, v3.
  assert (∀ x, entry v3 x = entry v2 x) as Hent3 by (intros x; rewrite E3; done).
  split.
  { cbn [write_chain]. rewrite (proj2 (Z.ltb_lt 0 rem)) by lia. unfold mbind, M_bind. rewrite Hal, (proj2 (Z.eqb_neq c 0)) by (unfold cluster_ok in Hc; lia).
    rewrite Hlk. unfold get. rewrite cluster_lba by done. fold (spc v2). by rewrite Es2, El, Hwc. }
  split; [done|]. split; [eapply same_vol_trans; [exact Hs2|]; rewrite E3; apply same_vol_disk|]. do 3 (split; [done|]).
  split; [by rewrite Hent3, Ho2 by (done || by apply Hok)|]. split; [by intros Hp; rewrite Hent3; apply Hp2|].
  split; [intros x Hx Hxc Hxp; by rewrite Hent3, Ho2, Ho1' by (done || by apply Hok)|].
  split; [|split; [done|intros l Hl Hout; rewrite Ho3 by done; by rewrite E2, E1]].
  replace (nfree v3) with (nfree v1) by (rewrite <- Hn2, E3; done). eapply (nfree_take v v1 c 0xFFF); try done. by rewrite E1.
Qed.

Lemma write_chain_done fuel first prev src v : prev = 0 ∨ cluster_ok v prev ∧ entry v prev = Ok 0xFFF →
  write_chain fuel first prev src 0 v = Ok (Some (if first =? 0 then 0 else first, prev), v) ∧ (prev ≠ 0 → entry v prev = Ok (next_of [])).
Proof.
  intros Hprev. split; [|destruct Hprev as [->|[_ ?]]; done].
  destruct fuel; cbn; by destruct (first =? 0) eqn:E; [apply Z.eqb_eq in E as ->|].
Qed.

Lemma write_chain_spec fuel first prev src rem v :
  vol_wf v → bytes src → 0 ≤ rem ≤ Z.of_nat (length src) →
  (prev = 0 ∨ cluster_ok v prev ∧ entry v prev = Ok 0xFFF) →
  rem ≤ Z.of_nat fuel * 512 → rem ≤ nfree v * (512 * spc v) →
  ∃ v' cs, write_chain fuel first prev src rem v =
      Ok (Some (if first =? 0 then hd 0 cs else first, List.last cs prev), v') ∧
    vol_wf v' ∧ same_vol v v' ∧ holds v' cs src rem ∧ NoDup cs ∧ (Z.of_nat (length cs) ≤ rem) ∧
    (∀ c, c ∈ cs → cluster_ok v c ∧ entry v c = Ok 0) ∧
    (prev ≠ 0 → entry v' prev = Ok (next_of cs)) ∧
    (∀ c, cluster_ok v c → c ∉ cs → c ≠ prev → entry v' c = entry v c) ∧
    (∀ l, 0 ≤ l < nsec → outside v cs l → sector v' l = sector v l).
Proof.
  revert first prev src rem v. induction fuel as [|fuel IH]; intros first prev src rem v Hw Hb Hr Hprev Hfuel Hfree;
    (destruct (Z.ltb_spec 0 rem) as [Hpos|Hle]; [|assert (rem = 0) as -> by lia]).
  { lia. }
  1, 3: destruct (write_chain_done 0 first prev src v Hprev) as [_ Hn]; exists v, []; split; [by apply write_chain_done|];
    (split; [done|]; split; [apply same_vol_refl|]; split; [done|]; split; [by apply NoDup_nil|]; split; [cbn; lia|]; split; [by intros c ?%elem_of_nil|done]).
  pose proof (v_spc _ Hw) as Hspc.
  destruct (write_chain_turn fuel first prev src rem v) as (c & v3 & Hrun3 & Hw3 & Hs3 & Hc & Hcp & Hc0 & Hc3 & Hp3 & Hothers & Hnf & Hst3 & Ho3); [done|done|lia|done|nia|].
  set (w := Z.min rem (512 * spc v)) in *. assert (0 < w ≤ rem ∧ (w = 512 * spc v ∨ w = rem)) as [Hwr Hww] by (unfold w; lia).
  destruct (same_vol_fields _ _ Hs3) as (Es3 & Ed3 & Et3 & _).
  destruct (IH (if first =? 0 then c else first) c (drop (Z.to_nat w) src) (rem - w) v3)
    as (v4 & cs & Hrun & Hw4 & Hs4 & Hh4 & Hnd & Hlen & Hcs & Hp4 & Ho4 & Hsec4); try done.
  { by apply Forall_drop. } { rewrite length_drop. lia. }
  { right. split; [unfold cluster_ok; by rewrite Et3|done]. } { nia. }
  { rewrite Es3. pose proof (countb_bounds (is_free v3) (clusters v3)) as [Hnn _].
    fold (nfree v3) in Hnn. rewrite Hnf in Hfree. destruct Hww as [->| ->]; nia. }
  destruct (same_vol_fields _ _ Hs4) as (Es4 & Ed4 & Et4 & _).
  assert (c ≠ 0) as Hcnz by (unfold cluster_ok in Hc; lia).
  assert (∀ x, lba_of v3 x = lba_of v x ∧ lba_of v4 x = lba_of v x) as Hlba by (intros x; unfold lba_of; by rewrite ?Es4, ?Ed4, ?Es3, ?Ed3).
  assert (c ∉ cs) as Hccs by (intros Hin; destruct (Hcs c Hin) as [_ He]; congruence).
  assert (∀ x, x ∈ cs → cluster_ok v x ∧ entry v x = Ok 0) as Hcs'.
  { intros x Hx. destruct (Hcs x Hx) as [Hxo Hxe]. unfold cluster_ok in *. rewrite Et3 in Hxo.
    split; [done|]. rewrite <- Hothers; try done; [by intros ->|]. intros ->. rewrite Hp3 in Hxe by lia. injection Hxe. lia. }
  exists v4, (c :: cs). split.
  { rewrite Hrun3, Hrun. cbn [hd]. do 4 f_equal.
    - destruct (Z.eqb_spec first 0); [by rewrite (proj2 (Z.eqb_neq c 0))|by rewrite (proj2 (Z.eqb_neq first 0))].
    - destruct cs as [|x cs]; [done|]. change (List.last (x :: cs) c = List.last (x :: cs) prev). apply last_default. }
  split; [done|]. split; [by eapply same_vol_trans|]. split.
  { cbn [holds]. split; [done|]. split; [unfold cluster_ok; by rewrite Et4, Et3|].
    unfold step_bytes. rewrite Es4, Es3. fold w. split; [|split; [by apply Hp4|done]].
    intros i Hi Hlt. rewrite (proj2 (Hlba c)), Hsec4; [by apply Hst3|destruct (lba_range v c i Hw Hc) as (? & ? & _); lia|].
    intros x j Hx Hj. rewrite (proj1 (Hlba x)). rewrite Es3 in Hj. apply lba_disjoint; try done; first [by apply Hcs'|by intros ->|lia]. }
  split; [by apply NoDup_cons|]. split; [cbn [length]; lia|]. split; [intros x [->|Hx]%elem_of_cons; [done|by apply Hcs']|].
  split.
  { intros Hpz. cbn [next_of]. destruct Hprev as [|[Hp Hpe]]; [done|]. rewrite Ho4; [by apply Hp3|unfold cluster_ok; by rewrite Et3| |done].
    intros Hin. destruct (Hcs' prev Hin) as [_ He]. congruence. }
  split.
  { intros x Hx Hnin Hxp. apply not_elem_of_cons in Hnin as [Hxc Hxs]. rewrite Ho4; [by apply Hothers|unfold cluster_ok; by rewrite Et3|done|done]. }
  intros l Hl Hout. rewrite Hsec4; [apply Ho3; [done|]|done|].
  - intros Hin. apply (Hout c (l - lba_of v c)); [by left|..]; lia.
  - intros x j Hx Hj. rewrite (proj1 (Hlba x)). rewrite Es3 in Hj. apply Hout; [by right|done].
Qed.

(** ** Writing the table back *)

Lemma fat_sector_spec v k : vol_wf v → (k < 9)%nat →
  ∃ sec, fat_sector (g_fat v) k = Ok sec ∧ is_sector sec.
Proof.
  intros Hw Hk. unfold fat_sector.
  assert (length (take SECTOR (drop (k * SECTOR) (g_fat v))) = SECTOR) as Hl.
  { rewrite length_take, length_drop, (v_fat_len _ Hw). unfold FAT_BUF_SIZE, SECTOR. lia. }
  eexists. rewrite (proj2 (Nat.eqb_eq _ _)) by done. split; [done|]. split; [done|].
  apply Forall_take, Forall_drop, Hw.
Qed.

Lemma flush_sectors_spec n k lba v :
  vol_wf v → (k + n ≤ 9)%nat → 0 ≤ lba → lba + Z.of_nat k + Z.of_nat n ≤ nsec →
  ∃ v', flush_sectors n k lba v = Ok (true, v') ∧ vol_wf v' ∧ v' = set_disk (disk v') v ∧
    ∀ l, 0 ≤ l < nsec → ¬ (lba + Z.of_nat k ≤ l < lba + Z.of_nat k + Z.of_nat n) → sector v' l = sector v l.
Proof.
  revert k v. induction n as [|n IH]; intros k v Hw Hk H0 Hl.
  { exists v. split; [done|]. split; [done|]. split; [by destruct v|done]. }
  cbn [flush_sectors]. unfold mbind, M_bind, get, lift.
  destruct (fat_sector_spec v k Hw ltac:(lia)) as (sec & -> & Hsec).
  destruct (wr_spec v (lba + Z.of_nat k) sec Hw) as (v1 & -> & Hw1 & E1 & _ & Ho1); [lia|done|].
  destruct (IH (S k) v1) as (v2 & -> & Hw2 & E2 & Ho2); [done|lia..|].
  exists v2. split; [done|]. split; [done|]. split; [by rewrite E2, E1|].
  intros l Hl0 Hout. rewrite Ho2 by lia. apply Ho1; lia.
Qed.

Lemma flush_copies_spec n copy v :
  vol_wf v → 0 ≤ copy → copy + Z.of_nat n ≤ fat_count (g_bpb v) →
  ∃ v', flush_copies n copy v = Ok (true, v') ∧ vol_wf v' ∧ v' = set_disk (disk v') v ∧
    ∀ l, g_root_start v ≤ l < nsec → sector v' l = sector v l.
Proof.
  revert copy v. induction n as [|n IH]; intros copy v Hw H0 Hn.
  { exists v. split; [done|]. split; [done|]. split; [by destruct v|done]. }
  pose proof Hw as [_ _ _ Hspc Hcl _ _ Hspf Hcp Ha1 Ha2 Ha3 Hrt Ha4 Hns].
  assert (0 ≤ g_total_clusters v * spc v) by (apply Z.mul_nonneg_nonneg; lia).
  cbn [flush_copies]. unfold mbind, M_bind, get.
  assert (0 ≤ copy * sectors_per_fat (g_bpb v)) by (apply Z.mul_nonneg_nonneg; lia).
  assert (copy * sectors_per_fat (g_bpb v) + sectors_per_fat (g_bpb v) ≤
    fat_count (g_bpb v) * sectors_per_fat (g_bpb v)).
  { replace (copy * sectors_per_fat (g_bpb v) + sectors_per_fat (g_bpb v))
      with ((copy + 1) * sectors_per_fat (g_bpb v)) by lia. apply Z.mul_le_mono_nonneg_r; lia. }
  destruct (flush_sectors_spec (Z.to_nat (sectors_per_fat (g_bpb v))) 0
    (g_fat_start v + copy * sectors_per_fat (g_bpb v)) v) as (v1 & -> & Hw1 & E1 & Ho1); [done|lia..|].
  destruct (IH (copy + 1) v1) as (v2 & -> & Hw2 & E2 & Ho2); [done|lia|rewrite E1; cbn; lia|].
  exists v2. split; [done|]. split; [done|]. split; [by rewrite E2, E1|].
  intros l Hl. rewrite Ho2 by (rewrite E1; done). apply Ho1; lia.
Qed.

(** [fat_flush] succeeds and writes below the root directory only. *)
Lemma fat_flush_spec v :
  vol_wf v → ∃ v', fat_flush v = Ok (true, v') ∧ vol_wf v' ∧ same_vol v v' ∧ g_fat v' = g_fat v ∧
    ∀ l, g_root_start v ≤ l < nsec → sector v' l = sector v l.
Proof.
  intros Hw. unfold fat_flush, mbind, M_bind, get. destruct (g_fat_dirty v) eqn:Ed; cbn [negb].
  - destruct (flush_copies_spec (Z.to_nat (fat_count (g_bpb v))) 0 v) as (v1 & -> & Hw1 & E1 & Ho1);
      [done|lia|pose proof (v_copies _ Hw); lia|].
    eexists. split; [done|]. cbn. split; [|split; [|split]].
    + by apply (vol_wf_same v1); [|by destruct v1|apply Hw1|..|apply Hw1].
    + rewrite E1. by destruct v.
    + by rewrite E1.
    + done.
  - exists v. split; [done|]. split; [done|]. split; [apply same_vol_refl|done].
Qed.

End files.
