(* ===== verification/FatDir.v ===== *)
(** * The root directory and whole-file operations

    Names, directory entries, and the theorems about [fat12_write], [fat12_read]
    and [fat12_delete]. *)

From S2P Require Import Prelude KString BlockDev Fat12 FatCodec FatFile.

(** ** Names *)

Lemma upcase_byte c : is_byte c → is_byte (upcase c).
Proof. unfold is_byte, upcase. intros. case_if; bool_hyps; lia. Qed.

Lemma upcase_nonzero c : c ≠ 0 → upcase c ≠ 0.
Proof. unfold upcase. intros. case_if; lia. Qed.

Lemma to83_base_spec s name j out :
  cstr name s → length out = 11%nat → 0 ≤ j → bytes out → bytes name → nonzero out →
  ∃ rest out' t, to83_base name j out = Ok (rest, out') ∧ length out' = 11%nat ∧ bytes out' ∧
    bytes rest ∧ cstr rest t ∧ nonzero out'.
Proof.
  revert name j out. induction s as [|c s IH]; intros name j out Hc Hl Hj Hb Hn Hz.
  - pose proof Hc as Hc'. cstr_cases Hc. cbn. eexists _, _, []. repeat split; try done.
  - pose proof Hc as Hc'. apply cstr_inv in Hc as [(? & [=] & _)|(c0 & buf & s0 & [= <- <-] & -> & Hcn & Hc)].
    cbn. rewrite (proj2 (Z.eqb_neq c 0)) by done. cbn.
    apply Forall_cons in Hn as Hn'. destruct Hn' as [Hcb Hn'].
    destruct ((c =? 46) || (8 <=? j)) eqn:E; [by eexists _, _, (c :: s)|].
    bool_hyps. rewrite arr_set_in by lia. cbn. apply IH; try done; [by rewrite length_insert|lia|..].
    + apply Forall_insert; [done|]. by apply upcase_byte.
    + apply Forall_insert; [done|]. by apply upcase_nonzero.
Qed.

Lemma to83_ext_spec s name j out :
  cstr name s → length out = 11%nat → 0 ≤ j → bytes out → bytes name → nonzero out →
  ∃ out', to83_ext name j out = Ok out' ∧ length out' = 11%nat ∧ bytes out' ∧ nonzero out'.
Proof.
  revert name j out. induction s as [|c s IH]; intros name j out Hc Hl Hj Hb Hn Hz.
  - cstr_cases Hc. cbn. eauto.
  - apply cstr_inv in Hc as [(? & [=] & _)|(c0 & buf & s0 & [= <- <-] & -> & Hcn & Hc)].
    cbn. rewrite (proj2 (Z.eqb_neq c 0)) by done. cbn.
    apply Forall_cons in Hn as [Hcb Hn]. destruct (Z.leb_spec 11 j); [by eexists|].
    rewrite arr_set_in by lia. cbn. apply IH; try done; [by rewrite length_insert|lia|..].
    + apply Forall_insert; [done|]. by apply upcase_byte.
    + apply Forall_insert; [done|]. by apply upcase_nonzero.
Qed.

(** Every name converts to eleven characters. *)
Lemma name_to_83_total name s :
  cstr name s → bytes name →
  ∃ out, name_to_83 name = Ok out ∧ length out = 11%nat ∧ bytes out ∧ nonzero out.
Proof.
  intros Hc Hb. unfold name_to_83.
  destruct (to83_base_spec s name 0 (replicate 11 32)) as (rest & out & t & -> & Hl & Ho & Hr & Ht & Hz);
    [done|done|lia|apply Forall_replicate; unfold is_byte; lia|done|by apply Forall_replicate|].
  cbn. cstr_cases Ht; [eauto|].
  destruct (Z.eqb_spec c 46); [|eauto]. apply Forall_cons in Hr as [_ Hr].
  eapply to83_ext_spec; eauto. lia.
Qed.

(** ** Directory entries in a sector *)

Lemma dirent_length sec i : length sec = SECTOR → (i < 16)%nat → length (dirent_at sec i) = 32%nat.
Proof. intros Hl Hi. unfold dirent_at. rewrite length_take, length_drop, Hl. unfold SECTOR. lia. Qed.

Lemma lookup_put_bytes l k b j :
  (k + length b ≤ length l)%nat →
  put_bytes l k b !! j = if decide (k ≤ j < k + length b)%nat then b !! (j - k)%nat else l !! j.
Proof.
  intros Hl. unfold put_bytes. case_decide as E.
  - rewrite lookup_app_r by (rewrite length_take; lia).
    rewrite lookup_app_l by (rewrite length_take; lia). f_equal. rewrite length_take. lia.
  - destruct (decide (j < k)%nat).
    + rewrite lookup_app_l by (rewrite length_take; lia). by rewrite lookup_take_lt by lia.
    + rewrite lookup_app_r by (rewrite length_take; lia).
      rewrite lookup_app_r by (rewrite length_take; lia).
      rewrite lookup_drop, length_take. f_equal. lia.
Qed.

Lemma put_bytes_length l k b : (k + length b ≤ length l)%nat → length (put_bytes l k b) = length l.
Proof. intros. unfold put_bytes. rewrite !length_app, length_take, length_drop. lia. Qed.

Lemma put_bytes_bytes l k b : bytes l → bytes b → bytes (put_bytes l k b).
Proof.
  intros Hl Hb. unfold put_bytes, bytes. rewrite !Forall_app. repeat split; try done;
    [by apply Forall_take|by apply Forall_drop].
Qed.

Lemma dirent_lookup sec i j : (j < 32)%nat → dirent_at sec i !! j = sec !! (32 * i + j)%nat.
Proof. intros. unfold dirent_at. rewrite lookup_take_lt by lia. by rewrite lookup_drop. Qed.

Lemma dirent_ext sec sec' i :
  length sec = SECTOR → length sec' = SECTOR → (i < 16)%nat →
  (∀ j, (32 * i ≤ j < 32 * i + 32)%nat → sec !! j = sec' !! j) → dirent_at sec i = dirent_at sec' i.
Proof.
  intros Hl Hl' Hi Hj. apply list_eq. intros k. destruct (decide (k < 32)%nat).
  - rewrite !dirent_lookup by done. apply Hj. lia.
  - rewrite !lookup_ge_None_2; [done|rewrite dirent_length by done; lia..].
Qed.

(** Adding an entry leaves the earlier ones alone. *)
Lemma add_dirent_spec sec i e :
  is_sector sec → length e = 32%nat → bytes e → (i < 16)%nat →
  is_sector (add_dirent sec i e) ∧ dirent_at (add_dirent sec i e) i = e ∧
  ∀ j, (j < i)%nat → dirent_at (add_dirent sec i e) j = dirent_at sec j.
Proof.
  intros [Hl Hb] He Hbe Hi. unfold SECTOR in Hl.
  assert (length (put_bytes sec (32 * i) e) = 512%nat) as Hl1 by (rewrite put_bytes_length; lia).
  assert (bytes (put_bytes sec (32 * i) e)) as Hb1 by (by apply put_bytes_bytes).
  assert (is_sector (add_dirent sec i e)) as Hs.
  { unfold add_dirent. destruct (_ && _); [|by split].
    split; [by rewrite length_insert|]. apply Forall_insert; [done|]. unfold is_byte, DIRENT_END. lia. }
  assert (∀ k, (k < 32 * (i + 1))%nat → add_dirent sec i e !! k = put_bytes sec (32 * i) e !! k) as Hk.
  { intros k Hk. unfold add_dirent. destruct (_ && _); [|done]. apply list_lookup_insert_ne. lia. }
  split; [done|]. split.
  - apply list_eq. intros k. destruct (decide (k < 32)%nat).
    + rewrite dirent_lookup by done. rewrite Hk by lia. rewrite lookup_put_bytes by lia.
      rewrite decide_True by lia. f_equal. lia.
    + rewrite !lookup_ge_None_2; [done|lia|]. rewrite dirent_length; [lia|apply Hs|done].
  - intros j Hj. apply dirent_ext; [apply Hs|done|lia|]. intros k Hkr. rewrite Hk by lia.
    rewrite lookup_put_bytes by lia. by rewrite decide_False by lia.
Qed.

(** ** Searching a sector *)

Lemma free_slot_spec n i sec k :
  free_slot n i sec = Some k →
  (i ≤ k < i + n)%nat ∧
  (∀ j, (i ≤ j < k)%nat → byte_at (dirent_at sec j) 0 ≠ DIRENT_FREE ∧ byte_at (dirent_at sec j) 0 ≠ DIRENT_END).
Proof.
  revert i. induction n as [|n IH]; intros i; cbn [free_slot]; [done|].
  destruct ((_ =? DIRENT_FREE) || (_ =? DIRENT_END)) eqn:E.
  - intros [= <-]. split; [lia|]. intros; lia.
  - intros Hk%IH. bool_hyps. destruct Hk as [Hr Hb]. split; [lia|]. intros j Hj.
    destruct (decide (j = i)) as [->|]; [done|]. apply Hb. lia.
Qed.

Lemma free_slot_none n i sec :
  free_slot n i sec = None →
  ∀ j, (i ≤ j < i + n)%nat → byte_at (dirent_at sec j) 0 ≠ DIRENT_FREE ∧ byte_at (dirent_at sec j) 0 ≠ DIRENT_END.
Proof.
  revert i. induction n as [|n IH]; intros i; cbn [free_slot]; [intros; lia|].
  destruct ((_ =? DIRENT_FREE) || (_ =? DIRENT_END)) eqn:E; [done|]. bool_hyps.
  intros Hk j Hj. destruct (decide (j = i)) as [->|]; [done|]. apply (IH (S i)); [done|lia].
Qed.

(** One step of the scan over an entry in use. *)
Lemma find_step n i sec want :
  byte_at (dirent_at sec i) 0 ≠ DIRENT_END → byte_at (dirent_at sec i) 0 ≠ DIRENT_FREE →
  find_in_sector (S n) i sec want =
    c ← kstrncmp (dirent_at sec i) want 11;
    if c =? 0 then Ok (ScanHit i) else find_in_sector n (S i) sec want.
Proof.
  intros H1 H2. cbn [find_in_sector]. by rewrite (proj2 (Z.eqb_neq _ DIRENT_END)), (proj2 (Z.eqb_neq _ DIRENT_FREE)).
Qed.

Lemma find_total n i sec want :
  length sec = SECTOR → length want = 11%nat → (i + n ≤ 16)%nat → ∃ r, find_in_sector n i sec want = Ok r.
Proof.
  intros Hl Hw. revert i. induction n as [|n IH]; intros i Hi; cbn [find_in_sector]; [eauto|].
  case_if; [eauto|]. case_if; [apply IH; lia|].
  destruct (kstrncmp_total (dirent_at sec i) want 11) as [d ->];
    [rewrite dirent_length by (done || lia); lia|lia|]. cbn. case_if; [eauto|apply IH; lia].
Qed.

(** Where the scan finds nothing, the entry added to the first free slot is found. *)
Lemma find_added n i sec sec' want k :
  length sec = SECTOR → length sec' = SECTOR → length want = 11%nat → (i ≤ k < i + n)%nat → (i + n ≤ 16)%nat →
  (∀ j, (i ≤ j < k)%nat → dirent_at sec' j = dirent_at sec j) →
  (∀ j, (i ≤ j < k)%nat → byte_at (dirent_at sec j) 0 ≠ DIRENT_FREE ∧ byte_at (dirent_at sec j) 0 ≠ DIRENT_END) →
  (∀ h, find_in_sector n i sec want ≠ Ok (ScanHit h)) →
  take 11 (dirent_at sec' k) = want →
  byte_at (dirent_at sec' k) 0 ≠ DIRENT_FREE → byte_at (dirent_at sec' k) 0 ≠ DIRENT_END →
  find_in_sector n i sec' want = Ok (ScanHit k).
Proof.
  intros Hl Hl' Hlw. revert i. induction n as [|n IH]; intros i Hk Hi Hsame Huse Hnone Hname Hf He; [lia|].
  destruct (decide (i = k)) as [->|Hne].
  - rewrite find_step by done. rewrite kstrncmp_same; [done| |].
    + rewrite dirent_length by (done || lia). lia.
    + rewrite Hname. by rewrite take_ge by lia.
  - destruct (Huse i ltac:(lia)) as [Hu1 Hu2].
    rewrite find_step in Hnone |- * by (rewrite ?Hsame by lia; done).
    rewrite Hsame by lia.
    destruct (kstrncmp_total (dirent_at sec i) want 11) as [d Hd];
      [rewrite dirent_length by (done || lia); lia|lia|].
    rewrite Hd in *. cbn in *. destruct (d =? 0); [by destruct (Hnone i)|].
    apply IH; try done; try lia; intros; [apply Hsame|apply Huse]; lia.
Qed.

Lemma find_next_of_full n i sec want :
  length sec = SECTOR → length want = 11%nat → (i + n ≤ 16)%nat →
  (∀ j, (i ≤ j < i + n)%nat → byte_at (dirent_at sec j) 0 ≠ DIRENT_FREE ∧ byte_at (dirent_at sec j) 0 ≠ DIRENT_END) →
  (∀ h, find_in_sector n i sec want ≠ Ok (ScanHit h)) →
  find_in_sector n i sec want = Ok ScanNext.
Proof.
  intros Hl Hlw. revert i. induction n as [|n IH]; intros i Hi Huse Hnone; [done|].
  destruct (Huse i ltac:(lia)) as [Hu1 Hu2]. rewrite find_step in Hnone |- * by done.
  destruct (kstrncmp_total (dirent_at sec i) want 11) as [d Hd];
    [rewrite dirent_length by (done || lia); lia|lia|].
  rewrite Hd in *. cbn in *. destruct (d =? 0); [by destruct (Hnone i)|].
  apply IH; try done; try lia. intros; apply Huse; lia.
Qed.

Section root.
Context {D : Type} `{Disk D} (ok : D → Prop) (drive nsec : Z) `{!ReliableDisk D ok drive nsec}.
Implicit Types (v : fat12 D).
#[local] Definition vwf := vol_wf ok drive nsec.

Lemma root_range v s : vwf v → 0 ≤ s < g_root_sectors v →
  0 ≤ g_root_start v + s < nsec ∧ g_root_start v + s < g_data_start v ∧
  u32 (g_root_start v + s) = g_root_start v + s.
Proof.
  intros [] Hs. assert (0 ≤ fat_count (g_bpb v) * sectors_per_fat (g_bpb v)) by (apply Z.mul_nonneg_nonneg; lia).
  assert (0 ≤ g_total_clusters v * spc v) by (apply Z.mul_nonneg_nonneg; lia).
  split; [lia|]. split; [lia|]. apply u32_small. lia.
Qed.

(** The scan of the root directory, one sector at a time. *)
Lemma find_root_step n s want v sec :
  vwf v → 0 ≤ s < g_root_sectors v → sector drive v (g_root_start v + s) = Some sec →
  find_in_root (S n) s want v =
    match find_in_sector 16 0 sec want with
    | Ok ScanEnd => Ok (None, v)
    | Ok (ScanHit i) => Ok (Some (mkFind (g_root_start v + s) i (dirent_at sec i)), v)
    | Ok ScanNext => find_in_root n (s + 1) want v
    | Fault => Fault
    | Timeout => Timeout
    end.
Proof.
  intros Hw Hs Hsec. destruct (root_range v s Hw Hs) as (Hr & _ & Hu).
  cbn [find_in_root]. unfold mbind, M_bind, get, lift.
  destruct (rd_spec ok drive nsec v _ Hw Hr) as [-> _]. rewrite Hsec, Hu.
  by destruct (find_in_sector 16 0 sec want) as [[|i|]| |].
Qed.

(** Some slot of the root directory is free. *)
Definition root_slot v (s n : Z) : Prop :=
  ∃ k sec, s ≤ k < s + n ∧ sector drive v (g_root_start v + k) = Some sec ∧ free_slot 16 0 sec ≠ None.

Lemma add_then_find n s want e v :
  vwf v → 0 ≤ s → s + Z.of_nat n ≤ g_root_sectors v →
  length want = 11%nat → length e = 32%nat → bytes e → take 11 e = want →
  byte_at e 0 ≠ DIRENT_FREE → byte_at e 0 ≠ DIRENT_END →
  find_in_root n s want v = Ok (None, v) → root_slot v s (Z.of_nat n) →
  ∃ v' k i, add_to_root n s e v = Ok (0, v') ∧ vwf v' ∧ v' = set_disk (disk v') v ∧
    s ≤ k < s + Z.of_nat n ∧
    find_in_root n s want v' = Ok (Some (mkFind (g_root_start v + k) i e), v') ∧
    (∀ l, 0 ≤ l < nsec → l ≠ g_root_start v + k → sector drive v' l = sector drive v l).
Proof.
  intros Hw H0 Hn Hlw Hle Hbe Hname Hf He. revert s H0 Hn.
  induction n as [|n IH]; intros s H0 Hn Hnone Hslot.
  { destruct Hslot as (k & sec & Hk & _). lia. }
  destruct (root_range v s Hw ltac:(lia)) as (Hr & _ & Hu).
  destruct (rd_spec ok drive nsec v _ Hw Hr) as [Hrd (sec & Hsec & Hss)].
  rewrite (find_root_step n s want v sec) in Hnone by (done || lia).
  assert (∀ h, find_in_sector 16 0 sec want ≠ Ok (ScanHit h)) as Hnh
    by (intros h Eh; rewrite Eh in Hnone; done).
  destruct (free_slot 16 0 sec) as [i|] eqn:Ei.
  - destruct (free_slot_spec _ _ _ _ Ei) as [Hi Huse].
    destruct (add_dirent_spec sec i e Hss Hle Hbe ltac:(lia)) as (Has & Hat & Hbefore).
    destruct (wr_spec ok drive nsec v (g_root_start v + s) (add_dirent sec i e) Hw Hr Has)
      as (v' & Hwr & Hw' & E' & Hs' & Ho').
    exists v', s, i. split.
    { cbn [add_to_root]. unfold mbind, M_bind, get. rewrite Hrd, Hsec, Ei, Hwr. done. }
    split; [done|]. split; [done|]. split; [lia|]. split; [|done].
    assert (g_root_start v' = g_root_start v ∧ g_root_sectors v' = g_root_sectors v) as [Er Es]
      by (rewrite E'; done).
    rewrite (find_root_step n s want v' (add_dirent sec i e)) by (rewrite ?Er, ?Es; done || lia).
    rewrite (find_added 16 0 sec _ want i); try done; try lia; try (rewrite Hat; done).
    + by rewrite Hat, Er.
    + apply Hss.
    + apply Has.
    + intros j Hj. apply Hbefore. lia.
  - pose proof (free_slot_none _ _ _ Ei) as Huse.
    rewrite (find_next_of_full 16 0 sec want) in Hnone; [|apply Hss|done|lia|done|done].
    destruct (IH (s + 1)) as (v' & k & i & Hadd & Hw' & E' & Hk & Hfind & Ho); [lia|lia|done|..].
    { destruct Hslot as (k & sec' & Hk & Hsk & Hfk). exists k, sec'. split; [|done].
      destruct (decide (k = s)) as [->|]; [|lia]. rewrite Hsec in Hsk. injection Hsk as <-. done. }
    exists v', k, i. split.
    { cbn [add_to_root]. unfold mbind, M_bind, get. rewrite Hrd, Hsec, Ei. done. }
    split; [done|]. split; [done|]. split; [lia|]. split; [|done].
    assert (g_root_start v' = g_root_start v ∧ g_root_sectors v' = g_root_sectors v) as [Er Es]
      by (rewrite E'; done).
    rewrite (find_root_step n s want v' sec); [|done|rewrite Es; lia|].
    + rewrite (find_next_of_full 16 0 sec want); [done|apply Hss|done|lia|done|done].
    + rewrite Er, Ho; [done|done|lia].
Qed.

(** The scan depends on the sectors of the root directory only. *)
Lemma find_root_ext n s want v v' :
  vwf v → vwf v' → same_vol v v' → 0 ≤ s → s + Z.of_nat n ≤ g_root_sectors v → length want = 11%nat →
  (∀ k, 0 ≤ k < g_root_sectors v → sector drive v' (g_root_start v + k) = sector drive v (g_root_start v + k)) →
  find_in_root n s want v = Ok (None, v) → find_in_root n s want v' = Ok (None, v').
Proof.
  intros Hw Hw' Hs H0 Hn Hlw Hsec. revert s H0 Hn. induction n as [|n IH]; intros s H0 Hn; [done|].
  destruct (same_vol_fields _ _ Hs) as (_ & _ & _ & Er & Es).
  destruct (root_range v s Hw ltac:(lia)) as (Hr & _ & _).
  destruct (rd_spec ok drive nsec v _ Hw Hr) as [_ (sec & Hse & Hss)].
  rewrite (find_root_step n s want v sec), (find_root_step n s want v' sec);
    [|done|rewrite Es; lia|rewrite Er, Hsec; [done|lia]|done|lia|done].
  destruct (find_total 16 0 sec want) as [[|i|] ->]; [apply Hss|done|lia|done|done|].
  apply IH; lia.
Qed.

End root.

(** ** New entries *)

Lemma enc16_bytes x : bytes (enc16 x).
Proof. repeat constructor; apply Z.mod_pos_bound; lia. Qed.
Lemma enc32_bytes x : bytes (enc32 x).
Proof. repeat constructor; apply Z.mod_pos_bound; lia. Qed.

Lemma le16_enc16 x : 0 ≤ x < 65536 → x mod 256 + 256 * (x / 256 mod 256) = x.
Proof.
  intros Hx. rewrite (Z.mod_small (x / 256)).
  - pose proof (Z.div_mod x 256). lia.
  - split; [apply Z.div_pos; lia|apply Z.div_lt_upper_bound; lia].
Qed.

Lemma new_dirent_spec fn c size :
  length fn = 11%nat → bytes fn → 0 ≤ c < 65536 → 0 ≤ size < 2 ^ 32 →
  let e := new_dirent fn c size in
  length e = 32%nat ∧ bytes e ∧ take 11 e = fn ∧ byte_at e 0 = byte_at fn 0 ∧
  de_cluster e = c ∧ de_size e = size.
Proof.
  intros Hl Hb Hc Hs e. do 11 (destruct fn as [|? fn]; [done|]). destruct fn; [|done].
  split; [done|]. split.
  { unfold e, new_dirent, bytes. rewrite !Forall_app. split; [done|].
    split; [repeat constructor; unfold ATTR_ARCHIVE; lia|].
    split; [apply Forall_replicate; unfold is_byte; lia|].
    do 3 (split; [apply enc16_bytes|]). apply enc32_bytes. }
  split; [done|]. split; [done|]. split; [apply (le16_enc16 c Hc)|].
  unfold de_size, le32. cbn -[Z.mul Z.modulo Z.div Z.add].
  change (size mod 256 + 256 * (size / 256 mod 256) +
    65536 * (size / 65536 mod 256 + 256 * (size / 16777216 mod 256)) = size).
  replace (size / 16777216) with (size / 65536 / 256) by (rewrite Z.div_div by lia; done).
  rewrite (le16_enc16 (size / 65536)) by
    (split; [apply Z.div_pos; lia|apply Z.div_lt_upper_bound; lia]).
  pose proof (Z.div_mod size 256 ltac:(lia)). pose proof (Z.div_mod (size / 256) 256 ltac:(lia)).
  replace (size / 65536) with (size / 256 / 256) by (rewrite Z.div_div by lia; done). lia.
Qed.

Section whole_files.
Context {D : Type} `{Disk D} (ok : D → Prop) (drive nsec : Z) `{!ReliableDisk D ok drive nsec}.
Implicit Types (v : fat12 D).

(** A name that is not in the directory. *)
Definition absent v (name : list Z) : Prop := fat12_find name v = Ok (None, v).

Lemma delete_absent v name :
  g_mounted v = true → absent v name → fat12_delete name v = Ok (-1, v).
Proof.
  intros Hm Ha. unfold fat12_delete, mbind, M_bind, get. rewrite Hm. cbn [negb].
  unfold absent in Ha. by rewrite Ha.
Qed.

Lemma find_is_root v name want :
  name_to_83 name = Ok want →
  fat12_find name v = find_in_root (Z.to_nat (g_root_sectors v)) 0 want v.
Proof. intros E. unfold fat12_find, mbind, M_bind, lift, get. by rewrite E. Qed.

(** The table entry of the last cluster is the end mark already. *)
Lemma holds_last v cs src rem :
  holds drive v cs src rem → cs ≠ [] →
  cluster_ok v (List.last cs 0) ∧ entry v (List.last cs 0) = Ok 0xFFF.
Proof.
  revert src rem. induction cs as [|c cs IH]; intros src rem Hh Hne; [done|].
  destruct Hh as (_ & Hc & _ & He & Hh). destruct cs as [|x cs]; [done|].
  change (List.last (c :: x :: cs) 0) with (List.last (x :: cs) 0). by eapply IH.
Qed.

(** The data part of [fat12_write]: the chain of the new file is on the disk and in
    the table; every chain that was there before is intact. *)
Lemma write_data_spec v buf size :
  vol_wf ok drive nsec v → bytes buf → 0 < size ≤ Z.of_nat (length buf) →
  size ≤ nfree v * (512 * spc v) →
  ∃ v' cs last, write_chain (Z.to_nat size + 4096) 0 0 buf size v = Ok (Some (hd 0 cs, last), v') ∧
    vol_wf ok drive nsec v' ∧ same_vol v v' ∧ cs ≠ [] ∧ holds drive v' cs buf size ∧
    (Z.of_nat (length cs) ≤ size) ∧
    last = List.last cs 0 ∧
    (∀ cs0 src0 rem0, holds drive v cs0 src0 rem0 → holds drive v' cs0 src0 rem0) ∧
    (∀ l, 0 ≤ l < g_data_start v → l < nsec → sector drive v' l = sector drive v l).
Proof.
  intros Hw Hb Hs Hfree.
  destruct (write_chain_spec ok drive nsec (Z.to_nat size + 4096) 0 0 buf size v Hw Hb ltac:(lia) ltac:(by left))
    as (v' & cs & Hrun & Hw' & Hsv & Hh & Hnd & Hlen & Hcs & _ & Hent & Hsec); [lia|lia|].
  assert (cs ≠ []) as Hne. { intros ->. cbn in Hh. lia. }
  exists v', cs, (List.last cs 0). do 3 (split; [done|]). do 4 (split; [done|]). split.
  - intros cs0 src0 rem0 Hh0.
    assert (∀ c, c ∈ cs0 → cluster_ok v c ∧ c ∉ cs) as Hdisj.
    { clear -Hh0 Hcs. revert src0 rem0 Hh0. induction cs0 as [|c cs0 IH]; intros src0 rem0 Hh0 x Hx;
        [by apply not_elem_of_nil in Hx|].
      destruct Hh0 as (_ & Hc & _ & He & Hh0). apply elem_of_cons in Hx as [->|Hx]; [|by eapply IH].
      split; [done|]. intros Hin. destruct (Hcs c Hin) as [_ E0]. rewrite He in E0. injection E0 as E0.
      destruct cs0 as [|y cs0]; [done|]. destruct Hh0 as (_ & Hy & _). unfold cluster_ok in Hy. cbn in E0. lia. }
    eapply holds_ext; [exact Hw|exact Hsv|..|exact Hh0].
    + intros c Hc. destruct (Hdisj c Hc) as [Hco Hcn]. apply Hent; try done. unfold cluster_ok in Hco. lia.
    + intros c i Hc Hco Hi. apply Hsec; [by destruct (lba_range ok drive nsec v c i Hw Hco Hi); lia|].
      intros x j Hx Hj. eapply lba_disjoint; try done. intros ->. by destruct (Hdisj x Hc).
  - intros l Hl Hln. apply Hsec; [lia|]. intros c j Hc Hj. destruct (Hcs c Hc) as [Hco _].
    destruct (lba_range ok drive nsec v c j Hw Hco Hj). lia.
Qed.

(** Chains survive when the table keeps its entries and the data area its sectors. *)
Lemma holds_stable v v' cs src rem :
  vol_wf ok drive nsec v → same_vol v v' → g_fat v' = g_fat v →
  (∀ l, g_data_start v ≤ l < nsec → sector drive v' l = sector drive v l) →
  holds drive v cs src rem → holds drive v' cs src rem.
Proof.
  intros Hw Hs Hf Hsec. eapply holds_ext; [done|done|..].
  - intros c _. unfold entry. by rewrite Hf.
  - intros c i _ Hc Hi. apply Hsec. destruct (lba_range ok drive nsec v c i Hw Hc Hi). lia.
Qed.

(** Marking the end of the chain again changes no entry. *)
Lemma holds_remark v v' c x :
  vol_wf ok drive nsec v → same_vol v v' → disk v' = disk v → entry v c = Ok x → entry v' c = Ok x →
  (∀ c', fat_ok (g_fat v) c' → c' ≠ c → entry v' c' = entry v c') →
  ∀ cs src rem, holds drive v cs src rem → holds drive v' cs src rem.
Proof.
  intros Hw Hs Hd Hx Hx' Ho cs src rem Hh.
  assert (∀ y, y ∈ cs → cluster_ok v y) as Hcs.
  { clear -Hh. revert src rem Hh. induction cs as [|z cs IH]; intros src rem Hh y Hy; [by apply not_elem_of_nil in Hy|].
    destruct Hh as (_ & ? & _ & _ & Hh). apply elem_of_cons in Hy as [->|]; [done|]. by eapply IH. }
  eapply holds_ext; [exact Hw|exact Hs|..|exact Hh].
  - intros y Hy. destruct (decide (y = c)) as [->|]; [congruence|]. apply Ho; [|done].
    eapply cluster_fat_ok; [exact Hw|]. specialize (Hcs y Hy). unfold cluster_ok in Hcs. lia.
  - intros y i _ _ _. unfold sector. by rewrite Hd.
Qed.

(** The second half of [fat12_write]: the table is written back and the entry added. *)
Lemma write_entry_spec v name want first size cs src bufsz :
  vol_wf ok drive nsec v → name_to_83 name = Ok want → length want = 11%nat → bytes want → nonzero want →
  byte_at want 0 ≠ DIRENT_FREE → absent v name → root_slot drive v 0 (g_root_sectors v) →
  0 ≤ size < 2 ^ 32 → size ≤ Z.of_nat (length src) → size ≤ bufsz →
  0 ≤ first < 65536 → holds drive v cs src size → Z.of_nat (length cs) ≤ size →
  (cs = [] ∧ first = 0 ∨ first = next_of cs) →
  ∃ v1 v', fat_flush v = Ok (true, v1) ∧
    add_to_root (Z.to_nat (g_root_sectors v1)) 0 (new_dirent want first size) v1 = Ok (0, v') ∧
    vol_wf ok drive nsec v' ∧
    fat12_read name bufsz v' = Ok (Some (take (Z.to_nat size) src), v') ∧
    (∀ cs0 src0 rem0, holds drive v cs0 src0 rem0 → holds drive v' cs0 src0 rem0).
Proof.
  intros Hw Hn Hlw Hbw Hzw Hfree Habs Hslot Hsz Hlen Hbuf Hfirst Hh Hcs Hfc.
  destruct (fat_flush_spec ok drive nsec v Hw) as (v1 & Hfl & Hw1 & Hs1 & Hf1 & Ho1).
  destruct (same_vol_fields _ _ Hs1) as (Esp & Eds & Etc & Ers & Ert).
  destruct (new_dirent_spec want first size Hlw Hbw Hfirst Hsz) as (Hle & Hbe & Hne & Hb0 & Hdc & Hds).
  set (e := new_dirent want first size) in *.
  assert (0 ≤ g_root_sectors v) as Hrs by apply Hw.
  assert (∀ k, 0 ≤ k < g_root_sectors v →
    sector drive v1 (g_root_start v + k) = sector drive v (g_root_start v + k)) as Hroot.
  { intros k Hk. apply Ho1. destruct (root_range ok drive nsec v k Hw Hk). lia. }
  assert (byte_at want 0 ≠ DIRENT_END) as Hend.
  { destruct want as [|x want]; [done|]. by apply Forall_cons in Hzw as [? _]. }
  destruct (add_then_find ok drive nsec (Z.to_nat (g_root_sectors v)) 0 want e v1)
    as (v' & k & i & Hadd & Hw' & E' & Hk & Hfind & Ho'); try done; try lia.
  { eapply (find_root_ext ok drive nsec _ _ _ v); try done; try lia. by rewrite <- find_is_root with (name := name). }
  { rewrite Z2Nat.id by done. destruct Hslot as (j & sec & Hj & Hsec & Hfs). exists j, sec.
    split; [lia|]. rewrite Ers, Hroot by lia. done. }
  assert (same_vol v1 v') as Hs2 by (rewrite E'; apply same_vol_disk).
  destruct (same_vol_fields _ _ Hs2) as (_ & Eds2 & _ & Ers2 & Ert2).
  assert (∀ cs0 src0 rem0, holds drive v cs0 src0 rem0 → holds drive v' cs0 src0 rem0) as Hkeep.
  { intros cs0 src0 rem0 H0. eapply (holds_stable v1 v'); [done|done|by rewrite E'| |].
    - intros l Hl. apply Ho'; [|].
      + assert (0 ≤ g_data_start v1) by (destruct (root_range ok drive nsec v1 k Hw1 ltac:(lia)); lia). lia.
      + destruct (root_range ok drive nsec v1 k Hw1 ltac:(lia)). lia.
    - eapply (holds_stable v v1); [done|done|done| |done].
      intros l Hl. apply Ho1. pose proof (v_area3 _ _ _ _ Hw). lia. }
  exists v1, v'. split; [done|]. split; [by rewrite Ert|]. split; [done|]. split; [|done].
  unfold fat12_read, mbind, M_bind, get. rewrite (v_mounted _ _ _ _ Hw'). cbn [negb].
  rewrite (find_is_root v' name want Hn), Ert2, Ert, Hfind. cbn [df_de]. rewrite Hds, Hdc.
  rewrite (proj2 (Z.ltb_ge bufsz size)) by lia.
  destruct Hfc as [[-> ->]|Hfc].
  - cbn in Hh. subst size. reflexivity.
  - rewrite Hfc. rewrite (read_chain_spec ok drive nsec cs v' src size []);
      [done|done|by apply Hkeep|lia|lia].
Qed.

End whole_files.

(** C10: writing a new file to a FAT12 volume with a free directory slot and
    enough free clusters succeeds, reading it back with a large enough buffer
    returns exactly the bytes written, the volume stays well formed, and every
    cluster chain that held a file before still holds it, table and sectors
    included. Proved for every block device that keeps its sectors. *)
Theorem fat12_write_read {D} `{Disk D} (ok : D → Prop) drive nsec `{!ReliableDisk D ok drive nsec}
    (v : fat12 D) name s want buf size bufsz :
  vol_wf ok drive nsec v → cstr name s → bytes name →
  name_to_83 name = Ok want → byte_at want 0 ≠ DIRENT_FREE →
  absent v name → root_slot drive v 0 (g_root_sectors v) →
  bytes buf → 0 ≤ size ≤ Z.of_nat (length buf) → size < 2 ^ 32 → size ≤ bufsz →
  size ≤ nfree v * (512 * spc v) →
  ∃ v', fat12_write name buf size v = Ok (0, v') ∧ vol_wf ok drive nsec v' ∧
    fat12_read name bufsz v' = Ok (Some (take (Z.to_nat size) buf), v') ∧
    (∀ cs src rem, holds drive v cs src rem → holds drive v' cs src rem).
Proof.
  intros Hw Hc Hbn Hn Hfree Habs Hslot Hb Hs Hs32 Hbuf Hroom.
  destruct (name_to_83_total name s Hc Hbn) as (w' & Hn' & Hlw & Hbw & Hzw).
  rewrite Hn in Hn'. injection Hn' as <-.
  unfold fat12_write, mbind, M_bind, get. rewrite (v_mounted _ _ _ _ Hw). cbn [negb].
  rewrite delete_absent by (apply Hw || done).
  destruct (Z.eqb_spec size 0) as [->|Hne].
  - destruct (write_entry_spec ok drive nsec v name want 0 0 [] buf bufsz)
      as (v1 & v' & Hfl & Hadd & Hw' & Hrd & Hk); try done; try lia; [by left|].
    exists v'. unfold mret, M_ret. rewrite Hfl. cbn [negb]. unfold lift. rewrite Hn, Hadd. done.
  - destruct (write_data_spec ok drive nsec v buf size Hw Hb ltac:(lia) Hroom)
      as (v1 & cs & lst & Hrun & Hw1 & Hs1 & Hcs & Hh & Hlen & Hlst & Hk1 & Hsec1).
    destruct (holds_last drive v1 cs buf size Hh Hcs) as [Hlok Hlent]. rewrite <- Hlst in Hlok, Hlent.
    destruct (fat_set_spec ok drive nsec v1 lst 0xFFF Hw1) as (v2 & Hset & Hw2 & E2 & Hg2 & Ho2);
      [unfold cluster_ok in Hlok; lia|lia|].
    assert (same_vol v1 v2) as Hs2 by (rewrite E2; apply same_vol_fat).
    assert (∀ cs0 src0 rem0, holds drive v1 cs0 src0 rem0 → holds drive v2 cs0 src0 rem0) as Hk2
      by (eapply (holds_remark ok drive nsec v1 v2 lst 0xFFF); try done; by rewrite E2).
    pose proof (same_vol_trans _ _ _ Hs1 Hs2) as Hs12.
    destruct (same_vol_fields _ _ Hs12) as (_ & _ & _ & Ers & Ert).
    assert (∀ l, 0 ≤ l < g_data_start v → l < nsec → sector drive v2 l = sector drive v l) as Hsec2.
    { intros l Hl Hln. rewrite <- Hsec1 by done. by rewrite E2. }
    assert (∀ k, 0 ≤ k < g_root_sectors v →
      sector drive v2 (g_root_start v + k) = sector drive v (g_root_start v + k)) as Hroot.
    { intros k Hkr. destruct (root_range ok drive nsec v k Hw Hkr) as (? & ? & _). apply Hsec2; lia. }
    destruct cs as [|c cs]; [done|]. destruct Hh as (Hp & Hcok & Hrest).
    assert (0 ≤ c < 65536) as Hcr.
    { pose proof (v_clusters _ _ _ _ Hw1). unfold cluster_ok in Hcok. lia. }
    destruct (write_entry_spec ok drive nsec v2 name want c size (c :: cs) buf bufsz)
      as (v3 & v' & Hfl & Hadd & Hw' & Hrd & Hk3); try done; try lia.
    { unfold absent. rewrite (find_is_root v2 name want Hn), Ert.
      unfold absent in Habs. rewrite (find_is_root v name want Hn) in Habs.
      pose proof (v_root _ _ _ _ Hw). eapply (find_root_ext ok drive nsec _ _ _ v); try done; lia. }
    { destruct Hslot as (j & sec & Hj & Hsec & Hfs). exists j, sec. rewrite Ers, Ert.
      split; [done|]. rewrite Hroot by lia. done. }
    { apply Hk2. by split. }
    { by right. }
    exists v'. rewrite Hrun. cbn [hd]. rewrite Hset. unfold mret, M_ret. rewrite Hfl. cbn [negb].
    unfold lift. rewrite Hn, Hadd. split; [done|]. split; [done|]. split; [done|].
    intros cs0 src0 rem0 H0. by apply Hk3, Hk2, Hk1.
Qed.

(** A small empty volume: one reserved sector, two copies of a one-sector table,
    one directory sector and 36 clusters of one sector. *)
Definition small_bpb : bpb_t := mkBpb 512 1 1 2 16 40 1 0 [] (str "FAT12   ").
Definition small_vol : fat12 memdisk :=
  mkFat (replicate 40 (replicate SECTOR 0)) 0 true small_bpb 1 3 4 1 36
        (replicate (Z.to_nat FAT_BUF_SIZE) 0) false.

Lemma small_vol_wf : vol_wf (memdisk_ok 40) 0 40 small_vol.
Proof.
  split; [exact (blank_disk_ok 40)|reflexivity|reflexivity|split; vm_compute; congruence
    |split; vm_compute; congruence|apply length_replicate|apply Forall_replicate; unfold is_byte; lia
    |split; vm_compute; congruence|vm_compute; congruence..].
Qed.

Lemma fat12_write_read_witness :
  ∃ v', fat12_write (lit "notes.txt") (replicate 1300 65) 1300 small_vol = Ok (0, v') ∧
    fat12_read (lit "NOTES.TXT") 4096 v' = Ok (Some (replicate 1300 65), v').
Proof.
  destruct (fat12_write_read (memdisk_ok 40) 0 40 small_vol (lit "notes.txt") (str "notes.txt")
    (str "NOTES   TXT") (replicate 1300 65) 1300 4096 small_vol_wf) as (v' & Hwr & _ & Hrd & _).
  - apply cstr_lit. repeat constructor; discriminate.
  - repeat constructor; discriminate.
  - vm_compute. reflexivity.
  - discriminate.
  - vm_compute. reflexivity.
  - exists 0, (replicate 512 0). split; [vm_compute; split; congruence|]. split; [reflexivity|].
    discriminate.
  - apply Forall_replicate. split; vm_compute; congruence.
  - rewrite length_replicate. lia.
  - lia.
  - lia.
  - vm_compute. congruence.
  - exists v'. split; [exact Hwr|]. exact Hrd.
Defined.

(** ** Deleting *)
Section delete.
Context {D : Type} `{Disk D} (ok : D → Prop) (drive nsec : Z) `{!ReliableDisk D ok drive nsec}.
Implicit Types (v : fat12 D).

(** The links of a chain, without its content. *)
Fixpoint linked v (cs : list Z) : Prop :=
  match cs with
  | [] => True
  | c :: cs' => cluster_ok v c ∧ entry v c = Ok (next_of cs') ∧ linked v cs'
  end.

Lemma holds_linked v cs src rem : holds drive v cs src rem → linked v cs.
Proof.
  revert src rem. induction cs as [|c cs IH]; intros src rem; [done|].
  intros (_ & Hc & _ & He & Hh). cbn. eauto.
Qed.

Lemma linked_det v c l1 l2 :
  vol_wf ok drive nsec v → linked v (c :: l1) → linked v (c :: l2) → l1 = l2.
Proof.
  intros Hw. pose proof (v_clusters _ _ _ _ Hw). revert c l2.
  induction l1 as [|x l1 IH]; intros c l2 (_ & E1 & H1) (_ & E2 & H2);
    rewrite E1 in E2; injection E2 as E2; destruct l2 as [|y l2]; cbn in E2; try done.
  - destruct H2 as [Hy _]. unfold cluster_ok in Hy. lia.
  - destruct H1 as [Hx _]. unfold cluster_ok in Hx. lia.
  - subst y. f_equal. by eapply IH.
Qed.

Lemma linked_app v l1 l2 : linked v (l1 ++ l2) → linked v l2.
Proof. induction l1 as [|x l1 IH]; [done|]. intros (_ & _ & H1). by apply IH. Qed.

(** A chain that ends never visits a cluster twice. *)
Lemma linked_nodup v cs : vol_wf ok drive nsec v → linked v cs → NoDup cs.
Proof.
  intros Hw. induction cs as [|c cs IH]; intros Hl; [constructor|].
  pose proof Hl as (_ & _ & Hl'). apply NoDup_cons. split; [|by apply IH].
  intros (l1 & l2 & E)%list_elem_of_split. rewrite E in Hl'. apply linked_app in Hl'.
  pose proof (linked_det v c cs l2 Hw Hl Hl') as E'. rewrite E' in E.
  apply (f_equal length) in E. rewrite length_app in E. cbn in E. lia.
Qed.

Lemma linked_ext v v' cs :
  g_total_clusters v' = g_total_clusters v → (∀ c, c ∈ cs → entry v' c = entry v c) → linked v cs → linked v' cs.
Proof.
  intros Ht. induction cs as [|c cs IH]; intros He; [done|]. intros (Hc & E & Hl). cbn.
  split; [unfold cluster_ok in *; by rewrite Ht|]. split; [rewrite He; [done|by left]|].
  apply IH; [|done]. intros; apply He; by right.
Qed.

(** Freeing a chain clears its entries and no other. *)
Lemma free_chain_spec fuel cs v :
  vol_wf ok drive nsec v → linked v cs → (length cs ≤ fuel)%nat →
  ∃ v', free_chain fuel (next_of cs) v = Ok (tt, v') ∧ vol_wf ok drive nsec v' ∧
    same_vol v v' ∧ disk v' = disk v ∧ nfree v' = nfree v + Z.of_nat (length cs) ∧
    (∀ c, c ∈ cs → entry v' c = Ok 0) ∧
    (∀ c, fat_ok (g_fat v) c → c ∉ cs → entry v' c = entry v c).
Proof.
  revert fuel v. induction cs as [|c cs IH]; intros fuel v Hw Hl Hf.
  { exists v. split; [by destruct fuel|]. split; [done|]. split; [apply same_vol_refl|].
    split; [done|]. split; [cbn; lia|]. split; [by intros c ?%not_elem_of_nil|done]. }
  pose proof (linked_nodup v _ Hw Hl) as [Hnin Hnd]%NoDup_cons.
  destruct Hl as (Hc & He & Hl). cbn [length] in Hf. destruct fuel as [|fuel]; [lia|].
  pose proof (v_clusters _ _ _ _ Hw) as Htot.
  destruct (fat_set_spec ok drive nsec v c 0 Hw) as (v1 & Hset & Hw1 & E1 & Hg1 & Ho1);
    [unfold cluster_ok in Hc; lia|lia|].
  assert (∀ x, cluster_ok v x → x ≠ c → entry v1 x = entry v x) as Ho1'.
  { intros x Hx Hne. apply Ho1; [|done]. eapply cluster_fat_ok; [done|]. unfold cluster_ok in Hx. lia. }
  assert (nfree v1 = nfree v + 1) as Hn1.
  { apply (nfree_take v1 v c (next_of cs)); try done.
    - unfold cluster_ok. rewrite E1. done.
    - destruct cs as [|x cs]; [done|]. destruct Hl as [Hx _]. unfold cluster_ok in Hx. cbn. lia.
    - by rewrite E1.
    - intros x Hx Hne. symmetry. apply Ho1'; [|done]. unfold cluster_ok in *. by rewrite E1 in Hx. }
  assert (linked v1 cs) as Hl1.
  { apply (linked_ext v); [by rewrite E1| |done]. intros x Hx. apply Ho1'; [|by intros ->].
    clear -Hl Hx. induction cs as [|y cs IH]; [by apply not_elem_of_nil in Hx|].
    destruct Hl as (Hy & _ & Hl). apply elem_of_cons in Hx as [->|]; auto. }
  destruct (IH fuel v1 Hw1 Hl1 ltac:(lia)) as (v' & Hrun & Hw' & Hs' & Hd' & Hn' & Hz' & Ho').
  assert (same_vol v v1) as Hs1 by (rewrite E1; apply same_vol_fat).
  exists v'. split.
  { cbn [free_chain next_of]. rewrite (in_chain_cluster ok drive nsec v) by done.
    unfold mbind, M_bind. rewrite fat_get_spec, He, Hset. done. }
  split; [done|]. split; [by eapply same_vol_trans|]. split; [rewrite Hd', E1; done|].
  split; [cbn [length]; lia|]. assert (length (g_fat v1) = length (g_fat v)) as Hlen.
  { by rewrite (v_fat_len _ _ _ _ Hw1), (v_fat_len _ _ _ _ Hw). }
  split.
  - intros x [->|Hx]%elem_of_cons; [|by apply Hz']. rewrite Ho'; [done| |done].
    unfold fat_ok. rewrite Hlen. eapply cluster_fat_ok; [done|]. unfold cluster_ok in Hc. lia.
  - intros x Hx [Hxc Hxs]%not_elem_of_cons. rewrite Ho'; [by apply Ho1| |done].
    unfold fat_ok in *. by rewrite Hlen.
Qed.

(** ** Termination on any table *)

Definition used_entry v (c : Z) : bool := match entry v c with Ok e => negb (e =? 0) | _ => false end.
Definition nused v : Z := countb (used_entry v) (seqZ 2 4078).

(** Following the links of the table: [c] is on the walk from [c0] when the links of
    [v] lead from [c0] to it and its number is that of a cluster. *)
Definition link_step v (a b : Z) : Prop := in_chain a = true ∧ entry v a = Ok b.
Definition on_walk v (c0 c : Z) : Prop := star (link_step v) c0 c ∧ in_chain c = true.

Lemma entry_outside v c : 0 ≤ c → ¬ fat_ok (g_fat v) c → entry v c = Fault.
Proof.
  intros Hc Hge. assert (Z.of_nat (length (g_fat v)) ≤ fat_idx c + 1) as Hl
    by (apply Z.nlt_ge; intros ?; by apply Hge).
  unfold entry, fat_get_in. pose proof (fat_idx_nonneg c Hc).
  assert (∀ i, 0 ≤ i → Z.of_nat (length (g_fat v)) ≤ i → arr_get (g_fat v) i = Fault) as Hout.
  { intros i Hi0 Hi. unfold arr_get. rewrite (proj2 (Z.leb_le 0 i)) by lia.
    by rewrite lookup_ge_None_2 by lia. }
  destruct (arr_get (g_fat v) (fat_idx c)) as [b| |] eqn:Eb; cbn; [|done|].
  - by rewrite Hout by lia.
  - unfold arr_get in Eb. case_match; [|done]. by destruct (g_fat v !! _).
Qed.

Lemma walk_stops v c x : in_chain c = false → ¬ (star (link_step v) c x ∧ in_chain x = true).
Proof.
  intros Hc [Hs Hx]. induction Hs as [a|a b d Hs IH [Hb _]]; [congruence|]. by apply IH.
Qed.

(** The walk from [c] once the entry of [c], which links to [e], is cleared. *)
Lemma on_walk_clear v w c e :
  in_chain c = true → entry v c = Ok e → entry w c = Ok 0 → (∀ x, in_chain x = true → x ≠ c → entry w x = entry v x) →
  (∀ x, on_walk w e x → on_walk v c x) ∧ (∀ x, on_walk v c x → x = c ∨ on_walk w e x).
Proof.
  intros Hin He Hz Ho. split; intros x [Hs Hx]; revert Hx.
  - induction Hs as [a|a b d Hs IH [Hb Hl]]; intros Hx.
    + split; [|done]. eapply star_snoc; [apply star_refl|by split].
    + destruct (IH He Hb) as [Hsv _]. split; [|done]. eapply star_snoc; [exact Hsv|]. split; [done|].
      rewrite <- Ho; [done|done|]. intros ->. rewrite Hz in Hl. by injection Hl as <-.
  - induction Hs as [a|a b d Hs IH [Hb Hl]]; intros Hx; [by left|right].
    destruct (IH Hin He Hz Ho Hb) as [->|[Hw _]]; [rewrite He in Hl; injection Hl as <-; split; [apply star_refl|done]|].
    destruct (decide (b = a)) as [->|Hne]; [rewrite He in Hl; injection Hl as <-; split; [apply star_refl|done]|].
    split; [|done]. eapply star_snoc; [exact Hw|]. split; [done|]. by rewrite Ho.
Qed.

Lemma nused_clear v f' c e :
  2 ≤ c ≤ 4079 → length f' = length (g_fat v) → entry v c = Ok e → e ≠ 0 → fat_get_in f' c = Ok 0 →
  (∀ x, 0 ≤ x → x ≠ c → fat_get_in f' x = entry v x) →
  nused v = nused (set_fat f' true v) + 1.
Proof.
  intros Hc Hl He Hne Hz Ho. apply (countb_clear _ _ _ c).
  - apply NoDup_seqZ.
  - apply elem_of_seqZ. lia.
  - unfold used_entry. rewrite He. by apply negb_true_iff, Z.eqb_neq.
  - unfold used_entry, entry. cbn [g_fat set_fat]. by rewrite Hz.
  - intros x Hx%elem_of_seqZ Hxc. unfold used_entry. change (entry (set_fat f' true v) x) with (fat_get_in f' x).
    by rewrite Ho by lia.
Qed.

(** The walk clears exactly the entries on it, each once, or runs into a link to a
    cluster past the end of the table. *)
Lemma free_chain_walk fuel c v :
  bytes (g_fat v) → 0 ≤ c → nused v < Z.of_nat fuel →
  (∃ x, on_walk v c x ∧ ¬ fat_ok (g_fat v) x ∧ free_chain fuel c v = Fault) ∨
  ∃ f d, free_chain fuel c v = Ok (tt, set_fat f d v) ∧ bytes f ∧ length f = length (g_fat v) ∧
    ∀ x, 0 ≤ x → (on_walk v c x → fat_get_in f x = Ok 0) ∧ (¬ on_walk v c x → fat_get_in f x = entry v x).
Proof.
  revert c v. induction fuel as [|fuel IH]; intros c v Hb Hc0 Hf.
  { pose proof (countb_bounds (used_entry v) (seqZ 2 4078)). unfold nused in Hf. lia. }
  cbn [free_chain]. destruct (in_chain c) eqn:Hin.
  2:{ right. exists (g_fat v), (g_fat_dirty v). split; [by destruct v|]. do 2 (split; [done|]).
      intros x _. split; [|done]. intros Hx. by destruct (walk_stops v c x). }
  unfold mbind, M_bind. rewrite fat_get_spec.
  destruct (decide (fat_idx c + 1 < Z.of_nat (length (g_fat v)))) as [Hlt|Hge]; cycle 1.
  { left. exists c. rewrite entry_outside; [|done|by intros [_ ?]].
    split; [split; [apply star_refl|done]|]. split; [by intros [_ ?]|done]. }
  assert (fat_ok (g_fat v) c) as Hok by done.
  destruct (fat_get_in_range (g_fat v) c Hb Hok) as (e & He & Her). change (fat_get_in (g_fat v) c) with (entry v c) in He.
  rewrite He.
  destruct (fat_set_in_spec (g_fat v) c 0 Hb Hok ltac:(lia)) as (f' & Hset & Hb' & Hl & Hg & Ho).
  assert (∀ x, 0 ≤ x → x ≠ c → fat_get_in f' x = entry v x) as Ho'.
  { intros x Hx Hxc. destruct (decide (fat_idx x + 1 < Z.of_nat (length (g_fat v)))); [apply Ho; [by split|done]|].
    rewrite (entry_outside v); [|done|by intros [_ ?]]. apply (entry_outside (set_fat f' true v)); [done|].
    intros [_ ?]. cbn [g_fat set_fat] in *. lia. }
  unfold fat_set, mbind, M_bind, get, lift. rewrite Hset. unfold put. set (w := set_fat f' true v).
  assert (∀ x, in_chain x = true → x ≠ c → entry w x = entry v x) as How.
  { intros x Hx Hxc. apply Ho'; [|done]. unfold in_chain in Hx. bool_hyps. lia. }
  destruct (on_walk_clear v w c e Hin He Hg How) as [Hback Hforth].
  assert (e = 0 → free_chain fuel e w = Ok (tt, w)) as Hzero by (intros ->; by destruct fuel).
  assert (2 ≤ c ≤ 4079) as Hc by (unfold in_chain in Hin; bool_hyps; lia).
  assert ((∃ x, on_walk w e x ∧ ¬ fat_ok (g_fat w) x ∧ free_chain fuel e w = Fault) ∨
    ∃ f d, free_chain fuel e w = Ok (tt, set_fat f d w) ∧ bytes f ∧ length f = length (g_fat w) ∧
      ∀ x, 0 ≤ x → (on_walk w e x → fat_get_in f x = Ok 0) ∧ (¬ on_walk w e x → fat_get_in f x = entry w x)) as Hrest.
  { destruct (decide (e = 0)) as [E|Hne].
    - right. exists f', true. split; [by apply Hzero|]. do 2 (split; [done|]). intros x _. split; [|done].
      intros Hx. subst e. by destruct (walk_stops w 0 x).
    - apply IH; [done|lia|]. rewrite (nused_clear v f' c e) in Hf by done. fold w in Hf. lia. }
  destruct Hrest as [(x & Hx & Hbad & ->)|(f & d & -> & Hbf & Hlf & Hent)].
  - left. exists x. split; [by apply Hback|]. split; [|done]. unfold fat_ok in *. cbn [g_fat w set_fat] in Hbad. by rewrite Hl in Hbad.
  - right. exists f, d. split; [done|]. split; [done|]. split; [by rewrite Hlf|]. intros x Hx0.
    destruct (Hent x Hx0) as [H1 H2]. split; intros Hw.
    + destruct (decide (x = c)) as [->|Hxc]; [|destruct (Hforth x Hw) as [?|Hw']; [done|by apply H1]].
      destruct (fat_get_in_range f c Hbf) as (z & Hz & _); [unfold fat_ok; rewrite Hlf; cbn [g_fat w set_fat]; by rewrite Hl|].
      destruct (decide (z = 0)) as [->|Hzn]; [done|]. rewrite H2; [done|]. intros Hw'. rewrite (H1 Hw') in Hz. congruence.
    + rewrite H2 by (intros Hw'; by apply Hw, Hback). destruct (decide (x = c)) as [->|Hxc]; [|by apply Ho'].
      exfalso. apply Hw. split; [apply star_refl|done].
Qed.

End delete.

Section delete_file.
Context {D : Type} `{Disk D} (ok : D → Prop) (drive nsec : Z) `{!ReliableDisk D ok drive nsec}.
Implicit Types (v : fat12 D).

Lemma find_hit_index n i sec want h : find_in_sector n i sec want = Ok (ScanHit h) → (i ≤ h < i + n)%nat.
Proof.
  revert i. induction n as [|n IH]; intros i; cbn [find_in_sector]; [done|].
  case_if; [done|]. case_if; [intros ?%IH; lia|].
  intros (d & _ & Hd)%res_bind_Ok. destruct (d =? 0); [injection Hd as <-; lia|]. apply IH in Hd. lia.
Qed.

Lemma find_root_hit n s want v d v' :
  vol_wf ok drive nsec v → 0 ≤ s → s + Z.of_nat n ≤ g_root_sectors v →
  find_in_root n s want v = Ok (Some d, v') →
  v' = v ∧ ∃ k, s ≤ k < s + Z.of_nat n ∧ df_sector d = g_root_start v + k ∧ (df_index d < 16)%nat.
Proof.
  intros Hw. revert s. induction n as [|n IH]; intros s H0 Hn; [done|].
  destruct (root_range ok drive nsec v s Hw ltac:(lia)) as (Hr & _ & _).
  destruct (rd_spec ok drive nsec v _ Hw Hr) as [_ (sec & Hsec & _)].
  rewrite (find_root_step ok drive nsec n s want v sec) by (done || lia).
  destruct (find_in_sector 16 0 sec want) as [[|h|]| |] eqn:E; try done.
  - intros [= <- <-]. split; [done|]. exists s. apply find_hit_index in E. cbn. split; [lia|]. split; [done|lia].
  - intros Hf. destruct (IH (s + 1) ltac:(lia) ltac:(lia) Hf) as (-> & k & Hk & Hd). split; [done|].
    exists k. split; [lia|done].
Qed.

Lemma linked_length v cs : vol_wf ok drive nsec v → linked v cs → (length cs ≤ 3070)%nat.
Proof.
  intros Hw Hl. pose proof (linked_nodup ok drive nsec v cs Hw Hl) as Hnd.
  assert (cs ⊆+ clusters v) as Hsub.
  { apply NoDup_submseteq; [done|]. intros c Hc. apply elem_clusters.
    clear -Hl Hc. induction cs as [|x cs IH]; [by apply not_elem_of_nil in Hc|].
    destruct Hl as (Hx & _ & Hl). apply elem_of_cons in Hc as [->|]; auto. }
  apply submseteq_length in Hsub. unfold clusters in Hsub. rewrite length_seqZ in Hsub.
  pose proof (v_clusters _ _ _ _ Hw). lia.
Qed.

End delete_file.

(** C28: deleting a file that the directory lists succeeds: every cluster of its
    chain becomes free (and is counted so), the directory entry is marked free, the
    volume stays well formed, and every file whose chain shares no cluster with it keeps
    its links and its bytes. *)
Theorem fat12_delete_frees {D} `{Disk D} (ok : D → Prop) drive nsec `{!ReliableDisk D ok drive nsec}
    (v : fat12 D) name s d cs :
  vol_wf ok drive nsec v → cstr name s → bytes name → fat12_find name v = Ok (Some d, v) →
  linked v cs → (de_cluster (df_de d) = next_of cs ∨ cs = [] ∧ de_cluster (df_de d) = 0) →
  ∃ v' sec, fat12_delete name v = Ok (0, v') ∧ vol_wf ok drive nsec v' ∧
    (∀ c, c ∈ cs → entry v' c = Ok 0) ∧ nfree v' = nfree v + Z.of_nat (length cs) ∧
    sector drive v (df_sector d) = Some sec ∧
    sector drive v' (df_sector d) = Some (<[(32 * df_index d)%nat := DIRENT_FREE]> sec) ∧
    (∀ cs0 src0 rem0, holds drive v cs0 src0 rem0 → (∀ c, c ∈ cs → c ∉ cs0) → holds drive v' cs0 src0 rem0).
Proof.
  intros Hw Hc Hbn Hfind Hl Hstart.
  destruct (name_to_83_total name s Hc Hbn) as (want & Hn & _).
  pose proof Hfind as Hroot. rewrite (find_is_root v name want Hn) in Hroot.
  pose proof (v_root _ _ _ _ Hw) as Hrs.
  destruct (find_root_hit ok drive nsec (Z.to_nat (g_root_sectors v)) 0 want v d v Hw ltac:(lia) ltac:(lia) Hroot) as (_ & k & Hk & Hds & Hdi).
  destruct (root_range ok drive nsec v k Hw ltac:(lia)) as (Hkr & Hkd & _).
  assert (∃ v1, free_chain 4096 (de_cluster (df_de d)) v = Ok (tt, v1) ∧ vol_wf ok drive nsec v1 ∧
    same_vol v v1 ∧ disk v1 = disk v ∧ nfree v1 = nfree v + Z.of_nat (length cs) ∧
    (∀ c, c ∈ cs → entry v1 c = Ok 0) ∧
    (∀ c, fat_ok (g_fat v) c → c ∉ cs → entry v1 c = entry v c))
    as (v1 & Hrun & Hw1 & Hs1 & Hd1 & Hn1 & Hz1 & Ho1).
  { destruct Hstart as [->|[-> ->]].
    - apply free_chain_spec; [done|done|]. pose proof (linked_length ok drive nsec v cs Hw Hl). lia.
    - exists v. split; [done|]. split; [done|]. split; [apply same_vol_refl|]. split; [done|].
      split; [cbn [length]; lia|]. split; [by intros c ?%not_elem_of_nil|done]. }
  destruct (fat_flush_spec ok drive nsec v1 Hw1) as (v2 & Hfl & Hw2 & Hs2 & Hf2 & Ho2).
  destruct (same_vol_fields _ _ Hs1) as (_ & Ed1 & _ & Er1 & Et1).
  destruct (same_vol_fields _ _ Hs2) as (_ & Ed2 & _ & Er2 & Et2).
  destruct (rd_spec ok drive nsec v _ Hw Hkr) as [_ (sec & Hsec & Hss)].
  destruct (rd_spec ok drive nsec v2 _ Hw2 Hkr) as [Hrd2 _].
  assert (sector drive v2 (g_root_start v + k) = Some sec) as Hsec2.
  { rewrite Ho2 by lia. unfold sector in *. by rewrite Hd1. }
  destruct (wr_spec ok drive nsec v2 (g_root_start v + k) (<[(32 * df_index d)%nat := DIRENT_FREE]> sec) Hw2 Hkr)
    as (v3 & Hwr & Hw3 & E3 & Hs3 & Ho3).
  { destruct Hss as [Hlen Hb]. split; [by rewrite length_insert|]. apply Forall_insert; [done|].
    unfold is_byte, DIRENT_FREE. lia. }
  assert (∀ c, entry v3 c = entry v1 c) as He3 by (intros c; rewrite E3; unfold entry; cbn; by rewrite Hf2).
  exists v3, sec. split.
  { unfold fat12_delete, mbind, M_bind, get. rewrite (v_mounted _ _ _ _ Hw). cbn [negb].
    rewrite Hfind, Hrun, Hfl, Hds, Hrd2, Hsec2, Hwr. done. }
  split; [done|]. split; [intros c Hcs; rewrite He3; by apply Hz1|]. split.
  { rewrite <- Hn1. unfold nfree, clusters. assert (g_total_clusters v3 = g_total_clusters v1) as ->.
    { rewrite E3. cbn. by destruct (same_vol_fields _ _ Hs2) as (_ & _ & -> & _). }
    apply countb_ext. intros c _. by apply is_free_entry. }
  rewrite Hds. split; [done|]. split; [done|].
  intros cs0 src0 rem0 Hh Hdisj.
  assert (same_vol v v3) as Hs13.
  { eapply same_vol_trans; [exact Hs1|]. eapply same_vol_trans; [exact Hs2|]. rewrite E3. apply same_vol_disk. }
  pose proof (holds_linked drive v cs0 src0 rem0 Hh) as Hl0.
  assert (∀ c, c ∈ cs0 → cluster_ok v c) as Hcl0.
  { clear -Hl0. induction cs0 as [|x cs0 IH]; intros c Hc; [by apply not_elem_of_nil in Hc|].
    destruct Hl0 as (Hx & _ & Hl0). apply elem_of_cons in Hc as [->|]; auto. }
  eapply holds_ext; [exact Hw|exact Hs13|..|exact Hh].
  - intros c Hcs0. rewrite He3. apply Ho1; [|intros Hin; by eapply Hdisj].
    eapply cluster_fat_ok; [exact Hw|]. specialize (Hcl0 c Hcs0). unfold cluster_ok in Hcl0. lia.
  - intros c i Hcs0 Hco Hi. destruct (lba_range ok drive nsec v c i Hw Hco Hi) as (Hlr & Hd0 & _).
    rewrite Ho3 by lia. rewrite Ho2 by lia. unfold sector. by rewrite Hd1.
Qed.

(** The small volume with one file of 600 bytes in clusters 2 and 3. *)
Definition one_file_vol : fat12 memdisk :=
  mkFat (<[3%nat := put_bytes (replicate SECTOR 0) 0 (new_dirent (str "A       TXT") 2 600)]>
           (replicate 40 (replicate SECTOR 0))) 0 true small_bpb 1 3 4 1 36
        (<[3%nat := 0x03]> (<[4%nat := 0xF0]> (<[5%nat := 0xFF]> (replicate (Z.to_nat FAT_BUF_SIZE) 0)))) false.

Lemma one_file_vol_wf : vol_wf (memdisk_ok 40) 0 40 one_file_vol.
Proof.
  split; [|reflexivity|reflexivity|split; vm_compute; congruence
    |split; vm_compute; congruence| | |split; vm_compute; congruence|vm_compute; congruence..].
  - split; [reflexivity|]. apply Forall_insert; [apply blank_disk_ok|]. split; [reflexivity|].
    apply put_bytes_bytes; [apply blank_sector|].
    apply new_dirent_spec; [reflexivity|repeat constructor; discriminate|lia|lia].
  - cbn [g_fat one_file_vol]. by rewrite !length_insert, length_replicate.
  - do 3 (apply Forall_insert; [|unfold is_byte; lia]). apply Forall_replicate. unfold is_byte. lia.
Qed.

Lemma fat12_delete_frees_witness :
  ∃ v', fat12_delete (lit "a.txt") one_file_vol = Ok (0, v') ∧ entry v' 2 = Ok 0 ∧ entry v' 3 = Ok 0 ∧
    nfree v' = 36.
Proof.
  destruct (fat12_delete_frees (memdisk_ok 40) 0 40 one_file_vol (lit "a.txt") (str "a.txt")
    (mkFind 3 0 (new_dirent (str "A       TXT") 2 600)) [2; 3] one_file_vol_wf)
    as (v' & sec & Hdel & _ & Hz & Hn & _).
  - apply cstr_lit. repeat constructor; discriminate.
  - repeat constructor; discriminate.
  - vm_compute. reflexivity.
  - repeat split; vm_compute; congruence.
  - left. vm_compute. reflexivity.
  - exists v'. split; [exact Hdel|]. split; [apply Hz; by left|]. split; [apply Hz; by right; left|].
    rewrite Hn. vm_compute. reflexivity.
Defined.

(** C11: the walk that frees the clusters of a deleted file on a table of nine sectors
    with any content. When no link on it leads past the last entry, 3071, the walk ends
    within 4096 steps, on cycles too, with exactly the entries on it cleared and every
    other entry as it was; a link to 3072..4079, which the walk takes for a cluster,
    makes it read and write behind the table. *)
Theorem fat12_delete_walk_terminates {D} `{Disk D} (v : fat12 D) cluster :
  bytes (g_fat v) → length (g_fat v) = 4608%nat → 0 ≤ cluster →
  ((∀ x, on_walk v cluster x → x < 3072) →
   ∃ f d, free_chain 4096 cluster v = Ok (tt, set_fat f d v) ∧
     ∀ x, 0 ≤ x < 3072 → (on_walk v cluster x → fat_get_in f x = Ok 0) ∧
                         (¬ on_walk v cluster x → fat_get_in f x = entry v x)) ∧
  ((∃ x, on_walk v cluster x ∧ 3072 ≤ x) → free_chain 4096 cluster v = Fault).
Proof.
  intros Hb Hl Hc. assert (∀ f x, length f = 4608%nat → 0 ≤ x → fat_ok f x ↔ x < 3072) as Hok.
  { intros f x Hlf Hx. unfold fat_ok, fat_idx. rewrite Hlf. pose proof (Z.div_mod x 2). pose proof (Z.mod_pos_bound x 2). lia. }
  assert (∀ x, on_walk v cluster x → 0 ≤ x) as Hpos by (intros x [_ Hx]; unfold in_chain in Hx; bool_hyps; lia).
  destruct (free_chain_walk 4096 cluster v) as [(x & Hx & Hbad & E)|(f & d & E & Hbf & Hlf & Hent)]; [done|done|..].
  - pose proof (countb_bounds (used_entry v) (seqZ 2 4078)). rewrite length_seqZ in *. unfold nused. lia.
  - split; [|done]. intros Hr. exfalso. apply Hbad, Hok; auto.
  - rewrite Hl in Hlf. split; [intros _; exists f, d; split; [done|intros x Hx; apply Hent; lia]|].
    intros (x & Hx & Hge). destruct (Hent x (Hpos x Hx)) as [H1 _]. specialize (H1 Hx).
    pose proof (entry_outside (set_fat f d v) x (Hpos x Hx)) as Ho. unfold entry in Ho. cbn [g_fat set_fat] in Ho.
    rewrite Ho in H1; [done|]. intros Hf%Hok; [lia|done|by apply Hpos].
Qed.

(** A table in which clusters 2 and 3 link to each other. *)
Definition cyclic_vol : fat12 memdisk :=
  set_fat ([0xF0; 0xFF; 0xFF; 0x03; 0x20; 0x00] ++ replicate 4602 0) false one_file_vol.

Lemma fat12_delete_walk_terminates_witness :
  ∃ f d, free_chain 4096 2 cyclic_vol = Ok (tt, set_fat f d cyclic_vol) ∧ fat_get_in f 2 = Ok 0 ∧ fat_get_in f 3 = Ok 0.
Proof.
  assert (E2 : entry cyclic_vol 2 = Ok 3) by (vm_compute; reflexivity).
  assert (E3 : entry cyclic_vol 3 = Ok 2) by (vm_compute; reflexivity).
  destruct (fat12_delete_walk_terminates cyclic_vol 2) as [Hend _].
  - apply (bool_decide_unpack _). vm_compute. exact I.
  - vm_compute. reflexivity.
  - lia.
  - assert (Hw : on_walk cyclic_vol 2 3).
    { split; [|reflexivity]. eapply star_snoc; [apply star_refl|]. split; [reflexivity|exact E2]. }
    destruct Hend as (f & d & Hrun & Hent).
    + intros x [Hs _]. assert (x = 2 ∨ x = 3) as Hx; [|lia].
      remember 2 as a eqn:Ha in Hs. induction Hs as [a|a b c Hs IH [_ Hl]]; [left; exact Ha|]. subst a.
      destruct (IH eq_refl) as [-> | ->]; [rewrite E2 in Hl|rewrite E3 in Hl]; injection Hl as <-; [right|left]; reflexivity.
    + exists f, d. split; [exact Hrun|]. split; apply Hent; [lia|split; [apply star_refl|reflexivity]|lia|exact Hw].
Defined.

(** Writing a twelve-bit value to an entry of the cached table makes exactly
    that entry read as the value: the entry that shares its middle byte and every
    other one keep theirs. *)
Theorem fat_entry_roundtrip {D} `{Disk D} (v : fat12 D) n x :
  bytes (g_fat v) → fat_ok (g_fat v) n → 0 ≤ x < 4096 →
  ∃ v', fat_set n x v = Ok (tt, v') ∧ fat_get n v' = Ok (x, v') ∧
    ∀ m e, fat_ok (g_fat v) m → m ≠ n → fat_get m v = Ok (e, v) → fat_get m v' = Ok (e, v').
Proof.
  intros Hb Hok Hx. destruct (fat_set_in_spec (g_fat v) n x Hb Hok Hx) as (f' & Hset & _ & _ & Hg & Ho).
  exists (set_fat f' true v). unfold fat_set, fat_get, mbind, M_bind, get, lift, put. rewrite Hset.
  cbn [g_fat set_fat]. rewrite Hg. split; [done|]. split; [done|].
  intros m e Hm Hne. rewrite Ho by done. by destruct (fat_get_in (g_fat v) m) as [y| |]; [intros [= ->]|..].
Qed.

Lemma fat_entry_roundtrip_witness :
  ∃ v', fat_set 3 0xABC one_file_vol = Ok (tt, v') ∧ fat_get 3 v' = Ok (0xABC, v') ∧ fat_get 2 v' = Ok (3, v').
Proof.
  destruct (fat_entry_roundtrip one_file_vol 3 0xABC (v_fat_bytes _ _ _ _ one_file_vol_wf)) as (v' & H1 & H2 & H3).
  - split; vm_compute; congruence.
  - lia.
  - exists v'. split; [exact H1|]. split; [exact H2|]. apply (H3 2 3); [|lia|vm_compute; reflexivity].
    split; vm_compute; congruence.
Defined.
