(* ===== verification/Sched.v ===== *)
(** * The task scheduler (src/src/sched.c, src/boot/sched_switch.asm)

    The task table, the registers of the processor and the words of kernel memory
    that hold the task stacks. Stacks come from the kernel allocator, which is the
    interface [Allocator] here. [now] is the tick counter of the timer. The fields
    of a task that only the system calls use (working directory, arguments, break)
    are not part of this model. *)

From S2P Require Import Prelude KString KMalloc.

Definition SCHED_STACK_SIZE : Z := 4096.
Definition SCHED_MAX_TASKS : Z := 16.
Definition SCHED_QUANTUM : Z := 10.

Inductive task_state_t := TASK_RUNNING | TASK_READY | TASK_SLEEPING | TASK_DEAD | TASK_ZOMBIE.

#[global] Instance task_state_eq_dec : EqDecision task_state_t.
Proof. solve_decision. Defined.

Record task_t := mkTask {
  esp : Z;
  stack : Z;
  stack_size : Z;
  state : task_state_t;
  pid : Z;
  parent_pid : Z;
  exit_code : Z;
  name : list Z;
  ticks : Z;
  sleep_until : Z;
  kum_level : Z
}.

(** [kmemset(tasks, 0, ...)]: an unused slot. *)
Definition task0 : task_t := mkTask 0 0 0 TASK_RUNNING 0 0 0 (replicate 32 0) 0 0 0.

#[global] Instance task_inhabited : Inhabited task_t := populate task0.

Definition set_state (st : task_state_t) (t : task_t) : task_t :=
  mkTask (esp t) (stack t) (stack_size t) st (pid t) (parent_pid t) (exit_code t) (name t)
         (ticks t) (sleep_until t) (kum_level t).
Definition set_esp (e : Z) (t : task_t) : task_t :=
  mkTask e (stack t) (stack_size t) (state t) (pid t) (parent_pid t) (exit_code t) (name t)
         (ticks t) (sleep_until t) (kum_level t).
Definition set_stack (k : Z) (t : task_t) : task_t :=
  mkTask (esp t) k (stack_size t) (state t) (pid t) (parent_pid t) (exit_code t) (name t)
         (ticks t) (sleep_until t) (kum_level t).
Definition set_exit (c : Z) (t : task_t) : task_t :=
  mkTask (esp t) (stack t) (stack_size t) (state t) (pid t) (parent_pid t) c (name t)
         (ticks t) (sleep_until t) (kum_level t).
Definition set_ticks (n : Z) (t : task_t) : task_t :=
  mkTask (esp t) (stack t) (stack_size t) (state t) (pid t) (parent_pid t) (exit_code t) (name t)
         n (sleep_until t) (kum_level t).
Definition set_sleep (w : Z) (t : task_t) : task_t :=
  mkTask (esp t) (stack t) (stack_size t) TASK_SLEEPING (pid t) (parent_pid t) (exit_code t) (name t)
         (ticks t) w (kum_level t).

(** What the scheduler uses of the kernel allocator: a block or 0, and release. *)
Class Allocator (H : Type) := {
  alloc : Z → H → res (Z * H);
  release : Z → H → res H
}.

(** The allocator of src/src/kmalloc.c; its free list is never longer than the heap
    has bytes. *)
#[export] Instance kmalloc_allocator : Allocator kheap := {
  alloc sz h := kmalloc (S (Z.to_nat (u32 (heap_end h - heap_start h)))) sz h;
  release p h := kfree p h
}.

(** The registers [switch_context] saves, the stack pointer and the program counter. *)
Record cpu_t := mkCpu { c_esp : Z; c_ebp : Z; c_ebx : Z; c_esi : Z; c_edi : Z; c_eip : Z }.

Section sched.
Context {H : Type} `{Allocator H}.

Record sched := mkSched {
  tasks : list task_t;
  task_count : Z;
  current_idx : Z;
  next_pid : Z;
  tick_accum : Z;
  now : Z;
  heap : H;
  kmem : gmap Z Z;
  cpu : cpu_t;
  tss_esp0 : Z
}.

Definition set_tasks (ts : list task_t) (s : sched) : sched :=
  mkSched ts (task_count s) (current_idx s) (next_pid s) (tick_accum s) (now s) (heap s) (kmem s)
          (cpu s) (tss_esp0 s).
Definition set_counts (tc np : Z) (s : sched) : sched :=
  mkSched (tasks s) tc (current_idx s) np (tick_accum s) (now s) (heap s) (kmem s) (cpu s) (tss_esp0 s).
Definition set_current (c : Z) (s : sched) : sched :=
  mkSched (tasks s) (task_count s) c (next_pid s) (tick_accum s) (now s) (heap s) (kmem s) (cpu s)
          (tss_esp0 s).
Definition set_accum (a : Z) (s : sched) : sched :=
  mkSched (tasks s) (task_count s) (current_idx s) (next_pid s) a (now s) (heap s) (kmem s) (cpu s)
          (tss_esp0 s).
Definition set_heap (h : H) (s : sched) : sched :=
  mkSched (tasks s) (task_count s) (current_idx s) (next_pid s) (tick_accum s) (now s) h (kmem s)
          (cpu s) (tss_esp0 s).
Definition set_kmem (m : gmap Z Z) (s : sched) : sched :=
  mkSched (tasks s) (task_count s) (current_idx s) (next_pid s) (tick_accum s) (now s) (heap s) m
          (cpu s) (tss_esp0 s).
Definition set_cpu (m : gmap Z Z) (c : cpu_t) (s : sched) : sched :=
  mkSched (tasks s) (task_count s) (current_idx s) (next_pid s) (tick_accum s) (now s) (heap s) m
          c (tss_esp0 s).
Definition set_tss (e : Z) (s : sched) : sched :=
  mkSched (tasks s) (task_count s) (current_idx s) (next_pid s) (tick_accum s) (now s) (heap s)
          (kmem s) (cpu s) e.

(** [tasks[i]], and an update of it. *)
Definition task (s : sched) (i : Z) : res task_t := arr_get (tasks s) i.
Definition upd (i : Z) (f : task_t → task_t) : M sched unit := λ s,
  t ← task s i; ts ← arr_set (tasks s) i (f t); Ok (tt, set_tasks ts s).
Definition rd_task (i : Z) : M sched task_t := λ s, t ← task s i; Ok (t, s).

Definition word (m : gmap Z Z) (a : Z) : Z := default 0 (m !! a).

(** ** Context switches *)

(** [*--sp = w] for each word. *)
Fixpoint push_all (sp : Z) (ws : list Z) (m : gmap Z Z) : Z * gmap Z Z :=
  match ws with
  | [] => (sp, m)
  | w :: ws' => push_all (sp - 4) ws' (<[sp - 4 := w]> m)
  end.

Definition task_setup_stack (t : task_t) (entry : Z) (m : gmap Z Z) : task_t * gmap Z Z :=
  let sp := stack t + stack_size t in
  let '(sp', m') := push_all sp [0x10; sp - 4 + 20; 0x202; 0x08; entry; 0; 0; 0; 0; 0; 0; 0; 0; 0x10] m in
  (set_esp sp' t, m').

(** [switch_context]: on entry the stack pointer addresses the return address. The
    four callee-saved registers are pushed, the stack is changed, four registers
    are popped and the next word is the address execution continues at. The result
    is the saved stack pointer. *)
Definition switch_context (new_esp : Z) (m : gmap Z Z) (c : cpu_t) : Z * gmap Z Z * cpu_t :=
  let '(sp, m') := push_all (c_esp c) [c_ebp c; c_ebx c; c_esi c; c_edi c] m in
  (sp, m',
   mkCpu (new_esp + 20) (word m' (new_esp + 12)) (word m' (new_esp + 8)) (word m' (new_esp + 4))
         (word m' new_esp) (word m' (new_esp + 16))).

(** Both places that switch: the states, the current index, the kernel stack of the
    TSS and the registers. *)
Definition switch_to (next : Z) : M sched unit :=
  s ← get;
  let prev := current_idx s in
  p ← rd_task prev;
  (if decide (state p = TASK_RUNNING) then upd prev (set_state TASK_READY) else mret tt) ;;
  upd next (set_state TASK_RUNNING) ;;
  modify (set_current next) ;;
  n ← rd_task next;
  modify (set_tss (u32 (stack n + stack_size n))) ;;
  s ← get;
  let '(sp, m', c') := switch_context (esp n) (kmem s) (cpu s) in
  upd prev (set_esp sp) ;;
  modify (set_cpu m' c').

(** ** Scheduling *)

(** A sleeping task whose time has come. *)
Definition wake (t : Z) (k : task_t) : task_t :=
  if decide (state k = TASK_SLEEPING) then
    if sleep_until k <=? t then set_state TASK_READY k else k
  else k.

Definition runnable (k : task_t) : bool :=
  match state k with TASK_READY | TASK_RUNNING => true | _ => false end.

(** The [do ... while] loop of [pick_next]; [n] turns are left. *)
Fixpoint pick_loop (n : nat) (i : Z) : M sched Z :=
  match n with
  | O => mret 0
  | S n' =>
      s ← get;
      upd i (wake (now s)) ;;
      t ← rd_task i;
      if runnable t then mret i else pick_loop n' ((i + 1) mod task_count s)
  end.

Definition pick_next : M sched Z :=
  s ← get;
  if task_count s =? 0 then lift Fault
  else pick_loop (Z.to_nat (task_count s)) ((current_idx s + 1) mod task_count s).

Definition sched_yield : M sched unit :=
  next ← pick_next;
  s ← get;
  if next =? current_idx s then mret tt else switch_to next.

Fixpoint map_first (n : nat) (f : task_t → task_t) (l : list task_t) : list task_t :=
  match n, l with
  | S n', t :: l' => f t :: map_first n' f l'
  | _, _ => l
  end.

Definition sched_tick : M sched unit :=
  s ← get;
  upd (current_idx s) (λ t, set_ticks (u32 (ticks t + 1)) t) ;;
  modify (λ s, set_accum (u32 (tick_accum s + 1)) s) ;;
  modify (λ s, set_tasks (map_first (Z.to_nat (task_count s)) (wake (now s)) (tasks s)) s) ;;
  s ← get;
  if SCHED_QUANTUM <=? tick_accum s then
    modify (set_accum 0) ;;
    next ← pick_next;
    s ← get;
    if next =? current_idx s then mret tt else switch_to next
  else mret tt.

(** ** Creating and ending tasks *)

Definition new_task (k sz p pp lvl : Z) (nm : list Z) (st : task_state_t) (e su : Z) : task_t :=
  mkTask e k sz st p pp 0 nm 0 su lvl.

(** [kstrcpy] into the 32 bytes of a name. *)
Definition set_name (old nm : list Z) : res (list Z) := kstrcpy old nm.

Definition free_slot (t : task_t) : bool :=
  bool_decide (state t = TASK_DEAD) || bool_decide (state t = TASK_ZOMBIE) || (pid t =? 0).

Definition sched_spawn (nm : list Z) (entry lvl : Z) : M sched Z :=
  s ← get;
  if SCHED_MAX_TASKS <=? task_count s then mret (-1)
  else
    r ← lift (alloc SCHED_STACK_SIZE (heap s));
    let '(stk, h) := r in
    modify (set_heap h) ;;
    if stk =? 0 then mret (-1)
    else
      let slot := match find_idx free_slot (tasks s) with
                  | Some i => Z.of_nat i
                  | None => task_count s
                  end in
      if SCHED_MAX_TASKS <=? slot then
        h' ← lift (release stk h); modify (set_heap h') ;; mret (-1)
      else
        cur ← rd_task (current_idx s);
        old ← rd_task slot;
        nm' ← lift (set_name (name old) nm);
        let p := next_pid s in
        let parent := if slot =? current_idx s then p else pid cur in
        let '(t, m) := task_setup_stack
             (new_task stk SCHED_STACK_SIZE p parent lvl nm' TASK_READY (esp old) (sleep_until old))
             entry (kmem s) in
        upd slot (λ _, t) ;;
        modify (set_kmem m) ;;
        modify (λ s, set_counts (if task_count s <=? slot then slot + 1 else task_count s)
                                (i32 (p + 1)) s) ;;
        mret p.

(** Whether a live task with this pid is among the first [task_count]. *)
Definition live (t : task_t) : bool :=
  negb (bool_decide (state t = TASK_DEAD)) && negb (bool_decide (state t = TASK_ZOMBIE)).
Definition first_tasks (s : sched) : list task_t := take (Z.to_nat (task_count s)) (tasks s).
Definition has_parent (s : sched) (t : task_t) : bool :=
  bool_decide (is_Some (find_idx (λ k, (pid k =? parent_pid t) && live k) (first_tasks s))).

Definition sched_exit_code (code : Z) : M sched unit :=
  s ← get;
  let i := current_idx s in
  upd i (set_exit code) ;;
  s ← get;
  t ← rd_task i;
  upd i (set_state (if has_parent s t then TASK_ZOMBIE else TASK_DEAD)) ;;
  (if stack t =? 0 then mret tt
   else
     h ← lift (release (stack t) (heap s));
     modify (set_heap h) ;;
     upd i (set_stack 0)) ;;
  sched_yield.

Definition sched_exit : M sched unit := sched_exit_code 0.

Definition sched_sleep (ms : Z) : M sched unit :=
  s ← get;
  upd (current_idx s) (set_sleep (u32 (now s + u32 (ms * 100) / 1000))) ;;
  sched_yield.

Definition sched_current : M sched Z := gets current_idx.

(** The index of the task, [None] for NULL. *)
Definition sched_get_task (p : Z) (s : sched) : option nat :=
  find_idx (λ t, (pid t =? p) && negb (bool_decide (state t = TASK_DEAD))) (first_tasks s).

(** ** Waiting

    [env k] is what has happened when the [k]-th yield of the waiting task
    returns: the other tasks have run. *)
Definition ended (t : task_t) : bool :=
  bool_decide (state t = TASK_ZOMBIE) || bool_decide (state t = TASK_DEAD).

Fixpoint sched_waitpid (fuel k : nat) (env : nat → M sched unit) (p : Z) : M sched Z :=
  s ← get;
  match find_idx (λ t, pid t =? p) (first_tasks s) with
  | None => mret 0
  | Some i =>
      t ← rd_task (Z.of_nat i);
      if ended t then upd (Z.of_nat i) (set_state TASK_DEAD) ;; mret (exit_code t)
      else
        match fuel with
        | O => lift Timeout
        | S fuel' => env k ;; sched_waitpid fuel' (S k) env p
        end
  end.

(** The pid and the exit code, [None] for -1. *)
Fixpoint sched_wait (fuel k : nat) (env : nat → M sched unit) (my_pid : Z) : M sched (option (Z * Z)) :=
  s ← get;
  match find_idx (λ t, (parent_pid t =? my_pid) && ended t) (first_tasks s) with
  | Some i =>
      t ← rd_task (Z.of_nat i);
      upd (Z.of_nat i) (set_state TASK_DEAD) ;;
      mret (Some (pid t, exit_code t))
  | None =>
      match find_idx (λ t, (parent_pid t =? my_pid) && negb (bool_decide (state t = TASK_DEAD)))
                     (first_tasks s) with
      | None => mret None
      | Some _ =>
          match fuel with
          | O => lift Timeout
          | S fuel' => env k ;; sched_wait fuel' (S k) env my_pid
          end
      end
  end.

(** ** Start-up *)

Definition boot_task (p : Z) (nm : list Z) (st : task_state_t) (k sz : Z) : task_t :=
  mkTask 0 k sz st p 0 0 (take 32 (nm ++ replicate 32 0)) 0 0 1.

Definition sched_init (entry_idle : Z) : M sched unit :=
  s ← get;
  let p := next_pid s in
  let ts := <[0%nat := boot_task p (str "kshell") TASK_RUNNING 0 0]>
              (replicate (Z.to_nat SCHED_MAX_TASKS) task0) in
  modify (λ s, set_current 0 (set_accum 0 (set_counts 1 (i32 (p + 1)) (set_tasks ts s)))) ;;
  r ← lift (alloc SCHED_STACK_SIZE (heap s));
  let '(stk, h) := r in
  modify (set_heap h) ;;
  if stk =? 0 then mret tt
  else
    let '(t, m) := task_setup_stack
         (boot_task (i32 (p + 1)) (str "idle") TASK_READY stk SCHED_STACK_SIZE) entry_idle (kmem s) in
    upd 1 (λ _, t) ;;
    modify (set_kmem m) ;;
    modify (λ s, set_counts 2 (i32 (i32 (p + 1) + 1)) s).

End sched.
Arguments sched H : clear implicits.

(** ** Runs

    What the tasks of the system ask of the scheduler, in the order it happens. A
    blocked wait is a poll and a yield, repeated. *)
Inductive event :=
| EvYield
| EvTick
| EvSleep (ms : Z)
| EvExit (code : Z)
| EvSpawn (nm : list Z) (entry lvl : Z)
| EvWaitpid (p : Z)
| EvTimer (t : Z)
| EvWork (m : gmap Z Z) (c : cpu_t).

Section runs.
Context {H : Type} `{Allocator H}.

Definition set_now (t : Z) (s : sched H) : sched H :=
  mkSched (tasks s) (task_count s) (current_idx s) (next_pid s) (tick_accum s) t (heap s) (kmem s)
          (cpu s) (tss_esp0 s).

Definition exec (e : event) : M (sched H) unit :=
  match e with
  | EvYield => sched_yield
  | EvTick => sched_tick
  | EvSleep ms => sched_sleep ms
  | EvExit code => sched_exit_code code
  | EvSpawn nm entry lvl => sched_spawn nm entry lvl ;; mret tt
  | EvWaitpid p => sched_waitpid 0 0 (λ _, mret tt) p ;; mret tt
  | EvTimer t => modify (set_now t)
  | EvWork m c => modify (set_cpu m c)
  end.

Fixpoint exec_all (es : list event) : M (sched H) unit :=
  match es with
  | [] => mret tt
  | e :: es' => exec e ;; exec_all es'
  end.

Definition yields (e : event) : bool :=
  match e with EvYield | EvSleep _ | EvExit _ => true | _ => false end.
Definition spawns (e : event) : bool :=
  match e with EvSpawn _ _ _ => true | _ => false end.

(** The index within the table; the slots above [task_count] were never used. *)
Record sched_wf (s : sched H) : Prop := {
  wf_len : length (tasks s) = 16%nat;
  wf_cur : 0 ≤ current_idx s < task_count s;
  wf_count : task_count s ≤ 16;
  wf_unused : ∀ k t, tasks s !! k = Some t → task_count s ≤ Z.of_nat k → pid t = 0
}.

(** At most the current task is running; pids are positive and distinct. *)
Record sched_inv (s : sched H) : Prop := {
  inv_wf : sched_wf s;
  inv_running : ∀ k t, tasks s !! k = Some t → Z.of_nat k < task_count s →
    state t = TASK_RUNNING → Z.of_nat k = current_idx s;
  inv_pids : ∀ k t, tasks s !! k = Some t → Z.of_nat k < task_count s → 0 < pid t < next_pid s;
  inv_distinct : ∀ j k t u, tasks s !! j = Some t → tasks s !! k = Some u →
    Z.of_nat j < task_count s → Z.of_nat k < task_count s → pid t = pid u → j = k
}.

(** The task would run if its turn came now. *)
Definition awake (s : sched H) (i : Z) : Prop :=
  ∃ t, tasks s !! Z.to_nat i = Some t ∧ runnable (wake (now s) t) = true.

(** The first task after the current one, in cyclic order, that can run; slot 0
    when there is none. *)
Definition round_robin (s : sched H) (next : Z) : Prop :=
  (∃ m, 0 ≤ m < task_count s ∧ next = (current_idx s + 1 + m) mod task_count s ∧ awake s next ∧
        ∀ m', 0 ≤ m' < m → ¬ awake s ((current_idx s + 1 + m') mod task_count s)) ∨
  (next = 0 ∧ ∀ k, 0 ≤ k < task_count s → ¬ awake s k).

(** *** Table accesses *)

Lemma task_upd_ok i f (s : sched H) t :
  0 ≤ i → tasks s !! Z.to_nat i = Some t →
  upd i f s = Ok (tt, set_tasks (<[Z.to_nat i := f t]> (tasks s)) s).
Proof.
  intros Hi Ht. unfold upd, task. rewrite (proj2 (arr_get_Ok _ _ _) (conj Hi Ht)). cbn.
  rewrite arr_set_in; [done|]. apply lookup_lt_Some in Ht. lia.
Qed.

Lemma task_upd_inv i f (s : sched H) r :
  upd i f s = Ok r →
  0 ≤ i ∧ ∃ t, tasks s !! Z.to_nat i = Some t ∧
    r = (tt, set_tasks (<[Z.to_nat i := f t]> (tasks s)) s).
Proof.
  unfold upd, task. intros (t & [Hi Ht]%arr_get_Ok & (ts & [_ ->]%arr_set_Ok & [= <-])%res_bind_Ok)%res_bind_Ok.
  eauto.
Qed.

Lemma rd_task_ok i (s : sched H) t :
  0 ≤ i → tasks s !! Z.to_nat i = Some t → rd_task i s = Ok (t, s).
Proof. intros Hi Ht. unfold rd_task, task. by rewrite (proj2 (arr_get_Ok _ _ _) (conj Hi Ht)). Qed.

Lemma task_at (s : sched H) i : sched_wf s → 0 ≤ i < 16 → ∃ t, tasks s !! Z.to_nat i = Some t.
Proof. intros Hw Hi. apply lookup_lt_is_Some_2. rewrite (wf_len _ Hw). lia. Qed.

Lemma wake_idem n t : wake n (wake n t) = wake n t.
Proof.
  unfold wake at 2 3. case_decide; [|unfold wake; by rewrite decide_False].
  destruct (sleep_until t <=? n) eqn:E; [done|]. unfold wake. by rewrite decide_True, E.
Qed.

Lemma wake_state n t : state (wake n t) = state t ∨ (state t = TASK_SLEEPING ∧ state (wake n t) = TASK_READY).
Proof. unfold wake. case_decide; [|by left]. case_if; [by right|by left]. Qed.

(** [k'] is the task [k], possibly woken. *)
Definition woken (n : Z) (k k' : task_t) : Prop := k' = k ∨ k' = wake n k.

(** The tables agree up to waking sleepers. *)
Record rested (s s' : sched H) : Prop := {
  re_frame : ∃ ts, s' = set_tasks ts s;
  re_len : length (tasks s') = length (tasks s);
  re_task : ∀ k t, tasks s !! k = Some t → ∃ t', tasks s' !! k = Some t' ∧ woken (now s) t t'
}.

Lemma rested_refl s : rested s s.
Proof.
  constructor; [by exists (tasks s); destruct s|done|]. intros k t Ht. exists t. split; [done|by left].
Qed.

Lemma rested_trans s s' s'' : rested s s' → rested s' s'' → rested s s''.
Proof.
  intros [[ts ->] Hl Ht] [[ts' ->] Hl' Ht']. cbn in *. constructor; cbn.
  - by exists ts'.
  - congruence.
  - intros k t Hk. destruct (Ht k t Hk) as (t1 & Hk1 & Hw1).
    destruct (Ht' k t1 Hk1) as (t2 & Hk2 & Hw2). exists t2. split; [done|].
    unfold woken in *. destruct Hw1 as [->| ->], Hw2 as [->| ->]; rewrite ?wake_idem; auto.
Qed.

Lemma rested_awake s s' i : rested s s' → awake s' i ↔ awake s i.
Proof.
  intros [[ts ->] Hl Ht]. cbn in *. unfold awake; cbn. split.
  - intros (t' & Hk' & Hr). assert (is_Some (tasks s !! Z.to_nat i)) as [t Hk].
    { apply lookup_lt_is_Some_2. rewrite <- Hl. by eapply lookup_lt_Some. }
    exists t. split; [done|]. destruct (Ht _ _ Hk) as (t2 & Hk2 & Hw). simplify_eq.
    destruct Hw as [->| ->]; rewrite ?wake_idem in Hr; done.
  - intros (t & Hk & Hr). destruct (Ht _ _ Hk) as (t' & Hk' & Hw). exists t'. split; [done|].
    destruct Hw as [->| ->]; rewrite ?wake_idem; done.
Qed.

Lemma rested_wf s s' : rested s s' → sched_wf s → sched_wf s'.
Proof.
  intros [[ts ->] Hl Ht] [Hw1 Hw2 Hw3 Hw4]. cbn in *. constructor; cbn; [congruence|done|done|].
  intros k t' Hk' Hc. assert (is_Some (tasks s !! k)) as [t Hk].
  { apply lookup_lt_is_Some_2. rewrite <- Hl. by eapply lookup_lt_Some. }
  destruct (Ht _ _ Hk) as (t2 & Hk2 & Hwk). simplify_eq.
  assert (pid t' = pid t) as ->; [|by eapply Hw4].
  destruct Hwk as [->| ->]; [done|]. unfold wake. case_decide; [case_if|]; done.
Qed.

(** *** Picking the next task *)

Lemma rested_upd (s : sched H) i t :
  tasks s !! Z.to_nat i = Some t →
  rested s (set_tasks (<[Z.to_nat i := wake (now s) t]> (tasks s)) s).
Proof.
  intros Ht. constructor; cbn; [eauto|by rewrite length_insert|]. intros k u Hu.
  destruct (decide (k = Z.to_nat i)) as [->|Hne].
  - simplify_eq. exists (wake (now s) t). split; [|by right].
    apply list_lookup_insert_eq. by eapply lookup_lt_Some.
  - exists u. split; [by rewrite list_lookup_insert_ne|by left].
Qed.

Lemma pick_loop_spec n i s :
  sched_wf s → 0 ≤ i < task_count s →
  ∃ r s', pick_loop n i s = Ok (r, s') ∧ rested s s' ∧
    ((∃ m, 0 ≤ m < Z.of_nat n ∧ r = (i + m) mod task_count s ∧ awake s r ∧
       ∀ m', 0 ≤ m' < m → ¬ awake s ((i + m') mod task_count s)) ∨
     (r = 0 ∧ ∀ m', 0 ≤ m' < Z.of_nat n → ¬ awake s ((i + m') mod task_count s))).
Proof.
  revert i s. induction n as [|n IH]; intros i s Hw Hi.
  { exists 0, s. split; [done|]. split; [apply rested_refl|]. right. split; [done|]. lia. }
  pose proof (wf_count _ Hw) as Hc.
  destruct (task_at s i Hw) as [t Ht]; [lia|].
  pose proof (rested_upd s i t Ht) as Hr. set (s1 := set_tasks _ s) in *.
  assert (tasks s1 !! Z.to_nat i = Some (wake (now s) t)) as Ht1.
  { apply list_lookup_insert_eq. by eapply lookup_lt_Some. }
  assert (pick_loop (S n) i s = if runnable (wake (now s) t) then Ok (i, s1)
                                else pick_loop n ((i + 1) mod task_count s) s1) as ->.
  { cbn [pick_loop]. unfold mbind, M_bind, get. rewrite (task_upd_ok i _ _ t) by (done || lia).
    fold s1. rewrite (rd_task_ok i s1 _) by (done || eassumption || lia). by destruct (runnable _). }
  destruct (runnable (wake (now s) t)) eqn:Er.
  - exists i, s1. split; [done|]. split; [done|]. left. exists 0.
    rewrite Z.add_0_r, Z.mod_small by lia. split; [lia|]. split_and!; [done|by exists t|lia].
  - destruct (IH ((i + 1) mod task_count s) s1) as (r & s' & Heq & Hr' & Hcase).
    { by eapply rested_wf. }
    { change (task_count s1) with (task_count s). apply Z.mod_pos_bound. lia. }
    change (task_count s1) with (task_count s) in Hcase.
    assert (∀ m', ((i + 1) mod task_count s + m') mod task_count s = (i + (m' + 1)) mod task_count s) as Hm.
    { intros m'. rewrite Z.add_mod_idemp_l by lia. f_equal. lia. }
    assert (∀ m, (∀ m', 0 ≤ m' < m → ¬ awake s (((i + 1) mod task_count s + m') mod task_count s)) →
                 ∀ m', 0 ≤ m' < m + 1 → ¬ awake s ((i + m') mod task_count s)) as Hshift.
    { intros m Hall m' Hm'. destruct (decide (m' = 0)) as [->|].
      - rewrite Z.add_0_r, Z.mod_small by lia. intros (t' & ? & ?). congruence.
      - specialize (Hall (m' - 1)). rewrite Hm in Hall.
        replace (m' - 1 + 1) with m' in Hall by lia. apply Hall. lia. }
    exists r, s'. split; [done|]. split; [by eapply rested_trans|].
    destruct Hcase as [(m & Hmn & -> & Ha & Hall)|[-> Hall]].
    + left. exists (m + 1). rewrite (rested_awake _ _ _ Hr) in Ha. rewrite Hm in *.
      split; [lia|]. split_and!; [done|done|]. apply Hshift. intros m' ?. rewrite <- (rested_awake _ _ _ Hr). by apply Hall.
    + right. split; [done|]. intros m' Hm'. apply (Hshift (Z.of_nat n)); [|lia].
      intros m'' ?. rewrite <- (rested_awake _ _ _ Hr). by apply Hall.
Qed.

Lemma cyclic_index c i k : 0 < c → 0 ≤ k < c → (i + (k - i) mod c) mod c = k.
Proof. intros. rewrite Z.add_mod_idemp_r by lia. replace (i + (k - i)) with k by lia. apply Z.mod_small. lia. Qed.

Lemma pick_next_spec s :
  sched_wf s → ∃ r s', pick_next s = Ok (r, s') ∧ rested s s' ∧ round_robin s r.
Proof.
  intros Hw. pose proof (wf_cur _ Hw) as Hcur.
  destruct (pick_loop_spec (Z.to_nat (task_count s)) ((current_idx s + 1) mod task_count s) s)
    as (r & s' & Heq & Hr & Hcase); [done|apply Z.mod_pos_bound; lia|].
  exists r, s'. split_and!; [|done|].
  { unfold pick_next, mbind, M_bind, get. rewrite (proj2 (Z.eqb_neq _ _)) by lia. done. }
  rewrite Z2Nat.id in Hcase by lia.
  destruct Hcase as [(m & Hm & -> & Ha & Hall)|[-> Hall]].
  - left. exists m. rewrite Z.add_mod_idemp_l in * by lia. split; [lia|]. split_and!; [done|done|].
    intros m' Hm'. rewrite <- Z.add_mod_idemp_l by lia. by apply Hall.
  - right. split; [done|]. intros k Hk.
    specialize (Hall ((k - (current_idx s + 1) mod task_count s) mod task_count s)).
    rewrite cyclic_index in Hall by lia. apply Hall. apply Z.mod_pos_bound. lia.
Qed.

Lemma round_robin_range s r : sched_wf s → round_robin s r → 0 ≤ r < task_count s.
Proof.
  intros Hw. pose proof (wf_cur _ Hw). intros [(m & ? & -> & _)|[-> _]]; [|lia].
  apply Z.mod_pos_bound. lia.
Qed.

(** *** Switching *)

(** What a reschedule leaves of a task: everything but its state and saved stack
    pointer. *)
Definition same_id (t t' : task_t) : Prop :=
  pid t' = pid t ∧ parent_pid t' = parent_pid t ∧ exit_code t' = exit_code t ∧ stack t' = stack t.

Lemma same_id_refl t : same_id t t.
Proof. done. Qed.
Lemma same_id_trans t u v : same_id t u → same_id u v → same_id t v.
Proof. unfold same_id. naive_solver congruence. Qed.
Lemma woken_same n t u : woken n t u → same_id t u.
Proof. intros [->| ->]; [done|]. unfold wake. case_decide; [case_if|]; done. Qed.

(** The state of task [k] when the processor goes from [cur] to [next]. *)
Definition handover (cur next k : Z) (st : task_state_t) : task_state_t :=
  if decide (cur = next) then st
  else if decide (k = next) then TASK_RUNNING
  else if decide (k = cur) then (if decide (st = TASK_RUNNING) then TASK_READY else st)
  else st.

Record resched (s : sched H) (next : Z) (s' : sched H) : Prop := {
  rs_count : task_count s' = task_count s;
  rs_npid : next_pid s' = next_pid s;
  rs_now : now s' = now s;
  rs_heap : heap s' = heap s;
  rs_len : length (tasks s') = length (tasks s);
  rs_cur : current_idx s' = next;
  rs_task : ∀ k t, tasks s !! k = Some t → ∃ u t', woken (now s) t u ∧ tasks s' !! k = Some t' ∧
    same_id u t' ∧ state t' = handover (current_idx s) next (Z.of_nat k) (state u)
}.

Lemma same_insert {s : sched H} i t (f : task_t → task_t) k u :
  tasks s !! i = Some t → tasks s !! k = Some u →
  <[i := f t]> (tasks s) !! k = Some (if decide (k = i) then f u else u).
Proof.
  intros Hi Hk. case_decide as Hd.
  - subst. simplify_eq. apply list_lookup_insert_eq. by eapply lookup_lt_Some.
  - by rewrite list_lookup_insert_ne by done.
Qed.

Definition same_frame (s s' : sched H) : Prop :=
  task_count s' = task_count s ∧ next_pid s' = next_pid s ∧ now s' = now s ∧ heap s' = heap s.

Lemma switch_to_spec s next :
  sched_wf s → 0 ≤ next < task_count s → next ≠ current_idx s →
  ∃ s' n, switch_to next s = Ok (tt, s') ∧
    tasks s !! Z.to_nat next = Some n ∧
    (∃ sp, switch_context (esp n) (kmem s) (cpu s) = (sp, kmem s', cpu s') ∧
           (∃ p, tasks s' !! Z.to_nat (current_idx s) = Some p ∧ esp p = sp)) ∧
    same_frame s s' ∧ length (tasks s') = length (tasks s) ∧ current_idx s' = next ∧
    ∀ k t, tasks s !! k = Some t → ∃ t', tasks s' !! k = Some t' ∧ same_id t t' ∧
      state t' = handover (current_idx s) next (Z.of_nat k) (state t).
Proof.
  intros Hw Hn Hne. pose proof (wf_cur _ Hw). pose proof (wf_count _ Hw).
  destruct (task_at s (current_idx s) Hw) as [p Hp]; [lia|].
  destruct (task_at s next Hw) as [n Hnx]; [lia|].
  set (prev := current_idx s) in *.
  set (p1 := if decide (state p = TASK_RUNNING) then set_state TASK_READY p else p).
  set (n1 := set_state TASK_RUNNING n).
  set (ts1 := <[Z.to_nat prev := p1]> (tasks s)).
  set (ts2 := <[Z.to_nat next := n1]> ts1).
  destruct (switch_context (esp n) (kmem s) (cpu s)) as [[sp m'] c'] eqn:Hsw.
  set (ts3 := <[Z.to_nat prev := set_esp sp p1]> ts2).
  assert (Z.to_nat prev ≠ Z.to_nat next) as Hneq by lia.
  pose proof (lookup_lt_Some _ _ _ Hp) as Hlp. pose proof (lookup_lt_Some _ _ _ Hnx) as Hln.
  assert (ts1 !! Z.to_nat next = Some n) as HL1 by (unfold ts1; by rewrite list_lookup_insert_ne).
  assert (ts2 !! Z.to_nat next = Some n1) as HL2.
  { apply list_lookup_insert_eq. unfold ts1. rewrite length_insert. lia. }
  assert (ts2 !! Z.to_nat prev = Some p1) as HL3.
  { unfold ts2. rewrite list_lookup_insert_ne by done. by apply list_lookup_insert_eq. }
  exists (mkSched ts3 (task_count s) next (next_pid s) (tick_accum s) (now s) (heap s) m' c'
            (u32 (stack n1 + stack_size n1))), n.
  split; [|split; [done|split; [|split; [done|split; [|split; [done|]]]]]].
  - unfold switch_to, mbind, M_bind, get. fold prev.
    rewrite (rd_task_ok prev s p) by (done || lia).
    assert ((if decide (state p = TASK_RUNNING) then upd prev (set_state TASK_READY) else mret tt) s
            = Ok (tt, set_tasks ts1 s)) as ->.
    { unfold ts1, p1. case_decide; [by rewrite (task_upd_ok prev _ s p) by (done || lia)|].
      rewrite (list_insert_id _ _ _ Hp). by destruct s. }
    rewrite (task_upd_ok next _ _ n) by (done || lia). unfold modify. cbn [tasks set_tasks].
    rewrite (rd_task_ok next _ n1) by (done || lia).
    cbn [kmem cpu set_tss set_current set_tasks esp n1 set_state]. rewrite Hsw.
    rewrite (task_upd_ok prev _ _ p1) by (done || lia). done.
  - exists sp. split; [done|]. exists (set_esp sp p1). split; [|done]. cbn.
    apply list_lookup_insert_eq. unfold ts2, ts1. rewrite !length_insert. lia.
  - cbn. unfold ts3, ts2, ts1. by rewrite !length_insert.
  - intros k t Hk. cbn. unfold handover. rewrite (decide_False (P := prev = next)) by lia.
    destruct (decide (k = Z.to_nat next)) as [->|Hkn].
    { simplify_eq. exists n1. unfold ts3. rewrite list_lookup_insert_ne by done.
      rewrite decide_True by lia. done. }
    rewrite decide_False by lia. destruct (decide (k = Z.to_nat prev)) as [->|Hkp].
    { simplify_eq. exists (set_esp sp p1). rewrite decide_True by lia. split_and!.
      - apply list_lookup_insert_eq. unfold ts2, ts1. rewrite !length_insert. lia.
      - unfold p1. case_decide; done.
      - unfold p1. case_decide; done. }
    exists t. rewrite decide_False by lia. unfold ts3, ts2, ts1.
    rewrite !list_lookup_insert_ne by done. done.
Qed.

Lemma rested_resched s s' : rested s s' → resched s (current_idx s) s'.
Proof.
  intros [[ts ->] Hl Ht]. constructor; try done.
  intros k t Hk. destruct (Ht k t Hk) as (t' & Hk' & Hwk). exists t', t'.
  split; [done|]. split; [done|]. split; [done|]. unfold handover. by rewrite decide_True.
Qed.

Lemma switch_resched s s1 next :
  sched_wf s → rested s s1 → 0 ≤ next < task_count s → next ≠ current_idx s →
  ∃ s', switch_to next s1 = Ok (tt, s') ∧ resched s next s'.
Proof.
  intros Hw Hr Hn Hne. pose proof (rested_wf _ _ Hr Hw) as Hw1.
  destruct Hr as [[ts ->] Hl Ht]. cbn in *.
  destruct (switch_to_spec (set_tasks ts s) next Hw1 Hn Hne)
    as (s' & n & Heq & _ & _ & (Hf1 & Hf2 & Hf3 & Hf4) & Hlen & Hcur & Htask).
  exists s'. split; [done|]. constructor; try done; [cbn in *; congruence|].
  intros k t Hk. destruct (Ht k t Hk) as (u & Hu & Hwk).
  destruct (Htask k u Hu) as (t' & Ht' & Hid & Hst). eauto 10.
Qed.

(** [sched_yield] goes to the round-robin choice. *)
Lemma sched_yield_spec s :
  sched_wf s → ∃ next s', sched_yield s = Ok (tt, s') ∧ round_robin s next ∧ resched s next s'.
Proof.
  intros Hw. destruct (pick_next_spec s Hw) as (r & s1 & Heq & Hr & Hrr).
  pose proof (round_robin_range _ _ Hw Hrr) as Hrange.
  assert (current_idx s1 = current_idx s) as Hc1 by (destruct Hr as [[ts ->] _ _]; done).
  unfold sched_yield, mbind, M_bind, get. rewrite Heq, Hc1. destruct (Z.eqb_spec r (current_idx s)).
  - subst. exists (current_idx s), s1. split; [done|]. split; [done|]. by apply rested_resched.
  - destruct (switch_resched s s1 r) as (s' & Heq' & Hrs); [done..|]. exists r, s'. done.
Qed.

(** *** Steps of a run

    Between two reschedules only the current task changes; another task is at most
    woken or reaped. *)
Definition others (t t' : task_t) : Prop :=
  exit_code t' = exit_code t ∧
  (state t' = state t ∨ (state t = TASK_SLEEPING ∧ state t' = TASK_READY) ∨
   (ended t = true ∧ state t' = TASK_DEAD)).

Record quiet (s s' : sched H) : Prop := {
  q_count : task_count s' = task_count s;
  q_cur : current_idx s' = current_idx s;
  q_npid : next_pid s' = next_pid s;
  q_len : length (tasks s') = length (tasks s);
  q_task : ∀ k t, tasks s !! k = Some t → ∃ t', tasks s' !! k = Some t' ∧ pid t' = pid t ∧
    (state t' = TASK_RUNNING → state t = TASK_RUNNING) ∧
    (Z.of_nat k ≠ current_idx s → others t t')
}.

Lemma others_trans t u v : others t u → others u v → others t v.
Proof.
  unfold others, ended. intros [He Hs] [He' Hs']. split; [congruence|].
  destruct (state t), (state u), (state v); naive_solver.
Qed.

Lemma quiet_refl s : quiet s s.
Proof. constructor; try done. intros k t Hk. exists t. unfold others. naive_solver. Qed.

Lemma quiet_trans s s1 s2 : quiet s s1 → quiet s1 s2 → quiet s s2.
Proof.
  intros [Ha1 Ha2 Ha3 Ha4 Ha5] [Hb1 Hb2 Hb3 Hb4 Hb5]. constructor; try congruence.
  intros k t Hk. destruct (Ha5 k t Hk) as (u & Hu & Hp & Hr & Ho).
  destruct (Hb5 k u Hu) as (v & Hv & Hp' & Hr' & Ho'). exists v. split; [done|]. split; [congruence|].
  split; [auto|]. intros Hne. rewrite Ha2 in Ho'. eauto using others_trans.
Qed.

(** Fields outside the table, counters apart. *)
Lemma quiet_frame s s' :
  tasks s' = tasks s → task_count s' = task_count s → current_idx s' = current_idx s →
  next_pid s' = next_pid s → quiet s s'.
Proof.
  intros Ht ? ? ?. constructor; try done; [by rewrite Ht|]. intros k t Hk. exists t.
  rewrite Ht. unfold others. naive_solver.
Qed.

(** An update of the current task that does not make it run. *)
Lemma quiet_current s f t :
  sched_wf s → tasks s !! Z.to_nat (current_idx s) = Some t →
  pid (f t) = pid t → (state (f t) = TASK_RUNNING → state t = TASK_RUNNING) →
  quiet s (set_tasks (<[Z.to_nat (current_idx s) := f t]> (tasks s)) s).
Proof.
  intros Hw Ht Hp Hr. pose proof (wf_cur _ Hw).
  constructor; try done; [cbn; by rewrite length_insert|].
  intros k u Hk. cbn. erewrite same_insert by done. case_decide; eexists; (split; [done|]).
  - subst. simplify_eq. split_and!; [done..|]. lia.
  - unfold others. naive_solver.
Qed.

Lemma quiet_reap s i t :
  tasks s !! i = Some t → ended t = true →
  quiet s (set_tasks (<[i := set_state TASK_DEAD t]> (tasks s)) s).
Proof.
  intros Ht He. constructor; try done; [cbn; by rewrite length_insert|].
  intros k u Hk. cbn. erewrite same_insert by done. case_decide; eexists; (split; [done|]).
  - subst. simplify_eq. cbn. unfold others. naive_solver.
  - unfold others. naive_solver.
Qed.

Lemma map_first_lookup n f l k :
  map_first n f l !! k = (if decide (k < n)%nat then f else id) <$> l !! k.
Proof.
  revert n k. induction l as [|t l IH]; intros [|n] [|k]; cbn; try done.
  - rewrite decide_False by lia. by destruct (l !! k).
  - rewrite IH. repeat case_decide; try lia; done.
Qed.
Lemma map_first_length n f l : length (map_first n f l) = length l.
Proof. revert n. induction l as [|t l IH]; intros [|n]; cbn; congruence. Qed.

Lemma quiet_wake_all s n :
  quiet s (set_tasks (map_first n (wake (now s)) (tasks s)) s).
Proof.
  constructor; try done; [cbn; by rewrite map_first_length|].
  intros k t Hk. cbn. rewrite map_first_lookup, Hk. eexists. split; [done|].
  case_decide; cbn; [|unfold others; naive_solver].
  destruct (woken_same (now s) t (wake (now s) t)) as (Hp & _ & He & _); [by right|].
  unfold others. destruct (wake_state (now s) t) as [Hs|[Hs1 Hs2]]; [rewrite Hs|]; naive_solver congruence.
Qed.

Lemma quiet_wf s s' : quiet s s' → sched_wf s → sched_wf s'.
Proof.
  intros [Hq1 Hq2 Hq3 Hq4 Hq5] [Hw1 Hw2 Hw3 Hw4].
  constructor; rewrite ?Hq1, ?Hq2; [congruence|done|done|].
  intros k t' Hk' Hc. destruct (lookup_lt_is_Some_2 (tasks s) k) as [t Hk].
  { rewrite <- Hq4. by eapply lookup_lt_Some. }
  destruct (Hq5 k t Hk) as (u & Hu & Hp & _). simplify_eq. rewrite Hp. by eapply Hw4.
Qed.

Lemma resched_wf s next s' :
  sched_wf s → 0 ≤ next < task_count s → resched s next s' → sched_wf s'.
Proof.
  intros [Hw1 Hw2 Hw3 Hw4] Hn [Hr1 Hr2 Hr3 Hr4 Hr5 Hr6 Hr7].
  constructor; rewrite ?Hr1, ?Hr6; [congruence|done|done|].
  intros k t' Hk' Hc. destruct (lookup_lt_is_Some_2 (tasks s) k) as [t Hk].
  { rewrite <- Hr5. by eapply lookup_lt_Some. }
  destruct (Hr7 k t Hk) as (u & t2 & Hwk & Hu & Hid & _). simplify_eq.
  apply woken_same in Hwk. unfold same_id in *. destruct Hwk as (Hp & _), Hid as (Hp' & _).
  rewrite Hp', Hp. by eapply Hw4.
Qed.

(** Both kinds of step keep the invariant. *)
Lemma inv_transfer s s' :
  sched_inv s → sched_wf s' → task_count s' = task_count s → next_pid s' = next_pid s →
  (∀ k t', tasks s' !! k = Some t' → Z.of_nat k < task_count s →
     (∃ t, tasks s !! k = Some t ∧ pid t' = pid t) ∧
     (state t' = TASK_RUNNING → Z.of_nat k = current_idx s')) →
  sched_inv s'.
Proof.
  intros [Hw Hr Hp Hd] Hw' Hc Hn Ht. constructor; rewrite ?Hc, ?Hn; [done|naive_solver| |].
  - intros k t' Hk Hlt. destruct (Ht k t' Hk Hlt) as [(t & Hk' & ->) _]. by eapply Hp.
  - intros j k t u Hj Hk Hlt1 Hlt2 Heq. destruct (Ht j t Hj Hlt1) as [(t0 & Hj' & E1) _].
    destruct (Ht k u Hk Hlt2) as [(u0 & Hk' & E2) _]. eapply Hd; [done..|congruence].
Qed.

Lemma quiet_inv s s' : quiet s s' → sched_inv s → sched_inv s'.
Proof.
  intros Hq Hi. pose proof (quiet_wf _ _ Hq (inv_wf _ Hi)) as Hw'.
  eapply inv_transfer; [done|done|apply Hq..|]. intros k t' Hk' Hlt.
  destruct (lookup_lt_is_Some_2 (tasks s) k) as [t Hk].
  { rewrite <- (q_len _ _ Hq). by eapply lookup_lt_Some. }
  destruct (q_task _ _ Hq k t Hk) as (u & Hu & Hp & Hr & _). simplify_eq.
  split; [eauto|]. intros Hst. rewrite (q_cur _ _ Hq). eapply inv_running; eauto.
Qed.

Lemma resched_inv s next s' :
  sched_inv s → 0 ≤ next < task_count s → resched s next s' → sched_inv s'.
Proof.
  intros Hi Hn Hr. pose proof (resched_wf _ _ _ (inv_wf _ Hi) Hn Hr) as Hw'.
  eapply inv_transfer; [done|done|apply Hr..|]. intros k t' Hk' Hlt.
  destruct (lookup_lt_is_Some_2 (tasks s) k) as [t Hk].
  { rewrite <- (rs_len _ _ _ Hr). by eapply lookup_lt_Some. }
  destruct (rs_task _ _ _ Hr k t Hk) as (u & t2 & Hwk & Hu & Hid & Hst). simplify_eq.
  destruct (woken_same _ _ _ Hwk) as (Hp & _), Hid as (Hp' & _).
  split; [exists t; split; [done|congruence]|]. rewrite (rs_cur _ _ _ Hr), Hst. unfold handover.
  assert (state u = TASK_RUNNING → Z.of_nat k = current_idx s) as Hrun.
  { intros Hu'. eapply inv_running; [done..|].
    destruct Hwk as [->| ->]; [done|]. destruct (wake_state (now s) t) as [<-|[_ ?]]; congruence. }
  repeat case_decide; subst; intros; try done; rewrite ?Hrun in *; try done.
Qed.

(** A new task in the first free slot. *)
Definition spawned (s s' : sched H) : Prop :=
  ∃ i t t0, tasks s !! i = Some t0 ∧ free_slot t0 = true ∧ Z.of_nat i ≤ task_count s < 16 ∧
    find_idx free_slot (tasks s) = Some i ∧
    tasks s' = <[i := t]> (tasks s) ∧ pid t = next_pid s ∧ state t = TASK_READY ∧
    task_count s' = Z.max (task_count s) (Z.of_nat i + 1) ∧
    current_idx s' = current_idx s ∧ next_pid s' = i32 (next_pid s + 1).

Lemma slot_found s :
  sched_wf s → task_count s < 16 →
  ∃ i t0, find_idx free_slot (tasks s) = Some i ∧ tasks s !! i = Some t0 ∧ free_slot t0 = true ∧
    Z.of_nat i ≤ task_count s.
Proof.
  intros Hw Hc. pose proof (wf_cur _ Hw).
  destruct (task_at s (task_count s) Hw) as [t Ht]; [lia|].
  assert (free_slot t = true) as Hf.
  { unfold free_slot. rewrite (wf_unused _ Hw _ _ Ht) by lia. apply orb_true_r. }
  destruct (find_idx_is_Some free_slot (tasks s) t) as [i Hi]; [by eapply list_elem_of_lookup_2|done|].
  destruct (find_idx_lookup _ _ _ Hi) as (t0 & Ht0 & Hf0). exists i, t0. split_and!; try done.
  apply find_idx_Some in Hi as [_ Hmin]. destruct (decide (Z.of_nat i ≤ task_count s)); [done|].
  rewrite (Hmin (Z.to_nat (task_count s)) t) in Hf; [done|lia|done].
Qed.

Lemma task_setup_stack_fst t entry m : ∃ e, (task_setup_stack t entry m).1 = set_esp e t.
Proof. unfold task_setup_stack. destruct (push_all _ _ m). by eexists. Qed.

Lemma sched_spawn_inv nm entry lvl s r s' :
  sched_wf s → sched_spawn nm entry lvl s = Ok (r, s') →
  (quiet s s' ∧ r = -1) ∨
  (spawned s s' ∧ r = next_pid s ∧ ∃ i u t, tasks s' !! i = Some t ∧ pid t = r ∧ state t = TASK_READY ∧
     task_setup_stack u entry (kmem s) = (t, kmem s')).
Proof.
  intros Hw. unfold sched_spawn. intros (s0 & s1 & [= <- <-] & Hrun)%M_bind_Ok.
  destruct (Z.leb_spec SCHED_MAX_TASKS (task_count s)) as [|Hc]; [injection Hrun as <- <-; left; split; [apply quiet_refl|done]|].
  unfold SCHED_MAX_TASKS in Hc.
  apply M_bind_Ok in Hrun as ([stk h] & s1 & Ha & Hrun).
  apply lift_Ok in Ha as [Ha ->].
  apply M_bind_Ok in Hrun as ([] & s1 & [= <-] & Hrun).
  destruct (Z.eqb_spec stk 0); [injection Hrun as <- <-; left; split; [by apply quiet_frame|done]|].
  destruct (slot_found s Hw Hc) as (i & t0 & Hi & Ht0 & Hf & Hle). rewrite Hi in Hrun.
  unfold SCHED_MAX_TASKS in Hrun. rewrite (proj2 (Z.leb_gt _ _)) in Hrun by lia.
  apply M_bind_Ok in Hrun as (cur & s2 & Hcur & Hrun).
  assert (s2 = set_heap h s) as ->.
  { unfold rd_task in Hcur. apply res_bind_Ok in Hcur as (? & _ & [= _ <-]). done. }
  apply M_bind_Ok in Hrun as (old & s3 & Hold & Hrun).
  rewrite (rd_task_ok _ _ t0) in Hold by (rewrite ?Nat2Z.id; done || lia). injection Hold as <- <-.
  apply M_bind_Ok in Hrun as (nm' & s4 & Hnm & Hrun).
  apply lift_Ok in Hnm as [Hnm ->].
  match type of Hrun with context [task_setup_stack ?t ?e ?m] =>
    pose proof (task_setup_stack_fst t e m) as [e0 Hst];
    destruct (task_setup_stack t e m) as [tn mn] eqn:Hss end.
  cbn [fst] in Hst. apply M_bind_Ok in Hrun as ([] & s5 & Hup & Hrun).
  rewrite (task_upd_ok _ _ _ t0) in Hup by (rewrite ?Nat2Z.id; done || lia). injection Hup as <-.
  cbn in Hrun. injection Hrun as <- <-. right. rewrite Nat2Z.id. split; [|split; [done|]].
  - exists i, tn, t0. subst tn. cbn. split_and!; try done; try lia. case_if; lia.
  - eexists i, _, tn. split_and!; [| | |exact Hss]; [|by subst tn..].
    cbn. apply list_lookup_insert_eq. by eapply lookup_lt_Some.
Qed.

(** Any other event: changes of the current task, then possibly a reschedule. *)
Definition stepped (e : event) (s s' : sched H) : Prop :=
  ∃ s1, quiet s s1 ∧
    ((yields e = false ∧ s' = s1) ∨ ∃ next, round_robin s1 next ∧ resched s1 next s').

Lemma quiet_then_yield e s s1 s' :
  sched_wf s → quiet s s1 → sched_yield s1 = Ok (tt, s') → stepped e s s'.
Proof.
  intros Hw Hq Hy. destruct (sched_yield_spec s1) as (next & s2 & Hy' & Hrr & Hrs).
  { by eapply quiet_wf. }
  rewrite Hy in Hy'. simplify_eq. exists s1. split; [done|]. right. eauto.
Qed.

(** The ended task, before the reschedule. *)
Lemma sched_exit_code_inv code s s' t :
  sched_wf s → tasks s !! Z.to_nat (current_idx s) = Some t →
  sched_exit_code code s = Ok (tt, s') →
  ∃ s1 t1, quiet s s1 ∧ sched_yield s1 = Ok (tt, s') ∧
    tasks s1 !! Z.to_nat (current_idx s) = Some t1 ∧
    ended t1 = true ∧ exit_code t1 = code ∧ pid t1 = pid t.
Proof.
  intros Hw Ht Hex. pose proof (wf_cur _ Hw) as Hcur. set (i := current_idx s) in *.
  pose proof (lookup_lt_Some _ _ _ Ht) as Hlt.
  unfold sched_exit_code in Hex. apply M_bind_Ok in Hex as (s0 & s1 & [= <- <-] & Hex).
  fold i in Hex. apply M_bind_Ok in Hex as ([] & s1 & Hup & Hex).
  rewrite (task_upd_ok _ _ _ t) in Hup by (done || lia). injection Hup as <-.
  set (t1 := set_exit code t) in *. set (s1 := set_tasks _ s) in *.
  assert (quiet s s1) as Hq1 by (by apply (quiet_current s (set_exit code) t)).
  assert (tasks s1 !! Z.to_nat i = Some t1) as Ht1 by (by apply list_lookup_insert_eq).
  apply M_bind_Ok in Hex as (s0 & s0' & [= <- <-] & Hex).
  apply M_bind_Ok in Hex as (t0 & s0' & Hrd & Hex).
  rewrite (rd_task_ok _ _ t1) in Hrd by (done || lia). injection Hrd as <- <-.
  set (st := if has_parent s1 t1 then TASK_ZOMBIE else TASK_DEAD) in *.
  apply M_bind_Ok in Hex as ([] & s2 & Hup & Hex).
  rewrite (task_upd_ok _ _ _ t1) in Hup by (done || lia). injection Hup as <-.
  set (t2 := set_state st t1) in *. set (s2 := set_tasks _ s1) in *.
  assert (st = TASK_ZOMBIE ∨ st = TASK_DEAD) as Hst by (unfold st; case_if; auto).
  assert (quiet s1 s2) as Hq2.
  { apply (quiet_current s1 (set_state st) t1); [by eapply quiet_wf|done|done|].
    cbn. intros ->. naive_solver. }
  assert (tasks s2 !! Z.to_nat i = Some t2) as Ht2.
  { apply list_lookup_insert_eq. by eapply lookup_lt_Some. }
  assert (ended t2 = true) as He by (unfold ended; cbn; destruct Hst as [-> | ->]; done).
  apply M_bind_Ok in Hex as ([] & s3 & Hrel & Hex).
  destruct (stack t1 =? 0).
  { injection Hrel as <-. exists s2, t2. split_and!; try done. by eapply quiet_trans. }
  apply M_bind_Ok in Hrel as (h & s4 & Hl & Hrel).
  apply lift_Ok in Hl as [Hl ->].
  apply M_bind_Ok in Hrel as ([] & s5 & [= <-] & Hrel).
  rewrite (task_upd_ok _ _ _ t2) in Hrel by (done || lia). injection Hrel as <-.
  exists (set_tasks (<[Z.to_nat i := set_stack 0 t2]> (tasks s2)) (set_heap h s2)), (set_stack 0 t2).
  split_and!; try done.
  - eapply quiet_trans; [exact Hq1|]. eapply quiet_trans; [exact Hq2|].
    assert (quiet s2 (set_heap h s2)) as Hq3 by (by apply quiet_frame).
    eapply quiet_trans; [exact Hq3|]. apply (quiet_current (set_heap h s2) (set_stack 0) t2); try done.
    eapply quiet_wf; [exact Hq3|]. eapply quiet_wf; [exact Hq2|]. by eapply quiet_wf.
  - apply list_lookup_insert_eq. by eapply lookup_lt_Some.
Qed.

Lemma first_tasks_lookup (s : sched H) k t :
  first_tasks s !! k = Some t ↔ Z.of_nat k < Z.max 0 (task_count s) ∧ tasks s !! k = Some t.
Proof. unfold first_tasks. rewrite lookup_take_Some. intuition lia. Qed.

Lemma sched_waitpid_quiet k env p s r s' :
  sched_waitpid 0 k env p s = Ok (r, s') → quiet s s'.
Proof.
  cbn [sched_waitpid]. intros (s0 & s1 & [= <- <-] & Hex)%M_bind_Ok.
  destruct (find_idx _ (first_tasks s)) as [i|] eqn:Hi; [|injection Hex as _ <-; apply quiet_refl].
  destruct (find_idx_lookup _ _ _ Hi) as (t & [_ Ht]%first_tasks_lookup & _).
  apply M_bind_Ok in Hex as (t0 & s1 & Hrd & Hex).
  rewrite (rd_task_ok _ _ t) in Hrd by (rewrite ?Nat2Z.id; done || lia). injection Hrd as <- <-.
  destruct (ended t) eqn:He; [|done]. apply M_bind_Ok in Hex as ([] & s1 & Hup & Hex).
  rewrite (task_upd_ok _ _ _ t) in Hup by (rewrite ?Nat2Z.id; done || lia). injection Hup as <-.
  injection Hex as _ <-. rewrite Nat2Z.id. by apply quiet_reap.
Qed.

Lemma exec_stepped e s s' :
  sched_wf s → spawns e = false → exec e s = Ok (tt, s') → stepped e s s'.
Proof.
  intros Hw. pose proof (wf_cur _ Hw) as Hcur.
  pose proof (wf_count _ Hw). destruct (task_at s (current_idx s) Hw) as [t Ht]; [lia|].
  destruct e; cbn [spawns exec]; intros Hs Hex; try discriminate Hs; clear Hs.
  - eapply quiet_then_yield; eauto using quiet_refl.
  - unfold sched_tick in Hex. apply M_bind_Ok in Hex as (s0 & s1 & [= <- <-] & Hex).
    apply M_bind_Ok in Hex as ([] & s1 & Hup & Hex).
    rewrite (task_upd_ok _ _ _ t) in Hup by (done || lia). injection Hup as <-.
    assert (quiet s (set_tasks (<[Z.to_nat (current_idx s) := set_ticks (u32 (ticks t + 1)) t]> (tasks s)) s)) as Hq.
    { apply (quiet_current s (λ t, set_ticks (u32 (ticks t + 1)) t) t); done. }
    set (s1 := set_tasks _ s) in *.
    apply M_bind_Ok in Hex as ([] & s2 & [= <-] & Hex).
    apply M_bind_Ok in Hex as ([] & s2 & [= <-] & Hex).
    apply M_bind_Ok in Hex as (s0 & s2 & [= <- <-] & Hex).
    match type of Hex with context [tick_accum ?x] => set (s2 := x) in * end.
    assert (quiet s s2) as Hq2.
    { eapply quiet_trans; [exact Hq|]. 
      apply (quiet_trans _ (set_accum (u32 (tick_accum s + 1)) s1)); [by apply quiet_frame|].
      apply (quiet_wake_all (set_accum _ s1)). }
    destruct (SCHED_QUANTUM <=? tick_accum s2); [|injection Hex as <-; exists s2; by eauto].
    apply M_bind_Ok in Hex as ([] & s3 & [= <-] & Hex).
    eapply quiet_then_yield; [done| |exact Hex].
    eapply quiet_trans; [exact Hq2|]. by apply quiet_frame.
  - unfold sched_sleep in Hex. apply M_bind_Ok in Hex as (s0 & s1 & [= <- <-] & Hex).
    apply M_bind_Ok in Hex as ([] & s1 & Hup & Hex).
    rewrite (task_upd_ok _ _ _ t) in Hup by (done || lia). injection Hup as <-.
    eapply quiet_then_yield; [done| |exact Hex]. by apply (quiet_current s (set_sleep _) t).
  - destruct (sched_exit_code_inv _ _ _ _ Hw Ht Hex) as (s1 & t1 & Hq & Hy & _).
    by eapply quiet_then_yield.
  - apply M_bind_Ok in Hex as (r & s1 & Hwp & [= <-]). exists s1. split; [|by left].
    by eapply sched_waitpid_quiet.
  - injection Hex as <-. exists (set_now t0 s). split; [by apply quiet_frame|]. by left.
  - injection Hex as <-. exists (set_cpu m c s). split; [by apply quiet_frame|]. by left.
Qed.

(** *** The invariant along runs *)

Lemma spawned_lookup s s' :
  spawned s s' → ∃ i t t0, tasks s !! i = Some t0 ∧ free_slot t0 = true ∧ Z.of_nat i ≤ task_count s < 16 ∧
    pid t = next_pid s ∧ state t = TASK_READY ∧
    ∀ k u, tasks s' !! k = Some u → (k = i ∧ u = t) ∨ (k ≠ i ∧ tasks s !! k = Some u).
Proof.
  intros (i & t & t0 & Ht0 & Hf & Hle & Hfi & Hts & Hp & Hst & _). exists i, t, t0. split_and!; try done; try lia.
  intros k u. rewrite Hts. intros [(-> & -> & _)|[? ?]]%list_lookup_insert_Some; auto.
Qed.

Lemma spawned_wf s s' : sched_wf s → spawned s s' → sched_wf s'.
Proof.
  intros [Hw1 Hw2 Hw3 Hw4] (i & t & t0 & Ht0 & Hf & Hle & Hfi & Hts & Hp & Hst & Hc & Hcur & Hn).
  constructor; rewrite ?Hc, ?Hcur; [by rewrite Hts, length_insert|lia|lia|].
  intros k u. rewrite Hts. intros [(-> & -> & _)|[? ?]]%list_lookup_insert_Some Hk; [lia|].
  eapply Hw4; [done|lia].
Qed.

Lemma spawned_inv s s' :
  sched_inv s → next_pid s + 1 < 2 ^ 31 → 0 < next_pid s → spawned s s' → sched_inv s'.
Proof.
  intros [Hw Hr Hp Hd] Hnp Hpos Hsp. pose proof (spawned_wf _ _ Hw Hsp) as Hw'.
  destruct Hsp as (i & t & t0 & Ht0 & Hf & Hle & Hfi & Hts & Hpt & Hst & Hc & Hcur & Hn).
  rewrite i32_small in Hn by lia.
  assert (∀ k u, tasks s' !! k = Some u → Z.of_nat k < task_count s' →
    (k = i ∧ u = t) ∨ (k ≠ i ∧ tasks s !! k = Some u ∧ Z.of_nat k < task_count s)) as Hcase.
  { intros k u Hk Hlt. rewrite Hts in Hk. apply list_lookup_insert_Some in Hk as [(-> & -> & _)|[? ?]]; [auto|].
    right. split_and!; [done..|lia]. }
  constructor; [done| | |].
  - intros k u Hk Hlt Hrun. rewrite Hcur.
    destruct (Hcase k u Hk Hlt) as [[-> ->]|(Hne & Hk' & Hlt')]; [congruence|by eapply Hr].
  - intros k u Hk Hlt. rewrite Hn.
    destruct (Hcase k u Hk Hlt) as [[-> ->]|(Hne & Hk' & Hlt')]; [lia|].
    specialize (Hp k u Hk' Hlt'). lia.
  - intros j k u v Hj Hk Hlt1 Hlt2 Heq.
    destruct (Hcase j u Hj Hlt1) as [[-> ->]|(Hne & Hj' & Hlj)],
      (Hcase k v Hk Hlt2) as [[-> ->]|(Hne' & Hk' & Hlk)]; [done| | |by eapply Hd].
    + specialize (Hp k v Hk' Hlk). lia.
    + specialize (Hp j u Hj' Hlj). lia.
Qed.

Lemma stepped_inv e s s' : sched_inv s → stepped e s s' → sched_inv s' ∧ next_pid s' = next_pid s.
Proof.
  intros Hi (s1 & Hq & Hcase). pose proof (quiet_inv _ _ Hq Hi) as Hi1.
  destruct Hcase as [[_ ->]|(next & Hrr & Hrs)]; [split; [done|apply Hq]|].
  split; [|rewrite (rs_npid _ _ _ Hrs); apply Hq].
  eapply resched_inv; [done| |done]. apply round_robin_range; [apply Hi1|done].
Qed.

Lemma exec_spawn_inv nm entry lvl s s' :
  sched_wf s → exec (EvSpawn nm entry lvl) s = Ok (tt, s') → quiet s s' ∨ spawned s s'.
Proof.
  intros Hw (r & s1 & Hsp & [= <-])%M_bind_Ok.
  destruct (sched_spawn_inv _ _ _ _ _ _ Hw Hsp) as [[? _]|(? & _)]; auto.
Qed.

Lemma exec_inv e s s' :
  sched_inv s → 0 < next_pid s → next_pid s + 1 < 2 ^ 31 → exec e s = Ok (tt, s') →
  sched_inv s' ∧ next_pid s ≤ next_pid s' ≤ next_pid s + 1.
Proof.
  intros Hi Hpos Hb Hex. destruct (spawns e) eqn:Hs.
  - destruct e; try discriminate Hs.
    destruct (exec_spawn_inv _ _ _ _ _ (inv_wf _ Hi) Hex) as [Hq|Hsp].
    + split; [by eapply quiet_inv|]. rewrite (q_npid _ _ Hq). lia.
    + split; [by eapply spawned_inv|].
      destruct Hsp as (i & t & t0 & _ & _ & _ & _ & _ & _ & _ & _ & _ & Hn).
      rewrite Hn, i32_small by lia. lia.
  - destruct (stepped_inv e s s' Hi) as [? Hn]; [by eapply exec_stepped, Hex; [apply Hi|]|].
    split; [done|]. lia.
Qed.

Lemma exec_all_inv es s s' :
  sched_inv s → 0 < next_pid s → next_pid s + Z.of_nat (length es) < 2 ^ 31 →
  exec_all es s = Ok (tt, s') → sched_inv s'.
Proof.
  revert s. induction es as [|e es IH]; intros s Hi Hpos Hb Hex; cbn in Hex.
  { by injection Hex as <-. }
  cbn [length] in Hb. apply M_bind_Ok in Hex as ([] & s1 & He & Hex).
  destruct (exec_inv e s s1 Hi Hpos) as [Hi1 Hn]; [lia|done|]. apply (IH s1); [done|lia|lia|done].
Qed.

Lemma sched_init_inv entry s s' :
  0 < next_pid s → next_pid s + 2 < 2 ^ 31 → sched_init entry s = Ok (tt, s') →
  sched_inv s' ∧ next_pid s < next_pid s' ≤ next_pid s + 2.
Proof.
  intros Hpos Hb Hin. unfold sched_init in Hin.
  apply M_bind_Ok in Hin as (s0 & s1 & [= <- <-] & Hin).
  apply M_bind_Ok in Hin as ([] & s1 & [= <-] & Hin).
  apply M_bind_Ok in Hin as ([stk h] & s1 & [Ha ->]%lift_Ok & Hin).
  apply M_bind_Ok in Hin as ([] & s1 & [= <-] & Hin).
  rewrite !i32_small in Hin by lia.
  destruct (Z.eqb_spec stk 0).
  - injection Hin as <-. split; [|cbn; lia]. constructor; cbn.
    + constructor; cbn; try lia. intros k t.
      do 16 (destruct k as [|k]; [cbn; intros [= <-] ?; cbn in *; lia|]); done.
    + intros k t _ ? _. lia.
    + intros k t Hk ?. assert (k = 0%nat) as -> by lia. injection Hk as <-. cbn. lia.
    + intros. lia.
  - match type of Hin with context [task_setup_stack ?t ?e ?m] =>
      pose proof (task_setup_stack_fst t e m) as [e0 Hst];
      destruct (task_setup_stack t e m) as [tn mn] eqn:Hss end.
    cbn [fst] in Hst. apply M_bind_Ok in Hin as ([] & s1 & Hup & Hin).
    rewrite (task_upd_ok _ _ _ task0) in Hup by (done || lia). injection Hup as <-.
    injection Hin as <-. subst tn. split; [|cbn; lia]. constructor; cbn.
    + constructor; cbn; try lia. intros k t.
      do 16 (destruct k as [|k]; [cbn; intros [= <-] ?; cbn in *; lia|]); done.
    + intros k t Hk ? Hrun. destruct k as [|[|k]]; [done| |lia]. by injection Hk as <-.
    + intros k t Hk ?. destruct k as [|[|k]]; [| |lia]; injection Hk as <-; cbn; lia.
    + intros j k t u Hj Hk ? ? Heq.
      destruct j as [|[|j]], k as [|[|k]]; try lia; injection Hj as <-; injection Hk as <-; cbn in Heq; lia.
Qed.

(** C12: from start-up on, whatever the tasks do (yield, sleep, exit, spawn, wait, be
    preempted), the current index is inside the table, at most the current task is in
    state RUNNING, and the pids in use are positive and distinct; and in every state so
    reached [sched_yield] succeeds and hands the processor to the round-robin choice.
    The bound on the number of events keeps the pid counter from wrapping. *)
Theorem sched_invariant entry es s0 s1 s :
  0 < next_pid s0 → next_pid s0 + 2 + Z.of_nat (length es) < 2 ^ 31 →
  sched_init entry s0 = Ok (tt, s1) → exec_all es s1 = Ok (tt, s) →
  sched_inv s ∧
  ∃ next s', sched_yield s = Ok (tt, s') ∧ round_robin s next ∧ resched s next s' ∧ sched_inv s'.
Proof.
  intros Hpos Hb Hinit Hrun.
  destruct (sched_init_inv _ _ _ Hpos ltac:(lia) Hinit) as [Hi1 Hn].
  assert (sched_inv s) as Hi by (eapply exec_all_inv, Hrun; [done|lia|lia]).
  split; [done|]. destruct (sched_yield_spec s (inv_wf _ Hi)) as (next & s' & Hy & Hrr & Hrs).
  exists next, s'. split_and!; try done. eapply resched_inv; [done| |done].
  apply round_robin_range; [apply Hi|done].
Qed.

(** *** Fairness *)

Lemma exec_wf e s s' : sched_wf s → exec e s = Ok (tt, s') → sched_wf s'.
Proof.
  intros Hw Hex. destruct (spawns e) eqn:Hs.
  - destruct e; try discriminate Hs.
    destruct (exec_spawn_inv _ _ _ _ _ Hw Hex); [by eapply quiet_wf|by eapply spawned_wf].
  - destruct (exec_stepped _ _ _ Hw Hs Hex) as (s1 & Hq & [[_ ->]|(next & Hrr & Hrs)]);
      [by eapply quiet_wf|].
    pose proof (quiet_wf _ _ Hq Hw) as Hw1. eapply resched_wf; [done| |done]. by apply round_robin_range.
Qed.

(** A task that waits for its turn, and its cyclic distance from the current one. *)
Definition pending (j : nat) (s : sched H) : Prop :=
  ∃ t, tasks s !! j = Some t ∧ state t = TASK_READY ∧ pid t ≠ 0 ∧ Z.of_nat j < task_count s ∧
       Z.of_nat j ≠ current_idx s.
Definition distance (j : nat) (s : sched H) : Z := (Z.of_nat j - current_idx s) mod 16.

Lemma distance_cases (j : nat) s :
  sched_wf s → Z.of_nat j < task_count s →
  (current_idx s ≤ Z.of_nat j ∧ distance j s = Z.of_nat j - current_idx s) ∨
  (Z.of_nat j < current_idx s ∧ distance j s = Z.of_nat j - current_idx s + 16).
Proof.
  intros Hw Hj. pose proof (wf_cur _ Hw). pose proof (wf_count _ Hw). unfold distance.
  destruct (decide (current_idx s ≤ Z.of_nat j)); [left|right]; (split; [lia|]).
  - apply Z.mod_small. lia.
  - rewrite <- (Z_mod_plus_full _ 1). apply Z.mod_small. lia.
Qed.

Lemma quiet_pending j s s' : quiet s s' → pending j s → pending j s' ∧ distance j s' = distance j s.
Proof.
  intros Hq (t & Ht & Hst & Hp & Hlt & Hne). unfold distance. rewrite (q_cur _ _ Hq). split; [|done].
  destruct (q_task _ _ Hq j t Ht) as (t' & Ht' & Hp' & _ & Ho). destruct (Ho Hne) as (_ & Hs).
  exists t'. rewrite (q_count _ _ Hq), (q_cur _ _ Hq). unfold ended in Hs. rewrite Hst in Hs.
  split_and!; [done| |congruence|done|done]. naive_solver.
Qed.

(** A round-robin step brings a waiting task nearer. *)
Lemma round_robin_nearer j s next s' :
  sched_wf s → pending j s → round_robin s next → resched s next s' →
  current_idx s' = Z.of_nat j ∨ (pending j s' ∧ distance j s' < distance j s).
Proof.
  intros Hw Hpen Hrr Hrs. pose proof (wf_cur _ Hw) as Hcur. pose proof (wf_count _ Hw) as Hcount.
  pose proof (round_robin_range _ _ Hw Hrr) as Hrange.
  pose proof (resched_wf _ _ _ Hw Hrange Hrs) as Hw'.
  destruct Hpen as (t & Ht & Hst & Hp & Hlt & Hne). rewrite (rs_cur _ _ _ Hrs).
  destruct (decide (next = Z.of_nat j)) as [|Hnj]; [by left|]. right.
  assert (awake s (Z.of_nat j)) as Haw.
  { exists t. rewrite Nat2Z.id. split; [done|]. unfold wake. rewrite decide_False by congruence.
    unfold runnable. by rewrite Hst. }
  destruct Hrr as [(m & Hm & Hnext & _ & Hmin)|[-> Hnone]];
    [|exfalso; apply (Hnone (Z.of_nat j)); [lia|done]].
  set (c := task_count s) in *. set (cur := current_idx s) in *.
  set (mj := if decide (cur < Z.of_nat j) then Z.of_nat j - cur - 1 else Z.of_nat j + c - cur - 1).
  assert ((cur + 1 + mj) mod c = Z.of_nat j) as Hmj.
  { unfold mj. case_decide; [rewrite Z.mod_small; lia|].
    replace (cur + 1 + (Z.of_nat j + c - cur - 1)) with (Z.of_nat j + 1 * c) by lia.
    rewrite Z_mod_plus_full. apply Z.mod_small. lia. }
  assert (m < mj) as Hlt_m.
  { destruct (decide (mj < m)) as [Hx|].
    - exfalso. apply (Hmin mj); [unfold mj in *; case_decide; lia|]. by rewrite Hmj.
    - destruct (decide (m = mj)) as [->|]; [|lia]. rewrite Hmj in Hnext. done. }
  assert (Hnx : next = cur + 1 + m ∨ next = cur + 1 + m - c).
  { rewrite Hnext. destruct (decide (cur + 1 + m < c)); [left; apply Z.mod_small; lia|right].
    rewrite <- (Z_mod_plus_full _ (-1)). rewrite Z.mod_small by lia. lia. }
  assert (next ≠ cur) as Hnc by (unfold mj in Hlt_m; case_decide; lia).
  split.
  - destruct (rs_task _ _ _ Hrs j t Ht) as (u & t' & Hwk & Ht' & (Hid & _) & Hst').
    destruct (woken_same _ _ _ Hwk) as (Hpu & _).
    assert (state u = TASK_READY) as Hsu.
    { destruct Hwk as [->| ->]; [done|]. destruct (wake_state (now s) t) as [|[? ?]]; congruence. }
    exists t'. rewrite (rs_count _ _ _ Hrs), (rs_cur _ _ _ Hrs), Hst', Hsu.
    split_and!; [done| |congruence|done|done]. unfold handover. repeat case_decide; done || lia.
  - pose proof (distance_cases j s Hw Hlt) as Hd.
    pose proof (distance_cases j s' Hw') as Hd'. rewrite (rs_count _ _ _ Hrs), (rs_cur _ _ _ Hrs) in Hd'.
    specialize (Hd' Hlt). unfold mj in *. fold cur in Hd. case_decide; lia.
Qed.

Lemma spawned_pending j s s' :
  spawned s s' → pending j s → pending j s' ∧ distance j s' = distance j s.
Proof.
  intros (i & t & t0 & Ht0 & Hf & Hle & Hfi & Hts & _ & _ & Hc & Hcur & _) (u & Hu & Hst & Hp & Hlt & Hne).
  unfold distance, pending. rewrite Hcur, Hc, Hts. split; [|done]. exists u.
  rewrite list_lookup_insert_ne; [split_and!; [done..|lia|done]|].
  intros ->. simplify_eq. unfold free_slot in Hf. rewrite Hst in Hf. cbn in Hf. by apply Z.eqb_eq in Hf.
Qed.

Lemma pending_step j e s s' :
  sched_wf s → pending j s → exec e s = Ok (tt, s') →
  current_idx s' = Z.of_nat j ∨
  (pending j s' ∧ distance j s' ≤ distance j s - (if yields e then 1 else 0)).
Proof.
  intros Hw Hp Hex. destruct (spawns e) eqn:Hs.
  - destruct e; try discriminate Hs. right.
    destruct (exec_spawn_inv _ _ _ _ _ Hw Hex) as [Hq|Hsp];
      [destruct (quiet_pending _ _ _ Hq Hp) as [? ->]|destruct (spawned_pending _ _ _ Hsp Hp) as [? ->]];
      cbn; (split; [done|lia]).
  - destruct (exec_stepped _ _ _ Hw Hs Hex) as (s1 & Hq & Hcase).
    destruct (quiet_pending _ _ _ Hq Hp) as [Hp1 Hd1].
    destruct Hcase as [[-> ->]|(next & Hrr & Hrs)]; [right; split; [done|lia]|].
    destruct (round_robin_nearer j s1 next s') as [|[? ?]]; eauto using quiet_wf.
    right. split; [done|]. case_if; lia.
Qed.

(** C13: round-robin scheduling starves no ready task. In any run in which the tasks
    give up the processor (yield, sleep or exit) at least fifteen times, a task that was
    READY at the beginning has become the current task at some point, whatever else
    happens in between: new tasks, preemption, sleeping and waking of others. *)
Theorem sched_fair j es s s' :
  sched_wf s → pending j s → exec_all es s = Ok (tt, s') → 15 ≤ countb yields es →
  ∃ es1 es2 s1, es = es1 ++ es2 ∧ exec_all es1 s = Ok (tt, s1) ∧ current_idx s1 = Z.of_nat j.
Proof.
  intros Hw Hp Hex Hc. assert (distance j s ≤ countb yields es) as Hd.
  { unfold distance. pose proof (Z.mod_pos_bound (Z.of_nat j - current_idx s) 16). lia. }
  clear Hc. revert s Hw Hp Hex Hd. induction es as [|e es IH]; intros s Hw Hp Hex Hd.
  { exfalso. destruct Hp as (t & _ & _ & _ & Hlt & Hne). pose proof (wf_cur _ Hw).
    pose proof (distance_cases j s Hw Hlt). pose proof (wf_count _ Hw). cbn in Hd. lia. }
  cbn in Hex. apply M_bind_Ok in Hex as ([] & s1 & He & Hex). cbn in Hd.
  destruct (pending_step j e s s1 Hw Hp He) as [Hcur|[Hp1 Hd1]].
  - exists [e], es, s1. split_and!; [done| |done]. apply M_bind_Ok. eauto.
  - destruct (IH s1) as (es1 & es2 & s2 & -> & Hrun & Hcur); [by eapply exec_wf|done|done|lia|].
    exists (e :: es1), es2, s2. split_and!; [done| |done]. apply M_bind_Ok. eauto.
Qed.

(** *** Exit codes *)

(** The slot of an ended task that is not running. *)
Definition kept (i : nat) (code p : Z) (s : sched H) : Prop :=
  ∃ t, tasks s !! i = Some t ∧ ended t = true ∧ exit_code t = code ∧ pid t = p ∧
       Z.of_nat i < task_count s ∧ Z.of_nat i ≠ current_idx s.

Lemma quiet_kept i code p s s' : quiet s s' → kept i code p s → kept i code p s'.
Proof.
  intros Hq (t & Ht & He & Hc & Hp & Hlt & Hne).
  destruct (q_task _ _ Hq i t Ht) as (t' & Ht' & Hp' & _ & Ho). destruct (Ho Hne) as (Hc' & Hs).
  exists t'. rewrite (q_count _ _ Hq), (q_cur _ _ Hq). split_and!; [done| |congruence|congruence|done|done].
  unfold ended in *. destruct (state t), (state t'); naive_solver.
Qed.

Lemma ended_not_awake s i t : tasks s !! i = Some t → ended t = true → ¬ awake s (Z.of_nat i).
Proof.
  intros Ht He (u & Hu & Hr). rewrite Nat2Z.id in Hu. simplify_eq. unfold ended in He.
  unfold wake in Hr. rewrite decide_False in Hr by (intros E; by rewrite E in He).
  unfold runnable in Hr. by destruct (state t).
Qed.

(** The ended task is left alone by a reschedule from another task, or from itself. *)
Lemma resched_kept i code p s next s' t :
  round_robin s next → resched s next s' → i ≠ 0%nat →
  tasks s !! i = Some t → ended t = true → exit_code t = code → pid t = p → Z.of_nat i < task_count s →
  kept i code p s'.
Proof.
  intros Hrr Hrs Hi Ht He Hc Hp Hlt.
  assert (next ≠ Z.of_nat i) as Hne.
  { intros ->. destruct Hrr as [(m & _ & _ & Ha & _)|[? _]]; [by eapply ended_not_awake in Ha|lia]. }
  destruct (rs_task _ _ _ Hrs i t Ht) as (u & t' & Hwk & Ht' & (Hid1 & _ & Hid3 & _) & Hst).
  destruct (woken_same _ _ _ Hwk) as (Hu1 & _ & Hu3 & _).
  assert (state u = state t) as Hsu.
  { destruct Hwk as [->| ->]; [done|]. destruct (wake_state (now s) t) as [|[Hsl _]]; [done|].
    unfold ended in He. by rewrite Hsl in He. }
  exists t'. rewrite (rs_count _ _ _ Hrs), (rs_cur _ _ _ Hrs).
  split_and!; [done| |congruence|congruence|done|done].
  assert (state t' = state t) as Hst'; [|unfold ended in *; by rewrite Hst'].
  rewrite Hst, Hsu. unfold handover. destruct (decide (current_idx s = next)); [done|].
  rewrite decide_False by lia. destruct (decide (Z.of_nat i = current_idx s)); [|done].
  rewrite decide_False; [done|]. intros E. unfold ended in He. by rewrite E in He.
Qed.

Lemma kept_step i code p e s s' :
  i ≠ 0%nat → sched_wf s → spawns e = false → kept i code p s → exec e s = Ok (tt, s') → kept i code p s'.
Proof.
  intros Hi Hw Hs Hk Hex.
  destruct (exec_stepped _ _ _ Hw Hs Hex) as (s1 & Hq & Hcase).
  pose proof (quiet_kept _ _ _ _ _ Hq Hk) as Hk1.
  destruct Hcase as [[_ ->]|(next & Hrr & Hrs)]; [done|].
  destruct Hk1 as (t & ? & ? & ? & ? & ? & ?). by eapply resched_kept.
Qed.

Lemma waitpid_kept i code p s fuel k env :
  sched_inv s → kept i code p s → ∃ s', sched_waitpid fuel k env p s = Ok (code, s').
Proof.
  intros Hi (t & Ht & He & Hc & Hp & Hlt & _).
  assert (find_idx (λ t, pid t =? p) (first_tasks s) = Some i) as Hf.
  { apply find_idx_Some. split.
    - exists t. rewrite first_tasks_lookup. split; [split; [lia|done]|]. by apply Z.eqb_eq.
    - intros m u Hm [Hlm Hu]%first_tasks_lookup. apply Z.eqb_neq. intros Heq.
      assert (m = i); [|lia]. eapply (inv_distinct _ Hi); [done|done|lia|lia|congruence]. }
  assert (∃ s', (rd_task (Z.of_nat i) ≫= λ t, if ended t then upd (Z.of_nat i) (set_state TASK_DEAD) ;; mret (exit_code t)
            else match fuel with O => lift Timeout | S fuel' => env k ;; sched_waitpid fuel' (S k) env p end) s = Ok (code, s')) as [s' Hs'].
  { unfold mbind, M_bind. rewrite (rd_task_ok _ _ t) by (rewrite ?Nat2Z.id; done || lia).
    rewrite He. rewrite (task_upd_ok _ _ _ t) by (rewrite ?Nat2Z.id; done || lia). rewrite Hc. by eexists. }
  exists s'. rewrite <- Hs'. destruct fuel; cbn [sched_waitpid]; unfold mbind, M_bind, get; by rewrite Hf.
Qed.

(** The exit code of a task reaches its waiter. After a task (other than slot 0)
    ends with [code], whatever the other tasks do except spawning, [sched_waitpid] on
    its pid returns [code], without blocking. *)
Theorem exit_status_delivered code es s s1 s2 t fuel k env :
  sched_inv s → current_idx s ≠ 0 → tasks s !! Z.to_nat (current_idx s) = Some t →
  sched_exit_code code s = Ok (tt, s1) → Forall (λ e, spawns e = false) es →
  exec_all es s1 = Ok (tt, s2) →
  ∃ s3, sched_waitpid fuel k env (pid t) s2 = Ok (code, s3).
Proof.
  intros Hi H0' Ht Hex Hes Hrun. pose proof (wf_cur _ (inv_wf _ Hi)) as Hcur.
  set (i := Z.to_nat (current_idx s)) in *.
  destruct (sched_exit_code_inv _ _ _ _ (inv_wf _ Hi) Ht Hex) as (s' & t' & Hq & Hy & Ht' & He & Hc & Hp).
  pose proof (quiet_inv _ _ Hq Hi) as Hi'.
  destruct (sched_yield_spec s' (inv_wf _ Hi')) as (next & s0 & Hy' & Hrr & Hrs).
  rewrite Hy in Hy'. injection Hy' as <-.
  assert (sched_inv s1) as Hi1.
  { eapply resched_inv; [done| |done]. apply round_robin_range; [apply Hi'|done]. }
  assert (kept i code (pid t) s1) as Hk1.
  { eapply resched_kept; [done|done| |done|done|done|done|]; [lia|]. rewrite (q_count _ _ Hq). lia. }
  assert (i ≠ 0%nat) as Hi0 by lia.
  clear - Hes Hrun Hi1 Hk1 Hi0. revert s1 Hi1 Hk1 Hrun.
  induction Hes as [|e es He Hes IH]; intros s1 Hi1 Hk1 Hrun.
  { injection Hrun as <-. by eapply waitpid_kept. }
  apply M_bind_Ok in Hrun as ([] & s3 & He' & Hrun). apply (IH s3); [| |done].
  - destruct (stepped_inv e s1 s3 Hi1); [|done]. apply exec_stepped; [apply Hi1|done|done].
  - eapply kept_step; [done|apply Hi1|done|done|done].
Qed.

(** [sched_spawn] takes the slot of a zombie that nobody has waited for: then the exit
    code is gone and [sched_waitpid] returns 0. *)
Theorem exit_status_lost_by_spawn i code p nm entry lvl s s1 r fuel k env :
  sched_inv s → kept i code p s → find_idx free_slot (tasks s) = Some i →
  0 < next_pid s → next_pid s + 1 < 2 ^ 31 →
  sched_spawn nm entry lvl s = Ok (r, s1) → r ≠ -1 →
  sched_waitpid fuel k env p s1 = Ok (0, s1).
Proof.
  intros Hi (t & Ht & He & Hc & Hp & Hlt & _) Hf Hpos Hb Hsp Hr.
  destruct (sched_spawn_inv _ _ _ _ _ _ (inv_wf _ Hi) Hsp) as [[_ ->]|(Hs & -> & _)]; [done|].
  assert (find_idx (λ t, pid t =? p) (first_tasks s1) = None) as Hnone.
  { apply find_idx_None. intros u [k' [Hlk Hk']%first_tasks_lookup]%list_elem_of_lookup. apply Z.eqb_neq.
    destruct Hs as (i' & t' & t0 & Ht0 & Hf0 & Hle & Hfi & Hts & Hpt & Hst & Hcnt & Hcur & Hn).
    rewrite Hf in Hfi. injection Hfi as <-. rewrite Hts in Hk'.
    pose proof (inv_pids _ Hi i t Ht Hlt) as Hpi.
    apply list_lookup_insert_Some in Hk' as [(-> & -> & _)|[Hne Hk']]; [lia|].
    intros Heq. apply Hne. eapply (inv_distinct _ Hi); [exact Ht|exact Hk'|done|lia|congruence]. }
  destruct fuel; cbn [sched_waitpid]; unfold mbind, M_bind, get; by rewrite Hnone.
Qed.

(** *** Context switches *)

Lemma word_eq m a v : word (<[a := v]> m) a = v.
Proof. unfold word. by rewrite lookup_insert_eq. Qed.
Lemma word_ne m a b v : a ≠ b → word (<[a := v]> m) b = word m b.
Proof. intros. unfold word. by rewrite lookup_insert_ne. Qed.

Ltac words := repeat (rewrite word_eq || rewrite word_ne by lia).

(** The frame [switch_context] leaves on the old stack, and what it takes from the new
    one, when the five words of the new frame are not among the four it pushes. *)
Lemma switch_context_spec new m c sp m' c' :
  switch_context new m c = (sp, m', c') →
  sp = c_esp c - 16 ∧
  (word m' sp = c_edi c ∧ word m' (sp + 4) = c_esi c ∧ word m' (sp + 8) = c_ebx c ∧
   word m' (sp + 12) = c_ebp c ∧ word m' (sp + 16) = word m (c_esp c)) ∧
  (new + 20 ≤ sp ∨ c_esp c ≤ new →
   c' = mkCpu (new + 20) (word m (new + 12)) (word m (new + 8)) (word m (new + 4)) (word m new)
              (word m (new + 16))).
Proof.
  unfold switch_context. cbn. intros Heq. injection Heq as <- <- <-.
  split; [lia|]. split.
  - replace (c_esp c - 4 - 4 - 4 - 4) with (c_esp c - 16) by lia.
    replace (c_esp c - 4 - 4 - 4) with (c_esp c - 12) by lia.
    replace (c_esp c - 4 - 4) with (c_esp c - 8) by lia.
    replace (c_esp c - 16 + 4) with (c_esp c - 12) by lia.
    replace (c_esp c - 16 + 8) with (c_esp c - 8) by lia.
    replace (c_esp c - 16 + 12) with (c_esp c - 4) by lia.
    replace (c_esp c - 16 + 16) with (c_esp c) by lia. words. done.
  - intros Hdis. words. done.
Qed.

(** The five words of the frame at [a], unchanged from [m] to [m']. *)
Definition frame_kept (a : Z) (m m' : gmap Z Z) : Prop :=
  word m' a = word m a ∧ word m' (a + 4) = word m (a + 4) ∧ word m' (a + 8) = word m (a + 8) ∧
  word m' (a + 12) = word m (a + 12) ∧ word m' (a + 16) = word m (a + 16).

(** The saved context of task [i] is the same in both states. *)
Definition context_kept (i : nat) (s s' : sched H) : Prop :=
  ∃ t t', tasks s !! i = Some t ∧ tasks s' !! i = Some t' ∧ esp t' = esp t ∧
    frame_kept (esp t) (kmem s) (kmem s').

(** The stack the processor is on does not overlap the frame of task [i]. *)
Definition off_frame (i : nat) (s : sched H) : Prop :=
  ∀ t, tasks s !! i = Some t → esp t + 20 ≤ c_esp (cpu s) - 16 ∨ c_esp (cpu s) ≤ esp t.

(** Resuming a task whose frame has been kept since [s]. *)
Lemma switch_to_resumes i s s1 s2 t :
  sched_wf s1 → Z.of_nat i < task_count s1 → Z.of_nat i ≠ current_idx s1 →
  tasks s !! i = Some t → context_kept i s s1 → off_frame i s1 →
  switch_to (Z.of_nat i) s1 = Ok (tt, s2) →
  cpu s2 = mkCpu (esp t + 20) (word (kmem s) (esp t + 12)) (word (kmem s) (esp t + 8))
                 (word (kmem s) (esp t + 4)) (word (kmem s) (esp t)) (word (kmem s) (esp t + 16)).
Proof.
  intros Hw Hlt Hne Ht (t0 & t1 & Ht0 & Ht1 & He & Hk) Hoff Hsw. simplify_eq.
  destruct (switch_to_spec s1 (Z.of_nat i) Hw) as (s2' & n & Heq & Hn & (sp & Hctx & _) & _); [lia|done|].
  rewrite Hsw in Heq. injection Heq as <-. rewrite Nat2Z.id in Hn. simplify_eq.
  destruct (switch_context_spec _ _ _ _ _ _ Hctx) as (Hsp & _ & Hregs).
  rewrite Hregs; [|rewrite Hsp; apply Hoff; done].
  destruct Hk as (Hk0 & Hk1 & Hk2 & Hk3 & Hk4). by rewrite He, Hk0, Hk1, Hk2, Hk3, Hk4.
Qed.

(** C14: a task that is switched away from and later switched back to continues as if
    the call of [switch_context] had returned: the callee-saved registers have the
    values they had, execution continues at the return address and the stack pointer is
    above it, provided the other tasks leave the five words of its frame alone. *)
Theorem context_switch_roundtrip b s s1 s2 s3 :
  sched_wf s → sched_wf s2 →
  0 ≤ b < task_count s → b ≠ current_idx s → switch_to b s = Ok (tt, s1) →
  context_kept (Z.to_nat (current_idx s)) s1 s2 → off_frame (Z.to_nat (current_idx s)) s2 →
  current_idx s < task_count s2 → current_idx s2 ≠ current_idx s →
  switch_to (current_idx s) s2 = Ok (tt, s3) →
  cpu s3 = mkCpu (c_esp (cpu s) + 4) (c_ebp (cpu s)) (c_ebx (cpu s)) (c_esi (cpu s)) (c_edi (cpu s))
                 (word (kmem s) (c_esp (cpu s))).
Proof.
  intros Hw Hw2 Hb Hne Hsw Hk Hoff Hlt Hne2 Hsw2. pose proof (wf_cur _ Hw).
  destruct (switch_to_spec s b Hw Hb Hne) as (s1' & n & Heq & _ & (sp & Hctx & (p & Hp & Hesp)) & _).
  rewrite Hsw in Heq. injection Heq as <-.
  rewrite (switch_to_resumes (Z.to_nat (current_idx s)) s1 s2 s3 p), Hesp;
    rewrite ?Z2Nat.id by lia; [|done..].
  destruct (switch_context_spec _ _ _ _ _ _ Hctx) as (-> & (-> & -> & -> & -> & ->) & _).
  f_equal. lia.
Qed.

Lemma setup_frame u entry m t m' :
  task_setup_stack u entry m = (t, m') →
  esp t = stack u + stack_size u - 56 ∧
  word m' (esp t) = 0x10 ∧ word m' (esp t + 4) = 0 ∧ word m' (esp t + 8) = 0 ∧
  word m' (esp t + 12) = 0 ∧ word m' (esp t + 16) = 0 ∧ word m' (esp t + 36) = entry.
Proof.
  unfold task_setup_stack. cbn [push_all]. intros [<- <-]%pair_eq. cbn [esp set_esp].
  set (top := stack u + stack_size u).
  split; [lia|].
  split_and!; unfold word.
  all: repeat (rewrite lookup_insert_ne by lia);
       match goal with |- context [<[?a := _]> _ !! ?b] => replace b with a by lia end;
       by rewrite lookup_insert_eq.
Qed.

(** A new task does not start at its entry point. [task_setup_stack] lays out a
    frame for an interrupt return, but the first switch to the task goes through
    [switch_context], which takes the fifth word of that frame as the address to
    continue at: the word is 0 (the entry point is the tenth). *)
Theorem spawned_task_starts_at_null nm entry lvl s r s1 :
  sched_wf s → sched_spawn nm entry lvl s = Ok (r, s1) → r ≠ -1 →
  ∃ i t, tasks s1 !! i = Some t ∧ pid t = r ∧ state t = TASK_READY ∧
    word (kmem s1) (esp t + 36) = entry ∧
    ∀ s2 s3, sched_wf s2 → Z.of_nat i < task_count s2 → Z.of_nat i ≠ current_idx s2 →
      context_kept i s1 s2 → off_frame i s2 → switch_to (Z.of_nat i) s2 = Ok (tt, s3) →
      c_eip (cpu s3) = 0.
Proof.
  intros Hw Hsp Hr. destruct (sched_spawn_inv _ _ _ _ _ _ Hw Hsp) as [[_ ->]|(Hs & -> & i & u & t & Hi & Hp & Hst & Hset)]; [done|].
  destruct (setup_frame _ _ _ _ _ Hset) as (_ & _ & _ & _ & _ & Hw16 & Hw36).
  exists i, t. split_and!; try done. intros s2 s3 Hw2 Hlt Hne Hk Hoff Hsw.
  by rewrite (switch_to_resumes _ _ _ _ _ Hw2 Hlt Hne Hi Hk Hoff Hsw).
Qed.

End runs.

(** ** A running system *)
Definition run_st {A} (d : sched kheap) (r : res (A * sched kheap)) : sched kheap :=
  match r with Ok (_, s) => s | _ => d end.
Definition sched_zero : sched kheap :=
  mkSched [] 0 0 1 0 0 heap0 ∅ (mkCpu 0x90000 1 2 3 4 0x101234) 0.
Definition boot_sched : sched kheap := run_st sched_zero (sched_init 0x101000 sched_zero).
Definition spawn_sched : sched kheap :=
  run_st sched_zero (sched_spawn (lit "worker") 0x105000 0 boot_sched).
(** The worker is current. *)
Definition worker_sched : sched kheap := run_st sched_zero (exec_all [EvYield; EvYield] spawn_sched).

Lemma boot_sched_ok : sched_init 0x101000 sched_zero = Ok (tt, boot_sched).
Proof. vm_compute. reflexivity. Qed.
Lemma boot_sched_inv : sched_inv boot_sched ∧ next_pid boot_sched = 3.
Proof.
  destruct (sched_init_inv 0x101000 sched_zero boot_sched) as [Hi _]; [done|done|exact boot_sched_ok|].
  split; [exact Hi|]. vm_compute. reflexivity.
Qed.
Lemma worker_sched_ok :
  exec_all [EvSpawn (lit "worker") 0x105000 0; EvYield; EvYield] boot_sched = Ok (tt, worker_sched).
Proof. vm_compute. reflexivity. Qed.
Lemma worker_sched_inv : sched_inv worker_sched.
Proof.
  destruct boot_sched_inv as [Hi Hn].
  eapply (exec_all_inv _ _ _ Hi); [lia| |exact worker_sched_ok]. rewrite Hn. cbn. lia.
Qed.

Lemma sched_invariant_witness :
  ∃ s, exec_all [EvSpawn (lit "worker") 0x105000 0; EvYield; EvTimer 5; EvSleep 100; EvTick; EvExit 3]
         boot_sched = Ok (tt, s) ∧ sched_inv s.
Proof.
  eexists. split; [vm_compute; reflexivity|].
  eapply (sched_invariant 0x101000
    [EvSpawn (lit "worker") 0x105000 0; EvYield; EvTimer 5; EvSleep 100; EvTick; EvExit 3] sched_zero boot_sched);
    [done|vm_compute; reflexivity|exact boot_sched_ok|vm_compute; reflexivity].
Defined.

Lemma sched_fair_witness :
  ∃ es1 es2 s1, replicate 15 EvYield = es1 ++ es2 ∧ exec_all es1 boot_sched = Ok (tt, s1) ∧ current_idx s1 = 1.
Proof.
  eapply (sched_fair 1 (replicate 15 EvYield) boot_sched);
    [apply boot_sched_inv|eexists; split; [vm_compute; reflexivity|vm_compute; repeat split; discriminate]
    |vm_compute; reflexivity|vm_compute; discriminate].
Defined.

Lemma exit_status_delivered_witness :
  ∃ s1 s2 s3, sched_exit_code 42 worker_sched = Ok (tt, s1) ∧
    exec_all [EvYield; EvTick; EvYield] s1 = Ok (tt, s2) ∧
    sched_waitpid 0 0 (λ _, mret tt) 3 s2 = Ok (42, s3).
Proof.
  assert (∃ s1 s2, sched_exit_code 42 worker_sched = Ok (tt, s1) ∧
                   exec_all [EvYield; EvTick; EvYield] s1 = Ok (tt, s2)) as (s1 & s2 & H1 & H2).
  { eexists _, _. split; [vm_compute; reflexivity|]. vm_compute. reflexivity. }
  assert (∃ t, tasks worker_sched !! 2%nat = Some t ∧ pid t = 3) as (t & Ht & Hp).
  { eexists. split; [vm_compute; reflexivity|vm_compute; reflexivity]. }
  exists s1, s2.
  destruct (exit_status_delivered 42 [EvYield; EvTick; EvYield] worker_sched s1 s2 t 0 0 (λ _, mret tt)) as [s3 H3];
    [exact worker_sched_inv|vm_compute; discriminate|exact Ht|exact H1|by repeat constructor|exact H2|].
  exists s3. rewrite <- Hp. auto.
Defined.

Lemma context_switch_roundtrip_witness :
  ∃ s1 s3, switch_to 1 boot_sched = Ok (tt, s1) ∧ switch_to 0 s1 = Ok (tt, s3) ∧
    cpu s3 = mkCpu 0x90004 1 2 3 4 0.
Proof.
  assert (∃ s1 s3, switch_to 1 boot_sched = Ok (tt, s1) ∧ switch_to 0 s1 = Ok (tt, s3) ∧
    sched_wf s1 ∧ current_idx s1 = 1 ∧ task_count s1 = 2 ∧
    (∃ t, tasks s1 !! 0%nat = Some t ∧ esp t = 0x90000 - 16) ∧ c_esp (cpu s1) = 0x200010 + 4096 - 36)
    as (s1 & s3 & H1 & H3 & Hw1 & Hc & Hn & (t & Ht & He) & Hesp).
  { destruct (exec_inv EvYield boot_sched (run_st boot_sched (switch_to 1 boot_sched))) as [Hi _];
      [apply boot_sched_inv|vm_compute; reflexivity..|].
    eexists _, _. split; [vm_compute; reflexivity|]. split; [vm_compute; reflexivity|].
    split; [exact (inv_wf _ Hi)|]. split; [reflexivity|]. split; [reflexivity|].
    split; [eexists; split; reflexivity|]. reflexivity. }
  exists s1, s3. split; [exact H1|]. split; [exact H3|].
  rewrite (context_switch_roundtrip 1 boot_sched s1 s1 s3); [vm_compute; reflexivity| | | | |exact H1| | | | |exact H3].
  - apply boot_sched_inv.
  - exact Hw1.
  - vm_compute. split; [discriminate|reflexivity].
  - vm_compute. discriminate.
  - exists t, t. split; [exact Ht|]. split; [exact Ht|]. split; [reflexivity|]. by repeat split.
  - intros u Hu. change (Z.to_nat (current_idx boot_sched)) with 0%nat in Hu.
    rewrite Ht in Hu. injection Hu as <-. rewrite He, Hesp. lia.
  - rewrite Hn. vm_compute. reflexivity.
  - rewrite Hc. vm_compute. discriminate.
Defined.

Lemma spawned_task_starts_at_null_witness :
  ∃ i t, tasks spawn_sched !! i = Some t ∧ pid t = 3 ∧ state t = TASK_READY ∧
    word (kmem spawn_sched) (esp t + 36) = 0x105000 ∧
    ∀ s2 s3, sched_wf s2 → Z.of_nat i < task_count s2 → Z.of_nat i ≠ current_idx s2 →
      context_kept i spawn_sched s2 → off_frame i s2 → switch_to (Z.of_nat i) s2 = Ok (tt, s3) →
      c_eip (cpu s3) = 0.
Proof.
  apply (spawned_task_starts_at_null (lit "worker") 0x105000 0 boot_sched 3 spawn_sched);
    [apply boot_sched_inv|vm_compute; reflexivity|discriminate].
Defined.

(** The worker as it really starts: the processor is at address 0 when it becomes current. *)
Example worker_at_zero : current_idx worker_sched = 2 ∧ c_eip (cpu worker_sched) = 0.
Proof. vm_compute. done. Qed.

(** [sched_wait] finds the same ended child every time it is called. *)
Example sched_wait_repeats :
  ∃ s1 s2 s3 s4, exec_all [EvExit 42] worker_sched = Ok (tt, s1) ∧
    sched_wait 0 0 (λ _, mret tt) 1 s1 = Ok (Some (3, 42), s2) ∧
    sched_wait 0 0 (λ _, mret tt) 1 s2 = Ok (Some (3, 42), s3) ∧
    sched_wait 0 0 (λ _, mret tt) 1 s3 = Ok (Some (3, 42), s4).
Proof. eexists _, _, _, _. vm_compute. done. Qed.
