(* ===== verification/Vga.v ===== *)
(** * The text console (src/src/vga.c)

    [vmem] is the text window of the display adapter (32 KiB, one 16-bit cell per
    character; the screen shows the first 2000 cells), [crtc_hi] and [crtc_lo] are the
    two halves of the adapter's cursor position. A character is its byte; a [char] is
    signed when it is widened. The listings other components print are sequences of
    console operations, [con]. *)

From S2P Require Import Prelude KString.

Inductive vga_color :=
| VGA_BLACK | VGA_BLUE | VGA_GREEN | VGA_CYAN | VGA_RED | VGA_MAGENTA | VGA_BROWN | VGA_LIGHT_GREY
| VGA_DARK_GREY | VGA_LIGHT_BLUE | VGA_LIGHT_GREEN | VGA_LIGHT_CYAN | VGA_LIGHT_RED
| VGA_LIGHT_MAGENTA | VGA_YELLOW | VGA_WHITE.

Definition color_val (c : vga_color) : Z :=
  match c with
  | VGA_BLACK => 0 | VGA_BLUE => 1 | VGA_GREEN => 2 | VGA_CYAN => 3 | VGA_RED => 4 | VGA_MAGENTA => 5
  | VGA_BROWN => 6 | VGA_LIGHT_GREY => 7 | VGA_DARK_GREY => 8 | VGA_LIGHT_BLUE => 9
  | VGA_LIGHT_GREEN => 10 | VGA_LIGHT_CYAN => 11 | VGA_LIGHT_RED => 12 | VGA_LIGHT_MAGENTA => 13
  | VGA_YELLOW => 14 | VGA_WHITE => 15
  end.

Definition VGA_WIDTH : Z := 80.
Definition VGA_HEIGHT : Z := 25.
Definition VGA_CELLS : nat := Z.to_nat 16384.

Record vga := mkVga {
  vmem : list Z;
  terminal_row : Z;
  terminal_col : Z;
  terminal_color : Z;
  crtc_hi : Z;
  crtc_lo : Z
}.

Definition set_vmem (m : list Z) (v : vga) : vga :=
  mkVga m (terminal_row v) (terminal_col v) (terminal_color v) (crtc_hi v) (crtc_lo v).
Definition set_row (r : Z) (v : vga) : vga :=
  mkVga (vmem v) r (terminal_col v) (terminal_color v) (crtc_hi v) (crtc_lo v).
Definition set_col (c : Z) (v : vga) : vga :=
  mkVga (vmem v) (terminal_row v) c (terminal_color v) (crtc_hi v) (crtc_lo v).
Definition set_color (c : Z) (v : vga) : vga :=
  mkVga (vmem v) (terminal_row v) (terminal_col v) c (crtc_hi v) (crtc_lo v).
Definition set_crtc (hi lo : Z) (v : vga) : vga :=
  mkVga (vmem v) (terminal_row v) (terminal_col v) (terminal_color v) hi lo.

Definition vga_entry (c color : Z) : Z := u16 (Z.lor (u16 (schar c)) (Z.shiftl color 8)).
Definition vga_color_make (fg bg : vga_color) : Z :=
  u8 (Z.lor (color_val fg) (Z.shiftl (color_val bg) 4)).

(** [VGA_MEM[i] = x] and [VGA_MEM[i]]. *)
Definition put_cell (i x : Z) : M vga unit := λ v,
  m ← arr_set (vmem v) i x; Ok (tt, set_vmem m v).
Definition get_cell (i : Z) : M vga Z := λ v, x ← arr_get (vmem v) i; Ok (x, v).

Definition vga_set_cursor (x y : Z) : M vga unit :=
  let pos := u16 (y * VGA_WIDTH + x) in
  modify (λ v, set_crtc (Z.land (Z.shiftr pos 8) 0xFF) (Z.land pos 0xFF) v).

Definition vga_clear : M vga unit :=
  for_range 0 VGA_HEIGHT (λ y, for_range 0 VGA_WIDTH (λ x,
    v ← get; put_cell (y * VGA_WIDTH + x) (vga_entry 32 (terminal_color v)))) ;;
  modify (set_row 0) ;;
  modify (set_col 0) ;;
  vga_set_cursor 0 0.

Definition vga_init : M vga unit :=
  modify (set_row 0) ;;
  modify (set_col 0) ;;
  modify (set_color (vga_color_make VGA_LIGHT_GREY VGA_BLACK)) ;;
  vga_clear.

Definition vga_set_color (fg bg : vga_color) : M vga unit :=
  modify (set_color (vga_color_make fg bg)).

Definition vga_scroll : M vga unit :=
  for_range 0 (VGA_HEIGHT - 1) (λ y, for_range 0 VGA_WIDTH (λ x,
    c ← get_cell ((y + 1) * VGA_WIDTH + x); put_cell (y * VGA_WIDTH + x) c)) ;;
  for_range 0 VGA_WIDTH (λ x,
    v ← get; put_cell ((VGA_HEIGHT - 1) * VGA_WIDTH + x) (vga_entry 32 (terminal_color v))) ;;
  modify (set_row (VGA_HEIGHT - 1)).

(** [if (++terminal_row >= VGA_HEIGHT) vga_scroll();] *)
Definition next_row : M vga unit :=
  modify (λ v, set_row (terminal_row v + 1) v) ;;
  v ← get;
  if VGA_HEIGHT <=? terminal_row v then vga_scroll else mret tt.

(** Every character but the tab. *)
Definition putchar_plain (c : Z) : M vga unit :=
  (if c =? 10 then modify (set_col 0) ;; next_row
   else if c =? 13 then modify (set_col 0)
   else if c =? 8 then
     v ← get;
     if 0 <? terminal_col v then
       modify (λ v, set_col (terminal_col v - 1) v) ;;
       v ← get;
       put_cell (terminal_row v * VGA_WIDTH + terminal_col v) (vga_entry 32 (terminal_color v))
     else mret tt
   else
     v ← get;
     put_cell (terminal_row v * VGA_WIDTH + terminal_col v) (vga_entry c (terminal_color v)) ;;
     modify (λ v, set_col (terminal_col v + 1) v) ;;
     v ← get;
     if VGA_WIDTH <=? terminal_col v then modify (set_col 0) ;; next_row else mret tt) ;;
  v ← get;
  vga_set_cursor (terminal_col v) (terminal_row v).

Definition vga_putchar (c : Z) : M vga unit :=
  if c =? 9 then
    v ← get;
    for_range 0 (4 - Z.rem (terminal_col v) 4) (λ _, putchar_plain 32)
  else putchar_plain c.

Fixpoint vga_puts (str : list Z) : M vga unit :=
  match str with
  | [] => lift Fault
  | c :: str' => if c =? 0 then mret tt else vga_putchar c ;; vga_puts str'
  end.

Fixpoint puts_at_loop (str : list Z) (cx y color : Z) : M vga unit :=
  match str with
  | [] => lift Fault
  | c :: str' =>
      if negb (c =? 0) && (cx <? VGA_WIDTH) then
        put_cell (y * VGA_WIDTH + cx) (vga_entry c color) ;; puts_at_loop str' (cx + 1) y color
      else mret tt
  end.

Definition vga_puts_at (str : list Z) (x y : Z) (fg bg : vga_color) : M vga unit :=
  puts_at_loop str x y (vga_color_make fg bg).

Definition vga_draw_box (x y w h : Z) (fg bg : vga_color) : M vga unit :=
  let color := vga_color_make fg bg in
  put_cell (y * VGA_WIDTH + x) (vga_entry 43 color) ;;
  put_cell (y * VGA_WIDTH + x + w - 1) (vga_entry 43 color) ;;
  put_cell ((y + h - 1) * VGA_WIDTH + x) (vga_entry 43 color) ;;
  put_cell ((y + h - 1) * VGA_WIDTH + x + w - 1) (vga_entry 43 color) ;;
  for_range 1 (w - 1) (λ i,
    put_cell (y * VGA_WIDTH + x + i) (vga_entry 45 color) ;;
    put_cell ((y + h - 1) * VGA_WIDTH + x + i) (vga_entry 45 color)) ;;
  for_range 1 (h - 1) (λ i,
    put_cell ((y + i) * VGA_WIDTH + x) (vga_entry 124 color) ;;
    put_cell ((y + i) * VGA_WIDTH + x + w - 1) (vga_entry 124 color)).

Definition vga_fill_rect (x y w h ch : Z) (fg bg : vga_color) : M vga unit :=
  let color := vga_color_make fg bg in
  for_range y (Z.min (y + h) VGA_HEIGHT) (λ row,
    for_range x (Z.min (x + w) VGA_WIDTH) (λ col,
      put_cell (row * VGA_WIDTH + col) (vga_entry ch color))).

Definition vga_get_col : M vga Z := gets terminal_col.
Definition vga_get_row : M vga Z := gets terminal_row.

(** The digits that fill [buf[9]] down to [buf[2]], most significant first. *)
Fixpoint hex_digits (n : nat) (val : Z) (acc : list Z) : list Z :=
  match n with
  | O => acc
  | S n' => hex_digits n' (Z.shiftr val 4) ((str "0123456789ABCDEF" !!! Z.to_nat (Z.land val 0xF)) :: acc)
  end.
Definition vga_put_hex (val : Z) : M vga unit :=
  vga_puts (48 :: 120 :: hex_digits 8 (u32 val) [] ++ [0]).

(** The loop of [vga_put_dec]: [room] cells of [buf] are left below [i]; the buffer has
    11 cells for digits. *)
Fixpoint dec_digits (room : nat) (val : Z) (acc : list Z) : res (list Z) :=
  if 0 <? val then
    match room with
    | O => Fault
    | S room' => dec_digits room' (val / 10) ((48 + val mod 10) :: acc)
    end
  else Ok acc.
Definition vga_put_dec (val : Z) : M vga unit :=
  if u32 val =? 0 then vga_putchar 48
  else ds ← lift (dec_digits 11 (u32 val) []); vga_puts (ds ++ [0]).

(** ** Listings *)
Inductive con :=
| CColor (fg bg : vga_color)
| CPuts (s : list Z)
| CPutc (c : Z)
| CDec (n : Z)
| CHex (n : Z).

Definition run_con1 (c : con) : M vga unit :=
  match c with
  | CColor fg bg => vga_set_color fg bg
  | CPuts s => vga_puts s
  | CPutc c => vga_putchar c
  | CDec n => vga_put_dec n
  | CHex n => vga_put_hex n
  end.
Fixpoint run_con (l : list con) : M vga unit :=
  match l with
  | [] => mret tt
  | c :: l' => run_con1 c ;; run_con l'
  end.

(** ** A terminal

    The specification of the console: cells as a function of the position, a cursor,
    and the scrolling done in one step. *)
Record term := mkTerm { cells : Z → Z; t_row : Z; t_col : Z; t_color : Z }.

Definition blank (color : Z) : Z := vga_entry 32 color.
Definition term_write (i x : Z) (t : term) : term :=
  mkTerm (λ j, if j =? i then x else cells t j) (t_row t) (t_col t) (t_color t).
Definition term_goto (r c : Z) (t : term) : term := mkTerm (cells t) r c (t_color t).
Definition term_scroll (t : term) : term :=
  mkTerm (λ i, if i <? 1920 then cells t (i + 80) else if i <? 2000 then blank (t_color t) else cells t i)
         24 (t_col t) (t_color t).
(** To the beginning of the next row. *)
Definition term_newline (t : term) : term :=
  let t' := term_goto (t_row t + 1) 0 t in
  if 25 <=? t_row t + 1 then term_scroll t' else t'.
Definition term_put (c : Z) (t : term) : term :=
  let here := t_row t * 80 + t_col t in
  if c =? 10 then term_newline t
  else if c =? 13 then term_goto (t_row t) 0 t
  else if c =? 8 then
    if 0 <? t_col t then
      term_write (here - 1) (blank (t_color t)) (term_goto (t_row t) (t_col t - 1) t)
    else t
  else
    let t' := term_write here (vga_entry c (t_color t)) t in
    if 80 <=? t_col t + 1 then term_newline t' else term_goto (t_row t) (t_col t + 1) t'.
Definition term_putchar (c : Z) (t : term) : term :=
  if c =? 9 then Nat.iter (Z.to_nat (4 - t_col t mod 4)) (term_put 32) t else term_put c t.
Definition term_puts (s : list Z) (t : term) : term := foldl (λ t c, term_putchar c t) t s.

Definition term_ok (t : term) : Prop := 0 ≤ t_row t < 25 ∧ 0 ≤ t_col t < 80.

(** The console shows the terminal. *)
Definition shows (v : vga) (t : term) : Prop :=
  length (vmem v) = VGA_CELLS ∧ terminal_row v = t_row t ∧ terminal_col v = t_col t ∧
  terminal_color v = t_color t ∧
  ∀ i, 0 ≤ i < 16384 → vmem v !! Z.to_nat i = Some (cells t i).

(** The hardware cursor is at the terminal's. *)
Definition cursor_at (v : vga) (t : term) : Prop :=
  256 * crtc_hi v + crtc_lo v = t_row t * 80 + t_col t.

(** ** The console implements the terminal *)

Lemma wp_put_cell i x t v (Q : unit → vga → Prop) :
  0 ≤ i < 16384 → shows v t → (∀ v', shows v' (term_write i x t) → Q tt v') → wp (put_cell i x) Q v.
Proof.
  intros Hi (Hl & Hr & Hc & Hcol & Hcells) HQ. unfold wp, put_cell. unfold VGA_CELLS in Hl.
  rewrite arr_set_in by lia. cbn. apply HQ. split_and!; try done; [cbn; by rewrite length_insert|].
  intros j Hj. cbn. destruct (Z.eqb_spec j i) as [->|Hne].
  - apply list_lookup_insert_eq. lia.
  - rewrite list_lookup_insert_ne by lia. by apply Hcells.
Qed.

Lemma wp_get_cell i t v (Q : Z → vga → Prop) :
  0 ≤ i < 16384 → shows v t → Q (cells t i) v → wp (get_cell i) Q v.
Proof.
  intros Hi Hs HQ. unfold wp, get_cell. destruct Hs as (_ & _ & _ & _ & Hcells).
  by rewrite (proj2 (arr_get_Ok _ _ _) (conj (proj1 Hi) (Hcells i Hi))).
Qed.

(** The cells below the last row have been moved up to position [k]. *)
Definition scrolled_to (k : Z) (t : term) : term :=
  mkTerm (λ i, if i <? k then (if i <? 1920 then cells t (i + 80) else blank (t_color t)) else cells t i)
         (t_row t) (t_col t) (t_color t).

Lemma shows_ext v t t' :
  shows v t → t_row t' = t_row t → t_col t' = t_col t → t_color t' = t_color t →
  (∀ i, 0 ≤ i < 16384 → cells t' i = cells t i) → shows v t'.
Proof.
  intros (? & ? & ? & ? & Hc) ? ? ? He. split_and!; try congruence.
  intros i Hi. rewrite (He i Hi). auto.
Qed.

Lemma vga_scroll_spec v t :
  shows v t → wp vga_scroll (λ _ v', shows v' (term_scroll t)) v.
Proof.
  intros Hs. unfold vga_scroll, VGA_HEIGHT, VGA_WIDTH. apply wp_bind.
  apply (wp_for_range (λ y v, shows v (scrolled_to (80 * y) t))); [lia| | |].
  { eapply shows_ext; [done..|]. intros i Hi. cbn. case_z; [lia|done]. }
  { intros y v1 Hy Hv1.
    apply (wp_for_range (λ x v, shows v (scrolled_to (80 * y + x) t))); [lia| | |].
    - by rewrite Z.add_0_r.
    - intros x v2 Hx Hv2. apply wp_bind. eapply wp_get_cell; [|exact Hv2|]; [lia|].
      eapply wp_put_cell; [lia|exact Hv2|]. intros v3 Hv3.
      eapply shows_ext; [exact Hv3|done..|]. intros i Hi. cbn.
      repeat case_z; try lia; try done; f_equal; lia.
    - intros v2. by replace (80 * (y + 1)) with (80 * y + 80) by lia. }
  intros v1 Hv1. apply wp_bind.
  apply (wp_for_range (λ x v, shows v (scrolled_to (1920 + x) t))); [lia|done| |].
  { intros x v2 Hx Hv2. apply wp_bind, wp_get.
    eapply wp_put_cell; [lia|exact Hv2|]. intros v3 Hv3.
    eapply shows_ext; [exact Hv3|done..|]. intros i Hi. cbn.
    destruct Hv2 as (_ & _ & _ & -> & _). repeat case_z; try lia; try done; f_equal; lia. }
  intros v2 (Hl & Hr & Hc & Hcol & Hcells). apply wp_modify. split_and!; try done. intros i Hi. cbn.
  rewrite Hcells by done. cbn. f_equal. repeat case_z; try lia; done.
Qed.

Lemma shows_goto v t r c :
  shows v t → shows (set_col c (set_row r v)) (term_goto r c t).
Proof. intros (? & ? & ? & ? & ?). by split_and!. Qed.

Lemma next_row_spec v t :
  terminal_col v = 0 → shows v (term_goto (t_row t) 0 t) → term_ok t →
  wp next_row (λ _ v', shows v' (term_newline t)) v.
Proof.
  intros Hc Hs Hok. unfold next_row. apply wp_bind, wp_modify, wp_bind, wp_get. cbn.
  assert (terminal_row v = t_row t) as Hr by apply Hs.
  assert (shows (set_row (terminal_row v + 1) v) (term_goto (t_row t + 1) 0 t)) as Hs'.
  { destruct Hs as (? & ? & ? & ? & ?). split_and!; cbn; try done; lia. }
  unfold term_newline, VGA_HEIGHT. rewrite Hr. rewrite Hr in Hs'. destruct (25 <=? t_row t + 1); [|exact Hs'].
  by apply vga_scroll_spec.
Qed.

Lemma wp_set_cursor v t (Q : unit → vga → Prop) :
  term_ok t → shows v t → (∀ v', shows v' t → cursor_at v' t → Q tt v') →
  wp (vga_set_cursor (terminal_col v) (terminal_row v)) Q v.
Proof.
  intros [Hr Hc] Hs HQ. apply wp_modify, HQ; [by destruct Hs as (? & ? & ? & ? & ?)|].
  destruct Hs as (_ & Hr' & Hc' & _). unfold cursor_at. cbn. rewrite Hr', Hc'. unfold VGA_WIDTH.
  rewrite u16_small by lia. change 255 with (2 ^ 8 - 1). rewrite !land_low, Z.shiftr_div_pow2 by lia.
  rewrite (Z.mod_small (_ / _)) by (split; [apply Z.div_pos; lia|apply Z.div_lt_upper_bound; lia]).
  pose proof (Z.div_mod (t_row t * 80 + t_col t) (2 ^ 8)). lia.
Qed.

Lemma term_newline_ok t : term_ok t → term_ok (term_newline t).
Proof. unfold term_ok, term_newline. intros. case_if; cbn; lia. Qed.
Lemma term_put_ok c t : term_ok t → term_ok (term_put c t).
Proof.
  intros Hok. unfold term_put.
  assert (∀ i x, term_ok (term_write i x t)) as Hw by done.
  destruct Hok as [Hr Hc]. repeat case_if; try (apply term_newline_ok; done || apply Hw || split; lia);
    unfold term_ok; cbn; lia.
Qed.
Lemma term_iter_ok n c t : term_ok t → term_ok (Nat.iter n (term_put c) t).
Proof. intros Hok. induction n; cbn; [done|by apply term_put_ok]. Qed.

Lemma putchar_plain_spec c v t :
  shows v t → term_ok t →
  wp (putchar_plain c) (λ _ v', shows v' (term_put c t) ∧ cursor_at v' (term_put c t)) v.
Proof.
  intros Hs Hok. pose proof (term_put_ok c t Hok) as Hok'.
  unfold putchar_plain. apply wp_bind.
  apply (wp_mono _ (λ _ v', shows v' (term_put c t))).
  2: { intros [] v' Hv'. apply wp_bind, wp_get. by apply (wp_set_cursor v' _ _ Hok' Hv'). }
  assert (terminal_row v = t_row t ∧ terminal_col v = t_col t ∧ terminal_color v = t_color t)
    as (Hr & Hc & Hcol) by (by destruct Hs as (? & ? & ? & ? & ?)).
  assert (shows (set_col 0 v) (term_goto (t_row t) 0 t)) as Hs0.
  { destruct Hs as (? & ? & ? & ? & ?). by split_and!. }
  destruct Hok as [Hr' Hc'].
  unfold term_put. destruct (c =? 10).
  { apply wp_bind, wp_modify. by apply next_row_spec. }
  destruct (c =? 13); [exact Hs0|].
  destruct (c =? 8).
  { apply wp_bind, wp_get. rewrite Hc. destruct (0 <? t_col t) eqn:E; bool_hyps; [|exact Hs].
    apply wp_bind, wp_modify, wp_bind, wp_get. cbn [terminal_row terminal_col terminal_color set_col].
    rewrite Hr, Hc, Hcol. unfold VGA_WIDTH.
    replace (t_row t * 80 + t_col t - 1) with (t_row t * 80 + (t_col t - 1)) by lia.
    eapply wp_put_cell; [lia| |intros v' Hv'; exact Hv'].
    destruct Hs as (? & ? & ? & ? & ?). split_and!; done. }
  apply wp_bind, wp_get. rewrite Hr, Hc, Hcol. unfold VGA_WIDTH. apply wp_bind.
  eapply wp_put_cell; [lia|exact Hs|]. intros v' Hv'. apply wp_bind, wp_modify, wp_bind, wp_get.
  assert (terminal_row v' = t_row t ∧ terminal_col v' = t_col t) as (Hr2 & Hc2)
    by (by destruct Hv' as (? & ? & ? & ? & ?)).
  cbn [terminal_col set_col]. rewrite Hc2. destruct (80 <=? t_col t + 1).
  - apply wp_bind, wp_modify. apply next_row_spec; [done| |done].
    destruct Hv' as (? & ? & ? & ? & ?). by split_and!.
  - destruct Hv' as (? & ? & ? & ? & ?). split_and!; done.
Qed.

Lemma vga_putchar_spec c v t :
  shows v t → term_ok t →
  wp (vga_putchar c) (λ _ v', shows v' (term_putchar c t) ∧ cursor_at v' (term_putchar c t)) v.
Proof.
  intros Hs Hok. unfold vga_putchar, term_putchar. destruct (c =? 9); [|by apply putchar_plain_spec].
  apply wp_bind, wp_get. destruct Hs as (Hl & Hr & Hc & Hs). rewrite Hc.
  assert (shows v t) as Hsv by done. destruct Hok as [Hr' Hc'].
  rewrite Z.rem_mod_nonneg by lia. pose proof (Z.mod_pos_bound (t_col t) 4).
  apply (wp_for_range (λ k v, shows v (Nat.iter (Z.to_nat k) (term_put 32) t) ∧
    (0 < k → cursor_at v (Nat.iter (Z.to_nat k) (term_put 32) t)))); [lia| | |].
  - split; [done|lia].
  - intros k v1 Hk [Hv1 _]. replace (Z.to_nat (k + 1)) with (S (Z.to_nat k)) by lia. cbn [Nat.iter].
    eapply wp_mono; [apply putchar_plain_spec; [exact Hv1|by apply term_iter_ok]|]. cbn. tauto.
  - intros v1 [Hv1 Hcur]. split; [done|]. apply Hcur. lia.
Qed.

Lemma term_putchar_ok c t : term_ok t → term_ok (term_putchar c t).
Proof. intros. unfold term_putchar. case_if; [by apply term_iter_ok|by apply term_put_ok]. Qed.

Lemma term_puts_ok s t : term_ok t → term_ok (term_puts s t).
Proof.
  unfold term_puts. revert t. induction s as [|c s IH]; intros t Hok; cbn; [done|].
  by apply IH, term_putchar_ok.
Qed.

(** The part of the window below the screen is never written. *)
Definition same_below (t t' : term) : Prop := ∀ i, 2000 ≤ i → cells t' i = cells t i.

Lemma term_newline_below t : same_below t (term_newline t).
Proof. intros i Hi. unfold term_newline. case_if; cbn; [|done]. repeat case_z; lia || done. Qed.
Lemma term_put_below c t : term_ok t → same_below t (term_put c t).
Proof.
  intros [Hr Hc]. assert (∀ i x, i < 2000 → same_below t (term_write i x t)) as Hw.
  { intros i x Hi j Hj. cbn. case_z; [lia|done]. }
  unfold term_put. repeat case_if; try (apply term_newline_below || done).
  - intros i Hi. cbn. case_z; [lia|done].
  - intros i Hi. rewrite term_newline_below by done. apply Hw; lia.
  - intros i Hi. apply Hw; lia.
Qed.
Lemma term_putchar_below c t : term_ok t → same_below t (term_putchar c t).
Proof.
  intros Hok. unfold term_putchar. case_if; [|by apply term_put_below].
  generalize (Z.to_nat (4 - t_col t mod 4)). intros n. induction n as [|n IH]; [done|].
  intros i Hi. rewrite Nat.iter_succ, term_put_below; [by apply IH|by apply term_iter_ok|done].
Qed.
Lemma term_puts_below s t : term_ok t → same_below t (term_puts s t).
Proof.
  unfold term_puts. revert t. induction s as [|c s IH]; intros t Hok i Hi; cbn; [done|].
  rewrite IH; [by apply term_putchar_below|by apply term_putchar_ok|done].
Qed.

Lemma vga_puts_spec s rest v t :
  nonzero s → shows v t → term_ok t →
  wp (vga_puts (s ++ 0 :: rest)) (λ _ v', shows v' (term_puts s t) ∧
    (s ≠ [] ∨ cursor_at v t → cursor_at v' (term_puts s t))) v.
Proof.
  intros Hnz. revert v t. induction Hnz as [|c s Hc Hnz IH]; intros v t Hs Hok; cbn [app vga_puts].
  { split; [done|]. naive_solver. }
  rewrite (proj2 (Z.eqb_neq _ _)) by done. apply wp_bind.
  eapply wp_mono; [by apply vga_putchar_spec|]. intros [] v1 [Hs1 Hcur1].
  eapply wp_mono; [apply IH; [exact Hs1|by apply term_putchar_ok]|]. intros [] v2 [Hs2 Hcur2].
  split; [done|]. intros _. apply Hcur2. by right.
Qed.

(** C15: printing a string on the console does exactly what the terminal does: each
    character goes to the cursor position, lines wrap after column 80, and at the
    bottom the rows move up by one and a blank row comes in. Nothing outside the
    screen is written, no access is out of range, and the hardware cursor ends up at
    the terminal's. *)
Theorem vga_puts_refines v t buf s :
  shows v t → term_ok t → cstr buf s →
  ∃ v', vga_puts buf v = Ok (tt, v') ∧ shows v' (term_puts s t) ∧ term_ok (term_puts s t) ∧
    (s ≠ [] → cursor_at v' (term_puts s t)) ∧
    ∀ i, 2000 ≤ i < 16384 → vmem v' !! Z.to_nat i = vmem v !! Z.to_nat i.
Proof.
  intros Hs Hok (rest & -> & Hnz).
  pose proof (vga_puts_spec s rest v t Hnz Hs Hok) as (u & v' & Hrun & Hs' & Hcur)%wp_Ok. destruct u.
  exists v'. split; [done|]. split; [done|]. split; [by apply term_puts_ok|]. split; [auto|].
  intros i Hi. destruct Hs as (_ & _ & _ & _ & Hc), Hs' as (_ & _ & _ & _ & Hc').
  rewrite Hc, Hc' by lia. f_equal. apply term_puts_below; [done|lia].
Qed.

(** A cleared screen. *)
Definition vga_zero : vga := mkVga (replicate VGA_CELLS 0) 0 0 7 0 0.
Definition term_zero : term := mkTerm (λ _, 0) 0 0 7.

Lemma vga_puts_refines_witness :
  ∃ v', vga_puts (lit "KumOS") vga_zero = Ok (tt, v') ∧ cursor_at v' (term_puts (str "KumOS") term_zero).
Proof.
  destruct (vga_puts_refines vga_zero term_zero (lit "KumOS") (str "KumOS")) as (v' & Hrun & _ & _ & Hcur & _).
  - split_and!; [done..|]. intros i Hi. apply lookup_replicate. split; [done|unfold VGA_CELLS; lia].
  - by split.
  - exists []. split; [reflexivity|]. by repeat constructor.
  - exists v'. split; [exact Hrun|]. by apply Hcur.
Defined.

(** [vga_put_dec] prints the decimal numeral, within its buffer. *)
Lemma dec_digits_spec room val acc :
  0 ≤ val < 10 ^ Z.of_nat room →
  ∃ ds, dec_digits room val acc = Ok (ds ++ acc) ∧ num_value 10 ds = val ∧
    Forall (λ d, 48 ≤ d ≤ 57) ds ∧ (0 < val → ds ≠ []).
Proof.
  revert val acc. induction room as [|room IH]; intros val acc Hv.
  { change (10 ^ Z.of_nat 0) with 1 in Hv. exists []. cbn. destruct (Z.ltb_spec 0 val); [lia|]. split_and!; [done|unfold num_value; cbn; lia|done|intros; lia]. }
  cbn [dec_digits]. destruct (Z.ltb_spec 0 val) as [Hpos|]; [|exists []; split_and!; [done|unfold num_value; cbn; lia|done|intros; lia]].
  rewrite Nat2Z.inj_succ, Z.pow_succ_r in Hv by lia.
  destruct (IH (val / 10) ((48 + val mod 10) :: acc)) as (ds & Hrun & Hval & Hds & _).
  { split; [apply Z.div_pos; lia|]. apply Z.div_lt_upper_bound; lia. }
  pose proof (Z.mod_pos_bound val 10).
  exists (ds ++ [48 + val mod 10]). split_and!.
  - by rewrite <- app_assoc.
  - rewrite num_value_snoc, Hval. unfold digit_value. rewrite (proj2 (Z.ltb_lt _ _)) by lia.
    pose proof (Z.div_mod val 10). lia.
  - apply Forall_app. split; [done|]. constructor; [lia|done].
  - intros _. by destruct ds.
Qed.

Lemma dec_digits_u32 val acc :
  0 ≤ val < 4294967296 → ∃ ds, dec_digits 11 val acc = Ok (ds ++ acc) ∧ num_value 10 ds = val ∧
    Forall (λ d, 48 ≤ d ≤ 57) ds ∧ (0 < val → ds ≠ []).
Proof. intros. apply dec_digits_spec. change (10 ^ Z.of_nat 11) with 100000000000. lia. Qed.

(** More room does not change the digits, and they fit the room. *)
Lemma dec_digits_room room k v acc r : dec_digits room v acc = Ok r → (room ≤ k)%nat → dec_digits k v acc = Ok r.
Proof.
  revert k v acc. induction room as [|room IH]; intros k v acc Hr Hk; destruct k as [|k]; try lia; cbn [dec_digits] in *; destruct (0 <? v); try done.
  apply IH; [done|lia].
Qed.
Lemma dec_digits_length room v acc r : dec_digits room v acc = Ok r → (length r ≤ room + length acc)%nat.
Proof.
  revert v acc. induction room as [|room IH]; intros v acc; cbn [dec_digits]; destruct (0 <? v); try done; intros Hr; try (simplify_eq; lia).
  apply IH in Hr. cbn in Hr. lia.
Qed.
