(* ===== verification/Ata.v ===== *)
(** * The ATA driver (src/src/ata.c, src/src/ata.h)

    Programmed input and output to the primary channel. The drive is outside the
    program: a type [D] with port accesses. The first part is the driver; the second
    states the documented behaviour of a drive (class [AtaDisk]) and proves that the
    driver on top of it is the reliable disk the file systems are proved against. *)

From S2P Require Import Prelude Ports KString Bytes Vga BlockDev.

Definition ATA_PRI_DATA : Z := 0x1F0.
Definition ATA_PRI_ERR : Z := 0x1F1.
Definition ATA_PRI_SECCOUNT : Z := 0x1F2.
Definition ATA_PRI_LBA_LO : Z := 0x1F3.
Definition ATA_PRI_LBA_MID : Z := 0x1F4.
Definition ATA_PRI_LBA_HI : Z := 0x1F5.
Definition ATA_PRI_DRIVE : Z := 0x1F6.
Definition ATA_PRI_STATUS : Z := 0x1F7.
Definition ATA_PRI_CMD : Z := 0x1F7.
Definition ATA_PRI_ALT_STATUS : Z := 0x3F6.
Definition ATA_PRI_DEV_CTRL : Z := 0x3F6.
Definition ATA_SR_BSY : Z := 0x80.
Definition ATA_SR_DRQ : Z := 0x08.
Definition ATA_SR_ERR : Z := 0x01.
Definition ATA_CMD_READ_PIO : Z := 0x20.
Definition ATA_CMD_WRITE_PIO : Z := 0x30.
Definition ATA_CMD_FLUSH : Z := 0xE7.
Definition ATA_CMD_IDENTIFY : Z := 0xEC.
Definition ATA_DRIVE_MASTER : Z := 0xE0.
Definition ATA_DRIVE_SLAVE : Z := 0xF0.

Record ata_drive_t := mkDrive {
  present : Z;
  is_slave : Z;
  sectors : Z;
  model : list Z;
  serial_no : list Z
}.

(** What [kmemset(drv, 0, sizeof( *drv))] leaves. *)
Definition no_drive : ata_drive_t := mkDrive 0 0 0 (replicate 41 0) (replicate 21 0).

(** The polls of the driver give up after this many reads of the status. *)
Definition POLLS : nat := Z.to_nat 100000.

Section ata.
Context {D : Type} `{Ports D} `{Ports16 D}.

Record ata := mkAta { bus : D; drives : list ata_drive_t }.

Definition inb (p : Z) : M ata Z := λ s,
  let (v, d) := port_read p (bus s) in Ok (u8 v, mkAta d (drives s)).
Definition inw (p : Z) : M ata Z := λ s,
  let (v, d) := port_readw p (bus s) in Ok (u16 v, mkAta d (drives s)).
Definition outb (p v : Z) : M ata unit := λ s, Ok (tt, mkAta (port_write p (u8 v) (bus s)) (drives s)).
Definition outw (p v : Z) : M ata unit := λ s, Ok (tt, mkAta (port_writew p (u16 v) (bus s)) (drives s)).

Definition ata_delay : M ata unit :=
  inb ATA_PRI_ALT_STATUS ;; inb ATA_PRI_ALT_STATUS ;;
  inb ATA_PRI_ALT_STATUS ;; inb ATA_PRI_ALT_STATUS ;; mret tt.

Fixpoint poll_loop (n : nat) (check_drq : bool) : M ata Z :=
  match n with
  | O => mret 0xFF
  | S n' =>
      st ← inb ATA_PRI_STATUS;
      if negb (Z.land st ATA_SR_ERR =? 0) then mret 0xFF
      else if negb (Z.land st ATA_SR_BSY =? 0) then poll_loop n' check_drq
      else if check_drq && (Z.land st ATA_SR_DRQ =? 0) then poll_loop n' check_drq
      else mret st
  end.
Definition ata_poll (check_drq : bool) : M ata Z := ata_delay ;; poll_loop POLLS check_drq.

(** Wait for BSY to go away: whether it did. *)
Fixpoint wait_not_busy (n : nat) : M ata bool :=
  match n with
  | O => mret false
  | S n' =>
      st ← inb ATA_PRI_STATUS;
      if Z.land st ATA_SR_BSY =? 0 then mret true else wait_not_busy n'
  end.

Definition ata_select (slave : Z) : M ata Z :=
  outb ATA_PRI_DRIVE (if slave =? 0 then ATA_DRIVE_MASTER else ATA_DRIVE_SLAVE) ;;
  ata_delay ;;
  ok ← wait_not_busy POLLS;
  mret (if ok : bool then 0 else -1).

(** The strings of the identification hold two characters per word, the first in the
    high byte. *)
Fixpoint fix_words (src : list Z) (words : nat) (dst : list Z) (pos : nat) : res (list Z) :=
  match words with
  | O => Ok dst
  | S n =>
      match src with
      | [] => Fault
      | w :: src' =>
          d ← put_at pos [u8 (Z.shiftr w 8); Z.land w 0xFF] dst;
          fix_words src' n d (pos + 2)
      end
  end.
Fixpoint trim (len : nat) (dst : list Z) : res nat :=
  match len with
  | O => Ok O
  | S k => c ← arr_get dst (Z.of_nat k); if c =? 32 then trim k dst else Ok len
  end.
Definition ata_fixstr (dst src : list Z) (words : nat) : res (list Z) :=
  d ← fix_words src words dst 0;
  len ← trim (2 * words) d;
  arr_set d (Z.of_nat len) 0.

(** Wait for data or an error after IDENTIFY. *)
Fixpoint wait_data (n : nat) : M ata bool :=
  match n with
  | O => mret false
  | S n' =>
      st ← inb ATA_PRI_STATUS;
      if negb (Z.land st ATA_SR_ERR =? 0) then mret false
      else if negb (Z.land st ATA_SR_DRQ =? 0) then mret true
      else wait_data n'
  end.

Fixpoint in_words (n : nat) : M ata (list Z) :=
  match n with
  | O => mret []
  | S n' => w ← inw ATA_PRI_DATA; ws ← in_words n'; mret (w :: ws)
  end.

Definition set_drive (i : nat) (d : ata_drive_t) : M ata unit :=
  modify (λ s, mkAta (bus s) (<[i := d]> (drives s))).

(** [ata_identify(slave, &drives[i])]. *)
Definition ata_identify (slave : Z) (i : nat) : M ata Z :=
  set_drive i no_drive ;;
  r ← ata_select slave;
  if r <? 0 then mret (-1) else
  outb ATA_PRI_SECCOUNT 0 ;;
  outb ATA_PRI_LBA_LO 0 ;;
  outb ATA_PRI_LBA_MID 0 ;;
  outb ATA_PRI_LBA_HI 0 ;;
  outb ATA_PRI_CMD ATA_CMD_IDENTIFY ;;
  ata_delay ;;
  st ← inb ATA_PRI_STATUS;
  if st =? 0 then mret (-1) else
  ok ← wait_not_busy POLLS;
  if negb ok then mret (-1) else
  mid ← inb ATA_PRI_LBA_MID;
  hi ← (if negb (mid =? 0) then mret 1 else inb ATA_PRI_LBA_HI);
  if negb (hi =? 0) then mret (-1) else
  ok ← wait_data POLLS;
  if negb ok then mret (-1) else
  idata ← in_words 256;
  lo ← lift (arr_get idata 60);
  hi ← lift (arr_get idata 61);
  sn ← lift (ata_fixstr (serial_no no_drive) (drop 10 idata) 10);
  md ← lift (ata_fixstr (model no_drive) (drop 27 idata) 20);
  set_drive i (mkDrive 1 slave (Z.lor (u32 (Z.shiftl hi 16)) lo) md sn) ;;
  mret 0.

Definition ata_init : M ata unit :=
  outb ATA_PRI_DEV_CTRL 0x04 ;; ata_delay ;; ata_delay ;;
  outb ATA_PRI_DEV_CTRL 0x00 ;; ata_delay ;; ata_delay ;;
  ata_identify 0 0%nat ;; ata_identify 1 1%nat ;; mret tt.

(** A pointer into [drives] is its index; [None] is NULL. *)
Definition ata_get (drive : Z) (s : ata) : option Z :=
  if (drive <? 0) || (1 <? drive) then None
  else match drives s !! Z.to_nat drive with
       | Some d => if present d =? 0 then None else Some drive
       | None => None
       end.

Definition ata_drive_count (s : ata) : Z := Z.of_nat (length (filter (λ d, present d ≠ 0) (drives s))).

(** The seven register writes that start a transfer. *)
Definition ata_command (slave lba count cmd : Z) : M ata unit :=
  outb ATA_PRI_DRIVE (Z.lor (if slave =? 0 then 0xE0 else 0xF0) (Z.land (Z.shiftr lba 24) 0x0F)) ;;
  outb ATA_PRI_ERR 0x00 ;;
  outb ATA_PRI_SECCOUNT count ;;
  outb ATA_PRI_LBA_LO (Z.land lba 0xFF) ;;
  outb ATA_PRI_LBA_MID (Z.land (Z.shiftr lba 8) 0xFF) ;;
  outb ATA_PRI_LBA_HI (Z.land (Z.shiftr lba 16) 0xFF) ;;
  outb ATA_PRI_CMD cmd.

Fixpoint read_words (n pos : nat) (buf : list Z) : M ata (list Z) :=
  match n with
  | O => mret buf
  | S n' =>
      w ← inw ATA_PRI_DATA;
      buf ← lift (st16 pos w buf);
      read_words n' (pos + 2) buf
  end.
Fixpoint read_sectors (n pos : nat) (buf : list Z) : M ata (Z * list Z) :=
  match n with
  | O => mret (0, buf)
  | S n' =>
      st ← ata_poll true;
      if st =? 0xFF then mret (-1, buf)
      else buf ← read_words 256 pos buf; read_sectors n' (pos + 512) buf
  end.

(** The drive a transfer goes to: its [is_slave], or [None] for -1. *)
Definition target (drive : Z) : M ata (option Z) :=
  if (drive <? 0) || (1 <? drive) then mret None
  else
    s ← get;
    d ← lift (res_of (drives s !! Z.to_nat drive));
    mret (if present d =? 0 then None else Some (is_slave d)).

(** The result and the buffer after the call. *)
Definition ata_read (drive lba count : Z) (buf : list Z) : M ata (Z * list Z) :=
  t ← target drive;
  match t with
  | None => mret (-1, buf)
  | Some slave =>
      if count =? 0 then mret (0, buf) else
      r ← ata_select slave;
      if r <? 0 then mret (-1, buf) else
      ata_command slave lba count ATA_CMD_READ_PIO ;;
      read_sectors (Z.to_nat count) 0 buf
  end.

Fixpoint write_words (n : nat) (pos : Z) (buf : list Z) : M ata unit :=
  match n with
  | O => mret tt
  | S n' =>
      w ← lift (ld16 pos buf);
      outw ATA_PRI_DATA w ;;
      write_words n' (pos + 2) buf
  end.
Fixpoint write_sectors (n : nat) (pos : Z) (buf : list Z) : M ata Z :=
  match n with
  | O => mret 0
  | S n' =>
      st ← ata_poll true;
      if st =? 0xFF then mret (-1)
      else write_words 256 pos buf ;; write_sectors n' (pos + 512) buf
  end.

Definition ata_write (drive lba count : Z) (buf : list Z) : M ata Z :=
  t ← target drive;
  match t with
  | None => mret (-1)
  | Some slave =>
      if count =? 0 then mret 0 else
      r ← ata_select slave;
      if r <? 0 then mret (-1) else
      ata_command slave lba count ATA_CMD_WRITE_PIO ;;
      r ← write_sectors (Z.to_nat count) 0 buf;
      if r <? 0 then mret (-1) else
      outb ATA_PRI_CMD ATA_CMD_FLUSH ;;
      ata_poll false ;;
      mret 0
  end.

Definition print_drive (i : nat) (d : ata_drive_t) : list con :=
  if present d =? 0 then []
  else [CPuts (lit "  Drive "); CDec (Z.of_nat i);
        CPuts (if is_slave d =? 0 then lit " (master): " else lit " (slave):  ");
        CPuts (model d); CPuts (10 :: lit "    Serial: "); CPuts (serial_no d);
        CPuts (lit "  Sectors: "); CDec (sectors d); CPuts (lit " (");
        CDec (sectors d / 2 / 1024); CPuts (str " MB)" ++ [10; 0])].
Definition ata_print_info (s : ata) : list con :=
  [CColor VGA_YELLOW VGA_BLACK; CPuts (10 :: str "  === ATA Drives ===" ++ [10; 10; 0]); CColor VGA_WHITE VGA_BLACK] ++
  concat (imap print_drive (drives s)) ++
  (if forallb (λ d, present d =? 0) (drives s) then [CPuts (str "  No ATA drives found." ++ [10; 0])] else []) ++
  [CPutc 10].

End ata.
Arguments ata D : clear implicits.

(** ** A drive

    The documented behaviour of a drive in programmed input and output: its media, the
    registers of a command and what it is doing. [PRead ws lba more]: the words [ws] of
    the current sector are still to be read, then [more] more sectors from [lba] on;
    [PWrite acc lba more]: [acc] has come for sector [lba], [more] more sectors follow. *)
Inductive ata_phase :=
| PIdle
| PRead (ws : list Z) (lba : Z) (more : nat)
| PWrite (acc : list Z) (lba : Z) (more : nat).

Record ata_dev := mkDev {
  media : list (list Z);
  r_drive : Z; r_count : Z; r_lo : Z; r_mid : Z; r_hi : Z;
  phase : ata_phase
}.
Definition set_phase (p : ata_phase) (x : ata_dev) : ata_dev :=
  mkDev (media x) (r_drive x) (r_count x) (r_lo x) (r_mid x) (r_hi x) p.
Definition set_media (m : list (list Z)) (x : ata_dev) : ata_dev :=
  mkDev m (r_drive x) (r_count x) (r_lo x) (r_mid x) (r_hi x) (phase x).

(** A sector as the words that go through the data port. *)
Fixpoint words_of (bs : list Z) : list Z :=
  match bs with
  | a :: b :: r => a + 256 * b :: words_of r
  | _ => []
  end.
Definition bytes_of (ws : list Z) : list Z := w ← ws; le16 w.
Definition sector_at (x : ata_dev) (lba : Z) : list Z := words_of (default [] (media x !! Z.to_nat lba)).
Definition reg_lba (x : ata_dev) : Z :=
  r_lo x + 256 * r_mid x + 65536 * r_hi x + 16777216 * (r_drive x mod 16).
Definition in_range (x : ata_dev) : bool :=
  (0 <? r_count x) && (reg_lba x + r_count x <=? Z.of_nat (length (media x))).

(** A write of [v] to port [p] while the drive is ready; [None] is not specified. *)
Definition dev_out (p v : Z) (x : ata_dev) : option ata_dev :=
  let '(mkDev m dr ct lo mi hi ph) := x in
  match ph with
  | PIdle =>
      if p =? ATA_PRI_ERR then Some x
      else if p =? ATA_PRI_DRIVE then if Z.testbit v 4 then None else Some (mkDev m v ct lo mi hi ph)
      else if p =? ATA_PRI_SECCOUNT then Some (mkDev m dr v lo mi hi ph)
      else if p =? ATA_PRI_LBA_LO then Some (mkDev m dr ct v mi hi ph)
      else if p =? ATA_PRI_LBA_MID then Some (mkDev m dr ct lo v hi ph)
      else if p =? ATA_PRI_LBA_HI then Some (mkDev m dr ct lo mi v ph)
      else if (p =? ATA_PRI_CMD) && in_range x then
        let l := reg_lba x in
        let k := Z.to_nat (ct - 1) in
        if v =? ATA_CMD_READ_PIO then Some (set_phase (PRead (sector_at x l) (l + 1) k) x)
        else if v =? ATA_CMD_WRITE_PIO then Some (set_phase (PWrite [] l k) x)
        else None
      else None
  | _ => None
  end.

(** A read and a write of the data port while the drive is ready for it. *)
Definition after_read (x : ata_dev) (lba : Z) (more : nat) : ata_phase :=
  match more with O => PIdle | S k => PRead (sector_at x lba) (lba + 1) k end.
Definition dev_in_word (x : ata_dev) : option (Z * ata_dev) :=
  match phase x with
  | PRead [w] lba more => Some (w, set_phase (after_read x lba more) x)
  | PRead (w :: ws) lba more => Some (w, set_phase (PRead ws lba more) x)
  | _ => None
  end.
Definition after_write (acc : list Z) (lba : Z) (more : nat) (x : ata_dev) : ata_dev :=
  set_phase (match more with O => PIdle | S k => PWrite [] (lba + 1) k end)
    (set_media (<[Z.to_nat lba := bytes_of acc]> (media x)) x).
Definition dev_out_word (w : Z) (x : ata_dev) : option ata_dev :=
  match phase x with
  | PWrite acc lba more =>
      let acc := acc ++ [w] in
      Some (if (length acc =? 256)%nat then after_write acc lba more x
            else set_phase (PWrite acc lba more) x)
  | _ => None
  end.

(** In the middle of a sector the drive is never busy. *)
Definition mid_sector (x : ata_dev) : bool :=
  match phase x with
  | PIdle => false
  | PRead ws _ _ => (length ws <? 256)%nat
  | PWrite acc _ _ => (0 <? length acc)%nat
  end.

(** A port device [D] behaves as a drive: [dev] is the drive's state, and the next
    [busy] reads of its status still show BSY. The drive has no errors of its media and is
    never busy for as many reads as the driver is patient. Nothing is said of a command
    written while the drive is busy, since the standard says nothing of it. *)
Class AtaDisk (D : Type) `{Ports D} `{Ports16 D} (dev : D → ata_dev) (busy : D → nat) := {
  ad_status_busy d : (0 < busy d)%nat →
    let (v, d') := port_read ATA_PRI_STATUS d in
    Z.testbit v 7 = true ∧ Z.testbit v 0 = false ∧ dev d' = dev d ∧ S (busy d') = busy d;
  ad_status d : busy d = O →
    let (v, d') := port_read ATA_PRI_STATUS d in
    Z.testbit v 7 = false ∧ Z.testbit v 0 = false ∧ (phase (dev d) ≠ PIdle → Z.testbit v 3 = true) ∧
    dev d' = dev d ∧ busy d' = O;
  ad_alt d :
    let (_, d') := port_read ATA_PRI_ALT_STATUS d in dev d' = dev d ∧ (busy d' ≤ busy d)%nat;
  ad_out d p v x : busy d = O → is_byte v → dev_out p v (dev d) = Some x →
    let d' := port_write p v d in
    dev d' = x ∧ (busy d' < POLLS)%nat ∧ (p ≠ ATA_PRI_CMD → busy d' = O);
  ad_in d w x : busy d = O → dev_in_word (dev d) = Some (w, x) →
    let (v, d') := port_readw ATA_PRI_DATA d in
    u16 v = u16 w ∧ dev d' = x ∧ (busy d' < POLLS)%nat ∧ (mid_sector x = true ∨ phase x = PIdle → busy d' = O);
  ad_outw d w x : busy d = O → is_u16 w → dev_out_word w (dev d) = Some x →
    let d' := port_writew ATA_PRI_DATA w d in
    dev d' = x ∧ (busy d' < POLLS)%nat ∧ (mid_sector x = true → busy d' = O);
  ad_flush d : busy d = O → phase (dev d) = PIdle →
    let d' := port_write ATA_PRI_CMD ATA_CMD_FLUSH d in dev d' = dev d ∧ (busy d' < POLLS)%nat
}.

(** What [ata_write] needs besides: it sends FLUSH CACHE right after the last word, while the
    drive is storing the sector. A drive that ignores the command then, or puts it off,
    takes no harm; the standard leaves open what a drive does. *)
Definition takes_flush {D} `{Ports D} (dev : D → ata_dev) (busy : D → nat) : Prop :=
  ∀ d, (0 < busy d)%nat → phase (dev d) = PIdle →
    let d' := port_write ATA_PRI_CMD ATA_CMD_FLUSH d in dev d' = dev d ∧ (busy d' < POLLS)%nat.

(** *** Words and bytes *)

Lemma words_of_length n bs : length bs = (2 * n)%nat → length (words_of bs) = n.
Proof.
  revert bs. induction n as [|n IH]; intros bs Hb; [by destruct bs|].
  destruct bs as [|a [|b bs]]; try (cbn in Hb; lia). cbn. f_equal. apply IH. cbn in Hb. lia.
Qed.

Lemma bytes_of_words n bs : length bs = (2 * n)%nat → bytes bs → bytes_of (words_of bs) = bs.
Proof.
  revert bs. induction n as [|n IH]; intros bs Hb Hbs; [by destruct bs|].
  destruct bs as [|a [|b bs]]; try (cbn in Hb; lia).
  apply Forall_cons in Hbs as [Ha Hbs]. apply Forall_cons in Hbs as [Hb' Hbs]. unfold is_byte in *.
  cbn [words_of bytes_of mbind list_bind]. change (list_bind _ _ _ (words_of bs)) with (bytes_of (words_of bs)).
  rewrite IH; [|cbn in Hb; lia|done]. unfold le16. cbn [app].
  rewrite (Z.mul_comm 256), Z.mod_add, Z.div_add by lia. rewrite (Z.mod_small a), (Z.div_small a) by lia.
  rewrite Z.add_0_l, Z.mod_small by lia. done.
Qed.

Lemma words_of_u16 bs : bytes bs → Forall is_u16 (words_of bs).
Proof.
  revert bs. fix IH 1. intros [|a [|b bs]] Hbs; cbn; try apply Forall_nil_2.
  apply Forall_cons in Hbs as [Ha Hbs]. apply Forall_cons in Hbs as [Hb Hbs]. apply Forall_cons. split; [|by apply IH].
  unfold is_byte, is_u16 in *. lia.
Qed.

Lemma bytes_of_length ws : length (bytes_of ws) = (2 * length ws)%nat.
Proof.
  induction ws as [|w ws IH]; [done|]. change (bytes_of (w :: ws)) with (le16 w ++ bytes_of ws).
  rewrite length_app, IH. cbn. lia.
Qed.

Lemma bytes_of_app ws ws' : bytes_of (ws ++ ws') = bytes_of ws ++ bytes_of ws'.
Proof. unfold bytes_of. apply bind_app. Qed.

(** ** The driver on a drive *)
Lemma POLLS_big : (3 < POLLS)%nat.
Proof. unfold POLLS. lia. Qed.
#[local] Opaque POLLS.
Section driver.
Context {D : Type} `{AtaDisk D dev busy}.
Notation ata := (ata D).
Implicit Types (s : ata) (x : ata_dev).

(** The drive is in state [x] and the driver's table is [ds]. *)
Definition drive_at (ds : list ata_drive_t) (x : ata_dev) (Q : nat → Prop) s : Prop :=
  drives s = ds ∧ dev (bus s) = x ∧ Q (busy (bus s)).
Notation at_rest ds x := (drive_at ds x (λ b, b = O)).
Notation at_most ds x n := (drive_at ds x (λ b, (b ≤ n)%nat)).
Notation at_any ds x := (drive_at ds x (λ b, (b < POLLS)%nat)).

Lemma u8_bit v n : 0 ≤ n < 8 → Z.testbit (u8 v) n = Z.testbit v n.
Proof. intros. unfold u8. by rewrite Z.mod_pow2_bits_low by lia. Qed.

(** A flag of the status register. *)
Lemma status_flag v k : 0 ≤ k < 8 → (Z.land (u8 v) (2 ^ k) =? 0) = negb (Z.testbit v k).
Proof. intros. rewrite <- (u8_bit v k) by lia. rewrite <- flag_test by lia. by rewrite negb_involutive. Qed.

Lemma wp_alt ds x n s (Q : Z → ata → Prop) :
  at_most ds x n s → (∀ v s', at_most ds x n s' → Q v s') → wp (inb ATA_PRI_ALT_STATUS) Q s.
Proof.
  intros (Hd & Hx & Hb) HQ. unfold wp, inb. pose proof (ad_alt (bus s)) as Ha.
  destruct (port_read _ _) as [v d]. destruct Ha as [Ha1 Ha2]. apply HQ. split_and!; cbn; [done|congruence|lia].
Qed.

Lemma wp_ata_delay ds x n s (Q : unit → ata → Prop) :
  at_most ds x n s → (∀ s', at_most ds x n s' → Q tt s') → wp ata_delay Q s.
Proof.
  intros Hs HQ. unfold ata_delay. do 4 (apply wp_bind; eapply wp_alt; [eassumption|]; clear dependent s; intros ? s Hs).
  by apply wp_ret, HQ.
Qed.

(** Reading the status: while busy, and then with the flags of the phase. *)
Lemma wp_status ds x n s (Q : Z → ata → Prop) :
  at_most ds x n s →
  (∀ v s', at_most ds x (pred n) s' → (0 < n)%nat → Z.testbit v 7 = true → Z.testbit v 0 = false → Q (u8 v) s') →
  (∀ v s', at_rest ds x s' → Z.testbit v 7 = false → Z.testbit v 0 = false → (phase x ≠ PIdle → Z.testbit v 3 = true) → Q (u8 v) s') →
  wp (inb ATA_PRI_STATUS) Q s.
Proof.
  intros (Hd & Hx & Hb) Q1 Q2. unfold wp, inb. destruct (busy (bus s)) as [|b] eqn:Eb.
  - pose proof (ad_status (bus s) Eb) as Ha. destruct (port_read _ _) as [v d]. destruct Ha as (Ha & Hb' & Hc & Hdv & Hz).
    rewrite Hx in Hc, Hdv. by apply Q2.
  - pose proof (ad_status_busy (bus s) ltac:(lia)) as Ha. destruct (port_read _ _) as [v d]. destruct Ha as (Ha & Hb' & Hdv & Hz).
    rewrite Hx in Hdv. apply Q1; [|lia|done|done]. split_and!; cbn; [done|done|lia].
Qed.

Lemma wp_wait_not_busy ds x k n s (Q : bool → ata → Prop) :
  at_most ds x n s → (n < k)%nat → (∀ s', at_rest ds x s' → Q true s') → wp (wait_not_busy k) Q s.
Proof.
  revert n s. induction k as [|k IH]; intros n s Hs Hn HQ; [lia|]. cbn [wait_not_busy]. apply wp_bind.
  eapply wp_status; [done|intros v s' Hs' Hp Hv _|intros v s' Hs' Hv _ _];
    change ATA_SR_BSY with (2 ^ 7); rewrite status_flag, Hv by lia; cbn [negb].
  - eapply IH; [done|lia|done].
  - by apply wp_ret, HQ.
Qed.

Lemma wp_poll_loop ds x k n drq s (Q : Z → ata → Prop) :
  at_most ds x n s → (n < k)%nat → (drq = true → phase x ≠ PIdle) →
  (∀ st s', at_rest ds x s' → st ≠ 0xFF → Q st s') → wp (poll_loop k drq) Q s.
Proof.
  revert n s. induction k as [|k IH]; intros n s Hs Hn Hdrq HQ; [lia|]. cbn [poll_loop]. apply wp_bind.
  eapply wp_status; [done|intros v s' Hs' Hp Hv Herr|intros v s' Hs' Hv Herr Hq];
    change ATA_SR_ERR with (2 ^ 0); change ATA_SR_BSY with (2 ^ 7); change ATA_SR_DRQ with (2 ^ 3);
    rewrite !status_flag, ?Herr, ?Hv by lia; cbn [negb].
  - eapply IH; [done|lia|done|done].
  - assert (drq && negb (Z.testbit v 3) = false) as ->.
    { destruct drq; [|done]. by rewrite Hq by auto. }
    apply wp_ret, HQ; [done|]. intros E. rewrite <- (u8_bit v 0), E in Herr by lia. done.
Qed.

Lemma wp_ata_poll ds x drq s (Q : Z → ata → Prop) :
  at_any ds x s → (drq = true → phase x ≠ PIdle) →
  (∀ st s', at_rest ds x s' → st ≠ 0xFF → Q st s') → wp (ata_poll drq) Q s.
Proof.
  intros (Hd & Hx & Hb) Hdrq HQ. unfold ata_poll. apply wp_bind.
  apply (wp_ata_delay ds x (busy (bus s))); [by split_and!|]. intros s' Hs'.
  by eapply wp_poll_loop.
Qed.

Lemma wp_outb ds x x' p v s (Q : unit → ata → Prop) :
  at_rest ds x s → is_byte v → dev_out p v x = Some x' → p ≠ ATA_PRI_CMD →
  (∀ s', at_rest ds x' s' → Q tt s') → wp (outb p v) Q s.
Proof.
  intros (Hd & Hx & Hb) Hv Ho Hp HQ. unfold wp, outb. rewrite u8_small by done. apply HQ.
  rewrite <- Hx in Ho. destruct (ad_out (bus s) p v x' Hb Hv Ho) as (E1 & E2 & E3).
  split_and!; cbn; [done|done|by apply E3].
Qed.

Lemma wp_outcmd ds x x' v s (Q : unit → ata → Prop) :
  at_rest ds x s → is_byte v → dev_out ATA_PRI_CMD v x = Some x' →
  (∀ s', at_any ds x' s' → Q tt s') → wp (outb ATA_PRI_CMD v) Q s.
Proof.
  intros (Hd & Hx & Hb) Hv Ho HQ. unfold wp, outb. rewrite u8_small by done. apply HQ.
  rewrite <- Hx in Ho. destruct (ad_out (bus s) _ v x' Hb Hv Ho) as (E1 & E2 & E3).
  by split_and!.
Qed.

Lemma wp_ata_select ds x s (Q : Z → ata → Prop) :
  at_rest ds x s → phase x = PIdle →
  (∀ x' s', at_rest ds x' s' → media x' = media x → phase x' = PIdle → Q 0 s') →
  wp (ata_select 0) Q s.
Proof.
  intros Hs Hp HQ. unfold ata_select. apply wp_bind.
  eapply (wp_outb ds x (mkDev (media x) ATA_DRIVE_MASTER (r_count x) (r_lo x) (r_mid x) (r_hi x) PIdle)); [done|done| |done|].
  { destruct x. cbn in *. by rewrite Hp. }
  intros s1 (E1 & E2 & E3). apply wp_bind. eapply (wp_ata_delay _ _ 0); [split_and!; [done|done|lia]|]. intros s2 Hs2.
  apply wp_bind. eapply (wp_wait_not_busy _ _ POLLS); [done|pose proof POLLS_big; lia|]. intros s3 Hs3.
  apply wp_ret. by eapply HQ.
Qed.

(** The registers hold the address: 28 bits in the three address registers and the low
    half of the drive register. *)
Definition addressed x (lba count : Z) : ata_dev :=
  mkDev (media x) (Z.lor 0xE0 (Z.land (Z.shiftr lba 24) 0x0F)) count (Z.land lba 0xFF)
    (Z.land (Z.shiftr lba 8) 0xFF) (Z.land (Z.shiftr lba 16) 0xFF) PIdle.

Lemma low_byte_ok v : is_byte (Z.land v 0xFF).
Proof. change 0xFF with (2 ^ 8 - 1). rewrite land_low by lia. apply Z.mod_pos_bound. lia. Qed.

Lemma drive_nibble v : is_byte (Z.lor 0xE0 (Z.land v 0x0F)) ∧ Z.lor 0xE0 (Z.land v 0x0F) mod 16 = v mod 16 ∧
  Z.testbit (Z.lor 0xE0 (Z.land v 0x0F)) 4 = false.
Proof.
  change 0x0F with (2 ^ 4 - 1). rewrite land_low by lia. change (2 ^ 4) with 16.
  assert (0 ≤ v mod 16 < 16) as Hm by (apply Z.mod_pos_bound; lia).
  assert (v mod 16 ∈ seqZ 0 16) as Hin by (apply elem_of_seqZ; lia). revert Hin Hm. generalize (v mod 16). clear v. intros v Hin _.
  revert v Hin. apply Forall_forall. unfold is_byte. vm_compute. repeat constructor; congruence.
Qed.

Lemma addressed_lba x lba count : 0 ≤ lba < 2 ^ 28 → reg_lba (addressed x lba count) = lba.
Proof.
  intros Hl. unfold reg_lba. cbn [r_lo r_mid r_hi r_drive addressed]. destruct (drive_nibble (Z.shiftr lba 24)) as (_ & -> & _).
  change 0xFF with (2 ^ 8 - 1). rewrite !land_low, !Z.shiftr_div_pow2 by lia. Z.div_mod_to_equations. lia.
Qed.

Lemma wp_ata_command ds x x' lba count cmd s (Q : unit → ata → Prop) :
  at_rest ds x s → phase x = PIdle → is_byte count → is_byte cmd →
  dev_out ATA_PRI_CMD cmd (addressed x lba count) = Some x' →
  (∀ s', at_any ds x' s' → Q tt s') → wp (ata_command 0 lba count cmd) Q s.
Proof.
  intros Hs Hp Hc Hcmd Ho HQ. destruct x as [m dr ct lo mi hi ph]. cbn in Hp. subst ph. unfold ata_command.
  change (0 =? 0) with true. cbn iota. destruct (drive_nibble (Z.shiftr lba 24)) as (Hn & _ & Hn4).
  repeat (apply wp_bind; eapply wp_outb; [eassumption|first [assumption|apply low_byte_ok|by split]|cbn -[Z.testbit Z.lor Z.land Z.shiftr]; rewrite ?Hn4; reflexivity|done|];
    clear dependent s; intros s Hs).
  eapply wp_outcmd; [eassumption|done|exact Ho|done].
Qed.

Lemma addressed_read x lba count :
  0 ≤ lba < 2 ^ 28 → 0 < count → lba + count ≤ Z.of_nat (length (media x)) →
  dev_out ATA_PRI_CMD ATA_CMD_READ_PIO (addressed x lba count) =
  Some (set_phase (PRead (sector_at x lba) (lba + 1) (Z.to_nat (count - 1))) (addressed x lba count)).
Proof.
  intros Hl Hc Hr. cbn -[reg_lba in_range sector_at]. fold (addressed x lba count).
  unfold in_range. cbn [r_count addressed media]. fold (addressed x lba count).
  rewrite addressed_lba by done. rewrite (proj2 (Z.ltb_lt _ _)), (proj2 (Z.leb_le _ _)) by lia. done.
Qed.

Lemma addressed_write x lba count :
  0 ≤ lba < 2 ^ 28 → 0 < count → lba + count ≤ Z.of_nat (length (media x)) →
  dev_out ATA_PRI_CMD ATA_CMD_WRITE_PIO (addressed x lba count) =
  Some (set_phase (PWrite [] lba (Z.to_nat (count - 1))) (addressed x lba count)).
Proof.
  intros Hl Hc Hr. cbn -[reg_lba in_range sector_at]. fold (addressed x lba count).
  unfold in_range. cbn [r_count addressed media]. fold (addressed x lba count).
  rewrite addressed_lba by done. rewrite (proj2 (Z.ltb_lt _ _)), (proj2 (Z.leb_le _ _)) by lia. done.
Qed.

(** The words of one sector, into the buffer. *)
Lemma wp_read_words ws x l k ds pre old post s (Q : list Z → ata → Prop) :
  at_rest ds x s → phase x = PRead ws l k → ws ≠ [] → (length ws ≤ 256)%nat → Forall is_u16 ws →
  length old = (2 * length ws)%nat →
  (∀ s' b, drive_at ds (set_phase (after_read x l k) x) (λ n, (n < POLLS)%nat ∧ (k = O → n = O)) s' →
     b = pre ++ bytes_of ws ++ post → Q b s') →
  wp (read_words (length ws) (length pre) (pre ++ old ++ post)) Q s.
Proof.
  revert x pre old s. induction ws as [|w ws IH]; intros x pre old s (Hd & Hx & Hb) Hp Hne Hlen Hu Hold HQ; [done|].
  apply Forall_cons in Hu as [Hw Hu]. cbn [length read_words]. apply wp_bind. unfold wp at 1, inw.
  assert (∃ x', dev_in_word x = Some (w, x') ∧ x' = set_phase (match ws with [] => after_read x l k | _ => PRead ws l k end) x) as (x' & Ei & Ex').
  { unfold dev_in_word. rewrite Hp. destruct ws; eauto. }
  rewrite <- Hx in Ei. pose proof (ad_in (bus s) w x' Hb Ei) as Ha. destruct (port_readw _ _) as [v d].
  destruct Ha as (Hv & Hdev & Hbd & Hmid). rewrite Hv, (u16_small w) by done.
  destruct old as [|o1 [|o2 old]]; [cbn in Hold; lia..|].
  apply wp_bind. unfold st16.
  eapply wp_lift; [change ((o1 :: o2 :: old) ++ post) with ([o1; o2] ++ (old ++ post)); by apply put_at_app|].
  assert (pre ++ le16 w ++ old ++ post = (pre ++ le16 w) ++ old ++ post) as -> by by rewrite <- app_assoc.
  replace (length pre + 2)%nat with (length (pre ++ le16 w)) by (rewrite length_app; done).
  destruct ws as [|w' ws].
  - cbn [length read_words]. apply wp_ret. apply HQ.
    + split_and!; cbn; [done|by rewrite Hdev, Ex'|done|].
      intros ->. apply Hmid. right. by rewrite Ex'.
    + destruct old; [|cbn in Hold; lia]. cbn. by rewrite <- app_assoc.
  - assert (set_phase (after_read x l k) x = set_phase (after_read x' l k) x') as Ee by (rewrite Ex'; by destruct k).
    eapply (IH x'); [|by rewrite Ex'|done|cbn in *; lia|done|cbn in *; lia|].
    + split_and!; cbn; [done|done|]. apply Hmid. left. rewrite Ex'. cbn -[Nat.ltb]. apply Nat.ltb_lt. cbn in *. lia.
    + intros s' b Hs' ->. apply HQ; [by rewrite Ee|].
      change (bytes_of (w :: w' :: ws)) with (le16 w ++ bytes_of (w' :: ws)). by rewrite <- !app_assoc.
Qed.

(** Sectors [l], [l+1], ... of the media. *)
Definition sector_list x (l : Z) (n : nat) : list (list Z) := take n (drop (Z.to_nat l) (media x)).
Definition media_ok x : Prop := Forall is_sector (media x).

Lemma sector_at_ok x l :
  media_ok x → 0 ≤ l < Z.of_nat (length (media x)) →
  ∃ b, media x !! Z.to_nat l = Some b ∧ is_sector b ∧ sector_at x l = words_of b ∧
    length (words_of b) = 256%nat ∧ Forall is_u16 (words_of b) ∧ bytes_of (words_of b) = b.
Proof.
  intros Hm Hl. destruct (lookup_lt_is_Some_2 (media x) (Z.to_nat l)) as [b Eb]; [lia|]. exists b.
  destruct (Forall_lookup_1 _ _ _ _ Hm Eb) as [Hb1 Hb2]. unfold SECTOR in Hb1. split_and!; try done.
  - unfold sector_at. by rewrite Eb.
  - by apply words_of_length.
  - by apply words_of_u16.
  - by apply (bytes_of_words 256).
Qed.

Lemma sector_list_S x l n b :
  0 ≤ l → media x !! Z.to_nat l = Some b → sector_list x l (S n) = b :: sector_list x (l + 1) n.
Proof.
  intros Hl Hb. unfold sector_list. rewrite (drop_S _ b _ Hb). cbn [take]. do 2 f_equal. f_equal. lia.
Qed.

Lemma wp_read_sector n x l k ds pre old post s (Q : Z * list Z → ata → Prop) :
  at_any ds x s → media_ok x → 0 ≤ l < Z.of_nat (length (media x)) →
  phase x = PRead (sector_at x l) (l + 1) k → length old = 512%nat →
  (∀ b s', media x !! Z.to_nat l = Some b → length b = 512%nat →
     drive_at ds (set_phase (after_read x (l + 1) k) x) (λ n, (n < POLLS)%nat ∧ (k = O → n = O)) s' →
     wp (read_sectors n (length pre + 512) (pre ++ b ++ post)) Q s') →
  wp (read_sectors (S n) (length pre) (pre ++ old ++ post)) Q s.
Proof.
  intros Hs Hm Hl Hp Hold HQ. cbn [read_sectors]. apply wp_bind.
  eapply wp_ata_poll; [exact Hs|by rewrite Hp|]. intros st s1 Hs1 Hst.
  rewrite (proj2 (Z.eqb_neq st 0xFF)) by done. apply wp_bind.
  destruct (sector_at_ok x l Hm Hl) as (b & Eb & [Hbl Hbb] & Esec & Ewl & Ewu & Ebb). rewrite Esec in Hp.
  rewrite <- Ewl at 1. eapply wp_read_words; [exact Hs1|exact Hp|by intros E; rewrite E in Ewl|by rewrite Ewl|done|by rewrite Ewl|].
  intros s2 buf Hs2 ->. rewrite Ebb. by apply HQ.
Qed.

Lemma wp_read_sectors n x l ds pre old post s (Q : Z * list Z → ata → Prop) :
  at_any ds x s → media_ok x → 0 ≤ l → l + Z.of_nat (S n) ≤ Z.of_nat (length (media x)) →
  phase x = PRead (sector_at x l) (l + 1) n → length old = (512 * S n)%nat →
  (∀ x' s', at_rest ds x' s' → media x' = media x → phase x' = PIdle →
     Q (0, pre ++ concat (sector_list x l (S n)) ++ post) s') →
  wp (read_sectors (S n) (length pre) (pre ++ old ++ post)) Q s.
Proof.
  revert x l pre old s. induction n as [|n IH]; intros x l pre old s Hs Hm Hl Hr Hp Hold HQ;
    rewrite <- (take_drop 512 old), <- (app_assoc (take 512 old));
    (eapply (wp_read_sector _ x l); [exact Hs|exact Hm|lia|exact Hp|rewrite length_take; lia|]);
    intros b s2 Eb Hbl Hs2; rewrite (sector_list_S x l _ b Hl Eb) in HQ; cbn [concat] in HQ.
  - cbn [read_sectors]. apply wp_ret. rewrite (drop_ge old) by lia. cbn [sector_list take concat app] in *. rewrite app_nil_r in HQ.
    destruct Hs2 as (E1 & E2 & E3 & E4). eapply HQ; [split_and!; [done|exact E2|by apply E4]|done|done].
  - destruct Hs2 as (E1 & E2 & E3 & _). rewrite app_assoc.
    replace (length pre + 512)%nat with (length (pre ++ b)) by (rewrite length_app; lia).
    eapply (IH _ (l + 1)); [split_and!; [exact E1|exact E2|exact E3]|exact Hm|lia|cbn [media set_phase]; lia|reflexivity|rewrite length_drop; lia|].
    intros x' s' Hs' Em Ep. eapply HQ in Em; [|exact Hs'|exact Ep]. by rewrite <- !app_assoc in *.
Qed.

(** [ata_read] of [count] sectors fills the buffer with them. *)
Lemma wp_ata_read ds x d lba count buf s :
  at_rest ds x s → phase x = PIdle → media_ok x → ds !! 0%nat = Some d → present d ≠ 0 → is_slave d = 0 →
  0 < count < 256 → 0 ≤ lba → lba + count ≤ Z.of_nat (length (media x)) ≤ 2 ^ 28 →
  (Z.to_nat (512 * count) ≤ length buf)%nat →
  wp (ata_read 0 lba count buf) (λ r s', ∃ x',
    r = (0, concat (sector_list x lba (Z.to_nat count)) ++ drop (Z.to_nat (512 * count)) buf) ∧
    at_rest ds x' s' ∧ media x' = media x ∧ phase x' = PIdle) s.
Proof.
  intros Hs Hp Hm Hd Hpr Hsl Hc Hl Hr Hb. unfold ata_read, target. cbn [Z.ltb Z.compare orb]. cbn iota.
  apply wp_bind, wp_bind, wp_get, wp_bind. destruct Hs as (Hds & Hrest). rewrite Hds.
  change (Z.to_nat 0) with 0%nat. rewrite Hd. eapply wp_lift; [done|]. apply wp_ret. rewrite (proj2 (Z.eqb_neq _ _)) by done.
  rewrite (proj2 (Z.eqb_neq count 0)), Hsl by lia. apply wp_bind. eapply wp_ata_select; [by split|done|].
  intros x1 s1 Hs1 Em1 Hp1. cbn [Z.ltb Z.compare]. apply wp_bind.
  eapply wp_ata_command; [done|done|unfold is_byte; lia|done|apply addressed_read; rewrite ?Em1; lia|].
  intros s2 Hs2. replace (Z.to_nat count) with (S (Z.to_nat (count - 1))) by lia.
  set (n := Z.to_nat (512 * count)) in *. rewrite <- (take_drop n buf) at 1.
  assert (∀ k, sector_list (set_phase (PRead (sector_at x1 lba) (lba + 1) (Z.to_nat (count - 1))) (addressed x1 lba count)) lba k
    = sector_list x lba k) as Es by (intros k; unfold sector_list; cbn; by rewrite Em1).
  eapply (wp_read_sectors _ _ lba ds [] (take n buf)); [exact Hs2|unfold media_ok; cbn; by rewrite Em1|done|cbn; rewrite Em1; lia|done|rewrite length_take; lia|].
  intros x' s' Hs' Em Ep. rewrite Es. cbn [app]. exists x'. split_and!; try done; [by destruct Hs'..|]. rewrite Em. cbn. done.
Qed.

(** *** Writing *)

Lemma ld16_mid pre w post : is_u16 w → ld16 (Z.of_nat (length pre)) (pre ++ le16 w ++ post) = Ok w.
Proof.
  intros Hw. unfold ld16, le16. cbn [app].
  rewrite (arr_get_nat _ (length pre) (w mod 256)) by (by rewrite list_lookup_middle).
  replace (Z.of_nat (length pre) + 1) with (Z.of_nat (S (length pre))) by lia.
  rewrite (arr_get_nat _ (S (length pre)) (w / 256 mod 256)).
  - cbn [mbind res_bind]. by rewrite le16_ld by done.
  - rewrite lookup_app_r by lia. by replace (S (length pre) - length pre)%nat with 1%nat by lia.
Qed.

Lemma wp_write_words ws acc x l k ds pre post s (Q : unit → ata → Prop) :
  at_rest ds x s → phase x = PWrite acc l k → ws ≠ [] → (length acc + length ws = 256)%nat → Forall is_u16 ws →
  (∀ s', at_any ds (after_write (acc ++ ws) l k x) s' → Q tt s') →
  wp (write_words (length ws) (Z.of_nat (length pre)) (pre ++ bytes_of ws ++ post)) Q s.
Proof.
  revert acc x pre s. induction ws as [|w ws IH]; intros acc x pre s (Hd & Hx & Hb) Hp Hne Hlen Hu HQ; [done|].
  apply Forall_cons in Hu as [Hw Hu]. cbn [length write_words]. change (bytes_of (w :: ws)) with (le16 w ++ bytes_of ws).
  rewrite <- (app_assoc (le16 w)). apply wp_bind. eapply wp_lift; [by apply ld16_mid|].
  apply wp_bind. unfold wp at 1, outw. rewrite (u16_small w) by done.
  assert (dev_out_word w (dev (bus s)) = Some (match ws with [] => after_write (acc ++ [w]) l k x | _ => set_phase (PWrite (acc ++ [w]) l k) x end)) as Eo.
  { unfold dev_out_word. rewrite Hx, Hp, length_app. cbn [length]. cbn [length] in Hlen.
    destruct ws; cbn [length] in Hlen; [by rewrite (proj2 (Nat.eqb_eq _ _)) by lia|by rewrite (proj2 (Nat.eqb_neq _ _)) by lia]. }
  destruct (ad_outw (bus s) w _ Hb Hw Eo) as (E1 & E2 & E3).
  replace (Z.of_nat (length pre) + 2) with (Z.of_nat (length (pre ++ le16 w))) by (rewrite length_app; cbn; lia).
  rewrite (app_assoc pre). destruct ws as [|w' ws].
  - cbn [length write_words]. apply wp_ret, HQ. by split_and!.
  - eapply (IH (acc ++ [w]) (set_phase (PWrite (acc ++ [w]) l k) x)).
    + split_and!; cbn; [done|exact E1|]. apply E3. unfold mid_sector. cbn [phase set_phase]. rewrite length_app. cbn [length].
      apply Nat.ltb_lt. lia.
    + done.
    + done.
    + rewrite length_app. cbn [length] in *. lia.
    + done.
    + intros s' Hs'. apply HQ. rewrite <- app_assoc in Hs'. exact Hs'.
Qed.

(** The media after sectors have been written from [l] on. *)
Fixpoint put_sectors (m : list (list Z)) (l : Z) (ss : list (list Z)) : list (list Z) :=
  match ss with
  | [] => m
  | b :: ss' => put_sectors (<[Z.to_nat l := b]> m) (l + 1) ss'
  end.

Lemma wp_write_sector n b x l k ds pre post s (Q : Z → ata → Prop) :
  at_any ds x s → is_sector b → phase x = PWrite [] l k →
  (∀ s', at_any ds (set_phase (match k with O => PIdle | S k => PWrite [] (l + 1) k end)
           (set_media (<[Z.to_nat l := b]> (media x)) x)) s' →
     wp (write_sectors n (Z.of_nat (length pre) + 512) (pre ++ b ++ post)) Q s') →
  wp (write_sectors (S n) (Z.of_nat (length pre)) (pre ++ b ++ post)) Q s.
Proof.
  intros Hs [Hbl Hbb] Hp HQ. unfold SECTOR in Hbl.
  assert (bytes_of (words_of b) = b) as Eb by (by apply (bytes_of_words 256)).
  assert (length (words_of b) = 256%nat) as Ew by (by apply words_of_length).
  cbn [write_sectors]. apply wp_bind. eapply wp_ata_poll; [exact Hs|by rewrite Hp|]. intros st s1 Hs1 Hst.
  rewrite (proj2 (Z.eqb_neq st 0xFF)) by done. apply wp_bind.
  assert (pre ++ b ++ post = pre ++ bytes_of (words_of b) ++ post) as E by by rewrite Eb. rewrite E at 1. rewrite <- Ew.
  eapply wp_write_words; [exact Hs1|exact Hp|by intros E'; rewrite E' in Ew|by rewrite Ew|by apply words_of_u16|].
  cbn [app]. unfold after_write. rewrite Eb. exact HQ.
Qed.

Lemma wp_write_sectors n ss x l ds pre post s (Q : Z → ata → Prop) :
  at_any ds x s → length ss = S n → Forall is_sector ss → phase x = PWrite [] l n →
  (∀ x' s', at_any ds x' s' → media x' = put_sectors (media x) l ss → phase x' = PIdle → Q 0 s') →
  wp (write_sectors (S n) (Z.of_nat (length pre)) (pre ++ concat ss ++ post)) Q s.
Proof.
  revert ss x l pre s. induction n as [|n IH]; intros [|b ss] x l pre s Hs Hss Hok Hp HQ; try (cbn in Hss; lia);
    apply Forall_cons in Hok as [Hb Hok]; cbn [concat]; rewrite <- (app_assoc b);
    (eapply wp_write_sector; [exact Hs|exact Hb|exact Hp|]); intros s2 Hs2.
  - cbn [write_sectors]. apply wp_ret. eapply HQ; [exact Hs2|by destruct ss|done].
  - replace (Z.of_nat (length pre) + 512) with (Z.of_nat (length (pre ++ b))) by (rewrite length_app, (proj1 Hb); unfold SECTOR; lia).
    rewrite (app_assoc pre). eapply (IH ss _ (l + 1)); [exact Hs2|cbn in Hss; lia|done|done|].
    intros x' s' Hs' Em Ep. by eapply HQ.
Qed.

(** [ata_write] of [count] sectors stores them and leaves the drive at rest. *)
Lemma wp_ata_write ds x d lba ss rest s : takes_flush dev busy →
  at_rest ds x s → phase x = PIdle → ds !! 0%nat = Some d → present d ≠ 0 → is_slave d = 0 →
  (0 < length ss)%nat → Z.of_nat (length ss) < 256 → 0 ≤ lba → lba + Z.of_nat (length ss) ≤ Z.of_nat (length (media x)) ≤ 2 ^ 28 →
  Forall is_sector ss →
  wp (ata_write 0 lba (Z.of_nat (length ss)) (concat ss ++ rest)) (λ r s', ∃ x',
    r = 0 ∧ at_rest ds x' s' ∧ media x' = put_sectors (media x) lba ss ∧ phase x' = PIdle) s.
Proof.
  intros Hfl Hs Hp Hd Hpr Hsl Hc0 Hc Hl Hr Hss. unfold ata_write, target. cbn [Z.ltb Z.compare orb]. cbn iota.
  apply wp_bind, wp_bind, wp_get, wp_bind. destruct Hs as (Hds & Hrest). rewrite Hds.
  change (Z.to_nat 0) with 0%nat. rewrite Hd. eapply wp_lift; [done|]. apply wp_ret. rewrite (proj2 (Z.eqb_neq _ _)) by done.
  rewrite (proj2 (Z.eqb_neq (Z.of_nat (length ss)) 0)), Hsl by lia. apply wp_bind. eapply wp_ata_select; [by split|done|].
  intros x1 s1 Hs1 Em1 Hp1. cbn [Z.ltb Z.compare]. apply wp_bind.
  eapply wp_ata_command; [done|done|unfold is_byte; lia|done|apply addressed_write; rewrite ?Em1; lia|].
  intros s2 Hs2. rewrite Nat2Z.id. destruct (length ss) as [|n] eqn:En; [lia|]. apply wp_bind.
  replace (Z.to_nat (Z.of_nat (S n) - 1)) with n in Hs2 by lia.
  eapply (wp_write_sectors n ss _ lba ds []); [exact Hs2|done|done|done|].
  intros x3 s3 (E1 & E2 & E3) Em Ep. cbn [Z.ltb Z.compare]. apply wp_bind. unfold wp at 1, outb. rewrite (u8_small ATA_CMD_FLUSH) by done.
  assert (phase (dev (bus s3)) = PIdle) as Hidle by (by rewrite E2).
  destruct (decide (busy (bus s3) = O)) as [Hb|Hb]; [destruct (ad_flush (bus s3) Hb Hidle) as [F1 F2]|
    destruct (Hfl (bus s3) ltac:(lia) Hidle) as [F1 F2]]; apply wp_bind.
  all:
    (eapply (wp_ata_poll ds x3); [split_and!; cbn; [done|by rewrite F1|done]|done|]);
    intros st s4 Hs4 _; apply wp_ret; exists x3; (split_and!; try done; [by destruct Hs4..|]); rewrite Em; cbn; by rewrite Em1.
Qed.

(** *** The driver as a disk *)

(** The driver's table after start-up with one drive, and its state while no transfer is
    going on: the drive holds the sectors [m]. *)
Definition one_drive (ds : list ata_drive_t) : Prop :=
  ∃ d, ds = [d; no_drive] ∧ present d ≠ 0 ∧ is_slave d = 0.
Definition holds (ds : list ata_drive_t) (m : memdisk) s : Prop :=
  ∃ x, at_rest ds x s ∧ phase x = PIdle ∧ media x = m.

(** Calls for one sector, as the file systems make them. *)
Inductive disk_op := DRead (drive lba : Z) | DWrite (drive lba : Z) (b : list Z).
Definition op_ok (n : Z) (o : disk_op) : Prop :=
  match o with
  | DRead drive lba => drive = 0 → 0 ≤ lba < n
  | DWrite drive lba b => is_sector b ∧ (drive = 0 → 0 ≤ lba < n)
  end.

Definition is_write (o : disk_op) : bool := match o with DWrite _ _ _ => true | DRead _ _ => false end.

(** The result of a call: what was read, or nothing; [None] when it is negative. *)
Definition ata_op (o : disk_op) : M ata (option (list Z)) :=
  match o with
  | DRead drive lba =>
      r ← ata_read drive lba 1 (replicate SECTOR 0);
      mret (if fst r <? 0 then None else Some (snd r))
  | DWrite drive lba b => r ← ata_write drive lba 1 b; mret (if r <? 0 then None else Some [])
  end.
Definition disk_op_on (o : disk_op) (m : memdisk) : option (list Z) * memdisk :=
  match o with
  | DRead drive lba => (BlockDev.ata_read m drive lba, m)
  | DWrite drive lba b =>
      match BlockDev.ata_write m drive lba b with Some m' => (Some [], m') | None => (None, m) end
  end.
Fixpoint ata_run (os : list disk_op) : M ata (list (option (list Z))) :=
  match os with
  | [] => mret []
  | o :: os' => r ← ata_op o; rs ← ata_run os'; mret (r :: rs)
  end.
Fixpoint disk_run (os : list disk_op) (m : memdisk) : list (option (list Z)) :=
  match os with
  | [] => []
  | o :: os' => let (r, m') := disk_op_on o m in r :: disk_run os' m'
  end.

Lemma wp_absent ds drive s (Q : option Z → ata → Prop) :
  one_drive ds → drives s = ds → drive ≠ 0 → Q None s → wp (target drive) Q s.
Proof.
  intros (d & -> & _) Hd Hne HQ. unfold target. destruct (Z.ltb_spec drive 0), (Z.ltb_spec 1 drive); cbn [orb];
    try by apply wp_ret.
  assert (drive = 1) as -> by lia. apply wp_bind, wp_get, wp_bind. rewrite Hd. change (Z.to_nat 1) with 1%nat.
  eapply wp_lift; [done|]. by apply wp_ret.
Qed.

Lemma wp_ata_op n ds m o s :
  (is_write o = true → takes_flush dev busy) →
  one_drive ds → memdisk_ok n m → n ≤ 2 ^ 28 → op_ok n o → holds ds m s →
  wp (ata_op o) (λ r s', r = fst (disk_op_on o m) ∧ holds ds (snd (disk_op_on o m)) s' ∧
    memdisk_ok n (snd (disk_op_on o m))) s.
Proof.
  intros Hfl Hds Hm Hn Ho (x & Hs & Hp & Em). destruct Hm as [Hlen Hsec].
  assert (Hrel := memdisk_reliable n). destruct o as [drive lba|drive lba b]; cbn [op_ok] in Ho; cbn [ata_op disk_op_on].
  - apply wp_bind. destruct (decide (drive = 0)) as [->|Hne].
    + specialize (Ho eq_refl). destruct (rd_read m lba (conj Hlen Hsec) Ho) as (b & Eb & Hb).
      destruct Hds as (d & -> & Hpr & Hsl). eapply wp_mono; [eapply (wp_ata_read _ x d lba 1); try done; rewrite ?Em; try lia;
        unfold media_ok; by rewrite Em|].
      intros [r b'] s' (x' & [= -> ->] & Hs' & Em' & Hp'). apply wp_ret. cbn [fst snd Z.ltb Z.compare]. split_and!.
      * rewrite Eb. cbn in Eb. rewrite (proj2 (Z.leb_le 0 lba)) in Eb by lia. cbn in Eb.
        unfold sector_list. rewrite Em. change (Z.to_nat 1) with 1%nat. rewrite (drop_S _ _ _ Eb). cbn [take concat].
        change (take 0 _) with (@nil (list Z)). cbn [concat]. by rewrite !app_nil_r.
      * exists x'. split_and!; try done. congruence.
      * done.
    + unfold ata_read. apply wp_bind. eapply wp_absent; [done|by destruct Hs|done|]. apply wp_ret, wp_ret. cbn.
      rewrite (proj2 (Z.eqb_neq drive 0)) by done. cbn. split_and!; try done. by exists x.
  - destruct Ho as [Hb Ho]. apply wp_bind. destruct (decide (drive = 0)) as [->|Hne].
    + specialize (Ho eq_refl). destruct (rd_write m lba b (conj Hlen Hsec) Ho Hb) as (m' & Ew & Hm' & _). rewrite Ew. cbn [fst snd].
      cbn in Ew. rewrite (proj2 (Z.leb_le 0 lba)), (proj2 (Z.ltb_lt lba _)) in Ew by lia. cbn in Ew. injection Ew as <-.
      destruct Hds as (d & -> & Hpr & Hsl).
      eapply wp_mono; [pose proof (wp_ata_write [d; no_drive] x d lba [b] [] s) as Hw; cbn [length concat] in Hw;
        rewrite !app_nil_r in Hw; apply Hw; [by apply Hfl|..]; try done; rewrite ?Em; try lia; by apply Forall_singleton|].
      intros r s' (x' & -> & Hs' & Em' & Hp'). apply wp_ret. cbn [Z.ltb Z.compare]. split_and!; [done| |done].
      exists x'. split_and!; try done. by rewrite Em', Em.
    + unfold ata_write. apply wp_bind. eapply wp_absent; [done|by destruct Hs|done|]. apply wp_ret, wp_ret. cbn.
      rewrite (proj2 (Z.eqb_neq drive 0)) by done. cbn. split_and!; try done. by exists x.
Qed.

Lemma wp_ata_run n ds os m s :
  (existsb is_write os = true → takes_flush dev busy) →
  one_drive ds → memdisk_ok n m → n ≤ 2 ^ 28 → Forall (op_ok n) os → holds ds m s →
  wp (ata_run os) (λ rs _, rs = disk_run os m) s.
Proof.
  intros Hfl Hds Hm Hn. revert Hfl m s Hm. induction os as [|o os IH]; intros Hfl m s Hm Hos Hs; cbn [ata_run disk_run]; [by apply wp_ret|].
  apply Forall_cons in Hos as [Ho Hos]. apply wp_bind. eapply wp_mono; [eapply wp_ata_op; try done; intros E; apply Hfl; cbn; by rewrite E|].
  intros r s' (-> & Hs' & Hm'). destruct (disk_op_on o m) as [r m']. cbn [fst snd] in *.
  apply wp_bind. eapply wp_mono; [eapply IH; try done; intros E; apply Hfl; cbn; by rewrite E, orb_true_r|]. intros rs s'' ->. by apply wp_ret.
Qed.
End driver.

(** C24: the driver implements the disk its clients are proved against. On a drive that
    behaves as the standard says, has no media errors and is never busy for the 100000
    status reads the driver allows, any sequence of one-sector calls of [ata_read], to the
    drive that is there or to one that is not, gives the results of the same calls on a
    list of sectors. Sequences with calls of [ata_write] do so on a drive that also takes
    FLUSH CACHE while it is busy ([takes_flush]), which the standard does not promise and
    the driver does not wait for. In particular no poll gives up, no register or word
    goes to the wrong place, and a sector reads as what was last written to it. *)
Theorem ata_refines_disk {D} `{AtaDisk D dev busy} n ds os m (s : ata D) :
  (existsb is_write os = true → takes_flush dev busy) →
  one_drive ds → memdisk_ok n m → n ≤ 2 ^ 28 → Forall (op_ok n) os →
  holds (dev := dev) (busy := busy) ds m s →
  wp (ata_run os) (λ rs _, rs = disk_run os m) s.
Proof. apply wp_ata_run. Qed.

(** ** A drive that computes

    A state of the documented machine with a counter of status reads that still show
    BSY: two after a command, three at the end of a sector. *)
Definition simdrive : Type := ata_dev * nat.
#[export] Instance simdrive_ports : Ports simdrive := {
  port_read p '(x, b) :=
    if p =? ATA_PRI_STATUS then
      match b with
      | S b' => (0x80, (x, b'))
      | O => (match phase x with PIdle => 0x40 | _ => 0x48 end, (x, O))
      end
    else (0, (x, b));
  port_write p v '(x, b) :=
    match dev_out p v x with
    | Some x' => (x', if p =? ATA_PRI_CMD then 2%nat else b)
    | None => (x, if p =? ATA_PRI_CMD then 3%nat else b)
    end
}.
#[export] Instance simdrive_ports16 : Ports16 simdrive := {
  port_readw p '(x, b) :=
    match dev_in_word x with
    | Some (w, x') => (w, (x', match phase x' with PIdle => O | _ => if mid_sector x' then O else 3%nat end))
    | None => (0, (x, b))
    end;
  port_writew p w '(x, b) :=
    match dev_out_word w x with
    | Some x' => (x', if mid_sector x' then O else 3%nat)
    | None => (x, b)
    end
}.
#[export] Instance simdrive_ata : AtaDisk simdrive fst snd.
Proof.
  assert (∀ k, (k ≤ 3)%nat → (k < POLLS)%nat) as HP by (intros k Hk; pose proof POLLS_big; lia). split.
  - intros [x [|b]] Hb; cbn in *; [lia|done].
  - intros [x b] Hb. cbn in Hb. subst b. cbn. destruct (phase x); by split_and!.
  - by intros [x b].
  - intros [x b] p v y Hb Hv Ho. cbn in *. subst b. rewrite Ho. cbn. split_and!; [done|apply HP; destruct (p =? _); lia|].
    intros Hp. by rewrite (proj2 (Z.eqb_neq _ _)).
  - intros [x b] w y Hb Ho. cbn in *. subst b. rewrite Ho. cbn. split_and!; try done.
    + apply HP. destruct (phase y), (mid_sector y); lia.
    + intros [Hm|Hm]; rewrite Hm; [by destruct (phase y)|done].
  - intros [x b] w y Hb Hw Ho. cbn in *. subst b. rewrite Ho. cbn. split_and!; [done|apply HP; destruct (mid_sector y); lia|].
    intros Hm. by rewrite Hm.
  - intros [x b] _ Hp. cbn in *. destruct x as [m dr ct lo mi hi ph]. cbn in Hp. subst ph.
    cbn -[in_range]. destruct (in_range _); cbn; (split; [done|apply HP; lia]).
Qed.

Lemma simdrive_takes_flush : takes_flush (D := simdrive) fst snd.
Proof.
  intros [x b] _ Hp. cbn in *. destruct x as [m dr ct lo mi hi ph]. cbn in Hp. subst ph. pose proof POLLS_big.
  cbn -[in_range]. destruct (in_range _); cbn; (split; [done|lia]).
Qed.

(** ** Witness *)
Definition sim_start : ata simdrive :=
  mkAta (mkDev (replicate 4 (replicate SECTOR 0)) 0 0 0 0 0 PIdle, O)
    [mkDrive 1 0 4 (replicate 41 0) (replicate 21 0); no_drive].

Lemma ata_refines_disk_witness :
  wp (ata_run [DWrite 0 2 (replicate SECTOR 7); DRead 0 2; DRead 0 3; DRead 1 0])
    (λ rs _, rs = [Some []; Some (replicate SECTOR 7); Some (replicate SECTOR 0); None]) sim_start.
Proof.
  apply (ata_refines_disk 4 (drives sim_start) [DWrite 0 2 (replicate SECTOR 7); DRead 0 2; DRead 0 3; DRead 1 0] (replicate 4 (replicate SECTOR 0))).
  - intros _. apply simdrive_takes_flush.
  - by eexists.
  - apply (blank_disk_ok 4).
  - lia.
  - apply Forall_cons. split; [split; [|lia]|].
    + split; [apply length_replicate|apply Forall_replicate; unfold is_byte; lia].
    + repeat (apply Forall_cons; split); try apply Forall_nil_2; cbn [op_ok]; lia.
  - by exists (fst (bus sim_start)).
Defined.
