(* ===== verification/Idt.v ===== *)
(** * Interrupts (src/src/idt.c, src/boot/isr_stubs.asm)

    The descriptor table, the interrupt controllers and the dispatch of handlers, and
    below them the assembly stubs that save the registers and call into C. The machine
    of the stubs is a register file and the stack as a list of words, the top first;
    only interrupts that do not change the privilege level are covered, as when kernel
    code is interrupted. What a registered handler does is a parameter. *)

From S2P Require Import Prelude Ports KString Bytes Vga.

(** ** Descriptors *)
Record idt_entry_t := mkGate {
  base_low : Z;
  selector : Z;
  zero : Z;
  flags : Z;
  base_high : Z
}.
Definition no_gate : idt_entry_t := mkGate 0 0 0 0 0.
Definition IDT_ENTRIES : nat := 256.

Definition PIC1_CMD : Z := 0x20.
Definition PIC1_DATA : Z := 0x21.
Definition PIC2_CMD : Z := 0xA0.
Definition PIC2_DATA : Z := 0xA1.
Definition PIC_EOI : Z := 0x20.

Record registers_t := mkRegisters {
  r_ds : Z;
  r_edi : Z; r_esi : Z; r_ebp : Z; r_esp_dummy : Z; r_ebx : Z; r_edx : Z; r_ecx : Z; r_eax : Z;
  r_int_no : Z; r_err_code : Z;
  r_eip : Z; r_cs : Z; r_eflags : Z; r_esp : Z; r_ss : Z
}.

Section idt.
Context {D : Type} `{Ports D}.

(** Handlers are addresses, 0 is none. [cr2] is the register with the address of a page
    fault. *)
Record interrupts := mkInterrupts {
  bus : D;
  idt : list idt_entry_t;
  irq_handlers : list Z;
  exc_handlers : list Z;
  screen : vga;
  cr2 : Z
}.
Definition set_bus (d : D) (s : interrupts) := mkInterrupts d (idt s) (irq_handlers s) (exc_handlers s) (screen s) (cr2 s).
Definition set_idt (l : list idt_entry_t) (s : interrupts) := mkInterrupts (bus s) l (irq_handlers s) (exc_handlers s) (screen s) (cr2 s).
Definition set_irq (l : list Z) (s : interrupts) := mkInterrupts (bus s) (idt s) l (exc_handlers s) (screen s) (cr2 s).
Definition set_exc (l : list Z) (s : interrupts) := mkInterrupts (bus s) (idt s) (irq_handlers s) l (screen s) (cr2 s).
Definition set_screen (v : vga) (s : interrupts) := mkInterrupts (bus s) (idt s) (irq_handlers s) (exc_handlers s) v (cr2 s).

Definition outb (p v : Z) : M interrupts unit := λ s, Ok (tt, set_bus (port_write p (u8 v) (bus s)) s).
Definition io_wait : M interrupts unit := outb 0x80 0.

Definition pic_remap : M interrupts unit :=
  outb PIC1_CMD 0x11 ;; io_wait ;;
  outb PIC2_CMD 0x11 ;; io_wait ;;
  outb PIC1_DATA 0x20 ;; io_wait ;;
  outb PIC2_DATA 0x28 ;; io_wait ;;
  outb PIC1_DATA 0x04 ;; io_wait ;;
  outb PIC2_DATA 0x02 ;; io_wait ;;
  outb PIC1_DATA 0x01 ;; io_wait ;;
  outb PIC2_DATA 0x01 ;; io_wait ;;
  outb PIC1_DATA 0xFC ;;
  outb PIC2_DATA 0xFF ;;
  io_wait.

Definition pic_eoi (irq : Z) : M interrupts unit :=
  (if 8 <=? irq then outb PIC2_CMD PIC_EOI else mret tt) ;;
  outb PIC1_CMD PIC_EOI.

Definition gate (base sel fl : Z) : idt_entry_t :=
  mkGate (Z.land base 0xFFFF) sel 0 fl (Z.land (Z.shiftr base 16) 0xFFFF).
Definition idt_set (n base sel fl : Z) : M interrupts unit :=
  s ← get;
  if (0 <=? n) && (n <? Z.of_nat (length (idt s)))
  then put (set_idt (<[Z.to_nat n := gate base sel fl]> (idt s)) s)
  else lift Fault.
Definition idt_set_raw (n base sel fl : Z) : M interrupts unit := idt_set n base sel fl.

(** [isr k] and [irq k] are the addresses of the stubs. *)
Definition idt_init (isr irq : Z → Z) : M interrupts unit :=
  modify (set_idt (replicate IDT_ENTRIES no_gate)) ;;
  modify (set_irq (replicate 16 0)) ;;
  for_range 0 32 (λ k, idt_set k (isr k) 0x08 0x8E) ;;
  pic_remap ;;
  for_range 0 16 (λ k, idt_set (32 + k) (irq k) 0x08 0x8E).

Definition exc_register (n handler : Z) : M interrupts unit :=
  if (0 <=? n) && (n <? 32) then modify (λ s, set_exc (<[Z.to_nat n := handler]> (exc_handlers s)) s) else mret tt.
Definition irq_register (irq handler : Z) : M interrupts unit :=
  if (0 <=? irq) && (irq <? 16) then modify (λ s, set_irq (<[Z.to_nat irq := handler]> (irq_handlers s)) s) else mret tt.
Definition irq_unregister (irq : Z) : M interrupts unit :=
  if (0 <=? irq) && (irq <? 16) then modify (λ s, set_irq (<[Z.to_nat irq := 0]> (irq_handlers s)) s) else mret tt.

(** ** The panic screen *)
Definition on_screen {A} (m : M vga A) : M interrupts A := λ s,
  match m (screen s) with
  | Ok (a, v) => Ok (a, set_screen v s)
  | Fault => Fault
  | Timeout => Timeout
  end.
Definition puts_at (t : list Z) (x y : Z) (fg : vga_color) : M interrupts unit := on_screen (vga_puts_at t x y fg VGA_RED).

(** [kitoa] into [buf] of 64 bytes, and the text at a place. *)
Definition put_num (v : Z) (base x y : Z) (fg : vga_color) : M interrupts unit :=
  b ← lift (kitoa (u32 v) (replicate 64 0) base);
  puts_at b x y fg.
Definition regrow (label : list Z) (v x y : Z) : M interrupts unit :=
  puts_at label x y VGA_WHITE ;; put_num v 16 (x + 5) y VGA_YELLOW.

Definition exception_names : list (list Z) :=
  [lit "Division By Zero"; lit "Debug"; lit "Non Maskable Interrupt"; lit "Breakpoint"; lit "Overflow";
   lit "Out of Bounds"; lit "Invalid Opcode"; lit "No FPU Coprocessor"; lit "Double Fault";
   lit "Coprocessor Segment Overrun"; lit "Bad TSS"; lit "Segment Not Present"; lit "Stack Fault";
   lit "General Protection Fault"; lit "Page Fault"; lit "Unknown Interrupt"; lit "FPU Fault";
   lit "Alignment Check"; lit "Machine Check"; lit "SIMD Float Exception"].

(** [peek a] reads a word of memory. *)
Context (peek : Z → res Z).

Fixpoint stack_trace (n : nat) (ebp frame row : Z) : M interrupts unit :=
  match n with
  | O => mret tt
  | S n' =>
      if (ebp =? 0) || (21 <=? row) then mret tt else
      ret ← lift (peek (u32 (ebp + 4)));
      if (ret <? 0x100000) || (0x800000 <? ret) then mret tt else
      puts_at (lit "#") 5 row VGA_WHITE ;;
      put_num frame 10 7 row VGA_WHITE ;;
      puts_at (lit " EIP=0x") 9 row VGA_WHITE ;;
      put_num ret 16 16 row VGA_YELLOW ;;
      next ← lift (peek ebp);
      stack_trace n' next (frame + 1) (row + 1)
  end.

(** After the screen is drawn the machine halts. *)
Definition draw_panic (r : registers_t) : M interrupts unit :=
  on_screen (vga_fill_rect 0 0 80 25 32 VGA_WHITE VGA_RED) ;;
  puts_at (lit "*** KumOS KERNEL PANIC ***") 27 1 VGA_YELLOW ;;
  puts_at (lit "Exception: ") 5 3 VGA_WHITE ;;
  name ← lift (if r_int_no r <? 20 then res_of (exception_names !! Z.to_nat (r_int_no r)) else Ok (lit "Unknown Exception"));
  puts_at name 16 3 VGA_YELLOW ;;
  puts_at (lit "INT:") 5 4 VGA_WHITE ;; put_num (r_int_no r) 16 10 4 VGA_YELLOW ;;
  puts_at (lit "ERR:") 20 4 VGA_WHITE ;; put_num (r_err_code r) 16 25 4 VGA_YELLOW ;;
  puts_at (lit "--- Register Dump ---") 29 6 VGA_WHITE ;;
  regrow (lit "EAX=") (r_eax r) 5 8 ;; regrow (lit "EBX=") (r_ebx r) 25 8 ;;
  regrow (lit "ECX=") (r_ecx r) 45 8 ;; regrow (lit "EDX=") (r_edx r) 65 8 ;;
  regrow (lit "ESI=") (r_esi r) 5 9 ;; regrow (lit "EDI=") (r_edi r) 25 9 ;;
  regrow (lit "EBP=") (r_ebp r) 45 9 ;; regrow (lit "ESP=") (r_esp r) 65 9 ;;
  regrow (lit "EIP=") (r_eip r) 5 10 ;; regrow (lit "EFL=") (r_eflags r) 25 10 ;;
  regrow (lit "CS= ") (r_cs r) 45 10 ;; regrow (lit "SS= ") (r_ss r) 65 10 ;;
  (if r_int_no r =? 14 then
     s ← get;
     puts_at (lit "CR2 (fault addr):") 5 12 VGA_WHITE ;;
     put_num (cr2 s) 16 23 12 VGA_YELLOW ;;
     puts_at (lit "Cause: ") 5 13 VGA_WHITE ;;
     puts_at (if Z.testbit (r_err_code r) 0 then lit "Protection violation" else lit "Page not present") 12 13 VGA_YELLOW ;;
     puts_at (if Z.testbit (r_err_code r) 1 then lit " on WRITE" else lit " on READ") 32 13 VGA_YELLOW
   else mret tt) ;;
  puts_at (lit "--- Stack Trace ---") 30 15 VGA_WHITE ;;
  stack_trace 5 (r_ebp r) 0 16 ;;
  puts_at (lit "System halted. Reset to continue.") 23 22 VGA_WHITE ;;
  puts_at (lit "KumOS v1.1 | KumLabs") 30 23 VGA_LIGHT_GREY.

(** ** Dispatch

    [call h r] runs the handler at address [h] on the registers [r]. *)
Context (call : Z → registers_t → M interrupts unit).

(** Whether the handler returns; otherwise the machine has halted. *)
Definition isr_handler (r : registers_t) : M interrupts bool :=
  s ← get;
  h ← lift (if r_int_no r <? 32 then arr_get (exc_handlers s) (r_int_no r) else Ok 0);
  if negb (h =? 0) then call h r ;; mret true
  else draw_panic r ;; mret false.

Definition irq_handler (r : registers_t) : M interrupts bool :=
  let irq := u8 (r_int_no r - 32) in
  pic_eoi irq ;;
  s ← get;
  h ← lift (if irq <? 16 then arr_get (irq_handlers s) irq else Ok 0);
  (if negb (h =? 0) then call h r else mret tt) ;;
  mret true.

End idt.
Arguments interrupts D : clear implicits.

(** ** The assembly stubs (src/boot/isr_stubs.asm) *)
Inductive reg := EAX | ECX | EDX | EBX | ESP | EBP | ESI | EDI | EIP | CS | EFLAGS | DS | ES | FS | GS.
Record regs := mkRegs {
  eax : Z; ecx : Z; edx : Z; ebx : Z; esp : Z; ebp : Z; esi : Z; edi : Z;
  eip : Z; cs : Z; eflags : Z; ds : Z; es : Z; fs : Z; gs : Z
}.
Definition get_reg (r : reg) (x : regs) : Z :=
  match r with
  | EAX => eax x | ECX => ecx x | EDX => edx x | EBX => ebx x | ESP => esp x | EBP => ebp x | ESI => esi x
  | EDI => edi x | EIP => eip x | CS => cs x | EFLAGS => eflags x | DS => ds x | ES => es x | FS => fs x | GS => gs x
  end.
Definition set_reg (r : reg) (v : Z) (x : regs) : regs :=
  let '(mkRegs a c d b sp bp si di ip k fl s1 s2 s3 s4) := x in
  match r with
  | EAX => mkRegs v c d b sp bp si di ip k fl s1 s2 s3 s4
  | ECX => mkRegs a v d b sp bp si di ip k fl s1 s2 s3 s4
  | EDX => mkRegs a c v b sp bp si di ip k fl s1 s2 s3 s4
  | EBX => mkRegs a c d v sp bp si di ip k fl s1 s2 s3 s4
  | ESP => mkRegs a c d b v bp si di ip k fl s1 s2 s3 s4
  | EBP => mkRegs a c d b sp v si di ip k fl s1 s2 s3 s4
  | ESI => mkRegs a c d b sp bp v di ip k fl s1 s2 s3 s4
  | EDI => mkRegs a c d b sp bp si v ip k fl s1 s2 s3 s4
  | EIP => mkRegs a c d b sp bp si di v k fl s1 s2 s3 s4
  | CS => mkRegs a c d b sp bp si di ip v fl s1 s2 s3 s4
  | EFLAGS => mkRegs a c d b sp bp si di ip k v s1 s2 s3 s4
  | DS => mkRegs a c d b sp bp si di ip k fl v s2 s3 s4
  | ES => mkRegs a c d b sp bp si di ip k fl s1 v s3 s4
  | FS => mkRegs a c d b sp bp si di ip k fl s1 s2 v s4
  | GS => mkRegs a c d b sp bp si di ip k fl s1 s2 s3 v
  end.

(** The registers, the words on the stack above ESP, and the rest of the system [S]. *)
Record mach (S : Type) := mkMach { rf : regs; stk : list Z; sys : S }.
Arguments mkMach {S} _ _ _.
Arguments rf {S} _.
Arguments stk {S} _.
Arguments sys {S} _.

Section stubs.
Context {S : Type}.

Definition rget (r : reg) : M (mach S) Z := gets (λ m, get_reg r (rf m)).
Definition rset (r : reg) (v : Z) : M (mach S) unit := modify (λ m, mkMach (set_reg r v (rf m)) (stk m) (sys m)).
Definition push (v : Z) : M (mach S) unit :=
  modify (λ m, mkMach (set_reg ESP (u32 (esp (rf m) - 4)) (rf m)) (v :: stk m) (sys m)).
Definition pop : M (mach S) Z := λ m,
  match stk m with
  | v :: st => Ok (v, mkMach (set_reg ESP (u32 (esp (rf m) + 4)) (rf m)) st (sys m))
  | [] => Fault
  end.
Definition push_reg (r : reg) : M (mach S) unit := v ← rget r; push v.
Definition pop_reg (r : reg) : M (mach S) unit := v ← pop; rset r v.
(** [mov eax, [esp+4*k]]. *)
Definition load (r : reg) (k : nat) : M (mach S) unit := m ← get; v ← lift (res_of (stk m !! k)); rset r v.
(** [mov ax, v]: the low half of EAX. *)
Definition set_ax (v : Z) : M (mach S) unit := a ← rget EAX; rset EAX (Z.lor (a - a mod 65536) (u16 v)).
Definition seg_from_ax (r : reg) : M (mach S) unit := a ← rget EAX; rset r (u16 a).

Definition pusha : M (mach S) unit :=
  e ← rget ESP;
  push_reg EAX ;; push_reg ECX ;; push_reg EDX ;; push_reg EBX ;; push e ;;
  push_reg EBP ;; push_reg ESI ;; push_reg EDI.
Definition popa : M (mach S) unit :=
  pop_reg EDI ;; pop_reg ESI ;; pop_reg EBP ;; pop ;;
  pop_reg EBX ;; pop_reg EDX ;; pop_reg ECX ;; pop_reg EAX.

(** What the processor does on an interrupt with no change of privilege, with the error
    code if the exception has one, and on [iret]. *)
Definition cpu_interrupt (err : option Z) : M (mach S) unit :=
  push_reg EFLAGS ;; push_reg CS ;; push_reg EIP ;;
  match err with Some e => push e | None => mret tt end.
Definition iret : M (mach S) unit := pop_reg EIP ;; pop_reg CS ;; pop_reg EFLAGS.

(** A call of a C function: it sees the stack above the return address, and leaves any
    values in the registers a function need not save. [false]: it never returns. *)
Definition c_call (f : list Z → M S (bool * (Z * Z * Z))) : M (mach S) bool := λ m,
  match f (stk m) (sys m) with
  | Ok ((b, (a, c, d)), s) =>
      Ok (b, mkMach (set_reg EAX a (set_reg ECX c (set_reg EDX d (rf m)))) (stk m) s)
  | Fault => Fault
  | Timeout => Timeout
  end.

(** [isr_common] and [irq_common]: up to the call of the handler, after it, and around
    the handler [f]; whether the interrupted code goes on. *)
Definition common_save : M (mach S) unit :=
  pusha ;;
  v ← rget DS; set_ax v ;; push_reg EAX ;;
  set_ax 0x10 ;; seg_from_ax DS ;; seg_from_ax ES ;; seg_from_ax FS ;; seg_from_ax GS ;;
  push_reg ESP.
Definition common_restore : M (mach S) unit :=
  pop_reg EAX ;; pop_reg EAX ;;
  seg_from_ax DS ;; seg_from_ax ES ;; seg_from_ax FS ;; seg_from_ax GS ;;
  popa ;; pop ;; pop ;; iret.
Definition common (f : list Z → M S (bool * (Z * Z * Z))) : M (mach S) bool :=
  common_save ;;
  b ← c_call f;
  (if (b : bool) then common_restore else mret tt) ;;
  mret b.

(** The stubs with and without an error code of the processor, and those of the IRQs. *)
Definition isr_errs : list Z := [8; 10; 11; 12; 13; 14; 17].
Definition isr_stub (n : Z) (f : list Z → M S (bool * (Z * Z * Z))) : M (mach S) bool :=
  (if bool_decide (n ∈ isr_errs) then mret tt else push 0) ;; push n ;; common f.
Definition irq_stub (n : Z) (f : list Z → M S (bool * (Z * Z * Z))) : M (mach S) bool :=
  push 0 ;; push (32 + n) ;; common f.

(** The stub of INT 0x80; [dispatch num a b c] is [syscall_dispatch]. *)
Definition isr128_save : M (mach S) unit :=
  push_reg EDX ;; push_reg ECX ;; push_reg EBX ;;
  push_reg DS ;; push_reg ES ;; push_reg FS ;; push_reg GS ;;
  set_ax 0x10 ;; seg_from_ax DS ;; seg_from_ax ES ;; seg_from_ax FS ;; seg_from_ax GS ;;
  load EAX 7 ;; load EBX 6 ;; load ECX 5 ;; load EDX 4 ;;
  push_reg EDX ;; push_reg ECX ;; push_reg EBX ;; push_reg EAX.
Definition isr128_restore : M (mach S) unit :=
  pop ;; pop ;; pop ;; pop ;;
  pop_reg GS ;; pop_reg FS ;; pop_reg ES ;; pop_reg DS ;;
  pop_reg EBX ;; pop_reg ECX ;; pop_reg EDX ;;
  iret.
Definition isr128 (dispatch : Z → Z → Z → Z → M S (Z * (Z * Z))) : M (mach S) bool :=
  isr128_save ;;
  b ← c_call (λ st,
    match st with
    | num :: a :: b :: c :: _ => r ← dispatch num a b c; mret (true, (fst r, fst (snd r), snd (snd r)))
    | _ => lift Fault
    end);
  isr128_restore ;; mret b.

End stubs.
Arguments mach S : clear implicits.

(** A [registers_t] passed by value is the sixteen words from the first argument on. *)
Definition registers_of (st : list Z) : res registers_t :=
  match st with
  | ds :: edi :: esi :: ebp :: espd :: ebx :: edx :: ecx :: eax :: int_no :: err ::
    eip :: cs :: eflags :: esp :: ss :: _ =>
      Ok (mkRegisters ds edi esi ebp espd ebx edx ecx eax int_no err eip cs eflags esp ss)
  | _ => Fault
  end.

(** ** The table after start-up *)

(** The handler a gate leads to, if it is a present 32-bit interrupt gate of the kernel
    code segment. *)
Definition gate_target (g : idt_entry_t) : option Z :=
  if (flags g =? 0x8E) && (selector g =? 0x08) then Some (base_low g + 65536 * base_high g) else None.

Lemma gate_target_gate base : 0 ≤ base < 2 ^ 32 → gate_target (gate base 0x08 0x8E) = Some base.
Proof.
  intros Hb. unfold gate_target, gate. cbn -[Z.mul]. change 0xFFFF with (2 ^ 16 - 1).
  rewrite !land_low, Z.shiftr_div_pow2 by lia. f_equal. Z.div_mod_to_equations. lia.
Qed.

Section gates.
Context {D : Type} `{Ports D}.
Implicit Types s : interrupts D.

Lemma wp_idt_set n base sel fl (Q : unit → interrupts D → Prop) s :
  0 ≤ n < Z.of_nat (length (idt s)) → Q tt (set_idt (<[Z.to_nat n := gate base sel fl]> (idt s)) s) →
  wp (idt_set n base sel fl) Q s.
Proof.
  intros Hn HQ. unfold idt_set. apply wp_bind, wp_get.
  rewrite (proj2 (Z.leb_le 0 n)), (proj2 (Z.ltb_lt n _)) by lia. by apply wp_put.
Qed.

(** A loop of [idt_set] over consecutive vectors. *)
Lemma wp_idt_range (off : Z) (addr : Z → Z) n (Q : unit → interrupts D → Prop) s :
  0 ≤ off → 0 ≤ n → off + n ≤ Z.of_nat (length (idt s)) →
  (∀ s', length (idt s') = length (idt s) → irq_handlers s' = irq_handlers s →
     (∀ k, idt s' !! k = if decide (off ≤ Z.of_nat k < off + n) then Some (gate (addr (Z.of_nat k - off)) 0x08 0x8E) else idt s !! k) →
     Q tt s') →
  wp (for_range 0 n (λ k, idt_set (off + k) (addr k) 0x08 0x8E)) Q s.
Proof.
  intros Ho Hn Hl HQ.
  apply (wp_for_range (λ j s', length (idt s') = length (idt s) ∧ irq_handlers s' = irq_handlers s ∧
    ∀ k, idt s' !! k = if decide (off ≤ Z.of_nat k < off + j) then Some (gate (addr (Z.of_nat k - off)) 0x08 0x8E) else idt s !! k)).
  - lia.
  - split_and!; try done. intros k. rewrite decide_False by lia. done.
  - intros j s' Hj (E1 & E2 & E3). apply wp_idt_set; [lia|]. cbn. rewrite length_insert. split_and!; try done.
    intros k. destruct (decide (k = Z.to_nat (off + j))) as [->|Hne].
    + rewrite list_lookup_insert_eq by lia. rewrite decide_True by lia. do 3 f_equal. lia.
    + rewrite list_lookup_insert_ne by done. rewrite E3.
      destruct (decide (off ≤ Z.of_nat k < off + j)); [rewrite decide_True by lia; done|rewrite decide_False by lia; done].
  - intros s' (E1 & E2 & E3). by apply HQ.
Qed.

Lemma wp_keeps_table (m : M (interrupts D) unit) (Q : unit → interrupts D → Prop) s :
  wp m (λ _ s', idt s' = idt s ∧ irq_handlers s' = irq_handlers s) s →
  (∀ s', idt s' = idt s → irq_handlers s' = irq_handlers s → Q tt s') → wp m Q s.
Proof. intros Hm HQ. eapply wp_mono; [done|]. intros [] s' [? ?]. by apply HQ. Qed.

End gates.

(** Start-up installs the gates. After [idt_init] vector [k] leads to the stub
    [isr k] for the 32 exceptions and to [irq (k - 32)] for the 16 hardware interrupts
    after them, through present interrupt gates whose split base is the address of the
    stub; every other vector is empty, and no handler is registered. *)
Theorem idt_init_gates {D} `{Ports D} (isr irq : Z → Z) (s : interrupts D) :
  (∀ k, 0 ≤ isr k < 2 ^ 32) → (∀ k, 0 ≤ irq k < 2 ^ 32) →
  wp (idt_init isr irq) (λ _ s', length (idt s') = IDT_ENTRIES ∧ irq_handlers s' = replicate 16 0 ∧
    ∀ k, (k < IDT_ENTRIES)%nat → gate_target <$> idt s' !! k =
      Some (if decide (k < 32)%nat then Some (isr (Z.of_nat k))
            else if decide (k < 48)%nat then Some (irq (Z.of_nat k - 32)) else None)) s.
Proof.
  intros Hisr Hirq. unfold idt_init. do 2 (apply wp_bind, wp_modify). apply wp_bind.
  set (s0 := set_irq _ _).
  apply (wp_idt_range 0 isr 32 _ s0); [lia..|by vm_compute|]. intros s1 L1 I1 G1.
  apply wp_bind. apply wp_keeps_table; [by cbv [pic_remap]; repeat (apply wp_bind); cbn|].
  intros s2 E2 I2. apply (wp_idt_range 32 irq 16); [lia..|rewrite E2, L1; by vm_compute|]. intros s3 L3 I3 G3.
  rewrite L3, E2, L1, I3, I2, I1. split_and!; [apply length_replicate|done|]. intros k Hk. rewrite G3, E2, G1.
  destruct (decide (32 ≤ Z.of_nat k < 32 + 16)).
  { rewrite decide_False, decide_True by lia. cbn [fmap option_fmap option_map]. by rewrite gate_target_gate. }
  destruct (decide (0 ≤ Z.of_nat k < 0 + 32)).
  { rewrite decide_True by lia. cbn [fmap option_fmap option_map]. rewrite gate_target_gate by done. do 3 f_equal. lia. }
  rewrite !decide_False by lia. cbn [idt set_irq set_idt s0]. rewrite lookup_replicate_2 by done. done.
Qed.

(** ** What the stubs pass on and restore *)
Section frames.
Context {S : Type}.
Implicit Types (f : list Z → M S (bool * (Z * Z * Z))) (x : regs).

(** The word [mov ax, ds; push eax] leaves: DS in the low half of EAX. *)
Definition ds_word x : Z := Z.lor (eax x - eax x mod 65536) (u16 (ds x)).

(** The stack a handler sees: the pointer that was pushed for it, then the registers. *)
Definition seen (p e n err : Z) x (st : list Z) : list Z :=
  p :: ds_word x :: edi x :: esi x :: ebp x :: e :: ebx x :: edx x :: ecx x :: eax x :: n :: err ::
  eip x :: cs x :: eflags x :: st.

(** ESP after [k] pushes. *)
Fixpoint down (k : nat) (e : Z) : Z := match k with O => e | Datatypes.S k' => u32 (down k' e - 4) end.

Lemma u32_pop e : 0 ≤ e < 2 ^ 32 → u32 (u32 (e - 4) + 4) = e.
Proof. intros He. unfold u32. rewrite Zplus_mod_idemp_l. replace (e - 4 + 4) with e by lia. by apply Z.mod_small. Qed.

Lemma ax_low a v : is_u16 v → u16 (Z.lor (a - a mod 65536) (u16 v)) = v.
Proof.
  intros Hv. rewrite (u16_small v) by done. change 65536 with (2 ^ 16).
  rewrite (lor_aligned 16) by first [lia|by apply aligned_sub_mod|exact Hv].
  unfold u16. apply aligned_add_mod; [lia|by apply aligned_sub_mod|exact Hv].
Qed.

(** The data segment registers are all the same, as the kernel keeps them. *)
Definition flat x : Prop :=
  is_u16 (ds x) ∧ es x = ds x ∧ fs x = ds x ∧ gs x = ds x ∧ 0 ≤ esp x < 2 ^ 32.

Definition enter (n : Z) (st : list Z) x : list Z :=
  seen (down 14 (esp x)) (down 5 (esp x)) n 0 x st.

#[local] Opaque u32 u16 Z.lor Z.modulo Z.sub Z.add.
Ltac run_asm := cbv -[u32 u16 Z.lor Z.modulo Z.sub Z.add].

(** The way to the handler of interrupt [n] without an error code; [k] is what follows. *)
Lemma interrupt_save n x st s (k : M (mach S) bool) :
  ∃ y, (cpu_interrupt None ;; push 0 ;; push n ;; common_save ;; k) (mkMach x st s) = k (mkMach y (enter n st x) s) ∧
    esp y = down 15 (esp x).
Proof. destruct x. eexists. split; run_asm; reflexivity. Qed.

(** And back, whatever the handler left in the registers. *)
Lemma interrupt_restore n x y st s :
  flat x → esp y = down 15 (esp x) →
  (common_restore : M (mach S) unit) (mkMach y (enter n st x) s) = Ok (tt, mkMach x st s).
Proof.
  intros (Hds & Hes & Hfs & Hgs & Hesp) Hy. destruct x, y. cbn [esp ds es fs gs] in *. subst.
  run_asm. rewrite !ax_low by done. do 14 (rewrite u32_pop by apply u32_range). by rewrite u32_pop.
Qed.
#[local] Transparent u32 u16 Z.lor Z.modulo Z.sub Z.add.

Lemma interrupt_frame n f x st s a c d s' :
  flat x → f (enter n st x) s = Ok ((true, (a, c, d)), s') →
  (cpu_interrupt None ;; push 0 ;; push n ;; common f) (mkMach x st s) = Ok (true, mkMach x st s').
Proof.
  intros Hx Hf. unfold common.
  destruct (interrupt_save n x st s (b ← c_call f; (if (b : bool) then common_restore else mret tt) ;; mret b)) as (y & -> & Hy).
  erewrite M_bind_step by (unfold c_call; cbn [stk sys]; rewrite Hf; reflexivity).
  erewrite M_bind_step by (apply interrupt_restore; [done|]; destruct y; exact Hy). done.
Qed.

(** INT 0x80: what [syscall_dispatch] is called with, and the way back. *)
Lemma syscall_frame (dispatch : Z → Z → Z → Z → M S (Z * (Z * Z))) x st s v c d s' :
  flat x → ds x = 0x10 →
  dispatch (eip x) (edx x) (ecx x) (ebx x) s = Ok ((v, (c, d)), s') →
  (cpu_interrupt None ;; isr128 dispatch) (mkMach x st s) = Ok (true, mkMach (set_reg EAX v x) st s').
Proof.
  intros (Hds & Hes & Hfs & Hgs & Hesp) Hk Hf. unfold isr128.
  assert (∀ k : M (mach S) bool, ∃ y st', (cpu_interrupt None ;; isr128_save ;; k) (mkMach x st s) =
    k (mkMach y (eip x :: edx x :: ecx x :: ebx x :: st') s) ∧ ∀ a b e t, (isr128_restore : M (mach S) unit)
      (mkMach (set_reg EAX a (set_reg ECX b (set_reg EDX e y))) (eip x :: edx x :: ecx x :: ebx x :: st') t) =
      Ok (tt, mkMach (set_reg EAX a x) st t)) as Hsave.
  { intros k. destruct x. cbn [esp ds es fs gs] in *. subst. eexists _, _. split; [run_asm; reflexivity|].
    intros a b e t. run_asm. do 13 (rewrite u32_pop by apply u32_range). by rewrite u32_pop. }
  destruct (Hsave (b ← c_call (λ st, match st with
    | num :: a :: b :: c :: _ => r ← dispatch num a b c; mret (true, (fst r, fst (snd r), snd (snd r)))
    | _ => lift Fault end); isr128_restore ;; mret b)) as (y & st' & -> & Hback).
  erewrite M_bind_step; [|unfold c_call; cbn [stk sys]; erewrite M_bind_step by exact Hf; reflexivity].
  cbn [fst snd rf stk]. erewrite M_bind_step by apply Hback. done.
Qed.
End frames.

(** C25: hardware interrupts are transparent. Whatever the handler does to the rest of
    the system and leaves in the registers a C function may change, the interrupted code
    continues with all its registers, its flags and its stack as they were; the only
    effect is the handler's. The handler gets the saved registers below a pointer to
    them. *)
Theorem irq_transparent {S} n (f : list Z → M S (bool * (Z * Z * Z))) x st s clobbered s' :
  flat x → f (enter (32 + n) st x) s = Ok ((true, clobbered), s') →
  (cpu_interrupt None ;; irq_stub n f) (mkMach x st s) = Ok (true, mkMach x st s').
Proof. destruct clobbered as [[a c] d]. unfold irq_stub. intros Hx Hf. by eapply interrupt_frame. Qed.

(** [irq_handler] compiled: it reads its argument from the stack. *)
Definition c_irq {D} `{Ports D} (call : Z → registers_t → M (interrupts D) unit) (st : list Z) :
    M (interrupts D) (bool * (Z * Z * Z)) :=
  r ← lift (registers_of st); b ← irq_handler call r; mret (b, (0, 0, 0)).

(** The argument is passed by value, but the stub pushes a pointer for it: every field
    is one word off. *)
Lemma registers_shifted n x w st :
  registers_of (enter n (w :: st) x) =
  Ok (mkRegisters (down 14 (esp x)) (ds_word x) (edi x) (esi x) (ebp x) (down 5 (esp x)) (ebx x) (edx x) (ecx x)
        (eax x) n 0 (eip x) (cs x) (eflags x) w).
Proof. done. Qed.

(** The handler of a hardware interrupt is chosen by the interrupted code's EAX.
    The stubs push a pointer to the saved registers, while [irq_handler] takes them by
    value, so the field it reads as the interrupt number is the saved EAX. Whichever line
    [n] raised the interrupt, when the low byte of EAX less 32 is 16 or more no
    registered handler runs, and both controllers are told the interrupt is over. *)
Theorem irq_selected_by_eax {D} `{Ports D} call n x w st (s : interrupts D) :
  flat x → 16 ≤ u8 (eax x - 32) →
  (cpu_interrupt None ;; irq_stub n (c_irq call)) (mkMach x (w :: st) s) =
  Ok (true, mkMach x (w :: st) (set_bus (port_write PIC1_CMD PIC_EOI (port_write PIC2_CMD PIC_EOI (bus s))) s)).
Proof.
  intros Hx He. unfold irq_stub. eapply (interrupt_frame _ (c_irq call)); [done|].
  unfold c_irq. rewrite registers_shifted. erewrite M_bind_step by done. unfold irq_handler. cbn [r_int_no]. cbv zeta.
  set (irq := u8 (eax x - 32)) in *. unfold pic_eoi. rewrite (proj2 (Z.leb_le 8 irq)), (proj2 (Z.ltb_ge irq 16)) by lia. done.
Qed.

(** ** Witnesses *)
Definition trace : Type := list (Z * Z).
#[local] Instance trace_ports : Ports trace := {
  port_read p d := (0, d);
  port_write p v d := d ++ [(p, v)]
}.
Definition start : interrupts trace :=
  mkInterrupts [] (replicate IDT_ENTRIES no_gate) (replicate 16 0) (replicate 32 0)
    (mkVga [] 0 0 7 0 0) 0.
Definition kernel_regs : regs := mkRegs 1000 2 3 4 0x200000 6 7 8 0x100100 0x08 0x202 0x10 0x10 0x10 0x10.

Lemma kernel_regs_flat : flat kernel_regs.
Proof. unfold flat, is_u16. cbn. lia. Qed.

Lemma idt_init_gates_witness :
  wp (idt_init (λ k, 0x100000 + 16 * (k mod 32)) (λ k, 0x110000 + 16 * (k mod 16))) (λ _ s',
    length (idt s') = IDT_ENTRIES ∧ irq_handlers s' = replicate 16 0 ∧
    ∀ k, (k < IDT_ENTRIES)%nat → gate_target <$> idt s' !! k =
      Some (if decide (k < 32)%nat then Some (0x100000 + 16 * (Z.of_nat k mod 32))
            else if decide (k < 48)%nat then Some (0x110000 + 16 * ((Z.of_nat k - 32) mod 16)) else None)) start.
Proof.
  apply (idt_init_gates (λ k, 0x100000 + 16 * (k mod 32)) (λ k, 0x110000 + 16 * (k mod 16)));
    intros k; Z.div_mod_to_equations; lia.
Defined.

Lemma irq_transparent_witness :
  (cpu_interrupt None ;; irq_stub 0 (λ st s, Ok ((true, (11, 22, 33)), s + 1))) (mkMach kernel_regs [5] 41) =
  Ok (true, mkMach kernel_regs [5] 42).
Proof. apply (irq_transparent 0 (λ st s, Ok ((true, (11, 22, 33)), s + 1)) kernel_regs [5] 41 (11, 22, 33) 42 kernel_regs_flat); reflexivity. Defined.

Lemma irq_selected_by_eax_witness :
  (cpu_interrupt None ;; irq_stub 0 (c_irq (λ h r, lift Fault))) (mkMach kernel_regs [5] start) =
  Ok (true, mkMach kernel_regs [5] (set_bus ([(0xA0, 0x20); (0x20, 0x20)] : trace) start)).
Proof.
  etransitivity; [apply (irq_selected_by_eax (λ h r, lift Fault) 0 kernel_regs 5 [] start kernel_regs_flat); by vm_compute|].
  reflexivity.
Defined.
