(* ===== verification/Gdt.v ===== *)
(** * Segment descriptors (src/src/gdt.c, src/src/gdt.h)

    The descriptor table with its packed entries, and the task-state segment, whose 104
    bytes are a packed struct. [tss_addr] and [stack_addr] are the addresses the linker
    gives [tss] and [kernel_stack]; loading the table into the processor is left out. *)

From S2P Require Import Prelude KString Bytes.

Record gdt_entry_t := mkSeg {
  limit_low : Z;
  base_low : Z;
  base_mid : Z;
  access : Z;
  granularity : Z;
  base_high : Z
}.
Definition GDT_ENTRIES : nat := 6.
Definition GDT_KERNEL_CODE : Z := 0x08.
Definition GDT_KERNEL_DATA : Z := 0x10.
Definition GDT_USER_CODE : Z := 0x18.
Definition GDT_USER_DATA : Z := 0x20.
Definition GDT_TSS : Z := 0x28.
Definition TSS_SIZE : nat := 104.

Record segments := mkSegments { gdt : list gdt_entry_t; tss : list Z }.

Definition descriptor (base limit acc fl : Z) : gdt_entry_t :=
  mkSeg (Z.land limit 0xFFFF) (Z.land base 0xFFFF) (Z.land (Z.shiftr base 16) 0xFF) acc
    (Z.lor (Z.land (Z.shiftr limit 16) 0x0F) (Z.land fl 0xF0)) (Z.land (Z.shiftr base 24) 0xFF).

Definition gdt_set (idx : nat) (base limit acc fl : Z) : M segments unit :=
  s ← get;
  if (idx <? length (gdt s))%nat then put (mkSegments (<[idx := descriptor base limit acc fl]> (gdt s)) (tss s))
  else lift Fault.

Definition set_tss (r : res (list Z)) : M segments unit :=
  t ← lift r; modify (λ s, mkSegments (gdt s) t).

(** [esp0] is at offset 4 of the segment, [ss0] at 8 and [iomap_base] at 102. *)
Definition gdt_init (tss_addr stack_addr : Z) : M segments unit :=
  gdt_set 0 0 0 0 0 ;;
  gdt_set 1 0 0xFFFFFFFF 0x9A 0xCF ;;
  gdt_set 2 0 0xFFFFFFFF 0x92 0xCF ;;
  gdt_set 3 0 0xFFFFFFFF 0xFA 0xCF ;;
  gdt_set 4 0 0xFFFFFFFF 0xF2 0xCF ;;
  s ← get; set_tss (kmemset (tss s) 0 TSS_SIZE) ;;
  s ← get; set_tss (st32 8 GDT_KERNEL_DATA (tss s)) ;;
  s ← get; set_tss (st32 4 (u32 (stack_addr + 8192)) (tss s)) ;;
  s ← get; set_tss (st16 102 (Z.of_nat TSS_SIZE) (tss s)) ;;
  gdt_set 5 tss_addr (Z.of_nat TSS_SIZE - 1) 0x89 0x40.

Definition tss_set_kernel_stack (stack : Z) : M segments unit :=
  s ← get; set_tss (st32 4 (u32 stack) (tss s)).

(** ** What the processor reads *)

(** The base and the last valid offset of a descriptor. *)
Definition seg_base (e : gdt_entry_t) : Z := base_low e + 65536 * base_mid e + 16777216 * base_high e.
Definition seg_limit (e : gdt_entry_t) : Z :=
  let l := limit_low e + 65536 * (granularity e mod 16) in
  if Z.testbit (granularity e) 7 then l * 4096 + 4095 else l.
Definition seg_ring (e : gdt_entry_t) : Z := access e / 32 mod 4.
Definition seg_code (e : gdt_entry_t) : bool := Z.testbit (access e) 3.
Definition seg_present (e : gdt_entry_t) : bool := Z.testbit (access e) 7.

(** The segment a selector names. *)
Definition selected (s : segments) (sel : Z) : option gdt_entry_t := gdt s !! Z.to_nat (sel / 8).

Lemma descriptor_base base limit acc fl : is_u32 base → seg_base (descriptor base limit acc fl) = base.
Proof.
  unfold is_u32, seg_base, descriptor. cbn [base_low base_mid base_high]. intros Hb.
  change 0xFFFF with (2 ^ 16 - 1). change 0xFF with (2 ^ 8 - 1). rewrite !land_low, !Z.shiftr_div_pow2 by lia.
  Z.div_mod_to_equations. lia.
Qed.

(** A stack pointer as the segment stores it. *)
Definition stored_esp0 (s : segments) : res Z := ld32 4 (tss s).

(** The task-state segment after start-up: only [esp0], [ss0] and [iomap_base] are set. *)
Definition tss_of (esp0 : Z) : list Z :=
  replicate 4 0 ++ le32 esp0 ++ le32 GDT_KERNEL_DATA ++ replicate 90 0 ++ le16 (Z.of_nat TSS_SIZE).

Lemma tss_init t esp0 :
  length t = TSS_SIZE →
  kmemset t 0 TSS_SIZE = Ok (replicate 104 0) ∧
  ∃ t1 t2, st32 8 GDT_KERNEL_DATA (replicate 104 0) = Ok t1 ∧ st32 4 esp0 t1 = Ok t2 ∧
    st16 102 (Z.of_nat TSS_SIZE) t2 = Ok (tss_of esp0).
Proof.
  intros Ht. split.
  - rewrite kmemset_fill by (unfold TSS_SIZE in *; lia). rewrite drop_ge by (unfold TSS_SIZE in *; lia). by rewrite app_nil_r.
  - unfold st32, st16, tss_of. generalize (le32 esp0) (eq_refl : length (le32 esp0) = 4%nat). intros l Hl.
    do 4 (destruct l as [|? l]; [discriminate|]). destruct l; [|discriminate]. by do 2 eexists.
Qed.

Lemma tss_of_esp0 esp0 : is_u32 esp0 → ld32 4 (tss_of esp0) = Ok esp0 ∧ ld32 8 (tss_of esp0) = Ok GDT_KERNEL_DATA.
Proof.
  intros He. unfold tss_of, le32. split; [|reflexivity].
  transitivity (Ok (esp0 mod 256 + 256 * (esp0 / 256 mod 256) + 65536 * (esp0 / 65536 mod 256 + 256 * (esp0 / 16777216 mod 256))));
    [reflexivity|]. f_equal. pose proof (word_bytes esp0 He). lia.
Qed.

(** Start-up gives the processor a flat address space and a kernel stack. After
    [gdt_init] the code and data selectors of the kernel name present segments of ring 0
    and those of the user present segments of ring 3, all of base 0 and covering the four
    gigabytes; the task selector names the task-state segment, with its own base and
    size; and the stack the processor switches to on an interrupt from user code is the
    top of [kernel_stack]. *)
Theorem gdt_flat tss_addr stack_addr (s : segments) :
  length (gdt s) = GDT_ENTRIES → length (tss s) = TSS_SIZE → is_u32 tss_addr → is_u32 stack_addr →
  wp (gdt_init tss_addr stack_addr) (λ _ s',
    (∀ sel ring code, (sel, ring, code) ∈ [(GDT_KERNEL_CODE, 0, true); (GDT_KERNEL_DATA, 0, false); (GDT_USER_CODE, 3, true); (GDT_USER_DATA, 3, false)] →
       ∃ e, selected s' sel = Some e ∧ seg_present e = true ∧ seg_ring e = ring ∧ seg_code e = code ∧
         seg_base e = 0 ∧ seg_limit e = 0xFFFFFFFF) ∧
    (∃ e, selected s' GDT_TSS = Some e ∧ seg_present e = true ∧ seg_base e = tss_addr ∧ seg_limit e = 103) ∧
    stored_esp0 s' = Ok (u32 (stack_addr + 8192)) ∧ ld32 8 (tss s') = Ok GDT_KERNEL_DATA) s.
Proof.
  intros Hg Ht Hb Hs. destruct s as [g t]. cbn in Hg, Ht.
  do 6 (destruct g as [|? g]; [discriminate|]). destruct g; [|discriminate].
  destruct (tss_init t (u32 (stack_addr + 8192)) Ht) as (E0 & t1 & t2 & E1 & E2 & E3).
  assert (is_u32 (u32 (stack_addr + 8192))) as He by (unfold is_u32; apply u32_range).
  unfold gdt_init, gdt_set, set_tss. cbn [length Nat.ltb Nat.leb].
  repeat first [apply wp_bind|apply wp_get|apply wp_put|apply wp_modify|eapply wp_lift; [eassumption|]|progress cbn -[descriptor le32 st32 st16 kmemset tss_of selected seg_present seg_code seg_ring seg_base seg_limit]].
  split; [|split; [|exact (tss_of_esp0 _ He)]].
  - intros sel ring code Hin. repeat (apply elem_of_cons in Hin as [[= -> -> ->]|Hin]; [by eexists|]). by apply elem_of_nil in Hin.
  - eexists. split; [reflexivity|]. split; [done|]. split; [by apply descriptor_base|done].
Qed.

Lemma gdt_flat_witness :
  wp (gdt_init 0x106000 0x108000) (λ _ s', stored_esp0 s' = Ok 0x10A000) (mkSegments (replicate 6 (mkSeg 0 0 0 0 0 0)) (replicate 104 0)).
Proof.
  eapply wp_mono; [apply (gdt_flat 0x106000 0x108000); [done|done|unfold is_u32; lia|unfold is_u32; lia]|].
  intros _ s' (_ & _ & E & _). exact E.
Defined.
