(* ===== verification/Mouse.v ===== *)
(** * The mouse driver (src/src/mouse.c, src/src/mouse.h)

    The PS/2 mouse sends three bytes per movement; the interrupt handler collects them
    and moves the cursor. The controller is a type [D] with port accesses. *)

From S2P Require Import Prelude Ports.

Definition PS2_DATA : Z := 0x60.
Definition PS2_STATUS : Z := 0x64.
Definition PS2_CMD : Z := 0x64.
Definition PIC2_DATA : Z := 0xA1.
Definition PIC1_DATA : Z := 0x21.

Definition i8 (x : Z) : Z := if u8 x <? 128 then u8 x else u8 x - 256.

Record mouse_state_t := mkMouse {
  mx : Z; my : Z;
  mdx : Z; mdy : Z;
  buttons : Z;
  mleft : Z; mright : Z; mmiddle : Z
}.

Section mouse.
Context {D : Type} `{Ports D}.

(** [registered] is whether the handler of interrupt 12 has been installed. *)
Record mouse := mkDriver {
  bus : D;
  state : mouse_state_t;
  detected : Z;
  max_x : Z; max_y : Z;
  pkt : list Z;
  pkt_idx : Z;
  registered : bool
}.
Definition set_bus (d : D) (s : mouse) := mkDriver d (state s) (detected s) (max_x s) (max_y s) (pkt s) (pkt_idx s) (registered s).
Definition set_state (t : mouse_state_t) (s : mouse) := mkDriver (bus s) t (detected s) (max_x s) (max_y s) (pkt s) (pkt_idx s) (registered s).
Definition set_detected (v : Z) (s : mouse) := mkDriver (bus s) (state s) v (max_x s) (max_y s) (pkt s) (pkt_idx s) (registered s).
Definition set_bounds (x y : Z) (s : mouse) := mkDriver (bus s) (state s) (detected s) x y (pkt s) (pkt_idx s) (registered s).
Definition set_pkt (p : list Z) (i : Z) (s : mouse) := mkDriver (bus s) (state s) (detected s) (max_x s) (max_y s) p i (registered s).
Definition set_registered (b : bool) (s : mouse) := mkDriver (bus s) (state s) (detected s) (max_x s) (max_y s) (pkt s) (pkt_idx s) b.

Definition inb (p : Z) : M mouse Z := λ s, let (v, d) := port_read p (bus s) in Ok (u8 v, set_bus d s).
Definition outb (p v : Z) : M mouse unit := λ s, Ok (tt, set_bus (port_write p (u8 v) (bus s)) s).
Definition io_wait : M mouse unit := outb 0x80 0.

(** [while (cond && --t)] with [t] at most 100000. *)
Fixpoint wait_flag (t : nat) (flag : Z) (set : bool) : M mouse unit :=
  match t with
  | O => mret tt
  | S t' =>
      v ← inb PS2_STATUS;
      if Bool.eqb (negb (Z.land v flag =? 0)) set then wait_flag t' flag set else mret tt
  end.
Definition ps2_wait_write : M mouse unit := wait_flag (Z.to_nat 100000) 0x02 true.
Definition ps2_wait_read : M mouse unit := wait_flag (Z.to_nat 100000) 0x01 false.

Definition mouse_write (val : Z) : M mouse unit :=
  ps2_wait_write ;; outb PS2_CMD 0xD4 ;; ps2_wait_write ;; outb PS2_DATA val.
Definition mouse_read : M mouse Z := ps2_wait_read ;; inb PS2_DATA.

(** A complete packet. *)
Definition clamp (v hi : Z) : Z := if hi <? (if v <? 0 then 0 else v) then hi else (if v <? 0 then 0 else v).
Definition move (fl b1 b2 : Z) (s : mouse) : mouse :=
  let rel_x := i8 b1 in
  let rel_y := i8 b2 in
  if negb (Z.land fl 0x40 =? 0) || negb (Z.land fl 0x80 =? 0) then s
  else
    let t := state s in
    set_state (mkMouse (clamp (i32 (mx t + rel_x)) (max_x s)) (clamp (i32 (my t + - rel_y)) (max_y s)) rel_x (- rel_y)
      (Z.land fl 0x07) (if Z.land fl 0x01 =? 0 then 0 else 1) (if Z.land fl 0x02 =? 0 then 0 else 1)
      (if Z.land fl 0x04 =? 0 then 0 else 1)) s.

Definition mouse_irq : M mouse unit :=
  st ← inb PS2_STATUS;
  if Z.land st 0x01 =? 0 then mret tt else
  byte ← inb PS2_DATA;
  s ← get;
  if (pkt_idx s =? 0) && (Z.land byte 0x08 =? 0) then mret tt else
  p ← lift (arr_set (pkt s) (pkt_idx s) byte);
  modify (set_pkt p (pkt_idx s + 1)) ;;
  if pkt_idx s + 1 <? 3 then mret tt else
  modify (set_pkt p 0) ;;
  fl ← lift (arr_get p 0); b1 ← lift (arr_get p 1); b2 ← lift (arr_get p 2);
  modify (move fl b1 b2).

Definition mouse_set_bounds (x y : Z) : M mouse unit := modify (set_bounds x y).

Definition set_cursor (x y : Z) (t : mouse_state_t) : mouse_state_t :=
  mkMouse x y (mdx t) (mdy t) 0 (mleft t) (mright t) (mmiddle t).
Definition mouse_init : M mouse unit :=
  modify (λ s, set_state (set_cursor (Z.quot (max_x s) 2) (Z.quot (max_y s) 2) (state s)) s) ;;
  modify (λ s, set_pkt (pkt s) 0 s) ;;
  modify (set_detected 0) ;;
  ps2_wait_write ;; outb PS2_CMD 0xA8 ;; io_wait ;;
  ps2_wait_write ;; outb PS2_CMD 0x20 ;; ps2_wait_read ;;
  cfg ← inb PS2_DATA;
  let cfg := Z.land (Z.lor cfg 0x02) (Z.lnot 0x20) in
  ps2_wait_write ;; outb PS2_CMD 0x60 ;; ps2_wait_write ;; outb PS2_DATA cfg ;; io_wait ;;
  mouse_write 0xFF ;;
  ack ← mouse_read;
  if negb (ack =? 0xFA) then mret tt else
  mouse_read ;; mouse_read ;;
  mouse_write 0xF6 ;; mouse_read ;;
  mouse_write 0xF4 ;;
  ack2 ← mouse_read;
  if negb (ack2 =? 0xFA) then mret tt else
  modify (set_detected 1) ;;
  mask ← inb PIC2_DATA; outb PIC2_DATA (Z.land mask (Z.lnot 0x10)) ;;
  mask ← inb PIC1_DATA; outb PIC1_DATA (Z.land mask (Z.lnot 0x04)) ;; io_wait ;;
  modify (set_registered true).

Definition mouse_get (s : mouse) : mouse_state_t := state s.
Definition mouse_ready (s : mouse) : Z := detected s.

(** ** The cursor stays on the screen *)
Definition mouse_ok (s : mouse) : Prop :=
  0 ≤ mx (state s) ≤ max_x s ∧ 0 ≤ my (state s) ≤ max_y s ∧ length (pkt s) = 3%nat ∧ 0 ≤ pkt_idx s < 3.

Lemma clamp_range v hi : 0 ≤ hi → 0 ≤ clamp v hi ≤ hi.
Proof. unfold clamp. destruct (Z.ltb_spec v 0); case_z; lia. Qed.

Lemma clamp_min_max v hi : 0 ≤ hi → clamp v hi = Z.min (Z.max v 0) hi.
Proof. unfold clamp. destruct (Z.ltb_spec v 0); case_z; lia. Qed.

Lemma wp_inb p (Q : Z → mouse → Prop) s : (∀ v d, Q (u8 v) (set_bus d s)) → wp (inb p) Q s.
Proof. intros HQ. unfold wp, inb. destruct (port_read p (bus s)) as [v d]. apply HQ. Qed.

Lemma mouse_irq_ok s : mouse_ok s → wp mouse_irq (λ _ s', mouse_ok s' ∧ max_x s' = max_x s ∧ max_y s' = max_y s) s.
Proof.
  intros Hs. pose proof Hs as (Hx & Hy & Hp & Hi). unfold mouse_irq. apply wp_bind, wp_inb. intros st d.
  case_if; [by apply wp_ret|]. apply wp_bind, wp_inb. intros b d'. apply wp_bind, wp_get. cbn [pkt pkt_idx set_bus].
  case_if; [by apply wp_ret|]. apply wp_bind. rewrite arr_set_in by lia. eapply wp_lift; [done|]. apply wp_bind, wp_modify.
  destruct (Z.ltb_spec (pkt_idx s + 1) 3).
  { apply wp_ret. unfold mouse_ok. cbn. rewrite length_insert. split_and!; lia || done. }
  apply wp_bind, wp_modify. set (p := <[_ := _]> _). assert (length p = 3%nat) as Hlp by (unfold p; by rewrite length_insert).
  destruct (arr_get_in p 0) as (? & E1 & _), (arr_get_in p 1) as (? & E2 & _), (arr_get_in p 2) as (? & E3 & _); [lia..|].
  do 3 (apply wp_bind; eapply wp_lift; [eassumption|]). apply wp_modify.
  unfold move. case_if; unfold mouse_ok; cbn; (split_and!; try done; try lia; apply clamp_range; lia).
Qed.

End mouse.
Arguments mouse D : clear implicits.

(** ** Packets

    The bytes the mouse has sent and the controller holds back, as a device. *)
#[export] Instance queue_ports : Ports (list Z) := {
  port_read p d :=
    if p =? PS2_STATUS then (match d with [] => 0 | _ => 1 end, d)
    else match d with [] => (0, []) | b :: d' => (b, d') end;
  port_write p v d := d
}.

(** A movement by [dx], [dy] (upwards) with the buttons [b]: the standard packet, with
    the signs in the flags and the low eight bits of the displacements. *)
Definition packet (m : Z * Z * Z) : list Z :=
  let '(dx, dy, b) := m in
  [b + 8 + (if dx <? 0 then 16 else 0) + (if dy <? 0 then 32 else 0); dx mod 256; dy mod 256].
Definition movement_ok (m : Z * Z * Z) : Prop :=
  let '(dx, dy, b) := m in -128 ≤ dx < 128 ∧ -128 ≤ dy < 128 ∧ 0 ≤ b < 8.

(** Where a movement takes the cursor. *)
Definition step_to (w h : Z) (c : Z * Z * Z) (m : Z * Z * Z) : Z * Z * Z :=
  let '(x, y, _) := c in let '(dx, dy, b) := m in
  (Z.min (Z.max (x + dx) 0) w, Z.min (Z.max (y - dy) 0) h, b).
Definition cursor (t : mouse_state_t) : Z * Z * Z := (mx t, my t, buttons t).

Fixpoint interrupts_n {D} `{Ports D} (n : nat) : M (mouse D) unit :=
  match n with O => mret tt | S n' => mouse_irq ;; interrupts_n n' end.

Lemma i8_displacement d : -128 ≤ d < 128 → i8 (u8 (d mod 256)) = d.
Proof. intros Hd. unfold i8, u8. change (2 ^ 8) with 256. rewrite !Zmod_mod. case_z; Z.div_mod_to_equations; lia. Qed.

Lemma u8_mod d : u8 (d mod 256) = d mod 256.
Proof. unfold u8. apply Zmod_mod. Qed.

(** The flag byte of a packet. *)
Lemma packet_flags b sx sy :
  0 ≤ b < 8 → let f := b + 8 + (if sx : bool then 16 else 0) + (if sy : bool then 32 else 0) in
  u8 f = f ∧ (Z.land f 0x08 =? 0) = false ∧ Z.land f 0x40 = 0 ∧ Z.land f 0x80 = 0 ∧ Z.land f 0x07 = b.
Proof.
  intros Hb. assert (b ∈ seqZ 0 8) as Hin by (apply elem_of_seqZ; lia). clear Hb. revert b Hin.
  apply Forall_forall. by destruct sx, sy; vm_compute; repeat constructor.
Qed.

(** One byte taken by the handler, at each place of a packet. *)
Lemma irq_byte (b : Z) q st dt w h p0 p1 p2 i reg :
  u8 b = b → (i = 0 → (Z.land b 0x08 =? 0) = false) → i = 0 ∨ i = 1 ∨ i = 2 →
  mouse_irq (mkDriver (b :: q) st dt w h [p0; p1; p2] i reg) =
  Ok (tt, if i =? 0 then mkDriver q st dt w h [b; p1; p2] 1 reg
          else if i =? 1 then mkDriver q st dt w h [p0; b; p2] 2 reg
          else move p0 p1 b (mkDriver q st dt w h [p0; p1; b] 0 reg)).
Proof.
  intros Hu H8 Hi. unfold mouse_irq. erewrite M_bind_step by reflexivity. cbv beta.
  match goal with |- context [if ?c then mret tt else _] => change c with false end. cbn iota. erewrite M_bind_step by (cbn; rewrite Hu; reflexivity).
  erewrite M_bind_step by reflexivity. cbn [pkt pkt_idx set_bus].
  destruct Hi as [-> | [-> | ->]]; [rewrite (H8 eq_refl)|..]; reflexivity.
Qed.

Lemma mouse_packet m rest (s : mouse (list Z)) :
  mouse_ok s → pkt_idx s = 0 → max_x s < 2 ^ 30 → max_y s < 2 ^ 30 → movement_ok m → bus s = packet m ++ rest →
  ∃ s', interrupts_n 3 s = Ok (tt, s') ∧ bus s' = rest ∧ mouse_ok s' ∧ pkt_idx s' = 0 ∧
    max_x s' = max_x s ∧ max_y s' = max_y s ∧ cursor (state s') = step_to (max_x s) (max_y s) (cursor (state s)) m.
Proof.
  intros (Hx & Hy & Hp & _) Hi Hmx Hmy Hm Hb. destruct m as [[dx dy] b]. destruct Hm as (Hdx & Hdy & Hbt).
  destruct s as [q [x y ox oy ob l r mi] dt w h p i reg]. cbn [mx my state max_x max_y pkt pkt_idx bus] in *. subst i q.
  explode p. unfold packet. pose proof (packet_flags b (dx <? 0) (dy <? 0) Hbt) as Hf. cbv zeta in Hf.
  set (f := b + 8 + _ + _) in *. clearbody f. destruct Hf as (Hu & H8 & H40 & H80 & H7).
  pose proof (i8_displacement dx Hdx) as Ex. pose proof (i8_displacement dy Hdy) as Ey.
  pose proof (u8_mod dx) as Ux. pose proof (u8_mod dy) as Uy.
  generalize dependent (dx mod 256). generalize dependent (dy mod 256). intros e2 Ey Uy e1 Ex Ux. rewrite Ux in Ex. rewrite Uy in Ey.
  eexists. split.
  { cbn [interrupts_n app]. do 3 (erewrite M_bind_step by (apply irq_byte; [done|done|auto]); cbn [Z.eqb Pos.eqb]). reflexivity. }
  unfold move. rewrite H40, H80. cbn -[Z.land u8 i8 clamp].
  rewrite Ex, Ey, H7, !i32_small by lia. unfold mouse_ok, cursor. cbn.
  rewrite !clamp_min_max by lia. replace (y + - dy) with (y - dy) by lia. split_and!; done || lia.
Qed.

(** The cursor follows the mouse. From a driver between packets, any sequence of
    movements of up to 127 in each direction, sent as standard packets and each byte
    taken by one interrupt, leaves the cursor where the movements add up to, held to the
    screen at every step, with the buttons of the last one. *)
Theorem mouse_tracks ms rest (s : mouse (list Z)) :
  mouse_ok s → pkt_idx s = 0 → max_x s < 2 ^ 30 → max_y s < 2 ^ 30 → Forall movement_ok ms →
  bus s = concat (packet <$> ms) ++ rest →
  wp (interrupts_n (3 * length ms)) (λ _ s', bus s' = rest ∧ mouse_ok s' ∧ pkt_idx s' = 0 ∧
    cursor (state s') = foldl (step_to (max_x s) (max_y s)) (cursor (state s)) ms) s.
Proof.
  revert s. induction ms as [|m ms IH]; intros s Hs Hi Hx Hy Hms Hb; [by apply wp_ret|].
  apply Forall_cons in Hms as [Hm Hms]. cbn [fmap list_fmap concat] in Hb. rewrite <- app_assoc in Hb.
  destruct (mouse_packet m _ s Hs Hi Hx Hy Hm Hb) as (s' & E & Hb' & Hs' & Hi' & Ex & Ey & Ec).
  replace (3 * length (m :: ms))%nat with (S (S (S (3 * length ms)))) by (cbn; lia).
  assert (∀ Q, wp (interrupts_n (3 * length ms)) Q s' → wp (interrupts_n (S (S (S (3 * length ms))))) Q s) as Hseq.
  { intros Q HQ. generalize (3 * length ms)%nat HQ. clear -E. intros n HQ. cbn [interrupts_n] in *. unfold wp, mbind, M_bind in *.
    destruct (mouse_irq s) as [[[] s1]| |]; try done. destruct (mouse_irq s1) as [[[] s2]| |]; try done.
    destruct (mouse_irq s2) as [[[] s3]| |]; try done. by injection E as ->. }
  apply Hseq. eapply wp_mono; [apply IH; try done; lia|]. cbn beta. intros _ s2. rewrite Ex, Ey, Ec. done.
Qed.

(** Larger movements lose their ninth bit: the flags with the signs are not used. *)
Example fast_movement_reversed :
  match interrupts_n 3 (mkDriver (packet (200, 0, 0)) (mkMouse 40 12 0 0 0 0 0 0) 1 319 199 [0; 0; 0] 0 true) with
  | Ok (_, s) => cursor (state s) = (0, 12, 0)
  | _ => False
  end.
Proof. reflexivity. Qed.

Lemma mouse_tracks_witness :
  wp (interrupts_n (3 * 3)) (λ _ s', cursor (state s') = (45, 0, 1))
    (mkDriver (concat (packet <$> [(10, 5, 0); (-5, 100, 1); (0, 0, 1)]) ++ []) (mkMouse 40 12 0 0 0 0 0 0) 1 79 24 [0; 0; 0] 0 true).
Proof.
  eapply wp_mono; [apply (mouse_tracks [(10, 5, 0); (-5, 100, 1); (0, 0, 1)] []); try (cbn; lia)|].
  - unfold mouse_ok. cbn. lia.
  - repeat (apply Forall_cons; split); try apply Forall_nil_2; cbn; lia.
  - reflexivity.
  - intros _ s' (_ & _ & _ & E). exact E.
Defined.
