(* ===== verification/Rtc.v ===== *)
(** * The real-time clock (src/src/rtc.c, src/src/rtc.h)

    The clock of the CMOS memory is read through an index and a data port. The first
    part is the driver; the second the behaviour of the clock chip it relies on (class
    [CmosClock]) and what the driver makes of it. *)

From S2P Require Import Prelude Ports KString Vga.

Definition CMOS_ADDR : Z := 0x70.
Definition CMOS_DATA : Z := 0x71.
Definition RTC_SEC : Z := 0x00.
Definition RTC_MIN : Z := 0x02.
Definition RTC_HOUR : Z := 0x04.
Definition RTC_DAY : Z := 0x07.
Definition RTC_MONTH : Z := 0x08.
Definition RTC_YEAR : Z := 0x09.
Definition RTC_REGA : Z := 0x0A.
Definition RTC_REGB : Z := 0x0B.

Record rtc_time_t := mkTime {
  second : Z; minute : Z; hour : Z; day : Z; month : Z; year : Z
}.

Section rtc.
Context {D : Type} `{Ports D}.

Definition inb (p : Z) : M D Z := λ d, let (v, d') := port_read p d in Ok (u8 v, d').
Definition outb (p v : Z) : M D unit := λ d, Ok (tt, port_write p (u8 v) d).

(** [do outb while (inb & 0x80)]: the code has no bound; [n] is fuel. *)
Fixpoint rtc_wait (n : nat) : M D unit :=
  match n with
  | O => lift Timeout
  | S n' =>
      outb CMOS_ADDR RTC_REGA ;;
      v ← inb CMOS_DATA;
      if Z.land v 0x80 =? 0 then mret tt else rtc_wait n'
  end.

Definition cmos_read (r : Z) : M D Z := outb CMOS_ADDR r ;; inb CMOS_DATA.

Definition bcd_to_bin (bcd : Z) : Z := u8 (Z.land bcd 0x0F + Z.shiftr bcd 4 * 10).

Definition rtc_read (n : nat) : M D rtc_time_t :=
  rtc_wait n ;;
  sec ← cmos_read RTC_SEC;
  min ← cmos_read RTC_MIN;
  hour ← cmos_read RTC_HOUR;
  day ← cmos_read RTC_DAY;
  month ← cmos_read RTC_MONTH;
  year ← cmos_read RTC_YEAR;
  regb ← cmos_read RTC_REGB;
  let bcd := Z.land regb 0x04 =? 0 in
  let conv v := if bcd then bcd_to_bin v else v in
  let hour := if bcd then Z.lor (bcd_to_bin (Z.land hour 0x7F)) (Z.land hour 0x80) else hour in
  let hour := if (Z.land regb 0x02 =? 0) && negb (Z.land hour 0x80 =? 0)
              then (Z.land hour 0x7F + 12) mod 24 else hour in
  mret (mkTime (conv sec) (conv min) hour (conv day) (conv month) (2000 + conv year)).

Definition rtc_timestamp (n : nat) : M D Z :=
  t ← rtc_read n;
  let days := u32 ((year t - 2000) * 365 + (month t - 1) * 30 + day t) in
  mret (u32 (days * 86400 + hour t * 3600 + minute t * 60 + second t)).

(** [print2] and the text of [rtc_print]; a [char] of more than one digit's place wraps
    to a byte. *)
Definition print2 (n : Z) : list con := [CPutc (48 + n / 10); CPutc (48 + n mod 10)].
Definition rtc_print (n : nat) : M D (list con) :=
  t ← rtc_read n;
  mret ([CDec (year t); CPutc 45] ++ print2 (month t) ++ [CPutc 45] ++ print2 (day t) ++ [CPuts (lit "  ")] ++
        print2 (hour t) ++ [CPutc 58] ++ print2 (minute t) ++ [CPutc 58] ++ print2 (second t)).
End rtc.

(** ** The clock chip

    Writing the index port selects a register and reading the data port returns it.
    [busy d] more reads of status register A show an update in progress; outside an
    update the time registers keep still, as long as the driver reads. *)
Class CmosClock (D : Type) `{Ports D} (regs : D → Z → Z) (busy : D → nat) := {
  cc_read d r : r ≠ RTC_REGA →
    let (v, d') := port_read CMOS_DATA (port_write CMOS_ADDR r d) in
    u8 v = regs d r ∧ regs d' = regs d ∧ busy d' = busy d;
  cc_rega d :
    let (v, d') := port_read CMOS_DATA (port_write CMOS_ADDR RTC_REGA d) in
    Z.testbit v 7 = negb (busy d =? 0)%nat ∧ regs d' = regs d ∧ busy d' = pred (busy d)
}.

(** ** Formats

    The registers hold numbers in binary or as two decimal digits; hours from 0 to 23,
    or from 1 to 12 with the afternoon in bit 7. *)
Definition to_bcd (v : Z) : Z := v / 10 * 16 + v mod 10.
Definition hour12 (h : Z) : Z := if h mod 12 =? 0 then 12 else h mod 12.
Definition stored (bcd : bool) (v : Z) : Z := if bcd then to_bcd v else v.
Definition stored_hour (bcd h24 : bool) (h : Z) : Z :=
  if h24 then stored bcd h else stored bcd (hour12 h) + (if 12 <=? h then 128 else 0).
Definition mode (bcd h24 : bool) : Z := (if bcd then 0 else 4) + (if h24 then 2 else 0).

Definition time_ok (t : rtc_time_t) : Prop :=
  0 ≤ second t < 60 ∧ 0 ≤ minute t < 60 ∧ 0 ≤ hour t < 24 ∧ 1 ≤ day t ≤ 31 ∧ 1 ≤ month t ≤ 12 ∧ 2000 ≤ year t < 2100.

(** The registers show the time [t] in a format. *)
Definition shows (bcd h24 : bool) (rg : Z → Z) (t : rtc_time_t) : Prop :=
  rg RTC_SEC = stored bcd (second t) ∧ rg RTC_MIN = stored bcd (minute t) ∧ rg RTC_HOUR = stored_hour bcd h24 (hour t) ∧
  rg RTC_DAY = stored bcd (day t) ∧ rg RTC_MONTH = stored bcd (month t) ∧ rg RTC_YEAR = stored bcd (year t - 2000) ∧
  Z.land (rg RTC_REGB) 6 = mode bcd h24.

(** Noon and midnight are the hours the twelve-hour conversion gets wrong. *)
Definition read_hour (h24 : bool) (h : Z) : Z :=
  if h24 then h else if h =? 0 then 12 else if h =? 12 then 0 else h.

(** Equality of two functions below a bound, by evaluation. *)
Lemma equal_below (n : Z) (f g : Z → Z) : forallb (λ v, f v =? g v) (seqZ 0 n) = true → ∀ v, 0 ≤ v < n → f v = g v.
Proof.
  rewrite forallb_forall. intros HP v Hv. apply Z.eqb_eq, HP, list_elem_of_In, elem_of_seqZ. lia.
Qed.

Lemma bcd_to_bin_bcd v : 0 ≤ v < 100 → bcd_to_bin (to_bcd v) = v.
Proof. apply (equal_below 100 (λ v, bcd_to_bin (to_bcd v)) (λ v, v)). by vm_compute. Qed.

(** The hour of each format, as the driver converts it. *)
Definition converted_hour (bcd h24 : bool) (h : Z) : Z :=
  let v := stored_hour bcd h24 h in
  let v := if bcd then Z.lor (bcd_to_bin (Z.land v 0x7F)) (Z.land v 0x80) else v in
  if negb h24 && negb (Z.land v 0x80 =? 0) then (Z.land v 0x7F + 12) mod 24 else v.
Lemma hour_converted bcd h24 h : 0 ≤ h < 24 → converted_hour bcd h24 h = read_hour h24 h.
Proof. apply (equal_below 24 (converted_hour bcd h24) (read_hour h24)). by destruct bcd, h24; vm_compute. Qed.

Lemma mode_bits r bcd h24 :
  Z.land r 6 = mode bcd h24 → (Z.land r 4 =? 0) = bcd ∧ (Z.land r 2 =? 0) = negb h24.
Proof.
  intros Hr. assert (Z.land r 4 = Z.land (Z.land r 6) 4) as -> by (by rewrite <- Z.land_assoc).
  assert (Z.land r 2 = Z.land (Z.land r 6) 2) as -> by (by rewrite <- Z.land_assoc). rewrite Hr. by destruct bcd, h24.
Qed.

Section clock.
Context {D : Type} `{CmosClock D regs busy}.

Lemma wp_cmos_read r (d : D) (Q : Z → D → Prop) :
  r ≠ RTC_REGA → u8 r = r → (∀ d', regs d' = regs d → busy d' = busy d → Q (regs d r) d') → wp (cmos_read r) Q d.
Proof.
  intros Hr Hu HQ. unfold wp, cmos_read, outb, inb, mbind, M_bind. rewrite Hu.
  pose proof (cc_read d r Hr) as Hc. destruct (port_read _ _) as [v d']. destruct Hc as (-> & E1 & E2). by apply HQ.
Qed.

Lemma wp_rtc_wait n (d : D) (Q : unit → D → Prop) :
  (busy d < n)%nat → (∀ d', regs d' = regs d → Q tt d') → wp (rtc_wait n) Q d.
Proof.
  revert d. induction n as [|n IH]; intros d Hn HQ; [lia|]. cbn [rtc_wait]. apply wp_bind.
  unfold wp at 1, outb. change (u8 RTC_REGA) with RTC_REGA. apply wp_bind. unfold wp at 1, inb.
  pose proof (cc_rega d) as Hc. destruct (port_read _ _) as [v d']. destruct Hc as (Hv & E1 & E2).
  assert ((Z.land (u8 v) 0x80 =? 0) = (busy d =? 0)%nat) as ->.
  { change 0x80 with (2 ^ 7). rewrite <- (negb_involutive (_ =? 0)), flag_test by lia. unfold u8.
    rewrite Z.mod_pow2_bits_low, Hv by lia. by rewrite negb_involutive. }
  destruct (Nat.eqb_spec (busy d) 0) as [|Hne]; [apply wp_ret; by apply HQ|].
  apply IH; [lia|]. intros d2 E3. apply HQ. congruence.
Qed.

Lemma rtc_read_ok n bcd h24 t (d : D) :
  time_ok t → shows bcd h24 (regs d) t → (busy d < n)%nat →
  wp (rtc_read n) (λ r d', r = mkTime (second t) (minute t) (read_hour h24 (hour t)) (day t) (month t) (year t) ∧ regs d' = regs d) d.
Proof.
  intros (H1' & H2' & H3' & H4' & H5' & H6') (E1 & E2 & E3 & E4 & E5 & E6 & E7) Hn. unfold rtc_read.
  apply wp_bind, wp_rtc_wait; [done|]. intros d0 R0.
  do 7 (apply wp_bind, wp_cmos_read; [done|done|]; intros ? ? _).
  apply wp_ret. split; [|congruence].
  repeat match goal with E : regs ?a = regs ?b |- _ => rewrite E in *; clear E end.
  rewrite E1, E2, E3, E4, E5, E6. destruct (mode_bits _ _ _ E7) as [-> ->].
  assert (∀ v, 0 ≤ v < 100 → (if bcd then bcd_to_bin (stored bcd v) else stored bcd v) = v) as Hc
    by (intros v Hv; destruct bcd; [by apply bcd_to_bin_bcd|done]).
  rewrite !Hc by lia. pose proof (hour_converted bcd h24 (hour t) H3') as Hh. unfold converted_hour in Hh. cbv zeta in Hh |- *. rewrite Hh.
  f_equal. lia.
Qed.
End clock.

(** The driver reads the time. When an update of the clock ends, [rtc_read] waits
    for it and returns the time the registers show, whether they hold binary or decimal
    digits, and in the 24-hour or the 12-hour format; only noon and midnight of the
    12-hour format come out as each other. *)
Theorem rtc_read_time {D} `{CmosClock D regs busy} n bcd h24 t (d : D) :
  time_ok t → shows bcd h24 (regs d) t → (busy d < n)%nat → (h24 = true ∨ hour t ≠ 0 ∧ hour t ≠ 12) →
  wp (rtc_read n) (λ r d', r = t ∧ regs d' = regs d) d.
Proof.
  intros Ht Hs Hn Hh. eapply wp_mono; [by eapply rtc_read_ok|]. intros r d' [-> E]. split; [|done].
  destruct t as [s m h dd mo y]. cbn in *. f_equal. unfold read_hour.
  destruct h24; [done|]. destruct Hh as [?|[? ?]]; [done|]. by repeat (rewrite (proj2 (Z.eqb_neq _ _)); [|lia]).
Qed.

(** ** A clock that computes: the selected index, the registers, and the reads left of an
    update. *)
Definition simclock : Type := Z * (Z → Z) * nat.
#[export] Instance simclock_ports : Ports simclock := {
  port_read p '(i, rg, b) :=
    if i =? RTC_REGA then (if (b =? 0)%nat then 0x26 else 0xA6, (i, rg, pred b)) else (rg i, (i, rg, b));
  port_write p v '(i, rg, b) := if p =? CMOS_ADDR then (v, rg, b) else (i, rg, b)
}.
#[export] Instance simclock_ok : CmosClock simclock (λ d r, u8 (d.1.2 r)) snd.
Proof.
  split.
  - intros [[i rg] b] r Hr. cbn. rewrite (proj2 (Z.eqb_neq r RTC_REGA)) by done. done.
  - intros [[i rg] b]. cbn. by destruct b.
Qed.

(** A clock in the 12-hour decimal format. *)
Definition clock_at (t : rtc_time_t) (b : nat) : simclock :=
  (0, λ r, if r =? RTC_SEC then to_bcd (second t) else if r =? RTC_MIN then to_bcd (minute t)
           else if r =? RTC_HOUR then stored_hour true false (hour t) else if r =? RTC_DAY then to_bcd (day t)
           else if r =? RTC_MONTH then to_bcd (month t) else if r =? RTC_YEAR then to_bcd (year t - 2000) else 0, b).

Example noon_is_midnight :
  match rtc_read 10 (clock_at (mkTime 30 15 12 1 6 2024) 0) with Ok (t, _) => hour t = 0 | _ => False end.
Proof. reflexivity. Qed.

(** The time stamp counts 30 days for every month: the last day of January and the first
    of February get the same number. *)
Example timestamps_collide :
  match rtc_timestamp 10 (clock_at (mkTime 0 0 9 31 1 2024) 0), rtc_timestamp 10 (clock_at (mkTime 0 0 9 1 2 2024) 0) with
  | Ok (a, _), Ok (b, _) => a = b
  | _, _ => False
  end.
Proof. reflexivity. Qed.

Lemma rtc_read_time_witness :
  wp (rtc_read 10) (λ r _, r = mkTime 30 15 17 9 11 2031) (clock_at (mkTime 30 15 17 9 11 2031) 3).
Proof.
  eapply wp_mono; [apply (rtc_read_time 10 true false (mkTime 30 15 17 9 11 2031))|].
  - unfold time_ok. cbn. lia.
  - by split_and!.
  - cbn. lia.
  - right. cbn. lia.
  - by intros r d' [-> _].
Defined.
