(* ===== verification/Ramfs.v ===== *)
(** * The memory file system (src/src/fs.c)

    [files] is the static table of [FS_MAX_FILES] slots, each with its name and data
    arrays; a pointer to a file is the index of its slot. The second part states what
    the table is for, a finite map from names to contents, and proves that every
    operation implements it. *)

From S2P Require Import Prelude KString Vga.

Definition FS_MAX_FILES : Z := 32.
Definition FS_MAX_NAME : Z := 64.
Definition FS_MAX_DATA : Z := 4096.

Record fs_file_t := mkFile {
  f_name : list Z;
  f_data : list Z;
  f_size : Z;
  f_used : Z;
  f_executable : Z
}.

Definition file_zero : fs_file_t := mkFile (replicate 64 0) (replicate (Z.to_nat 4096) 0) 0 0 0.

Record ramfs := mkRamfs { files : list fs_file_t; file_count : Z }.

Definition set_file (i : nat) (f : fs_file_t) (n : Z) (st : ramfs) : ramfs :=
  mkRamfs (<[i := f]> (files st)) n.

(** The first used file with the name; [kstrcmp] is called on used slots only. *)
Fixpoint find_name (name : list Z) (l : list fs_file_t) : res (option nat) :=
  match l with
  | [] => Ok None
  | f :: l' =>
      b ← (if f_used f =? 0 then Ok false else d ← kstrcmp (f_name f) name; Ok (d =? 0));
      if b : bool then Ok (Some 0%nat) else r ← find_name name l'; Ok (option_map S r)
  end.
Definition fs_find (name : list Z) (st : ramfs) : res (option nat) := find_name name (files st).

(** [kmemcpy] of the data, cut to the array, with its terminator. *)
Definition fill_data (old data : list Z) : res (list Z * Z) :=
  n ← kstrlen data;
  let len := if FS_MAX_DATA <=? n then FS_MAX_DATA - 1 else n in
  d ← kmemcpy old data (Z.to_nat len);
  d' ← arr_set d len 0;
  Ok (d', len).

Definition fs_create (name data : list Z) (exec : Z) (st : ramfs) : res (Z * ramfs) :=
  r ← fs_find name st;
  match r with
  | Some _ => Ok (-1, st)
  | None =>
      match find_idx (λ f, f_used f =? 0) (files st) with
      | None => Ok (-1, st)
      | Some i =>
          f ← arr_get (files st) (Z.of_nat i);
          nm ← kstrcpy (f_name f) name;
          p ← fill_data (f_data f) data;
          let '(d, len) := p in
          Ok (0, set_file i (mkFile nm d len 1 exec) (file_count st + 1) st)
      end
  end.

Definition fs_write (name data : list Z) (st : ramfs) : res (Z * ramfs) :=
  r ← fs_find name st;
  match r with
  | None => fs_create name data 0 st
  | Some i =>
      f ← arr_get (files st) (Z.of_nat i);
      p ← fill_data (f_data f) data;
      let '(d, len) := p in
      Ok (0, set_file i (mkFile (f_name f) d len (f_used f) (f_executable f)) (file_count st) st)
  end.

Definition fs_delete (name : list Z) (st : ramfs) : res (Z * ramfs) :=
  r ← fs_find name st;
  match r with
  | None => Ok (-1, st)
  | Some i =>
      f ← arr_get (files st) (Z.of_nat i);
      Ok (0, set_file i (mkFile (f_name f) (f_data f) (f_size f) 0 (f_executable f)) (file_count st - 1) st)
  end.

Definition fs_file_count (st : ramfs) : Z := file_count st.

Definition readme_text : list Z := lit
"Welcome to KumOS!
A minimal C-based operating system.
Type 'help' for available commands.
Use 'kum <cmd>' for privileged operations.
".
Definition motd_text : list Z := lit
"  ____  __.               ________    _________
 |    |/ _|__ __  _____  \_____  \  /   _____/
 |      < |  |  \/     \  /   |   \ \_____  \
 |    |  \|  |  /  Y Y  \/    |    \/        \
 |____|__ \____/|__|_|  /\_______  /_______  /
          \/          \/         \/        \/ 
".
Definition hello_text : list Z := lit
"echo Hello from KumOS shell script!
echo This is a demo script.
".

Definition fs_init : res ramfs :=
  let st := mkRamfs (replicate 32 file_zero) 0 in
  r ← fs_create (lit "readme.txt") readme_text 0 st;
  r ← fs_create (lit "motd.txt") motd_text 0 r.2;
  r ← fs_create (lit "hello.sh") hello_text 1 r.2;
  Ok r.2.

(** The lines of [fs_list]. *)
Definition list_file (f : fs_file_t) : res (list con) :=
  if f_used f =? 0 then Ok []
  else
    n ← kstrlen (f_name f);
    Ok ([CPuts (lit "  "); CPuts (f_name f)] ++ replicate (Z.to_nat (32 - n)) (CPutc 32) ++
        [CDec (f_size f); CPuts (lit "B   ");
         CPuts (if f_executable f =? 0 then lit "[txt]" else lit "[exe]"); CPutc 10]).
Fixpoint list_files (l : list fs_file_t) : res (list con) :=
  match l with
  | [] => Ok []
  | f :: l' => a ← list_file f; b ← list_files l'; Ok (a ++ b)
  end.
Definition fs_list (st : ramfs) : res (list con) :=
  b ← list_files (files st);
  Ok ([CColor VGA_YELLOW VGA_BLACK;
       CPuts (lit "  NAME                           SIZE  TYPE
");
       CPuts (lit "  ----                           ----  ----
");
       CColor VGA_WHITE VGA_BLACK] ++ b).

(** ** The specification: a bounded map from names to contents *)

Definition content (f : fs_file_t) : list Z := take (Z.to_nat (f_size f)) (f_data f).
Definition fname (f : fs_file_t) : list Z := cstring (f_name f).
Definition used (f : fs_file_t) : bool := negb (f_used f =? 0).

Record file_wf (f : fs_file_t) : Prop := {
  fw_name : length (f_name f) = 64%nat;
  fw_data : length (f_data f) = Z.to_nat 4096;
  fw_str : f_used f ≠ 0 → cstr (f_name f) (fname f);
  fw_size : 0 ≤ f_size f < 4096
}.

(** The files of the table are the entries of [m]. *)
Record ramfs_rep (st : ramfs) (m : gmap (list Z) (list Z * Z)) : Prop := {
  rep_len : length (files st) = 32%nat;
  rep_wf : Forall file_wf (files st);
  rep_inj : ∀ i j f g, files st !! i = Some f → files st !! j = Some g →
    f_used f ≠ 0 → f_used g ≠ 0 → fname f = fname g → i = j;
  rep_map : ∀ n v, m !! n = Some v ↔
    ∃ i f, files st !! i = Some f ∧ f_used f ≠ 0 ∧ fname f = n ∧ (content f, f_executable f) = v;
  rep_count : file_count st = Z.of_nat (size m);
  rep_used : Z.of_nat (size m) = countb used (files st)
}.

(** The longest content a file can have is [FS_MAX_DATA - 1] bytes. *)
Definition clip (d : list Z) : list Z := take (Z.to_nat 4095) d.

Definition spec_create (n d : list Z) (x : Z) (m : gmap (list Z) (list Z * Z)) :=
  match m !! n with
  | Some _ => (-1, m)
  | None => if (32 <=? size m)%nat then (-1, m) else (0, <[n := (clip d, x)]> m)
  end.
Definition spec_write (n d : list Z) (m : gmap (list Z) (list Z * Z)) :=
  match m !! n with
  | Some (_, x) => (0, <[n := (clip d, x)]> m)
  | None => spec_create n d 0 m
  end.
Definition spec_delete (n : list Z) (m : gmap (list Z) (list Z * Z)) :=
  match m !! n with
  | Some _ => (0, delete n m)
  | None => (-1, m)
  end.

Inductive fs_op :=
| OpCreate (n d : list Z) (x : Z)
| OpWrite (n d : list Z)
| OpDelete (n : list Z).

Definition fs_do (o : fs_op) (st : ramfs) : res (Z * ramfs) :=
  match o with
  | OpCreate n d x => fs_create (n ++ [0]) (d ++ [0]) x st
  | OpWrite n d => fs_write (n ++ [0]) (d ++ [0]) st
  | OpDelete n => fs_delete (n ++ [0]) st
  end.
Definition fs_spec (o : fs_op) (m : gmap (list Z) (list Z * Z)) :=
  match o with
  | OpCreate n d x => spec_create n d x m
  | OpWrite n d => spec_write n d m
  | OpDelete n => spec_delete n m
  end.
Fixpoint fs_run (os : list fs_op) (st : ramfs) : res (list Z * ramfs) :=
  match os with
  | [] => Ok ([], st)
  | o :: os' => p ← fs_do o st; q ← fs_run os' p.2; Ok (p.1 :: q.1, q.2)
  end.
Fixpoint spec_run (os : list fs_op) (m : gmap (list Z) (list Z * Z)) :=
  match os with
  | [] => ([], m)
  | o :: os' => let p := fs_spec o m in let q := spec_run os' p.2 in (p.1 :: q.1, q.2)
  end.
(** Names fit the 64-byte array and the arguments are C strings. *)
Definition op_ok (o : fs_op) : Prop :=
  match o with
  | OpCreate n d _ | OpWrite n d => nonzero n ∧ nonzero d ∧ (length n < 64)%nat
  | OpDelete n => nonzero n
  end.

(** ** Every operation implements the specification *)

Lemma find_name_spec name n l :
  cstr name n → Forall file_wf l →
  find_name name l = Ok (find_idx (λ f, used f && bool_decide (fname f = n)) l).
Proof.
  intros Hn. induction 1 as [|f l Hf Hl IH]; [done|]. cbn [find_name find_idx]. unfold used.
  destruct (Z.eqb_spec (f_used f) 0) as [Hu|Hu]; cbn.
  - rewrite IH. cbn. by destruct (find_idx _ l).
  - destruct (kstrcmp_test (f_name f) name (fname f) n) as (d & -> & Hd);
      [by apply (fw_str _ Hf)|done|].
    cbn. rewrite Hd. destruct (bool_decide (fname f = n)); [done|].
    rewrite IH. cbn. by destruct (find_idx _ l).
Qed.

Lemma fs_find_spec st m name n :
  ramfs_rep st m → cstr name n →
  (fs_find name st = Ok None ∧ m !! n = None) ∨
  (∃ i f, fs_find name st = Ok (Some i) ∧ files st !! i = Some f ∧ f_used f ≠ 0 ∧ fname f = n ∧
          m !! n = Some (content f, f_executable f)).
Proof.
  intros Hr Hn. unfold fs_find. rewrite (find_name_spec name n _ Hn (rep_wf _ _ Hr)).
  destruct (find_idx _ (files st)) as [i|] eqn:E.
  - right. destruct (find_idx_lookup _ _ _ E) as (f & Hi & Hf). unfold used in Hf. bool_hyps.
    match goal with H : bool_decide _ = true |- _ => apply bool_decide_eq_true in H end.
    exists i, f. split_and!; try done. apply (rep_map _ _ Hr). eauto 10.
  - left. split; [done|]. destruct (m !! n) as [v|] eqn:Ev; [|done]. exfalso.
    apply (rep_map _ _ Hr) in Ev as (i & f & Hi & Hu & Hfn & _).
    rewrite find_idx_None in E. specialize (E f (list_elem_of_lookup_2 _ _ _ Hi)).
    unfold used in E. rewrite (proj2 (Z.eqb_neq _ _) Hu), bool_decide_true in E by done. done.
Qed.

Lemma fill_data_spec old data d :
  length old = Z.to_nat 4096 → cstr data d →
  ∃ d' len, fill_data old data = Ok (d', len) ∧ length d' = Z.to_nat 4096 ∧
    0 ≤ len < 4096 ∧ take (Z.to_nat len) d' = clip d.
Proof.
  intros Hold Hd. unfold fill_data. rewrite (kstrlen_cstr _ d) by done. cbn.
  pose proof (cstr_length _ _ Hd) as Hdl.
  set (len := if FS_MAX_DATA <=? Z.of_nat (length d) then FS_MAX_DATA - 1 else Z.of_nat (length d)).
  assert (0 ≤ len < 4096 ∧ len ≤ Z.of_nat (length d) ∧ clip d = take (Z.to_nat len) d) as (Hl1 & Hl2 & Hclip).
  { unfold len, clip, FS_MAX_DATA. case_if; (split; [lia|split; [lia|]]); [done|].
    rewrite !take_ge by lia. done. }
  rewrite kmemcpy_copy by lia. cbn.
  destruct Hd as (rest & -> & _). rewrite take_app_le by lia.
  assert (length (take (Z.to_nat len) d) = Z.to_nat len) as Htk by (rewrite length_take; lia).
  rewrite arr_set_in by (rewrite length_app, Htk, length_drop; lia). cbn.
  eexists _, _. split; [done|]. split; [rewrite length_insert, length_app, Htk, length_drop; lia|].
  split; [done|]. rewrite take_insert_ge by lia. rewrite Hclip, take_app_le by lia.
  apply take_ge. lia.
Qed.

Definition drop_file (f : fs_file_t) (m : gmap (list Z) (list Z * Z)) :=
  if used f then delete (fname f) m else m.
Definition add_file (f : fs_file_t) (m : gmap (list Z) (list Z * Z)) :=
  if used f then <[fname f := (content f, f_executable f)]> m else m.

Lemma used_true f : used f = true ↔ f_used f ≠ 0.
Proof. unfold used. destruct (Z.eqb_spec (f_used f) 0); cbn; naive_solver. Qed.

(** The file [f] at slot [i] replaced by [g]. *)
(** The map without the file of an entry, and its size. *)
Lemma drop_file_lookup st m i f n v : ramfs_rep st m → files st !! i = Some f →
  drop_file f m !! n = Some v ↔
    ∃ j h, j ≠ i ∧ files st !! j = Some h ∧ f_used h ≠ 0 ∧ fname h = n ∧ (content h, f_executable h) = v.
Proof.
  intros Hr Hi. unfold drop_file. destruct (used f) eqn:Euf.
  - rewrite lookup_delete_Some, (rep_map _ _ Hr). apply used_true in Euf. split.
    + intros (Hne & j & h & Hj & Hu & Hfn & Hv). exists j, h. split_and!; try done. intros ->. simplify_eq.
    + intros (j & h & Hne & Hj & Hu & Hfn & Hv). split; [|eauto 10].
      intros Heq. apply Hne. eapply (rep_inj _ _ Hr); [done..|congruence].
  - rewrite (rep_map _ _ Hr). split.
    + intros (j & h & Hj & Hu & Hfn & Hv). exists j, h. split_and!; try done. intros ->. simplify_eq. apply used_true in Hu. congruence.
    + intros (j & h & Hne & Hj & Hu & Hfn & Hv). eauto 10.
Qed.
Lemma size_drop_file st m i f : ramfs_rep st m → files st !! i = Some f →
  Z.of_nat (size (drop_file f m)) = Z.of_nat (size m) - Z.b2z (used f).
Proof.
  intros Hr Hi. unfold drop_file. destruct (used f) eqn:Euf; cbn; [|lia]. apply used_true in Euf.
  assert (is_Some (m !! fname f)) as His by (eexists; apply (rep_map _ _ Hr); eauto 10).
  rewrite map_size_delete. destruct His as [v Hv]. rewrite Hv.
  assert (size m ≠ 0%nat); [|lia]. intros H0. apply map_size_empty_iff in H0. by rewrite H0 in Hv.
Qed.

Lemma rep_update st m i f g c :
  ramfs_rep st m → files st !! i = Some f → file_wf g →
  (f_used g ≠ 0 → drop_file f m !! fname g = None) →
  c = file_count st - Z.b2z (used f) + Z.b2z (used g) →
  ramfs_rep (set_file i g c st) (add_file g (drop_file f m)).
Proof.
  intros Hr Hi Hg Hfresh ->. pose proof (lookup_lt_Some _ _ _ Hi) as Hlt.
  pose proof (λ n v, drop_file_lookup st m i f n v Hr Hi) as Hdrop. pose proof (size_drop_file st m i f Hr Hi) as Hsd.
  assert (Z.of_nat (size (add_file g (drop_file f m))) = Z.of_nat (size m) - Z.b2z (used f) + Z.b2z (used g)) as Hsa.
  { unfold add_file. destruct (used g) eqn:Eug; cbn; [|lia].
    rewrite map_size_insert_None by (by apply Hfresh, used_true). lia. }
  constructor; cbn.
  - rewrite length_insert. apply Hr.
  - apply Forall_insert; [apply Hr|done].
  - assert (∀ j h, j ≠ i → files st !! j = Some h → f_used h ≠ 0 → f_used g ≠ 0 → fname h ≠ fname g) as Hnew.
    { intros j h Hj Hh Hu Hug Heq. specialize (Hfresh Hug).
      assert (drop_file f m !! fname g = Some (content h, f_executable h)) as Hsome; [|congruence].
      apply Hdrop. eauto 10. }
    intros j k h1 h2 Hj Hk Hu1 Hu2 Heq.
    apply list_lookup_insert_Some in Hj as [(-> & -> & _)|[Hji Hj]];
      apply list_lookup_insert_Some in Hk as [(-> & -> & _)|[Hki Hk]]; [done| | |].
    + exfalso. by eapply Hnew.
    + exfalso. by eapply (Hnew j h1).
    + by eapply (rep_inj _ _ Hr).
  - intros n v. unfold add_file. destruct (used g) eqn:Eug.
    + rewrite lookup_insert_Some, Hdrop. apply used_true in Eug. split.
      * intros [[<- <-]|(Hne & j & h & Hj & Hh & Hu & Hfn & Hv)].
        -- exists i, g. rewrite list_lookup_insert_eq by done. done.
        -- exists j, h. rewrite list_lookup_insert_ne by done. done.
      * intros (j & h & Hj & Hu & Hfn & Hv).
        apply list_lookup_insert_Some in Hj as [(-> & -> & _)|[Hji Hj]]; [by left|].
        right. split; [|eauto 10]. intros <-.
        assert (drop_file f m !! fname g = Some v) as Hsome by (apply Hdrop; eauto 10).
        rewrite Hfresh in Hsome; done.
    + rewrite Hdrop. split.
      * intros (j & h & Hne & Hj & Hu & Hfn & Hv). exists j, h. by rewrite list_lookup_insert_ne.
      * intros (j & h & Hj & Hu & Hfn & Hv).
        apply list_lookup_insert_Some in Hj as [(-> & -> & _)|[Hji Hj]]; [|eauto 10].
        apply used_true in Hu. congruence.
  - rewrite Hsa, (rep_count _ _ Hr). done.
  - rewrite Hsa, (countb_insert _ _ _ _ _ Hi), (rep_used _ _ Hr). done.
Qed.

Lemma new_file_wf nm d len x n :
  length nm = 64%nat → length d = Z.to_nat 4096 → 0 ≤ len < 4096 → cstr nm n →
  ∀ u, file_wf (mkFile nm d len u x) ∧ fname (mkFile nm d len u x) = n.
Proof.
  intros Hnm Hd Hlen Hn u. assert (cstring nm = n) as Hc by (by apply cstr_cstring).
  split; [|done]. constructor; cbn; try done. intros _. unfold fname. cbn. by rewrite Hc.
Qed.

Lemma fs_create_refines st m name n data d x :
  ramfs_rep st m → cstr name n → cstr data d → (length n < 64)%nat →
  ∃ st', fs_create name data x st = Ok ((spec_create n d x m).1, st') ∧
         ramfs_rep st' (spec_create n d x m).2.
Proof.
  intros Hr Hn Hd Hlen. unfold fs_create, spec_create.
  destruct (fs_find_spec st m name n Hr Hn) as [[-> Hm]|(i & f & -> & Hi & Hu & Hfn & Hm)];
    cbn [mbind res_bind]; rewrite Hm.
  2: { exists st. done. }
  assert (Z.of_nat (size m) = countb used (files st)) as Hsz by apply Hr.
  destruct (find_idx (λ f, f_used f =? 0) (files st)) as [i|] eqn:E.
  - destruct (find_idx_lookup _ _ _ E) as (f & Hi & Hf). bool_hyps.
    pose proof (Forall_lookup_1 _ _ _ _ (rep_wf _ _ Hr) Hi) as Hwf.
    assert (used f = false) as Huf by (unfold used; by rewrite Hf).
    assert ((32 <=? size m)%nat = false) as ->.
    { apply Nat.leb_gt. pose proof (countb_insert used (files st) i f (mkFile [] [] 0 1 0) Hi) as Hins.
      pose proof (countb_bounds used (<[i := mkFile [] [] 0 1 0]> (files st))) as Hb.
      rewrite length_insert, (rep_len _ _ Hr) in Hb. rewrite Huf in Hins. cbn in Hins. lia. }
    rewrite (arr_get_nat _ _ f) by done. cbn.
    destruct (kstrcpy_roundtrip (f_name f) name n) as (nm & -> & Hnm & Hnl);
      [done|rewrite (fw_name _ Hwf); lia|]. cbn.
    destruct (fill_data_spec (f_data f) data d) as (d' & len & -> & Hd' & Hl & Hcl); [apply Hwf|done|]. cbn.
    destruct (new_file_wf nm d' len x n) with (u := 1) as [Hg Hgn];
      [by rewrite Hnl; apply Hwf|done|done|done|].
    eexists. split; [done|]. set (g := mkFile nm d' len 1 x) in *.
    replace (<[n:=(clip d, x)]> m) with (add_file g (drop_file f m)).
    + apply rep_update; [done..| |rewrite Huf; cbn; lia]. intros _. unfold drop_file. rewrite Huf. by rewrite Hgn.
    + unfold add_file, drop_file. rewrite Huf, Hgn. unfold content. cbn. by rewrite Hcl.
  - assert ((32 <=? size m)%nat = true) as ->; [|by exists st].
    apply Nat.leb_le. rewrite find_idx_None in E.
    assert (countb used (files st) = Z.of_nat (length (files st))) as Hall.
    { clear - E. induction (files st) as [|f l IH]; [done|]. cbn [countb length].
      rewrite IH by (intros g Hg; apply E; by right). unfold used at 1.
      rewrite (E f) by (by left). cbn. lia. }
    rewrite (rep_len _ _ Hr) in Hall. lia.
Qed.

Lemma fs_write_refines st m name n data d :
  ramfs_rep st m → cstr name n → cstr data d → (length n < 64)%nat →
  ∃ st', fs_write name data st = Ok ((spec_write n d m).1, st') ∧
         ramfs_rep st' (spec_write n d m).2.
Proof.
  intros Hr Hn Hd Hlen. unfold fs_write, spec_write.
  destruct (fs_find_spec st m name n Hr Hn) as [[-> Hm]|(i & f & -> & Hi & Hu & Hfn & Hm)];
    cbn [mbind res_bind]; rewrite Hm.
  { by apply fs_create_refines. }
  pose proof (Forall_lookup_1 _ _ _ _ (rep_wf _ _ Hr) Hi) as Hwf.
  assert (used f = true) as Huf by (by apply used_true).
  rewrite (arr_get_nat _ _ f) by done. cbn.
  destruct (fill_data_spec (f_data f) data d) as (d' & len & -> & Hd' & Hl & Hcl); [apply Hwf|done|]. cbn.
  destruct (new_file_wf (f_name f) d' len (f_executable f) n) with (u := f_used f) as [Hg Hgn];
    [apply Hwf|done|done|rewrite <- Hfn; by apply Hwf|].
  eexists. split; [done|]. set (g := mkFile _ _ _ _ _) in *.
  assert (used g = true) as Hug by (by apply used_true).
  replace (<[n:=(clip d, f_executable f)]> m) with (add_file g (drop_file f m)).
  - apply rep_update; [done..| |rewrite Huf, Hug; cbn; lia]. intros _. unfold drop_file.
    rewrite Huf, Hgn, Hfn. apply lookup_delete_eq.
  - unfold add_file, drop_file. rewrite Huf, Hug, Hgn, Hfn, insert_delete_eq. unfold content. cbn. by rewrite Hcl.
Qed.

Lemma fs_delete_refines st m name n :
  ramfs_rep st m → cstr name n →
  ∃ st', fs_delete name st = Ok ((spec_delete n m).1, st') ∧ ramfs_rep st' (spec_delete n m).2.
Proof.
  intros Hr Hn. unfold fs_delete, spec_delete.
  destruct (fs_find_spec st m name n Hr Hn) as [[-> Hm]|(i & f & -> & Hi & Hu & Hfn & Hm)];
    cbn [mbind res_bind]; rewrite Hm.
  { by exists st. }
  pose proof (Forall_lookup_1 _ _ _ _ (rep_wf _ _ Hr) Hi) as Hwf.
  assert (used f = true) as Huf by (by apply used_true).
  rewrite (arr_get_nat _ _ f) by done. cbn. eexists. split; [done|]. set (g := mkFile _ _ _ _ _).
  replace (delete n m) with (add_file g (drop_file f m)).
  - apply rep_update; [done|done| |done|rewrite Huf; cbn; lia].
    destruct Hwf as [Hw1 Hw2 Hw3 Hw4]. by constructor.
  - unfold add_file, drop_file. by rewrite Huf, Hfn.
Qed.

(** C16: the file table implements a bounded map from names to contents. For any
    sequence of creations, writes and deletions with C-string arguments and names of at
    most 63 bytes, from the table [fs_init] builds, every call returns what the map
    operation returns (creation fails exactly for an existing name or with 32 files,
    deletion exactly for an absent name), no array is overrun, contents are cut to 4095
    bytes, and afterwards [fs_find] finds exactly the files of the map. *)
Theorem ramfs_refines os st m :
  ramfs_rep st m → Forall op_ok os →
  ∃ st', fs_run os st = Ok ((spec_run os m).1, st') ∧ ramfs_rep st' (spec_run os m).2 ∧
    ∀ n, nonzero n →
      match (spec_run os m).2 !! n with
      | None => fs_find (n ++ [0]) st' = Ok None
      | Some (d, x) => ∃ i f, fs_find (n ++ [0]) st' = Ok (Some i) ∧ files st' !! i = Some f ∧
                              content f = d ∧ f_executable f = x
      end.
Proof.
  intros Hr Hos.
  assert (∃ st', fs_run os st = Ok ((spec_run os m).1, st') ∧ ramfs_rep st' (spec_run os m).2)
    as (st' & Hrun & Hr').
  { revert st m Hr. induction Hos as [|o os Ho Hos IH]; intros st m Hr; cbn; [eauto|].
    assert (∃ st', fs_do o st = Ok ((fs_spec o m).1, st') ∧ ramfs_rep st' (fs_spec o m).2) as (st1 & Hdo & Hr1).
    { destruct o; cbn in *; destruct_and?;
        [apply fs_create_refines|apply fs_write_refines|apply fs_delete_refines]; auto using cstr_arg. }
    destruct (IH st1 _ Hr1) as (st2 & Hrun & Hr2). exists st2. rewrite Hdo. cbn. rewrite Hrun. done. }
  exists st'. split; [done|]. split; [done|]. intros n Hn.
  destruct (fs_find_spec st' _ _ n Hr' (cstr_arg n Hn)) as [[-> ->]|(i & f & -> & Hi & Hu & Hfn & ->)]; [done|]. by exists i, f.
Qed.

Lemma empty_rep : ramfs_rep (mkRamfs (replicate 32 file_zero) 0) ∅.
Proof.
  assert (∀ i f, replicate 32 file_zero !! i = Some f → f = file_zero) as Hz.
  { intros i f [-> _]%lookup_replicate. done. }
  constructor; cbn [files file_count]; [done| | | |done|by vm_compute].
  - apply Forall_replicate. by constructor.
  - intros i j f g ->%Hz _ Hu. by destruct Hu.
  - intros n v. rewrite lookup_empty. split; [done|]. intros (i & f & ->%Hz & Hu & _). by destruct Hu.
Qed.

(** The table after [fs_init] holds its three files. *)
Lemma fs_init_rep :
  ∃ st, fs_init = Ok st ∧
    ramfs_rep st (spec_run [OpCreate (str "readme.txt") (cstring readme_text) 0;
      OpCreate (str "motd.txt") (cstring motd_text) 0; OpCreate (str "hello.sh") (cstring hello_text) 1] ∅).2.
Proof.
  assert (∀ l, forallb (λ c, negb (c =? 0)) l = true → nonzero l) as Hnz.
  { intros l Hl. apply Forall_forall. intros c Hc. rewrite forallb_forall in Hl.
    specialize (Hl c (proj1 (list_elem_of_In _ _) Hc)). by bool_hyps. }
  destruct (fs_create_refines _ _ (lit "readme.txt") (str "readme.txt") readme_text (cstring readme_text) 0 empty_rep) as (s1 & H1 & R1);
    [exists []; split; [done|by apply Hnz]|exists []; split; [done|by apply Hnz]|by apply Nat.ltb_lt|].
  destruct (fs_create_refines s1 _ (lit "motd.txt") (str "motd.txt") motd_text (cstring motd_text) 0 R1) as (s2 & H2 & R2);
    [exists []; split; [done|by apply Hnz]|exists []; split; [done|by apply Hnz]|by apply Nat.ltb_lt|].
  destruct (fs_create_refines s2 _ (lit "hello.sh") (str "hello.sh") hello_text (cstring hello_text) 1 R2) as (s3 & H3 & R3);
    [exists []; split; [done|by apply Hnz]|exists []; split; [done|by apply Hnz]|by apply Nat.ltb_lt|].
  exists s3. split; [|exact R3]. unfold fs_init.
  rewrite H1. cbn [mbind res_bind snd]. rewrite H2. cbn [mbind res_bind snd]. rewrite H3. done.
Qed.

Lemma ramfs_refines_witness :
  ∃ st, fs_run [OpWrite (str "a") (str "one"); OpCreate (str "a") (str "two") 1; OpDelete (str "b")]
          (mkRamfs (replicate 32 file_zero) 0) = Ok ([0; -1; -1], st) ∧
    ∃ i f, fs_find (lit "a") st = Ok (Some i) ∧ files st !! i = Some f ∧ content f = str "one".
Proof.
  destruct (ramfs_refines [OpWrite (str "a") (str "one"); OpCreate (str "a") (str "two") 1; OpDelete (str "b")]
    _ _ empty_rep) as (st & Hrun & _ & Hfind).
  - repeat (constructor; [repeat split; by repeat constructor|]). constructor.
  - exists st. split; [exact Hrun|]. specialize (Hfind (str "a")). vm_compute in Hfind.
    destruct Hfind as (i & f & H1 & H2 & H3 & _); [by repeat constructor|]. exists i, f. auto.
Defined.
