(* ===== verification/Elf.v ===== *)
(** * The program loader (src/src/elf.c)

    The image is a byte object; the segments are copied byte by byte through the
    page tables of [Paging], so the loader's stores go wherever the walk leads. A
    byte lives in the word that [vload] and [vstore] access. [elf_load_disk] finds
    the image on the FAT volume or in the RAM file table, [elf_spawn] makes a task of
    a loaded program in the table of [Sched]. *)

From S2P Require Import Prelude KString Bytes BlockDev Fat12 Ramfs Vga Sched Pmm Paging Vmem.

Definition ELF_MAGIC : Z := 0x464C457F.
Definition ET_EXEC : Z := 2.
Definition EM_386 : Z := 3.
Definition PT_LOAD : Z := 1.
Definition PF_X : Z := 0x1.
Definition PF_W : Z := 0x2.
Definition PF_R : Z := 0x4.
Definition USER_CS : Z := 0x1B.
Definition USER_DS : Z := 0x23.
Definition ELF_USER_STACK_SIZE : Z := 16384.
Definition ELF_USER_STACK_TOP : Z := 0x40000000.
Definition ELF_MAX_SIZE : Z := 128 * 1024.

(** [sizeof] of the packed headers. *)
Definition HDR_SIZE : Z := 52.
Definition PHDR_SIZE : Z := 32.

(** The fields of the packed headers that the loader reads. *)
Record elf32_hdr_t := mkHdr {
  e_magic : Z; e_class : Z; e_type : Z; e_machine : Z; e_entry : Z; e_phoff : Z;
  e_phentsize : Z; e_phnum : Z }.
Record elf32_phdr_t := mkPhdr {
  p_type : Z; p_offset : Z; p_vaddr : Z; p_filesz : Z; p_memsz : Z; p_flags : Z }.
Record elf_load_result_t := mkResult { r_entry : Z; load_base : Z; load_end : Z; error : Z }.

Definition elf_hdr (data : list Z) : res elf32_hdr_t :=
  magic ← ld32 0 data; cls ← ld8 4 data; ty ← ld16 16 data; mach ← ld16 18 data;
  entry ← ld32 24 data; phoff ← ld32 28 data; phentsize ← ld16 42 data; phnum ← ld16 44 data;
  Ok (mkHdr magic cls ty mach entry phoff phentsize phnum).
Definition elf_phdr (data : list Z) (off : Z) : res elf32_phdr_t :=
  ty ← ld32 off data; offset ← ld32 (off + 4) data; vaddr ← ld32 (off + 8) data;
  filesz ← ld32 (off + 16) data; memsz ← ld32 (off + 20) data; flags ← ld32 (off + 24) data;
  Ok (mkPhdr ty offset vaddr filesz memsz flags).

Definition elf_validate (h : elf32_hdr_t) : Z :=
  if negb (e_magic h =? ELF_MAGIC) then -1
  else if negb (e_class h =? 1) then -2
  else if negb (e_machine h =? EM_386) then -2
  else if negb (e_type h =? ET_EXEC) then -2
  else if e_phnum h =? 0 then -2
  else 0.

(** ** Byte accesses to memory *)
Definition get_byte (w k : Z) : Z := w / 256 ^ k mod 256.
Definition set_byte (w k b : Z) : Z := w + (b - get_byte w k) * 256 ^ k.
Definition word_of (v : Z) : Z := v - v mod 4.

Definition vstore8 (v b : Z) : M vm unit :=
  w ← vload (word_of v); vstore (word_of v) (set_byte w (v mod 4) b).
Fixpoint vset8 (v b : Z) (n : nat) : M vm unit :=
  match n with
  | O => mret tt
  | S n' => vstore8 v b ;; vset8 (u32 (v + 1)) b n'
  end.
Fixpoint vcopy8 (v : Z) (src : list Z) (n : nat) {struct n} : M vm unit :=
  match n with
  | O => mret tt
  | S n' =>
      match src with
      | [] => lift Fault
      | b :: src' => vstore8 v b ;; vcopy8 (u32 (v + 1)) src' n'
      end
  end.

Section elf.
Variable page_dir : Z.

(** The loop over [n] pages from [va]; [false] when no frame is left. *)
Fixpoint map_pages (n : nat) (va flags : Z) : M vm bool :=
  match n with
  | O => mret true
  | S n' =>
      mapped ← paging_is_mapped page_dir va;
      ok ← (if (mapped : bool) then mret true
            else
              phys ← palloc;
              if phys =? 0 then mret false
              else kmemset_page phys ;; paging_map page_dir va phys flags ;; mret true);
      if (ok : bool) then map_pages n' (va + PAGE_SIZE) flags else mret false
  end.

(** How one turn of the loop over the program headers ends. *)
Inductive turn := Next (r : elf_load_result_t) | Return (r : elf_load_result_t).

Definition with_error (r : elf_load_result_t) (e : Z) : elf_load_result_t :=
  mkResult (r_entry r) (load_base r) (load_end r) e.

Definition vstart (ph : elf32_phdr_t) : Z := page_base (p_vaddr ph).
Definition vend (ph : elf32_phdr_t) : Z := PAGE_ALIGN (u32 (p_vaddr ph + p_memsz ph)).

(** What remains of a turn once the segment is accepted. *)
Definition load_segment (data : list Z) (bufsz : Z) (ph : elf32_phdr_t) (r : elf_load_result_t) : M vm turn :=
  ok ← map_pages (Z.to_nat ((vend ph - vstart ph) / PAGE_SIZE)) (vstart ph) (Z.lor PAGE_USER PAGE_WRITE);
  if negb (ok : bool) then mret (Return (with_error r (-3)))
  else
    (if 0 <? p_filesz ph then
       let src_off := p_offset ph in
       let copy := if bufsz <? u32 (src_off + p_filesz ph) then u32 (bufsz - src_off) else p_filesz ph in
       src ← lift (from src_off data);
       vcopy8 (p_vaddr ph) src (Z.to_nat copy)
     else mret tt) ;;
    (if p_filesz ph <? p_memsz ph then
       vset8 (u32 (p_vaddr ph + p_filesz ph)) 0 (Z.to_nat (p_memsz ph - p_filesz ph))
     else mret tt) ;;
    let base := if p_vaddr ph <? load_base r then p_vaddr ph else load_base r in
    let e := u32 (p_vaddr ph + p_memsz ph) in
    mret (Next (mkResult (r_entry r) base (if load_end r <? e then e else load_end r) (error r))).

Definition load_turn (data : list Z) (bufsz : Z) (h : elf32_hdr_t) (i : Z) (r : elf_load_result_t) : M vm turn :=
  let phoff := u32 (e_phoff h + i * e_phentsize h) in
  if bufsz <? u32 (phoff + PHDR_SIZE) then mret (Next r)
  else
    ph ← lift (elf_phdr data phoff);
    if negb (p_type ph =? PT_LOAD) then mret (Next r)
    else if p_memsz ph =? 0 then mret (Next r)
    else if p_vaddr ph <? 0x100000 then mret (Next r)
    else if 0xC0000000 <=? p_vaddr ph then mret (Next r)
    else if (0x100000 <=? p_vaddr ph) && (p_vaddr ph <? 0x500000) then mret (Return (with_error r (-2)))
    else load_segment data bufsz ph r.

(** [n] program headers are left. *)
Fixpoint load_loop (n : nat) (data : list Z) (bufsz : Z) (h : elf32_hdr_t) (i : Z) (r : elf_load_result_t)
    : M vm turn :=
  match n with
  | O => mret (Next r)
  | S n' =>
      t ← load_turn data bufsz h i r;
      match t with
      | Next r' => load_loop n' data bufsz h (i + 1) r'
      | Return r' => mret (Return r')
      end
  end.

Definition elf_load_mem (data : list Z) (bufsz : Z) : M vm elf_load_result_t :=
  if bufsz <? HDR_SIZE then mret (mkResult 0 0 0 (-1))
  else
    h ← lift (elf_hdr data);
    if elf_validate h <? 0 then mret (mkResult 0 0 0 (-2))
    else
      t ← load_loop (Z.to_nat (e_phnum h)) data bufsz h 0 (mkResult (e_entry h) 0xFFFFFFFF 0 0);
      match t with
      | Return r => mret r
      | Next r => mret (if load_base r =? 0xFFFFFFFF then with_error r (-2) else r)
      end.

(** ** Images on disk, and tasks *)
Section loader.
Context {D : Type} `{Disk D} {K : Type} `{Allocator K}.

(** [elf_load_buf] and the components the loader works on. *)
Record loader := mkLoader {
  l_vm : vm; l_fat : fat12 D; l_ram : ramfs; l_sched : sched K; elf_load_buf : list Z }.

Definition on_vm {A} : M vm A → M loader A :=
  zoom l_vm (λ v s, mkLoader v (l_fat s) (l_ram s) (l_sched s) (elf_load_buf s)).
Definition on_fat {A} : M (fat12 D) A → M loader A :=
  zoom l_fat (λ v s, mkLoader (l_vm s) v (l_ram s) (l_sched s) (elf_load_buf s)).
Definition on_sched {A} : M (sched K) A → M loader A :=
  zoom l_sched (λ v s, mkLoader (l_vm s) (l_fat s) (l_ram s) v (elf_load_buf s)).
Definition set_load_buf (b : list Z) (s : loader) : loader :=
  mkLoader (l_vm s) (l_fat s) (l_ram s) (l_sched s) b.

Definition elf_load_disk (filename : list Z) : M loader elf_load_result_t :=
  let none := mkResult 0 0 0 (-4) in
  s ← get;
  if negb (g_mounted (l_fat s)) then mret none
  else
    l ← on_fat (fat12_read filename ELF_MAX_SIZE);
    let n := match l with Some bytes => Z.of_nat (length bytes) | None => -1 end in
    (match l with
     | Some bytes => b ← lift (kmemcpy (elf_load_buf s) bytes (length bytes)); modify (set_load_buf b)
     | None => mret tt
     end) ;;
    n' ← (if n <=? 0 then
            mf ← lift (fs_find filename (l_ram s));
            match mf with
            | None => mret None
            | Some i =>
                f ← lift (arr_get (files (l_ram s)) (Z.of_nat i));
                let n := if ELF_MAX_SIZE <? i32 (f_size f) then ELF_MAX_SIZE else i32 (f_size f) in
                s ← get;
                b ← lift (kmemcpy (elf_load_buf s) (f_data f) (Z.to_nat (u32 n)));
                modify (set_load_buf b) ;; mret (Some n)
            end
          else mret (Some n));
    match n' with
    | None => mret none
    | Some n => s ← get; on_vm (elf_load_mem (elf_load_buf s) (u32 n))
    end.

(** The words [elf_spawn] pushes for the first switch to the task. *)
Definition user_frame (entry : Z) : list Z :=
  [USER_DS; ELF_USER_STACK_TOP - 4; 0x202; USER_CS; entry; 0; 0; 0; 0; 0; 0; 0; 0; USER_DS; 0; 0].

Definition set_kstack (k sp : Z) (t : task_t) : task_t :=
  mkTask sp k 8192 (Sched.state t) (Sched.pid t) (Sched.parent_pid t) (Sched.exit_code t) (Sched.name t)
         (Sched.ticks t) (Sched.sleep_until t) (Sched.kum_level t).

(** [placeholder] is the address of [elf_placeholder]. *)
Definition elf_spawn (placeholder : Z) (name : list Z) (r : elf_load_result_t) : M loader Z :=
  if negb (error r =? 0) then mret (-1)
  else
    ok ← on_vm (map_pages (Z.to_nat (ELF_USER_STACK_SIZE / PAGE_SIZE))
                  (ELF_USER_STACK_TOP - ELF_USER_STACK_SIZE) (Z.lor PAGE_WRITE PAGE_USER));
    if negb (ok : bool) then mret (-1)
    else
      s ← get;
      a ← lift (alloc 8192 (heap (l_sched s)));
      let '(kstack, h) := a in
      on_sched (modify (Sched.set_heap h)) ;;
      if kstack =? 0 then mret (-1)
      else
        s ← get;
        let '(sp, m) := push_all (kstack + 8192) (user_frame (r_entry r)) (kmem (l_sched s)) in
        on_sched (modify (set_kmem m)) ;;
        pid ← on_sched (sched_spawn name placeholder 0);
        s ← get;
        if pid <? 0 then
          h ← lift (release kstack (heap (l_sched s)));
          on_sched (modify (Sched.set_heap h)) ;; mret (-1)
        else
          (match sched_get_task pid (l_sched s) with
           | None => mret tt
           | Some i =>
               t ← on_sched (rd_task (Z.of_nat i));
               (if stack t =? 0 then mret tt
                else h ← lift (release (stack t) (heap (l_sched s))); on_sched (modify (Sched.set_heap h))) ;;
               on_sched (upd (Z.of_nat i) (set_kstack kstack sp))
           end) ;;
          mret pid.
End loader.

(** ** Printing an image *)
Definition print_phdr (ph : elf32_phdr_t) : list con :=
  [CPuts (lit "  LOAD  vaddr=0x"); CHex (p_vaddr ph); CPuts (lit "  filesz="); CDec (p_filesz ph);
   CPuts (lit "  memsz="); CDec (p_memsz ph); CPuts (lit "  flags=")] ++
  (if Z.land (p_flags ph) PF_R =? 0 then [] else [CPutc 82]) ++
  (if Z.land (p_flags ph) PF_W =? 0 then [] else [CPutc 87]) ++
  (if Z.land (p_flags ph) PF_X =? 0 then [] else [CPutc 88]) ++ [CPutc 10].
Fixpoint print_phdrs (n : nat) (data : list Z) (bufsz : Z) (h : elf32_hdr_t) (i : Z) : res (list con) :=
  match n with
  | O => Ok []
  | S n' =>
      let off := u32 (e_phoff h + i * e_phentsize h) in
      if bufsz <? u32 (off + PHDR_SIZE) then Ok []
      else
        ph ← elf_phdr data off;
        rest ← print_phdrs n' data bufsz h (i + 1);
        Ok ((if p_type ph =? PT_LOAD then print_phdr ph else []) ++ rest)
  end.
Definition elf_print_info (data : list Z) (bufsz : Z) : res (list con) :=
  if bufsz <? HDR_SIZE then Ok [CPuts (str "  Buffer too small for ELF header" ++ [10; 0])]
  else
    h ← elf_hdr data;
    if elf_validate h <? 0 then Ok [CPuts (str "  Not a valid x86 ELF32 executable" ++ [10; 0])]
    else
      segs ← print_phdrs (Z.to_nat (e_phnum h)) data bufsz h 0;
      Ok ([CColor VGA_YELLOW VGA_BLACK; CPuts ([10] ++ str "  === ELF Info ===" ++ [10; 10; 0]);
           CColor VGA_WHITE VGA_BLACK; CPuts (str "  Type:     ELF32 x86 Executable" ++ [10; 0]);
           CPuts (lit "  Entry:    0x"); CHex (e_entry h); CPutc 10;
           CPuts (lit "  Segments: "); CDec (e_phnum h); CPutc 10] ++ segs ++ [CPutc 10]).

End elf.

(** * Proofs *)

(** ** Bytes of words *)
Lemma get_set_byte w k j b :
  0 ≤ k → 0 ≤ j → is_byte b → get_byte (set_byte w k b) j = if decide (j = k) then b else get_byte w j.
Proof.
  intros Hk Hj Hb. unfold set_byte, get_byte. set (P := 256 ^ k).
  assert (0 < P) as HP by (apply Z.pow_pos_nonneg; lia). pose proof (Z.div_mod (w / P) 256 ltac:(lia)) as Hd.
  case_decide as E; [subst j; fold P|].
  - rewrite Z.div_add by lia. unfold is_byte in Hb.
    replace (w / P + (b - (w / P) mod 256)) with (b + w / P / 256 * 256) by lia.
    rewrite Z_mod_plus_full. apply Z.mod_small. lia.
  - destruct (Z.lt_ge_cases j k) as [Hlt|Hge].
    + replace (P) with (256 * 256 ^ (k - j - 1) * 256 ^ j); cycle 1.
      { unfold P. rewrite <- Z.pow_succ_r, <- Z.pow_add_r by lia. f_equal. lia. }
      rewrite !Z.mul_assoc, Z.div_add by (apply Z.pow_nonzero; lia).
      set (c := b - _). replace (c * 256 * 256 ^ (k - j - 1)) with (c * 256 ^ (k - j - 1) * 256) by lia.
      apply Z_mod_plus_full.
    + replace (256 ^ j) with (P * (256 * 256 ^ (j - k - 1))); cycle 1.
      { unfold P. rewrite <- Z.pow_succ_r, <- Z.pow_add_r by lia. f_equal. lia. }
      rewrite <- !Z.div_div by (try apply Z.pow_nonzero; try apply Z.pow_pos_nonneg; lia).
      rewrite Z.div_add by lia. do 2 f_equal. unfold is_byte in Hb.
      replace (w / P + (b - (w / P) mod 256)) with (b + w / P / 256 * 256) by lia.
      rewrite Z.div_add, (Z.div_small b 256) by lia. lia.
Qed.

(** ** What user memory shows *)

(** The byte at [v], if a page is there. *)
Definition view (s : vm) (v : Z) : option Z :=
  (λ p, get_byte (mread (mem s) p) (v mod 4)) <$> xlat s (word_of v).

Section proofs.
Variable page_dir : Z.

Lemma word_split v : 0 ≤ v →
  word_of v / 4096 = v / 4096 ∧ word_of v mod 4096 = 4 * (v mod 4096 / 4) ∧
  0 ≤ v mod 4096 / 4 < 1024 ∧ word_of v = v / 4096 * 4096 + 4 * (v mod 4096 / 4).
Proof.
  intros Hv. unfold word_of. pose proof (Z.div_mod v 4096 ltac:(lia)). pose proof (Z.mod_pos_bound v 4096 ltac:(lia)).
  pose proof (Z.div_mod (v mod 4096) 4 ltac:(lia)). pose proof (Z.mod_pos_bound (v mod 4096) 4 ltac:(lia)).
  assert (v mod 4 = (v mod 4096) mod 4) as Hm.
  { replace v with (v mod 4096 + (v / 4096 * 1024) * 4) at 1 by lia. apply Z_mod_plus_full. }
  assert (v - v mod 4 = v / 4096 * 4096 + 4 * (v mod 4096 / 4)) as E by lia.
  assert (0 ≤ v mod 4096 / 4 < 1024) by (split; [apply Z.div_pos; lia|apply Z.div_lt_upper_bound; lia]).
  split; [|split; [|split]]; try done.
  - rewrite E. symmetry. apply (Z.div_unique _ 4096 _ (4 * (v mod 4096 / 4))); lia.
  - rewrite E. symmetry. apply (Z.mod_unique _ 4096 (v / 4096)); lia.
Qed.

Lemma view_eq s v : cr3 s = page_dir → 0 ≤ v →
  view s v = (λ e, get_byte (mread (mem s) (page_base e + 4 * (v mod 4096 / 4))) (v mod 4)) <$>
             mapping page_dir (mem s) (v / 4096).
Proof.
  intros Hc Hv. destruct (word_split v Hv) as (H1 & H2 & _). unfold view.
  rewrite (xlat_mapping page_dir) by done. rewrite H1, H2. by destruct (mapping _ _ _).
Qed.

(** Frames that the page tables do not show above the identity mapping. *)
Definition unmapped (s : vm) (p : Z) : Prop :=
  ∀ vp e, 4096 ≤ vp < 2 ^ 20 → mapping page_dir (mem s) vp = Some e → page_base e ≠ p.

(** [s'] comes from [s] by taking at most [n] frames and by changing mapped user
    pages: the kernel's frames keep their words and counts. *)
Record loads (n : Z) (s s' : vm) : Prop := {
  l_rest : s' = set_mem (mem s') (set_pm (pm s') s);
  l_keeps p i : (4096 | p) → 0 ≤ p → ¬ spage page_dir (mem s) p → rc s p ≠ 0 → unmapped s p → 0 ≤ i < 1024 →
    mread (mem s') (p + 4 * i) = mread (mem s) (p + 4 * i);
  l_spage p : spage page_dir (mem s') p → spage page_dir (mem s) p ∨ rc s p = 0;
  l_rc b : (4096 | b) → 0 ≤ b → rc s b ≠ 0 → rc s' b = rc s b;
  l_map vp : 4096 ≤ vp < 2 ^ 20 → mapping page_dir (mem s') vp = mapping page_dir (mem s) vp ∨
    (mapping page_dir (mem s) vp = None ∧ ∀ e, mapping page_dir (mem s') vp = Some e → rc s (page_base e) = 0);
  l_total : pmm_total_frames (pm s') = pmm_total_frames (pm s);
  l_used : pmm_used_frames (pm s') ≤ pmm_used_frames (pm s) + n
}.

Lemma loads_refl n s : 0 ≤ n → loads n s s.
Proof. split; try done; [by destruct s|by left|by left|lia]. Qed.

Lemma loads_trans n1 n2 s1 s2 s3 :
  vm_wf page_dir s3 → loads n1 s1 s2 → loads n2 s2 s3 → loads (n1 + n2) s1 s3.
Proof.
  intros Hw3 [R1 K1 P1 C1 M1 T1 U1] [R2 K2 P2 C2 M2 T2 U2]. split; try lia.
  - rewrite R2, R1. done.
  - intros p i Hp H0 Hns Hr Hu Hi. rewrite K2; try done; [by apply K1|..].
    + intros Hs. by destruct (P1 p Hs).
    + by rewrite C1.
    + intros vp e Hvp He Hc. destruct (M1 vp Hvp) as [E|[_ E]]; [rewrite E in He; by eapply Hu|].
      by rewrite <- Hc, (E e He) in Hr.
  - intros p Hp. pose proof (spage_aligned _ _ _ (w_tables _ _ Hw3) Hp) as Ha.
    pose proof (spage_nonneg _ _ _ (w_tables _ _ Hw3) Hp).
    destruct (P2 p Hp) as [H2|H2]; [by apply P1|].
    destruct (decide (rc s1 p = 0)) as [|Hne]; [by right|]. by rewrite C1 in H2.
  - intros b Hb H0 Hr. rewrite C2; [by apply C1|done|done|by rewrite C1].
  - intros vp Hvp. destruct (M2 vp Hvp) as [E2|[E2 F2]].
    + rewrite E2. destruct (M1 vp Hvp) as [E1|[E1 F1]]; [by left|by right].
    + destruct (M1 vp Hvp) as [E1|[E1 F1]]; right; (split; [congruence|]); intros e He;
        destruct (mapped_data page_dir s3 vp e Hw3 Hvp He) as (_ & _ & _ & Hr);
        (destruct (decide (rc s1 (page_base e) = 0)) as [|Hne]; [done|]);
        rewrite <- (F2 e He); symmetry; apply C1; [apply page_base_aligned|lia|done|apply page_base_aligned|lia|done].
Qed.
Lemma addr_eq u v : 0 ≤ u → 0 ≤ v →
  u / 4096 = v / 4096 → u mod 4096 / 4 = v mod 4096 / 4 → u mod 4 = v mod 4 → u = v.
Proof.
  intros Hu Hv E1 E2 E3. destruct (word_split u Hu) as (_ & _ & _ & Eu), (word_split v Hv) as (_ & _ & _ & Ev).
  unfold word_of in *. lia.
Qed.

Lemma view_other s s' u : vm_wf page_dir s → vm_wf page_dir s' → 0 ≤ u < 2 ^ 32 →
  mapping page_dir (mem s') (u / 4096) = mapping page_dir (mem s) (u / 4096) →
  (∀ e, mapping page_dir (mem s) (u / 4096) = Some e → ∀ i, 0 ≤ i < 1024 →
     mread (mem s') (page_base e + 4 * i) = mread (mem s) (page_base e + 4 * i)) →
  view s' u = view s u.
Proof.
  intros Hw Hw' Hu Hm Hk. rewrite !view_eq by (exact (w_cr3 _ _ Hw) || exact (w_cr3 _ _ Hw') || lia). rewrite Hm.
  destruct (mapping page_dir (mem s) (u / 4096)) as [e|]; [|done]. cbn.
  destruct (word_split u) as (_ & _ & Hi & _); [lia|]. by rewrite Hk.
Qed.

(** A byte stored to a mapped user page is the only byte that changes. *)
Lemma vstore8_spec s v e b :
  vm_wf page_dir s → 2 ^ 24 ≤ v < 2 ^ 32 → mapping page_dir (mem s) (v / 4096) = Some e → is_byte b →
  ∃ s', vstore8 v b s = Ok (tt, s') ∧ vm_wf page_dir s' ∧ loads 0 s s' ∧
    (∀ vp, 0 ≤ vp < 2 ^ 20 → mapping page_dir (mem s') vp = mapping page_dir (mem s) vp) ∧
    (∀ u, 2 ^ 24 ≤ u < 2 ^ 32 → view s' u = if decide (u = v) then Some b else view s u).
Proof.
  intros Hw Hv He Hb. pose proof (addr_split v Hv) as (_ & _ & _ & _ & Hvp & _).
  destruct (word_split v) as (E1 & E2 & Hi & _); [lia|].
  destruct (mapped_data page_dir s _ e Hw Hvp He) as (Hns & Hr & Hman & Hlo).
  pose proof (page_base_aligned e) as Hal. set (i := v mod 4096 / 4) in *.
  set (w := mread (mem s) (page_base e + 4 * i)).
  assert (xlat s (word_of v) = Some (page_base e + 4 * i)) as Hx.
  { rewrite (xlat_mapping page_dir) by apply Hw. rewrite E1, E2, He. done. }
  set (m' := <[page_base e + 4 * i := set_byte w (v mod 4) b]> (mem s)).
  destruct (tables_agree page_dir (mem s) m') as (Ht & Hm & Hp); [apply Hw|..].
  { apply data_store_agree; [apply Hw|done|done]. }
  destruct (vm_wf_agree page_dir s m' Hw Ht Hm Hp) as [Hw' _].
  assert (∀ q j, (4096 | q) → q ≠ page_base e → 0 ≤ j < 1024 → mread m' (q + 4 * j) = mread (mem s) (q + 4 * j)) as Hoth.
  { intros q j Hq Hne Hj. unfold m'. rewrite mread_insert, decide_False; [done|]. by apply aligned_word_ne. }
  exists (set_mem m' s). split; [|split; [done|split; [|split; [done|]]]].
  - unfold vstore8, mbind, M_bind, vload, vstore. rewrite Hx. fold w. by rewrite Hx.
  - split; try done; [|by intros p Hq%(spage_agree page_dir (mem s)); [left|]|intros vp Hvp'; left; apply Hm; lia|cbn; lia].
    intros p j Hp' H0 _ _ Hu Hj. apply Hoth; [done| |done]. intros ->. by eapply Hu.
  - intros u Hu. assert (vm_wf page_dir (set_mem m' s)) as Hw2 by done.
    pose proof (addr_split u Hu) as (_ & _ & _ & _ & Hup & _).
    destruct (decide (u / 4096 = v / 4096)) as [Epg|Epg].
    + rewrite !view_eq by (exact (w_cr3 _ _ Hw) || exact (w_cr3 _ _ Hw2) || lia). cbn [mem set_mem]. rewrite Hm, Epg, He by lia. cbn.
      unfold m'. rewrite mread_insert. destruct (word_split u) as (_ & _ & Hj & _); [lia|].
      destruct (decide (page_base e + 4 * i = page_base e + 4 * (u mod 4096 / 4))) as [Ei|Ei].
      * rewrite get_set_byte by (done || apply Z.mod_pos_bound; lia).
        assert (u mod 4096 / 4 = i) as Eu by lia. rewrite Eu. fold w.
        repeat case_decide; subst; try done. exfalso. match goal with Hn : u ≠ v |- _ => apply Hn end. apply addr_eq; (done || lia).
      * rewrite decide_False; [done|]. intros ->. by apply Ei.
    + rewrite decide_False by (intros ->; done).
      apply view_other; try done; [lia|apply Hm; lia|]. intros f Hf j Hj. apply Hoth; [apply page_base_aligned| |done].
      intros Hc. apply Epg. by eapply (w_inj _ _ Hw).
Qed.

(** [n] bytes stored from [v] on. *)
Definition stored (v : Z) (l : list Z) (m : Z → option Z) : Z → option Z := λ u,
  if decide (v ≤ u < v + Z.of_nat (length l)) then l !! Z.to_nat (u - v) else m u.

Lemma stored_cons v b l m m' u :
  (∀ u, m' u = if decide (u = v) then Some b else m u) → stored (v + 1) l m' u = stored v (b :: l) m u.
Proof.
  intros Hm. unfold stored. cbn [length]. destruct (decide (u = v)) as [->|Hne].
  - rewrite decide_False, decide_True by lia. rewrite Hm, decide_True by done. by rewrite Z.sub_diag.
  - destruct (decide (v + 1 ≤ u < v + 1 + Z.of_nat (length l))).
    + rewrite decide_True by lia. by replace (Z.to_nat (u - v)) with (S (Z.to_nat (u - (v + 1)))) by lia.
    + rewrite decide_False by lia. by rewrite Hm, decide_False.
Qed.
Lemma vset8_copy n v b s : vset8 v b n s = vcopy8 v (replicate n b) n s.
Proof.
  revert v s. induction n as [|n IH]; intros v s; [done|]. cbn. unfold mbind, M_bind.
  destruct (vstore8 v b s) as [[[] s']| |]; [apply IH|done..].
Qed.

(** Copying into mapped user pages changes exactly the bytes of the range. *)
Lemma vcopy8_spec n src v s :
  vm_wf page_dir s → 2 ^ 24 ≤ v → v + Z.of_nat n ≤ 2 ^ 32 → (n ≤ length src)%nat → Forall is_byte src →
  (∀ u, v ≤ u < v + Z.of_nat n → is_Some (mapping page_dir (mem s) (u / 4096))) →
  ∃ s', vcopy8 v src n s = Ok (tt, s') ∧ vm_wf page_dir s' ∧ loads 0 s s' ∧
    (∀ vp, 0 ≤ vp < 2 ^ 20 → mapping page_dir (mem s') vp = mapping page_dir (mem s) vp) ∧
    (∀ u, 2 ^ 24 ≤ u < 2 ^ 32 → view s' u = stored v (take n src) (view s) u).
Proof.
  revert src v s. induction n as [|n IH]; intros src v s Hw Hv Hhi Hlen Hb Hmap.
  { exists s. split; [done|]. split; [done|]. split; [by apply loads_refl|]. split; [done|].
    intros u _. unfold stored. rewrite take_0. cbn [length]. by rewrite decide_False by lia. }
  destruct src as [|b src]; [cbn in Hlen; lia|]. apply Forall_cons in Hb as [Hb Hbs].
  destruct (Hmap v ltac:(lia)) as [e He].
  destruct (vstore8_spec s v e b Hw ltac:(lia) He Hb) as (s1 & H1 & Hw1 & Hl1 & Hm1 & Hv1).
  destruct (IH src (v + 1) s1) as (s2 & H2 & Hw2 & Hl2 & Hm2 & Hv2); try done; try (cbn in Hlen; lia).
  { intros u Hu. rewrite Hm1 by (apply vpage_range; lia). apply Hmap. lia. }
  exists s2. split; [|split; [done|split; [by apply (loads_trans 0 0 _ s1)|split]]].
  - cbn. unfold mbind, M_bind. rewrite H1. destruct n as [|n]; [done|].
    by rewrite u32_small by lia.
  - intros vp Hvp. rewrite Hm2 by done. by apply Hm1.
  - intros u Hu. rewrite Hv2 by done. cbn [take]. rewrite <- (stored_cons v b _ (view s)
      (λ u, if decide (u = v) then Some b else view s u)) by done.
    unfold stored. case_decide; [done|]. by apply Hv1.
Qed.

Lemma view_None s u : vm_wf page_dir s → 0 ≤ u → view s u = None ↔ mapping page_dir (mem s) (u / 4096) = None.
Proof. intros Hw Hu. rewrite view_eq by (exact (w_cr3 _ _ Hw) || lia). by rewrite fmap_None. Qed.

(** One missing page: a cleared frame is mapped. *)
Lemma map_page_spec s v flags :
  vm_wf page_dir s → 2 ^ 24 ≤ v < 2 ^ 32 → 0 ≤ flags < 4096 → mapping page_dir (mem s) (v / 4096) = None →
  pmm_used_frames (pm s) + 2 ≤ low_total s →
  ∃ a s1 s2 s3, palloc s = Ok (a, s1) ∧ a ≠ 0 ∧ kmemset_page a s1 = Ok (tt, s2) ∧
    paging_map page_dir v a flags s2 = Ok (tt, s3) ∧ vm_wf page_dir s3 ∧ loads 2 s s3 ∧
    (∀ vp, 0 ≤ vp < 2 ^ 20 → mapping page_dir (mem s3) vp =
       if decide (vp = v / 4096) then Some (a + Z.lor 1 flags) else mapping page_dir (mem s) vp) ∧
    (∀ u, 2 ^ 24 ≤ u < 2 ^ 32 → view s3 u = if decide (u / 4096 = v / 4096) then Some 0 else view s u).
Proof.
  intros Hw Hv Hf Hnone Hfree.
  destruct (palloc_spec page_dir s Hw ltac:(lia)) as
    [[_ Hall]|(a & p1 & Ha & Hne & Hz & H1 & Hw1 & Ho1 & Hoth & Hmm & Hu1 & Ht1)].
  { exfalso. eapply (free_frame_exists page_dir s Hw); [lia|done]. }
  destruct (store_frame_wf page_dir (set_pm p1 s) a (replicate 1024 0) Hw1 Ho1) as
    (m2 & Hset & Hw2 & Hm2 & Hp2 & Hwd2 & Hoth2 & Ho2); [apply length_replicate|].
  set (s2 := set_mem m2 (set_pm p1 s)) in *. specialize (Ho2 a Ho1).
  destruct (paging_map_spec page_dir s2 v a flags) as [[_ Hall]|(s3 & Hrun & Hw3 & He3 & Hm3 & _)]; try done.
  { cbn [s2 pm set_mem set_pm]. lia. }
  { exfalso. eapply (free_frame_exists page_dir _ Hw2); [cbn; lia|done]. }
  pose proof (addr_split v Hv) as (_ & _ & _ & _ & Hvp & _).
  pose proof (o_al _ _ _ Ho2) as Haa. pose proof (o_lo _ _ _ Ho2) as Hlo.
  destruct (lor_flags2 a 1 flags) as [_ Hfl]; [done|lia|done|].
  assert (page_base (a + Z.lor 1 flags) = a) as Hb by (by apply page_base_flags).
  destruct He3 as [R3 K3 P3 C3 _ T3 U3]. cbn in U3, T3.
  assert (∀ q i, (4096 | q) → 0 ≤ q → ¬ spage page_dir (mem s) q → rc s q ≠ 0 → 0 ≤ i < 1024 →
    mread (mem s3) (q + 4 * i) = mread (mem s) (q + 4 * i)) as Hkeep.
  { intros q i Hq H0 Hnq Hrq Hi. assert (q ≠ a) by (by intros ->). rewrite K3; try done.
    - cbn. by rewrite Hoth2.
    - cbn. by rewrite (spage_agree page_dir (mem s) m2).
    - unfold rc. cbn. by rewrite Hoth. }
  assert (∀ vp, 0 ≤ vp < 2 ^ 20 → mapping page_dir (mem s3) vp =
       if decide (vp = v / 4096) then Some (a + Z.lor 1 flags) else mapping page_dir (mem s) vp) as Hm.
  { intros vp Hvp'. rewrite Hm3 by done. case_decide; [done|]. by apply Hm2. }
  exists a, (set_pm p1 s), s2, s3. do 5 (split; [done|]). split; [|split; [done|]].
  - split; try done.
    + intros q i Hq H0 Hnq Hrq _. by apply Hkeep.
    + intros q Hq. pose proof (spage_aligned _ _ _ (w_tables _ _ Hw3) Hq) as Hqa.
      pose proof (spage_nonneg _ _ _ (w_tables _ _ Hw3) Hq).
      destruct (P3 q Hq) as [Hs|Hq0]; [left; by apply (spage_agree page_dir (mem s) m2) in Hs|right].
      destruct (decide (q = a)) as [->|]; [done|]. unfold rc in Hq0. cbn in Hq0. by rewrite Hoth in Hq0.
    + intros b Hb' H0 Hrb. assert (b ≠ a) by (by intros ->). rewrite C3; try done; unfold rc; cbn; by rewrite Hoth.
    + intros vp Hvp'. rewrite Hm by lia. case_decide as E; [right|by left]. rewrite E.
      split; [done|]. intros e [= <-]. by rewrite Hb.
    + lia.
    + lia.
  - intros u Hu. pose proof (addr_split u Hu) as (_ & _ & _ & _ & Hup & _). case_decide as E.
    + rewrite view_eq by (exact (w_cr3 _ _ Hw3) || lia). rewrite Hm, E, decide_True by lia. cbn. rewrite Hb.
      destruct (word_split u) as (_ & _ & Hj & _); [lia|]. rewrite K3; try done; [|lia|..].
      * cbn [mem set_mem s2]. rewrite Hwd2 by done. rewrite lookup_total_replicate_2 by lia. f_equal.
      * apply (own_frame_data page_dir s2 a Hw2 Ho2).
      * apply (o_rc _ _ _ Ho2).
    + apply view_other; try done; [lia|rewrite Hm by lia; by rewrite decide_False|].
      intros e He i Hi. destruct (mapped_data page_dir s _ e Hw Hup He) as (? & ? & _ & ?).
      apply Hkeep; try done; [apply page_base_aligned|lia].
Qed.
Lemma loads_mapped n s s' vp e : loads n s s' → 4096 ≤ vp < 2 ^ 20 →
  mapping page_dir (mem s) vp = Some e → mapping page_dir (mem s') vp = Some e.
Proof. intros Hl Hvp He. destruct (l_map _ _ _ Hl vp Hvp) as [->|[E _]]; congruence. Qed.

(** Every page of the range is mapped; the new ones read as zero. *)
Lemma map_pages_spec n va flags s :
  vm_wf page_dir s → (4096 | va) → 2 ^ 24 ≤ va → va + 4096 * Z.of_nat n ≤ 2 ^ 32 → 0 ≤ flags < 4096 →
  pmm_used_frames (pm s) + 2 * Z.of_nat n ≤ low_total s →
  ∃ s', map_pages page_dir n va flags s = Ok (true, s') ∧ vm_wf page_dir s' ∧ loads (2 * Z.of_nat n) s s' ∧
    (∀ u, va ≤ u < va + 4096 * Z.of_nat n → is_Some (mapping page_dir (mem s') (u / 4096))) ∧
    (∀ u, 2 ^ 24 ≤ u < 2 ^ 32 → view s' u =
       if decide (va ≤ u < va + 4096 * Z.of_nat n) then Some (default 0 (view s u)) else view s u).
Proof.
  revert va s. induction n as [|n IH]; intros va s Hw Hal Hlo Hhi Hf Hfree.
  { exists s. split; [done|]. split; [done|]. split; [by apply loads_refl|]. split; [lia|].
    intros u _. by rewrite decide_False by lia. }
  pose proof (addr_split va ltac:(lia)) as (_ & _ & _ & _ & Hvp & _).
  assert (∀ u, 0 ≤ u → u / 4096 = va / 4096 ↔ va ≤ u < va + 4096) as Hpg.
  { intros u Hu. destruct Hal as [q ->]. rewrite Z.div_mul by lia.
    pose proof (Z.div_mod u 4096 ltac:(lia)). pose proof (Z.mod_pos_bound u 4096 ltac:(lia)).
    split; [lia|]. intros. symmetry. apply (Z.div_unique _ 4096 _ (u - q * 4096)); lia. }
  assert (∃ s1, map_pages page_dir (S n) va flags s = map_pages page_dir n (va + 4096) flags s1 ∧
    vm_wf page_dir s1 ∧ loads 2 s s1 ∧ is_Some (mapping page_dir (mem s1) (va / 4096)) ∧
    ∀ u, 2 ^ 24 ≤ u < 2 ^ 32 → view s1 u =
      if decide (u / 4096 = va / 4096) then Some (default 0 (view s u)) else view s u)
    as (s1 & Hrun & Hw1 & Hl1 & Hm1 & Hv1).
  { cbn [map_pages]. unfold mbind at 1, M_bind at 1. rewrite paging_is_mapped_eq by (done || lia).
    destruct (mapping page_dir (mem s) (va / 4096)) as [e|] eqn:He; cbn -[kmemset_page].
    - exists s. split; [done|]. split; [done|]. split; [by apply loads_refl|]. split; [by eexists|].
      intros u Hu. case_decide as E; [|done]. rewrite view_eq by (exact (w_cr3 _ _ Hw) || lia). by rewrite E, He.
    - destruct (map_page_spec s va flags) as (a & sa & sb & s1 & Ha & Hne & Hz & Hpm & Hw1 & Hl1 & Hm1 & Hv1);
        try done; try lia.
      exists s1. unfold mbind, M_bind. rewrite Ha, (proj2 (Z.eqb_neq a 0)), Hz, Hpm by done. cbn.
      split; [done|]. split; [done|]. split; [done|]. split; [rewrite Hm1, decide_True by (done || lia); by eexists|].
      intros u Hu. rewrite Hv1 by done. case_decide as E; [|done].
      rewrite (proj2 (view_None s u Hw ltac:(lia))) by congruence. done. }
  destruct (IH (va + 4096) s1) as (s2 & H2 & Hw2 & Hl2 & Hm2 & Hv2); try done; try lia.
  { destruct Hal as [q ->]. exists (q + 1). lia. }
  { pose proof (l_used _ _ _ Hl1). pose proof (l_total _ _ _ Hl1). lia. }
  exists s2. split; [by rewrite Hrun|]. split; [done|]. split; [|split].
  - replace (2 * Z.of_nat (S n)) with (2 + 2 * Z.of_nat n) by lia. by eapply loads_trans.
  - intros u Hu. destruct (decide (va ≤ u < va + 4096)) as [Hin|Hin]; [|apply Hm2; lia].
    rewrite (proj2 (Hpg u ltac:(lia)) Hin). destruct Hm1 as [e He]. exists e. by eapply loads_mapped.
  - intros u Hu. rewrite Hv2, Hv1 by done.
    destruct (decide (va ≤ u < va + 4096)) as [Hin|Hin].
    + rewrite (decide_True _ _ (proj2 (Hpg u ltac:(lia)) Hin)), decide_False, decide_True by lia. done.
    + rewrite (decide_False (P := u / 4096 = va / 4096)) by (rewrite Hpg by lia; done).
      repeat case_decide; (done || lia).
Qed.

(** ** The meaning of a segment *)

(** What loading [ph] makes of memory: the bytes of the file, then zeros up to the
    size in memory, and zeros on the pages the loader had to add. *)
Definition segment_image (data : list Z) (m : Z → option Z) (ph : elf32_phdr_t) : Z → option Z := λ u,
  if decide (p_vaddr ph ≤ u < p_vaddr ph + p_filesz ph) then data !! Z.to_nat (p_offset ph + (u - p_vaddr ph))
  else if decide (p_vaddr ph + p_filesz ph ≤ u < p_vaddr ph + p_memsz ph) then Some 0
  else if decide (vstart ph ≤ u < vend ph) then Some (default 0 (m u))
  else m u.

Definition segment_pages (ph : elf32_phdr_t) : Z := (vend ph - vstart ph) / 4096.

Record segment_ok (bufsz : Z) (ph : elf32_phdr_t) : Prop := {
  sg_vaddr : 2 ^ 24 ≤ p_vaddr ph;
  sg_end : p_vaddr ph + p_memsz ph + 4096 < 2 ^ 32;
  sg_size : 0 ≤ p_filesz ph ≤ p_memsz ph;
  sg_file : 0 ≤ p_offset ph ∧ p_offset ph + p_filesz ph ≤ bufsz
}.

Lemma segment_range bufsz ph : segment_ok bufsz ph →
  (4096 | vstart ph) ∧ 2 ^ 24 ≤ vstart ph ≤ p_vaddr ph ∧
  vend ph = vstart ph + 4096 * segment_pages ph ∧ 0 ≤ segment_pages ph ∧
  p_vaddr ph + p_memsz ph ≤ vend ph < 2 ^ 32.
Proof.
  intros [Hv He Hs _]. unfold segment_pages, vend. rewrite u32_small by lia.
  destruct (page_align_eq (p_vaddr ph + p_memsz ph)) as [[a Ha] Hr]; [lia..|].
  pose proof (page_base_aligned (p_vaddr ph)) as [b Hb]. fold (vstart ph) in Hb.
  assert (vstart ph = p_vaddr ph - p_vaddr ph mod 4096) as E by apply page_base_eq.
  pose proof (Z.mod_pos_bound (p_vaddr ph) 4096 ltac:(lia)).
  split; [by exists b|]. rewrite Ha, Hb in *.
  set (r := p_vaddr ph mod 4096) in *. assert (4096 ≤ b) by lia.
  replace (a * 4096 - b * 4096) with ((a - b) * 4096) by lia. rewrite Z.div_mul by lia. lia.
Qed.
Definition widen (r : elf_load_result_t) (ph : elf32_phdr_t) : elf_load_result_t :=
  mkResult (r_entry r) (Z.min (p_vaddr ph) (load_base r)) (Z.max (load_end r) (p_vaddr ph + p_memsz ph)) (error r).

Lemma load_segment_spec data bufsz ph r s :
  vm_wf page_dir s → segment_ok bufsz ph → Forall is_byte data → bufsz ≤ Z.of_nat (length data) → bufsz < 2 ^ 32 →
  pmm_used_frames (pm s) + 2 * segment_pages ph ≤ low_total s →
  ∃ s', load_segment page_dir data bufsz ph r s = Ok (Next (widen r ph), s') ∧ vm_wf page_dir s' ∧
    loads (2 * segment_pages ph) s s' ∧
    (∀ u, 2 ^ 24 ≤ u < 2 ^ 32 → view s' u = segment_image data (view s) ph u).
Proof.
  intros Hw Hok Hb Hlen Hbuf Hfree. destruct (segment_range bufsz ph Hok) as (Hal & Hlo & Hend & Hn & Hr).
  destruct Hok as [Hv He Hs Hf].
  destruct (map_pages_spec (Z.to_nat (segment_pages ph)) (vstart ph) (Z.lor PAGE_USER PAGE_WRITE) s)
    as (s1 & H1 & Hw1 & Hl1 & Hm1 & Hv1); try done; try lia.
  rewrite Z2Nat.id in Hl1, Hm1, Hv1 by lia.
  assert (from (p_offset ph) data = Ok (drop (Z.to_nat (p_offset ph)) data)) as Hfrom.
  { unfold from. by rewrite (proj2 (Z.leb_le _ _)), (proj2 (Z.leb_le _ _)) by lia. }
  destruct (vcopy8_spec (Z.to_nat (p_filesz ph)) (drop (Z.to_nat (p_offset ph)) data) (p_vaddr ph) s1)
    as (s2 & H2 & Hw2 & Hl2 & Hm2 & Hv2); try done; try lia;
    [rewrite length_drop; lia|by apply Forall_drop|intros u Hu; apply Hm1; lia|].
  destruct (vcopy8_spec (Z.to_nat (p_memsz ph - p_filesz ph)) (replicate (Z.to_nat (p_memsz ph - p_filesz ph)) 0)
              (p_vaddr ph + p_filesz ph) s2)
    as (s3 & H3 & Hw3 & Hl3 & Hm3 & Hv3); try done; try lia;
    [by rewrite length_replicate|apply Forall_replicate; unfold is_byte; lia
    |intros u Hu; rewrite Hm2 by (apply vpage_range; lia); apply Hm1; lia|].
  exists s3. split; [|split; [done|split]].
  - unfold load_segment, mbind, M_bind. fold (segment_pages ph). change PAGE_SIZE with 4096. fold (segment_pages ph).
    rewrite H1. cbn [negb]. rewrite (u32_small (p_offset ph + _)), (proj2 (Z.ltb_ge bufsz _)) by lia.
    rewrite !(u32_small (p_vaddr ph + _)) by lia.
    unfold lift, mret, M_ret.
    destruct (Z.ltb_spec 0 (p_filesz ph)) as [Hp|Hp]; [rewrite Hfrom, H2|
      replace (Z.to_nat (p_filesz ph)) with O in H2 by lia; injection H2 as <-]; cbv beta iota;
      (destruct (Z.ltb_spec (p_filesz ph) (p_memsz ph)) as [Hq|Hq]; cbv beta iota; [rewrite vset8_copy, H3|
        replace (Z.to_nat (p_memsz ph - p_filesz ph)) with O in H3 by lia; injection H3 as <-]);
      unfold widen; do 4 f_equal; repeat case_match; bool_hyps; lia.
  - replace (2 * segment_pages ph) with (2 * segment_pages ph + 0 + 0) by lia.
    eapply loads_trans; [done| |done]. by eapply loads_trans.
  - intros u Hu. rewrite Hv3 by done. unfold stored at 1. rewrite length_take, length_replicate.
    unfold segment_image. rewrite Hend.
    destruct (decide (p_vaddr ph ≤ u < p_vaddr ph + p_filesz ph)) as [Hi|Hi].
    + rewrite decide_False by lia. rewrite Hv2 by done. unfold stored. rewrite length_take, length_drop.
      rewrite decide_True by lia. rewrite lookup_take_lt, lookup_drop by lia. f_equal. lia.
    + rewrite Hv2 by done. unfold stored. rewrite length_take, length_drop.
      destruct (decide (p_vaddr ph + p_filesz ph ≤ u < p_vaddr ph + p_memsz ph)) as [Hj|Hj].
      * rewrite decide_True by lia. rewrite lookup_take_lt by lia. by rewrite lookup_replicate_2 by lia.
      * rewrite !decide_False by lia. by rewrite Hv1.
Qed.
Lemma ld16_in off l : 0 ≤ off → off + 2 ≤ Z.of_nat (length l) → ∃ v, ld16 off l = Ok v.
Proof.
  intros H0 H1. unfold ld16. destruct (arr_get_in l off) as (a & -> & _); [lia|].
  destruct (arr_get_in l (off + 1)) as (b & -> & _); [lia|]. by eexists.
Qed.
Lemma ld32_in off l : 0 ≤ off → off + 4 ≤ Z.of_nat (length l) → ∃ v, ld32 off l = Ok v.
Proof.
  intros H0 H1. unfold ld32. destruct (ld16_in off l) as [a ->]; [lia..|].
  destruct (ld16_in (off + 2) l) as [b ->]; [lia..|]. by eexists.
Qed.
Lemma ld16_range off l v : Forall is_byte l → ld16 off l = Ok v → 0 ≤ v < 65536.
Proof.
  intros Hb. unfold ld16. intros (a & [_ Ha]%arr_get_Ok & Hv)%res_bind_Ok.
  apply res_bind_Ok in Hv as (b & [_ Hb']%arr_get_Ok & [= <-]).
  pose proof (Forall_lookup_1 _ _ _ _ Hb Ha) as H1. pose proof (Forall_lookup_1 _ _ _ _ Hb Hb') as H2.
  unfold is_byte in *. lia.
Qed.
Lemma elf_hdr_phnum data h : Forall is_byte data → elf_hdr data = Ok h → 0 ≤ e_phnum h.
Proof.
  intros Hb Hh. unfold elf_hdr in Hh. repeat (apply res_bind_Ok in Hh as (? & ? & Hh)).
  injection Hh as <-. cbn. pose proof (ld16_range 44 data). naive_solver lia.
Qed.
Lemma elf_phdr_in data off : 0 ≤ off → off + 32 ≤ Z.of_nat (length data) → ∃ ph, elf_phdr data off = Ok ph.
Proof.
  intros H0 H1. unfold elf_phdr.
  destruct (ld32_in off data) as [? ->]; [lia..|]. destruct (ld32_in (off + 4) data) as [? ->]; [lia..|].
  destruct (ld32_in (off + 8) data) as [? ->]; [lia..|]. destruct (ld32_in (off + 16) data) as [? ->]; [lia..|].
  destruct (ld32_in (off + 20) data) as [? ->]; [lia..|]. destruct (ld32_in (off + 24) data) as [? ->]; [lia..|].
  by eexists.
Qed.

(** ** The segments of an image *)
Definition loadable (ph : elf32_phdr_t) : bool :=
  (p_type ph =? PT_LOAD) && negb (p_memsz ph =? 0) && (0x100000 <=? p_vaddr ph) && (p_vaddr ph <? 0xC0000000).
Definition header_at (data : list Z) (h : elf32_hdr_t) (i : Z) : list elf32_phdr_t :=
  match elf_phdr data (e_phoff h + i * e_phentsize h) with
  | Ok ph => if loadable ph then [ph] else []
  | _ => []
  end.
Definition segments_from (data : list Z) (h : elf32_hdr_t) (i : Z) (n : nat) : list elf32_phdr_t :=
  mjoin (header_at data h <$> seqZ i (Z.of_nat n)).
Definition segments (data : list Z) (h : elf32_hdr_t) : list elf32_phdr_t :=
  segments_from data h 0 (Z.to_nat (e_phnum h)).

Definition headers_in (bufsz : Z) (h : elf32_hdr_t) : Prop :=
  ∀ i, 0 ≤ i < e_phnum h → 0 ≤ e_phoff h + i * e_phentsize h ∧ e_phoff h + i * e_phentsize h + PHDR_SIZE ≤ bufsz.

Definition pages_needed (l : list elf32_phdr_t) : Z := foldr (λ ph n, segment_pages ph + n) 0 l.

Section image.
Variables (data : list Z) (bufsz : Z) (h : elf32_hdr_t).
Hypothesis Hbytes : Forall is_byte data.
Hypothesis Hlen : bufsz ≤ Z.of_nat (length data).
Hypothesis Hbuf : bufsz < 2 ^ 32.
Hypothesis Hheads : headers_in bufsz h.

(** One turn: nothing happens for a header that is not a segment to load. *)
Lemma load_turn_spec i r s :
  vm_wf page_dir s → 0 ≤ i < e_phnum h → Forall (segment_ok bufsz) (header_at data h i) →
  pmm_used_frames (pm s) + 2 * pages_needed (header_at data h i) ≤ low_total s →
  ∃ s', load_turn page_dir data bufsz h i r s = Ok (Next (foldl widen r (header_at data h i)), s') ∧
    vm_wf page_dir s' ∧ loads (2 * pages_needed (header_at data h i)) s s' ∧
    (∀ u, 2 ^ 24 ≤ u < 2 ^ 32 → view s' u = foldl (segment_image data) (view s) (header_at data h i) u).
Proof.
  intros Hw Hi Hok Hfree. destruct (Hheads i Hi) as [H0 H1]. unfold PHDR_SIZE in H1.
  destruct (elf_phdr_in data (e_phoff h + i * e_phentsize h)) as [ph Hph]; [lia..|].
  unfold load_turn, header_at, PHDR_SIZE in *. rewrite Hph in *.
  rewrite (u32_small (e_phoff h + i * e_phentsize h)), (u32_small (_ + 32)), (proj2 (Z.ltb_ge bufsz _)), Hph by lia.
  unfold mbind, M_bind, lift, loadable in *. cbv beta iota.
  destruct (p_type ph =? PT_LOAD), (p_memsz ph =? 0), (Z.ltb_spec (p_vaddr ph) 0x100000) as [E1|E1],
    (Z.leb_spec 0xC0000000 (p_vaddr ph)) as [E2|E2];
    rewrite ?(proj2 (Z.leb_gt 0x100000 (p_vaddr ph))), ?(proj2 (Z.leb_le 0x100000 (p_vaddr ph))) in * by lia;
    rewrite ?(proj2 (Z.ltb_ge (p_vaddr ph) 0xC0000000)), ?(proj2 (Z.ltb_lt (p_vaddr ph) 0xC0000000)) in * by lia;
    cbn [negb andb] in *; try by (exists s; split; [done|]; split; [done|]; split; [by apply loads_refl|done]).
  cbn [pages_needed foldr] in *. apply Forall_cons in Hok as [Hok _].
  assert ((p_vaddr ph <? 5242880) = false) as -> by (apply Z.ltb_ge; destruct Hok; lia).
  destruct (load_segment_spec data bufsz ph r s Hw Hok) as (s' & Hr & Hw' & Hl & Hv); try done; try lia.
  exists s'. split; [done|]. split; [done|]. split; [by rewrite Z.add_0_r|done].
Qed.

Lemma segments_from_S i n : segments_from data h i (S n) = header_at data h i ++ segments_from data h (i + 1) n.
Proof. unfold segments_from. rewrite seqZ_cons by lia. cbn [fmap list_fmap mjoin list_join].
  replace (Z.pred (Z.of_nat (S n))) with (Z.of_nat n) by lia. by rewrite <- Z.add_1_r. Qed.

Lemma pages_needed_app l k : pages_needed (l ++ k) = pages_needed l + pages_needed k.
Proof. induction l as [|ph l IH]; cbn [app pages_needed foldr]; [done|]. fold (pages_needed (l ++ k)) (pages_needed l). lia. Qed.

Lemma pages_needed_nonneg l : Forall (segment_ok bufsz) l → 0 ≤ pages_needed l.
Proof.
  induction 1 as [|ph l Hok _ IH]; [done|]. cbn [pages_needed foldr]. fold (pages_needed l).
  pose proof (segment_range bufsz ph Hok). lia.
Qed.

(** The fold does not look at more than the function it starts from shows. *)
Lemma segment_image_ext l (m m' : Z → option Z) (P : Z → Prop) :
  (∀ u, P u → m u = m' u) → ∀ u, P u → foldl (segment_image data) m l u = foldl (segment_image data) m' l u.
Proof.
  revert m m'. induction l as [|ph l IH]; intros m m' Hm u Hu; [by apply Hm|]. cbn. apply IH; [|done].
  intros v Hv. unfold segment_image. by rewrite Hm.
Qed.

Lemma load_loop_spec n i r s :
  vm_wf page_dir s → 0 ≤ i → i + Z.of_nat n ≤ e_phnum h →
  Forall (segment_ok bufsz) (segments_from data h i n) →
  pmm_used_frames (pm s) + 2 * pages_needed (segments_from data h i n) ≤ low_total s →
  ∃ s', load_loop page_dir n data bufsz h i r s = Ok (Next (foldl widen r (segments_from data h i n)), s') ∧
    vm_wf page_dir s' ∧ loads (2 * pages_needed (segments_from data h i n)) s s' ∧
    (∀ u, 2 ^ 24 ≤ u < 2 ^ 32 → view s' u = foldl (segment_image data) (view s) (segments_from data h i n) u).
Proof.
  revert i r s. induction n as [|n IH]; intros i r s Hw Hi Hn Hok Hfree.
  { exists s. split; [done|]. split; [done|]. split; [by apply loads_refl|done]. }
  rewrite segments_from_S, pages_needed_app in *. apply Forall_app in Hok as [Hok1 Hok2].
  pose proof (pages_needed_nonneg _ Hok1). pose proof (pages_needed_nonneg _ Hok2).
  destruct (load_turn_spec i r s Hw ltac:(lia) Hok1 ltac:(lia)) as (s1 & H1 & Hw1 & Hl1 & Hv1).
  destruct (IH (i + 1) (foldl widen r (header_at data h i)) s1) as (s2 & H2 & Hw2 & Hl2 & Hv2); try done; try lia.
  { rewrite (l_total _ _ _ Hl1). pose proof (l_used _ _ _ Hl1). lia. }
  exists s2. rewrite !foldl_app. split; [|split; [done|split]].
  - cbn [load_loop]. unfold mbind, M_bind. by rewrite H1, H2.
  - replace (2 * (pages_needed (header_at data h i) + pages_needed (segments_from data h (i + 1) n))) with
      (2 * pages_needed (header_at data h i) + 2 * pages_needed (segments_from data h (i + 1) n)) by lia.
    by eapply loads_trans.
  - intros u Hu. rewrite Hv2 by done. by apply (segment_image_ext _ _ _ (λ u, 2 ^ 24 ≤ u < 2 ^ 32)).
Qed.
End image.

Lemma widen_base r l : load_base (foldl widen r l) = foldl Z.min (load_base r) (p_vaddr <$> l) ∧
  error (foldl widen r l) = error r.
Proof.
  revert r. induction l as [|ph l IH]; intros r; [done|]. cbn. destruct (IH (widen r ph)) as [-> ->].
  split; [|done]. cbn. by rewrite Z.min_comm.
Qed.

Lemma foldl_min_le a l : foldl Z.min a l ≤ a.
Proof. revert a. induction l as [|x l IH]; intros a; cbn; [lia|]. specialize (IH (Z.min a x)). lia. Qed.
End proofs.

(** C26: loading a valid image whose segments lie above the identity mapping (at
    16 MiB or higher) and inside the file, with two free frames for each page among the
    3840 below 16 MiB, succeeds with the entry point and
    the extent of the segments; afterwards every user address shows what the
    segments, taken in order, make of what it showed before (file bytes, zeros after
    them and on new pages), and the words of kernel frames and all reference counts
    are kept. Images with a segment between 1 and 5 MiB, such as those the Makefile
    links at 0x400000, are refused ([linked_program_rejected]); segments between 5 and
    16 MiB are written through the identity mapping and not covered. *)
Theorem elf_load_correct page_dir data bufsz h s :
  vm_wf page_dir s → Forall is_byte data → HDR_SIZE ≤ bufsz ≤ Z.of_nat (length data) → bufsz < 2 ^ 32 →
  elf_hdr data = Ok h → elf_validate h = 0 → headers_in bufsz h →
  segments data h ≠ [] → Forall (segment_ok bufsz) (segments data h) →
  pmm_used_frames (pm s) + 2 * pages_needed (segments data h) ≤ low_total s →
  ∃ s', elf_load_mem page_dir data bufsz s =
      Ok (foldl widen (mkResult (e_entry h) 0xFFFFFFFF 0 0) (segments data h), s') ∧ vm_wf page_dir s' ∧
    (∀ u, 2 ^ 24 ≤ u < 2 ^ 32 → view s' u = foldl (segment_image data) (view s) (segments data h) u) ∧
    (∀ p i, (4096 | p) → 0 ≤ p → ¬ spage page_dir (mem s) p → pmm_refcount p (pm s) ≠ 0 → unmapped page_dir s p →
       0 ≤ i < 1024 → mread (mem s') (p + 4 * i) = mread (mem s) (p + 4 * i)) ∧
    (∀ b, (4096 | b) → 0 ≤ b → pmm_refcount b (pm s) ≠ 0 → pmm_refcount b (pm s') = pmm_refcount b (pm s)).
Proof.
  intros Hw Hb Hlen Hbuf Hh Hval Hheads Hne Hok Hfree. pose proof (elf_hdr_phnum data h Hb Hh).
  destruct (load_loop_spec page_dir data bufsz h Hb ltac:(lia) Hbuf Hheads (Z.to_nat (e_phnum h)) 0
    (mkResult (e_entry h) 0xFFFFFFFF 0 0) s Hw) as (s' & Hrun & Hw' & Hl & Hv); try done; [lia..|].
  exists s'. split; [|split; [done|split; [done|split; [apply Hl|intros b; apply (l_rc _ _ _ _ Hl)]]]].
  unfold elf_load_mem, mbind, M_bind, lift. rewrite (proj2 (Z.ltb_ge bufsz _)), Hh, Hval by lia.
  cbn [Z.ltb Z.compare]. rewrite Hrun. fold (segments data h).
  destruct (segments data h) as [|ph l] eqn:E; [done|]. apply Forall_cons in Hok as [[Hv1 He1 Hs1 _] _].
  rewrite (proj2 (Z.eqb_neq _ _)); [done|]. destruct (widen_base (mkResult (e_entry h) 4294967295 0 0) (ph :: l)) as [-> _].
  cbn. pose proof (foldl_min_le (Z.min 4294967295 (p_vaddr ph)) (p_vaddr <$> l)). lia.
Qed.

(** An image of one segment of three bytes, eight in memory, at [vaddr]. *)
Definition tiny_image (vaddr : Z) : list Z :=
  [0x7F; 0x45; 0x4C; 0x46; 1; 1; 1; 0; 0; 0; 0; 0; 0; 0; 0; 0] ++
  Bytes.le16 ET_EXEC ++ Bytes.le16 EM_386 ++ Bytes.le32 1 ++ Bytes.le32 vaddr ++ Bytes.le32 52 ++ Bytes.le32 0 ++ Bytes.le32 0 ++
  Bytes.le16 52 ++ Bytes.le16 32 ++ Bytes.le16 1 ++ Bytes.le16 0 ++ Bytes.le16 0 ++ Bytes.le16 0 ++
  Bytes.le32 PT_LOAD ++ Bytes.le32 84 ++ Bytes.le32 vaddr ++ Bytes.le32 0 ++ Bytes.le32 3 ++ Bytes.le32 8 ++ Bytes.le32 5 ++
  Bytes.le32 4096 ++ [0x90; 0x91; 0xC3].

Lemma elf_load_correct_witness :
  let s0 := paging_init 0x200000 0x201000 131072 vm0 in
  ∃ s', elf_load_mem 0x200000 (tiny_image 0x40000010) 87 s0 = Ok (mkResult 0x40000010 0x40000010 0x40000018 0, s') ∧
    view s' 0x40000011 = Some 0x91 ∧ view s' 0x40000014 = Some 0 ∧ view s' 0x50000000 = view s0 0x50000000.
Proof.
  cbv zeta. pose proof (paging_init_wf 0x200000 0x201000 131072 vm0 placed_example ltac:(lia)) as Hw.
  assert (pm (paging_init 0x200000 0x201000 131072 vm0) = pmm_init 131072) as Hpm by reflexivity.
  revert Hw Hpm. generalize (paging_init 0x200000 0x201000 131072 vm0) as s0. intros s0 Hw Hpm.
  set (h := mkHdr ELF_MAGIC 1 ET_EXEC EM_386 0x40000010 52 32 1).
  set (ph := mkPhdr PT_LOAD 84 0x40000010 3 8 5).
  assert (segments (tiny_image 0x40000010) h = [ph]) as Hsegs by (vm_compute; reflexivity).
  destruct (elf_load_correct 0x200000 (tiny_image 0x40000010) 87 h s0) as (s' & Hrun & _ & Hv & _).
  - exact Hw.
  - apply (bool_decide_unpack _). vm_compute. exact I.
  - split; [discriminate|]. vm_compute. discriminate.
  - reflexivity.
  - vm_compute. reflexivity.
  - reflexivity.
  - intros i Hi. cbn in Hi. assert (i = 0) as -> by lia. split; vm_compute; discriminate.
  - rewrite Hsegs. discriminate.
  - rewrite Hsegs. repeat constructor; vm_compute; congruence.
  - rewrite Hsegs, Hpm. vm_compute. discriminate.
  - exists s'. rewrite Hsegs in Hv, Hrun. split; [exact Hrun|].
    split; [|split]; rewrite Hv by lia; reflexivity.
Defined.

(** The programs of src/user are linked at 0x400000, which the loader turns away. *)
Example linked_program_rejected page_dir s :
  elf_load_mem page_dir (tiny_image 0x400000) 87 s = Ok (mkResult 0x400000 0xFFFFFFFF 0 (-2), s).
Proof. reflexivity. Qed.

(** The frame [elf_spawn] leaves has a zero where the first switch to the task
    takes its return address. *)
Lemma elf_task_starts_at_null entry top m c :
  c_esp c ≤ top - 64 ∨ top + 16 ≤ c_esp c →
  let '(sp, m') := push_all top (user_frame entry) m in c_eip (switch_context sp m' c).2 = 0.
Proof.
  intros Hc. cbn [push_all user_frame]. unfold switch_context. cbn [push_all snd c_eip]. unfold word.
  rewrite !lookup_insert. repeat case_decide; try lia; done.
Qed.
