(* ===== verification/Process.v ===== *)
(** * The process table (src/src/process.c)

    The bookkeeping table behind the shell's [ps], [kill] and [spawn] commands. It is
    independent of the scheduler's tasks. *)

From S2P Require Import Prelude KString Vga.

Definition MAX_PROCESSES : Z := 16.

Inductive proc_state_t := PROC_RUNNING | PROC_SLEEPING | PROC_ZOMBIE | PROC_IDLE.

#[global] Instance proc_state_eq_dec : EqDecision proc_state_t.
Proof. solve_decision. Defined.

Record process_t := mkProc {
  p_pid : Z;
  p_name : list Z;
  p_state : proc_state_t;
  p_memory_kb : Z;
  p_ticks : Z;
  p_kum_level : Z
}.

(** A zeroed slot; [PROC_RUNNING] is 0. *)
Definition proc_zero : process_t := mkProc 0 (replicate 32 0) PROC_RUNNING 0 0 0.

Record procs := mkProcs {
  proc_table : list process_t;
  next_pid : Z;
  proc_count_val : Z
}.

Definition init_proc (p : Z) (st : proc_state_t) (mem : Z) (nm : list Z) : res process_t :=
  n ← kstrcpy (replicate 32 0) nm; Ok (mkProc p n st mem 0 1).

Definition proc_init : res procs :=
  p0 ← init_proc 0 PROC_IDLE 4 (lit "idle");
  p1 ← init_proc 1 PROC_RUNNING 128 (lit "kumos");
  Ok (mkProcs (<[1%nat := p1]> (<[0%nat := p0]> (replicate 16 proc_zero))) 2 2).

Definition is_zombie (p : process_t) : bool := bool_decide (p_state p = PROC_ZOMBIE).

(** The assignments both loops of [proc_spawn] make to slot [i]. *)
Definition fill_slot (i : Z) (nm : list Z) (mem lvl : Z) (s : procs) : res (Z * procs) :=
  p ← arr_get (proc_table s) i;
  n ← kstrcpy (p_name p) nm;
  t ← arr_set (proc_table s) i (mkProc (next_pid s) n PROC_RUNNING mem 0 lvl);
  Ok (next_pid s, mkProcs t (i32 (next_pid s + 1)) (i32 (proc_count_val s + 1))).

Definition proc_spawn (nm : list Z) (mem lvl : Z) (s : procs) : res (Z * procs) :=
  if MAX_PROCESSES <=? proc_count_val s then Ok (-1, s)
  else
    match find_idx is_zombie (proc_table s) with
    | Some i => fill_slot (Z.of_nat i) nm mem lvl s
    | None =>
        if proc_count_val s <? MAX_PROCESSES then fill_slot (proc_count_val s) nm mem lvl s
        else Ok (-1, s)
    end.

Definition set_pstate (st : proc_state_t) (p : process_t) : process_t :=
  mkProc (p_pid p) (p_name p) st (p_memory_kb p) (p_ticks p) (p_kum_level p).

Definition proc_kill (pid : Z) (s : procs) : procs :=
  match find_idx (λ p, p_pid p =? pid) (proc_table s) with
  | Some i =>
      mkProcs (alter (set_pstate PROC_ZOMBIE) i (proc_table s)) (next_pid s) (i32 (proc_count_val s - 1))
  | None => s
  end.

(** The index of the slot, [None] for NULL. *)
Definition proc_get (pid : Z) (s : procs) : option nat :=
  find_idx (λ p, p_pid p =? pid) (proc_table s).

Definition proc_count (s : procs) : Z := proc_count_val s.

Definition tick1 (p : process_t) : process_t :=
  if decide (p_state p = PROC_RUNNING)
  then mkProc (p_pid p) (p_name p) (p_state p) (p_memory_kb p) (u32 (p_ticks p + 1)) (p_kum_level p)
  else p.
Definition proc_tick (s : procs) : procs :=
  mkProcs (tick1 <$> proc_table s) (next_pid s) (proc_count_val s).

Definition state_str (st : proc_state_t) : list Z :=
  match st with
  | PROC_RUNNING => lit "RUN "
  | PROC_SLEEPING => lit "SLEEP"
  | PROC_ZOMBIE => lit "DEAD "
  | PROC_IDLE => lit "IDLE "
  end.

Definition list_proc (i : nat) (p : process_t) : list con :=
  if is_zombie p && (p_pid p =? 0) then []
  else if (p_pid p =? 0) && (0 <? Z.of_nat i) then []
  else [CPuts (lit "  "); CDec (p_pid p); CPuts (lit "    "); CPuts (state_str (p_state p));
        CPuts (lit "  "); CDec (p_memory_kb p); CPuts (lit "     ");
        CPuts (if p_kum_level p =? 0 then lit "no " else lit "yes"); CPuts (lit "  ");
        CPuts (p_name p); CPutc 10].
Definition proc_list_all (s : procs) : list con :=
  [CColor VGA_YELLOW VGA_BLACK;
   CPuts (lit "  PID  STATE  MEM(KB)  KUM  NAME
");
   CPuts (lit "  ---  -----  -------  ---  ----
");
   CColor VGA_WHITE VGA_BLACK] ++ concat (imap list_proc (proc_table s)).

(** ** Runs

    The table is right as long as only live processes are killed. *)
Inductive proc_event :=
| PSpawn (nm : list Z) (mem lvl : Z)
| PKill (pid : Z)
| PTick.

Definition live_pid (pid : Z) (s : procs) : Prop :=
  ∃ i p, proc_get pid s = Some i ∧ proc_table s !! i = Some p ∧ p_state p ≠ PROC_ZOMBIE ∧
         Z.of_nat i < proc_count_val s + countb is_zombie (proc_table s).

Inductive proc_step : procs → procs → Prop :=
| step_spawn nm mem lvl s r s' :
    proc_spawn nm mem lvl s = Ok (r, s') → next_pid s < 2 ^ 31 - 1 → proc_step s s'
| step_kill pid s : live_pid pid s → proc_step s (proc_kill pid s)
| step_tick s : proc_step s (proc_tick s).

(** The slots in use are a prefix of the table: the live ones, counted by
    [proc_count_val], and the zombies. Their pids are distinct and below [next_pid]. *)
Record procs_inv (s : procs) : Prop := {
  pi_len : length (proc_table s) = 16%nat;
  pi_count : 0 ≤ proc_count_val s;
  pi_npid : 0 < next_pid s;
  pi_prefix : proc_count_val s + countb is_zombie (proc_table s) ≤ 16;
  pi_zombies : ∀ i p, proc_table s !! i = Some p → p_state p = PROC_ZOMBIE →
    Z.of_nat i < proc_count_val s + countb is_zombie (proc_table s);
  pi_pids : ∀ i p, proc_table s !! i = Some p →
    Z.of_nat i < proc_count_val s + countb is_zombie (proc_table s) → 0 ≤ p_pid p < next_pid s;
  pi_distinct : ∀ i j p q, proc_table s !! i = Some p → proc_table s !! j = Some q →
    Z.of_nat i < proc_count_val s + countb is_zombie (proc_table s) →
    Z.of_nat j < proc_count_val s + countb is_zombie (proc_table s) → p_pid p = p_pid q → i = j
}.

Abbreviation in_use s i := (Z.of_nat i < proc_count_val s + countb is_zombie (proc_table s)).

Lemma no_zombies l : find_idx is_zombie l = None → countb is_zombie l = 0.
Proof.
  rewrite find_idx_None. induction l as [|p l IH]; intros Hn; cbn; [done|].
  rewrite (Hn p) by (by left). rewrite IH; [lia|]. intros q Hq. apply Hn. by right.
Qed.

Lemma zombie_true p : is_zombie p = true ↔ p_state p = PROC_ZOMBIE.
Proof. unfold is_zombie. apply bool_decide_eq_true. Qed.

Lemma zombie_counted l i p : l !! i = Some p → p_state p = PROC_ZOMBIE → 0 < countb is_zombie l.
Proof.
  intros Hi Hz. pose proof (countb_insert is_zombie l i p proc_zero Hi) as Hins.
  pose proof (countb_bounds is_zombie (<[i := proc_zero]> l)). apply zombie_true in Hz. rewrite Hz in Hins.
  change (is_zombie proc_zero) with false in Hins. cbn in Hins. lia.
Qed.

(** A slot that is in use, or the first unused one, is replaced by [q]. *)
Lemma inv_replace s i p q np c :
  procs_inv s → proc_table s !! i = Some p →
  0 < np → next_pid s ≤ np → 0 ≤ p_pid q < np → 0 ≤ c →
  let k := proc_count_val s + countb is_zombie (proc_table s) in
  let k' := c + countb is_zombie (<[i := q]> (proc_table s)) in
  k' ≤ 16 → Z.of_nat i < k' → (k' = k ∨ (k' = k + 1 ∧ Z.of_nat i = k)) →
  (∀ j r, j ≠ i → proc_table s !! j = Some r → Z.of_nat j < k → p_pid r ≠ p_pid q) →
  procs_inv (mkProcs (<[i := q]> (proc_table s)) np c).
Proof.
  intros [Hl Hc Hnp Hpre Hz Hp Hd] Hi Hnp' Hle Hq Hc' k k' Hk16 Hik Hk Hfresh.
  assert (∀ j r, <[i := q]> (proc_table s) !! j = Some r → Z.of_nat j < k' →
    (j = i ∧ r = q) ∨ (j ≠ i ∧ proc_table s !! j = Some r ∧ Z.of_nat j < k)) as Hcase.
  { intros j r Hj Hjk. apply list_lookup_insert_Some in Hj as [(-> & -> & _)|[Hne Hj]]; [by left|].
    right. split_and!; [done..|lia]. }
  constructor; cbn [proc_table proc_count_val next_pid]; [by rewrite length_insert|done|done|done| | |].
  - intros j r Hj Hr. apply list_lookup_insert_Some in Hj as [(-> & -> & _)|[Hne Hj]]; [done|].
    specialize (Hz j r Hj Hr). lia.
  - intros j r Hj Hjk. destruct (Hcase j r Hj Hjk) as [[-> ->]|(Hne & Hj' & Hlt)]; [done|].
    specialize (Hp j r Hj' Hlt). lia.
  - intros j1 j2 r1 r2 H1 H2 Hk1 Hk2 Heq.
    destruct (Hcase j1 r1 H1 Hk1) as [[-> ->]|(Hne1 & Hj1 & Hlt1)],
      (Hcase j2 r2 H2 Hk2) as [[-> ->]|(Hne2 & Hj2 & Hlt2)]; [done| | |by eapply Hd].
    + exfalso. by eapply (Hfresh j2 r2).
    + exfalso. by eapply (Hfresh j1 r1).
Qed.

(** What filling the slot of a zombie, or the first unused slot, does. *)
Lemma fill_slot_spec i p nm mem lvl s r s' :
  procs_inv s → next_pid s < 2 ^ 31 - 1 → proc_table s !! i = Some p →
  (p_state p = PROC_ZOMBIE ∨ (countb is_zombie (proc_table s) = 0 ∧ Z.of_nat i = proc_count_val s)) →
  fill_slot (Z.of_nat i) nm mem lvl s = Ok (r, s') →
  procs_inv s' ∧ r = next_pid s ∧
  (∀ j q, j ≠ i → proc_table s !! j = Some q → proc_table s' !! j = Some q) ∧
  ∃ q, proc_table s' !! i = Some q ∧ p_pid q = r ∧ p_state q = PROC_RUNNING.
Proof.
  intros Hinv Hb Hi Hcase Hf. pose proof Hinv as [Hl Hc Hnp Hpre Hz Hp Hd].
  pose proof (lookup_lt_Some _ _ _ Hi) as Hlt. unfold fill_slot in Hf.
  rewrite (arr_get_nat _ _ p) in Hf by done. cbn in Hf.
  apply res_bind_Ok in Hf as (n & Hn & Hf). apply res_bind_Ok in Hf as (t & [Hrange ->]%arr_set_Ok & [= <- <-]).
  rewrite Nat2Z.id. set (q := mkProc (next_pid s) n PROC_RUNNING mem 0 lvl).
  pose proof (countb_bounds is_zombie (proc_table s)) as Hzb.
  pose proof (countb_insert is_zombie (proc_table s) i p q Hi) as Hins.
  change (is_zombie q) with false in Hins. cbn [Z.b2z] in Hins.
  rewrite !i32_small by lia.
  assert (Z.b2z (is_zombie p) = if decide (p_state p = PROC_ZOMBIE) then 1 else 0) as Hpz.
  { case_decide as Hd'; [by rewrite (proj2 (zombie_true p) Hd')|].
    destruct (is_zombie p) eqn:E; [|done]. by apply zombie_true in E. }
  split; [|split; [done|split]].
  - assert (Z.of_nat i < proc_count_val s + countb is_zombie (proc_table s) ∧ Z.b2z (is_zombie p) = 1 ∨
      Z.of_nat i = proc_count_val s ∧ countb is_zombie (proc_table s) = 0 ∧ Z.b2z (is_zombie p) = 0) as Hwhere.
    { rewrite Hpz. case_decide as Hd'; [left|right].
      - specialize (Hz i p Hi Hd'). done.
      - destruct Hcase as [?|[? ?]]; done. }
    apply (inv_replace s i p q); try done; try (cbn [p_pid q]; lia).
    intros j r Hne Hj Hjk. specialize (Hp j r Hj Hjk). cbn. lia.
  - intros j q' Hne Hj. cbn. by rewrite list_lookup_insert_ne by done.
  - exists q. cbn. by rewrite list_lookup_insert_eq.
Qed.

(** A successful spawn touches no live process. *)
Lemma proc_spawn_spec nm mem lvl s r s' :
  procs_inv s → next_pid s < 2 ^ 31 - 1 → proc_spawn nm mem lvl s = Ok (r, s') →
  (r = -1 ∧ s' = s ∧ 16 ≤ proc_count_val s) ∨
  (procs_inv s' ∧ r = next_pid s ∧ (∃ q i, proc_get r s' = Some i ∧ proc_table s' !! i = Some q ∧ p_state q = PROC_RUNNING) ∧
   ∀ j q, proc_table s !! j = Some q → in_use s j → p_state q ≠ PROC_ZOMBIE → proc_table s' !! j = Some q).
Proof.
  intros Hinv Hb. unfold proc_spawn, MAX_PROCESSES. pose proof Hinv as [Hl Hc Hnp Hpre Hz Hp Hd].
  pose proof (countb_bounds is_zombie (proc_table s)) as Hzb.
  destruct (Z.leb_spec 16 (proc_count_val s)); [intros [= <- <-]; by left|].
  assert (∀ i p, proc_table s !! i = Some p →
    (p_state p = PROC_ZOMBIE ∨ (countb is_zombie (proc_table s) = 0 ∧ Z.of_nat i = proc_count_val s)) →
    fill_slot (Z.of_nat i) nm mem lvl s = Ok (r, s') →
    procs_inv s' ∧ r = next_pid s ∧
    (∃ q i, proc_get r s' = Some i ∧ proc_table s' !! i = Some q ∧ p_state q = PROC_RUNNING) ∧
    ∀ j q, proc_table s !! j = Some q → in_use s j → p_state q ≠ PROC_ZOMBIE → proc_table s' !! j = Some q) as Hfill.
  { intros i p Hi Hcase Hf.
    destruct (fill_slot_spec _ _ _ _ _ _ _ _ Hinv Hb Hi Hcase Hf) as (Hinv' & -> & Hkeep & q & Hq & Hqp & Hqs).
    split; [done|]. split; [done|]. split.
    - exists q, i. split; [|done]. unfold proc_get. apply find_idx_Some. split.
      + exists q. split; [done|]. by apply Z.eqb_eq.
      + intros m y Hm Hy. apply Z.eqb_neq. intros Heq.
        destruct (lookup_lt_is_Some_2 (proc_table s) m) as [y0 Hy0].
        { apply lookup_lt_Some in Hi. lia. }
        pose proof (Hkeep m y0 ltac:(lia) Hy0) as Hy'. simplify_eq.
        destruct (decide (in_use s m)) as [Hu|Hu]; [specialize (Hp m y Hy0 Hu); lia|].
        destruct Hcase as [Hx|[Hx Hic]]; [specialize (Hz i p Hi Hx); lia|lia].
    - intros j q' Hj Hu Hns. apply Hkeep; [|done]. intros ->. simplify_eq.
      destruct Hcase as [?|[Hx Hic]]; [done|]. lia. }
  destruct (find_idx is_zombie (proc_table s)) as [i|] eqn:E.
  - intros Hf. right. destruct (find_idx_lookup _ _ _ E) as (p & Hi & Hzp%zombie_true). by eapply Hfill; eauto.
  - rewrite (proj2 (Z.ltb_lt _ _)) by lia. intros Hf. right. apply no_zombies in E.
    destruct (lookup_lt_is_Some_2 (proc_table s) (Z.to_nat (proc_count_val s))) as [p Hi]; [lia|].
    rewrite <- (Z2Nat.id (proc_count_val s)) in Hf by lia. eapply Hfill; [exact Hi| |exact Hf]. right. lia.
Qed.

(** Not all slots in use are zombies when one is live. *)
Lemma live_count s i p :
  procs_inv s → proc_table s !! i = Some p → p_state p ≠ PROC_ZOMBIE → in_use s i → 0 < proc_count_val s.
Proof.
  intros [Hl Hc Hnp Hpre Hz Hp Hd] Hi Hns Hu.
  set (k := Z.to_nat (proc_count_val s + countb is_zombie (proc_table s))) in *.
  assert (countb is_zombie (drop k (proc_table s)) = 0) as Hdrop.
  { apply no_zombies, find_idx_None. intros q [j Hj]%list_elem_of_lookup. rewrite lookup_drop in Hj.
    destruct (is_zombie q) eqn:E; [|done]. apply zombie_true in E. specialize (Hz _ _ Hj E). lia. }
  pose proof (countb_app is_zombie (take k (proc_table s)) (drop k (proc_table s))) as Happ.
  rewrite take_drop in Happ.
  assert (take k (proc_table s) !! i = Some p) as Hi' by (rewrite lookup_take_lt by lia; done).
  pose proof (countb_insert is_zombie _ i p (set_pstate PROC_ZOMBIE p) Hi') as Hins.
  pose proof (countb_bounds is_zombie (<[i := set_pstate PROC_ZOMBIE p]> (take k (proc_table s)))) as Hb.
  rewrite length_insert, length_take in Hb.
  assert (is_zombie p = false) as Hzp by (by apply bool_decide_eq_false). rewrite Hzp in Hins.
  change (is_zombie (set_pstate PROC_ZOMBIE p)) with true in Hins. cbn in Hins. lia.
Qed.

Lemma proc_kill_inv pid s : procs_inv s → live_pid pid s → procs_inv (proc_kill pid s).
Proof.
  intros Hinv (i & p & Hg & Hi & Hns & Hu). unfold proc_kill. unfold proc_get in Hg. rewrite Hg.
  pose proof Hinv as [Hl Hc Hnp Hpre Hz Hp Hd]. pose proof (countb_bounds is_zombie (proc_table s)) as Hzb.
  assert (alter (set_pstate PROC_ZOMBIE) i (proc_table s) = <[i := set_pstate PROC_ZOMBIE p]> (proc_table s)) as ->.
  { rewrite list_insert_alter. apply list_alter_ext; [|done]. intros y Hy. congruence. }
  pose proof (countb_insert is_zombie (proc_table s) i p (set_pstate PROC_ZOMBIE p) Hi) as Hins.
  assert (is_zombie p = false) as Hzp by (by apply bool_decide_eq_false). rewrite Hzp in Hins.
  change (is_zombie (set_pstate PROC_ZOMBIE p)) with true in Hins. cbn in Hins.
  assert (0 < proc_count_val s) as Hpos by (by eapply live_count).
  rewrite i32_small by lia.
  apply (inv_replace s i p); try done; cbn; try lia.
  - by apply (Hp i p).
  - intros j r Hne Hj Hjk Heq. apply Hne. by eapply Hd.
Qed.
Lemma tick1_same p : p_pid (tick1 p) = p_pid p ∧ p_state (tick1 p) = p_state p.
Proof. unfold tick1. case_decide; done. Qed.

Lemma proc_tick_inv s : procs_inv s → procs_inv (proc_tick s).
Proof.
  intros [Hl Hc Hnp Hpre Hz Hp Hd].
  assert (countb is_zombie (tick1 <$> proc_table s) = countb is_zombie (proc_table s)) as Hcnt.
  { clear. induction (proc_table s) as [|p l IH]; cbn; [done|]. rewrite IH. unfold is_zombie at 1 3.
    by rewrite (proj2 (tick1_same p)). }
  constructor; cbn [proc_tick proc_table proc_count_val next_pid]; rewrite ?Hcnt; try done.
  - by rewrite length_fmap.
  - intros i q Hi Hq. apply list_lookup_fmap_Some in Hi as (p & -> & Hi). rewrite (proj2 (tick1_same p)) in Hq. eauto.
  - intros i q Hi Hu. apply list_lookup_fmap_Some in Hi as (p & -> & Hi). rewrite (proj1 (tick1_same p)). eauto.
  - intros i j q1 q2 H1 H2 Hu1 Hu2 Heq.
    apply list_lookup_fmap_Some in H1 as (p1 & -> & H1), H2 as (p2 & -> & H2).
    rewrite (proj1 (tick1_same p1)), (proj1 (tick1_same p2)) in Heq. eauto.
Qed.

Lemma proc_step_inv s s' : procs_inv s → proc_step s s' → procs_inv s'.
Proof.
  intros Hinv Hs. destruct Hs as [nm mem lvl s r s' Hs Hb|pid s Hl|s].
  - by destruct (proc_spawn_spec _ _ _ _ _ _ Hinv Hb Hs) as [(_ & -> & _)|[? _]].
  - by apply proc_kill_inv.
  - by apply proc_tick_inv.
Qed.

Lemma proc_init_inv : ∃ s, proc_init = Ok s ∧ procs_inv s.
Proof.
  eexists. split; [vm_compute; reflexivity|]. constructor; cbn [proc_table proc_count_val next_pid].
  - done.
  - lia.
  - lia.
  - vm_compute. discriminate.
  - intros i p Hi Hz. do 16 (destruct i as [|i]; [injection Hi as <-; discriminate Hz|]). done.
  - match goal with |- context [countb is_zombie ?l] => change (countb is_zombie l) with 0 end.
    intros i p Hi Hu. do 2 (destruct i as [|i]; [injection Hi as <-; cbn; lia|]). lia.
  - match goal with |- context [countb is_zombie ?l] => change (countb is_zombie l) with 0 end.
    intros i j p q Hi Hj Hu1 Hu2 Heq.
    destruct i as [|[|i]], j as [|[|j]]; try lia; injection Hi as <-; injection Hj as <-; discriminate Heq.
Qed.

(** As long as [proc_kill] is called on live processes only, the table stays
    right: a successful [proc_spawn] returns a pid no process in use has, the new
    process is found under it, and no live process is touched; it fails only with 16
    live processes. *)
Theorem proc_spawn_fresh s0 s nm mem lvl r s' :
  proc_init = Ok s0 → star proc_step s0 s → next_pid s < 2 ^ 31 - 1 →
  proc_spawn nm mem lvl s = Ok (r, s') →
  (r = -1 ∧ s' = s ∧ 16 ≤ proc_count s) ∨
  ((∀ j q, proc_table s !! j = Some q → in_use s j → p_pid q ≠ r) ∧
   (∃ q i, proc_get r s' = Some i ∧ proc_table s' !! i = Some q ∧ p_state q = PROC_RUNNING) ∧
   ∀ j q, proc_table s !! j = Some q → in_use s j → p_state q ≠ PROC_ZOMBIE → proc_table s' !! j = Some q).
Proof.
  intros H0 Hrun Hb Hs. destruct proc_init_inv as (s1 & H1 & Hinv1). rewrite H0 in H1. injection H1 as <-.
  assert (procs_inv s) as Hinv by (by eapply star_invariant; [apply proc_step_inv| |]).
  destruct (proc_spawn_spec _ _ _ _ _ _ Hinv Hb Hs) as [?|(_ & -> & Hnew & Hkeep)]; [by left|right].
  split; [|done]. intros j q Hj Hu. pose proof (pi_pids _ Hinv j q Hj Hu). lia.
Qed.

Definition procs0 : procs := match proc_init with Ok s => s | _ => mkProcs [] 0 0 end.

Lemma proc_spawn_fresh_witness :
  ∃ s', proc_spawn (lit "sh") 64 0 procs0 = Ok (2, s') ∧ ∃ q i, proc_get 2 s' = Some i ∧ proc_table s' !! i = Some q.
Proof.
  eexists. split; [vm_compute; reflexivity|].
  edestruct (proc_spawn_fresh procs0 procs0 (lit "sh") 64 0 2) as [(Hr & _)|(_ & (q & i & Hg & Hq & _) & _)];
    [vm_compute; reflexivity|apply star_refl|vm_compute; reflexivity|vm_compute; reflexivity|discriminate Hr|].
  exists q, i. split; [exact Hg|exact Hq].
Defined.

Definition spawned (r : res (Z * procs)) : procs := match r with Ok (_, s) => s | _ => procs0 end.
(** Killing a process that is already dead counts it down again; two spawns later a live
    process has lost its slot: process 3 is gone although nobody killed it. *)
Example proc_kill_twice_loses_process :
  let s1 := spawned (proc_spawn (lit "a") 1 0 procs0) in
  let s2 := spawned (proc_spawn (lit "b") 1 0 s1) in
  let s3 := proc_kill 2 (proc_kill 2 s2) in
  let s4 := spawned (proc_spawn (lit "c") 1 0 s3) in
  let s5 := spawned (proc_spawn (lit "d") 1 0 s4) in
  proc_get 3 s2 = Some 3%nat ∧ proc_get 3 s4 = Some 3%nat ∧ proc_get 3 s5 = None.
Proof. vm_compute. done. Qed.
