(* ===== verification/Signal.v ===== *)
(** * Signals (src/src/signal.c) and the timer (src/src/timer.c)

    The signal table has one entry per possible pid 1 to 16. Sending a signal looks at
    the scheduler's tasks, so the state is the pair of both. Handlers are user code:
    [call h sig] is what running the handler at address [h] does to the state. *)

From S2P Require Import Prelude KString KMalloc Sched Process.

Definition SIGINT : Z := 2.
Definition SIGKILL : Z := 9.
Definition SIGTERM : Z := 15.
Definition SIGCHLD : Z := 17.
Definition SIGCONT : Z := 18.
Definition NSIG : Z := 32.
Definition SIG_DFL : Z := 0.
Definition SIG_IGN : Z := 1.

Record sigset_t := mkSigset { pending : Z; blocked : Z; handlers : list Z }.

Definition sigset_zero : sigset_t := mkSigset 0 0 (replicate 32 0).
Definition set_pending (p : Z) (g : sigset_t) : sigset_t := mkSigset p (blocked g) (handlers g).

Section signals.
Context {H : Type} `{Allocator H}.

Record sigst := mkSig { sg_sched : sched H; proc_signals : list sigset_t }.

Definition set_sched (s : sched H) (st : sigst) : sigst := mkSig s (proc_signals st).
Definition set_signals (l : list sigset_t) (st : sigst) : sigst := mkSig (sg_sched st) l.

(** A scheduler operation. *)
Definition in_sched {A} (m : M (sched H) A) : M sigst A := λ st,
  match m (sg_sched st) with
  | Ok (a, s) => Ok (a, set_sched s st)
  | Fault => Fault
  | Timeout => Timeout
  end.

Definition signal_init : M sigst unit := modify (set_signals (replicate 16 sigset_zero)).

(** The pid of the task [sched_get_task(k)] returns is [p]. *)
Definition got_pid (s : sched H) (k p : Z) : bool :=
  match sched_get_task k s with
  | None => false
  | Some i => match tasks s !! i with Some t => pid t =? p | None => false end
  end.

(** [for (i = 0; i < SCHED_MAX_TASKS; i++) { t = sched_get_task(i+1); if (t && t->pid == pid) ... }];
    0 when the loop finds nothing. *)
Definition sig_idx (s : sched H) (p : Z) : Z :=
  match find_idx (λ i, got_pid s (i + 1) p) (seqZ 0 16) with
  | Some i => Z.of_nat i
  | None => 0
  end.

(** [pid_to_idx] of the source: the same index whatever the task is. *)
Definition pid_to_idx (s : sched H) (p : Z) : Z :=
  if got_pid s p p then 0 else -1.

Definition upd_signals (i : Z) (f : sigset_t → sigset_t) : M sigst unit := λ st,
  g ← arr_get (proc_signals st) i;
  l ← arr_set (proc_signals st) i (f g);
  Ok (tt, set_signals l st).

(** [task->state = TASK_ZOMBIE] on the task [sched_get_task] returns. *)
Definition zap (p : Z) : M sigst unit :=
  st ← get;
  match sched_get_task p (sg_sched st) with
  | None => mret tt
  | Some i => in_sched (upd (Z.of_nat i) (set_state TASK_ZOMBIE))
  end.

Definition signal_send (p sig : Z) : M sigst Z :=
  if (sig <=? 0) || (NSIG <=? sig) then mret (-1)
  else
    st ← get;
    match sched_get_task p (sg_sched st) with
    | None => mret (-1)
    | Some _ =>
        if sig =? SIGKILL then in_sched (sched_exit_code (-1)) ;; mret 0
        else
          upd_signals (sig_idx (sg_sched st) p)
            (λ g, set_pending (Z.lor (pending g) (Z.shiftl 1 sig)) g) ;;
          (if (sig =? SIGINT) || (sig =? SIGTERM) || (sig =? SIGKILL) then zap p else mret tt) ;;
          mret 0
    end.

(** The pid of the current task. *)
Definition cur_pid (s : sched H) : res Z := t ← arr_get (tasks s) (current_idx s); Ok (pid t).

Definition signal_set_handler (sig h : Z) : M sigst Z :=
  if (sig <=? 0) || (NSIG <=? sig) then mret (-1)
  else
    st ← get;
    p ← lift (cur_pid (sg_sched st));
    g ← lift (arr_get (proc_signals st) (sig_idx (sg_sched st) p));
    hs ← lift (arr_set (handlers g) sig h);
    upd_signals (sig_idx (sg_sched st) p) (λ g, mkSigset (pending g) (blocked g) hs) ;;
    mret 0.

Definition unblocked (g : sigset_t) : Z := Z.land (pending g) (Z.lnot (blocked g)).

Section handlers.
Context (call : Z → Z → M sigst unit).

(** The loop of [signal_check]: [n] signals are left from [sig] on; [todo] is the set
    that was pending when it started. *)
Fixpoint check_loop (n : nat) (sig idx todo : Z) : M sigst unit :=
  match n with
  | O => mret tt
  | S n' =>
      if negb (Z.testbit todo sig) then check_loop n' (sig + 1) idx todo
      else
        upd_signals idx (λ g, set_pending (Z.land (pending g) (Z.lnot (Z.shiftl 1 sig))) g) ;;
        st ← get;
        g ← lift (arr_get (proc_signals st) idx);
        h ← lift (arr_get (handlers g) sig);
        if h =? SIG_IGN then check_loop n' (sig + 1) idx todo
        else if h =? SIG_DFL then
          if (sig =? SIGCHLD) || (sig =? SIGCONT) then check_loop n' (sig + 1) idx todo
          else in_sched (sched_exit_code (128 + sig))
        else call h sig ;; check_loop n' (sig + 1) idx todo
  end.

Definition signal_check : M sigst unit :=
  st ← get;
  p ← lift (cur_pid (sg_sched st));
  let idx := sig_idx (sg_sched st) p in
  g ← lift (arr_get (proc_signals st) idx);
  if unblocked g =? 0 then mret tt else check_loop 31 1 idx (unblocked g).
End handlers.

Definition signal_pending : M sigst Z :=
  st ← get;
  p ← lift (cur_pid (sg_sched st));
  g ← lift (arr_get (proc_signals st) (sig_idx (sg_sched st) p));
  mret (if unblocked g =? 0 then 0 else 1).

(** ** The timer *)
Definition PIT_CHANNEL0 : Z := 0x40.
Definition PIT_CMD : Z := 0x43.
Definition PIT_BASE_HZ : Z := 1193180.

(** [t_ports] are the bytes sent to the timer chip, oldest first. *)
Record timer := mkTimer {
  tick_count : Z;
  tick_hz : Z;
  t_ports : list (Z * Z);
  t_procs : procs;
  t_sig : sigst
}.

Definition timer_init (hz : Z) (t : timer) : res timer :=
  if hz =? 0 then Fault
  else
    let divisor := PIT_BASE_HZ / hz in
    Ok (mkTimer 0 hz
          (t_ports t ++ [(PIT_CMD, 0x36); (PIT_CHANNEL0, Z.land divisor 0xFF);
                         (PIT_CHANNEL0, Z.land (Z.shiftr divisor 8) 0xFF)])
          (t_procs t) (t_sig t)).

Definition timer_callback (call : Z → Z → M sigst unit) (t : timer) : res timer :=
  let c := u32 (tick_count t + 1) in
  let t1 := mkTimer c (tick_hz t) (t_ports t) (proc_tick (t_procs t)) (t_sig t) in
  if c mod 10 =? 0 then
    r ← signal_check call (t_sig t1);
    Ok (mkTimer c (tick_hz t) (t_ports t) (t_procs t1) r.2)
  else Ok t1.

Definition timer_ticks (t : timer) : Z := tick_count t.
Definition timer_seconds (t : timer) : res Z :=
  if tick_hz t =? 0 then Fault else Ok (tick_count t / tick_hz t).

(** [timer_sleep] waits for interrupts until the target; [irq] is one of them. *)
Fixpoint sleep_loop (fuel : nat) (irq : timer → res timer) (target : Z) (t : timer) : res timer :=
  if tick_count t <? target then
    match fuel with
    | O => Timeout
    | S fuel' => t' ← irq t; sleep_loop fuel' irq target t'
    end
  else Ok t.
Definition timer_sleep (fuel : nat) (irq : timer → res timer) (ms : Z) (t : timer) : res timer :=
  sleep_loop fuel irq (u32 (tick_count t + u32 (ms * tick_hz t) / 1000)) t.

End signals.
Arguments sigst H : clear implicits.
Arguments timer H : clear implicits.

Section delivery.
Context {H : Type} `{Allocator H}.
Implicit Types (st : sigst H) (s : sched H).

Lemma sched_get_task_Some p s i :
  sched_get_task p s = Some i →
  ∃ t, tasks s !! i = Some t ∧ pid t = p ∧ state t ≠ TASK_DEAD ∧ Z.of_nat i < Z.max 0 (task_count s).
Proof.
  intros (t & [Hlt Ht]%first_tasks_lookup & Hf)%find_idx_lookup. bool_hyps.
  exists t. split_and!; try done. intros E. by rewrite E in *.
Qed.

Lemma got_pid_spec s k p : got_pid s k p = true ↔ is_Some (sched_get_task k s) ∧ k = p.
Proof.
  unfold got_pid. destruct (sched_get_task k s) as [i|] eqn:E; [|naive_solver].
  destruct (sched_get_task_Some _ _ _ E) as (t & Ht & Hp & _). rewrite Ht.
  rewrite Z.eqb_eq. naive_solver.
Qed.

(** The entry of a task with a pid up to 16 is its own; all others share entry 0. *)
Lemma sig_idx_spec s p :
  is_Some (sched_get_task p s) → sig_idx s p = if (1 <=? p) && (p <=? 16) then p - 1 else 0.
Proof.
  intros Hp. unfold sig_idx. destruct (find_idx _ (seqZ 0 16)) as [i|] eqn:E.
  - destruct (find_idx_lookup _ _ _ E) as (k & Hk & Hg). apply lookup_seqZ in Hk as [-> Hlt].
    apply got_pid_spec in Hg as [_ Hkp].
    rewrite (proj2 (Z.leb_le _ _)), (proj2 (Z.leb_le _ _)) by lia. cbn. lia.
  - destruct ((1 <=? p) && (p <=? 16)) eqn:Er; [|done]. bool_hyps. exfalso.
    rewrite find_idx_None in E. specialize (E (p - 1) ltac:(apply elem_of_seqZ; lia)).
    assert (got_pid s (p - 1 + 1) p = true); [|congruence].
    apply got_pid_spec. by replace (p - 1 + 1) with p by lia.
Qed.

Lemma upd_signals_ok i f st g :
  0 ≤ i → proc_signals st !! Z.to_nat i = Some g →
  upd_signals i f st = Ok (tt, set_signals (<[Z.to_nat i := f g]> (proc_signals st)) st).
Proof.
  intros Hi Hg. unfold upd_signals. rewrite (proj2 (arr_get_Ok _ _ _) (conj Hi Hg)). cbn.
  rewrite arr_set_in; [done|]. apply lookup_lt_Some in Hg. lia.
Qed.

Lemma lowest_bit_loop call n sig idx todo k st :
  (∀ j, sig ≤ j < k → Z.testbit todo j = false) → sig ≤ k < sig + Z.of_nat n →
  check_loop call n sig idx todo st =
  check_loop call (Z.to_nat (sig + Z.of_nat n - k)) k idx todo st.
Proof.
  revert sig. induction n as [|n IH]; intros sig Hlow Hk; [lia|].
  destruct (decide (sig = k)) as [->|Hne].
  { by replace (Z.to_nat (k + Z.of_nat (S n) - k)) with (S n) by lia. }
  cbn [check_loop]. rewrite Hlow by lia. cbn. rewrite (IH (sig + 1)); [|intros j Hj; apply Hlow; lia|lia].
  by replace (sig + 1 + Z.of_nat n - k) with (sig + Z.of_nat (S n) - k) by lia.
Qed.

(** A signal reaches the task it is sent to. Sending a signal other than KILL,
    INT and TERM to a live task with a pid up to 16 marks it pending in the task's own
    entry and changes nothing else; when that task is next current and [signal_check]
    runs with the default action and no other signal pending, the task ends with exit
    code 128 + signal (for CHLD and CONT nothing happens). *)
Theorem signal_delivered call p sig st st2 g :
  0 < sig < 32 → sig ≠ SIGKILL → sig ≠ SIGINT → sig ≠ SIGTERM →
  1 ≤ p ≤ 16 → is_Some (sched_get_task p (sg_sched st)) →
  length (proc_signals st) = 16%nat →
  proc_signals st !! Z.to_nat (p - 1) = Some g → pending g = 0 → blocked g = 0 →
  handlers g !! Z.to_nat sig = Some SIG_DFL →
  ∃ st1, signal_send p sig st = Ok (0, st1) ∧ sg_sched st1 = sg_sched st ∧
    (∀ k, k ≠ Z.to_nat (p - 1) → proc_signals st1 !! k = proc_signals st !! k) ∧
    (proc_signals st2 = proc_signals st1 → cur_pid (sg_sched st2) = Ok p →
     is_Some (sched_get_task p (sg_sched st2)) →
     signal_pending st2 = Ok (1, st2) ∧
     let st3 := mkSig (sg_sched st2) (proc_signals st) in
     signal_check call st2 =
       (if (sig =? SIGCHLD) || (sig =? SIGCONT) then Ok (tt, st3)
        else in_sched (sched_exit_code (128 + sig)) st3)).
Proof.
  intros Hsig Hk Hi Ht Hp Hlive Hlen Hg Hpend Hblk Hh.
  set (ix := Z.to_nat (p - 1)) in *.
  assert (∀ s, is_Some (sched_get_task p s) → sig_idx s p = p - 1) as Hidx.
  { intros s Hs. rewrite sig_idx_spec by done.
    by rewrite (proj2 (Z.leb_le _ _)), (proj2 (Z.leb_le _ _)) by lia. }
  set (g1 := set_pending (Z.shiftl 1 sig) g).
  exists (set_signals (<[ix := g1]> (proc_signals st)) st).
  destruct Hlive as [i Hlive]. split; [|split; [done|split]].
  - unfold signal_send, NSIG. rewrite (proj2 (Z.leb_gt _ _)), (proj2 (Z.leb_gt _ _)) by lia. cbn [orb].
    unfold mbind, M_bind, get. rewrite Hlive.
    rewrite (proj2 (Z.eqb_neq sig SIGKILL)), (proj2 (Z.eqb_neq sig SIGINT)), (proj2 (Z.eqb_neq sig SIGTERM)) by done.
    rewrite Hidx by (by eexists). rewrite (upd_signals_ok _ _ _ g) by (done || lia). rewrite Hpend. done.
  - intros k Hne. cbn. by rewrite list_lookup_insert_ne.
  - intros Hs2 Hcur Hlive2. cbn [proc_signals set_signals] in Hs2.
    assert (proc_signals st2 !! Z.to_nat (p - 1) = Some g1) as Hg1.
    { rewrite Hs2. apply list_lookup_insert_eq. by eapply lookup_lt_Some. }
    assert (arr_get (proc_signals st2) (p - 1) = Ok g1) as Hget by (apply arr_get_Ok; split; [lia|done]).
    assert (unblocked g1 = Z.shiftl 1 sig) as Hun.
    { unfold unblocked. cbn. rewrite Hblk. apply Z.land_m1_r. }
    assert (Z.shiftl 1 sig ≠ 0) as Hnz by (rewrite Z.shiftl_1_l; pose proof (Z.pow_pos_nonneg 2 sig); lia).
    unfold signal_pending, signal_check, mbind, M_bind, get, lift.
    rewrite Hcur, Hidx, Hget, Hun by done. rewrite (proj2 (Z.eqb_neq _ _)) by done. split; [done|].
    rewrite (lowest_bit_loop _ _ _ _ _ sig) by
      (try lia; intros j Hj; rewrite Z.shiftl_1_l, Z.pow2_bits_eqb by lia; apply Z.eqb_neq; lia).
    replace (Z.to_nat (1 + Z.of_nat 31 - sig)) with (S (Z.to_nat (31 - sig))) by lia.
    cbn [check_loop]. rewrite Z.shiftl_1_l, Z.pow2_bits_true by lia. cbn [negb].
    unfold mbind, M_bind, get, lift. rewrite (upd_signals_ok _ _ _ g1) by (done || lia).
    assert (set_pending (Z.land (pending g1) (Z.lnot (2 ^ sig))) g1 = g) as Hclear.
    { unfold g1, set_pending. destruct g as [pd bl hs]. cbn in *. subst pd. f_equal.
      by rewrite Z.shiftl_1_l, Z.land_lnot_diag. }
    rewrite Hclear. cbn [proc_signals set_signals]. rewrite Hs2. fold ix.
    rewrite list_insert_insert_eq, (list_insert_id _ _ _ Hg).
    rewrite (proj2 (arr_get_Ok (proc_signals st) (p - 1) g)) by (split; [lia|done]).
    rewrite (proj2 (arr_get_Ok (handlers g) sig SIG_DFL)) by (split; [lia|done]). cbn [Z.eqb SIG_DFL SIG_IGN].
    change (0 =? 1) with false. change (0 =? 0) with true. cbn iota.
    destruct ((sig =? SIGCHLD) || (sig =? SIGCONT)); [|done].
    assert (∀ n j, sig < j → check_loop call n j (p - 1) (2 ^ sig) (mkSig (sg_sched st2) (proc_signals st))
                   = Ok (tt, mkSig (sg_sched st2) (proc_signals st))) as Hrest.
    { intros n. induction n as [|n IH]; intros j Hj; [done|]. cbn [check_loop].
      rewrite Z.pow2_bits_eqb, (proj2 (Z.eqb_neq _ _)) by lia. cbn. apply IH. lia. }
    apply Hrest. lia.
Qed.

(** SIGKILL ends the sender. [signal_send(p, SIGKILL)] for another live task [p]
    runs [sched_exit_code] on the current task: afterwards the caller has ended with
    code -1 and task [p] is still alive. *)
Theorem sigkill_kills_sender p st st' i v :
  sched_inv (sg_sched st) → current_idx (sg_sched st) ≠ 0 →
  sched_get_task p (sg_sched st) = Some i → tasks (sg_sched st) !! i = Some v →
  state v = TASK_READY → Z.of_nat i ≠ current_idx (sg_sched st) →
  signal_send p SIGKILL st = Ok (0, st') →
  (∃ t', tasks (sg_sched st') !! Z.to_nat (current_idx (sg_sched st)) = Some t' ∧
         ended t' = true ∧ exit_code t' = -1) ∧
  (∃ v', tasks (sg_sched st') !! i = Some v' ∧ pid v' = p ∧ ended v' = false).
Proof.
  intros Hinv Hc0 Hget Hv Hst Hne Hsend. set (s := sg_sched st) in *.
  pose proof (inv_wf _ Hinv) as Hw. pose proof (wf_cur _ Hw) as Hcur.
  assert (∃ s', sched_exit_code (-1) s = Ok (tt, s') ∧ sg_sched st' = s') as (s' & Hex & ->).
  { unfold signal_send in Hsend. cbn in Hsend. unfold mbind, M_bind, get in Hsend. fold s in Hsend.
    rewrite Hget in Hsend. unfold in_sched in Hsend. fold s in Hsend.
    destruct (sched_exit_code (-1) s) as [[[] s']| |]; [|done..].
    injection Hsend as <-. by exists s'. }
  destruct (task_at s (current_idx s) Hw) as [t Ht]; [pose proof (wf_count _ Hw); lia|].
  destruct (sched_exit_code_inv _ _ _ _ Hw Ht Hex) as (s1 & t1 & Hq & Hy & Ht1 & He & Hcode & _).
  destruct (sched_yield_spec s1) as (next & s2 & Hy' & Hrr & Hrs); [by eapply quiet_wf|].
  rewrite Hy in Hy'. injection Hy' as <-. split.
  - destruct (resched_kept (Z.to_nat (current_idx s)) (-1) (pid t1) s1 next s' t1) as (t' & ? & ? & ? & _);
      try done; [lia|rewrite (q_count _ _ Hq); lia|]. by exists t'.
  - destruct (q_task _ _ Hq i v Hv) as (v1 & Hv1 & Hp1 & _ & Ho). destruct (Ho Hne) as (_ & Hs1).
    assert (state v1 = TASK_READY) as Hr1.
    { unfold ended in Hs1. rewrite Hst in Hs1. naive_solver. }
    destruct (rs_task _ _ _ Hrs i v1 Hv1) as (u & v' & Hwk & Hv' & (Hid & _) & Hst').
    destruct (woken_same _ _ _ Hwk) as (Hpu & _).
    assert (state u = TASK_READY) as Hru.
    { destruct Hwk as [->| ->]; [done|]. destruct (wake_state (now s1) v1) as [|[? ?]]; congruence. }
    destruct (sched_get_task_Some _ _ _ Hget) as (v0 & Hv0 & Hp0 & _).
    exists v'. split_and!; [done|congruence|]. unfold ended. rewrite Hst', Hru. unfold handover.
    destruct (decide (current_idx s1 = next)); [done|].
    destruct (decide (Z.of_nat i = next)); [done|]. destruct (decide (Z.of_nat i = current_idx s1)); done.
Qed.
End delivery.

Definition worker_sig : sigst kheap := mkSig worker_sched (replicate 16 sigset_zero).

Lemma signal_delivered_witness :
  ∃ st1, signal_send 3 1 worker_sig = Ok (0, st1) ∧ signal_pending st1 = Ok (1, st1) ∧
    signal_check (λ _ _, mret tt) st1 = in_sched (sched_exit_code 129) worker_sig.
Proof.
  assert (∃ st1, signal_send 3 1 worker_sig = Ok (0, st1)) as [st1 H1] by (eexists; vm_compute; reflexivity).
  destruct (signal_delivered (λ _ _, mret tt) 3 1 worker_sig st1 sigset_zero) as (st & Hs & Hsch & _ & Hchk);
    [lia|discriminate|discriminate|discriminate|lia|eexists; vm_compute; reflexivity
    |reflexivity|reflexivity|reflexivity|reflexivity|reflexivity|].
  rewrite H1 in Hs. injection Hs as ->. exists st. split; [exact H1|].
  destruct Hchk as [Hpend Hc]; [reflexivity|rewrite Hsch; vm_compute; reflexivity
    |rewrite Hsch; eexists; vm_compute; reflexivity|].
  split; [exact Hpend|]. rewrite Hc, Hsch. reflexivity.
Defined.

Lemma sigkill_kills_sender_witness :
  ∃ st', signal_send 1 SIGKILL worker_sig = Ok (0, st') ∧
    (∃ t', tasks (sg_sched st') !! 2%nat = Some t' ∧ ended t' = true ∧ exit_code t' = -1) ∧
    (∃ v', tasks (sg_sched st') !! 0%nat = Some v' ∧ pid v' = 1 ∧ ended v' = false).
Proof.
  assert (∃ st', signal_send 1 SIGKILL worker_sig = Ok (0, st')) as [st' H1] by (eexists; vm_compute; reflexivity).
  exists st'. split; [exact H1|].
  eapply (sigkill_kills_sender 1 worker_sig st' 0);
    [exact worker_sched_inv|vm_compute; discriminate|vm_compute; reflexivity|vm_compute; reflexivity
    |vm_compute; reflexivity|vm_compute; discriminate|exact H1].
Defined.

(** Tasks with a pid above 16 use the entry of pid 1: their signals are mixed up. *)
Lemma high_pids_share_entry {H} `{Allocator H} (s : sched H) p :
  16 < p → is_Some (sched_get_task p s) → sig_idx s p = 0.
Proof. intros Hp Hs. rewrite sig_idx_spec by done. destruct (Z.leb_spec p 16); [lia|]. by rewrite andb_false_r. Qed.

(** ** The timer *)

(** With interrupts that only count, [timer_sleep] returns after the ticks it asked for,
    if the counter does not pass 2^32 meanwhile. *)
Lemma timer_sleep_returns {H} `{Allocator H} (irq : timer H → res (timer H)) ms (t : timer H) :
  (∀ u, ∃ u', irq u = Ok u' ∧ tick_count u' = u32 (tick_count u + 1)) →
  0 ≤ tick_count t → let d := u32 (ms * tick_hz t) / 1000 in tick_count t + d < 2 ^ 32 →
  ∃ t', timer_sleep (Z.to_nat d) irq ms t = Ok t' ∧ tick_count t' = tick_count t + d.
Proof.
  intros Hirq Hnn d Hlt. unfold timer_sleep. fold d.
  assert (0 ≤ d) as Hd by (apply Z.div_pos; [pose proof (u32_range (ms * tick_hz t)); lia|lia]).
  rewrite u32_small by lia.
  assert (∀ n u, 0 ≤ tick_count u → tick_count u + Z.of_nat n = tick_count t + d →
    ∃ u', sleep_loop n irq (tick_count t + d) u = Ok u' ∧ tick_count u' = tick_count t + d) as Hloop.
  { induction n as [|n IH]; intros u Hu Heq; cbn [sleep_loop].
    - rewrite (proj2 (Z.ltb_ge _ _)) by lia. exists u. split; [done|lia].
    - rewrite (proj2 (Z.ltb_lt _ _)) by lia. destruct (Hirq u) as (u' & -> & Hc). cbn.
      rewrite u32_small in Hc by lia. apply IH; lia. }
  apply Hloop; lia.
Qed.
