(* ===== verification/Users.v ===== *)
(** * User accounts (src/src/users.c)

    The account table, the password hash and the login. *)

From S2P Require Import Prelude KString Vga.

Definition USER_MAX : Z := 8.
Definition USER_NAME_LEN : Z := 16.

Record user_t := mkUser {
  u_name : list Z;
  pass_hash : list Z;
  uid : Z;
  home : list Z;
  is_root : Z;
  active : Z
}.

Definition user_zero : user_t := mkUser (replicate 16 0) (replicate 32 0) 0 (replicate 32 0) 0 0.

Record accounts := mkAccounts { users : list user_t; current_uid : Z; num_users : Z }.

(** [h] so far; a [char] is sign-extended to 32 bits. *)
Fixpoint hash_loop (s : list Z) (h : Z) : res Z :=
  match s with
  | [] => Fault
  | c :: s' =>
      if c =? 0 then Ok h
      else hash_loop s' (Z.lxor (u32 (u32 (Z.shiftl h 5) + h)) (u32 (schar c)))
  end.
Definition simple_hash (s : list Z) : res Z := hash_loop s 5381.

Definition hexdigit (k : Z) : Z := str "0123456789abcdef" !!! Z.to_nat k.

(** The eight digits, written from [out[7]] down to [out[0]]. *)
Fixpoint hash_digits (n : nat) (h : Z) (acc : list Z) : list Z :=
  match n with
  | O => acc
  | S n' => hash_digits n' (Z.shiftr h 4) (hexdigit (Z.land h 0xF) :: acc)
  end.
(** [out] is an object of at least nine bytes. *)
Definition hash_to_str (h : Z) (out : list Z) : res (list Z) :=
  if (9 <=? length out)%nat then Ok (hash_digits 8 h [] ++ 0 :: drop 9 out) else Fault.

Definition users_add (name pass : list Z) (root : Z) (a : accounts) : res (Z * accounts) :=
  if USER_MAX <=? num_users a then Ok (-1, a)
  else
    u ← arr_get (users a) (num_users a);
    nm ← kstrncpy (u_name u) name (Z.to_nat (USER_NAME_LEN - 1));
    h ← simple_hash pass;
    ph ← hash_to_str h (pass_hash u);
    hm ← kstrcpy (home u) (if root =? 0 then lit "/disk" else lit "/disk");
    l ← arr_set (users a) (num_users a) (mkUser nm ph (u32 (num_users a)) hm root 1);
    Ok (num_users a, mkAccounts l (current_uid a) (num_users a + 1)).

Definition users_init : res accounts :=
  let a := mkAccounts (replicate 8 user_zero) 0 0 in
  r ← users_add (lit "root") (lit "kumos") 1 a;
  r ← users_add (lit "user") (lit "user") 0 r.2;
  r ← users_add (lit "guest") (lit "") 0 r.2;
  Ok r.2.

(** The first [num_users] entries. *)
Definition first_users (a : accounts) : list user_t := take (Z.to_nat (num_users a)) (users a).

Fixpoint check_pass_loop (name pass : list Z) (l : list user_t) : res Z :=
  match l with
  | [] => Ok (-1)
  | u :: l' =>
      if active u =? 0 then check_pass_loop name pass l'
      else
        d ← kstrcmp (u_name u) name;
        if d =? 0 then
          h ← simple_hash pass;
          hs ← hash_to_str h (replicate 9 0);
          e ← kstrcmp hs (pass_hash u);
          Ok (if e =? 0 then i32 (uid u) else -1)
        else check_pass_loop name pass l'
  end.
Definition users_check_pass (name pass : list Z) (a : accounts) : res Z :=
  check_pass_loop name pass (first_users a).

Definition users_set_current (id : Z) (a : accounts) : accounts := mkAccounts (users a) id (num_users a).

Definition users_login (name pass : list Z) (a : accounts) : res (Z * accounts) :=
  id ← users_check_pass name pass a;
  Ok (id, if 0 <=? id then users_set_current id a else a).

(** The index of the current user, 0 when there is none. *)
Definition users_get_current (a : accounts) : nat :=
  default 0%nat (find_idx (λ u, negb (active u =? 0) && (i32 (uid u) =? current_uid a)) (first_users a)).

Definition list_user (u : user_t) : res (list con) :=
  if active u =? 0 then Ok []
  else
    n ← kstrlen (u_name u);
    Ok ([CDec (uid u); CPuts (lit "    "); CPuts (u_name u)] ++
        replicate (Z.to_nat (10 - n)) (CPutc 32) ++
        [CPuts (if is_root u =? 0 then lit "no    " else lit "yes   "); CPuts (home u); CPutc 10]).
Fixpoint list_users (l : list user_t) : res (list con) :=
  match l with
  | [] => Ok []
  | u :: l' => a ← list_user u; b ← list_users l'; Ok (a ++ b)
  end.
Definition users_list (a : accounts) : res (list con) :=
  b ← list_users (first_users a);
  Ok ([CColor VGA_YELLOW VGA_BLACK; CPuts (lit "
  UID  NAME      ROOT  HOME

"); CColor VGA_WHITE VGA_BLACK] ++ b ++ [CPutc 10]).

(** ** Authentication *)

(** The hash of a string as a number. *)
Definition hash_of (s : list Z) : Z :=
  foldl (λ h c, Z.lxor (u32 (u32 (Z.shiftl h 5) + h)) (u32 (schar c))) 5381 s.

(** An entry holds an account: its name, the hash of its password, its number. *)
Definition account_of (u : user_t) (n : list Z) (h id : Z) : Prop :=
  cstr (u_name u) n ∧ length (pass_hash u) = 32%nat ∧
  pass_hash u = hash_digits 8 h [] ++ 0 :: drop 9 (pass_hash u) ∧ 0 ≤ h < 2 ^ 32 ∧
  uid u = id ∧ 0 ≤ id < 8 ∧ active u = 1.

(** The accounts in use, in order of creation. *)
Definition accounts_rep (a : accounts) (l : list (list Z * Z)) : Prop :=
  length (users a) = 8%nat ∧ num_users a = Z.of_nat (length l) ∧ (length l ≤ 8)%nat ∧
  (∀ i, (length l ≤ i < 8)%nat → users a !! i = Some user_zero) ∧
  ∀ i n h, l !! i = Some (n, h) → ∃ u, users a !! i = Some u ∧ account_of u n h (Z.of_nat i).

(** The first account with the name decides. *)
Fixpoint auth (n : list Z) (h : Z) (l : list (list Z * Z)) (i : Z) : Z :=
  match l with
  | [] => -1
  | (n', h') :: l' => if decide (n' = n) then (if h =? h' then i else -1) else auth n h l' (i + 1)
  end.

Lemma hash_loop_spec s h : nonzero s → hash_loop (s ++ [0]) h =
  Ok (foldl (λ h c, Z.lxor (u32 (u32 (Z.shiftl h 5) + h)) (u32 (schar c))) h s).
Proof.
  intros Hs. revert h. induction Hs as [|c s Hc Hs IH]; intros h; cbn; [done|].
  rewrite (proj2 (Z.eqb_neq _ _)) by done. apply IH.
Qed.

Lemma lxor_u32 a b : 0 ≤ a < 2 ^ 32 → 0 ≤ b < 2 ^ 32 → 0 ≤ Z.lxor a b < 2 ^ 32.
Proof.
  intros Ha Hb. split; [apply Z.lxor_nonneg; lia|].
  destruct (Z.eq_dec (Z.lxor a b) 0) as [->|Hne]; [lia|].
  assert (0 < Z.lxor a b) by (pose proof (proj2 (Z.lxor_nonneg a b)); lia).
  assert (∀ x, 0 ≤ x < 2 ^ 32 → x = x mod 2 ^ 32) as Hm by (intros; rewrite Z.mod_small; lia).
  assert (Z.lxor a b = Z.lxor a b mod 2 ^ 32) as ->; [|apply Z.mod_pos_bound; lia].
  apply Z.bits_inj'. intros i Hi. destruct (Z.lt_ge_cases i 32).
  - by rewrite Z.mod_pow2_bits_low.
  - rewrite Z.mod_pow2_bits_high by lia. rewrite Z.lxor_spec, (Hm a Ha), (Hm b Hb).
    by rewrite !Z.mod_pow2_bits_high by lia.
Qed.

Lemma hash_of_range s : 0 ≤ hash_of s < 2 ^ 32.
Proof.
  unfold hash_of. assert (0 ≤ 5381 < 2 ^ 32) as H0 by lia. revert H0. generalize 5381.
  induction s as [|c s IH]; intros h Hh; cbn; [done|]. apply IH, lxor_u32; apply u32_range.
Qed.

Lemma simple_hash_spec s : nonzero s → simple_hash (s ++ [0]) = Ok (hash_of s).
Proof. apply hash_loop_spec. Qed.

Lemma hexdigit_val k : 0 ≤ k < 16 →
  (if hexdigit k <? 97 then hexdigit k - 48 else hexdigit k - 87) = k ∧ hexdigit k ≠ 0.
Proof.
  intros Hk. assert (k ∈ seqZ 0 16) as Hin by (apply elem_of_seqZ; lia). clear Hk. revert k Hin.
  apply Forall_forall. by repeat (constructor; [by vm_compute|]).
Qed.

(** The digits determine the hash. *)
Lemma hash_digits_acc n h acc : hash_digits n h acc = hash_digits n h [] ++ acc.
Proof.
  revert h acc. induction n as [|n IH]; intros h acc; cbn; [done|].
  rewrite IH, (IH _ [_]). by rewrite <- app_assoc.
Qed.
Lemma hash_digits_length n h acc : length (hash_digits n h acc) = (n + length acc)%nat.
Proof. revert h acc. induction n as [|n IH]; intros h acc; cbn; [done|]. rewrite IH. cbn. lia. Qed.

Lemma land_15 h : Z.land h 15 = h mod 16.
Proof. change 15 with (2 ^ 4 - 1). apply land_low. lia. Qed.

Lemma hash_digits_inj n h h' :
  0 ≤ h < 16 ^ Z.of_nat n → 0 ≤ h' < 16 ^ Z.of_nat n → hash_digits n h [] = hash_digits n h' [] → h = h'.
Proof.
  revert h h'. induction n as [|n IH]; intros h h' Hh Hh' Heq.
  { change (16 ^ Z.of_nat 0) with 1 in *. lia. }
  cbn in Heq. rewrite (hash_digits_acc n (Z.shiftr h 4)), (hash_digits_acc n (Z.shiftr h' 4)) in Heq.
  apply app_inj_2 in Heq as [Heq1 [= Heq2]]; [|done].
  rewrite !land_15 in Heq2.
  pose proof (hexdigit_val (h mod 16) ltac:(apply Z.mod_pos_bound; lia)) as [Hv1 _].
  pose proof (hexdigit_val (h' mod 16) ltac:(apply Z.mod_pos_bound; lia)) as [Hv2 _].
  rewrite Heq2, Hv2 in Hv1. rewrite Nat2Z.inj_succ, Z.pow_succ_r in Hh, Hh' by lia.
  rewrite !Z.shiftr_div_pow2 in Heq1 by lia. change (2 ^ 4) with 16 in Heq1.
  assert (h / 16 = h' / 16) as Hdiv.
  { apply IH; [split; [apply Z.div_pos|apply Z.div_lt_upper_bound]; lia..|done]. }
  pose proof (Z.div_mod h 16). pose proof (Z.div_mod h' 16). lia.
Qed.

Lemma hash_digits_nonzero n h acc : nonzero acc → nonzero (hash_digits n h acc).
Proof.
  revert h acc. induction n as [|n IH]; intros h acc Hacc; cbn; [done|]. apply IH. constructor; [|done].
  rewrite land_15. apply hexdigit_val. apply Z.mod_pos_bound. lia.
Qed.

Lemma hash_cstr h rest : cstr (hash_digits 8 h [] ++ 0 :: rest) (hash_digits 8 h []).
Proof. exists rest. split; [done|]. apply hash_digits_nonzero. constructor. Qed.

Lemma hash_to_str_ok h out :
  (9 ≤ length out)%nat → hash_to_str h out = Ok (hash_digits 8 h [] ++ 0 :: drop 9 out).
Proof. intros Hl. unfold hash_to_str. by rewrite (proj2 (Nat.leb_le _ _) Hl). Qed.

Lemma check_pass_loop_spec n p us l i :
  nonzero n → nonzero p → length us = length l → 0 ≤ i → i + Z.of_nat (length l) ≤ 8 →
  (∀ k m h, l !! k = Some (m, h) → ∃ u, us !! k = Some u ∧ account_of u m h (i + Z.of_nat k)) →
  check_pass_loop (n ++ [0]) (p ++ [0]) us = Ok (auth n (hash_of p) l i).
Proof.
  intros Hn Hp. revert l i. induction us as [|u us IH]; intros [|[m h] l] i Hlen Hi0 Hi8 Hrep; try done.
  destruct (Hrep 0%nat m h eq_refl) as (u' & [= <-] & Hnm & Hl & Hph & Hh & Hid & _ & Hact).
  cbn [check_pass_loop auth]. rewrite Hact. cbn [Z.eqb]. change (1 =? 0) with false. cbn iota.
  destruct (kstrcmp_test (u_name u) (n ++ [0]) m n) as (d & -> & Hd); [done|by apply cstr_arg|].
  cbn [mbind res_bind]. rewrite Hd. destruct (decide (m = n)) as [->|Hne].
  - rewrite bool_decide_true by done. rewrite simple_hash_spec by done. cbn [mbind res_bind].
    rewrite hash_to_str_ok by (cbn; lia). cbn [mbind res_bind replicate drop].
    destruct (kstrcmp_test (hash_digits 8 (hash_of p) [] ++ [0]) (pass_hash u)
      (hash_digits 8 (hash_of p) []) (hash_digits 8 h [])) as (e & -> & He).
    { apply hash_cstr. }
    { rewrite Hph. apply hash_cstr. }
    cbn [mbind res_bind]. rewrite He, Hid. f_equal. rewrite i32_small by lia.
    destruct (Z.eqb_spec (hash_of p) h) as [->|Hneq].
    + rewrite bool_decide_true by done. lia.
    + rewrite bool_decide_false; [done|]. intros Heq. apply Hneq.
      apply (hash_digits_inj 8); [apply hash_of_range|done|done].
  - rewrite bool_decide_false by done. apply IH; [by injection Hlen|lia|cbn [length] in Hi8; lia|].
    intros k m' h' Hk. destruct (Hrep (S k) m' h' Hk) as (v & Hv & Hacc). exists v. split; [done|].
    by replace (i + 1 + Z.of_nat k) with (i + Z.of_nat (S k)) by lia.
Qed.

Lemma accounts_in_use a l :
  accounts_rep a l → length (first_users a) = length l ∧
  ∀ k n h, l !! k = Some (n, h) → ∃ u, first_users a !! k = Some u ∧ account_of u n h (0 + Z.of_nat k).
Proof.
  intros (Hlen & Hnum & Hle & _ & Hrep). unfold first_users. rewrite Hnum, Nat2Z.id. split.
  - rewrite length_take. lia.
  - intros k n h Hk. destruct (Hrep k n h Hk) as (u & Hu & Hacc). exists u.
    split; [|done]. rewrite lookup_take_lt; [done|]. by eapply lookup_lt_Some.
Qed.

(** Adding an account. *)
Lemma users_add_spec n p root a l :
  accounts_rep a l → nonzero n → nonzero p → (length n < 16)%nat → (length l < 8)%nat →
  ∃ a', users_add (n ++ [0]) (p ++ [0]) root a = Ok (Z.of_nat (length l), a') ∧
    accounts_rep a' (l ++ [(n, hash_of p)]) ∧ current_uid a' = current_uid a.
Proof.
  intros (Hlen & Hnum & Hle & Hzero & Hrep) Hn Hp Hnl Hl. unfold users_add, USER_MAX, USER_NAME_LEN.
  rewrite (proj2 (Z.leb_gt _ _)) by lia. rewrite Hnum.
  assert (users a !! length l = Some user_zero) as Hz by (apply Hzero; lia).
  rewrite (arr_get_nat _ _ user_zero) by done. cbn [mbind res_bind u_name pass_hash home user_zero].
  rewrite (kstrncpy_cstr _ _ n) by (by apply cstr_arg || (rewrite length_replicate; lia)). cbn [mbind res_bind].
  rewrite simple_hash_spec by done. cbn [mbind res_bind].
  rewrite hash_to_str_ok by (rewrite length_replicate; lia). cbn [mbind res_bind].
  assert (∃ hm, kstrcpy (replicate 32 0) (if root =? 0 then lit "/disk" else lit "/disk") = Ok hm) as [hm ->]
    by (destruct (root =? 0); eexists; vm_compute; reflexivity).
  cbn [mbind res_bind]. rewrite arr_set_in by lia. cbn [mbind res_bind]. rewrite Nat2Z.id.
  eexists. split; [done|]. split; [|done]. unfold accounts_rep. cbn [users num_users].
  rewrite length_insert, length_app. cbn [length]. split_and!; [done|lia|lia| |].
  - intros i Hi. rewrite list_lookup_insert_ne by lia. apply Hzero. lia.
  - intros i m h Hi. destruct (decide (i = length l)) as [->|Hne].
    + rewrite list_lookup_middle in Hi by done. injection Hi as <- <-.
      eexists. split; [apply list_lookup_insert_eq; lia|].
      split_and!; cbn [u_name pass_hash uid active]; try done.
      * rewrite take_ge by lia. change (Z.to_nat (16 - 1)) with 15%nat.
        destruct (15 - length n)%nat as [|k] eqn:E; cbn [replicate app].
        -- by exists [].
        -- by eexists.
      * apply hash_of_range.
      * apply hash_of_range.
      * apply u32_small. lia.
      * lia.
      * lia.
    + rewrite lookup_app_l in Hi by (apply lookup_lt_Some in Hi; rewrite length_app in Hi; cbn in Hi; lia).
      destruct (Hrep i m h Hi) as (u & Hu & Hacc). exists u. by rewrite list_lookup_insert_ne.
Qed.

(** Login succeeds exactly with the right name and password hash. With the
    accounts [l] in the table, [users_check_pass] returns the number of the first
    account of that name if its stored hash is the hash of the password and -1
    otherwise; [users_login] makes that account current, and leaves the current user
    alone when the check fails; adding an account and logging in with its name and
    password succeeds when the name is new. *)
Theorem login_correct n p root a l :
  accounts_rep a l → nonzero n → nonzero p →
  users_check_pass (n ++ [0]) (p ++ [0]) a = Ok (auth n (hash_of p) l 0) ∧
  (∃ a', users_login (n ++ [0]) (p ++ [0]) a = Ok (auth n (hash_of p) l 0, a') ∧
     accounts_rep a' l ∧
     current_uid a' = (if 0 <=? auth n (hash_of p) l 0 then auth n (hash_of p) l 0 else current_uid a)) ∧
  ((length n < 16)%nat → (length l < 8)%nat → n ∉ l.*1 →
   ∃ a' a'', users_add (n ++ [0]) (p ++ [0]) root a = Ok (Z.of_nat (length l), a') ∧
     users_login (n ++ [0]) (p ++ [0]) a' = Ok (Z.of_nat (length l), a'') ∧
     current_uid a'' = Z.of_nat (length l)).
Proof.
  intros Hrep Hn Hp.
  assert (∀ a l, accounts_rep a l → users_check_pass (n ++ [0]) (p ++ [0]) a = Ok (auth n (hash_of p) l 0)) as Hchk.
  { clear Hrep. intros b k Hb. unfold users_check_pass. destruct (accounts_in_use b k Hb) as [Hlen Hin].
    apply (check_pass_loop_spec n p _ k 0 Hn Hp Hlen); [lia| |done].
    destruct Hb as (_ & _ & ? & _). lia. }
  split; [by apply Hchk|]. split.
  - unfold users_login. rewrite (Hchk a l Hrep). cbn [mbind res_bind]. eexists. split; [done|].
    case_if; by split.
  - intros Hnl Hll Hnew. destruct (users_add_spec n p root a l Hrep Hn Hp Hnl Hll) as (a' & Hadd & Hrep' & _).
    assert (∀ k i, n ∉ k.*1 → auth n (hash_of p) (k ++ [(n, hash_of p)]) i = i + Z.of_nat (length k)) as Hauth.
    { induction k as [|[m h] k IH]; intros i Hi; cbn [app auth length].
      - rewrite decide_True, Z.eqb_refl by done. lia.
      - cbn in Hi. apply not_elem_of_cons in Hi as [Hne Hi].
        rewrite decide_False by done. rewrite IH by done. lia. }
    exists a', (users_set_current (Z.of_nat (length l)) a'). split; [done|].
    unfold users_login. rewrite (Hchk a' _ Hrep'), Hauth by done. cbn [mbind res_bind].
    rewrite Z.add_0_l, (proj2 (Z.leb_le _ _)) by lia. done.
Qed.

Lemma no_accounts_rep : accounts_rep (mkAccounts (replicate 8 user_zero) 0 0) [].
Proof.
  split_and!; try done; [cbn; lia|]. intros i Hi. apply lookup_replicate. split; [done|]. cbn in Hi. lia.
Qed.

Lemma login_correct_witness :
  ∃ a' a'', users_add (lit "ann") (lit "pw") 0 (mkAccounts (replicate 8 user_zero) 0 0) = Ok (0, a') ∧
    users_login (lit "ann") (lit "pw") a' = Ok (0, a'') ∧ current_uid a'' = 0.
Proof.
  destruct (login_correct (str "ann") (str "pw") 0 _ _ no_accounts_rep) as (_ & _ & Hadd).
  - by repeat constructor.
  - by repeat constructor.
  - apply Hadd; [by apply Nat.ltb_lt|by apply Nat.ltb_lt|]. apply not_elem_of_nil.
Defined.
