(* ===== verification/Dmesg.v ===== *)
(** * The kernel log (src/src/dmesg.c)

    A ring of 16 KiB indexed by a running counter. The timer's ticks and frequency are
    arguments of the operations that stamp a line. The arguments of [dmesg_printf] are a
    list; reading one of another type than the conversion's, or one too many, is a
    fault. *)

From S2P Require Import Prelude KString Vga.

Definition DMESG_BUF : Z := 16384.

Record dmesg := mkDmesg { dmesg_buf : list Z; dmesg_head : Z; dmesg_count : Z }.

Definition dmesg_init : dmesg := mkDmesg (replicate (Z.to_nat 16384) 0) 0 0.

Definition append1 (c : Z) (d : dmesg) : res dmesg :=
  b ← arr_set (dmesg_buf d) (dmesg_head d mod DMESG_BUF) c;
  Ok (mkDmesg b (u32 (dmesg_head d + 1)) (u32 (dmesg_count d + 1))).

Fixpoint buf_append (s : list Z) (d : dmesg) : res dmesg :=
  match s with
  | [] => Fault
  | c :: s' => if c =? 0 then Ok d else d' ← append1 c d; buf_append s' d'
  end.

(** The decimal digits in [tmp[8]]: seven cells are free for them. *)
Definition stamp_digits (v : Z) : res (list Z) :=
  if v =? 0 then Ok (lit "0") else ds ← dec_digits 7 v []; Ok (ds ++ [0]).

Definition dmesg_log (ticks hz : Z) (msg : list Z) (d : dmesg) : res dmesg :=
  if hz =? 0 then Fault
  else
    let sec := ticks / hz in
    let ms := (ticks mod 100) * 10 in
    t ← stamp_digits sec;
    d ← buf_append (lit "[") d;
    d ← buf_append t d;
    d ← buf_append (lit ".") d;
    d ← (if ms <? 100 then buf_append (lit "0") d else Ok d);
    d ← (if ms <? 10 then buf_append (lit "0") d else Ok d);
    t ← stamp_digits ms;
    d ← buf_append t d;
    d ← buf_append (lit "] ") d;
    d ← buf_append msg d;
    n ← kstrlen msg;
    c ← arr_get msg (n - 1);
    if c =? 10 then Ok d else buf_append (lit "
") d.

(** ** Formatted messages *)
Inductive va_arg := AStr (s : option (list Z)) | AInt (v : Z).

(** [buf[pos++] = c] for each character. *)
Fixpoint put_all (cs : list Z) (buf : list Z) (pos : Z) : res (list Z * Z) :=
  match cs with
  | [] => Ok (buf, pos)
  | c :: cs' => b ← arr_set buf pos c; put_all cs' b (pos + 1)
  end.
(** The copy of a string argument, up to its end or position 254. *)
Fixpoint put_str (s : list Z) (buf : list Z) (pos : Z) : res (list Z * Z) :=
  match s with
  | [] => Fault
  | c :: s' =>
      if negb (c =? 0) && (pos <? 254) then b ← arr_set buf pos c; put_str s' b (pos + 1)
      else Ok (buf, pos)
  end.
(** The digits of an unsigned value; [t] has eleven cells for them. *)
Definition udigits (u : Z) : res (list Z) := if u =? 0 then Ok [48] else dec_digits 11 u [].
Fixpoint xdigits_loop (room : nat) (u : Z) (acc : list Z) : res (list Z) :=
  if u =? 0 then Ok acc
  else match room with
       | O => Fault
       | S room' => xdigits_loop room' (Z.shiftr u 4)
                      ((str "0123456789abcdef" !!! Z.to_nat (Z.land u 0xF)) :: acc)
       end.
Definition xdigits (u : Z) : res (list Z) := if u =? 0 then Ok [48] else xdigits_loop 11 u [].

Definition int_arg (l : list va_arg) : res (Z * list va_arg) :=
  match l with AInt v :: l' => Ok (v, l') | _ => Fault end.

(** One conversion; any other character is skipped. *)
Definition convert (f : Z) (args : list va_arg) (buf : list Z) (pos : Z) : res (list Z * Z * list va_arg) :=
  if f =? 115 then
    match args with
    | AStr s :: l => p ← put_str (default (lit "") s) buf pos; Ok (p, l)
    | _ => Fault
    end
  else if f =? 100 then
    a ← int_arg args;
    let d := i32 a.1 in
    p ← (if d <? 0 then put_all [45] buf pos else Ok (buf, pos));
    ds ← udigits (u32 (Z.abs d));
    q ← put_all ds p.1 p.2; Ok (q, a.2)
  else if f =? 117 then
    a ← int_arg args; ds ← udigits (u32 a.1); q ← put_all ds buf pos; Ok (q, a.2)
  else if f =? 120 then
    a ← int_arg args; ds ← xdigits (u32 a.1); q ← put_all ds buf pos; Ok (q, a.2)
  else if f =? 99 then
    a ← int_arg args; q ← put_all [u8 a.1] buf pos; Ok (q, a.2)
  else Ok (buf, pos, args).

(** The loop: after a [%] the next character of the format is consumed whatever it is,
    the terminator included. *)
Fixpoint format_loop (n : nat) (fmt : list Z) (args : list va_arg) (buf : list Z) (pos : Z) : res (list Z * Z) :=
  match n, fmt with
  | O, _ => Timeout
  | _, [] => Fault
  | S n', c :: fmt' =>
      if negb (c =? 0) && (pos <? 254) then
        if c =? 37 then
          match fmt' with
          | [] => Fault
          | f :: fmt'' => q ← convert f args buf pos; format_loop n' fmt'' q.2 q.1.1 q.1.2
          end
        else b ← arr_set buf pos c; format_loop n' fmt' args b (pos + 1)
      else Ok (buf, pos)
  end.

Definition dmesg_printf (ticks hz : Z) (fmt : list Z) (args : list va_arg) (d : dmesg) : res dmesg :=
  p ← format_loop (S (length fmt)) fmt args (replicate 256 0) 0;
  b ← arr_set p.1 p.2 0;
  dmesg_log ticks hz b d.

(** ** Reading *)
Definition log_start (d : dmesg) : Z :=
  if DMESG_BUF <? dmesg_count d then dmesg_head d mod DMESG_BUF else 0.
Definition log_total (d : dmesg) : Z :=
  if DMESG_BUF <? dmesg_count d then DMESG_BUF else dmesg_head d.

(** [n] bytes from position [i] of the log on. *)
Fixpoint print_loop (n : nat) (start i : Z) (d : dmesg) : res (list con) :=
  match n with
  | O => Ok []
  | S n' =>
      c ← arr_get (dmesg_buf d) (u32 (start + i) mod DMESG_BUF);
      r ← print_loop n' start (i + 1) d;
      Ok (if c =? 0 then r else CPutc c :: r)
  end.
Definition dmesg_print_all (d : dmesg) : res (list con) :=
  print_loop (Z.to_nat (log_total d)) (log_start d) 0 d.

Fixpoint read_loop (n : nat) (start i : Z) (d : dmesg) (dst : list Z) : res (list Z) :=
  match n with
  | O => Ok dst
  | S n' =>
      c ← arr_get (dmesg_buf d) (u32 (start + i) mod DMESG_BUF);
      dst' ← arr_set dst i c;
      read_loop n' start (i + 1) d dst'
  end.
Definition dmesg_read (dst : list Z) (sz : Z) (d : dmesg) : res (Z * list Z) :=
  let total := if sz <=? log_total d then u32 (sz - 1) else log_total d in
  dst ← read_loop (Z.to_nat total) (log_start d) 0 d dst;
  dst ← arr_set dst total 0;
  Ok (i32 total, dst).

(** ** The log as a history of bytes *)

(** The ring holds the last 16384 bytes of everything that was appended. *)
Record logged (d : dmesg) (L : list Z) : Prop := {
  lg_len : length (dmesg_buf d) = Z.to_nat 16384;
  lg_head : dmesg_head d = Z.of_nat (length L);
  lg_count : dmesg_count d = Z.of_nat (length L);
  lg_small : Z.of_nat (length L) < 2 ^ 32;
  lg_cells : ∀ k c, L !! k = Some c → Z.of_nat (length L) ≤ Z.of_nat k + 16384 →
    dmesg_buf d !! Z.to_nat (Z.of_nat k mod 16384) = Some c
}.

(** The bytes still in the ring, oldest first. *)
Definition window (L : list Z) : list Z := drop (length L - Z.to_nat 16384) L.

Lemma append1_spec c d L :
  logged d L → Z.of_nat (length L) + 1 < 2 ^ 32 →
  ∃ d', append1 c d = Ok d' ∧ logged d' (L ++ [c]).
Proof.
  intros [Hl Hh Hc Hs Hcells] Hb. unfold append1, DMESG_BUF.
  pose proof (Z.mod_pos_bound (dmesg_head d) 16384) as Hm.
  rewrite arr_set_in by lia. cbn [mbind res_bind]. eexists. split; [done|].
  rewrite Hh in Hm. rewrite Hh, Hc. constructor; cbn [dmesg_buf dmesg_head dmesg_count]; rewrite ?length_app, ?length_insert; cbn [length].
  - done.
  - rewrite u32_small; lia.
  - rewrite u32_small; lia.
  - lia.
  - intros k c' Hk Hrec. destruct (decide (k = length L)) as [->|Hne].
    + rewrite list_lookup_middle in Hk by done. injection Hk as <-. apply list_lookup_insert_eq.
      rewrite Hl. lia.
    + pose proof (lookup_lt_Some _ _ _ Hk) as Hlt. rewrite length_app in Hlt. cbn in Hlt.
      rewrite lookup_app_l in Hk by lia.
      rewrite list_lookup_insert_ne; [apply Hcells; [done|lia]|].
      pose proof (Z.mod_pos_bound (Z.of_nat k) 16384).
      intros Heq. apply Z2Nat.inj in Heq; [|lia..].
      pose proof (Z.div_mod (Z.of_nat (length L)) 16384). pose proof (Z.div_mod (Z.of_nat k) 16384). lia.
Qed.

Lemma buf_append_spec s rest d L :
  nonzero s → logged d L → Z.of_nat (length L + length s) < 2 ^ 32 →
  ∃ d', buf_append (s ++ 0 :: rest) d = Ok d' ∧ logged d' (L ++ s).
Proof.
  intros Hs. revert d L. induction Hs as [|c s Hc Hs IH]; intros d L Hd Hb; cbn [app buf_append].
  { exists d. rewrite app_nil_r. done. }
  rewrite (proj2 (Z.eqb_neq _ _)) by done. cbn [length] in Hb.
  destruct (append1_spec c d L Hd) as (d1 & -> & Hd1); [lia|]. cbn [mbind res_bind].
  destruct (IH d1 (L ++ [c]) Hd1) as (d2 & -> & Hd2); [rewrite length_app; cbn; lia|].
  exists d2. split; [done|]. by rewrite <- app_assoc in Hd2.
Qed.

(** Reading position [i] of the window. *)
Lemma window_cell d L i :
  logged d L → 0 ≤ i < Z.of_nat (length (window L)) →
  ∃ c, arr_get (dmesg_buf d) (u32 (log_start d + i) mod DMESG_BUF) = Ok c ∧ window L !! Z.to_nat i = Some c.
Proof.
  intros [Hl Hh Hc Hs Hcells] Hi. unfold window in *. rewrite length_drop in Hi.
  destruct (lookup_lt_is_Some_2 L (length L - Z.to_nat 16384 + Z.to_nat i)) as [c Hk]; [lia|].
  exists c. rewrite lookup_drop. split; [|done].
  assert (u32 (log_start d + i) mod 16384 = Z.of_nat (length L - Z.to_nat 16384 + Z.to_nat i) mod 16384) as Heq.
  { unfold log_start, DMESG_BUF. rewrite Hc, Hh. destruct (Z.ltb_spec 16384 (Z.of_nat (length L))).
    - pose proof (Z.mod_pos_bound (Z.of_nat (length L)) 16384).
      rewrite u32_small by lia. rewrite Z.add_mod_idemp_l by lia.
      replace (Z.of_nat (length L) + i) with (Z.of_nat (length L - Z.to_nat 16384 + Z.to_nat i) + 1 * 16384) by lia.
      apply Z_mod_plus_full.
    - rewrite u32_small by lia. f_equal. lia. }
  unfold DMESG_BUF. rewrite Heq. apply arr_get_Ok.
  pose proof (Z.mod_pos_bound (Z.of_nat (length L - Z.to_nat 16384 + Z.to_nat i)) 16384).
  split; [lia|]. apply Hcells; [done|]. lia.
Qed.

Lemma log_total_window d L : logged d L → log_total d = Z.of_nat (length (window L)).
Proof.
  intros [Hl Hh Hc Hs Hcells]. unfold log_total, window, DMESG_BUF. rewrite Hc, Hh, length_drop.
  destruct (Z.ltb_spec 16384 (Z.of_nat (length L))); lia.
Qed.

Lemma read_loop_spec n d L i dst :
  logged d L → 0 ≤ i → i + Z.of_nat n ≤ Z.of_nat (length (window L)) →
  i + Z.of_nat n ≤ Z.of_nat (length dst) →
  read_loop n (log_start d) i d dst =
    Ok (take (Z.to_nat i) dst ++ take n (drop (Z.to_nat i) (window L)) ++ drop (Z.to_nat i + n) dst).
Proof.
  intros Hd. revert i dst. induction n as [|n IH]; intros i dst Hi Hw Hdst; cbn [read_loop].
  { by rewrite take_0, Nat.add_0_r, app_nil_l, take_drop. }
  destruct (window_cell d L i Hd ltac:(lia)) as (c & -> & Hc). cbn [mbind res_bind].
  rewrite arr_set_in by lia. cbn [mbind res_bind].
  rewrite IH by (rewrite ?length_insert; lia). f_equal.
  replace (Z.to_nat (i + 1)) with (S (Z.to_nat i)) by lia.
  rewrite (drop_S (window L) c (Z.to_nat i)) by done. cbn [take].
  rewrite (take_S_r _ _ c) by (apply list_lookup_insert_eq; lia).
  rewrite take_insert_ge by lia. rewrite drop_insert_lt by lia.
  rewrite <- app_assoc. cbn [app]. by replace (S (Z.to_nat i) + n)%nat with (Z.to_nat i + S n)%nat by lia.
Qed.

(** The log is a window on its history. Everything [buf_append] is given is
    appended to the history, and [dmesg_read] returns the beginning of the last 16384
    bytes of it, as many as fit, with a terminator, and touches nothing of the
    destination beyond. *)
Theorem dmesg_window s rest d L dst sz :
  logged d L → nonzero s → Z.of_nat (length L + length s) < 2 ^ 32 →
  0 < sz < 2 ^ 31 → sz ≤ Z.of_nat (length dst) →
  ∃ d', buf_append (s ++ 0 :: rest) d = Ok d' ∧ logged d' (L ++ s) ∧
    let out := take (Z.to_nat (sz - 1)) (window (L ++ s)) in
    dmesg_read dst sz d' =
      Ok (Z.of_nat (length out), out ++ 0 :: drop (S (length out)) dst).
Proof.
  intros Hd Hs Hb Hsz Hdst. destruct (buf_append_spec s rest d L Hs Hd Hb) as (d' & Hrun & Hd').
  exists d'. split; [done|]. split; [done|]. intros out. unfold dmesg_read.
  rewrite (log_total_window _ _ Hd'). set (W := window (L ++ s)) in *.
  assert (Z.of_nat (length W) ≤ 16384) as HW by (unfold W, window; rewrite length_drop; lia).
  assert ((if sz <=? Z.of_nat (length W) then u32 (sz - 1) else Z.of_nat (length W)) = Z.of_nat (length out)) as ->.
  { unfold out. rewrite length_take. destruct (Z.leb_spec sz (Z.of_nat (length W))); [rewrite u32_small by lia|]; lia. }
  assert ((length out ≤ length W)%nat ∧ Z.of_nat (length out) < sz) as [Ho1 Ho2] by (unfold out; rewrite length_take; lia).
  rewrite (read_loop_spec _ _ (L ++ s)) by (done || (fold W; lia)). fold W.
  cbn [mbind res_bind]. rewrite Nat2Z.id.
  change (Z.to_nat 0) with 0%nat. rewrite take_0, drop_0, app_nil_l, Nat.add_0_l.
  assert (take (length out) W = out) as Hout.
  { unfold out. rewrite length_take. destruct (decide (Z.to_nat (sz - 1) ≤ length W)%nat).
    - by rewrite Nat.min_l.
    - by rewrite !take_ge by lia. }
  rewrite Hout, arr_set_in by (rewrite length_app, length_drop; lia). cbn [mbind res_bind].
  rewrite i32_small by lia. do 2 f_equal. rewrite Nat2Z.id, insert_app_r_alt by lia.
  rewrite Nat.sub_diag. f_equal.
  destruct (drop (length out) dst) as [|x r] eqn:E.
  { apply (f_equal length) in E. rewrite length_drop in E. cbn in E. lia. }
  cbn. f_equal. rewrite <- Nat.add_1_r, <- drop_drop, E. done.
Qed.

Lemma dmesg_init_logged : logged dmesg_init [].
Proof. by constructor. Qed.

Lemma dmesg_window_witness :
  ∃ d', buf_append (lit "hello") dmesg_init = Ok d' ∧
    dmesg_read (replicate 8 7) 4 d' = Ok (3, str "hel" ++ [0; 7; 7; 7; 7]).
Proof.
  destruct (dmesg_window (str "hello") [] dmesg_init [] (replicate 8 7) 4 dmesg_init_logged)
    as (d' & Hrun & _ & Hread).
  - by repeat constructor.
  - vm_compute. reflexivity.
  - lia.
  - vm_compute. discriminate.
  - exists d'. split; [exact Hrun|exact Hread].
Defined.

(** A number conversion near the end of the 256-byte buffer writes past it: the room is
    tested once per conversion only. *)
Example dmesg_printf_overruns :
  dmesg_printf 0 100 (replicate 253 120 ++ lit "%u") [AInt 4000000000] dmesg_init = Fault.
Proof. vm_compute. reflexivity. Qed.

(** The stamp buffer holds seven digits: the log faults after ten million seconds. *)
Example dmesg_log_long_uptime : dmesg_log (10000000 * 100) 100 (lit "x") dmesg_init = Fault.
Proof. vm_compute. reflexivity. Qed.

(** The last character of an empty message is looked for before its beginning. *)
Example dmesg_log_empty : dmesg_log 0 100 (lit "") dmesg_init = Fault.
Proof. vm_compute. reflexivity. Qed.
