(* ===== verification/Keyboard.v ===== *)
(** * The keyboard driver (src/src/keyboard.c)

    The character queue, the modifier state and the translation of scancodes. [port]
    holds the bytes the keyboard controller has ready: its status register shows the
    output-buffer-full bit exactly when there is one. The dialogue with the
    controller at start-up ([keyboard_init]) is in Controller.v. *)

From S2P Require Import Prelude KString Ring Vga.

Definition KB_BUF : Z := 256.

Record kb := mkKb {
  kbuf : list Z;
  bhead : Z;
  btail : Z;
  shift : bool;
  caps : bool;
  ctrl : bool;
  ext : bool;
  port : list Z
}.

Definition set_mods (sh cp ct ex : bool) (k : kb) : kb :=
  mkKb (kbuf k) (bhead k) (btail k) sh cp ct ex (port k).
Definition set_shift (b : bool) (k : kb) : kb := set_mods b (caps k) (ctrl k) (ext k) k.
Definition set_ctrl (b : bool) (k : kb) : kb := set_mods (shift k) (caps k) b (ext k) k.
Definition set_ext (b : bool) (k : kb) : kb := set_mods (shift k) (caps k) (ctrl k) b k.
Definition set_caps (b : bool) (k : kb) : kb := set_mods (shift k) b (ctrl k) (ext k) k.
Definition set_queue (b : list Z) (h t : Z) (k : kb) : kb :=
  mkKb b h t (shift k) (caps k) (ctrl k) (ext k) (port k).
Definition set_port (p : list Z) (k : kb) : kb :=
  mkKb (kbuf k) (bhead k) (btail k) (shift k) (caps k) (ctrl k) (ext k) p.

(** The translation tables, unlisted entries 0. *)
Definition table (l : list Z) : list Z := take 128 (l ++ replicate 128 0).
Definition sc_lo : list Z := table
  ([0; 27] ++ str "1234567890-=" ++ [8; 9] ++ str "qwertyuiop[]" ++ [10; 0] ++
   str "asdfghjkl;'`" ++ [0] ++ str "\zxcvbnm,./" ++ [0; 42; 0; 32]).
Definition sc_hi : list Z := table
  ([0; 27] ++ str "!@#$%^&*()_+" ++ [8; 9] ++ str "QWERTYUIOP{}" ++ [10; 0] ++
   str "ASDFGHJKL:" ++ [34] ++ str "~" ++ [0] ++ str "|ZXCVBNM<>?" ++ [0; 42; 0; 32]).

(** The key that is [shift]. *)
Definition is_shift (sc : Z) : bool := (sc =? 0x2A) || (sc =? 0x36).

Definition lower (c : Z) : bool := (97 <=? c) && (c <=? 122).
Definition upper (c : Z) : bool := (65 <=? c) && (c <=? 90).

(** [if (next != btail) { buf[bhead] = c; bhead = next; }] *)
Definition enqueue (c : Z) : M kb unit := λ k,
  let next := (bhead k + 1) mod KB_BUF in
  if next =? btail k then Ok (tt, k)
  else b ← arr_set (kbuf k) (bhead k) c; Ok (tt, set_queue b next (btail k) k).

Definition process_scancode (sc : Z) : M kb unit :=
  if (sc =? 0xE0) || (sc =? 0xE1) then modify (set_ext true)
  else if negb (Z.land sc 0x80 =? 0) then
    let sc := Z.land sc 0x7F in
    k ← get;
    (if ext k then mret tt
     else
       (if is_shift sc then modify (set_shift false) else mret tt) ;;
       (if sc =? 0x1D then modify (set_ctrl false) else mret tt)) ;;
    modify (set_ext false)
  else
    k ← get;
    if ext k then
      modify (set_ext false) ;;
      (if sc =? 0x1D then modify (set_ctrl true) else mret tt)
    else if is_shift sc then modify (set_shift true)
    else if sc =? 0x3A then modify (set_caps (negb (caps k)))
    else if sc =? 0x1D then modify (set_ctrl true)
    else if sc =? 0x38 then mret tt
    else if 128 <=? sc then mret tt
    else
      c ← lift (arr_get (if shift k then sc_hi else sc_lo) sc);
      if c =? 0 then mret tt
      else
        let c := if caps k then (if lower c then c - 32 else if upper c then c + 32 else c) else c in
        let c := if ctrl k && lower c then c - 96 else c in
        let c := if ctrl k && upper c then c - 64 else c in
        enqueue c.

Definition take_port : M kb Z := λ k,
  match port k with
  | [] => Fault
  | b :: p => Ok (b, set_port p k)
  end.

Definition kb_irq : M kb unit :=
  k ← get;
  if decide (port k = []) then mret tt else sc ← take_port; process_scancode sc.

Definition dequeue : M kb Z :=
  k ← get;
  c ← lift (arr_get (kbuf k) (btail k));
  modify (set_queue (kbuf k) (bhead k) ((btail k + 1) mod KB_BUF)) ;;
  mret c.

Definition poll_once : M kb Z :=
  k ← get;
  if decide (port k = []) then mret 0
  else
    sc ← take_port;
    if negb (Z.land sc 0x80 =? 0) then
      let sc := Z.land sc 0x7F in
      (if is_shift sc then modify (set_shift false) else mret tt) ;;
      (if sc =? 0x1D then modify (set_ctrl false) else mret tt) ;;
      mret 0
    else
      process_scancode sc ;;
      k ← get;
      if bhead k =? btail k then mret 0 else dequeue.

Definition keyboard_getchar : M kb Z :=
  k ← get;
  if bhead k =? btail k then poll_once else dequeue.

(** [halt n] is what happens while the processor waits for the [n]-th time. *)
Fixpoint keyboard_getchar_blocking (fuel n : nat) (halt : nat → M kb unit) : M kb Z :=
  k ← get;
  if bhead k =? btail k then
    c ← poll_once;
    if c =? 0 then
      match fuel with
      | O => lift Timeout
      | S fuel' => halt n ;; keyboard_getchar_blocking fuel' (S n) halt
      end
    else mret c
  else dequeue.

Definition keyboard_ctrl_held (k : kb) : bool := ctrl k.
Definition keyboard_alt_held (k : kb) : bool := false.
Definition keyboard_has_input (k : kb) : bool := negb (bhead k =? btail k).

(** ** Reading a line, with echo *)
Record tty := mkTty { t_kb : kb; t_vga : vga }.
Definition on_kb {A} (m : M kb A) : M tty A := λ t,
  match m (t_kb t) with Ok (a, k) => Ok (a, mkTty k (t_vga t)) | Fault => Fault | Timeout => Timeout end.
Definition on_vga {A} (m : M vga A) : M tty A := λ t,
  match m (t_vga t) with Ok (a, v) => Ok (a, mkTty (t_kb t) v) | Fault => Fault | Timeout => Timeout end.

Fixpoint getline_loop (fuel : nat) (halt : nat → M kb unit) (out : list Z) (i maxlen : Z)
    : M tty (Z * list Z) :=
  match fuel with
  | O => lift Timeout
  | S fuel' =>
      c ← on_kb (keyboard_getchar_blocking fuel 0 halt);
      if c =? 0 then getline_loop fuel' halt out i maxlen
      else if c =? 10 then
        out' ← lift (arr_set out i 0);
        on_vga (vga_putchar 10) ;; mret (i, out')
      else if c =? 8 then
        if 0 <? i then on_vga (vga_putchar 8) ;; getline_loop fuel' halt out (i - 1) maxlen
        else getline_loop fuel' halt out i maxlen
      else if i <? maxlen - 1 then
        out' ← lift (arr_set out i c);
        on_vga (vga_putchar c) ;; getline_loop fuel' halt out' (i + 1) maxlen
      else getline_loop fuel' halt out i maxlen
  end.
Definition keyboard_getline (fuel : nat) (halt : nat → M kb unit) (out : list Z) (maxlen : Z) : M tty (Z * list Z) :=
  getline_loop fuel halt out 0 maxlen.

(** ** The queue *)
Definition kb_wf (k : kb) : Prop := ring_wf KB_BUF (kbuf k) (bhead k) (btail k).
Definition kb_queue (k : kb) : list Z := ring_list KB_BUF (kbuf k) (bhead k) (btail k).

(** The characters a key press stands for under the modifiers. *)
Definition keymap (sh cp ct : bool) (sc : Z) : Z :=
  let c := (if sh then sc_hi else sc_lo) !!! Z.to_nat sc in
  if ct then
    if lower c then c - 96 else if upper c then c - 64 else c
  else if cp then
    if lower c then c - 32 else if upper c then c + 32 else c
  else c.

(** Keys that are no modifier and have a character. *)
Definition char_key (sc : Z) : Prop :=
  0 ≤ sc < 128 ∧ is_shift sc = false ∧ sc ≠ 0x3A ∧ sc ≠ 0x1D ∧ sc ≠ 0x38.

Lemma kb_empty k : kb_wf k → bhead k = btail k ↔ kb_queue k = [].
Proof.
  intros (HN & Hl & Hh & Ht). unfold kb_queue. split.
  - intros ->. apply ring_list_empty.
  - intros Hq. apply (f_equal (λ l, Z.of_nat (length l))) in Hq. rewrite ring_list_length in Hq by done.
    by apply (ring_count_0 KB_BUF).
Qed.

Lemma enqueue_spec c k :
  kb_wf k →
  ∃ k', enqueue c k = Ok (tt, k') ∧ kb_wf k' ∧
    kb_queue k' = (if (length (kb_queue k) <? 255)%nat then kb_queue k ++ [c] else kb_queue k) ∧
    (shift k', caps k', ctrl k', ext k', port k') = (shift k, caps k, ctrl k, ext k, port k).
Proof.
  intros Hw. pose proof Hw as (HN & Hl & Hh & Ht).
  pose proof (ring_list_length KB_BUF (kbuf k) (bhead k) (btail k) eq_refl) as Hlen.
  pose proof (ring_count_range KB_BUF (bhead k) (btail k) eq_refl) as Hr.
  assert ((bhead k + 1) mod KB_BUF = btail k ↔ ring_count KB_BUF (bhead k) (btail k) = 255) as Hfull.
  { rewrite ring_count_cases, succ_mod_cases by done. unfold KB_BUF in *. repeat case_z; lia. }
  unfold enqueue. change (ring_list KB_BUF (kbuf k) (bhead k) (btail k)) with (kb_queue k) in Hlen.
  destruct (Z.eqb_spec ((bhead k + 1) mod KB_BUF) (btail k)) as [He|He].
  - exists k. split; [done|]. split; [done|]. split; [|done]. apply Hfull in He.
    destruct (Nat.ltb_spec (length (kb_queue k)) 255); [lia|done].
  - rewrite arr_set_in by lia. cbn [mbind res_bind]. eexists. split; [done|].
    split; [by apply ring_wf_push|]. split; [|done].
    assert (ring_count KB_BUF (bhead k) (btail k) < 255) as Hlt.
    { unfold KB_BUF in *. assert (ring_count 256 (bhead k) (btail k) ≠ 255) by tauto. lia. }
    destruct (Nat.ltb_spec (length (kb_queue k)) 255); [|lia].
    apply ring_push; [done|]. unfold KB_BUF in *. lia.
Qed.

Lemma dequeue_spec c q k :
  kb_wf k → kb_queue k = c :: q →
  ∃ k', dequeue k = Ok (c, k') ∧ kb_wf k' ∧ kb_queue k' = q ∧
    (shift k', caps k', ctrl k', ext k', port k') = (shift k, caps k, ctrl k, ext k, port k).
Proof.
  intros Hw Hq. pose proof Hw as (HN & Hl & Hh & Ht).
  assert (bhead k ≠ btail k) as Hne by (intros E; apply (kb_empty k Hw) in E; congruence).
  unfold kb_queue in Hq. rewrite (ring_pop KB_BUF _ _ _ Hw Hne) in Hq. injection Hq as Hc Hq.
  destruct (lookup_lt_is_Some_2 (kbuf k) (Z.to_nat (btail k))) as [x Hx]; [lia|].
  rewrite (list_lookup_total_correct _ _ _ Hx) in Hc. subst x.
  unfold dequeue, mbind, M_bind, get, lift. rewrite (proj2 (arr_get_Ok _ _ _) (conj (proj1 Ht) Hx)).
  eexists. split; [done|]. split; [by apply ring_wf_pop|]. by split.
Qed.

Lemma sc_entry (sh : bool) sc :
  0 ≤ sc < 128 → arr_get (if sh then sc_hi else sc_lo) sc = Ok ((if sh then sc_hi else sc_lo) !!! Z.to_nat sc).
Proof.
  intros Hsc. apply arr_get_Ok. split; [lia|]. apply list_lookup_lookup_total_lt.
  destruct sh; change (length _) with 128%nat; lia.
Qed.

Lemma make_code sc : 0 ≤ sc < 128 → Z.land sc 0x80 = 0.
Proof.
  intros Hsc. apply Z.bits_inj'. intros i Hi. rewrite Z.land_spec, Z.bits_0.
  destruct (decide (i = 7)) as [->|Hne].
  - apply andb_false_intro1. apply Z.testbit_false; [lia|]. rewrite Z.div_small by (change (2 ^ 7) with 128; lia). done.
  - apply andb_false_intro2. change 128 with (2 ^ 7). rewrite Z.pow2_bits_eqb by lia. apply Z.eqb_neq. lia.
Qed.

(** A key press puts the character of the key under the current modifiers at the
    end of the queue, unless 255 characters are waiting already, and changes no
    modifier; [keyboard_getchar] takes the oldest character. So characters are read in
    the order the keys were pressed. *)
Theorem keyboard_fifo sc k q c :
  kb_wf k → char_key sc → ext k = false → keymap (shift k) (caps k) (ctrl k) sc = c → c ≠ 0 →
  kb_queue k = q →
  ∃ k', process_scancode sc k = Ok (tt, k') ∧ kb_wf k' ∧
    kb_queue k' = (if (length q <? 255)%nat then q ++ [c] else q) ∧
    (shift k', caps k', ctrl k', ext k', port k') = (shift k, caps k, ctrl k, ext k, port k) ∧
    ∃ c0 q0 k'', kb_queue k' = c0 :: q0 ∧ keyboard_getchar k' = Ok (c0, k'') ∧ kb_wf k'' ∧ kb_queue k'' = q0.
Proof.
  intros Hw (Hsc & Hsh & Hcaps & Hctrl & Halt) Hext Hmap Hc0 Hq.
  assert (∃ c1, (if shift k then sc_hi else sc_lo) !!! Z.to_nat sc = c1) as [c1 Hc1] by eauto.
  assert (process_scancode sc k = if c1 =? 0 then Ok (tt, k) else enqueue c k) as ->.
  { unfold process_scancode.
    rewrite (proj2 (Z.eqb_neq sc 0xE0)), (proj2 (Z.eqb_neq sc 0xE1)) by lia. cbn [orb].
    rewrite make_code by done. change (negb (0 =? 0)) with false. cbn iota.
    unfold mbind, M_bind, get, lift. rewrite Hext, Hsh.
    rewrite (proj2 (Z.eqb_neq sc 0x3A)), (proj2 (Z.eqb_neq sc 0x1D)), (proj2 (Z.eqb_neq sc 0x38)) by done.
    rewrite (proj2 (Z.leb_gt 128 sc)) by lia. rewrite sc_entry, Hc1 by done.
    destruct (c1 =? 0) eqn:E; [done|]. f_equal. rewrite <- Hmap. unfold keymap. rewrite Hc1.
    unfold lower, upper. destruct (caps k), (ctrl k); cbn [andb]; repeat case_if; try lia; done. }
  assert ((c1 =? 0) = false) as ->.
  { apply Z.eqb_neq. intros ->. apply Hc0. rewrite <- Hmap. unfold keymap. rewrite Hc1.
    by destruct (ctrl k), (caps k). }
  destruct (enqueue_spec c k Hw) as (k' & Hrun & Hw' & Hq' & Hm). rewrite Hq in Hq'.
  exists k'. split_and!; try done.
  destruct (kb_queue k') as [|c0 q0] eqn:E.
  { exfalso. destruct (Nat.ltb_spec (length q) 255); [by destruct q|]. subst q.
    rewrite <- Hq' in *. cbn in *. lia. }
  destruct (dequeue_spec c0 q0 k' Hw' E) as (k'' & Hd & Hw'' & Hq'' & _).
  exists c0, q0, k''. split_and!; try done. unfold keyboard_getchar, mbind, M_bind, get.
  rewrite (proj2 (Z.eqb_neq _ _)); [done|]. intros Heq. apply (kb_empty k' Hw') in Heq. congruence.
Qed.

Definition kb_init : kb := mkKb (replicate 256 0) 0 0 false false false false [].
Lemma kb_init_wf : kb_wf kb_init.
Proof. unfold kb_wf, ring_wf, KB_BUF. cbn. lia. Qed.

(** Scancode 0x1E is the key A. *)
Lemma keyboard_fifo_witness :
  ∃ k', process_scancode 0x1E kb_init = Ok (tt, k') ∧ kb_queue k' = str "a" ∧
    ∃ k'', keyboard_getchar k' = Ok (97, k'') ∧ kb_queue k'' = [].
Proof.
  destruct (keyboard_fifo 0x1E kb_init [] 97 kb_init_wf) as (k' & Hrun & _ & Hq & _ & c0 & q0 & k'' & Hq' & Hget & _ & Hq0).
  - repeat split; done.
  - reflexivity.
  - vm_compute. reflexivity.
  - discriminate.
  - vm_compute. reflexivity.
  - cbn in Hq. rewrite Hq in Hq'. injection Hq' as <- <-. exists k'. split; [exact Hrun|]. split; [exact Hq|]. eauto.
Defined.

(** The polled path forgets the prefix of an extended key: the keypad slash (E0 35) is
    ignored when it comes by interrupt and read as a character when it is polled. *)
Example polled_prefix_lost :
  let k := set_port [0xE0; 0x35] kb_init in
  (∃ k1 k2, kb_irq k = Ok (tt, k1) ∧ kb_irq k1 = Ok (tt, k2) ∧ kb_queue k2 = []) ∧
  (∃ k1 k2, poll_once k = Ok (0, k1) ∧ poll_once k1 = Ok (47, k2)).
Proof. split; eexists _, _; vm_compute; done. Qed.

(** ** Line editing *)

(** The line after each character: backspace removes the last one, other characters are
    kept while fewer than [maxlen - 1] are there; [echo] is what appears on the console. *)
Definition edit1 (maxlen : Z) (l : list Z) (c : Z) : list Z :=
  if c =? 8 then take (length l - 1) l
  else if Z.of_nat (length l) <? maxlen - 1 then l ++ [c] else l.
Definition echo1 (maxlen : Z) (l : list Z) (c : Z) : list Z :=
  if c =? 8 then (if 0 <? Z.of_nat (length l) then [8] else [])
  else if Z.of_nat (length l) <? maxlen - 1 then [c] else [].
Fixpoint edit (maxlen : Z) (l cs : list Z) : list Z :=
  match cs with [] => l | c :: cs' => edit maxlen (edit1 maxlen l c) cs' end.
Fixpoint echo (maxlen : Z) (l cs : list Z) : list Z :=
  match cs with [] => [] | c :: cs' => echo1 maxlen l c ++ echo maxlen (edit1 maxlen l c) cs' end.

Lemma blocking_queued fuel n halt c q k :
  kb_wf k → kb_queue k = c :: q →
  ∃ k', keyboard_getchar_blocking fuel n halt k = Ok (c, k') ∧ kb_wf k' ∧ kb_queue k' = q.
Proof.
  intros Hw Hq. destruct (dequeue_spec c q k Hw Hq) as (k' & Hd & Hw' & Hq' & _). exists k'.
  split; [|done]. assert ((bhead k =? btail k) = false) as Hne.
  { apply Z.eqb_neq. intros Heq. apply (kb_empty k Hw) in Heq. congruence. }
  destruct fuel; cbn [keyboard_getchar_blocking]; unfold mbind, M_bind, get; by rewrite Hne.
Qed.

Lemma term_puts_app s s' t : term_puts (s ++ s') t = term_puts s' (term_puts s t).
Proof. unfold term_puts. apply foldl_app. Qed.

Lemma echo_char c k v t :
  shows v t → term_ok t →
  ∃ v', on_vga (vga_putchar c) (mkTty k v) = Ok (tt, mkTty k v') ∧ shows v' (term_puts [c] t) ∧
        term_ok (term_puts [c] t).
Proof.
  intros Hs Hok. pose proof (vga_putchar_spec c v t Hs Hok) as (u & v' & Hrun & Hs' & _)%wp_Ok. destruct u.
  exists v'. split; [unfold on_vga; cbn; by rewrite Hrun|]. split; [done|]. by apply term_putchar_ok.
Qed.

(** One character of the loop. *)
Lemma getline_step fuel halt out i maxlen k v c q :
  kb_wf k → kb_queue k = c :: q → c ≠ 0 →
  ∃ k', kb_wf k' ∧ kb_queue k' = q ∧
  getline_loop (S fuel) halt out i maxlen (mkTty k v) =
   (if c =? 10 then
      out' ← lift (arr_set out i 0); on_vga (vga_putchar 10) ;; mret (i, out')
    else if c =? 8 then
      if 0 <? i then on_vga (vga_putchar 8) ;; getline_loop fuel halt out (i - 1) maxlen
      else getline_loop fuel halt out i maxlen
    else if i <? maxlen - 1 then
      out' ← lift (arr_set out i c);
      on_vga (vga_putchar c) ;; getline_loop fuel halt out' (i + 1) maxlen
    else getline_loop fuel halt out i maxlen) (mkTty k' v).
Proof.
  intros Hw Hq Hc. destruct (blocking_queued (S fuel) 0 halt c q k Hw Hq) as (k' & Hb & Hw' & Hq').
  exists k'. split; [done|]. split; [done|]. cbn [getline_loop]. unfold mbind at 1, M_bind at 1, on_kb at 1.
  cbn [t_kb t_vga]. rewrite Hb. by rewrite (proj2 (Z.eqb_neq c 0) Hc).
Qed.

Lemma getline_loop_spec cs : ∀ fuel halt out line maxlen k v t rest,
  kb_wf k → kb_queue k = cs ++ 10 :: rest → Forall (λ c, c ≠ 0 ∧ c ≠ 10) cs →
  shows v t → term_ok t → (length cs < fuel)%nat → 0 < maxlen ≤ Z.of_nat (length out) →
  Z.of_nat (length line) < maxlen → take (length line) out = line →
  ∃ out' k' v', getline_loop fuel halt out (Z.of_nat (length line)) maxlen (mkTty k v)
      = Ok ((Z.of_nat (length (edit maxlen line cs)), out'), mkTty k' v') ∧
    length out' = length out ∧ take (length (edit maxlen line cs)) out' = edit maxlen line cs ∧
    out' !! length (edit maxlen line cs) = Some 0 ∧ Z.of_nat (length (edit maxlen line cs)) < maxlen ∧
    kb_wf k' ∧ kb_queue k' = rest ∧ shows v' (term_puts (echo maxlen line cs ++ [10]) t).
Proof.
  induction cs as [|c cs IH]; intros fuel halt out line maxlen k v t rest Hw Hq Hcs Hs Hok Hf Hmax Hline Htake;
    (destruct fuel as [|fuel]; [cbn in Hf; lia|]).
  - destruct (getline_step fuel halt out (Z.of_nat (length line)) maxlen k v 10 rest Hw Hq) as (k' & Hw' & Hq' & ->); [done|].
    change (10 =? 10) with true. cbn iota. unfold mbind, M_bind, lift.
    rewrite arr_set_in by lia. rewrite Nat2Z.id.
    destruct (echo_char 10 k' v t Hs Hok) as (v' & Hv & Hs' & _).
    eexists _, k', v'. rewrite Hv. cbn [edit echo app]. split_and!; try done.
    + by rewrite length_insert.
    + rewrite take_insert_ge by lia. done.
    + apply list_lookup_insert_eq. lia.
  - apply Forall_cons in Hcs as [[Hc0 Hc10] Hcs]. cbn [length] in Hf.
    destruct (getline_step fuel halt out (Z.of_nat (length line)) maxlen k v c (cs ++ 10 :: rest) Hw Hq Hc0)
      as (k' & Hw' & Hq' & ->).
    rewrite (proj2 (Z.eqb_neq c 10) Hc10). cbn [edit echo]. rewrite <- app_assoc, term_puts_app.
    unfold edit1, echo1. destruct (c =? 8) eqn:E8.
    + destruct (Z.ltb_spec 0 (Z.of_nat (length line))) as [Hpos|Hz].
      * destruct (echo_char 8 k' v t Hs Hok) as (v1 & Hv & Hs1 & Hok1).
        unfold mbind at 1, M_bind at 1. rewrite Hv.
        assert (length (take (length line - 1) line) = length line - 1)%nat as Hlen by (rewrite length_take; lia).
        replace (Z.of_nat (length line) - 1) with (Z.of_nat (length (take (length line - 1) line))) by lia.
        apply (IH fuel halt out (take (length line - 1) line) maxlen k' v1 _ rest Hw' Hq' Hcs Hs1 Hok1); [lia|done|lia|].
        rewrite Hlen. transitivity (take (length line - 1) (take (length line) out)); [|by rewrite Htake].
        rewrite take_take. f_equal. lia.
      * assert (line = []) as -> by (destruct line; [done|cbn in Hz; lia]). cbn [length take Nat.sub].
        change (term_puts [] t) with t. by apply (IH fuel halt out [] maxlen k' v t rest); [..|lia| | |].
    + destruct (Z.ltb_spec (Z.of_nat (length line)) (maxlen - 1)) as [Hroom|Hfull].
      * unfold mbind at 1, M_bind at 1, lift at 1. rewrite arr_set_in by lia. rewrite Nat2Z.id.
        destruct (echo_char c k' v t Hs Hok) as (v1 & Hv & Hs1 & Hok1).
        unfold mbind at 1, M_bind at 1. rewrite Hv.
        replace (Z.of_nat (length line) + 1) with (Z.of_nat (length (line ++ [c]))) by (rewrite length_app; cbn; lia).
        rewrite <- (length_insert out (length line) c).
        apply (IH fuel halt _ (line ++ [c]) maxlen k' v1 _ rest Hw' Hq' Hcs Hs1 Hok1);
          [lia|by rewrite length_insert|rewrite length_app; cbn; lia|].
        rewrite length_app. cbn [length]. rewrite Nat.add_1_r, (take_S_r _ _ c).
        -- by rewrite take_insert_ge, Htake by lia.
        -- apply list_lookup_insert_eq. lia.
      * change (term_puts [] t) with t. by apply (IH fuel halt out line maxlen k' v t rest); [..|lia| | |].
Qed.

(** C17: [keyboard_getline] reads an edited line. When the queue holds the characters
    [cs] followed by a newline, the call returns without blocking; the buffer holds the
    line with the backspaces applied, cut to [maxlen - 1] characters and terminated, the
    result is its length, the rest of the queue is left for the next call, and the
    console shows the echo. *)
Theorem getline_edits cs rest fuel halt out maxlen k v t :
  kb_wf k → kb_queue k = cs ++ 10 :: rest → Forall (λ c, c ≠ 0 ∧ c ≠ 10) cs →
  shows v t → term_ok t → (length cs < fuel)%nat → 0 < maxlen ≤ Z.of_nat (length out) →
  let line := edit maxlen [] cs in
  ∃ out' k' v', keyboard_getline fuel halt out maxlen (mkTty k v)
      = Ok ((Z.of_nat (length line), out'), mkTty k' v') ∧
    length out' = length out ∧ take (length line) out' = line ∧ out' !! length line = Some 0 ∧
    Z.of_nat (length line) < maxlen ∧
    kb_queue k' = rest ∧ shows v' (term_puts (echo maxlen [] cs ++ [10]) t).
Proof.
  intros Hw Hq Hcs Hs Hok Hf Hmax line.
  destruct (getline_loop_spec cs fuel halt out [] maxlen k v t rest Hw Hq Hcs Hs Hok Hf Hmax)
    as (out' & k' & v' & Hrun & Hl & Htk & Hz & Hlt & _ & Hq' & Hs'); [cbn; lia|done|].
  exists out', k', v'. done.
Qed.

Definition typed : kb := set_queue (<[0%nat := 104]> (<[1%nat := 106]> (<[2%nat := 8]> (<[3%nat := 105]> (<[4%nat := 10]> (replicate 256 0)))))) 5 0 kb_init.

Lemma getline_edits_witness :
  ∃ out' k' v', keyboard_getline 5 (λ _, mret tt) (replicate 8 7) 8 (mkTty typed vga_zero)
      = Ok ((2, out'), mkTty k' v') ∧ take 2 out' = str "hi" ∧ kb_queue k' = [].
Proof.
  destruct (getline_edits [104; 106; 8; 105] [] 5 (λ _, mret tt) (replicate 8 7) 8 typed vga_zero term_zero)
    as (out' & k' & v' & Hrun & _ & Htk & _ & _ & Hq & _).
  - unfold kb_wf, ring_wf, KB_BUF. cbn. lia.
  - vm_compute. reflexivity.
  - repeat (constructor; [lia|]). constructor.
  - split_and!; [done..|]. intros i Hi. apply lookup_replicate. split; [done|unfold VGA_CELLS; lia].
  - by split.
  - cbn. lia.
  - cbn. lia.
  - exists out', k', v'. split; [exact Hrun|]. split; [exact Htk|exact Hq].
Defined.
