(* ===== verification/Controller.v ===== *)
(** * Start-up of the keyboard (src/src/keyboard.c)

    The dialogue with the keyboard controller over ports: [keyboard_init] clears the state of
    Keyboard.v, resets the device and lets its interrupt through. What the controller answers
    is a parameter. Every wait is bounded, so that the dialogue ends with any controller,
    even with none. *)

From S2P Require Import Prelude Ports Keyboard.

Create HintDb quiet discriminated.
#[export] Hint Constants Opaque : quiet.

Definition KB_DATA : Z := 0x60.
Definition KB_STATUS : Z := 0x64.
Definition KB_CMD : Z := 0x64.
Definition PIC1_DATA : Z := 0x21.
Definition KB_OBF : Z := 0x01.
Definition KB_IBF : Z := 0x02.

(** The driver, the ports, and whether the handler of IRQ 1 is registered. *)
Record kbd (D : Type) := mkKbd { keys : kb; bus : D; handler : bool }.
Arguments mkKbd {D} _ _ _.
Arguments keys {D} _.
Arguments bus {D} _.
Arguments handler {D} _.

Section init.
Context {D : Type} `{Ports D}.

Definition set_bus (d : D) (s : kbd D) : kbd D := mkKbd (keys s) d (handler s).
Definition set_keys (k : kb) (s : kbd D) : kbd D := mkKbd k (bus s) (handler s).
Definition inb (p : Z) : M (kbd D) Z := λ s, let (v, d) := port_read p (bus s) in Ok (u8 v, set_bus d s).
Definition outb (p v : Z) : M (kbd D) unit := λ s, Ok (tt, set_bus (port_write p (u8 v) (bus s)) s).
Definition io_wait : M (kbd D) unit := outb 0x80 0 ;; outb 0x80 0.

(** A wait for a condition of the status; [n] tries are left. *)
Fixpoint wait_for (ok : Z → bool) (n : nat) : M (kbd D) bool :=
  match n with
  | O => mret false
  | S n' => st ← inb KB_STATUS; if ok st then mret true else io_wait ;; wait_for ok n'
  end.
Definition tries : nat := Z.to_nat 100000.
Definition wait_obf : M (kbd D) bool := wait_for (λ st, negb (Z.land st KB_OBF =? 0)) tries.
Definition wait_ibf_clear : M (kbd D) bool := wait_for (λ st, Z.land st KB_IBF =? 0) tries.
Fixpoint flush_loop (n : nat) : M (kbd D) unit :=
  match n with
  | O => mret tt
  | S n' => st ← inb KB_STATUS; if Z.land st KB_OBF =? 0 then mret tt else inb KB_DATA ;; flush_loop n'
  end.
Definition flush : M (kbd D) unit := flush_loop 16.
Definition cmd (c : Z) : M (kbd D) unit := wait_ibf_clear ;; outb KB_CMD c ;; io_wait.
Definition dat (d : Z) : M (kbd D) unit := wait_ibf_clear ;; outb KB_DATA d ;; io_wait.
Definition resp : M (kbd D) Z := ready ← wait_obf; if ready : bool then inb KB_DATA else mret 0xFF.

(** The commands, from switching the devices off to letting the interrupt through. *)
Definition dialogue : M (kbd D) unit :=
  cmd 0xAD ;; cmd 0xA7 ;;
  flush ;;
  cmd 0x20 ;;
  cfg ← resp;
  let cfg := Z.land (Z.lor cfg 0x01) (Z.lnot 0x40) in
  cmd 0x60 ;; dat cfg ;;
  cmd 0xAE ;; io_wait ;;
  flush ;;
  dat 0xFF ;;
  ack ← resp;
  (if (ack =? 0xFA) || (ack =? 0xAA) then resp ;; mret tt else mret tt) ;;
  flush ;;
  dat 0xF0 ;; resp ;;
  dat 0x01 ;; resp ;;
  dat 0xF4 ;; resp ;;
  flush ;;
  mask ← inb PIC1_DATA;
  outb PIC1_DATA (Z.land mask (Z.lnot 0x03)) ;;
  io_wait.
Definition no_keys (k : kb) : kb := set_mods false false false false (set_queue (kbuf k) 0 0 k).
Definition keyboard_init : M (kbd D) unit :=
  modify (λ s, set_keys (no_keys (keys s)) s) ;;
  dialogue ;;
  modify (λ s, mkKbd (keys s) (bus s) true).

(** ** The dialogue ends *)

(** What the accesses to the ports keep. *)
Definition same (s s' : kbd D) : Prop := keys s' = keys s ∧ handler s' = handler s.
Definition quiet {A} (m : M (kbd D) A) : Prop := ∀ s, wp m (λ _ s', same s s') s.

Lemma quiet_ret {A} (a : A) : quiet (mret a).
Proof. intros s. by apply wp_ret. Qed.
Lemma quiet_bind {A B} (m : M (kbd D) A) (f : A → M (kbd D) B) : quiet m → (∀ a, quiet (f a)) → quiet (m ≫= f).
Proof.
  intros Hm Hf s. apply wp_bind. eapply wp_mono; [apply Hm|]. intros a s1 [H1 H2]. eapply wp_mono; [apply Hf|].
  intros b s2 [H3 H4]. split; congruence.
Qed.
Lemma quiet_inb p : quiet (inb p).
Proof. intros s. unfold wp, inb. by destruct (port_read p (bus s)). Qed.
Lemma quiet_outb p v : quiet (outb p v).
Proof. by intros s. Qed.
Lemma quiet_wait ok n : quiet (wait_for ok n).
Proof.
  induction n as [|n IH]; cbn [wait_for]; [apply quiet_ret|]. apply quiet_bind; [apply quiet_inb|]. intros st. destruct (ok st); [apply quiet_ret|].
  apply quiet_bind; [|by intros _]. apply quiet_bind; [|intros _]; apply quiet_outb.
Qed.
Lemma quiet_flush n : quiet (flush_loop n).
Proof.
  induction n as [|n IH]; cbn [flush_loop]; [apply quiet_ret|]. apply quiet_bind; [apply quiet_inb|]. intros st. case_match; [apply quiet_ret|].
  apply quiet_bind; [apply quiet_inb|by intros _].
Qed.
#[local] Hint Resolve quiet_ret quiet_inb quiet_outb quiet_wait quiet_flush : quiet.
Lemma quiet_ibf : quiet wait_ibf_clear.
Proof. exact (quiet_wait _ tries). Qed.
Lemma quiet_obf : quiet wait_obf.
Proof. exact (quiet_wait _ tries). Qed.
#[local] Hint Resolve quiet_ibf quiet_obf : quiet.
Ltac be_quiet := repeat first [solve [auto with quiet] | apply quiet_bind; [|intros ?] | case_match].
Lemma quiet_cmd c : quiet (cmd c).
Proof. unfold cmd, io_wait. be_quiet. Qed.
Lemma quiet_dat d : quiet (dat d).
Proof. unfold dat, io_wait. be_quiet. Qed.
Lemma quiet_resp : quiet resp.
Proof. unfold resp. be_quiet. Qed.
#[local] Hint Resolve quiet_cmd quiet_dat quiet_resp : quiet.

Lemma quiet_dialogue : quiet dialogue.
Proof. unfold dialogue, flush, io_wait. be_quiet. Qed.

(** Whatever the controller answers, the start-up ends; then the queue is empty, no key is
    held, and the handler is registered. *)
Lemma keyboard_init_ends s : wp keyboard_init (λ _ s', handler s' = true ∧ keys s' = no_keys (keys s)) s.
Proof.
  unfold keyboard_init. apply wp_bind, wp_modify, wp_bind. eapply wp_mono; [apply quiet_dialogue|].
  intros [] s1 [H1 _]. apply wp_modify. split; [done|exact H1].
Qed.
End init.
