(* ===== verification/Draw.v ===== *)
(** * Drawing (src/src/gui.c, src/src/gui.h, src/src/font8x8.h)

    The 320 by 200 picture of mode 13h is 64000 bytes of video memory, one per pixel.
    The first part has the drawing primitives of gui.c as the code has them: loops over
    [gui_pixel], which drops what lies outside the screen. The second part says what
    picture each of them draws ([draws]): a drawing is a function from the coordinates
    and the old colour of a pixel to its new colour, and drawings compose. *)

From S2P Require Import Prelude KString Vga Dmesg.

Definition GUI_WIDTH : Z := 320.
Definition GUI_HEIGHT : Z := 200.

Definition C_BLACK : Z := 0.
Definition C_RED : Z := 4.
Definition C_LIGHT_GREY : Z := 7.
Definition C_DARK_GREY : Z := 8.
Definition C_LIGHT_GREEN : Z := 10.
Definition C_LIGHT_CYAN : Z := 11.
Definition C_YELLOW : Z := 14.
Definition C_WHITE : Z := 15.
Definition C_NAVY : Z := 17.
Definition C_TEAL : Z := 18.
Definition C_PURPLE : Z := 20.
Definition C_DARK_BLUE : Z := 21.
Definition C_TASKBAR : Z := 22.
Definition C_DESKTOP : Z := 23.
Definition C_WIN_TITLE : Z := 24.
Definition C_WIN_BG : Z := 25.
Definition C_WIN_BORDER : Z := 26.
Definition C_SHADOW : Z := 27.
Definition C_BUTTON : Z := 28.
Definition C_BUTTON_HI : Z := 29.

(** The glyphs of the characters from 32 to 127, eight rows of eight pixels each. *)
Definition font8x8 : list (list Z) := [
  [0x00; 0x00; 0x00; 0x00; 0x00; 0x00; 0x00; 0x00];
  [0x18; 0x3C; 0x3C; 0x18; 0x18; 0x00; 0x18; 0x00];
  [0x36; 0x36; 0x00; 0x00; 0x00; 0x00; 0x00; 0x00];
  [0x36; 0x36; 0x7F; 0x36; 0x7F; 0x36; 0x36; 0x00];
  [0x0C; 0x3E; 0x03; 0x1E; 0x30; 0x1F; 0x0C; 0x00];
  [0x00; 0x63; 0x33; 0x18; 0x0C; 0x66; 0x63; 0x00];
  [0x1C; 0x36; 0x1C; 0x6E; 0x3B; 0x33; 0x6E; 0x00];
  [0x06; 0x06; 0x03; 0x00; 0x00; 0x00; 0x00; 0x00];
  [0x18; 0x0C; 0x06; 0x06; 0x06; 0x0C; 0x18; 0x00];
  [0x06; 0x0C; 0x18; 0x18; 0x18; 0x0C; 0x06; 0x00];
  [0x00; 0x66; 0x3C; 0xFF; 0x3C; 0x66; 0x00; 0x00];
  [0x00; 0x0C; 0x0C; 0x3F; 0x0C; 0x0C; 0x00; 0x00];
  [0x00; 0x00; 0x00; 0x00; 0x00; 0x0C; 0x0C; 0x06];
  [0x00; 0x00; 0x00; 0x3F; 0x00; 0x00; 0x00; 0x00];
  [0x00; 0x00; 0x00; 0x00; 0x00; 0x0C; 0x0C; 0x00];
  [0x60; 0x30; 0x18; 0x0C; 0x06; 0x03; 0x01; 0x00];
  [0x3E; 0x63; 0x73; 0x7B; 0x6F; 0x67; 0x3E; 0x00];
  [0x0C; 0x0E; 0x0C; 0x0C; 0x0C; 0x0C; 0x3F; 0x00];
  [0x1E; 0x33; 0x30; 0x1C; 0x06; 0x33; 0x3F; 0x00];
  [0x1E; 0x33; 0x30; 0x1C; 0x30; 0x33; 0x1E; 0x00];
  [0x38; 0x3C; 0x36; 0x33; 0x7F; 0x30; 0x78; 0x00];
  [0x3F; 0x03; 0x1F; 0x30; 0x30; 0x33; 0x1E; 0x00];
  [0x1C; 0x06; 0x03; 0x1F; 0x33; 0x33; 0x1E; 0x00];
  [0x3F; 0x33; 0x30; 0x18; 0x0C; 0x0C; 0x0C; 0x00];
  [0x1E; 0x33; 0x33; 0x1E; 0x33; 0x33; 0x1E; 0x00];
  [0x1E; 0x33; 0x33; 0x3E; 0x30; 0x18; 0x0E; 0x00];
  [0x00; 0x0C; 0x0C; 0x00; 0x00; 0x0C; 0x0C; 0x00];
  [0x00; 0x0C; 0x0C; 0x00; 0x00; 0x0C; 0x0C; 0x06];
  [0x18; 0x0C; 0x06; 0x03; 0x06; 0x0C; 0x18; 0x00];
  [0x00; 0x00; 0x3F; 0x00; 0x00; 0x3F; 0x00; 0x00];
  [0x06; 0x0C; 0x18; 0x30; 0x18; 0x0C; 0x06; 0x00];
  [0x1E; 0x33; 0x30; 0x18; 0x0C; 0x00; 0x0C; 0x00];
  [0x3E; 0x63; 0x7B; 0x7B; 0x7B; 0x03; 0x1E; 0x00];
  [0x0C; 0x1E; 0x33; 0x33; 0x3F; 0x33; 0x33; 0x00];
  [0x3F; 0x66; 0x66; 0x3E; 0x66; 0x66; 0x3F; 0x00];
  [0x3C; 0x66; 0x03; 0x03; 0x03; 0x66; 0x3C; 0x00];
  [0x1F; 0x36; 0x66; 0x66; 0x66; 0x36; 0x1F; 0x00];
  [0x7F; 0x46; 0x16; 0x1E; 0x16; 0x46; 0x7F; 0x00];
  [0x7F; 0x46; 0x16; 0x1E; 0x16; 0x06; 0x0F; 0x00];
  [0x3C; 0x66; 0x03; 0x03; 0x73; 0x66; 0x7C; 0x00];
  [0x33; 0x33; 0x33; 0x3F; 0x33; 0x33; 0x33; 0x00];
  [0x1E; 0x0C; 0x0C; 0x0C; 0x0C; 0x0C; 0x1E; 0x00];
  [0x78; 0x30; 0x30; 0x30; 0x33; 0x33; 0x1E; 0x00];
  [0x67; 0x66; 0x36; 0x1E; 0x36; 0x66; 0x67; 0x00];
  [0x0F; 0x06; 0x06; 0x06; 0x46; 0x66; 0x7F; 0x00];
  [0x63; 0x77; 0x7F; 0x7F; 0x6B; 0x63; 0x63; 0x00];
  [0x63; 0x67; 0x6F; 0x7B; 0x73; 0x63; 0x63; 0x00];
  [0x1C; 0x36; 0x63; 0x63; 0x63; 0x36; 0x1C; 0x00];
  [0x3F; 0x66; 0x66; 0x3E; 0x06; 0x06; 0x0F; 0x00];
  [0x1E; 0x33; 0x33; 0x33; 0x3B; 0x1E; 0x38; 0x00];
  [0x3F; 0x66; 0x66; 0x3E; 0x36; 0x66; 0x67; 0x00];
  [0x1E; 0x33; 0x07; 0x0E; 0x38; 0x33; 0x1E; 0x00];
  [0x3F; 0x2D; 0x0C; 0x0C; 0x0C; 0x0C; 0x1E; 0x00];
  [0x33; 0x33; 0x33; 0x33; 0x33; 0x33; 0x3F; 0x00];
  [0x33; 0x33; 0x33; 0x33; 0x33; 0x1E; 0x0C; 0x00];
  [0x63; 0x63; 0x63; 0x6B; 0x7F; 0x77; 0x63; 0x00];
  [0x63; 0x63; 0x36; 0x1C; 0x1C; 0x36; 0x63; 0x00];
  [0x33; 0x33; 0x33; 0x1E; 0x0C; 0x0C; 0x1E; 0x00];
  [0x7F; 0x63; 0x31; 0x18; 0x4C; 0x66; 0x7F; 0x00];
  [0x1E; 0x06; 0x06; 0x06; 0x06; 0x06; 0x1E; 0x00];
  [0x03; 0x06; 0x0C; 0x18; 0x30; 0x60; 0x40; 0x00];
  [0x1E; 0x18; 0x18; 0x18; 0x18; 0x18; 0x1E; 0x00];
  [0x08; 0x1C; 0x36; 0x63; 0x00; 0x00; 0x00; 0x00];
  [0x00; 0x00; 0x00; 0x00; 0x00; 0x00; 0x00; 0xFF];
  [0x0C; 0x0C; 0x18; 0x00; 0x00; 0x00; 0x00; 0x00];
  [0x00; 0x00; 0x1E; 0x30; 0x3E; 0x33; 0x6E; 0x00];
  [0x07; 0x06; 0x06; 0x3E; 0x66; 0x66; 0x3B; 0x00];
  [0x00; 0x00; 0x1E; 0x33; 0x03; 0x33; 0x1E; 0x00];
  [0x38; 0x30; 0x30; 0x3e; 0x33; 0x33; 0x6E; 0x00];
  [0x00; 0x00; 0x1E; 0x33; 0x3f; 0x03; 0x1E; 0x00];
  [0x1C; 0x36; 0x06; 0x0f; 0x06; 0x06; 0x0F; 0x00];
  [0x00; 0x00; 0x6E; 0x33; 0x33; 0x3E; 0x30; 0x1F];
  [0x07; 0x06; 0x36; 0x6E; 0x66; 0x66; 0x67; 0x00];
  [0x0C; 0x00; 0x0E; 0x0C; 0x0C; 0x0C; 0x1E; 0x00];
  [0x30; 0x00; 0x30; 0x30; 0x30; 0x33; 0x33; 0x1E];
  [0x07; 0x06; 0x66; 0x36; 0x1E; 0x36; 0x67; 0x00];
  [0x0E; 0x0C; 0x0C; 0x0C; 0x0C; 0x0C; 0x1E; 0x00];
  [0x00; 0x00; 0x33; 0x7F; 0x7F; 0x6B; 0x63; 0x00];
  [0x00; 0x00; 0x1F; 0x33; 0x33; 0x33; 0x33; 0x00];
  [0x00; 0x00; 0x1E; 0x33; 0x33; 0x33; 0x1E; 0x00];
  [0x00; 0x00; 0x3B; 0x66; 0x66; 0x3E; 0x06; 0x0F];
  [0x00; 0x00; 0x6E; 0x33; 0x33; 0x3E; 0x30; 0x78];
  [0x00; 0x00; 0x3B; 0x6E; 0x66; 0x06; 0x0F; 0x00];
  [0x00; 0x00; 0x3E; 0x03; 0x1E; 0x30; 0x1F; 0x00];
  [0x08; 0x0C; 0x3E; 0x0C; 0x0C; 0x2C; 0x18; 0x00];
  [0x00; 0x00; 0x33; 0x33; 0x33; 0x33; 0x6E; 0x00];
  [0x00; 0x00; 0x33; 0x33; 0x33; 0x1E; 0x0C; 0x00];
  [0x00; 0x00; 0x63; 0x6B; 0x7F; 0x7F; 0x36; 0x00];
  [0x00; 0x00; 0x63; 0x36; 0x1C; 0x36; 0x63; 0x00];
  [0x00; 0x00; 0x33; 0x33; 0x33; 0x3E; 0x30; 0x1F];
  [0x00; 0x00; 0x3F; 0x19; 0x0C; 0x26; 0x3F; 0x00];
  [0x38; 0x0C; 0x0C; 0x07; 0x0C; 0x0C; 0x38; 0x00];
  [0x18; 0x18; 0x18; 0x00; 0x18; 0x18; 0x18; 0x00];
  [0x07; 0x0C; 0x0C; 0x38; 0x0C; 0x0C; 0x07; 0x00];
  [0x6E; 0x3B; 0x00; 0x00; 0x00; 0x00; 0x00; 0x00];
  [0xFF; 0xFF; 0xFF; 0xFF; 0xFF; 0xFF; 0xFF; 0xFF]].

(** The shape of the mouse cursor: 0 is transparent, 1 white, 2 black. *)
Definition CUR_W : Z := 8.
Definition CUR_H : Z := 12.
Definition cursor_shape : list (list Z) := [
  [1;0;0;0;0;0;0;0];
  [1;1;0;0;0;0;0;0];
  [1;2;1;0;0;0;0;0];
  [1;2;2;1;0;0;0;0];
  [1;2;2;2;1;0;0;0];
  [1;2;2;2;2;1;0;0];
  [1;2;2;2;2;2;1;0];
  [1;2;2;2;1;1;1;0];
  [1;2;1;2;1;0;0;0];
  [1;1;0;1;2;1;0;0];
  [0;0;0;0;1;2;1;0];
  [0;0;0;0;0;1;1;0]].

(** The frame buffer and what the cursor covers. *)
Record gfx := mkGfx {
  fb : list Z;
  cursor_save : list Z;
  cursor_saved_x : Z; cursor_saved_y : Z
}.
Definition set_fb (l : list Z) (s : gfx) : gfx := mkGfx l (cursor_save s) (cursor_saved_x s) (cursor_saved_y s).
Definition set_save (l : list Z) (s : gfx) : gfx := mkGfx (fb s) l (cursor_saved_x s) (cursor_saved_y s).
Definition set_saved (x y : Z) (s : gfx) : gfx := mkGfx (fb s) (cursor_save s) x y.

Definition put_fb (i c : Z) : M gfx unit := λ s, l ← arr_set (fb s) i (u8 c); Ok (tt, set_fb l s).

(** [(unsigned)x < GUI_WIDTH && (unsigned)y < GUI_HEIGHT] *)
Definition on_screen (x y : Z) : bool := (u32 x <? GUI_WIDTH) && (u32 y <? GUI_HEIGHT).
(** The arguments are converted to [int] by the call. *)
Definition gui_pixel (x y c : Z) : M gfx unit :=
  let x := i32 x in let y := i32 y in
  if on_screen x y then put_fb (y * GUI_WIDTH + x) c else mret tt.

Definition gui_clear (c : Z) : M gfx unit := for_range 0 (GUI_WIDTH * GUI_HEIGHT) (λ i, put_fb i c).
Definition gui_hline (x y len c : Z) : M gfx unit := for_range 0 len (λ i, gui_pixel (x + i) y c).
Definition gui_vline (x y len c : Z) : M gfx unit := for_range 0 len (λ i, gui_pixel x (y + i) c).
Definition gui_rect_fill (x y w h c : Z) : M gfx unit :=
  for_range y (i32 (y + h)) (λ row, for_range x (i32 (x + w)) (λ col, gui_pixel col row c)).
Definition gui_rect (x y w h c : Z) : M gfx unit :=
  gui_hline x y w c ;;
  gui_hline x (i32 (y + h - 1)) w c ;;
  gui_vline x y h c ;;
  gui_vline (i32 (x + w - 1)) y h c.

(** The fixed-point line; [i] turns are left of the loop. *)
Fixpoint line_loop (i : nat) (cx cy sx sy c : Z) : M gfx unit :=
  match i with
  | O => mret tt
  | S i' => gui_pixel (Z.shiftr cx 8) (Z.shiftr cy 8) c ;; line_loop i' (i32 (cx + sx)) (i32 (cy + sy)) sx sy c
  end.
Definition gui_line (x0 y0 x1 y1 c : Z) : M gfx unit :=
  let dx := i32 (x1 - x0) in let dy := i32 (y1 - y0) in
  let steps := if (Z.abs dy <? Z.abs dx) then Z.abs dx else Z.abs dy in
  if steps =? 0 then gui_pixel x0 y0 c
  else
    let sx := Z.quot (i32 (Z.shiftl dx 8)) steps in
    let sy := Z.quot (i32 (Z.shiftl dy 8)) steps in
    line_loop (Z.to_nat (steps + 1)) (i32 (Z.shiftl x0 8)) (i32 (Z.shiftl y0 8)) sx sy c.

Definition glyph_idx (c : Z) : Z :=
  let idx := u8 c - 32 in if (idx <? 0) || (96 <=? idx) then 0 else idx.
Definition gui_putchar (x y c fg bg : Z) : M gfx unit :=
  glyph ← lift (arr_get font8x8 (glyph_idx c));
  for_range 0 8 (λ row,
    bits ← lift (arr_get glyph row);
    for_range 0 8 (λ col,
      gui_pixel (x + col) (y + row) (if Z.land bits (Z.shiftr 0x80 col) =? 0 then bg else fg))).

(** The loop of [gui_puts]; a line starts again at [x]. *)
Fixpoint puts_loop (s : list Z) (x cx y fg bg : Z) : M gfx unit :=
  match s with
  | [] => lift Fault
  | c :: s' =>
      if c =? 0 then mret tt
      else if c =? 10 then puts_loop s' x x (i32 (y + 9)) fg bg
      else
        let wrap := GUI_WIDTH <? i32 (cx + 8) in
        let cx := if wrap then x else cx in
        let y := if wrap then i32 (y + 9) else y in
        gui_putchar cx y c fg bg ;; puts_loop s' x (i32 (cx + 8)) y fg bg
  end.
Definition gui_puts (x y : Z) (s : list Z) (fg bg : Z) : M gfx unit := puts_loop s x x y fg bg.

(** ** Formatted text *)

(** The copy of a string argument, up to its end or position 126. *)
Fixpoint gprintf_str (s : list Z) (buf : list Z) (pos : Z) : res (list Z * Z) :=
  match s with
  | [] => Fault
  | c :: s' =>
      if negb (c =? 0) && (pos <? 126) then b ← arr_set buf pos c; gprintf_str s' b (pos + 1) else Ok (buf, pos)
  end.
(** Hexadecimal digits, most significant first. *)
Definition gui_hex (u : Z) : res (list Z) :=
  if u =? 0 then Ok [48] else ds ← xdigits u; Ok (map (λ d, if 97 <=? d then d - 32 else d) ds).
Definition gprintf_conv (f : Z) (args : list va_arg) (buf : list Z) (pos : Z) : res (list Z * Z * list va_arg) :=
  if f =? 115 then
    match args with
    | AStr (Some s) :: l => q ← gprintf_str s buf pos; Ok (q, l)
    | _ => Fault
    end
  else if f =? 100 then
    a ← int_arg args;
    let d := i32 a.1 in
    p ← (if d <? 0 then put_all [45] buf pos else Ok (buf, pos));
    ds ← udigits (u32 (Z.abs d)); q ← put_all ds p.1 p.2; Ok (q, a.2)
  else if f =? 117 then a ← int_arg args; ds ← udigits (u32 a.1); q ← put_all ds buf pos; Ok (q, a.2)
  else if f =? 120 then a ← int_arg args; ds ← gui_hex (u32 a.1); q ← put_all ds buf pos; Ok (q, a.2)
  else if f =? 99 then a ← int_arg args; q ← put_all [u8 a.1] buf pos; Ok (q, a.2)
  else if f =? 37 then q ← put_all [37] buf pos; Ok (q, args)
  else Ok (buf, pos, args).
(** After a [%] the next character is passed over whatever it is. *)
Fixpoint gprintf_fmt (n : nat) (fmt : list Z) (args : list va_arg) (buf : list Z) (pos : Z) : res (list Z * Z) :=
  match n, fmt with
  | O, _ => Timeout
  | _, [] => Fault
  | S n', c :: fmt' =>
      if negb (c =? 0) && (pos <? 126) then
        if c =? 37 then
          match fmt' with
          | [] => Fault
          | f :: fmt'' => q ← gprintf_conv f args buf pos; gprintf_fmt n' fmt'' q.2 q.1.1 q.1.2
          end
        else b ← arr_set buf pos c; gprintf_fmt n' fmt' args b (pos + 1)
      else Ok (buf, pos)
  end.
(** [junk] is what the buffer of 128 bytes holds before. *)
Definition gui_printf (junk : list Z) (x y fg bg : Z) (fmt : list Z) (args : list va_arg) : M gfx unit :=
  p ← lift (gprintf_fmt (S (length fmt)) fmt args junk 0);
  buf ← lift (arr_set (p : list Z * Z).1 p.2 0);
  gui_puts x y buf fg bg.

(** ** Windows, buttons and icons *)
Definition gui_window (x y w h : Z) (title : list Z) : M gfx unit :=
  gui_rect_fill (x + 3) (y + 3) w h C_SHADOW ;;
  gui_rect_fill x y w h C_WIN_BG ;;
  gui_rect_fill x y w 11 C_WIN_TITLE ;;
  gui_rect x y w h C_WIN_BORDER ;;
  gui_puts (x + 4) (y + 2) title C_LIGHT_CYAN C_WIN_TITLE ;;
  gui_rect_fill (x + w - 11) (y + 1) 9 9 C_RED ;;
  gui_puts (x + w - 9) (y + 2) (lit "X") C_WHITE C_RED.

Definition gui_button (x y w h : Z) (label : list Z) (pressed : bool) : M gfx unit :=
  let bg := if pressed then C_BUTTON else C_BUTTON_HI in
  gui_rect_fill x y w h bg ;;
  gui_rect x y w h C_WIN_BORDER ;;
  n ← lift (kstrlen label);
  gui_puts (x + Z.quot (w - n * 8) 2) (y + Z.quot (h - 8) 2) label C_WHITE bg.

Definition gui_icon (x y : Z) (label : list Z) (icon_color : Z) : M gfx unit :=
  gui_rect_fill x y 32 28 icon_color ;;
  gui_rect x y 32 28 C_LIGHT_GREY ;;
  n ← lift (kstrlen label);
  let lx := x + Z.quot (32 - n * 8) 2 in
  gui_puts (if lx <? x then x else lx) (y + 30) label C_WHITE C_DESKTOP.

(** ** The mouse cursor *)
Definition cursor_cell (body : Z → Z → M gfx unit) : M gfx unit :=
  for_range 0 CUR_H (λ row, for_range 0 CUR_W (λ col, body row col)).

(** One pixel of the restored rectangle, and of the cursor. *)
Definition erase_cell (x y row col : Z) : M gfx unit :=
  let px := i32 (x + col) in let py := i32 (y + row) in
  if on_screen px py then s ← get; c ← lift (arr_get (cursor_save s) (row * CUR_W + col)); put_fb (py * GUI_WIDTH + px) c
  else mret tt.
Definition gui_erase_cursor (x y : Z) : M gfx unit :=
  s ← get;
  if cursor_saved_x s <? 0 then mret tt
  else
    cursor_cell (erase_cell (cursor_saved_x s) (cursor_saved_y s)) ;;
    modify (λ s, set_saved (-1) (cursor_saved_y s) s).

Definition draw_cell (x y row col : Z) : M gfx unit :=
  let px := i32 (x + col) in let py := i32 (y + row) in
  if on_screen px py then
    s ← get;
    old ← lift (arr_get (fb s) (py * GUI_WIDTH + px));
    l ← lift (arr_set (cursor_save s) (row * CUR_W + col) old);
    modify (set_save l) ;;
    line ← lift (arr_get cursor_shape row);
    v ← lift (arr_get line col);
    if v =? 1 then put_fb (py * GUI_WIDTH + px) C_WHITE
    else if v =? 2 then put_fb (py * GUI_WIDTH + px) C_BLACK
    else mret tt
  else mret tt.
Definition gui_draw_cursor (x y : Z) : M gfx unit :=
  modify (set_saved x y) ;; cursor_cell (draw_cell x y).

(** ** Pictures *)

(** The colour of a pixel. *)
Definition pix (s : gfx) (x y : Z) : Z := fb s !!! Z.to_nat (y * 320 + x).
Definition in_view (x y : Z) : Prop := 0 ≤ x < 320 ∧ 0 ≤ y < 200.
Definition gfx_ok (s : gfx) : Prop := Z.of_nat (length (fb s)) = 64000 ∧ length (cursor_save s) = 96%nat ∧ bytes (fb s).
Definition same_cursor (s s' : gfx) : Prop :=
  cursor_save s' = cursor_save s ∧ cursor_saved_x s' = cursor_saved_x s ∧ cursor_saved_y s' = cursor_saved_y s.

(** A drawing: the new colour from the coordinates and the old colour. *)
Definition paint : Type := Z → Z → Z → Z.
Definition paint_eq (f g : paint) : Prop := ∀ x y p, in_view x y → f x y p = g x y p.
Infix "≡ₚ" := paint_eq (at level 70) : kum_scope.
Definition over (f g : paint) : paint := λ x y p, g x y (f x y p).
Infix "▷" := over (at level 60, right associativity) : kum_scope.
Definition blank_paint : paint := λ x y p, p.
Definition fill (P : Z → Z → bool) (c : Z) : paint := λ x y p, if P x y then u8 c else p.

(** [m] draws [f], for every picture, and touches nothing else. *)
Definition draws (m : M gfx unit) (f : paint) : Prop := ∀ s, gfx_ok s →
  wp m (λ _ s', gfx_ok s' ∧ same_cursor s s' ∧ ∀ x y, in_view x y → pix s' x y = f x y (pix s x y)) s.

Definition box (x y w h : Z) (px py : Z) : bool := (x <=? px) && (px <? x + w) && (y <=? py) && (py <? y + h).
Definition int_span (x w : Z) : Prop := -2 ^ 31 ≤ x ∧ 0 ≤ w ∧ x + w < 2 ^ 31.

#[global] Instance paint_eq_equiv : Equivalence paint_eq.
Proof.
  split; [done|by intros f g H x y p Hv; symmetry; apply H|].
  intros f g h H1 H2 x y p Hv. by rewrite H1, H2.
Qed.
#[global] Instance over_proper : Proper (paint_eq ==> paint_eq ==> paint_eq) over.
Proof. intros f f' Hf g g' Hg x y p Hv. unfold over. by rewrite Hf, Hg. Qed.
#[global] Instance draws_proper : Proper (eq ==> paint_eq ==> iff) draws.
Proof.
  intros m ? <- f g Hfg. split; intros H s Hs; (eapply wp_mono; [by apply H|]);
    intros ? s' (? & ? & Hp); (split_and!; [done..|]); intros x y Hv; rewrite Hp by done; [|symmetry]; by apply Hfg.
Qed.

Lemma draws_ext m f g : draws m f → f ≡ₚ g → draws m g.
Proof. by intros ? <-. Qed.

Lemma draws_ret : draws (mret tt) blank_paint.
Proof. intros s Hs. by apply wp_ret. Qed.

Lemma draws_seq m n f g : draws m f → draws n g → draws (m ;; n) (f ▷ g).
Proof.
  intros Hm Hn s Hs. apply wp_bind. eapply wp_mono; [by apply Hm|]. intros [] s1 (Hs1 & Hc1 & Hp1).
  eapply wp_mono; [by apply Hn|]. intros [] s2 (Hs2 & Hc2 & Hp2).
  split; [done|]. split.
  - destruct Hc1 as (? & ? & ?), Hc2 as (? & ? & ?). unfold same_cursor. split_and!; congruence.
  - intros x y Hv. unfold over. by rewrite Hp2, Hp1.
Qed.

Lemma draws_lift {A} (r : res A) (a : A) (m : A → M gfx unit) f : r = Ok a → draws (m a) f → draws (lift r ≫= m) f.
Proof. intros -> Hm s Hs. apply wp_bind. eapply wp_lift; [done|]. by apply Hm. Qed.

(** A loop whose turn [k] changes only the pixels that [sel] sends to [k]. *)
Lemma draws_for_up (sel : Z → Z → Z) (g : paint) n i body :
  (∀ k, i ≤ k < i + Z.of_nat n → draws (body k) (λ x y p, if sel x y =? k then g x y p else p)) →
  draws (for_up n i body) (λ x y p, if (i <=? sel x y) && (sel x y <? i + Z.of_nat n) then g x y p else p).
Proof.
  revert i. induction n as [|n IH]; intros i Hb; cbn [for_up].
  - eapply draws_ext; [apply draws_ret|].
    intros x y p _. unfold blank_paint. do 2 case_z; cbn; done || lia.
  - eapply draws_ext; [apply draws_seq; [apply Hb; lia|apply (IH (i + 1))]|].
    + intros k Hk. apply Hb. lia.
    + intros x y p _. unfold over. cbn beta. repeat case_z; cbn; done || lia.
Qed.
Lemma draws_for_range (sel : Z → Z → Z) (g : paint) lo hi body :
  (∀ k, lo ≤ k < hi → draws (body k) (λ x y p, if sel x y =? k then g x y p else p)) →
  draws (for_range lo hi body) (λ x y p, if (lo <=? sel x y) && (sel x y <? hi) then g x y p else p).
Proof.
  intros Hb. unfold for_range. eapply draws_ext; [apply (draws_for_up sel g)|].
  - intros k Hk. apply Hb. lia.
  - intros x y p _. cbn beta. destruct (Z.le_gt_cases lo hi).
    + by replace (lo + Z.of_nat (Z.to_nat (hi - lo))) with hi by lia.
    + repeat case_z; cbn; done || lia.
Qed.

(** Any loop of drawings. *)
Fixpoint paints (n : nat) (i : Z) (f : Z → paint) : paint :=
  match n with O => blank_paint | S n' => f i ▷ paints n' (i + 1) f end.
Lemma draws_for_each f lo hi body :
  (∀ k, lo ≤ k < hi → draws (body k) (f k)) → draws (for_range lo hi body) (paints (Z.to_nat (hi - lo)) lo f).
Proof.
  intros Hb. unfold for_range. assert (∀ k, lo ≤ k < lo + Z.of_nat (Z.to_nat (hi - lo)) → draws (body k) (f k)) as Hb' by (intros; apply Hb; lia).
  revert Hb'. generalize (Z.to_nat (hi - lo)). clear Hb. intros n. revert lo. induction n as [|n IH]; intros lo Hb; cbn [for_up paints]; [apply draws_ret|].
  apply draws_seq; [apply Hb; lia|]. apply IH. intros k Hk. apply Hb. lia.
Qed.

Lemma on_screen_view x y : on_screen (i32 x) (i32 y) = true ↔ in_view (i32 x) (i32 y).
Proof.
  unfold on_screen, in_view, GUI_WIDTH, GUI_HEIGHT, u32, i32. rewrite andb_true_iff, !Z.ltb_lt.
  pose proof (Z.mod_pos_bound (x + 2 ^ 31) (2 ^ 32)). pose proof (Z.mod_pos_bound (y + 2 ^ 31) (2 ^ 32)).
  set (a := (x + 2 ^ 31) mod 2 ^ 32) in *. set (b := (y + 2 ^ 31) mod 2 ^ 32) in *.
  split.
  - intros [Ha Hb]. split.
    + destruct (Z.lt_ge_cases (a - 2 ^ 31) 0); [|rewrite Z.mod_small in Ha; lia].
      rewrite <- (Z.mod_add _ 1), Z.mod_small in Ha; lia.
    + destruct (Z.lt_ge_cases (b - 2 ^ 31) 0); [|rewrite Z.mod_small in Hb; lia].
      rewrite <- (Z.mod_add _ 1), Z.mod_small in Hb; lia.
  - intros [Ha Hb]. rewrite !Z.mod_small by lia. lia.
Qed.

Lemma lookup_total_insert_ne_Z (l : list Z) i j v : (i ≠ j)%nat → <[i := v]> l !!! j = l !!! j.
Proof. intros. rewrite !list_lookup_total_alt, list_lookup_insert_ne by done. done. Qed.
Lemma lookup_total_insert_eq_Z (l : list Z) i v : (i < length l)%nat → <[i := v]> l !!! i = v.
Proof. intros. rewrite list_lookup_total_alt, list_lookup_insert_eq by done. done. Qed.

(** One pixel of the frame buffer. *)
Lemma put_fb_spec x y c s : gfx_ok s → in_view x y →
  ∃ l, put_fb (y * 320 + x) c s = Ok (tt, set_fb l s) ∧ gfx_ok (set_fb l s) ∧
    (∀ x' y', in_view x' y' → pix (set_fb l s) x' y' = if (x' =? x) && (y' =? y) then u8 c else pix s x' y').
Proof.
  intros (Hl & Hc & Hb) [Hx Hy]. unfold put_fb. rewrite arr_set_in by lia. cbn. eexists. split; [done|]. split.
  - split_and!; cbn; [by rewrite length_insert|done|]. apply Forall_insert; [done|]. pose proof (u8_range c). unfold is_byte. lia.
  - intros x' y' [Hx' Hy']. unfold pix, set_fb. cbn [fb].
    destruct (Z.eqb_spec x' x) as [->|Hne]; [destruct (Z.eqb_spec y' y) as [->|Hne]|]; cbn.
    + apply lookup_total_insert_eq_Z. lia.
    + apply lookup_total_insert_ne_Z. lia.
    + apply lookup_total_insert_ne_Z. lia.
Qed.

Lemma draws_pixel x y c : draws (gui_pixel x y c) (fill (λ px py, (px =? i32 x) && (py =? i32 y)) c).
Proof.
  intros s Hs. unfold gui_pixel, fill. destruct (on_screen _ _) eqn:E.
  - apply on_screen_view in E. unfold wp, GUI_WIDTH. destruct (put_fb_spec _ _ c s Hs E) as (l & -> & Hok & Hp).
    split; [done|]. split; [done|]. done.
  - apply wp_ret. split; [done|]. split; [done|]. intros px py Hv.
    destruct (Z.eqb_spec px (i32 x)) as [->|]; [|done]. destruct (Z.eqb_spec py (i32 y)) as [->|]; [|done].
    apply on_screen_view in Hv. congruence.
Qed.


Lemma draws_hline x y len c : int_span x len → int_span y 0 → draws (gui_hline x y len c) (fill (box x y len 1) c).
Proof.
  intros [? ?] [? ?]. unfold gui_hline.
  eapply draws_ext; [apply (draws_for_range (λ px _, px - x) (λ _ py p, if py =? y then u8 c else p))|].
  - intros k Hk. eapply draws_ext; [apply draws_pixel|]. intros px py p _. unfold fill. rewrite !i32_small by lia.
    repeat case_z; cbn; done || lia.
  - intros px py p _. unfold fill, box. repeat case_z; cbn; done || lia.
Qed.

Lemma draws_vline x y len c : int_span x 0 → int_span y len → draws (gui_vline x y len c) (fill (box x y 1 len) c).
Proof.
  intros [? ?] [? ?]. unfold gui_vline.
  eapply draws_ext; [apply (draws_for_range (λ _ py, py - y) (λ px _ p, if px =? x then u8 c else p))|].
  - intros k Hk. eapply draws_ext; [apply draws_pixel|]. intros px py p _. unfold fill. rewrite !i32_small by lia.
    repeat case_z; cbn; done || lia.
  - intros px py p _. unfold fill, box. repeat case_z; cbn; done || lia.
Qed.

Lemma draws_rect_fill x y w h c : int_span x w → int_span y h → draws (gui_rect_fill x y w h c) (fill (box x y w h) c).
Proof.
  intros [? [? ?]] [? [? ?]]. unfold gui_rect_fill. rewrite !i32_small by lia.
  eapply draws_ext; [apply (draws_for_range (λ _ py, py) (λ px _ p, if (x <=? px) && (px <? x + w) then u8 c else p))|].
  - intros k Hk. eapply draws_ext; [apply (draws_for_range (λ px _, px) (λ _ py p, if py =? k then u8 c else p))|].
    + intros j Hj. eapply draws_ext; [apply draws_pixel|]. intros px py p _. unfold fill. rewrite !i32_small by lia.
      repeat case_z; cbn; done || lia.
    + intros px py p _. cbn beta. repeat case_z; cbn; done || lia.
  - intros px py p _. unfold fill, box. repeat case_z; cbn; done || lia.
Qed.

(** The outline of a rectangle. *)
Definition frame (x y w h px py : Z) : bool :=
  box x y w 1 px py || box x (y + h - 1) w 1 px py || box x y 1 h px py || box (x + w - 1) y 1 h px py.
Lemma draws_rect x y w h c : int_span x w → int_span y h → 1 ≤ w → 1 ≤ h →
  draws (gui_rect x y w h c) (fill (frame x y w h) c).
Proof.
  intros [? [? ?]] [? [? ?]] ? ?. unfold gui_rect. rewrite !i32_small by lia.
  eapply draws_ext; [eapply draws_seq; [|eapply draws_seq; [|eapply draws_seq]];
    (apply draws_hline || apply draws_vline); split; lia|].
  intros px py p _. unfold over, fill, frame.
  do 4 match goal with |- context [box ?a ?b ?c ?d px py] => destruct (box a b c d px py) end; done.
Qed.

(** ** Text *)

(** The pixel of a glyph in its 8 by 8 cell, as the code reads the rows of the font. *)
Definition glyph_bit (c row col : Z) : bool :=
  Z.testbit ((font8x8 !!! Z.to_nat (glyph_idx c)) !!! Z.to_nat row) (7 - col).
Definition glyph_paint (x y c fg bg : Z) : paint := λ px py p,
  if box x y 8 8 px py then u8 (if glyph_bit c (py - y) (px - x) then fg else bg) else p.

Lemma glyph_idx_range c : 0 ≤ glyph_idx c < 96.
Proof. unfold glyph_idx. repeat case_z; cbn; lia. Qed.

Lemma font_row c row : 0 ≤ row < 8 → ∃ g,
  arr_get font8x8 (glyph_idx c) = Ok g ∧ arr_get g row = Ok ((font8x8 !!! Z.to_nat (glyph_idx c)) !!! Z.to_nat row).
Proof.
  intros Hr. destruct (arr_get_in font8x8 (glyph_idx c)) as (g & Eg & Hg); [pose proof (glyph_idx_range c); cbn; lia|].
  exists g. split; [done|]. rewrite (list_lookup_total_correct _ _ _ Hg).
  assert (length g = 8%nat) as Hl.
  { revert Hg. generalize (Z.to_nat (glyph_idx c)). intros k Hk.
    assert (Forall (λ l : list Z, length l = 8%nat) font8x8) as HF by (repeat constructor).
    by apply (Forall_lookup_1 _ _ _ _ HF Hk). }
  destruct (arr_get_in g row) as (b & -> & Hb); [lia|]. by rewrite (list_lookup_total_correct _ _ _ Hb).
Qed.

(** [bits & (0x80 >> col)] *)
Lemma column_mask b col : 0 ≤ col < 8 → (Z.land b (Z.shiftr 0x80 col) =? 0) = negb (Z.testbit b (7 - col)).
Proof.
  intros Hc. replace (Z.shiftr 0x80 col) with (2 ^ (7 - col)).
  - rewrite <- flag_test by lia. by rewrite negb_involutive.
  - change 0x80 with (2 ^ 7). rewrite Z.shiftr_div_pow2 by lia. rewrite Z.pow_sub_r by lia. done.
Qed.

Lemma draws_putchar x y c fg bg : int_span x 8 → int_span y 8 → draws (gui_putchar x y c fg bg) (glyph_paint x y c fg bg).
Proof.
  intros [? [_ ?]] [? [_ ?]]. unfold gui_putchar.
  destruct (font_row c 0) as (g & Eg & _); [lia|]. eapply draws_lift; [done|].
  eapply draws_ext; [apply (draws_for_range (λ _ py, py - y) (λ px py p,
    if (x <=? px) && (px <? x + 8) then u8 (if glyph_bit c (py - y) (px - x) then fg else bg) else p))|].
  - intros row Hr. destruct (font_row c row Hr) as (g' & Eg' & Er). rewrite Eg in Eg'. injection Eg' as <-.
    eapply draws_lift; [done|].
    eapply draws_ext; [apply (draws_for_range (λ px _, px - x) (λ px py p,
      if py - y =? row then u8 (if glyph_bit c (py - y) (px - x) then fg else bg) else p))|].
    + intros col Hc. eapply draws_ext; [apply draws_pixel|]. intros px py p _. unfold fill. rewrite !i32_small by lia.
      rewrite column_mask by lia. unfold glyph_bit.
      destruct (Z.eqb_spec px (x + col)) as [->|]; [destruct (Z.eqb_spec py (y + row)) as [->|]|]; cbn.
      * replace (x + col - x) with col by lia. replace (y + row - y) with row by lia. rewrite !Z.eqb_refl.
        by destruct (Z.testbit _ _).
      * replace (x + col - x) with col by lia. rewrite Z.eqb_refl. case_z; [lia|done].
      * case_z; [lia|done].
    + intros px py p _. cbn beta. repeat case_z; cbn; done || lia.
  - intros px py p _. unfold glyph_paint, box. repeat case_z; cbn; done || lia.
Qed.

(** A text without line breaks from [(x, y)] on. *)
Fixpoint text_paint (x y : Z) (s : list Z) (fg bg : Z) : paint :=
  match s with
  | [] => blank_paint
  | c :: s' => glyph_paint x y c fg bg ▷ text_paint (x + 8) y s' fg bg
  end.

(** The picture of a line of text: each cell of eight columns has its character's glyph. *)
Definition line_paint (x y : Z) (s : list Z) (fg bg : Z) : paint := λ px py p,
  if box x y (8 * Z.of_nat (length s)) 8 px py
  then u8 (if glyph_bit (s !!! Z.to_nat ((px - x) / 8)) (py - y) ((px - x) mod 8) then fg else bg) else p.

Lemma text_line x y s fg bg : text_paint x y s fg bg ≡ₚ line_paint x y s fg bg.
Proof.
  revert x. induction s as [|c s IH]; intros x px py p Hv; cbn [text_paint].
  - unfold blank_paint, line_paint, box. cbn [length]. repeat case_z; cbn; done || lia.
  - unfold over. rewrite (IH (x + 8)) by done. unfold line_paint, glyph_paint, box. cbn [length].
    destruct (Z.lt_ge_cases (px - x) 0) as [Hlt|Hge].
    { repeat case_z; cbn; done || lia. }
    destruct (Z.lt_ge_cases (px - x) 8) as [Hc|Hc].
    + rewrite (Z.div_small (px - x) 8), (Z.mod_small (px - x) 8) by lia. cbn [Z.to_nat].
      repeat case_z; cbn; done || lia.
    + assert ((px - x) / 8 = (px - (x + 8)) / 8 + 1) as Hd
        by (replace (px - x) with (px - (x + 8) + 1 * 8) by lia; rewrite Z.div_add by lia; lia).
      assert ((px - x) mod 8 = (px - (x + 8)) mod 8) as Hm
        by (replace (px - x) with (px - (x + 8) + 1 * 8) by lia; by rewrite Z_mod_plus_full).
      pose proof (Z.div_pos (px - (x + 8)) 8).
      assert (s !!! Z.to_nat ((px - (x + 8)) / 8) = (c :: s) !!! Z.to_nat ((px - x) / 8)) as Hs.
      { rewrite Hd. rewrite Z2Nat.inj_add by lia. rewrite Nat.add_comm. done. }
      rewrite Hs, Hm. repeat case_z; cbn; done || lia.
Qed.

Definition no_newline (s : list Z) : Prop := Forall (λ c, c ≠ 10) s.

Lemma draws_puts_from x y buf s cx fg bg :
  cstr buf s → no_newline s → -2 ^ 31 ≤ cx → cx + 8 * Z.of_nat (length s) ≤ 320 → int_span y 8 →
  draws (puts_loop buf x cx y fg bg) (text_paint cx y s fg bg).
Proof.
  intros Hb Hn. revert buf cx Hb. induction Hn as [|c s Hc Hn IH]; intros buf cx Hb Hx Hfit Hy.
  - cstr_cases Hb. cbn. apply draws_ret.
  - cstr_cases Hb. cbn [length] in Hfit. cbn [puts_loop text_paint].
    rewrite (proj2 (Z.eqb_neq _ _)) by done. rewrite (proj2 (Z.eqb_neq _ _)) by done.
    unfold GUI_WIDTH. rewrite (i32_small (cx + 8)) by lia. rewrite (proj2 (Z.ltb_ge _ _)) by lia. cbv iota.
    rewrite (i32_small (cx + 8)) by lia.
    apply draws_seq; [apply draws_putchar; [split; lia|done]|]. apply IH; [done|lia..|done].
Qed.

(** Gui_puts draws a line of text: the picture changes exactly in the cells of eight by
    eight pixels of its characters, where it shows their glyphs in the two colours given,
    and the cursor's save area is untouched, wherever the line lies on or off the left, upper
    and lower edges. *)
Theorem gui_puts_line x y buf s fg bg :
  cstr buf s → no_newline s → -2 ^ 31 ≤ x → x + 8 * Z.of_nat (length s) ≤ 320 → int_span y 8 →
  draws (gui_puts x y buf fg bg) (line_paint x y s fg bg).
Proof. intros. unfold gui_puts. eapply draws_ext; [by apply draws_puts_from|apply text_line]. Qed.

(** Any text: line breaks and the right edge of the screen start a new line nine rows down. *)
Fixpoint layout_paint (s : list Z) (x cx y fg bg : Z) : paint :=
  match s with
  | [] => blank_paint
  | c :: s' =>
      if c =? 10 then layout_paint s' x x (y + 9) fg bg
      else if 320 <? cx + 8 then glyph_paint x (y + 9) c fg bg ▷ layout_paint s' x (x + 8) (y + 9) fg bg
      else glyph_paint cx y c fg bg ▷ layout_paint s' x (cx + 8) y fg bg
  end.

Lemma draws_puts_loop x y buf s cx fg bg :
  cstr buf s → -2 ^ 31 ≤ x ≤ 320 → -2 ^ 31 ≤ cx ≤ 328 → int_span y (9 * Z.of_nat (length s) + 9) →
  draws (puts_loop buf x cx y fg bg) (layout_paint s x cx y fg bg).
Proof.
  revert buf cx y. induction s as [|c s IH]; intros buf cx y Hb Hx Hcx [Hy [_ Hys]]; cstr_cases Hb; [apply draws_ret|].
  cbn [length] in Hys. cbn [puts_loop layout_paint]. rewrite (proj2 (Z.eqb_neq _ 0)) by done.
  unfold GUI_WIDTH. rewrite (i32_small (cx + 8)), (i32_small (y + 9)) by lia.
  case_z; [apply IH; (done || lia || split; lia)|].
  case_if; rewrite i32_small by lia; (apply draws_seq; [apply draws_putchar; split; lia|apply IH; (done || lia || split; lia)]).
Qed.

Lemma draws_puts x y buf s fg bg : cstr buf s → -2 ^ 31 ≤ x ≤ 320 → int_span y (9 * Z.of_nat (length s) + 9) →
  draws (gui_puts x y buf fg bg) (layout_paint s x x y fg bg).
Proof. intros. apply draws_puts_loop; (done || lia). Qed.

(** The picture of a window: the shadow, the surface, the title bar, the frame, the title and
    the closing box, each over the one before. *)
Definition window_paint (x y w h : Z) (title : list Z) : paint :=
  fill (box (x + 3) (y + 3) w h) C_SHADOW ▷ fill (box x y w h) C_WIN_BG ▷ fill (box x y w 11) C_WIN_TITLE ▷
  fill (frame x y w h) C_WIN_BORDER ▷ layout_paint title (x + 4) (x + 4) (y + 2) C_LIGHT_CYAN C_WIN_TITLE ▷
  fill (box (x + w - 11) (y + 1) 9 9) C_RED ▷ glyph_paint (x + w - 9) (y + 2) 88 C_WHITE C_RED.

Lemma draws_window x y w h buf title :
  cstr buf title → int_span x (w + 3) → int_span y (h + 3 + 9 * Z.of_nat (length title) + 30) → 1 ≤ w → 1 ≤ h →
  x + w ≤ 321 → x ≤ 316 → -2 ^ 31 ≤ x + w - 11 →
  draws (gui_window x y w h buf) (window_paint x y w h title).
Proof.
  intros Hb [? [? ?]] [? [? ?]] ? ? ? ? ?. unfold gui_window.
  repeat apply draws_seq; try (apply draws_rect_fill; split; lia); [apply draws_rect; (split; lia) || lia| |].
  - apply draws_puts; [done|lia|split; lia].
  - eapply draws_ext; [apply (draws_puts _ _ (lit "X") [88]); [by exists []; repeat constructor|lia|split; cbn; lia]|].
    intros px py p Hv. cbn [layout_paint]. unfold over, blank_paint. rewrite (proj2 (Z.ltb_ge _ _)) by lia. done.
Qed.

(** ** The cursor *)

Lemma wp_cursor_cell (I : Z → gfx → Prop) body (Q : unit → gfx → Prop) s :
  I 0 s →
  (∀ row col s, 0 ≤ row < 12 → 0 ≤ col < 8 → I (row * 8 + col) s → wp (body row col) (λ _ s', I (row * 8 + col + 1) s') s) →
  (∀ s, I 96 s → Q tt s) →
  wp (cursor_cell body) Q s.
Proof.
  intros H0 Hb HQ. unfold cursor_cell, CUR_H, CUR_W.
  apply (wp_for_range (λ row s, I (row * 8) s)); [lia|done| |apply HQ].
  intros row s1 Hr Hi. apply (wp_for_range (λ col s, I (row * 8 + col) s)); [lia|by rewrite Z.add_0_r| |].
  - intros col s2 Hc Hi2. rewrite Z.add_assoc. by apply Hb.
  - intros s2. by replace ((row + 1) * 8) with (row * 8 + 8) by lia.
Qed.

(** The cell of the cursor a pixel lies in, if any. *)
Definition cell (x y px py : Z) : Z := if box x y 8 12 px py then (py - y) * 8 + (px - x) else 96.

Lemma cell_eq x y row col px py : 0 ≤ row < 12 → 0 ≤ col < 8 →
  cell x y px py = row * 8 + col ↔ px = x + col ∧ py = y + row.
Proof.
  intros Hr Hc. unfold cell, box. split.
  - repeat case_z; cbn; intros E; lia.
  - intros [-> ->]. repeat case_z; cbn; lia.
Qed.

(** The picture under the cursor: the cells below [k] are saved. *)
Definition saved_below (k x y : Z) (s0 s : gfx) : Prop :=
  gfx_ok s ∧ cursor_saved_x s = x ∧ cursor_saved_y s = y ∧
  ∀ px py, in_view px py →
    if cell x y px py <? k then cursor_save s !! Z.to_nat (cell x y px py) = Some (pix s0 px py)
    else pix s px py = pix s0 px py.

Lemma cell_range x y px py : 0 ≤ cell x y px py ≤ 96.
Proof. unfold cell, box. repeat case_z; cbn; lia. Qed.

Lemma shape_cell row col : 0 ≤ row < 12 → 0 ≤ col < 8 →
  ∃ l v, arr_get cursor_shape row = Ok l ∧ arr_get l col = Ok v.
Proof.
  intros Hr Hc. destruct (arr_get_in cursor_shape row) as (l & El & Hl); [cbn; lia|].
  assert (length l = 8%nat) as Hlen.
  { assert (Forall (λ l : list Z, length l = 8%nat) cursor_shape) as HF by (repeat constructor).
    by apply (Forall_lookup_1 _ _ _ _ HF Hl). }
  destruct (arr_get_in l col) as (v & Ev & _); [lia|]. eauto.
Qed.

Lemma saved_next x y s0 s row col : 0 ≤ row < 12 → 0 ≤ col < 8 →
  saved_below (row * 8 + col) x y s0 s → ¬ in_view (x + col) (y + row) → saved_below (row * 8 + col + 1) x y s0 s.
Proof.
  intros Hr Hc (Hok & Hx & Hy & Hp) Hout. split_and!; [done..|]. intros px py Hv. specialize (Hp px py Hv).
  destruct (Z.eq_dec (cell x y px py) (row * 8 + col)) as [E|E].
  - apply cell_eq in E as [-> ->]; done.
  - revert Hp. do 2 case_z; done || lia.
Qed.

Lemma draw_cell_spec x y s0 row col s : int_span x 8 → int_span y 12 → 0 ≤ row < 12 → 0 ≤ col < 8 →
  saved_below (row * 8 + col) x y s0 s → wp (draw_cell x y row col) (λ _ s', saved_below (row * 8 + col + 1) x y s0 s') s.
Proof.
  intros [? [_ ?]] [? [_ ?]] Hr Hc Hs. pose proof Hs as (Hok & Hx & Hy & Hp). unfold draw_cell.
  destruct (on_screen _ _) eqn:Eo.
  2: { apply wp_ret, saved_next; [done..|]. intros Hv. rewrite <- (i32_small (x + col)), <- (i32_small (y + row)) in Hv by lia.
       apply on_screen_view in Hv. congruence. }
  apply on_screen_view in Eo. rewrite !i32_small in * by lia. destruct Eo as [Vx Vy].
  apply wp_bind, wp_get. apply wp_bind. destruct Hok as (Hfb & Hsv & Hbytes). unfold GUI_WIDTH, CUR_W.
  destruct (arr_get_in (fb s) ((y + row) * 320 + (x + col))) as (old & -> & Eold); [lia|]. eapply wp_lift; [done|].
  apply wp_bind. rewrite arr_set_in by lia. eapply wp_lift; [done|].
  apply wp_bind, wp_modify. destruct (shape_cell row col Hr Hc) as (l & v & El & Ev).
  apply wp_bind. eapply wp_lift; [exact El|]. apply wp_bind. eapply wp_lift; [exact Ev|].
  set (s1 := set_save _ s).
  assert (gfx_ok s1) as Hok1 by (split_and!; [done|cbn; by rewrite length_insert|done]).
  assert (pix s (x + col) (y + row) = old) as Epix by (unfold pix; by apply list_lookup_total_correct).
  assert (∀ s2, gfx_ok s2 → same_cursor s1 s2 →
    (∀ px py, in_view px py → ¬ (px = x + col ∧ py = y + row) → pix s2 px py = pix s px py) →
    saved_below (row * 8 + col + 1) x y s0 s2) as Hnext.
  { intros s2 Hok2 (Hc2 & Hx2 & Hy2) Hp2. split_and!; [done|by rewrite Hx2|by rewrite Hy2|]. intros px py Hv.
    specialize (Hp px py Hv). rewrite Hc2. cbn [cursor_save s1 set_save]. pose proof (cell_range x y px py).
    destruct (Z.eq_dec (cell x y px py) (row * 8 + col)) as [E|E].
    - rewrite E in Hp |- *. rewrite (proj2 (Z.ltb_lt _ _)) by lia. rewrite list_lookup_insert_eq by lia.
      rewrite (proj2 (Z.ltb_ge _ _)) in Hp by lia. apply cell_eq in E as [-> ->]; [|done..]. by rewrite <- Hp, Epix.
    - rewrite Hp2; [|done|by rewrite <- cell_eq]. rewrite list_lookup_insert_ne by lia.
      revert Hp. do 2 case_z; done || lia. }
  assert (∀ c, wp (put_fb ((y + row) * 320 + (x + col)) c) (λ _ s', saved_below (row * 8 + col + 1) x y s0 s') s1) as Hput.
  { intros c. unfold wp. destruct (put_fb_spec (x + col) (y + row) c s1 Hok1) as (m & -> & Hok2 & Hp2); [done|].
    apply Hnext; [done|done|]. intros px py Hv Hne. rewrite Hp2 by done.
    destruct (Z.eqb_spec px (x + col)), (Z.eqb_spec py (y + row)); naive_solver. }
  case_if; [apply Hput|]. case_if; [apply Hput|]. apply wp_ret, Hnext; done.
Qed.

Lemma pix_byte s x y : gfx_ok s → in_view x y → 0 ≤ pix s x y < 256.
Proof.
  intros (Hl & _ & Hb) [Hx Hy]. unfold pix. destruct (lookup_lt_is_Some_2 (fb s) (Z.to_nat (y * 320 + x))) as [v Hv]; [lia|].
  rewrite (list_lookup_total_correct _ _ _ Hv). by apply (Forall_lookup_1 _ _ _ _ Hb Hv).
Qed.

Lemma pix_ext s s' : gfx_ok s → gfx_ok s' → (∀ x y, in_view x y → pix s' x y = pix s x y) → fb s' = fb s.
Proof.
  intros (Hl & _) (Hl' & _) Hp. apply list_eq_same_length with (length (fb s)); [lia|lia|].
  intros i v v' Hi Hv Hv'. specialize (Hp (Z.of_nat i mod 320) (Z.of_nat i / 320)).
  pose proof (Z.div_mod (Z.of_nat i) 320). pose proof (Z.mod_pos_bound (Z.of_nat i) 320).
  assert (Z.of_nat i / 320 < 200) by (apply Z.div_lt_upper_bound; lia). pose proof (Z.div_pos (Z.of_nat i) 320).
  unfold pix in Hp. replace (Z.to_nat _) with i in Hp by lia.
  rewrite (list_lookup_total_correct _ _ _ Hv), (list_lookup_total_correct _ _ _ Hv') in Hp. apply Hp. split; lia.
Qed.

(** While the cursor is removed: the cells from [k] on are still to be restored. *)
Definition restored_below (k x y : Z) (s0 s : gfx) : Prop :=
  gfx_ok s ∧ cursor_saved_y s = y ∧
  ∀ px py, in_view px py →
    if (k <=? cell x y px py) && (cell x y px py <? 96) then cursor_save s !! Z.to_nat (cell x y px py) = Some (pix s0 px py)
    else pix s px py = pix s0 px py.

Lemma erase_cell_spec x y s0 row col s : int_span x 8 → int_span y 12 → 0 ≤ row < 12 → 0 ≤ col < 8 →
  gfx_ok s0 → restored_below (row * 8 + col) x y s0 s → wp (erase_cell x y row col) (λ _ s', restored_below (row * 8 + col + 1) x y s0 s') s.
Proof.
  intros [? [_ ?]] [? [_ ?]] Hr Hc Hok0 (Hok & Hy & Hp). unfold erase_cell.
  destruct (on_screen _ _) eqn:Eo.
  2: { apply wp_ret. split_and!; [done..|]. intros px py Hv. specialize (Hp px py Hv).
       destruct (Z.eq_dec (cell x y px py) (row * 8 + col)) as [E|E].
       - apply cell_eq in E as [-> ->]; [|done..]. rewrite <- (i32_small (x + col)), <- (i32_small (y + row)) in Hv by lia.
         apply on_screen_view in Hv. congruence.
       - revert Hp. repeat case_z; cbn; done || lia. }
  apply on_screen_view in Eo. rewrite !i32_small in * by lia. unfold GUI_WIDTH, CUR_W.
  assert (cell x y (x + col) (y + row) = row * 8 + col) as Ec by (by apply cell_eq).
  pose proof (Hp _ _ Eo) as Hcell. rewrite Ec in Hcell. rewrite (proj2 (Z.leb_le _ _)), (proj2 (Z.ltb_lt _ _)) in Hcell by lia.
  apply wp_bind, wp_get, wp_bind. eapply wp_lift; [apply arr_get_Ok; split; [lia|exact Hcell]|].
  unfold wp. destruct (put_fb_spec (x + col) (y + row) (pix s0 (x + col) (y + row)) s Hok Eo) as (m & -> & Hok2 & Hp2).
  split_and!; [apply Hok2..|done|]. intros px py Hv. rewrite Hp2 by done. specialize (Hp px py Hv). cbn [cursor_save set_fb].
  destruct (Z.eq_dec (cell x y px py) (row * 8 + col)) as [E|E].
  - pose proof (proj1 (cell_eq x y row col px py Hr Hc) E) as [-> ->]. rewrite E, !Z.eqb_refl. cbn.
    rewrite (proj2 (Z.leb_gt _ _)) by lia. cbn. apply u8_small. by apply pix_byte.
  - assert ((px =? x + col) && (py =? y + row) = false) as ->.
    { destruct (Z.eqb_spec px (x + col)), (Z.eqb_spec py (y + row)); cbn; try done. exfalso. apply E. by apply cell_eq. }
    revert Hp. repeat case_z; cbn; done || lia.
Qed.

(** Drawing the cursor and removing it leaves every pixel of the picture as it was,
    wherever on or off the screen the cursor was drawn with a non-negative column; the place
    given to the removal does not matter. *)
Theorem cursor_roundtrip x y ex ey s :
  gfx_ok s → 0 ≤ x → int_span x 8 → int_span y 12 →
  wp (gui_draw_cursor x y ;; gui_erase_cursor ex ey) (λ _ s', fb s' = fb s ∧ cursor_saved_x s' = -1) s.
Proof.
  intros Hs H0 Hx Hy. unfold gui_draw_cursor. apply wp_bind, wp_bind, wp_modify.
  apply (wp_cursor_cell (λ k s', saved_below k x y s s')).
  - split_and!; try apply Hs; try done. intros px py Hv. pose proof (cell_range x y px py). case_z; [lia|done].
  - intros row col s1 Hr Hc Hi. by apply draw_cell_spec.
  - intros s1 (Hok1 & Ex & Ey & Hp1). unfold gui_erase_cursor. apply wp_bind, wp_get. rewrite Ex.
    destruct (Z.ltb_spec x 0); [lia|]. apply wp_bind. rewrite Ey.
    apply (wp_cursor_cell (λ k s', restored_below k x y s s')).
    + split_and!; try apply Hok1; try done. intros px py Hv. specialize (Hp1 px py Hv). pose proof (cell_range x y px py).
      rewrite (proj2 (Z.leb_le _ _)) by lia. done.
    + intros row col s2 Hr Hc Hi. by apply erase_cell_spec.
    + intros s2 (Hok2 & Ey2 & Hp2). apply wp_modify. cbn. split; [|done]. apply pix_ext; [done..|].
      intros px py Hv. specialize (Hp2 px py Hv). pose proof (cell_range x y px py). revert Hp2. repeat case_z; cbn; done || lia.
Qed.

(** A column off the left edge is taken for a cursor that was not drawn. *)
Lemma cursor_left_edge_stays s x y : gfx_ok s → x < 0 → cursor_saved_x s = x → gui_erase_cursor x y s = Ok (tt, s).
Proof. intros _ Hx E. unfold gui_erase_cursor, mbind, M_bind, get. cbn. rewrite E. by rewrite (proj2 (Z.ltb_lt x 0)). Qed.

(** [gui_line] from the left of one row to the right of the next ends in the first row. *)
Definition black : gfx := mkGfx (replicate (Z.to_nat 64000) 0) (replicate 96 0) (-1) (-1).
Example line_misses_end :
  match gui_line 0 0 3 1 C_WHITE black with Ok (_, s') => (pix s' 3 1, pix s' 3 0) | _ => (0, 0) end = (0, C_WHITE).
Proof. vm_compute. reflexivity. Qed.

(** The font has the leftmost pixel of a row in the lowest bit, but rows are drawn from the
    highest: the upright stroke of the letter L is on its right. *)
Example glyphs_are_mirrored :
  ((λ row, glyph_bit 76 row 5) <$> [0; 1; 2; 3; 4; 5; 6]) = replicate 7 true ∧
  ((λ row, glyph_bit 76 row 1) <$> [0; 1; 2; 3]) = replicate 4 false.
Proof. by split. Qed.

(** ** Witnesses *)
Lemma black_ok : gfx_ok black.
Proof.
  split_and!; [unfold black; cbn [fb]; rewrite length_replicate; lia|done|]. apply Forall_replicate. unfold is_byte. lia.
Qed.

Lemma black_pix x y : in_view x y → pix black x y = 0.
Proof.
  intros [? ?]. unfold pix, black. cbn [fb]. apply list_lookup_total_correct, lookup_replicate. split; [done|lia].
Qed.

Lemma gui_puts_line_witness : wp (gui_puts 40 60 (lit "KumOS") C_WHITE C_NAVY)
  (λ _ s', pix s' 45 60 = (if glyph_bit 75 0 5 then C_WHITE else C_NAVY) ∧ pix s' 10 10 = 0) black.
Proof.
  assert (draws (gui_puts 40 60 (lit "KumOS") C_WHITE C_NAVY) (line_paint 40 60 (str "KumOS") C_WHITE C_NAVY)) as Hd.
  { apply gui_puts_line; [apply cstr_lit; repeat constructor; done|repeat constructor; done|lia|by vm_compute|split; lia]. }
  eapply wp_mono; [exact (Hd black black_ok)|]. intros [] s' (_ & _ & Hp).
  rewrite !Hp by (split; lia). rewrite black_pix by (split; lia). split; reflexivity.
Defined.

Lemma cursor_roundtrip_witness :
  wp (gui_draw_cursor 316 190 ;; gui_erase_cursor 0 0) (λ _ s', fb s' = fb black ∧ cursor_saved_x s' = -1) black.
Proof. apply (cursor_roundtrip 316 190 0 0 black); [apply black_ok|lia|split; lia..]. Defined.
