(* ===== verification/Gui.v ===== *)
(** * The graphical desktop (src/src/gui.c)

    Mode 13h is entered by programming the VGA registers; a loop then draws the desktop,
    a terminal window, the task bar and the mouse cursor and reacts to keys and to the
    mouse. The first part is the code, over the state of the drivers it uses; the second
    relates the terminal window to a list of lines. *)

From S2P Require Import Prelude Ports KString KMalloc Vga Dmesg Process Sched Signal Keyboard Mouse Rtc Draw.

Definition TERM_X : Z := 50.
Definition TERM_Y : Z := 12.
Definition TERM_W : Z := 270.
Definition TERM_H : Z := 120.
Definition TERM_ROWS : Z := 12.
Definition TERM_COLS : Z := 33.
Definition TERM_TX : Z := TERM_X + 4.
Definition TERM_TY : Z := TERM_Y + 13.

(** ** The registers of the two modes *)
Definition crtc13 : list Z := [
  0x5F; 0x4F; 0x50; 0x82; 0x54; 0x80; 0xBF; 0x1F; 0x00; 0x41; 0x00; 0x00; 0x00; 0x00; 0x00; 0x00;
  0x9C; 0x0E; 0x8F; 0x28; 0x40; 0x96; 0xB9; 0xA3; 0xFF].
Definition gc13 : list Z := [0x00; 0x00; 0x00; 0x00; 0x00; 0x40; 0x05; 0x0F; 0xFF].
Definition ac13 : list Z := [
  0x00; 0x01; 0x02; 0x03; 0x04; 0x05; 0x06; 0x07; 0x08; 0x09; 0x0A; 0x0B; 0x0C; 0x0D; 0x0E; 0x0F;
  0x41; 0x00; 0x0F; 0x00; 0x00].
Definition crtc3 : list Z := [
  0x5F; 0x4F; 0x50; 0x82; 0x55; 0x81; 0xBF; 0x1F; 0x00;
  0x4F; 0x0D; 0x0E; 0x00; 0x00; 0x00; 0x00; 0x9C; 0x0E;
  0x8F; 0x28; 0x1F; 0x96; 0xB9; 0xA3; 0xFF].
Definition gc3 : list Z := [0x00; 0x00; 0x00; 0x00; 0x00; 0x10; 0x0E; 0x00; 0xFF].
Definition ac3 : list Z := [
  0x00; 0x01; 0x02; 0x03; 0x04; 0x05; 0x14; 0x07;
  0x38; 0x39; 0x3A; 0x3B; 0x3C; 0x3D; 0x3E; 0x3F;
  0x0C; 0x00; 0x0F; 0x08; 0x00].
Definition pal : list (Z * Z * Z) := [
  (0,0,0); (0,0,42); (0,42,0); (0,42,42); (42,0,0); (42,0,42); (42,21,0); (42,42,42);
  (21,21,21); (21,21,63); (21,63,21); (21,63,63); (63,21,21); (63,21,63); (63,63,21); (63,63,63);
  (63,32,0); (0,0,32); (0,32,32); (32,63,0); (32,0,48); (0,0,20); (10,20,42); (16,28,50);
  (8,16,40); (52,52,56); (28,28,32); (4,4,4); (40,40,44); (50,50,55); (20,32,56); (63,63,0)].

(** The text buffer of the terminal window. *)
Record gterm := mkTermWin {
  term_lines : list (list Z);
  term_row : Z;
  term_input : list Z;
  term_icur : Z
}.
Definition set_lines (l : list (list Z)) (r : Z) (t : gterm) : gterm := mkTermWin l r (term_input t) (term_icur t).
Definition set_input (l : list Z) (c : Z) (t : gterm) : gterm := mkTermWin (term_lines t) (term_row t) l c.

(** [kstrcpy(term_lines[i], s)] *)
Definition copy_line (i : Z) (s : list Z) : M gterm unit := λ t,
  old ← arr_get (term_lines t) i;
  new ← kstrcpy old s;
  l ← arr_set (term_lines t) i new; Ok (tt, set_lines l (term_row t) t).
(** [term_lines[i][0] = 0] *)
Definition clear_line (i : Z) : M gterm unit := λ t,
  old ← arr_get (term_lines t) i;
  new ← arr_set old 0 0;
  l ← arr_set (term_lines t) i new; Ok (tt, set_lines l (term_row t) t).
Definition goto_line (r : Z) : M gterm unit := modify (λ t, set_lines (term_lines t) r t).
Definition clear_input : M gterm unit := λ t, l ← arr_set (term_input t) 0 0; Ok (tt, set_input l 0 t).

Definition term_init : M gterm unit :=
  for_range 0 TERM_ROWS clear_line ;;
  copy_line 0 (lit "KumOS v1.5 GUI terminal") ;;
  copy_line 1 (lit "Type commands, Enter to run") ;;
  copy_line 2 (lit "ESC = back to shell") ;;
  goto_line 3 ;;
  clear_input.

Definition term_scroll : M gterm unit :=
  for_range 0 (TERM_ROWS - 1) (λ i, t ← get; s ← lift (arr_get (term_lines t) (i + 1)); copy_line i s) ;;
  clear_line (TERM_ROWS - 1) ;;
  t ← get;
  if 0 <? term_row t then goto_line (term_row t - 1) else mret tt.

Definition term_puts (s : list Z) : M gterm unit :=
  t ← get;
  (if TERM_ROWS <=? term_row t then term_scroll else mret tt) ;;
  t ← get;
  copy_line (term_row t) s ;;
  goto_line (term_row t + 1).

Section gui.
Context {D : Type} `{Ports D} {K : Type} `{Allocator K}.

(** The components the desktop uses. The bus behind the mouse driver has the ports of the
    clock and the video card, too. *)
Record gui := mkGui {
  g_fx : gfx; g_term : gterm; g_vga : vga; g_kb : kb; g_mouse : mouse D; g_timer : timer K
}.
Definition set_fx (v : gfx) (g : gui) : gui := mkGui v (g_term g) (g_vga g) (g_kb g) (g_mouse g) (g_timer g).
Definition set_term (v : gterm) (g : gui) : gui := mkGui (g_fx g) v (g_vga g) (g_kb g) (g_mouse g) (g_timer g).
Definition set_screen (v : vga) (g : gui) : gui := mkGui (g_fx g) (g_term g) v (g_kb g) (g_mouse g) (g_timer g).
Definition set_kb (v : kb) (g : gui) : gui := mkGui (g_fx g) (g_term g) (g_vga g) v (g_mouse g) (g_timer g).
Definition set_mouse (v : mouse D) (g : gui) : gui := mkGui (g_fx g) (g_term g) (g_vga g) (g_kb g) v (g_timer g).
Definition set_timer (v : timer K) (g : gui) : gui := mkGui (g_fx g) (g_term g) (g_vga g) (g_kb g) (g_mouse g) v.
Definition in_fx {A} : M gfx A → M gui A := zoom g_fx set_fx.
Definition in_term {A} : M gterm A → M gui A := zoom g_term set_term.
Definition in_screen {A} : M vga A → M gui A := zoom g_vga set_screen.
Definition in_kb {A} : M kb A → M gui A := zoom g_kb set_kb.
Definition in_mouse {A} : M (mouse D) A → M gui A := zoom g_mouse set_mouse.
Definition in_bus {A} : M D A → M gui A := zoom (λ g, bus (g_mouse g)) (λ d g, set_mouse (set_bus d (g_mouse g)) g).

Notation inb := Rtc.inb.
Notation outb := Rtc.outb.

(** [outb(p, v); outb(q, w); ...] *)
Fixpoint out_all (l : list (Z * Z)) : M D unit :=
  match l with
  | [] => mret tt
  | (p, v) :: l' => outb p v ;; out_all l'
  end.
(** [for (i = 0; i < n; i++) { outb(p, i); outb(q, table[i]); }] *)
Definition out_table (p q : Z) (l : list Z) : M D unit := out_all (mjoin (imap (λ i v, [(p, u8 (Z.of_nat i)); (q, v)]) l)).

(** [while (inb(0x3DA) & 8)] and its negation; [n] is fuel. *)
Fixpoint wait_retrace (n : nat) (busy : bool) : M D unit :=
  match n with
  | O => lift Timeout
  | S n' => v ← inb 0x3DA; if Bool.eqb (negb (Z.land v 0x08 =? 0)) busy then wait_retrace n' busy else mret tt
  end.

Definition set_mode13h (n : nat) : M gui unit :=
  in_bus (
    out_all [(0x3C2, 0x63);
             (0x3C4, 0x00); (0x3C5, 0x03); (0x3C4, 0x01); (0x3C5, 0x01); (0x3C4, 0x02); (0x3C5, 0x0F);
             (0x3C4, 0x03); (0x3C5, 0x00); (0x3C4, 0x04); (0x3C5, 0x0E); (0x3C4, 0x00); (0x3C5, 0x03)] ;;
    outb 0x3D4 0x11 ;; v ← inb 0x3D5; outb 0x3D5 (Z.land v 0x7F) ;;
    out_table 0x3D4 0x3D5 crtc13 ;;
    out_table 0x3CE 0x3CF gc13 ;;
    inb 0x3DA ;;
    out_table 0x3C0 0x3C0 ac13 ;;
    outb 0x3C0 0x20 ;;
    wait_retrace n true ;;
    wait_retrace n false) ;;
  in_fx (for_range 0 (320 * 200) (λ i, put_fb i 0)).

Definition set_mode3h : M gui unit :=
  in_bus (
    out_all [(0x3C2, 0x67);
             (0x3C4, 0x00); (0x3C5, 0x03); (0x3C4, 0x01); (0x3C5, 0x00); (0x3C4, 0x02); (0x3C5, 0x03);
             (0x3C4, 0x03); (0x3C5, 0x00); (0x3C4, 0x04); (0x3C5, 0x02)] ;;
    outb 0x3D4 0x11 ;; v ← inb 0x3D5; outb 0x3D5 (Z.land v 0x7F) ;;
    out_table 0x3D4 0x3D5 crtc3 ;;
    out_table 0x3CE 0x3CF gc3 ;;
    inb 0x3DA ;;
    out_table 0x3C0 0x3C0 ac3 ;;
    outb 0x3C0 0x20).

Definition set_palette : M gui unit :=
  in_bus (
    outb 0x3C8 0 ;;
    out_all ('(r, g, b) ← pal; [(0x3C9, r); (0x3C9, g); (0x3C9, b)]) ;;
    for_range 32 256 (λ i, let v := u8 (i / 4) in outb 0x3C9 v ;; outb 0x3C9 v ;; outb 0x3C9 v)).

Definition gui_init (n : nat) : M gui unit :=
  set_mode13h n ;;
  set_palette ;;
  in_mouse (mouse_set_bounds (GUI_WIDTH - 1) (GUI_HEIGHT - 1)).
Definition gui_exit : M gui unit := set_mode3h ;; in_screen vga_init.

Definition seconds : M gui Z := g ← get; lift (timer_seconds (g_timer g)).

(** ** Task bar and desktop *)

(** ['0' + v/10] and ['0' + v%10] as characters. *)
Definition two (v : Z) : list Z := [u8 (48 + v / 10); u8 (48 + v mod 10)].

(** The digits of the uptime are written before the letters, from the end of the buffer on. *)
Definition gui_draw_taskbar (n : nat) : M gui unit :=
  in_fx (gui_rect_fill 0 0 GUI_WIDTH 10 C_TASKBAR ;;
         gui_hline 0 9 GUI_WIDTH C_WIN_BORDER ;;
         gui_puts 2 1 (lit "KumOS v1.5") C_LIGHT_CYAN C_TASKBAR) ;;
  t ← in_bus (rtc_read n);
  in_fx (gui_puts (GUI_WIDTH - 67) 1
    (two (hour t) ++ [58] ++ two (minute t) ++ [58] ++ two (second t) ++ [0]) C_YELLOW C_TASKBAR) ;;
  up ← seconds;
  ds ← lift (udigits up);
  in_fx (gui_puts (GUI_WIDTH - 130) 1 (str "ups" ++ ds ++ [0]) C_LIGHT_GREY C_TASKBAR).

Definition gui_draw_desktop (junk : list Z) : M gui unit := in_fx (
  for_range 10 GUI_HEIGHT (λ y, gui_hline 0 y GUI_WIDTH (if y <? 120 then C_DESKTOP else C_DARK_BLUE)) ;;
  gui_icon 8 18 (lit "Term") C_TEAL ;;
  gui_icon 8 68 (lit "Files") C_NAVY ;;
  gui_icon 8 118 (lit "Sys") C_PURPLE ;;
  gui_icon 8 168 (lit "Exit") C_DARK_GREY ;;
  gui_printf junk 52 18 C_LIGHT_GREY C_DESKTOP (lit "KumOS v1.5 - Press ESC to exit GUI") [] ;;
  gui_printf junk 52 28 C_DARK_GREY C_DESKTOP (lit "Mouse: click icons | Keyboard: terminal") []).

(** ** The terminal window *)
Definition draw_line (t : gterm) (i : Z) : M gfx unit :=
  s ← lift (arr_get (term_lines t) i);
  c ← lift (arr_get s 0);
  if c =? 0 then mret tt else gui_puts TERM_TX (TERM_TY + i * 9) s C_LIGHT_GREEN C_BLACK.

Definition term_redraw : M gui unit :=
  g ← get;
  let t := g_term g in
  let iy := TERM_TY + (TERM_ROWS - 1) * 9 in
  in_fx (gui_window TERM_X TERM_Y TERM_W TERM_H (lit "Terminal") ;;
         gui_rect_fill (TERM_X + 1) (TERM_Y + 12) (TERM_W - 2) (TERM_H - 22) C_BLACK ;;
         for_range 0 (TERM_ROWS - 1) (draw_line t) ;;
         gui_rect_fill (TERM_X + 1) (iy - 1) (TERM_W - 2) 10 C_BLACK ;;
         gui_puts TERM_TX iy (lit "> ") C_YELLOW C_BLACK ;;
         gui_puts (TERM_TX + 16) iy (term_input t) C_WHITE C_BLACK ;;
         (if Z.land (timer_ticks (g_timer g) / 50) 1 =? 0 then mret tt
          else gui_rect_fill (TERM_TX + 16 + term_icur t * 8) iy 7 8 C_LIGHT_GREY)).

(** The text of the date command. *)
Definition date_text (t : rtc_time_t) : list Z :=
  [u8 (48 + year t / 1000); u8 (48 + year t / 100 mod 10); u8 (48 + year t / 10 mod 10); u8 (48 + year t mod 10)] ++
  [45] ++ two (month t) ++ [45] ++ two (day t) ++ [32] ++ two (hour t) ++ [58] ++ two (minute t) ++ [58] ++ two (second t).

(** [junk] is the local buffer of 34 bytes before it is written. *)
Definition term_exec (n : nat) (junk cmd : list Z) : M gui unit :=
  let named s := r ← kstrcmp cmd s; Ok (r =? 0) in
  b ← lift (named (lit "help"));
  if b : bool then in_term (term_puts (lit "Commands: help date uptime") ;; term_puts (lit "          clear ls exit")) else
  b ← lift (named (lit "date"));
  if b : bool then t ← in_bus (rtc_read n); in_term (term_puts (date_text t ++ [0])) else
  b ← lift (named (lit "uptime"));
  if b : bool then
    s ← seconds;
    ds ← lift (udigits s);
    line ← lift (l ← kstrcpy junk (lit "Uptime: "); l ← kstrcat l (ds ++ [0]); kstrcat l (lit "s"));
    in_term (term_puts line) else
  b ← lift (named (lit "clear"));
  if b : bool then in_term (for_range 0 TERM_ROWS clear_line ;; goto_line 0) else
  b ← lift (named (lit "ls"));
  if b : bool then in_term (term_puts (lit "README.TXT  CONFIG.TXT") ;; term_puts (lit "HELLO.ELF   COUNTER.ELF")) else
  c ← lift (arr_get cmd 0);
  if c =? 0 then mret tt else
  line ← lift (l ← kstrcpy junk (lit "Unknown: "); kstrcat l cmd);
  in_term (term_puts line).

(** One key: whether the loop goes on and whether everything is to be drawn again.
    [echo] and [junk] are the local buffers. *)
Definition put_input (i c : Z) : M gterm unit := λ t, l ← arr_set (term_input t) i c; Ok (tt, set_input l (term_icur t) t).
Definition gui_key (n : nat) (echo junk : list Z) (key : Z) : M gui (bool * bool) :=
  if key =? 27 then mret (false, false)
  else if key =? 10 then
    g ← get;
    line ← lift (l ← kstrcpy echo (lit "> "); kstrcat l (term_input (g_term g)));
    in_term (term_puts line) ;;
    term_exec n junk (term_input (g_term g)) ;;
    in_term clear_input ;;
    mret (true, true)
  else if key =? 8 then
    g ← get;
    (if 0 <? term_icur (g_term g)
     then in_term (modify (λ t, set_input (term_input t) (term_icur t - 1) t) ;; put_input (term_icur (g_term g) - 1) 0)
     else mret tt) ;;
    mret (true, false)
  else
    g ← get;
    (if term_icur (g_term g) <? TERM_COLS - 1
     then in_term (put_input (term_icur (g_term g)) key ;;
                   modify (λ t, set_input (term_input t) (term_icur t + 1) t) ;;
                   put_input (term_icur (g_term g) + 1) 0)
     else mret tt) ;;
    mret (true, false).

(** ** The loop *)
Record loop_vars := mkVars { prev_mx : Z; prev_my : Z; last_taskbar : Z; running : bool; full_redraw : bool }.

(** Where the cursor is drawn for a mouse position. *)
Definition cursor_x (m : mouse_state_t) : Z := Z.quot (i32 (mx m * GUI_WIDTH)) 80.
Definition cursor_y (m : mouse_state_t) : Z :=
  let y := Z.quot (i32 (my m * GUI_HEIGHT)) 25 + 10 in
  let y := if GUI_HEIGHT <=? y then GUI_HEIGHT - 1 else y in if y <? 0 then 0 else y.

(** One turn. [tick] is an interrupt of the timer while [timer_sleep] waits, [fuel] the
    number of those; [junk] and [echo] are uninitialised local buffers. *)
Definition gui_turn (n fuel : nat) (tick : timer K → res (timer K)) (buf echo junk : list Z) (v : loop_vars) : M gui loop_vars :=
  (if full_redraw v then gui_draw_desktop buf ;; term_redraw else mret tt) ;;
  now ← seconds;
  (if negb (now =? last_taskbar v) then gui_draw_taskbar n else mret tt) ;;
  key ← in_kb keyboard_getchar;
  r ← (if key =? 0 then mret (true, false) else r ← gui_key n echo junk key; term_redraw ;; mret r);
  g ← get;
  let m := mouse_get (g_mouse g) in
  let cx := cursor_x m in let cy := cursor_y m in
  (if negb (cx =? prev_mx v) || negb (cy =? prev_my v)
   then in_fx (gui_erase_cursor (prev_mx v) (prev_my v) ;; gui_draw_cursor cx cy) else mret tt) ;;
  let icon_y := cy - 18 in let icon_idx := Z.quot icon_y 50 in
  if negb (mleft m =? 0) && (cx <? 45) then
    (g ← get; t ← lift (timer_sleep fuel tick 200 (g_timer g)); modify (set_timer t)) ;;
    mret (if (icon_idx =? 0) && (0 <=? icon_y) then mkVars cx cy now r.1 true
          else mkVars cx cy now (r.1 && negb (icon_idx =? 3)) r.2)
  else mret (mkVars cx cy now r.1 r.2).

(** [hlt] is what the interrupts do between two turns; [turns] bounds the loop. *)
Fixpoint gui_loop (turns n fuel : nat) (tick : timer K → res (timer K)) (hlt : nat → M gui unit) (buf echo junk : list Z)
    (v : loop_vars) : M gui loop_vars :=
  if running v then
    match turns with
    | O => lift Timeout
    | S k => v' ← gui_turn n fuel tick buf echo junk v; hlt k ;; gui_loop k n fuel tick hlt buf echo junk v'
    end
  else mret v.

Definition gui_run (turns n fuel : nat) (tick : timer K → res (timer K)) (hlt : nat → M gui unit) (buf echo junk : list Z) : M gui unit :=
  gui_init n ;;
  in_term term_init ;;
  v ← gui_loop turns n fuel tick hlt buf echo junk (mkVars (-1) (-1) 0 true true);
  in_fx (gui_erase_cursor (prev_mx v) (prev_my v)) ;;
  gui_exit.
End gui.

(** ** The terminal as a list of lines *)

(** The rows of the buffer hold the strings [f]. *)
Definition rows_show (l : list (list Z)) (f : nat → list Z) : Prop :=
  length l = 12%nat ∧ ∀ i r, l !! i = Some r → length r = 34%nat ∧ cstr r (f i).

(** [ls] are the lines printed, at most twelve, and [input] the text being typed. *)
Definition term_shows (t : gterm) (ls : list (list Z)) (input : list Z) : Prop :=
  rows_show (term_lines t) (λ i, default [] (ls !! i)) ∧ term_row t = Z.of_nat (length ls) ∧ (length ls ≤ 12)%nat ∧
  length (term_input t) = 34%nat ∧ cstr (term_input t) input ∧ term_icur t = Z.of_nat (length input) ∧ (length input ≤ 32)%nat.

(** A new line; the oldest of twelve goes. *)
Definition push (ls : list (list Z)) (s : list Z) : list (list Z) := (if (length ls =? 12)%nat then tail ls else ls) ++ [s].

(** What a command does to the lines. *)
Definition digits_of (v : Z) : list Z := match udigits v with Ok ds => ds | _ => [] end.
Definition run_cmd (secs : Z) (tm : rtc_time_t) (ls : list (list Z)) (cmd : list Z) : list (list Z) :=
  if decide (cmd = str "help") then push (push ls (str "Commands: help date uptime")) (str "          clear ls exit")
  else if decide (cmd = str "date") then push ls (date_text tm)
  else if decide (cmd = str "uptime") then push ls (str "Uptime: " ++ digits_of secs ++ str "s")
  else if decide (cmd = str "clear") then []
  else if decide (cmd = str "ls") then push (push ls (str "README.TXT  CONFIG.TXT")) (str "HELLO.ELF   COUNTER.ELF")
  else if decide (cmd = []) then ls
  else push ls (str "Unknown: " ++ cmd).

(** What a key does to the lines and the text being typed. *)
Definition key_step (secs : Z) (tm : rtc_time_t) (ls : list (list Z)) (input : list Z) (key : Z) : list (list Z) * list Z :=
  if key =? 27 then (ls, input)
  else if key =? 10 then (run_cmd secs tm (push ls (str "> " ++ input)) input, [])
  else if key =? 8 then (ls, take (pred (length input)) input)
  else (ls, if (length input <? 32)%nat then input ++ [key] else input).

Lemma rows_ext l f g : rows_show l f → (∀ i, (i < 12)%nat → f i = g i) → rows_show l g.
Proof.
  intros [Hl Hr] He. split; [done|]. intros i r Hi. pose proof (lookup_lt_Some _ _ _ Hi). rewrite <- He by lia. by apply Hr.
Qed.

Lemma rows_set l f i r s : rows_show l f → length r = 34%nat → cstr r s →
  rows_show (<[i := r]> l) (λ j, if decide (j = i) then s else f j).
Proof.
  intros [Hl Hr] Hlen Hs. split; [by rewrite length_insert|]. intros j r' Hj.
  apply list_lookup_insert_Some in Hj as [(<- & <- & _)|[Hne Hj]]; [by rewrite decide_True|].
  rewrite decide_False by done. by apply Hr.
Qed.

Lemma wp_copy_line i buf s f t (Q : unit → gterm → Prop) :
  rows_show (term_lines t) f → (i < 12)%nat → cstr buf s → (length s ≤ 33)%nat →
  (∀ l, rows_show l (λ j, if decide (j = i) then s else f j) → Q tt (set_lines l (term_row t) t)) →
  wp (copy_line (Z.of_nat i) buf) Q t.
Proof.
  intros Hrows Hi Hb Hs HQ. pose proof Hrows as [Hl Hr]. unfold wp, copy_line.
  destruct (lookup_lt_is_Some_2 (term_lines t) i) as [r Er]; [lia|]. destruct (Hr _ _ Er) as [Hrl _].
  rewrite (arr_get_nat _ _ _ Er). cbn. destruct (kstrcpy_roundtrip r buf s Hb) as (r' & -> & Hr' & Hlr); [lia|]. cbn.
  rewrite arr_set_in by lia. cbn. rewrite Nat2Z.id. apply HQ, rows_set; [done|lia|done].
Qed.

Lemma wp_clear_line i f t (Q : unit → gterm → Prop) :
  rows_show (term_lines t) f → (i < 12)%nat →
  (∀ l, rows_show l (λ j, if decide (j = i) then [] else f j) → Q tt (set_lines l (term_row t) t)) →
  wp (clear_line (Z.of_nat i)) Q t.
Proof.
  intros Hrows Hi HQ. pose proof Hrows as [Hl Hr]. unfold wp, clear_line.
  destruct (lookup_lt_is_Some_2 (term_lines t) i) as [r Er]; [lia|]. destruct (Hr _ _ Er) as [Hrl _].
  rewrite (arr_get_nat _ _ _ Er). cbn. rewrite arr_set_in by lia. cbn. rewrite arr_set_in by lia. cbn. rewrite Nat2Z.id.
  apply HQ, rows_set; [done|by rewrite length_insert|]. destruct r as [|c r]; [done|]. exists r. by split; [|constructor].
Qed.

(** All rows cleared from the first on. *)
Lemma wp_clear_all f t (Q : unit → gterm → Prop) :
  rows_show (term_lines t) f → (∀ l, rows_show l (λ _, []) → Q tt (set_lines l (term_row t) t)) →
  wp (for_range 0 TERM_ROWS clear_line) Q t.
Proof.
  intros Hrows HQ.
  apply (wp_for_range (λ k t', rows_show (term_lines t') (λ j, if (Z.of_nat j <? k) then [] else f j) ∧ t' = set_lines (term_lines t') (term_row t) t)); [unfold TERM_ROWS; lia|..].
  - split; [eapply rows_ext; [done|]; intros i _; case_z; [lia|done]|by destruct t].
  - intros k t' Hk [Hr Et]. unfold TERM_ROWS in Hk. rewrite <- (Z2Nat.id k) by lia. eapply wp_clear_line; [done|lia|].
    intros l Hl. split; [|by rewrite Et]. cbn. eapply rows_ext; [done|]. intros i _.
    cbn beta. destruct (decide _) as [->|]; repeat case_z; done || lia.
  - intros t' [Hr Et]. rewrite Et. apply HQ. eapply rows_ext; [done|]. intros i Hi. cbn beta. unfold TERM_ROWS. case_z; [done|lia].
Qed.

Lemma row_at l f i : rows_show l f → (i < 12)%nat → ∃ r, l !! i = Some r ∧ cstr r (f i) ∧ (length (f i) ≤ 33)%nat.
Proof.
  intros [Hl Hr] Hi. destruct (lookup_lt_is_Some_2 l i) as [r Er]; [lia|]. exists r. destruct (Hr _ _ Er) as [Hrl Hs].
  split; [done|]. split; [done|]. apply cstr_length in Hs. lia.
Qed.

Lemma wp_term_scroll f t (Q : unit → gterm → Prop) :
  rows_show (term_lines t) f → 0 < term_row t →
  (∀ l, rows_show l (λ j, if decide (j < 11)%nat then f (S j) else []) → Q tt (set_lines l (term_row t - 1) t)) →
  wp term_scroll Q t.
Proof.
  intros Hrows Hrow HQ. unfold term_scroll. apply wp_bind.
  apply (wp_for_range (λ k t', rows_show (term_lines t') (λ j, if (Z.of_nat j <? k) then f (S j) else f j) ∧ t' = set_lines (term_lines t') (term_row t) t)); [unfold TERM_ROWS; lia|..].
  - split; [eapply rows_ext; [done|]; intros i _; case_z; [lia|done]|by destruct t].
  - intros k t' Hk [Hr Et]. unfold TERM_ROWS in Hk. apply wp_bind, wp_get, wp_bind.
    destruct (row_at _ _ (S (Z.to_nat k)) Hr) as (r & Er & Hc & Hlen); [lia|].
    eapply wp_lift; [apply arr_get_Ok; split; [lia|]; by replace (Z.to_nat (k + 1)) with (S (Z.to_nat k)) by lia|].
    rewrite <- (Z2Nat.id k) at 1 by lia. eapply wp_copy_line; [done|lia|done|done|].
    intros l Hl. split; [|by rewrite Et]. eapply rows_ext; [done|]. intros i _. cbn beta.
    destruct (decide _) as [->|]; repeat case_z; done || lia.
  - intros t' [Hr Et]. apply wp_bind. change (TERM_ROWS - 1) with (Z.of_nat 11).
    eapply wp_clear_line; [done|lia|]. intros l Hl. apply wp_bind, wp_get. cbn [set_lines term_row].
    assert (term_row t' = term_row t) as Er by (by rewrite Et). rewrite Er, (proj2 (Z.ltb_lt 0 _)) by done.
    apply wp_modify. cbn. replace (set_lines l _ _) with (set_lines l (term_row t - 1) t) by (by rewrite Et).
    apply HQ. eapply rows_ext; [done|]. intros i Hi. cbn beta. unfold TERM_ROWS.
    destruct (decide _) as [->|]; destruct (decide _); repeat case_z; done || lia.
Qed.

Lemma push_length ls s : (length ls ≤ 12)%nat → (length (push ls s) = S (length (if (length ls =? 12)%nat then tail ls else ls)) ∧ length (push ls s) ≤ 12)%nat.
Proof. intros. unfold push. rewrite length_app. cbn. destruct (Nat.eqb_spec (length ls) 12); destruct ls; cbn in *; lia. Qed.

(** Printing a line. *)
Lemma wp_term_puts buf s ls input t (Q : unit → gterm → Prop) :
  term_shows t ls input → cstr buf s → (length s ≤ 33)%nat →
  (∀ t', term_shows t' (push ls s) input → term_input t' = term_input t → Q tt t') →
  wp (term_puts buf) Q t.
Proof.
  intros (Hrows & Hrow & Hlen & Hin) Hb Hs HQ. unfold term_puts. apply wp_bind, wp_get, wp_bind.
  assert (∀ l, rows_show l (λ i, default [] ((if (length ls =? 12)%nat then tail ls else ls) !! i)) →
    wp (t ← get; copy_line (term_row t) buf;; goto_line (term_row t + 1)) Q
      (set_lines l (Z.of_nat (length (if (length ls =? 12)%nat then tail ls else ls))) t)) as Hput.
  { intros l Hl. apply wp_bind, wp_get, wp_bind. cbn [set_lines term_row].
    set (ls' := if (length ls =? 12)%nat then tail ls else ls) in *.
    assert (length ls' ≤ 11)%nat as Hls' by (unfold ls'; destruct (Nat.eqb_spec (length ls) 12), ls; cbn in *; lia).
    eapply wp_copy_line; [done|lia|done|done|]. intros l' Hl'. apply wp_modify. cbn. apply HQ; [|done].
    split; [|split; [|split; [|exact Hin]]]; cbn.
    - eapply rows_ext; [done|]. intros i Hi. cbn beta. unfold push. fold ls'. destruct (decide _) as [->|].
      + by rewrite list_lookup_middle.
      + destruct (Nat.lt_ge_cases i (length ls')); [by rewrite lookup_app_l|].
        rewrite !lookup_ge_None_2; [done|rewrite length_app; cbn; lia|done].
    - unfold push. fold ls'. rewrite length_app. cbn. lia.
    - unfold push. fold ls'. rewrite length_app. cbn. lia. }
  unfold TERM_ROWS. rewrite Hrow. destruct (Z.leb_spec 12 (Z.of_nat (length ls))).
  - assert (length ls = 12%nat) as E by lia. rewrite E in Hput. cbn [Nat.eqb] in Hput.
    eapply wp_term_scroll; [done|lia|]. intros l Hl. replace (term_row t - 1) with (Z.of_nat (length (tail ls))) by (destruct ls; cbn in *; lia).
    apply Hput. eapply rows_ext; [done|]. intros i Hi. cbn beta. destruct ls as [|x ls]; [done|]. cbn [tail].
    destruct (decide _); [done|]. rewrite lookup_ge_None_2; [done|]. cbn in E. lia.
  - rewrite (proj2 (Nat.eqb_neq _ _)) in Hput by lia. apply wp_ret. replace t with (set_lines (term_lines t) (Z.of_nat (length ls)) t) at 1 by (rewrite <- Hrow; by destruct t).
    by apply Hput.
Qed.

Lemma lift_eq_wp {S A} (r : res A) (a : A) Q (s : S) : r = Ok a → Q a s → wp (lift r) Q s.
Proof. by intros ->. Qed.

(** ['0' + d] for a digit. *)
Lemma two_nonzero v : 0 ≤ v < 100 → nonzero (two v).
Proof.
  intros Hv. pose proof (Z.mod_pos_bound v 10). pose proof (Z.div_pos v 10). assert (v / 10 < 10) by (apply Z.div_lt_upper_bound; lia).
  unfold two. repeat constructor; rewrite u8_small; lia.
Qed.

Lemma date_text_ok tm : time_ok tm → nonzero (date_text tm) ∧ length (date_text tm) = 19%nat.
Proof.
  intros (Hs & Hm & Hh & Hd & Hmo & Hy). split; [|done]. unfold date_text, nonzero.
  repeat apply Forall_app_2; try (apply two_nonzero; lia); try by repeat constructor.
  pose proof (Z.mod_pos_bound (year tm / 100) 10). pose proof (Z.mod_pos_bound (year tm / 10) 10).
  pose proof (Z.mod_pos_bound (year tm) 10). pose proof (Z.div_pos (year tm) 1000).
  assert (year tm / 1000 < 10) by (apply Z.div_lt_upper_bound; lia).
  repeat constructor; rewrite u8_small; lia.
Qed.

Section desktop.
Context {D : Type} `{Ports D} {K : Type} `{Allocator K}.
Implicit Types g : gui (D := D) (K := K).

Lemma wp_in_term {A} (m : M gterm A) (Q : A → gui → Prop) g :
  wp m (λ a t, Q a (set_term t g)) (g_term g) → wp (in_term m) Q g.
Proof. unfold wp, in_term, zoom. by destruct (m _) as [[a t]| |]. Qed.

Lemma wp_in_fx_draws (m : M gfx unit) f (Q : unit → gui → Prop) g :
  draws m f → gfx_ok (g_fx g) → (∀ x, gfx_ok x → Q tt (set_fx x g)) → wp (in_fx m) Q g.
Proof.
  intros Hm Hok HQ. specialize (Hm _ Hok). unfold wp, in_fx, zoom in *. destruct (m _) as [[[] x]| |]; [|done..]. apply HQ, Hm.
Qed.

(** The command line is compared with each of the names. *)
Lemma wp_named {A} (cmd : list Z) (buf : list Z) (name : list Z) (c : bool → M gui A) Q g :
  cstr buf cmd → nonzero name → wp (c (bool_decide (cmd = name))) Q g →
  wp (b ← lift (r ← kstrcmp buf (name ++ [0]); Ok (r =? 0)); c b) Q g.
Proof.
  intros Hb Hn HQ. destruct (kstrcmp_test buf (name ++ [0]) cmd name Hb) as (d & Hd & He); [by apply cstr_arg|].
  apply wp_bind. eapply lift_eq_wp; [by rewrite Hd|]. by rewrite He.
Qed.

(** The desktop with a terminal window that shows lines. *)
Definition gui_shows g (ls : list (list Z)) (input : list Z) : Prop := term_shows (g_term g) ls input.

Lemma wp_puts1 buf s ls input g (Q : unit → gui → Prop) :
  gui_shows g ls input → cstr buf s → (length s ≤ 33)%nat →
  (∀ t, term_shows t (push ls s) input → term_input t = term_input (g_term g) → Q tt (set_term t g)) →
  wp (in_term (term_puts buf)) Q g.
Proof. intros Hg Hb Hs HQ. apply wp_in_term. eapply wp_term_puts; [done..|]. intros. by apply HQ. Qed.

Lemma wp_puts2 buf buf' s s' ls input g (Q : unit → gui → Prop) :
  gui_shows g ls input → cstr buf s → (length s ≤ 33)%nat → cstr buf' s' → (length s' ≤ 33)%nat →
  (∀ t, term_shows t (push (push ls s) s') input → term_input t = term_input (g_term g) → Q tt (set_term t g)) →
  wp (in_term (term_puts buf ;; term_puts buf')) Q g.
Proof.
  intros Hg Hb Hs Hb' Hs' HQ. apply wp_in_term, wp_bind. eapply wp_term_puts; [done..|]. intros t Ht E.
  eapply wp_term_puts; [done..|]. intros t' Ht' E'. apply HQ; [done|congruence].
Qed.

Lemma udigits_ok v : 0 ≤ v < 4294967296 → udigits v = Ok (digits_of v) ∧ nonzero (digits_of v) ∧ (length (digits_of v) ≤ 11)%nat.
Proof.
  intros Hv. unfold digits_of, udigits. case_if; [split_and!; [done|by repeat constructor|cbn; lia]|].
  destruct (dec_digits_u32 v [] Hv) as (ds & Eds & _ & Hd & _). rewrite app_nil_r in Eds. rewrite Eds. split_and!; [done| |].
  - eapply Forall_impl; [exact Hd|]. cbn. lia.
  - apply dec_digits_length in Eds. cbn in Eds. lia.
Qed.

(** The seconds since the start. *)
Definition up g : Z := tick_count (g_timer g) / tick_hz (g_timer g).
Definition timer_ok g : Prop := 0 < tick_hz (g_timer g) ∧ 0 ≤ tick_count (g_timer g) < 4294967296.

Lemma up_range g : timer_ok g → 0 ≤ up g < 4294967296.
Proof. intros [Hh Ht]. unfold up. split; [apply Z.div_pos; lia|]. apply Z.div_lt_upper_bound; nia. Qed.

Lemma wp_seconds g (Q : Z → gui → Prop) : timer_ok g → Q (up g) g → wp seconds Q g.
Proof.
  intros [Hh Ht] HQ. unfold seconds. apply wp_bind, wp_get. eapply lift_eq_wp; [|exact HQ].
  unfold timer_seconds. rewrite (proj2 (Z.eqb_neq _ _)) by lia. done.
Qed.

(** Everything but the terminal's buffer and the port bus stays. *)
Definition same_rest g g' : Prop := g_fx g' = g_fx g ∧ g_vga g' = g_vga g ∧ g_kb g' = g_kb g ∧ g_timer g' = g_timer g.

(** A command prints what [run_cmd] says. *)
Lemma wp_term_exec n junk buf cmd ls input tm d g (Q : unit → gui → Prop) :
  gui_shows g ls input → cstr buf cmd → (length cmd ≤ 24)%nat → length junk = 34%nat → timer_ok g →
  rtc_read n (bus (g_mouse g)) = Ok (tm, d) → time_ok tm →
  (∀ g', gui_shows g' (run_cmd (up g) tm ls cmd) input → same_rest g g' → term_input (g_term g') = term_input (g_term g) → Q tt g') →
  wp (term_exec n junk buf) Q g.
Proof.
  intros Hg Hb Hlen Hj Ht Hr Htm HQ. unfold term_exec. unfold run_cmd in HQ.
  apply (wp_named cmd buf (str "help")); [done|by apply nonzero_test|].
  case_bool_decide; [rewrite decide_True in HQ by done|rewrite decide_False in HQ by done].
  { eapply (wp_puts2 _ _ (str "Commands: help date uptime") (str "          clear ls exit"));
      [done|by apply lit_test|vm_compute; lia|by apply lit_test|vm_compute; lia|].
    intros t Hts E. by apply HQ. }
  apply (wp_named cmd buf (str "date")); [done|by apply nonzero_test|].
  case_bool_decide; [rewrite decide_True in HQ by done|rewrite decide_False in HQ by done].
  { apply wp_bind. unfold wp at 1, in_bus, zoom. rewrite Hr. destruct (date_text_ok tm Htm) as [Hnz Hl].
    eapply (wp_puts1 _ (date_text tm)); [exact Hg|by apply cstr_arg|lia|]. intros t Hts E. by apply HQ. }
  apply (wp_named cmd buf (str "uptime")); [done|by apply nonzero_test|].
  case_bool_decide; [rewrite decide_True in HQ by done|rewrite decide_False in HQ by done].
  { apply wp_bind, wp_seconds; [done|]. destruct (udigits_ok (up g) (up_range g Ht)) as (Hu & Hnz & Hl).
    apply wp_bind. eapply lift_eq_wp; [done|]. apply wp_bind.
    destruct (kstrcpy_roundtrip junk (lit "Uptime: ") (str "Uptime: ")) as (l1 & E1 & Hc1 & Hl1); [by apply lit_test|rewrite Hj; vm_compute; lia|].
    destruct (kstrcat_cstr l1 (digits_of (up g) ++ [0]) _ (digits_of (up g)) Hc1) as (l2 & E2 & Hc2 & Hl2); [by apply cstr_arg|change (length (str "Uptime: ")) with 8%nat; lia|].
    destruct (kstrcat_cstr l2 (lit "s") _ (str "s") Hc2) as (l3 & E3 & Hc3 & Hl3); [by apply lit_test|rewrite length_app; change (length (str "Uptime: ")) with 8%nat; change (length (str "s")) with 1%nat; lia|].
    eapply lift_eq_wp; [by rewrite E1; cbn; rewrite E2; cbn; rewrite E3|].
    rewrite <- app_assoc in Hc3. eapply wp_puts1; [exact Hg|exact Hc3|rewrite !length_app; change (length (str "Uptime: ")) with 8%nat; change (length (str "s")) with 1%nat; lia|].
    intros t Hts E. by apply HQ. }
  apply (wp_named cmd buf (str "clear")); [done|by apply nonzero_test|].
  case_bool_decide; [rewrite decide_True in HQ by done|rewrite decide_False in HQ by done].
  { pose proof Hg as (Hrows & Hrow & Hle & Hin). apply wp_in_term, wp_bind. eapply wp_clear_all; [done|]. intros l Hl.
    apply wp_modify. apply HQ; [|done|done]. split; [|split; [done|split; [cbn; lia|exact Hin]]].
    cbn. eapply rows_ext; [done|]. done. }
  apply (wp_named cmd buf (str "ls")); [done|by apply nonzero_test|].
  case_bool_decide; [rewrite decide_True in HQ by done|rewrite decide_False in HQ by done].
  { eapply (wp_puts2 _ _ (str "README.TXT  CONFIG.TXT") (str "HELLO.ELF   COUNTER.ELF"));
      [done|by apply lit_test|vm_compute; lia|by apply lit_test|vm_compute; lia|].
    intros t Hts E. by apply HQ. }
  apply wp_bind. destruct (decide (cmd = [])) as [->|Hne].
  { cstr_cases Hb. eapply lift_eq_wp; [done|]. cbn. by apply wp_ret, HQ. }
  pose proof Hb as Hb'. destruct cmd as [|c cmd']; [done|]. cstr_cases Hb'. eapply lift_eq_wp; [done|].
  rewrite (proj2 (Z.eqb_neq _ _)) by done. apply wp_bind.
  destruct (kstrcpy_roundtrip junk (lit "Unknown: ") (str "Unknown: ")) as (l1 & E1 & Hc1 & Hl1); [by apply lit_test|rewrite Hj; vm_compute; lia|].
  edestruct (kstrcat_cstr l1 _ _ _ Hc1 Hb) as (l2 & E2 & Hc2 & Hl2); [change (length (str "Unknown: ")) with 9%nat; cbn [length] in *; lia|].
  eapply lift_eq_wp; [by rewrite E1; cbn; rewrite E2|].
  eapply wp_puts1; [exact Hg|exact Hc2|rewrite length_app; change (length (str "Unknown: ")) with 9%nat; cbn [length] in *; lia|]. intros t Hts E. by apply HQ.
Qed.

Lemma kept_input t ls input : term_shows t ls input → ∀ l, length l = 34%nat →
  ∀ input', cstr l input' → (length input' ≤ 32)%nat → term_shows (set_input l (Z.of_nat (length input')) t) ls input'.
Proof. intros (Hrows & Hrow & Hle & _) l Hl input' Hc Hi. done. Qed.

Lemma cstr_split buf s : cstr buf s → (∀ i, i < length s → buf !! i = s !! i)%nat ∧ buf !! length s = Some 0 ∧ nonzero s.
Proof.
  intros (r & -> & Hn). split_and!; [|by rewrite list_lookup_middle|done]. intros i Hi. by rewrite lookup_app_l.
Qed.

(** Cutting a string off, and lengthening it by one character. *)
Lemma cstr_cut buf s k : cstr buf s → (k ≤ length s)%nat → cstr (<[k := 0]> buf) (take k s).
Proof.
  intros (r & -> & Hn) Hk. destruct (Nat.lt_ge_cases k (length s)) as [Hlt|Hge].
  - exists (drop (S k) s ++ 0 :: r). split; [|by apply Forall_take]. rewrite insert_app_l by done.
    rewrite insert_take_drop by done. by rewrite <- app_assoc.
  - replace k with (length s) by lia. rewrite firstn_all. exists r. split; [|done].
    rewrite <- (Nat.add_0_r (length s)). by rewrite insert_app_r.
Qed.
Lemma cstr_extend buf s c : cstr buf s → c ≠ 0 → (S (length s) < length buf)%nat →
  cstr (<[S (length s) := 0]> (<[length s := c]> buf)) (s ++ [c]).
Proof.
  intros (r & -> & Hn) Hc Hl. rewrite length_app in Hl. cbn in Hl. destruct r as [|x r]; [cbn in Hl; lia|].
  exists r. split; [|apply Forall_app_2; [done|by repeat constructor]].
  replace (S (length s)) with (length s + 1)%nat by lia.
  rewrite <- (Nat.add_0_r (length s)) at 2. rewrite !insert_app_r. cbn. by rewrite <- app_assoc.
Qed.

Lemma wp_put_input i c t (Q : unit → gterm → Prop) :
  0 ≤ i < Z.of_nat (length (term_input t)) → Q tt (set_input (<[Z.to_nat i := c]> (term_input t)) (term_icur t) t) →
  wp (put_input i c) Q t.
Proof. intros Hi HQ. unfold wp, put_input. by rewrite arr_set_in. Qed.

(** Enter: the line is echoed and run. *)
Lemma wp_enter n echo junk ls input tm d g (Q : bool * bool → gui → Prop) :
  gui_shows g ls input → timer_ok g → rtc_read n (bus (g_mouse g)) = Ok (tm, d) → time_ok tm →
  length echo = 36%nat → length junk = 34%nat → (length input ≤ 24)%nat →
  (∀ g', gui_shows g' (run_cmd (up g) tm (push ls (str "> " ++ input)) input) [] → same_rest g g' → Q (true, true) g') →
  wp (gui_key n echo junk 10) Q g.
Proof.
  intros Hg Ht Hr Htm He Hj Hlen HQ. pose proof Hg as (_ & _ & _ & Hil & Hin & _).
  unfold gui_key. cbn [Z.eqb Pos.eqb]. apply wp_bind, wp_get, wp_bind.
  destruct (kstrcpy_roundtrip echo (lit "> ") (str "> ")) as (l1 & E1 & Hc1 & Hl1); [by apply lit_test|rewrite He; vm_compute; lia|].
  edestruct (kstrcat_cstr l1 _ _ _ Hc1 Hin) as (l2 & E2 & Hc2 & Hl2); [change (length (str "> ")) with 2%nat; lia|].
  eapply lift_eq_wp; [by rewrite E1; cbn; rewrite E2|]. apply wp_bind.
  eapply wp_puts1; [exact Hg|exact Hc2|rewrite length_app; change (length (str "> ")) with 2%nat; lia|]. intros t Hts Et.
  apply wp_bind. eapply (wp_term_exec n junk _ input _ input tm d (set_term t g)); [exact Hts|exact Hin|done..|].
  intros g' Hg' (R1 & R2 & R3 & R4) Ei. apply wp_bind, wp_in_term.
  pose proof Hg' as (_ & _ & _ & Hil' & Hin' & _). unfold wp, clear_input. rewrite arr_set_in by lia. cbn. apply HQ.
  - change 0 with (Z.of_nat (length (@nil Z))). eapply kept_input; [exact Hg'|by rewrite length_insert| |cbn; lia].
    by apply (cstr_cut _ input 0); [|lia].
  - by split_and!.
Qed.

(** C30: the terminal window refines a list of at most twelve lines and a line being typed.
    A key changes them as [key_step] says: Enter prints the echo and what the command prints,
    with the oldest lines scrolled out, Backspace removes a character, Escape ends the loop,
    anything else is typed up to 32 characters; no access leaves a buffer as long as a line
    of at most 24 characters is entered. *)
Theorem gui_key_refines `{!CmosClock D regs busy} n (echo junk : list Z) key ls input bcd h24 t g :
  gui_shows g ls input → timer_ok g →
  time_ok t → shows bcd h24 (regs (bus (g_mouse g))) t → (busy (bus (g_mouse g)) < n)%nat →
  length echo = 36%nat → length junk = 34%nat → key ≠ 0 → (key = 10 → (length input ≤ 24)%nat) →
  let tm := mkTime (second t) (minute t) (read_hour h24 (hour t)) (day t) (month t) (year t) in
  wp (gui_key n echo junk key) (λ ret g',
    gui_shows g' (key_step (up g) tm ls input key).1 (key_step (up g) tm ls input key).2 ∧ same_rest g g' ∧
    ret = (negb (key =? 27), key =? 10)) g.
Proof.
  intros Hg Ht Htm Hsh Hb He Hj Hk0 Hk tm.
  assert (time_ok tm) as Htm'.
  { destruct Htm as (? & ? & ? & ? & ? & ?). unfold time_ok, tm, read_hour. cbn. split_and!; try lia; repeat case_if; lia. }
  destruct (proj1 (wp_Ok _ _ _) (rtc_read_ok n bcd h24 t _ Htm Hsh Hb)) as (r & d & Er & -> & _). fold tm in Er.
  unfold key_step. destruct (Z.eqb_spec key 27) as [->|N27]; [by apply wp_ret|].
  destruct (Z.eqb_spec key 10) as [->|N10].
  { eapply wp_enter; [done..|by apply Hk|]. intros g' Hg' Hs. done. }
  unfold gui_key. rewrite (proj2 (Z.eqb_neq _ 27)), (proj2 (Z.eqb_neq _ 10)) by done.
  pose proof Hg as (_ & _ & _ & Hil & Hin & Hic & Hi32).
  destruct (Z.eqb_spec key 8) as [->|N8]; apply wp_bind, wp_get, wp_bind; rewrite Hic.
  - destruct input as [|c input]; [by apply wp_ret, wp_ret|]. rewrite (proj2 (Z.ltb_lt _ _)) by (cbn; lia).
    apply wp_in_term, wp_bind, wp_modify. apply wp_put_input; [cbn in *; lia|]. apply wp_ret. split_and!; [|done..].
    cbn [set_input term_input term_icur fst snd pred length].
    replace (term_icur (g_term g) - 1) with (Z.of_nat (length (take (length input) (c :: input)))) by (rewrite length_take; cbn [length] in *; lia).
    apply (kept_input (g_term g) ls _ Hg); [by rewrite length_insert| |rewrite length_take; cbn [length] in *; lia].
    replace (Z.to_nat _) with (length input) by (cbn [length]; lia). apply cstr_cut; [done|cbn; lia].
  - destruct (Nat.ltb_spec (length input) 32) as [Hlt|Hge].
    + rewrite (proj2 (Z.ltb_lt _ _)) by (unfold TERM_COLS; lia).
      apply wp_in_term, wp_bind, wp_put_input; [lia|]. apply wp_bind, wp_modify, wp_put_input; [cbn; rewrite length_insert; lia|].
      apply wp_ret. split_and!; [|done..]. cbn [set_input term_input term_icur fst snd].
      replace (term_icur (g_term g) + 1) with (Z.of_nat (length (input ++ [key]))) by (rewrite length_app; cbn; lia).
      apply (kept_input (g_term g) ls _ Hg); [by rewrite !length_insert| |rewrite length_app; cbn; lia].
      replace (Z.to_nat (Z.of_nat (length input) + 1)) with (S (length input)) by lia. rewrite Nat2Z.id.
      apply cstr_extend; [done|done|lia].
    + rewrite (proj2 (Z.ltb_ge _ _)) by (unfold TERM_COLS; lia). by apply wp_ret, wp_ret.
Qed.

(** ** The window *)

(** The text of row [i] and the picture of the whole terminal. *)
Definition row_text (ls : list (list Z)) (i : Z) : paint :=
  layout_paint (default [] (ls !! Z.to_nat i)) TERM_TX TERM_TX (TERM_TY + i * 9) C_LIGHT_GREEN C_BLACK.
Definition term_paint (ls : list (list Z)) (input : list Z) (cursor : bool) : paint :=
  window_paint TERM_X TERM_Y TERM_W TERM_H (str "Terminal") ▷
  fill (box (TERM_X + 1) (TERM_Y + 12) (TERM_W - 2) (TERM_H - 22)) C_BLACK ▷
  paints 11 0 (row_text ls) ▷
  fill (box (TERM_X + 1) 123 (TERM_W - 2) 10) C_BLACK ▷
  layout_paint (str "> ") TERM_TX TERM_TX 124 C_YELLOW C_BLACK ▷
  layout_paint input (TERM_TX + 16) (TERM_TX + 16) 124 C_WHITE C_BLACK ▷
  (if cursor then fill (box (TERM_TX + 16 + Z.of_nat (length input) * 8) 124 7 8) C_LIGHT_GREY else blank_paint).

Lemma draws_row t ls input i : term_shows t ls input → 0 ≤ i < 11 → draws (draw_line t i) (row_text ls i).
Proof.
  intros (Hrows & _) Hi. unfold draw_line, row_text. destruct (row_at _ _ (Z.to_nat i) Hrows) as (r & Er & Hc & Hl); [lia|].
  eapply draws_lift; [apply arr_get_Ok; split; [lia|done]|].
  set (s := default [] (ls !! Z.to_nat i)) in *. clearbody s.
  assert (draws (gui_puts TERM_TX (TERM_TY + i * 9) r C_LIGHT_GREEN C_BLACK) (layout_paint s TERM_TX TERM_TX (TERM_TY + i * 9) C_LIGHT_GREEN C_BLACK)) as Hd
    by (apply draws_puts; [done|unfold TERM_TX, TERM_X; lia|unfold TERM_TY, TERM_Y; split; lia]).
  pose proof Hc as Hc'. destruct s as [|c s]; cstr_cases Hc'; (eapply draws_lift; [done|]); [apply draws_ret|].
  by rewrite (proj2 (Z.eqb_neq _ _)).
Qed.

(** The picture shows the first eleven rows: a twelfth line is printed but not visible. *)
Lemma term_redraw_draws ls input g :
  gui_shows g ls input → gfx_ok (g_fx g) →
  wp term_redraw (λ _ g', g_term g' = g_term g ∧ gfx_ok (g_fx g') ∧ ∀ x y, in_view x y →
    pix (g_fx g') x y = term_paint ls input (negb (Z.land (timer_ticks (g_timer g) / 50) 1 =? 0)) x y (pix (g_fx g) x y)) g.
Proof.
  intros Hg Hok. pose proof Hg as (_ & _ & _ & _ & Hin & Hic & Hi32). unfold term_redraw. apply wp_bind, wp_get.
  assert (∀ m f, draws m f → wp (in_fx m) (λ _ g', g_term g' = g_term g ∧ gfx_ok (g_fx g') ∧ ∀ x y, in_view x y → pix (g_fx g') x y = f x y (pix (g_fx g) x y)) g) as Hw.
  { intros m f Hm. specialize (Hm _ Hok). unfold wp, in_fx, zoom in *. destruct (m _) as [[[] x]| |]; [|done..]. destruct Hm as (? & _ & ?). done. }
  apply Hw. unfold term_paint.
  apply draws_seq; [apply draws_window; [by apply lit_test|vm_compute; done..]|].
  apply draws_seq; [apply draws_rect_fill; vm_compute; done|].
  apply draws_seq; [apply (draws_for_each (row_text ls)); intros k Hk; apply (draws_row _ _ input); [done|unfold TERM_ROWS in *; lia]|].
  apply draws_seq; [apply draws_rect_fill; vm_compute; done|].
  apply draws_seq; [apply draws_puts; [by apply lit_test|vm_compute; done..]|].
  apply draws_seq; [apply draws_puts; [done|vm_compute; done|split; [vm_compute; done|cbn; lia]]|].
  rewrite Hic. destruct (_ =? 0); [apply draws_ret|]. apply draws_rect_fill; [|vm_compute; done].
  unfold TERM_TX, TERM_X. split; lia.
Qed.

End desktop.

(** The start of the terminal, whose tables are zero. *)
Definition term0 : gterm := mkTermWin (replicate 12 (replicate 34 0)) 0 (replicate 34 0) 0.
Lemma cstring_cstr r : (length (cstring r) < length r)%nat → cstr r (cstring r).
Proof.
  induction r as [|c r IH]; cbn [cstring]; [cbn; lia|]. destruct (Z.eqb_spec c 0) as [->|]; [intros _; exists r; split; [done|constructor]|].
  intros Hl. apply cstr_cons; [done|]. apply IH. cbn in Hl. lia.
Qed.

Lemma rows_cstring l : length l = 12%nat → Forall (λ r, length r = 34 ∧ length (cstring r) < 34)%nat l →
  rows_show l (λ i, cstring (default [] (l !! i))).
Proof.
  intros Hl HF. split; [done|]. intros i r Hr. destruct (Forall_lookup_1 _ _ _ _ HF Hr) as (H1 & H2). rewrite Hr.
  split; [done|]. apply cstring_cstr. cbn. lia.
Qed.

Definition greeting : list (list Z) := [str "KumOS v1.5 GUI terminal"; str "Type commands, Enter to run"; str "ESC = back to shell"].
Lemma term_init_shows : wp term_init (λ _ t, term_shows t greeting []) term0.
Proof.
  rewrite wp_Ok. exists tt, (match term_init term0 with Ok (_, t) => t | _ => term0 end). split; [by vm_compute|].
  set (t := match _ with Ok _ => _ | _ => _ end). vm_compute in t.
  split; [|vm_compute; split_and!; try lia; try done].
  - eapply rows_ext; [apply rows_cstring; [done|]|].
    + repeat (apply Forall_cons; split; [vm_compute; lia|]). apply Forall_nil_2.
    + do 12 (intros [|i]; [done|]; revert i). intros i ?. lia.
  - exists (replicate 33 0). split; [done|constructor].
Qed.

(** A line of 25 characters that is not a command overflows the buffer its answer is put
    together in, and one of 32 the row its echo is copied to. *)
Lemma long_command_overflows {D} `{Ports D} {K} `{Allocator K} n (g : gui (D := D) (K := K)) :
  term_exec n (replicate 34 0) (replicate 25 97 ++ [0]) g = Fault.
Proof. reflexivity. Qed.
Lemma long_echo_overflows t : term_lines t = replicate 12 (replicate 34 0) → term_row t = 0 →
  term_puts (str "> " ++ replicate 32 97 ++ [0]) t = Fault.
Proof. destruct t. cbn. intros -> ->. reflexivity. Qed.

(** The mouse moves over all 320 columns, but the cursor leaves the screen after 80. *)
Lemma cursor_off_screen m : 80 ≤ mx m ≤ 319 → 320 ≤ cursor_x m.
Proof.
  intros. unfold cursor_x, GUI_WIDTH. rewrite i32_small by lia. rewrite Z.quot_div_nonneg by lia.
  apply Z.div_le_lower_bound; lia.
Qed.

(** A desktop with a clock and a heap that compute; "ls" has been typed. *)
Definition typed_ls : gterm := mkTermWin (replicate 12 (replicate 34 0)) 0 (str "ls" ++ replicate 32 0) 2.
Definition gui0 : gui (D := simclock) (K := kheap) :=
  mkGui black typed_ls vga_zero kb_init
    (mkDriver (clock_at (mkTime 30 15 17 9 11 2031) 3) (mkMouse 40 12 0 0 0 0 0 0) 1 319 199 [0; 0; 0] 0 true)
    (mkTimer 12345 100 [] procs0 worker_sig).
Lemma gui_key_refines_witness :
  wp (gui_key 10 (replicate 36 0) (replicate 34 0) 10) (λ ret g',
    gui_shows g' [str "> ls"; str "README.TXT  CONFIG.TXT"; str "HELLO.ELF   COUNTER.ELF"] [] ∧ ret = (true, true)) gui0.
Proof.
  eapply wp_mono; [apply (gui_key_refines 10 (replicate 36 0) (replicate 34 0) 10 [] (str "ls") true false (mkTime 30 15 17 9 11 2031) gui0)|].
  - split; [|vm_compute; split_and!; try lia; try done].
    + eapply rows_ext; [apply rows_cstring; [done|]|].
      * repeat (apply Forall_cons; split; [vm_compute; lia|]). apply Forall_nil_2.
      * do 12 (intros [|i]; [done|]; revert i). intros i ?. lia.
    + exists (replicate 31 0). split; [done|by repeat constructor].
  - split; vm_compute; done.
  - unfold time_ok. cbn. lia.
  - by split_and!.
  - cbn. lia.
  - done.
  - done.
  - done.
  - intros _. vm_compute. lia.
  - intros ret g' (Hg & _ & ->). split; [exact Hg|done].
Defined.
