(* ===== verification/Snake.v ===== *)
(** * The snake game of the kernel shell (src/src/kernel.c, [snake_game])

    One turn of the game on its local variables, and what it draws; the loop around it,
    with the keyboard and the timer, is in KShell.v. Pieces of the snake are in the first
    [len] cells of two arrays that start uninitialised. *)

From S2P Require Import Prelude KString Vga.

Definition SW : Z := 40.
Definition SH : Z := 18.
Definition SXO : Z := 20.
Definition SYO : Z := 4.
Definition SMAX : Z := 200.

Record game := mkGame { sx : list Z; sy : list Z; len : Z; dir : Z; score : Z; fx : Z; fy : Z }.

(** A call of [vga_puts_at]. *)
Record draw := mkDraw { d_str : list Z; d_x : Z; d_y : Z; d_fg : vga_color }.
Definition run_draw (d : draw) : M vga unit := vga_puts_at (d_str d) (d_x d) (d_y d) (d_fg d) VGA_BLACK.
Fixpoint run_draws (l : list draw) : M vga unit :=
  match l with [] => mret tt | d :: l' => run_draw d ;; run_draws l' end.

(** [for (i = 0; i < len; i++) { sx[i] = SXO+SW/2-i; sy[i] = SYO+SH/2; }] *)
Fixpoint place (n : nat) (i : Z) (p : list Z * list Z) : res (list Z * list Z) :=
  match n with
  | O => Ok p
  | S k => x ← arr_set p.1 i (SXO + SW / 2 - i); y ← arr_set p.2 i (SYO + SH / 2); place k (i + 1) (x, y)
  end.
Definition game_start (junk_x junk_y : list Z) : res game :=
  p ← place 3 0 (junk_x, junk_y); Ok (mkGame p.1 p.2 3 3 0 30 10).

Definition turn_to (c d : Z) : Z :=
  let d := if (c =? 119) && negb (d =? 1) then 0 else d in
  let d := if (c =? 115) && negb (d =? 0) then 1 else d in
  let d := if (c =? 97) && negb (d =? 3) then 2 else d in
  if (c =? 100) && negb (d =? 2) then 3 else d.

(** Whether one of the first [n] pieces from [i] on is at the position. *)
Fixpoint bites (n : nat) (i : Z) (g : game) (nx ny : Z) : res bool :=
  match n with
  | O => Ok false
  | S k => x ← arr_get (sx g) i; y ← arr_get (sy g) i; if (x =? nx) && (y =? ny) then Ok true else bites k (i + 1) g nx ny
  end.
(** [for (i = len-1; i > 0; i--) { sx[i] = sx[i-1]; sy[i] = sy[i-1]; }] *)
Fixpoint crawl (n : nat) (l : list Z) : res (list Z) :=
  match n with
  | O => Ok l
  | S k => x ← arr_get l (Z.of_nat k); l ← arr_set l (Z.of_nat n) x; crawl k l
  end.
Fixpoint draw_pieces (n : nat) (i : Z) (g : game) : res (list draw) :=
  match n with
  | O => Ok []
  | S k =>
      x ← arr_get (sx g) i; y ← arr_get (sy g) i; r ← draw_pieces k (i + 1) g;
      Ok (mkDraw (lit (if i =? 0 then "O" else "o")) x y (if i =? 0 then VGA_GREEN else VGA_LIGHT_GREEN) :: r)
  end.
Definition score_text (n : Z) : res (list Z) :=
  sn ← kitoa n (replicate 10 0) 10;
  b ← kstrcpy (replicate 20 0) (lit "Score: ");
  b ← kstrcat b sn; kstrcat b (lit "   ").

(** A turn with the key [c]: what is drawn and the next state, [None] when the game is over. *)
Definition snake_turn (c : Z) (g : game) : res (list draw * option game) :=
  let dir := turn_to c (dir g) in
  x0 ← arr_get (sx g) 0; y0 ← arr_get (sy g) 0;
  let ny := if dir =? 0 then y0 - 1 else if dir =? 1 then y0 + 1 else y0 in
  let nx := if dir =? 2 then x0 - 1 else if dir =? 3 then x0 + 1 else x0 in
  if (nx <? SXO) || (SXO + SW <=? nx) || (ny <? SYO) || (SYO + SH <=? ny) then Ok ([], None)
  else
    b ← bites (Z.to_nat (len g)) 0 g nx ny;
    if (b : bool) || (c =? 113) then Ok ([], None)
    else
      tx ← arr_get (sx g) (len g - 1); ty ← arr_get (sy g) (len g - 1);
      sx' ← crawl (Z.to_nat (len g - 1)) (sx g); sy' ← crawl (Z.to_nat (len g - 1)) (sy g);
      sx' ← arr_set sx' 0 nx; sy' ← arr_set sy' 0 ny;
      let g := mkGame sx' sy' (len g) dir (score g) (fx g) (fy g) in
      ds ← draw_pieces (Z.to_nat (len g)) 0 g;
      let ds := mkDraw (lit " ") tx ty VGA_BLACK :: ds in
      if (nx =? fx g) && (ny =? fy g) then
        let score := score g + 1 in
        let fx := SXO + (fx g * 7 + 3) mod SW in
        let fy := SYO + (fy g * 13 + 5) mod SH in
        t ← score_text score;
        Ok (ds ++ [mkDraw (lit "*") fx fy VGA_RED; mkDraw t 24 2 VGA_WHITE],
            Some (mkGame sx' sy' (if len g <? SMAX then len g + 1 else len g) dir score fx fy))
      else Ok (ds, Some g).

(** ** The field *)
Definition in_field (x y : Z) : Prop := SXO ≤ x < SXO + SW ∧ SYO ≤ y < SYO + SH.

(** [k] pieces have been placed: all of the snake, or all but the last one after it grew. *)
Record game_ok (g : game) (k : nat) : Prop := {
  go_x : length (sx g) = 200%nat;
  go_y : length (sy g) = 200%nat;
  go_len : (3 ≤ k)%nat ∧ Z.of_nat k ≤ len g ≤ Z.of_nat k + 1 ∧ len g ≤ 200;
  go_in : ∀ i x y, (i < k)%nat → sx g !! i = Some x → sy g !! i = Some y → in_field x y;
  go_food : in_field (fx g) (fy g);
  go_score : 0 ≤ score g
}.

Lemma bites_total n i g nx ny : 0 ≤ i → i + Z.of_nat n ≤ 200 → length (sx g) = 200%nat → length (sy g) = 200%nat →
  ∃ b, bites n i g nx ny = Ok b.
Proof.
  intros Hi Hn Hx Hy. revert i Hi Hn. induction n as [|n IH]; intros i Hi Hn; cbn [bites]; [by eexists|].
  destruct (arr_get_in (sx g) i) as (x & -> & _); [lia|]. destruct (arr_get_in (sy g) i) as (y & -> & _); [lia|]. cbn [mbind res_bind].
  case_match; [by eexists|]. apply IH; lia.
Qed.

(** The pieces move up by one. *)
Lemma crawl_spec n l : (n < length l)%nat → ∃ l', crawl n l = Ok l' ∧ length l' = length l ∧
  (∀ i, (0 < i ≤ n)%nat → l' !! i = l !! pred i) ∧ (∀ i, (n < i)%nat → l' !! i = l !! i).
Proof.
  revert l. induction n as [|n IH]; intros l Hn; [exists l; split_and!; done || lia|]. cbn [crawl].
  destruct (arr_get_in l (Z.of_nat n)) as (x & -> & Hx); [lia|]. cbn [mbind res_bind]. rewrite Nat2Z.id in Hx.
  rewrite arr_set_in by lia. cbn [mbind res_bind]. rewrite Nat2Z.id.
  destruct (IH (<[S n := x]> l)) as (l' & -> & Hl & Hlow & Hhigh); [rewrite length_insert; lia|]. rewrite length_insert in Hl.
  exists l'. split_and!; [done|done| |].
  - intros i Hi. destruct (decide (i = S n)) as [->|Hne].
    + rewrite Hhigh, list_lookup_insert_eq by lia. by rewrite <- Hx.
    + rewrite Hlow by lia. rewrite list_lookup_insert_ne by lia. done.
  - intros i Hi. rewrite Hhigh by lia. by rewrite list_lookup_insert_ne by lia.
Qed.

Definition drawn_in_field (d : draw) : Prop := in_field (d_x d) (d_y d).
(** The score is shown above the field. *)
Definition at_score (d : draw) : Prop := d_x d = 24 ∧ d_y d = 2.
Lemma draw_pieces_spec n i g : 0 ≤ i → i + Z.of_nat n ≤ 200 → length (sx g) = 200%nat → length (sy g) = 200%nat →
  (∀ j x y, (Z.to_nat i ≤ j < Z.to_nat i + n)%nat → sx g !! j = Some x → sy g !! j = Some y → in_field x y) →
  ∃ ds, draw_pieces n i g = Ok ds ∧ Forall drawn_in_field ds.
Proof.
  intros Hi Hn Hx Hy. revert i Hi Hn. induction n as [|n IH]; intros i Hi Hn Hin; cbn [draw_pieces]; [by eexists|].
  destruct (arr_get_in (sx g) i) as (x & -> & Ex); [lia|]. destruct (arr_get_in (sy g) i) as (y & -> & Ey); [lia|]. cbn [mbind res_bind].
  destruct (IH (i + 1)) as (ds & -> & Hds); [lia|lia|intros j a b Hj; apply Hin; lia|].
  eexists. split; [done|]. constructor; [|done]. apply (Hin (Z.to_nat i)); [lia|done|done].
Qed.

Lemma score_text_ok n : 0 ≤ n < 100000000 → ∃ t, score_text n = Ok t.
Proof.
  intros Hn. unfold score_text. assert (length (str "Score: ") = 7%nat) as E7 by done. assert (length (str "   ") = 3%nat) as E3 by done.
  destruct (kitoa_digits 8 n (replicate 10 0) 10) as (sn & s & -> & Hs & _ & _ & Hl & _); [lia|change (10 ^ Z.of_nat 8) with 100000000; lia|lia|cbn; lia|]. cbn [mbind res_bind].
  destruct (kstrcpy_roundtrip (replicate 20 0) (lit "Score: ") (str "Score: ")) as (b & -> & Hb & Lb); [by apply lit_test|rewrite length_replicate; lia|].
  cbn [mbind res_bind].
  destruct (kstrcat_cstr b sn (str "Score: ") s Hb Hs) as (b' & -> & Hb' & Lb'); [rewrite Lb, length_replicate; lia|]. cbn [mbind res_bind].
  destruct (kstrcat_cstr b' (lit "   ") _ (str "   ") Hb') as (b'' & -> & _); [by apply lit_test| |by eexists].
  rewrite Lb', Lb, length_app, length_replicate. lia.
Qed.

Lemma food_in_field a b : in_field (SXO + a mod SW) (SYO + b mod SH).
Proof. pose proof (Z.mod_pos_bound a SW ltac:(done)). pose proof (Z.mod_pos_bound b SH ltac:(done)). unfold in_field. lia. Qed.

(** The pieces after a step: the new head, then the pieces as they were but the last. *)
Lemma moved_in_field g k nx ny sx' sy' i x y : game_ok g k → in_field nx ny →
  (∀ i, (0 < i ≤ Z.to_nat (len g - 1))%nat → sx' !! i = sx g !! pred i) →
  (∀ i, (0 < i ≤ Z.to_nat (len g - 1))%nat → sy' !! i = sy g !! pred i) →
  (i < Z.to_nat (len g))%nat → length sx' = 200%nat → length sy' = 200%nat →
  <[Z.to_nat 0 := nx]> sx' !! i = Some x → <[Z.to_nat 0 := ny]> sy' !! i = Some y → in_field x y.
Proof.
  intros [Hx Hy Hlen Hin _ _] Hn Hsx Hsy Hi Lx Ly. destruct (decide (i = 0%nat)) as [->|Hne].
  - rewrite !list_lookup_insert_eq by lia. by intros [= <-] [= <-].
  - rewrite !list_lookup_insert_ne by (cbn; lia). rewrite Hsx, Hsy by lia. apply Hin. lia.
Qed.

(** A turn of the snake game. As long as the snake and the food are in the field, a turn
    with any key runs within the arrays and the buffers; it ends the game, or the snake with
    all its pieces and the food are in the field again, and everything but the score is drawn
    there; the blank over the last piece too unless the snake grew in the turn before. *)
Theorem snake_turn_in_field g k c : game_ok g k → score g < 99999999 →
  ∃ ds r, snake_turn c g = Ok (ds, r) ∧
    match r with
    | None => ds = []
    | Some g' =>
        game_ok g' (Z.to_nat (len g)) ∧ len g ≤ len g' ≤ len g + 1 ∧ score g ≤ score g' ≤ score g + 1 ∧
        ∃ blank rest, ds = blank :: rest ∧ Forall (λ d, drawn_in_field d ∨ at_score d) rest ∧ (Z.of_nat k = len g → drawn_in_field blank)
    end.
Proof.
  intros Hok Hscore. pose proof Hok as [Hx Hy Hlen Hin Hfood Hsc]. unfold snake_turn. set (dir' := turn_to c (dir g)).
  destruct (arr_get_in (sx g) 0) as (x0 & -> & Ex0); [lia|]. destruct (arr_get_in (sy g) 0) as (y0 & -> & Ey0); [lia|]. cbn [mbind res_bind].
  set (ny := if dir' =? 0 then y0 - 1 else _). set (nx := if dir' =? 2 then x0 - 1 else _).
  destruct ((nx <? SXO) || (SXO + SW <=? nx) || (ny <? SYO) || (SYO + SH <=? ny)) eqn:Eout; [by eexists _, _|].
  assert (in_field nx ny) as Hn by (unfold in_field; repeat (apply orb_false_iff in Eout as [Eout ?]); lia).
  destruct (bites_total (Z.to_nat (len g)) 0 g nx ny) as [b ->]; [lia..|]. cbn [mbind res_bind].
  destruct (b || (c =? 113)); [by eexists _, _|].
  destruct (arr_get_in (sx g) (len g - 1)) as (tx & -> & Etx); [lia|]. destruct (arr_get_in (sy g) (len g - 1)) as (ty & -> & Ety); [lia|]. cbn [mbind res_bind].
  destruct (crawl_spec (Z.to_nat (len g - 1)) (sx g)) as (sx' & -> & Lx & Mx & _); [lia|].
  destruct (crawl_spec (Z.to_nat (len g - 1)) (sy g)) as (sy' & -> & Ly & My & _); [lia|]. cbn [mbind res_bind].
  rewrite arr_set_in by lia. cbn [mbind res_bind]. rewrite arr_set_in by lia. cbn [mbind res_bind len].
  rewrite Hx in Lx. rewrite Hy in Ly.
  pose proof (λ i x y Hi, moved_in_field g k nx ny sx' sy' i x y Hok Hn Mx My Hi Lx Ly) as Hmoved.
  edestruct (draw_pieces_spec (Z.to_nat (len g)) 0) as (ds & -> & Hds); [lia|lia| | | |]; cbn [sx sy]; rewrite ?length_insert; [done|done| |].
  { intros j x y Hj. apply Hmoved. cbn in Hj. lia. }
  cbn [mbind res_bind fx fy score].
  assert (Z.of_nat k = len g → in_field tx ty) as Hblank by (intros Hk; apply (Hin (Z.to_nat (len g - 1))); [lia|done..]).
  assert (∀ m, Forall drawn_in_field ds → ∃ blank rest, mkDraw (lit " ") tx ty VGA_BLACK :: ds ++ m = blank :: rest ∧
    (Forall (λ d, drawn_in_field d ∨ at_score d) m → Forall (λ d, drawn_in_field d ∨ at_score d) rest) ∧ (Z.of_nat k = len g → drawn_in_field blank)) as Hdraws.
  { intros m Hm. eexists _, _. split_and!; [done| |exact Hblank]. intros. apply Forall_app. split; [|done]. eapply Forall_impl; [exact Hm|by left]. }
  destruct ((nx =? fx g) && (ny =? fy g)).
  - destruct (score_text_ok (score g + 1)) as [t ->]; [lia|]. cbn [mbind res_bind]. pose proof (food_in_field (fx g * 7 + 3) (fy g * 13 + 5)) as Hf.
    destruct (Hdraws [mkDraw (lit "*") (SXO + (fx g * 7 + 3) mod SW) (SYO + (fy g * 13 + 5) mod SH) VGA_RED; mkDraw t 24 2 VGA_WHITE] Hds) as (bl & rest & E & Hrest & Hb).
    eexists _, _. split; [done|]. cbn [len score fx fy sx sy]. split_and!; [|unfold SMAX; try case_match; lia..|].
    + split; cbn [sx sy len score fx fy]; rewrite ?length_insert; try done; unfold SMAX; try case_match; lia.
    + exists bl, rest. split_and!; [exact E|apply Hrest|exact Hb]. constructor; [by left|]. constructor; [by right|constructor].
  - destruct (Hdraws [] Hds) as (bl & rest & E & Hrest & Hb). rewrite app_nil_r in E.
    eexists _, _. split; [done|]. cbn [len score fx fy sx sy]. split_and!; [|lia..|exists bl, rest; split_and!; [exact E|by apply Hrest|exact Hb]].
    split; cbn [sx sy len score fx fy]; rewrite ?length_insert; try done; lia.
Qed.

(** ** The start, and a game *)
Definition start : game :=
  mkGame ([40; 39; 38] ++ replicate 197 (-7)) ([13; 13; 13] ++ replicate 197 (-7)) 3 3 0 30 10.
Example start_is_game_start : game_start (replicate 200 (-7)) (replicate 200 (-7)) = Ok start.
Proof. vm_compute. reflexivity. Qed.
Lemma start_ok : game_ok start 3.
Proof.
  split; [done|done|cbn; lia| |unfold in_field, SXO, SW, SYO, SH; cbn; lia|done].
  intros i x y Hi. do 3 (destruct i as [|i]; [cbn; intros [= <-] [= <-]; unfold in_field, SXO, SW, SYO, SH; lia|]). lia.
Qed.

Lemma snake_turn_in_field_witness : ∃ ds r, snake_turn 119 start = Ok (ds, r) ∧
  match r with
  | None => ds = []
  | Some g' =>
      game_ok g' (Z.to_nat 3) ∧ 3 ≤ len g' ≤ 3 + 1 ∧ 0 ≤ score g' ≤ 0 + 1 ∧
      ∃ blank rest, ds = blank :: rest ∧ Forall (λ d, drawn_in_field d ∨ at_score d) rest ∧ (3 = 3 → drawn_in_field blank)
  end.
Proof. exact (snake_turn_in_field start 3 119 start_ok eq_refl). Defined.

(** The keys of a game, and the place of the blank in its last turn. *)
Fixpoint play (keys : list Z) (g : game) : res (option (list draw * game)) :=
  match keys with
  | [] => Ok None
  | c :: keys' =>
      t ← snake_turn c g;
      match t.2 with
      | None => Ok None
      | Some g' => match keys' with [] => Ok (Some (t.1, g')) | _ => play keys' g' end
      end
  end.
Definition blank_at (r : res (option (list draw * game))) : option (Z * Z) :=
  match r with Ok (Some (d :: _, _)) => Some (d_x d, d_y d) | _ => None end.

(** Three steps up and ten to the left, the food is eaten. In the next turn the last piece is one
    that was never placed: the blank is drawn where the uninitialised cells say. *)
Example snake_tail_uninitialised : blank_at (play (replicate 3 119 ++ replicate 11 97) start) = Some (-7, -7).
Proof. vm_compute. reflexivity. Qed.
