(* ===== verification/Listing.v ===== *)
(** * Listings of the components for the shell (src/src/sched.c, fat12.c, paging.c)

    [sched_list], [fat12_info] and [paging_dump_range] only print: what they print is a list of
    operations on the console, computed from the state. *)

From S2P Require Import Prelude KString Pmm Paging BlockDev Fat12 Sched Vga.

(** ** Tasks *)
Section tasks.
Context {H : Type}.

Definition tstate (s : task_state_t) : list Z :=
  match s with
  | TASK_RUNNING => lit "RUN  "
  | TASK_READY => lit "READY"
  | TASK_SLEEPING => lit "SLEEP"
  | TASK_DEAD => lit "DEAD "
  | TASK_ZOMBIE => lit "ZOMBI"
  end.

Definition task_row (current : bool) (t : task_t) : list con :=
  if bool_decide (state t = TASK_DEAD) && (pid t =? 0) then []
  else
    [CPuts (lit "  "); CDec (u32 (pid t)); CPuts (lit "    "); CPuts (tstate (state t)); CPuts (lit "  ");
     CDec (ticks t); CPuts (lit "    "); CPuts (if kum_level t =? 0 then lit "no " else lit "yes"); CPuts (lit "  ")] ++
    (if current
     then [CColor VGA_GREEN VGA_BLACK; CPuts (name t); CPuts (lit " *"); CColor VGA_WHITE VGA_BLACK]
     else [CPuts (name t)]) ++
    [CPutc 10].

Fixpoint task_rows (n : nat) (i : Z) (s : sched H) : res (list con) :=
  match n with
  | O => Ok []
  | S n' =>
      t ← arr_get (tasks s) i;
      rest ← task_rows n' (i + 1) s;
      Ok (task_row (i =? current_idx s) t ++ rest)
  end.
Definition sched_list (s : sched H) : res (list con) :=
  rows ← task_rows (Z.to_nat (task_count s)) 0 s;
  Ok ([CColor VGA_YELLOW VGA_BLACK;
       CPuts (lit "  PID  STATE  TICKS   KUM  NAME
");
       CPuts (lit "  ---  -----  -----   ---  ----
");
       CColor VGA_WHITE VGA_BLACK] ++ rows).
End tasks.

(** ** The FAT volume *)
Section volume.
Context {D : Type}.

(** [for (i = 2; i < g_total_clusters + 2; i++) if (fat_get(i) == 0x000) free_cl++;] *)
Fixpoint count_free (n : nat) (i fr : Z) (v : fat12 D) : res Z :=
  match n with
  | O => Ok fr
  | S n' => e ← fat_get_in (g_fat v) i; count_free n' (i + 1) (if e =? 0 then u16 (fr + 1) else fr) v
  end.

Definition fat12_info (v : fat12 D) : res (list con) :=
  if negb (g_mounted v) then Ok [CPuts (lit "  No FAT12 volume mounted.
")]
  else
    label ← kmemcpy (replicate 12 0) (volume_label (g_bpb v)) 11;
    label ← arr_set label 11 0;
    free_cl ← count_free (Z.to_nat (g_total_clusters v)) 2 0 v;
    Ok [CColor VGA_YELLOW VGA_BLACK; CPuts (lit "
  === FAT12 Volume ===

"); CColor VGA_WHITE VGA_BLACK;
        CPuts (lit "  Label:    "); CPuts label; CPutc 10;
        CPuts (lit "  FAT start LBA:  "); CDec (g_fat_start v); CPutc 10;
        CPuts (lit "  Root start LBA: "); CDec (g_root_start v); CPutc 10;
        CPuts (lit "  Data start LBA: "); CDec (g_data_start v); CPutc 10;
        CPuts (lit "  Total clusters: "); CDec (g_total_clusters v); CPutc 10;
        CPuts (lit "  Free clusters:  "); CDec free_cl;
        CPuts (lit "  ("); CDec (free_cl * 512 / 1024); CPuts (lit " KB free)

")].
End volume.

(** ** Mapped ranges *)
Section ranges.
Variable page_dir : Z.

Definition print_run (run_start run_phys addr : Z) : list con :=
  [CPuts (lit "    "); CHex run_start; CPuts (lit " → "); CHex run_phys;
   CPuts (lit " ("); CDec (u32 (addr - run_start) / 1024); CPuts (lit " KB)
")].

(** [run] is [run_start, run_phys] while [in_run] is set. *)
Fixpoint dump_loop (n : nat) (addr e : Z) (run : option (Z * Z)) : M vm (list con) :=
  if addr <? e then
    match n with
    | O => λ _, Timeout
    | S n' =>
        m ← paging_is_mapped page_dir addr;
        if m : bool then
          run ← (match run with
                 | Some r => mret (Some r)
                 | None => p ← paging_virt_to_phys page_dir addr; mret (Some (addr, p))
                 end);
          dump_loop n' (u32 (addr + PAGE_SIZE)) e run
        else
          l ← dump_loop n' (u32 (addr + PAGE_SIZE)) e None;
          mret (match run with Some (a, p) => print_run a p addr ++ l | None => l end)
    end
  else mret (match run with Some (a, p) => print_run a p addr | None => [] end).

Definition paging_dump_range (n : nat) (start e : Z) : M vm (list con) := dump_loop n (page_base start) e None.
End ranges.
