(* ===== verification/Serial.v ===== *)
(** * The serial port and the kernel log line (src/src/serial.c)

    The UART is outside the program: a type [D] with the class [Ports] of what reading
    and writing its ports does.  [serial_printf] and [klog] take their arguments as in
    Dmesg.v.  [klog] also prints on the console, so its state has both. *)

From S2P Require Import Prelude Ports KString Vga Dmesg.

Definition COM1 : Z := 0x3F8.
Definition UART_DATA : Z := 0.
Definition UART_IER : Z := 1.
Definition UART_FCR : Z := 2.
Definition UART_LCR : Z := 3.
Definition UART_MCR : Z := 4.
Definition UART_LSR : Z := 5.
Definition LCR_8BIT : Z := 0x03.
Definition LCR_DLAB : Z := 0x80.
Definition LSR_DR : Z := 0x01.
Definition LSR_THRE : Z := 0x20.
Definition FCR_ENABLE : Z := 0x01.
Definition FCR_CLR_RX : Z := 0x02.
Definition FCR_CLR_TX : Z := 0x04.
Definition FCR_TRIG_14 : Z := 0xC0.

Section serial.
Context {D : Type} `{Ports D}.

Record serial := mkSerial { uart : D; com1_ready : bool; screen : vga }.
Definition set_uart (d : D) (s : serial) : serial := mkSerial d (com1_ready s) (screen s).

Definition inb (p : Z) : M serial Z := λ s,
  let (v, d) := port_read p (uart s) in Ok (u8 v, set_uart d s).
Definition outb (p v : Z) : M serial unit := λ s, Ok (tt, set_uart (port_write p (u8 v) (uart s)) s).
Definition on_screen {A} (m : M vga A) : M serial A := λ s,
  match m (screen s) with
  | Ok (a, v) => Ok (a, mkSerial (uart s) (com1_ready s) v)
  | Fault => Fault
  | Timeout => Timeout
  end.

(** [for (i...) if (inb(LSR) & LSR_DR) break;] *)
Fixpoint wait_data (n : nat) (port : Z) : M serial unit :=
  match n with
  | O => mret tt
  | S n' => v ← inb (port + UART_LSR); if Z.land v LSR_DR =? 0 then wait_data n' port else mret tt
  end.

Definition serial_init (port : Z) : M serial Z :=
  outb (port + UART_IER) 0x00 ;;
  outb (port + UART_LCR) LCR_DLAB ;;
  outb (port + UART_DATA) 0x01 ;;
  outb (port + UART_IER) 0x00 ;;
  outb (port + UART_LCR) LCR_8BIT ;;
  outb (port + UART_FCR) (Z.lor (Z.lor (Z.lor FCR_ENABLE FCR_CLR_RX) FCR_CLR_TX) FCR_TRIG_14) ;;
  outb (port + UART_MCR) 0x0B ;;
  outb (port + UART_MCR) 0x1E ;;
  outb (port + UART_DATA) 0xAE ;;
  wait_data (Z.to_nat 10000) port ;;
  v ← inb (port + UART_DATA);
  if negb (v =? 0xAE) then outb (port + UART_MCR) 0x0F ;; mret (-1)
  else
    outb (port + UART_MCR) 0x0F ;;
    (if port =? COM1 then modify (λ s, mkSerial (uart s) true (screen s)) else mret tt) ;;
    mret 0.

(** [while (!(inb(LSR) & LSR_THRE) && --timeout);] *)
Fixpoint wait_thre (timeout : nat) (port : Z) : M serial unit :=
  match timeout with
  | O => mret tt
  | S n => v ← inb (port + UART_LSR); if Z.land v LSR_THRE =? 0 then wait_thre n port else mret tt
  end.

Definition serial_putchar (port c : Z) : M serial unit :=
  wait_thre (Z.to_nat 100000) port ;;
  (if c =? 10 then outb (port + UART_DATA) 13 ;; wait_thre (Z.to_nat 100000) port else mret tt) ;;
  outb (port + UART_DATA) c.

Fixpoint serial_puts (port : Z) (s : list Z) : M serial unit :=
  match s with
  | [] => lift Fault
  | c :: s' => if c =? 0 then mret tt else serial_putchar port c ;; serial_puts port s'
  end.

Fixpoint serial_write (port : Z) (buf : list Z) (len : nat) {struct len} : M serial unit :=
  match len with
  | O => mret tt
  | S n => match buf with
           | [] => lift Fault
           | c :: buf' => serial_putchar port c ;; serial_write port buf' n
           end
  end.

Definition serial_has_data (port : Z) : M serial Z :=
  v ← inb (port + UART_LSR); mret (if Z.land v LSR_DR =? 0 then 0 else 1).
Definition serial_getchar (port : Z) : M serial Z :=
  b ← serial_has_data port;
  if b =? 0 then mret 0 else inb (port + UART_DATA).
Definition serial_ready (s : serial) : bool := com1_ready s.

Definition serial_put_dec (port n : Z) : M serial unit :=
  if n =? 0 then serial_putchar port 48
  else ds ← lift (dec_digits 11 n []); serial_puts port (ds ++ [0]).
Definition serial_put_hex (port n : Z) : M serial unit :=
  serial_puts port (lit "0x") ;; serial_write port (hex_digits 8 n []) 8.

(** One conversion of [serial_printf]. *)
Definition serial_conv (f : Z) (args : list va_arg) : M serial (list va_arg) :=
  if f =? 115 then
    match args with
    | AStr s :: l => serial_puts COM1 (default (lit "(null)") s) ;; mret l
    | _ => lift Fault
    end
  else if f =? 100 then
    a ← lift (int_arg args);
    let d := i32 a.1 in
    (if d <? 0 then serial_putchar COM1 45 else mret tt) ;; serial_put_dec COM1 (u32 (Z.abs d)) ;; mret a.2
  else if f =? 117 then a ← lift (int_arg args); serial_put_dec COM1 (u32 a.1) ;; mret a.2
  else if f =? 120 then a ← lift (int_arg args); serial_put_hex COM1 (u32 a.1) ;; mret a.2
  else if f =? 99 then a ← lift (int_arg args); serial_putchar COM1 (u8 a.1) ;; mret a.2
  else if f =? 37 then serial_putchar COM1 37 ;; mret args
  else mret args.
Fixpoint serial_fmt (n : nat) (fmt : list Z) (args : list va_arg) : M serial unit :=
  match n, fmt with
  | O, _ => lift Timeout
  | _, [] => lift Fault
  | S n', c :: fmt' =>
      if c =? 0 then mret tt
      else if c =? 37 then
        match fmt' with
        | [] => lift Fault
        | f :: fmt'' => l ← serial_conv f args; serial_fmt n' fmt'' l
        end
      else serial_putchar COM1 c ;; serial_fmt n' fmt' args
  end.
Definition serial_printf (fmt : list Z) (args : list va_arg) : M serial unit :=
  s ← get;
  if negb (com1_ready s) then mret tt else serial_fmt (S (length fmt)) fmt args.

(** ** The kernel log line *)

(** [while (... && pos < 510) buf[pos++] = c;] *)
Fixpoint klog_put (cs : list Z) (buf : list Z) (pos : Z) : res (list Z * Z) :=
  match cs with
  | [] => Ok (buf, pos)
  | c :: cs' => if pos <? 510 then b ← arr_set buf pos c; klog_put cs' b (pos + 1) else Ok (buf, pos)
  end.
Fixpoint klog_str (s : list Z) (buf : list Z) (pos : Z) : res (list Z * Z) :=
  match s with
  | [] => Fault
  | c :: s' =>
      if negb (c =? 0) && (pos <? 510) then b ← arr_set buf pos c; klog_str s' b (pos + 1) else Ok (buf, pos)
  end.
(** The digits of a number, or the digit 0 stored without looking at the limit. *)
Definition klog_dec (u : Z) (buf : list Z) (pos : Z) : res (list Z * Z) :=
  if u =? 0 then put_all [48] buf pos else ds ← dec_digits 11 u []; klog_put ds buf pos.

Definition klog_conv (f : Z) (args : list va_arg) (buf : list Z) (pos : Z) : res (list Z * Z * list va_arg) :=
  if f =? 115 then
    match args with
    | AStr s :: l => q ← klog_str (default (lit "(null)") s) buf pos; Ok (q, l)
    | _ => Fault
    end
  else if f =? 100 then
    a ← int_arg args;
    let d := i32 a.1 in
    p ← (if d <? 0 then put_all [45] buf pos else Ok (buf, pos));
    q ← klog_dec (u32 (Z.abs d)) p.1 p.2; Ok (q, a.2)
  else if f =? 117 then a ← int_arg args; q ← klog_dec (u32 a.1) buf pos; Ok (q, a.2)
  else if f =? 120 then
    a ← int_arg args;
    q ← (if pos + 10 <? 510 then put_all (48 :: 120 :: hex_digits 8 (u32 a.1) []) buf pos else Ok (buf, pos));
    Ok (q, a.2)
  else if f =? 99 then a ← int_arg args; q ← put_all [u8 a.1] buf pos; Ok (q, a.2)
  else if f =? 37 then q ← put_all [37] buf pos; Ok (q, args)
  else Ok (buf, pos, args).

Fixpoint klog_fmt (n : nat) (fmt : list Z) (args : list va_arg) (buf : list Z) (pos : Z) : res (list Z * Z) :=
  match n, fmt with
  | O, _ => Timeout
  | _, [] => Fault
  | S n', c :: fmt' =>
      if negb (c =? 0) && (pos <? 510) then
        if c =? 37 then
          match fmt' with
          | [] => Fault
          | f :: fmt'' => q ← klog_conv f args buf pos; klog_fmt n' fmt'' q.2 q.1.1 q.1.2
          end
        else b ← arr_set buf pos c; klog_fmt n' fmt' args b (pos + 1)
      else Ok (buf, pos)
  end.

(** [junk] is the uninitialised buffer of 512 bytes. *)
Definition klog (junk fmt : list Z) (args : list va_arg) : M serial unit :=
  p ← lift (klog_fmt (S (length fmt)) fmt args junk 0);
  buf ← lift (arr_set (p : list Z * Z).1 p.2 0);
  on_screen (vga_puts buf) ;;
  s ← get;
  if com1_ready s then serial_write COM1 buf (Z.to_nat p.2) else mret tt.

(** ** Hex dumps *)
Definition hexdigit (k : Z) : Z := str "0123456789ABCDEF" !!! Z.to_nat k.
(** The sixteen columns: two digits or two blanks, and a gap after the eighth. *)
Definition hex_col (p : list Z) (len off j : Z) : res (list Z) :=
  ds ← (if off + j <? len then b ← arr_get p (off + j); Ok [hexdigit (Z.shiftr b 4); hexdigit (Z.land b 0xF)]
        else Ok [32; 32]);
  Ok (ds ++ [32] ++ (if j =? 7 then [32] else [])).
Definition ascii_col (p : list Z) (len off j : Z) : res (list Z) :=
  if off + j <? len then c ← arr_get p (off + j); Ok [if (32 <=? c) && (c <? 127) then c else 46] else Ok [].
Fixpoint columns (f : Z → res (list Z)) (js : list Z) : res (list Z) :=
  match js with
  | [] => Ok []
  | j :: js' => a ← f j; r ← columns f js'; Ok (a ++ r)
  end.
(** One line; [line] has 80 cells. *)
Definition dump_line (p : list Z) (len off : Z) : res (list Z) :=
  h ← columns (hex_col p len off) (seqZ 0 16);
  a ← columns (ascii_col p len off) (seqZ 0 16);
  let l := [48; 120] ++ hex_digits 8 off [] ++ [58; 32] ++ h ++ [32; 124] ++ a ++ [124; 10] in
  if Z.of_nat (length l) <? 80 then Ok l else Fault.
Fixpoint dump_lines (n : nat) (port : Z) (p : list Z) (len off : Z) : M serial unit :=
  if off <? len then
    match n with
    | O => lift Timeout
    | S n' => l ← lift (dump_line p len off); serial_write port l (length l) ;; dump_lines n' port p len (off + 16)
    end
  else mret tt.
Definition serial_hexdump (port : Z) (buf : list Z) (len : Z) : M serial unit :=
  dump_lines (Z.to_nat len) port buf len 0.
End serial.
Arguments serial D : clear implicits.

(** ** The line

    What the driver relies on of a 16550 UART once it is set up ([open]: the divisor
    latch is off): a byte written to the data register is transmitted, reading the line
    status transmits nothing. *)
Class UartLine (D : Type) `{Ports D} (port : Z) := {
  line : D → list Z;
  open : D → Prop;
  read_line d : open d → line (port_read (port + UART_LSR) d).2 = line d ∧ open (port_read (port + UART_LSR) d).2;
  write_line v d : open d → line (port_write (port + UART_DATA) v d) = line d ++ [v] ∧ open (port_write (port + UART_DATA) v d)
}.

(** What a terminal receives: line feeds are preceded by carriage returns. *)
Definition crlf (s : list Z) : list Z := c ← s; if c =? 10 then [13; 10] else [c].

Section sending.
Context {D : Type} `{Ports D} (port : Z) `{!UartLine D port}.
Implicit Types (s : serial D).

(** [s'] is [s] after the bytes [b] went over the line. *)
Definition transmitted (b : list Z) s s' : Prop :=
  com1_ready s' = com1_ready s ∧ screen s' = screen s ∧ line (uart s') = line (uart s) ++ b ∧ open (uart s').

Lemma transmitted_nil s : open (uart s) → transmitted [] s s.
Proof. intros. repeat split; [by rewrite app_nil_r|done]. Qed.
Lemma transmitted_trans a b s s1 s2 : transmitted a s s1 → transmitted b s1 s2 → transmitted (a ++ b) s s2.
Proof. intros (H1 & H2 & H3 & _) (G1 & G2 & G3 & G4). repeat split; [congruence..| |done]. by rewrite G3, H3, app_assoc. Qed.

Lemma wp_wait_thre n s : open (uart s) → wp (wait_thre n port) (λ _, transmitted [] s) s.
Proof.
  revert s. induction n as [|n IH]; intros s Ho; cbn [wait_thre]; [by apply wp_ret, transmitted_nil|].
  apply wp_bind. unfold wp, inb. destruct (read_line (uart s) Ho) as [Hl Ho'].
  destruct (port_read (port + UART_LSR) (uart s)) as [v d]. cbn in Hl, Ho'.
  assert (transmitted [] s (set_uart d s)) as Ht by (repeat split; cbn; [by rewrite app_nil_r|done]).
  case_if; [|done]. eapply wp_mono; [by apply IH|]. intros [] s' Hs'. by apply (transmitted_trans [] [] s (set_uart d s)).
Qed.

Lemma wp_put_data c s :
  open (uart s) → is_byte c → wp (outb (port + UART_DATA) c) (λ _, transmitted [c] s) s.
Proof.
  intros Ho Hc. unfold wp, outb. rewrite u8_small by done. destruct (write_line c (uart s) Ho) as [Hl Ho'].
  by repeat split.
Qed.

Lemma wp_serial_putchar c s :
  open (uart s) → is_byte c → wp (serial_putchar port c) (λ _, transmitted (crlf [c]) s) s.
Proof.
  intros Ho Hc. unfold serial_putchar. apply wp_bind. eapply wp_mono; [by apply wp_wait_thre|].
  intros [] s1 H1. apply wp_bind.
  assert (crlf [c] = if c =? 10 then [13; 10] else [c]) as -> by (unfold crlf; cbn; by rewrite app_nil_r).
  destruct (Z.eqb_spec c 10) as [->|Hne].
  - apply wp_bind. eapply wp_mono; [apply wp_put_data; [apply H1|unfold is_byte; lia]|]. intros [] s2 H2.
    eapply wp_mono; [apply wp_wait_thre, H2|]. intros [] s3 H3. cbn beta.
    eapply wp_mono; [apply wp_put_data; [apply H3|done]|].
    intros [] s4 H4. apply (transmitted_trans [] [13; 10] s s1); [done|]. apply (transmitted_trans [13] [10] s1 s2); [done|].
    by apply (transmitted_trans [] [10] s2 s3).
  - apply wp_ret. cbn beta. eapply wp_mono; [apply wp_put_data; [apply H1|done]|]. intros [] s2 H2.
    by apply (transmitted_trans [] [c] s s1).
Qed.

(** [serial_write] transmits its bytes. On a line that is set up, the bytes of the
    buffer go out in order, each line feed preceded by a carriage return, and nothing
    else does; the waits for the transmitter end. *)
Theorem serial_write_line buf rest s :
  open (uart s) → bytes buf →
  wp (serial_write port (buf ++ rest) (length buf)) (λ _, transmitted (crlf buf) s) s.
Proof.
  revert s. induction buf as [|c buf IH]; intros s Ho Hb; cbn [length serial_write app]; [by apply wp_ret, transmitted_nil|].
  apply Forall_cons in Hb as [Hc Hb]. apply wp_bind. eapply wp_mono; [by apply wp_serial_putchar|]. intros [] s1 H1.
  eapply wp_mono; [apply IH; [apply H1|done]|]. intros [] s2 H2.
  assert (crlf (c :: buf) = crlf [c] ++ crlf buf) as -> by (unfold crlf; cbn; by rewrite app_nil_r).
  by apply (transmitted_trans _ _ s s1).
Qed.
End sending.

(** ** Hex dumps overrun their line *)

Lemma columns_length f js n :
  (∀ j, j ∈ js → ∃ l, f j = Ok l ∧ length l = n j) →
  ∃ r, columns f js = Ok r ∧ length r = sum_list (n <$> js).
Proof.
  induction js as [|j js IH]; intros Hf; [by exists []|]. cbn [columns].
  destruct (Hf j) as (l & -> & Hl); [by left|]. destruct IH as (r & -> & Hr); [intros k Hk; apply Hf; by right|].
  cbn [mbind res_bind]. exists (l ++ r). split; [done|]. rewrite length_app, Hl, Hr. done.
Qed.

(** A hex dump writes past the end of its line buffer. For any object of at least
    15 bytes the first line of [serial_hexdump] has 80 characters or more and a
    terminator, but the array it is built in has 80. *)
Theorem hexdump_overruns {D} `{Ports D} port buf len (s : serial D) :
  15 ≤ len ≤ Z.of_nat (length buf) → serial_hexdump port buf len s = Fault.
Proof.
  intros Hlen. unfold serial_hexdump. replace (Z.to_nat len) with (S (Z.to_nat (len - 1))) by lia.
  cbn [dump_lines]. rewrite (proj2 (Z.ltb_lt 0 len)) by lia. apply M_bind_fault. unfold lift, dump_line.
  destruct (columns_length (hex_col buf len 0) (seqZ 0 16) (λ j, if j =? 7 then 4%nat else 3%nat)) as (h & -> & Hh).
  { intros j Hj. apply elem_of_seqZ in Hj. unfold hex_col. rewrite Z.add_0_l. destruct (Z.ltb_spec j len).
    - destruct (arr_get_in buf j) as (b & -> & _); [lia|]. cbn [mbind res_bind]. eexists. split; [done|]. cbn. by destruct (j =? 7).
    - cbn [mbind res_bind]. eexists. split; [done|]. cbn. by destruct (j =? 7). }
  destruct (columns_length (ascii_col buf len 0) (seqZ 0 16) (λ j, if j <? len then 1%nat else 0%nat)) as (a & -> & Ha).
  { intros j Hj. apply elem_of_seqZ in Hj. unfold ascii_col. rewrite Z.add_0_l. case_if; [|by exists []].
    destruct (arr_get_in buf j) as (b & -> & _); [lia|]. cbn [mbind res_bind]. by eexists. }
  cbn [mbind res_bind]. rewrite (proj2 (Z.ltb_ge _ 80)); [done|].
  assert (15 ≤ length a)%nat as Ha15.
  { rewrite Ha. change (seqZ 0 16) with [0; 1; 2; 3; 4; 5; 6; 7; 8; 9; 10; 11; 12; 13; 14; 15].
    cbn [fmap list_fmap sum_list_with]. repeat rewrite (proj2 (Z.ltb_lt _ len)) by lia. unfold id. lia. }
  rewrite !length_app, Hh. change (sum_list _) with 49%nat. cbn [length]. change (length (hex_digits 8 0 [])) with 8%nat. lia.
Qed.

(** ** A line that records *)
#[export] Instance recorder : Ports (list Z) := {
  port_read p d := (if p =? COM1 + UART_LSR then LSR_THRE else 0, d);
  port_write p v d := if p =? COM1 + UART_DATA then d ++ [v] else d
}.
#[export] Instance recorder_line : UartLine (list Z) COM1.
Proof. refine {| line d := d; open _ := True |}; done. Defined.

Definition serial0 : serial (list Z) := mkSerial [] true vga_zero.

Lemma serial_write_line_witness :
  wp (serial_write COM1 (str "a
" ++ []) 2) (λ _, transmitted COM1 [97; 13; 10] serial0) serial0.
Proof.
  apply (serial_write_line COM1 (str "a
") [] serial0); [done|].
  repeat (apply Forall_cons; split); try apply Forall_nil; vm_compute; split; congruence.
Defined.

Lemma hexdump_overruns_witness : serial_hexdump COM1 (replicate 16 65) 16 serial0 = Fault.
Proof. apply hexdump_overruns. cbn. lia. Defined.
