(* ===== verification/Net.v ===== *)
(** * The network stack (src/src/net.c, src/src/net.h)

    The RTL8139 driver, ARP, IPv4/UDP and TCP.  The card is outside the program: it is
    a type [D] with the class [Nic] of what port reads and writes do to it and what it
    has written into the receive buffer by bus mastering.  A port write is given the
    transmit buffers, because that is when the card reads the frame to send.  The
    timer the code sleeps on is that of Signal.v; while it sleeps the card goes on
    ([nic_wait]).  Frames are byte lists; header structs are accesses at their
    offsets (Ethernet at 0, IP or ARP at 14, UDP or TCP at 34). *)

From S2P Require Import Prelude KString Bytes Ring KMalloc Vga Sched Process Signal.

Definition ETH_ALEN : nat := 6.
Definition ETH_P_IP : Z := 0x0800.
Definition ETH_P_ARP : Z := 0x0806.
Definition IPPROTO_UDP : Z := 17.
Definition IPPROTO_TCP : Z := 6.
Definition PCI_ADDR : Z := 0xCF8.
Definition PCI_DATA : Z := 0xCFC.
Definition RTL_VENDOR : Z := 0x10EC.
Definition RTL_DEVICE : Z := 0x8139.
Definition RTL_MAC0 : Z := 0x00.
Definition RTL_TSD0 : Z := 0x10.
Definition RTL_TSAD0 : Z := 0x20.
Definition RTL_RBSTART : Z := 0x30.
Definition RTL_CMD : Z := 0x37.
Definition RTL_CAPR : Z := 0x38.
Definition RTL_IMR : Z := 0x3C.
Definition RTL_ISR : Z := 0x3E.
Definition RTL_TCR : Z := 0x40.
Definition RTL_RCR : Z := 0x44.
Definition RTL_CONFIG1 : Z := 0x52.
Definition TX_BUFS : Z := 4.
Definition TX_BUF_SIZE : Z := 1536.
Definition RX_BUF_SIZE : Z := 8192 + 16 + 1500.
Definition RX_RING_SIZE : Z := 4.
Definition TCP_MAX_SOCKETS : Z := 8.
Definition TCP_BUF_SIZE : Z := 4096.
Definition TCP_FIN : Z := 0x01.
Definition TCP_SYN : Z := 0x02.
Definition TCP_ACK : Z := 0x10.

Definition NET_IP (a b c d : Z) : Z :=
  u32 (Z.lor (Z.lor (Z.lor (Z.shiftl a 24) (Z.shiftl b 16)) (Z.shiftl c 8)) d).

(** Port accesses of a width in bytes, and the receive buffer the card writes. *)
Class Nic (D : Type) := {
  nic_in : Z → Z → D → Z * D;
  nic_out : Z → Z → Z → list (list Z) → D → D;
  nic_rx : D → list Z;
  nic_wait : D → D
}.

Inductive tcp_state_t :=
| TCP_CLOSED | TCP_SYN_SENT | TCP_SYN_RECV | TCP_ESTABLISHED | TCP_FIN_WAIT1
| TCP_FIN_WAIT2 | TCP_CLOSE_WAIT | TCP_LAST_ACK | TCP_TIME_WAIT.
#[global] Instance tcp_state_eq_dec : EqDecision tcp_state_t.
Proof. solve_decision. Defined.
Definition in_state (s t : tcp_state_t) : bool := bool_decide (s = t).

Record tcp_socket_t := mkSock {
  tstate : tcp_state_t;
  local_ip : Z;
  remote_ip : Z;
  local_port : Z;
  remote_port : Z;
  sseq : Z;
  sack : Z;
  rbuf : list Z;
  rbuf_head : Z;
  rbuf_tail : Z;
  sused : Z
}.
Definition sock_zero : tcp_socket_t := mkSock TCP_CLOSED 0 0 0 0 0 0 (replicate 4096 0) 0 0 0.
Definition set_tstate (x : tcp_state_t) (s : tcp_socket_t) : tcp_socket_t :=
  mkSock x (local_ip s) (remote_ip s) (local_port s) (remote_port s) (sseq s) (sack s) (rbuf s)
         (rbuf_head s) (rbuf_tail s) (sused s).
Definition set_seq (x : Z) (s : tcp_socket_t) : tcp_socket_t :=
  mkSock (tstate s) (local_ip s) (remote_ip s) (local_port s) (remote_port s) x (sack s) (rbuf s)
         (rbuf_head s) (rbuf_tail s) (sused s).
Definition set_ack (x : Z) (s : tcp_socket_t) : tcp_socket_t :=
  mkSock (tstate s) (local_ip s) (remote_ip s) (local_port s) (remote_port s) (sseq s) x (rbuf s)
         (rbuf_head s) (rbuf_tail s) (sused s).
Definition set_rbuf (b : list Z) (h t : Z) (s : tcp_socket_t) : tcp_socket_t :=
  mkSock (tstate s) (local_ip s) (remote_ip s) (local_port s) (remote_port s) (sseq s) (sack s) b
         h t (sused s).
Definition set_sused (x : Z) (s : tcp_socket_t) : tcp_socket_t :=
  mkSock (tstate s) (local_ip s) (remote_ip s) (local_port s) (remote_port s) (sseq s) (sack s) (rbuf s)
         (rbuf_head s) (rbuf_tail s) x.

(** ** The Internet checksum

    [sum] of the little-endian words, then the carries are folded back in. *)
Fixpoint sum_words (data : list Z) (len : nat) (sum : Z) : res Z :=
  match len with
  | O => Ok sum
  | S O => match data with b :: _ => Ok (u32 (sum + b)) | [] => Fault end
  | S (S n) =>
      match data with
      | a :: b :: data' => sum_words data' n (u32 (sum + (a + 256 * b)))
      | _ => Fault
      end
  end.
Fixpoint fold_sum (fuel : nat) (sum : Z) : res Z :=
  if Z.shiftr sum 16 =? 0 then Ok sum
  else match fuel with
       | O => Timeout
       | S fuel' => fold_sum fuel' (u32 (Z.land sum 0xFFFF + Z.shiftr sum 16))
       end.
(** Three turns are enough for any 32-bit sum. *)
Definition ip_checksum (data : list Z) (len : nat) : res Z :=
  sum ← sum_words data len 0;
  s ← fold_sum 3 sum;
  Ok (u16 (Z.lnot s)).

Section net.
Context {D H : Type} `{Nic D} `{Allocator H}.

Record net := mkNet {
  card : D;
  clock : timer H;
  rtl_iobase : Z;
  tx_buf : list (list Z);
  tx_idx : Z;
  rtl_ready_flag : bool;
  my_mac : list Z;
  my_ip : Z;
  gw_ip : Z;
  net_mask : Z;
  arp_cache_ip : list (list Z);
  arp_cache_mac : list (list Z);
  arp_count : Z;
  rx_ring : list (list Z * Z);
  rx_head : Z;
  rx_tail : Z;
  tcp_sockets : list tcp_socket_t;
  tcp_next_port : Z
}.

Definition set_card (d : D) (s : net) : net :=
  mkNet d (clock s) (rtl_iobase s) (tx_buf s) (tx_idx s) (rtl_ready_flag s) (my_mac s) (my_ip s) (gw_ip s)
        (net_mask s) (arp_cache_ip s) (arp_cache_mac s) (arp_count s) (rx_ring s) (rx_head s) (rx_tail s)
        (tcp_sockets s) (tcp_next_port s).
Definition set_clock (t : timer H) (s : net) : net :=
  mkNet (card s) t (rtl_iobase s) (tx_buf s) (tx_idx s) (rtl_ready_flag s) (my_mac s) (my_ip s) (gw_ip s)
        (net_mask s) (arp_cache_ip s) (arp_cache_mac s) (arp_count s) (rx_ring s) (rx_head s) (rx_tail s)
        (tcp_sockets s) (tcp_next_port s).
Definition set_iobase (b : Z) (s : net) : net :=
  mkNet (card s) (clock s) b (tx_buf s) (tx_idx s) (rtl_ready_flag s) (my_mac s) (my_ip s) (gw_ip s)
        (net_mask s) (arp_cache_ip s) (arp_cache_mac s) (arp_count s) (rx_ring s) (rx_head s) (rx_tail s)
        (tcp_sockets s) (tcp_next_port s).
Definition set_tx (b : list (list Z)) (i : Z) (s : net) : net :=
  mkNet (card s) (clock s) (rtl_iobase s) b i (rtl_ready_flag s) (my_mac s) (my_ip s) (gw_ip s)
        (net_mask s) (arp_cache_ip s) (arp_cache_mac s) (arp_count s) (rx_ring s) (rx_head s) (rx_tail s)
        (tcp_sockets s) (tcp_next_port s).
Definition set_ready (r : bool) (s : net) : net :=
  mkNet (card s) (clock s) (rtl_iobase s) (tx_buf s) (tx_idx s) r (my_mac s) (my_ip s) (gw_ip s)
        (net_mask s) (arp_cache_ip s) (arp_cache_mac s) (arp_count s) (rx_ring s) (rx_head s) (rx_tail s)
        (tcp_sockets s) (tcp_next_port s).
Definition set_mac (m : list Z) (s : net) : net :=
  mkNet (card s) (clock s) (rtl_iobase s) (tx_buf s) (tx_idx s) (rtl_ready_flag s) m (my_ip s) (gw_ip s)
        (net_mask s) (arp_cache_ip s) (arp_cache_mac s) (arp_count s) (rx_ring s) (rx_head s) (rx_tail s)
        (tcp_sockets s) (tcp_next_port s).
Definition set_arp (i m : list (list Z)) (n : Z) (s : net) : net :=
  mkNet (card s) (clock s) (rtl_iobase s) (tx_buf s) (tx_idx s) (rtl_ready_flag s) (my_mac s) (my_ip s) (gw_ip s)
        (net_mask s) i m n (rx_ring s) (rx_head s) (rx_tail s) (tcp_sockets s) (tcp_next_port s).
Definition set_rx (r : list (list Z * Z)) (h t : Z) (s : net) : net :=
  mkNet (card s) (clock s) (rtl_iobase s) (tx_buf s) (tx_idx s) (rtl_ready_flag s) (my_mac s) (my_ip s) (gw_ip s)
        (net_mask s) (arp_cache_ip s) (arp_cache_mac s) (arp_count s) r h t (tcp_sockets s) (tcp_next_port s).
Definition set_tcp (l : list tcp_socket_t) (p : Z) (s : net) : net :=
  mkNet (card s) (clock s) (rtl_iobase s) (tx_buf s) (tx_idx s) (rtl_ready_flag s) (my_mac s) (my_ip s) (gw_ip s)
        (net_mask s) (arp_cache_ip s) (arp_cache_mac s) (arp_count s) (rx_ring s) (rx_head s) (rx_tail s) l p.

(** The static variables at start-up: 10.0.2.15, gateway 10.0.2.2, mask /24. *)
Definition net_start (d : D) (t : timer H) : net :=
  mkNet d t 0 (replicate 4 (replicate 1536 0)) 0 false (replicate 6 0)
    (NET_IP 10 0 2 15) (NET_IP 10 0 2 2) (NET_IP 255 255 255 0)
    (replicate 8 (replicate 4 0)) (replicate 8 (replicate 6 0)) 0
    (replicate 4 (replicate 1600 0, 0)) 0 0 (replicate 8 sock_zero) 49152.

(** ** Port access *)
Definition port_in (w p : Z) : M net Z := λ s,
  let (v, d) := nic_in w p (card s) in Ok (v, set_card d s).
Definition port_out (w p v : Z) : M net unit := λ s,
  Ok (tt, set_card (nic_out w p v (tx_buf s) (card s)) s).
Definition inb (p : Z) := port_in 1 p.
Definition inw (p : Z) := port_in 2 p.
Definition inl (p : Z) := port_in 4 p.
Definition outb (p v : Z) := port_out 1 p (u8 v).
Definition outw (p v : Z) := port_out 2 p (u16 v).
Definition outl (p v : Z) := port_out 4 p (u32 v).
(** Register [r] of the card. *)
Definition reg (r : Z) : M net Z := gets (λ s, u16 (rtl_iobase s + r)).

Definition pci_addr (bus dev fn r : Z) : Z :=
  Z.lor (Z.lor (Z.lor (Z.lor 0x80000000 (Z.shiftl bus 16)) (Z.shiftl dev 11)) (Z.shiftl fn 8)) (Z.land r 0xFC).
Definition pci_read (bus dev fn r : Z) : M net Z :=
  outl PCI_ADDR (pci_addr bus dev fn r) ;; inl PCI_DATA.
Definition pci_write (bus dev fn r v : Z) : M net unit :=
  outl PCI_ADDR (pci_addr bus dev fn r) ;; outl PCI_DATA v.

(** The slots in the order of the two loops. *)
Definition pci_slots : list (Z * Z) :=
  b ← seqZ 0 8; d ← seqZ 0 32; mret (b, d).
Fixpoint find_slot (l : list (Z * Z)) : M net (option (Z * Z)) :=
  match l with
  | [] => mret None
  | (bus, dev) :: l' =>
      id ← pci_read bus dev 0 0;
      if (Z.land id 0xFFFF =? RTL_VENDOR) && (u16 (Z.shiftr id 16) =? RTL_DEVICE)
      then mret (Some (bus, dev)) else find_slot l'
  end.
Definition find_rtl8139 : M net (option (Z * Z)) := find_slot pci_slots.

Section waiting.
(** [irq] is what one timer interrupt does, [rx_addr] and [tx_addr i] the addresses of
    [rx_buf] and [tx_buf[i]]; loops that wait for the card or the timer have [fuel]. *)
Variables (fuel : nat) (irq : timer H → res (timer H)) (rx_addr : Z) (tx_addr : Z → Z).

Definition net_sleep (ms : Z) : M net unit := λ s,
  t ← timer_sleep fuel irq ms (clock s);
  Ok (tt, set_card (nic_wait (card s)) (set_clock t s)).

Fixpoint wait_reset (n : nat) : M net unit :=
  p ← reg RTL_CMD; v ← inb p;
  if Z.land v 0x10 =? 0 then mret tt
  else match n with O => lift Timeout | S n' => wait_reset n' end.

Definition net_init : M net Z :=
  where_ ← find_rtl8139;
  match where_ with
  | None => mret (-1)
  | Some (bus, dev_n) =>
      bar0 ← pci_read bus dev_n 0 0x10;
      if Z.land bar0 1 =? 0 then mret (-1)
      else
        modify (set_iobase (Z.land bar0 0xFFFC)) ;;
        cmd ← pci_read bus dev_n 0 0x04;
        pci_write bus dev_n 0 0x04 (Z.lor cmd 0x07) ;;
        (p ← reg RTL_CONFIG1; outb p 0x00) ;;
        (p ← reg RTL_CMD; outb p 0x10) ;;
        wait_reset fuel ;;
        for_range 0 6 (λ i,
          p ← reg (RTL_MAC0 + i); b ← inb p;
          s ← get; m ← lift (arr_set (my_mac s) i b); modify (set_mac m)) ;;
        (p ← reg RTL_RBSTART; outl p rx_addr) ;;
        (p ← reg RTL_IMR; outw p 0x0005) ;;
        (p ← reg RTL_RCR; outl p 0x0000000F) ;;
        (p ← reg RTL_TCR; outl p 0x03000700) ;;
        (p ← reg RTL_CMD; outb p 0x0C) ;;
        for_range 0 TX_BUFS (λ i, p ← reg (RTL_TSAD0 + i * 4); outl p (tx_addr i)) ;;
        modify (set_ready true) ;; mret 0
  end.

Definition net_ready (s : net) : bool := rtl_ready_flag s.
Definition net_get_mac (mac : list Z) (s : net) : res (list Z) := kmemcpy mac (my_mac s) ETH_ALEN.
Definition net_get_ip (s : net) : Z := my_ip s.

(** [while (tries--) if (inl(...) & 0x8000) break;] *)
Fixpoint wait_sent (tries : nat) : M net unit :=
  match tries with
  | O => mret tt
  | S n =>
      s ← get;
      p ← reg (RTL_TSD0 + (tx_idx s + TX_BUFS - 1) mod TX_BUFS * 4);
      v ← inl p;
      if Z.land v 0x8000 =? 0 then wait_sent n else mret tt
  end.

Definition net_send_raw (frame : list Z) (len : Z) : M net Z :=
  s ← get;
  if negb (rtl_ready_flag s) || (TX_BUF_SIZE <? len) then mret (-1)
  else
    b ← lift (arr_get (tx_buf s) (tx_idx s));
    b' ← lift (kmemcpy b frame (Z.to_nat len));
    bs ← lift (arr_set (tx_buf s) (tx_idx s) b');
    modify (set_tx bs (tx_idx s)) ;;
    (p ← reg (RTL_TSD0 + tx_idx s * 4); outl p len) ;;
    modify (set_tx bs ((tx_idx s + 1) mod TX_BUFS)) ;;
    wait_sent (Z.to_nat 10000) ;;
    mret 0.

(** ** ARP *)

(** The index of the entry of [ip] among the first [n] ones. *)
Fixpoint arp_find (ip : Z) (l : list (list Z)) (n : nat) (i : Z) {struct n} : res (option Z) :=
  match n with
  | O => Ok None
  | S n' =>
      match l with
      | [] => Fault
      | e :: l' =>
          c ← kmemcpy (replicate 4 0) e 4;
          v ← ld32 0 c;
          if v =? ip then Ok (Some i) else arp_find ip l' n' (i + 1)
      end
  end.

Definition arp_set (l : list (list Z)) (i : Z) (src : list Z) (n : nat) : res (list (list Z)) :=
  e ← arr_get l i; e' ← kmemcpy e src n; arr_set l i e'.

Definition arp_learn (ip : Z) (mac : list Z) : M net unit :=
  s ← get;
  r ← lift (arp_find ip (arp_cache_ip s) (Z.to_nat (arp_count s)) 0);
  match r with
  | Some i =>
      ms ← lift (arp_set (arp_cache_mac s) i mac ETH_ALEN);
      modify (set_arp (arp_cache_ip s) ms (arp_count s))
  | None =>
      if arp_count s <? 8 then
        ips ← lift (arp_set (arp_cache_ip s) (arp_count s) (le32 ip) 4);
        ms ← lift (arp_set (arp_cache_mac s) (arp_count s) mac ETH_ALEN);
        modify (set_arp ips ms (arp_count s + 1))
      else mret tt
  end.

Definition arp_lookup (ip : Z) (mac_out : list Z) (s : net) : res (bool * list Z) :=
  r ← arp_find ip (arp_cache_ip s) (Z.to_nat (arp_count s)) 0;
  match r with
  | Some i => m ← arr_get (arp_cache_mac s) i; o ← kmemcpy mac_out m ETH_ALEN; Ok (true, o)
  | None => Ok (false, mac_out)
  end.

Definition arp_request_frame (target_ip : Z) (s : net) : res (list Z) :=
  f ← kmemset (replicate 42 0) 0 42;
  f ← memset_at 0 0xFF ETH_ALEN f;
  f ← memcpy_at 6 (my_mac s) ETH_ALEN f;
  f ← st16 12 (NET_HTONS ETH_P_ARP) f;
  f ← st8 14 0 f; f ← st8 15 1 f; f ← st8 16 8 f; f ← st8 17 0 f;
  f ← st8 18 6 f; f ← st8 19 4 f;
  f ← st16 20 (NET_HTONS 1) f;
  f ← memcpy_at 22 (my_mac s) ETH_ALEN f;
  f ← st32 28 (NET_HTONL (my_ip s)) f;
  f ← memset_at 32 0 ETH_ALEN f;
  st32 38 (NET_HTONL target_ip) f.

Definition send_arp_request (target_ip : Z) : M net unit :=
  s ← get;
  f ← lift (arp_request_frame target_ip s);
  net_send_raw f 42 ;; mret tt.

(** ** UDP *)

Definition nexthop (dst_ip : Z) (s : net) : Z :=
  if Z.land dst_ip (NET_HTONL (net_mask s)) =? Z.land (my_ip s) (NET_HTONL (net_mask s))
  then dst_ip else gw_ip s.

(** The Ethernet address for a next hop: from the cache, or after asking for it, or
    broadcast. *)
Definition resolve_mac (hop : Z) : M net (list Z) :=
  s ← get;
  r ← lift (arp_lookup hop (replicate 6 0) s);
  if (r : bool * list Z).1 then mret r.2
  else
    send_arp_request hop ;;
    net_sleep 50 ;;
    s ← get;
    r ← lift (arp_lookup hop r.2 s);
    if (r : bool * list Z).1 then mret r.2
    else lift (kmemset r.2 0xFF ETH_ALEN).

(** Ethernet header. *)
Definition eth_fill (dst src : list Z) (type : Z) (pkt : list Z) : res (list Z) :=
  f ← memcpy_at 0 dst ETH_ALEN pkt;
  f ← memcpy_at 6 src ETH_ALEN f;
  st16 12 (NET_HTONS type) f.

(** IP header, checksum last. *)
Definition udp_ip_fill (ip_len src dst : Z) (pkt : list Z) : res (list Z) :=
  f ← st8 14 0x45 pkt; f ← st8 15 0 f;
  f ← st16 16 (NET_HTONS ip_len) f;
  f ← st16 18 (NET_HTONS 1) f; f ← st16 20 0 f;
  f ← st8 22 64 f; f ← st8 23 IPPROTO_UDP f;
  f ← st16 24 0 f;
  f ← st32 26 (NET_HTONL src) f;
  f ← st32 30 (NET_HTONL dst) f;
  c ← ip_checksum (drop 14 f) 20;
  st16 24 c f.

Definition udp_fill (sport dport udp_len : Z) (pkt : list Z) : res (list Z) :=
  f ← st16 34 (NET_HTONS sport) pkt;
  f ← st16 36 (NET_HTONS dport) f;
  f ← st16 38 (NET_HTONS udp_len) f;
  st16 40 0 f.

(** [pkt] is the uninitialised local array of 1500 bytes. *)
Definition net_send_udp (pkt : list Z) (dst_ip src_port dst_port : Z) (data : list Z) (data_len : Z) : M net Z :=
  s ← get;
  if negb (rtl_ready_flag s) then mret (-1)
  else
    dst_mac ← resolve_mac (nexthop dst_ip s);
    let ip_len := u16 (20 + 8 + data_len) in
    let udp_len := u16 (8 + data_len) in
    f ← lift (eth_fill dst_mac (my_mac s) ETH_P_IP pkt);
    f ← lift (udp_ip_fill ip_len (my_ip s) dst_ip f);
    f ← lift (udp_fill src_port dst_port udp_len f);
    f ← lift (memcpy_at 42 data (Z.to_nat data_len) f);
    net_send_raw f (u16 (14 + ip_len)).

(** ** TCP *)

(** [s->field] of socket [i]. *)
Definition get_sock (i : Z) : M net tcp_socket_t := s ← get; lift (arr_get (tcp_sockets s) i).
Definition upd_sock (i : Z) (f : tcp_socket_t → tcp_socket_t) : M net unit :=
  s ← get;
  k ← lift (arr_get (tcp_sockets s) i);
  l ← lift (arr_set (tcp_sockets s) i (f k));
  modify (set_tcp l (tcp_next_port s)).

Definition tcp_ip_fill (ip_len src dst : Z) (pkt : list Z) : res (list Z) :=
  f ← st8 14 0x45 pkt;
  f ← st16 16 (NET_HTONS ip_len) f;
  f ← st8 22 64 f; f ← st8 23 IPPROTO_TCP f;
  f ← st32 26 (NET_HTONL src) f;
  f ← st32 30 (NET_HTONL dst) f;
  c ← ip_checksum (drop 14 f) 20;
  st16 24 c f.

Definition tcp_fill (k : tcp_socket_t) (flags : Z) (pkt : list Z) : res (list Z) :=
  f ← st16 34 (NET_HTONS (local_port k)) pkt;
  f ← st16 36 (NET_HTONS (remote_port k)) f;
  f ← st32 38 (NET_HTONL (sseq k)) f;
  f ← st32 42 (if Z.land flags TCP_ACK =? 0 then 0 else NET_HTONL (sack k)) f;
  f ← st8 46 0x50 f;
  f ← st8 47 flags f;
  st16 48 (NET_HTONS 4096) f.

Definition tcp_send_raw (i : Z) (flags : Z) (data : list Z) (dlen : Z) : M net unit :=
  pkt ← lift (kmemset (replicate 1500 0) 0 1500);
  let tcp_len := u16 (20 + dlen) in
  let ip_len := u16 (20 + tcp_len) in
  s ← get;
  k ← get_sock i;
  r ← lift (arp_lookup (remote_ip k) (replicate 6 0) s);
  dst_mac ← lift (if (r : bool * list Z).1 then Ok r.2 else kmemset r.2 0xFF ETH_ALEN);
  f ← lift (eth_fill dst_mac (my_mac s) ETH_P_IP pkt);
  f ← lift (tcp_ip_fill ip_len (local_ip k) (remote_ip k) f);
  f ← lift (tcp_fill k flags f);
  f ← lift (if dlen =? 0 then Ok f else memcpy_at 54 data (Z.to_nat dlen) f);
  net_send_raw f (u16 (14 + ip_len)) ;;
  (if Z.land flags (Z.lor TCP_SYN TCP_FIN) =? 0 then mret tt
   else upd_sock i (λ k, set_seq (u32 (sseq k + 1)) k)) ;;
  upd_sock i (λ k, set_seq (u32 (sseq k + dlen)) k).

(** [for (j...) { rbuf[head] = data[j]; head = (head+1) % TCP_BUF_SIZE; }] *)
Fixpoint rbuf_append (n : nat) (data : list Z) (i : Z) : M net unit :=
  match n with
  | O => mret tt
  | S n' =>
      match data with
      | [] => lift Fault
      | c :: data' =>
          k ← get_sock i;
          b ← lift (arr_set (rbuf k) (rbuf_head k) c);
          upd_sock i (set_rbuf b ((rbuf_head k + 1) mod TCP_BUF_SIZE) (rbuf_tail k)) ;;
          rbuf_append n' data' i
      end
  end.

(** The segment of a connection in [TCP_ESTABLISHED]. [frame] is the rest of the
    receive buffer from the start of the frame. *)
Definition tcp_segment (i : Z) (frame : list Z) (len seq flags doff4 : Z) : M net unit :=
  let doff := u8 (Z.shiftr doff4 4 * 4) in
  let data_len := u16 (len - 14 - 20 - doff) in
  (if 0 <? data_len then
     data ← lift (from (14 + 20 + doff) frame);
     upd_sock i (set_ack (u32 (seq + data_len))) ;;
     rbuf_append (Z.to_nat data_len) data i ;;
     tcp_send_raw i TCP_ACK [] 0
   else mret tt) ;;
  if Z.land flags TCP_FIN =? 0 then mret tt
  else
    upd_sock i (λ k, set_ack (u32 (sack k + 1)) k) ;;
    tcp_send_raw i TCP_ACK [] 0 ;;
    upd_sock i (set_tstate TCP_CLOSE_WAIT) ;;
    tcp_send_raw i (Z.lor TCP_FIN TCP_ACK) [] 0 ;;
    upd_sock i (set_tstate TCP_LAST_ACK).

Definition sock_matches (src_ip src_port dst_port : Z) (k : tcp_socket_t) : bool :=
  negb (sused k =? 0) && (remote_ip k =? src_ip) && (remote_port k =? src_port) && (local_port k =? dst_port).

Definition tcp_process (frame : list Z) (len : Z) : M net unit :=
  if len <? 14 + 20 + 20 then mret tt
  else
    a ← lift (ld32 26 frame); b ← lift (ld16 34 frame); c ← lift (ld16 36 frame);
    q ← lift (ld32 38 frame); k ← lift (ld32 42 frame);
    let seq := NET_HTONL q in
    s ← get;
    match find_idx (sock_matches (NET_HTONL a) (NET_HTONS b) (NET_HTONS c)) (tcp_sockets s) with
    | None => mret tt
    | Some n =>
        let i := Z.of_nat n in
        so ← get_sock i;
        match tstate so with
        | TCP_SYN_SENT =>
            flags ← lift (ld8 47 frame);
            if Z.land flags (Z.lor TCP_SYN TCP_ACK) =? Z.lor TCP_SYN TCP_ACK then
              upd_sock i (set_ack (u32 (seq + 1))) ;;
              upd_sock i (set_seq (NET_HTONL k)) ;;
              upd_sock i (set_tstate TCP_ESTABLISHED) ;;
              tcp_send_raw i TCP_ACK [] 0
            else mret tt
        | TCP_ESTABLISHED =>
            doff4 ← lift (ld8 46 frame); flags ← lift (ld8 47 frame);
            tcp_segment i frame len seq flags doff4
        | _ => mret tt
        end
    end.

(** ** Reception *)

(** A received frame: [payload] is the receive buffer from the frame on. *)
Definition net_frame (payload : list Z) (pkt_len : Z) : M net unit :=
  t ← lift (ld16 12 payload);
  let etype := NET_HTONS t in
  if (etype =? ETH_P_ARP) && (14 + 28 <=? pkt_len) then
    a ← lift (ld32 28 payload);
    mac ← lift (from 22 payload);
    arp_learn (NET_HTONL a) mac
  else if (etype =? ETH_P_IP) && (14 + 20 <=? pkt_len) then
    proto ← lift (ld8 23 payload);
    if (proto =? IPPROTO_UDP) && (14 + 20 + 8 <=? pkt_len) then
      s ← get;
      if (rx_head s + 1) mod RX_RING_SIZE =? rx_tail s then mret tt
      else
        e ← lift (arr_get (rx_ring s) (rx_head s));
        b ← lift (kmemcpy (e : list Z * Z).1 payload (Z.to_nat pkt_len));
        r ← lift (arr_set (rx_ring s) (rx_head s) (b, pkt_len));
        modify (set_rx r ((rx_head s + 1) mod RX_RING_SIZE) (rx_tail s))
    else if (proto =? IPPROTO_TCP) && (14 + 20 + 20 <=? pkt_len) then tcp_process payload pkt_len
    else mret tt
  else mret tt.

(** At most one frame per call: the loop ends with [break]. *)
Definition net_poll : M net unit :=
  s ← get;
  if negb (rtl_ready_flag s) then mret tt
  else
    p ← reg RTL_ISR; isr ← inw p;
    if Z.land isr 0x01 =? 0 then mret tt
    else
      outw p isr ;;
      p ← reg RTL_CMD; cmd ← inb p;
      if negb (Z.land cmd 0x01 =? 0) then mret tt
      else
        p ← reg RTL_CAPR; capr ← inw p;
        let off := u16 (capr + 16) in
        s ← get;
        hd ← lift (from (off mod (8192 + 16)) (nic_rx (card s)));
        pkt_len ← lift (ld16 2 hd);
        if (pkt_len =? 0) || (1514 <? pkt_len) then mret tt
        else
          payload ← lift (from 4 hd);
          net_frame payload pkt_len ;;
          let rx_ptr := u16 (Z.land (off + pkt_len + 4 + 3) (Z.lnot 3)) in
          p ← reg RTL_CAPR; outw p (u16 (rx_ptr - 16)).

(** The result, [buf], and [*src_ip], [*src_port] (which keep their values when
    nothing is received). *)
Definition net_recv_udp (port : Z) (buf : list Z) (bufsz src_ip src_port : Z) : M net (Z * list Z * Z * Z) :=
  net_poll ;;
  s ← get;
  if rx_head s =? rx_tail s then mret (0, buf, src_ip, src_port)
  else
    e ← lift (arr_get (rx_ring s) (rx_tail s));
    let (f, len) := (e : list Z * Z) in
    modify (set_rx (rx_ring s) (rx_head s) ((rx_tail s + 1) mod RX_RING_SIZE)) ;;
    if len <? 14 + 20 + 8 then mret (0, buf, src_ip, src_port)
    else
      dp ← lift (ld16 36 f);
      if negb (NET_HTONS dp =? port) then mret (0, buf, src_ip, src_port)
      else
        ul ← lift (ld16 38 f);
        let data_len := Z.min (u16 (NET_HTONS ul - 8)) bufsz in
        b ← lift (kmemcpy buf (drop 42 f) (Z.to_nat data_len));
        a ← lift (ld32 26 f);
        sp ← lift (ld16 34 f);
        mret (data_len, b, NET_HTONL a, NET_HTONS sp).

(** ** Sockets *)

Definition tcp_bad (i : Z) (s : net) : res bool :=
  if (i <? 0) || (TCP_MAX_SOCKETS <=? i) then Ok true
  else k ← arr_get (tcp_sockets s) i; Ok (sused k =? 0).

Fixpoint connect_wait (tries : nat) (i : Z) : M net Z :=
  match tries with
  | O => upd_sock i (set_sused 0) ;; mret (-1)
  | S n =>
      net_poll ;;
      k ← get_sock i;
      if in_state (tstate k) TCP_ESTABLISHED then mret i
      else net_sleep 10 ;; connect_wait n i
  end.

Definition tcp_connect (dst_ip dst_port : Z) : M net Z :=
  s ← get;
  match find_idx (λ k, sused k =? 0) (tcp_sockets s) with
  | None => mret (-1)
  | Some n =>
      let i := Z.of_nat n in
      let k := mkSock TCP_SYN_SENT (my_ip s) dst_ip (tcp_next_port s) dst_port 0x1000 0
                      (replicate 4096 0) 0 0 1 in
      l ← lift (arr_set (tcp_sockets s) i k);
      modify (set_tcp l (u16 (tcp_next_port s + 1))) ;;
      send_arp_request dst_ip ;;
      net_sleep 20 ;;
      tcp_send_raw i TCP_SYN [] 0 ;;
      connect_wait 100 i
  end.

Definition tcp_send (i : Z) (data : list Z) (len : Z) : M net Z :=
  s ← get;
  bad ← lift (tcp_bad i s);
  if (bad : bool) then mret (-1)
  else
    k ← get_sock i;
    if negb (in_state (tstate k) TCP_ESTABLISHED) then mret (-1)
    else tcp_send_raw i TCP_ACK data len ;; mret len.

Fixpoint recv_loop (n : nat) (j : Z) (buf : list Z) (i : Z) : M net (list Z) :=
  match n with
  | O => mret buf
  | S n' =>
      k ← get_sock i;
      c ← lift (arr_get (rbuf k) (rbuf_tail k));
      b ← lift (arr_set buf j c);
      upd_sock i (set_rbuf (rbuf k) (rbuf_head k) ((rbuf_tail k + 1) mod TCP_BUF_SIZE)) ;;
      recv_loop n' (j + 1) b i
  end.

Definition tcp_recv (i : Z) (buf : list Z) (len : Z) : M net (Z * list Z) :=
  s ← get;
  bad ← lift (tcp_bad i s);
  if (bad : bool) then mret (-1, buf)
  else
    k ← get_sock i;
    let avail := u32 (u32 (rbuf_head k - rbuf_tail k) + TCP_BUF_SIZE) mod TCP_BUF_SIZE in
    if avail =? 0 then mret (0, buf)
    else
      let len := if avail <? len then u16 avail else len in
      b ← recv_loop (Z.to_nat len) 0 buf i;
      mret (len, b).

Definition tcp_close (i : Z) : M net unit :=
  s ← get;
  bad ← lift (tcp_bad i s);
  if (bad : bool) then mret tt
  else
    tcp_send_raw i (Z.lor TCP_FIN TCP_ACK) [] 0 ;;
    upd_sock i (set_tstate TCP_FIN_WAIT1) ;;
    net_sleep 100 ;;
    upd_sock i (set_sused 0).

(** ** Information *)
Definition hex_byte (b : Z) : res (list con) :=
  let h := lit "0123456789ABCDEF" in
  a ← arr_get h (Z.shiftr b 4); c ← arr_get h (Z.land b 0xF); Ok [CPutc a; CPutc c].
Fixpoint print_mac (i : Z) (mac : list Z) : res (list con) :=
  match mac with
  | [] => Ok []
  | b :: mac' =>
      x ← hex_byte b; r ← print_mac (i + 1) mac';
      Ok (x ++ (if i <? 5 then [CPutc 58] else []) ++ r)
  end.
Definition net_print_info (s : net) : res (list con) :=
  let head := [CColor VGA_YELLOW VGA_BLACK; CPuts (lit "
  === Network ===

"); CColor VGA_WHITE VGA_BLACK] in
  if negb (rtl_ready_flag s) then Ok (head ++ [CPuts (lit "  No NIC found.

")])
  else
    m ← print_mac 0 (my_mac s);
    Ok (head ++ [CPuts (lit "  NIC:  RTL8139
  MAC:  ")] ++ m ++
        [CPutc 10; CPuts (lit "  IP:   10.0.2.15
"); CPuts (lit "  GW:   10.0.2.2
"); CPuts (lit "  QEMU: -nic user

")]).

End waiting.
End net.
Arguments net D H : clear implicits.
