(* ===== verification/NetProps.v ===== *)
(** * Properties of the network stack

    The Internet checksum against its reference; the frames the senders build; a
    datagram and a stream segment from one machine to another over cards that behave
    as the data sheet says (class [Wire]); what a malformed header does. *)

From S2P Require Import Prelude KString Bytes Ring KMalloc Vga Sched Process Signal Net.

(** ** The checksum *)

(** The reference: the words of the data (an odd byte is the low half of the last
    one) added as integers, reduced to a 16-bit ones'-complement number. *)
Fixpoint words_sum (data : list Z) : Z :=
  match data with
  | [] => 0
  | [b] => b
  | a :: b :: data' => (a + 256 * b) + words_sum data'
  end.
Definition ones_sum (s : Z) : Z := if s =? 0 then 0 else (s - 1) mod 65535 + 1.

(** Induction two bytes at a time. *)
Lemma list_ind2 {A} (P : list A → Prop) :
  P [] → (∀ a, P [a]) → (∀ a b l, P l → P (a :: b :: l)) → ∀ l, P l.
Proof.
  intros H0 H1 H2 l. enough (P l ∧ ∀ a, P (a :: l)) as [? _] by done.
  induction l as [|x l [IH1 IH2]]; [by split|]. split; [done|]. intros a. by apply H2.
Qed.

Lemma words_sum_bounds d : bytes d → 0 ≤ 2 * words_sum d ≤ 65535 * (Z.of_nat (length d) + 1).
Proof.
  induction d as [|a|a b d IH] using list_ind2; cbn [words_sum length]; [lia| |].
  - intros [Ha _]%Forall_cons. unfold is_byte in Ha. lia.
  - intros [Ha [Hb Hd]%Forall_cons]%Forall_cons. specialize (IH Hd). unfold is_byte in *. lia.
Qed.

Lemma words_sum_app d e : Nat.Even (length d) → words_sum (d ++ e) = words_sum d + words_sum e.
Proof.
  induction d as [|a|a b d IH] using list_ind2; cbn [words_sum length app]; intros Hev; [done| |].
  - by destruct Hev as [k Hk]; lia.
  - rewrite IH; [lia|]. destruct Hev as [k Hk]. exists (pred k). lia.
Qed.

Lemma sum_words_ok d rest acc :
  bytes d → 0 ≤ acc → acc + words_sum d < 4294967296 →
  sum_words (d ++ rest) (length d) acc = Ok (acc + words_sum d).
Proof.
  revert acc. induction d as [|a|a b d IH] using list_ind2; cbn [words_sum length app sum_words]; intros acc Hb Ha Hs.
  - rewrite Z.add_0_r. by destruct rest.
  - f_equal. apply Forall_cons in Hb as [Hb _]. unfold is_byte in Hb. rewrite u32_small by lia. done.
  - apply Forall_cons in Hb as [Hba [Hbb Hb]%Forall_cons].
    pose proof (words_sum_bounds d Hb). unfold is_byte in *. rewrite u32_small by lia.
    rewrite IH by (done || lia). f_equal. lia.
Qed.

(** One folding keeps the ones'-complement value. *)
Lemma ones_fold s : 0 ≤ s → ones_sum (s mod 65536 + s / 65536) = ones_sum s.
Proof.
  intros Hs. unfold ones_sum. pose proof (Z.div_mod s 65536). pose proof (Z.mod_pos_bound s 65536).
  assert (0 ≤ s / 65536) by (apply Z.div_pos; lia).
  destruct (Z.eqb_spec s 0) as [->|Hne]; [done|]. rewrite (proj2 (Z.eqb_neq _ 0)) by lia.
  f_equal. replace (s - 1) with (s mod 65536 + s / 65536 - 1 + s / 65536 * 65535) by lia.
  by rewrite Z_mod_plus_full.
Qed.

Lemma ones_small s : 0 ≤ s < 65536 → ones_sum s = s.
Proof. intros. unfold ones_sum. case_z; [done|]. rewrite Z.mod_small by lia. lia. Qed.

Lemma ones_range s : 0 ≤ s → 0 ≤ ones_sum s < 65536.
Proof. intros. unfold ones_sum. case_z; [lia|]. pose proof (Z.mod_pos_bound (s - 1) 65535). lia. Qed.

Lemma fold_sum_step n s :
  0 ≤ s < 4294967296 → 65536 ≤ s → fold_sum (S n) s = fold_sum n (s mod 65536 + s / 65536).
Proof.
  intros Hs Hb. cbn [fold_sum]. rewrite !Z.shiftr_div_pow2 by lia.
  change 0xFFFF with (2 ^ 16 - 1). rewrite land_low by lia. change (2 ^ 16) with 65536.
  pose proof (Z.div_mod s 65536). pose proof (Z.mod_pos_bound s 65536).
  rewrite (proj2 (Z.eqb_neq (s / 65536) 0)) by lia. rewrite u32_small by lia. done.
Qed.
Lemma fold_sum_done n s : 0 ≤ s < 65536 → fold_sum n s = Ok s.
Proof. intros. destruct n; cbn [fold_sum]; rewrite Z.shiftr_div_pow2, Z.div_small by lia; done. Qed.

Lemma fold_sum_ones s : 0 ≤ s < 4294967296 → fold_sum 3 s = Ok (ones_sum s).
Proof.
  intros Hs. destruct (Z.lt_ge_cases s 65536); [rewrite fold_sum_done, ones_small by lia; done|].
  rewrite fold_sum_step by lia. rewrite <- ones_fold by lia.
  pose proof (Z.div_mod s 65536). pose proof (Z.mod_pos_bound s 65536). set (t := s mod 65536 + s / 65536) in *.
  destruct (Z.lt_ge_cases t 65536); [rewrite fold_sum_done, ones_small by lia; done|].
  rewrite fold_sum_step by lia. rewrite <- ones_fold by lia.
  pose proof (Z.div_mod t 65536). pose proof (Z.mod_pos_bound t 65536).
  rewrite fold_sum_done, ones_small by lia. done.
Qed.

Lemma ip_checksum_ok d rest :
  bytes d → Z.of_nat (length d) ≤ 131070 →
  ip_checksum (d ++ rest) (length d) = Ok (65535 - ones_sum (words_sum d)).
Proof.
  intros Hb Hl. unfold ip_checksum. pose proof (words_sum_bounds d Hb).
  rewrite sum_words_ok by (done || lia). cbn [mbind res_bind]. rewrite fold_sum_ones by lia. cbn [mbind res_bind].
  rewrite Z.add_0_l. pose proof (ones_range (words_sum d) ltac:(lia)). f_equal. unfold u16, Z.lnot.
  symmetry. apply (Z.mod_unique _ _ (-1)); lia.
Qed.

(** C20: the checksum is the Internet checksum. On any data of up to 131070 bytes
    [ip_checksum] neither overflows its 32-bit sum nor loops: it returns the
    complement of the ones'-complement sum of the data's 16-bit words, reading nothing
    beyond the given length. *)
Theorem ip_checksum_reference d rest :
  bytes d → Z.of_nat (length d) ≤ 131070 →
  ip_checksum (d ++ rest) (length d) = Ok (65535 - ones_sum (words_sum d)).
Proof. apply ip_checksum_ok. Qed.

(** Data whose checksum field holds the checksum sums to zero, which is how a receiver
    verifies it. *)
Lemma checksum_verifies pre post :
  bytes pre → bytes post → Nat.Even (length pre) →
  ones_sum (words_sum (pre ++ le16 (65535 - ones_sum (words_sum (pre ++ [0; 0] ++ post))) ++ post)) = 65535.
Proof.
  intros Hpre Hpost Hev. rewrite (words_sum_app pre ([0; 0] ++ post)) by done. rewrite words_sum_app by done.
  cbn [app words_sum le16].
  pose proof (words_sum_bounds pre Hpre). pose proof (words_sum_bounds post Hpost).
  set (s := words_sum pre + (0 + 256 * 0 + words_sum post)). pose proof (ones_range s ltac:(lia)).
  rewrite le16_ld by lia. replace (words_sum pre + _) with (s + (65535 - ones_sum s)) by lia.
  assert (0 ≤ s) by lia. clearbody s. unfold ones_sum in *. destruct (Z.eqb_spec s 0) as [Hz|]; [by rewrite Hz|].
  rewrite (proj2 (Z.eqb_neq _ 0)) by lia.
  pose proof (Z.div_mod (s - 1) 65535). pose proof (Z.mod_pos_bound (s - 1) 65535).
  replace (s + (65535 - ((s - 1) mod 65535 + 1)) - 1) with (65534 + (s - 1) / 65535 * 65535) by lia.
  by rewrite Z_mod_plus_full.
Qed.

(** ** Frames *)

(** The IP header of a datagram with checksum field [c], and the whole UDP frame. *)
Definition ip_header (proto tot ident c src dst : Z) : list Z :=
  [0x45; 0] ++ be16 tot ++ be16 ident ++ [0; 0; 64; proto] ++ le16 c ++ be32 src ++ be32 dst.
Definition header_checksum (proto tot ident src dst : Z) : Z :=
  65535 - ones_sum (words_sum (ip_header proto tot ident 0 src dst)).
Definition eth_header (dst src : list Z) (type : Z) : list Z := dst ++ src ++ be16 type.
Definition udp_header (sport dport len : Z) : list Z := be16 sport ++ be16 dport ++ be16 len ++ [0; 0].
Definition udp_frame (dmac smac : list Z) (src dst sport dport : Z) (data : list Z) : list Z :=
  let n := Z.of_nat (length data) in
  eth_header dmac smac ETH_P_IP ++
  ip_header IPPROTO_UDP (28 + n) 1 (header_checksum IPPROTO_UDP (28 + n) 1 src dst) src dst ++
  udp_header sport dport (8 + n) ++ data.


Lemma eth_fill_ok dmac smac type old rest :
  length dmac = 6%nat → length smac = 6%nat → length old = 14%nat → is_u16 type →
  eth_fill dmac smac type (old ++ rest) = Ok (eth_header dmac smac type ++ rest).
Proof.
  intros Hd Hs Ho Ht. unfold eth_fill, eth_header, st16. rewrite le16_htons by done.
  explode dmac. explode smac. explode old. reflexivity.
Qed.

Lemma bytes_be16 v : bytes (be16 v).
Proof. repeat constructor; apply mod_byte. Qed.
Lemma bytes_le16 v : bytes (le16 v).
Proof. repeat constructor; apply mod_byte. Qed.
Lemma bytes_be32 v : bytes (be32 v).
Proof. repeat constructor; apply mod_byte. Qed.

Lemma ip_header_bytes proto tot ident c src dst : is_byte proto → bytes (ip_header proto tot ident c src dst).
Proof.
  intros. unfold ip_header, be16, le16, be32. cbn [app].
  repeat (apply Forall_cons; split); try apply Forall_nil; try apply mod_byte; unfold is_byte in *; lia.
Qed.

Lemma header_checksum_ok proto tot ident src dst rest :
  is_byte proto →
  ip_checksum (ip_header proto tot ident 0 src dst ++ rest) 20 = Ok (header_checksum proto tot ident src dst).
Proof.
  intros Hp. change 20%nat with (length (ip_header proto tot ident 0 src dst)).
  apply ip_checksum_ok; [by apply ip_header_bytes|]. cbn. lia.
Qed.

Lemma header_verifies proto tot ident src dst :
  is_byte proto →
  ones_sum (words_sum (ip_header proto tot ident (header_checksum proto tot ident src dst) src dst)) = 65535.
Proof.
  intros Hp. refine (checksum_verifies ([0x45; 0] ++ be16 tot ++ be16 ident ++ [0; 0; 64; proto])
    (be32 src ++ be32 dst) _ _ _).
  - unfold be16. cbn [app]. repeat (apply Forall_cons; split); try apply Forall_nil; try apply mod_byte; unfold is_byte in *; lia.
  - apply Forall_app; split; apply bytes_be32.
  - by exists 5%nat.
Qed.

Lemma udp_ip_fill_ok ip_len src dst eth old rest :
  length eth = 14%nat → length old = 20%nat → is_u16 ip_len → is_u32 src → is_u32 dst →
  udp_ip_fill ip_len src dst (eth ++ old ++ rest) =
  Ok (eth ++ ip_header IPPROTO_UDP ip_len 1 (header_checksum IPPROTO_UDP ip_len 1 src dst) src dst ++ rest).
Proof.
  intros He Ho Hl Hs Hd.
  pose proof (header_checksum_ok IPPROTO_UDP ip_len 1 src dst rest ltac:(unfold is_byte, IPPROTO_UDP; lia)) as Hc.
  unfold udp_ip_fill, st16, st8, st32. rewrite !le32_htonl, !le16_htons by (done || unfold is_u16; lia).
  explode eth. explode old. cbn [put_at overwrite app mbind res_bind be16 be32 le16].
  change (drop 14 _) with (ip_header IPPROTO_UDP ip_len 1 0 src dst ++ rest). rewrite Hc. reflexivity.
Qed.

Lemma udp_fill_ok sport dport len pre old rest :
  length pre = 34%nat → length old = 8%nat → is_u16 sport → is_u16 dport → is_u16 len →
  udp_fill sport dport len (pre ++ old ++ rest) = Ok (pre ++ udp_header sport dport len ++ rest).
Proof.
  intros Hp Ho Hs Hd Hl. unfold udp_fill, udp_header, st16. rewrite !le16_htons by done.
  explode pre. explode old. reflexivity.
Qed.

(** ** The card as a wire

    What the driver relies on of the RTL8139, as its data sheet gives it for the values
    the driver writes to the configuration registers (8 KB of receive buffer, WRAP clear).
    The receive side of the card is the receive bit of the interrupt status, the frames in
    the receive buffer that have not been taken, and the offset of the oldest of them. *)
Record rx_side := mkRx { rx_ok : bool; rx_frames : list (list Z); rx_pos : Z }.

(** Where the frame behind [f] starts: a header of four bytes, and frames are aligned. *)
Definition rx_next (pos : Z) (f : list Z) : Z := u16 (Z.land (pos + Z.of_nat (length f) + 4 + 3) (Z.lnot 3)).
(** [f] at [pos] lies before the end of the ring of 8192 bytes, where the card would go on
    at its beginning. *)
Definition rx_fits (pos : Z) (f : list Z) : Prop := 0 ≤ pos ∧ pos + 4 + Z.of_nat (length f) ≤ 8192.

(** Writing a length to a transmit status register sends that much of the transmit buffer.
    The interrupt status has bit 0 set once a frame has arrived, and a bit written to it is
    cleared, whether or not frames are left; bit 0 of the command register is set when none
    is. The read pointer register is 16 behind the offset. A frame follows its 16-bit status
    and its 16-bit length in the buffer, and moving the read pointer behind it takes it out.
    Reading a register changes nothing. *)
Class Wire (D : Type) `{Nic D} (base : Z) := {
  sent : D → list (list Z);
  rx : D → rx_side;
  in_sent w p d : sent (nic_in w p d).2 = sent d;
  in_rx w p d : rx (nic_in w p d).2 = rx d;
  out_send i len tx b d : 0 ≤ i < 4 → tx !! Z.to_nat i = Some b →
    sent (nic_out 4 (base + RTL_TSD0 + i * 4) len tx d) = sent d ++ [take (Z.to_nat len) b];
  isr_rx d : Z.testbit (nic_in 2 (base + RTL_ISR) d).1 0 = rx_ok (rx d);
  ack_rx v tx d : rx (nic_out 2 (base + RTL_ISR) v tx d) =
    mkRx (rx_ok (rx d) && negb (Z.testbit v 0)) (rx_frames (rx d)) (rx_pos (rx d));
  cmd_rx d : Z.testbit (nic_in 1 (base + RTL_CMD) d).1 0 = bool_decide (rx_frames (rx d) = []);
  capr_rx d : (nic_in 2 (base + RTL_CAPR) d).1 = u16 (rx_pos (rx d) - 16);
  mem_rx d f l : rx_frames (rx d) = f :: l → rx_fits (rx_pos (rx d)) f → Z.of_nat (length f) ≤ 1518 →
    ∃ pre st rest, nic_rx d = pre ++ st ++ le16 (Z.of_nat (length f)) ++ f ++ rest ∧
      Z.of_nat (length pre) = rx_pos (rx d) ∧ length st = 2%nat;
  take_rx tx d f l : rx_frames (rx d) = f :: l → rx_fits (rx_pos (rx d)) f →
    rx (nic_out 2 (base + RTL_CAPR) (u16 (rx_next (rx_pos (rx d)) f - 16)) tx d) =
    mkRx (rx_ok (rx d)) l (rx_next (rx_pos (rx d)) f)
}.

Section traffic.
Context {D H : Type} `{Nic D} `{Allocator H} (base : Z) `{!Wire D base}.
Implicit Types (s : net D H).

(** The sizes of the static arrays and the ranges of their indices. *)
Record net_wf s : Prop := {
  nw_base : rtl_iobase s = base;
  nw_regs : 0 ≤ base ≤ 65280;
  nw_tx : length (tx_buf s) = 4%nat;
  nw_txs : Forall (λ b, length b = Z.to_nat 1536) (tx_buf s);
  nw_txi : 0 ≤ tx_idx s < 4;
  nw_mac : length (my_mac s) = 6%nat;
  nw_rx : length (rx_ring s) = 4%nat;
  nw_rxs : Forall (λ e, length (e : list Z * Z).1 = Z.to_nat 1600) (rx_ring s);
  nw_head : 0 ≤ rx_head s < 4;
  nw_tail : 0 ≤ rx_tail s < 4;
  nw_arp_ip : length (arp_cache_ip s) = 8%nat;
  nw_arp_ips : Forall (λ e, length e = 4%nat) (arp_cache_ip s);
  nw_arp_mac : length (arp_cache_mac s) = 8%nat;
  nw_arp_macs : Forall (λ e, length e = 6%nat) (arp_cache_mac s);
  nw_arp_n : 0 ≤ arp_count s ≤ 8
}.

Lemma wp_reg r Q s : net_wf s → 0 ≤ r < 256 → Q (base + r) s → wp (reg r) Q s.
Proof.
  intros Hw Hr HQ. unfold wp, reg, gets. rewrite (nw_base s Hw). pose proof (nw_regs s Hw).
  by rewrite u16_small by lia.
Qed.

Lemma wp_port_in w p (Q : Z → net D H → Prop) s :
  (∀ v d, nic_in w p (card s) = (v, d) → Q v (set_card d s)) → wp (port_in w p) Q s.
Proof. intros HQ. unfold wp, port_in. destruct (nic_in w p (card s)) as [v d] eqn:E. by apply HQ. Qed.

Lemma wp_port_out w p v (Q : unit → net D H → Prop) s :
  Q tt (set_card (nic_out w p v (tx_buf s) (card s)) s) → wp (port_out w p v) Q s.
Proof. done. Qed.

Lemma set_card_wf d s : net_wf s → net_wf (set_card d s).
Proof. by intros []; constructor. Qed.

(** A card that has only been read from since [d]. *)
Definition only_read (d d' : D) : Prop := sent d' = sent d ∧ rx d' = rx d.

Lemma only_read_in w p v (d d' : D) : nic_in w p d = (v, d') → only_read d d'.
Proof. intros E. pose proof (in_sent w p d). pose proof (in_rx w p d). by rewrite E in *. Qed.
Lemma only_read_trans (d1 d2 d3 : D) : only_read d1 d2 → only_read d2 d3 → only_read d1 d3.
Proof. unfold only_read. intuition congruence. Qed.
Lemma only_read_refl (d : D) : only_read d d.
Proof. done. Qed.

(** The wait for the transmission only reads the card. *)
Lemma wait_sent_ok n s :
  net_wf s → wp (wait_sent n) (λ _ s', ∃ d, s' = set_card d s ∧ only_read (card s) d) s.
Proof.
  revert s. induction n as [|n IH]; intros s Hw; cbn [wait_sent].
  - apply wp_ret. exists (card s). split; [by destruct s|done].
  - apply wp_bind, wp_get, wp_bind, wp_reg; [done| |].
    { pose proof (Z.mod_pos_bound (tx_idx s + TX_BUFS - 1) TX_BUFS). unfold RTL_TSD0, TX_BUFS in *. lia. }
    apply wp_bind, wp_port_in. intros v d E%only_read_in. case_if.
    + eapply wp_mono; [apply IH; by apply set_card_wf|]. intros [] s' (d' & -> & Hd').
      exists d'. split; [done|]. by eapply only_read_trans.
    + apply wp_ret. by exists d.
Qed.

(** [s'] is [s] after sending the frames [fs]: only the transmit side has changed. *)
Definition after_sending (fs : list (list Z)) s s' : Prop :=
  ∃ d b i, s' = set_card d (set_tx b i s) ∧ net_wf s' ∧ sent d = sent (card s) ++ fs.

Lemma wp_send_raw f len s (Q : Z → net D H → Prop) :
  net_wf s → rtl_ready_flag s = true → 0 ≤ len ≤ 1536 → len ≤ Z.of_nat (length f) →
  (∀ s', after_sending [take (Z.to_nat len) f] s s' → Q 0 s') → wp (net_send_raw f len) Q s.
Proof.
  intros Hw Hr Hlen Hf HQ. unfold net_send_raw. apply wp_bind, wp_get. rewrite Hr.
  unfold TX_BUF_SIZE. rewrite (proj2 (Z.ltb_ge _ _)) by lia. cbn [negb orb].
  pose proof (nw_txi s Hw) as Hi. pose proof (nw_tx s Hw) as Hn.
  destruct (arr_get_in (tx_buf s) (tx_idx s)) as (b & Eb & Lb); [lia|].
  assert (length b = Z.to_nat 1536) as Hb by (by eapply Forall_lookup_1 in Lb; [|apply (nw_txs s Hw)]).
  apply wp_bind. eapply wp_lift; [done|]. apply wp_bind. eapply wp_lift; [apply kmemcpy_copy; lia|].
  apply wp_bind. eapply wp_lift; [apply arr_set_in; lia|].
  set (b' := _ ++ _). set (bs := <[_ := b']> (tx_buf s)).
  assert (length b' = Z.to_nat 1536) as Hb' by (unfold b'; rewrite length_app, length_take, length_drop; lia).
  assert (∀ d i, 0 ≤ i < 4 → net_wf (set_card d (set_tx bs i s))) as Hw'.
  { intros d i ?. destruct Hw. constructor; cbn; try done; unfold bs; [by rewrite length_insert|].
    by apply Forall_insert. }
  apply wp_bind, wp_modify, wp_bind, wp_bind, wp_reg.
  { apply (Hw' (card s) (tx_idx s)). done. }
  { unfold RTL_TSD0. lia. }
  unfold outl. rewrite u32_small by lia. apply wp_port_out.
  apply wp_bind, wp_modify, wp_bind. eapply wp_mono.
  { apply wait_sent_ok. apply (Hw' (nic_out 4 (base + (RTL_TSD0 + tx_idx s * 4)) len bs (card s)) ((tx_idx s + 1) mod TX_BUFS)).
    by apply Z.mod_pos_bound. }
  intros [] s' (d & -> & Hd). apply wp_ret, HQ. exists d, bs, ((tx_idx s + 1) mod TX_BUFS). split; [done|]. split.
  { apply (Hw' d ((tx_idx s + 1) mod TX_BUFS)). by apply Z.mod_pos_bound. }
  destruct Hd as [Hd _]. cbn in Hd. rewrite Hd. rewrite Z.add_assoc, (out_send (tx_idx s) len bs b'); [|done|].
  - f_equal. unfold b'. rewrite take_app_length'; [done|]. rewrite length_take. lia.
  - apply list_lookup_insert_eq. lia.
Qed.

Lemma udp_frame_length dmac smac src dst sport dport data :
  length dmac = 6%nat → length smac = 6%nat →
  length (udp_frame dmac smac src dst sport dport data) = (42 + length data)%nat.
Proof. intros Hd Hs. unfold udp_frame, eth_header. rewrite !length_app, Hd, Hs. reflexivity. Qed.

(** The four steps that fill the packet. *)
Lemma udp_build dmac smac src dst sport dport data extra pkt :
  let n := Z.of_nat (length data) in
  length dmac = 6%nat → length smac = 6%nat → length pkt = Z.to_nat 1500 → n ≤ 1458 →
  is_u32 src → is_u32 dst → is_u16 sport → is_u16 dport →
  ∃ f1 f2 f3 rest,
    eth_fill dmac smac ETH_P_IP pkt = Ok f1 ∧ udp_ip_fill (28 + n) src dst f1 = Ok f2 ∧
    udp_fill sport dport (8 + n) f2 = Ok f3 ∧
    memcpy_at 42 (data ++ extra) (length data) f3 = Ok (udp_frame dmac smac src dst sport dport data ++ rest).
Proof.
  intros n Hd Hs Hp Hn Hsrc Hdst Hsp Hdp.
  assert (∃ e i u p rest, pkt = e ++ i ++ u ++ p ++ rest ∧ length e = 14%nat ∧ length i = 20%nat ∧
            length u = 8%nat ∧ length p = length data) as (e & i & u & p & rest & -> & He & Hi & Hu & Hl).
  { exists (take 14 pkt), (take 20 (drop 14 pkt)), (take 8 (drop 34 pkt)), (take (length data) (drop 42 pkt)),
      (drop (42 + length data) pkt). split.
    - rewrite <- (drop_drop pkt (length data) 42), take_drop. change (drop 42 pkt) with (drop (34 + 8) pkt).
      rewrite <- (drop_drop pkt 8 34), take_drop. change (drop 34 pkt) with (drop (14 + 20) pkt).
      rewrite <- (drop_drop pkt 20 14), !take_drop. done.
    - rewrite !length_take, !length_drop. lia. }
  set (eh := eth_header dmac smac ETH_P_IP).
  set (ih := ip_header IPPROTO_UDP (28 + n) 1 (header_checksum IPPROTO_UDP (28 + n) 1 src dst) src dst).
  assert (length eh = 14%nat) as Heh by (unfold eh, eth_header; rewrite !length_app, Hd, Hs; done).
  assert (length ih = 20%nat) as Hih by done.
  exists (eh ++ i ++ u ++ p ++ rest), (eh ++ ih ++ u ++ p ++ rest),
    ((eh ++ ih) ++ udp_header sport dport (8 + n) ++ p ++ rest), rest. split_and!.
  - by apply eth_fill_ok.
  - apply udp_ip_fill_ok; try done. unfold is_u16, n. lia.
  - rewrite app_assoc. apply udp_fill_ok; try done; [by rewrite length_app, Heh, Hih|unfold is_u16, n; lia].
  - rewrite app_assoc. rewrite (memcpy_at_app 42 _ _ _ p rest data); try done.
    + unfold udp_frame. fold n. fold ih. by rewrite <- !app_assoc.
    + by rewrite !length_app, Heh, Hih.
    + apply take_app_length.
Qed.

Lemma wp_send_udp fuel irq pkt dst sport dport data dmac s (Q : Z → net D H → Prop) :
  net_wf s → rtl_ready_flag s = true → length pkt = Z.to_nat 1500 → Z.of_nat (length data) ≤ 1458 →
  is_u32 (my_ip s) → is_u32 dst → is_u16 sport → is_u16 dport →
  arp_lookup (nexthop dst s) (replicate 6 0) s = Ok (true, dmac) → length dmac = 6%nat →
  (∀ s', after_sending [udp_frame dmac (my_mac s) (my_ip s) dst sport dport data] s s' → Q 0 s') →
  ∀ extra, wp (net_send_udp fuel irq pkt dst sport dport (data ++ extra) (Z.of_nat (length data))) Q s.
Proof.
  intros Hw Hr Hp Hn Hip Hdst Hsp Hdp Harp Hdm HQ extra. unfold net_send_udp.
  apply wp_bind, wp_get. rewrite Hr. cbn [negb]. apply wp_bind. unfold resolve_mac.
  apply wp_bind, wp_get, wp_bind. eapply wp_lift; [exact Harp|]. cbn [fst snd]. apply wp_ret.
  destruct (udp_build dmac (my_mac s) (my_ip s) dst sport dport data extra pkt)
    as (f1 & f2 & f3 & rest & E1 & E2 & E3 & E4); try done; [apply (nw_mac s Hw)|].
  pose proof (udp_frame_length dmac (my_mac s) (my_ip s) dst sport dport data Hdm (nw_mac s Hw)) as Hlen.
  replace (20 + 8 + Z.of_nat (length data)) with (28 + Z.of_nat (length data)) by lia. rewrite !u16_small by (rewrite ?u16_small; lia).
  apply wp_bind. eapply wp_lift; [exact E1|]. apply wp_bind. eapply wp_lift; [exact E2|].
  apply wp_bind. eapply wp_lift; [exact E3|]. rewrite Nat2Z.id. apply wp_bind. eapply wp_lift; [exact E4|].
  apply wp_send_raw; [done|done|lia|rewrite length_app; lia|].
  intros s' Hs'. apply HQ. by rewrite take_app_length' in Hs' by (rewrite Hlen; lia).
Qed.

(** What a receiver reads in a UDP frame. *)
Lemma udp_fields dmac smac src dst sport dport data rest :
  length dmac = 6%nat → length smac = 6%nat →
  let f := udp_frame dmac smac src dst sport dport data ++ rest in
  let n := Z.of_nat (length data) in
  ld16 12 f = Ok 8 ∧ ld8 23 f = Ok IPPROTO_UDP ∧
  ld32 26 f = Ok (src / 16777216 mod 256 + 256 * (src / 65536 mod 256) + 65536 * (src / 256 mod 256 + 256 * (src mod 256))) ∧
  ld16 34 f = Ok (sport / 256 mod 256 + 256 * (sport mod 256)) ∧
  ld16 36 f = Ok (dport / 256 mod 256 + 256 * (dport mod 256)) ∧
  ld16 38 f = Ok ((8 + n) / 256 mod 256 + 256 * ((8 + n) mod 256)) ∧
  drop 42 f = data ++ rest.
Proof.
  intros Hd Hs. explode dmac. explode smac.
  unfold udp_frame, eth_header, ip_header, udp_header, ld32, ld16, ld8, arr_get, be16, be32, le16. cbn [app].
  repeat split; reflexivity.
Qed.

(** The state after the registers and the receive buffer have been read. *)
Definition received s s' : Prop :=
  ∃ d r h, s' = set_card d (set_rx r h (rx_tail s) s).

Lemma wp_frame_udp dmac smac src dst sport dport data rest len s (Q : unit → net D H → Prop) :
  let f := udp_frame dmac smac src dst sport dport data ++ rest in
  net_wf s → length dmac = 6%nat → length smac = 6%nat →
  42 ≤ len ≤ 1514 → len ≤ Z.of_nat (length f) → rx_head s = rx_tail s →
  (∀ b, length b = Z.to_nat 1600 → take (Z.to_nat len) b = take (Z.to_nat len) f →
    Q tt (set_rx (<[Z.to_nat (rx_head s) := (b, len)]> (rx_ring s)) ((rx_head s + 1) mod 4) (rx_tail s) s)) →
  wp (net_frame f len) Q s.
Proof.
  intros f Hw Hd Hs Hlen Hf Hring HQ. unfold net_frame.
  destruct (udp_fields dmac smac src dst sport dport data rest Hd Hs) as (E1 & E2 & _). fold f in E1, E2.
  apply wp_bind. eapply wp_lift; [exact E1|]. change (NET_HTONS 8) with 0x0800.
  change (0x0800 =? ETH_P_ARP) with false. change (0x0800 =? ETH_P_IP) with true. cbn [andb].
  rewrite (proj2 (Z.leb_le _ _)) by lia. apply wp_bind. eapply wp_lift; [exact E2|].
  change (IPPROTO_UDP =? IPPROTO_UDP) with true. rewrite (proj2 (Z.leb_le _ _)) by lia. cbn [andb].
  apply wp_bind, wp_get. unfold RX_RING_SIZE. pose proof (nw_head s Hw). pose proof (nw_rx s Hw).
  rewrite <- Hring, succ_mod_cases by lia. rewrite (proj2 (Z.eqb_neq _ _)) by (case_z; lia).
  destruct (arr_get_in (rx_ring s) (rx_head s)) as ([b l] & Eb & Lb); [lia|].
  assert (length b = Z.to_nat 1600) as Hb by (by eapply Forall_lookup_1 in Lb; [|apply (nw_rxs s Hw)]).
  apply wp_bind. eapply wp_lift; [exact Eb|]. cbn [fst].
  apply wp_bind. eapply wp_lift; [apply kmemcpy_copy; lia|].
  apply wp_bind. eapply wp_lift; [apply arr_set_in; lia|]. apply wp_modify.
  rewrite <- succ_mod_cases by lia. rewrite <- Hring in HQ. apply HQ.
  - rewrite length_app, length_take, length_drop. lia.
  - rewrite take_app_length'; [done|]. rewrite length_take. lia.
Qed.

(** Polling after an interrupt takes the oldest frame to [net_frame] and out of the card; the
    receive bit is cleared. *)
Lemma wp_poll f l pos s (Q : unit → net D H → Prop) :
  net_wf s → rtl_ready_flag s = true → rx (card s) = mkRx true (f :: l) pos → rx_fits pos f →
  1 ≤ Z.of_nat (length f) ≤ 1514 →
  (∀ d rest, rx d = mkRx false (f :: l) pos → wp (net_frame (f ++ rest) (Z.of_nat (length f)))
     (λ _ s', net_wf s' ∧ rx (card s') = mkRx false (f :: l) pos ∧
        ∀ d', rx d' = mkRx false l (rx_next pos f) → Q tt (set_card d' s')) (set_card d s)) →
  wp net_poll Q s.
Proof.
  intros Hw Hr Hrx Hfit Hlen HQ. unfold net_poll. apply wp_bind, wp_get. rewrite Hr. cbn [negb].
  apply wp_bind, wp_reg; [done|unfold RTL_ISR; lia|]. apply wp_bind. unfold inw. apply wp_port_in. intros isr d1 E1.
  pose proof (isr_rx (card s)) as Hisr. rewrite E1, Hrx in Hisr. cbn [fst rx_ok] in Hisr.
  pose proof (in_rx 2 (base + RTL_ISR) (card s)) as Hd1. rewrite E1, Hrx in Hd1. cbn [snd] in Hd1.
  change 0x01 with (2 ^ 0). pose proof Hisr as Hisr'. rewrite <- (flag_test isr 0) in Hisr' by lia. apply negb_true_iff in Hisr'. rewrite Hisr'.
  apply wp_bind. unfold outw. apply wp_port_out. cbn [card tx_buf set_card].
  set (d2 := nic_out _ _ _ _ _). assert (rx d2 = mkRx false (f :: l) pos) as Hd2.
  { unfold d2. rewrite ack_rx, Hd1. unfold u16. change 65536 with (2 ^ 16). by rewrite Z.mod_pow2_bits_low, Hisr by lia. }
  apply wp_bind, wp_reg; [by repeat apply set_card_wf|unfold RTL_CMD; lia|]. apply wp_bind. unfold inb. apply wp_port_in.
  cbn [card set_card]. intros cmd d3 E3.
  pose proof (cmd_rx d2) as Hcmd. rewrite E3, Hd2 in Hcmd. cbn [fst rx_frames] in Hcmd. rewrite flag_test, Hcmd by lia.
  rewrite bool_decide_eq_false_2 by done.
  pose proof (in_rx 1 (base + RTL_CMD) d2) as Hd3. rewrite E3, Hd2 in Hd3. cbn [snd] in Hd3.
  apply wp_bind, wp_reg; [by repeat apply set_card_wf|unfold RTL_CAPR; lia|]. apply wp_bind, wp_port_in.
  cbn [card set_card]. intros c d4 E4. apply wp_bind, wp_get. cbn [card set_card].
  pose proof (capr_rx d3) as Hc. rewrite E4, Hd3 in Hc. cbn [fst rx_pos] in Hc.
  pose proof (in_rx 2 (base + RTL_CAPR) d3) as Hd4. rewrite E4, Hd3 in Hd4. cbn [snd] in Hd4.
  destruct Hfit as [Hp0 Hp1]. assert (u16 (c + 16) = pos) as Hoff.
  { rewrite Hc. unfold u16. rewrite Zplus_mod_idemp_l. replace (pos - 16 + 16) with pos by lia. apply Z.mod_small. lia. }
  destruct (mem_rx d4 f l) as (pre & st & rest & Erx & Hpre & Hst); [by rewrite Hd4|by rewrite Hd4|lia|]. rewrite Hd4 in Hpre. cbn [rx_pos] in Hpre.
  rewrite Hoff. apply wp_bind. eapply wp_lift.
  { unfold from. change (8192 + 16) with 8208. rewrite (Z.mod_small pos), Erx, (proj2 (Z.leb_le 0 _)) by lia. rewrite (proj2 (Z.leb_le _ _)) by (rewrite length_app; lia).
    cbn [andb]. by rewrite <- Hpre, Nat2Z.id, drop_app_length. }
  apply wp_bind. explode st. eapply wp_lift.
  { unfold ld16, arr_get. cbn. reflexivity. }
  rewrite le16_ld by lia. rewrite (proj2 (Z.eqb_neq _ _)), (proj2 (Z.ltb_ge _ _)) by lia. cbn [orb].
  apply wp_bind. eapply wp_lift.
  { unfold from. rewrite (proj2 (Z.leb_le 4 _)) by (cbn [app le16 length]; lia). cbn. reflexivity. }
  apply wp_bind.
  eapply wp_mono; [by apply HQ|]. intros [] s' (Hw' & Hs' & HQ'). cbn beta.
  apply wp_bind, wp_reg; [done|unfold RTL_CAPR; lia|]. apply wp_port_out. apply HQ'. fold (rx_next pos f).
  assert (∀ x, u16 (u16 x) = u16 x) as Hid by (intros; apply Z.mod_mod; lia). rewrite Hid.
  pose proof (take_rx (tx_buf s') (card s') f l) as Ht. rewrite Hs' in Ht. apply Ht; [done|by split].
Qed.

(** A frame that arrived together with one that has been taken waits until another interrupt. *)
Lemma poll_without_interrupt s (Q : unit → net D H → Prop) :
  net_wf s → rx_ok (rx (card s)) = false → (∀ d, rx d = rx (card s) → Q tt (set_card d s)) → wp net_poll Q s.
Proof.
  intros Hw Hok HQ. unfold net_poll. apply wp_bind, wp_get. destruct (rtl_ready_flag s); cbn [negb].
  2:{ apply wp_ret. specialize (HQ (card s) eq_refl). by destruct s. }
  apply wp_bind, wp_reg; [done|unfold RTL_ISR; lia|]. apply wp_bind. unfold inw. apply wp_port_in. intros isr d1 E1.
  pose proof (isr_rx (card s)) as Hisr. rewrite E1, Hok in Hisr. cbn [fst] in Hisr.
  change 0x01 with (2 ^ 0). rewrite <- (flag_test isr 0) in Hisr by lia. apply negb_false_iff in Hisr. rewrite Hisr.
  apply wp_ret, HQ. pose proof (in_rx 2 (base + RTL_ISR) (card s)) as E. by rewrite E1 in E.
Qed.

Lemma wp_recv_udp dmac smac src dst sport dport data crc l pos buf bufsz ip0 port0 s (Q : Z * list Z * Z * Z → net D H → Prop) :
  let f := udp_frame dmac smac src dst sport dport data ++ crc in
  let n := Z.of_nat (length data) in
  net_wf s → rtl_ready_flag s = true → rx_head s = rx_tail s → rx (card s) = mkRx true (f :: l) pos → rx_fits pos f →
  length dmac = 6%nat → length smac = 6%nat → Z.of_nat (length f) ≤ 1514 →
  is_u32 src → is_u16 sport → is_u16 dport → n ≤ bufsz → bufsz ≤ Z.of_nat (length buf) →
  (∀ s', rx_head s' = rx_tail s' → rx (card s') = mkRx false l (rx_next pos f) → Q (n, data ++ drop (length data) buf, src, sport) s') →
  wp (net_recv_udp dport buf bufsz ip0 port0) Q s.
Proof.
  intros f n Hw Hr Hring Hwt Hfit Hd Hs Hf Hsrc Hsp Hdp Hbuf Hsz HQ. unfold net_recv_udp. apply wp_bind.
  assert (length f = (42 + length data + length crc)%nat) as Hlf by (unfold f; rewrite length_app, udp_frame_length by done; lia).
  apply (wp_poll f l pos); [done..|lia|]. intros d rest Hd'. unfold f at 1. rewrite <- app_assoc.
  apply wp_frame_udp; [by apply set_card_wf|done|done|lia| |done|].
  { rewrite !length_app, udp_frame_length by done. lia. }
  intros b Hb Etk. cbn [rx_ring rx_head rx_tail set_card]. pose proof (nw_head s Hw) as Hh. pose proof (nw_rx s Hw) as Hrx.
  split.
  { destruct Hw. constructor; cbn; try done; [by rewrite length_insert|by apply Forall_insert|by apply Z.mod_pos_bound]. }
  split; [done|]. intros d' Hrxd. apply wp_bind, wp_get. cbn [rx_ring rx_head rx_tail set_card set_rx]. rewrite <- Hring.
  rewrite succ_mod_cases by lia. rewrite (proj2 (Z.eqb_neq _ _)) by (case_z; lia).
  apply wp_bind. eapply wp_lift; [apply arr_get_Ok; split; [lia|apply list_lookup_insert_eq; lia]|]. cbn beta iota.
  apply wp_bind, wp_modify. rewrite (proj2 (Z.ltb_ge _ _)) by lia.
  assert (∃ junk, b = udp_frame dmac smac src dst sport dport data ++ junk) as [junk ->].
  { exists (crc ++ drop (length f) b). rewrite app_assoc. fold f. rewrite <- (take_drop (length f) b) at 1. f_equal.
    rewrite <- (Nat2Z.id (length f)), Etk, Nat2Z.id. rewrite app_assoc. fold f. apply take_app_length. }
  destruct (udp_fields dmac smac src dst sport dport data junk Hd Hs) as (_ & _ & E3 & E4 & E5 & E6 & E7).
  apply wp_bind. eapply wp_lift; [exact E5|]. rewrite htons_be16 by done. rewrite Z.eqb_refl. cbn [negb].
  apply wp_bind. eapply wp_lift; [exact E6|]. fold n. rewrite htons_be16 by (unfold n; lia).
  replace (8 + n - 8) with n by lia. rewrite u16_small by (unfold n; lia). rewrite Z.min_l by done.
  apply wp_bind. eapply wp_lift; [apply kmemcpy_copy; rewrite ?E7, ?length_app; unfold n in *; lia|].
  apply wp_bind. eapply wp_lift; [exact E3|]. apply wp_bind. eapply wp_lift; [exact E4|]. apply wp_ret.
  rewrite htonl_be32, htons_be16 by done. rewrite E7. unfold n at 2 3. rewrite Nat2Z.id, take_app_length. apply HQ; [|done].
  cbn. unfold RX_RING_SIZE. rewrite succ_mod_cases by lia. done.
Qed.

(** C18: a UDP datagram survives the way from one machine to another. When the sender
    knows the address of the next hop and the payload fits (1458 bytes),
    [net_send_udp] returns 0 and hands the card exactly one frame: the payload under
    UDP, IP and Ethernet headers, the IP header with a checksum that verifies. When
    that frame, with its trailer at most 1514 bytes, is the oldest in the receive buffer
    of a machine whose UDP ring is empty, the card has set its receive bit, and the frame
    lies before the end of the 8192 bytes of the buffer (the driver does not follow the
    card around the end), [net_recv_udp] on the destination port returns the payload's
    length, the payload, and the sender's address and port; the frame is taken out of the
    card, and the receive bit is cleared even when other frames wait behind it. *)
Theorem udp_roundtrip fuel irq pkt dst sport dport data extra dmac s r crc l pos buf bufsz :
  let f := udp_frame dmac (my_mac s) (my_ip s) dst sport dport data in
  let n := Z.of_nat (length data) in
  net_wf s → rtl_ready_flag s = true → length pkt = Z.to_nat 1500 → n ≤ 1458 →
  is_u32 (my_ip s) → is_u32 dst → is_u16 sport → is_u16 dport →
  arp_lookup (nexthop dst s) (replicate 6 0) s = Ok (true, dmac) → length dmac = 6%nat →
  net_wf r → rtl_ready_flag r = true → rx_head r = rx_tail r →
  rx (card r) = mkRx true ((f ++ crc) :: l) pos → rx_fits pos (f ++ crc) →
  Z.of_nat (length (f ++ crc)) ≤ 1514 → n ≤ bufsz → bufsz ≤ Z.of_nat (length buf) →
  wp (net_send_udp fuel irq pkt dst sport dport (data ++ extra) n)
     (λ v s', v = 0 ∧ sent (card s') = sent (card s) ++ [f]) s ∧
  ip_checksum (drop 14 f) 20 = Ok 0 ∧
  wp (net_recv_udp dport buf bufsz 0 0)
     (λ v r', v = (n, data ++ drop (length data) buf, my_ip s, sport) ∧ rx_head r' = rx_tail r' ∧
              rx (card r') = mkRx false l (rx_next pos (f ++ crc))) r.
Proof.
  intros f n Hw Hr Hp Hn Hip Hdst Hsp Hdp Harp Hdm Hw' Hr' Hring Hwt Hfit Hlen Hb Hb'. split_and!.
  - eapply wp_send_udp; try done. intros s' (d & b & i & -> & _ & E). split; [done|]. exact E.
  - unfold f, udp_frame, eth_header. pose proof (nw_mac s Hw) as Hm.
    rewrite drop_app_length' by (rewrite !length_app, Hdm, Hm; done). fold n.
    set (c := header_checksum _ _ _ _ _). change 20%nat with (length (ip_header IPPROTO_UDP (28 + n) 1 c (my_ip s) dst)).
    rewrite ip_checksum_ok; [|apply ip_header_bytes; unfold is_byte, IPPROTO_UDP; lia|cbn; lia].
    unfold c. by rewrite header_verifies by (unfold is_byte, IPPROTO_UDP; lia).
  - eapply wp_recv_udp; try done. apply (nw_mac s Hw).
Qed.

(** *** TCP segments *)

Definition tcp_header (k : tcp_socket_t) (flags : Z) : list Z :=
  be16 (local_port k) ++ be16 (remote_port k) ++ be32 (sseq k) ++
  be32 (if Z.land flags TCP_ACK =? 0 then 0 else sack k) ++ [0x50; flags] ++ be16 4096 ++ [0; 0; 0; 0].
Definition tcp_frame (dmac smac : list Z) (k : tcp_socket_t) (flags : Z) (data : list Z) : list Z :=
  let n := Z.of_nat (length data) in
  eth_header dmac smac ETH_P_IP ++
  ip_header IPPROTO_TCP (40 + n) 0 (header_checksum IPPROTO_TCP (40 + n) 0 (local_ip k) (remote_ip k)) (local_ip k) (remote_ip k) ++
  tcp_header k flags ++ data.

Record sock_wf (k : tcp_socket_t) : Prop := {
  sw_lip : is_u32 (local_ip k);
  sw_rip : is_u32 (remote_ip k);
  sw_lport : is_u16 (local_port k);
  sw_rport : is_u16 (remote_port k);
  sw_seq : is_u32 (sseq k);
  sw_ack : is_u32 (sack k);
  sw_ring : ring_wf TCP_BUF_SIZE (rbuf k) (rbuf_head k) (rbuf_tail k)
}.

Lemma tcp_frame_length dmac smac k flags data :
  length dmac = 6%nat → length smac = 6%nat → length (tcp_frame dmac smac k flags data) = (54 + length data)%nat.
Proof. intros Hd Hs. unfold tcp_frame, eth_header. rewrite !length_app, Hd, Hs. reflexivity. Qed.

Lemma tcp_ip_fill_ok ip_len src dst eth rest :
  length eth = 14%nat → is_u16 ip_len → is_u32 src → is_u32 dst →
  tcp_ip_fill ip_len src dst (eth ++ replicate 20 0 ++ rest) =
  Ok (eth ++ ip_header IPPROTO_TCP ip_len 0 (header_checksum IPPROTO_TCP ip_len 0 src dst) src dst ++ rest).
Proof.
  intros He Hl Hs Hd.
  pose proof (header_checksum_ok IPPROTO_TCP ip_len 0 src dst rest ltac:(unfold is_byte, IPPROTO_TCP; lia)) as Hc.
  unfold tcp_ip_fill, st16, st8, st32. rewrite !le32_htonl, !le16_htons by done.
  explode eth. cbn [put_at overwrite app mbind res_bind be16 be32 le16 replicate].
  change (drop 14 _) with (ip_header IPPROTO_TCP ip_len 0 0 src dst ++ rest). rewrite Hc. reflexivity.
Qed.

Lemma tcp_fill_ok k flags pre rest :
  length pre = 34%nat → sock_wf k → is_byte flags →
  tcp_fill k flags (pre ++ replicate 20 0 ++ rest) = Ok (pre ++ tcp_header k flags ++ rest).
Proof.
  intros Hp Hk Hf. destruct Hk. unfold tcp_fill, tcp_header, st16, st32, st8. rewrite (u8_small flags) by done.
  rewrite !le16_htons, le32_htonl by (done || unfold is_u16; lia). explode pre.
  destruct (Z.land flags TCP_ACK =? 0); rewrite ?le32_htonl by done; reflexivity.
Qed.

(** The packet [tcp_send_raw] builds in its zeroed array. *)
Lemma tcp_build dmac smac k flags data extra :
  let n := Z.of_nat (length data) in
  length dmac = 6%nat → length smac = 6%nat → n ≤ 1446 → sock_wf k → is_byte flags →
  ∃ f0 f1 f2 f3 rest,
    kmemset (replicate 1500 0) 0 1500 = Ok f0 ∧
    eth_fill dmac smac ETH_P_IP f0 = Ok f1 ∧ tcp_ip_fill (40 + n) (local_ip k) (remote_ip k) f1 = Ok f2 ∧
    tcp_fill k flags f2 = Ok f3 ∧
    (if n =? 0 then Ok f3 else memcpy_at 54 (data ++ extra) (length data) f3)
    = Ok (tcp_frame dmac smac k flags data ++ rest).
Proof.
  intros n Hd Hs Hn Hk Hf. pose proof Hk as [Hli Hri _ _ _ _ _].
  set (eh := eth_header dmac smac ETH_P_IP).
  set (ih := ip_header IPPROTO_TCP (40 + n) 0 (header_checksum IPPROTO_TCP (40 + n) 0 (local_ip k) (remote_ip k)) (local_ip k) (remote_ip k)).
  set (rest := replicate (Z.to_nat 1446 - length data) 0).
  assert (length eh = 14%nat) as Heh by (unfold eh, eth_header; rewrite !length_app, Hd, Hs; done).
  exists (replicate 14 0 ++ replicate 20 0 ++ replicate 20 0 ++ replicate (length data) 0 ++ rest),
    (eh ++ replicate 20 0 ++ replicate 20 0 ++ replicate (length data) 0 ++ rest),
    (eh ++ ih ++ replicate 20 0 ++ replicate (length data) 0 ++ rest),
    ((eh ++ ih) ++ tcp_header k flags ++ replicate (length data) 0 ++ rest), rest. split_and!.
  - unfold rest. rewrite <- !replicate_add. rewrite kmemset_fill by (rewrite length_replicate; lia).
    rewrite drop_ge by (rewrite length_replicate; lia). rewrite app_nil_r. change (u8 0) with 0. f_equal. f_equal. lia.
  - by apply eth_fill_ok.
  - apply tcp_ip_fill_ok; try done. unfold is_u16, n. lia.
  - rewrite app_assoc. apply tcp_fill_ok; try done. by rewrite length_app, Heh.
  - unfold tcp_frame. fold n. fold ih. destruct (Z.eqb_spec n 0) as [Hz|Hz].
    + assert (data = []) as -> by (apply nil_length_inv; unfold n in Hz; lia). cbn [length replicate app]. by rewrite <- !app_assoc.
    + rewrite app_assoc. rewrite (memcpy_at_app 54 _ _ _ (replicate (length data) 0) rest data); try done.
      * by rewrite <- !app_assoc.
      * by rewrite !length_app, Heh.
      * by rewrite length_replicate.
      * apply take_app_length.
Qed.

(** *** The address cache *)

Lemma arp_find_total ip l n i :
  (n ≤ length l)%nat → Forall (λ e, length e = 4%nat) l →
  ∃ r, arp_find ip l n i = Ok r ∧ (∀ j, r = Some j → i ≤ j < i + Z.of_nat n).
Proof.
  revert l i. induction n as [|n IH]; intros l i Hn Hl; [by exists None|].
  destruct l as [|e l]; [cbn in Hn; lia|]. apply Forall_cons in Hl as [He Hl].
  cbn [arp_find].
  rewrite kmemcpy_copy by (rewrite ?length_replicate; lia). cbn [mbind res_bind].
  rewrite take_ge by lia. change (drop 4 (replicate 4 0)) with (@nil Z). rewrite app_nil_r.
  assert (∃ v, ld32 0 e = Ok v) as [v ->] by (explode e; eexists; reflexivity). cbn [mbind res_bind]. case_if.
  - exists (Some i). split; [done|]. intros j [= <-]. lia.
  - destruct (IH l (i + 1)) as (r & Er & Hr); [cbn in Hn; lia|done|]. exists r. split; [exact Er|].
    intros j Hj. specialize (Hr j Hj). lia.
Qed.

(** The address a segment for [ip] is sent to: the cached one or broadcast. *)
Definition mac_for (ip : Z) s : list Z :=
  match arp_lookup ip (replicate 6 0) s with Ok (true, m) => m | _ => replicate 6 0xFF end.

Lemma arp_lookup_total ip s :
  net_wf s → ∃ hit m, arp_lookup ip (replicate 6 0) s = Ok (hit, m) ∧
    (if hit : bool then Ok m else kmemset m 0xFF ETH_ALEN) = Ok (mac_for ip s) ∧ length (mac_for ip s) = 6%nat.
Proof.
  intros Hw. pose proof (nw_arp_n s Hw). pose proof (nw_arp_ip s Hw). pose proof (nw_arp_mac s Hw). unfold mac_for, arp_lookup.
  destruct (arp_find_total ip (arp_cache_ip s) (Z.to_nat (arp_count s)) 0) as (r & -> & Hr); [lia|by apply nw_arp_ips|].
  destruct r as [j|]; cbn [mbind res_bind]; [|by exists false, (replicate 6 0)].
  specialize (Hr j eq_refl). destruct (arr_get_in (arp_cache_mac s) j) as (m & -> & Hm); [lia|]. cbn [mbind res_bind].
  assert (length m = 6%nat) as Hl by (by eapply Forall_lookup_1 in Hm; [|apply (nw_arp_macs s Hw)]).
  rewrite kmemcpy_copy by (rewrite ?length_replicate; unfold ETH_ALEN; lia). cbn [mbind res_bind].
  rewrite take_ge by (unfold ETH_ALEN; lia). change (drop ETH_ALEN (replicate 6 0)) with (@nil Z). rewrite app_nil_r. by exists true, m.
Qed.

Lemma wp_get_sock n k (Q : tcp_socket_t → net D H → Prop) s :
  tcp_sockets s !! n = Some k → Q k s → wp (get_sock (Z.of_nat n)) Q s.
Proof. intros Hk HQ. apply wp_bind, wp_get. eapply wp_lift; [by apply arr_get_nat|done]. Qed.

Definition put_sock (n : nat) (k : tcp_socket_t) s : net D H := set_tcp (<[n := k]> (tcp_sockets s)) (tcp_next_port s) s.

Lemma upd_sock_ok n k f s :
  tcp_sockets s !! n = Some k → upd_sock (Z.of_nat n) f s = Ok (tt, put_sock n (f k) s).
Proof.
  intros Hk. unfold upd_sock, mbind, M_bind, get, lift. rewrite (arr_get_nat _ _ _ Hk).
  rewrite arr_set_in by (apply lookup_lt_Some in Hk; lia). by rewrite Nat2Z.id.
Qed.

Lemma wp_upd_sock n k f (Q : unit → net D H → Prop) s :
  tcp_sockets s !! n = Some k → Q tt (put_sock n (f k) s) → wp (upd_sock (Z.of_nat n) f) Q s.
Proof.
  intros Hk HQ. unfold wp. by rewrite (upd_sock_ok n k).
Qed.

Lemma put_sock_lookup n k k' s : tcp_sockets s !! n = Some k → tcp_sockets (put_sock n k' s) !! n = Some k'.
Proof. intros Hk. apply list_lookup_insert_eq. by eapply lookup_lt_Some. Qed.
Lemma put_sock_twice n k k' s : put_sock n k' (put_sock n k s) = put_sock n k' s.
Proof. unfold put_sock. cbn. by rewrite list_insert_insert_eq. Qed.
Lemma put_sock_wf n k s : net_wf s → net_wf (put_sock n k s).
Proof. by intros []; constructor. Qed.

(** The sequence number after a segment: SYN and FIN count as one byte. *)
Definition next_seq (k : tcp_socket_t) (flags len : Z) : Z :=
  u32 ((if Z.land flags (Z.lor TCP_SYN TCP_FIN) =? 0 then sseq k else u32 (sseq k + 1)) + len).

Lemma wp_tcp_send_raw n flags data extra k s (Q : unit → net D H → Prop) :
  let f := tcp_frame (mac_for (remote_ip k) s) (my_mac s) k flags data in
  net_wf s → rtl_ready_flag s = true → tcp_sockets s !! n = Some k → sock_wf k → is_byte flags →
  Z.of_nat (length data) ≤ 1446 →
  (∀ s', after_sending [f] s s' → Q tt (put_sock n (set_seq (next_seq k flags (Z.of_nat (length data))) k) s')) →
  wp (tcp_send_raw (Z.of_nat n) flags (data ++ extra) (Z.of_nat (length data))) Q s.
Proof.
  intros f Hw Hr Hk Hkw Hf Hl HQ. unfold tcp_send_raw.
  destruct (arp_lookup_total (remote_ip k) s Hw) as (hit & m & Ea & Em & Hm).
  destruct (tcp_build (mac_for (remote_ip k) s) (my_mac s) k flags data extra)
    as (f0 & f1 & f2 & f3 & rest & E0 & E1 & E2 & E3 & E4); try done; [apply (nw_mac s Hw)|].
  pose proof (tcp_frame_length (mac_for (remote_ip k) s) (my_mac s) k flags data Hm (nw_mac s Hw)) as Hlen. fold f in E4, Hlen.
  apply wp_bind. eapply wp_lift; [exact E0|]. rewrite (u16_small (20 + Z.of_nat (length data))) by lia.
  replace (20 + (20 + Z.of_nat (length data))) with (40 + Z.of_nat (length data)) by lia. rewrite (u16_small (40 + Z.of_nat (length data))) by lia.
  rewrite u16_small by lia. rewrite Nat2Z.id.
  apply wp_bind, wp_get, wp_bind. eapply wp_get_sock; [done|]. apply wp_bind. eapply wp_lift; [exact Ea|]. cbn [fst snd].
  apply wp_bind. eapply wp_lift; [exact Em|]. apply wp_bind. eapply wp_lift; [exact E1|].
  apply wp_bind. eapply wp_lift; [exact E2|]. apply wp_bind. eapply wp_lift; [exact E3|].
  apply wp_bind. eapply wp_lift; [exact E4|]. apply wp_bind. apply wp_send_raw; [done|done|lia|rewrite length_app; lia|].
  intros s' Hs'. rewrite take_app_length' in Hs' by (rewrite Hlen; lia).
  assert (tcp_sockets s' !! n = Some k) as Hk' by (destruct Hs' as (d & b & i & -> & _); done).
  specialize (HQ s' Hs'). unfold next_seq in HQ. apply wp_bind. case_if.
  - apply wp_ret. eapply wp_upd_sock; [done|]. exact HQ.
  - eapply wp_upd_sock; [done|]. eapply wp_upd_sock; [by eapply put_sock_lookup|]. rewrite put_sock_twice. exact HQ.
Qed.

(** *** The receive queue of a socket *)

Definition squeue (k : tcp_socket_t) : list Z := ring_list TCP_BUF_SIZE (rbuf k) (rbuf_head k) (rbuf_tail k).

(** The same connection with another receive buffer. *)
Definition same_conn (k k' : tcp_socket_t) : Prop := ∃ b h t, k' = set_rbuf b h t k.

Lemma same_conn_wf k b h t :
  sock_wf k → ring_wf TCP_BUF_SIZE b h t → sock_wf (set_rbuf b h t k).
Proof. by intros []; constructor. Qed.

Lemma wp_rbuf_append data rest n k s (Q : unit → net D H → Prop) :
  tcp_sockets s !! n = Some k → sock_wf k →
  Z.of_nat (length (squeue k)) + Z.of_nat (length data) < TCP_BUF_SIZE →
  (∀ k', sock_wf k' → same_conn k k' → squeue k' = squeue k ++ data → Q tt (put_sock n k' s)) →
  wp (rbuf_append (length data) (data ++ rest) (Z.of_nat n)) Q s.
Proof.
  revert k s. induction data as [|c data IH]; intros k s Hk Hw Hroom HQ; cbn [length app rbuf_append].
  - apply wp_ret. assert (put_sock n k s = s) as E.
    { unfold put_sock. rewrite list_insert_id by done. by destruct s. }
    rewrite <- E. apply HQ; [done| |by rewrite app_nil_r]. exists (rbuf k), (rbuf_head k), (rbuf_tail k). by destruct k.
  - pose proof (sw_ring k Hw) as Hring. pose proof Hring as (HN & Hbl & Hh & Ht).
    unfold squeue in Hroom. rewrite ring_list_length in Hroom by lia. cbn [length] in Hroom.
    apply wp_bind. eapply wp_get_sock; [done|]. apply wp_bind. eapply wp_lift; [apply arr_set_in; lia|].
    apply wp_bind. eapply wp_upd_sock; [done|].
    set (k1 := set_rbuf _ _ _ k).
    assert (squeue k1 = squeue k ++ [c]) as E1 by (apply ring_push; [done|unfold TCP_BUF_SIZE in *; lia]).
    assert (sock_wf k1) as Hw1 by (apply same_conn_wf; [done|by apply ring_wf_push]).
    apply (IH k1); [by eapply put_sock_lookup|done| |].
    + rewrite E1, length_app. unfold squeue. cbn [length]. rewrite Nat2Z.inj_add, ring_list_length by lia. lia.
    + intros k' Hw' (b & h & t & ->) Hq. rewrite put_sock_twice. apply HQ; [done|by exists b, h, t|].
      by rewrite Hq, E1, <- app_assoc.
Qed.

Lemma wp_recv_loop m j buf n k s (Q : list Z → net D H → Prop) :
  tcp_sockets s !! n = Some k → sock_wf k → (m ≤ length (squeue k))%nat → (j + m ≤ length buf)%nat →
  (∀ k' b, sock_wf k' → same_conn k k' → squeue k' = drop m (squeue k) →
     b = take j buf ++ take m (squeue k) ++ drop (j + m) buf → Q b (put_sock n k' s)) →
  wp (recv_loop m (Z.of_nat j) buf (Z.of_nat n)) Q s.
Proof.
  revert j buf k s. induction m as [|m IH]; intros j buf k s Hk Hw Hm Hj HQ; cbn [recv_loop].
  - apply wp_ret. assert (put_sock n k s = s) as E.
    { unfold put_sock. rewrite list_insert_id by done. by destruct s. }
    rewrite <- E. eapply HQ; [done| |done|by rewrite take_0, Nat.add_0_r, app_nil_l, take_drop].
    exists (rbuf k), (rbuf_head k), (rbuf_tail k). by destruct k.
  - pose proof (sw_ring k Hw) as Hring. pose proof Hring as (HN & Hbl & Hh & Ht).
    assert (rbuf_head k ≠ rbuf_tail k) as Hne.
    { intros E. unfold squeue in Hm. rewrite E, ring_list_empty in Hm. cbn in Hm. lia. }
    assert (squeue k = (rbuf k !!! Z.to_nat (rbuf_tail k)) :: squeue (set_rbuf (rbuf k) (rbuf_head k) ((rbuf_tail k + 1) mod TCP_BUF_SIZE) k)) as E1
      by (by apply ring_pop).
    apply wp_bind. eapply wp_get_sock; [done|]. apply wp_bind. eapply wp_lift.
    { apply arr_get_Ok. split; [lia|]. apply list_lookup_lookup_total_lt. lia. }
    apply wp_bind. eapply wp_lift; [apply arr_set_in; lia|]. apply wp_bind. eapply wp_upd_sock; [done|].
    set (k1 := set_rbuf _ _ _ k) in *. rewrite Nat2Z.id. replace (Z.of_nat j + 1) with (Z.of_nat (S j)) by lia.
    apply (IH (S j) _ k1); [by eapply put_sock_lookup|apply same_conn_wf; [done|by apply ring_wf_pop]| |rewrite length_insert; lia|].
    { rewrite E1 in Hm. cbn in Hm. lia. }
    intros k' b Hw' (b0 & h & t & ->) Hq ->. rewrite put_sock_twice. eapply HQ; [done|by exists b0, h, t|by rewrite E1, Hq|].
    rewrite E1. cbn [take]. rewrite drop_insert_lt by lia.
    rewrite (take_S_r _ j (rbuf k !!! Z.to_nat (rbuf_tail k))) by (apply list_lookup_insert_eq; lia).
    rewrite take_insert_ge by lia. rewrite <- !app_assoc. cbn. do 4 f_equal. lia.
Qed.

Lemma tcp_fields dmac smac k flags data rest :
  length dmac = 6%nat → length smac = 6%nat →
  let f := tcp_frame dmac smac k flags data ++ rest in
  let a := if Z.land flags TCP_ACK =? 0 then 0 else sack k in
  ld32 26 f = Ok (local_ip k / 16777216 mod 256 + 256 * (local_ip k / 65536 mod 256) + 65536 * (local_ip k / 256 mod 256 + 256 * (local_ip k mod 256))) ∧
  ld16 34 f = Ok (local_port k / 256 mod 256 + 256 * (local_port k mod 256)) ∧
  ld16 36 f = Ok (remote_port k / 256 mod 256 + 256 * (remote_port k mod 256)) ∧
  ld32 38 f = Ok (sseq k / 16777216 mod 256 + 256 * (sseq k / 65536 mod 256) + 65536 * (sseq k / 256 mod 256 + 256 * (sseq k mod 256))) ∧
  ld32 42 f = Ok (a / 16777216 mod 256 + 256 * (a / 65536 mod 256) + 65536 * (a / 256 mod 256 + 256 * (a mod 256))) ∧
  ld8 46 f = Ok 0x50 ∧ ld8 47 f = Ok flags ∧ drop 54 f = data ++ rest.
Proof.
  intros Hd Hs. explode dmac. explode smac. cbv zeta.
  unfold tcp_frame, eth_header, ip_header, tcp_header, ld32, ld16, ld8, arr_get, be16, be32, le16. cbn [app].
  repeat split; reflexivity.
Qed.

(** Socket [n] with contents [k] is the one a segment of the remote socket [p] is for. *)
Definition receives s (n : nat) (p k : tcp_socket_t) : Prop :=
  tcp_sockets s !! n = Some k ∧
  find_idx (sock_matches (local_ip p) (local_port p) (remote_port p)) (tcp_sockets s) = Some n.

Lemma wp_process_data dmac smac p flags data0 crc rest n k s (Q : unit → net D H → Prop) :
  let f := tcp_frame dmac smac p flags data0 ++ crc ++ rest in
  let data := data0 ++ crc in
  net_wf s → rtl_ready_flag s = true → length dmac = 6%nat → length smac = 6%nat →
  sock_wf p → sock_wf k → receives s n p k → tstate k = TCP_ESTABLISHED →
  is_byte flags → Z.land flags TCP_FIN = 0 → data ≠ [] → Z.of_nat (length data) < 4096 →
  Z.of_nat (length (squeue k)) + Z.of_nat (length data) < TCP_BUF_SIZE →
  (∀ s' k', sock_wf k' → tcp_sockets s' !! n = Some k' → tstate k' = TCP_ESTABLISHED → sused k' = sused k →
     squeue k' = squeue k ++ data → sack k' = u32 (sseq p + Z.of_nat (length data)) → sseq k' = sseq k →
     sent (card s') = sent (card s) ++ [tcp_frame (mac_for (remote_ip k) s) (my_mac s) k' TCP_ACK []] → Q tt s') →
  wp (tcp_process f (54 + Z.of_nat (length data))) Q s.
Proof.
  intros f data Hw Hr Hd Hs Hp Hk [Hn Hfind] Hst Hfl Hfin Hne Hl Hroom HQ. unfold tcp_process.
  rewrite (proj2 (Z.ltb_ge _ _)) by lia. pose proof Hp as [Plip Prip Plp Prp Pseq Pack _].
  destruct (tcp_fields dmac smac p flags data0 (crc ++ rest) Hd Hs) as (E1 & E2 & E3 & E4 & E5 & E6 & E7 & E8). fold f in E1, E2, E3, E4, E5, E6, E7, E8.
  rewrite app_assoc in E8. fold data in E8.
  apply wp_bind. eapply wp_lift; [exact E1|]. apply wp_bind. eapply wp_lift; [exact E2|].
  apply wp_bind. eapply wp_lift; [exact E3|]. apply wp_bind. eapply wp_lift; [exact E4|].
  apply wp_bind. eapply wp_lift; [exact E5|]. apply wp_bind, wp_get.
  rewrite htonl_be32, !htons_be16 by done. rewrite Hfind. apply wp_bind. eapply wp_get_sock; [done|]. rewrite Hst.
  apply wp_bind. eapply wp_lift; [exact E6|]. apply wp_bind. eapply wp_lift; [exact E7|]. rewrite htonl_be32 by done.
  unfold tcp_segment. change (u8 (Z.shiftr 0x50 4 * 4)) with 20.
  replace (54 + Z.of_nat (length data) - 14 - 20 - 20) with (Z.of_nat (length data)) by lia. rewrite u16_small by lia.
  rewrite (proj2 (Z.ltb_lt 0 _)) by (destruct data; cbn in *; [done|lia]). rewrite Nat2Z.id.
  assert (Z.of_nat (length f) = 54 + Z.of_nat (length data) + Z.of_nat (length rest)) as Hlf
    by (unfold f, data; rewrite !length_app, tcp_frame_length by done; lia).
  apply wp_bind, wp_bind. eapply wp_lift.
  { unfold from. rewrite (proj2 (Z.leb_le _ _)), (proj2 (Z.leb_le _ _)) by lia. cbn [andb]. change (Z.to_nat (14 + 20 + 20)) with 54%nat. by rewrite E8. }
  apply wp_bind. eapply wp_upd_sock; [done|]. set (a := u32 _). apply wp_bind.
  assert (sock_wf (set_ack a k)) as Hk1 by (destruct Hk; constructor; try done; apply u32_range).
  eapply wp_rbuf_append; [by eapply put_sock_lookup|exact Hk1|exact Hroom|].
  intros k' Hk' (b & h & t & ->) Hq. rewrite put_sock_twice. change (@nil Z) with (@nil Z ++ []). change 0 with (Z.of_nat (length (@nil Z))).
  eapply wp_tcp_send_raw; [by apply put_sock_wf|done|by eapply put_sock_lookup|done|unfold is_byte, TCP_ACK; lia|cbn; lia|].
  intros s' Hs'. rewrite Hfin. cbn [Z.eqb Z.of_nat length]. apply wp_ret.
  assert (next_seq (set_rbuf b h t (set_ack a k)) TCP_ACK 0 = sseq k) as Hseq.
  { unfold next_seq. change (Z.land TCP_ACK _ =? 0) with true. cbn [sseq set_rbuf set_ack]. rewrite Z.add_0_r.
    apply u32_small. apply (sw_seq k Hk). }
  change (Z.of_nat 0) with 0. rewrite Hseq. destruct Hs' as (d & tb & ti & -> & Hw' & Hd').
  eapply (HQ _ (set_seq (sseq k) (set_rbuf b h t (set_ack a k)))); [| |exact Hst|reflexivity|exact Hq|reflexivity|reflexivity|].
  - by destruct Hk' as [A B C F G I J]; constructor.
  - eapply put_sock_lookup. cbn. eapply list_lookup_insert_eq. by eapply lookup_lt_Some.
  - cbn. rewrite Hd'. cbn. do 2 f_equal.
Qed.

(** [tcp_recv] takes the oldest bytes of the queue. *)
Lemma wp_tcp_recv n k buf len s (Q : Z * list Z → net D H → Prop) :
  tcp_sockets s !! n = Some k → (n < 8)%nat → sused k ≠ 0 → sock_wf k → 0 ≤ len < 65536 → len ≤ Z.of_nat (length buf) →
  let m := Nat.min (Z.to_nat len) (length (squeue k)) in
  (∀ k', sock_wf k' → same_conn k k' → squeue k' = drop m (squeue k) →
     Q (Z.of_nat m, take m (squeue k) ++ drop m buf) (put_sock n k' s)) →
  wp (tcp_recv (Z.of_nat n) buf len) Q s.
Proof.
  intros Hk Hn Hu Hw Hlen Hbuf m HQ. unfold tcp_recv, tcp_bad, TCP_MAX_SOCKETS.
  apply wp_bind, wp_get, wp_bind. rewrite (proj2 (Z.ltb_ge _ 0)), (proj2 (Z.leb_gt 8 _)) by lia. cbn [orb].
  eapply wp_lift; [rewrite (arr_get_nat _ _ _ Hk); cbn [mbind res_bind]; by rewrite (proj2 (Z.eqb_neq _ _))|].
  apply wp_bind. eapply wp_get_sock; [done|]. change TCP_BUF_SIZE with (2 ^ 12). rewrite ring_count_u32 by lia.
  pose proof (sw_ring k Hw) as Hring. pose proof Hring as (HN & _).
  assert (ring_count (2 ^ 12) (rbuf_head k) (rbuf_tail k) = Z.of_nat (length (squeue k))) as ->
    by (symmetry; by apply ring_list_length).
  assert (put_sock n k s = s) as Eid.
  { unfold put_sock. rewrite list_insert_id by done. by destruct s. }
  assert (Z.of_nat (length (squeue k)) < 4096) as Hq.
  { unfold squeue. rewrite ring_list_length by lia. pose proof (ring_count_range TCP_BUF_SIZE (rbuf_head k) (rbuf_tail k)). unfold TCP_BUF_SIZE in *. lia. }
  destruct (Z.eqb_spec (Z.of_nat (length (squeue k))) 0) as [Hz|Hz].
  { apply wp_ret. rewrite <- Eid. assert (m = 0%nat) as Hm by lia. specialize (HQ k). rewrite Hm in HQ. apply HQ; [done| |done].
    exists (rbuf k), (rbuf_head k), (rbuf_tail k). by destruct k. }
  set (l := if Z.of_nat (length (squeue k)) <? len then u16 (Z.of_nat (length (squeue k))) else len). assert (l = Z.of_nat m) as ->.
  { unfold l, m. case_z; rewrite ?u16_small by lia; lia. }
  apply wp_bind. rewrite Nat2Z.id. apply (wp_recv_loop m 0 buf n k); [done|done|lia|lia|].
  intros k' b Hw' Hsc Hd ->. apply wp_ret. by apply HQ.
Qed.

(** C19: a TCP connection carries bytes in order. [tcp_send] on an established socket
    sends one segment with the data and advances the sequence number by its length.
    When that segment reaches the peer and fits its receive buffer, [tcp_process]
    appends it to the unread bytes, so [tcp_recv] returns the oldest bytes first. What
    follows the segment in the frame ([trailer]: padding or the frame check sequence
    the card leaves there) is appended too, because the length of the data is taken
    from the frame and not from the IP header. *)
Theorem tcp_stream m p s n k r data extra trailer rest buf len :
  let f := tcp_frame (mac_for (remote_ip p) s) (my_mac s) p TCP_ACK data in
  let q := squeue k ++ data ++ trailer in
  let got := Nat.min (Z.to_nat len) (length q) in
  net_wf s → rtl_ready_flag s = true → tcp_sockets s !! m = Some p → (m < 8)%nat → sused p ≠ 0 →
  tstate p = TCP_ESTABLISHED → sock_wf p → data ≠ [] → Z.of_nat (length data) ≤ 1446 →
  net_wf r → rtl_ready_flag r = true → receives r n p k → (n < 8)%nat → sused k ≠ 0 →
  tstate k = TCP_ESTABLISHED → sock_wf k → Z.of_nat (length q) < TCP_BUF_SIZE →
  0 ≤ len < 65536 → len ≤ Z.of_nat (length buf) →
  wp (tcp_send (Z.of_nat m) (data ++ extra) (Z.of_nat (length data)))
     (λ v s', v = Z.of_nat (length data) ∧ sent (card s') = sent (card s) ++ [f] ∧
        tcp_sockets s' !! m = Some (set_seq (u32 (sseq p + Z.of_nat (length data))) p)) s ∧
  wp (tcp_process (f ++ trailer ++ rest) (54 + Z.of_nat (length (data ++ trailer))) ;; tcp_recv (Z.of_nat n) buf len)
     (λ v r', v = (Z.of_nat got, take got q ++ drop got buf) ∧
        ∃ k', tcp_sockets r' !! n = Some k' ∧ squeue k' = drop got q ∧
              sack k' = u32 (sseq p + Z.of_nat (length (data ++ trailer)))) r.
Proof.
  intros f q got Hw Hr Hp Hm Hup Hsp Hwp Hne Hl Hw' Hr' Hrec Hn Huk Hsk Hwk Hq Hlen Hbuf. split.
  - unfold tcp_send, tcp_bad, TCP_MAX_SOCKETS. apply wp_bind, wp_get, wp_bind.
    rewrite (proj2 (Z.ltb_ge _ 0)), (proj2 (Z.leb_gt 8 _)) by lia. cbn [orb].
    eapply wp_lift; [rewrite (arr_get_nat _ _ _ Hp); cbn [mbind res_bind]; by rewrite (proj2 (Z.eqb_neq _ _))|].
    apply wp_bind. eapply wp_get_sock; [done|]. unfold in_state. rewrite bool_decide_true by done. cbn [negb]. apply wp_bind.
    eapply wp_tcp_send_raw; try done. intros s' (d & b & i & -> & _ & Hd). apply wp_ret.
    split; [done|]. split; [exact Hd|]. eapply put_sock_lookup. exact Hp.
  - apply wp_bind. destruct (arp_lookup_total (remote_ip p) s Hw) as (_ & _ & _ & _ & Hmac). pose proof Hrec as [Hk _].
    assert (Z.of_nat (length (data ++ trailer)) < 4096) as Hdt.
    { unfold q in Hq. rewrite length_app in Hq. unfold TCP_BUF_SIZE in Hq. lia. }
    eapply wp_process_data; try done; [apply (nw_mac s Hw)|by destruct data|by unfold q in Hq; rewrite length_app in Hq; lia|].
    intros r' k' Hwk' Hk' _ Hu' Hq' Ha' _ _. eapply wp_tcp_recv; [done|done|by rewrite Hu'|done|done|done|].
    intros k2 _ (b & h & t & ->) Hd2. rewrite Hq' in *. fold q. split; [done|]. eexists. split; [by eapply put_sock_lookup|]. done.
Qed.

(** *** A header length beyond the segment *)

Lemma rbuf_append_short m data n k s :
  (length data < m)%nat → tcp_sockets s !! n = Some k → ring_wf TCP_BUF_SIZE (rbuf k) (rbuf_head k) (rbuf_tail k) →
  rbuf_append m data (Z.of_nat n) s = Fault.
Proof.
  revert data k s. induction m as [|m IH]; intros [|c data] k s Hm Hk Hr; cbn in Hm; try lia; [done|].
  cbn [rbuf_append]. unfold get_sock, upd_sock, mbind, M_bind, get, lift. rewrite (arr_get_nat _ _ _ Hk).
  pose proof Hr as (HN & Hl & Hh & Ht). rewrite arr_set_in by lia. rewrite (arr_get_nat _ _ _ Hk).
  rewrite arr_set_in by (apply lookup_lt_Some in Hk; lia). rewrite Nat2Z.id. unfold modify.
  eapply IH; [lia|apply list_lookup_insert_eq; by eapply lookup_lt_Some|]. by apply ring_wf_push.
Qed.

(** A segment can make the kernel read past its receive buffer. The data offset of
    the TCP header is not checked against the length of the frame: with an offset of 60
    bytes in a 54-byte frame the data length is computed modulo 2^16 as 65496, and
    copying that many bytes leaves the receive buffer of 9712 bytes, whatever it
    holds. *)
Theorem tcp_bad_offset_overreads dmac smac p flags rest n k s :
  length dmac = 6%nat → length smac = 6%nat → sock_wf p → sock_wf k → receives s n p k →
  tstate k = TCP_ESTABLISHED → Z.of_nat (length rest) ≤ RX_BUF_SIZE + 4 →
  tcp_process (<[46%nat := 0xF0]> (tcp_frame dmac smac p flags []) ++ rest) 54 s = Fault.
Proof.
  intros Hd Hs Hp Hk [Hn Hfind] Hst Hrest. pose proof Hp as [Plip Prip Plp Prp Pseq Pack _].
  destruct (tcp_fields dmac smac p flags [] rest Hd Hs) as (E1 & E2 & E3 & E4 & E5 & _ & E7 & _).
  set (f := _ ++ rest). set (g := tcp_frame _ _ _ _ _ ++ rest) in *.
  assert (f = <[46%nat := 0xF0]> g) as Hf.
  { unfold f, g. rewrite insert_app_l; [done|]. rewrite tcp_frame_length by done. lia. }
  assert (length g = (54 + length rest)%nat) as Hg by (unfold g; rewrite length_app, tcp_frame_length by done; done).
  assert (∀ i, i ≠ 46 → arr_get f i = arr_get g i) as Hget.
  { intros i Hi. rewrite Hf. unfold arr_get. destruct (Z.leb_spec 0 i); [|done]. rewrite list_lookup_insert_ne by lia. done. }
  assert (∀ i, i < 45 → ld16 i f = ld16 i g) as Hget16 by (intros i Hi; unfold ld16; by rewrite !Hget by lia).
  assert (∀ i, i < 43 → ld32 i f = ld32 i g) as Hget32 by (intros i Hi; unfold ld32; by rewrite !Hget16 by lia).
  assert (ld8 46 f = Ok 0xF0) as E6.
  { unfold ld8. rewrite Hf. apply arr_get_Ok. split; [lia|]. apply list_lookup_insert_eq. lia. }
  unfold tcp_process. change (54 <? 14 + 20 + 20) with false. cbn iota. rewrite !Hget32, !Hget16 by lia.
  rewrite E1, E2, E3, E4, E5, E6. unfold ld8 in *. rewrite (Hget 47), E7 by lia.
  rewrite !(M_bind_step _ _ s s _ eq_refl). rewrite htonl_be32, !htons_be16, Hfind by done.
  rewrite (M_bind_step _ _ s s k) by (unfold get_sock, mbind, M_bind, get, lift; by rewrite (arr_get_nat _ _ _ Hn)).
  rewrite Hst, !(M_bind_step _ _ s s _ eq_refl). unfold tcp_segment. apply M_bind_fault.
  change (u8 (Z.shiftr 0xF0 4 * 4)) with 60. change (u16 (54 - 14 - 20 - 60)) with 65496. change (0 <? 65496) with true. cbn iota.
  unfold from. rewrite Hf, length_insert, Hg. destruct (_ && _); [|done].
  rewrite (M_bind_step _ _ s s _ eq_refl).
  rewrite (M_bind_step _ _ _ (put_sock n (set_ack (u32 (NET_HTONL _ + 65496)) k) s) tt (upd_sock_ok _ _ _ _ Hn)).
  apply M_bind_fault. eapply rbuf_append_short; [|by eapply put_sock_lookup|apply (sw_ring k Hk)].
  rewrite length_drop, length_insert. unfold RX_BUF_SIZE in Hrest. lia.
Qed.
End traffic.

(** *** Routing

    Addresses are kept in host order but the mask is byte-swapped before it is
    applied, so the test for the own network looks at the low 24 bits. *)
Lemma nexthop_low_bits {D H} (s : net D H) dst :
  net_mask s = NET_IP 255 255 255 0 →
  nexthop dst s = if dst mod 2 ^ 24 =? my_ip s mod 2 ^ 24 then dst else gw_ip s.
Proof.
  intros Hm. unfold nexthop. rewrite Hm. change (NET_HTONL (NET_IP 255 255 255 0)) with (2 ^ 24 - 1).
  by rewrite !land_low by lia.
Qed.

(** Every other host of the own /24 network is reached through the gateway. *)
Lemma neighbour_through_gateway {D H} (s : net D H) dst :
  net_mask s = NET_IP 255 255 255 0 → is_u32 dst → is_u32 (my_ip s) →
  dst / 256 = my_ip s / 256 → dst ≠ my_ip s → nexthop dst s = gw_ip s.
Proof.
  intros Hm Hd Hi Hnet Hne. rewrite nexthop_low_bits by done.
  destruct (Z.eqb_spec (dst mod 2 ^ 24) (my_ip s mod 2 ^ 24)) as [E|]; [|done]. destruct Hne.
  change (2 ^ 24) with (256 * 65536) in E. rewrite !Z.rem_mul_r, Hnet in E by lia.
  pose proof (Z.div_mod dst 256). pose proof (Z.div_mod (my_ip s) 256). lia.
Qed.

(** ** A simulated card

    A card with frames in its receive buffer; the receive bit is set when it starts with
    one. *)
Definition simbase : Z := 0xC000.
Record simcard := mkSim { sim_out : list (list Z); sim_ok : bool; sim_in : list (list Z); sim_pos : Z }.

#[export] Instance simcard_nic : Nic simcard := {
  nic_in w p d :=
    (if p =? simbase + RTL_ISR then (if sim_ok d then 1 else 0)
     else if p =? simbase + RTL_CMD then (if bool_decide (sim_in d = []) then 1 else 0)
     else if p =? simbase + RTL_CAPR then u16 (sim_pos d - 16)
     else 0x8000, d);
  nic_out w p v tx d :=
    if p =? simbase + RTL_ISR then mkSim (sim_out d) (sim_ok d && negb (Z.testbit v 0)) (sim_in d) (sim_pos d)
    else if p =? simbase + RTL_CAPR then mkSim (sim_out d) (sim_ok d) (tail (sim_in d)) (u16 (v + 16))
    else if (simbase + RTL_TSD0 <=? p) && (p <? simbase + RTL_TSD0 + 16) then
      match tx !! Z.to_nat ((p - (simbase + RTL_TSD0)) / 4) with
      | Some b => mkSim (sim_out d ++ [take (Z.to_nat v) b]) (sim_ok d) (sim_in d) (sim_pos d)
      | None => d
      end
    else d;
  nic_rx d :=
    match sim_in d with
    | f :: _ => replicate (Z.to_nat (sim_pos d)) 0 ++ [1; 0] ++ le16 (Z.of_nat (length f)) ++ f ++ replicate 1500 0
    | [] => replicate (Z.to_nat 9712) 0
    end;
  nic_wait d := d
}.

#[export] Instance simcard_wire : Wire simcard simbase.
Proof.
  refine {| sent d := sim_out d; rx d := mkRx (sim_ok d) (sim_in d) (sim_pos d) |}; try done.
  - intros i len tx b d Hi Hb. cbn.
    rewrite (proj2 (Z.eqb_neq _ (simbase + RTL_ISR))), (proj2 (Z.eqb_neq _ (simbase + RTL_CAPR)))
      by (unfold simbase, RTL_TSD0, RTL_CAPR, RTL_ISR; lia).
    rewrite (proj2 (Z.leb_le _ _)), (proj2 (Z.ltb_lt _ _)) by (unfold simbase, RTL_TSD0; lia). cbn.
    replace (simbase + RTL_TSD0 + i * 4 - (simbase + RTL_TSD0)) with (i * 4) by lia. rewrite Z.div_mul by lia.
    by rewrite Hb.
  - intros d. cbn. by destruct (sim_ok d).
  - intros d. cbn. by case_bool_decide.
  - intros [o k l0 pos] f l E [Hp _] Hl. cbn in E. subst l0. exists (replicate (Z.to_nat pos) 0), [1; 0], (replicate 1500 0).
    split; [done|]. cbn in *. split; [rewrite length_replicate; lia|done].
  - intros tx [o k l0 pos] f l E Hp. cbn in E. subst l0. cbn. f_equal. unfold u16. rewrite Zplus_mod_idemp_l.
    unfold rx_next, u16. cbn. rewrite Z.sub_add. apply Z.mod_mod. lia.
Defined.

Definition sim_timer : timer kheap := mkTimer 0 100 [] procs0 worker_sig.
Definition sim_net (mac : list Z) (ip : Z) (frames : list (list Z)) : net simcard kheap :=
  let s := net_start (mkSim [] (bool_decide (frames ≠ [])) frames 0) sim_timer in
  mkNet (card s) (clock s) simbase (tx_buf s) 0 true mac ip (gw_ip s) (net_mask s)
        (<[0%nat := le32 (gw_ip s)]> (arp_cache_ip s)) (<[0%nat := [2; 2; 2; 2; 2; 2]]> (arp_cache_mac s)) 1
        (rx_ring s) 0 0 (tcp_sockets s) (tcp_next_port s).

Lemma sim_net_wf mac ip frames : length mac = 6%nat → net_wf simbase (sim_net mac ip frames).
Proof.
  intros Hm. constructor; cbn; try done; try (unfold simbase; lia); repeat constructor.
Qed.

(** ** Witnesses *)

Definition ping : list Z := str "ping".
Definition mac_a : list Z := [2; 0; 0; 0; 0; 1].
Definition mac_b : list Z := [2; 0; 0; 0; 0; 2].
Definition ip_a : Z := NET_IP 10 0 2 15.
Definition ip_b : Z := NET_IP 10 0 2 16.
Definition ping_frame : list Z := udp_frame [2; 2; 2; 2; 2; 2] mac_a ip_a ip_b 1053 53 ping.

Lemma ip_checksum_reference_witness :
  ip_checksum ([0x45; 0; 0; 115] ++ [1]) 4 = Ok (65535 - ones_sum (words_sum [0x45; 0; 0; 115])).
Proof.
  apply (ip_checksum_reference [0x45; 0; 0; 115] [1]); [|cbn; lia].
  repeat (apply Forall_cons; split); try apply Forall_nil; unfold is_byte; lia.
Defined.

(** Two frames have arrived; only one is taken. *)
Lemma udp_roundtrip_witness :
  wp (net_recv_udp 53 (replicate 8 0) 8 0 0)
     (λ v r', v = (4, ping ++ replicate 4 0, ip_a, 1053) ∧ rx_head r' = rx_tail r' ∧
              rx (card r') = mkRx false [ping_frame] 56)
     (sim_net mac_b ip_b [ping_frame ++ [9; 9; 9; 9]; ping_frame]).
Proof.
  apply (udp_roundtrip (D := simcard) (H := kheap) simbase 0 (λ t, Ok t) (replicate (Z.to_nat 1500) 7) ip_b 1053 53 ping []
    [2; 2; 2; 2; 2; 2] (sim_net mac_a ip_a []) (sim_net mac_b ip_b [ping_frame ++ [9; 9; 9; 9]; ping_frame])
    [9; 9; 9; 9] [ping_frame] 0 (replicate 8 0) 8);
    try (by apply sim_net_wf); try reflexivity; try (vm_compute; congruence);
    unfold is_u32, is_u16, rx_fits; split; vm_compute; congruence.
Defined.

Definition conn_a : tcp_socket_t :=
  mkSock TCP_ESTABLISHED ip_a ip_b 49152 80 0x1001 0x2001 (replicate (Z.to_nat 4096) 0) 0 0 1.
Definition conn_b : tcp_socket_t :=
  mkSock TCP_ESTABLISHED ip_b ip_a 80 49152 0x2001 0x1001 (replicate (Z.to_nat 4096) 0) 0 0 1.
Definition with_conn (k : tcp_socket_t) (s : net simcard kheap) : net simcard kheap := put_sock 0 k s.

Lemma conn_wf st a b p q x y u :
  is_u32 a → is_u32 b → is_u16 p → is_u16 q → is_u32 x → is_u32 y →
  sock_wf (mkSock st a b p q x y (replicate (Z.to_nat 4096) 0) 0 0 u).
Proof. intros. constructor; cbn; try done. Qed.

Lemma conn_a_wf : sock_wf conn_a.
Proof. apply conn_wf; unfold is_u32, is_u16; split; vm_compute; congruence. Qed.
Lemma conn_b_wf : sock_wf conn_b.
Proof. apply conn_wf; unfold is_u32, is_u16; split; vm_compute; congruence. Qed.

Definition machine_a : net simcard kheap := with_conn conn_a (sim_net mac_a ip_a []).
Definition machine_b : net simcard kheap := with_conn conn_b (sim_net mac_b ip_b []).
Definition ping_segment : list Z := tcp_frame (mac_for (remote_ip conn_a) machine_a) (my_mac machine_a) conn_a TCP_ACK ping.

Lemma tcp_stream_witness :
  wp (tcp_process (ping_segment ++ [] ++ []) (54 + Z.of_nat (length (ping ++ []))) ;; tcp_recv (Z.of_nat 0) (replicate 8 0) 3)
     (λ v r', v = (3, str "pin" ++ replicate 5 0) ∧
        ∃ k', tcp_sockets r' !! 0%nat = Some k' ∧ squeue k' = str "g" ∧ sack k' = 0x1005)
     machine_b.
Proof.
  assert (squeue conn_b = []) as Hq by apply ring_list_empty.
  pose proof (tcp_stream (D := simcard) (H := kheap) simbase 0 conn_a machine_a 0 conn_b machine_b ping [] [] [] (replicate 8 0) 3) as W.
  cbv zeta in W. rewrite Hq in W. destruct W as [_ W].
  - by apply put_sock_wf, sim_net_wf.
  - done.
  - done.
  - lia.
  - cbn. lia.
  - done.
  - apply conn_a_wf.
  - done.
  - vm_compute. congruence.
  - by apply put_sock_wf, sim_net_wf.
  - done.
  - split; reflexivity.
  - lia.
  - cbn. lia.
  - done.
  - apply conn_b_wf.
  - vm_compute. congruence.
  - lia.
  - vm_compute. congruence.
  - exact W.
Defined.

Lemma tcp_bad_offset_overreads_witness :
  tcp_process (<[46%nat := 0xF0]> (tcp_frame mac_b mac_a conn_a TCP_ACK []) ++ replicate 100 0) 54
    machine_b = Fault.
Proof.
  apply (tcp_bad_offset_overreads (D := simcard) (H := kheap) mac_b mac_a conn_a TCP_ACK (replicate 100 0) 0 conn_b);
    try apply conn_a_wf; try apply conn_b_wf; try done.
Defined.
