(* ===== verification/Dhcp.v ===== *)
(** * Clients of the UDP layer: DHCP (src/src/dhcp.c) and DNS (src/src/dns.c)

    The DHCP packet is a struct of 548 bytes over a byte object: the options start at
    offset 240.  DNS messages are arrays of 512 bytes.  Both clients run on the network
    state of Net.v; the serial log lines of DHCP go to the port of Serial.v. *)

From S2P Require Import Prelude KString Bytes Ring KMalloc Vga Dmesg Sched Process Signal Ports Serial Net.

Definition DHCP_DISCOVER : Z := 1.
Definition DHCP_OFFER : Z := 2.
Definition DHCP_REQUEST : Z := 3.
Definition DHCP_ACK : Z := 5.
Definition DHCP_PORT_CLI : Z := 68.
Definition DHCP_PORT_SRV : Z := 67.
Definition DHCP_MAGIC : Z := 0x63825363.
Definition DHCP_PKT_SIZE : nat := 548.

(** The fixed fields of both requests. *)
Definition dhcp_header (p : list Z) (xid : Z) (mac : list Z) : res (list Z) :=
  p ← kmemset p 0 DHCP_PKT_SIZE;
  p ← st8 0 1 p; p ← st8 1 1 p; p ← st8 2 6 p;
  p ← st32 4 xid p;
  p ← st16 10 (NET_HTONS 0x8000) p;
  p ← memcpy_at 28 mac 6 p;
  st32 236 (NET_HTONL DHCP_MAGIC) p.

Definition build_discover (p : list Z) (xid : Z) (mac : list Z) : res (list Z) :=
  p ← dhcp_header p xid mac;
  p ← put_at 240 [53; 1; DHCP_DISCOVER; 61; 7; 1] p;
  p ← memcpy_at 246 mac 6 p;
  put_at 252 [55; 3; 1; 3; 6; 255] p.

Definition ip_bytes (ip : Z) : list Z :=
  [Z.land (Z.shiftr ip 24) 0xFF; Z.land (Z.shiftr ip 16) 0xFF; Z.land (Z.shiftr ip 8) 0xFF; Z.land ip 0xFF].
Definition build_request (p : list Z) (xid : Z) (mac : list Z) (offer_ip srv_ip : Z) : res (list Z) :=
  p ← dhcp_header p xid mac;
  put_at 240 ([53; 1; DHCP_REQUEST; 50; 4] ++ ip_bytes offer_ip ++ [54; 4] ++ ip_bytes srv_ip ++ [255]) p.

(** The four bytes at offset [i]. *)
Definition parse_ip (p : list Z) (i : Z) : res Z :=
  a ← arr_get p i; b ← arr_get p (i + 1); c ← arr_get p (i + 2); d ← arr_get p (i + 3);
  Ok (Z.lor (Z.lor (Z.lor (Z.shiftl a 24) (Z.shiftl b 16)) (Z.shiftl c 8)) d).

(** What the options of an offer say. *)
Record offer := mkOffer { msg_type : Z; srv_ip : Z; o_gw : Z; o_dns : Z }.

(** One option with its tag and length, [i] at its data. *)
Definition parse_opt (p : list Z) (tag len i : Z) (o : offer) : res offer :=
  if tag =? 53 then t ← arr_get p i; Ok (mkOffer t (srv_ip o) (o_gw o) (o_dns o))
  else if (tag =? 54) && (len =? 4) then a ← parse_ip p i; Ok (mkOffer (msg_type o) a (o_gw o) (o_dns o))
  else if (tag =? 3) && (4 <=? len) then a ← parse_ip p i; Ok (mkOffer (msg_type o) (srv_ip o) a (o_dns o))
  else if (tag =? 6) && (4 <=? len) then a ← parse_ip p i; Ok (mkOffer (msg_type o) (srv_ip o) (o_gw o) a)
  else Ok o.

(** The loop, [i] an index into the packet. Each turn takes at least one byte of the
    308 of the options. *)
Fixpoint parse_opts (n : nat) (p : list Z) (i : Z) (o : offer) : res offer :=
  c ← arr_get p i;
  if negb (c =? 255) && (i - 240 <? 308) then
    match n with
    | O => Timeout
    | S n' =>
        if c =? 0 then parse_opts n' p (i + 1) o
        else
          len ← arr_get p (i + 1);
          o' ← parse_opt p c len (i + 2) o;
          parse_opts n' p (i + 2 + len) o'
    end
  else Ok o.

(** The result, [*srv_ip], and the three static variables. *)
Definition parse_offer (p : list Z) (ip gw dns : Z) : res (Z * Z * (Z * Z * Z)) :=
  m ← ld32 236 p;
  if negb (NET_HTONL m =? DHCP_MAGIC) then Ok (0, 0, (ip, gw, dns))
  else
    o ← parse_opts 309 p 240 (mkOffer 0 0 gw dns);
    if (msg_type o =? DHCP_OFFER) || (msg_type o =? DHCP_ACK) then
      y ← ld32 16 p; Ok (msg_type o, srv_ip o, (NET_HTONL y, o_gw o, o_dns o))
    else Ok (0, srv_ip o, (ip, o_gw o, o_dns o)).

Arguments ip_bytes ip : simpl never.

Section dhcp.
Context {D U H : Type} `{Nic D} `{Ports U} `{Allocator H}.
Variables (fuel : nat) (irq : timer H → res (timer H)).

Record dhcp := mkDhcp {
  dnet : net D H;
  dlog : serial U;
  offered_ip : Z;
  offered_gw : Z;
  offered_dns : Z
}.
Definition set_offered (t : Z * Z * Z) (s : dhcp) : dhcp := mkDhcp (dnet s) (dlog s) t.1.1 t.1.2 t.2.

Definition on_net {A} (m : M (net D H) A) : M dhcp A := λ s,
  match m (dnet s) with
  | Ok (a, n) => Ok (a, mkDhcp n (dlog s) (offered_ip s) (offered_gw s) (offered_dns s))
  | Fault => Fault
  | Timeout => Timeout
  end.
Definition on_log {A} (m : M (serial U) A) : M dhcp A := λ s,
  match m (dlog s) with
  | Ok (a, l) => Ok (a, mkDhcp (dnet s) l (offered_ip s) (offered_gw s) (offered_dns s))
  | Fault => Fault
  | Timeout => Timeout
  end.

(** A format ending in carriage return and line feed. *)
Definition line_of (fmt : list Z) : list Z := fmt ++ [13; 10; 0].
Definition quad (ip : Z) : list va_arg := AInt <$> ip_bytes ip.

(** Uninitialised locals: the packet, the receive buffer and the frames sent. *)
Variables (pkt0 buf0 frame0 : list Z).

(** One turn of the waiting loop: [Some] result ends it. *)
Definition dhcp_turn (mac : list Z) (xid : Z) (pkt : list Z) : M dhcp (option Z * list Z) :=
  on_net (net_sleep fuel irq 20) ;;
  on_net net_poll ;;
  r ← on_net (net_recv_udp DHCP_PORT_CLI buf0 (Z.of_nat DHCP_PKT_SIZE + 8) 0 0);
  let n := (r : Z * list Z * Z * Z).1.1.1 in
  let buf := r.1.1.2 in
  if n <? Z.of_nat DHCP_PKT_SIZE then mret (None, pkt)
  else
    s ← get;
    q ← lift (parse_offer buf (offered_ip s) (offered_gw s) (offered_dns s));
    let '(type, srv, t) := (q : Z * Z * (Z * Z * Z)) in
    modify (set_offered t) ;;
    s ← get;
    if type =? DHCP_OFFER then
      on_log (serial_printf (line_of (str "[dhcp] OFFER received: %u.%u.%u.%u")) (quad (offered_ip s))) ;;
      pkt' ← lift (build_request pkt xid mac (offered_ip s) srv);
      on_net (net_send_udp fuel irq frame0 0xFFFFFFFF DHCP_PORT_CLI DHCP_PORT_SRV pkt' (Z.of_nat DHCP_PKT_SIZE)) ;;
      mret (None, pkt')
    else if type =? DHCP_ACK then
      on_log (serial_printf (line_of (str "[dhcp] ACK: IP=%u.%u.%u.%u GW=%u.%u.%u.%u")) (quad (offered_ip s) ++ quad (offered_gw s))) ;;
      mret (Some 0, pkt)
    else mret (None, pkt).

Fixpoint dhcp_loop (n : nat) (mac : list Z) (xid : Z) (pkt : list Z) : M dhcp Z :=
  match n with
  | O => mret (-1)
  | S n' =>
      r ← dhcp_turn mac xid pkt;
      match (r : option Z * list Z).1 with
      | Some v => mret v
      | None => dhcp_loop n' mac xid r.2
      end
  end.

Definition dhcp_request : M dhcp Z :=
  s ← get;
  if negb (net_ready (dnet s)) then mret (-1)
  else
    mac ← lift (net_get_mac (replicate 6 0) (dnet s));
    let xid := 0xDEAD0042 in
    pkt ← lift (build_discover pkt0 xid mac);
    on_net (net_send_udp fuel irq frame0 0xFFFFFFFF DHCP_PORT_CLI DHCP_PORT_SRV pkt (Z.of_nat DHCP_PKT_SIZE)) ;;
    on_log (serial_printf (line_of (str "[dhcp] DISCOVER sent")) []) ;;
    dhcp_loop 100 mac xid pkt.

Definition dhcp_get_ip (s : dhcp) : Z := offered_ip s.
Definition dhcp_get_gateway (s : dhcp) : Z := offered_gw s.
Definition dhcp_get_dns (s : dhcp) : Z := offered_dns s.
End dhcp.
Arguments dhcp D U H : clear implicits.

(** ** Names on the wire *)

(** The characters up to a dot or the end. *)
Fixpoint label_len (p : list Z) : res nat :=
  match p with
  | [] => Fault
  | c :: p' => if (c =? 0) || (c =? 46) then Ok O else n ← label_len p'; Ok (S n)
  end.
Fixpoint encode_labels (fuel : nat) (p out : list Z) (pos : nat) : res (list Z * nat) :=
  match p with
  | [] => Fault
  | c :: _ =>
      if c =? 0 then Ok (out, pos)
      else match fuel with
           | O => Timeout
           | S f =>
               n ← label_len p;
               out ← st8 pos (Z.of_nat n) out;
               out ← memcpy_at (S pos) p n out;
               d ← arr_get p (Z.of_nat n);
               encode_labels f (drop (if d =? 0 then n else S n) p) out (S pos + n)
           end
  end.
(** [out] is the object, [pos] where the name starts; the result is the length. *)
Definition encode_name (name out : list Z) (pos : nat) : res (list Z * nat) :=
  r ← encode_labels (length name) name out pos;
  out ← st8 (r : list Z * nat).2 0 r.1;
  Ok (out, S r.2 - pos)%nat.

(** ** Replies *)

(** [while (rpos < n && resp[rpos]) rpos += resp[rpos] + 1;], stopping at a compressed
    name in the question ([ptr]). *)
Fixpoint skip_labels (fuel : nat) (ptr : bool) (resp : list Z) (n rpos : Z) : res Z :=
  if rpos <? n then
    c ← arr_get resp rpos;
    if c =? 0 then Ok rpos
    else if ptr && (Z.land c 0xC0 =? 0xC0) then Ok (rpos + 2)
    else match fuel with
         | O => Timeout
         | S f => skip_labels f ptr resp n (rpos + c + 1)
         end
  else Ok rpos.

Fixpoint find_answer (count : nat) (resp : list Z) (n rpos : Z) : res (option Z) :=
  match count with
  | O => Ok None
  | S k =>
      if rpos + 12 <=? n then
        c ← arr_get resp rpos;
        rpos ← (if Z.land c 0xC0 =? 0xC0 then Ok (rpos + 2)
                else q ← skip_labels (Z.to_nat n) false resp n rpos; Ok (q + 1));
        t1 ← arr_get resp rpos; t2 ← arr_get resp (rpos + 1);
        l1 ← arr_get resp (rpos + 8); l2 ← arr_get resp (rpos + 9);
        let rtype := u16 (Z.lor (Z.shiftl t1 8) t2) in
        let rdlen := u16 (Z.lor (Z.shiftl l1 8) l2) in
        let rpos := rpos + 10 in
        if (rtype =? 1) && (rdlen =? 4) && (rpos + 4 <=? n) then a ← parse_ip resp rpos; Ok (Some a)
        else find_answer k resp n (rpos + rdlen)
      else Ok None
  end.

(** What a message of [n] bytes answers: [None] to wait for another one. *)
Definition parse_reply (resp : list Z) (n id : Z) : res (option Z) :=
  if n <? 12 then Ok None
  else
    i1 ← arr_get resp 0; i2 ← arr_get resp 1;
    if negb (u16 (Z.lor (Z.shiftl i1 8) i2) =? id) then Ok None
    else
      a1 ← arr_get resp 6; a2 ← arr_get resp 7;
      let ancount := u16 (Z.lor (Z.shiftl a1 8) a2) in
      if ancount =? 0 then Ok (Some 0)
      else
        rpos ← skip_labels (Z.to_nat n) true resp n 12;
        if n <=? rpos then Ok None
        else
          c ← arr_get resp rpos;
          let rpos := (if c =? 0 then rpos + 1 else rpos) + 4 in
          find_answer (Z.to_nat ancount) resp n rpos.

Section dns.
Context {D H : Type} `{Nic D} `{Allocator H}.
Variables (fuel : nat) (irq : timer H → res (timer H)) (frame0 resp0 : list Z).

Record dns := mkDns { ns_net : net D H; dns_server : Z; dns_id : Z }.
Definition set_ns (n : net D H) (s : dns) : dns := mkDns n (dns_server s) (dns_id s).
Definition on_wire {A} (m : M (net D H) A) : M dns A := λ s,
  match m (ns_net s) with
  | Ok (a, n) => Ok (a, set_ns n s)
  | Fault => Fault
  | Timeout => Timeout
  end.

Definition dns_init (server_ip : Z) : M dns unit := modify (λ s, mkDns (ns_net s) server_ip (dns_id s)).

Fixpoint dns_loop (n : nat) (id : Z) : M dns Z :=
  match n with
  | O => mret 0
  | S n' =>
      on_wire (net_sleep fuel irq 20) ;;
      on_wire net_poll ;;
      r ← on_wire (net_recv_udp 1053 resp0 512 0 0);
      a ← lift (parse_reply (r : Z * list Z * Z * Z).1.1.2 r.1.1.1 id);
      match a with
      | Some ip => mret ip
      | None => dns_loop n' id
      end
  end.

(** The question: a header of twelve bytes, the name, type A, class IN. *)
Definition dns_query (hostname : list Z) (id : Z) : res (list Z * Z) :=
  pkt ← kmemset (replicate 512 0) 0 512;
  pkt ← st8 0 (Z.shiftr id 8) pkt; pkt ← st8 1 (Z.land id 0xFF) pkt;
  pkt ← put_at 2 [1; 0; 0; 1; 0; 0; 0; 0; 0; 0] pkt;
  r ← encode_name hostname pkt 12;
  let pos := (12 + (r : list Z * nat).2)%nat in
  pkt ← put_at pos [0; 1; 0; 1] r.1;
  Ok (pkt, Z.of_nat (pos + 4)).

Definition dns_resolve (hostname : list Z) : M dns Z :=
  s ← get;
  if (dns_server s =? 0) || negb (net_ready (ns_net s)) then mret 0
  else
    let id := dns_id s in
    modify (λ s, mkDns (ns_net s) (dns_server s) (u16 (dns_id s + 1))) ;;
    q ← lift (dns_query hostname id);
    on_wire (net_send_udp fuel irq frame0 (dns_server s) 1053 53 (q : list Z * Z).1 (u16 q.2)) ;;
    dns_loop 50 id.
End dns.
Arguments dns D H : clear implicits.

(** ** Options *)

Definition opt := (Z * list Z)%type.
Definition encode_opt (x : opt) : list Z := x.1 :: Z.of_nat (length x.2) :: x.2.
Definition encode_opts (l : list opt) : list Z := x ← l; encode_opt x.

(** An option a server may send. *)
Definition opt_ok (x : opt) : Prop :=
  0 < x.1 < 255 ∧ (length x.2 < 256)%nat ∧ bytes x.2 ∧ (x.1 = 53 → x.2 ≠ []).

Definition ip_of (d : list Z) : Z :=
  match d with a :: b :: c :: e :: _ => a * 16777216 + b * 65536 + c * 256 + e | _ => 0 end.
(** What an option means to the client. *)
Definition apply_opt (o : offer) (x : opt) : offer :=
  let n := Z.of_nat (length x.2) in
  if x.1 =? 53 then mkOffer (default 0 (head x.2)) (srv_ip o) (o_gw o) (o_dns o)
  else if (x.1 =? 54) && (n =? 4) then mkOffer (msg_type o) (ip_of x.2) (o_gw o) (o_dns o)
  else if (x.1 =? 3) && (4 <=? n) then mkOffer (msg_type o) (srv_ip o) (ip_of x.2) (o_dns o)
  else if (x.1 =? 6) && (4 <=? n) then mkOffer (msg_type o) (srv_ip o) (o_gw o) (ip_of x.2)
  else o.

Lemma get_mid (pre d rest : list Z) (k : nat) x :
  d !! k = Some x → arr_get (pre ++ d ++ rest) (Z.of_nat (length pre) + Z.of_nat k) = Ok x.
Proof.
  intros Hk. rewrite <- Nat2Z.inj_add. apply arr_get_nat. rewrite lookup_app_r by lia.
  replace (length pre + k - length pre)%nat with k by lia. by apply lookup_app_l_Some.
Qed.

Lemma parse_ip_ok pre d rest :
  bytes d → (4 ≤ length d)%nat → parse_ip (pre ++ d ++ rest) (Z.of_nat (length pre)) = Ok (ip_of d).
Proof.
  intros Hd Hl. destruct d as [|a [|b [|c [|e d]]]]; cbn in Hl; try lia.
  apply Forall_cons in Hd as [Ha [Hb [Hc [He _]%Forall_cons]%Forall_cons]%Forall_cons]. unfold parse_ip, is_byte in *.
  pose proof (get_mid pre (a :: b :: c :: e :: d) rest 0 a eq_refl) as E0. cbn [Z.of_nat] in E0. rewrite Z.add_0_r in E0. rewrite E0.
  rewrite (get_mid pre (a :: b :: c :: e :: d) rest 1 b eq_refl : arr_get _ (Z.of_nat (length pre) + 1) = _).
  rewrite (get_mid pre (a :: b :: c :: e :: d) rest 2 c eq_refl : arr_get _ (Z.of_nat (length pre) + 2) = _).
  rewrite (get_mid pre (a :: b :: c :: e :: d) rest 3 e eq_refl : arr_get _ (Z.of_nat (length pre) + 3) = _).
  cbn [mbind res_bind ip_of]. f_equal. rewrite !Z.shiftl_mul_pow2 by lia.
  rewrite (lor_aligned 24 (a * 2 ^ 24)) by (try lia; by exists a).
  rewrite (lor_aligned 16 (a * 2 ^ 24 + b * 2 ^ 16)) by (try lia; exists (a * 256 + b); lia).
  rewrite (lor_aligned 8 (a * 2 ^ 24 + b * 2 ^ 16 + c * 2 ^ 8)) by (try lia; exists (a * 65536 + b * 256 + c); lia). lia.
Qed.

Lemma parse_opt_ok pre x rest o :
  opt_ok x →
  parse_opt (pre ++ x.2 ++ rest) x.1 (Z.of_nat (length x.2)) (Z.of_nat (length pre)) o = Ok (apply_opt o x).
Proof.
  destruct x as [t d]. intros (Ht & Hl & Hb & H53). cbn [fst snd] in *. unfold parse_opt, apply_opt. cbn [fst snd].
  destruct (Z.eqb_spec t 53) as [E|_].
  { destruct d as [|x d]; [by destruct H53|]. pose proof (get_mid pre (x :: d) rest 0 x eq_refl) as Hg.
    cbn [Z.of_nat] in Hg. rewrite Z.add_0_r in Hg. by rewrite Hg. }
  destruct (Z.eqb_spec t 54); cbn [andb].
  { destruct (Z.eqb_spec (Z.of_nat (length d)) 4); [rewrite parse_ip_ok by (done || lia); done|].
    repeat case_if; try done; lia. }
  destruct (Z.eqb_spec t 3); cbn [andb].
  { destruct (Z.leb_spec 4 (Z.of_nat (length d))); [rewrite parse_ip_ok by (done || lia); done|].
    repeat case_if; try done; lia. }
  destruct (Z.eqb_spec t 6); cbn [andb]; [|done].
  destruct (Z.leb_spec 4 (Z.of_nat (length d))); [rewrite parse_ip_ok by (done || lia); done|done].
Qed.

Lemma parse_opts_ok n l pre rest o :
  Forall opt_ok l → (length l ≤ n)%nat → (240 ≤ length pre)%nat →
  Z.of_nat (length pre) - 240 + Z.of_nat (length (encode_opts l)) ≤ 308 →
  parse_opts n (pre ++ encode_opts l ++ 255 :: rest) (Z.of_nat (length pre)) o = Ok (foldl apply_opt o l).
Proof.
  revert n pre o. induction l as [|x l IH]; intros n pre o Hl Hn Hp Hlen.
  - change (encode_opts [] ++ 255 :: rest) with ([255] ++ rest). pose proof (get_mid pre [255] rest 0 255 eq_refl) as E.
    cbn [Z.of_nat] in E. rewrite Z.add_0_r in E. destruct n; cbn [parse_opts]; rewrite E; done.
  - apply Forall_cons in Hl as [Hx Hl]. pose proof Hx as (Ht & Hxl & Hb & _). destruct n as [|n]; [cbn in Hn; lia|].
    change (encode_opts (x :: l)) with (encode_opt x ++ encode_opts l) in *. rewrite length_app in Hlen.
    unfold encode_opt at 1 in Hlen. cbn [length] in Hlen.
    set (d := encode_opt x ++ encode_opts l ++ 255 :: rest).
    assert ((encode_opt x ++ encode_opts l) ++ 255 :: rest = d) as Ed by (unfold d; by rewrite <- app_assoc). rewrite Ed.
    pose proof (get_mid pre d [] 0 x.1 eq_refl) as E0. pose proof (get_mid pre d [] 1 (Z.of_nat (length x.2)) eq_refl) as E1.
    rewrite app_nil_r in E0, E1. cbn [Z.of_nat] in E0. rewrite Z.add_0_r in E0.
    cbn [parse_opts]. rewrite E0. cbn [mbind res_bind]. rewrite (proj2 (Z.eqb_neq x.1 255)) by lia. cbn [negb andb].
    rewrite (proj2 (Z.ltb_lt _ 308)) by lia. rewrite (proj2 (Z.eqb_neq x.1 0)) by lia.
    change (Z.of_nat 1) with 1 in E1. rewrite E1. cbn [mbind res_bind].
    assert (pre ++ d = (pre ++ [x.1; Z.of_nat (length x.2)]) ++ x.2 ++ encode_opts l ++ 255 :: rest) as Ep
      by (unfold d, encode_opt; by rewrite <- !app_assoc).
    replace (Z.of_nat (length pre) + 2) with (Z.of_nat (length (pre ++ [x.1; Z.of_nat (length x.2)]))) by (rewrite length_app; cbn; lia).
    rewrite Ep at 1. rewrite parse_opt_ok by done. cbn [mbind res_bind foldl].
    assert (pre ++ d = (pre ++ encode_opt x) ++ encode_opts l ++ 255 :: rest) as -> by (unfold d; by rewrite <- app_assoc).
    replace (Z.of_nat (length (pre ++ [x.1; Z.of_nat (length x.2)])) + Z.of_nat (length x.2))
      with (Z.of_nat (length (pre ++ encode_opt x))) by (unfold encode_opt; rewrite !length_app; cbn; lia).
    apply IH; [done|cbn in Hn; lia|rewrite length_app; lia|]. rewrite length_app. unfold encode_opt. cbn [length]. lia.
Qed.

(** The client understands a server's answer. A packet with the magic number whose
    options are any well-formed sequence ending within the option area is parsed to
    its end: the message type, the server, the gateway and the resolver are those of
    the last such options, the offered address is the packet's, and nothing changes
    for other message types but gateway and resolver. *)
Theorem dhcp_offer_parsed hdr yi mid l rest ip gw dns :
  length hdr = 16%nat → length mid = 216%nat → is_u32 yi → Forall opt_ok l →
  Z.of_nat (length (encode_opts l)) ≤ 308 →
  let o := foldl apply_opt (mkOffer 0 0 gw dns) l in
  let good := (msg_type o =? DHCP_OFFER) || (msg_type o =? DHCP_ACK) in
  parse_offer (hdr ++ be32 yi ++ mid ++ be32 DHCP_MAGIC ++ encode_opts l ++ 255 :: rest) ip gw dns =
  Ok (if good then msg_type o else 0, srv_ip o, (if good then yi else ip, o_gw o, o_dns o)).
Proof.
  intros Hh Hm Hyi Hl Hlen o good. set (tl := encode_opts l ++ 255 :: rest).
  set (pre := hdr ++ be32 yi ++ mid ++ be32 DHCP_MAGIC).
  assert (length pre = 240%nat) as Hpre by (unfold pre; rewrite !length_app, Hh, Hm; done).
  assert (hdr ++ be32 yi ++ mid ++ be32 DHCP_MAGIC ++ tl = pre ++ tl) as E by (unfold pre; by rewrite <- !app_assoc).
  assert (∀ (a b : list Z) v (i : Z), i = Z.of_nat (length a) → pre ++ tl = a ++ be32 v ++ b →
    ld32 i (pre ++ tl) = Ok (v / 16777216 mod 256 + 256 * (v / 65536 mod 256) + 65536 * (v / 256 mod 256 + 256 * (v mod 256)))) as Hld.
  { intros a b v i -> ->. unfold ld32, ld16.
    pose proof (λ k x, get_mid a (be32 v) b k x) as G.
    pose proof (G 0%nat _ eq_refl) as G0. pose proof (G 1%nat _ eq_refl) as G1.
    pose proof (G 2%nat _ eq_refl) as G2. pose proof (G 3%nat _ eq_refl) as G3.
    change (Z.of_nat 0) with 0 in G0. change (Z.of_nat 1) with 1 in G1. change (Z.of_nat 2) with 2 in G2.
    change (Z.of_nat 3) with 3 in G3. rewrite Z.add_0_r in G0.
    replace (Z.of_nat (length a) + 2 + 1) with (Z.of_nat (length a) + 3) by lia.
    by rewrite G0, G1, G2, G3. }
  fold tl. rewrite E. unfold parse_offer.
  rewrite (Hld (hdr ++ be32 yi ++ mid) tl DHCP_MAGIC 236); [|by rewrite !length_app, Hh, Hm|unfold pre; by rewrite <- !app_assoc].
  cbn [mbind res_bind]. rewrite htonl_be32 by (unfold DHCP_MAGIC; lia). rewrite Z.eqb_refl. cbn [negb].
  replace 240 with (Z.of_nat (length pre)) by lia. change (pre ++ tl) with (pre ++ encode_opts l ++ 255 :: rest).
  assert (∀ m : list opt, (2 * length m ≤ length (encode_opts m))%nat) as Hcount.
  { induction m as [|x m IH]; [done|]. change (encode_opts (x :: m)) with (encode_opt x ++ encode_opts m).
    rewrite length_app. unfold encode_opt. cbn [length]. lia. }
  rewrite parse_opts_ok; [|done|specialize (Hcount l); lia|lia|lia]. cbn [mbind res_bind]. fold o. fold good.
  destruct good; [|done]. fold tl.
  rewrite (Hld hdr (mid ++ be32 DHCP_MAGIC ++ tl) yi 16); [|by rewrite Hh|unfold pre; by rewrite <- !app_assoc].
  cbn [mbind res_bind]. by rewrite htonl_be32.
Qed.

(** A length byte is believed even when it leads past the packet, which the loop then
    reads: two options are enough to leave the 556 bytes of the receive buffer. *)
Example dhcp_length_overread :
  parse_offer (replicate 236 0 ++ be32 DHCP_MAGIC ++ [1; 255] ++ replicate 255 0 ++ [1; 255] ++ replicate 57 0) 0 0 0 = Fault.
Proof. vm_compute. reflexivity. Qed.

(** ** Names *)

Fixpoint join (ls : list (list Z)) : list Z :=
  match ls with
  | [] => []
  | [l] => l
  | l :: ls' => l ++ 46 :: join ls'
  end.
Definition wire_labels (ls : list (list Z)) : list Z := l ← ls; Z.of_nat (length l) :: l.
Definition wire_name (ls : list (list Z)) : list Z := wire_labels ls ++ [0].

Definition label_ok (l : list Z) : Prop :=
  l ≠ [] ∧ (length l < 64)%nat ∧ Forall (λ c, c ≠ 0 ∧ c ≠ 46) l.

Lemma label_len_ok l c rest :
  Forall (λ c, c ≠ 0 ∧ c ≠ 46) l → c = 0 ∨ c = 46 → label_len (l ++ c :: rest) = Ok (length l).
Proof.
  intros Hl Hc. induction Hl as [|x l [H0 H46] _ IH]; cbn [app label_len length].
  - by destruct Hc as [->| ->].
  - rewrite (proj2 (Z.eqb_neq x 0)), (proj2 (Z.eqb_neq x 46)) by done. cbn [orb]. by rewrite IH.
Qed.

Lemma encode_labels_ok ls fuel tl pre old post :
  Forall label_ok ls → (length ls ≤ fuel)%nat → length old = length (wire_labels ls) →
  encode_labels fuel (join ls ++ 0 :: tl) (pre ++ old ++ post) (length pre) =
  Ok (pre ++ wire_labels ls ++ post, (length pre + length (wire_labels ls))%nat).
Proof.
  revert fuel pre old. induction ls as [|l ls IH]; intros fuel pre old Hls Hf Ho.
  - apply nil_length_inv in Ho as ->. destruct fuel; cbn; by rewrite Nat.add_0_r.
  - apply Forall_cons in Hls as [(Hne & Hl64 & Hl) Hls]. destruct fuel as [|fuel]; [cbn in Hf; lia|].
    change (wire_labels (l :: ls)) with ((Z.of_nat (length l) :: l) ++ wire_labels ls) in *. rewrite length_app in Ho.
    assert (∃ c p', join (l :: ls) ++ 0 :: tl = l ++ c :: p' ∧ (c = 0 ∧ ls = [] ∨ c = 46 ∧ p' = join ls ++ 0 :: tl)) as (c & p' & Ej & Hc).
    { destruct ls as [|l' ls]; [exists 0, tl; cbn; by split; [|left]|].
      exists 46, (join (l' :: ls) ++ 0 :: tl). split; [cbn; by rewrite <- app_assoc|by right]. }
    rewrite Ej. destruct l as [|x l]; [done|]. pose proof Hl as [[Hx0 Hx46] _]%Forall_cons.
    cbn [app encode_labels]. rewrite (proj2 (Z.eqb_neq x 0)) by done.
    change (x :: l ++ c :: p') with ((x :: l) ++ c :: p'). rewrite label_len_ok by (done || (destruct Hc as [[-> _]|[-> _]]; auto)).
    cbn [mbind res_bind]. set (m := length (x :: l)) in *.
    rewrite <- (take_drop 1 old), <- (take_drop m (drop 1 old)). rewrite drop_drop.
    set (o1 := take 1 old). set (o2 := take m (drop 1 old)). set (o3 := drop (1 + m) old).
    assert (length o1 = 1%nat ∧ length o2 = m ∧ length o3 = length (wire_labels ls)) as (L1 & L2 & L3).
    { unfold o1, o2, o3. rewrite !length_take, !length_drop. cbn [length] in Ho. unfold m in *. cbn [length] in *. lia. }
    unfold st8. rewrite <- !app_assoc. rewrite put_at_app by done. cbn [mbind res_bind].
    rewrite u8_small by (unfold m in *; cbn [length] in *; lia).
    rewrite (app_assoc pre). rewrite (memcpy_at_app _ _ _ _ o2 _ (x :: l)); [|rewrite length_app; cbn; lia|done|by apply take_app_length|done].
    cbn [mbind res_bind]. rewrite (arr_get_nat _ m c) by (unfold m; by apply list_lookup_middle). cbn [mbind res_bind].
    assert (drop (if c =? 0 then m else S m) ((x :: l) ++ c :: p') = join ls ++ 0 :: tl ∨ ls = [] ∧ c = 0) as Hd.
    { destruct Hc as [[-> ->]|[-> ->]]; [by right|left]. cbn [Z.eqb]. replace (S m) with (m + 1)%nat by lia.
      rewrite <- drop_drop. unfold m. by rewrite drop_app_length. }
    specialize (IH fuel ((pre ++ [Z.of_nat m]) ++ x :: l) o3 Hls ltac:(cbn in Hf; lia) L3).
    rewrite !length_app in IH. cbn [length] in IH.
    replace (S (length pre) + m)%nat with (length pre + 1 + S (length l))%nat by (unfold m; cbn; lia).
    destruct Hd as [Hd|[-> ->]].
    + rewrite Hd. rewrite <- !app_assoc in *. rewrite IH. f_equal. f_equal. cbn [length]. rewrite length_app. cbn [length]. lia.
    + apply nil_length_inv in L3. rewrite L3 in *. cbn [Z.eqb]. unfold m. rewrite drop_app_length.
      destruct fuel; cbn [encode_labels Z.eqb]; rewrite <- !app_assoc; cbn [wire_labels mbind list_bind length];
        rewrite ?app_nil_r; (do 2 f_equal; cbn; lia).
Qed.

Lemma wire_name_length ls : length (wire_name ls) = S (length (wire_labels ls)).
Proof. unfold wire_name. rewrite length_app. cbn. lia. Qed.

Lemma join_length ls : Forall label_ok ls → (length ls ≤ length (join ls))%nat.
Proof.
  induction 1 as [|l ls (Hne & _) Hls IH]; [done|]. destruct l as [|x l]; [done|]. destruct ls as [|l' ls].
  - cbn. lia.
  - change (join ((x :: l) :: l' :: ls)) with ((x :: l) ++ 46 :: join (l' :: ls)). rewrite length_app. cbn [length] in *. lia.
Qed.

(** A host name is written as its labels, each after its length. *)
Lemma encode_name_ok ls tl pre old post :
  Forall label_ok ls → length old = length (wire_name ls) →
  encode_name (join ls ++ 0 :: tl) (pre ++ old ++ post) (length pre) =
  Ok (pre ++ wire_name ls ++ post, length (wire_name ls)).
Proof.
  intros Hls Ho. unfold encode_name. rewrite wire_name_length in *.
  rewrite <- (take_drop (length (wire_labels ls)) old). rewrite <- app_assoc.
  rewrite encode_labels_ok; [|done|rewrite length_app; pose proof (join_length ls Hls); lia|rewrite length_take; lia].
  cbn [mbind res_bind fst snd]. unfold st8. rewrite app_assoc.
  rewrite (put_at_app _ _ (pre ++ wire_labels ls)); [|by rewrite length_app|rewrite length_drop; cbn; lia].
  cbn [mbind res_bind]. f_equal. f_equal; [unfold wire_name; by rewrite <- !app_assoc|lia].
Qed.

(** The parser of replies passes over a name to its end. *)
Lemma skip_labels_ok ls fuel ptr pre post n :
  Forall label_ok ls → (length ls ≤ fuel)%nat →
  Z.of_nat (length pre + length (wire_labels ls)) < n →
  skip_labels fuel ptr (pre ++ wire_name ls ++ post) n (Z.of_nat (length pre)) =
  Ok (Z.of_nat (length pre + length (wire_labels ls))).
Proof.
  unfold wire_name. revert fuel pre. induction ls as [|l ls IH]; intros fuel pre Hls Hf Hn.
  - cbn [wire_labels mbind list_bind app length] in *. rewrite Nat.add_0_r in *.
    pose proof (get_mid pre [0] post 0 0 eq_refl) as E. change (Z.of_nat 0) with 0 in E. rewrite Z.add_0_r in E. cbn [app] in E.
    destruct fuel; cbn [skip_labels]; rewrite (proj2 (Z.ltb_lt _ _)) by lia; rewrite E; done.
  - apply Forall_cons in Hls as [(Hne & H64 & Hl) Hls]. destruct fuel as [|fuel]; [cbn in Hf; lia|].
    assert (0 < length l)%nat by (destruct l; [done|cbn; lia]).
    change (wire_labels (l :: ls)) with ((Z.of_nat (length l) :: l) ++ wire_labels ls) in *. rewrite length_app in *. cbn [length] in *.
    cbn [skip_labels]. rewrite (proj2 (Z.ltb_lt _ _)) by lia. rewrite <- app_assoc.
    set (tl := wire_labels ls ++ [0]) in IH |- *.
    assert (pre ++ ((Z.of_nat (length l) :: l) ++ wire_labels ls) ++ [0] ++ post = (pre ++ Z.of_nat (length l) :: l) ++ tl ++ post) as E
      by (unfold tl; by rewrite <- !app_assoc).
    rewrite E. clear E. rewrite <- (app_assoc pre).
    pose proof (get_mid pre (Z.of_nat (length l) :: l) (tl ++ post) 0 _ eq_refl) as Eg. change (Z.of_nat 0) with 0 in Eg. rewrite Z.add_0_r in Eg.
    rewrite Eg. cbn [mbind res_bind]. rewrite (proj2 (Z.eqb_neq _ 0)) by lia.
    assert ((Z.land (Z.of_nat (length l)) 0xC0 =? 0xC0) = false) as ->.
    { assert (Z.of_nat (length l) ∈ seqZ 0 64) as Hin by (apply elem_of_seqZ; lia). revert Hin.
      generalize (Z.of_nat (length l)). apply Forall_forall. by vm_compute; repeat constructor. }
    rewrite andb_false_r. rewrite (app_assoc pre).
    replace (Z.of_nat (length pre) + Z.of_nat (length l) + 1) with (Z.of_nat (length (pre ++ Z.of_nat (length l) :: l)))
      by (rewrite length_app; cbn [length]; lia).
    unfold tl. rewrite IH; [|done|lia|rewrite length_app; cbn [length]; lia].
    f_equal. rewrite length_app. cbn [length]. lia.
Qed.

(** The query for [ls] and a reply with one address record for it. *)
Definition query_of (id : Z) (ls : list (list Z)) : list Z :=
  be16 id ++ [1; 0; 0; 1; 0; 0; 0; 0; 0; 0] ++ wire_name ls ++ [0; 1; 0; 1].
Definition reply_of (id ip : Z) (flags ttl : list Z) (ls : list (list Z)) : list Z :=
  be16 id ++ flags ++ [0; 1; 0; 1; 0; 0; 0; 0] ++ wire_name ls ++ [0; 1; 0; 1] ++
  [0xC0; 12; 0; 1; 0; 1] ++ ttl ++ [0; 4] ++ be32 ip.

Lemma u16_pair a b : is_byte a → is_byte b → u16 (Z.lor (Z.shiftl a 8) b) = b + 256 * a.
Proof.
  unfold is_byte. intros. rewrite Z.shiftl_mul_pow2 by lia. rewrite (lor_aligned 8) by (try lia; by exists a).
  rewrite u16_small by lia. lia.
Qed.

Lemma query_bytes id : is_u16 id → [u8 (Z.shiftr id 8); u8 (Z.land id 0xFF)] = be16 id.
Proof.
  intros. unfold be16, u8. rewrite Z.shiftr_div_pow2 by lia. change 0xFF with (2 ^ 8 - 1). rewrite land_low by lia.
  change (2 ^ 8) with 256. by rewrite Zmod_mod.
Qed.

Lemma dns_query_ok id ls tl :
  is_u16 id → Forall label_ok ls → (length (wire_name ls) ≤ Z.to_nat 496)%nat →
  ∃ pad, dns_query (join ls ++ 0 :: tl) id = Ok (query_of id ls ++ pad, Z.of_nat (length (query_of id ls))).
Proof.
  intros Hid Hls Hlen. unfold dns_query. rewrite kmemset_fill by (rewrite length_replicate; lia).
  rewrite drop_ge by (rewrite length_replicate; lia). rewrite app_nil_r. change (u8 0) with 0. cbn [mbind res_bind].
  set (w := length (wire_name ls)) in *.
  assert (replicate 512 0 = [0] ++ [0] ++ replicate 10 0 ++ replicate w 0 ++ replicate 4 0 ++ replicate (Z.to_nat 496 - w) 0) as ->.
  { change [0] with (replicate 1 0). rewrite <- !replicate_add. f_equal. lia. }
  unfold st8.
  assert (∀ v r, put_at 0 [v] ([0] ++ r) = Ok (v :: r)) as -> by done. cbn [mbind res_bind].
  assert (∀ x v r, put_at 1 [v] (x :: [0] ++ r) = Ok (x :: v :: r)) as -> by done. cbn [mbind res_bind].
  assert (∀ r, u8 (Z.shiftr id 8) :: u8 (Z.land id 255) :: r = be16 id ++ r) as Eb by (intros r; rewrite <- query_bytes by done; done).
  rewrite Eb. rewrite (put_at_app 2 _ (be16 id) (replicate 10 0)) by done. cbn [mbind res_bind].
  rewrite app_assoc.
  rewrite (encode_name_ok ls tl (be16 id ++ [1; 0; 0; 1; 0; 0; 0; 0; 0; 0]) (replicate w 0)); [|done|apply length_replicate].
  cbn [mbind res_bind fst snd]. rewrite app_assoc.
  rewrite (put_at_app _ _ _ (replicate 4 0)); [|rewrite !length_app; cbn; lia|done]. cbn [mbind res_bind].
  eexists. f_equal. f_equal; [unfold query_of; by rewrite <- !app_assoc|]. unfold query_of. rewrite !length_app. cbn. unfold w. lia.
Qed.

Lemma dns_reply_ok id ip flags ttl ls post :
  is_u16 id → is_u32 ip → length flags = 2%nat → length ttl = 4%nat → Forall label_ok ls →
  let r := reply_of id ip flags ttl ls in
  parse_reply (r ++ post) (Z.of_nat (length r)) id = Ok (Some ip).
Proof.
  intros Hid Hip Hf Ht Hls r. unfold parse_reply.
  set (h := be16 id ++ flags ++ [0; 1; 0; 1; 0; 0; 0; 0]).
  set (w := wire_name ls). set (q := [0; 1; 0; 1]). set (a := [0xC0; 12; 0; 1; 0; 1] ++ ttl ++ [0; 4]).
  assert (length h = 12%nat) as Hh by (unfold h; rewrite !length_app, Hf; done).
  assert (length a = 12%nat) as Ha by (unfold a; rewrite !length_app, Ht; done).
  assert (r = h ++ w ++ q ++ a ++ be32 ip) as Er by (unfold r, reply_of, h, w, q, a; by rewrite <- !app_assoc).
  assert (Z.of_nat (length r) = 12 + Z.of_nat (length w) + 20) as Hr.
  { rewrite Er, !length_app, Hh, Ha. change (length q) with 4%nat. change (length (be32 ip)) with 4%nat. lia. }
  rewrite Hr. set (n := 12 + Z.of_nat (length w) + 20). rewrite (proj2 (Z.ltb_ge n 12)) by lia.
  set (rest := q ++ a ++ be32 ip ++ post).
  assert (r ++ post = h ++ w ++ rest) as E by (rewrite Er; unfold rest; by rewrite <- !app_assoc). rewrite E.
  assert (∀ k x, h !! k = Some x → arr_get (h ++ w ++ rest) (Z.of_nat k) = Ok x) as Gh.
  { intros k x Hk. apply (get_mid [] h (w ++ rest) k x Hk). }
  explode flags. rewrite (Gh 0%nat _ eq_refl : arr_get _ 0 = _), (Gh 1%nat _ eq_refl : arr_get _ 1 = _). cbn [mbind res_bind].
  rewrite u16_pair by apply mod_byte. rewrite le16_ld, Z.eqb_refl by done. cbn [negb].
  rewrite (Gh 6%nat 0 eq_refl : arr_get _ 6 = _), (Gh 7%nat 1 eq_refl : arr_get _ 7 = _). cbn [mbind res_bind].
  change (u16 _) with 1. change (1 =? 0) with false. cbn iota.
  assert (length w = S (length (wire_labels ls))) as Hw by apply wire_name_length.
  replace 12 with (Z.of_nat (length h)) by lia. unfold w.
  rewrite skip_labels_ok; [|done| |lia].
  2:{ assert (∀ m, Forall label_ok m → (length m ≤ length (wire_labels m))%nat) as Hc; [|specialize (Hc ls Hls); lia].
      induction 1 as [|l m Hl _ IH]; [done|]. change (wire_labels (l :: m)) with ((Z.of_nat (length l) :: l) ++ wire_labels m).
      rewrite length_app. cbn [length]. lia. }
  cbn [mbind res_bind]. rewrite (proj2 (Z.leb_gt n _)) by lia.
  assert (arr_get (h ++ wire_name ls ++ rest) (Z.of_nat (length h + length (wire_labels ls))) = Ok 0) as ->.
  { rewrite Nat2Z.inj_add. apply get_mid. unfold wire_name. by apply list_lookup_middle. }
  cbn [mbind res_bind]. change (0 =? 0) with true. cbn iota. change (Z.to_nat 1) with 1%nat. cbn [find_answer].
  set (p := h ++ wire_name ls ++ q). assert (h ++ wire_name ls ++ rest = p ++ a ++ be32 ip ++ post) as -> by (unfold p, rest; by rewrite <- !app_assoc).
  assert (Z.of_nat (length h + length (wire_labels ls)) + 1 + 4 = Z.of_nat (length p)) as Hp.
  { unfold p. rewrite !length_app. change (length q) with 4%nat. fold w. lia. }
  rewrite Hp. assert (Z.of_nat (length p) = n - 16) as Hpn.
  { rewrite <- Hp. unfold n. lia. }
  rewrite (proj2 (Z.leb_le _ n)) by lia.
  assert (∀ k x, a !! k = Some x → arr_get (p ++ a ++ be32 ip ++ post) (Z.of_nat (length p) + Z.of_nat k) = Ok x) as Ga by (intros; by apply get_mid).
  pose proof (Ga 0%nat _ eq_refl) as E0. change (Z.of_nat 0) with 0 in E0. rewrite Z.add_0_r in E0. rewrite E0. cbn [mbind res_bind].
  change (Z.land 192 192 =? 192) with true. cbn iota. explode ttl.
  cbn [mbind res_bind].
  replace (Z.of_nat (length p) + 2 + 1) with (Z.of_nat (length p) + 3) by lia.
  replace (Z.of_nat (length p) + 2 + 8) with (Z.of_nat (length p) + 10) by lia.
  replace (Z.of_nat (length p) + 2 + 9) with (Z.of_nat (length p) + 11) by lia.
  rewrite (Ga 2%nat 0 eq_refl : arr_get _ (_ + 2) = _), (Ga 3%nat 1 eq_refl : arr_get _ (_ + 3) = _). cbn [mbind res_bind].
  rewrite (Ga 10%nat 0 eq_refl : arr_get _ (_ + 10) = _), (Ga 11%nat 4 eq_refl : arr_get _ (_ + 11) = _). cbn [mbind res_bind].
  change (u16 (Z.lor (Z.shiftl 0 8) 1) =? 1) with true. change (u16 (Z.lor (Z.shiftl 0 8) 4) =? 4) with true.
  rewrite (proj2 (Z.leb_le _ n)) by lia. cbn [andb].
  replace (Z.of_nat (length p) + 2 + 10) with (Z.of_nat (length (p ++ a))) by (rewrite length_app; lia).
  rewrite app_assoc, parse_ip_ok; [|apply Forall_forall; intros y; unfold be32; rewrite !elem_of_cons; intros [->|[->|[->|[->|Hy]]]]; try apply mod_byte; by apply not_elem_of_nil in Hy|done].
  cbn [mbind res_bind be32 ip_of]. do 2 f_equal. pose proof (word_bytes ip Hip). lia.
Qed.

(** C23: a name survives the way to the server and the answer is found. [dns_resolve]
    asks for exactly the labels of the host name (of up to 63 characters each, 496
    bytes in all); in a reply that repeats the question and carries an address record
    for it, the parser passes over the name it wrote and returns that address,
    whatever follows the message. *)
Theorem dns_query_reply id ls tl ip flags ttl post :
  is_u16 id → Forall label_ok ls → (length (wire_name ls) ≤ Z.to_nat 496)%nat →
  is_u32 ip → length flags = 2%nat → length ttl = 4%nat →
  let r := reply_of id ip flags ttl ls in
  (∃ pad, dns_query (join ls ++ 0 :: tl) id = Ok (query_of id ls ++ pad, Z.of_nat (length (query_of id ls)))) ∧
  parse_reply (r ++ post) (Z.of_nat (length r)) id = Ok (Some ip).
Proof. intros. split; [by apply dns_query_ok|by apply dns_reply_ok]. Qed.

(** ** Witnesses *)

Lemma dhcp_offer_parsed_witness :
  parse_offer (replicate 16 0 ++ be32 (NET_IP 10 0 2 16) ++ replicate 216 0 ++ be32 DHCP_MAGIC ++
    encode_opts [(53, [2]); (54, [10; 0; 2; 2]); (3, [10; 0; 2; 2])] ++ 255 :: replicate 30 0) 0 0 0 =
  Ok (DHCP_OFFER, NET_IP 10 0 2 2, (NET_IP 10 0 2 16, NET_IP 10 0 2 2, 0)).
Proof.
  apply (dhcp_offer_parsed (replicate 16 0) (NET_IP 10 0 2 16) (replicate 216 0) [(53, [2]); (54, [10; 0; 2; 2]); (3, [10; 0; 2; 2])]
    (replicate 30 0) 0 0 0); [done|done| | |vm_compute; congruence].
  - unfold is_u32. vm_compute. split; congruence.
  - repeat (apply Forall_cons; split); try (by apply Forall_nil); unfold opt_ok; cbn [fst snd length]; split_and!; try lia; try done;
      repeat (apply Forall_cons; split); try (by apply Forall_nil); unfold is_byte; lia.
Defined.

Lemma dns_query_reply_witness :
  parse_reply (reply_of 1 (NET_IP 1 2 3 4) [0x81; 0x80] [0; 0; 1; 0] [str "kum"; str "os"] ++ []) 40 1 = Ok (Some (NET_IP 1 2 3 4)).
Proof.
  apply (dns_query_reply 1 [str "kum"; str "os"] [] (NET_IP 1 2 3 4) [0x81; 0x80] [0; 0; 1; 0] []);
    [unfold is_u16; lia| |by apply Nat.leb_le; vm_compute|unfold is_u32; vm_compute; split; congruence|done|done].
  repeat (apply Forall_cons; split); try (by apply Forall_nil); (split_and!; [done|by apply Nat.ltb_lt|]);
    vm_compute; repeat (apply Forall_cons; split); try (by apply Forall_nil); done.
Defined.
