(* ===== verification/Libc.v ===== *)
(** * The C library of user programs (src/user/kumos_libc.h)

    Strings, numbers, sorting, tokens and formatted output.  As in KString.v a pointer
    is the list of bytes from it to the end of its object.  Functions that work inside
    one object ([memmove], [strtok_r]) take the object and offsets into it.  What
    [printf] and its relatives do with the formatted text is left to their callers:
    the definitions return the buffer and its length. *)

From stdpp Require Import sorting.
From S2P Require Import Prelude KString Vga Dmesg.

(** ** Strings and memory *)

(** The loops of [strlen], [strcmp], [strncmp], [strcpy], [strcat], [memset] and
    [memcpy] are those of the kernel's string library. *)
Definition strlen (s : list Z) : res Z := kstrlen s.
Definition strcmp (a b : list Z) : res Z := kstrcmp a b.
Definition strncmp (a b : list Z) (n : nat) : res Z := kstrncmp a b n.
Definition strcpy (d s : list Z) : res (list Z) := kstrcpy d s.
Definition strcat (d s : list Z) : res (list Z) := kstrcat d s.
Definition memset (s : list Z) (c : Z) (n : nat) : res (list Z) := kmemset s c n.
Definition memcpy (d s : list Z) (n : nat) : res (list Z) := kmemcpy d s n.

(** The second loop, [while (n-- != (size_t)-1)], runs once more than bytes are left. *)
Fixpoint strncpy (d s : list Z) (n : nat) {struct n} : res (list Z) :=
  match n with
  | O => Ok d
  | S n' =>
      match s, d with
      | c :: s', _ :: d' =>
          if c =? 0 then r ← memset d' 0 (S n'); Ok (0 :: r)
          else r ← strncpy d' s' n'; Ok (c :: r)
      | _, _ => Fault
      end
  end.

(** After a NUL was copied another one is stored behind it. *)
Fixpoint strncat_copy (d s : list Z) (n : nat) {struct n} : res (list Z) :=
  match n with
  | O => match d with [] => Fault | _ :: d' => Ok (0 :: d') end
  | S n' =>
      match s, d with
      | c :: s', _ :: d' =>
          if c =? 0 then match d' with [] => Fault | _ :: d'' => Ok (0 :: 0 :: d'') end
          else r ← strncat_copy d' s' n'; Ok (c :: r)
      | _, _ => Fault
      end
  end.
Fixpoint strncat (d s : list Z) (n : nat) : res (list Z) :=
  match d with
  | [] => Fault
  | x :: d' => if x =? 0 then strncat_copy d s n else r ← strncat d' s n; Ok (x :: r)
  end.

(** Unlike the kernel's, it does not find the terminator. *)
Fixpoint strchr (s : list Z) (c : Z) : res (option Z) :=
  match s with
  | [] => Fault
  | x :: s' =>
      if x =? 0 then Ok None
      else if x =? u8 c then Ok (Some 0)
      else r ← strchr s' c; Ok (option_map (λ k, k + 1) r)
  end.

Fixpoint memcmp (a b : list Z) (n : nat) {struct n} : res Z :=
  match n with
  | O => Ok 0
  | S n' =>
      match a, b with
      | x :: a', y :: b' => if x =? y then memcmp a' b' n' else Ok (x - y)
      | _, _ => Fault
      end
  end.

(** [h] starts with [n]: the inner loop of [strstr]. *)
Fixpoint starts (h n : list Z) {struct n} : res bool :=
  match n with
  | [] => Fault
  | y :: n' =>
      if y =? 0 then Ok true
      else match h with
           | [] => Fault
           | x :: h' => if (x =? 0) || negb (x =? y) then Ok false else starts h' n'
           end
  end.
Fixpoint strstr_loop (hay needle : list Z) (i : Z) : res (option Z) :=
  match hay with
  | [] => Fault
  | c :: hay' =>
      if c =? 0 then Ok None
      else b ← starts hay needle;
           if (b : bool) then Ok (Some i) else strstr_loop hay' needle (i + 1)
  end.
Definition strstr (hay needle : list Z) : res (option Z) :=
  n0 ← arr_get needle 0;
  if n0 =? 0 then Ok (Some 0) else strstr_loop hay needle 0.

(** Inside one object: [n] bytes from offset [s] to offset [d]. *)
Fixpoint move_up (n : nat) (buf : list Z) (d s : Z) : res (list Z) :=
  match n with
  | O => Ok buf
  | S n' => c ← arr_get buf s; b ← arr_set buf d c; move_up n' b (d + 1) (s + 1)
  end.
Fixpoint move_down (n : nat) (buf : list Z) (d s : Z) : res (list Z) :=
  match n with
  | O => Ok buf
  | S n' => c ← arr_get buf (s + Z.of_nat n'); b ← arr_set buf (d + Z.of_nat n') c; move_down n' b d s
  end.
Definition memmove (buf : list Z) (d s : Z) (n : nat) : res (list Z) :=
  if (d <? s) || (s + Z.of_nat n <=? d) then move_up n buf d s else move_down n buf d s.

(** ** Characters and numbers *)
Definition isdigit (c : Z) : bool := (48 <=? c) && (c <=? 57).
Definition isalpha (c : Z) : bool := ((97 <=? c) && (c <=? 122)) || ((65 <=? c) && (c <=? 90)).
Definition isalnum (c : Z) : bool := isdigit c || isalpha c.
Definition isspace (c : Z) : bool := (c =? 32) || (c =? 9) || (c =? 10) || (c =? 13).
Definition toupper (c : Z) : Z := if (97 <=? c) && (c <=? 122) then c - 32 else c.
Definition tolower (c : Z) : Z := if (65 <=? c) && (c <=? 90) then c + 32 else c.
Definition abs (n : Z) : Z := if n <? 0 then i32 (- n) else n.

Fixpoint skip_spaces (s : list Z) : res (list Z) :=
  match s with
  | [] => Fault
  | c :: s' => if c =? 32 then skip_spaces s' else Ok s
  end.
(** The sign: 1 for a minus. *)
Definition read_sign (s : list Z) : res (bool * list Z) :=
  match s with
  | [] => Fault
  | c :: s' => Ok (if c =? 45 then (true, s') else if c =? 43 then (false, s') else (false, s))
  end.
Fixpoint read_dec (s : list Z) (n : Z) : res (Z * list Z) :=
  match s with
  | [] => Fault
  | c :: s' => if isdigit c then read_dec s' (i32 (n * 10 + (c - 48))) else Ok (n, s)
  end.
Definition atoi (s : list Z) : res Z :=
  s ← skip_spaces s;
  p ← read_sign s;
  q ← read_dec p.2 0;
  Ok (if (p : bool * list Z).1 then i32 (- q.1) else q.1).

(** [tmp] has 34 cells; the digits are collected least significant first. *)
Fixpoint itoa_digits (room : nat) (u base : Z) (tmp : list Z) : res (list Z) :=
  if 0 <? u then
    match room with
    | O => Fault
    | S r => if base =? 0 then Fault
             else d ← arr_get (lit "0123456789ABCDEF") (u mod base); itoa_digits r (u / base) base (tmp ++ [d])
    end
  else Ok tmp.
Definition itoa (val : Z) (buf : list Z) (base : Z) : res (list Z) :=
  if val =? 0 then b ← arr_set buf 0 48; arr_set b 1 0
  else
    let neg := (base =? 10) && (val <? 0) in
    let u := u32 (if neg then i32 (- val) else val) in
    tmp ← itoa_digits 34 u (u32 base) [];
    tmp ← (if neg then if Z.of_nat (length tmp) <? 34 then Ok (tmp ++ [45]) else Fault else Ok tmp);
    b ← memcpy buf (rev tmp) (length tmp);
    arr_set b (Z.of_nat (length tmp)) 0.
Definition utoa (val : Z) (buf : list Z) (base : Z) : res (list Z) := itoa (i32 val) buf base.

Definition digit_of (c : Z) : option Z :=
  if (48 <=? c) && (c <=? 57) then Some (c - 48)
  else if (97 <=? c) && (c <=? 122) then Some (c - 97 + 10)
  else if (65 <=? c) && (c <=? 90) then Some (c - 65 + 10)
  else None.
Fixpoint strtol_loop (s : list Z) (base n : Z) : res (Z * list Z) :=
  match s with
  | [] => Fault
  | c :: s' =>
      if c =? 0 then Ok (n, s)
      else match digit_of c with
           | None => Ok (n, s)
           | Some d => if base <=? d then Ok (n, s) else strtol_loop s' base (i32 (n * base + d))
           end
  end.
Definition is_x (s : list Z) : res bool := c ← arr_get s 1; Ok ((c =? 120) || (c =? 88)).
(** The value and what follows the number ([*end]). *)
Definition strtol (s : list Z) (base : Z) : res (Z * list Z) :=
  s ← skip_spaces s;
  p ← read_sign s;
  let s := (p : bool * list Z).2 in
  c ← arr_get s 0;
  bs ← (if base =? 0 then
          if c =? 48 then
            x ← is_x s; Ok (if (x : bool) then (16, drop 2 s) else (8, drop 1 s))
          else Ok (10, s)
        else if (base =? 16) && (c =? 48) then
          x ← is_x s; Ok (if (x : bool) then (16, drop 2 s) else (16, s))
        else Ok (base, s));
  q ← strtol_loop (bs : Z * list Z).2 bs.1 0;
  Ok (if p.1 then i32 (- q.1) else q.1, q.2).

(** ** Sorting

    [qsort] on an array of elements of [sz] bytes; [tmp] holds 256. *)
Section qsort.
Context {A : Type} (cmp : A → A → res Z).

Fixpoint shift_right (j : nat) (arr : list A) (x : A) : res (list A) :=
  match j with
  | O => arr_set arr 0 x
  | S j' =>
      y ← arr_get arr (Z.of_nat j');
      c ← cmp y x;
      if 0 <? c then b ← arr_set arr (Z.of_nat j) y; shift_right j' b x
      else arr_set arr (Z.of_nat j) x
  end.
Fixpoint qsort_loop (m i : nat) (arr : list A) : res (list A) :=
  match m with
  | O => Ok arr
  | S m' => x ← arr_get arr (Z.of_nat i); b ← shift_right i arr x; qsort_loop m' (S i) b
  end.
Definition qsort (arr : list A) (sz : Z) : res (list A) :=
  if (length arr <? 2)%nat then Ok arr
  else if 256 <? sz then Fault
  else qsort_loop (length arr - 1) 1 arr.
End qsort.

(** ** Tokens

    [strtok_r] on the object [buf] with [*save] an offset: the offset of the token, the
    object with the delimiter overwritten, and the new [*save]. *)
Fixpoint span_delim (want : bool) (s delim : list Z) : res nat :=
  match s with
  | [] => Fault
  | c :: s' =>
      if c =? 0 then Ok O
      else r ← strchr delim c;
           if Bool.eqb (bool_decide (is_Some r)) want then n ← span_delim want s' delim; Ok (S n) else Ok O
  end.
Definition strtok_r (buf delim : list Z) (save : Z) : res (option Z * list Z * Z) :=
  k ← span_delim true (drop (Z.to_nat save) buf) delim;
  let tok := save + Z.of_nat k in
  c ← arr_get buf tok;
  if c =? 0 then Ok (None, buf, tok)
  else
    n ← span_delim false (drop (Z.to_nat tok) buf) delim;
    let e := tok + Z.of_nat n in
    c ← arr_get buf e;
    if c =? 0 then Ok (Some tok, buf, e)
    else b ← arr_set buf e 0; Ok (Some tok, b, e + 1).

(** ** Formatted output *)

(** [while (... && pos < 1022) buf[pos++] = c;] over the characters [cs]. *)
Fixpoint put_lim (cs : list Z) (buf : list Z) (pos : Z) : res (list Z * Z) :=
  match cs with
  | [] => Ok (buf, pos)
  | c :: cs' => if pos <? 1022 then b ← arr_set buf pos c; put_lim cs' b (pos + 1) else Ok (buf, pos)
  end.
(** The same for a string argument, up to its terminator. *)
Fixpoint puts_lim (s : list Z) (buf : list Z) (pos : Z) : res (list Z * Z) :=
  match s with
  | [] => Fault
  | c :: s' =>
      if negb (c =? 0) && (pos <? 1022) then b ← arr_set buf pos c; puts_lim s' b (pos + 1)
      else Ok (buf, pos)
  end.

Fixpoint read_width (fmt : list Z) (w : Z) : res (Z * list Z) :=
  match fmt with
  | [] => Fault
  | c :: fmt' => if isdigit c then read_width fmt' (i32 (w * 10 + (c - 48))) else Ok (w, fmt)
  end.
(** The flag and the width after [%]. *)
Definition read_spec (fmt : list Z) : res (bool * Z * list Z) :=
  match fmt with
  | [] => Fault
  | c :: fmt' => q ← read_width (if c =? 48 then fmt' else fmt) 0; Ok (c =? 48, q.1, q.2)
  end.

Fixpoint hexits (room : nat) (tbl : list Z) (u : Z) (acc : list Z) : res (list Z) :=
  if u =? 0 then Ok acc
  else match room with
       | O => Fault
       | S r => hexits r tbl (Z.shiftr u 4) ((tbl !!! Z.to_nat (Z.land u 0xF)) :: acc)
       end.
(** The digits of an unsigned number, "0" for zero. *)
Definition udec (u : Z) : res (list Z) := if u =? 0 then Ok [48] else Vga.dec_digits 16 u [].
Definition uhex (upper : bool) (u : Z) : res (list Z) :=
  if u =? 0 then Ok [48]
  else hexits 16 (if upper then str "0123456789ABCDEF" else str "0123456789abcdef") u [].

(** Padding to [width] and then the characters [ds]. *)
Definition put_padded (zero : bool) (width : Z) (ds : list Z) (buf : list Z) (pos : Z) : res (list Z * Z) :=
  p ← put_lim (replicate (Z.to_nat (width - Z.of_nat (length ds))) (if zero then 48 else 32)) buf pos;
  put_lim ds (p : list Z * Z).1 p.2.

(** One conversion [f]; [guarded] tells whether the padding of a string stops at 1022
    ([sprintf]) or not ([printf]). *)
Definition conv (guarded : bool) (f : Z) (zero : bool) (width : Z) (args : list va_arg) (buf : list Z) (pos : Z)
  : res (list Z * Z * list va_arg) :=
  if f =? 115 then
    match args with
    | AStr s :: l =>
        let s := default (lit "(null)") s in
        n ← strlen s;
        let pad := replicate (Z.to_nat (width - n)) 32 in
        p ← (if guarded then put_lim pad buf pos else put_all pad buf pos);
        q ← puts_lim s (p : list Z * Z).1 p.2; Ok (q, l)
    | _ => Fault
    end
  else if (f =? 100) || (f =? 105) then
    a ← int_arg args;
    let d := i32 a.1 in
    ds ← udec (u32 (Z.abs d));
    q ← put_padded zero width (if d <? 0 then 45 :: ds else ds) buf pos; Ok (q, a.2)
  else if f =? 117 then
    a ← int_arg args; ds ← udec (u32 a.1); q ← put_padded zero width ds buf pos; Ok (q, a.2)
  else if (f =? 120) || (f =? 88) then
    a ← int_arg args; ds ← uhex (f =? 88) (u32 a.1); q ← put_padded zero width ds buf pos; Ok (q, a.2)
  else if f =? 99 then
    a ← int_arg args; b ← arr_set buf pos (u8 a.1); Ok (b, pos + 1, a.2)
  else if f =? 37 then b ← arr_set buf pos 37; Ok (b, pos + 1, args)
  else Ok (buf, pos, args).

Fixpoint vformat (n : nat) (guarded : bool) (fmt : list Z) (args : list va_arg) (buf : list Z) (pos : Z) : res (list Z * Z) :=
  match n, fmt with
  | O, _ => Timeout
  | _, [] => Fault
  | S n', c :: fmt' =>
      if negb (c =? 0) && (pos <? 1022) then
        if c =? 37 then
          sp ← read_spec fmt';
          match (sp : bool * Z * list Z).2 with
          | [] => Fault
          | f :: fmt'' =>
              q ← conv guarded f sp.1.1 sp.1.2 args buf pos;
              vformat n' guarded fmt'' q.2 q.1.1 q.1.2
          end
        else b ← arr_set buf pos c; vformat n' guarded fmt' args b (pos + 1)
      else Ok (buf, pos)
  end.

(** [printf] formats into its own 1024 bytes (uninitialised: [junk]) and writes them. *)
Definition printf (junk fmt : list Z) (args : list va_arg) : res (list Z * Z) :=
  p ← vformat (S (length fmt)) false fmt args junk 0;
  b ← arr_set p.1 p.2 0; Ok (b, p.2).
Definition sprintf (buf fmt : list Z) (args : list va_arg) : res (list Z * Z) :=
  p ← vformat (S (length fmt)) true fmt args buf 0;
  b ← arr_set p.1 p.2 0; Ok (b, p.2).

(** The conversions of [snprintf]: no widths, digits without a limit. *)
Definition nconv (f : Z) (args : list va_arg) (buf : list Z) (n : Z) : res (list Z * Z * list va_arg) :=
  if f =? 115 then
    match args with
    | AStr s :: l => q ← puts_lim (default (lit "") s) buf n; Ok (q, l)
    | _ => Fault
    end
  else if f =? 100 then
    a ← int_arg args;
    let d := i32 a.1 in
    ds ← udigits (u32 (Z.abs d));
    q ← put_all (if d <? 0 then 45 :: ds else ds) buf n; Ok (q, a.2)
  else if f =? 117 then
    a ← int_arg args; ds ← udigits (u32 a.1); q ← put_all ds buf n; Ok (q, a.2)
  else if f =? 99 then
    a ← int_arg args; b ← arr_set buf n (u8 a.1); Ok (b, n + 1, a.2)
  else if f =? 37 then b ← arr_set buf n 37; Ok (b, n + 1, args)
  else Ok (buf, n, args).
Fixpoint nformat (k : nat) (fmt : list Z) (args : list va_arg) (tmp : list Z) (n : Z) : res (list Z * Z) :=
  match k, fmt with
  | O, _ => Timeout
  | _, [] => Fault
  | S k', c :: fmt' =>
      if negb (c =? 0) && (n <? 1022) then
        if c =? 37 then
          match fmt' with
          | [] => Fault
          | f :: fmt'' => q ← nconv f args tmp n; nformat k' fmt'' q.2 q.1.1 q.1.2
          end
        else b ← arr_set tmp n c; nformat k' fmt' args b (n + 1)
      else Ok (tmp, n)
  end.
Definition snprintf (junk buf : list Z) (sz : Z) (fmt : list Z) (args : list va_arg) : res (list Z * Z) :=
  p ← nformat (S (length fmt)) fmt args junk 0;
  tmp ← arr_set p.1 p.2 0;
  let n := p.2 in
  let copy := if n <? i32 (i32 sz - 1) then n else u32 (sz - 1) in
  b ← memcpy buf tmp (Z.to_nat copy);
  b ← arr_set b copy 0;
  Ok (b, n).

(** ** Formatted input

    The objects the pointer arguments point to, and what is stored there. *)
Inductive scan_arg := SNum (v : Z) | SBuf (b : list Z).

Fixpoint scan_word (s out : list Z) : res (list Z * list Z) :=
  match s with
  | [] => Fault
  | c :: s' =>
      if (c =? 0) || (c =? 32) then match out with [] => Fault | _ :: o => Ok (0 :: o, s) end
      else match out with [] => Fault | _ :: o => r ← scan_word s' o; Ok (c :: r.1, r.2) end
  end.
Fixpoint read_udec (s : list Z) (n : Z) : res (Z * list Z) :=
  match s with
  | [] => Fault
  | c :: s' => if isdigit c then read_udec s' (u32 (n * 10 + (c - 48))) else Ok (n, s)
  end.

(** One conversion: what is stored, the rest of the input and of the arguments. *)
Definition scan_conv (f : Z) (s : list Z) (args : list scan_arg)
  : res (option scan_arg * list Z * list scan_arg) :=
  if (f =? 100) || (f =? 105) then
    s ← skip_spaces s;
    c ← arr_get s 0;
    q ← read_dec (if c =? 45 then drop 1 s else s) 0;
    match args with
    | SNum _ :: l => Ok (Some (SNum (if c =? 45 then i32 (- q.1) else q.1)), q.2, l)
    | _ => Fault
    end
  else if f =? 115 then
    match args with
    | SBuf b :: l => q ← scan_word s b; Ok (Some (SBuf q.1), q.2, l)
    | _ => Fault
    end
  else if f =? 117 then
    s ← skip_spaces s;
    q ← read_udec s 0;
    match args with
    | SNum _ :: l => Ok (Some (SNum q.1), q.2, l)
    | _ => Fault
    end
  else Ok (None, s, args).

Fixpoint sscanf_loop (n : nat) (s fmt : list Z) (args done : list scan_arg) : res (list scan_arg) :=
  match n, fmt, s with
  | O, _, _ => Timeout
  | _, [], _ => Fault
  | _, _, [] => Fault
  | S n', c :: fmt', x :: s' =>
      if (c =? 0) || (x =? 0) then Ok done
      else if c =? 37 then
        match fmt' with
        | [] => Fault
        | f :: fmt'' =>
            q ← scan_conv f s args;
            sscanf_loop n' q.1.2 fmt'' q.2 (done ++ match q.1.1 with Some v => [v] | None => [] end)
        end
      else if c =? x then sscanf_loop n' s' fmt' args done
      else Ok done
  end.
(** The values stored, one for each counted conversion. *)
Definition sscanf (s fmt : list Z) (args : list scan_arg) : res (list scan_arg) :=
  sscanf_loop (S (length fmt)) s fmt args [].

(** ** Memory moves *)

Lemma move_up_lookup n buf d s :
  (s + n ≤ length buf)%nat → (d + n ≤ length buf)%nat → (d < s ∨ s + n ≤ d)%nat →
  ∃ b, move_up n buf (Z.of_nat d) (Z.of_nat s) = Ok b ∧ length b = length buf ∧
    ∀ i, b !! i = if decide (d ≤ i < d + n)%nat then buf !! (s + (i - d))%nat else buf !! i.
Proof.
  revert buf d s. induction n as [|n IH]; intros buf d s Hs Hd Hov; cbn [move_up].
  { exists buf. split_and!; [done|done|]. intros i. rewrite decide_False by lia. done. }
  destruct (arr_get_in buf (Z.of_nat s)) as (c & -> & Hc); [lia|]. rewrite Nat2Z.id in Hc. cbn [mbind res_bind].
  rewrite arr_set_in by lia. rewrite Nat2Z.id. cbn [mbind res_bind].
  replace (Z.of_nat d + 1) with (Z.of_nat (S d)) by lia. replace (Z.of_nat s + 1) with (Z.of_nat (S s)) by lia.
  destruct (IH (<[d := c]> buf) (S d) (S s)) as (b & -> & Hl & Hb); [rewrite length_insert; lia..|lia|].
  rewrite length_insert in Hl. exists b. split_and!; [done|done|]. intros i. rewrite Hb.
  destruct (decide (i = d)) as [->|Hne].
  - rewrite decide_False by lia. rewrite decide_True by lia. rewrite list_lookup_insert_eq by lia.
    by rewrite Nat.sub_diag, Nat.add_0_r.
  - destruct (decide (S d ≤ i < S d + n)%nat).
    + rewrite decide_True by lia. rewrite list_lookup_insert_ne by lia. f_equal. lia.
    + rewrite decide_False by lia. by rewrite list_lookup_insert_ne by lia.
Qed.

Lemma move_down_lookup n buf d s :
  (s + n ≤ length buf)%nat → (d + n ≤ length buf)%nat → (s ≤ d)%nat →
  ∃ b, move_down n buf (Z.of_nat d) (Z.of_nat s) = Ok b ∧ length b = length buf ∧
    ∀ i, b !! i = if decide (d ≤ i < d + n)%nat then buf !! (s + (i - d))%nat else buf !! i.
Proof.
  revert buf. induction n as [|n IH]; intros buf Hs Hd Hov; cbn [move_down].
  { exists buf. split_and!; [done|done|]. intros i. rewrite decide_False by lia. done. }
  rewrite <- !Nat2Z.inj_add.
  destruct (arr_get_in buf (Z.of_nat (s + n))) as (c & -> & Hc); [lia|]. rewrite Nat2Z.id in Hc. cbn [mbind res_bind].
  rewrite arr_set_in by lia. rewrite Nat2Z.id. cbn [mbind res_bind].
  destruct (IH (<[d + n := c]> buf)%nat) as (b & -> & Hl & Hb); [rewrite length_insert; lia..|lia|].
  rewrite length_insert in Hl. exists b. split_and!; [done|done|]. intros i. rewrite Hb.
  destruct (decide (i = d + n)%nat) as [->|Hne].
  - rewrite decide_False by lia. rewrite decide_True by lia. rewrite list_lookup_insert_eq by lia.
    rewrite <- Hc. f_equal. lia.
  - destruct (decide (d ≤ i < d + n)%nat).
    + rewrite decide_True by lia. rewrite list_lookup_insert_ne by lia. done.
    + rewrite decide_False by lia. by rewrite list_lookup_insert_ne by lia.
Qed.

(** [memmove] copies correctly between overlapping areas: whatever the overlap,
    the destination holds the bytes the source held before the call and nothing else
    in the object changes. *)
Theorem memmove_correct buf d s n :
  (s + n ≤ length buf)%nat → (d + n ≤ length buf)%nat →
  memmove buf (Z.of_nat d) (Z.of_nat s) n = Ok (take d buf ++ take n (drop s buf) ++ drop (d + n) buf).
Proof.
  intros Hs Hd.
  assert (∃ b, memmove buf (Z.of_nat d) (Z.of_nat s) n = Ok b ∧ length b = length buf ∧
    ∀ i, b !! i = if decide (d ≤ i < d + n)%nat then buf !! (s + (i - d))%nat else buf !! i) as (b & -> & Hl & Hb).
  { unfold memmove. destruct (Z.ltb_spec (Z.of_nat d) (Z.of_nat s)); cbn [orb]; [apply move_up_lookup; lia|].
    destruct (Z.leb_spec (Z.of_nat s + Z.of_nat n) (Z.of_nat d)); [apply move_up_lookup|apply move_down_lookup]; lia. }
  f_equal. apply list_eq. intros i. rewrite Hb. rewrite lookup_app, length_take.
  destruct (Nat.lt_ge_cases i d) as [Hi|Hi].
  - rewrite decide_False by lia. rewrite lookup_take_lt by lia. by destruct (lookup_lt_is_Some_2 buf i ltac:(lia)) as [x ->].
  - rewrite (lookup_ge_None_2 (take d buf)) by (rewrite length_take; lia). replace (d `min` length buf)%nat with d by lia.
    rewrite lookup_app, length_take, length_drop. destruct (decide (d ≤ i < d + n)%nat) as [Hin|Hout].
    + rewrite lookup_take_lt, lookup_drop by lia.
      by destruct (lookup_lt_is_Some_2 buf (s + (i - d)) ltac:(lia)) as [x ->].
    + rewrite (lookup_ge_None_2 (take n (drop s buf))) by (rewrite length_take, length_drop; lia).
      rewrite lookup_drop. f_equal. lia.
Qed.

(** ** Numbers *)

Lemma i32_range x : -2147483648 ≤ i32 x < 2147483648.
Proof. unfold i32. pose proof (Z.mod_pos_bound (x + 2 ^ 31) (2 ^ 32)). lia. Qed.

Lemma i32_absorb x a y : i32 (i32 x * a + y) = i32 (x * a + y).
Proof.
  unfold i32. f_equal. pose proof (Z.div_mod (x + 2 ^ 31) (2 ^ 32)).
  replace (((x + 2 ^ 31) mod 2 ^ 32 - 2 ^ 31) * a + y + 2 ^ 31)
    with (x * a + y + 2 ^ 31 + (- ((x + 2 ^ 31) / 2 ^ 32) * a) * 2 ^ 32) by lia.
  apply Z_mod_plus_full.
Qed.

Lemma num_value_app base s t :
  num_value base (s ++ t) = num_value base s * base ^ Z.of_nat (length t) + num_value base t.
Proof.
  induction t as [|d t IH] using rev_ind; [rewrite app_nil_r; unfold num_value; cbn; lia|].
  rewrite app_assoc, !num_value_snoc, IH, length_app. cbn [length].
  rewrite Nat2Z.inj_add, Z.pow_add_r by lia. cbn. lia.
Qed.

Definition decimal (s : list Z) : Prop := Forall (λ c, isdigit c = true) s.

Lemma isdigit_range c : isdigit c = true ↔ 48 ≤ c ≤ 57.
Proof. unfold isdigit. rewrite andb_true_iff, !Z.leb_le. done. Qed.

(** Reading a numeral gives its value, modulo 2^32. *)
Lemma read_dec_digits s c rest n :
  decimal s → isdigit c = false → n = i32 n →
  read_dec (s ++ c :: rest) n = Ok (i32 (n * 10 ^ Z.of_nat (length s) + num_value 10 s), c :: rest).
Proof.
  intros Hs Hc. revert n. induction s as [|d s IH]; intros n Hn.
  - cbn [app read_dec length]. rewrite Hc. unfold num_value. cbn. rewrite Z.mul_1_r, Z.add_0_r. by rewrite <- Hn.
  - apply Forall_cons in Hs as [Hd Hs]. cbn [app read_dec]. rewrite Hd.
    rewrite IH; [|done|symmetry; apply i32_small, i32_range]. do 2 f_equal. rewrite i32_absorb. f_equal.
    change (d :: s) with ([d] ++ s). rewrite num_value_app, length_app. cbn [length].
    rewrite Nat2Z.inj_add, Z.pow_add_r by lia. change (10 ^ Z.of_nat 1) with 10.
    apply isdigit_range in Hd. unfold num_value at 2. cbn [foldl]. unfold digit_value. rewrite (proj2 (Z.ltb_lt d 65)) by lia. lia.
Qed.

Lemma dec_digit k : 0 ≤ k < 10 → arr_get (lit "0123456789ABCDEF") k = Ok (48 + k).
Proof.
  intros Hk. assert (k ∈ seqZ 0 10) as Hin by (apply elem_of_seqZ; lia).
  clear Hk; revert k Hin. apply Forall_forall. repeat (constructor; [reflexivity|]). constructor.
Qed.

Lemma itoa_digits_dec room k u tmp :
  0 ≤ u < 10 ^ Z.of_nat k → (k ≤ room)%nat →
  ∃ ds, itoa_digits room u 10 tmp = Ok (tmp ++ ds) ∧ decimal ds ∧ (length ds ≤ k)%nat ∧ num_value 10 (rev ds) = u.
Proof.
  revert room u tmp. induction k as [|k IH]; intros room u tmp Hu Hk.
  - assert (u = 0) as -> by (cbn in Hu; lia). exists []. rewrite app_nil_r.
    split_and!; [by destruct room|constructor|done|done].
  - destruct (Z.eq_dec u 0) as [->|Hne].
    { exists []. rewrite app_nil_r. split_and!; [by destruct room|constructor|cbn; lia|done]. }
    destruct room as [|room]; [lia|]. cbn [itoa_digits]. rewrite (proj2 (Z.ltb_lt 0 u)) by lia. change (10 =? 0) with false. cbn iota.
    pose proof (Z.mod_pos_bound u 10). rewrite dec_digit by lia. cbn [mbind res_bind].
    rewrite Nat2Z.inj_succ, Z.pow_succ_r in Hu by lia.
    destruct (IH room (u / 10) (tmp ++ [48 + u mod 10])) as (ds & -> & Hd & Hl & Hv);
      [split; [apply Z.div_pos; lia|apply Z.div_lt_upper_bound; lia]|lia|].
    exists ((48 + u mod 10) :: ds). rewrite <- app_assoc. split_and!; [done| |cbn; lia|].
    + apply Forall_cons. split; [apply isdigit_range; lia|done].
    + cbn [rev]. rewrite num_value_snoc, Hv. unfold digit_value. rewrite (proj2 (Z.ltb_lt _ 65)) by lia.
      pose proof (Z.div_mod u 10). lia.
Qed.

(** Storing a string and its terminator. *)
Lemma store_string buf s :
  (length s < length buf)%nat →
  (b ← memcpy buf s (length s); arr_set b (Z.of_nat (length s)) 0) = Ok (s ++ 0 :: drop (S (length s)) buf).
Proof.
  intros Hl. unfold memcpy. rewrite kmemcpy_copy by lia. rewrite firstn_all. cbn [mbind res_bind].
  rewrite arr_set_in by (rewrite length_app, length_drop; lia). rewrite Nat2Z.id.
  rewrite insert_app_r_alt, Nat.sub_diag by lia.
  destruct (drop (length s) buf) as [|x l] eqn:E; [apply (f_equal length) in E; rewrite length_drop in E; cbn in E; lia|].
  replace (drop (S (length s)) buf) with l; [done|].
  replace (S (length s)) with (length s + 1)%nat by lia. by rewrite <- drop_drop, E.
Qed.

(** [itoa] in base 10 writes a minus sign for negative numbers and the decimal digits. *)
Lemma itoa_dec val buf :
  -2147483648 ≤ val < 2147483648 → (12 ≤ length buf)%nat →
  ∃ s rest, itoa val buf 10 = Ok ((if val <? 0 then 45 :: s else s) ++ 0 :: rest) ∧
    decimal s ∧ s ≠ [] ∧ num_value 10 s = Z.abs val.
Proof.
  intros Hv Hl. unfold itoa. destruct (Z.eqb_spec val 0) as [->|Hne].
  { destruct buf as [|x [|y buf]]; cbn in Hl; [lia..|]. exists [48], buf.
    rewrite arr_set_in by (cbn [length]; lia). change (<[Z.to_nat 0:=48]> (x :: y :: buf)) with (48 :: y :: buf).
    cbn [mbind res_bind]. rewrite arr_set_in by (cbn [length]; lia).
    split; [done|]. split; [by repeat constructor|done]. }
  change (10 =? 10) with true. cbn [andb].
  assert (u32 (if val <? 0 then i32 (- val) else val) = Z.abs val) as ->.
  { destruct (Z.ltb_spec val 0); [|rewrite u32_small; lia]. destruct (Z.eq_dec val (-2147483648)) as [->|]; [done|].
    rewrite i32_small, u32_small by lia. lia. }
  change (u32 10) with 10.
  destruct (itoa_digits_dec 34 10 (Z.abs val) []) as (ds & -> & Hd & Hdl & Hnum); [change (10 ^ Z.of_nat 10) with 10000000000; lia|lia|].
  cbn [mbind res_bind app].
  assert (rev ds ≠ []) as Hds.
  { intros E. rewrite E in Hnum. change (num_value 10 []) with 0 in Hnum. lia. }
  set (tmp := if val <? 0 then ds ++ [45] else ds).
  assert ((if val <? 0 then if Z.of_nat (length ds) <? 34 then Ok (ds ++ [45]) else Fault else Ok ds) = Ok tmp) as ->.
  { unfold tmp. destruct (val <? 0); [|done]. by rewrite (proj2 (Z.ltb_lt _ _)) by lia. }
  cbn [mbind res_bind]. assert (length tmp ≤ 11)%nat by (unfold tmp; case_if; rewrite ?length_app; cbn; lia).
  rewrite <- (length_rev tmp). rewrite store_string by (rewrite length_rev; lia).
  exists (rev ds), (drop (S (length (rev tmp))) buf). split.
  { do 2 f_equal. unfold tmp. destruct (val <? 0); [by rewrite rev_app_distr|done]. }
  split_and!; [by apply Forall_rev|done|done].
Qed.

Lemma skip_spaces_other c s : c ≠ 32 → skip_spaces (c :: s) = Ok (c :: s).
Proof. intros. cbn. by rewrite (proj2 (Z.eqb_neq c 32)). Qed.

(** Numbers survive printing and reading. For every [int] value, the most negative
    one included, [atoi] returns the number [itoa] wrote. *)
Theorem itoa_atoi val buf :
  -2147483648 ≤ val < 2147483648 → (12 ≤ length buf)%nat →
  ∃ buf', itoa val buf 10 = Ok buf' ∧ atoi buf' = Ok val.
Proof.
  intros Hv Hl. destruct (itoa_dec val buf Hv Hl) as (s & rest & E & Hd & Hne & Hnum).
  eexists. split; [exact E|]. destruct s as [|c s]; [done|].
  pose proof Hd as [Hc _]%Forall_cons. apply isdigit_range in Hc. unfold atoi.
  destruct (Z.ltb_spec val 0).
  - cbn [app]. rewrite skip_spaces_other by lia. cbn [mbind res_bind read_sign]. cbn [Z.eqb Pos.eqb snd fst].
    change (c :: s ++ 0 :: rest) with ((c :: s) ++ 0 :: rest).
    rewrite read_dec_digits by done. cbn [mbind res_bind fst]. f_equal. rewrite Hnum, Z.mul_0_l, Z.add_0_l.
    destruct (Z.eq_dec val (-2147483648)) as [->|]; [done|]. rewrite (i32_small (Z.abs val)), i32_small by lia. lia.
  - cbn [app]. rewrite skip_spaces_other by lia. cbn [mbind res_bind read_sign].
    rewrite !(proj2 (Z.eqb_neq _ _)) by lia. cbn [snd fst].
    change (c :: s ++ 0 :: rest) with ((c :: s) ++ 0 :: rest).
    rewrite read_dec_digits by done. cbn [mbind res_bind fst]. f_equal. rewrite Hnum, Z.mul_0_l, Z.add_0_l.
    rewrite i32_small by lia. lia.
Qed.

(** [utoa] hands its argument to [itoa] as an [int], so large numbers come out
    negative. *)
Example utoa_large : utoa 3000000000 (replicate 12 7) 10 = Ok (lit "-1294967296").
Proof. reflexivity. Qed.

(** ** String copies *)

(** When the source is shorter than the bound, [strncpy] writes one byte more than the
    bound: into an object of exactly that size it overruns. *)
Lemma strncpy_one_too_many d s t n :
  cstr s t → (length t < n)%nat → length d = n → strncpy d s n = Fault.
Proof.
  intros Hs. revert d s Hs n. induction t as [|c t IH]; intros d s Hs n Hn Hd.
  - destruct Hs as (rest & -> & _). destruct n as [|n]; [lia|]. destruct d as [|x d]; [done|].
    cbn [app strncpy]. change (0 =? 0) with true. cbn iota. unfold memset.
    assert (kmemset d 0 (S n) = Fault) as ->; [|done].
    injection Hd as <-. clear. induction d as [|y d IHd]; [done|]. change (length (y :: d)) with (S (length d)).
    cbn [kmemset] in *. by rewrite IHd.
  - destruct Hs as (rest & -> & [Hc Ht]%Forall_cons). destruct n as [|n]; [cbn in Hn; lia|]. destruct d as [|x d]; [done|].
    cbn [app strncpy]. rewrite (proj2 (Z.eqb_neq c 0)) by done.
    rewrite (IH d (t ++ 0 :: rest)); [done|by exists rest|cbn in Hn; lia|by injection Hd].
Qed.

(** ** Sorting *)
Section sorting.
Context {A : Type} (cmp : A → A → res Z) (ok : A → Prop) (f : A → A → Z).
Context (cmp_ok : ∀ x y, ok x → ok y → cmp x y = Ok (f x y)).
Context (total : ∀ x y, ok x → ok y → 0 < f x y → f y x ≤ 0).
Context (trans : ∀ x y z, ok x → ok y → ok z → f x y ≤ 0 → f y z ≤ 0 → f x z ≤ 0).

#[local] Abbreviation le := (λ x y, f x y ≤ 0).

Lemma sorted_snoc l y :
  StronglySorted le (l ++ [y]) ↔ StronglySorted le l ∧ Forall (λ x, le x y) l.
Proof.
  induction l as [|x l IH]; cbn.
  - split; intros _; repeat constructor.
  - split.
    + intros [Hs Hx]%StronglySorted_inv. apply IH in Hs as [Hs Hy]. apply Forall_app in Hx as [Hx [Hxy _]%Forall_cons].
      split; [by constructor|by constructor].
    + intros [[Hs Hx]%StronglySorted_inv [Hxy Hy]%Forall_cons]. constructor; [by apply IH|].
      apply Forall_app. split; [done|by constructor].
Qed.

(** One element is inserted into the sorted part before it. *)
Lemma shift_right_ok pre w post x :
  Forall ok pre → ok x → StronglySorted le pre →
  ∃ r, shift_right cmp (length pre) (pre ++ w :: post) x = Ok (r ++ post) ∧ r ≡ₚ x :: pre ∧ StronglySorted le r.
Proof.
  revert w post. induction pre as [|y pre IH] using rev_ind; intros w post Hok Hx Hs.
  - exists [x]. split; [|by repeat constructor]. cbn. by rewrite arr_set_in by (cbn; lia).
  - apply Forall_app in Hok as [Hok [Hy _]%Forall_cons]. apply sorted_snoc in Hs as [Hs Hle].
    rewrite length_app, Nat.add_comm. cbn [length Nat.add shift_right].
    assert (((pre ++ [y]) ++ w :: post) !! length pre = Some y) as Hget.
    { rewrite <- app_assoc. cbn. by apply list_lookup_middle. }
    rewrite (arr_get_nat _ _ _ Hget). cbn [mbind res_bind]. rewrite cmp_ok by done. cbn [mbind res_bind].
    assert (∀ v, arr_set ((pre ++ [y]) ++ w :: post) (Z.of_nat (S (length pre))) v = Ok ((pre ++ [y]) ++ v :: post)) as Hset.
    { intros v. rewrite arr_set_in by (rewrite !length_app; cbn; lia). rewrite Nat2Z.id.
      rewrite insert_app_r_alt by (rewrite length_app; cbn; lia). rewrite length_app. cbn [length].
      replace (S (length pre) - (length pre + 1))%nat with 0%nat by lia. done. }
    destruct (Z.ltb_spec 0 (f y x)) as [Hgt|Hng].
    + rewrite Hset. cbn [mbind res_bind]. rewrite <- app_assoc. cbn [app].
      destruct (IH y (y :: post) Hok Hx Hs) as (r & -> & Hp & Hr). exists (r ++ [y]). rewrite <- app_assoc.
      split; [done|]. split; [rewrite Hp; done|]. apply sorted_snoc. split; [done|].
      rewrite Hp. constructor; [by apply total|done].
    + rewrite Hset. exists ((pre ++ [y]) ++ [x]). split; [by rewrite <- (app_assoc _ [x])|].
      split; [by rewrite Permutation_app_comm|]. apply sorted_snoc. split; [by apply sorted_snoc|].
      apply Forall_app. split; [|by constructor]. apply Forall_forall. intros z Hz.
      rewrite Forall_forall in Hok, Hle. eapply (trans z y x); auto.
Qed.

Lemma qsort_loop_ok suf pre :
  Forall ok pre → Forall ok suf → StronglySorted le pre →
  ∃ r, qsort_loop cmp (length suf) (length pre) (pre ++ suf) = Ok r ∧ r ≡ₚ pre ++ suf ∧ StronglySorted le r.
Proof.
  revert pre. induction suf as [|x suf IH]; intros pre Hp Hsuf Hs; cbn [length qsort_loop].
  { exists (pre ++ []). rewrite app_nil_r. done. }
  apply Forall_cons in Hsuf as [Hx Hsuf].
  rewrite (arr_get_nat (pre ++ x :: suf) (length pre) x) by (by apply list_lookup_middle). cbn [mbind res_bind].
  destruct (shift_right_ok pre x suf x Hp Hx Hs) as (r & -> & Hr & Hrs). cbn [mbind res_bind].
  replace (S (length pre)) with (length r) by (by rewrite Hr).
  destruct (IH r) as (r' & -> & Hr' & Hrs'); [by rewrite Hr; constructor|done|done|].
  exists r'. split; [done|]. split; [|done]. rewrite Hr', Hr. cbn. by rewrite Permutation_middle.
Qed.

Lemma qsort_ok l sz :
  Forall ok l → sz ≤ 256 → ∃ r, qsort cmp l sz = Ok r ∧ r ≡ₚ l ∧ StronglySorted le r.
Proof.
  intros Hl Hsz. unfold qsort. destruct (Nat.ltb_spec (length l) 2).
  - exists l. split; [done|]. split; [done|]. destruct l as [|x [|y l]]; [constructor|by repeat constructor|cbn in *; lia].
  - rewrite (proj2 (Z.ltb_ge 256 sz)) by done. destruct l as [|x l]; [cbn in *; lia|].
    apply Forall_cons in Hl as [Hx Hl]. cbn [length]. replace (S (length l) - 1)%nat with (length l) by lia.
    apply (qsort_loop_ok l [x]); [by constructor|done|by repeat constructor].
Qed.
End sorting.

(** C21: [qsort] sorts. For a comparison that is total and transitive on the elements it
    ends with the array a permutation of what it was, in ascending order; elements of
    more than 256 bytes do not fit its temporary and overrun it. *)
Theorem qsort_sorts {A} (cmp : A → A → res Z) (ok : A → Prop) (f : A → A → Z) l sz :
  (∀ x y, ok x → ok y → cmp x y = Ok (f x y)) →
  (∀ x y, ok x → ok y → 0 < f x y → f y x ≤ 0) →
  (∀ x y z, ok x → ok y → ok z → f x y ≤ 0 → f y z ≤ 0 → f x z ≤ 0) →
  Forall ok l → (2 ≤ length l)%nat →
  (sz ≤ 256 → ∃ r, qsort cmp l sz = Ok r ∧ r ≡ₚ l ∧ StronglySorted (λ x y, f x y ≤ 0) r) ∧
  (256 < sz → qsort cmp l sz = Fault).
Proof.
  intros Hc Ht Htr Hl Hlen. split; [by apply qsort_ok with ok|]. intros Hsz. unfold qsort.
  rewrite (proj2 (Nat.ltb_ge _ _)), (proj2 (Z.ltb_lt _ _)) by lia. done.
Qed.

(** ** Searching *)

Lemma starts_spec h n s t :
  cstr h s → cstr n t → starts h n = Ok (bool_decide (t `prefix_of` s)).
Proof.
  revert h n s. induction t as [|y t IH]; intros h n s Hh Hn.
  - destruct Hn as (r & -> & _). cbn. rewrite bool_decide_true; [done|apply prefix_nil].
  - destruct Hn as (r & -> & [Hy Ht]%Forall_cons). cbn [app starts]. rewrite (proj2 (Z.eqb_neq y 0)) by done.
    destruct Hh as (rh & -> & Hs). destruct s as [|x s]; cbn [app].
    + cbn. rewrite bool_decide_false; [done|]. intros H. by apply prefix_nil_not in H.
    + apply Forall_cons in Hs as [Hx Hs]. rewrite (proj2 (Z.eqb_neq x 0)) by done. cbn [orb].
      destruct (Z.eqb_spec x y) as [->|Hne]; cbn [negb].
      * rewrite (IH _ _ s); [|by exists rh|by exists r]. f_equal. apply bool_decide_ext.
        split; [apply prefix_cons|apply prefix_cons_inv_2].
      * rewrite bool_decide_false; [done|]. by intros ?%prefix_cons_inv_1.
Qed.

(** [strstr] returns the first position at which the needle occurs. *)
Lemma strstr_first hay needle s t :
  cstr hay s → cstr needle t →
  ∃ r, strstr hay needle = Ok r ∧
    match r with
    | Some i => ∃ k, i = Z.of_nat k ∧ t `prefix_of` drop k s ∧ ∀ j, (j < k)%nat → ¬ t `prefix_of` drop j s
    | None => ∀ j, ¬ t `prefix_of` drop j s
    end.
Proof.
  intros Hh Hn. unfold strstr. pose proof Hn as (r & En & Ht).
  destruct t as [|y t].
  { rewrite En. exists (Some 0). split; [done|]. exists 0%nat. split_and!; [done|apply prefix_nil|intros; lia]. }
  apply Forall_cons in Ht as [Hy Ht]. rewrite (proj2 (arr_get_Ok needle 0 y)) by (by rewrite En). cbn [mbind res_bind].
  rewrite (proj2 (Z.eqb_neq y 0)) by done.
  assert (∀ i, ∃ r, strstr_loop hay needle i = Ok r ∧
    match r with
    | Some p => ∃ k, p = i + Z.of_nat k ∧ (y :: t) `prefix_of` drop k s ∧ ∀ j, (j < k)%nat → ¬ (y :: t) `prefix_of` drop j s
    | None => ∀ j, ¬ (y :: t) `prefix_of` drop j s
    end) as H; [|by destruct (H 0) as (r0 & E & Hr); exists r0; split; [done|]; destruct r0 as [p|]; [|done];
                 destruct Hr as (k & -> & Hr); exists k].
  clear En. revert hay Hh. induction s as [|x s IH]; intros hay Hh i.
  - destruct Hh as (rh & -> & _). exists None. split; [done|]. intros j Hp. rewrite drop_nil in Hp. by apply prefix_nil_not in Hp.
  - pose proof Hh as (rh & -> & [Hx Hs]%Forall_cons). cbn [app strstr_loop]. rewrite (proj2 (Z.eqb_neq x 0)) by done.
    rewrite (starts_spec _ _ (x :: s) (y :: t)) by done. cbn [mbind res_bind]. case_bool_decide as Hpre.
    + exists (Some i). split; [done|]. exists 0%nat. split_and!; [lia|done|intros; lia].
    + destruct (IH (s ++ 0 :: rh) ltac:(by exists rh) (i + 1)) as (r0 & -> & Hr). exists r0. split; [done|].
      destruct r0 as [p|].
      * destruct Hr as (k & -> & Hk & Hj). exists (S k). split_and!; [lia|done|].
        intros [|j] Hlt; [done|]. apply Hj. lia.
      * intros [|j]; [done|]. apply Hr.
Qed.

(** ** Formatted output *)

(** The conversion [f] finds its argument. *)
Inductive arg_ok (f : Z) : list va_arg → list va_arg → Prop :=
| arg_str s t l : f = 115 → (∀ b, s = Some b → cstr b t) → arg_ok f (AStr s :: l) l
| arg_int v l : f ∈ [100; 105; 117; 120; 88; 99] → arg_ok f (AInt v :: l) l
| arg_none l : f ∉ [115; 100; 105; 117; 120; 88; 99] → arg_ok f l l.

(** A terminated format whose conversions find their arguments; where the padding of strings
    is not guarded, no string has a width. *)
Inductive fmt_ok (guarded : bool) : list Z → list va_arg → Prop :=
| fmt_end rest args : fmt_ok guarded (0 :: rest) args
| fmt_char c fmt args : c ≠ 0 → c ≠ 37 → fmt_ok guarded fmt args → fmt_ok guarded (c :: fmt) args
| fmt_conv zero w f fmt fmt' args args' :
    read_spec fmt = Ok (zero, w, f :: fmt') → guarded = true ∨ f ≠ 115 ∨ w = 0 →
    arg_ok f args args' → fmt_ok guarded fmt' args' → fmt_ok guarded (37 :: fmt) args.

(** A step of the formatter that stays within its limit. *)
Definition within (buf : list Z) (pos : Z) (r : res (list Z * Z)) : Prop :=
  ∃ b p, r = Ok (b, p) ∧ length b = length buf ∧ pos ≤ p ≤ 1022.

Lemma put_lim_within cs buf pos :
  0 ≤ pos ≤ 1022 → 1023 ≤ Z.of_nat (length buf) → within buf pos (put_lim cs buf pos).
Proof.
  revert buf pos. induction cs as [|c cs IH]; intros buf pos Hp Hb; cbn [put_lim]; [by exists buf, pos; repeat split; lia|].
  case_if; [|by exists buf, pos; repeat split; lia]. rewrite arr_set_in by lia. cbn [mbind res_bind].
  destruct (IH (<[Z.to_nat pos := c]> buf) (pos + 1)) as (b & p & -> & Hl & Hr); [lia|rewrite length_insert; lia|].
  exists b, p. rewrite length_insert in Hl. repeat split; lia || done.
Qed.

Lemma puts_lim_within s t buf pos :
  cstr s t → 0 ≤ pos ≤ 1022 → 1023 ≤ Z.of_nat (length buf) → within buf pos (puts_lim s buf pos).
Proof.
  intros Hs. revert s Hs buf pos. induction t as [|c t IH]; intros s (r & -> & Ht) buf pos Hp Hb; cbn [app puts_lim].
  - exists buf, pos. repeat split; lia.
  - apply Forall_cons in Ht as [Hc Ht]. rewrite (proj2 (Z.eqb_neq c 0)) by done. cbn [negb andb].
    destruct (Z.ltb_spec pos 1022); [|by exists buf, pos; repeat split; lia].
    rewrite arr_set_in by lia. cbn [mbind res_bind].
    destruct (IH (t ++ 0 :: r) ltac:(by exists r) (<[Z.to_nat pos := c]> buf) (pos + 1)) as (b & p & -> & Hl & Hr);
      [lia|rewrite length_insert; lia|].
    exists b, p. rewrite length_insert in Hl. repeat split; lia || done.
Qed.

Lemma put_padded_within zero w ds buf pos :
  0 ≤ pos ≤ 1022 → 1023 ≤ Z.of_nat (length buf) → within buf pos (put_padded zero w ds buf pos).
Proof.
  intros Hp Hb. unfold put_padded. set (cs := replicate _ _).
  destruct (put_lim_within cs buf pos Hp Hb) as (b & p & -> & Hl & Hr). cbn [mbind res_bind fst snd].
  destruct (put_lim_within ds b p) as (b' & p' & -> & Hl' & Hr'); [lia..|].
  exists b', p'. repeat split; lia || congruence.
Qed.

Lemma udec_ok u : 0 ≤ u < 4294967296 → ∃ ds, udec u = Ok ds.
Proof.
  intros Hu. unfold udec. case_if; [by eexists|].
  destruct (dec_digits_spec 16 u []) as (ds & -> & _); [change (10 ^ Z.of_nat 16) with 10000000000000000; lia|]. by eexists.
Qed.
Lemma hexits_ok room tbl u acc : 0 ≤ u < 16 ^ Z.of_nat room → ∃ ds, hexits room tbl u acc = Ok ds.
Proof.
  revert u acc. induction room as [|r IH]; intros u acc Hu; cbn [hexits].
  - assert (u = 0) as -> by (cbn in Hu; lia). by eexists.
  - case_if; [by eexists|]. apply IH. rewrite Z.shiftr_div_pow2 by lia. change (2 ^ 4) with 16.
    rewrite Nat2Z.inj_succ, Z.pow_succ_r in Hu by lia. split; [apply Z.div_pos; lia|apply Z.div_lt_upper_bound; lia].
Qed.
Lemma uhex_ok b u : 0 ≤ u < 4294967296 → ∃ ds, uhex b u = Ok ds.
Proof.
  intros Hu. unfold uhex. case_if; [by eexists|]. apply hexits_ok.
  change (16 ^ Z.of_nat 16) with 18446744073709551616. lia.
Qed.

Lemma conv_within g f zero w args args' buf pos :
  g = true ∨ f ≠ 115 ∨ w = 0 → arg_ok f args args' → 0 ≤ pos < 1022 → 1023 ≤ Z.of_nat (length buf) →
  ∃ b p, conv g f zero w args buf pos = Ok (b, p, args') ∧ length b = length buf ∧ pos ≤ p ≤ 1022.
Proof.
  intros Hg Ha Hp Hb. unfold conv. destruct Ha as [s t l -> Hs|v l Hf|l Hf].
  - change (115 =? 115) with true. cbn iota. set (s' := default _ s).
    assert (∃ t', cstr s' t') as (t' & Ht').
    { unfold s'. destruct s as [b|]; [exists t; by apply Hs|]. eexists. apply cstr_lit. by repeat constructor. }
    unfold strlen. rewrite (kstrlen_cstr _ _ Ht'). cbn [mbind res_bind]. set (pad := replicate _ _).
    destruct (put_lim_within pad buf pos) as (b & p & E & Hl & Hr); [lia..|].
    assert ((if g then put_lim pad buf pos else put_all pad buf pos) = Ok (b, p)) as ->.
    { destruct g; [done|]. destruct Hg as [?|[?| ->]]; [done..|]. revert E. unfold pad.
      replace (Z.to_nat (0 - _)) with 0%nat by lia. done. }
    cbn [mbind res_bind fst snd].
    destruct (puts_lim_within s' t' b p Ht') as (b' & p' & -> & Hl' & Hr'); [lia..|]. cbn [mbind res_bind].
    exists b', p'. repeat split; lia || congruence.
  - assert (∀ ds, ∃ b p, (q ← put_padded zero w ds buf pos; Ok (q, l)) = Ok (b, p, l) ∧ length b = length buf ∧ pos ≤ p ≤ 1022) as Hpad.
    { intros ds. destruct (put_padded_within zero w ds buf pos) as (b & p & -> & Hl & Hr); [lia..|]. by exists b, p. }
    assert (∀ c, ∃ b p, (b ← arr_set buf pos c; Ok (b, pos + 1, l)) = Ok (b, p, l) ∧ length b = length buf ∧ pos ≤ p ≤ 1022) as Hset.
    { intros c. rewrite arr_set_in by lia. cbn [mbind res_bind]. eexists _, _. rewrite length_insert. repeat split; lia. }
    destruct (udec_ok (u32 (Z.abs (i32 v)))) as (ds1 & E1); [apply u32_range|].
    destruct (udec_ok (u32 v)) as (ds2 & E2); [apply u32_range|]. destruct (uhex_ok (f =? 88) (u32 v)) as (ds3 & E3); [apply u32_range|].
    rewrite !elem_of_cons in Hf. cbn [int_arg mbind res_bind fst snd]. rewrite E1, E2, E3. cbn [mbind res_bind].
    destruct Hf as [->|[->|[->|[->|[->|[->|Hf]]]]]]; [..|by apply not_elem_of_nil in Hf]; cbn [Z.eqb Pos.eqb orb]; apply Hpad || apply Hset.
  - rewrite !not_elem_of_cons in Hf. destruct Hf as (? & ? & ? & ? & ? & ? & ? & _).
    rewrite !(proj2 (Z.eqb_neq f _)) by done. cbn [orb]. case_if; [|by exists buf, pos; repeat split; lia].
    rewrite arr_set_in by lia. cbn [mbind res_bind]. eexists _, _. rewrite length_insert. repeat split; lia.
Qed.

Lemma read_width_shrinks fmt w n fmt' : read_width fmt w = Ok (n, fmt') → (length fmt' ≤ length fmt)%nat.
Proof.
  revert w. induction fmt as [|c fmt IH]; intros w; cbn [read_width]; [done|].
  case_if; [intros ->%IH; cbn; lia|intros [= <- <-]; done].
Qed.
Lemma read_spec_shrinks fmt z w f fmt' : read_spec fmt = Ok (z, w, f :: fmt') → (S (length fmt') ≤ length fmt)%nat.
Proof.
  destruct fmt as [|c fmt]; [done|]. cbn [read_spec]. rewrite res_bind_Ok. intros ([n r] & E & [= _ _ ->]).
  apply read_width_shrinks in E. revert E. case_if; cbn; lia.
Qed.

Lemma vformat_within g n fmt args buf pos :
  fmt_ok g fmt args → (length fmt < n)%nat → 0 ≤ pos ≤ 1022 → 1023 ≤ Z.of_nat (length buf) →
  within buf pos (vformat n g fmt args buf pos).
Proof.
  intros Hf. revert n buf pos. induction Hf as [rest args|c fmt args Hc0 Hc Hf IH|zero w f fmt fmt' args args' Hr Hg Ha Hf IH];
    intros n buf pos Hn Hp Hb; (destruct n as [|n]; [lia|]); cbn [vformat].
  - exists buf, pos. repeat split; lia.
  - rewrite (proj2 (Z.eqb_neq c 0)), (proj2 (Z.eqb_neq c 37)) by done. cbn [negb andb].
    destruct (Z.ltb_spec pos 1022); [|by exists buf, pos; repeat split; lia].
    rewrite arr_set_in by lia. cbn [mbind res_bind].
    destruct (IH n (<[Z.to_nat pos := c]> buf) (pos + 1)) as (b & p & -> & Hl & Hq); [cbn in Hn; lia|lia|rewrite length_insert; lia|].
    exists b, p. rewrite length_insert in Hl. repeat split; lia || done.
  - cbn [negb andb Z.eqb Pos.eqb]. destruct (Z.ltb_spec pos 1022); [|by exists buf, pos; repeat split; lia].
    pose proof (read_spec_shrinks _ _ _ _ _ Hr). rewrite Hr. cbn [mbind res_bind snd fst].
    destruct (conv_within g f zero w args args' buf pos) as (b & p & -> & Hl & Hq); [done|done|lia|lia|]. cbn [mbind res_bind snd fst].
    destruct (IH n b p) as (b' & p' & -> & Hl' & Hq'); [cbn in Hn; lia|lia|lia|].
    exists b', p'. repeat split; lia || congruence.
Qed.

(** C22: [sprintf] is bounded. Whatever the format and its arguments, as long as every
    conversion has an argument of its kind, it returns, has written at most 1022
    characters and a terminator, and so never leaves a buffer of 1023 bytes. *)
Theorem sprintf_bounded buf fmt args :
  fmt_ok true fmt args → 1023 ≤ Z.of_nat (length buf) →
  ∃ b n, sprintf buf fmt args = Ok (b, n) ∧ length b = length buf ∧ 0 ≤ n ≤ 1022 ∧ b !! Z.to_nat n = Some 0.
Proof.
  intros Hf Hb. unfold sprintf.
  destruct (vformat_within true (S (length fmt)) fmt args buf 0 Hf) as (b & p & -> & Hl & Hr); [lia..|]. cbn [mbind res_bind fst snd].
  rewrite arr_set_in by lia. cbn [mbind res_bind]. eexists _, p. rewrite length_insert.
  split_and!; [done|done|lia|lia|]. apply list_lookup_insert_eq. lia.
Qed.

(** Without widths for strings [printf] stays in its buffer, too. *)
Lemma printf_bounded junk fmt args :
  fmt_ok false fmt args → 1023 ≤ Z.of_nat (length junk) →
  ∃ b n, printf junk fmt args = Ok (b, n) ∧ length b = length junk ∧ 0 ≤ n ≤ 1022.
Proof.
  intros Hf Hb. unfold printf.
  destruct (vformat_within false (S (length fmt)) fmt args junk 0 Hf) as (b & p & -> & Hl & Hr); [lia..|]. cbn [mbind res_bind fst snd].
  rewrite arr_set_in by lia. cbn [mbind res_bind]. eexists _, p. rewrite length_insert. split_and!; done || lia.
Qed.

(** [printf] does not stop the padding of a string at the end of its buffer, and
    [snprintf] collects digits beyond its temporary one. *)
Example printf_overruns : printf (replicate 1024 7) (lit "%1030s") [AStr (Some (lit "x"))] = Fault.
Proof. vm_compute. reflexivity. Qed.
Example snprintf_overruns :
  snprintf (replicate 1024 7) (replicate 16 7) 16 (lit "%s%u") [AStr (Some (replicate 1021 65 ++ [0])); AInt 4000000000] = Fault.
Proof. vm_compute. reflexivity. Qed.
(** Zero padding goes in front of the sign. *)
Example printf_zero_pad : sprintf (replicate 16 7) (lit "%05d") [AInt (-42)] = Ok (str "00-42" ++ [0] ++ replicate 10 7, 5).
Proof. vm_compute. reflexivity. Qed.

(** Formats that are literals. *)
Ltac solve_fmt :=
  match goal with |- fmt_ok _ ?f _ => let f' := eval vm_compute in f in change f with f' end;
  repeat first
    [ apply fmt_char; [discriminate|discriminate|]
    | eapply fmt_conv; [reflexivity|(right; left; discriminate) || (right; right; reflexivity) || (left; reflexivity)
        | (eapply arg_str; [reflexivity|by intros ? [= <-]]) || (apply arg_int; vm_compute; set_solver) || (apply arg_none; vm_compute; set_solver) |]
    | apply fmt_end ].

(** ** Witnesses *)

Lemma memmove_correct_witness :
  memmove [1; 2; 3; 4; 5] 1 0 3 = Ok [1; 1; 2; 3; 5].
Proof. apply (memmove_correct [1; 2; 3; 4; 5] 1 0 3); cbn; lia. Defined.

Lemma itoa_atoi_witness : ∃ buf', itoa (-2147483648) (replicate 12 7) 10 = Ok buf' ∧ atoi buf' = Ok (-2147483648).
Proof. apply (itoa_atoi (-2147483648) (replicate 12 7)); [lia|cbn; lia]. Defined.

Lemma qsort_sorts_witness :
  ∃ r, qsort (λ x y, Ok (x - y)) [3; 1; 2] 4 = Ok r ∧ r ≡ₚ [3; 1; 2] ∧ StronglySorted (λ x y, x - y ≤ 0) r.
Proof.
  apply (qsort_sorts (λ x y, Ok (x - y)) (λ _, True) (λ x y, x - y) [3; 1; 2] 4);
    [done|lia|lia|by repeat constructor|cbn; lia|lia].
Defined.

Lemma sprintf_bounded_witness :
  ∃ b n, sprintf (replicate (Z.to_nat 1024) 7) (lit "%d!") [AInt 5] = Ok (b, n) ∧ length b = Z.to_nat 1024 ∧ 0 ≤ n ≤ 1022 ∧ b !! Z.to_nat n = Some 0.
Proof.
  apply (sprintf_bounded (replicate (Z.to_nat 1024) 7) (lit "%d!") [AInt 5]).
  - solve_fmt.
  - vm_compute. congruence.
Defined.
