(* ===== verification/User.v ===== *)
(** * User programs and the system (src/user/kumos_libc.h)

    The system calls as a user program sees them, and the functions of the C library
    built on them: output, input, the time and the heap. The kernel behind the calls is a
    type [W] with the class [Os]; what it does with the objects it is handed is in
    Syscall.v. Class [Streams] is the behaviour the text tools rely on: files and the
    standard input are byte streams read in pieces, and what is written is appended to
    the output. *)

From S2P Require Import Prelude KString Vga Dmesg Libc.

Definition SYS_EXIT : Z := 0.
Definition SYS_WRITE : Z := 1.
Definition SYS_READ : Z := 2.
Definition SYS_GETPID : Z := 3.
Definition SYS_SLEEP : Z := 4.
Definition SYS_YIELD : Z := 5.
Definition SYS_SBRK : Z := 6.
Definition SYS_UPTIME : Z := 7.
Definition SYS_GETKEY : Z := 8.
Definition SYS_PUTCHAR : Z := 9.
Definition SYS_OPEN : Z := 10.
Definition SYS_CLOSE : Z := 11.
Definition SYS_FREAD : Z := 12.
Definition SYS_FWRITE : Z := 13.
Definition SYS_LISTDIR : Z := 14.
Definition SYS_WAITPID : Z := 15.
Definition SYS_GETTIME : Z := 17.
Definition O_RDONLY : Z := 0x00.
Definition O_WRONLY : Z := 0x01.
Definition O_CREAT : Z := 0x04.
Definition O_TRUNC : Z := 0x08.
Definition STDIN_FILENO : Z := 0.

(** The calls by what they do with memory: [os_num n a b c] passes numbers only;
    [os_get n a len] has the kernel store bytes, at most [len], at a pointer;
    [os_put n a s len] has it read the object [s]. *)
Class Os (W : Type) := {
  os_num : Z → Z → Z → Z → W → Z * W;
  os_get : Z → Z → Z → W → list Z * Z * W;
  os_put : Z → Z → list Z → Z → W → Z * W
}.

Section libc.
Context {W : Type} `{Os W}.

Definition call_num (n a b c : Z) : M W Z := λ w, let (r, w') := os_num n a b c w in Ok (i32 r, w').
(** The bytes go to [buf] from offset [off] on. *)
Definition call_get (n a : Z) (buf : list Z) (off len : Z) : M W (Z * list Z) := λ w,
  let '(bs, r, w') := os_get n a (u32 len) w in
  p ← put_all bs buf off; Ok (i32 r, p.1, w').
Definition call_put (n a : Z) (s : list Z) (len : Z) : M W Z := λ w, let (r, w') := os_put n a s (u32 len) w in Ok (i32 r, w').

(** Should the call return, the program loops for ever. *)
Definition exit (code : Z) : M W unit := call_num SYS_EXIT code 0 0 ;; lift Timeout.
Definition getpid : M W Z := call_num SYS_GETPID 0 0 0.
Definition sleep (ms : Z) : M W unit := call_num SYS_SLEEP ms 0 0 ;; mret tt.
Definition yield : M W unit := call_num SYS_YIELD 0 0 0 ;; mret tt.
Definition waitpid (pid : Z) : M W Z := call_num SYS_WAITPID pid 0 0.
Definition uptime : M W Z := r ← call_num SYS_UPTIME 0 0 0; mret (u32 r).
Definition putchar (c : Z) : M W unit := call_num SYS_PUTCHAR c 0 0 ;; mret tt.
Definition getkey : M W Z := r ← call_num SYS_GETKEY 0 0 0; mret (u8 r).
Definition close (fd : Z) : M W Z := call_num SYS_CLOSE fd 0 0.

(** The structure of [time_t] is eight bytes: second, minute, hour, day, month, a gap,
    and the year in two. *)
Definition gettime (t : list Z) : M W (Z * list Z) := call_get SYS_GETTIME 0 t 0 8.
Definition write (s : list Z) (len : Z) : M W Z := call_put SYS_WRITE 0 s len.
Definition read (buf : list Z) (off len : Z) : M W (Z * list Z) := call_get SYS_READ 0 buf off len.
Definition open_with (name : list Z) (flags : Z) : M W Z := call_put SYS_OPEN flags name 0.
Definition open (name : list Z) : M W Z := open_with name 0.
Definition fread (fd : Z) (buf : list Z) (off sz : Z) : M W (Z * list Z) := call_get SYS_FREAD fd buf off sz.
Definition fwrite (fd : Z) (s : list Z) (sz : Z) : M W Z := call_put SYS_FWRITE fd s sz.
Definition sys_exec (path : list Z) : M W Z := call_put 19 0 path 0.
Definition sys_fork : M W Z := call_num 20 0 0 0.
Definition sys_kill (pid sig : Z) : M W Z := call_num 30 pid sig 0.
Definition sys_signal (sig handler : Z) : M W Z := call_num 31 sig handler 0.

(** [argv] is an address; [rfds] and [fds] are the objects whose words the kernel reads. *)
Definition execve (path : list Z) (argv : Z) : M W Z := call_put 44 argv path 0.
Definition select_fd (nfds : Z) (rfds : list Z) : M W Z := call_put 45 nfds rfds 0.
Definition poll_fd (fds : list Z) (nfds : Z) : M W Z := call_put 46 nfds fds 0.

Definition fputs (s : list Z) : M W Z := n ← lift (strlen s); write s n.
Definition puts (s : list Z) : M W unit := fputs s ;; putchar 10.
Definition gets (buf : list Z) (max : Z) : M W (list Z) :=
  r ← read buf 0 (max - 1);
  lift (arr_set r.2 (if r.1 <? 0 then 0 else r.1) 0).

(** [printf] with its uninitialised buffer [junk]. *)
Definition uprintf (junk fmt : list Z) (args : list va_arg) : M W Z :=
  p ← lift (Libc.printf junk fmt args); write p.1 p.2 ;; mret p.2.

(** ** The heap

    [_heap_ptr] is passed along; [free] does nothing. *)
Definition malloc (heap_ptr size : Z) : M W (Z * Z) :=
  if size =? 0 then mret (0, heap_ptr)
  else
    let size := Z.land (u32 (size + 7)) (Z.lnot 7) in
    h ← (if heap_ptr =? 0 then r ← call_num SYS_SBRK 0 0 0; mret (u32 r) else mret heap_ptr);
    if (heap_ptr =? 0) && ((h =? 0) || (h =? u32 (-1))) then mret (0, h)
    else
      r ← call_num SYS_SBRK size 0 0;
      if r =? -1 then mret (0, h) else mret (h, u32 (h + size)).

(** [obj] is the object at the address that is handed out: it is returned with what is
    stored in it. *)
Definition calloc (heap_ptr n sz : Z) (obj : list Z) : M W (Z * list Z * Z) :=
  let size := u32 (n * sz) in
  r ← malloc heap_ptr size;
  if (r : Z * Z).1 =? 0 then mret (0, obj, r.2)
  else b ← lift (memset obj 0 (Z.to_nat size)); mret (r.1, b, r.2).
Definition strdup (heap_ptr : Z) (s obj : list Z) : M W (Z * list Z * Z) :=
  n ← lift (strlen s);
  let l := u32 (n + 1) in
  r ← malloc heap_ptr l;
  if (r : Z * Z).1 =? 0 then mret (0, obj, r.2)
  else b ← lift (memcpy obj s (Z.to_nat l)); mret (r.1, b, r.2).

(** ** The time *)
Definition put2 (v : Z) (buf : list Z) : M W (list Z) :=
  (if v <? 10 then fputs (lit "0") ;; mret tt else mret tt) ;;
  b ← lift (itoa v buf 10); fputs b ;; mret b.
Definition print_time (t buf : list Z) : M W unit :=
  r ← gettime t;
  if r.1 =? 0 then
    let t := r.2 in
    lo ← lift (arr_get t 6); hi ← lift (arr_get t 7);
    month ← lift (arr_get t 4); day ← lift (arr_get t 3);
    hour ← lift (arr_get t 2); minute ← lift (arr_get t 1); second ← lift (arr_get t 0);
    b ← lift (itoa (lo + 256 * hi) buf 10);
    fputs b ;; fputs (lit "-") ;;
    b ← put2 month b; fputs (lit "-") ;;
    b ← put2 day b; fputs (lit " ") ;;
    b ← put2 hour b; fputs (lit ":") ;;
    b ← put2 minute b; fputs (lit ":") ;;
    put2 second b ;; mret tt
  else mret tt.
End libc.

(** [saved] is the static variable of [strtok]; [str] and it point into [buf]. *)
Definition strtok (str : option Z) (buf delim : list Z) (saved : option Z) : res (option Z * list Z * option Z) :=
  match (match str with Some p => Some p | None => saved end) with
  | None => Ok (None, buf, None)
  | Some p => r ← strtok_r buf delim p; let '(tok, b, save) := r in Ok (tok, b, Some save)
  end.

(** A copy has a place of its own and the text of the original. *)
Lemma strdup_copies {W} `{Os W} h s t obj w p w' : cstr s t → Z.of_nat (length t) < 2 ^ 32 - 1 → (length t < length obj)%nat →
  malloc h (Z.of_nat (length t) + 1) w = Ok (p, w') → p.1 ≠ 0 → ∃ b, strdup h s obj w = Ok ((p.1, b, p.2), w') ∧ cstr b t.
Proof.
  intros Hs Hl Ho Hm Hp. exists (t ++ 0 :: drop (S (length t)) obj). split.
  - unfold strdup, mbind, M_bind, lift, strlen. rewrite (kstrlen_cstr _ _ Hs). cbv beta iota zeta. rewrite u32_small by lia. rewrite Hm.
    rewrite (proj2 (Z.eqb_neq _ 0)) by done. replace (Z.to_nat (Z.of_nat (length t) + 1)) with (S (length t)) by lia.
    pose proof (cstr_length _ _ Hs). unfold memcpy. rewrite kmemcpy_copy by lia. cbv beta iota. destruct Hs as (rs & -> & _).
    rewrite take_app_ge by lia. replace (S (length t) - length t)%nat with 1%nat by lia. cbn. by rewrite <- app_assoc.
  - eexists. split; [done|by eapply cstr_nonzero].
Qed.
Example strtok_twice : (a ← strtok (Some 0) (lit "a,,b") (lit ",") None; b ← strtok None (a : option Z * list Z * option Z).1.2 (lit ",") a.2; Ok (a.1.1, (b : option Z * list Z * option Z).1.1)) = Ok (Some 0, Some 3).
Proof. vm_compute. reflexivity. Qed.

(** A request of the last bytes of the address space rounds up to nothing: it succeeds
    without memory. *)
Lemma malloc_wraps {W} `{Os W} h w : 0 < h < 2 ^ 31 → os_num SYS_SBRK 0 0 0 w = (h, w) →
  malloc h (2 ^ 32 - 1) w = Ok ((h, h), w).
Proof.
  intros Hh Hs. unfold malloc. change (2 ^ 32 - 1 =? 0) with false. change (Z.land (u32 (2 ^ 32 - 1 + 7)) (Z.lnot 7)) with 0.
  rewrite (proj2 (Z.eqb_neq h 0)) by lia. cbn [andb]. unfold mbind, M_bind, mret, M_ret. cbv beta iota. unfold call_num. rewrite Hs.
  rewrite i32_small by lia. rewrite (proj2 (Z.eqb_neq h (-1))) by lia. by rewrite Z.add_0_r, u32_small by lia.
Qed.

(** ** Streams

    [input w fd] is what is left to read of a descriptor, 0 the standard input, and
    [output w] what the program has printed. A read delivers the next bytes, at least
    one unless nothing is left, and no more than asked for. *)
Class Streams (W : Type) `{Os W} (input : W → Z → list Z) (output : W → list Z) := {
  st_get n fd len w : (n = SYS_READ ∧ fd = 0) ∨ n = SYS_FREAD → 0 < len →
    let '(bs, r, w') := os_get n fd len w in
    r = Z.of_nat (length bs) ∧ r ≤ len ∧ input w fd = bs ++ input w' fd ∧ (bs = [] → input w fd = []) ∧
    (∀ fd', fd' ≠ fd → input w' fd' = input w fd') ∧ output w' = output w;
  st_write s len w : 0 ≤ len ≤ Z.of_nat (length s) →
    let (r, w') := os_put SYS_WRITE 0 s len w in
    output w' = output w ++ take (Z.to_nat len) s ∧ ∀ fd, input w' fd = input w fd;
  st_putchar c w :
    let (r, w') := os_num SYS_PUTCHAR c 0 0 w in
    output w' = output w ++ [u8 c] ∧ ∀ fd, input w' fd = input w fd
}.

Section streams.
Context {W : Type} `{Streams W input output}.

(** [put_all] writes the bytes at their place. *)
Lemma put_all_at pre bs old post : length bs = length old →
  put_all bs (pre ++ old ++ post) (Z.of_nat (length pre)) = Ok (pre ++ bs ++ post, Z.of_nat (length pre + length bs)).
Proof.
  revert pre bs. induction old as [|o old IH]; intros pre [|b bs] Hl; try done; cbn [put_all app length].
  { by rewrite Nat.add_0_r. }
  rewrite arr_set_in by (rewrite length_app; cbn; lia). cbn [mbind res_bind]. rewrite Nat2Z.id, insert_app_r_alt by lia.
  rewrite Nat.sub_diag. cbn [insert list_insert]. 
  specialize (IH (pre ++ [b]) bs). rewrite <- !app_assoc in IH. cbn [app] in IH. rewrite length_app in IH. cbn [length] in IH.
  replace (Z.of_nat (length pre) + 1) with (Z.of_nat (length pre + 1)) by lia.
  rewrite IH by (injection Hl; lia). do 3 f_equal. lia.
Qed.

(** A read into the middle of a buffer. *)
Lemma wp_get_at n fd pre old post w (Q : Z * list Z → W → Prop) :
  (n = SYS_READ ∧ fd = 0) ∨ n = SYS_FREAD → old ≠ [] → Z.of_nat (length old) < 2 ^ 31 →
  (∀ bs old' w', input w fd = bs ++ input w' fd → (bs = [] → input w fd = []) →
    length old = (length bs + length old')%nat → (∀ fd', fd' ≠ fd → input w' fd' = input w fd') → output w' = output w →
    Q (Z.of_nat (length bs), pre ++ bs ++ old' ++ post) w') →
  wp (call_get n fd (pre ++ old ++ post) (Z.of_nat (length pre)) (Z.of_nat (length old))) Q w.
Proof.
  intros Hn Hne Hb HQ. assert (0 < length old)%nat by (destruct old; cbn; [done|lia]).
  unfold wp, call_get. rewrite u32_small by lia.
  pose proof (st_get n fd (Z.of_nat (length old)) w Hn) as Hg. destruct (os_get _ _ _ _) as [[bs r] w'].
  destruct Hg as (-> & Hlen & Hin & Hnil & Hoth & Ho); [lia|].
  pose proof (put_all_at pre bs (take (length bs) old) (drop (length bs) old ++ post)) as Hp.
  rewrite (app_assoc (take _ _)), take_drop in Hp. rewrite Hp by (rewrite length_take; lia). cbn.
  rewrite i32_small by lia. apply HQ; [done|done|rewrite length_drop; lia|done|done].
Qed.

Lemma wp_write s len w (Q : Z → W → Prop) : 0 ≤ len ≤ Z.of_nat (length s) → len < 2 ^ 32 →
  (∀ r w', output w' = output w ++ take (Z.to_nat len) s → (∀ fd, input w' fd = input w fd) → Q r w') → wp (write s len) Q w.
Proof.
  intros Hl Hb HQ. unfold wp, write, call_put. rewrite u32_small by lia. pose proof (st_write s len w Hl) as Hw.
  destruct (os_put _ _ _ _ _) as [r w']. destruct Hw. by apply HQ.
Qed.

Lemma wp_putchar c w (Q : unit → W → Prop) :
  (∀ w', output w' = output w ++ [u8 c] → (∀ fd, input w' fd = input w fd) → Q tt w') → wp (putchar c) Q w.
Proof.
  intros HQ. unfold putchar. apply wp_bind. unfold wp, call_num. pose proof (st_putchar c w) as Hw.
  destruct (os_num _ _ _ _ _) as [r w']. destruct Hw. by apply HQ.
Qed.

Lemma wp_fputs buf s w (Q : Z → W → Prop) : cstr buf s → Z.of_nat (length buf) < 2 ^ 32 →
  (∀ r w', output w' = output w ++ s → (∀ fd, input w' fd = input w fd) → Q r w') → wp (fputs buf) Q w.
Proof.
  intros Hb Hl HQ. unfold fputs. apply wp_bind. eapply wp_lift; [unfold strlen; by apply kstrlen_cstr|].
  pose proof (cstr_length _ _ Hb). apply wp_write; [lia|lia|]. intros r w' Ho Hi. apply HQ; [|done].
  rewrite Ho, Nat2Z.id. destruct Hb as (rest & -> & _). by rewrite take_app_length.
Qed.
End streams.

(** ** Streams that compute: descriptors deliver at most five bytes at a time. *)
Definition pipes : Type := (Z → list Z) * list Z.
#[export] Instance pipes_os : Os pipes := {
  os_num n a _ _ w := (0, if n =? SYS_PUTCHAR then (w.1, w.2 ++ [u8 a]) else w);
  os_get n fd len w :=
    let bs := take (Z.to_nat (Z.min 5 len)) (w.1 fd) in
    (bs, Z.of_nat (length bs), (λ k, if k =? fd then drop (length bs) (w.1 fd) else w.1 k, w.2));
  os_put n fd s len w := (len, if n =? SYS_WRITE then (w.1, w.2 ++ take (Z.to_nat len) s) else w)
}.
#[export] Instance pipes_ok : Streams pipes fst snd.
Proof.
  split.
  - intros n fd len w _ Hl. cbn. rewrite Z.eqb_refl. split; [done|]. split; [rewrite length_take; lia|].
    split; [|split; [|split; [|done]]].
    + rewrite length_take. destruct (Nat.le_ge_cases (Z.to_nat (Z.min 5 len)) (length (w.1 fd))).
      * rewrite Nat.min_l by done. by rewrite take_drop.
      * rewrite Nat.min_r by done. rewrite drop_all, app_nil_r. by rewrite firstn_all2 by done.
    + intros E. destruct (w.1 fd) as [|x l]; [done|]. destruct (Z.to_nat (Z.min 5 len)) eqn:En; [lia|done].
    + intros fd' Hne. by rewrite (proj2 (Z.eqb_neq _ _)).
  - intros s len w Hl. done.
  - intros c w. done.
Qed.
