(* ===== verification/Text.v ===== *)
(** * Text tools (src/user/sort.c, uniq.c, wc.c, grep.c, utils.c)

    Filters over lines. The first part is the programs, over the C library and the
    system calls of User.v; local buffers that C leaves uninitialised are arguments
    ([junk]). The second part states what the programs compute: the lines of a text,
    their counts, sorted order, substrings and patterns. *)

From stdpp Require Import sorting.
From S2P Require Import Prelude KString Bytes Vga Dmesg Libc User.

(** ** Arguments

    [if (n > 0) { args[n] = 0; while (n > 0 && (args[n-1] == '\n' || args[n-1] == ' ')) args[--n] = 0; }] *)
Fixpoint trim (n : nat) (args : list Z) : res (list Z) :=
  match n with
  | O => Ok args
  | S n' =>
      c ← arr_get args (Z.of_nat n');
      if (c =? 10) || (c =? 32) then b ← arr_set args (Z.of_nat n') 0; trim n' b else Ok args
  end.

(** [while (f( *p )) p++]: how far. *)
Fixpoint count_while (f : Z → bool) (s : list Z) : res Z :=
  match s with
  | [] => Fault
  | c :: s' => if f c then n ← count_while f s'; Ok (n + 1) else Ok 0
  end.

(** The words of the argument line, as offsets; each is terminated in place. *)
Fixpoint argv_loop (room : nat) (args : list Z) (p : Z) (argv : list Z) : res (list Z * list Z) :=
  match room with
  | O => Ok (argv, args)
  | S room' =>
      c ← arr_get args p;
      if c =? 0 then Ok (argv, args) else
      k ← count_while (λ c, c =? 32) (drop (Z.to_nat p) args);
      let p := p + k in
      c ← arr_get args p;
      if c =? 0 then Ok (argv, args) else
      n ← count_while (λ c, negb (c =? 0) && negb (c =? 32)) (drop (Z.to_nat p) args);
      let q := p + n in
      c ← arr_get args q;
      if c =? 0 then argv_loop room' args q (argv ++ [p])
      else b ← arr_set args q 0; argv_loop room' b (q + 1) (argv ++ [p])
  end.
Definition split_args (args : list Z) : res (list Z * list Z) := argv_loop 15 args 0 [].

(** The next line of the text at [p]: it is terminated in place. *)
Definition next_line (buf : list Z) (p : Z) : res (option (list Z * Z)) :=
  c ← arr_get buf p;
  if c =? 0 then Ok None
  else
    nl ← strchr (drop (Z.to_nat p) buf) 10;
    match nl with
    | Some k => b ← arr_set buf (p + k) 0; Ok (Some (b, p + k + 1))
    | None => n ← strlen (drop (Z.to_nat p) buf); Ok (Some (buf, p + n))
    end.

(** ** Patterns (grep.c) *)
Fixpoint glob_match (pat : list Z) : list Z → res bool :=
  match pat with
  | [] => λ _, Fault
  | p :: pat' =>
      if p =? 0 then λ _, Ok true
      else if p =? 42 then
        fix star (str : list Z) : res bool :=
          r ← glob_match pat' str;
          if r : bool then Ok true
          else match str with
               | [] => Fault
               | c :: str' => if c =? 0 then Ok false else star str'
               end
      else λ str,
        match str with
        | [] => Fault
        | c :: str' => if (p =? 63) || (p =? c) then if c =? 0 then Ok false else glob_match pat' str' else Ok false
        end
  end.

(** [for (j = 0; j < plen; j++) if (line[i+j] != pat[j]) ...] *)
Fixpoint same_at (line pat : list Z) (plen : nat) {struct plen} : res bool :=
  match plen with
  | O => Ok true
  | S n =>
      match line, pat with
      | x :: line', y :: pat' => if x =? y then same_at line' pat' n else Ok false
      | _, _ => Fault
      end
  end.
Fixpoint contains_loop (turns : nat) (line pat : list Z) (plen : nat) : res bool :=
  match turns with
  | O => Ok false
  | S t => ok ← same_at line pat plen; if ok : bool then Ok true else contains_loop t (drop 1 line) pat plen
  end.
Definition contains (line pat : list Z) : res bool :=
  plen ← strlen pat; llen ← strlen line;
  contains_loop (Z.to_nat (llen - plen + 1)) line pat (Z.to_nat plen).

(** [for (i = 0; s[i]; i++) if (s[i] >= 'A' && s[i] <= 'Z') s[i] += 32;] *)
Fixpoint lower_case (s : list Z) : res (list Z) :=
  match s with
  | [] => Fault
  | c :: s' => if c =? 0 then Ok s else r ← lower_case s'; Ok ((if (65 <=? c) && (c <=? 90) then c + 32 else c) :: r)
  end.

Section tools.
Context {W : Type} `{Os W}.

Definition read_args (args : list Z) (cap : Z) : M W (list Z) :=
  r ← read args 0 cap;
  if 0 <? r.1 then b ← lift (arr_set r.2 r.1 0); lift (trim (Z.to_nat r.1) b) else mret r.2.

(** [while ((n = read(buf+total, sizeof(buf)-total-1)) > 0) total += n; buf[total] = 0;]
    Every turn but the last reads a byte: the size of the buffer is fuel. *)
Fixpoint slurp (fuel : nat) (buf : list Z) (total : Z) : M W (list Z) :=
  match fuel with
  | O => lift Timeout
  | S f =>
      r ← read buf total (Z.of_nat (length buf) - total - 1);
      if 0 <? r.1 then slurp f r.2 (total + r.1) else lift (arr_set r.2 total 0)
  end.

(** ** sort *)
Fixpoint collect_lines (room : nat) (buf : list Z) (p : Z) (lines : list Z) : res (list Z * list Z) :=
  match room with
  | O => Ok (lines, buf)
  | S r =>
      l ← next_line buf p;
      match l with
      | None => Ok (lines, buf)
      | Some (b, p') => collect_lines r b p' (lines ++ [p])
      end
  end.
Definition line_at (buf : list Z) (p : Z) : list Z := drop (Z.to_nat p) buf.
Definition cmp_str (buf : list Z) (a b : Z) : res Z := strcmp (line_at buf a) (line_at buf b).
Definition cmp_str_r (buf : list Z) (a b : Z) : res Z := strcmp (line_at buf b) (line_at buf a).
Fixpoint print_lines (buf : list Z) (lines : list Z) : M W unit :=
  match lines with
  | [] => mret tt
  | p :: ps => fputs (line_at buf p) ;; putchar 10 ;; print_lines buf ps
  end.
(** [main] of sort.c: [args] and [buf] are its 64 and 32768 bytes. *)
Definition sort_main (args buf : list Z) : M W Z :=
  args ← read_args args 63;
  c ← lift (strcmp args (lit "-r"));
  buf ← slurp (length buf) buf 0;
  q ← lift (collect_lines 1024 buf 0 []);
  let buf := (q : list Z * list Z).2 in
  lines ← lift (qsort (if c =? 0 then cmp_str_r buf else cmp_str buf) q.1 4);
  print_lines buf lines ;; mret 0.

(** ** uniq *)
Fixpoint uniq_loop (fuel : nat) (buf : list Z) (p : Z) (prev : list Z) : M W unit :=
  match fuel with
  | O => lift Timeout
  | S f =>
      l ← lift (next_line buf p);
      match l with
      | None => mret tt
      | Some (b, p') =>
          d ← lift (strcmp (line_at b p) prev);
          prev ← (if d =? 0 then mret prev
                  else fputs (line_at b p) ;; putchar 10 ;; lift (strncpy prev (line_at b p) 511));
          uniq_loop f b p' prev
      end
  end.
Definition uniq_main (buf prev : list Z) : M W Z :=
  buf ← slurp (length buf) buf 0;
  prev ← lift (arr_set prev 0 0);
  uniq_loop (length buf) buf 0 prev ;; mret 0.

(** ** wc *)
Record counts := mkCounts { c_lines : Z; c_words : Z; c_bytes : Z }.
(** One character: the counts and whether a word is going on. *)
Definition count_char (s : counts * bool) (c : Z) : counts * bool :=
  let '(k, in_word) := s in
  let k := if c =? 10 then mkCounts (u32 (c_lines k + 1)) (c_words k) (c_bytes k) else k in
  if (c =? 32) || (c =? 9) || (c =? 10) then (k, false)
  else if in_word then (k, true)
  else (mkCounts (c_lines k) (u32 (c_words k + 1)) (c_bytes k), true).
Fixpoint count_loop (fuel : nat) (rd : list Z → M W (Z * list Z)) (buf : list Z) (s : counts * bool) : M W (counts * bool) :=
  match fuel with
  | O => lift Timeout
  | S f =>
      r ← rd buf;
      if 0 <? r.1 then
        let k := s.1 in
        count_loop f rd r.2 (foldl count_char (mkCounts (c_lines k) (c_words k) (u32 (c_bytes k + r.1)), s.2) (take (Z.to_nat r.1) r.2))
      else mret s
  end.
Definition no_counts : counts := mkCounts 0 0 0.
Definition add_counts (a b : counts) : counts :=
  mkCounts (u32 (c_lines a + c_lines b)) (u32 (c_words a + c_words b)) (u32 (c_bytes a + c_bytes b)).
Definition count_args (k : counts) : list va_arg := [AInt (c_lines k); AInt (c_words k); AInt (c_bytes k)].

Definition count_fd (fuel : nat) (junk buf : list Z) (fd : Z) (name : list Z) (show_name : bool) (t : counts) : M W counts :=
  s ← count_loop fuel (λ b, fread fd b 0 512) buf (no_counts, false);
  (if show_name then uprintf junk (lit "%6u %6u %6u %s
") (count_args s.1 ++ [AStr (Some name)])
   else uprintf junk (lit "%6u %6u %6u
") (count_args s.1)) ;;
  mret (add_counts t s.1).

Fixpoint wc_files (fuel : nat) (junk buf args : list Z) (many : bool) (argv : list Z) (t : counts) : M W counts :=
  match argv with
  | [] => mret t
  | a :: rest =>
      let name := line_at args a in
      fd ← open name;
      if fd <? 0 then uprintf junk (lit "wc: %s: not found
") [AStr (Some name)] ;; wc_files fuel junk buf args many rest t
      else t ← count_fd fuel junk buf fd name many t; close fd ;; wc_files fuel junk buf args many rest t
  end.
Definition wc_main (fuel : nat) (junk args buf : list Z) : M W Z :=
  args ← read_args args 255;
  q ← lift (split_args args);
  let argv := (q : list Z * list Z).1 in let args := q.2 in
  if (length argv =? 0)%nat then count_fd fuel junk buf STDIN_FILENO (lit "") false no_counts ;; mret 0
  else
    let many := (1 <? length argv)%nat in
    t ← wc_files fuel junk buf args many argv no_counts;
    (if many then uprintf junk (lit "%6u %6u %6u total
") (count_args t) ;; mret tt else mret tt) ;;
    mret 0.

(** ** grep

    [cl] and [cp] are the local copies of the line and the pattern before they are
    written; [line] is kept from one turn to the next. *)
Fixpoint grep_lines (fuel : nat) (junk cl cp pat fname : list Z) (show_name invert ignore_case : bool)
    (buf : list Z) (p : Z) (line : list Z) (linenum : Z) : M W (list Z * Z) :=
  match fuel with
  | O => lift Timeout
  | S f =>
      l ← lift (next_line buf p);
      match l with
      | None => mret (line, linenum)
      | Some (b, p') =>
          line ← lift (strncpy line (line_at b p) 255);
          let linenum := i32 (linenum + 1) in
          cl' ← lift (strncpy cl line 255);
          cp' ← lift (strncpy cp pat 127);
          cl' ← (if ignore_case then lift (lower_case cl') else mret cl');
          cp' ← (if ignore_case then lift (lower_case cp') else mret cp');
          hit ← lift (contains cl' cp');
          (if xorb hit invert then
             if show_name then uprintf junk (lit "%s:%d: %s
") [AStr (Some fname); AInt linenum; AStr (Some line)] ;; mret tt
             else uprintf junk (lit "%s
") [AStr (Some line)] ;; mret tt
           else mret tt) ;;
          grep_lines f junk cl cp pat fname show_name invert ignore_case b p' line linenum
      end
  end.
Fixpoint grep_stream (fuel : nat) (junk cl cp pat : list Z) (fd : Z) (fname : list Z) (show_name invert ignore_case : bool)
    (buf line : list Z) (linenum : Z) : M W unit :=
  match fuel with
  | O => lift Timeout
  | S f =>
      r ← fread fd buf 0 4095;
      if 0 <? r.1 then
        b ← lift (arr_set r.2 r.1 0);
        q ← grep_lines 4096 junk cl cp pat fname show_name invert ignore_case b 0 line linenum;
        grep_stream f junk cl cp pat fd fname show_name invert ignore_case b q.1 q.2
      else mret tt
  end.

(** The options: the words that start with a minus. *)
Fixpoint grep_opts (s : list Z) (invert ignore_case : bool) : res (bool * bool) :=
  match s with
  | [] => Fault
  | c :: s' => if c =? 0 then Ok (invert, ignore_case) else grep_opts s' (invert || (c =? 118)) (ignore_case || (c =? 105))
  end.
Fixpoint grep_flags (args : list Z) (argv : list Z) (invert ignore_case : bool) : res (list Z * bool * bool) :=
  match argv with
  | [] => Ok ([], invert, ignore_case)
  | a :: rest =>
      c ← arr_get args a;
      if c =? 45 then
        o ← grep_opts (line_at args (a + 1)) invert ignore_case; grep_flags args rest (o : bool * bool).1 o.2
      else Ok (argv, invert, ignore_case)
  end.
Fixpoint grep_files (fuel : nat) (junk cl cp pat buf line args : list Z) (multi invert ignore_case : bool) (argv : list Z) : M W unit :=
  match argv with
  | [] => mret tt
  | a :: rest =>
      let name := line_at args a in
      fd ← open name;
      (if fd <? 0 then uprintf junk (lit "grep: %s: not found
") [AStr (Some name)] ;; mret tt
       else grep_stream fuel junk cl cp pat fd name multi invert ignore_case buf line 0 ;; close fd ;; mret tt) ;;
      grep_files fuel junk cl cp pat buf line args multi invert ignore_case rest
  end.
Definition grep_main (fuel : nat) (junk cl cp buf line args : list Z) : M W Z :=
  args ← read_args args 255;
  c ← lift (arr_get args 0);
  if c =? 0 then
    puts (lit "Usage: grep [-i] [-v] <pattern> [file...]") ;;
    puts (lit "  -i  ignore case") ;; puts (lit "  -v  invert match") ;; mret 1
  else
    q ← lift (split_args args);
    let args := (q : list Z * list Z).2 in
    o ← lift (grep_flags args q.1 false false);
    let '(rest, invert, ignore_case) := o in
    match rest with
    | [] => puts (lit "grep: need pattern") ;; mret 1
    | a :: files =>
        let pat := line_at args a in
        (if (length files =? 0)%nat
         then grep_stream fuel junk cl cp pat STDIN_FILENO (lit "(stdin)") false invert ignore_case buf line 0
         else grep_files fuel junk cl cp pat buf line args (1 <? length files)%nat invert ignore_case files) ;;
        mret 0
    end.

(** ** The tools in one program (utils.c) *)
Definition do_wc (fuel : nat) (junk buf : list Z) : M W Z :=
  s ← count_loop fuel (λ b, r ← read b 0 4095; if 0 <? r.1 then b' ← lift (arr_set r.2 r.1 0); mret (r.1, b') else mret r) buf (no_counts, false);
  uprintf junk (lit "%6u %6u %6u
") (count_args s.1) ;; mret 0.
(** The comparison handed to [qsort] is [strcmp] itself: it is given the cells of the
    array, so it compares the bytes of the pointers. [base] is the address of the text. *)
Definition cmp_cells (base : Z) (a b : Z) : res Z := strcmp (Bytes.le32 (base + a)) (Bytes.le32 (base + b)).
Definition do_sort (base : Z) (buf : list Z) : M W Z :=
  buf ← slurp (length buf) buf 0;
  q ← lift (collect_lines 512 buf 0 []);
  lines ← lift (qsort (cmp_cells base) (q : list Z * list Z).1 4);
  print_lines q.2 lines ;; mret 0.
Definition do_uniq (buf prev : list Z) : M W Z := uniq_main buf prev.
Definition utils_main (fuel : nat) (base : Z) (junk args wbuf sbuf prev : list Z) : M W Z :=
  args ← read_args args 63;
  c ← lift (strcmp args (lit "wc"));
  if c =? 0 then do_wc fuel junk wbuf else
  c ← lift (strcmp args (lit "sort"));
  if c =? 0 then do_sort base sbuf else
  c ← lift (strcmp args (lit "uniq"));
  if c =? 0 then do_uniq sbuf prev else
  puts (lit "Usage: wc | sort | uniq") ;; puts (lit "  These tools read from stdin.") ;;
  puts (lit "  Use pipes: ls | sort") ;; mret 1.
End tools.

(** ** Lines *)

(** The lines of a text; a last line need not end in a newline. *)
Fixpoint lines_of (s : list Z) : list (list Z) :=
  match s with
  | [] => []
  | c :: s' =>
      if c =? 10 then [] :: lines_of s'
      else match lines_of s' with [] => [[c]] | l :: ls => (c :: l) :: ls end
  end.
Definition unlines (ls : list (list Z)) : list Z := l ← ls; l ++ [10].

Definition no_nl (l : list Z) : Prop := Forall (λ c, c ≠ 10) l.

Lemma lines_cons_nl l t : no_nl l → lines_of (l ++ 10 :: t) = l :: lines_of t.
Proof. induction 1 as [|c l Hc Hl IH]; [done|]. cbn. rewrite (proj2 (Z.eqb_neq c 10)) by done. by rewrite IH. Qed.
Lemma lines_last l : no_nl l → l ≠ [] → lines_of l = [l].
Proof.
  intros Hl. destruct Hl as [|c l Hc Hl]; [done|]. intros _. revert c Hc. induction Hl as [|d l Hd Hl IH]; intros c Hc; cbn [lines_of].
  - by rewrite (proj2 (Z.eqb_neq c 10)).
  - rewrite (proj2 (Z.eqb_neq c 10)) by done. change (if d =? 10 then _ else _) with (lines_of (d :: l)). by rewrite IH.
Qed.

Lemma lines_nonempty c s : ¬ (length (lines_of (c :: s)) ≤ 0)%nat.
Proof. cbn. destruct (c =? 10); [cbn; lia|]. destruct (lines_of s); cbn; lia. Qed.
Lemma lines_suffix a t : (length (lines_of t) ≤ length (lines_of (a ++ t)))%nat.
Proof.
  induction a as [|c a IH]; [done|]. cbn. destruct (c =? 10); [cbn; lia|]. destruct (lines_of (a ++ t)); cbn in *; lia.
Qed.

Lemma lines_short s : (length (lines_of s) ≤ length s)%nat.
Proof. induction s as [|c s IH]; [done|]. cbn. destruct (c =? 10); [cbn; lia|]. destruct (lines_of s); cbn in *; lia. Qed.

(** A text is its first line and the rest. *)
Lemma first_line s : (no_nl s) ∨ ∃ l t, s = l ++ 10 :: t ∧ no_nl l.
Proof.
  induction s as [|c s [IH|(l & t & -> & Hl)]]; [left; constructor|..].
  - destruct (Z.eq_dec c 10) as [->|]; [right; exists [], s; by repeat constructor|left; by constructor].
  - right. destruct (Z.eq_dec c 10) as [->|]; [exists [], (l ++ 10 :: t); by repeat constructor|].
    exists (c :: l), t. split; [done|by constructor].
Qed.

Lemma strchr_found l t : nonzero l → no_nl l → strchr (l ++ 10 :: t) 10 = Ok (Some (Z.of_nat (length l))).
Proof.
  intros Hz Hl. revert Hz. induction Hl as [|c l Hc Hl IH]; intros Hz; [done|]. apply Forall_cons in Hz as [Hc0 Hz]. cbn [app strchr].
  rewrite (proj2 (Z.eqb_neq c 0)) by done. change (u8 10) with 10. rewrite (proj2 (Z.eqb_neq c 10)) by done.
  rewrite IH by done. cbn. do 2 f_equal. lia.
Qed.
Lemma strchr_absent l t : nonzero l → no_nl l → strchr (l ++ 0 :: t) 10 = Ok None.
Proof.
  intros Hz Hl. revert Hz. induction Hl as [|c l Hc Hl IH]; intros Hz; [done|]. apply Forall_cons in Hz as [Hc0 Hz]. cbn [app strchr].
  rewrite (proj2 (Z.eqb_neq c 0)) by done. change (u8 10) with 10. rewrite (proj2 (Z.eqb_neq c 10)) by done. by rewrite IH.
Qed.

Lemma arr_get_app {A} (pre : list A) x post : arr_get (pre ++ x :: post) (Z.of_nat (length pre)) = Ok x.
Proof. apply arr_get_nat. by apply list_lookup_middle. Qed.
Lemma arr_set_app {A} (pre : list A) x y post : arr_set (pre ++ x :: post) (Z.of_nat (length pre)) y = Ok (pre ++ y :: post).
Proof.
  rewrite arr_set_in by (rewrite length_app; cbn; lia). rewrite Nat2Z.id, insert_app_r_alt, Nat.sub_diag by lia. done.
Qed.
Lemma line_at_app pre s : line_at (pre ++ s) (Z.of_nat (length pre)) = s.
Proof. unfold line_at. by rewrite Nat2Z.id, drop_app_length. Qed.

(** [next_line] at the start of a text. *)
Lemma next_line_end pre rest : next_line (pre ++ 0 :: rest) (Z.of_nat (length pre)) = Ok None.
Proof. unfold next_line. by rewrite arr_get_app. Qed.
Lemma next_line_nl pre l t : nonzero l → no_nl l →
  next_line (pre ++ l ++ 10 :: t) (Z.of_nat (length pre)) = Ok (Some (pre ++ l ++ 0 :: t, Z.of_nat (length pre + length l + 1))).
Proof.
  intros Hz Hl. unfold next_line.
  assert (∃ c r, l ++ 10 :: t = c :: r ∧ c ≠ 0) as (c & r & E & Hc).
  { destruct l as [|c l]; [by eexists 10, t|]. apply Forall_cons in Hz as [Hc _]. by eexists c, _. }
  rewrite E, arr_get_app. cbn [mbind res_bind]. rewrite (proj2 (Z.eqb_neq c 0)) by done.
  rewrite Nat2Z.id, drop_app_length, <- E, strchr_found by done. cbn [mbind res_bind].
  rewrite <- Nat2Z.inj_add, <- length_app, !app_assoc, arr_set_app. cbn. do 3 f_equal. rewrite length_app. lia.
Qed.
Lemma next_line_last pre l t : nonzero l → no_nl l → l ≠ [] →
  next_line (pre ++ l ++ 0 :: t) (Z.of_nat (length pre)) = Ok (Some (pre ++ l ++ 0 :: t, Z.of_nat (length pre + length l))).
Proof.
  intros Hz Hl Hne. unfold next_line. destruct l as [|c l]; [done|]. cbn [app]. rewrite arr_get_app. cbn [mbind res_bind].
  pose proof Hz as [Hc _]%Forall_cons. rewrite (proj2 (Z.eqb_neq c 0)) by done.
  rewrite Nat2Z.id, drop_app_length. change (c :: l ++ 0 :: t) with ((c :: l) ++ 0 :: t). rewrite strchr_absent by done. cbn [mbind res_bind].
  unfold strlen. rewrite (kstrlen_cstr _ (c :: l)) by (by exists t). cbn [mbind res_bind]. do 3 f_equal. lia.
Qed.

(** What a turn of a loop over lines finds: nothing at the end of the text, or the next line,
    terminated, and the text after it. *)
Lemma next_line_step pre s rest : nonzero s → s ≠ [] →
  ∃ l z t, lines_of s = l :: lines_of t ∧ nonzero l ∧ nonzero t ∧ (length t < length s)%nat ∧ l `prefix_of` s ∧
    next_line (pre ++ s ++ 0 :: rest) (Z.of_nat (length pre)) = Ok (Some ((pre ++ l ++ z) ++ t ++ 0 :: rest, Z.of_nat (length (pre ++ l ++ z)))) ∧
    length (l ++ z ++ t) = length s ∧
    ∃ r, z ++ t ++ 0 :: rest = 0 :: r.
Proof.
  intros Hz Hne. destruct (first_line s) as [Hl|(l & t & -> & Hl)].
  - exists s, [], []. split_and!; [by rewrite lines_last|done|constructor|destruct s; [done|cbn; lia]|done| |by rewrite app_nil_r|by exists rest].
    rewrite next_line_last by done. rewrite !app_nil_r, <- app_assoc, length_app. done.
  - apply Forall_app in Hz as [Hzl [_ Hzt]%Forall_cons].
    exists l, [0], t. split_and!; [by apply lines_cons_nl|done|done|rewrite length_app; cbn; lia|by eexists| |rewrite !length_app; cbn; lia|by eexists].
    rewrite <- !app_assoc. cbn [app]. rewrite next_line_nl by done. rewrite !length_app. do 4 f_equal. cbn. lia.
Qed.

Lemma cstr_line pre l r rest : nonzero l → (∃ x, r = 0 :: x) → cstr (line_at ((pre ++ l) ++ r ++ rest) (Z.of_nat (length pre))) l.
Proof. intros Hl (x & ->). rewrite <- app_assoc, line_at_app. by exists (x ++ rest). Qed.

(** The lines of a text are found one after the other. *)
Lemma collect_spec room pre s rest acc : nonzero s → (length (lines_of s) ≤ room)%nat →
  ∃ ps b, collect_lines room (pre ++ s ++ 0 :: rest) (Z.of_nat (length pre)) acc = Ok (acc ++ ps, pre ++ b) ∧
    length b = length (s ++ 0 :: rest) ∧ (s = [] → b = 0 :: rest) ∧ Forall2 (λ p l, 0 ≤ p ∧ cstr (line_at (pre ++ b) p) l) ps (lines_of s).
Proof.
  revert pre s acc. induction room as [|room IH]; intros pre s acc Hs Hr.
  { assert (s = []) as -> by (destruct s; [done|]; by apply lines_nonempty in Hr). exists [], (0 :: rest). cbn. by rewrite app_nil_r. }
  cbn [collect_lines].
  destruct (decide (s = [])) as [->|Hne].
  { cbn [app lines_of]. rewrite next_line_end. exists [], (0 :: rest). cbn. by rewrite app_nil_r. }
  destruct (next_line_step pre s rest Hs Hne) as (l & z & t & El & Hl & Ht & _ & _ & -> & Hlen & r & Hr0). cbn [mbind res_bind].
  rewrite El in Hr |- *. destruct (IH (pre ++ l ++ z) t (acc ++ [Z.of_nat (length pre)]) Ht) as (ps & b & -> & Hb & Hnil & Hps); [cbn in Hr; lia|].
  exists (Z.of_nat (length pre) :: ps), (l ++ z ++ b). rewrite <- !app_assoc in *. split; [done|].
  split; [rewrite !length_app in *; cbn in *; lia|]. split; [done|]. constructor; [|done]. split; [lia|]. rewrite line_at_app.
  destruct z as [|z0 z]; cbn [app] in *.
  - destruct Ht as [|t0 t Ht0 Ht]; cbn in Hr0; [|by injection Hr0]. rewrite Hnil by done. by exists rest.
  - injection Hr0 as -> _. by exists (z ++ b).
Qed.

(** ** Input *)

(** Blanks at the end of a line of arguments. *)
Definition blank (c : Z) : bool := (c =? 10) || (c =? 32).
Fixpoint lstrip (s : list Z) : list Z := match s with [] => [] | c :: s' => if blank c then lstrip s' else s end.
Definition rtrim (s : list Z) : list Z := rev (lstrip (rev s)).

Lemma rtrim_snoc s c : rtrim (s ++ [c]) = if blank c then rtrim s else s ++ [c].
Proof. unfold rtrim. rewrite rev_app_distr. cbn. destruct (blank c); [done|]. cbn. by rewrite rev_involutive. Qed.
Lemma rtrim_sub s : rtrim s `prefix_of` s.
Proof.
  induction s as [|c s IH] using rev_ind; [by exists []|]. rewrite rtrim_snoc. destruct (blank c); [|done].
  etrans; [done|]. by exists [c].
Qed.

Lemma trim_spec s post : nonzero s → ∃ post', trim (length s) (s ++ 0 :: post) = Ok (rtrim s ++ 0 :: post').
Proof.
  revert post. induction s as [|c s IH] using rev_ind; intros post Hs; [by exists post|].
  rewrite length_app, Nat.add_comm, rtrim_snoc. cbn [length Nat.add trim]. rewrite <- app_assoc. cbn [app].
  rewrite arr_get_app. cbn [mbind res_bind]. fold (blank c). destruct (blank c).
  - rewrite arr_set_app. cbn [mbind res_bind]. apply Forall_app in Hs as [Hs _]. by apply IH.
  - exists post. by rewrite <- app_assoc.
Qed.

Section programs.
Context {W : Type} `{Streams W input output}.

(** The argument line is the first piece of the input. *)
Lemma wp_read_args args (cap : nat) w (Q : list Z → W → Prop) :
  nonzero (input w 0) → input w 0 ≠ [] → (0 < cap)%nat → length args = S cap → Z.of_nat cap < 2 ^ 31 →
  (∀ a w' post, input w 0 = a ++ input w' 0 → a ≠ [] → (length a ≤ cap)%nat → output w' = output w →
    (∀ fd, fd ≠ 0 → input w' fd = input w fd) → Q (rtrim a ++ 0 :: post) w') →
  wp (read_args args (Z.of_nat cap)) Q w.
Proof.
  intros Hz Hne Hc Hl Hb HQ. unfold read_args. apply wp_bind. unfold read.
  destruct (lookup_lt_is_Some_2 args cap) as [x Hx]; [lia|]. pose proof (take_drop_middle _ _ _ Hx) as Ea.
  rewrite (drop_ge args (S cap)) in Ea by lia. rewrite <- Ea. set (old := take cap args) in *.
  assert (length old = cap) as Ho by (unfold old; rewrite length_take; lia). replace (Z.of_nat cap) with (Z.of_nat (length old)) by lia.
  apply (wp_get_at SYS_READ 0 [] old [x]); [by left|by destruct old; [cbn in Ho; lia|]|lia|].
  intros bs old' w' Hin Hnil Hlen Hoth Hout. cbn [fst snd app].
  assert (bs ≠ []) as Hbs by (intros E; by apply Hne, Hnil).
  rewrite (proj2 (Z.ltb_lt _ _)) by (destruct bs; [done|cbn; lia]). apply wp_bind.
  rewrite Hin in Hz. apply Forall_app in Hz as [Hzb _].
  destruct (old' ++ [x]) as [|y post] eqn:Eo; [by destruct old'|].
  eapply wp_lift; [apply arr_set_app|]. destruct (trim_spec bs post Hzb) as (post' & Et).
  rewrite Nat2Z.id. eapply wp_lift; [exact Et|]. apply HQ; [done|done|lia|done|]. intros fd Hfd. by apply Hoth.
Qed.

(** Reading everything. *)
Lemma wp_slurp fuel pre old x w (Q : list Z → W → Prop) :
  (length (input w 0) < length old)%nat → (length (input w 0) < fuel)%nat → Z.of_nat (length old) < 2 ^ 31 →
  (∀ w' rest, output w' = output w → (∀ fd, fd ≠ 0 → input w' fd = input w fd) → input w' 0 = [] →
    length (pre ++ input w 0 ++ 0 :: rest) = length (pre ++ old ++ [x]) → Q (pre ++ input w 0 ++ 0 :: rest) w') →
  wp (slurp fuel (pre ++ old ++ [x]) (Z.of_nat (length pre))) Q w.
Proof.
  revert pre old w. induction fuel as [|fuel IH]; intros pre old w Hl Hf Hb HQ; [lia|]. cbn [slurp]. apply wp_bind. unfold read.
  replace (Z.of_nat (length (pre ++ old ++ [x])) - Z.of_nat (length pre) - 1) with (Z.of_nat (length old)) by (rewrite !length_app; cbn; lia).
  apply (wp_get_at SYS_READ 0 pre old [x]); [by left|by destruct old; [cbn in Hl; lia|]|done|].
  intros bs old' w' Hin Hnil Hlen Hoth Hout. cbn [fst snd].
  rewrite Hin, length_app in Hl, Hf. destruct bs as [|b bs].
  - cbn [length app Z.of_nat Z.ltb Z.compare] in *. destruct old' as [|y old']; [cbn in *; lia|]. cbn [app].
    eapply wp_lift; [apply arr_set_app|]. specialize (HQ w' (old' ++ [x])). rewrite (Hnil eq_refl) in *. cbn [app] in *. apply HQ; [done|intros; by apply Hoth|by rewrite <- Hin| ].
    rewrite !length_app. cbn. rewrite length_app in *. cbn in *. lia.
  - rewrite (proj2 (Z.ltb_lt _ _)) by (cbn; lia). rewrite <- Nat2Z.inj_add, <- length_app.
    rewrite (app_assoc pre). apply IH; [lia|cbn in *; lia|lia|].
    intros w2 rest Ho2 Hi2 Hn2 Hl2. rewrite <- app_assoc. specialize (HQ w2 rest). rewrite Hin, <- app_assoc in HQ. apply HQ; [congruence| |done|].
    + intros fd Hfd. rewrite Hi2, Hoth by done. done.
    + rewrite !length_app in *. cbn [length] in *. lia.
Qed.

(** ** sort *)

Lemma lex_opp s t : lex t s = CompOpp (lex s t).
Proof.
  revert t. induction s as [|x s IH]; intros [|y t]; cbn; try done. rewrite Z.compare_antisym. destruct (x ?= y); [apply IH|done|done].
Qed.
Lemma lex_trans s t u : lex s t ≠ Gt → lex t u ≠ Gt → lex s u ≠ Gt.
Proof.
  revert t u. induction s as [|x s IH]; intros [|y t] [|z u]; cbn; try done.
  destruct (Z.compare_spec x y), (Z.compare_spec y z), (Z.compare_spec x z); try done; try lia; subst. apply IH.
Qed.

(** The elements sorted are offsets of strings in the text. *)
Definition at_line (buf : list Z) (p : Z) : Prop := ∃ l, cstr (line_at buf p) l ∧ bytes l.
Definition order (c : res Z) : Z := match c with Ok d => d | _ => 0 end.
Lemma cmp_str_ok buf p q l m : cstr (line_at buf p) l → cstr (line_at buf q) m → bytes l → bytes m →
  cmp_str buf p q = Ok (order (cmp_str buf p q)) ∧ (order (cmp_str buf p q) ?= 0) = lex l m.
Proof.
  intros Hl Hm Bl Bm. unfold cmp_str, strcmp. destruct (kstrcmp_lex _ _ l m Hl Hm Bl Bm) as (d & -> & Hd). done.
Qed.

(** Sorting the offsets sorts the strings. *)
Lemma sort_lines (rev_order : bool) buf ps ls :
  Forall2 (λ p l, 0 ≤ p ∧ cstr (line_at buf p) l) ps ls → Forall bytes ls →
  ∃ qs ms, qsort (if rev_order then cmp_str_r buf else cmp_str buf) ps 4 = Ok qs ∧
    Forall2 (λ p l, 0 ≤ p ∧ cstr (line_at buf p) l) qs ms ∧ ms ≡ₚ ls ∧
    StronglySorted (λ x y, if rev_order then lex y x ≠ Gt else lex x y ≠ Gt) ms.
Proof.
  intros H2 Hb. set (cmp := if rev_order then _ else _).
  assert (∀ p q l m, cstr (line_at buf p) l → cstr (line_at buf q) m → bytes l → bytes m →
    cmp p q = Ok (order (cmp p q)) ∧ (order (cmp p q) ?= 0) = if rev_order then lex m l else lex l m) as Hcmp.
  { intros p q l m Hl Hm Bl Bm. unfold cmp, cmp_str_r. destruct rev_order; by apply cmp_str_ok. }
  destruct (qsort_ok cmp (at_line buf) (λ p q, order (cmp p q))) with (l := ps) (sz := 4) as (qs & Hq & Hperm & Hs).
  - intros p q (l & Hl & Bl) (m & Hm & Bm). by eapply Hcmp.
  - intros p q (l & Hl & Bl) (m & Hm & Bm) Hgt. destruct (Hcmp p q l m Hl Hm Bl Bm) as [_ E1], (Hcmp q p m l Hm Hl Bm Bl) as [_ E2].
    rewrite <- Z.compare_le_iff, E2. rewrite <- Z.compare_gt_iff, E1 in Hgt.
    destruct rev_order; rewrite lex_opp, Hgt; done.
  - intros p q r (l & Hl & Bl) (m & Hm & Bm) (k & Hk & Bk). destruct (Hcmp p q l m Hl Hm Bl Bm) as [_ E1], (Hcmp q r m k Hm Hk Bm Bk) as [_ E2], (Hcmp p r l k Hl Hk Bl Bk) as [_ E3].
    cbn. rewrite <- !Z.compare_le_iff, E1, E2, E3. destruct rev_order; [intros; by eapply lex_trans|apply lex_trans].
  - apply Forall_forall. intros p Hp. apply list_elem_of_lookup in Hp as [i Hi].
    destruct (Forall2_lookup_l _ _ _ _ _ H2 Hi) as (l & Hl & _ & Hc). exists l. split; [done|]. by apply (Forall_lookup_1 _ _ _ _ Hb Hl).
  - lia.
  - destruct (Permutation.Permutation_Forall2 (symmetry Hperm) H2) as (ms & Hms%symmetry & H2').
    exists qs, ms. split; [done|]. split; [done|]. split; [done|].
    assert (Forall bytes ms) as Hbm by (by rewrite Hms).
    clear Hq Hperm Hms. revert Hs. induction H2' as [|p l qs ms [_ Hl] H2' IH]; intros Hs; [constructor|].
    apply StronglySorted_inv in Hs as [Hs Hp]. apply Forall_cons in Hbm as [Bl Bm]. constructor; [by apply IH|].
    apply Forall_forall. intros m Hm. apply list_elem_of_lookup in Hm as [i Hi].
    destruct (Forall2_lookup_r _ _ _ _ _ H2' Hi) as (q & Hqi & _ & Hc). pose proof (Forall_lookup_1 _ _ _ _ Hp Hqi) as Hle. cbn in Hle.
    destruct (Hcmp p q l m Hl Hc Bl (Forall_lookup_1 _ _ _ _ Bm Hi)) as [_ E]. rewrite <- Z.compare_le_iff, E in Hle. by destruct rev_order.
Qed.

Lemma wp_print_lines buf ps ls w (Q : unit → W → Prop) :
  Forall2 (λ p l, 0 ≤ p ∧ cstr (line_at buf p) l) ps ls → Z.of_nat (length buf) < 2 ^ 32 →
  (∀ w', output w' = output w ++ unlines ls → (∀ fd, input w' fd = input w fd) → Q tt w') →
  wp (print_lines buf ps) Q w.
Proof.
  intros H2 Hb. revert w. induction H2 as [|p l ps ls [Hp Hl] H2 IH]; intros w HQ; cbn [print_lines].
  { apply wp_ret, HQ; [by rewrite app_nil_r|done]. }
  apply wp_bind. eapply wp_fputs; [exact Hl|unfold line_at; rewrite length_drop; lia|]. intros _ w1 O1 I1.
  apply wp_bind, wp_putchar. intros w2 O2 I2. apply IH. intros w3 O3 I3. apply HQ.
  - rewrite O3, O2, O1. unfold unlines. cbn. by rewrite <- !app_assoc.
  - intros fd. congruence.
Qed.

Lemma lines_bytes s : bytes s → Forall bytes (lines_of s).
Proof.
  induction 1 as [|c s Hc Hs IH]; [constructor|]. cbn. destruct (c =? 10); [apply Forall_cons; split; [apply Forall_nil_2|done]|].
  destruct IH as [|l ls Hl Hls]; apply Forall_cons; (split; [|done]); apply Forall_cons; (split; [done|done || apply Forall_nil_2]).
Qed.

(** C31: sort prints the lines of its standard input in order. The first piece of the input, at
    most 63 bytes, is taken for the argument; what follows, up to 32766 bytes and 1024
    lines, is printed as a permutation of its lines, ascending, or descending when the
    argument is -r, however the input arrives in pieces. *)
Theorem sort_sorts args buf w :
  nonzero (input w 0) → bytes (input w 0) → input w 0 ≠ [] → Z.of_nat (length (input w 0)) < 32767 →
  Z.of_nat (length (lines_of (input w 0))) ≤ 1024 → length args = 64%nat → Z.of_nat (length buf) = 32768 →
  wp (sort_main args buf) (λ r w', r = 0 ∧ ∃ a t ls,
    input w 0 = a ++ t ∧ (1 ≤ length a ≤ 63)%nat ∧ ls ≡ₚ lines_of t ∧
    StronglySorted (λ x y, if bool_decide (rtrim a = str "-r") then lex y x ≠ Gt else lex x y ≠ Gt) ls ∧
    output w' = output w ++ unlines ls) w.
Proof.
  intros Hz Hby Hne Hlen Hlines Ha Hb. unfold sort_main. apply wp_bind. change 63 with (Z.of_nat 63).
  apply wp_read_args; [done|done|lia|done|lia|]. intros a w1 post Hin Hane Hal O1 I1.
  rewrite Hin in Hz, Hby. apply Forall_app in Hz as [Hza Hzt]. apply Forall_app in Hby as [Hba Hbt].
  assert (nonzero (rtrim a)) as Hzr by (destruct (rtrim_sub a) as [k Ek]; rewrite Ek in Hza; by apply Forall_app in Hza as [? _]).
  destruct (kstrcmp_test (rtrim a ++ 0 :: post) (lit "-r") (rtrim a) (str "-r")) as (d & Ed & Hd); [by exists post|apply cstr_lit; by repeat constructor|].
  apply wp_bind. eapply wp_lift; [exact Ed|]. rewrite Hd.
  destruct buf as [|x old _] using rev_ind; [cbn in Hb; lia|]. rewrite length_app in Hb. cbn in Hb.
  apply wp_bind. change 0 with (Z.of_nat (length (@nil Z))) at 1. change (old ++ [x]) with ([] ++ old ++ [x]).
  assert (length (input w 0) = (length a + length (input w1 0))%nat) as Hla by (by rewrite Hin, length_app).
  apply wp_slurp; [lia|rewrite !length_app; cbn; lia|lia|]. intros w2 rest O2 I2 N2 L2. cbn [app] in *.
  pose proof (lines_suffix a (input w1 0)) as Hsuf. rewrite <- Hin in Hsuf.
  destruct (collect_spec 1024 [] (input w1 0) rest [] Hzt) as (ps & b & Ec & Hlb & _ & Hps); [lia|]. cbn [app] in *.
  apply wp_bind. eapply wp_lift; [exact Ec|]. cbn [fst snd].
  destruct (sort_lines (bool_decide (rtrim a = str "-r")) b ps (lines_of (input w1 0)) Hps (lines_bytes _ Hbt)) as (qs & ms & Eq & H2 & Hperm & Hs).
  apply wp_bind. eapply wp_lift; [exact Eq|]. apply wp_bind. eapply wp_print_lines; [exact H2|rewrite Hlb, L2, length_app; cbn; lia|].
  intros w3 O3 _. apply wp_ret. split; [done|]. exists a, (input w1 0), ms. split_and!; [done|destruct a; [done|cbn; lia]|lia|done|done|].
  rewrite O3, O2, O1. done.
Qed.

(** ** uniq *)

(** Lines without those equal to the one printed before; at the start that is the empty one. *)
Fixpoint dedup (prev : list Z) (ls : list (list Z)) : list (list Z) :=
  match ls with
  | [] => []
  | l :: ls' => if decide (l = prev) then dedup prev ls' else l :: dedup l ls'
  end.

Lemma strncpy_short d s t n : cstr s t → (length t < n)%nat → (n < length d)%nat →
  ∃ d', strncpy d s n = Ok d' ∧ cstr d' t ∧ length d' = length d.
Proof.
  revert d s n. induction t as [|c t IH]; intros d s n Hs Hn Hd; cstr_cases Hs; destruct n as [|n]; [lia| |lia|];
    destruct d as [|x d]; cbn in Hd, Hn; [lia| |lia|]; cbn [strncpy].
  - cbn [Z.eqb]. unfold memset. rewrite kmemset_fill by lia. eexists. split; [done|]. split; [by eexists; split; [done|constructor]|].
    cbn. rewrite length_app, length_replicate, length_drop. lia.
  - rewrite (proj2 (Z.eqb_neq _ 0)) by done. destruct (IH d _ n Hs) as (d' & -> & Hc & Hl); [lia|lia|].
    eexists. split; [done|]. split; [by apply cstr_cons|]. cbn. lia.
Qed.

Lemma wp_uniq_loop fuel pre s rest prev q w (Q : unit → W → Prop) :
  nonzero s → (length (lines_of s) < fuel)%nat → Forall (λ l, (length l < 511)%nat) (lines_of s) →
  cstr prev q → length prev = 512%nat → Z.of_nat (length (pre ++ s ++ 0 :: rest)) < 2 ^ 32 →
  (∀ w', output w' = output w ++ unlines (dedup q (lines_of s)) → (∀ fd, input w' fd = input w fd) → Q tt w') →
  wp (uniq_loop fuel (pre ++ s ++ 0 :: rest) (Z.of_nat (length pre)) prev) Q w.
Proof.
  revert pre s prev q w. induction fuel as [|fuel IH]; intros pre s prev q w Hs Hf Hll Hp Hpl Hb HQ; [lia|]. cbn [uniq_loop]. apply wp_bind.
  destruct (decide (s = [])) as [->|Hne].
  { eapply wp_lift; [apply next_line_end|]. apply wp_ret, HQ; [by rewrite app_nil_r|done]. }
  destruct (next_line_step pre s rest Hs Hne) as (l & z & t & El & Hl & Ht & _ & _ & En & Hlen & r & Hr). eapply wp_lift; [exact En|].
  rewrite El in *. apply Forall_cons in Hll as [Hl511 Hll].
  assert (line_at ((pre ++ l ++ z) ++ t ++ 0 :: rest) (Z.of_nat (length pre)) = l ++ 0 :: r) as Eline by (by rewrite <- !app_assoc, line_at_app, Hr).
  rewrite Eline. destruct (kstrcmp_test (l ++ 0 :: r) prev l q) as (d & Ed & Hd); [by exists r|done|].
  assert (Z.of_nat (length ((pre ++ l ++ z) ++ t ++ 0 :: rest)) < 2 ^ 32) as Hb' by (rewrite !length_app in *; cbn in *; lia).
  apply wp_bind. eapply wp_lift; [exact Ed|]. rewrite Hd. apply wp_bind. cbn [dedup] in HQ. case_bool_decide.
  - rewrite decide_True in HQ by done. apply wp_ret. apply (IH _ _ _ q); [done|cbn in Hf; lia|done..].
  - rewrite decide_False in HQ by done. apply wp_bind. eapply wp_fputs; [by exists r|..].
    { rewrite <- Eline. unfold line_at. rewrite length_drop. lia. }
    intros _ w1 O1 I1. apply wp_bind, wp_putchar. intros w2 O2 I2.
    destruct (strncpy_short prev (l ++ 0 :: r) l 511) as (prev' & Ep & Hp' & Hpl'); [by exists r|done|lia|].
    eapply wp_lift; [exact Ep|]. apply (IH _ _ _ l); [done|cbn in Hf; lia|done|done|lia|done|].
    intros w3 O3 I3. apply HQ; [|intros fd; congruence]. rewrite O3, O2, O1. unfold unlines. cbn. by rewrite <- !app_assoc.
Qed.

(** uniq prints its input without the lines that repeat the line before them; empty lines at
    the start are left out as well. *)
Lemma uniq_prints buf prev w :
  nonzero (input w 0) → (length (input w 0) + 1 < length buf)%nat → Z.of_nat (length buf) < 2 ^ 31 → length prev = 512%nat →
  Forall (λ l, (length l < 511)%nat) (lines_of (input w 0)) →
  wp (uniq_main buf prev) (λ r w', r = 0 ∧ output w' = output w ++ unlines (dedup [] (lines_of (input w 0)))) w.
Proof.
  intros Hz Hl Hb Hp Hll. unfold uniq_main. destruct buf as [|x old _] using rev_ind; [cbn in Hl; lia|].
  rewrite length_app in Hl, Hb. cbn in Hl, Hb. apply wp_bind. change 0 with (Z.of_nat (length (@nil Z))) at 1. change (old ++ [x]) with ([] ++ old ++ [x]).
  apply wp_slurp; [lia|rewrite !length_app; cbn; lia|lia|]. intros w2 rest O2 I2 N2 L2. cbn [app] in *.
  apply wp_bind. destruct prev as [|p0 prev]; [done|]. eapply wp_lift; [done|]. cbn [Z.to_nat insert list_insert].
  apply wp_bind. apply (wp_uniq_loop _ [] (input w 0) rest _ []); [done| |done|exists prev; split; [done|constructor]|done| |].
  - rewrite length_app. cbn. pose proof (lines_short (input w 0)). lia.
  - cbn [app]. rewrite L2, length_app. cbn. lia.
  - intros w3 O3 _. apply wp_ret. split; [done|]. congruence.
Qed.

(** ** wc *)
Definition wblank (c : Z) : bool := (c =? 32) || (c =? 9) || (c =? 10).
(** The pieces between blanks; the words are those that are not empty. *)
Fixpoint pieces (s : list Z) : list (list Z) :=
  match s with
  | [] => [[]]
  | c :: s' => if wblank c then [] :: pieces s' else match pieces s' with [] => [[c]] | l :: ls => (c :: l) :: ls end
  end.
Definition words (s : list Z) : list (list Z) := filter (λ l, l ≠ []) (pieces s).
Definition newlines (s : list Z) : Z := countb (λ c, c =? 10) s.

(** The words that begin after a place inside or outside a word. *)
Definition more_words (in_word : bool) (s : list Z) : Z :=
  Z.of_nat (length (if in_word then filter (λ l, l ≠ []) (tail (pieces s)) else words s)).

Lemma more_words_cons iw c s :
  more_words iw (c :: s) = (if wblank c || iw then 0 else 1) + more_words (negb (wblank c)) s.
Proof.
  unfold more_words, words. cbn [pieces]. destruct (wblank c); cbn [negb orb].
  - destruct iw; cbn [tail]; [done|]. rewrite filter_cons_False by (intros Hn; by apply Hn). done.
  - assert (∃ l ls, pieces s = l :: ls) as (l & ls & ->).
    { destruct s as [|d s]; cbn; [by eexists _, _|]. destruct (wblank d); [by eexists _, _|]. destruct (pieces s); by eexists _, _. }
    destruct iw; cbn [tail]; [done|]. rewrite filter_cons_True by done. cbn [length]. lia.
Qed.

Lemma u32_add a b : u32 (u32 a + b) = u32 (a + b).
Proof. unfold u32. by rewrite Zplus_mod_idemp_l. Qed.

Lemma count_chars s k iw :
  ∃ iw', foldl count_char (mkCounts (u32 (c_lines k)) (u32 (c_words k)) (c_bytes k), iw) s =
    (mkCounts (u32 (c_lines k + newlines s)) (u32 (c_words k + more_words iw s)) (c_bytes k), iw').
Proof.
  revert k iw. induction s as [|c s IH]; intros k iw.
  { exists iw. unfold newlines, more_words. cbn. rewrite Z.add_0_r. destruct iw; cbn; by rewrite Z.add_0_r. }
  cbn [foldl]. rewrite more_words_cons. unfold newlines. cbn [countb]. fold (newlines s).
  unfold count_char at 2. cbn [c_lines c_words c_bytes]. fold (wblank c).
  destruct (Z.eqb_spec c 10) as [->|Hn].
  - change (wblank 10) with true. cbn [orb negb].
    destruct (IH (mkCounts (c_lines k + 1) (c_words k) (c_bytes k)) false) as (iw' & E). cbn in E.
    exists iw'. cbn. rewrite u32_add, E. by rewrite Z.add_assoc.
  - rewrite !Z.add_0_l. destruct (wblank c) eqn:Ew; cbn [orb negb].
    + destruct (IH k false) as (iw' & E). exists iw'. rewrite E. by rewrite Z.add_0_l.
    + destruct iw.
      * destruct (IH k true) as (iw' & E). exists iw'. rewrite E. by rewrite Z.add_0_l.
      * destruct (IH (mkCounts (c_lines k) (c_words k + 1) (c_bytes k)) true) as (iw' & E). cbn in E.
        exists iw'. cbn. rewrite u32_add, E. by rewrite Z.add_assoc.
Qed.

(** The count of bytes does not matter to the other two. *)
Definition with_bytes (n : Z) (s : counts * bool) : counts * bool := (mkCounts (c_lines s.1) (c_words s.1) n, s.2).
Lemma count_with_bytes n s l : foldl count_char (with_bytes n s) l = with_bytes n (foldl count_char s l).
Proof.
  revert s. induction l as [|c l IH]; intros s; [done|]. cbn [foldl]. rewrite <- IH. f_equal.
  destruct s as [k iw]. unfold with_bytes, count_char. cbn. by destruct (c =? 10), (_ || _), iw.
Qed.

Lemma count_keeps_bytes s l : c_bytes (foldl count_char s l).1 = c_bytes s.1.
Proof.
  assert (with_bytes (c_bytes s.1) s = s) as <- by (by destruct s as [[]]). rewrite count_with_bytes. by destruct s as [[]].
Qed.

Lemma wp_count_loop fuel fd buf s w (Q : counts * bool → W → Prop) :
  length buf = 512%nat → (length (input w fd) < fuel)%nat → 0 ≤ c_bytes s.1 < 2 ^ 32 →
  (∀ w', input w' fd = [] → output w' = output w → (∀ fd', fd' ≠ fd → input w' fd' = input w fd') →
    Q (with_bytes (u32 (c_bytes s.1 + Z.of_nat (length (input w fd)))) (foldl count_char s (input w fd))) w') →
  wp (count_loop fuel (λ b, fread fd b 0 512) buf s) Q w.
Proof.
  revert buf s w. induction fuel as [|fuel IH]; intros buf s w Hb Hf Hs HQ; [lia|]. cbn [count_loop]. apply wp_bind. unfold fread.
  change 512 with (Z.of_nat 512). rewrite <- Hb at 1. rewrite <- (app_nil_r buf) at 1.
  apply (wp_get_at SYS_FREAD fd [] buf []); [by right|by destruct buf|lia|].
  intros bs old' w' Hin Hnil Hlen Hoth Hout. cbn [fst snd app]. destruct bs as [|b bs].
  - cbn [length Z.of_nat Z.ltb Z.compare]. apply wp_ret. specialize (HQ w'). rewrite (Hnil eq_refl) in HQ, Hin.
    cbn [length Z.of_nat foldl] in HQ. rewrite Z.add_0_r, u32_small in HQ by lia.
    assert (with_bytes (c_bytes s.1) s = s) as Es by (by destruct s as [[]]). rewrite Es in HQ. apply HQ; [done|done|done].
  - rewrite (proj2 (Z.ltb_lt _ _)) by (cbn; lia). rewrite Nat2Z.id, app_nil_r, take_app_length.
    change (mkCounts (c_lines s.1) (c_words s.1) _, s.2) with (with_bytes (u32 (c_bytes s.1 + Z.of_nat (length (b :: bs)))) s).
    rewrite count_with_bytes. apply IH.
    + rewrite length_app. lia.
    + rewrite Hin, length_app in Hf. cbn in Hf. lia.
    + cbn. pose proof (u32_range (c_bytes s.1 + Z.of_nat (length (b :: bs)))). cbn in *. lia.
    + intros w2 N2 O2 I2. specialize (HQ w2). rewrite Hin, foldl_app, length_app in HQ.
      rewrite count_with_bytes. cbn [with_bytes fst snd c_bytes c_lines c_words] in *.
      rewrite u32_add, <- Z.add_assoc, <- Nat2Z.inj_add. apply HQ; [done|congruence|]. intros fd' Hne. rewrite I2, Hoth by done. done.
Qed.

(** wc counts: newlines, words and bytes, however the data arrives in pieces. *)
Theorem wc_counts fuel fd buf w :
  length buf = 512%nat → (length (input w fd) < fuel)%nat →
  wp (count_loop fuel (λ b, fread fd b 0 512) buf (no_counts, false)) (λ s w',
    s.1 = mkCounts (u32 (newlines (input w fd))) (u32 (Z.of_nat (length (words (input w fd))))) (u32 (Z.of_nat (length (input w fd)))) ∧
    input w' fd = [] ∧ output w' = output w) w.
Proof.
  intros Hb Hf. apply wp_count_loop; [done|done|cbn; lia|]. intros w' N' O' _. split; [|done].
  destruct (count_chars (input w fd) no_counts false) as (iw & E).
  change (mkCounts (u32 (c_lines no_counts)) _ _) with no_counts in E. rewrite E. done.
Qed.
End programs.

(** ** grep *)

(** [same_at] compares the pattern with the beginning of the line. *)
Lemma same_at_spec line pat s t :
  cstr line s → cstr pat t → (length t ≤ length s)%nat → same_at line pat (length t) = Ok (bool_decide (t `prefix_of` s)).
Proof.
  revert line pat s. induction t as [|y t IH]; intros line pat s Hs Ht Hl; cbn [length same_at].
  { rewrite bool_decide_true by apply prefix_nil. done. }
  destruct s as [|x s]; [cbn in Hl; lia|]. destruct Hs as (rs & -> & [_ Hs]%Forall_cons), Ht as (rt & -> & [_ Ht]%Forall_cons).
  cbn [app]. destruct (Z.eqb_spec x y) as [->|Hne].
  - rewrite (IH _ _ s) by ((by eexists) || (cbn in Hl; lia)). f_equal. apply bool_decide_ext. split; [apply prefix_cons|apply prefix_cons_inv_2].
  - rewrite bool_decide_false; [done|]. by intros ?%prefix_cons_inv_1.
Qed.

(** [contains] decides whether the pattern occurs in the line. *)
Lemma contains_spec line pat s t :
  cstr line s → cstr pat t → ∃ b, contains line pat = Ok b ∧ (b = true ↔ ∃ u v, s = u ++ t ++ v).
Proof.
  intros Hs Ht. unfold contains, strlen. rewrite (kstrlen_cstr pat t Ht), (kstrlen_cstr line s Hs). cbn [mbind res_bind].
  rewrite Nat2Z.id.
  assert (∀ turns line s, cstr line s → (turns = length s + 1 - length t)%nat → (0 < turns → length t ≤ length s)%nat →
    ∃ b, contains_loop turns line pat (length t) = Ok b ∧ (b = true ↔ ∃ u v, s = u ++ t ++ v)) as Hloop.
  { clear line s Hs. induction turns as [|n IH]; intros line s Hs Hn Hle; cbn [contains_loop].
    - exists false. split; [done|]. split; [done|]. intros (u & v & ->). rewrite !length_app in Hn. lia.
    - rewrite (same_at_spec _ _ s t) by (done || lia). cbn [mbind res_bind]. case_bool_decide as Hp.
      + exists true. split; [done|]. split; [|done]. intros _. destruct Hp as [v ->]. by exists [], v.
      + destruct s as [|x s].
        * cbn in Hn. destruct n; [|lia]. exists false. split; [done|]. split; [done|].
          intros (u & v & E). symmetry in E. apply app_nil in E as [_ [-> _]%app_nil]. exfalso. apply Hp, prefix_nil.
        * destruct Hs as (rs & -> & [_ Hzs]%Forall_cons). destruct (IH (s ++ 0 :: rs) s) as (b & E & Hb); [by exists rs|cbn in Hn; lia|cbn in Hn; lia|]. change (drop 1 _) with (s ++ 0 :: rs). rewrite E. exists b. split; [done|]. rewrite Hb.
          split; [intros (u & v & ->); by eexists (x :: u), v|]. intros ([|y u] & v & Eu); [exfalso; apply Hp; rewrite Eu; by exists v|].
          injection Eu as _ ->. by exists u, v. }
  apply Hloop; [done|lia|]. intros. lia.
Qed.

(** The texts a pattern stands for: an asterisk is any text, a question mark one character. *)
Inductive globs : list Z → list Z → Prop :=
| globs_nil : globs [] []
| globs_none p s : globs p s → globs (42 :: p) s
| globs_more p c s : globs (42 :: p) s → globs (42 :: p) (c :: s)
| globs_any p c s : globs p s → globs (63 :: p) (c :: s)
| globs_char p c s : c ≠ 42 → globs p s → globs (c :: p) (c :: s).

(** [glob_match] decides whether a beginning of the string has the form of the pattern. *)
Lemma glob_match_spec pat str p s :
  cstr pat p → cstr str s → ∃ b, glob_match pat str = Ok b ∧ (b = true ↔ ∃ t, t `prefix_of` s ∧ globs p t).
Proof.
  revert pat str s. induction p as [|c p IH]; intros pat str s (rp & -> & Hzp) Hs; cbn [app glob_match].
  { exists true. split; [done|]. split; [|done]. intros _. exists []. split; [apply prefix_nil|constructor]. }
  apply Forall_cons in Hzp as [Hc Hzp]. assert (cstr (p ++ 0 :: rp) p) as Hp by (by exists rp).
  rewrite (proj2 (Z.eqb_neq c 0)) by done. destruct (Z.eqb_spec c 42) as [->|N42].
  - revert str Hs. induction s as [|x s IHs]; intros str (rs & -> & Hzs).
    + destruct (IH (p ++ 0 :: rp) ([] ++ 0 :: rs) [] Hp) as (b & E & Hb); [by exists rs|]. cbn [app] in *. rewrite E. cbn [mbind res_bind].
      exists b. split; [by destruct b|]. rewrite Hb. split; intros (t & Ht & Hg); exists t; (split; [done|]); [by constructor|].
      apply prefix_nil_inv in Ht as ->. by inversion Hg.
    + apply Forall_cons in Hzs as [Hx Hzs].
      destruct (IH (p ++ 0 :: rp) ((x :: s) ++ 0 :: rs) (x :: s) Hp) as (b & E & Hb); [exists rs; by repeat constructor|].
      cbn [app] in *. rewrite E. cbn [mbind res_bind]. destruct b.
      * exists true. split; [done|]. split; [|done]. intros _. destruct (proj1 Hb eq_refl) as (t & Ht & Hg). exists t. split; [done|by constructor].
      * rewrite (proj2 (Z.eqb_neq x 0)) by done. destruct (IHs (s ++ 0 :: rs)) as (b & E' & Hb'); [by exists rs|]. rewrite E'.
        exists b. split; [done|]. rewrite Hb'. split.
        -- intros (t & Ht & Hg). exists (x :: t). split; [by apply prefix_cons|by constructor].
        -- intros (t & Ht & Hg). inversion Hg as [|? ? Hg'|? y t' Hg'| |]; subst; [|..].
           ++ exfalso. assert (false = true) as ?; [|done]. apply Hb. eauto.
           ++ pose proof (prefix_cons_inv_1 _ _ _ _ Ht) as ->. apply prefix_cons_inv_2 in Ht. eauto.
           ++ done.
  - destruct s as [|x s]; destruct Hs as (rs & -> & Hzs); cbn [app].
    + rewrite (Z.eqb_refl 0). exists false. split; [by case_if|]. split; [done|]. intros (t & Ht & Hg).
      apply prefix_nil_inv in Ht as ->. by inversion Hg.
    + apply Forall_cons in Hzs as [Hx Hzs]. rewrite (proj2 (Z.eqb_neq x 0)) by done.
      destruct (IH (p ++ 0 :: rp) (s ++ 0 :: rs) s Hp) as (b & E & Hb); [by exists rs|].
      destruct ((c =? 63) || (c =? x)) eqn:Ec.
      * rewrite E. exists b. split; [done|]. rewrite Hb. split.
        -- intros (t & Ht & Hg). exists (x :: t). split; [by apply prefix_cons|]. bool_hyps. destruct Ec; bool_hyps; subst; by constructor.
        -- intros (t & Ht & Hg). inversion Hg as [| | |? y t' Hg'|? y t' ? Hg']; subst; try done;
             pose proof (prefix_cons_inv_1 _ _ _ _ Ht); subst; apply prefix_cons_inv_2 in Ht; eauto.
      * exists false. split; [done|]. split; [done|]. intros (t & Ht & Hg). bool_hyps.
        inversion Hg as [| | |? y t' Hg'|? y t' ? Hg']; subst; try done. pose proof (prefix_cons_inv_1 _ _ _ _ Ht). congruence.
Qed.

(** ** Examples *)
Definition source (fd : Z) (s : list Z) : pipes := (λ k, if k =? fd then s else [], []).
Definition printed {A} (r : res (A * pipes)) : option (list Z) := match r with Ok (_, w) => Some w.2 | _ => None end.

(** The sort of utils.c leaves the lines in the order of their addresses. *)
Example utils_sort_does_not_sort :
  printed (do_sort 0x402000 (replicate 64 0) (source 0 (str "b
a
"))) = Some (str "b
a
").
Proof. vm_compute. reflexivity. Qed.

(** grep takes the two parts of a line that arrives in two pieces for two lines. *)
Example grep_splits_lines :
  printed (grep_stream 100 (replicate 1024 0) (replicate 256 0) (replicate 128 0) (lit "world") 3 (lit "f") false false false
    (replicate 4096 0) (replicate 256 0) 0 (source 3 (str "hello world
"))) = Some [].
Proof. vm_compute. reflexivity. Qed.

Definition four_lines : pipes := source 0 (str "x
bb
b
a
").
Lemma sort_sorts_witness :
  wp (sort_main (replicate 64 0) (replicate (Z.to_nat 32768) 0)) (λ r w', r = 0 ∧ ∃ a t ls,
    fst four_lines 0 = a ++ t ∧ (1 ≤ length a ≤ 63)%nat ∧ ls ≡ₚ lines_of t ∧
    StronglySorted (λ x y, if bool_decide (rtrim a = str "-r") then lex y x ≠ Gt else lex x y ≠ Gt) ls ∧
    snd w' = snd four_lines ++ unlines ls) four_lines.
Proof.
  apply (sort_sorts (replicate 64 0) (replicate (Z.to_nat 32768) 0) four_lines).
  - apply nonzero_test. by vm_compute.
  - apply bytes_test. by vm_compute.
  - by vm_compute.
  - by vm_compute.
  - by vm_compute.
  - done.
  - rewrite length_replicate. lia.
Defined.
