(* ===== verification/Ed.v ===== *)
(** * The line editor (src/user/ed.c)

    The lines are rows of 256 bytes in one table. Each edit is a function on the state
    ([append_line], [insert_line], [delete_line], [change_line], [subst_line]); [ed_cmd] runs
    a command line and prints, [ed_main] is the program. The edits are proved to be those of a
    list of lines. *)

From S2P Require Import Prelude KString Vga Dmesg Libc User Text.

Definition MAX_LINES : Z := 256.
Definition LINE_LEN : Z := 256.

Record ed := mkEd { lines : list (list Z); nlines : Z; filename : list Z; modified : bool }.
Definition set_ed (l : list (list Z)) (n : Z) (m : bool) (e : ed) : ed := mkEd l n (filename e) m.

(** [strncpy(lines[i], s, LINE_LEN-1)] *)
Definition put_line (i : Z) (s : list Z) (l : list (list Z)) : res (list (list Z)) :=
  d ← arr_get l i; r ← strncpy d s 255; arr_set l i r.
(** [memcpy(lines[i], lines[j], LINE_LEN)] *)
Definition copy_line (i j : Z) (l : list (list Z)) : res (list (list Z)) :=
  d ← arr_get l i; s ← arr_get l j; r ← memcpy d s 256; arr_set l i r.

(** ** Edits *)
Definition append_line (s : list Z) (e : ed) : res ed :=
  l ← put_line (nlines e) s (lines e); Ok (set_ed l (nlines e + 1) true e).

(** [for (i = nlines; i > lno; i--) memcpy(lines[i], lines[i-1], LINE_LEN);]: [n] turns are left. *)
Fixpoint shift_down (n : nat) (i : Z) (l : list (list Z)) : res (list (list Z)) :=
  match n with O => Ok l | S n' => l ← copy_line i (i - 1) l; shift_down n' (i - 1) l end.
Definition insert_line (lno : Z) (s : list Z) (e : ed) : res ed :=
  l ← shift_down (Z.to_nat (nlines e - lno)) (nlines e) (lines e);
  l ← put_line lno s l;
  Ok (set_ed l (nlines e + 1) true e).

(** [for (i = lno; i < nlines-1; i++) memcpy(lines[i], lines[i+1], LINE_LEN);] *)
Fixpoint shift_up (n : nat) (i : Z) (l : list (list Z)) : res (list (list Z)) :=
  match n with O => Ok l | S n' => l ← copy_line i (i + 1) l; shift_up n' (i + 1) l end.
Definition delete_line (lno : Z) (e : ed) : res ed :=
  l ← shift_up (Z.to_nat (nlines e - 1 - lno)) lno (lines e);
  d ← arr_get l (nlines e - 1); d ← arr_set d 0 0; l ← arr_set l (nlines e - 1) d;
  Ok (set_ed l (nlines e - 1) true e).

Definition change_line (lno : Z) (s : list Z) (e : ed) : res ed :=
  l ← put_line lno s (lines e); Ok (set_ed l (nlines e) true e).

(** [newline] is the uninitialised local buffer; [None] when the pattern is not there. *)
Definition subst_line (newline : list Z) (lno : Z) (from to : list Z) (e : ed) : res (option ed) :=
  row ← arr_get (lines e) lno;
  pos ← strstr row from;
  match pos with
  | None => Ok None
  | Some prefix =>
      b ← memcpy newline row (Z.to_nat prefix);
      b ← arr_set b prefix 0;
      b ← strcat b to;
      n ← strlen from;
      b ← strcat b (drop (Z.to_nat (prefix + n)) row);
      e ← change_line lno b e; Ok (Some e)
  end.

Section program.
Context {W : Type} `{Os W}.
(** The buffer of [printf], and that of the substituted line. *)
Context (junk newline : list Z).
Notation say fmt args := (uprintf junk (lit fmt) args ;; mret tt).

(** ** Files *)
Fixpoint load_loop (room : nat) (buf : list Z) (p : Z) (e : ed) : res ed :=
  match room with
  | O => Ok e
  | S r =>
      q ← next_line buf p;
      match q with
      | None => Ok e
      | Some (b, p') =>
          l ← put_line (nlines e) (line_at b p) (lines e);
          load_loop r b p' (set_ed l (nlines e + 1) (modified e) e)
      end
  end.
(** [buf] is the local buffer of 4096 bytes. *)
Definition ed_load (buf fname : list Z) (e : ed) : M W ed :=
  fd ← open fname;
  if fd <? 0 then say "New file: %s
" [AStr (Some fname)] ;; mret e
  else
    r ← fread fd buf 0 4095;
    close fd ;;
    if r.1 <=? 0 then mret e
    else
      b ← lift (arr_set r.2 r.1 0);
      e ← lift (load_loop 256 b 0 (set_ed (lines e) 0 (modified e) e));
      say "Loaded %d lines from %s
" [AInt (nlines e); AStr (Some fname)] ;;
      mret e.

Fixpoint save_lines (n : nat) (i : Z) (l : list (list Z)) (buf : list Z) (pos : Z) : res (list Z * Z) :=
  match n with
  | O => Ok (buf, pos)
  | S n' =>
      row ← arr_get l i;
      k ← strlen row;
      t ← memcpy (drop (Z.to_nat pos) buf) row (Z.to_nat k);
      buf ← arr_set (take (Z.to_nat pos) buf ++ t) (pos + k) 10;
      save_lines n' (i + 1) l buf (pos + k + 1)
  end.
Definition ed_save (buf : list Z) (e : ed) : M W ed :=
  p ← lift (save_lines (Z.to_nat (nlines e)) 0 (lines e) buf 0);
  b ← lift (arr_set (p : list Z * Z).1 p.2 0);
  fd ← open_with (filename e) (Z.lor (Z.lor O_WRONLY O_CREAT) O_TRUNC);
  if fd <? 0 then say "Error: can't save %s
" [AStr (Some (filename e))] ;; mret e
  else
    fwrite fd b p.2 ;;
    close fd ;;
    say "Saved %d lines to %s
" [AInt (nlines e); AStr (Some (filename e))] ;;
    mret (set_ed (lines e) (nlines e) false e).

(** ** Listing *)
Fixpoint list_lines (n : nat) (i : Z) (l : list (list Z)) : M W unit :=
  match n with
  | O => mret tt
  | S n' =>
      row ← lift (arr_get l i);
      say "%3d | %s
" [AInt (i + 1); AStr (Some row)] ;;
      list_lines n' (i + 1) l
  end.
Definition ed_list (from to : Z) (e : ed) : M W unit :=
  let from := if from <? 0 then 0 else from in
  let to := if nlines e <=? to then nlines e - 1 else to in
  list_lines (Z.to_nat (to - from + 1)) from (lines e).

Definition ed_help : M W unit :=
  puts (lit "
  ed — KumOS line editor") ;;
  puts (lit "  Commands:") ;;
  puts (lit "    l [from] [to]  - list lines") ;;
  puts (lit "    a <text>       - append line") ;;
  puts (lit "    i <n> <text>   - insert at line n") ;;
  puts (lit "    d <n>          - delete line n") ;;
  puts (lit "    c <n> <text>   - change line n") ;;
  puts (lit "    s <n> <from> <to> - substitute in line n") ;;
  puts (lit "    p              - print all") ;;
  puts (lit "    w              - save") ;;
  puts (lit "    q              - quit") ;;
  puts (lit "    wq             - save and quit
").

(** ** Commands

    Whether the loop goes on, and the state. *)
Definition bad_line (e : ed) : M W (bool * ed) := puts (lit "Bad line number.") ;; mret (true, e).
Definition ed_cmd (sbuf line : list Z) (e : ed) : M W (bool * ed) :=
  cmd ← lift (arr_get line 0);
  c1 ← lift (arr_get line 1);
  let arg := if c1 =? 32 then drop 2 line else drop 1 line in
  if cmd =? 113 then
    if modified e then puts (lit "Unsaved changes. Use 'wq' to save and quit or 'q!' to force.") ;; mret (true, e)
    else mret (false, e)
  else if cmd =? 119 then
    if c1 =? 113 then e ← ed_save sbuf e; mret (false, e)
    else e ← ed_save sbuf e; mret (true, e)
  else if cmd =? 112 then ed_list 0 (nlines e - 1) e ;; mret (true, e)
  else if cmd =? 108 then
    v ← lift (sscanf arg (lit "%d %d") [SNum 0; SNum (nlines e - 1)]);
    let num i d := match v !! i with Some (SNum x) => x | _ => d end in
    let from := i32 (num 0%nat 0 - 1) in let to := i32 (num 1%nat (nlines e - 1) - 1) in
    ed_list (if from <? 0 then 0 else from) (if to <? 0 then nlines e - 1 else to) e ;; mret (true, e)
  else if cmd =? 97 then
    if nlines e <? MAX_LINES then
      e ← lift (append_line arg e);
      say "Appended line %d
" [AInt (nlines e)] ;; mret (true, e)
    else puts (lit "Max lines reached.") ;; mret (true, e)
  else if cmd =? 105 then
    n ← lift (atoi arg); let lno := i32 (n - 1) in
    text ← lift (strchr arg 32);
    match text with
    | None => bad_line e
    | Some k =>
        if (lno <? 0) || (nlines e <? lno) then bad_line e
        else if nlines e <? MAX_LINES then
          e ← lift (insert_line lno (drop (Z.to_nat (k + 1)) arg) e);
          say "Inserted at line %d
" [AInt (lno + 1)] ;; mret (true, e)
        else mret (true, e)
    end
  else if cmd =? 100 then
    n ← lift (atoi arg); let lno := i32 (n - 1) in
    if (lno <? 0) || (nlines e <=? lno) then bad_line e
    else
      e ← lift (delete_line lno e);
      say "Deleted line %d
" [AInt (lno + 1)] ;; mret (true, e)
  else if cmd =? 99 then
    n ← lift (atoi arg); let lno := i32 (n - 1) in
    text ← lift (strchr arg 32);
    match text with
    | None => bad_line e
    | Some k =>
        if (lno <? 0) || (nlines e <=? lno) then bad_line e
        else
          e ← lift (change_line lno (drop (Z.to_nat (k + 1)) arg) e);
          say "Changed line %d
" [AInt (lno + 1)] ;; mret (true, e)
    end
  else if cmd =? 115 then
    n ← lift (atoi arg); let lno := i32 (n - 1) in
    if (lno <? 0) || (nlines e <=? lno) then bad_line e
    else
      p ← lift (strchr arg 32);
      match p with
      | None => mret (true, e)
      | Some k =>
          let p := drop (Z.to_nat (k + 1)) arg in
          q ← lift (strchr p 32);
          match q with
          | None => mret (true, e)
          | Some j =>
              from ← lift (arr_set p j 0);
              r ← lift (subst_line newline lno from (drop (Z.to_nat (j + 1)) p) e);
              match r with
              | None => puts (lit "Pattern not found.") ;; mret (true, e)
              | Some e' => say "Substituted on line %d
" [AInt (lno + 1)] ;; mret (true, e')
              end
          end
      end
  else if (cmd =? 63) || (cmd =? 104) then ed_help ;; mret (true, e)
  else say "Unknown command '%c'. Type '?' for help.
" [AInt cmd] ;; mret (true, e).

(** The loop of [main]; [turns] bounds the lines read. *)
Fixpoint ed_loop (turns : nat) (sbuf line : list Z) (e : ed) : M W ed :=
  match turns with
  | O => lift Timeout
  | S t =>
      fputs (lit "ed> ") ;;
      r ← read line 0 255;
      if r.1 <=? 0 then ed_loop t sbuf r.2 e
      else
        b ← lift (arr_set r.2 r.1 0);
        line ← lift (trim (Z.to_nat r.1) b);
        c ← lift (arr_get line 0);
        if c =? 0 then ed_loop t sbuf line e
        else
          q ← ed_cmd sbuf line e;
          if (q : bool * ed).1 then ed_loop t sbuf line q.2 else mret q.2
  end.
Definition ed_main (turns : nat) (args buf sbuf line : list Z) : M W Z :=
  args ← read_args args 255;
  c ← lift (arr_get args 0);
  if c =? 0 then puts (lit "Usage: ed <filename>") ;; mret 1
  else
    fn ← lift (strncpy (replicate 64 0) args 63);
    e ← ed_load buf fn (mkEd (replicate 256 (replicate 256 0)) 0 fn false);
    ed_help ;;
    ed_loop turns sbuf line e ;; mret 0.
End program.

(** ** Edits of a list of lines *)

(** The table holds the lines [L]. *)
Record ed_rep (e : ed) (L : list (list Z)) : Prop := {
  ed_table : length (lines e) = 256%nat;
  ed_rows : ∀ i r, lines e !! i = Some r → length r = 256%nat;
  ed_count : nlines e = Z.of_nat (length L) ∧ (length L ≤ 256)%nat;
  ed_text : ∀ i l, L !! i = Some l → ∃ r, lines e !! i = Some r ∧ cstr r l
}.
Definition rows_ok (l : list (list Z)) : Prop := ∀ i r, l !! i = Some r → length r = 256%nat.

Inductive edit := EAppend (s : list Z) | EInsert (n : nat) (s : list Z) | EDelete (n : nat) | EChange (n : nat) (s : list Z).
Definition run_edit (o : edit) : ed → res ed :=
  match o with
  | EAppend s => append_line s
  | EInsert n s => insert_line (Z.of_nat n) s
  | EDelete n => delete_line (Z.of_nat n)
  | EChange n s => change_line (Z.of_nat n) s
  end.
Definition spec_edit (o : edit) (L : list (list Z)) : list (list Z) :=
  match o with
  | EAppend s => L ++ [cstring s]
  | EInsert n s => take n L ++ cstring s :: drop n L
  | EDelete n => delete n L
  | EChange n s => <[n := cstring s]> L
  end.
Definition text_ok (s : list Z) : Prop := cstr s (cstring s) ∧ (length (cstring s) < 255)%nat.
Definition edit_ok (o : edit) (L : list (list Z)) : Prop :=
  match o with
  | EAppend s => (length L < 256)%nat ∧ text_ok s
  | EInsert n s => (length L < 256)%nat ∧ (n ≤ length L)%nat ∧ text_ok s
  | EDelete n => (n < length L)%nat
  | EChange n s => (n < length L)%nat ∧ text_ok s
  end.

Lemma rows_insert l i r : rows_ok l → length r = 256%nat → rows_ok (<[i := r]> l).
Proof. intros Hl Hr j x. rewrite list_lookup_insert_Some. intros [(_ & <- & _)|[_ Hx]]; [done|by apply (Hl j)]. Qed.
Lemma put_line_spec i s (l : list (list Z)) : rows_ok l → (i < length l)%nat → text_ok s →
  ∃ r, put_line (Z.of_nat i) s l = Ok (<[i := r]> l) ∧ cstr r (cstring s) ∧ length r = 256%nat.
Proof.
  intros Hl Hi [Hs Hlen]. unfold put_line. destruct (lookup_lt_is_Some_2 l i Hi) as [d Hd]. rewrite (arr_get_nat _ _ _ Hd). cbn [mbind res_bind].
  destruct (strncpy_short d s _ 255 Hs) as (r & -> & Hr & Lr); [lia|rewrite (Hl _ _ Hd); lia|]. cbn [mbind res_bind].
  rewrite arr_set_in, Nat2Z.id by lia. exists r. by rewrite Lr, (Hl _ _ Hd).
Qed.
Lemma copy_line_spec i j (l : list (list Z)) r : rows_ok l → (i < length l)%nat → l !! j = Some r →
  copy_line (Z.of_nat i) (Z.of_nat j) l = Ok (<[i := r]> l).
Proof.
  intros Hl Hi Hj. unfold copy_line. destruct (lookup_lt_is_Some_2 l i Hi) as [d Hd]. rewrite (arr_get_nat _ _ _ Hd), (arr_get_nat _ _ _ Hj). cbn [mbind res_bind].
  unfold memcpy. rewrite kmemcpy_copy by (rewrite ?(Hl _ _ Hd), ?(Hl _ _ Hj); done). cbn [mbind res_bind].
  rewrite take_ge, drop_ge, app_nil_r by (rewrite ?(Hl _ _ Hd), ?(Hl _ _ Hj); done). by rewrite arr_set_in, Nat2Z.id by lia.
Qed.

Lemma shift_down_spec n i (l : list (list Z)) : rows_ok l → (n ≤ i)%nat → (i < length l)%nat →
  ∃ l', shift_down n (Z.of_nat i) l = Ok l' ∧ rows_ok l' ∧ length l' = length l ∧
    (∀ j, (i - n < j ≤ i)%nat → l' !! j = l !! pred j) ∧ (∀ j, ¬ (i - n < j ≤ i)%nat → l' !! j = l !! j).
Proof.
  revert i l. induction n as [|n IH]; intros i l Hl Hn Hi; [exists l; split_and!; done || (intros; lia)|]. cbn [shift_down].
  destruct i as [|i]; [lia|]. replace (Z.of_nat (S i) - 1) with (Z.of_nat i) by lia.
  destruct (lookup_lt_is_Some_2 l i) as [r Hr]; [lia|]. rewrite (copy_line_spec _ _ _ _ Hl Hi Hr). cbn [mbind res_bind].
  destruct (IH i (<[S i := r]> l)) as (l' & -> & Hl' & Hlen & Hin & Hout); [by eapply rows_insert, Hl|lia|rewrite length_insert; lia|].
  rewrite length_insert in Hlen. exists l'. split_and!; [done..| |].
  - intros j Hj. destruct (decide (j = S i)) as [->|].
    + rewrite Hout by lia. by rewrite list_lookup_insert_eq by lia.
    + rewrite Hin by lia. by rewrite list_lookup_insert_ne by lia.
  - intros j Hj. rewrite Hout by lia. by rewrite list_lookup_insert_ne by lia.
Qed.
Lemma shift_up_spec n i (l : list (list Z)) : rows_ok l → (i + n < length l)%nat →
  ∃ l', shift_up n (Z.of_nat i) l = Ok l' ∧ rows_ok l' ∧ length l' = length l ∧
    (∀ j, (i ≤ j < i + n)%nat → l' !! j = l !! S j) ∧ (∀ j, ¬ (i ≤ j < i + n)%nat → l' !! j = l !! j).
Proof.
  revert i l. induction n as [|n IH]; intros i l Hl Hn; [exists l; split_and!; done || (intros; lia)|]. cbn [shift_up].
  replace (Z.of_nat i + 1) with (Z.of_nat (S i)) by lia.
  destruct (lookup_lt_is_Some_2 l (S i)) as [r Hr]; [lia|]. rewrite (copy_line_spec i (S i) l r) by (done || lia). cbn [mbind res_bind].
  destruct (IH (S i) (<[i := r]> l)) as (l' & -> & Hl' & Hlen & Hin & Hout); [by eapply rows_insert, Hl|rewrite length_insert; lia|].
  rewrite length_insert in Hlen. exists l'. split_and!; [done..| |].
  - intros j Hj. destruct (decide (j = i)) as [->|].
    + rewrite Hout by lia. by rewrite list_lookup_insert_eq by lia.
    + rewrite Hin by lia. by rewrite list_lookup_insert_ne by lia.
  - intros j Hj. rewrite Hout by lia. by rewrite list_lookup_insert_ne by lia.
Qed.

(** A table that holds the lines of [L] but [n], with the new one there. *)
Lemma ed_rep_intro e L (l : list (list Z)) m : length l = 256%nat → rows_ok l → (length L ≤ 256)%nat →
  (∀ i t, L !! i = Some t → ∃ r, l !! i = Some r ∧ cstr r t) → ed_rep (set_ed l (Z.of_nat (length L)) m e) L.
Proof. by split. Qed.

Lemma edit_insert e L n s : ed_rep e L → edit_ok (EInsert n s) L →
  ∃ e', run_edit (EInsert n s) e = Ok e' ∧ ed_rep e' (spec_edit (EInsert n s) L) ∧ modified e' = true ∧ filename e' = filename e.
Proof.
  intros [Htab Hrows [Hn Hmax] Htext] Ho. cbn [edit_ok run_edit spec_edit] in *.
  destruct Ho as (Hroom & Hle & Hs). unfold insert_line. rewrite Hn. replace (Z.to_nat (Z.of_nat (length L) - Z.of_nat n)) with (length L - n)%nat by lia.
  destruct (shift_down_spec (length L - n) (length L) (lines e)) as (l1 & -> & Hr1 & Hl1 & Hin & Hout); [done|lia|lia|]. cbn [mbind res_bind].
  destruct (put_line_spec n s l1 Hr1 ltac:(lia) Hs) as (r & -> & Hr & Lr). cbn [mbind res_bind].
  eexists. split; [done|]. split; [|done].
  replace (Z.of_nat (length L) + 1) with (Z.of_nat (length (take n L ++ cstring s :: drop n L))) by (rewrite length_app, length_take; cbn; rewrite length_drop; lia).
  apply ed_rep_intro; [by rewrite length_insert, Hl1|by apply rows_insert|rewrite length_app, length_take; cbn; rewrite length_drop; lia|].
  intros i t Hi. destruct (decide (i = n)) as [->|Hne].
  - rewrite list_lookup_middle in Hi by (rewrite length_take; lia). simplify_eq. rewrite list_lookup_insert_eq by lia. by exists r.
  - rewrite list_lookup_insert_ne by done. apply lookup_app_Some in Hi as [Hi|[Hge Hi]].
    + apply lookup_take_Some in Hi as [Hi Hlt]. rewrite Hout by lia. by apply Htext.
    + rewrite length_take, Nat.min_l in * by lia. destruct (i - n)%nat as [|k] eqn:E; [lia|]. change (drop n L !! k = Some t) in Hi. rewrite lookup_drop in Hi.
      apply lookup_lt_Some in Hi as Hlt. rewrite Hin by lia. replace (pred i) with (n + k)%nat by lia. by apply Htext.
Qed.
Lemma edit_delete e L n : ed_rep e L → edit_ok (EDelete n) L →
  ∃ e', run_edit (EDelete n) e = Ok e' ∧ ed_rep e' (spec_edit (EDelete n) L) ∧ modified e' = true ∧ filename e' = filename e.
Proof.
  intros [Htab Hrows [Hn Hmax] Htext] Ho. cbn [edit_ok run_edit spec_edit] in *.
  unfold delete_line. rewrite Hn. replace (Z.to_nat (Z.of_nat (length L) - 1 - Z.of_nat n)) with (length L - 1 - n)%nat by lia.
  destruct (shift_up_spec (length L - 1 - n) n (lines e)) as (l1 & -> & Hr1 & Hl1 & Hin & Hout); [done|lia|]. cbn [mbind res_bind].
  replace (Z.of_nat (length L) - 1) with (Z.of_nat (length L - 1)) by lia. destruct (lookup_lt_is_Some_2 l1 (length L - 1)) as [d Hd]; [lia|].
  rewrite (arr_get_nat _ _ _ Hd). cbn [mbind res_bind]. rewrite arr_set_in by (rewrite (Hr1 _ _ Hd); lia). cbn [mbind res_bind].
  rewrite arr_set_in, !Nat2Z.id by lia. cbn [mbind res_bind].
  eexists. split; [done|]. split; [|done]. replace (length L - 1)%nat with (length (delete n L)) at 2 by (rewrite length_delete; [lia|by apply lookup_lt_is_Some]).
  apply ed_rep_intro; [by rewrite length_insert, Hl1|by apply rows_insert; [|rewrite length_insert; eapply Hr1]|rewrite length_delete; [lia|by apply lookup_lt_is_Some]|].
  intros i t Hi. apply lookup_lt_Some in Hi as Hlt. rewrite length_delete in Hlt by (by apply lookup_lt_is_Some). rewrite list_lookup_insert_ne by lia.
  destruct (decide (i < n)%nat).
  - rewrite list_lookup_delete_lt in Hi by done. rewrite Hout by lia. by apply Htext.
  - rewrite list_lookup_delete_ge in Hi by lia. rewrite Hin by lia. by apply Htext.
Qed.

(** C37: an edit of the editor is that of a list of lines: appending, inserting, deleting and
    changing a line leaves the table with exactly the lines it should have, within the table
    and its rows, and marks it as modified. *)
Theorem ed_edits e L o : ed_rep e L → edit_ok o L →
  ∃ e', run_edit o e = Ok e' ∧ ed_rep e' (spec_edit o L) ∧ modified e' = true ∧ filename e' = filename e.
Proof.
  intros He Ho. destruct o as [s|n s|n|n s]; [|by apply edit_insert|by apply edit_delete|];
    destruct He as [Htab Hrows [Hn Hmax] Htext]; cbn [edit_ok run_edit spec_edit] in *.
  - destruct Ho as [Hroom Hs]. unfold append_line. rewrite Hn.
    destruct (put_line_spec (length L) s (lines e) Hrows ltac:(lia) Hs) as (r & -> & Hr & Lr). cbn [mbind res_bind].
    eexists. split; [done|]. split; [|done]. replace (Z.of_nat (length L) + 1) with (Z.of_nat (length (L ++ [cstring s]))) by (rewrite length_app; cbn; lia).
    apply ed_rep_intro; [by rewrite length_insert|by apply rows_insert|rewrite length_app; cbn; lia|].
    intros i t [Hi|[Hge Hi]]%lookup_app_Some.
    + rewrite list_lookup_insert_ne by (apply lookup_lt_Some in Hi; lia). by apply Htext.
    + destruct (i - length L)%nat eqn:E; cbn in Hi; simplify_eq. replace i with (length L) by lia. rewrite list_lookup_insert_eq by lia. by exists r.
  - destruct Ho as [Hlt Hs]. unfold change_line. destruct (put_line_spec n s (lines e) Hrows ltac:(lia) Hs) as (r & -> & Hr & Lr). cbn [mbind res_bind].
    eexists. split; [done|]. split; [|done]. rewrite Hn, <- (length_insert L n (cstring s)).
    apply ed_rep_intro; [by rewrite length_insert|by apply rows_insert|by rewrite length_insert|].
    intros i t [(-> & <- & _)|[Hne Hi]]%list_lookup_insert_Some; [rewrite list_lookup_insert_eq by lia; by exists r|].
    rewrite list_lookup_insert_ne by done. by apply Htext.
Qed.

(** ** Examples *)
Definition empty_ed : ed := mkEd (replicate 256 (replicate 256 0)) 0 (lit "A.TXT") false.
Lemma empty_ed_rep : ed_rep empty_ed [].
Proof. split; [done| |by split; cbn; lia|done]. by intros i r [-> _]%lookup_replicate. Qed.
Lemma ed_edits_witness : ∃ e', run_edit (EInsert 0 (lit "one")) empty_ed = Ok e' ∧ ed_rep e' [str "one"] ∧ modified e' = true ∧ filename e' = lit "A.TXT".
Proof.
  apply (ed_edits empty_ed [] (EInsert 0 (lit "one")) empty_ed_rep).
  split; [cbn; lia|]. split; [cbn; lia|]. split; [by apply lit_test|vm_compute; lia].
Defined.

(** The output of a command line on three lines of text, and whether the editor goes on. *)
Definition three : res ed := e ← append_line (lit "one") empty_ed; e ← append_line (lit "two") e; append_line (lit "three") e.
Definition runs (line : list Z) : option (bool * list Z) :=
  match (e ← lift three; ed_cmd (replicate 1024 0) (replicate 256 0) (replicate 100 0) line e) (λ _, [], []) with
  | Ok (q, (_, out)) => Some (q.1, out)
  | _ => None
  end.
(** The editor says that [q!] leaves without saving, but the test for [q] comes first. *)
Example q_never_forces : runs (lit "q!") = Some (true, str "Unsaved changes. Use 'wq' to save and quit or 'q!' to force." ++ [10]).
Proof. vm_compute. reflexivity. Qed.
(** Without its second argument [l] leaves out the last line. *)
Example l_omits_last : runs (lit "l") = Some (true, str "  1 | one
  2 | two
").
Proof. vm_compute. reflexivity. Qed.
Example substitutes : (e ← three; r ← subst_line (replicate 256 0) 1 (lit "wo") (lit "hree") e;
  match r with Some e' => row ← arr_get (lines e') 1; Ok (cstring row) | None => Fault end) = Ok (str "three").
Proof. vm_compute. reflexivity. Qed.
(** A substitution whose result has 256 characters overruns the new line. *)
Example subst_overruns : (e ← append_line (replicate 250 97 ++ [0]) empty_ed; subst_line (replicate 256 0) 0 (lit "a") (lit "bbbbbbb") e) = Fault.
Proof. vm_compute. reflexivity. Qed.
