(* ===== verification/Awk.v ===== *)
(** * awk (src/user/awk.c)

    The program over the C library and the system calls: fields of a line, conditions,
    actions, the parsing of the program text and the loop over the lines. The fields are
    offsets into the line, which [split_line] cuts up in place. *)

From S2P Require Import Prelude KString Vga Dmesg Libc User Text.

Definition AWK_FIELDS : Z := 32.
Definition AWK_LINELEN : Z := 512.

(** The static variables: [fields] are the first [nfields] entries of the array. *)
Record awk := mkAwk { line : list Z; fields : list Z; NR : Z; NF : Z }.
Definition nfields (a : awk) : Z := Z.of_nat (length (fields a)).

(** ** Fields *)
Definition is_gap (c : Z) : bool := (c =? 32) || (c =? 9).
(** [fields[nfields++] = p]; the array has 32 entries. *)
Definition push_field (p : Z) (fs : list Z) : res (list Z) :=
  if Z.of_nat (length fs) <? AWK_FIELDS then Ok (fs ++ [p]) else Fault.
Fixpoint gap_loop (room : nat) (ln : list Z) (p : Z) (fs : list Z) : res (list Z * list Z) :=
  match room with
  | O => Ok (fs, ln)
  | S r =>
      c ← arr_get ln p;
      if c =? 0 then Ok (fs, ln) else
      k ← count_while is_gap (line_at ln p);
      let p := p + k in
      c ← arr_get ln p;
      if c =? 0 then Ok (fs, ln) else
      fs ← push_field p fs;
      n ← count_while (λ c, negb (c =? 0) && negb (is_gap c)) (line_at ln p);
      let q := p + n in
      c ← arr_get ln q;
      if c =? 0 then gap_loop r ln q fs else b ← arr_set ln q 0; gap_loop r b (q + 1) fs
  end.
Fixpoint sep_loop (n : nat) (sep : Z) (ln : list Z) (p : Z) (fs : list Z) : res (list Z * list Z) :=
  match n with
  | O => Timeout
  | S n' =>
      c ← arr_get ln p;
      if c =? 0 then Ok (fs, ln)
      else if c =? sep then b ← arr_set ln p 0; fs ← push_field (p + 1) fs; sep_loop n' sep b (p + 1) fs
      else sep_loop n' sep ln (p + 1) fs
  end.
(** The fields and the line; the null pointer behind the fields has to fit, too. *)
Definition split_line (ln : list Z) (sep : Z) : res (list Z * list Z) :=
  q ← (if sep =? 32 then gap_loop 31 ln 0 [] else sep_loop (length ln) sep ln 0 [0]);
  if Z.of_nat (length (q : list Z * list Z).1) <? AWK_FIELDS then Ok q else Fault.

(** [$fi]: the line, a field, or nothing. *)
Definition field_ref (a : awk) (fi : Z) : res (option (list Z)) :=
  if fi =? 0 then Ok (Some (line a))
  else if (0 <? fi) && (fi <=? nfields a) then p ← arr_get (fields a) (fi - 1); Ok (Some (line_at (line a) p))
  else Ok None.

(** ** Conditions *)
Definition starts_with (s t : list Z) (n : nat) : res bool := d ← strncmp s t n; Ok (d =? 0).
(** The operators in the order they are tried; [ls] compares the strings, [l] and [r]
    are the numbers. *)
Definition ops : list (list Z * (Z → Z → Z → bool)) := [
  (lit "==", λ ls l r, (ls =? 0) || (l =? r));
  (lit "!=", λ ls l r, negb (ls =? 0));
  (lit ">=", λ ls l r, r <=? l);
  (lit "<=", λ ls l r, l <=? r);
  (lit ">", λ ls l r, r <? l);
  (lit "<", λ ls l r, l <? r)].
Fixpoint try_ops (fld : list Z) (a : awk) (cond : list Z) (os : list (list Z * (Z → Z → Z → bool))) : res (option bool) :=
  match os with
  | [] => Ok None
  | (o, f) :: os' =>
      op ← strstr cond o;
      match op with
      | None => try_ops fld a cond os'
      | Some k =>
          fld ← strncpy fld cond (Z.to_nat k); fld ← arr_set fld k 0;
          n ← strlen o;
          let rhs := line_at cond (k + n) in
          c ← arr_get fld 0;
          lhs ← (if c =? 36 then fi ← atoi (drop 1 fld); v ← field_ref a fi; Ok (default (lit "") v) else Ok (lit ""));
          l ← atoi lhs; r ← atoi rhs; ls ← strcmp lhs rhs;
          Ok (Some (f ls l r))
      end
  end.
(** [while ( *pat && *pat != '/') pbuf[pi++] = *pat++; pbuf[pi] = 0;] *)
Fixpoint copy_until (stop : Z → bool) (s : list Z) (i : Z) (buf : list Z) : res (list Z * Z) :=
  match s with
  | [] => Fault
  | c :: s' => if (c =? 0) || stop c then b ← arr_set buf i 0; Ok (b, i) else b ← arr_set buf i c; copy_until stop s' (i + 1) b
  end.
(** [fld] and [pbuf] are the local buffers of 32 and 64 bytes. *)
Definition eval_cond (fld pbuf : list Z) (a : awk) (cond : list Z) : res bool :=
  c ← arr_get cond 0;
  one ← (if c =? 0 then Ok 0 else strcmp cond (lit "1"));
  if one =? 0 then Ok true else
  zero ← strcmp cond (lit "0");
  if zero =? 0 then Ok false else
  t ← starts_with cond (lit "NR==") 4; if t : bool then n ← atoi (drop 4 cond); Ok (NR a =? n) else
  t ← starts_with cond (lit "NR>") 3; if t : bool then n ← atoi (drop 3 cond); Ok (n <? NR a) else
  t ← starts_with cond (lit "NR<") 3; if t : bool then n ← atoi (drop 3 cond); Ok (NR a <? n) else
  t ← starts_with cond (lit "NF==") 4; if t : bool then n ← atoi (drop 4 cond); Ok (NF a =? n) else
  r ← try_ops fld a cond ops;
  match r with
  | Some v => Ok v
  | None =>
      m ← strstr cond (lit "$0~/");
      match m with
      | Some k =>
          p ← copy_until (λ c, c =? 47) (line_at cond (k + 4)) 0 pbuf;
          hit ← strstr (line a) (p : list Z * Z).1;
          Ok (match hit with Some _ => true | None => false end)
      | None => Ok true
      end
  end.

(** ** Actions *)
Section program.
Context {W : Type} `{Os W} (junk tok : list Z).

(** [for (i = 1; tok[i] && tok[i] != DQUOTE; i++) putchar(tok[i]);] *)
Fixpoint put_quoted (s : list Z) : M W unit :=
  match s with
  | [] => lift Fault
  | c :: s' => if (c =? 0) || (c =? 34) then mret tt else putchar c ;; put_quoted s'
  end.
Definition print_token (a : awk) (t : list Z) : M W unit :=
  c ← lift (arr_get t 0);
  if c =? 36 then
    fi ← lift (atoi (drop 1 t));
    v ← lift (field_ref a fi);
    match v with Some s => fputs s ;; mret tt | None => mret tt end
  else if c =? 34 then put_quoted (drop 1 t)
  else fputs t ;; mret tt.
Fixpoint print_args (n : nat) (a : awk) (s : list Z) (first : bool) : M W unit :=
  match n with
  | O => lift Timeout
  | S n' =>
      c ← lift (arr_get s 0);
      if c =? 0 then mret tt else
      k ← lift (count_while (λ c, c =? 32) s);
      let s := line_at s k in
      c ← lift (arr_get s 0);
      if c =? 0 then mret tt else
      t ← lift (copy_until (λ c, (c =? 44) || (c =? 32)) s 0 tok);
      (if first then mret tt else putchar 32) ;;
      print_token a (t : list Z * Z).1 ;;
      let s := line_at s t.2 in
      c ← lift (arr_get s 0);
      print_args n' a (if c =? 44 then drop 1 s else s) false
  end.
Definition eval_action (a : awk) (action : list Z) : M W unit :=
  c ← lift (arr_get action 0);
  d1 ← lift (if c =? 0 then Ok 0 else strcmp action (lit "print"));
  d2 ← lift (if d1 =? 0 then Ok 0 else strcmp action (lit "print $0"));
  if d2 =? 0 then puts (line a) else
  t ← lift (starts_with action (lit "print ") 6);
  if t : bool then print_args (length action) a (drop 6 action) true ;; putchar 10 else
  t ← lift (starts_with action (lit "printf ") 7);
  if t : bool then uprintf junk (lit "%s") [AStr (Some (drop 7 action))] ;; mret tt else mret tt.

(** ** The program text *)

(** The options and the text between quotes: the separator and the program. *)
Fixpoint parse_args (n : nat) (args : list Z) (p fs_char : Z) (prog : list Z) : res (Z * list Z) :=
  match n with
  | O => Timeout
  | S n' =>
      c ← arr_get args p;
      if c =? 0 then Ok (fs_char, prog) else
      f ← starts_with (line_at args p) (lit "-F") 2;
      if f : bool then
        sep ← arr_get args (p + 2);
        k ← count_while (λ c, c =? 32) (line_at args (p + 3));
        parse_args n' args (p + 3 + k) sep prog
      else if c =? 39 then
        q ← (fix copy (room : nat) (p pi : Z) (prog : list Z) : res (Z * list Z) :=
               match room with
               | O => b ← arr_set prog pi 0; Ok (p, b)
               | S r =>
                   c ← arr_get args p;
                   if (c =? 0) || (c =? 39) then b ← arr_set prog pi 0; Ok (p, b)
                   else b ← arr_set prog pi c; copy r (p + 1) (pi + 1) b
               end) 127%nat (p + 1) 0 prog;
        let p := (q : Z * list Z).1 in
        c ← arr_get args p;
        let p := if c =? 39 then p + 1 else p in
        k ← count_while (λ c, c =? 32) (line_at args p);
        parse_args n' args (p + k) fs_char q.2
      else parse_args n' args (p + 1) fs_char prog
  end.

(** [while (f(s[0])) memmove(s, s+1, strlen(s));] *)
Fixpoint strip_front (n : nat) (f : Z → bool) (s : list Z) : res (list Z) :=
  match n with
  | O => Timeout
  | S n' =>
      c ← arr_get s 0;
      if f c then k ← strlen s; b ← memmove s 0 1 (Z.to_nat k); strip_front n' f b else Ok s
  end.
(** [while (l >= 0 && f(s[l])) s[l--] = 0;] from the last character on. *)
Fixpoint strip_back (n : nat) (f : Z → bool) (s : list Z) : res (list Z) :=
  match n with
  | O => Ok s
  | S n' => c ← arr_get s (Z.of_nat n'); if f c then b ← arr_set s (Z.of_nat n') 0; strip_back n' f b else Ok s
  end.
Definition strip (f : Z → bool) (s : list Z) : res (list Z) :=
  s ← strip_front (S (length s)) f s; k ← strlen s; strip_back (Z.to_nat k) is_gap s.
Definition at_most (a b : Z) : Z := if a <? b then a else b.
(** The condition and the action of a program. *)
Definition parse_prog (prog : list Z) : res (list Z * list Z) :=
  let cond := lit "1" ++ replicate 62 0 in
  let action := lit "print" ++ replicate 122 0 in
  ob ← strchr prog 123;
  match ob with
  | None => a ← strcpy action prog; Ok (cond, a)
  | Some clen =>
      cond ← strncpy cond prog (Z.to_nat (at_most clen 63)); cond ← arr_set cond (at_most clen 63) 0;
      cond ← strip is_gap cond;
      let cb := line_at prog (clen + 1) in
      ce ← strchr cb 125;
      match ce with
      | None => Ok (cond, action)
      | Some alen =>
          a ← strncpy action cb (Z.to_nat (at_most alen 127)); a ← arr_set a (at_most alen 127) 0;
          a ← strip (λ c, c =? 32) a;
          Ok (cond, a)
      end
  end.

(** ** The loop over the lines *)
Fixpoint awk_loop (n : nat) (fld pbuf : list Z) (fs_char : Z) (cond action all : list Z) (lp : Z) (a : awk) : M W unit :=
  match n with
  | O => lift Timeout
  | S n' =>
      q ← lift (next_line all lp);
      match q with
      | None => mret tt
      | Some (all, lp') =>
          ln ← lift (strncpy (line a) (line_at all lp) 511);
          s ← lift (split_line ln fs_char);
          let a := mkAwk (s : list Z * list Z).2 s.1 (i32 (NR a + 1)) (Z.of_nat (length s.1)) in
          t ← lift (eval_cond fld pbuf a cond);
          (if t : bool then eval_action a action else mret tt) ;;
          awk_loop n' fld pbuf fs_char cond action all lp' a
      end
  end.
Definition awk_main (args prog fld pbuf : list Z) : M W Z :=
  args ← read_args args 255;
  c ← lift (arr_get args 0);
  if c =? 0 then
    puts (lit "Usage: awk [-F<sep>] '<pattern> {action}'") ;;
    puts (lit "  awk '{print $1}'          print first field") ;;
    puts (lit "  awk -F: '{print $1}'      colon delimiter") ;;
    puts (lit "  awk 'NR>2 {print}'        skip first 2 lines") ;;
    puts (lit "  awk '$0~/foo/ {print $2}' grep+print") ;;
    mret 1
  else
    prog ← lift (arr_set prog 0 0);
    q ← lift (parse_args (S (length args)) args 0 32 prog);
    let prog := (q : Z * list Z).2 in
    c ← lift (arr_get prog 0);
    if c =? 0 then puts (lit "awk: no program") ;; mret 1
    else
      p ← lift (parse_prog prog);
      all ← slurp (Z.to_nat 65536) (replicate (Z.to_nat 65536) 0) 0;
      awk_loop (S (length all)) fld pbuf q.1 (p : list Z * list Z).1 p.2 all 0 (mkAwk (replicate 512 0) [] 0 0) ;;
      mret 0.
End program.

(** ** Fields of a line *)
Fixpoint pieces (sep : Z) (s : list Z) : list (list Z) :=
  match s with
  | [] => [[]]
  | c :: s' =>
      if c =? sep then [] :: pieces sep s'
      else match pieces sep s' with [] => [[c]] | p :: ps => (c :: p) :: ps end
  end.
(** The line with its separators overwritten, and where the fields behind them start. *)
Definition cut (sep : Z) (s : list Z) : list Z := (λ c, if c =? sep then 0 else c) <$> s.
Fixpoint starts_of (sep : Z) (p : nat) (s : list Z) : list Z :=
  match s with
  | [] => []
  | c :: s' => (if c =? sep then [Z.of_nat (S p)] else []) ++ starts_of sep (S p) s'
  end.

Lemma pieces_length sep p s : length (pieces sep s) = S (length (starts_of sep p s)).
Proof.
  revert p. induction s as [|c s IH]; intros p; [done|]. cbn. specialize (IH (S p)). destruct (c =? sep); cbn; [by rewrite IH|].
  destruct (pieces sep s); cbn in *; lia.
Qed.
Lemma sep_loop_spec sep n pre s rest fs : nonzero s → (length s < n)%nat → (length fs + length (starts_of sep (length pre) s) ≤ 32)%nat →
  sep_loop n sep (pre ++ s ++ 0 :: rest) (Z.of_nat (length pre)) fs = Ok (fs ++ starts_of sep (length pre) s, pre ++ cut sep s ++ 0 :: rest).
Proof.
  intros Hs. revert n pre fs. induction Hs as [|c s Hc Hs IH]; intros n pre fs Hn Hf; (destruct n as [|n]; [cbn in Hn; lia|]); cbn [sep_loop app starts_of cut fmap list_fmap] in *.
  { rewrite arr_get_app. cbn. by rewrite app_nil_r. }
  rewrite arr_get_app. cbn [mbind res_bind]. rewrite (proj2 (Z.eqb_neq c 0)) by done.
  assert (∀ x, pre ++ x :: s ++ 0 :: rest = (pre ++ [x]) ++ s ++ 0 :: rest) as Ex by (intros x; by rewrite <- app_assoc).
  assert (length (pre ++ [0]) = S (length pre)) as Lp by (rewrite length_app; cbn; lia).
  replace (Z.of_nat (length pre) + 1) with (Z.of_nat (S (length pre))) by lia.
  destruct (c =? sep) eqn:E.
  - rewrite arr_set_app. cbn [mbind res_bind]. unfold push_field. rewrite length_app in Hf. cbn [length] in Hf.
    rewrite (proj2 (Z.ltb_lt _ _)) by (unfold AWK_FIELDS; lia). cbn [mbind res_bind].
    rewrite Ex, <- Lp, IH; [|cbn in Hn; lia|rewrite length_app, Lp; cbn [length]; lia]. by rewrite <- !app_assoc.
  - assert (length (pre ++ [c]) = S (length pre)) as Lc by (rewrite length_app; cbn; lia).
    rewrite Ex, <- Lc, IH; [|cbn in Hn; lia|rewrite Lc; cbn [app] in Hf; lia]. by rewrite <- !app_assoc.
Qed.
Lemma starts_pieces sep pre s rest : nonzero s →
  Forall2 (λ p w, cstr (line_at (pre ++ cut sep s ++ 0 :: rest) p) w) (Z.of_nat (length pre) :: starts_of sep (length pre) s) (pieces sep s).
Proof.
  intros Hs. revert pre. induction Hs as [|c s Hc Hs IH]; intros pre; cbn [starts_of cut fmap list_fmap pieces app].
  { constructor; [|constructor]. rewrite line_at_app. exists rest. split; [done|constructor]. }
  assert (∀ x, pre ++ x :: cut sep s ++ 0 :: rest = (pre ++ [x]) ++ cut sep s ++ 0 :: rest) as Ex by (intros x; by rewrite <- app_assoc).
  fold (cut sep s). destruct (c =? sep) eqn:E.
  - specialize (IH (pre ++ [0])). rewrite length_app, Nat.add_1_r in IH. constructor.
    + rewrite line_at_app. exists (cut sep s ++ 0 :: rest). split; [done|constructor].
    + rewrite Ex. exact IH.
  - specialize (IH (pre ++ [c])). rewrite length_app, Nat.add_1_r in IH. inversion IH as [|p w ps ws Hp Hps Ep Ew]. subst. cbn [app].
    constructor; [|rewrite Ex; exact Hps]. rewrite line_at_app. apply cstr_cons; [done|].
    replace (S (length pre)) with (length (pre ++ [c])) in Hp by (rewrite length_app; cbn; lia). by rewrite line_at_app in Hp.
Qed.
Lemma split_line_spec sep s rest : sep ≠ 32 → nonzero s → (length (pieces sep s) ≤ 31)%nat →
  ∃ ps, split_line (s ++ 0 :: rest) sep = Ok (ps, cut sep s ++ 0 :: rest) ∧
    Forall2 (λ p w, cstr (line_at (cut sep s ++ 0 :: rest) p) w) ps (pieces sep s).
Proof.
  intros Hsep Hs Hn. rewrite (pieces_length sep 0) in Hn. exists (0 :: starts_of sep 0 s). unfold split_line.
  rewrite (proj2 (Z.eqb_neq sep 32)) by done. pose proof (sep_loop_spec sep (length (s ++ 0 :: rest)) [] s rest [0] Hs) as E. cbn [app length] in E.
  change (Z.of_nat 0) with 0 in E. rewrite E by (rewrite ?length_app; cbn; lia). cbn [mbind res_bind fst length].
  rewrite (proj2 (Z.ltb_lt _ _)) by (unfold AWK_FIELDS; lia). split; [done|]. exact (starts_pieces sep [] s rest Hs).
Qed.

(** ** Printing a field *)
Section field.
Context {W : Type} `{Streams W input output} (junk tok : list Z).

Lemma wp_field_ref a k (w : W) (Q : option (list Z) → W → Prop) ws :
  Forall2 (λ p w, cstr (line_at (line a) p) w) (fields a) ws →
  (∀ v, match ws !! k with Some t => ∃ s, v = Some s ∧ cstr s t ∧ (length s ≤ length (line a))%nat | None => v = None end → Q v w) →
  wp (lift (field_ref a (Z.of_nat (S k)))) Q w.
Proof.
  intros HF HQ. pose proof (Forall2_length _ _ _ HF) as Hl. unfold field_ref, nfields. rewrite (proj2 (Z.eqb_neq _ 0)), (proj2 (Z.ltb_lt 0 _)) by lia. cbn [andb].
  destruct (ws !! k) as [t|] eqn:Et.
  - destruct (Forall2_lookup_r _ _ _ _ _ HF Et) as (p & Hp & Hc). pose proof (lookup_lt_Some _ _ _ Hp).
    rewrite (proj2 (Z.leb_le _ _)) by lia. replace (Z.of_nat (S k) - 1) with (Z.of_nat k) by lia. rewrite (arr_get_nat _ _ _ Hp). cbn [mbind res_bind].
    eapply wp_lift; [done|]. apply HQ. eexists. split_and!; [done|done|]. unfold line_at. rewrite length_drop. lia.
  - apply lookup_ge_None in Et. rewrite (proj2 (Z.leb_gt _ _)) by lia. eapply wp_lift; [done|]. by apply HQ.
Qed.

(** The action [print $k] for a digit [k]. *)
Definition print_field (k : nat) : list Z := str "print $" ++ [48 + Z.of_nat (S k)].
Lemma print_digit k r tk : (k < 9)%nat → length tk = 64%nat → ∃ t,
  copy_until (λ c, (c =? 44) || (c =? 32)) (36 :: (48 + Z.of_nat (S k)) :: 0 :: r) 0 tk = Ok (36 :: t, 2) ∧ atoi t = Ok (Z.of_nat (S k)).
Proof. intros Hk Ht. destruct tk as [|x [|y [|z tk]]]; try done.
  assert (∀ a, arr_set (x :: y :: z :: tk) 0 a = Ok (a :: y :: z :: tk)) as S0 by (intros a; apply (arr_set_app [] x a)).
  assert (∀ a b, arr_set (a :: y :: z :: tk) 1 b = Ok (a :: b :: z :: tk)) as S1 by (intros a b; apply (arr_set_app [a] y b)).
  assert (∀ a b c, arr_set (a :: b :: z :: tk) 2 c = Ok (a :: b :: c :: tk)) as S2 by (intros a b c; apply (arr_set_app [a; b] z c)).
  exists (48 + Z.of_nat (S k) :: 0 :: tk).
  do 9 (destruct k as [|k]; [match goal with |- context [48 + Z.of_nat ?m] => let c := eval vm_compute in (48 + Z.of_nat m) in change (48 + Z.of_nat m) with c end;
    split; [cbn -[arr_set]; by rewrite S0; cbn -[arr_set]; rewrite S1; cbn -[arr_set]; rewrite S2|reflexivity]|]). lia. Qed.

Lemma wp_print_field a k action rest w (Q : unit → W → Prop) ws :
  action = print_field k ++ 0 :: rest → (k < 9)%nat → length tok = 64%nat →
  Forall2 (λ p w, cstr (line_at (line a) p) w) (fields a) ws → Z.of_nat (length (line a)) < 2 ^ 32 →
  (∀ w', output w' = output w ++ default [] (ws !! k) ++ [10] → (∀ fd, input w' fd = input w fd) → Q tt w') →
  wp (eval_action junk tok a action) Q w.
Proof.
  intros -> Hk Htok HF Hlen HQ. unfold eval_action.
  assert (cstr (print_field k ++ 0 :: rest) (print_field k)) as Hc.
  { exists rest. split; [done|]. unfold print_field. apply Forall_app. split; [apply (cstr_nonzero (lit "print $")); by apply lit_test|]. constructor; [lia|constructor]. }
  apply wp_bind. eapply wp_lift; [reflexivity|]. cbn [Z.eqb].
  destruct (kstrcmp_test _ (lit "print") _ (str "print") Hc) as (d1 & E1 & D1); [by apply lit_test|].
  destruct (kstrcmp_test _ (lit "print $0") _ (str "print $0") Hc) as (d2 & E2 & D2); [by apply lit_test|].
  rewrite bool_decide_false in D1 by (intros Heq; apply (f_equal length) in Heq; discriminate Heq).
  rewrite bool_decide_false in D2 by (unfold print_field; intros Heq; apply (f_equal (λ l, l !! 7%nat)) in Heq; cbn in Heq; injection Heq; lia).
  apply wp_bind. eapply wp_lift; [exact E1|]. rewrite D1. apply wp_bind. eapply wp_lift; [exact E2|]. rewrite D2.
  apply wp_bind. eapply wp_lift; [reflexivity|]. change (drop 6 (print_field k ++ 0 :: rest)) with (36 :: (48 + Z.of_nat (S k)) :: 0 :: rest).
  change (length (print_field k ++ 0 :: rest)) with (8 + S (length rest))%nat. cbn [Nat.add print_args].
  destruct (print_digit k rest tok Hk Htok) as (t & Et & Ea).
  apply wp_bind, wp_bind. eapply wp_lift; [reflexivity|]. cbn [Z.eqb]. apply wp_bind. eapply wp_lift; [reflexivity|].
  change (line_at (36 :: _) 0) with (36 :: (48 + Z.of_nat (S k)) :: 0 :: rest). apply wp_bind. eapply wp_lift; [reflexivity|]. cbn [Z.eqb].
  apply wp_bind. eapply wp_lift; [exact Et|]. apply wp_bind, wp_ret. cbn [fst snd]. apply wp_bind. unfold print_token.
  apply wp_bind. eapply wp_lift; [reflexivity|]. cbn [Z.eqb Pos.eqb drop]. apply wp_bind. eapply wp_lift; [exact Ea|].
  apply wp_bind. eapply wp_field_ref; [exact HF|]. intros v Hv.
  eapply (wp_mono _ (λ _ w', output w' = output w ++ default [] (ws !! k) ∧ ∀ fd, input w' fd = input w fd)).
  - destruct (ws !! k) as [tx|]; cbn [default].
    + destruct Hv as (s & -> & Hs & Hsl). apply wp_bind. eapply wp_fputs; [exact Hs|lia|]. intros r w' Ho Hi. by apply wp_ret.
    + subst v. apply wp_ret. cbn. by rewrite app_nil_r.
  - intros [] w1 [O1 I1]. change (line_at (36 :: _) 2) with (0 :: rest). apply wp_bind. eapply wp_lift; [reflexivity|]. cbn [Z.eqb].
    apply wp_bind. eapply wp_lift; [reflexivity|]. cbn [Z.eqb]. apply wp_ret, wp_putchar. intros w2 O2 I2. apply HQ; [by rewrite O2, O1, <- app_assoc|intros; congruence].
Qed.

(** What the program prints: the field of every line, an empty line where there is none. *)
Definition columns (sep : Z) (k : nat) (ls : list (list Z)) : list Z := unlines ((λ l, default [] (pieces sep l !! k)) <$> ls).
(** Lines the program has room for. *)
Definition fits (sep : Z) (l : list Z) : Prop := (length l < 511)%nat ∧ (length (pieces sep l) ≤ 31)%nat.

(** C39: with a separator of its own and the action [print $k], awk prints the k-th field of
    every line of its input, however many lines there are, and an empty line for a line that
    has fewer fields; the lines are those between the newlines, the fields those between the
    separators. *)
Theorem awk_prints_column n fld pbuf sep k action rest pre s post a w :
  action = print_field k ++ 0 :: rest → (k < 9)%nat → length tok = 64%nat → sep ≠ 32 → nonzero s → Forall (fits sep) (lines_of s) →
  (length (lines_of s) < n)%nat → length (line a) = 512%nat →
  wp (awk_loop junk tok n fld pbuf sep (lit "1") action (pre ++ s ++ 0 :: post) (Z.of_nat (length pre)) a)
    (λ _ w', output w' = output w ++ columns sep k (lines_of s) ∧ ∀ fd, input w' fd = input w fd) w.
Proof.
  intros Hact Hk Htok Hsep. revert pre s a w. induction n as [|n IH]; intros pre s a w Hs Hfit Hn Hline; [lia|]. cbn [awk_loop].
  destruct (decide (s = [])) as [->|Hne].
  { cbn [app lines_of]. apply wp_bind. eapply wp_lift; [apply next_line_end|]. apply wp_ret. split; [by rewrite app_nil_r|done]. }
  destruct (next_line_step pre s post Hs Hne) as (l & z & t & El & Hl & Ht & _ & _ & E & _ & r & Er). rewrite El in *.
  apply Forall_cons in Hfit as [[Hl1 Hl2] Hfit]. apply wp_bind. eapply wp_lift; [exact E|]. cbn [fst snd].
  destruct (strncpy_short (line a) (line_at ((pre ++ l ++ z) ++ t ++ 0 :: post) (Z.of_nat (length pre))) l 511) as (ln & En & Hc & Ll);
    [exists r; split; [|done]; rewrite <- !app_assoc, line_at_app; by rewrite Er|done|lia|].
  apply wp_bind. eapply wp_lift; [exact En|]. destruct Hc as (rs & -> & _).
  destruct (split_line_spec sep l rs Hsep Hl Hl2) as (ps & Ep & HF). apply wp_bind. eapply wp_lift; [exact Ep|]. cbn [fst snd].
  apply wp_bind. eapply wp_lift; [reflexivity|]. cbv iota.
  assert (length (cut sep l ++ 0 :: rs) = 512%nat) as Lc by (rewrite length_app in *; unfold cut; rewrite length_fmap; lia).
  apply wp_bind. eapply (wp_print_field _ k _ rest _ _ (pieces sep l)); [done|done|done|exact HF|cbn; lia|]. intros w1 O1 I1.
  eapply wp_mono; [apply IH; [done|done|cbn in Hn; lia|done]|]. intros [] w2 [O2 I2]. split; [|intros; congruence].
  rewrite O2, O1. unfold columns, unlines. cbn. by rewrite <- !app_assoc.
Qed.
End field.

(** ** Examples *)
Definition a_table : list Z := str "a:b:c
d
e:f".
Lemma awk_prints_column_witness :
  columns 58 1 (lines_of a_table) = str "b

f
" ∧
  wp (awk_loop (W := pipes) [] (replicate 64 7) 4 [] [] 58 (lit "1") (lit "print $2") ([] ++ a_table ++ 0 :: []) (Z.of_nat (length (A := Z) [])) (mkAwk (replicate 512 0) [] 0 0))
    (λ _ w', w'.2 = [] ++ columns 58 1 (lines_of a_table) ∧ ∀ fd, w'.1 fd = []) (λ _, [], []).
Proof.
  split; [reflexivity|].
  apply (awk_prints_column (W := pipes) (input := fst) (output := snd) [] (replicate 64 7) 4 [] [] 58 1 (lit "print $2") [] [] a_table [] (mkAwk (replicate 512 0) [] 0 0) (λ _, [], [])).
  - reflexivity.
  - lia.
  - reflexivity.
  - lia.
  - apply (cstr_nonzero (a_table ++ [0])). by apply lit_test.
  - repeat (constructor; [split; vm_compute; lia|]). constructor.
  - vm_compute. lia.
  - reflexivity.
Defined.
Definition blanks : list Z := replicate 512 0.
Definition prints {A} (m : M pipes A) : option (list Z) :=
  match m (λ _, [], []) with Ok (_, (_, out)) => Some out | _ => None end.
(** A line read by [awk_loop], a condition on it, and an action. *)
Definition awk_line (s : list Z) (nr : Z) : res awk :=
  ln ← strncpy blanks s 511; q ← split_line ln 32; Ok (mkAwk (q : list Z * list Z).2 q.1 nr (Z.of_nat (length q.1))).
Definition holds (s : list Z) (nr : Z) (cond : list Z) : res bool :=
  a ← awk_line s nr; eval_cond (replicate 32 7) (replicate 64 7) a cond.
Example second_field : prints (a ← lift (awk_line (lit "one two  three") 1); eval_action (replicate 1024 0) (replicate 64 7) a (lit "print $2")) = Some (str "two
").
Proof. vm_compute. reflexivity. Qed.
(** The line is cut up before it is printed. *)
Example print_first_only : prints (a ← lift (awk_line (lit "one two  three") 1); eval_action (replicate 1024 0) (replicate 64 7) a (lit "print")) = Some (str "one
").
Proof. vm_compute. reflexivity. Qed.
Example match_first_only : (a ← holds (lit "one two") 1 (lit "$0~/one/"); b ← holds (lit "one two") 1 (lit "$0~/two/"); Ok (a, b)) = Ok (true, false).
Proof. vm_compute. reflexivity. Qed.
(** Words that are not numbers count as 0, so they are all equal. *)
Example words_are_equal : holds (lit "foo 1") 1 (lit "$1==bar") = Ok true.
Proof. vm_compute. reflexivity. Qed.
(** [NR>=] is taken for [NR>], with the number 0; NF knows no comparison but [==]. *)
Example nr_at_least : holds (lit "x") 1 (lit "NR>=5") = Ok true.
Proof. vm_compute. reflexivity. Qed.
Example nf_greater : holds (lit "a b c") 1 (lit "NF>2") = Ok false.
Proof. vm_compute. reflexivity. Qed.
(** An operator in the pattern hides the match. *)
Example pattern_with_operator : holds (lit "a>b") 1 (lit "$0~/a>b/") = Ok false.
Proof. vm_compute. reflexivity. Qed.
Example fields_overflow : split_line (replicate 40 58 ++ [0]) 58 = Fault.
Proof. vm_compute. reflexivity. Qed.
Example token_overflow : copy_until (λ c, c =? 44) (replicate 64 97 ++ [0]) 0 (replicate 64 7) = Fault.
Proof. vm_compute. reflexivity. Qed.
Example program_text : (q ← parse_args 100 (lit "-F: 'NR>2 {print $1}'") 0 32 (0 :: replicate 127 7); p ← parse_prog (q : Z * list Z).2; Ok (q.1, cstring (p : list Z * list Z).1, cstring p.2)) =
  Ok (58, str "NR>2", str "print $1").
Proof. vm_compute. reflexivity. Qed.
