(* ===== verification/Tar.v ===== *)
(** * The archiver (src/user/tar.c)

    Archives of 512-byte blocks: a header per file, with numbers in octal and a checksum,
    and the data padded to whole blocks. The first part is the program over the system
    calls of User.v; the second shows that extracting an archive that was created gives
    back the files, over any system with a file store ([Files]). *)

From S2P Require Import Prelude KString Vga Dmesg Libc User Text.

Definition TAR_BLOCK : Z := 512.

(** The fields of [tar_header_t]: offset and size. *)
Definition f_name : nat * nat := (0, 100)%nat.
Definition f_mode : nat * nat := (100, 8)%nat.
Definition f_uid : nat * nat := (108, 8)%nat.
Definition f_gid : nat * nat := (116, 8)%nat.
Definition f_size : nat * nat := (124, 12)%nat.
Definition f_mtime : nat * nat := (136, 12)%nat.
Definition f_checksum : nat * nat := (148, 8)%nat.
Definition f_type : nat * nat := (156, 1)%nat.
Definition f_magic : nat * nat := (257, 6)%nat.

(** A field of a block, and a change to it. *)
Definition field (f : nat * nat) (b : list Z) : list Z := take f.2 (drop f.1 b).
Definition with_field (f : nat * nat) (g : list Z → res (list Z)) (b : list Z) : res (list Z) :=
  r ← g (field f b); Ok (take f.1 b ++ r ++ drop (f.1 + f.2) b).

(** [for (i = 0; i < len && s[i] >= '0' && s[i] <= '7'; i++) n = n*8 + (s[i] - '0');] *)
Fixpoint oct2uint_loop (len : nat) (s : list Z) (n : Z) : res Z :=
  match len with
  | O => Ok n
  | S k =>
      match s with
      | [] => Fault
      | c :: s' => if (48 <=? c) && (c <=? 55) then oct2uint_loop k s' (u32 (n * 8 + (c - 48))) else Ok n
      end
  end.
Definition oct2uint (s : list Z) (len : nat) : res Z := oct2uint_loop len s 0.

(** [for (i = len-2; i >= 0; i--) { s[i] = '0' + (v & 7); v >>= 3; }] with [n] digits left. *)
Fixpoint oct_loop (n : nat) (v : Z) (s : list Z) : res (list Z) :=
  match n with
  | O => Ok s
  | S k => b ← arr_set s (Z.of_nat k) (48 + Z.land v 7); oct_loop k (Z.shiftr v 3) b
  end.
Definition uint2oct (v : Z) (len : nat) (s : list Z) : res (list Z) :=
  b ← oct_loop (len - 1) (u32 v) s; arr_set b (Z.of_nat len - 1) 0.

(** The checksum field counts as spaces. *)
Definition tar_checksum (b : list Z) : Z :=
  u32 (foldl Z.add 0 (take 148 b) + 8 * 32 + foldl Z.add 0 (take 356 (drop 156 b))).

(** The header that [cmd_create] fills in a cleared block. *)
Definition make_header (name : list Z) (size : Z) (b : list Z) : res (list Z) :=
  b ← with_field f_name (λ s, strncpy s name 99) b;
  b ← with_field f_mode (λ s, strcpy s (lit "0000644")) b;
  b ← with_field f_uid (uint2oct 0 8) b;
  b ← with_field f_gid (uint2oct 0 8) b;
  b ← with_field f_size (uint2oct size 12) b;
  b ← with_field f_mtime (uint2oct 0 12) b;
  b ← with_field f_type (λ s, arr_set s 0 48) b;
  b ← with_field f_magic (λ s, strcpy s (lit "ustar")) b;
  with_field f_checksum (λ s, r ← uint2oct (tar_checksum b) 7 s; arr_set r 7 32) b.

Section tar.
Context {W : Type} `{Os W} (fuel : nat) (junk : list Z).

(** [while (fread(fd, buf, 512) > 0) total += n;] *)
Fixpoint drain (n : nat) (fd : Z) (buf : list Z) (total : Z) : M W (list Z * Z) :=
  match n with
  | O => lift Timeout
  | S k => r ← fread fd buf 0 512; if 0 <? r.1 then drain k fd r.2 (u32 (total + r.1)) else mret (r.2, total)
  end.

Fixpoint copy_in (n : nat) (out rd : Z) (block : list Z) (size written : Z) : M W (list Z) :=
  match n with
  | O => lift Timeout
  | S k =>
      if written <? size then
        block ← lift (memset block 0 512);
        r ← fread rd block 0 (if TAR_BLOCK <? size - written then TAR_BLOCK else size - written);
        if r.1 <=? 0 then mret r.2
        else fwrite out r.2 TAR_BLOCK ;; copy_in k out rd r.2 size (u32 (written + r.1))
      else mret block
  end.

(** One file of [cmd_create]. The descriptor of the second [open] is not closed. *)
Definition add_file (out : Z) (name block fbuf tmp : list Z) : M W (list Z * list Z * list Z) :=
  fd ← open name;
  if fd <? 0 then uprintf junk (lit "tar: %s: not found
") [AStr (Some name)] ;; mret (block, fbuf, tmp)
  else
    f ← drain fuel fd fbuf 0;
    close fd ;;
    open name ;;
    block ← lift (memset block 0 512);
    fd2 ← open name;
    t ← drain fuel fd2 tmp 0;
    close fd2 ;;
    let size := t.2 in
    block ← lift (make_header name size block);
    fwrite out block TAR_BLOCK ;;
    rd ← open name;
    block ← copy_in fuel out rd block size 0;
    close rd ;;
    uprintf junk (lit "  Added: %s (%u bytes)
") [AStr (Some name); AInt size] ;;
    mret (block, f.1, t.1).
Fixpoint add_files (out : Z) (names : list (list Z)) (block fbuf tmp : list Z) : M W (list Z) :=
  match names with
  | [] => mret block
  | n :: ns => r ← add_file out n block fbuf tmp; add_files out ns r.1.1 r.1.2 r.2
  end.
Definition WRITE_FLAGS : Z := Z.lor (Z.lor O_WRONLY O_CREAT) O_TRUNC.
Definition cmd_create (archive : list Z) (names : list (list Z)) (block fbuf tmp : list Z) : M W Z :=
  out ← open_with archive WRITE_FLAGS;
  if out <? 0 then uprintf junk (lit "tar: can't create %s
") [AStr (Some archive)] ;; mret 1
  else
    block ← add_files out names block fbuf tmp;
    block ← lift (memset block 0 512);
    fwrite out block TAR_BLOCK ;; fwrite out block TAR_BLOCK ;;
    close out ;;
    uprintf junk (lit "Created: %s
") [AStr (Some archive)] ;; mret 0.

(** [(size + TAR_BLOCK - 1) / TAR_BLOCK] *)
Definition nblocks (size : Z) : nat := Z.to_nat (u32 (size + 511) / 512).

Fixpoint copy_out (blocks : nat) (fd out : Z) (buf : list Z) (remaining : Z) : M W (list Z) :=
  match blocks with
  | O => mret buf
  | S k =>
      r ← fread fd buf 0 TAR_BLOCK;
      if 0 <=? out then
        let w := if TAR_BLOCK <? remaining then TAR_BLOCK else remaining in
        fwrite out r.2 w ;; copy_out k fd out r.2 (u32 (remaining - w))
      else copy_out k fd out r.2 remaining
  end.
Fixpoint cmd_extract (n : nat) (fd : Z) (hdr buf : list Z) : M W Z :=
  match n with
  | O => lift Timeout
  | S k =>
      r ← fread fd hdr 0 TAR_BLOCK;
      let hdr := r.2 in
      c ← lift (arr_get hdr 0);
      if (r.1 <? TAR_BLOCK) || (c =? 0) then mret 0
      else
        size ← lift (oct2uint (field f_size hdr) 12);
        uprintf junk (lit "  Extracting: %s (%u bytes)
") [AStr (Some hdr); AInt size] ;;
        out ← open_with hdr WRITE_FLAGS;
        buf ← copy_out (nblocks size) fd out buf size;
        (if 0 <=? out then close out ;; mret tt else mret tt) ;;
        cmd_extract k fd hdr buf
  end.

Fixpoint skip_blocks (blocks : nat) (fd : Z) (hdr : list Z) : M W (list Z) :=
  match blocks with O => mret hdr | S k => r ← fread fd hdr 0 TAR_BLOCK; skip_blocks k fd r.2 end.
(** [printf] does not know [%-32s]: the name is left for [%u], which is not its type. *)
Fixpoint list_loop (n : nat) (fd : Z) (hdr : list Z) : M W unit :=
  match n with
  | O => lift Timeout
  | S k =>
      r ← fread fd hdr 0 TAR_BLOCK;
      let hdr := r.2 in
      c ← lift (arr_get hdr 0);
      if (r.1 <? TAR_BLOCK) || (c =? 0) then mret tt
      else
        size ← lift (oct2uint (field f_size hdr) 12);
        uprintf junk (lit "  %-32s %u bytes
") [AStr (Some hdr); AInt size] ;;
        hdr ← skip_blocks (nblocks size) fd hdr;
        list_loop k fd hdr
  end.
Definition cmd_list (fd : Z) (hdr : list Z) : M W Z :=
  puts (lit "
  Files in archive:
") ;; list_loop fuel fd hdr ;; puts (lit "") ;; mret 0.

(** [main]; [block], [fbuf], [tmp], [hdr] and [buf] are the local buffers of the commands. *)
Definition tar_main (args block fbuf tmp hdr buf : list Z) : M W Z :=
  args ← read_args args 255;
  c ← lift (arr_get args 0);
  if c =? 0 then
    puts (lit "Usage: tar <c|x|t> <archive.tar> [files...]") ;;
    puts (lit "  c = create  x = extract  t = list") ;; mret 1
  else
    q ← lift (split_args args);
    let args := (q : list Z * list Z).2 in
    match q.1 with
    | a0 :: a1 :: files =>
        cmd ← lift (arr_get args a0);
        let archive := line_at args a1 in
        if (cmd =? 116) || (cmd =? 120) then
          fd ← open archive;
          if fd <? 0 then uprintf junk (lit "tar: %s: not found
") [AStr (Some archive)] ;; mret 1
          else
            r ← (if cmd =? 116 then cmd_list fd hdr else cmd_extract fuel fd hdr buf);
            close fd ;; mret r
        else if cmd =? 99 then
          if (length files =? 0)%nat then puts (lit "tar: need files to add") ;; mret 1
          else cmd_create archive (line_at args <$> files) block fbuf tmp
        else uprintf junk (lit "tar: unknown command '%c'
") [AInt cmd] ;; mret 1
    | _ => puts (lit "tar: need command and archive") ;; mret 1
    end.
End tar.

(** ** Headers *)

Lemma length_field f b : (f.1 + f.2 ≤ length b)%nat → length (field f b) = f.2.
Proof. intros. unfold field. rewrite length_take, length_drop. lia. Qed.

(** A change to a field is seen in the field and nowhere else. *)
Lemma with_field_ok f g b r :
  (f.1 + f.2 ≤ length b)%nat → g (field f b) = Ok r → length r = f.2 →
  ∃ b', with_field f g b = Ok b' ∧ length b' = length b ∧ (bytes b → bytes r → bytes b') ∧ field f b' = r ∧
    (∀ f', (f'.1 + f'.2 ≤ f.1)%nat ∨ (f.1 + f.2 ≤ f'.1)%nat → field f' b' = field f' b).
Proof.
  intros Hf Hg Hr. unfold with_field. rewrite Hg. cbn [mbind res_bind]. eexists. split; [done|].
  destruct f as [o n]. cbn in *. assert (length (take o b) = o) as Ho by (rewrite length_take; lia).
  split; [rewrite !length_app, length_drop; lia|].
  split; [intros; apply Forall_app; split; [by apply Forall_take|]; apply Forall_app; split; [done|by apply Forall_drop]|]. split.
  - unfold field. cbn. rewrite drop_app_length' by done. by rewrite take_app_length'.
  - intros [o' n'] Hd. cbn in Hd. unfold field. cbn. apply list_eq. intros i.
    destruct (Nat.lt_ge_cases i n').
    2: { rewrite !lookup_ge_None_2; [done|rewrite length_take; lia..]. }
    rewrite !lookup_take_lt, !lookup_drop by done. destruct Hd.
    + rewrite lookup_app_l by lia. rewrite lookup_take_lt by lia. done.
    + rewrite !lookup_app_r by lia. rewrite lookup_drop, Ho, Hr. f_equal. lia.
Qed.

(** The octal digits of [v], most significant first. *)
Fixpoint octal (n : nat) (v : Z) : list Z :=
  match n with O => [] | S k => octal k (v / 8) ++ [48 + v mod 8] end.
Lemma length_octal n v : length (octal n v) = n.
Proof. revert v. induction n as [|n IH]; intros v; [done|]. cbn. rewrite length_app, IH. cbn. lia. Qed.
Lemma octal_digits n v : Forall (λ c, 48 ≤ c < 56) (octal n v).
Proof.
  revert v. induction n as [|n IH]; intros v; [constructor|]. cbn. apply Forall_app. split; [done|].
  constructor; [|done]. pose proof (Z.mod_pos_bound v 8). lia.
Qed.

Lemma oct_loop_octal n v s t : length s = n → oct_loop n v (s ++ t) = Ok (octal n v ++ t).
Proof.
  revert v s t. induction n as [|n IH]; intros v s t Hs; [by destruct s|]. cbn [oct_loop octal].
  destruct s as [|x s _] using rev_ind; [done|]. rewrite length_app in Hs. cbn in Hs. rewrite <- app_assoc. cbn [app].
  assert (length s = n) as Hn by lia. rewrite <- Hn at 1. rewrite arr_set_app. cbn [mbind res_bind].
  rewrite IH by done. rewrite <- app_assoc. cbn [app]. 
  change 7 with (2 ^ 3 - 1). rewrite land_low by lia. change 8 with (2 ^ 3). by rewrite Z.shiftr_div_pow2 by lia.
Qed.
Lemma uint2oct_octal v n s t : length s = S n → uint2oct v (S n) (s ++ t) = Ok (octal n (u32 v) ++ 0 :: t).
Proof.
  intros Hs. unfold uint2oct. destruct s as [|x s _] using rev_ind; [done|]. rewrite length_app in Hs. cbn in Hs.
  replace (S n - 1)%nat with n by lia. rewrite <- app_assoc. rewrite oct_loop_octal by lia. cbn [mbind res_bind app].
  replace (Z.of_nat (S n) - 1) with (Z.of_nat (length (octal n (u32 v)))) by (rewrite length_octal; lia). by rewrite arr_set_app.
Qed.

Lemma oct2uint_loop_octal k n v a t : (n ≤ k)%nat →
  oct2uint_loop k (octal n v ++ t) a = oct2uint_loop (k - n) t (match n with O => a | _ => u32 (a * 8 ^ Z.of_nat n + v mod 8 ^ Z.of_nat n) end).
Proof.
  revert k v t. induction n as [|n IH]; intros k v t Hk; [by rewrite Nat.sub_0_r|]. cbn [octal]. rewrite <- app_assoc. cbn [app].
  rewrite IH by lia. destruct (k - n)%nat as [|j] eqn:Ej; [lia|]. replace (k - S n)%nat with j by lia. cbn [oct2uint_loop].
  pose proof (Z.mod_pos_bound v 8). rewrite (proj2 (Z.leb_le _ _)), (proj2 (Z.leb_le _ _)) by lia. cbn [andb]. f_equal.
  replace (48 + v mod 8 - 48) with (v mod 8) by lia.
  assert (v mod 8 ^ Z.of_nat (S n) = (v / 8) mod 8 ^ Z.of_nat n * 8 + v mod 8) as ->.
  { rewrite Nat2Z.inj_succ, Z.pow_succ_r, Z.rem_mul_r by lia. lia. }
  destruct n as [|n]; [|unfold u32; rewrite Zplus_mod, Zmult_mod_idemp_l, <- Zplus_mod, (Nat2Z.inj_succ (S n)), Z.pow_succ_r by lia; f_equal; lia].
  change (8 ^ Z.of_nat 0) with 1. rewrite Z.mod_1_r. change (8 ^ Z.of_nat 1) with 8. f_equal; lia.
Qed.

(** A number written to a field of at least eleven digits is read back; a smaller field holds
    its low digits. *)
Lemma oct_roundtrip n v k t : 0 ≤ v < 8 ^ Z.of_nat n → 0 ≤ v < 2 ^ 32 → (0 < n < k)%nat →
  oct2uint (octal n (u32 v) ++ 0 :: t) k = Ok v.
Proof.
  intros Hv H32 Hk. unfold oct2uint. rewrite oct2uint_loop_octal by lia. destruct n as [|n]; [lia|].
  destruct (k - S n)%nat eqn:E; [lia|]. cbn [oct2uint_loop]. change ((48 <=? 0) && (0 <=? 55)) with false. cbv iota.
  rewrite (u32_small v), (Z.mod_small v) by lia. by rewrite u32_small by lia.
Qed.

(** [strncpy] into a cleared field. *)
Lemma strncpy_cleared s t n : cstr s t →
  strncpy (replicate (S n) 0) s n = Ok (take n t ++ replicate (S n - length (take n t)) 0).
Proof.
  revert s t. induction n as [|n IH]; intros s t Hs; [done|]. cbn [strncpy]. cstr_cases Hs.
  - cbn [replicate Z.eqb]. unfold memset. rewrite kmemset_fill by (cbn; rewrite length_replicate; lia). cbn [mbind res_bind].
    rewrite (drop_ge (0 :: _)) by (cbn; rewrite length_replicate; lia). by rewrite app_nil_r.
  - cbn [replicate]. rewrite (proj2 (Z.eqb_neq _ 0)) by done. change (0 :: replicate n 0) with (replicate (S n) 0). rewrite (IH _ _ Hs). done.
Qed.

(** A header for the file [s] of [size] bytes whose checksum is right. *)
Definition header_for (h s : list Z) (size : Z) : Prop :=
  length h = 512%nat ∧ cstr h s ∧
  oct2uint (field f_size h) 12 = Ok size ∧ oct2uint (field f_checksum h) 8 = Ok (tar_checksum h).

Lemma sum_bytes l : bytes l → 0 ≤ foldl Z.add 0 l ≤ 255 * Z.of_nat (length l).
Proof.
  intros Hl. enough (∀ a, a ≤ foldl Z.add a l ≤ a + 255 * Z.of_nat (length l)) as Ha by (specialize (Ha 0); lia).
  induction Hl as [|x l Hx Hl IH]; intros a; cbn [foldl length]; [lia|]. specialize (IH (a + x)). unfold is_byte in Hx. lia.
Qed.
Lemma tar_checksum_range b : length b = 512%nat → bytes b → 0 ≤ tar_checksum b < 8 ^ 6.
Proof.
  intros Hl Hb. unfold tar_checksum. pose proof (sum_bytes (take 148 b) ltac:(by apply Forall_take)) as H1.
  pose proof (sum_bytes (take 356 (drop 156 b)) ltac:(by apply Forall_take, Forall_drop)) as H2.
  rewrite length_take in H1. rewrite length_take, length_drop in H2. rewrite u32_small; lia.
Qed.
Lemma tar_checksum_fields b b' : field (0, 148)%nat b = field (0, 148)%nat b' → field (156, 356)%nat b = field (156, 356)%nat b' →
  tar_checksum b = tar_checksum b'.
Proof. unfold field, tar_checksum. cbn [fst snd]. rewrite !drop_0. by intros -> ->. Qed.

Lemma octal_bytes n v : bytes (octal n v).
Proof. eapply Forall_impl; [apply octal_digits|]. unfold is_byte. cbn. lia. Qed.

Lemma uint2oct_field v n s : length s = S n → uint2oct v (S n) s = Ok (octal n (u32 v) ++ [0]).
Proof. intros Hs. rewrite <- (app_nil_r s). by apply uint2oct_octal. Qed.

(** The next field of the header. *)
Ltac next_field r :=
  lazymatch goal with
  | Hl : length ?b = 512%nat |- ∃ h, (with_field ?f ?g ?b ≫= _) = Ok h ∧ _ =>
      let b' := fresh "b" in let E := fresh "E" in let L := fresh "L" in let B := fresh "B" in let F := fresh "F" in let O := fresh "O" in
      destruct (with_field_ok f g b r) as (b' & E & L & B & F & O);
        [cbn; rewrite Hl; lia| |first [done|assumption|cbn; rewrite ?length_app, ?length_octal; cbn; lia]|rewrite E; cbn [mbind res_bind]; rewrite Hl in L; clear E]
  end.

(** A field that later changes leave alone. *)
Ltac earlier := repeat match goal with O : ∀ f', _ → field f' ?b = _ |- context [field _ ?b] => rewrite O by (cbn; lia) end.

Lemma make_header_ok name s size : cstr name s → bytes s → 0 ≤ size < 2 ^ 32 →
  ∃ h, make_header name size (replicate 512 0) = Ok h ∧ header_for h (take 99 s) size.
Proof.
  intros Hn Hb Hs. unfold make_header. assert (length (replicate 512 0) = 512%nat) as L0 by done.
  assert (∀ f, (f.1 + f.2 ≤ 512)%nat → field f (replicate 512 0) = replicate f.2 0) as F0.
  { intros f Hf. unfold field. rewrite drop_replicate, take_replicate. f_equal. lia. }
  assert (bytes (replicate 512 0)) as B0 by (apply Forall_replicate; unfold is_byte; lia).
  set (z := replicate 512 0) in *. clearbody z. set (n := take 99 s ++ replicate (100 - length (take 99 s)) 0).
  assert (bytes n) as Hbn by (apply Forall_app; split; [by apply Forall_take|apply Forall_replicate; unfold is_byte; lia]).
  assert (length n = 100%nat) as Hln by (unfold n; rewrite length_app, length_replicate, length_take; lia).
  next_field n; [rewrite F0 by (cbn; lia); exact (strncpy_cleared name s 99 Hn)|].
  next_field (str "0000644" ++ [0]); [earlier; done|].
  do 2 (next_field (octal 7 (u32 0) ++ [0]); [apply uint2oct_field; rewrite length_field; cbn; lia|]).
  next_field (octal 11 (u32 size) ++ [0]); [apply uint2oct_field; rewrite length_field; cbn; lia|].
  next_field (octal 11 (u32 0) ++ [0]); [apply uint2oct_field; rewrite length_field; cbn; lia|].
  next_field [48]; [earlier; done|].
  next_field (str "ustar" ++ [0]); [earlier; done|].
  assert (bytes b6) as Hb6.
  { repeat match goal with B : _ → _ → bytes ?b |- bytes ?b => apply B end; try done;
      try apply Forall_app; repeat split; try apply octal_bytes; apply bytes_test; by vm_compute. }
  pose proof (tar_checksum_range b6 ltac:(done) Hb6) as Hc. set (c := octal 6 (u32 (tar_checksum b6)) ++ 0 :: [32]).
  destruct (with_field_ok f_checksum (λ s, r ← uint2oct (tar_checksum b6) 7 s; arr_set r 7 32) b6 c) as (h & E & L7' & _ & F8 & O8); [cbn; lia| |unfold c; by rewrite length_app, length_octal|].
  { pose proof (length_field f_checksum b6 ltac:(cbn; lia)) as Hl. set (x := field f_checksum b6) in *. 
    rewrite <- (take_drop 7 x). rewrite uint2oct_octal by (rewrite length_take, Hl; done). cbn [mbind res_bind].
    assert (length (drop 7 x) = 1%nat) as H1 by (rewrite length_drop, Hl; done). destruct (drop 7 x) as [|y [|]]; done. }
  exists h. rewrite E. split; [done|]. split; [lia|]. split; [|split].
  - exists (replicate (99 - length (take 99 s)) 0 ++ drop 100 h). rewrite <- (take_drop 100 h) at 1.
    change (take 100 h) with (field f_name h). earlier. rewrite F. unfold n. split; [|by apply Forall_take, (cstr_nonzero name)].
    rewrite <- app_assoc. f_equal. rewrite length_take. replace (100 - min 99 (length s))%nat with (S (99 - min 99 (length s))) by lia. done.
  - earlier. rewrite F4. apply oct_roundtrip; lia.
  - earlier. rewrite F8. unfold c. rewrite oct_roundtrip by lia. f_equal.
    apply tar_checksum_fields; rewrite O8 by (cbn; lia); done.
Qed.

(** ** File stores

    What tar relies on: files by name, and open descriptors. A name of a program stands for
    the file [canon] gives, if it is [valid] at all: several spellings can be one file, as
    vfs.c takes a relative name from /disk and upper-cases it. A descriptor for reading has
    its own copy of what is left to read and delivers all that is asked for; a file that
    is written appears on the disk when it is closed, unless nothing was written, and only
    if the medium can hold the result ([holds]). There are [nfds] descriptors, a file that
    is read has at most [cap] bytes and one being written stays below that. *)
Record fstate := mkF { disk : gmap (list Z) (list Z); rds : gmap Z (list Z); wrs : gmap Z (list Z * list Z) }.
Definition set_rd (fd : Z) (c : list Z) (v : fstate) : fstate := mkF (disk v) (<[fd := c]> (rds v)) (wrs v).
Definition set_wr (fd : Z) (s c : list Z) (v : fstate) : fstate := mkF (disk v) (rds v) (<[fd := (s, c)]> (wrs v)).
Definition created (s : list Z) (d : gmap (list Z) (list Z)) : gmap (list Z) (list Z) :=
  match d !! s with Some _ => d | None => <[s := []]> d end.
Definition stored (s c : list Z) (d : gmap (list Z) (list Z)) : gmap (list Z) (list Z) :=
  match c with [] => d | _ => <[s := c]> d end.
Definition used (v : fstate) : nat := size (rds v) + size (wrs v).
Definition unused (fd : Z) (v : fstate) : Prop := 0 ≤ fd < 2 ^ 31 ∧ rds v !! fd = None ∧ wrs v !! fd = None.

Class Files (W : Type) `{Os W} (view : W → fstate) (canon : list Z → list Z) (valid : list Z → Prop)
    (holds : gmap (list Z) (list Z) → Prop) (nfds : nat) (cap : Z) := {
  fl_open_read buf s c w : cstr buf s → valid s → disk (view w) !! canon s = Some c → Z.of_nat (length c) ≤ cap →
    (used (view w) < nfds)%nat →
    let (fd, w') := os_put SYS_OPEN O_RDONLY buf 0 w in unused fd (view w) ∧ view w' = set_rd fd c (view w);
  fl_open_write buf s w : cstr buf s → valid s → holds (created (canon s) (disk (view w))) → (used (view w) < nfds)%nat →
    let (fd, w') := os_put SYS_OPEN WRITE_FLAGS buf 0 w in
    unused fd (view w) ∧
    view w' = mkF (created (canon s) (disk (view w))) (rds (view w)) (<[fd := (canon s, [])]> (wrs (view w)));
  fl_close_read fd c w : rds (view w) !! fd = Some c →
    let (r, w') := os_num SYS_CLOSE fd 0 0 w in view w' = mkF (disk (view w)) (delete fd (rds (view w))) (wrs (view w));
  fl_close_write fd k c w : rds (view w) !! fd = None → wrs (view w) !! fd = Some (k, c) →
    holds (stored k c (disk (view w))) →
    let (r, w') := os_num SYS_CLOSE fd 0 0 w in view w' = mkF (stored k c (disk (view w))) (rds (view w)) (delete fd (wrs (view w)));
  fl_get fd len c w : rds (view w) !! fd = Some c → 0 < len →
    let '(bs, r, w') := os_get SYS_FREAD fd len w in
    bs = take (Z.to_nat len) c ∧ r = Z.of_nat (length bs) ∧ view w' = set_rd fd (drop (Z.to_nat len) c) (view w);
  fl_put fd buf len s c w : wrs (view w) !! fd = Some (s, c) → 0 ≤ len ≤ Z.of_nat (length buf) → Z.of_nat (length c) + len < cap →
    let (r, w') := os_put SYS_FWRITE fd buf len w in view w' = set_wr fd s (c ++ take (Z.to_nat len) buf) (view w);
  fl_print buf len w : let (r, w') := os_put SYS_WRITE 0 buf len w in view w' = view w
}.

Section files.
Context {W : Type} `{Files W view canon valid holds nfds cap}.

Lemma wp_open_read buf s c w (Q : Z → W → Prop) : cstr buf s → valid s → disk (view w) !! canon s = Some c →
  Z.of_nat (length c) ≤ cap → (used (view w) < nfds)%nat →
  (∀ fd w', unused fd (view w) → view w' = set_rd fd c (view w) → Q fd w') → wp (open buf) Q w.
Proof.
  intros Hs Hva Hd Hcap Hu HQ. unfold open, open_with, wp, call_put. change (u32 0) with 0.
  pose proof (fl_open_read buf s c w Hs Hva Hd Hcap Hu) as Ho. change O_RDONLY with 0 in Ho. destruct (os_put _ _ _ _ _) as [fd w'].
  destruct Ho as (Hf & Hv). rewrite i32_small by (destruct Hf; lia). by apply HQ.
Qed.
Lemma wp_open_write buf s w (Q : Z → W → Prop) : cstr buf s → valid s → holds (created (canon s) (disk (view w))) →
  (used (view w) < nfds)%nat →
  (∀ fd w', unused fd (view w) →
    view w' = mkF (created (canon s) (disk (view w))) (rds (view w)) (<[fd := (canon s, [])]> (wrs (view w))) → Q fd w') →
  wp (open_with buf WRITE_FLAGS) Q w.
Proof.
  intros Hs Hva Hh Hu HQ. unfold open_with, wp, call_put. change (u32 0) with 0.
  pose proof (fl_open_write buf s w Hs Hva Hh Hu) as Ho. destruct (os_put _ _ _ _ _) as [fd w'].
  destruct Ho as (Hf & Hv). rewrite i32_small by (destruct Hf; lia). by apply HQ.
Qed.
Lemma wp_close_read fd c w (Q : Z → W → Prop) : rds (view w) !! fd = Some c →
  (∀ r w', view w' = mkF (disk (view w)) (delete fd (rds (view w))) (wrs (view w)) → Q r w') → wp (close fd) Q w.
Proof.
  intros Hr HQ. unfold close, wp, call_num. pose proof (fl_close_read fd c w Hr) as Hc. destruct (os_num _ _ _ _ _) as [r w']. by apply HQ.
Qed.
Lemma wp_close_write fd s c w (Q : Z → W → Prop) : rds (view w) !! fd = None → wrs (view w) !! fd = Some (s, c) →
  holds (stored s c (disk (view w))) →
  (∀ r w', view w' = mkF (stored s c (disk (view w))) (rds (view w)) (delete fd (wrs (view w))) → Q r w') → wp (close fd) Q w.
Proof.
  intros Hr Hw Hh HQ. unfold close, wp, call_num. pose proof (fl_close_write fd s c w Hr Hw Hh) as Hc. destruct (os_num _ _ _ _ _) as [r w']. by apply HQ.
Qed.
Lemma wp_fread fd buf len c w (Q : Z * list Z → W → Prop) : rds (view w) !! fd = Some c → 0 < len < 2 ^ 31 → len ≤ Z.of_nat (length buf) →
  (∀ w', view w' = set_rd fd (drop (Z.to_nat len) c) (view w) →
    let bs := take (Z.to_nat len) c in Q (Z.of_nat (length bs), bs ++ drop (length bs) buf) w') →
  wp (fread fd buf 0 len) Q w.
Proof.
  intros Hr Hl Hb HQ. unfold fread, wp, call_get. rewrite u32_small by lia. pose proof (fl_get fd len c w Hr) as Hg.
  destruct (os_get _ _ _ _) as [[bs r] w']. destruct Hg as (-> & -> & Hv); [lia|]. 
  assert (length (take (Z.to_nat len) c) ≤ length buf)%nat as Hle by (rewrite length_take; lia).
  pose proof (put_all_at [] (take (Z.to_nat len) c) (take (length (take (Z.to_nat len) c)) buf) (drop (length (take (Z.to_nat len) c)) buf)) as Hp.
  cbn [app length Nat.add] in Hp. change (Z.of_nat 0) with 0 in Hp. rewrite take_drop in Hp. rewrite Hp by (rewrite (length_take buf); lia). cbn.
  rewrite i32_small by (rewrite length_take; lia). by apply HQ.
Qed.
Lemma wp_fwrite fd buf len s c w (Q : Z → W → Prop) : wrs (view w) !! fd = Some (s, c) → 0 ≤ len ≤ Z.of_nat (length buf) → len < 2 ^ 32 →
  Z.of_nat (length c) + len < cap →
  (∀ r w', view w' = set_wr fd s (c ++ take (Z.to_nat len) buf) (view w) → Q r w') → wp (fwrite fd buf len) Q w.
Proof.
  intros Hw Hl Hb Hc HQ. unfold fwrite, wp, call_put. rewrite u32_small by lia. pose proof (fl_put fd buf len s c w Hw Hl Hc) as Hp.
  destruct (os_put _ _ _ _ _) as [r w']. by apply HQ.
Qed.
Lemma wp_uprintf junk fmt args w (Q : Z → W → Prop) : fmt_ok false fmt args → 1023 ≤ Z.of_nat (length junk) →
  (∀ r w', view w' = view w → Q r w') → wp (uprintf junk fmt args) Q w.
Proof.
  intros Hf Hj HQ. unfold uprintf. destruct (printf_bounded junk fmt args Hf Hj) as (b & n & E & Hl & Hn).
  apply wp_bind. eapply wp_lift; [exact E|]. cbn. apply wp_bind. unfold wp at 1, write, call_put.
  pose proof (fl_print b (u32 n) w) as Hp. destruct (os_put _ _ _ _ _) as [r w']. apply wp_ret. by apply HQ.
Qed.
End files.

(** ** Archives *)

(** The data of a file, padded with zeros to whole blocks. *)
Definition padded (c : list Z) : list Z := c ++ replicate (512 * nblocks (Z.of_nat (length c)) - length c) 0.

(** An archive of some files: each a header and its data in whole blocks; a block of zeros
    ends it. *)
Inductive archives : list Z → list (list Z * list Z) → Prop :=
| arch_end t : archives (replicate 512 0 ++ t) []
| arch_file h s c pad t fs :
    header_for h s (Z.of_nat (length c)) → s ≠ [] → Z.of_nat (length c) < 2 ^ 31 →
    length (c ++ pad) = (512 * nblocks (Z.of_nat (length c)))%nat →
    archives t fs → archives (h ++ (c ++ pad) ++ t) ((s, c) :: fs).

Lemma nblocks_eq n : 0 ≤ n < 2 ^ 31 → nblocks n = Z.to_nat ((n + 511) / 512).
Proof. intros. unfold nblocks. by rewrite u32_small by lia. Qed.
Lemma nblocks_le n : Z.of_nat n < 2 ^ 31 → (n ≤ 512 * nblocks (Z.of_nat n) < n + 512)%nat.
Proof. intros. rewrite nblocks_eq by lia. pose proof (Z.div_mod (Z.of_nat n + 511) 512). pose proof (Z.mod_pos_bound (Z.of_nat n + 511) 512). lia. Qed.
Lemma length_padded c : Z.of_nat (length c) < 2 ^ 31 → length (padded c) = (512 * nblocks (Z.of_nat (length c)))%nat.
Proof. intros Hc. pose proof (nblocks_le _ Hc). unfold padded. rewrite length_app, length_replicate. lia. Qed.

Lemma padded_step c : Z.of_nat (length c) < 2 ^ 31 → (0 < length c)%nat →
  padded c = (take 512 c ++ replicate (512 - length (take 512 c)) 0) ++ padded (drop 512 c).
Proof.
  intros Hc H0. unfold padded. rewrite length_drop, length_take. pose proof (nblocks_le _ Hc) as Hn.
  pose proof (nblocks_le (length c - 512) ltac:(lia)) as Hn'. destruct (Nat.le_gt_cases (length c) 512) as [Hle|Hgt].
  - rewrite take_ge, drop_ge by done. replace (length c - 512)%nat with 0%nat by lia.
    change (512 * nblocks (Z.of_nat 0) - 0)%nat with 0%nat. cbn [app replicate]. rewrite app_nil_r. do 2 f_equal. lia.
  - replace (512 - _)%nat with 0%nat by lia. cbn [replicate]. rewrite app_nil_r, app_assoc, take_drop. do 2 f_equal. lia.
Qed.

Section loops.
Context {W : Type} `{Files W view canon valid holds nfds cap} (fuel : nat) (junk : list Z).
Context (Hj : 1023 ≤ Z.of_nat (length junk)).

Lemma wp_drain n fd buf total c w (Q : list Z * Z → W → Prop) :
  rds (view w) !! fd = Some c → length buf = 512%nat → (length c + 512 ≤ 512 * n)%nat → 0 ≤ total → total + Z.of_nat (length c) < 2 ^ 32 →
  (∀ b w', length b = 512%nat → view w' = set_rd fd [] (view w) → Q (b, total + Z.of_nat (length c)) w') →
  wp (drain n fd buf total) Q w.
Proof.
  revert buf total c w. induction n as [|n IH]; intros buf total c w Hr Hb Hn Ht Hc HQ; [lia|]. cbn [drain]. apply wp_bind.
  eapply wp_fread; [done|lia|lia|]. intros w' Hv. change (Z.to_nat 512) with 512%nat in *. cbn zeta. cbn [fst snd].
  destruct c as [|x c].
  - cbn [take length Z.of_nat Z.ltb Z.compare app drop] in *. apply wp_ret. rewrite Z.add_0_r in HQ. by apply HQ.
  - set (l := x :: c) in *. assert (0 < length l)%nat by (cbn; lia). clearbody l. rewrite (proj2 (Z.ltb_lt _ _)) by (rewrite length_take; lia).
    rewrite u32_small by (rewrite length_take; lia). apply (IH _ _ (drop 512 l)).
    + rewrite Hv. apply lookup_insert_eq.
    + rewrite length_app, length_drop, length_take. lia.
    + rewrite length_drop. lia.
    + rewrite length_take. lia.
    + rewrite length_take, length_drop. lia.
    + intros b w2 Hl2 Hv2. replace (total + _ + _) with (total + Z.of_nat (length l)) by (rewrite length_take, length_drop; lia).
      apply HQ; [done|]. rewrite Hv2, Hv. unfold set_rd. cbn. by rewrite insert_insert_eq.
Qed.

Lemma memset_block b : length b = 512%nat → memset b 0 512 = Ok (replicate 512 0).
Proof. intros Hb. unfold memset. rewrite kmemset_fill by lia. rewrite drop_ge by lia. by rewrite app_nil_r. Qed.

Lemma wp_copy_in n out rd block size written s o c w (Q : list Z → W → Prop) :
  rds (view w) !! rd = Some c → wrs (view w) !! out = Some (s, o) → length block = 512%nat →
  size = written + Z.of_nat (length c) → 0 ≤ written → size < 2 ^ 31 → (length c + 512 ≤ 512 * n)%nat →
  Z.of_nat (length o + length (padded c)) < cap →
  (∀ b w', length b = 512%nat → view w' = set_rd rd [] (set_wr out s (o ++ padded c) (view w)) → Q b w') →
  wp (copy_in n out rd block size written) Q w.
Proof.
  revert block written o c w. induction n as [|n IH]; intros block written o c w Hr Hw Hb Hs Hwr Hs31 Hn Hcap HQ; [lia|]. cbn [copy_in].
  case_z.
  2: { apply wp_ret. destruct c; [|cbn in *; lia]. apply HQ; [done|]. rewrite app_nil_r. unfold set_rd, set_wr. cbn. rewrite !insert_id by done. by destruct (view w). }
  assert (0 < length c)%nat as Hc0 by lia. rewrite (length_padded c) in Hcap by lia. 
  apply wp_bind. eapply wp_lift; [by apply memset_block|]. apply wp_bind. set (len := if TAR_BLOCK <? _ then _ else _).
  assert (0 < len ≤ 512 ∧ take (Z.to_nat len) c = take 512 c ∧ drop (Z.to_nat len) c = drop 512 c) as (Hlen & Et & Ed).
  { unfold len, TAR_BLOCK. case_z; [done|]. split; [lia|]. rewrite !take_ge, !drop_ge by lia. done. }
  eapply wp_fread; [done|lia|rewrite length_replicate; lia|]. intros w1 V1. rewrite Et, Ed in *. cbn zeta. cbn [fst snd].
  set (x := take 512 c). assert (length x = Nat.min 512 (length c)) as Hx by apply length_take. clearbody len.
  rewrite (proj2 (Z.leb_gt _ _)) by lia. apply wp_bind. rewrite drop_replicate.
  assert (512 * nblocks (Z.of_nat (length c)) = 512 + 512 * nblocks (Z.of_nat (length (drop 512 c))))%nat as Hnb.
  { rewrite <- (length_padded c), (padded_step c), !length_app, length_replicate, (length_padded (drop _ _)) by (rewrite ?length_drop; lia). fold x. lia. }
  eapply (wp_fwrite _ _ _ s o); [by rewrite V1|unfold TAR_BLOCK; rewrite length_app, length_replicate; lia|done|unfold TAR_BLOCK; lia|].
  intros r w2 V2. rewrite u32_small by lia.
  rewrite take_ge in V2 by (rewrite length_app, length_replicate; change (Z.to_nat TAR_BLOCK) with 512%nat; lia).
  apply (IH _ _ (o ++ x ++ replicate (512 - length x) 0) (drop 512 c)).
  - rewrite V2, V1. apply lookup_insert_eq.
  - rewrite V2. cbn. apply lookup_insert_eq.
  - rewrite length_app, length_replicate. lia.
  - rewrite Hx, length_drop. lia.
  - lia.
  - lia.
  - rewrite length_drop. lia.
  - rewrite length_padded, !length_app, length_replicate by (rewrite length_drop; lia). lia.
  - intros b w3 Hb3 V3. apply HQ; [done|]. rewrite V3, V2, V1. unfold set_rd, set_wr. cbn. rewrite !insert_insert_eq.
    rewrite (padded_step c) by lia. fold x. by rewrite <- !app_assoc.
Qed.

Lemma used_rd fd c v : rds v !! fd = None → used (set_rd fd c v) = S (used v).
Proof. intros Hf. unfold used, set_rd. cbn. by rewrite map_size_insert_None. Qed.

Lemma wp_add_file out name s c a o block fbuf tmp w (Q : list Z * list Z * list Z → W → Prop) :
  cstr name s → s ≠ [] → bytes s → (length s ≤ 99)%nat → valid s → disk (view w) !! canon s = Some c →
  wrs (view w) !! out = Some (a, o) →
  (used (view w) + 1 < nfds)%nat → Z.of_nat (length c) < 2 ^ 31 → (length c + 1024 ≤ 512 * fuel)%nat →
  Z.of_nat (length o + 512 + length (padded c)) < cap → length block = 512%nat → length fbuf = 512%nat → length tmp = 512%nat →
  (∀ b f t w' fd h, length b = 512%nat → length f = 512%nat → length t = 512%nat → header_for h s (Z.of_nat (length c)) →
    rds (view w) !! fd = None → fd ≠ out →
    view w' = set_rd fd c (set_wr out a (o ++ h ++ padded c) (view w)) → Q (b, f, t) w') →
  wp (add_file fuel junk out name block fbuf tmp) Q w.
Proof.
  intros Hn Hs Hsb Hsl Hva Hd Ho Hu Hc Hf Hcap Hb Hfb Htm HQ. unfold add_file.
  assert (Z.of_nat (length c) ≤ cap) as Hcc by (unfold padded in Hcap; rewrite length_app in Hcap; lia).
  apply wp_bind. eapply wp_open_read; [done|done|done|done|lia|]. intros fd w1 (Hfd & U1 & _) V1. rewrite (proj2 (Z.ltb_ge _ _)) by lia.
  apply wp_bind. eapply (wp_drain _ _ _ _ c); [rewrite V1; apply lookup_insert_eq|done|lia|lia|lia|]. intros f w2 Lf V2.
  apply wp_bind. eapply wp_close_read; [rewrite V2; apply lookup_insert_eq|]. intros r w3 V3.
  rewrite V2, V1 in V3. unfold set_rd in V3. cbn in V3. rewrite insert_insert_eq, delete_insert_id in V3 by done.
  assert (view w3 = view w) as V3' by (rewrite V3; by destruct (view w)). clear V1 V2 V3 w1 w2 fd Hfd U1.
  rewrite <- V3' in *. clear V3' w. rename w3 into w.
  apply wp_bind. eapply wp_open_read; [done|done|done|done|lia|]. intros leak w1 (_ & U1 & U1w) V1.
  apply wp_bind. eapply wp_lift; [by apply memset_block|].
  apply wp_bind. eapply (wp_open_read name s c); [done|done|by rewrite V1|done|rewrite V1, used_rd; [lia|done]|]. intros fd w2 (_ & U2 & _) V2.
  apply wp_bind. eapply (wp_drain _ _ _ _ c); [rewrite V2; apply lookup_insert_eq|done|lia|lia|lia|]. intros t w3 Lt V3.
  apply wp_bind. eapply wp_close_read; [rewrite V3; apply lookup_insert_eq|]. intros r' w4 V4.
  rewrite V3, V2 in V4. unfold set_rd at 1 2 in V4. cbn in V4. rewrite insert_insert_eq, delete_insert_id in V4 by done.
  assert (view w4 = set_rd leak c (view w)) as V4' by (rewrite V4, V1; done). clear V2 V3 V4 w2 w3 fd U2 V1 w1.
  destruct (make_header_ok name s (Z.of_nat (length c)) Hn Hsb) as (h & Eh & Hh); [lia|]. rewrite take_ge in Hh by lia.
  cbn [fst snd]. rewrite Z.add_0_l. apply wp_bind. eapply wp_lift; [exact Eh|]. assert (length h = 512%nat) as Lh by apply Hh.
  apply wp_bind. eapply (wp_fwrite _ _ _ a o); [by rewrite V4'|unfold TAR_BLOCK; lia|done|unfold TAR_BLOCK; lia|]. intros r2 w5 V5.
  rewrite take_ge in V5 by (rewrite Lh; done). rewrite V4' in V5. clear V4' w4.
  apply wp_bind. eapply (wp_open_read name s c); [done|done|by rewrite V5|done|rewrite V5; change (used (set_wr _ _ _ _)) with (size (rds (set_rd leak c (view w))) + size (<[out := (a, o ++ h)]> (wrs (view w))))%nat|].
  { rewrite (map_size_insert_Some out) by (by rewrite Ho). change (size _ + size _)%nat with (used (set_rd leak c (view w))). rewrite used_rd by done. lia. }
  intros rd w6 (_ & U6 & _) V6. apply wp_bind.
  eapply (wp_copy_in _ out rd _ _ _ a (o ++ h) c); [rewrite V6; apply lookup_insert_eq|rewrite V6, V5; apply lookup_insert_eq|done|lia|lia|lia|lia|rewrite length_app; lia|].
  intros b w7 Lb V7. apply wp_bind. eapply wp_close_read; [rewrite V7; apply lookup_insert_eq|]. intros r3 w8 V8.
  apply wp_bind. eapply wp_uprintf; [|done|].
  { solve_fmt. }
  intros r4 w9 V9. apply wp_ret. apply (HQ _ _ _ _ leak h); try done.
  { intros ->. congruence. }
  rewrite V9, V8, V7, V6, V5. rewrite V5 in U6. cbn in U6. unfold set_rd, set_wr. cbn. by rewrite !insert_insert_eq, delete_insert_id, app_assoc.
Qed.

(** Files that can be archived: their names fit a header and they are on the disk. *)
Definition addable (d : gmap (list Z) (list Z)) (name : list Z) (f : list Z * list Z) : Prop :=
  cstr name f.1 ∧ f.1 ≠ [] ∧ bytes f.1 ∧ (length f.1 ≤ 99)%nat ∧ valid f.1 ∧ d !! canon f.1 = Some f.2 ∧
  Z.of_nat (length f.2) < 2 ^ 31 ∧ (length f.2 + 1024 ≤ 512 * fuel)%nat.
Definition volume (files : list (list Z * list Z)) : nat := sum_list ((λ f, 512 + length (padded f.2))%nat <$> files).
Lemma volume_cons s c files : volume ((s, c) :: files) = (512 + length (padded c) + volume files)%nat.
Proof. done. Qed.

Lemma wp_add_files out names files a o block fbuf tmp w (Q : list Z → W → Prop) :
  Forall2 (addable (disk (view w))) names files → wrs (view w) !! out = Some (a, o) →
  (used (view w) + length files < nfds)%nat → Z.of_nat (length o + volume files) < cap →
  length block = 512%nat → length fbuf = 512%nat → length tmp = 512%nat →
  (∀ b w' body, length b = 512%nat → disk (view w') = disk (view w) → wrs (view w') = <[out := (a, o ++ body)]> (wrs (view w)) →
    rds (view w') !! out = rds (view w) !! out →
    (∀ t fs, archives t fs → archives (body ++ t) (files ++ fs)) → length body = volume files → Q b w') →
  wp (add_files fuel junk out names block fbuf tmp) Q w.
Proof.
  intros Hall. remember (disk (view w)) as d eqn:Ed. revert o block fbuf tmp w Ed.
  induction Hall as [|name f names files (Hn & Hne & Hbs & Hl99 & Hva & Hd & Hc & Hfuel) Hall IH]; intros o block fbuf tmp w Ed Ho Hu Hcap Lb Lf Lt HQ.
  - apply wp_ret. apply (HQ _ _ []); [done|done|by rewrite app_nil_r, insert_id|done|done|done].
  - cbn [add_files]. destruct f as [s c]. cbn [fst snd] in *. apply wp_bind. rewrite volume_cons in Hcap. cbn [length] in Hu.
    eapply (wp_add_file _ _ s c a o); try done; [by rewrite <- Ed|lia|lia|].
    intros b f t w1 fd h Lb1 Lf1 Lt1 Hh Hfd Hne' V1. cbn [fst snd].
    assert (length h = 512%nat) as Lh by apply Hh.
    apply (IH (o ++ h ++ padded c)); try done.
    + by rewrite V1.
    + rewrite V1. cbn. apply lookup_insert_eq.
    + rewrite V1, used_rd by done. unfold used. cbn. rewrite map_size_insert_Some by (by rewrite Ho). unfold used in Hu. lia.
    + rewrite !length_app, Lh. lia.
    + intros b2 w2 body Lb2 D2 W2 R2 Harch Lbody. apply (HQ _ _ (h ++ padded c ++ body)); [done|done| |..].
      * rewrite W2, V1. cbn. rewrite insert_insert_eq. by rewrite <- !app_assoc.
      * rewrite R2, V1. cbn. by apply lookup_insert_ne.
      * intros tl fs Hfs. cbn [app]. rewrite <- !app_assoc. unfold padded at 1. apply arch_file; [done|done|lia| |by apply Harch].
        apply (length_padded c). lia.
      * rewrite volume_cons, !length_app, Lh, Lbody. lia.
Qed.

Lemma created_keeps a s c d : d !! s = Some c → created a d !! s = Some c.
Proof. intros Hs. unfold created. destruct (d !! a) eqn:E; [done|]. rewrite lookup_insert_ne; [done|]. intros ->. congruence. Qed.

(** The medium can hold a file of [n] bytes more, or in the place of one. *)
Definition room_for (a : list Z) (n : nat) (d : gmap (list Z) (list Z)) : Prop :=
  holds (created (canon a) d) ∧ ∀ c, length c = n → holds (stored (canon a) c (created (canon a) d)).

(** Creating an archive stores one of the files given. *)
Lemma wp_cmd_create archive a names files block fbuf tmp w (Q : Z → W → Prop) :
  cstr archive a → valid a → room_for a (volume files + 1024) (disk (view w)) →
  Forall2 (addable (disk (view w))) names files → (used (view w) + length files + 1 < nfds)%nat →
  Z.of_nat (volume files + 1024) < cap → length block = 512%nat → length fbuf = 512%nat → length tmp = 512%nat →
  (∀ w' arch, archives arch files → disk (view w') = <[canon a := arch]> (created (canon a) (disk (view w))) → Q 0 w') →
  wp (cmd_create fuel junk archive names block fbuf tmp) Q w.
Proof.
  intros Ha Hva [Hroom0 Hroom] Hall Hu Hcap Lb Lf Lt HQ. unfold cmd_create. apply wp_bind. eapply wp_open_write; [done|done|done|lia|].
  intros out w1 (Hout & U1 & U1w) V1. rewrite (proj2 (Z.ltb_ge _ _)) by lia. apply wp_bind.
  eapply (wp_add_files out names files (canon a) []); try done.
  - rewrite V1. eapply Forall2_impl; [exact Hall|]. intros x f (H1 & H2 & H3 & H4 & H5 & H6 & H7). split_and!; try done; try apply H7. by apply created_keeps.
  - rewrite V1. apply lookup_insert_eq.
  - rewrite V1. unfold used in *. cbn. rewrite map_size_insert_None by done. lia.
  - cbn. lia.
  - intros b w2 body Lb2 D2 W2 R2 Harch Lbody. rewrite V1 in W2. cbn in W2. rewrite insert_insert_eq in W2.
    apply wp_bind. eapply wp_lift; [by apply memset_block|]. set (z := replicate 512 0). assert (length z = 512%nat) as Lz by done.
    assert (take (Z.to_nat TAR_BLOCK) z = z) as Tz by (by apply take_ge). unfold TAR_BLOCK in *.
    apply wp_bind. eapply (wp_fwrite _ _ _ (canon a) body); [rewrite W2; apply lookup_insert_eq|lia|done|lia|]. intros r3 w3 V3. rewrite Tz in V3.
    apply wp_bind. eapply (wp_fwrite _ _ _ (canon a)); [rewrite V3; apply lookup_insert_eq|lia|done|rewrite length_app; lia|]. intros r4 w4 V4. rewrite Tz in V4.
    apply wp_bind.
    eapply (wp_close_write _ (canon a)); [rewrite V4, V3; cbn; by rewrite R2, V1|rewrite V4; apply lookup_insert_eq| |].
    { rewrite V4, V3. cbn [set_wr disk]. rewrite D2, V1. cbn [disk]. apply Hroom. rewrite !length_app, Lbody, Lz. lia. }
    intros r5 w5 V5.
    apply wp_bind. eapply wp_uprintf; [solve_fmt|done|]. intros r6 w6 V6. apply wp_ret.
    apply (HQ _ (body ++ z ++ z)).
    + rewrite <- (app_nil_r files). apply Harch, arch_end.
    + rewrite V6, V5, V4, V3. cbn [set_wr disk]. rewrite D2, V1. cbn [disk]. rewrite (app_assoc body z z). unfold stored.
      destruct ((body ++ z) ++ z) eqn:E; [|done]. apply (f_equal length) in E. rewrite !length_app in E. cbn [length] in E. lia.
Qed.

Lemma wp_copy_out k fd out buf c pad t s o w (Q : list Z → W → Prop) :
  rds (view w) !! fd = Some ((c ++ pad) ++ t) → wrs (view w) !! out = Some (s, o) → length buf = 512%nat → 0 ≤ out →
  length (c ++ pad) = (512 * k)%nat → (length pad < 512)%nat → Z.of_nat (length c) < 2 ^ 31 → Z.of_nat (length o + length c) < cap →
  (∀ b w', length b = 512%nat → view w' = set_rd fd t (set_wr out s (o ++ c) (view w)) → Q b w') →
  wp (copy_out k fd out buf (Z.of_nat (length c))) Q w.
Proof.
  revert buf c pad o w. induction k as [|k IH]; intros buf c pad o w Hr Hw Hb Hout Hl Hp Hc Hcap HQ; rewrite length_app in Hl.
  { destruct c; [|cbn in Hl; lia]. destruct pad; [|cbn in Hl; lia]. cbn [copy_out length]. apply wp_ret. apply HQ; [done|].
    rewrite app_nil_r. unfold set_rd, set_wr. cbn in *. rewrite !insert_id by done. by destruct (view w). }
  cbn [copy_out]. unfold TAR_BLOCK. apply wp_bind. eapply wp_fread; [done|lia|lia|]. intros w1 V1. cbn zeta. cbn [fst snd].
  change (Z.to_nat 512) with 512%nat in *. rewrite (proj2 (Z.leb_le 0 out)) by done.
  set (x := take 512 ((c ++ pad) ++ t)). assert (length x = 512%nat) as Lx by (unfold x; rewrite length_take, !length_app; lia).
  rewrite drop_ge, app_nil_r by lia. set (n := if 512 <? _ then _ else _).
  assert (n = Z.of_nat (Nat.min 512 (length c))) as En by (unfold n; case_z; lia). clearbody n. subst n.
  assert (take (Nat.min 512 (length c)) x = take 512 c) as Ex.
  { unfold x. rewrite <- app_assoc, take_take. replace (_ `min` 512)%nat with (Nat.min 512 (length c)) by lia.
    rewrite take_app_le by lia. destruct (Nat.le_ge_cases 512 (length c)); [by rewrite Nat.min_l by done|by rewrite Nat.min_r, !take_ge by lia]. }
  apply wp_bind. eapply (wp_fwrite _ _ _ s o); [by rewrite V1|lia|lia|lia|]. intros r w2 V2. rewrite Nat2Z.id, Ex in V2.
  replace (u32 _) with (Z.of_nat (length (drop 512 c))) by (rewrite length_drop, u32_small; lia).
  assert (drop 512 ((c ++ pad) ++ t) = (drop 512 c ++ drop (512 - length c) pad) ++ t) as Ed.
  { rewrite drop_app_le by (rewrite length_app; lia). by rewrite drop_app. }
  apply (IH _ _ (drop (512 - length c) pad) (o ++ take 512 c)).
  - rewrite V2, V1, Ed. apply lookup_insert_eq.
  - rewrite V2. apply lookup_insert_eq.
  - done.
  - done.
  - rewrite length_app, !length_drop. lia.
  - rewrite length_drop. lia.
  - rewrite length_drop. lia.
  - rewrite length_app, length_drop, length_take. lia.
  - intros b w3 Lb V3. apply HQ; [done|]. rewrite V3, V2, V1. unfold set_rd, set_wr. cbn [disk rds wrs].
    by rewrite !insert_insert_eq, <- app_assoc, take_drop.
Qed.

(** A file written to the disk, and the medium holding every stage of writing some. *)
Definition extracted (d : gmap (list Z) (list Z)) (f : list Z * list Z) : gmap (list Z) (list Z) :=
  stored (canon f.1) f.2 (created (canon f.1) d).
Fixpoint room_all (d : gmap (list Z) (list Z)) (files : list (list Z * list Z)) : Prop :=
  match files with
  | [] => True
  | f :: files => holds (created (canon f.1) d) ∧ holds (extracted d f) ∧ room_all (extracted d f) files
  end.

(** Extracting an archive writes its files, in order. *)
Lemma wp_cmd_extract n fd hdr buf arch files w (Q : Z → W → Prop) :
  archives arch files → Forall (λ f, valid f.1) files → room_all (disk (view w)) files →
  rds (view w) !! fd = Some arch → (used (view w) < nfds)%nat →
  Forall (λ f, Z.of_nat (length f.2) < cap) files → (length files < n)%nat → length hdr = 512%nat → length buf = 512%nat →
  (∀ w', disk (view w') = foldl extracted (disk (view w)) files → wrs (view w') = wrs (view w) → Q 0 w') →
  wp (cmd_extract junk n fd hdr buf) Q w.
Proof.
  intros Ha. revert n hdr buf w. induction Ha as [t|h s c pad t files Hh Hs Hc Hl Ha IH]; intros n hdr buf w Hva Hroom Hr Hu Hall Hn Lh Lb HQ;
    (destruct n as [|n]; [cbn in Hn; lia|]); cbn [cmd_extract]; apply wp_bind; (eapply wp_fread; [done|done|rewrite Lh; done|]);
    intros w1 V1; unfold TAR_BLOCK in *; change (Z.to_nat 512) with 512%nat in *; cbn zeta; cbn [fst snd].
  { rewrite take_app_length' by done. apply wp_bind. eapply wp_lift; [done|]. cbn [orb Z.eqb]. rewrite orb_true_r. apply wp_ret.
    apply HQ; by rewrite V1. }
  destruct Hh as (Lh' & Hcs & Hsz & _). rewrite drop_app_length' in V1 by done. rewrite take_app_length' by done. rewrite Lh', drop_ge, app_nil_r by lia.
  change (Z.of_nat 512) with 512. assert (∃ x h', h = x :: h' ∧ x ≠ 0) as (x & h' & Eh & Hx).
  { destruct s as [|x s]; [done|]. destruct Hcs as (r & -> & Hz). apply Forall_cons in Hz as [Hx _]. by eexists x, _. }
  apply wp_bind. eapply wp_lift; [by rewrite Eh|]. rewrite (proj2 (Z.eqb_neq x 0)) by done. cbn [orb Z.ltb Z.compare Pos.compare Pos.compare_cont].
  apply wp_bind. eapply wp_lift; [exact Hsz|]. apply wp_bind. eapply wp_uprintf; [solve_fmt|done|]. intros r2 w2 V2.
  apply Forall_cons in Hall as [Hcap Hall]. cbn [snd] in Hcap. apply Forall_cons in Hva as [Hv1 Hva]. destruct Hroom as (Hr0 & Hr1 & Hroom).
  apply wp_bind. eapply (wp_open_write h s); [done|done|by rewrite V2, V1|rewrite V2, V1; unfold used in *; cbn [rds wrs set_rd]; rewrite map_size_insert_Some; [done|by rewrite Hr]|].
  intros out w3 (Hout & U3 & U3w) V3. rewrite V2, V1 in U3, U3w, V3. cbn [rds wrs set_rd disk] in *.
  assert (out ≠ fd) as Hne. { intros ->. by rewrite lookup_insert_eq in U3. }
  rewrite lookup_insert_ne in U3 by done.
  apply wp_bind. eapply (wp_copy_out _ fd out buf c pad t (canon s) []).
  - rewrite V3. apply lookup_insert_eq.
  - rewrite V3. apply lookup_insert_eq.
  - done.
  - lia.
  - done.
  - pose proof (nblocks_le _ Hc). rewrite length_app in Hl. lia.
  - done.
  - done.
  - intros b w4 Lb4 V4. rewrite (proj2 (Z.leb_le 0 out)) by lia. apply wp_bind. apply wp_bind.
    rewrite V3 in V4. unfold set_rd, set_wr in V4. cbn [disk rds wrs app] in V4. rewrite !insert_insert_eq in V4.
    eapply (wp_close_write out (canon s) c); [rewrite V4; cbn [rds]; by rewrite lookup_insert_ne|rewrite V4; apply lookup_insert_eq|by rewrite V4|].
    intros r5 w5 V5. rewrite V4 in V5. cbn [disk rds wrs] in V5. rewrite delete_insert_id in V5 by done. apply wp_ret.
    apply IH; try done.
    + by rewrite V5.
    + rewrite V5. apply lookup_insert_eq.
    + rewrite V5. unfold used in *. cbn [rds wrs]. rewrite map_size_insert_Some; [done|by rewrite Hr].
    + cbn in Hn. lia.
    + intros w6 D6 W6. apply HQ; [by rewrite D6, V5|by rewrite W6, V5].
Qed.
End loops.

Section extraction.
Context {canon : list Z → list Z}.
Local Notation extracted := (extracted (canon := canon)).

Lemma extracted_other d f k : k ≠ canon f.1 → extracted d f !! k = d !! k.
Proof.
  intros Hs. unfold extracted, stored, created. destruct f.2, (d !! canon f.1); cbn; rewrite ?lookup_insert_ne by done; done.
Qed.
Lemma extracted_this d f : f.2 ≠ [] ∨ d !! canon f.1 = None → extracted d f !! canon f.1 = Some f.2.
Proof.
  intros Hf. unfold extracted, stored, created. destruct f as [s [|x c]]; cbn [fst snd] in *; [|apply lookup_insert_eq].
  destruct Hf as [| ->]; [done|]. apply lookup_insert_eq.
Qed.

(** Every file comes back, and no other file changes. *)
Lemma extracted_all files d : NoDup (canon <$> files.*1) →
  (∀ k, k ∉ canon <$> files.*1 → foldl extracted d files !! k = d !! k) ∧
  (∀ s c, (s, c) ∈ files → c ≠ [] ∨ d !! canon s = None → foldl extracted d files !! canon s = Some c).
Proof.
  revert d. induction files as [|f files IH]; intros d; cbn [fmap list_fmap foldl]; [set_solver|]. intros [Hf Hnd]%NoDup_cons.
  destruct (IH (extracted d f) Hnd) as [Hother Hall]. split.
  - intros k [Hne Hs]%not_elem_of_cons. rewrite Hother by done. by apply extracted_other.
  - intros s c [<-|Hin]%elem_of_cons Hc.
    + rewrite Hother by done. by apply (extracted_this d (s, c)).
    + assert (canon s ∈ canon <$> files.*1) as Hs by (apply list_elem_of_fmap_2; apply list_elem_of_fmap; by exists (s, c)).
      apply Hall; [done|]. rewrite extracted_other; [done|]. intros E. apply Hf. by rewrite <- E.
Qed.
End extraction.

Lemma volume_bound files : Forall (λ f, Z.of_nat (length f.2) ≤ Z.of_nat (volume files)) files.
Proof.
  induction files as [|[s c] files IH]; [constructor|]. rewrite volume_cons. constructor.
  - cbn. unfold padded. rewrite length_app. lia.
  - eapply Forall_impl; [exact IH|]. cbn. intros. lia.
Qed.

(** C32: archives round trip, over any file store. For files that are on the disk under
    names of at most 99 bytes, no two of them spellings of one file, and that fit the
    descriptors and the largest file, [tar c] succeeds when the medium can hold the archive,
    and extracting the archive it stored, in any state of the system with a descriptor and
    the room to spare, gives back the contents of every file and changes no other one; only
    an empty file does not replace one that is there. *)
Theorem tar_roundtrip {W} `{Files W view canon valid holds nfds cap} fuel junk archive a names files block fbuf tmp hdr buf w :
  cstr archive a → valid a → room_for (canon := canon) (holds := holds) a (volume files + 1024) (disk (view w)) →
  Forall2 (addable (canon := canon) (valid := valid) fuel (disk (view w))) names files → NoDup (canon <$> files.*1) → (length files < fuel)%nat →
  (used (view w) + length files + 1 < nfds)%nat → Z.of_nat (volume files + 1024) < cap → 1023 ≤ Z.of_nat (length junk) →
  length block = 512%nat → length fbuf = 512%nat → length tmp = 512%nat → length hdr = 512%nat → length buf = 512%nat →
  wp (cmd_create fuel junk archive names block fbuf tmp) (λ r w', r = 0 ∧ ∃ arch, disk (view w') !! canon a = Some arch ∧
    ∀ v fd, rds (view v) !! fd = Some arch → (used (view v) < nfds)%nat → room_all (canon := canon) (holds := holds) (disk (view v)) files →
      wp (cmd_extract junk fuel fd hdr buf) (λ r v', r = 0 ∧
        (∀ k, k ∉ canon <$> files.*1 → disk (view v') !! k = disk (view v) !! k) ∧
        (∀ s c, (s, c) ∈ files → c ≠ [] ∨ disk (view v) !! canon s = None → disk (view v') !! canon s = Some c)) v) w.
Proof.
  intros Ha Hva Hroom Hall Hnd Hf Hu Hcap Hj L1 L2 L3 L4 L5. eapply wp_cmd_create; try done. intros w' arch Harch Hd.
  split; [done|]. exists arch. split; [rewrite Hd; apply lookup_insert_eq|]. intros v fd Hfd Hv Hrv.
  eapply wp_cmd_extract; try done.
  - clear -Hall. induction Hall as [|x f xs fs Hx Hall IH]; constructor; [apply Hx|exact IH].
  - eapply Forall_impl; [apply volume_bound|]. cbn. intros. lia.
  - intros v' Dv _. split; [done|]. rewrite Dv. by apply extracted_all.
Qed.

(** ** A file store that computes

    The files of a floppy disk as vfs.c and fat12.c name and keep them: at most 224 files
    in 2847 clusters of 512 bytes, a buffer of 4096 bytes for each of the open ones. *)
Definition store : Type := fstate.
Definition slots : nat := 8.
Definition upper (c : Z) : Z := if (97 <=? c) && (c <=? 122) then c - 32 else c.
Definition on_disk_path (s : list Z) : bool := bool_decide (take 6 s = str "/disk/").
Definition disk_name (s : list Z) : list Z := upper <$> (if on_disk_path s then drop 6 s else s).
Definition disk_valid (s : list Z) : bool := negb (bool_decide (take 1 s = [47])) || on_disk_path s.
Definition clusters (d : gmap (list Z) (list Z)) : nat := map_fold (λ _ c n, nblocks (Z.of_nat (length c)) + n)%nat 0%nat d.
Definition disk_holds (d : gmap (list Z) (list Z)) : bool := (size d <=? 224)%nat && (clusters d <=? 2847)%nat.
Definition is_free (v : store) (fd : Z) : bool := bool_decide (rds v !! fd = None) && bool_decide (wrs v !! fd = None).
Definition free_fd (v : store) : Z := match filter (is_free v) (seqZ 0 (Z.of_nat slots)) with [] => -1 | fd :: _ => fd end.
#[export] Instance store_os : Os store := {
  os_num n fd _ _ v :=
    if n =? SYS_CLOSE then
      match rds v !! fd, wrs v !! fd with
      | Some _, _ => (0, mkF (disk v) (delete fd (rds v)) (wrs v))
      | None, Some (k, c) =>
          (0, mkF (if disk_holds (stored k c (disk v)) then stored k c (disk v) else delete k (disk v)) (rds v) (delete fd (wrs v)))
      | None, None => (-1, v)
      end
    else (0, v);
  os_get n fd len v :=
    match rds v !! fd with
    | Some c => (take (Z.to_nat len) c, Z.of_nat (length (take (Z.to_nat len) c)), set_rd fd (drop (Z.to_nat len) c) v)
    | None => ([], -1, v)
    end;
  os_put n a s len v :=
    if n =? SYS_OPEN then
      let fd := free_fd v in
      let k := disk_name (cstring s) in
      if negb (disk_valid (cstring s)) then (-1, v)
      else if a =? O_RDONLY then
        match disk v !! k with Some c => (fd, set_rd fd (take (Z.to_nat 4096) c) v) | None => (-1, v) end
      else if disk_holds (created k (disk v)) then (fd, mkF (created k (disk v)) (rds v) (<[fd := (k, [])]> (wrs v))) else (-1, v)
    else if n =? SYS_FWRITE then
      match wrs v !! a with
      | Some (k, c) => let len := if 4096 <=? Z.of_nat (length c) + len then 4095 - Z.of_nat (length c) else len in
          (len, set_wr a k (c ++ take (Z.to_nat len) s) v)
      | None => (-1, v)
      end
    else (len, v)
}.
Lemma free_fd_unused v : (used v < slots)%nat → unused (free_fd v) v.
Proof.
  intros Hu. unfold free_fd. destruct (filter _ _) as [|fd l] eqn:E.
  - exfalso. assert (list_to_set (C := gset Z) (seqZ 0 (Z.of_nat slots)) ⊆ dom (rds v) ∪ dom (wrs v)) as Hs.
    { intros fd Hfd%elem_of_list_to_set. assert (fd ∉ filter (is_free v) (seqZ 0 (Z.of_nat slots))) as Hno by (rewrite E; set_solver).
      rewrite list_elem_of_filter in Hno. apply elem_of_union. rewrite !elem_of_dom.
      destruct (rds v !! fd) eqn:E1; [by left|]. destruct (wrs v !! fd) eqn:E2; [by right|]. exfalso. apply Hno. split; [|done].
      unfold is_free. by rewrite E1, E2. }
    apply subseteq_size in Hs. rewrite size_list_to_set in Hs by apply NoDup_seqZ. rewrite length_seqZ in Hs.
    pose proof (size_union_alt (dom (rds v)) (dom (wrs v))). pose proof (subseteq_size (dom (wrs v) ∖ dom (rds v)) (dom (wrs v)) ltac:(set_solver)).
    rewrite !size_dom in *. unfold used in Hu. lia.
  - assert (fd ∈ filter (is_free v) (seqZ 0 (Z.of_nat slots))) as Hin by (rewrite E; set_solver).
    apply list_elem_of_filter in Hin as [Hf Hr%elem_of_seqZ]. unfold is_free in Hf. apply andb_prop_elim in Hf as [H1%bool_decide_unpack H2%bool_decide_unpack].
    split; [unfold slots in Hr; lia|done].
Qed.
#[export] Instance store_files : Files store id disk_name disk_valid disk_holds slots 4096.
Proof.
  split; unfold id.
  - intros buf s c v Hs Hva Hd Hc Hu. cbn. rewrite (cstr_cstring _ _ Hs). apply Is_true_true in Hva. rewrite Hva, Hd. cbn.
    rewrite take_ge by lia. split; [by apply free_fd_unused|done].
  - intros buf s v Hs Hva Hh Hu. cbn. rewrite (cstr_cstring _ _ Hs). apply Is_true_true in Hva, Hh. rewrite Hva, Hh. cbn.
    split; [by apply free_fd_unused|done].
  - intros fd c v Hr. cbn. by rewrite Hr.
  - intros fd s c v Hr Hw Hh. cbn. rewrite Hr, Hw. apply Is_true_true in Hh. by rewrite Hh.
  - intros fd len c v Hr Hl. cbn. rewrite Hr. done.
  - intros fd buf len s c v Hw Hl Hc. cbn. rewrite Hw. by rewrite (proj2 (Z.leb_gt _ _)) by lia.
  - done.
Qed.

Lemma clusters_insert k c d : (clusters (<[k := c]> d) ≤ nblocks (Z.of_nat (length c)) + clusters d)%nat.
Proof.
  assert (∀ c d', d' !! k = None → clusters (<[k := c]> d') = nblocks (Z.of_nat (length c)) + clusters d')%nat as Hn.
  { intros c' d' Hd. unfold clusters. rewrite map_fold_insert_L; [done| |done]. intros. lia. }
  destruct (d !! k) as [x|] eqn:E; [|by rewrite Hn by done]. rewrite <- insert_delete_eq, Hn by apply lookup_delete_eq.
  pose proof (Hn x (delete k d) (lookup_delete_eq _ _)) as Hd. rewrite insert_delete_eq, insert_id in Hd by done. lia.
Qed.
(** Room for a new file of [n] bytes. *)
Lemma store_room a n d : d !! disk_name a = None → (size d < 224)%nat → (clusters d + nblocks (Z.of_nat n) ≤ 2847)%nat →
  room_for (canon := disk_name) (holds := disk_holds) a n d.
Proof.
  intros Hd Hs Hc. unfold room_for, created, disk_holds. rewrite Hd.
  assert (∀ c, (clusters (<[disk_name a := c]> d) ≤ nblocks (Z.of_nat (length c)) + clusters d)%nat) as Hi by (intros; apply clusters_insert).
  assert (∀ c, size (<[disk_name a := c]> d) = S (size d)) as Hz by (intros; by apply map_size_insert_None).
  assert (Is_true ((size (<[disk_name a := []]> d) <=? 224)%nat && (clusters (<[disk_name a := []]> d) <=? 2847)%nat)) as H0.
  { specialize (Hi []). specialize (Hz []). change (nblocks _) with 0%nat in Hi. apply andb_prop_intro. split; apply Is_true_true, Nat.leb_le; lia. }
  split; [done|]. intros c <-. unfold stored. destruct c as [|x c]; [done|]. rewrite insert_insert_eq.
  specialize (Hi (x :: c)). specialize (Hz (x :: c)). apply andb_prop_intro. split; apply Is_true_true, Nat.leb_le; lia.
Qed.

(** Listing an archive: [%u] meets the name of the file. *)
Example list_takes_name_for_size :
  (h ← make_header (lit "A.TXT") 5 (replicate 512 0);
   list_loop (W := store) (replicate (Z.to_nat 1024) 0) 3 4 (replicate 512 0) (mkF ∅ {[ 4 := h ++ replicate 1536 0 ]} ∅)) = Fault.
Proof. vm_compute. reflexivity. Qed.

(** Two files, one of them named in small letters. *)
Definition two_files : list (list Z * list Z) := [(str "a.txt", str "hello"); (str "/disk/B.TXT", replicate 513 66)].
Definition a_store : store := mkF (list_to_map [(str "A.TXT", str "hello"); (str "B.TXT", replicate 513 66)]) ∅ ∅.
Lemma tar_roundtrip_witness :
  wp (cmd_create 10 (replicate (Z.to_nat 1024) 0) (lit "X.TAR") [lit "a.txt"; lit "/disk/B.TXT"] (replicate 512 1) (replicate 512 1) (replicate 512 1))
    (λ r w', r = 0 ∧ ∃ arch, disk w' !! disk_name (str "X.TAR") = Some arch ∧
      ∀ v fd, rds v !! fd = Some arch → (used v < slots)%nat → room_all (canon := disk_name) (holds := disk_holds) (disk v) two_files →
        wp (cmd_extract (replicate (Z.to_nat 1024) 0) 10 fd (replicate 512 1) (replicate 512 1)) (λ r v', r = 0 ∧
          (∀ k, k ∉ disk_name <$> two_files.*1 → disk v' !! k = disk v !! k) ∧
          (∀ s c, (s, c) ∈ two_files → c ≠ [] ∨ disk v !! disk_name s = None → disk v' !! disk_name s = Some c)) v) a_store.
Proof.
  apply (tar_roundtrip (view := id) (canon := disk_name) (valid := disk_valid) (holds := disk_holds) 10 (replicate (Z.to_nat 1024) 0) (lit "X.TAR") (str "X.TAR") [lit "a.txt"; lit "/disk/B.TXT"] two_files).
  - by apply lit_test.
  - by vm_compute.
  - apply store_room; [by vm_compute|apply Nat.ltb_lt; by vm_compute|apply Nat.leb_le; by vm_compute].
  - do 2 (apply Forall2_cons; split; [split_and!; [by apply lit_test|done|by apply bytes_test|apply (bool_decide_unpack _); by vm_compute|by vm_compute|by vm_compute|by vm_compute|apply (bool_decide_unpack _); by vm_compute]|]).
    constructor.
  - apply (bool_decide_unpack _). by vm_compute.
  - cbn. lia.
  - vm_compute. lia.
  - by vm_compute.
  - by vm_compute.
  - done.
  - done.
  - done.
  - done.
  - done.
Defined.
