(* ===== verification/Kush.v ===== *)
(** * The user shell (src/user/kush.c)

    The shell over the C library and the system calls: history, splitting of a line into
    words and pipeline stages, the built-in commands, programs, scripts and the main loop.
    A command line is one buffer; its words are offsets into it. Local buffers that C leaves
    uninitialised are arguments, gathered in the record [locals]. *)

From S2P Require Import Prelude KString Bytes Vga Dmesg Libc User Text Tar.

Definition CMD_MAX : Z := 256.
Definition ARG_MAX : Z := 32.
Definition HIST_MAX : Z := 16.

Record kush := mkKush { history : list (list Z); hist_count : Z; cwd_buf : list Z }.
Definition set_cwd (c : list Z) (k : kush) : kush := mkKush (history k) (hist_count k) c.

(** What the stack holds before a function writes its buffers: the buffer of [printf], [buf]
    of 512 bytes (cat, cp), 2048 bytes (ls) and 4096 bytes (scripts), and the others by name. *)
Record locals := mkLocals {
  l_print : list Z; l_buf512 : list Z; l_buf2048 : list Z; l_buf4096 : list Z;
  l_content : list Z; l_upper : list Z; l_stat : list Z; l_fds : list Z; l_line : list Z; l_time : list Z; l_digits : list Z
}.

(** ** History *)
Definition copy_row (i : Z) (s : list Z) (h : list (list Z)) : res (list (list Z)) :=
  d ← arr_get h i; r ← strcpy d s; arr_set h i r.
Fixpoint shift_history (n : nat) (i : Z) (h : list (list Z)) : res (list (list Z)) :=
  match n with O => Ok h | S n' => s ← arr_get h (i + 1); h ← copy_row i s h; shift_history n' (i + 1) h end.
Definition hist_add (cmd : list Z) (k : kush) : res kush :=
  c ← arr_get cmd 0;
  if c =? 0 then Ok k
  else if hist_count k <? HIST_MAX then
    h ← copy_row (hist_count k) cmd (history k); Ok (mkKush h (hist_count k + 1) (cwd_buf k))
  else
    h ← shift_history (Z.to_nat (HIST_MAX - 1)) 0 (history k);
    h ← copy_row (HIST_MAX - 1) cmd h; Ok (mkKush h (hist_count k) (cwd_buf k)).

(** ** Words and stages

    [split] is the loop of Text.v with room for [max-1] words. *)
Definition split (line : list Z) (p max : Z) : res (list Z * list Z) := argv_loop (Z.to_nat (max - 1)) line p [].
Definition arg (b argv : list Z) (i : Z) : res (list Z) := a ← arr_get argv i; Ok (line_at b a).
(** [while ( *p) if ( *p == '|') { *p++ = 0; parts[nparts++] = p; } else p++;]: [parts] has
    eight places. *)
Fixpoint stages (fuel : nat) (line : list Z) (p : Z) (parts : list Z) : res (list Z * list Z) :=
  match fuel with
  | O => Timeout
  | S f =>
      c ← arr_get line p;
      if c =? 0 then Ok (parts, line)
      else if c =? 124 then
        line ← arr_set line p 0;
        if (length parts <? 8)%nat then stages f line (p + 1) (parts ++ [p + 1]) else Fault
      else stages f line (p + 1) parts
  end.

(** [while (cmd[i] && i < 60) upper[i++] = ...; upper[i] = 0;] *)
Fixpoint upper_loop (room : nat) (cmd : list Z) (i : Z) (upper : list Z) : res (list Z) :=
  match room with
  | O => arr_set upper i 0
  | S r =>
      c ← arr_get cmd i;
      if c =? 0 then arr_set upper i 0
      else u ← arr_set upper i (if (97 <=? c) && (c <=? 122) then c - 32 else c); upper_loop r cmd (i + 1) u
  end.
Definition exec_name (cmd upper : list Z) : res (list Z) :=
  u ← upper_loop 60 cmd 0 upper;
  dot ← strchr u 46;
  match dot with Some _ => Ok u | None => strcat u (lit ".ELF") end.

(** [content] of [write]: the words from the third on, separated by blanks. *)
Fixpoint join_words (b : list Z) (words : list Z) (content : list Z) : res (list Z) :=
  match words with
  | [] => Ok content
  | a :: rest =>
      c ← strcat content (line_at b a);
      c ← (match rest with [] => Ok c | _ => strcat c (lit " ") end);
      join_words b rest c
  end.
(** [char path[128] = "/disk/"; strcat(path, name);] *)
Definition disk_path (name : list Z) : res (list Z) := strcat (str "/disk/" ++ replicate 122 0) name.

(** [while (len > 0 && (line[len-1] is a newline, a blank or a return)) line[--len] = 0;] *)
Fixpoint chop (n : nat) (line : list Z) : res (list Z) :=
  match n with
  | O => Ok line
  | S n' =>
      c ← arr_get line (Z.of_nat n');
      if (c =? 10) || (c =? 32) || (c =? 13) then b ← arr_set line (Z.of_nat n') 0; chop n' b else Ok line
  end.

(** ** The system calls of the shell

    [os_query n path len] has the kernel read a path and store bytes, at most [len], at a
    pointer: the entries of a directory, the state of a file. *)
Class Paths (W : Type) := { os_query : Z → list Z → Z → W → list Z * Z * W }.

Section shell.
Context {W : Type} `{Os W} `{Paths W} (fuel : nat) (l : locals).
Notation say fmt args := (uprintf (l_print l) (lit fmt) args ;; mret tt).

Definition call_query (n : Z) (path buf : list Z) (len : Z) : M W (Z * list Z) := λ w,
  let '(bs, r, w') := os_query n path (u32 len) w in p ← put_all bs buf 0; Ok (i32 r, p.1, w').
Definition sys_pipe (fds : list Z) : M W (Z * list Z) := call_get 21 0 fds 0 8.
Definition sys_dup2 (old nw : Z) : M W Z := call_num 22 old nw 0.
Definition sys_getcwd (buf : list Z) (sz : Z) : M W (Z * list Z) := call_get 23 0 buf 0 sz.
Definition sys_chdir (path : list Z) : M W Z := call_put 24 0 path 0.
Definition sys_stat (path st : list Z) : M W (Z * list Z) := call_query 25 path st 72.
Definition sys_unlink (path : list Z) : M W Z := call_put 26 0 path 0.
Definition sys_isatty (fd : Z) : M W Z := call_num 29 fd 0 0.
Definition sys_listdir (path buf : list Z) (sz : Z) : M W (Z * list Z) := call_query 14 path buf sz.

(** ** Built-in commands

    [b] and [argv] are the line and its words. *)
Fixpoint echo_words (b : list Z) (words : list Z) : M W unit :=
  match words with
  | [] => mret tt
  | a :: rest => fputs (line_at b a) ;; (match rest with [] => mret tt | _ => putchar 32 end) ;; echo_words b rest
  end.
Definition do_echo (b argv : list Z) : M W Z := echo_words b (drop 1 argv) ;; putchar 10 ;; mret 0.

Fixpoint ls_loop (n : nat) (buf : list Z) (p col : Z) : M W Z :=
  match n with
  | O => lift Timeout
  | S n' =>
      q ← lift (next_line buf p);
      match q with
      | None => mret col
      | Some (b, p') =>
          say "  %-18s" [AStr (Some (line_at b p))] ;;
          (if (col + 1) mod 3 =? 0 then putchar 10 else mret tt) ;;
          ls_loop n' b p' (col + 1)
      end
  end.
Definition do_ls (b argv : list Z) (k : kush) : M W Z :=
  path ← (if (1 <? length argv)%nat then lift (arg b argv 1) else mret (cwd_buf k));
  r ← sys_listdir path (l_buf2048 l) 2048;
  if r.1 <=? 0 then say "ls: nothing in %s
" [AStr (Some path)] ;; mret 1
  else
    buf ← lift (arr_set r.2 r.1 0);
    col ← ls_loop (length buf) buf 0 0;
    (if col mod 3 =? 0 then mret tt else putchar 10) ;; mret 0.

Fixpoint cat_loop (n : nat) (fd : Z) (buf : list Z) : M W unit :=
  match n with
  | O => lift Timeout
  | S n' =>
      r ← fread fd buf 0 511;
      if 0 <? r.1 then b ← lift (arr_set r.2 r.1 0); write b r.1 ;; cat_loop n' fd b else mret tt
  end.
Definition do_cat (b argv : list Z) : M W Z :=
  if (length argv <? 2)%nat then fputs (lit "cat: need filename
") ;; mret 1
  else
    name ← lift (arg b argv 1);
    fd ← open name;
    if fd <? 0 then say "cat: %s: not found
" [AStr (Some name)] ;; mret 1
    else cat_loop fuel fd (l_buf512 l) ;; close fd ;; mret 0.

Fixpoint cp_loop (n : nat) (src dst : Z) (buf : list Z) : M W unit :=
  match n with
  | O => lift Timeout
  | S n' =>
      r ← fread src buf 0 512;
      if 0 <? r.1 then fwrite dst r.2 r.1 ;; cp_loop n' src dst r.2 else mret tt
  end.
Definition do_cp (b argv : list Z) : M W Z :=
  if (length argv <? 3)%nat then fputs (lit "cp: cp <src> <dst>
") ;; mret 1
  else
    s ← lift (arg b argv 1); d ← lift (arg b argv 2);
    src ← open s;
    if src <? 0 then say "cp: %s: not found
" [AStr (Some s)] ;; mret 1
    else
      dst_path ← lift (disk_path d);
      dst ← open_with dst_path WRITE_FLAGS;
      if dst <? 0 then close src ;; say "cp: can't create %s
" [AStr (Some d)] ;; mret 1
      else
        cp_loop fuel src dst (l_buf512 l) ;;
        close src ;; close dst ;;
        say "Copied %s -> %s
" [AStr (Some s); AStr (Some d)] ;; mret 0.

Definition do_rm (b argv : list Z) : M W Z :=
  if (length argv <? 2)%nat then fputs (lit "rm: need filename
") ;; mret 1
  else
    name ← lift (arg b argv 1);
    r ← sys_unlink name;
    if r =? 0 then say "Deleted %s
" [AStr (Some name)] ;; mret 0
    else say "rm: %s: failed
" [AStr (Some name)] ;; mret 1.

Definition do_cd (b argv : list Z) (k : kush) : M W (Z * kush) :=
  path ← (if (1 <? length argv)%nat then lift (arg b argv 1) else mret (lit "/disk"));
  r ← sys_chdir path;
  if r =? 0 then c ← sys_getcwd (cwd_buf k) 128; mret (0, set_cwd c.2 k)
  else say "cd: %s: not found
" [AStr (Some path)] ;; mret (1, k).
Definition do_pwd (k : kush) : M W (Z * kush) :=
  c ← sys_getcwd (cwd_buf k) 128; puts c.2 ;; mret (0, set_cwd c.2 k).

Fixpoint history_rows (n : nat) (i : Z) (h : list (list Z)) : M W unit :=
  match n with
  | O => mret tt
  | S n' => row ← lift (arr_get h i); say "  %2d  %s
" [AInt (i + 1); AStr (Some row)] ;; history_rows n' (i + 1) h
  end.
Definition do_history (k : kush) : M W Z := history_rows (Z.to_nat (hist_count k)) 0 (history k) ;; mret 0.

(** The structure is 72 bytes: the size, the type and the name. *)
Definition do_stat (b argv : list Z) : M W Z :=
  if (length argv <? 2)%nat then fputs (lit "stat: need filename
") ;; mret 1
  else
    name ← lift (arg b argv 1);
    r ← sys_stat name (l_stat l);
    if r.1 <? 0 then say "stat: %s: not found
" [AStr (Some name)] ;; mret 1
    else
      size ← lift (ld32 0 r.2); type ← lift (arr_get r.2 4);
      say "  File: %s
  Size: %u bytes
  Type: %s
" [AStr (Some (drop 5 r.2)); AInt size;
        AStr (Some (if type =? 1 then lit "file" else if type =? 2 then lit "dir" else if type =? 3 then lit "device" else lit "pipe"))] ;;
      mret 0.

Definition do_write (b argv : list Z) : M W Z :=
  if (length argv <? 3)%nat then fputs (lit "write: write <file> <content>
") ;; mret 1
  else
    content ← lift (arr_set (l_content l) 0 0);
    content ← lift (join_words b (drop 2 argv) content);
    content ← lift (strcat content (lit "
"));
    name ← lift (arg b argv 1);
    path ← lift (disk_path name);
    fd ← open_with path WRITE_FLAGS;
    if fd <? 0 then say "write: can't create %s
" [AStr (Some name)] ;; mret 1
    else
      n ← lift (strlen content);
      fwrite fd content n ;;
      close fd ;;
      say "Written to %s
" [AStr (Some name)] ;; mret 0.

Definition do_date : M W Z := print_time (l_time l) (l_digits l) ;; putchar 10 ;; mret 0.

Definition do_kill (b argv : list Z) : M W Z :=
  if (length argv <? 2)%nat then fputs (lit "kill: kill <pid> [sig]
") ;; mret 1
  else
    a ← lift (arg b argv 1); pid ← lift (atoi a);
    sig ← (if (2 <? length argv)%nat then lift (s ← arg b argv 2; atoi s) else mret 15);
    r ← sys_kill pid sig;
    if r <? 0 then say "kill: pid %d not found
" [AInt pid] ;; mret 1
    else say "Signal %d sent to PID %d
" [AInt sig; AInt pid] ;; mret 0.

Definition do_cat_proc (path : list Z) : M W Z :=
  fd ← open_with path O_RDONLY;
  if fd <? 0 then say "cat: %s: not found
" [AStr (Some path)] ;; mret 1
  else
    r ← fread fd (l_buf2048 l) 0 2047;
    (if 0 <? r.1 then b ← lift (arr_set r.2 r.1 0); fputs b ;; mret tt else mret tt) ;;
    close fd ;; mret 0.

Fixpoint put_lines (ls : list (list Z)) : M W unit :=
  match ls with [] => mret tt | s :: ss => fputs s ;; put_lines ss end.
Definition help_lines : list (list Z) := [
  lit "
  kush v1.0 — KumOS Shell

"; lit "  Built-ins:
"; lit "    help              - This help
"; lit "    ls [path]         - List files
"; lit "    cat <file>        - Print file
"; lit "    cp <src> <dst>    - Copy file
"; lit "    rm <file>         - Delete file
"; lit "    write <f> <data>  - Write text to file
"; lit "    cd [path]         - Change directory
"; lit "    pwd               - Print working directory
"; lit "    stat <file>       - File info
"; lit "    date              - Current date/time
"; lit "    history           - Command history
"; lit "    exit [code]       - Exit shell
"; lit "    kill <pid> [sig]  - Send signal

"; lit "  /proc files:
"; lit "    cat /proc/meminfo  cat /proc/ps
"; lit "    cat /proc/uptime   cat /proc/net

"; lit "  ELF programs (from disk):
"; lit "    HELLO.ELF         - Hello world
"; lit "    COUNTER.ELF       - Counter demo
"; lit "    CAT.ELF           - File reader
"; lit "    SYSINFO.ELF       - System info

"; lit "  Pipes:  cmd1 | cmd2

"].
Definition do_help : M W Z := put_lines help_lines ;; mret 0.

Definition do_exec (cmd : list Z) : M W Z :=
  upper ← lift (exec_name cmd (l_upper l));
  r ← sys_exec upper;
  if r <? 0 then say "kush: %s: not found
" [AStr (Some cmd)] ;; mret 127 else mret r.

(** ** Command lines *)
Notation named cmd s := (lift (c ← strcmp cmd (lit s); Ok (c =? 0))).
Notation same m k := (r ← m; mret (r, k)).

Section pipeline.
(** [run_script], which calls back for every line of the script. *)
Variable run_script : list Z → kush → M W (Z * kush).

Definition simple (b argv : list Z) (k : kush) : M W (Z * kush) :=
  cmd ← lift (arg b argv 0);
  t ← named cmd "exit";
  (if (t : bool) then
     code ← (if (1 <? length argv)%nat then lift (a ← arg b argv 1; atoi a) else mret 0); exit code
   else mret tt) ;;
  t1 ← named cmd "source"; t2 ← named cmd ".";
  if (t1 || t2 : bool) then
    if (1 <? length argv)%nat then f ← lift (arg b argv 1); run_script f k
    else puts (lit "source: need filename") ;; mret (1, k)
  else
  t ← named cmd "help"; if t : bool then same do_help k else
  t ← named cmd "ls"; if t : bool then same (do_ls b argv k) k else
  t ← named cmd "cat"; if t : bool then same (do_cat b argv) k else
  t ← named cmd "cp"; if t : bool then same (do_cp b argv) k else
  t ← named cmd "rm"; if t : bool then same (do_rm b argv) k else
  t ← named cmd "cd"; if t : bool then do_cd b argv k else
  t ← named cmd "pwd"; if t : bool then do_pwd k else
  t ← named cmd "stat"; if t : bool then same (do_stat b argv) k else
  t ← named cmd "echo"; if t : bool then same (do_echo b argv) k else
  t ← named cmd "date"; if t : bool then same do_date k else
  t ← named cmd "history"; if t : bool then same (do_history k) k else
  t ← named cmd "write"; if t : bool then same (do_write b argv) k else
  t ← named cmd "kill"; if t : bool then same (do_kill b argv) k else
  t ← named cmd "clear"; if t : bool then fputs ([27] ++ str "[2J" ++ [27] ++ lit "[H") ;; mret (0, k) else
  same (do_exec cmd) k.

(** The first two stages of a pipeline; the others are not run. [None] is the jump to
    [cleanup]. *)
Definition left_stage (b : list Z) (p rfd wfd : Z) (k : kush) : M W (option (list Z)) :=
  q ← lift (split b p ARG_MAX);
  let argv := (q : list Z * list Z).1 in let b := q.2 in
  if (length argv =? 0)%nat then mret None
  else
    saved ← sys_dup2 1 10;
    sys_dup2 wfd 1 ;;
    close wfd ;;
    cmd ← lift (arg b argv 0);
    t1 ← named cmd "ls"; t2 ← named cmd "cat"; t3 ← named cmd "echo";
    (if (t1 : bool) then do_ls b argv k else if (t2 : bool) then do_cat b argv
     else if (t3 : bool) then do_echo b argv else do_exec cmd) ;;
    sys_dup2 saved 1 ;;
    close saved ;;
    mret (Some b).
Definition right_stage (b : list Z) (p rfd : Z) : M W unit :=
  q ← lift (split b p ARG_MAX);
  let argv := (q : list Z * list Z).1 in let b := q.2 in
  if (length argv =? 0)%nat then mret tt
  else
    saved ← sys_dup2 0 11;
    sys_dup2 rfd 0 ;;
    close rfd ;;
    cmd ← lift (arg b argv 0);
    t ← named cmd "cat";
    (if (t : bool) then do_cat b argv else do_exec cmd) ;;
    sys_dup2 saved 0 ;;
    close saved ;;
    mret tt.

Definition run_stages (line : list Z) (k : kush) : M W (Z * kush) :=
  q ← lift (stages (S (length line)) line 0 [0]);
  let parts := (q : list Z * list Z).1 in let b := q.2 in
  p0 ← lift (arr_get parts 0);
  if (length parts =? 1)%nat then
    q ← lift (split b p0 ARG_MAX);
    if (length (q : list Z * list Z).1 =? 0)%nat then mret (0, k) else simple q.2 q.1 k
  else
    r ← sys_pipe (l_fds l);
    if r.1 <? 0 then fputs (lit "pipe failed
") ;; mret (1, k)
    else
      rfd ← lift (ld32 0 r.2); wfd ← lift (ld32 4 r.2);
      let rfd := i32 rfd in let wfd := i32 wfd in
      o ← left_stage b p0 rfd wfd k;
      match o with
      | None => mret (0, k)
      | Some b => p1 ← lift (arr_get parts 1); right_stage b p1 rfd ;; mret (0, k)
      end.
End pipeline.

(** The lines of a script. [run] is [run_pipeline]. *)
Definition is_blank (c : Z) : bool := (c =? 32) || (c =? 9).
Fixpoint script_loop (run : list Z → kush → M W (Z * kush)) (n : nat) (buf : list Z) (p ret : Z) (k : kush) : M W (Z * kush) :=
  match n with
  | O => lift Timeout
  | S n' =>
      q ← lift (next_line buf p);
      match q with
      | None => mret (ret, k)
      | Some (b, p') =>
          s ← lift (count_while is_blank (line_at b p));
          c ← lift (arr_get b (p + s));
          if negb (c =? 0) && negb (c =? 35) then
            line ← lift (strncpy (l_line l) (line_at b (p + s)) 255);
            r ← run line k;
            script_loop run n' b p' (r : Z * kush).1 r.2
          else script_loop run n' b p' ret k
      end
  end.
Definition run_script_with (run : list Z → kush → M W (Z * kush)) (filename : list Z) (k : kush) : M W (Z * kush) :=
  fd ← open filename;
  if fd <? 0 then say "kush: %s: not found
" [AStr (Some filename)] ;; mret (1, k)
  else
    r ← fread fd (l_buf4096 l) 0 4095;
    close fd ;;
    if r.1 <=? 0 then mret (0, k)
    else b ← lift (arr_set r.2 r.1 0); script_loop run (length b) b 0 0 k.

(** [depth] bounds the nesting of scripts. *)
Fixpoint run_pipeline (depth : nat) (line : list Z) (k : kush) : M W (Z * kush) :=
  match depth with
  | O => lift Timeout
  | S d => run_stages (run_script_with (run_pipeline d)) line k
  end.
Definition run_script (depth : nat) : list Z → kush → M W (Z * kush) := run_script_with (run_pipeline depth).

(** ** The program

    A command line is cut up in place; the next turn reads over it, so that the loop keeps
    the line as it was. *)
Definition print_prompt (k : kush) : M W kush :=
  c ← sys_getcwd (cwd_buf k) 128;
  uprintf (l_print l) ([27] ++ str "[32mkush" ++ [27] ++ str "[0m:" ++ [27] ++ str "[36m%s" ++ [27] ++ lit "[0m$ ") [AStr (Some c.2)] ;;
  mret (set_cwd c.2 k).

Definition motd : M W unit :=
  put_lines [lit "
"; lit "  ██╗  ██╗██╗   ██╗███████╗██╗  ██╗
"; lit "  ██║ ██╔╝██║   ██║██╔════╝██║  ██║
"; lit "  █████╔╝ ██║   ██║███████╗███████║
"; lit "  ██╔═██╗ ██║   ██║╚════██║██╔══██║
"; lit "  ██║  ██╗╚██████╔╝███████║██║  ██║
"; lit "  ╚═╝  ╚═╝ ╚═════╝ ╚══════╝╚═╝  ╚═╝
"] ;;
  say "
  kush v%s — KumOS Shell  (type 'help')

" [AStr (Some (lit "1.0"))].

Fixpoint kush_loop (turns : nat) (line : list Z) (last_exit : Z) (k : kush) : M W unit :=
  match turns with
  | O => lift Timeout
  | S t =>
      (if last_exit =? 0 then mret tt else say "[%d] " [AInt last_exit]) ;;
      k ← print_prompt k;
      r ← read line 0 255;
      if r.1 <=? 0 then kush_loop t r.2 last_exit k
      else
        b ← lift (arr_set r.2 r.1 0);
        n ← lift (strlen b);
        line ← lift (chop (Z.to_nat n) b);
        c ← lift (arr_get line 0);
        if c =? 0 then kush_loop t line last_exit k
        else
          k ← lift (hist_add line k);
          q ← run_pipeline fuel line k;
          kush_loop t line (q : Z * kush).1 q.2
  end.
Definition kush_main (turns : nat) (line : list Z) : M W unit :=
  c ← sys_getcwd (replicate 128 0) 128;
  z ← lift (arr_get c.2 0);
  cwd ← (if z =? 0 then lift (strcpy c.2 (lit "/disk")) else mret c.2);
  motd ;;
  kush_loop turns line 0 (mkKush (replicate 16 (replicate 256 0)) 0 cwd).
End shell.

(** ** Words of a line *)

(** What [split] promises: the words between the blanks of a line. *)
Fixpoint words (s : list Z) : list (list Z) :=
  match s with
  | [] => []
  | c :: s' =>
      if c =? 32 then words s'
      else match s' with
           | x :: _ => if x =? 32 then [c] :: words s' else match words s' with [] => [[c]] | w :: ws => (c :: w) :: ws end
           | [] => [[c]]
           end
  end.
Definition no_blank (w : list Z) : Prop := Forall (λ c, c ≠ 32) w.

Lemma words_blanks k s : words (replicate k 32 ++ s) = words s.
Proof. by induction k. Qed.
Lemma words_first w s : no_blank w → w ≠ [] → words (w ++ 32 :: s) = w :: words s.
Proof.
  induction 1 as [|c w Hc Hw IH]; [done|]. intros _. cbn [words app]. rewrite (proj2 (Z.eqb_neq c 32)) by done.
  destruct w as [|x w]; [done|]. rewrite IH by done. cbn [app]. by rewrite (proj2 (Z.eqb_neq x 32)) by (by inversion Hw).
Qed.
Lemma words_last w : no_blank w → w ≠ [] → words w = [w].
Proof.
  induction 1 as [|c w Hc Hw IH]; [done|]. intros _. cbn [words]. rewrite (proj2 (Z.eqb_neq c 32)) by done.
  destruct w as [|x w]; [done|]. rewrite IH by done. by rewrite (proj2 (Z.eqb_neq x 32)) by (by inversion Hw).
Qed.
(** A text is blanks, a word, and what follows it. *)
Lemma next_word s : ∃ k w t, s = replicate k 32 ++ w ++ t ∧ no_blank w ∧ (t = [] ∨ ∃ t', t = 32 :: t') ∧ (w = [] → t = []).
Proof.
  induction s as [|c s (k & w & t & -> & Hw & Ht & Hn)].
  { exists 0%nat, [], []. split_and!; [done|constructor|by left|done]. }
  destruct (decide (c = 32)) as [->|Hc].
  { exists (S k), w, t. done. }
  destruct k as [|k].
  - exists 0%nat, (c :: w), t. split_and!; [done|by constructor|done|done].
  - exists 0%nat, [c], (replicate (S k) 32 ++ w ++ t). split_and!; [done|by repeat constructor|right; by eexists|done].
Qed.
Lemma count_while_spec f w x t : Forall (λ c, f c = true) w → f x = false → count_while f (w ++ x :: t) = Ok (Z.of_nat (length w)).
Proof.
  intros Hw Hx. induction Hw as [|c w Hc Hw IH]; cbn [count_while app length]; [by rewrite Hx|].
  rewrite Hc, IH. cbn. f_equal. lia.
Qed.

(** One word of [argv_loop]. *)
Lemma argv_word room pre k w z rest acc : w ≠ [] → no_blank w → nonzero w → (z = 0 ∨ z = 32) →
  argv_loop (S room) (pre ++ replicate k 32 ++ w ++ z :: rest) (Z.of_nat (length pre)) acc =
  argv_loop room (pre ++ replicate k 32 ++ w ++ 0 :: rest)
    (Z.of_nat (length (pre ++ replicate k 32 ++ w)) + (if z =? 0 then 0 else 1)) (acc ++ [Z.of_nat (length (pre ++ replicate k 32))]).
Proof.
  intros Hne Hb Hz Hzz. destruct w as [|c w]; [done|]. cbn [argv_loop].
  assert (Forall (λ c, (c =? 32) = true) (replicate k 32)) as Hk by (by apply Forall_replicate).
  assert (c ≠ 32) by (by inversion Hb). assert (c ≠ 0) by (by inversion Hz).
  assert (∃ x y, replicate k 32 ++ (c :: w) ++ z :: rest = x :: y ∧ x ≠ 0) as (x & y & Exy & Hx0) by (destruct k; cbn; by eexists _, _).
  rewrite Exy, arr_get_app, <- Exy. cbn [mbind res_bind]. rewrite (proj2 (Z.eqb_neq x 0)) by done.
  change (drop (Z.to_nat (Z.of_nat (length pre)))) with (λ l : list Z, line_at l (Z.of_nat (length pre))). cbv beta. rewrite line_at_app.
  cbn [app]. rewrite (count_while_spec _ _ _ _ Hk) by (by apply Z.eqb_neq). cbn [mbind res_bind].
  rewrite <- Nat2Z.inj_add, <- length_app.
  rewrite (app_assoc pre), arr_get_app. cbn [mbind res_bind]. rewrite (proj2 (Z.eqb_neq c 0)) by done.
  change (drop (Z.to_nat (Z.of_nat (length (pre ++ replicate k 32))))) with (λ l : list Z, line_at l (Z.of_nat (length (pre ++ replicate k 32)))).
  cbv beta. rewrite line_at_app. change (c :: w ++ z :: rest) with ((c :: w) ++ z :: rest).
  rewrite (count_while_spec _ (c :: w)); [|apply Forall_forall; intros a Ha; unfold no_blank, nonzero in *; rewrite Forall_forall in Hb, Hz; specialize (Hb _ Ha); specialize (Hz _ Ha); cbn in Hz; lia|lia].
  cbn [mbind res_bind]. rewrite <- Nat2Z.inj_add, <- length_app. rewrite (app_assoc _ (c :: w)), arr_get_app. cbn [mbind res_bind].
  rewrite (app_assoc pre (replicate k 32) (c :: w)).
  destruct Hzz as [-> | ->]; cbn [Z.eqb].
  - rewrite Z.add_0_r. by rewrite <- !app_assoc.
  - rewrite arr_set_app. cbn [mbind res_bind]. by rewrite <- !app_assoc.
Qed.

(** [split] finds the words and terminates each. *)
Lemma argv_spec room pre s rest acc : nonzero s → (length (words s) ≤ room)%nat →
  ∃ ps b, argv_loop room (pre ++ s ++ 0 :: rest) (Z.of_nat (length pre)) acc = Ok (acc ++ ps, pre ++ b) ∧
    (∃ x, b = x ++ 0 :: rest ∧ length x = length s) ∧ Forall2 (λ p w, cstr (line_at (pre ++ b) p) w) ps (words s).
Proof.
  revert pre s acc. induction room as [|room IH]; intros pre s acc Hs Hr.
  { exists [], (s ++ 0 :: rest). cbn. rewrite app_nil_r. split; [done|]. split; [by exists s|]. destruct (words s); [constructor|cbn in Hr; lia]. }
  destruct (next_word s) as (k & w & t & -> & Hb & Ht & Hn). destruct (decide (w = [])) as [->|Hne].
  - rewrite Hn in * by done. cbn [app]. rewrite app_nil_r in *. assert (words (replicate k 32) = []) as -> by (rewrite <- (app_nil_r (replicate k 32)); apply words_blanks).
    exists [], (replicate k 32 ++ 0 :: rest). rewrite app_nil_r. split; [|split; [by exists (replicate k 32)|constructor]].
    cbn [argv_loop]. destruct k as [|k]; cbn [replicate app]; rewrite arr_get_app; [done|]. cbn [mbind res_bind Z.eqb].
    change (drop (Z.to_nat (Z.of_nat (length pre)))) with (λ l : list Z, line_at l (Z.of_nat (length pre))). cbv beta. rewrite line_at_app.
    change (32 :: replicate k 32 ++ 0 :: rest) with (replicate (S k) 32 ++ 0 :: rest).
    rewrite count_while_spec; [|by apply Forall_replicate|done]. cbn [mbind res_bind]. rewrite <- Nat2Z.inj_add, <- length_app.
    by rewrite (app_assoc pre), arr_get_app.
  - assert (nonzero w ∧ nonzero t) as [Hzw Hzt] by (unfold nonzero in *; rewrite !Forall_app in Hs; tauto).
    rewrite words_blanks in Hr |- *. rewrite <- !app_assoc.
    destruct Ht as [->|(t' & ->)].
    + rewrite app_nil_r, words_last in * by done. cbn [app]. rewrite argv_word by (by auto). cbn [Z.eqb]. rewrite Z.add_0_r.
      rewrite !(app_assoc pre), (app_assoc _ w).
      exists [Z.of_nat (length (pre ++ replicate k 32))], (replicate k 32 ++ w ++ 0 :: rest). split; [|split].
      * destruct room; cbn [argv_loop]; [|rewrite arr_get_app; cbn [mbind res_bind Z.eqb]]; by rewrite <- !app_assoc.
      * exists (replicate k 32 ++ w). by rewrite <- app_assoc.
      * constructor; [|constructor]. rewrite app_assoc, line_at_app. by exists rest.
    + cbn [app]. rewrite argv_word by (by auto). cbn [Z.eqb]. rewrite words_first in * by done.
      destruct (IH (pre ++ replicate k 32 ++ w ++ [0]) t' (acc ++ [Z.of_nat (length (pre ++ replicate k 32))])) as (ps & b & E & (x & -> & Hx) & Hps);
        [by inversion Hzt|cbn in Hr; lia|].
      replace (Z.of_nat (length (pre ++ replicate k 32 ++ w ++ [0]))) with (Z.of_nat (length (pre ++ replicate k 32 ++ w)) + 1) in E
        by (rewrite !length_app; cbn; lia).
      exists (Z.of_nat (length (pre ++ replicate k 32)) :: ps), (replicate k 32 ++ w ++ 0 :: x ++ 0 :: rest). split; [|split].
      * rewrite <- !app_assoc in E. cbn [app] in E. rewrite E. done.
      * exists (replicate k 32 ++ w ++ 0 :: x). rewrite <- !app_assoc. cbn [app]. split; [done|]. rewrite !length_app. cbn [length]. by rewrite Hx.
      * constructor; [rewrite app_assoc, line_at_app; by eexists|]. rewrite <- !app_assoc in Hps. exact Hps.
Qed.

(** ** Copying a file *)
Lemma stages_plain n s pre rest parts : nonzero s → Forall (λ c, c ≠ 124) s → (length s < n)%nat →
  stages n (pre ++ s ++ 0 :: rest) (Z.of_nat (length pre)) parts = Ok (parts, pre ++ s ++ 0 :: rest).
Proof.
  intros Hs. revert n pre. induction Hs as [|c s Hc Hs IH]; intros n pre Hb Hn; destruct n as [|n]; try (cbn in Hn; lia); cbn [stages app].
  { by rewrite arr_get_app. }
  rewrite arr_get_app. cbn [mbind res_bind]. inversion_clear Hb as [|? ? Hc' Hb']. rewrite (proj2 (Z.eqb_neq c 0)), (proj2 (Z.eqb_neq c 124)) by done.
  specialize (IH n (pre ++ [c]) Hb' ltac:(cbn in Hn; lia)). rewrite <- !app_assoc in IH. cbn [app] in IH. rewrite length_app in IH. cbn [length] in IH.
  by replace (Z.of_nat (length pre) + 1) with (Z.of_nat (length pre + 1)) by lia.
Qed.
Lemma arg_word b ps ws i w : Forall2 (λ p w, cstr (line_at b p) w) ps ws → ws !! i = Some w →
  ∃ s, arg b ps (Z.of_nat i) = Ok s ∧ cstr s w.
Proof.
  intros HF Hi. destruct (Forall2_lookup_r _ _ _ _ _ HF Hi) as (p & Hp & Hc). exists (line_at b p). split; [|done].
  unfold arg. by rewrite (arr_get_nat _ _ _ Hp).
Qed.

Section copy.
Context {W : Type} `{Files W view canon valid holds nfds cap} `{Paths W} (l : locals).

Lemma wp_cp_loop n src dst buf s o c w (Q : unit → W → Prop) :
  rds (view w) !! src = Some c → wrs (view w) !! dst = Some (s, o) → length buf = 512%nat →
  (length c + 512 ≤ 512 * n)%nat → Z.of_nat (length o + length c) < cap →
  (∀ w', view w' = mkF (disk (view w)) (<[src := []]> (rds (view w))) (<[dst := (s, o ++ c)]> (wrs (view w))) → Q tt w') →
  wp (cp_loop n src dst buf) Q w.
Proof.
  revert buf o c w. induction n as [|n IH]; intros buf o c w Hr Hw Lb Hn Hcap HQ; [lia|]. cbn [cp_loop]. apply wp_bind.
  eapply wp_fread; [done|lia|lia|]. intros w1 V1. change (Z.to_nat 512) with 512%nat in *. cbn zeta. cbn [fst snd].
  destruct c as [|x c].
  - cbn [take length Z.of_nat Z.ltb Z.compare app drop] in *. apply wp_ret. apply HQ. rewrite V1. unfold set_rd.
    rewrite app_nil_r. by rewrite (insert_id (wrs (view w))).
  - set (t := x :: c) in *. assert (0 < length t)%nat by (cbn; lia). clearbody t. rewrite (proj2 (Z.ltb_lt _ _)) by (rewrite length_take; lia).
    apply wp_bind. eapply wp_fwrite; [by rewrite V1|rewrite length_app, length_drop, length_take; lia|rewrite length_take; lia|rewrite length_take; lia|].
    intros r w2 V2. rewrite Nat2Z.id, take_app_length in V2.
    apply (IH _ (o ++ take 512 t) (drop 512 t)).
    + rewrite V2, V1. apply lookup_insert_eq.
    + rewrite V2. apply lookup_insert_eq.
    + rewrite length_app, length_drop, length_take. lia.
    + rewrite length_drop. lia.
    + rewrite length_app, length_take, length_drop. lia.
    + intros w3 V3. apply HQ. rewrite V3, V2, V1. cbn. by rewrite <- app_assoc, take_drop, !insert_insert_eq.
Qed.

(** The built-in command [cp] over a store of files. *)
Lemma wp_do_cp fuel b ps s d c w (Q : Z → W → Prop) :
  let k := canon (str "/disk/" ++ d) in
  Forall2 (λ p w, cstr (line_at b p) w) ps [str "cp"; s; d] → valid s → disk (view w) !! canon s = Some c →
  valid (str "/disk/" ++ d) → holds (created k (disk (view w))) → holds (stored k c (created k (disk (view w)))) →
  (used (view w) + 1 < nfds)%nat → (length d < 122)%nat → (length c + 512 ≤ 512 * fuel)%nat → Z.of_nat (length c) < cap →
  1023 ≤ Z.of_nat (length (l_print l)) → length (l_buf512 l) = 512%nat →
  (∀ w', disk (view w') = stored k c (created k (disk (view w))) →
    rds (view w') = rds (view w) → wrs (view w') = wrs (view w) → Q 0 w') →
  wp (do_cp fuel l b ps) Q w.
Proof.
  intros k HF Hvs Hs Hvd Hh0 Hh1 Hu Hd Hf Hcap Hj Lb HQ. unfold do_cp. pose proof (Forall2_length _ _ _ HF) as Hlen. cbn in Hlen. rewrite Hlen. cbn [Nat.ltb Nat.leb].
  destruct (arg_word _ _ _ 1 s HF eq_refl) as (a1 & E1 & C1). destruct (arg_word _ _ _ 2 d HF eq_refl) as (a2 & E2 & C2).
  apply wp_bind. eapply wp_lift; [exact E1|]. apply wp_bind. eapply wp_lift; [exact E2|].
  apply wp_bind. eapply wp_open_read; [done|done|done|lia|lia|]. intros src w1 (Hsrc & Us & Usw) V1. rewrite (proj2 (Z.ltb_ge _ _)) by lia.
  destruct (kstrcat_cstr (str "/disk/" ++ replicate 122 0) a2 (str "/disk/") d) as (pth & Ep & Cp & _).
  { exists (replicate 121 0). split; [done|]. by apply (cstr_nonzero (lit "/disk/")), lit_test. } { done. } { rewrite length_app, length_replicate. change (length (str "/disk/")) with 6%nat. lia. }
  apply wp_bind. eapply wp_lift; [exact Ep|]. apply wp_bind. eapply wp_open_write; [done|done|by rewrite V1| |].
  { rewrite V1. unfold used in *. cbn. rewrite map_size_insert_None by done. lia. }
  intros dst w2 (Hdst & Ud & Udw) V2. rewrite (proj2 (Z.ltb_ge _ _)) by lia. rewrite V1 in Ud, Udw, V2. cbn [set_rd rds wrs disk] in *.
  assert (dst ≠ src) by (intros ->; by rewrite lookup_insert_eq in Ud). rewrite lookup_insert_ne in Ud by done.
  apply wp_bind. eapply (wp_cp_loop _ _ _ _ _ [] c); [rewrite V2; apply lookup_insert_eq|rewrite V2; apply lookup_insert_eq|done|done|cbn; lia|].
  intros w3 V3. rewrite V2 in V3. cbn [disk rds wrs app] in V3. rewrite !insert_insert_eq in V3.
  apply wp_bind. eapply (wp_close_read src []); [rewrite V3; apply lookup_insert_eq|]. intros r4 w4 V4. rewrite V3 in V4. cbn [disk rds wrs] in V4.
  rewrite delete_insert_id in V4 by done.
  apply wp_bind. eapply (wp_close_write dst k c); [by rewrite V4|rewrite V4; apply lookup_insert_eq|by rewrite V4|]. intros r5 w5 V5.
  rewrite V4 in V5. cbn [disk rds wrs] in V5. rewrite delete_insert_id in V5 by done.
  do 2 apply wp_bind. eapply wp_uprintf; [solve_fmt|done|]. intros r6 w6 V6. do 2 apply wp_ret.
  apply HQ; by rewrite V6, V5.
Qed.

(** A step of the chain of comparisons in [simple]. *)
Lemma wp_is_named {A} cmd s t (f : bool → M W A) w (Q : A → W → Prop) : cstr cmd s → cstr (lit t) (str t) →
  wp (f (bool_decide (s = str t))) Q w → wp (lift (c ← strcmp cmd (lit t); Ok (c =? 0)) ≫= f) Q w.
Proof.
  intros Hs Ht Hf. apply wp_bind. destruct (kstrcmp_test _ _ _ _ Hs Ht) as (d & E & Hd).
  eapply wp_lift; [unfold strcmp; rewrite E; reflexivity|]. by rewrite Hd.
Qed.
Ltac compare_cmd := eapply wp_is_named; [eassumption|by apply lit_test|]; match goal with |- context [bool_decide ?P] => let b := eval vm_compute in (bool_decide P) in change (bool_decide P) with b end; cbv beta iota.

(** C38: the command line [cp s d], however its words are spaced, copies a file that is not
    empty and shorter than [cap] bytes, what a file being written can have. [s] and [/disk/d]
    stand for files by [canon], which may be one and the same under several spellings. When
    the medium can hold the result, the disk then has the contents in the file of [/disk/d],
    every other file is as before, no descriptor is left open, and the shell goes on with
    status 0. *)
Theorem kush_copies fuel depth line t rest s d c sh w :
  let k := canon (str "/disk/" ++ d) in
  line = t ++ 0 :: rest → nonzero t → Forall (λ c, c ≠ 124) t → words t = [str "cp"; s; d] →
  valid s → disk (view w) !! canon s = Some c → c ≠ [] → valid (str "/disk/" ++ d) →
  holds (created k (disk (view w))) → holds (<[k := c]> (disk (view w))) →
  (used (view w) + 1 < nfds)%nat → (length d < 122)%nat →
  (length c + 512 ≤ 512 * fuel)%nat → Z.of_nat (length c) < cap → 1023 ≤ Z.of_nat (length (l_print l)) → length (l_buf512 l) = 512%nat →
  wp (run_pipeline fuel l (S depth) line sh) (λ r w', r = (0, sh) ∧
    disk (view w') = <[k := c]> (disk (view w)) ∧ rds (view w') = rds (view w) ∧ wrs (view w') = wrs (view w)) w.
Proof.
  intros k -> Ht Hbar Hw Hvs Hs Hne Hvd Hh0 Hh1 Hu Hd Hf Hcap Hj Lb.
  assert (stored k c (created k (disk (view w))) = <[k := c]> (disk (view w))) as Ek.
  { unfold stored, created. destruct c; [done|]. destruct (disk (view w) !! k); by rewrite ?insert_insert_eq. }
  rewrite <- Ek in Hh1 |- *.
  cbn [run_pipeline]. unfold run_stages. apply wp_bind. eapply wp_lift.
  { apply (stages_plain _ t []); [done|done|rewrite length_app; cbn; lia]. }
  cbn [fst snd app length]. apply wp_bind. eapply wp_lift; [reflexivity|]. cbn [Nat.eqb].
  destruct (argv_spec 31 [] t rest [] Ht) as (ps & b & E & _ & HF); [rewrite Hw; cbn; lia|]. cbn [app length] in E, HF.
  apply wp_bind. eapply wp_lift; [exact E|]. cbn [fst snd]. rewrite Hw in HF. rewrite (Forall2_length _ _ _ HF). cbn [length Nat.eqb].
  unfold simple. destruct (arg_word _ _ _ 0 _ HF eq_refl) as (cmd & E0 & C0). apply wp_bind. eapply wp_lift; [exact E0|].
  compare_cmd. apply wp_bind, wp_ret. do 2 compare_cmd. cbn [orb]. do 4 compare_cmd.
  apply wp_bind. by eapply wp_do_cp.
Qed.
End copy.

(** ** Examples *)
#[export] Instance store_paths : Paths store := { os_query n path len v := ([], -1, v) }.
Definition stack : locals :=
  mkLocals (replicate 1024 0) (replicate 512 7) (replicate 2048 7) (replicate 4096 7) (replicate 512 7)
    (replicate 64 7) (replicate 72 7) (replicate 8 7) (replicate 256 7) (replicate 8 7) (replicate 16 7).
Definition a_shell : kush := mkKush (replicate 16 (replicate 256 0)) 0 (lit "/disk").
Lemma kush_copies_witness :
  wp (run_pipeline 10 stack 1 (lit "cp  b.txt   C.TXT ") a_shell) (λ r w', r = (0, a_shell) ∧
    disk w' = <[disk_name (str "/disk/C.TXT") := replicate 513 66]> (disk a_store) ∧ rds w' = rds a_store ∧ wrs w' = wrs a_store) a_store.
Proof.
  apply (kush_copies (view := id) (canon := disk_name) (valid := disk_valid) (holds := disk_holds) (nfds := slots) (cap := 4096)
    stack 10 0 (lit "cp  b.txt   C.TXT ") (str "cp  b.txt   C.TXT ") [] (str "b.txt") (str "C.TXT") (replicate 513 66) a_shell a_store).
  - reflexivity.
  - apply (cstr_nonzero (lit "cp  b.txt   C.TXT ")). by apply lit_test.
  - apply (bool_decide_unpack _). by vm_compute.
  - reflexivity.
  - by vm_compute.
  - by vm_compute.
  - discriminate.
  - by vm_compute.
  - by vm_compute.
  - by vm_compute.
  - apply (bool_decide_unpack _). by vm_compute.
  - apply Nat.ltb_lt. by vm_compute.
  - rewrite length_replicate. lia.
  - by vm_compute.
  - vm_compute. discriminate.
  - reflexivity.
Defined.

(** A directory with two files, and what the shell prints. *)
#[export] Instance pipes_paths : Paths pipes :=
  { os_query n path len v := (str "A.TXT
B.TXT
", 12, v) }.
Definition prints {A} (m : M pipes A) : option (list Z) :=
  match m (λ _, [], []) with Ok (_, (_, out)) => Some out | _ => None end.
(** [printf] knows no minus: instead of names [ls] prints what is left of the format. *)
Example ls_prints_no_names : prints (do_ls stack (lit "ls") [0] a_shell) = Some (str "  18s  18s
").
Proof. vm_compute. reflexivity. Qed.
(** Text that is piped to [cat] is not read. *)
Example cat_ignores_pipe : prints (do_cat 5 stack (lit "cat") [0]) = Some (str "cat: need filename
").
Proof. vm_compute. reflexivity. Qed.
(** A name of sixty characters leaves no room for the ending. *)
Example exec_overruns : exec_name (replicate 60 97 ++ [0]) (replicate 64 7) = Fault.
Proof. vm_compute. reflexivity. Qed.
(** Nine stages overrun the array of eight. *)
Example stages_overrun : stages 30 (lit "a|b|c|d|e|f|g|h|i") 0 [0] = Fault.
Proof. vm_compute. reflexivity. Qed.
Example write_words : (c ← join_words (str "one" ++ [0] ++ str "two" ++ [0]) [0; 4] (0 :: replicate 511 7); Ok (cstring c)) = Ok (str "one two").
Proof. vm_compute. reflexivity. Qed.
