(* ===== verification/Programs.v ===== *)
(** * Small programs (src/src/userspace.c, the calls of src/src/syscall.h, src/user/cat.c,
    counter.c, crond.c, hello.c, http.c, sysinfo.c, top.c)

    The programs that are linked into the kernel use the calls of syscall.h, the others the
    C library of User.v. All are functions over the system calls; buffers C leaves
    uninitialised are arguments. *)

From S2P Require Import Prelude KString Vga Dmesg Libc User Text Tar Kush.

(** ** Programs in the kernel *)
Definition SYS_WAIT : Z := 16.
Definition SYS_SERIAL : Z := 18.
Definition SYS_EXEC : Z := 19.
Definition SYS_FORK : Z := 20.
Definition SYS_PIPE : Z := 21.
Definition SYS_DUP2 : Z := 22.
Definition SYS_GETCWD : Z := 23.
Definition SYS_CHDIR : Z := 24.
Definition SYS_STAT : Z := 25.
Definition SYS_UNLINK : Z := 26.
Definition SYS_GETPPID : Z := 28.
Definition SYS_ISATTY : Z := 29.
Definition SYS_TCP_CONNECT : Z := 40.
Definition SYS_TCP_SEND : Z := 41.
Definition SYS_TCP_RECV : Z := 42.
Definition SYS_TCP_CLOSE : Z := 43.

Module Ring3.
Section ring3.
Context {W : Type} `{Os W}.

Definition sys_exit (code : Z) : M W unit := call_num SYS_EXIT code 0 0 ;; mret tt.
Definition sys_write (buf : list Z) (len : Z) : M W Z := call_put SYS_WRITE 0 buf len.
Definition sys_read (buf : list Z) (len : Z) : M W (Z * list Z) := call_get SYS_READ 0 buf 0 len.
Definition sys_getpid : M W Z := call_num SYS_GETPID 0 0 0.
Definition sys_sleep (ms : Z) : M W unit := call_num SYS_SLEEP ms 0 0 ;; mret tt.
Definition sys_yield : M W unit := call_num SYS_YIELD 0 0 0 ;; mret tt.
Definition sys_uptime : M W Z := r ← call_num SYS_UPTIME 0 0 0; mret (u32 r).
Definition sys_getkey : M W Z := r ← call_num SYS_GETKEY 0 0 0; mret (u8 r).
Definition sys_putchar (c : Z) : M W unit := call_num SYS_PUTCHAR c 0 0 ;; mret tt.
Definition sys_puts (s : list Z) : M W unit := len ← lift (strlen s); sys_write s len ;; mret tt.
Definition sys_open (name : list Z) : M W Z := call_put SYS_OPEN 0 name 0.
Definition sys_close (fd : Z) : M W Z := call_num SYS_CLOSE fd 0 0.
Definition sys_fread (fd : Z) (buf : list Z) (sz : Z) : M W (Z * list Z) := call_get SYS_FREAD fd buf 0 sz.
Definition sys_fwrite (fd : Z) (buf : list Z) (sz : Z) : M W Z := call_put SYS_FWRITE fd buf sz.
Definition sys_waitpid (pid : Z) : M W Z := call_num SYS_WAITPID pid 0 0.
Definition sys_wait (code : list Z) : M W (Z * list Z) := call_get SYS_WAIT 0 code 0 4.
Definition sys_serial (buf : list Z) (len : Z) : M W unit := call_put SYS_SERIAL 0 buf len ;; mret tt.
Definition sys_exec (path : list Z) : M W Z := call_put SYS_EXEC 0 path 0.
Definition sys_fork : M W Z := call_num SYS_FORK 0 0 0.
Definition sys_pipe (fds : list Z) : M W (Z * list Z) := call_get SYS_PIPE 0 fds 0 8.
Definition sys_dup2 (old nw : Z) : M W Z := call_num SYS_DUP2 old nw 0.
Definition sys_getcwd (buf : list Z) (sz : Z) : M W (Z * list Z) := call_get SYS_GETCWD 0 buf 0 sz.
Definition sys_chdir (path : list Z) : M W Z := call_put SYS_CHDIR 0 path 0.
Definition sys_getppid : M W Z := call_num SYS_GETPPID 0 0 0.
Definition sys_isatty (fd : Z) : M W Z := call_num SYS_ISATTY fd 0 0.
Definition sys_unlink (path : list Z) : M W Z := call_put SYS_UNLINK 0 path 0.

(** [while (p) { pbuf[i--] = '0' + (p % 10); p /= 10; }]: a 32-bit number has ten digits. *)
Fixpoint num_loop (n : nat) (p i : Z) (pbuf : list Z) : res (Z * list Z) :=
  match n with
  | O => Timeout
  | S n' => if p =? 0 then Ok (i, pbuf) else b ← arr_set pbuf i (u8 (48 + Z.rem p 10)); num_loop n' (Z.quot p 10) (i - 1) b
  end.
(** The number, written from the end of the buffer of twelve bytes. *)
Definition number (v : Z) (pbuf : list Z) : res (list Z) :=
  b ← arr_set pbuf 11 0;
  q ← (if v =? 0 then b ← arr_set b 10 48; Ok (9, b) else num_loop 12 v 10 b);
  Ok (drop (Z.to_nat ((q : Z * list Z).1 + 1)) q.2).

Definition uprog_hello (pbuf : list Z) : M W unit :=
  sys_puts (lit "
  *** Hello from ring 3! ***

") ;;
  sys_puts (lit "  This program runs in userspace (CPL=3).
") ;;
  sys_puts (lit "  It can only talk to the kernel via INT 0x80.

") ;;
  sys_puts (lit "  PID:    ") ;;
  pid ← sys_getpid;
  s ← lift (number pid pbuf); sys_puts s ;;
  sys_puts (lit "
") ;;
  sys_puts (lit "  Uptime: ") ;;
  up ← sys_uptime;
  s ← lift (number up pbuf); sys_puts s ;;
  sys_puts (lit "s

") ;;
  sys_puts (lit "  Press any key to exit...
") ;;
  sys_getkey ;;
  sys_exit 0.

(** The turns of a [for] loop: [n] of them from [i] on. *)
Fixpoint turns (n : nat) (i : Z) (body : Z → M W unit) : M W unit :=
  match n with O => mret tt | S n' => body i ;; turns n' (i + 1) body end.
Definition uprog_counter : M W unit :=
  sys_puts (lit "
  Counter (ring 3):
  ") ;;
  turns 10 0 (λ i, sys_putchar (48 + i) ;; sys_putchar 32 ;; sys_sleep 200) ;;
  sys_puts (lit "
  Done!

") ;;
  sys_exit 0.

Definition top_pass (buf : list Z) (pass : Z) : M W unit :=
  sys_puts (lit "  --- pass ") ;;
  sys_putchar (49 + pass) ;;
  sys_puts (lit " ---  uptime: ") ;;
  u ← sys_uptime;
  s ← lift (number u buf); sys_puts s ;;
  sys_puts (lit "s
") ;;
  sys_sleep 1000 ;;
  sys_yield.
Definition uprog_top (buf : list Z) : M W unit :=
  sys_puts (lit "
  [top] Refreshing 5 times (1s interval)...
") ;;
  turns 5 0 (top_pass buf) ;;
  sys_puts (lit "  [top] Done.

") ;;
  sys_exit 0.

Definition uprog_echo (buf : list Z) : M W unit :=
  sys_puts (lit "
  [echo] Type something (ring-3 read via syscall):
  > ") ;;
  r ← sys_read buf 127;
  b ← lift (arr_set r.2 r.1 0);
  sys_puts (lit "  You typed: '") ;;
  sys_puts b ;;
  sys_puts (lit "'

") ;;
  sys_exit 0.

Definition uprog_cat (buf : list Z) : M W unit :=
  sys_puts (lit "
  [cat] Reading README.TXT from disk via syscall...

") ;;
  fd ← sys_open (lit "README.TXT");
  fd ← (if fd =? -1 then sys_open (lit "readme.txt") else mret fd);
  (if fd =? -1 then sys_puts (lit "  File not found.

") ;; sys_exit 1 else mret tt) ;;
  r ← sys_fread fd buf 511;
  (if 0 <? r.1 then b ← lift (arr_set r.2 r.1 0); sys_puts b ;; sys_puts (lit "
") else mret tt) ;;
  sys_close fd ;;
  sys_exit 0.
End ring3.
End Ring3.

(** ** Programs on the C library *)
Section programs.
Context {W : Type} `{Os W} (junk : list Z).
Notation say fmt args := (uprintf junk (lit fmt) args ;; mret tt).
Notation turns := Ring3.turns.

(** cat.c: [buf] is the local buffer of 512 bytes. *)
Definition cat_main (buf : list Z) : M W Z :=
  say "
  [cat] README.TXT from FAT12 disk:

" [] ;;
  fd ← open (lit "README.TXT");
  if fd <? 0 then puts (lit "  File not found.") ;; mret 1
  else
    r ← fread fd buf 0 511;
    (if 0 <? r.1 then b ← lift (arr_set r.2 r.1 0); fputs b ;; mret tt else mret tt) ;;
    close fd ;;
    say "

  (%d bytes read)

" [AInt r.1] ;;
    mret 0.

(** counter.c *)
Definition counter_main : M W Z :=
  say "
  Counting 0-9 with 300ms sleep (libc, ring 3):
  " [] ;;
  turns 10 0 (λ i, say "%d " [AInt i] ;; sleep 300) ;;
  up ← uptime;
  say "
  Done! Uptime: %us

" [AInt up] ;;
  mret 0.

(** The date, as hello.c and sysinfo.c print it; [fmt] is the format. *)
Definition say_date (t fmt : list Z) : M W unit :=
  r ← gettime t;
  if r.1 =? 0 then
    let t := r.2 in
    lo ← lift (arr_get t 6); hi ← lift (arr_get t 7);
    month ← lift (arr_get t 4); day ← lift (arr_get t 3);
    hour ← lift (arr_get t 2); minute ← lift (arr_get t 1); second ← lift (arr_get t 0);
    uprintf junk fmt [AInt (lo + 256 * hi); AInt month; AInt day; AInt hour; AInt minute; AInt second] ;; mret tt
  else mret tt.

(** hello.c *)
Definition hello_main (t : list Z) : M W Z :=
  say "
" [] ;;
  say "  +------------------------------------------+
" [] ;;
  say "  |   Hello from KumOS userspace!            |
" [] ;;
  say "  |   Real ELF binary, ring 3, libc printf   |
" [] ;;
  say "  +------------------------------------------+

" [] ;;
  pid ← getpid; say "  PID:    %d
" [AInt pid] ;;
  up ← uptime; say "  Uptime: %u seconds

" [AInt up] ;;
  say_date t (lit "  Date:   %04d-%02d-%02d  %02d:%02d:%02d

") ;;
  say "  Press any key to exit...
" [] ;;
  getkey ;; mret 0.

(** The lines of a text, each after four blanks: sysinfo.c and top.c. *)
Fixpoint indent_loop (n : nat) (buf : list Z) (p : Z) : M W unit :=
  match n with
  | O => lift Timeout
  | S n' =>
      q ← lift (next_line buf p);
      match q with
      | None => mret tt
      | Some (b, p') => say "    %s
" [AStr (Some (line_at b p))] ;; indent_loop n' b p'
      end
  end.

(** sysinfo.c: the call for a directory is made as [(dirbuf, 512, 0)], but the kernel takes
    the first argument for the path and the second for the buffer. *)
Definition sysinfo_main (t dirbuf : list Z) : M W Z :=
  say "
" [] ;;
  say "  ========== KumOS System Info ==========

" [] ;;
  say "  OS:      KumOS v1.5
" [] ;;
  say "  Arch:    x86 (i686)
" [] ;;
  pid ← getpid; say "  PID:     %d
" [AInt pid] ;;
  up ← uptime; say "  Uptime:  %u seconds
" [AInt up] ;;
  say_date t (lit "  Time:    %04d-%02d-%02d %02d:%02d:%02d
") ;;
  say "
  Listing disk files:
" [] ;;
  n ← call_put 14 512 dirbuf 0;
  (if 0 <? n then b ← lift (arr_set dirbuf n 0); indent_loop (S (length b)) b 0 else mret tt) ;;
  say "
" [] ;;
  mret 0.

(** top.c: [path] is the local buffer of 64 bytes. *)
Definition read_proc (path name buf : list Z) (sz : Z) : M W (Z * list Z) :=
  path ← lift (strcpy path (lit "/proc/")); path ← lift (strcat path name);
  fd ← open_with path O_RDONLY;
  if fd <? 0 then mret (-1, buf)
  else
    r ← fread fd buf 0 (sz - 1);
    close fd ;;
    if 0 <? r.1 then b ← lift (arr_set r.2 r.1 0); mret (r.1, b) else mret r.
Fixpoint top_loop (passes : nat) (path buf : list Z) : M W unit :=
  match passes with
  | O => mret tt
  | S n =>
      puts (lit "  ----------------------------------------") ;;
      up ← uptime; say "  Uptime: %us

" [AInt up] ;;
      r ← read_proc path (lit "meminfo") buf 1024;
      (if 0 <? r.1 then say "  %s" [AStr (Some r.2)] else mret tt) ;;
      puts (lit "
  Processes:
") ;;
      r ← read_proc path (lit "ps") r.2 1024;
      (if 0 <? r.1 then indent_loop (S (length r.2)) r.2 0 else mret tt) ;;
      puts (lit "") ;;
      sleep 1000 ;;
      top_loop n path r.2
  end.
Definition top_main (path buf : list Z) : M W Z :=
  puts (lit "
  top — KumOS process monitor  (5 passes, 1s interval)
") ;;
  top_loop 5 path buf ;; mret 0.

(** http.c *)
Definition sys_tcp_connect (ip port : Z) : M W Z := call_num SYS_TCP_CONNECT ip port 0.
Definition sys_tcp_send (s : Z) (buf : list Z) (len : Z) : M W Z := call_put SYS_TCP_SEND s buf len.
Definition sys_tcp_recv (s : Z) (buf : list Z) (len : Z) : M W (Z * list Z) := call_get SYS_TCP_RECV s buf 0 len.
Definition sys_tcp_close (s : Z) : M W unit := call_num SYS_TCP_CLOSE s 0 0 ;; mret tt.
Fixpoint http_loop (tries : nat) (s : Z) (buf : list Z) (total : Z) : M W Z :=
  match tries with
  | O => mret total
  | S n =>
      r ← sys_tcp_recv s buf 511;
      q ← (if 0 <? r.1 then b ← lift (arr_set r.2 r.1 0); fputs b ;; mret (b, i32 (total + r.1)) else mret (r.2, total));
      sleep 20 ;;
      if (0 <? (q : list Z * Z).2) && (r.1 =? 0) then mret q.2 else http_loop n s q.1 q.2
  end.
Definition request : list Z := str "GET / HTTP/1.0" ++ [13; 10] ++ str "Host: 10.0.2.2" ++ [13; 10; 13; 10; 0].
Definition http_main (buf : list Z) : M W Z :=
  let ip := Z.lor (Z.lor (Z.lor (Z.shiftl 10 24) (Z.shiftl 0 16)) (Z.shiftl 2 8)) 2 in
  say "
  http — KumOS HTTP client
" [] ;;
  say "  Connecting to %u.%u.%u.%u:%u...
" [AInt (Z.land (Z.shiftr ip 24) 255); AInt (Z.land (Z.shiftr ip 16) 255); AInt (Z.land (Z.shiftr ip 8) 255); AInt (Z.land ip 255); AInt 80] ;;
  s ← sys_tcp_connect ip 80;
  if s <? 0 then
    puts (lit "  Connection failed.") ;;
    puts (lit "  (Start a server: python3 -m http.server 80)") ;;
    mret 1
  else
    puts (lit "  Connected!") ;;
    n ← lift (strlen request);
    sys_tcp_send s request (u16 n) ;;
    puts (lit "  Response:
") ;;
    total ← http_loop 100 s buf 0;
    say "
  Received %d bytes.

" [AInt total] ;;
    sys_tcp_close s ;;
    mret 0.

(** ** crond.c *)
Definition CRON_MAX : Z := 8.
Definition CRON_CMD : Z := 64.
Record cron_job := mkJob { interval_sec : Z; last_run : Z; cron_cmd : list Z; active : bool }.
(** [jobs] is the table up to [njobs]; the command of a new entry is copied into zeros. *)
Definition cron_add (interval : Z) (cmd : list Z) (jobs : list cron_job) : M W (list cron_job) :=
  if CRON_MAX <=? Z.of_nat (length jobs) then mret jobs
  else
    now ← uptime;
    c ← lift (strncpy (replicate 64 0) cmd 63);
    mret (jobs ++ [mkJob interval now c true]).
(** The name of the program is made as in kush.c. *)
Definition run_cmd (cmd upper : list Z) : M W unit := u ← lift (exec_name cmd upper); sys_exec u ;; mret tt.
Fixpoint run_jobs (upper : list Z) (now : Z) (jobs : list cron_job) : M W (list cron_job) :=
  match jobs with
  | [] => mret []
  | j :: js =>
      j ← (if negb (active j) then mret j
           else if interval_sec j <=? u32 (now - last_run j) then
             say "[crond] Running: %s
" [AStr (Some (cron_cmd j))] ;;
             run_cmd (cron_cmd j) upper ;;
             mret (mkJob (interval_sec j) now (cron_cmd j) true)
           else mret j);
      js ← run_jobs upper now js; mret (j :: js)
  end.
(** The loop never ends; [n] turns of it. *)
Fixpoint crond_loop (n : nat) (upper : list Z) (jobs : list cron_job) : M W (list cron_job) :=
  match n with
  | O => mret jobs
  | S n' => now ← uptime; jobs ← run_jobs upper now jobs; sleep 1000 ;; crond_loop n' upper jobs
  end.
Definition crond_main (n : nat) (upper : list Z) : M W (list cron_job) :=
  say "
  crond — KumOS cron daemon
" [] ;;
  pid ← getpid; say "  PID: %d

" [AInt pid] ;;
  jobs ← cron_add 10 (lit "sysinfo") [];
  say "  Job 1: sysinfo every 10s

" [] ;;
  pid ← getpid; say "  Running... (type Ctrl+C or kill %d to stop)

" [AInt pid] ;;
  crond_loop n upper jobs.
End programs.

(** ** Numbers *)
Import Ring3.

Lemma num_loop_S n p i b : num_loop (S n) p i b =
  if p =? 0 then Ok (i, b) else b ← arr_set b i (u8 (48 + Z.rem p 10)); num_loop n (Z.quot p 10) (i - 1) b.
Proof. done. Qed.
Lemma num_loop_spec n p old post : 0 ≤ p < 10 ^ Z.of_nat n → (n ≤ length old)%nat →
  ∃ a ds, num_loop (S n) p (Z.of_nat (length old) - 1) (old ++ post) = Ok (Z.of_nat (length a) - 1, a ++ ds ++ post) ∧
    (length a + length ds)%nat = length old ∧ Forall (λ c, 48 ≤ c ≤ 57) ds ∧ num_value 10 ds = p ∧ (p = 0 → ds = []) ∧ (0 < p → head ds ≠ Some 48).
Proof.
  revert p old post. induction n as [|n IH]; intros p old post Hp Hn; rewrite num_loop_S; destruct (Z.eqb_spec p 0) as [->|Hne].
  1, 3: exists old, []; cbn; split_and!; try done; lia.
  { cbn in Hp. lia. }
  destruct old as [|x old] using rev_ind; [cbn in Hn; lia|]. clear IHold. rewrite length_app in *. cbn [length] in *.
  rewrite <- app_assoc. cbn [app]. replace (Z.of_nat (length old + 1) - 1) with (Z.of_nat (length old)) by lia. rewrite arr_set_app. cbn [mbind res_bind].
  rewrite Z.rem_mod_nonneg, Z.quot_div_nonneg by lia. pose proof (Z.mod_pos_bound p 10). pose proof (Z.div_mod p 10). rewrite u8_small by lia.
  destruct (IH (p / 10) old (48 + p mod 10 :: post)) as (a & ds & -> & Hl & Hd & Hv & Hz & Hh).
  { rewrite Nat2Z.inj_succ, Z.pow_succ_r in Hp by lia. split; [apply Z.div_pos; lia|apply Z.div_lt_upper_bound; lia]. } { lia. }
  exists a, (ds ++ [48 + p mod 10]). rewrite <- app_assoc. split; [done|]. rewrite length_app. cbn [length].
  split; [lia|]. split; [apply Forall_app; split; [done|constructor; [lia|constructor]]|].
  split; [rewrite num_value_snoc, Hv; unfold digit_value; rewrite (proj2 (Z.ltb_lt _ _)) by lia; lia|].
  split; [done|]. intros _. destruct (Z.eq_dec (p / 10) 0) as [E|E]; [rewrite (Hz E); cbn; intros [= ?]; lia|].
  destruct ds as [|d ds]; [by unfold num_value in Hv|]. cbn in *. apply Hh. lia.
Qed.

(** The program text handed to [sys_puts] is the decimal numeral of the number, without
    leading zeros and within the buffer of twelve bytes. *)
Lemma number_decimal v pbuf : 0 ≤ v < 2 ^ 32 → length pbuf = 12%nat →
  ∃ s t, number v pbuf = Ok s ∧ cstr s t ∧ num_value 10 t = v ∧ Forall (λ c, 48 ≤ c ≤ 57) t ∧ (0 < v → head t ≠ Some 48).
Proof.
  intros Hv Hl. destruct pbuf as [|x pbuf] using rev_ind; [done|]. clear IHpbuf. rewrite length_app in Hl. cbn in Hl. assert (length pbuf = 11%nat) as L by lia.
  unfold number. replace 11 with (Z.of_nat (length pbuf)) by lia. rewrite arr_set_app. cbn [mbind res_bind].
  destruct (Z.eqb_spec v 0) as [->|Hne].
  - destruct pbuf as [|y pbuf] using rev_ind; [done|]. clear IHpbuf. rewrite length_app in L. cbn in L. rewrite <- app_assoc. cbn [app].
    replace 10 with (Z.of_nat (length pbuf)) by lia. rewrite arr_set_app. cbn [mbind res_bind fst snd]. change (Z.to_nat (9 + 1)) with 10%nat.
    rewrite drop_app_length' by lia. exists [48; 0], [48]. split_and!; [done|by exists []; split; [done|repeat constructor]|done|by repeat constructor|lia].
  - pose proof (num_loop_spec 11 v pbuf [0] ltac:(lia) ltac:(lia)) as (a & ds & E & Hlen & Hd & Hval & _ & Hh). rewrite L in E. change (Z.of_nat 11 - 1) with 10 in E.
    rewrite E. cbn [mbind res_bind fst snd]. replace (Z.to_nat (Z.of_nat (length a) - 1 + 1)) with (length a) by lia. rewrite drop_app_length.
    exists (ds ++ [0]), ds. split_and!; [done| |done|done|apply Hh]. exists []. split; [done|]. eapply Forall_impl; [exact Hd|]. cbn. lia.
Qed.

(** A negative number is printed as the characters below the digits. *)
Example number_negative : number (-1) (replicate 12 7) = Ok [47; 0].
Proof. vm_compute. reflexivity. Qed.
Example cron_program : (u ← exec_name (lit "sysinfo") (replicate 64 7); Ok (cstring u)) = Ok (str "SYSINFO.ELF").
Proof. vm_compute. reflexivity. Qed.
