(* ===== verification/Vi.v ===== *)
(** * The screen editor (src/user/vi.c)

    The text is a table of 512 rows of 256 bytes. [normal_key], [insert_key] and [vi_key] are
    the handlers of a key in each mode; [draw_screen] prints the state, [vi_loop] is the main
    loop. Typing in insert mode is proved to edit a list of lines at the cursor. *)

From S2P Require Import Prelude KString Vga Dmesg Libc User Text Ed Tar.

Definition LINES_MAX : Z := 512.
Definition LINE_LEN : Z := 256.
Definition ESC : Z := 27.
Definition rows : Z := 22.
Definition cols : Z := 78.
Inductive mode_t := MODE_NORMAL | MODE_INSERT | MODE_CMD.

Record vi := mkVi {
  text : list (list Z); nlines : Z; cy : Z; cx : Z; topline : Z; fname : list Z; modified : bool;
  mode : mode_t; status : list Z; cmdbuf : list Z; cmdpos : Z
}.
Definition set_text (t : list (list Z)) (n : Z) (v : vi) : vi :=
  mkVi t n (cy v) (cx v) (topline v) (fname v) true (mode v) (status v) (cmdbuf v) (cmdpos v).
Definition set_cursor (y x : Z) (v : vi) : vi :=
  mkVi (text v) (nlines v) y x (topline v) (fname v) (modified v) (mode v) (status v) (cmdbuf v) (cmdpos v).
Definition set_topline (t : Z) (v : vi) : vi :=
  mkVi (text v) (nlines v) (cy v) (cx v) t (fname v) (modified v) (mode v) (status v) (cmdbuf v) (cmdpos v).
Definition set_modified (m : bool) (v : vi) : vi :=
  mkVi (text v) (nlines v) (cy v) (cx v) (topline v) (fname v) m (mode v) (status v) (cmdbuf v) (cmdpos v).
Definition set_mode (m : mode_t) (v : vi) : vi :=
  mkVi (text v) (nlines v) (cy v) (cx v) (topline v) (fname v) (modified v) m (status v) (cmdbuf v) (cmdpos v).
Definition with_status (s : list Z) (v : vi) : vi :=
  mkVi (text v) (nlines v) (cy v) (cx v) (topline v) (fname v) (modified v) (mode v) s (cmdbuf v) (cmdpos v).
Definition set_cmd (b : list Z) (p : Z) (v : vi) : vi :=
  mkVi (text v) (nlines v) (cy v) (cx v) (topline v) (fname v) (modified v) (mode v) (status v) b p.

(** ** Edits *)
Definition set_status (s : list Z) (v : vi) : res vi := b ← strncpy (status v) s 127; Ok (with_status b v).
(** [memmove] with a size in [size_t]: a negative one is nearly 4 GB, beyond any object. *)
Definition move_bytes (b : list Z) (d s n : Z) : res (list Z) := if n <? 0 then Fault else memmove b d s (Z.to_nat n).

Definition insert_char (c : Z) (v : vi) : res vi :=
  if LINES_MAX <=? cy v then Ok v
  else
    line ← arr_get (text v) (cy v);
    len ← strlen line;
    if LINE_LEN - 1 <=? len then Ok v
    else
      line ← move_bytes line (cx v + 1) (cx v) (len - cx v + 1);
      line ← arr_set line (cx v) c;
      t ← arr_set (text v) (cy v) line;
      Ok (set_cursor (cy v) (cx v + 1) (set_text t (nlines v) v)).

Definition delete_char (v : vi) : res vi :=
  line ← arr_get (text v) (cy v);
  len ← strlen line;
  if len <=? cx v then Ok v
  else
    line ← move_bytes line (cx v) (cx v + 1) (len - cx v);
    t ← arr_set (text v) (cy v) line;
    Ok (set_text t (nlines v) v).

(** [text[y][x] = 0] *)
Definition end_row (y x : Z) (t : list (list Z)) : res (list (list Z)) := r ← arr_get t y; r ← arr_set r x 0; arr_set t y r.

Definition new_line_below (v : vi) : res vi :=
  if LINES_MAX <=? nlines v then Ok v
  else
    t ← shift_down (Z.to_nat (nlines v - (cy v + 1))) (nlines v) (text v);
    t ← end_row (cy v + 1) 0 t;
    Ok (set_cursor (cy v + 1) 0 (set_text t (nlines v + 1) v)).

Definition join_lines (v : vi) : res vi :=
  if nlines v - 1 <=? cy v then Ok v
  else
    r ← arr_get (text v) (cy v); len ← strlen r;
    next ← arr_get (text v) (cy v + 1);
    r ← (if LINE_LEN - len - 1 <? 0 then Fault else strncat r next (Z.to_nat (LINE_LEN - len - 1)));
    t ← arr_set (text v) (cy v) r;
    t ← shift_up (Z.to_nat (nlines v - 1 - (cy v + 1))) (cy v + 1) t;
    t ← end_row (nlines v - 1) 0 t;
    Ok (set_text t (nlines v - 1) v).

Definition clamp_cursor (v : vi) : res vi :=
  let y := if cy v <? 0 then 0 else cy v in
  let y := if nlines v <=? y then nlines v - 1 else y in
  r ← arr_get (text v) y; len ← strlen r;
  let x := if cx v <? 0 then 0 else cx v in
  let x := match mode v with MODE_NORMAL => if (len - 1 <? x) && (0 <? len) then len - 1 else x | _ => x end in
  let x := if x <? 0 then 0 else x in
  let top := if y <? topline v then y else topline v in
  let top := if top <? y - rows + 1 then y - rows + 1 else top in
  let top := if top <? 0 then 0 else top in
  Ok (set_topline top (set_cursor y x v)).

(** ** Keys *)

(** The blank line above the cursor. *)
Definition open_above (v : vi) : res vi :=
  if nlines v <? LINES_MAX then
    t ← shift_down (Z.to_nat (nlines v - cy v)) (nlines v) (text v);
    t ← end_row (cy v) 0 t;
    Ok (set_mode MODE_INSERT (set_cursor (cy v) 0 (set_text t (nlines v + 1) v)))
  else Ok v.
Definition command_mode (v : vi) : res vi := b ← arr_set (cmdbuf v) 0 0; Ok (set_mode MODE_CMD (set_cmd b 0 v)).
Definition normal_key (k : Z) (v : vi) : res vi :=
  r ← arr_get (text v) (cy v); len ← strlen r;
  v ← (if k =? 104 then Ok (set_cursor (cy v) (cx v - 1) v)
       else if k =? 108 then Ok (set_cursor (cy v) (cx v + 1) v)
       else if k =? 106 then Ok (set_cursor (cy v + 1) (cx v) v)
       else if k =? 107 then Ok (set_cursor (cy v - 1) (cx v) v)
       else if k =? 48 then Ok (set_cursor (cy v) 0 v)
       else if k =? 36 then Ok (set_cursor (cy v) (if 0 <? len then len - 1 else 0) v)
       else if k =? 103 then Ok (set_cursor 0 0 v)
       else if k =? 71 then Ok (set_cursor (nlines v - 1) 0 v)
       else if k =? 105 then Ok (set_mode MODE_INSERT v)
       else if k =? 97 then Ok (set_mode MODE_INSERT (set_cursor (cy v) (if cx v <? len then cx v + 1 else cx v) v))
       else if k =? 65 then Ok (set_mode MODE_INSERT (set_cursor (cy v) len v))
       else if k =? 111 then v ← new_line_below v; Ok (set_mode MODE_INSERT v)
       else if k =? 79 then open_above v
       else if k =? 120 then delete_char v
       else if k =? 100 then join_lines v
       else if k =? 68 then t ← end_row (cy v) (cx v) (text v); Ok (set_text t (nlines v) v)
       else if k =? 58 then command_mode v
       else if k =? 47 then v ← command_mode v; set_status (lit "Search not implemented") v
       else Ok v);
  clamp_cursor v.

(** [rest] is the uninitialised local buffer of 256 bytes. *)
Definition split_row (rest : list Z) (v : vi) : res vi :=
  r ← arr_get (text v) (cy v);
  rest ← strcpy rest (drop (Z.to_nat (cx v)) r);
  t ← end_row (cy v) (cx v) (text v);
  t ← shift_down (Z.to_nat (nlines v - (cy v + 1))) (nlines v) t;
  d ← arr_get t (cy v + 1); d ← strcpy d rest; t ← arr_set t (cy v + 1) d;
  Ok (set_cursor (cy v + 1) 0 (set_text t (nlines v + 1) v)).
Definition backspace (v : vi) : res vi :=
  if 0 <? cx v then delete_char (set_cursor (cy v) (cx v - 1) v)
  else if 0 <? cy v then
    r ← arr_get (text v) (cy v - 1); pl ← strlen r;
    v ← join_lines v;
    Ok (set_cursor (cy v - 1) pl v)
  else Ok v.
Definition insert_key (rest : list Z) (k : Z) (v : vi) : res vi :=
  if k =? ESC then
    let v := set_mode MODE_NORMAL v in
    clamp_cursor (set_cursor (cy v) (if 0 <? cx v then cx v - 1 else cx v) v)
  else if (k =? 10) || (k =? 13) then if nlines v <? LINES_MAX then split_row rest v else Ok v
  else if (k =? 127) || (k =? 8) then backspace v
  else if (32 <=? k) && (k <? 127) then insert_char k v
  else Ok v.

(** ** Files *)
Section program.
Context {W : Type} `{Os W}.
(** The buffers of [printf] and [snprintf], and the local ones. *)
Context (junk bar buf sbuf rest : list Z).
Notation say fmt args := (uprintf junk fmt args ;; mret tt).

Fixpoint load_loop (room : nat) (b : list Z) (p : Z) (t : list (list Z)) (n : Z) : res (list (list Z) * Z) :=
  match room with
  | O => Ok (t, n)
  | S r =>
      q ← next_line b p;
      match q with
      | None => Ok (t, n)
      | Some (b, p') => t ← put_line n (line_at b p) t; load_loop r b p' t (n + 1)
      end
  end.
Definition one_line (t : list (list Z)) (v : vi) : res vi :=
  t ← end_row 0 0 t;
  Ok (mkVi t 1 (cy v) (cx v) (topline v) (fname v) (modified v) (mode v) (status v) (cmdbuf v) (cmdpos v)).
(** [buf] is the local buffer of 32768 bytes. *)
Definition load_file (fn : list Z) (v : vi) : M W vi :=
  fd ← open fn;
  if fd <? 0 then lift (one_line (text v) v)
  else
    r ← fread fd buf 0 32767;
    close fd ;;
    let n := if r.1 <? 0 then 0 else r.1 in
    b ← lift (arr_set r.2 n 0);
    q ← lift (load_loop 512 b 0 (text v) 0);
    v ← lift (if (q : list (list Z) * Z).2 =? 0 then one_line q.1 v
              else Ok (mkVi q.1 q.2 (cy v) (cx v) (topline v) (fname v) (modified v) (mode v) (status v) (cmdbuf v) (cmdpos v)));
    s ← lift (snprintf junk (status v) 127 ([34] ++ str "%s" ++ [34] ++ lit " %d lines") [AStr (Some fn); AInt (nlines v)]);
    mret (with_status (s : list Z * Z).1 v).

(** [sbuf] is the local buffer of 512 rows. *)
Definition save_file (fn : list Z) (v : vi) : M W vi :=
  p ← lift (save_lines (Z.to_nat (nlines v)) 0 (text v) sbuf 0);
  fd ← open_with fn WRITE_FLAGS;
  if fd <? 0 then lift (set_status (lit "E: can't write") v)
  else
    fwrite fd (p : list Z * Z).1 p.2 ;;
    close fd ;;
    s ← lift (snprintf junk (status v) 127 (lit "Written: %s (%d lines)") [AStr (Some fn); AInt (nlines v)]);
    mret (with_status (s : list Z * Z).1 (set_modified false v)).

(** ** Commands after the colon: whether the program ends *)
Notation typed c s := (lift (d ← strcmp c (lit s); Ok (d =? 0))).
Definition handle_cmd (v : vi) : M W (bool * vi) :=
  let c := cmdbuf v in
  t ← typed c "q";
  if t : bool then if modified v then v ← lift (set_status (lit "Unsaved! Use :q!") v); mret (false, v) else mret (true, v) else
  t ← typed c "q!"; if t : bool then mret (true, v) else
  t1 ← typed c "w"; t2 ← typed c "w!"; if (t1 || t2 : bool) then v ← save_file (fname v) v; mret (false, v) else
  t1 ← typed c "wq"; t2 ← typed c "wq!"; if (t1 || t2 : bool) then v ← save_file (fname v) v; mret (true, v) else
  sp ← lift (strchr c 32);
  c0 ← lift (arr_get c 0);
  match (if c0 =? 119 then sp else None) with
  | Some k => v ← save_file (drop (Z.to_nat (k + 1)) c) v; mret (false, v)
  | None =>
      lno ← lift (atoi c);
      if 0 <? lno then v ← lift (clamp_cursor (set_cursor (lno - 1) (cx v) v)); mret (false, v)
      else v ← lift (set_status (lit "Unknown command") v); mret (false, v)
  end.

(** ** The screen *)
Definition esc (s : list Z) : list Z := 27 :: s.
Definition screen_clear : M W unit := fputs (esc (str "[2J" ++ esc (lit "[H"))) ;; mret tt.
Definition move_to (r c : Z) : M W unit := say (esc (lit "[%d;%dH")) [AInt (r + 1); AInt (c + 1)].
Definition attr_reverse : M W unit := fputs (esc (lit "[7m")) ;; mret tt.
Definition attr_reset : M W unit := fputs (esc (lit "[0m")) ;; mret tt.

(** [for (j = 0; j < len; j++) putchar(s[j]);] *)
Fixpoint put_chars (s : list Z) : M W unit := match s with [] => mret tt | c :: s' => putchar c ;; put_chars s' end.
Fixpoint draw_rows (n : nat) (i : Z) (v : vi) : M W unit :=
  match n with
  | O => mret tt
  | S n' =>
      move_to i 0 ;;
      let ln := topline v + i in
      (if ln <? nlines v then
         r ← lift (arr_get (text v) ln); len ← lift (strlen r);
         put_chars (take (Z.to_nat (if cols <? len then cols else len)) r)
       else putchar 126) ;;
      draw_rows n' (i + 1) v
  end.
Definition mode_name (m : mode_t) : list Z :=
  match m with MODE_INSERT => lit "-- INSERT --" | MODE_CMD => lit "-- COMMAND --" | MODE_NORMAL => lit "" end.
Definition draw_screen (v : vi) : M W vi :=
  screen_clear ;;
  draw_rows (Z.to_nat rows) 0 v ;;
  move_to rows 0 ;;
  attr_reverse ;;
  f0 ← lift (arr_get (fname v) 0);
  b ← lift (snprintf junk bar 127 (lit " %s  %s  L%d/%d  C%d  %s")
        [AStr (Some (if f0 =? 0 then lit "[No Name]" else fname v)); AStr (Some (if modified v then lit "[+]" else lit ""));
         AInt (cy v + 1); AInt (nlines v); AInt (cx v + 1); AStr (Some (mode_name (mode v)))]);
  let b := (b : list Z * Z).1 in
  blen ← lift (strlen b);
  fputs b ;;
  put_chars (replicate (Z.to_nat (cols + 2 - blen)) 32) ;;
  attr_reset ;;
  s0 ← lift (arr_get (status v) 0);
  v ← (match mode v with
       | MODE_CMD => move_to (rows + 1) 0 ;; putchar 58 ;; fputs (cmdbuf v) ;; mret v
       | _ => if s0 =? 0 then mret v
              else move_to (rows + 1) 0 ;; fputs (status v) ;; s ← lift (arr_set (status v) 0 0); mret (with_status s v)
       end);
  move_to (cy v - topline v) (cx v) ;;
  mret v.

(** ** The main loop *)
Definition vi_key (k : Z) (v : vi) : M W (bool * vi) :=
  match mode v with
  | MODE_NORMAL => v ← lift (normal_key k v); mret (false, v)
  | MODE_INSERT => v ← lift (insert_key rest k v); mret (false, v)
  | MODE_CMD =>
      if k =? ESC then mret (false, set_mode MODE_NORMAL v)
      else if (k =? 10) || (k =? 13) then handle_cmd (set_mode MODE_NORMAL v)
      else if ((k =? 127) || (k =? 8)) && (0 <? cmdpos v) then
        b ← lift (arr_set (cmdbuf v) (cmdpos v - 1) 0); mret (false, set_cmd b (cmdpos v - 1) v)
      else if (32 <=? k) && (k <? 127) && (cmdpos v <? 126) then
        b ← lift (arr_set (cmdbuf v) (cmdpos v) k); b ← lift (arr_set b (cmdpos v + 1) 0);
        mret (false, set_cmd b (cmdpos v + 1) v)
      else mret (false, v)
  end.
Fixpoint vi_loop (turns : nat) (v : vi) : M W vi :=
  match turns with
  | O => lift Timeout
  | S t =>
      v ← lift (clamp_cursor v);
      v ← draw_screen v;
      k ← getkey;
      q ← vi_key k v;
      if (q : bool * vi).1 then mret q.2 else vi_loop t q.2
  end.
Definition no_text : list (list Z) := replicate 512 (replicate 256 0).
Definition vi_main (turns : nat) (args : list Z) : M W Z :=
  args ← read_args args 63;
  fn ← lift (strncpy (replicate 64 0) args 63);
  let v := mkVi no_text 0 0 0 0 fn false MODE_NORMAL (replicate 128 0) (replicate 128 0) 0 in
  f0 ← lift (arr_get fn 0);
  v ← (if f0 =? 0 then lift (one_line no_text v) else load_file fn v);
  vi_loop turns v ;;
  screen_clear ;; move_to 0 0 ;; mret 0.
End program.

(** ** Typing

    The table holds the lines of [L], and the cursor is at a character of one of them, or
    behind its last. *)
Record vi_rep (v : vi) (L : list (list Z)) : Prop := {
  vi_table : length (text v) = 512%nat;
  vi_rows : rows_ok (text v);
  vi_count : nlines v = Z.of_nat (length L) ∧ (length L ≤ 512)%nat;
  vi_lines : ∀ i l, L !! i = Some l → ∃ r, text v !! i = Some r ∧ cstr r l
}.
Definition cursor_at (v : vi) (L : list (list Z)) (i j : nat) : Prop :=
  cy v = Z.of_nat i ∧ cx v = Z.of_nat j ∧ ∃ l, L !! i = Some l ∧ (j ≤ length l)%nat.

(** A row with a character more, and one with a character less. *)
Lemma insert_in_row r l j c : length r = 256%nat → cstr r l → (j ≤ length l)%nat → (length l < 255)%nat → c ≠ 0 →
  ∃ r1 r2, move_bytes r (Z.of_nat j + 1) (Z.of_nat j) (Z.of_nat (length l) - Z.of_nat j + 1) = Ok r1 ∧ arr_set r1 (Z.of_nat j) c = Ok r2 ∧
    cstr r2 (take j l ++ c :: drop j l) ∧ length r2 = 256%nat.
Proof.
  intros Hr (rs & -> & Hz) Hj Hl Hc. unfold move_bytes. rewrite length_app in Hr. cbn in Hr.
  rewrite (proj2 (Z.ltb_ge _ _)) by lia. replace (Z.to_nat _) with (S (length l - j)) by lia. replace (Z.of_nat j + 1) with (Z.of_nat (S j)) by lia.
  rewrite memmove_correct by (rewrite length_app; cbn; lia).
  assert (take j (l ++ 0 :: rs) = take j l) as Et by (by rewrite take_app_le).
  assert (take (S (length l - j)) (drop j (l ++ 0 :: rs)) = drop j l ++ [0]) as Em.
  { rewrite drop_app_le, take_app_ge by (rewrite ?length_drop; lia). rewrite length_drop. by replace (S (length l - j) - (length l - j))%nat with 1%nat by lia. }
  destruct (lookup_lt_is_Some_2 (l ++ 0 :: rs) j) as [x Hx]; [rewrite length_app; cbn; lia|].
  rewrite (take_S_r _ _ x Hx), Et, Em, <- !app_assoc. cbn [app]. set (tail := drop (S j + S (length l - j)) (l ++ 0 :: rs)).
  assert (length (take j l) = j) as Lt by (rewrite length_take; lia).
  pose proof (arr_set_app (take j l) x c (drop j l ++ 0 :: tail)) as Es. rewrite Lt in Es.
  exists (take j l ++ x :: drop j l ++ 0 :: tail), (take j l ++ c :: drop j l ++ 0 :: tail). split; [done|]. split; [exact Es|]. split.
  - exists tail. rewrite <- app_assoc. split; [done|]. apply Forall_app. split; [by apply Forall_take|]. constructor; [done|by apply Forall_drop].
  - rewrite length_app, Lt. cbn. rewrite length_app, length_drop. cbn. unfold tail. rewrite length_drop, length_app. cbn. lia.
Qed.
Lemma delete_in_row r l j : length r = 256%nat → cstr r l → (j < length l)%nat →
  ∃ r1, move_bytes r (Z.of_nat j) (Z.of_nat j + 1) (Z.of_nat (length l) - Z.of_nat j) = Ok r1 ∧ cstr r1 (delete j l) ∧ length r1 = 256%nat.
Proof.
  intros Hr (rs & -> & Hz) Hj. unfold move_bytes. rewrite length_app in Hr. cbn in Hr.
  rewrite (proj2 (Z.ltb_ge _ _)) by lia. replace (Z.to_nat _) with (length l - j)%nat by lia. replace (Z.of_nat j + 1) with (Z.of_nat (S j)) by lia.
  rewrite memmove_correct by (rewrite length_app; cbn; lia).
  rewrite take_app_le, drop_app_le, take_app_ge by (rewrite ?length_drop; lia). rewrite length_drop. replace (length l - j - (length l - S j))%nat with 1%nat by lia.
  cbn [take]. rewrite <- app_assoc, (app_assoc (take j l)), <- delete_take_drop. cbn [app]. eexists. split; [done|]. split.
  - eexists. split; [done|]. rewrite delete_take_drop. apply Forall_app. split; [by apply Forall_take|by apply Forall_drop].
  - rewrite length_app, length_delete by (by apply lookup_lt_is_Some). cbn [take app length]. rewrite length_app, take_0, length_drop, length_app. cbn. lia.
Qed.

(** A state with the line at [i] replaced. *)
Lemma vi_rep_insert v L i r l n y x : vi_rep v L → (i < length L)%nat → length r = 256%nat → cstr r l → n = nlines v →
  vi_rep (set_cursor y x (set_text (<[i := r]> (text v)) n v)) (<[i := l]> L).
Proof.
  intros [Ht Hr [Hn Hm] Hl] Hi Lr Hc ->. split; cbn.
  - by rewrite length_insert.
  - by apply rows_insert.
  - by rewrite length_insert.
  - intros k t [(<- & <- & _)|[Hne Hk]]%list_lookup_insert_Some; [rewrite list_lookup_insert_eq by lia; by exists r|].
    rewrite list_lookup_insert_ne by done. by apply Hl.
Qed.

(** What a key of insert mode does to the lines and the cursor, the flag telling whether
    insert mode goes on. A backspace at the beginning of a line appends the line behind it,
    as far as a row goes, to the line and moves the cursor to the end of the line before. *)
Definition join_at (i : nat) (L : list (list Z)) : list (list Z) :=
  match L !! i, L !! S i with
  | Some l, Some nx => take i L ++ take 255 (l ++ nx) :: drop (S (S i)) L
  | _, _ => L
  end.
Definition edit : Type := list (list Z) * nat * nat * bool.
Definition spec_key (k : Z) (s : edit) : edit :=
  let '(L, i, j, _) := s in
  let l := L !!! i in
  if decide (k = 27) then (L, i, pred j, false)
  else if decide (k = 10 ∨ k = 13) then
    if decide (length L < 512)%nat then (take i L ++ take j l :: drop j l :: drop (S i) L, S i, 0%nat, true) else s
  else if decide (k = 127 ∨ k = 8) then
    match j, i with
    | S j', _ => (<[i := delete j' l]> L, i, j', true)
    | O, O => s
    | O, S i' => (join_at i L, i', length (L !!! i'), true)
    end
  else if decide (32 ≤ k < 127) then
    if decide (length l < 255)%nat then (<[i := take j l ++ k :: drop j l]> L, i, S j, true) else s
  else s.
Fixpoint spec_keys (ks : list Z) (s : edit) : edit :=
  match ks with [] => s | k :: ks' => if s.2 : bool then spec_keys ks' (spec_key k s) else s end.
(** The turns of the main loop without the screen, as long as insert mode lasts. *)
Fixpoint type_keys (rest : list Z) (ks : list Z) (v : vi) : res vi :=
  match ks with
  | [] => Ok v
  | k :: ks' =>
      match mode v with
      | MODE_INSERT => v ← clamp_cursor v; v ← insert_key rest k v; type_keys rest ks' v
      | _ => Ok v
      end
  end.

Definition typing (v : vi) (s : edit) : Prop :=
  let '(L, i, j, ins) := s in
  vi_rep v L ∧ cursor_at v L i j ∧ mode v = (if ins : bool then MODE_INSERT else MODE_NORMAL).

Lemma cursor_row v L i j : vi_rep v L → cursor_at v L i j →
  ∃ r l, L !! i = Some l ∧ (j ≤ length l)%nat ∧ arr_get (text v) (cy v) = Ok r ∧ cstr r l ∧ length r = 256%nat ∧ (i < length L)%nat ∧
    strlen r = Ok (Z.of_nat (length l)).
Proof.
  intros [Ht Hr [Hn Hm] Hl] (Hy & Hx & l & Hi & Hj). destruct (Hl _ _ Hi) as (r & Er & Hc). exists r, l.
  split_and!; [done|done|rewrite Hy; by apply arr_get_nat|done|by eapply Hr|by apply lookup_lt_Some in Hi|by apply kstrlen_cstr].
Qed.

Lemma clamp_typing v L i j : typing v (L, i, j, true) → ∃ v', clamp_cursor v = Ok v' ∧ typing v' (L, i, j, true).
Proof.
  intros (Hrep & Hcur & Hmode). destruct (cursor_row _ _ _ _ Hrep Hcur) as (r & l & Hi & Hj & Er & Hc & Lr & Hlt & El).
  destruct Hcur as (Hy & Hx & _). unfold clamp_cursor. destruct Hrep as [Ht Hr [Hn Hm] Hl].
  rewrite (proj2 (Z.ltb_ge (cy v) 0)), Hn, (proj2 (Z.leb_gt _ (cy v))) by lia. rewrite Er. cbn [mbind res_bind]. rewrite El. cbn [mbind res_bind].
  rewrite Hmode, (proj2 (Z.ltb_ge (cx v) 0)) by lia. eexists. split; [done|]. split; [by split|]. split; [|done]. split; [done|]. rewrite (proj2 (Z.ltb_ge (cx v) 0)) by lia. split; [done|]. by exists l.
Qed.

Lemma type_char v L i j k : typing v (L, i, j, true) → 32 ≤ k < 127 →
  ∃ v', insert_char k v = Ok v' ∧ ∃ l, L !! i = Some l ∧ typing v' (if decide (length l < 255)%nat then (<[i := take j l ++ k :: drop j l]> L, i, S j, true) else (L, i, j, true)).
Proof.
  intros (Hrep & Hcur & Hmode) Hk. destruct (cursor_row _ _ _ _ Hrep Hcur) as (r & l & Hi & Hj & Er & Hc & Lr & Hlt & El).
  pose proof Hcur as (Hy & Hx & _). pose proof Hrep as [Ht Hr [Hn Hm] Hl]. unfold insert_char. rewrite (proj2 (Z.leb_gt _ _)) by (unfold LINES_MAX; lia).
  rewrite Er. cbn [mbind res_bind]. rewrite El. cbn [mbind res_bind]. unfold LINE_LEN. destruct (decide (length l < 255)%nat) as [Hroom|Hfull].
  - rewrite (proj2 (Z.leb_gt _ _)) by lia. destruct (insert_in_row r l j k) as (r1 & r2 & E1 & E2 & Hc2 & L2); [done|done|done|done|lia|].
    rewrite Hx, E1. cbn [mbind res_bind]. rewrite E2. cbn [mbind res_bind]. rewrite Hy, arr_set_in by lia. cbn [mbind res_bind]. rewrite Nat2Z.id.
    eexists. split; [done|]. exists l. split; [done|]. rewrite decide_True by done. split; [by apply vi_rep_insert|]. split; [|done].
    split; [done|]. split; [cbn; lia|]. eexists. split; [by apply list_lookup_insert_eq|]. rewrite length_app, length_take. cbn. rewrite length_drop. lia.
  - rewrite (proj2 (Z.leb_le _ _)) by lia. eexists. split; [done|]. exists l. by rewrite decide_False by done.
Qed.

Lemma type_backspace v L i j : typing v (L, i, S j, true) → ∃ v', backspace v = Ok v' ∧ ∃ l, L !! i = Some l ∧ typing v' (<[i := delete j l]> L, i, j, true).
Proof.
  intros (Hrep & Hcur & Hmode). destruct (cursor_row _ _ _ _ Hrep Hcur) as (r & l & Hi & Hj & Er & Hc & Lr & Hlt & El).
  pose proof Hcur as (Hy & Hx & _). pose proof Hrep as [Ht Hr [Hn Hm] Hl]. unfold backspace. rewrite (proj2 (Z.ltb_lt 0 _)) by lia.
  unfold delete_char. cbn [text cy cx set_cursor]. rewrite Er. cbn [mbind res_bind]. rewrite El. cbn [mbind res_bind]. rewrite (proj2 (Z.leb_gt _ _)) by lia.
  destruct (delete_in_row r l j) as (r1 & E1 & Hc1 & L1); [done|done|lia|]. replace (cx v - 1) with (Z.of_nat j) by lia. rewrite E1. cbn [mbind res_bind].
  rewrite Hy, arr_set_in by lia. cbn [mbind res_bind]. rewrite Nat2Z.id. eexists. split; [done|]. exists l. split; [done|].
  split; [|split; [|done]].
  - by apply (vi_rep_insert v L i r1 _ (nlines v)).
  - split; [done|]. split; [done|]. eexists. split; [by apply list_lookup_insert_eq|]. rewrite length_delete by (apply lookup_lt_is_Some; lia). lia.
Qed.

Lemma end_row_spec t i j r l : length t = 512%nat → t !! i = Some r → length r = 256%nat → cstr r l → (j ≤ length l)%nat →
  ∃ r', end_row (Z.of_nat i) (Z.of_nat j) t = Ok (<[i := r']> t) ∧ cstr r' (take j l) ∧ length r' = 256%nat.
Proof.
  intros Ht Hi Lr (rs & -> & Hz) Hj. unfold end_row. rewrite (arr_get_nat _ _ _ Hi). cbn [mbind res_bind].
  rewrite length_app in Lr. cbn in Lr. rewrite arr_set_in by (rewrite length_app; cbn; lia). cbn [mbind res_bind].
  apply lookup_lt_Some in Hi. rewrite arr_set_in by lia. rewrite !Nat2Z.id. eexists. split; [done|]. rewrite length_insert, length_app. cbn. split; [|lia].
  destruct (decide (j = length l)) as [->|].
  - rewrite insert_app_r_alt, Nat.sub_diag by lia. cbn. exists rs. by rewrite take_ge by lia.
  - rewrite insert_app_l by lia. exists (drop (S j) l ++ 0 :: rs). rewrite insert_take_drop by lia. rewrite <- app_assoc. split; [done|]. by apply Forall_take.
Qed.

Lemma type_enter rest v L i j : typing v (L, i, j, true) → length rest = 256%nat → (length L < 512)%nat →
  ∃ v', split_row rest v = Ok v' ∧ ∃ l, L !! i = Some l ∧ typing v' (take i L ++ take j l :: drop j l :: drop (S i) L, S i, 0%nat, true).
Proof.
  intros (Hrep & Hcur & Hmode) Hrest Hroom. destruct (cursor_row _ _ _ _ Hrep Hcur) as (r & l & Hi & Hj & Er & Hc & Lr & Hlt & El).
  pose proof Hcur as (Hy & Hx & _). pose proof Hrep as [Ht Hr [Hn Hm] Hl]. unfold split_row. rewrite Er. cbn [mbind res_bind].
  pose proof (cstr_length _ _ Hc) as Hcl. pose proof (cstr_nonzero _ _ Hc) as Hnz.
  assert (cstr (drop (Z.to_nat (cx v)) r) (drop j l)) as Hcd.
  { rewrite Hx, Nat2Z.id. destruct Hc as (rs & -> & _). exists rs. rewrite drop_app_le by lia. split; [done|]. by apply Forall_drop. }
  destruct (kstrcpy_roundtrip rest _ _ Hcd) as (rest' & E1 & Hc1 & L1); [rewrite length_drop; lia|]. unfold strcpy. rewrite E1. cbn [mbind res_bind].
  assert (text v !! i = Some r) as Eri by (rewrite Hy in Er; by apply arr_get_Ok in Er as [_ Er]; rewrite Nat2Z.id in Er).
  destruct (end_row_spec (text v) i j r l Ht Eri Lr Hc Hj) as (r1 & E2 & Hc2 & L2). rewrite Hy, Hx, E2. cbn [mbind res_bind].
  rewrite Hn. replace (Z.to_nat (Z.of_nat (length L) - (Z.of_nat i + 1))) with (length L - S i)%nat by lia.
  destruct (shift_down_spec (length L - S i) (length L) (<[i := r1]> (text v))) as (t & E3 & Ht3 & L3 & Hin & Hout);
    [by apply rows_insert|lia|rewrite length_insert; lia|]. rewrite E3. cbn [mbind res_bind]. rewrite length_insert in L3.
  replace (Z.of_nat i + 1) with (Z.of_nat (S i)) by lia.
  destruct (lookup_lt_is_Some_2 t (S i)) as [d Hd]; [lia|]. rewrite (arr_get_nat _ _ _ Hd). cbn [mbind res_bind].
  destruct (kstrcpy_roundtrip d rest' _ Hc1) as (d' & E4 & Hc4 & L4); [rewrite (Ht3 _ _ Hd), length_drop; lia|].
  rewrite E4. cbn [mbind res_bind]. rewrite arr_set_in, Nat2Z.id by lia. cbn [mbind res_bind].
  eexists. split; [done|]. exists l. split; [done|].
  assert (length (take i L ++ take j l :: drop j l :: drop (S i) L) = S (length L)) as LL by (rewrite length_app, length_take; cbn; rewrite length_drop; lia).
  split; [split; cbn|split; [|done]].
  - by rewrite length_insert, L3.
  - apply rows_insert; [done|]. by rewrite L4, (Ht3 _ _ Hd).
  - rewrite LL. lia.
  - intros k x Hk. destruct (decide (k = S i)) as [->|Hne].
    + rewrite list_lookup_insert_eq by lia. exists d'. split; [done|]. replace x with (drop j l); [done|].
      rewrite lookup_app_r, length_take, Nat.min_l in Hk by (rewrite ?length_take; lia). replace (S i - i)%nat with 1%nat in Hk by lia. by injection Hk.
    + rewrite list_lookup_insert_ne by done. destruct (decide (k < i)%nat) as [Hki|Hki]; [|destruct (decide (k = i)) as [->|Hki']].
      * rewrite Hout, list_lookup_insert_ne by lia. rewrite lookup_app_l, lookup_take in Hk by (rewrite length_take; lia). rewrite decide_True in Hk by done. by apply Hl.
      * rewrite Hout, list_lookup_insert_eq by lia. rewrite lookup_app_r, length_take, Nat.min_l, Nat.sub_diag in Hk by (rewrite ?length_take; lia). injection Hk as <-. by exists r1.
      * apply lookup_lt_Some in Hk as Hkl. rewrite Hin by lia. rewrite list_lookup_insert_ne by lia. rewrite lookup_app_r, length_take, Nat.min_l in Hk by (rewrite ?length_take; lia).
        destruct (k - i)%nat as [|[|m]] eqn:Em; [lia|lia|]. change (drop (S i) L !! m = Some x) in Hk. rewrite lookup_drop in Hk.
        replace (pred k) with (S i + m)%nat by lia. by apply Hl.
  - split; [cbn; lia|]. split; [done|]. exists (drop j l). split; [|lia]. rewrite lookup_app_r, length_take, Nat.min_l by (rewrite ?length_take; lia). by replace (S i - i)%nat with 1%nat by lia.
Qed.

(** [strncat] behind the string [l] of a row. *)
Lemma strncat_copy_spec n d s m : cstr s m → length d = S n →
  ∃ d', strncat_copy d s n = Ok d' ∧ cstr d' (take n m) ∧ length d' = length d.
Proof.
  revert d s m. induction n as [|n IH]; intros d s m (rs & -> & Hz) Hd; (destruct d as [|x d]; [done|]); cbn [strncat_copy].
  - exists (0 :: d). split; [done|]. split; [exists d; split; [done|constructor]|done].
  - destruct m as [|c m]; cbn [app take].
    + rewrite Z.eqb_refl. destruct d as [|y d]; [done|]. exists (0 :: 0 :: d). split; [done|]. split; [exists (0 :: d); split; [done|constructor]|done].
    + apply Forall_cons in Hz as [Hc Hz]. rewrite (proj2 (Z.eqb_neq c 0)) by done.
      destruct (IH d (m ++ 0 :: rs) m) as (d' & -> & (rs' & -> & Hz') & Hl); [by exists rs|cbn in Hd; lia|]. cbn [mbind res_bind].
      eexists. split; [done|]. split; [exists rs'; split; [done|by constructor]|cbn in *; lia].
Qed.
Lemma strncat_row r l nx m : length r = 256%nat → cstr r l → cstr nx m →
  ∃ r', strncat r nx (255 - length l) = Ok r' ∧ cstr r' (take 255 (l ++ m)) ∧ length r' = 256%nat.
Proof.
  intros Hr (rs & -> & Hz) Hm. rewrite length_app in Hr. cbn in Hr.
  destruct (strncat_copy_spec (255 - length l) (0 :: rs) nx m Hm) as (d' & E & Hd & Hl); [cbn; lia|].
  assert (take 255 (l ++ m) = l ++ take (255 - length l) m) as ->.
  { rewrite take_app. f_equal. apply take_ge. lia. }
  exists (l ++ d'). split; [|split].
  - clear Hr Hl Hd. revert E. generalize (255 - length l)%nat as n. intros n E. induction Hz as [|c l Hc Hz IH]; [done|]. cbn [app strncat].
    rewrite (proj2 (Z.eqb_neq c 0)) by done. by rewrite IH.
  - destruct Hd as (rs' & -> & Hz'). exists rs'. rewrite <- app_assoc. split; [done|]. by apply Forall_app.
  - rewrite length_app, Hl. cbn. lia.
Qed.

Lemma join_spec v L i r l nx m : vi_rep v L → cy v = Z.of_nat i → L !! i = Some l → L !! S i = Some m →
  text v !! i = Some r → cstr r l → text v !! S i = Some nx → cstr nx m →
  ∃ t, join_lines v = Ok (set_text t (nlines v - 1) v) ∧ vi_rep (set_text t (nlines v - 1) v) (join_at i L).
Proof.
  intros [Ht Hr [Hn Hm] Hl] Hy Hi Hi' Er Hc Enx Hnx. apply lookup_lt_Some in Hi' as Hlt. unfold join_lines.
  rewrite Hy, Hn, (proj2 (Z.leb_gt _ _)) by lia. rewrite (arr_get_nat _ _ _ Er). cbn [mbind res_bind].
  rewrite (kstrlen_cstr _ _ Hc : strlen r = _). cbn [mbind res_bind]. replace (Z.of_nat i + 1) with (Z.of_nat (S i)) by lia.
  rewrite (arr_get_nat _ _ _ Enx). cbn [mbind res_bind]. pose proof (cstr_length _ _ Hc) as Hcl. pose proof (Hr _ _ Er) as Lr.
  unfold LINE_LEN. rewrite (proj2 (Z.ltb_ge _ _)) by lia. replace (Z.to_nat (256 - Z.of_nat (length l) - 1)) with (255 - length l)%nat by lia.
  destruct (strncat_row r l nx m Lr Hc Hnx) as (r' & -> & Hc' & Lr'). cbn [mbind res_bind].
  rewrite arr_set_in, Nat2Z.id by lia. cbn [mbind res_bind].
  replace (Z.to_nat (Z.of_nat (length L) - 1 - Z.of_nat (S i))) with (length L - 2 - i)%nat by lia.
  destruct (shift_up_spec (length L - 2 - i) (S i) (<[i := r']> (text v))) as (t & E & Hrt & Lt & Hin & Hout);
    [by apply rows_insert|rewrite length_insert; lia|]. rewrite E. cbn [mbind res_bind]. rewrite length_insert in Lt.
  replace (Z.of_nat (length L) - 1) with (Z.of_nat (length L - 1)) by lia. unfold end_row.
  destruct (lookup_lt_is_Some_2 t (length L - 1)) as [d Hd]; [lia|]. rewrite (arr_get_nat _ _ _ Hd). cbn [mbind res_bind].
  rewrite arr_set_in by (rewrite (Hrt _ _ Hd); lia). cbn [mbind res_bind]. rewrite arr_set_in, !Nat2Z.id by lia. cbn [mbind res_bind].
  eexists. split; [done|]. unfold join_at. rewrite Hi, Hi'.
  assert (length (take i L ++ take 255 (l ++ m) :: drop (S (S i)) L) = (length L - 1)%nat) as LL
    by (rewrite length_app, length_take; cbn; rewrite length_drop; lia).
  split; cbn.
  - by rewrite length_insert, Lt.
  - apply rows_insert; [done|]. rewrite length_insert. by eapply Hrt.
  - rewrite LL. lia.
  - intros k x Hk. apply lookup_lt_Some in Hk as Hkl. rewrite LL in Hkl. rewrite list_lookup_insert_ne by lia.
    destruct (decide (k < i)%nat) as [Hki|Hki]; [|destruct (decide (k = i)) as [->|Hki']].
    + rewrite Hout, list_lookup_insert_ne by lia. rewrite lookup_app_l, lookup_take_lt in Hk by (rewrite ?length_take; lia). by apply Hl.
    + rewrite Hout, list_lookup_insert_eq by lia. rewrite lookup_app_r, length_take, Nat.min_l, Nat.sub_diag in Hk by (rewrite ?length_take; lia).
      injection Hk as <-. by exists r'.
    + rewrite Hin, list_lookup_insert_ne by lia. rewrite lookup_app_r, length_take, Nat.min_l in Hk by (rewrite ?length_take; lia).
      destruct (k - i)%nat as [|q] eqn:Eq; [lia|]. change (drop (S (S i)) L !! q = Some x) in Hk. rewrite lookup_drop in Hk.
      apply Hl. by replace (S k) with (S (S i) + q)%nat by lia.
Qed.

Lemma type_join v L i : typing v (L, S i, 0%nat, true) →
  ∃ v', backspace v = Ok v' ∧ typing v' (join_at (S i) L, i, length (L !!! i), true).
Proof.
  intros (Hrep & Hcur & Hmode). destruct (cursor_row _ _ _ _ Hrep Hcur) as (r & l & Hi & _ & Er & Hc & Lr & Hlt & El).
  pose proof Hcur as (Hy & Hx & _). destruct (lookup_lt_is_Some_2 L i) as [p Hp]; [lia|].
  destruct (vi_lines _ _ Hrep _ _ Hp) as (rp & Erp & Hcp). rewrite (list_lookup_total_correct _ _ _ Hp).
  unfold backspace. rewrite (proj2 (Z.ltb_ge 0 (cx v))), (proj2 (Z.ltb_lt 0 (cy v))) by lia.
  replace (cy v - 1) with (Z.of_nat i) by lia. rewrite (arr_get_nat _ _ _ Erp). cbn [mbind res_bind].
  rewrite (kstrlen_cstr _ _ Hcp : strlen rp = _). cbn [mbind res_bind].
  rewrite Hy in Er. apply arr_get_Ok in Er as [_ Er]. rewrite Nat2Z.id in Er.
  assert (join_at (S i) L !! i = Some p) as Hjp.
  { unfold join_at. rewrite Hi. destruct (L !! S (S i)); [|done]. by rewrite lookup_app_l, lookup_take_lt by (rewrite ?length_take; lia). }
  destruct (L !! S (S i)) as [m|] eqn:Em.
  - destruct (vi_lines _ _ Hrep _ _ Em) as (nx & Enx & Hnx).
    destruct (join_spec v L (S i) r l nx m) as (t & -> & Hrep'); try done. cbn [mbind res_bind]. eexists. split; [done|].
    split; [by destruct Hrep'; split|]. split; [|done]. split; [cbn; lia|]. split; [done|]. by exists p.
  - apply lookup_ge_None_1 in Em. unfold join_lines. destruct (vi_count _ _ Hrep) as [Hn _]. rewrite Hn, (proj2 (Z.leb_le _ _)) by lia.
    cbn [mbind res_bind]. eexists. split; [done|].
    assert (join_at (S i) L = L) as -> by (unfold join_at; rewrite Hi; by rewrite lookup_ge_None_2).
    split; [by destruct Hrep; split|]. split; [|done]. split; [cbn; lia|]. split; [done|]. by exists p.
Qed.

Lemma type_escape v L i j : typing v (L, i, j, true) →
  ∃ v', insert_key [] ESC v = Ok v' ∧ typing v' (L, i, pred j, false).
Proof.
  intros (Hrep & Hcur & Hmode). destruct (cursor_row _ _ _ _ Hrep Hcur) as (r & l & Hi & Hj & Er & Hc & Lr & Hlt & El).
  destruct Hcur as (Hy & Hx & _). unfold insert_key. rewrite Z.eqb_refl. cbv zeta. unfold clamp_cursor.
  destruct (vi_count _ _ Hrep) as [Hn Hm]. cbn [cy cx nlines text mode topline set_cursor set_mode].
  rewrite (proj2 (Z.ltb_ge (cy v) 0)), Hn, (proj2 (Z.leb_gt _ (cy v))) by lia. rewrite Er. cbn [mbind res_bind]. rewrite El. cbn [mbind res_bind].
  assert ((if 0 <? cx v then cx v - 1 else cx v) = Z.of_nat (pred j)) as -> by (destruct (Z.ltb_spec 0 (cx v)); lia).
  rewrite (proj2 (Z.ltb_ge (Z.of_nat (pred j)) 0)) by lia.
  assert ((Z.of_nat (length l) - 1 <? Z.of_nat (pred j)) && (0 <? Z.of_nat (length l)) = false) as ->.
  { destruct (Z.ltb_spec (Z.of_nat (length l) - 1) (Z.of_nat (pred j))), (Z.ltb_spec 0 (Z.of_nat (length l))); try done; lia. }
  rewrite (proj2 (Z.ltb_ge (Z.of_nat (pred j)) 0)) by lia. eexists. split; [done|].
  split; [by destruct Hrep; split|]. split; [|done]. split; [done|]. split; [done|]. exists l. split; [done|lia].
Qed.

Lemma insert_typing rest k v L i j : length rest = 256%nat → typing v (L, i, j, true) →
  ∃ v', insert_key rest k v = Ok v' ∧ typing v' (spec_key k (L, i, j, true)).
Proof.
  intros Hrest Hv. pose proof Hv as (Hrep & Hcur & _). destruct (cursor_row _ _ _ _ Hrep Hcur) as (_ & l & Hi & _).
  unfold spec_key. rewrite (list_lookup_total_correct _ _ _ Hi). destruct (decide (k = 27)) as [->|Hesc]; [by apply type_escape|].
  unfold insert_key. rewrite (proj2 (Z.eqb_neq k ESC)) by done.
  destruct ((k =? 10) || (k =? 13)) eqn:Enl.
  { rewrite decide_True by lia. destruct (vi_count _ _ Hrep) as [Hn _]. rewrite Hn. unfold LINES_MAX. destruct (decide (length L < 512)%nat).
    - rewrite (proj2 (Z.ltb_lt _ _)) by lia. destruct (type_enter rest v L i j Hv Hrest) as (v2 & E & l' & Hl' & Ht); [done|]. simplify_eq. by exists v2.
    - rewrite (proj2 (Z.ltb_ge _ _)) by lia. by exists v. }
  rewrite decide_False by lia. destruct ((k =? 127) || (k =? 8)) eqn:Ebs.
  { rewrite decide_True by lia. destruct j as [|j].
    - destruct i as [|i]; [|by apply type_join]. destruct Hcur as (Hy & Hx & _). unfold backspace. rewrite Hx, Hy. by exists v.
    - destruct (type_backspace v L i j Hv) as (v2 & E & l' & Hl' & Ht). simplify_eq. by exists v2. }
  rewrite decide_False by lia. destruct ((32 <=? k) && (k <? 127)) eqn:Epr.
  - rewrite decide_True by lia. destruct (type_char v L i j k Hv) as (v2 & E & l' & Hl' & Ht); [lia|]. exists v2. split; [done|].
    assert (l' = l) as -> by congruence. by destruct (decide (length l < 255)%nat).
  - rewrite decide_False by lia. by exists v.
Qed.

(** C40: typing edits the text: whatever keys are pressed in insert mode, until ESC leaves it
    for normal mode with the cursor one to the left, the table holds the lines one gets by
    inserting characters at the cursor, splitting the line there on a newline and deleting
    before the cursor on a backspace, the cursor is where it should be, and no key leaves the
    table or a row; a full line or table takes no more. A backspace at the beginning of a
    line is what the code makes of it: the next line, not the one before, is appended (to 255
    characters), and the cursor goes to the end of the line before. *)
Theorem vi_typing rest ks v s : length rest = 256%nat → typing v s → s.2 = true →
  ∃ v', type_keys rest ks v = Ok v' ∧ typing v' (spec_keys ks s).
Proof.
  intros Hrest. revert v s. induction ks as [|k ks IH]; intros v [[[L i] j] ins] Hv Hs; cbn in Hs; subst ins; [by exists v|].
  cbn [type_keys spec_keys snd]. assert (mode v = MODE_INSERT) as -> by apply Hv. destruct (clamp_typing v _ _ _ Hv) as (v1 & -> & Hv1). cbn [mbind res_bind].
  assert (∃ v2, insert_key rest k v1 = Ok v2 ∧ typing v2 (spec_key k (L, i, j, true))) as (v2 & -> & Hv2).
  { destruct (insert_typing rest k v1 L i j Hrest Hv1) as (v2 & E & Ht). by exists v2. }
  cbn [mbind res_bind]. destruct (spec_key k (L, i, j, true)) as [[[L' i'] j'] []]; [by apply IH|].
  destruct ks; cbn [type_keys spec_keys snd]; [by exists v2|]. destruct Hv2 as (? & ? & Hm). rewrite Hm. by exists v2.
Qed.

(** ** Examples *)
Definition some_text (ls : list (list Z)) : list (list Z) := ((λ l, l ++ replicate (256 - length l) 0) <$> ls) ++ replicate (512 - length ls) (replicate 256 0).
Definition a_text (ls : list (list Z)) (y x : Z) (m : mode_t) : vi :=
  mkVi (some_text ls) (Z.of_nat (length ls)) y x 0 (replicate 64 0) false m (replicate 128 0) (replicate 128 0) 0.
Definition shows (v : vi) : list (list Z) * Z * Z := (cstring <$> take (Z.to_nat (nlines v)) (text v), cy v, cx v).

Lemma typing_start : typing (a_text [[]] 0 0 MODE_INSERT) ([[]], 0%nat, 0%nat, true).
Proof.
  split; [|by split; [split; [done|split; [done|by exists []]]|]]. split; [done| |by split; cbn; lia|].
  - intros i r Hr. change (text _) with (replicate 1 (replicate 256 0) ++ replicate 511 (replicate 256 0)) in Hr. rewrite <- replicate_add in Hr. by apply lookup_replicate in Hr as [-> _].
  - intros [|i] l; [|done]. intros [= <-]. exists (replicate 256 0). split; [done|]. exists (replicate 255 0). split; [done|constructor].
Qed.
Lemma vi_typing_witness : ∃ v', type_keys (replicate 256 7) (str "hi" ++ [10] ++ str "you" ++ [8; 13; 33; 8; 8; 46; 27; 120]) (a_text [[]] 0 0 MODE_INSERT) = Ok v' ∧
  typing v' ([str "hi"; str "yo."; []], 1%nat, 2%nat, false).
Proof.
  exact (vi_typing (replicate 256 7) (str "hi" ++ [10] ++ str "you" ++ [8; 13; 33; 8; 8; 46; 27; 120]) (a_text [[]] 0 0 MODE_INSERT)
    ([[]], 0%nat, 0%nat, true) eq_refl typing_start eq_refl).
Defined.

(** A backspace at the beginning of a line joins the line with the next one, not with the
    one before. *)
Example backspace_joins_next : (v ← backspace (a_text [str "a"; str "b"; str "c"] 1 0 MODE_INSERT); Ok (shows v)) = Ok ([str "a"; str "bc"], 0, 1).
Proof. vm_compute. reflexivity. Qed.
(** On an empty line the cursor moves on without end; what is typed two columns behind the
    line moves 4 GB. *)
Example empty_line_overruns :
  (v ← normal_key 108 (a_text [[]] 0 0 MODE_NORMAL); v ← normal_key 108 v; v ← normal_key 105 v; insert_key (replicate 256 7) 97 v) = Fault.
Proof. vm_compute. reflexivity. Qed.
Example opens_and_joins : (v ← normal_key 111 (a_text [str "a"; str "b"] 0 0 MODE_NORMAL); v ← insert_key (replicate 256 7) 120 v; v ← insert_key (replicate 256 7) 27 v;
  v ← normal_key 100 v; Ok (shows v)) = Ok ([str "a"; str "xb"], 1, 0).
Proof. vm_compute. reflexivity. Qed.
