(* ===== verification/Vfs.v ===== *)
(** * The virtual file system (src/src/vfs.c): descriptors, mounts and pipes

    A file system is a record of operations, some of which may be missing (null
    pointers); [S] is the state the file systems keep. This file has the layer above
    them; VfsBackends.v has the three file systems of vfs.c. [sched_yield] and [fuel]
    are for the pipe operations that block. *)

From S2P Require Import Prelude KString Ring Pipe.

Definition VFS_MAX_FD : Z := 32.
Definition VFS_MAX_PATH : Z := 128.
Definition VFS_FILE : Z := 1.
Definition VFS_DEV : Z := 3.
Definition VFS_PIPE : Z := 4.
Definition O_RDONLY : Z := 0x00.
Definition O_WRONLY : Z := 0x01.
Definition O_RDWR : Z := 0x02.
Definition O_CREAT : Z := 0x04.
Definition O_TRUNC : Z := 0x08.
Definition O_APPEND : Z := 0x10.
Definition VFS_MAX_MOUNTS : Z := 8.

(** [flags & f] as a condition. *)
Definition has (flags f : Z) : bool := negb (Z.land flags f =? 0).

Record vfs_stat_t := mkStat { st_size : Z; st_type : Z; st_name : list Z }.
Definition stat_zero : vfs_stat_t := mkStat 0 0 (replicate 64 0).

(** Operations that write through a pointer take the object and return it. *)
Record vfs_ops_t (S : Type) := mkOps {
  op_open : option (list Z → Z → M S Z);
  op_close : option (Z → M S Z);
  op_read : option (Z → list Z → Z → M S (Z * list Z));
  op_write : option (Z → list Z → Z → M S Z);
  op_stat : option (list Z → vfs_stat_t → M S (Z * vfs_stat_t));
  op_readdir : option (list Z → list Z → Z → M S (Z * list Z));
  op_unlink : option (list Z → M S Z)
}.
Arguments mkOps {S}. Arguments op_open {S}. Arguments op_close {S}. Arguments op_read {S}.
Arguments op_write {S}. Arguments op_stat {S}. Arguments op_readdir {S}. Arguments op_unlink {S}.

Record vfs_mount_t (S : Type) := mkMount { prefix : list Z; ops : vfs_ops_t S; m_active : Z }.
Arguments mkMount {S}. Arguments prefix {S}. Arguments ops {S}. Arguments m_active {S}.

Record vfs_fd_t := mkFd {
  fd_used : Z;
  fd_flags : Z;
  fd_pos : Z;
  fd_type : Z;
  mount_idx : Z;
  fd_data : Z;
  pipe_id : Z;
  pipe_end : Z
}.
Definition fd_zero : vfs_fd_t := mkFd 0 0 0 0 0 0 0 0.
Definition set_used (u : Z) (f : vfs_fd_t) : vfs_fd_t :=
  mkFd u (fd_flags f) (fd_pos f) (fd_type f) (mount_idx f) (fd_data f) (pipe_id f) (pipe_end f).
Definition set_pos (p : Z) (f : vfs_fd_t) : vfs_fd_t :=
  mkFd (fd_used f) (fd_flags f) p (fd_type f) (mount_idx f) (fd_data f) (pipe_id f) (pipe_end f).

Section vfs.
Context {S : Type}.

Record vfs := mkVfs {
  fd_table : list vfs_fd_t;
  cwd : list Z;
  mounts : list (vfs_mount_t S);
  pipes : list pipe_t;
  back : S
}.

Definition set_fds (l : list vfs_fd_t) (v : vfs) : vfs := mkVfs l (cwd v) (mounts v) (pipes v) (back v).
Definition set_cwd (c : list Z) (v : vfs) : vfs := mkVfs (fd_table v) c (mounts v) (pipes v) (back v).
Definition set_mounts (m : list (vfs_mount_t S)) (v : vfs) : vfs := mkVfs (fd_table v) (cwd v) m (pipes v) (back v).
Definition set_pipes (p : list pipe_t) (v : vfs) : vfs := mkVfs (fd_table v) (cwd v) (mounts v) p (back v).
Definition set_back (b : S) (v : vfs) : vfs := mkVfs (fd_table v) (cwd v) (mounts v) (pipes v) b.

Definition on_back {A} (m : M S A) : M vfs A := λ v,
  match m (back v) with Ok (a, b) => Ok (a, set_back b v) | Fault => Fault | Timeout => Timeout end.

Definition get_fd (i : Z) : M vfs vfs_fd_t := λ v, f ← arr_get (fd_table v) i; Ok (f, v).
Definition put_fd (i : Z) (f : vfs_fd_t) : M vfs unit := λ v,
  l ← arr_set (fd_table v) i f; Ok (tt, set_fds l v).
Definition get_mount (i : Z) : M vfs (vfs_mount_t S) := λ v, m ← arr_get (mounts v) i; Ok (m, v).

(** A null function pointer is called. *)
Definition call {A} (o : option A) : res A := res_of o.

(** [NULL] or the rest of the path. *)
Definition strip_prefix (path pre : list Z) : res (option (list Z)) :=
  n ← kstrlen pre;
  d ← kstrncmp path pre (Z.to_nat n);
  if d =? 0 then
    let rest := drop (Z.to_nat n) path in
    c ← arr_get rest 0;
    Ok (Some (if c =? 47 then drop 1 rest else rest))
  else Ok None.

(** The mounts are the first [num_mounts] entries of the table. *)
Fixpoint mount_loop (l : list (vfs_mount_t S)) (path : list Z) (i best best_len : Z) : res (Z * Z) :=
  match l with
  | [] => Ok (best, best_len)
  | m :: l' =>
      if m_active m =? 0 then mount_loop l' path (i + 1) best best_len
      else
        plen ← kstrlen (prefix m);
        d ← kstrncmp path (prefix m) (Z.to_nat plen);
        if (d =? 0) && (best_len <? plen) then mount_loop l' path (i + 1) i plen
        else mount_loop l' path (i + 1) best best_len
  end.

(** [path + best_len], past one slash. *)
Definition local_path (path : list Z) (best_len : Z) : res (list Z) :=
  let l := drop (Z.to_nat best_len) path in
  c ← arr_get l 0;
  Ok (if c =? 47 then drop 1 l else l).

(** The mount and the local path; the latter is the previous value of [*local] when
    there is no mount. *)
Definition find_mount (path local : list Z) : M vfs (Z * list Z) := λ v,
  r ← mount_loop (mounts v) path 0 (-1) 0;
  let '(best, best_len) := r in
  if 0 <=? best then l ← local_path path best_len; Ok ((best, l), v)
  else Ok ((best, local), v).

Definition vfs_mount (pre : list Z) (o : vfs_ops_t S) : M vfs Z :=
  v ← get;
  if VFS_MAX_MOUNTS <=? Z.of_nat (length (mounts v)) then mret (-1)
  else
    p ← lift (kstrcpy (replicate 32 0) pre);
    modify (set_mounts (mounts v ++ [mkMount p o 1])) ;;
    mret 0.

Definition vfs_init_stdio : M vfs unit :=
  for_range 0 3 (λ i,
    m ← find_mount (lit "/dev") [];
    f ← get_fd i;
    put_fd i (mkFd 1 (if i =? 0 then O_RDONLY else O_WRONLY) (fd_pos f) VFS_DEV m.1 i (pipe_id f) (pipe_end f))).

(** Descriptors 3 to 31; -1 when all are used. *)
Definition alloc_fd (v : vfs) : Z :=
  match find_idx (λ f, fd_used f =? 0) (drop 3 (take 32 (fd_table v))) with
  | Some i => Z.of_nat i + 3
  | None => -1
  end.

(** [char resolved[VFS_MAX_PATH]]: the path itself, or below [base]. *)
Definition resolve (base path : list Z) : res (list Z) :=
  c ← arr_get path 0;
  if c =? 47 then kstrcpy (replicate 128 0) path
  else r ← kstrcpy (replicate 128 0) base; kstrcat r path.

(** [ops->stat && ops->stat(local, &st) < 0]; the second result is the status. *)
Definition probe (m : vfs_mount_t S) (local : list Z) : M vfs (option Z) :=
  match op_stat (ops m) with
  | None => mret None
  | Some st => r ← on_back (st local stat_zero); mret (Some r.1)
  end.

(** The lookup of [vfs_open]: the mount and the local path to open. *)
Definition open_lookup (path : list Z) (flags : Z) : M vfs (Z * list Z) :=
  resolved ← lift (resolve (lit "/disk/") path);
  r ← find_mount resolved [];
  let '(midx, local) := r in
  retry ← (if midx <? 0 then mret true
           else m ← get_mount midx; s ← probe m local;
                mret (match s with Some d => (d <? 0) && negb (has flags O_CREAT) | None => false end));
  if (retry : bool) then
    c ← lift (arr_get path 0);
    mem_path ← lift (d ← kstrcpy (replicate 128 0) (lit "/mem/"); kstrcat d (if c =? 47 then drop 1 path else path));
    r2 ← find_mount mem_path local;
    let '(midx2, local2) := r2 in
    if 0 <=? midx2 then
      m2 ← get_mount midx2; s2 ← probe m2 local2;
      match s2 with
      | Some 0 =>
          resolved' ← lift (kstrcpy resolved mem_path);
          r3 ← find_mount resolved' local2;
          mret (midx2, r3.2)
      | _ => mret (midx, local2)
      end
    else mret (midx, local2)
  else mret (midx, local).

Definition vfs_open (path : list Z) (flags : Z) : M vfs Z :=
  r ← open_lookup path flags;
  let '(midx, local) := r in
  if midx <? 0 then mret (-1)
  else
    m ← get_mount midx;
    match op_open (ops m) with
    | None => mret (-1)
    | Some open =>
        data ← on_back (open local flags);
        if data <? 0 then mret (-1)
        else
          v ← get;
          let fd := alloc_fd v in
          if fd <? 0 then
            close ← lift (call (op_close (ops m)));
            on_back (close data) ;; mret (-1)
          else
            f ← get_fd fd;
            put_fd fd (mkFd 1 flags 0 VFS_FILE midx data (-1) (pipe_end f)) ;;
            mret fd
    end.

(** [fd < 0 || fd >= VFS_MAX_FD || !fd_table[fd].used] *)
Definition bad_fd (fd : Z) (v : vfs) : res bool :=
  if (fd <? 0) || (VFS_MAX_FD <=? fd) then Ok true
  else f ← arr_get (fd_table v) fd; Ok (fd_used f =? 0).

Definition vfs_close (fd : Z) : M vfs Z :=
  v ← get;
  bad ← lift (bad_fd fd v);
  if (bad : bool) then mret (-1)
  else
    f ← get_fd fd;
    if fd_type f =? VFS_PIPE then
      modify (set_pipes ((if pipe_end f =? 0 then pipe_close_read else pipe_close_write) (pipe_id f) (pipes v))) ;;
      put_fd fd (set_used 0 f) ;; mret 0
    else
      (if mount_idx f <? 0 then mret tt
       else m ← get_mount (mount_idx f);
            match op_close (ops m) with
            | None => mret tt
            | Some close => on_back (close (fd_data f)) ;; mret tt
            end) ;;
      put_fd fd (set_used 0 f) ;; mret 0.

Section blocking.
Context (sched_yield : list pipe_t → list pipe_t) (fuel : nat).

(** [if (n > 0) fd_table[fd].pos += n;] *)
Definition advance (fd n : Z) : M vfs unit :=
  if 0 <? n then f ← get_fd fd; put_fd fd (set_pos (u32 (fd_pos f + n)) f) else mret tt.

Definition vfs_read (fd : Z) (buf : list Z) (len : Z) : M vfs (Z * list Z) :=
  v ← get;
  bad ← lift (bad_fd fd v);
  if (bad : bool) then mret (-1, buf)
  else
    f ← get_fd fd;
    if fd_type f =? VFS_PIPE then
      r ← lift (pipe_read sched_yield fuel (pipe_id f) buf len (pipes v));
      modify (set_pipes r.2) ;; mret r.1
    else if mount_idx f <? 0 then mret (-1, buf)
    else
      m ← get_mount (mount_idx f);
      match op_read (ops m) with
      | None => mret (-1, buf)
      | Some read =>
          r ← on_back (read (fd_data f) buf len);
          advance fd r.1 ;; mret r
      end.

Definition vfs_write (fd : Z) (buf : list Z) (len : Z) : M vfs Z :=
  v ← get;
  bad ← lift (bad_fd fd v);
  if (bad : bool) then mret (-1)
  else
    f ← get_fd fd;
    if fd_type f =? VFS_PIPE then
      r ← lift (pipe_write sched_yield fuel (pipe_id f) buf len (pipes v));
      modify (set_pipes r.2) ;; mret r.1
    else if mount_idx f <? 0 then mret (-1)
    else
      m ← get_mount (mount_idx f);
      match op_write (ops m) with
      | None => mret (-1)
      | Some write =>
          n ← on_back (write (fd_data f) buf len);
          advance fd n ;; mret n
      end.
End blocking.

Definition vfs_stat (path : list Z) (st : vfs_stat_t) : M vfs (Z * vfs_stat_t) :=
  resolved ← lift (resolve (lit "/disk/") path);
  r ← find_mount resolved [];
  if r.1 <? 0 then mret (-1, st)
  else
    m ← get_mount r.1;
    match op_stat (ops m) with
    | None => mret (-1, st)
    | Some stat => on_back (stat r.2 st)
    end.

Definition vfs_readdir (path buf : list Z) (sz : Z) : M vfs (Z * list Z) :=
  v ← get;
  c ← lift (arr_get path 0);
  resolved ← lift (if c =? 47 then kstrcpy (replicate 128 0) path
                   else a ← kstrcpy (replicate 128 0) (cwd v); b ← kstrcat a (lit "/"); kstrcat b path);
  r ← find_mount resolved [];
  let none := b ← lift (arr_set buf 0 0); mret (0, b) in
  if r.1 <? 0 then none
  else
    m ← get_mount r.1;
    match op_readdir (ops m) with
    | None => none
    | Some readdir => on_back (readdir r.2 buf sz)
    end.

Definition vfs_unlink (path : list Z) : M vfs Z :=
  resolved ← lift (resolve (lit "/disk/") path);
  r ← find_mount resolved [];
  if r.1 <? 0 then mret (-1)
  else
    m ← get_mount r.1;
    match op_unlink (ops m) with
    | None => mret (-1)
    | Some unlink => on_back (unlink r.2)
    end.

Definition vfs_getcwd (buf : list Z) (sz : Z) : M vfs (Z * list Z) :=
  v ← get;
  b ← lift (kstrncpy buf (cwd v) (Z.to_nat (u32 (sz - 1))));
  b ← lift (arr_set b (u32 (sz - 1)) 0);
  n ← lift (kstrlen b);
  mret (n, b).

Definition vfs_chdir (path : list Z) : M vfs Z :=
  v ← get;
  c ← lift (arr_get path 0);
  d ← lift (if c =? 47 then kstrncpy (cwd v) path (Z.to_nat (VFS_MAX_PATH - 1))
            else a ← kstrcat (cwd v) (lit "/"); kstrcat a path);
  modify (set_cwd d) ;; mret 0.

(** The descriptor of one end of a pipe. *)
Definition pipe_fd (f : vfs_fd_t) (id e flags : Z) : vfs_fd_t :=
  mkFd 1 flags (fd_pos f) VFS_PIPE (-1) (fd_data f) id e.

(** The result and [fds]. *)
Definition vfs_pipe : M vfs (Z * (Z * Z)) :=
  v ← get;
  let '(id, ps) := pipe_create (pipes v) in
  modify (set_pipes ps) ;;
  if id <? 0 then mret (-1, (0, 0))
  else
    let close_both := modify (λ v, set_pipes (pipe_close_write id (pipe_close_read id (pipes v))) v) in
    v ← get;
    let r := alloc_fd v in
    if r <? 0 then close_both ;; mret (-1, (0, 0))
    else
      v ← get;
      let w := alloc_fd v in
      if w <? 0 then
        f ← get_fd r; put_fd r (set_used 0 f) ;; close_both ;; mret (-1, (0, 0))
      else
        f ← get_fd r; put_fd r (pipe_fd f id 0 O_RDONLY) ;;
        f ← get_fd w; put_fd w (pipe_fd f id 1 O_WRONLY) ;;
        mret (0, (r, w)).

Definition vfs_dup2 (oldfd newfd : Z) : M vfs Z :=
  v ← get;
  bad ← lift (bad_fd oldfd v);
  if (bad : bool) then mret (-1)
  else if (newfd <? 0) || (VFS_MAX_FD <=? newfd) then mret (-1)
  else
    f ← get_fd newfd;
    (if fd_used f =? 0 then mret 0 else vfs_close newfd) ;;
    f ← get_fd oldfd;
    put_fd newfd f ;;
    mret newfd.

Definition vfs_isatty (fd : Z) (v : vfs) : res Z :=
  bad ← bad_fd fd v;
  if (bad : bool) then Ok 0
  else f ← arr_get (fd_table v) fd; Ok (if (fd_type f =? VFS_DEV) && (fd_data f <? 3) then 1 else 0).

(** The descriptor, [None] for NULL. *)
Definition vfs_get_fd (fd : Z) (v : vfs) : res (option vfs_fd_t) :=
  bad ← bad_fd fd v;
  if (bad : bool) then Ok None else f ← arr_get (fd_table v) fd; Ok (Some f).
End vfs.
Arguments vfs S : clear implicits.

(** ** Properties of the descriptor layer *)
Section descriptors.
Context {S : Type}.
Implicit Types (v : vfs S).

(** Only the file systems' own state differs. *)
Definition same_layer v v' : Prop :=
  fd_table v' = fd_table v ∧ cwd v' = cwd v ∧ mounts v' = mounts v ∧ pipes v' = pipes v.

Lemma same_layer_refl v : same_layer v v.
Proof. done. Qed.
Lemma same_layer_trans v v1 v2 : same_layer v v1 → same_layer v1 v2 → same_layer v v2.
Proof. unfold same_layer. naive_solver congruence. Qed.
Hint Resolve same_layer_refl : core.

Lemma on_back_layer {A} (m : M S A) v a v' : on_back m v = Ok (a, v') → same_layer v v'.
Proof. unfold on_back. destruct (m (back v)) as [[? b]| |]; [|done..]. intros [= _ <-]. done. Qed.
Lemma get_mount_inv i v m v' : get_mount i v = Ok (m, v') → v' = v ∧ arr_get (mounts v) i = Ok m.
Proof. unfold get_mount. intros (m0 & Hm & [= <- <-])%res_bind_Ok. done. Qed.
Lemma find_mount_layer p l v r v' : find_mount p l v = Ok (r, v') → v' = v.
Proof.
  unfold find_mount. intros ([b n] & _ & Hr)%res_bind_Ok. destruct (0 <=? b); [|by injection Hr].
  by apply res_bind_Ok in Hr as (? & _ & [= _ ->]).
Qed.
Lemma probe_layer m l v r v' : probe m l v = Ok (r, v') → same_layer v v'.
Proof.
  unfold probe. destruct (op_stat (ops m)) as [st|]; [|by intros [= _ <-]].
  intros (x & v1 & Hx & [= _ <-])%M_bind_Ok. by eapply on_back_layer.
Qed.

Lemma open_lookup_layer path flags v r v' : open_lookup path flags v = Ok (r, v') → same_layer v v'.
Proof.
  unfold open_lookup. intros (rs & v0 & [_ ->]%lift_Ok & Hr)%M_bind_Ok.
  apply M_bind_Ok in Hr as ([midx local] & v1 & ->%find_mount_layer & Hr).
  apply M_bind_Ok in Hr as (retry & v2 & Hretry & Hr).
  assert (same_layer v v2) as H2.
  { destruct (midx <? 0); [by injection Hretry as _ <-|].
    apply M_bind_Ok in Hretry as (m & v3 & [-> _]%get_mount_inv & Hretry).
    apply M_bind_Ok in Hretry as (s & v4 & ?%probe_layer & [= _ <-]). done. }
  destruct retry; [|by injection Hr as _ <-].
  apply M_bind_Ok in Hr as (c & v3 & [_ ->]%lift_Ok & Hr).
  apply M_bind_Ok in Hr as (mp & v3 & [_ ->]%lift_Ok & Hr).
  apply M_bind_Ok in Hr as ([midx2 local2] & v3 & ->%find_mount_layer & Hr).
  destruct (0 <=? midx2); [|by injection Hr as _ <-].
  apply M_bind_Ok in Hr as (m2 & v3 & [-> _]%get_mount_inv & Hr).
  apply M_bind_Ok in Hr as (s2 & v3 & H3%probe_layer & Hr).
  assert (same_layer v v3) by (by eapply same_layer_trans).
  destruct s2 as [[| |]|]; try (by injection Hr as _ <-).
  apply M_bind_Ok in Hr as (rs' & v4 & [_ ->]%lift_Ok & Hr).
  apply M_bind_Ok in Hr as (r3 & v4 & ->%find_mount_layer & [= _ <-]). done.
Qed.

(** The lowest free descriptor from 3 on. *)
Lemma alloc_fd_spec v :
  length (fd_table v) = 32%nat →
  (alloc_fd v = -1 ∧ ∀ k f, (3 ≤ k)%nat → fd_table v !! k = Some f → fd_used f ≠ 0) ∨
  (3 ≤ alloc_fd v < 32 ∧ (∃ f, fd_table v !! Z.to_nat (alloc_fd v) = Some f ∧ fd_used f = 0) ∧
   ∀ k f, (3 ≤ k)%nat → Z.of_nat k < alloc_fd v → fd_table v !! k = Some f → fd_used f ≠ 0).
Proof.
  intros Hlen. unfold alloc_fd. rewrite (take_ge (fd_table v)) by lia.
  destruct (find_idx _ (drop 3 (fd_table v))) as [i|] eqn:E.
  - right. apply find_idx_Some in E as [(f & Hf & Hu) Hmin]. rewrite lookup_drop in Hf. bool_hyps.
    pose proof (lookup_lt_Some _ _ _ Hf). split; [lia|]. split.
    + exists f. by replace (Z.to_nat (Z.of_nat i + 3)) with (3 + i)%nat by lia.
    + intros k g Hk Hlt Hg Hz. specialize (Hmin (k - 3)%nat g ltac:(lia)). rewrite lookup_drop in Hmin.
      replace (3 + (k - 3))%nat with k in Hmin by lia. specialize (Hmin Hg). bool_hyps. done.
  - left. split; [done|]. rewrite find_idx_None in E. intros k f Hk Hf Hz.
    specialize (E f). rewrite Hz in E. discriminate E.
    apply list_elem_of_lookup. exists (k - 3)%nat. rewrite lookup_drop.
    by replace (3 + (k - 3))%nat with k by lia.
Qed.

Lemma get_fd_inv i v f v' : get_fd i v = Ok (f, v') → v' = v ∧ 0 ≤ i ∧ fd_table v !! Z.to_nat i = Some f.
Proof. unfold get_fd. by intros (f0 & [Hi Hf]%arr_get_Ok & [= <- <-])%res_bind_Ok. Qed.
Lemma put_fd_inv i f v v' u : put_fd i f v = Ok (u, v') → v' = set_fds (<[Z.to_nat i := f]> (fd_table v)) v.
Proof. unfold put_fd. by intros (l & [_ ->]%arr_set_Ok & [= _ <-])%res_bind_Ok. Qed.

(** Opening a file hands out the lowest free descriptor. Whatever the mounted
    file systems do, a call of [vfs_open] that returns either fails with -1 and leaves
    the descriptor table as it was, or returns a descriptor between 3 and 31 that was
    free, the lowest such one, and changes no other entry; the pipes, the mounts and
    the working directory are untouched. *)
Theorem vfs_open_descriptor path flags v fd v' :
  length (fd_table v) = 32%nat → vfs_open path flags v = Ok (fd, v') →
  cwd v' = cwd v ∧ mounts v' = mounts v ∧ pipes v' = pipes v ∧
  ((fd = -1 ∧ fd_table v' = fd_table v) ∨
   (3 ≤ fd < 32 ∧ (∃ f, fd_table v !! Z.to_nat fd = Some f ∧ fd_used f = 0) ∧
    (∀ k f, (3 ≤ k)%nat → Z.of_nat k < fd → fd_table v !! k = Some f → fd_used f ≠ 0) ∧
    ∃ e, fd_used e = 1 ∧ fd_type e = VFS_FILE ∧ fd_pos e = 0 ∧ fd_flags e = flags ∧
         fd_table v' = <[Z.to_nat fd := e]> (fd_table v))).
Proof.
  intros Hlen Hopen. unfold vfs_open in Hopen.
  apply M_bind_Ok in Hopen as ([midx local] & v1 & H1%open_lookup_layer & Hopen).
  assert (∀ w, same_layer v w → cwd w = cwd v ∧ mounts w = mounts v ∧ pipes w = pipes v ∧
    ((-1 = -1 ∧ fd_table w = fd_table v) ∨ False)) as Hfail by (unfold same_layer; naive_solver).
  destruct (midx <? 0); [injection Hopen as <- <-; destruct (Hfail v1 H1) as (? & ? & ? & [?|[]]); auto 10|].
  apply M_bind_Ok in Hopen as (m & v2 & [-> Hm]%get_mount_inv & Hopen).
  destruct (op_open (ops m)) as [open|];
    [|injection Hopen as <- <-; destruct (Hfail v1 H1) as (? & ? & ? & [?|[]]); auto 10].
  apply M_bind_Ok in Hopen as (data & v2 & H2%on_back_layer & Hopen).
  assert (same_layer v v2) as H12 by (by eapply same_layer_trans).
  destruct (data <? 0); [injection Hopen as <- <-; destruct (Hfail v2 H12) as (? & ? & ? & [?|[]]); auto 10|].
  apply M_bind_Ok in Hopen as (v0 & v0' & [= <- <-] & Hopen).
  destruct H12 as (Hf & Hc & Hmt & Hp).
  assert (alloc_fd v2 = alloc_fd v) as Ha by (unfold alloc_fd; by rewrite Hf).
  destruct (alloc_fd v2 <? 0) eqn:E.
  - apply M_bind_Ok in Hopen as (close & v3 & [_ ->]%lift_Ok & Hopen).
    apply M_bind_Ok in Hopen as (x & v3 & H3%on_back_layer & [= <- <-]).
    destruct H3 as (? & ? & ? & ?). split_and!; try congruence. left. split; [done|congruence].
  - apply M_bind_Ok in Hopen as (f & v3 & (-> & _ & _)%get_fd_inv & Hopen).
    apply M_bind_Ok in Hopen as (u & v3 & ->%put_fd_inv & [= <- <-]). cbn. split_and!; try done.
    right. rewrite Ha in *. bool_hyps.
    destruct (alloc_fd_spec v Hlen) as [[? _]|(Hr & Hfree & Hlow)]; [lia|].
    split; [done|]. split; [done|]. split; [done|].
    exists (mkFd 1 flags 0 VFS_FILE midx data (-1) (pipe_end f)). by rewrite Hf.
Qed.

(** *** Pipes *)

Lemma put_fd_ok i f v : 0 ≤ i < Z.of_nat (length (fd_table v)) →
  put_fd i f v = Ok (tt, set_fds (<[Z.to_nat i := f]> (fd_table v)) v).
Proof. intros. unfold put_fd. by rewrite arr_set_in. Qed.
Lemma get_fd_ok i v f : 0 ≤ i → fd_table v !! Z.to_nat i = Some f → get_fd i v = Ok (f, v).
Proof. intros. unfold get_fd. by rewrite (proj2 (arr_get_Ok _ _ _) (conj H H0)). Qed.

(** Both ends of a pipe get the same descriptor. [vfs_pipe] asks for a second free
    descriptor before it marks the first one used, so [fds[0] = fds[1]], and the entry
    is the write end. When the writer closes its end, as it must for the reader to see
    the end of the data, the reader's descriptor is gone: reading fails with -1
    whatever was written, and the pipe itself is never released. *)
Theorem vfs_pipe_ends_coincide v id ps :
  length (fd_table v) = 32%nat → length (pipes v) = 16%nat →
  pipe_create (pipes v) = (id, ps) → 0 ≤ id → 0 ≤ alloc_fd v →
  ∃ v1 fd, vfs_pipe v = Ok ((0, (fd, fd)), v1) ∧
    ∃ v2, vfs_close fd v1 = Ok (0, v2) ∧
      (∀ yield fuel buf len, vfs_read yield fuel fd buf len v2 = Ok ((-1, buf), v2)) ∧
      ∃ p, pipes v2 !! Z.to_nat id = Some p ∧ p_used p = 1 ∧ p_readers p = 1 ∧ p_writers p = 0.
Proof.
  intros Hlen Hpl Hcr Hid Hal. destruct (alloc_fd_spec v Hlen) as [[? _]|(Hr & (f & Hf & Hu) & _)]; [lia|].
  set (fd := alloc_fd v) in *.
  assert (∃ i, id = Z.of_nat i ∧ ps = <[i := pipe_new]> (pipes v) ∧ (i < length (pipes v))%nat) as (i & -> & -> & Hi).
  { unfold pipe_create in Hcr. destruct (find_idx _ (pipes v)) as [i|] eqn:E; [|injection Hcr as <- _; lia].
    injection Hcr as <- <-. exists i. split_and!; try done. by eapply find_idx_lt. }
  set (v0 := set_pipes (<[i := pipe_new]> (pipes v)) v).
  set (fr := pipe_fd f (Z.of_nat i) 0 O_RDONLY). set (fw := pipe_fd fr (Z.of_nat i) 1 O_WRONLY).
  set (v1 := set_fds (<[Z.to_nat fd := fw]> (fd_table v)) v0).
  exists v1, fd. split.
  { unfold vfs_pipe, mbind, M_bind, get, modify. rewrite Hcr. rewrite (proj2 (Z.ltb_ge (Z.of_nat i) 0)) by lia.
    fold v0. assert (alloc_fd v0 = fd) as Ha by done.
    rewrite Ha, (proj2 (Z.ltb_ge fd 0)) by lia. cbv beta. rewrite Ha, (proj2 (Z.ltb_ge fd 0)) by lia.
    rewrite (get_fd_ok fd v0 f) by (done || lia). rewrite put_fd_ok by (cbn; lia).
    fold fr. erewrite (get_fd_ok fd _ fr); [|lia|cbn; apply list_lookup_insert_eq; lia].
    rewrite put_fd_ok by (cbn; rewrite length_insert; lia). cbn [fd_table set_fds].
    rewrite list_insert_insert_eq. done. }
  assert (fd_table v1 !! Z.to_nat fd = Some fw) as Hfw by (cbn; apply list_lookup_insert_eq; lia).
  set (v2 := set_fds (<[Z.to_nat fd := Vfs.set_used 0 fw]> (fd_table v1))
               (set_pipes (pipe_close_write (Z.of_nat i) (pipes v1)) v1)).
  exists v2. split.
  { unfold vfs_close, mbind, M_bind, get, lift, bad_fd, VFS_MAX_FD, modify.
    rewrite (proj2 (Z.ltb_ge fd 0)), (proj2 (Z.leb_gt 32 fd)) by lia. cbn [orb].
    rewrite (proj2 (arr_get_Ok (fd_table v1) fd fw)) by (split; [lia|done]). cbn [mbind res_bind].
    change (fd_used fw =? 0) with false. cbv beta iota. rewrite (get_fd_ok fd v1 fw) by (done || lia).
    change (fd_type fw =? VFS_PIPE) with true. change (pipe_end fw =? 0) with false. cbv beta iota.
    rewrite put_fd_ok by (cbn; rewrite length_insert; lia). done. }
  split.
  - intros yield fuel buf len. unfold vfs_read, mbind, M_bind, get, lift, bad_fd, VFS_MAX_FD.
    rewrite (proj2 (Z.ltb_ge fd 0)), (proj2 (Z.leb_gt 32 fd)) by lia. cbn [orb].
    rewrite (proj2 (arr_get_Ok (fd_table v2) fd (Vfs.set_used 0 fw))); [done|].
    split; [lia|]. cbn. apply list_lookup_insert_eq. rewrite length_insert. lia.
  - exists (set_writers pipe_new 0). rewrite Nat2Z.id. split; [|done].
    change (pipes v2) with (pipe_close_write (Z.of_nat i) (<[i := pipe_new]> (pipes v))).
    assert (Z.of_nat i < 16) as Hi16 by lia.
    unfold pipe_close_write, PIPE_MAX. rewrite (proj2 (Z.ltb_ge _ _)), (proj2 (Z.leb_gt _ _)) by lia. cbn [orb].
    rewrite Nat2Z.id, list_lookup_alter_eq, list_lookup_insert_eq by done. done.
Qed.
End descriptors.

(** *** Mounts and errors *)
Section lookup.
Context {S : Type}.
Implicit Types (v : vfs S) (m : vfs_mount_t S).

(** The mount is active and its prefix is a prefix of the path. *)
Definition mount_matches (s : list Z) m : Prop :=
  m_active m ≠ 0 ∧ cstring (prefix m) `prefix_of` s.
Definition prefix_len m : Z := Z.of_nat (length (cstring (prefix m))).

Lemma mount_loop_spec l path s i best best_len :
  Forall (λ m, cstr (prefix m) (cstring (prefix m))) l → cstr path s →
  ∃ b n, mount_loop l path i best best_len = Ok (b, n) ∧
    ((b = best ∧ n = best_len ∧ ∀ m, m ∈ l → mount_matches s m → prefix_len m ≤ best_len) ∨
     ∃ k m, b = i + Z.of_nat k ∧ l !! k = Some m ∧ mount_matches s m ∧ n = prefix_len m ∧ best_len < n ∧
       (∀ m', m' ∈ l → mount_matches s m' → prefix_len m' ≤ n) ∧
       (∀ j m', (j < k)%nat → l !! j = Some m' → mount_matches s m' → prefix_len m' < n)).
Proof.
  intros Hl Hp. revert i best best_len. induction Hl as [|m l Hm Hl IH]; intros i best best_len.
  { exists best, best_len. split; [done|]. left. split_and!; [done..|]. by intros m ?%not_elem_of_nil. }
  cbn [mount_loop].
  assert (∀ best best_len, (mount_matches s m → prefix_len m ≤ best_len) →
    ∃ b n, mount_loop l path (i + 1) best best_len = Ok (b, n) ∧
    ((b = best ∧ n = best_len ∧ ∀ m0, m0 ∈ m :: l → mount_matches s m0 → prefix_len m0 ≤ best_len) ∨
     ∃ k m0, b = i + Z.of_nat k ∧ (m :: l) !! k = Some m0 ∧ mount_matches s m0 ∧ n = prefix_len m0 ∧ best_len < n ∧
       (∀ m', m' ∈ m :: l → mount_matches s m' → prefix_len m' ≤ n) ∧
       (∀ j m', (j < k)%nat → (m :: l) !! j = Some m' → mount_matches s m' → prefix_len m' < n))) as Hskip.
  { intros bs bl Hno. destruct (IH (i + 1) bs bl) as (b & n & Heq & Hcase). exists b, n. split; [done|].
    destruct Hcase as [(-> & -> & Hall)|(k & m0 & -> & Hk & Hm0 & Hn & Hlt & Hmax & Hfirst)].
    - left. split_and!; [done..|]. intros m0 [->|?]%elem_of_cons; auto.
    - right. exists (Datatypes.S k), m0. split_and!; try done; [lia| |].
      + intros m' [->|?]%elem_of_cons Hmm; [specialize (Hno Hmm); lia|auto].
      + intros [|j] m' Hj Hlk Hmm; [injection Hlk as <-; specialize (Hno Hmm); lia|].
        eapply (Hfirst j); [lia|done|done]. }
  destruct (Z.eqb_spec (m_active m) 0) as [Ha|Ha]; [apply Hskip; by intros [? _]|].
  rewrite (kstrlen_cstr _ _ Hm). cbn [mbind res_bind]. rewrite Nat2Z.id.
  destruct (kstrncmp_prefix path (prefix m) s (cstring (prefix m)) (length (cstring (prefix m))))
    as (d & -> & Hd); [done..|]. cbn [mbind res_bind]. fold (prefix_len m).
  destruct (Z.eqb_spec d 0) as [Hd0|Hd0]; cbn [andb].
  2: { apply Hskip. intros [_ Hpre]. by apply Hd in Hpre. }
  destruct (Z.ltb_spec best_len (prefix_len m)) as [Hlt|Hle]; [|apply Hskip; by intros _].
  assert (mount_matches s m) as Hmm by (split; [done|by apply Hd]).
  destruct (IH (i + 1) i (prefix_len m)) as (b & n & Heq & Hcase). exists b, n. split; [done|]. right.
  destruct Hcase as [(-> & -> & Hall)|(k & m0 & -> & Hk & Hm0 & -> & Hlt' & Hmax & Hfirst)].
  - exists 0%nat, m. split_and!; try done; [lia| |intros; lia].
    intros m' [->|?]%elem_of_cons ?; [lia|auto].
  - exists (Datatypes.S k), m0. split_and!; try done; [lia|lia| |].
    + intros m' [->|?]%elem_of_cons ?; [lia|auto].
    + intros [|j] m' Hj Hlk Hmm'; [injection Hlk as <-; lia|]. eapply (Hfirst j); [lia|done|done].
Qed.

(** The path below the mount point: one slash after the prefix is dropped. *)
Definition below (rest : list Z) : list Z :=
  match rest with c :: r => if c =? 47 then r else rest | [] => [] end.

Lemma local_path_spec path s p :
  cstr path s → p `prefix_of` s →
  ∃ l, local_path path (Z.of_nat (length p)) = Ok l ∧ cstr l (below (drop (length p) s)).
Proof.
  intros (rest & -> & Hnz) [t ->]. unfold local_path. rewrite Nat2Z.id, <- app_assoc, !drop_app_length.
  unfold nonzero in Hnz. apply Forall_app in Hnz as [_ Ht].
  destruct t as [|c t]; cbn [app].
  - change (arr_get (0 :: rest) 0) with (Ok (A := Z) 0). cbn [mbind res_bind]. change (0 =? 47) with false.
    eexists. split; [done|]. by exists rest.
  - change (arr_get (c :: t ++ 0 :: rest) 0) with (Ok c). cbn [mbind res_bind below].
    apply Forall_cons in Ht as [Hc Ht]. destruct (c =? 47); eexists; (split; [done|]); exists rest; (split; [done|]); [done|].
    by constructor.
Qed.

(** A path belongs to the mount with the longest matching prefix. [find_mount]
    returns an active mount whose prefix the path starts with, no other matching one has
    a longer prefix and no earlier one an equally long one, and the local path is the
    rest without its slash; it returns -1 exactly when no active mount with a non-empty
    prefix matches. *)
Theorem find_mount_longest path s local v :
  Forall (λ m, cstr (prefix m) (cstring (prefix m))) (mounts v) → cstr path s →
  (find_mount path local v = Ok ((-1, local), v) ∧
   ∀ m, m ∈ mounts v → mount_matches s m → prefix_len m = 0) ∨
  (∃ i m l, find_mount path local v = Ok ((Z.of_nat i, l), v) ∧ mounts v !! i = Some m ∧
     mount_matches s m ∧ cstr l (below (drop (length (cstring (prefix m))) s)) ∧
     (∀ m', m' ∈ mounts v → mount_matches s m' → prefix_len m' ≤ prefix_len m) ∧
     (∀ j m', (j < i)%nat → mounts v !! j = Some m' → mount_matches s m' → prefix_len m' < prefix_len m)).
Proof.
  intros Hm Hp. destruct (mount_loop_spec (mounts v) path s 0 (-1) 0 Hm Hp) as (b & n & Heq & Hcase).
  unfold find_mount. rewrite Heq. cbn [mbind res_bind].
  destruct Hcase as [(-> & -> & Hall)|(k & m & -> & Hk & Hmm & -> & Hlt & Hmax & Hfirst)].
  - left. split; [done|]. intros m Hin Hmm. specialize (Hall m Hin Hmm). unfold prefix_len in *. lia.
  - right. destruct (local_path_spec path s (cstring (prefix m)) Hp (proj2 Hmm)) as (l & Hl & Hcl).
    exists k, m, l. rewrite (proj2 (Z.leb_le 0 (0 + Z.of_nat k))) by lia. fold (prefix_len m) in Hl. rewrite Hl.
    split_and!; try done.
Qed.

(** A descriptor that is out of range or not open is an error in every operation:
    reading, writing, closing and duplicating return -1, [vfs_isatty] 0 and
    [vfs_get_fd] NULL, and nothing changes. *)
Theorem vfs_bad_descriptor yield fuel fd newfd buf len v :
  length (fd_table v) = 32%nat →
  (fd < 0 ∨ 32 ≤ fd ∨ ∃ f, fd_table v !! Z.to_nat fd = Some f ∧ fd_used f = 0) →
  vfs_read yield fuel fd buf len v = Ok ((-1, buf), v) ∧
  vfs_write yield fuel fd buf len v = Ok (-1, v) ∧
  vfs_close fd v = Ok (-1, v) ∧ vfs_dup2 fd newfd v = Ok (-1, v) ∧
  vfs_isatty fd v = Ok 0 ∧ vfs_get_fd fd v = Ok None.
Proof.
  intros Hlen Hbad. assert (bad_fd fd v = Ok true) as Hb.
  { unfold bad_fd, VFS_MAX_FD. destruct (Z.ltb_spec fd 0); [done|]. destruct (Z.leb_spec 32 fd); [done|].
    cbn [orb]. destruct Hbad as [?|[?|(f & Hf & Hu)]]; [lia|lia|].
    rewrite (proj2 (arr_get_Ok (fd_table v) fd f)) by (split; [lia|done]). cbn. by rewrite Hu. }
  unfold vfs_read, vfs_write, vfs_close, vfs_dup2, vfs_isatty, vfs_get_fd, mbind, M_bind, get, lift.
  rewrite Hb. done.
Qed.
End lookup.

(** ** Examples *)
Definition null_ops : vfs_ops_t unit := mkOps (Some (λ _ _, mret 0)) None None None None None None.
Definition small_vfs : vfs unit :=
  mkVfs (replicate 32 fd_zero) (lit "/disk")
    [mkMount (lit "/d") null_ops 1; mkMount (lit "/dev") null_ops 1] pipe_init tt.

Lemma vfs_open_descriptor_witness :
  ∃ v', vfs_open (lit "/dev/null") 0 small_vfs = Ok (3, v') ∧ pipes v' = pipe_init.
Proof.
  eexists. split; [vm_compute; reflexivity|].
  eapply (vfs_open_descriptor (lit "/dev/null") 0 small_vfs 3); [reflexivity|vm_compute; reflexivity].
Defined.

Lemma vfs_pipe_ends_coincide_witness :
  ∃ v1 fd, vfs_pipe small_vfs = Ok ((0, (fd, fd)), v1) ∧
    ∃ v2, vfs_close fd v1 = Ok (0, v2) ∧
      (∀ yield fuel buf len, vfs_read yield fuel fd buf len v2 = Ok ((-1, buf), v2)).
Proof.
  edestruct (vfs_pipe_ends_coincide small_vfs 0) as (v1 & fd & H1 & v2 & H2 & H3 & _);
    [reflexivity|reflexivity|vm_compute; reflexivity|lia|vm_compute; discriminate|].
  exists v1, fd. split; [exact H1|]. exists v2. split; [exact H2|exact H3].
Defined.

Lemma find_mount_longest_witness :
  ∃ l, find_mount (lit "/dev/tty") [] small_vfs = Ok ((1, l), small_vfs) ∧ cstr l (str "tty").
Proof.
  destruct (find_mount_longest (lit "/dev/tty") (str "/dev/tty") [] small_vfs)
    as [[Hbad _]|(i & m & l & Hf & Hm & _ & Hl & _)].
  - repeat (constructor; [eexists []; split; [reflexivity|by repeat constructor]|]). constructor.
  - exists []. split; [reflexivity|]. by repeat constructor.
  - vm_compute in Hbad. discriminate Hbad.
  - assert (∃ l0, find_mount (lit "/dev/tty") [] small_vfs = Ok ((1, l0), small_vfs)) as [l0 H0]
      by (eexists; vm_compute; reflexivity).
    assert (i = 1%nat) as -> by (rewrite H0 in Hf; injection Hf as Hi _; lia).
    exists l. split; [exact Hf|]. injection Hm as <-. exact Hl.
Defined.

Lemma vfs_bad_descriptor_witness : vfs_close 7 small_vfs = Ok (-1, small_vfs).
Proof.
  apply (vfs_bad_descriptor (λ p, p) 0 7 0 [] 0 small_vfs); [reflexivity|].
  right. right. exists fd_zero. split; reflexivity.
Defined.
