(* ===== verification/VfsBackends.v ===== *)
(** * The file systems behind the virtual file system (src/src/vfs.c)

    The memory files (through src/src/fs.c), the disk files (through the FAT volume,
    src/src/fat12.c) and the devices (console and keyboard). Each keeps its own table of
    open files; the three tables and what they stand on are the state [backend]. *)

From S2P Require Import Prelude KString Ring Pipe BlockDev Fat12 Vga Ramfs Keyboard Vfs.

Definition MEM_MAX_OPEN : Z := 16.
Definition DISK_BUF_SIZE : Z := 4096.
Definition DISK_MAX_OPEN : Z := 8.

(** [mo_f] is the slot of the file in the table of src/src/fs.c. *)
Record mem_file := mkMemFile { mo_f : nat; mo_pos : Z; mo_used : Z }.
Record disk_file := mkDiskFile {
  do_name : list Z; do_buf : list Z; do_size : Z; do_pos : Z; do_writable : Z; do_used : Z }.

Section backends.
Context {D : Type} `{Disk D}.
Context (fuel : nat) (halt : nat → M kb unit).

Record backend := mkBackend {
  ram : ramfs;
  mem_open : list mem_file;
  fat : fat12 D;
  disk_open : list disk_file;
  term_dev : tty
}.

Definition on_ram {A} (f : ramfs → res (A * ramfs)) : M backend A := λ b,
  r ← f (ram b); Ok (r.1, mkBackend r.2 (mem_open b) (fat b) (disk_open b) (term_dev b)).
Definition look_ram {A} (f : ramfs → res A) : M backend A := λ b, r ← f (ram b); Ok (r, b).
Definition on_fat {A} (m : M (fat12 D) A) : M backend A := λ b,
  match m (fat b) with
  | Ok (a, v) => Ok (a, mkBackend (ram b) (mem_open b) v (disk_open b) (term_dev b))
  | Fault => Fault | Timeout => Timeout end.
Definition on_tty {A} (m : M tty A) : M backend A := λ b,
  match m (term_dev b) with
  | Ok (a, t) => Ok (a, mkBackend (ram b) (mem_open b) (fat b) (disk_open b) t)
  | Fault => Fault | Timeout => Timeout end.
Definition set_mem_open (l : list mem_file) (b : backend) : backend :=
  mkBackend (ram b) l (fat b) (disk_open b) (term_dev b).
Definition set_disk_open (l : list disk_file) (b : backend) : backend :=
  mkBackend (ram b) (mem_open b) (fat b) l (term_dev b).

Definition put_mem (d : Z) (o : mem_file) : M backend unit := λ b,
  l ← arr_set (mem_open b) d o; Ok (tt, set_mem_open l b).
Definition put_disk (d : Z) (o : disk_file) : M backend unit := λ b,
  l ← arr_set (disk_open b) d o; Ok (tt, set_disk_open l b).
Definition get_mem (d : Z) : M backend mem_file := λ b, o ← arr_get (mem_open b) d; Ok (o, b).
Definition get_disk (d : Z) : M backend disk_file := λ b, o ← arr_get (disk_open b) d; Ok (o, b).

(** ** Memory files *)

Definition get_file (i : nat) : M backend fs_file_t := look_ram (λ r, arr_get (files r) (Z.of_nat i)).

Definition mem_vfs_open (path : list Z) (flags : Z) : M backend Z :=
  f ← look_ram (fs_find path);
  f ← (match f with
       | Some _ => mret f
       | None =>
           if has flags O_CREAT then
             r ← on_ram (fs_create path (lit "") 0);
             if r <? 0 then mret None else look_ram (fs_find path)
           else mret None
       end);
  match f with
  | None => mret (-1)
  | Some i =>
      (if has flags O_TRUNC then on_ram (fs_write path (lit "")) else mret 0) ;;
      b ← get;
      match find_idx (λ o, mo_used o =? 0) (mem_open b) with
      | None => mret (-1)
      | Some s =>
          fl ← get_file i;
          put_mem (Z.of_nat s) (mkMemFile i (if has flags O_APPEND then f_size fl else 0) 1) ;;
          mret (Z.of_nat s)
      end
  end.

Definition mem_vfs_close (d : Z) : M backend Z :=
  if (0 <=? d) && (d <? MEM_MAX_OPEN) then
    o ← get_mem d; put_mem d (mkMemFile (mo_f o) (mo_pos o) 0) ;; mret 0
  else mret 0.

(** [d < 0 || d >= MEM_MAX_OPEN || !mem_open[d].used] *)
Definition mem_bad (d : Z) (b : backend) : res bool :=
  if (d <? 0) || (MEM_MAX_OPEN <=? d) then Ok true else o ← arr_get (mem_open b) d; Ok (mo_used o =? 0).

Definition mem_vfs_read (d : Z) (buf : list Z) (len : Z) : M backend (Z * list Z) :=
  b ← get;
  bad ← lift (mem_bad d b);
  if (bad : bool) then mret (-1, buf)
  else
    o ← get_mem d;
    f ← get_file (mo_f o);
    let avail := u32 (f_size f - mo_pos o) in
    let len := if avail <? len then avail else len in
    buf' ← lift (kmemcpy buf (drop (Z.to_nat (mo_pos o)) (f_data f)) (Z.to_nat len));
    put_mem d (mkMemFile (mo_f o) (u32 (mo_pos o + len)) (mo_used o)) ;;
    mret (i32 len, buf').

Definition mem_vfs_write (d : Z) (buf : list Z) (len : Z) : M backend Z :=
  b ← get;
  bad ← lift (mem_bad d b);
  if (bad : bool) then mret (-1)
  else
    o ← get_mem d;
    f ← get_file (mo_f o);
    let keep := if mo_pos o <? f_size f then mo_pos o else f_size f in
    tmp ← lift (kmemcpy (replicate (Z.to_nat 4096) 0) (f_data f) (Z.to_nat keep));
    (if u32 (keep + len) <? 4096 - 1 then
       rest ← lift (kmemcpy (drop (Z.to_nat keep) tmp) buf (Z.to_nat len));
       tmp' ← lift (arr_set (take (Z.to_nat keep) tmp ++ rest) (u32 (keep + len)) 0);
       on_ram (fs_write (f_name f) tmp') ;;
       put_mem d (mkMemFile (mo_f o) (u32 (mo_pos o + len)) (mo_used o))
     else mret tt) ;;
    mret (i32 len).

Definition mem_vfs_stat (path : list Z) (st : vfs_stat_t) : M backend (Z * vfs_stat_t) :=
  r ← look_ram (fs_find path);
  match r with
  | None => mret (-1, st)
  | Some i =>
      f ← get_file i;
      nm ← lift (kstrcpy (st_name st) (f_name f));
      mret (0, mkStat (f_size f) VFS_FILE nm)
  end.

Definition mem_vfs_readdir (path buf : list Z) (sz : Z) : M backend (Z * list Z) :=
  b ← lift (arr_set buf 0 0); mret (0, b).

Definition mem_vfs_unlink (path : list Z) : M backend Z := on_ram (fs_delete path).

Definition mem_ops : vfs_ops_t backend :=
  mkOps (Some mem_vfs_open) (Some mem_vfs_close) (Some mem_vfs_read) (Some mem_vfs_write)
        (Some mem_vfs_stat) (Some mem_vfs_readdir) (Some mem_vfs_unlink).

(** ** Disk files *)

(** [char upper[64]] filled from the path; [room] characters fit. *)
Fixpoint upper_loop (path : list Z) (room : nat) : res (list Z) :=
  match path with
  | [] => Fault
  | c :: path' =>
      if c =? 0 then Ok []
      else match room with
           | O => Ok []
           | S room' => r ← upper_loop path' room'; Ok ((if (97 <=? c) && (c <=? 122) then c - 32 else c) :: r)
           end
  end.
Definition to_upper (path : list Z) : res (list Z) :=
  u ← upper_loop path 63; Ok (u ++ replicate (64 - length u) 0).

Definition fat12_mounted (b : backend) : bool := g_mounted (fat b).

Definition disk_vfs_open (path : list Z) (flags : Z) : M backend Z :=
  b ← get;
  if negb (fat12_mounted b) then mret (-1)
  else
    upper ← lift (to_upper path);
    match find_idx (λ o, do_used o =? 0) (disk_open b) with
    | None => mret (-1)
    | Some s =>
        o ← get_disk (Z.of_nat s);
        r ← on_fat (fat12_read upper DISK_BUF_SIZE);
        let finish (data : list Z) :=
          let n := Z.of_nat (length data) in
          let size := if has flags O_TRUNC then 0 else n in
          let pos := if has flags O_TRUNC then 0 else if has flags O_APPEND then n else 0 in
          nm ← lift (kstrcpy (do_name o) upper);
          put_disk (Z.of_nat s)
            (mkDiskFile nm (data ++ drop (length data) (do_buf o)) size pos
               (if has flags (Z.lor (Z.lor O_WRONLY O_RDWR) O_CREAT) then 1 else 0) 1) ;;
          mret (Z.of_nat s) in
        match r with
        | Some data => finish data
        | None =>
            if has flags O_CREAT then on_fat (fat12_write upper (lit "") 0) ;; finish []
            else mret (-1)
        end
    end.

Definition disk_bad (d : Z) (b : backend) : res bool :=
  if (d <? 0) || (DISK_MAX_OPEN <=? d) then Ok true else o ← arr_get (disk_open b) d; Ok (do_used o =? 0).

Definition disk_vfs_close (d : Z) : M backend Z :=
  b ← get;
  bad ← lift (disk_bad d b);
  if (bad : bool) then mret (-1)
  else
    o ← get_disk d;
    (if negb (do_writable o =? 0) && (0 <? do_size o) then
       on_fat (fat12_write (do_name o) (do_buf o) (do_size o))
     else mret 0) ;;
    put_disk d (mkDiskFile (do_name o) (do_buf o) (do_size o) (do_pos o) (do_writable o) 0) ;;
    mret 0.

Definition disk_vfs_read (d : Z) (buf : list Z) (len : Z) : M backend (Z * list Z) :=
  b ← get;
  bad ← lift (disk_bad d b);
  if (bad : bool) then mret (-1, buf)
  else
    o ← get_disk d;
    let avail := u32 (do_size o - do_pos o) in
    let len := if avail <? len then avail else len in
    buf' ← lift (kmemcpy buf (drop (Z.to_nat (do_pos o)) (do_buf o)) (Z.to_nat len));
    put_disk d (mkDiskFile (do_name o) (do_buf o) (do_size o) (u32 (do_pos o + len)) (do_writable o) (do_used o)) ;;
    mret (i32 len, buf').

Definition disk_vfs_write (d : Z) (buf : list Z) (len : Z) : M backend Z :=
  b ← get;
  bad ← lift (disk_bad d b);
  if (bad : bool) then mret (-1)
  else
    o ← get_disk d;
    let len := if DISK_BUF_SIZE <=? u32 (do_pos o + len) then u32 (DISK_BUF_SIZE - do_pos o - 1) else len in
    rest ← lift (kmemcpy (drop (Z.to_nat (do_pos o)) (do_buf o)) buf (Z.to_nat len));
    let pos := u32 (do_pos o + len) in
    put_disk d (mkDiskFile (do_name o) (take (Z.to_nat (do_pos o)) (do_buf o) ++ rest)
                  (if do_size o <? pos then pos else do_size o) pos (do_writable o) (do_used o)) ;;
    mret (i32 len).

(** The first entry with the name. *)
Fixpoint find_entry (l : list fat12_entry_t) (upper : list Z) : res (option fat12_entry_t) :=
  match l with
  | [] => Ok None
  | e :: l' => d ← kstrcmp (fe_name e) upper; if d =? 0 then Ok (Some e) else find_entry l' upper
  end.

Definition disk_vfs_stat (path : list Z) (st : vfs_stat_t) : M backend (Z * vfs_stat_t) :=
  b ← get;
  if negb (fat12_mounted b) then mret (-1, st)
  else
    upper ← lift (to_upper path);
    l ← on_fat (fat12_list 64);
    r ← lift (find_entry (default [] l) upper);
    match r with
    | None => mret (-1, st)
    | Some e => nm ← lift (kstrcpy (st_name st) (fe_name e)); mret (0, mkStat (fe_size e) VFS_FILE nm)
    end.

(** The names, one per line, while more than 20 bytes are left. *)
Fixpoint readdir_loop (l : list fat12_entry_t) (buf : list Z) (pos sz : Z) : res (list Z * Z) :=
  match l with
  | [] => Ok (buf, pos)
  | e :: l' =>
      if u32 (pos + 20) <? sz then
        t ← kstrcpy (drop (Z.to_nat pos) buf) (fe_name e);
        n ← kstrlen (fe_name e);
        b ← arr_set (take (Z.to_nat pos) buf ++ t) (pos + n) 10;
        readdir_loop l' b (pos + n + 1) sz
      else Ok (buf, pos)
  end.

Definition disk_vfs_readdir (path buf : list Z) (sz : Z) : M backend (Z * list Z) :=
  b ← get;
  if negb (fat12_mounted b) then mret (0, buf)
  else
    l ← on_fat (fat12_list 64);
    r ← lift (readdir_loop (default [] l) buf 0 sz);
    buf' ← lift (arr_set r.1 r.2 0);
    mret (i32 r.2, buf').

Definition disk_vfs_unlink (path : list Z) : M backend Z :=
  upper ← lift (to_upper path); on_fat (fat12_delete upper).

Definition disk_ops : vfs_ops_t backend :=
  mkOps (Some disk_vfs_open) (Some disk_vfs_close) (Some disk_vfs_read) (Some disk_vfs_write)
        (Some disk_vfs_stat) (Some disk_vfs_readdir) (Some disk_vfs_unlink).

(** ** Devices *)

Definition dev_vfs_open (path : list Z) (flags : Z) : M backend Z := lift (
  a ← kstrcmp path (lit "stdin");
  if a =? 0 then Ok 0 else
  b ← kstrcmp path (lit "tty");
  if b =? 0 then Ok 0 else
  c ← kstrcmp path (lit "stdout");
  if c =? 0 then Ok 1 else
  d ← kstrcmp path (lit "stderr");
  if d =? 0 then Ok 2 else
  e ← kstrcmp path (lit "null");
  Ok (if e =? 0 then 3 else -1)).

Definition dev_vfs_close (d : Z) : M backend Z := mret 0.

Definition dev_vfs_read (d : Z) (buf : list Z) (len : Z) : M backend (Z * list Z) :=
  if d =? 0 then on_tty (keyboard_getline fuel halt buf (i32 len))
  else if d =? 3 then mret (0, buf)
  else mret (-1, buf).

Fixpoint putchars (n : nat) (s : list Z) : M tty unit :=
  match n with
  | O => mret tt
  | S n' => match s with [] => lift Fault | c :: s' => on_vga (vga_putchar c) ;; putchars n' s' end
  end.

Definition dev_vfs_write (d : Z) (buf : list Z) (len : Z) : M backend Z :=
  if (d =? 1) || (d =? 2) then on_tty (putchars (Z.to_nat len) buf) ;; mret (i32 len)
  else if d =? 3 then mret (i32 len)
  else mret (-1).

Definition dev_vfs_stat (path : list Z) (st : vfs_stat_t) : M backend (Z * vfs_stat_t) :=
  nm ← lift (kstrcpy (st_name st) path); mret (0, mkStat 0 VFS_DEV nm).

Definition dev_ops : vfs_ops_t backend :=
  mkOps (Some dev_vfs_open) (Some dev_vfs_close) (Some dev_vfs_read) (Some dev_vfs_write)
        (Some dev_vfs_stat) None None.

(** ** Start-up *)
Definition mem_file_zero : mem_file := mkMemFile 0 0 0.
Definition disk_file_zero : disk_file := mkDiskFile (replicate 64 0) (replicate (Z.to_nat 4096) 0) 0 0 0 0.

Definition vfs_init : M (vfs backend) unit :=
  modify (λ v, mkVfs (replicate 32 fd_zero) (cwd v) [] pipe_init
            (set_mem_open (replicate 16 mem_file_zero)
               (set_disk_open (replicate 8 disk_file_zero) (back v)))) ;;
  vfs_mount (lit "/mem") mem_ops ;;
  vfs_mount (lit "/disk") disk_ops ;;
  vfs_mount (lit "/dev") dev_ops ;;
  mret tt.

End backends.
Arguments backend D : clear implicits.
