(* ===== verification/Procfs.v ===== *)
(** * The proc file system (src/src/procfs.c)

    The files are texts about the other components, built in one buffer when they are
    opened. The state [procfs] holds the components they are about; the operations are
    mounted in the file layer of Vfs.v like those of VfsBackends.v. *)

From S2P Require Import Prelude KString Ports KMalloc Pmm Paging Vga Dmesg Rtc Process Sched Signal Net NetProps Vfs.

Section procfs.
Context {C : Type} `{Ports C} {DN : Type} `{Nic DN} (fuel : nat).

Record procfs := mkProcfs {
  total_mem_kb : Z;
  pf_vm : vm;
  pf_net : net DN kheap;
  pf_cmos : C;
  pf_log : dmesg;
  proc_buf : list Z;
  proc_pos : Z
}.
Definition set_buf (b : list Z) (s : procfs) : procfs :=
  mkProcfs (total_mem_kb s) (pf_vm s) (pf_net s) (pf_cmos s) (pf_log s) b (proc_pos s).
Definition set_ppos (p : Z) (s : procfs) : procfs :=
  mkProcfs (total_mem_kb s) (pf_vm s) (pf_net s) (pf_cmos s) (pf_log s) (proc_buf s) p.
Definition set_pcmos (c : C) (s : procfs) : procfs :=
  mkProcfs (total_mem_kb s) (pf_vm s) (pf_net s) c (pf_log s) (proc_buf s) (proc_pos s).

Definition the_sched (s : procfs) : sched kheap := sg_sched (t_sig (clock (pf_net s))).
Definition peek {A} (f : procfs → res A) : M procfs A := λ s, a ← f s; Ok (a, s).

(** The digits are collected from [tmp[10]] down. *)
Definition uint_to_str (n : Z) (buf : list Z) : res (list Z) :=
  if n =? 0 then b ← arr_set buf 0 48; arr_set b 1 0
  else ds ← dec_digits 11 n []; kstrcpy buf (ds ++ [0]).

(** [kstrcpy] to the buffer, [kstrcat] to it, and [kstrcat] of a number by way of [n]. *)
Definition cpy (s : list Z) : M procfs unit := λ p, b ← kstrcpy (proc_buf p) s; Ok (tt, set_buf b p).
Definition cat (s : list Z) : M procfs unit := λ p, b ← kstrcat (proc_buf p) s; Ok (tt, set_buf b p).
Definition cat_num (room : nat) (v : Z) : M procfs unit := n ← lift (uint_to_str (u32 v) (replicate room 0)); cat n.

Definition build_meminfo : M procfs unit :=
  s ← get;
  cpy (lit "MemTotal:  ") ;; cat_num 16 (total_mem_kb s) ;; cat (lit " KB
") ;;
  let p := pm (pf_vm s) in
  cat (lit "MemUsed:   ") ;; cat_num 16 (pmm_used_frames p * 4) ;; cat (lit " KB
") ;;
  cat (lit "MemFree:   ") ;; cat_num 16 ((pmm_total_frames p - pmm_used_frames p) * 4) ;; cat (lit " KB
") ;;
  cat (lit "HeapUsed:  ") ;;
  u ← peek (λ s, let h := heap (the_sched s) in kmalloc_used (S (Z.to_nat (u32 (heap_end h - heap_start h)))) h);
  cat_num 16 u ;; cat (lit " B
") ;;
  cat (lit "Paging:    enabled
").

Definition build_uptime : M procfs unit :=
  t ← peek (λ s, timer_seconds (clock (pf_net s)));
  n ← lift (uint_to_str (u32 t) (replicate 16 0));
  cpy n ;; cat (lit " seconds
").

Definition build_version : M procfs unit := cpy (lit "KumOS 1.8 x86
").

Definition state_name (st : task_state_t) : list Z :=
  match st with
  | TASK_RUNNING => lit "RUN" | TASK_READY => lit "RDY" | TASK_SLEEPING => lit "SLP" | TASK_ZOMBIE => lit "ZOM"
  | TASK_DEAD => lit "???"
  end.
(** The turn of the loop for pid [i]. *)
Definition ps_row (i : Z) : M procfs unit :=
  r ← gets (λ s, sched_get_task i (the_sched s));
  match r with
  | None => mret tt
  | Some k =>
      t ← peek (λ s, arr_get (tasks (the_sched s)) (Z.of_nat k));
      if decide (state t = TASK_DEAD) then mret tt
      else
        cat_num 12 (pid t) ;; cat (lit "    ") ;;
        cat (state_name (state t)) ;; cat (lit "  ") ;;
        cat (name t) ;; cat (lit "
")
  end.
Definition build_ps : M procfs unit :=
  cpy (lit "PID  STATE  NAME
") ;;
  for_range 1 (SCHED_MAX_TASKS + 1) ps_row.

Fixpoint mac_bytes (i : Z) (mac : list Z) : M procfs unit :=
  match mac with
  | [] => mret tt
  | b :: mac' =>
      hi ← lift (arr_get (lit "0123456789ABCDEF") (Z.shiftr b 4));
      lo ← lift (arr_get (lit "0123456789ABCDEF") (Z.land b 0xF));
      cat [hi; lo; 0] ;;
      (if i <? 5 then cat (lit ":") else mret tt) ;;
      mac_bytes (i + 1) mac'
  end.
Definition build_net : M procfs unit :=
  s ← get;
  if negb (net_ready (pf_net s)) then cpy (lit "no network
")
  else
    mac ← lift (net_get_mac (replicate 6 0) (pf_net s));
    cpy (lit "mac: ") ;;
    mac_bytes 0 mac ;;
    cat (lit "
ip:  10.0.2.15
").

(** The date is put together in [buf] of 32 bytes, from numbers in [n] of 8. *)
Definition add_num (two : bool) (v : Z) (sep : list Z) (buf : list Z) : res (list Z) :=
  b ← (if two && (v <? 10) then kstrcat buf (lit "0") else Ok buf);
  n ← uint_to_str v (replicate 8 0);
  b ← kstrcat b n; kstrcat b sep.
Definition date_text (t : rtc_time_t) : res (list Z) :=
  n ← uint_to_str (year t) (replicate 8 0);
  b ← kstrcpy (replicate 32 0) n;
  b ← kstrcat b (lit "-");
  b ← add_num true (month t) (lit "-") b;
  b ← add_num true (day t) (lit " ") b;
  b ← add_num true (hour t) (lit ":") b;
  b ← add_num true (minute t) (lit ":") b;
  add_num true (second t) (lit "
") b.
Definition build_date : M procfs unit :=
  t ← zoom pf_cmos set_pcmos (rtc_read fuel);
  b ← lift (date_text t); cpy b.

Definition proc_open (path : list Z) (flags : Z) : M procfs Z :=
  d ← lift (kstrcmp path (lit "meminfo"));
  if d =? 0 then build_meminfo ;; mret 1 else
  d ← lift (kstrcmp path (lit "uptime"));
  if d =? 0 then build_uptime ;; mret 2 else
  d ← lift (kstrcmp path (lit "version"));
  if d =? 0 then build_version ;; mret 3 else
  d ← lift (kstrcmp path (lit "ps"));
  if d =? 0 then build_ps ;; mret 4 else
  d ← lift (kstrcmp path (lit "net"));
  if d =? 0 then build_net ;; mret 5 else
  d ← lift (kstrcmp path (lit "date"));
  if d =? 0 then build_date ;; mret 6 else
  d ← lift (kstrcmp path (lit "dmesg"));
  if d =? 0 then
    b ← peek (λ s, dmesg_read (proc_buf s) 2048 (pf_log s));
    modify (set_buf (b : Z * list Z).2) ;; mret 7
  else mret (-1).

Definition proc_close (d : Z) : M procfs Z := modify (set_ppos 0) ;; mret 0.
Definition proc_read (d : Z) (buf : list Z) (len : Z) : M procfs (Z * list Z) :=
  s ← get;
  n ← lift (kstrlen (proc_buf s));
  let avail := u32 (n - u32 (proc_pos s)) in
  let len := if avail <? len then avail else len in
  if len =? 0 then mret (0, buf)
  else
    b ← lift (kmemcpy buf (drop (Z.to_nat (proc_pos s)) (proc_buf s)) (Z.to_nat len));
    modify (set_ppos (i32 (proc_pos s + i32 len))) ;;
    mret (i32 len, b).
Definition proc_write (d : Z) (buf : list Z) (len : Z) : M procfs Z := mret (-1).
Definition proc_stat (path : list Z) (st : vfs_stat_t) : M procfs (Z * vfs_stat_t) :=
  nm ← lift (kstrcpy (st_name st) path); mret (0, mkStat 0 VFS_FILE nm).
Definition proc_readdir (path buf : list Z) (sz : Z) : M procfs (Z * list Z) :=
  b ← lift (kstrcpy buf (lit "meminfo
uptime
version
ps
net
date
dmesg
"));
  n ← lift (kstrlen b); mret (i32 n, b).

Definition proc_ops : vfs_ops_t procfs :=
  mkOps (Some proc_open) (Some proc_close) (Some proc_read) (Some proc_write) (Some proc_stat) (Some proc_readdir) None.
Definition proc_fs_init : M (vfs procfs) unit := vfs_mount (lit "/proc") proc_ops ;; mret tt.
End procfs.
Arguments procfs C DN : clear implicits.

(** ** Numerals *)

Definition numeral (n : Z) : list Z := if n =? 0 then [48] else match dec_digits 11 n [] with Ok ds => ds | _ => [] end.

(** A number of at most [k] digits. *)
Lemma numeral_spec n k : 0 ≤ n < 10 ^ Z.of_nat k → (1 ≤ k ≤ 11)%nat →
  nonzero (numeral n) ∧ (1 ≤ length (numeral n) ≤ k)%nat ∧ num_value 10 (numeral n) = n ∧
  (n ≠ 0 → dec_digits 11 n [] = Ok (numeral n)).
Proof.
  intros Hn Hk. unfold numeral. destruct (Z.eqb_spec n 0) as [->|Hne].
  { split_and!; [by repeat constructor|cbn; lia|cbn; lia|done|done]. }
  destruct (dec_digits_spec k n []) as (ds & E & Hv & Hd & Hne'); [done|]. rewrite app_nil_r in E.
  pose proof (dec_digits_length _ _ _ _ E) as Hl. cbn in Hl. apply dec_digits_room with (k := 11%nat) in E; [|lia].
  rewrite E. specialize (Hne' ltac:(lia)). split_and!; try done; try lia.
  - eapply Forall_impl; [exact Hd|]. cbn. lia.
  - destruct ds; [done|cbn; lia].
Qed.

Lemma uint_to_str_ok n k buf : 0 ≤ n < 10 ^ Z.of_nat k → (1 ≤ k ≤ 11)%nat → (k < length buf)%nat →
  ∃ b, uint_to_str n buf = Ok b ∧ cstr b (numeral n).
Proof.
  intros Hn Hk Hb. destruct (numeral_spec n k Hn Hk) as (Hz & Hl & _ & Hd). unfold uint_to_str.
  destruct (Z.eqb_spec n 0) as [->|Hne].
  - destruct buf as [|x [|y buf]]; cbn in Hb; try lia. rewrite arr_set_in by (cbn; lia). cbn [mbind res_bind]. rewrite arr_set_in by (rewrite length_insert; cbn; lia). eexists. split; [done|]. exists buf. split; [done|by repeat constructor].
  - rewrite Hd by done. cbn [mbind res_bind].
    destruct (kstrcpy_roundtrip buf (numeral n ++ [0]) (numeral n)) as (b & E & Hc & _); [by apply cstr_arg|lia|].
    by exists b.
Qed.

(** ** The texts *)
Section texts.
Context {C : Type} `{Ports C} {DN : Type} `{Nic DN} (fuel : nat).
Implicit Types s : procfs C DN.

Definition line (x y z : list Z) : list Z := x ++ y ++ z.
Definition meminfo_text s (u : Z) : list Z :=
  let p := pm (pf_vm s) in
  line (str "MemTotal:  ") (numeral (u32 (total_mem_kb s))) (str " KB
") ++
  line (str "MemUsed:   ") (numeral (u32 (pmm_used_frames p * 4))) (str " KB
") ++
  line (str "MemFree:   ") (numeral (u32 ((pmm_total_frames p - pmm_used_frames p) * 4))) (str " KB
") ++
  line (str "HeapUsed:  ") (numeral (u32 u)) (str " B
") ++ str "Paging:    enabled
".

(** The row of a task, and of the task with a pid. *)
Definition state_text (st : task_state_t) : list Z :=
  match st with
  | TASK_RUNNING => str "RUN" | TASK_READY => str "RDY" | TASK_SLEEPING => str "SLP" | TASK_ZOMBIE => str "ZOM"
  | TASK_DEAD => str "???"
  end.
Definition task_row (t : task_t) : list Z :=
  numeral (u32 (pid t)) ++ str "    " ++ state_text (state t) ++ str "  " ++ cstring (name t) ++ str "
".
Definition pid_row (sc : sched kheap) (i : Z) : list Z :=
  match sched_get_task i sc with
  | Some k => match tasks sc !! k with Some t => task_row t | None => [] end
  | None => []
  end.
Definition ps_text (sc : sched kheap) : list Z := str "PID  STATE  NAME
" ++ (i ← seqZ 1 16; pid_row sc i).

Definition hex_pair (b : Z) : list Z := [str "0123456789ABCDEF" !!! Z.to_nat (b / 16); str "0123456789ABCDEF" !!! Z.to_nat (b mod 16)].
Definition mac_text (mac : list Z) : list Z := foldr (λ b r, hex_pair b ++ match r with [] => [] | _ => str ":" ++ r end) [] mac.
Definition net_text (mac : list Z) : list Z := str "mac: " ++ mac_text mac ++ str "
ip:  10.0.2.15
".

Definition two (v : Z) : list Z := if v <? 10 then str "0" ++ numeral v else numeral v.
Definition date_line (t : rtc_time_t) : list Z :=
  numeral (year t) ++ str "-" ++ two (month t) ++ str "-" ++ two (day t) ++ str " " ++
  two (hour t) ++ str ":" ++ two (minute t) ++ str ":" ++ two (second t) ++ str "
".

(** Task names are C strings of at most 31 bytes. *)
Definition named (sc : sched kheap) : Prop := Forall (λ t, ∃ n, cstr (name t) n ∧ (length n < 32)%nat) (tasks sc).
Definition byte_fields (t : rtc_time_t) : Prop :=
  Forall (λ v, 0 ≤ v < 256) [month t; day t; hour t; minute t; second t] ∧ 0 ≤ year t < 10000.

(** What a file says in a state, and the state of the clock afterwards. *)
Inductive proc_text s : list Z → Z → list Z → C → Prop :=
| pt_meminfo u : (let h := heap (the_sched s) in kmalloc_used (S (Z.to_nat (u32 (heap_end h - heap_start h)))) h) = Ok u →
    proc_text s (str "meminfo") 1 (meminfo_text s u) (pf_cmos s)
| pt_uptime t : timer_seconds (clock (pf_net s)) = Ok t → proc_text s (str "uptime") 2 (numeral (u32 t) ++ str " seconds
") (pf_cmos s)
| pt_version : proc_text s (str "version") 3 (str "KumOS 1.8 x86
") (pf_cmos s)
| pt_ps : named (the_sched s) → proc_text s (str "ps") 4 (ps_text (the_sched s)) (pf_cmos s)
| pt_no_net : net_ready (pf_net s) = false → proc_text s (str "net") 5 (str "no network
") (pf_cmos s)
| pt_net : net_ready (pf_net s) = true → length (my_mac (pf_net s)) = 6%nat → bytes (my_mac (pf_net s)) →
    proc_text s (str "net") 5 (net_text (my_mac (pf_net s))) (pf_cmos s)
| pt_date t c : rtc_read fuel (pf_cmos s) = Ok (t, c) → byte_fields t → proc_text s (str "date") 6 (date_line t) c
| pt_dmesg L : logged (pf_log s) L → nonzero L → proc_text s (str "dmesg") 7 (take (Z.to_nat 2047) (window L)) (pf_cmos s).

(** The buffer holds [t]; nothing else differs from [s]. *)
Definition holds s (t : list Z) (s' : procfs C DN) : Prop :=
  ∃ b, s' = set_buf b s ∧ length b = Z.to_nat 2048 ∧ cstr b t.

Lemma holds_cpy s x u t0 s' (Q : unit → procfs C DN → Prop) : holds s t0 s' → cstr x u → (length u < Z.to_nat 2048)%nat →
  (∀ s2, holds s u s2 → Q tt s2) → wp (cpy x) Q s'.
Proof.
  intros (b & -> & Hl & _) Hx Hu HQ. unfold wp, cpy. cbn [proc_buf set_buf].
  destruct (kstrcpy_roundtrip b x u Hx) as (b' & -> & Hc & Hl'); [lia|]. cbn. apply HQ. exists b'. split; [done|]. split; [congruence|done].
Qed.
Lemma holds_cat s x u t s' (Q : unit → procfs C DN → Prop) : holds s t s' → cstr x u → (length t + length u < Z.to_nat 2048)%nat →
  (∀ s2, holds s (t ++ u) s2 → Q tt s2) → wp (cat x) Q s'.
Proof.
  intros (b & -> & Hl & Ht) Hx Hu HQ. unfold wp, cat. cbn [proc_buf set_buf].
  destruct (kstrcat_cstr b x t u Ht Hx) as (b' & -> & Hc & Hl'); [lia|]. cbn. apply HQ. exists b'. split; [done|]. split; [congruence|done].
Qed.
Lemma length_numeral v : (1 ≤ length (numeral (u32 v)) ≤ 10)%nat.
Proof. apply (numeral_spec _ 10); [|lia]. pose proof (u32_range v). change (10 ^ Z.of_nat 10) with 10000000000. lia. Qed.
Lemma holds_cat_num room s v t s' (Q : unit → procfs C DN → Prop) : holds s t s' → (10 < room)%nat → (length t + 10 < Z.to_nat 2048)%nat →
  (∀ s2, holds s (t ++ numeral (u32 v)) s2 → Q tt s2) → wp (cat_num room v) Q s'.
Proof.
  intros Ht Hr Hl HQ. unfold cat_num. pose proof (length_numeral v).
  destruct (uint_to_str_ok (u32 v) 10 (replicate room 0)) as (b & E & Hb);
    [pose proof (u32_range v); change (10 ^ Z.of_nat 10) with 10000000000; lia|lia|by rewrite length_replicate|].
  apply wp_bind. eapply wp_lift; [exact E|]. eapply holds_cat; [done|done|lia|done].
Qed.

Lemma length_state st : length (state_text st) = 3%nat.
Proof. by destruct st. Qed.
Lemma state_name_text st : cstr (state_name st) (state_text st).
Proof. destruct st; by apply lit_test. Qed.

(** Sizes of texts put together from literals and numbers. *)
Ltac text_size :=
  unfold line; rewrite ?length_app, ?length_state;
  repeat match goal with |- context [length (str ?x)] => let n := eval vm_compute in (length (str x)) in change (length (str x)) with n end;
  repeat match goal with |- context [length (numeral (u32 ?v))] =>
    let H := fresh in pose proof (length_numeral v) as H; revert H; generalize (length (numeral (u32 v))); intros ? H end;
  change (Z.to_nat 2048) with 2048%nat; lia.
(** The next string or number of a text. *)
Ltac next_cat := first
  [ apply wp_bind; eapply holds_cat_num; [eassumption|lia|text_size|intros ? ?]
  | apply wp_bind; eapply holds_cat; [eassumption|by apply lit_test|text_size|intros ? ?]
  | eapply holds_cat; [eassumption|by apply lit_test|text_size|intros ? ?] ].

Lemma holds_start s t : length (proc_buf s) = Z.to_nat 2048 → cstr (proc_buf s) t → holds s t s.
Proof. intros Hl Ht. exists (proc_buf s). split; [by destruct s|done]. Qed.

Lemma build_meminfo_ok s t0 u (Q : unit → procfs C DN → Prop) :
  holds s t0 s → (let h := heap (the_sched s) in kmalloc_used (S (Z.to_nat (u32 (heap_end h - heap_start h)))) h) = Ok u →
  (∀ s2, holds s (meminfo_text s u) s2 → Q tt s2) → wp build_meminfo Q s.
Proof.
  intros Hs Hu HQ. unfold build_meminfo. apply wp_bind. unfold get. unfold wp at 1.
  apply wp_bind. eapply holds_cpy; [done|by apply lit_test|text_size|]. intros s1 Hs1.
  do 9 next_cat. apply wp_bind. unfold wp at 1, peek. 
  match goal with H : holds s ?t ?s9 |- _ => assert (the_sched s9 = the_sched s) as -> by (destruct H as (b & -> & _); done) end.
  cbn zeta in Hu. rewrite Hu. cbn [mbind res_bind]. do 3 next_cat. apply HQ. unfold meminfo_text, line. cbn zeta.
  by rewrite <- !app_assoc in *.
Qed.

Lemma build_uptime_ok s t0 t (Q : unit → procfs C DN → Prop) : holds s t0 s → timer_seconds (clock (pf_net s)) = Ok t →
  (∀ s2, holds s (numeral (u32 t) ++ str " seconds
") s2 → Q tt s2) → wp build_uptime Q s.
Proof.
  intros Hs Ht HQ. unfold build_uptime. apply wp_bind. unfold wp at 1, peek. rewrite Ht. cbn [mbind res_bind].
  pose proof (length_numeral t). destruct (uint_to_str_ok (u32 t) 10 (replicate 16 0)) as (b & E & Hb);
    [pose proof (u32_range t); change (10 ^ Z.of_nat 10) with 10000000000; lia|lia|cbn; lia|].
  apply wp_bind. eapply wp_lift; [exact E|]. apply wp_bind. eapply holds_cpy; [done|done|lia|]. intros s1 Hs1. next_cat. by apply HQ.
Qed.

Lemma task_row_size t : (∃ n, cstr (name t) n ∧ (length n < 32)%nat) → (length (task_row t) ≤ 51)%nat.
Proof.
  intros (n & Hn & Hl). unfold task_row. rewrite (cstr_cstring _ _ Hn), !length_app. pose proof (length_numeral (pid t)).
  text_size.
Qed.

(** The rows of the task table fit the buffer. *)
Lemma ps_rows_ok s n i t s1 (Q : unit → procfs C DN → Prop) :
  named (the_sched s) → holds s t s1 → (length t + 51 * n < Z.to_nat 2048)%nat →
  (∀ s2, holds s (t ++ (k ← seqZ i (Z.of_nat n); pid_row (the_sched s) k)) s2 → Q tt s2) →
  wp (for_up n i ps_row) Q s1.
Proof.
  intros Hnm. revert i t s1. induction n as [|n IH]; intros i t s1 Ht Hl HQ; cbn [for_up].
  { apply wp_ret, HQ. by rewrite app_nil_r. }
  rewrite seqZ_cons in HQ by lia. rewrite Nat2Z.inj_succ, Z.pred_succ in HQ. cbn [mbind list_bind] in HQ.
  assert (the_sched s1 = the_sched s) as Es by (destruct Ht as (b & -> & _); done).
  apply wp_bind. unfold ps_row at 1. apply wp_bind. apply wp_gets. rewrite Es.
  unfold pid_row at 1 in HQ. destruct (sched_get_task i (the_sched s)) as [k|] eqn:Ek.
  2: { apply wp_ret. by apply (IH (i + 1) t); [|lia|]. }
  apply find_idx_lookup in Ek as (tk & Hk & Hlive). unfold first_tasks in Hk. apply lookup_take_Some in Hk as [Hk _].
  rewrite Hk in HQ. apply wp_bind. unfold wp at 1, peek. rewrite Es, (arr_get_nat _ _ tk) by done. cbn [mbind res_bind].
  bool_hyps. rewrite bool_decide_eq_false in *. rewrite decide_False by done.
  unfold named in Hnm. rewrite Forall_lookup in Hnm. pose proof (task_row_size tk (Hnm _ _ Hk)) as Hrow.
  destruct (Hnm _ _ Hk) as (nm & Hc & Hnl). unfold task_row in Hrow, HQ. rewrite (cstr_cstring _ _ Hc) in Hrow, HQ.
  do 2 next_cat.
  apply wp_bind. eapply holds_cat; [eassumption|apply state_name_text|text_size|]. intros ? ?. next_cat. apply wp_bind. eapply holds_cat; [eassumption|done|text_size|]. intros ? ?. next_cat.
  eapply IH; [eassumption| |].
  - rewrite <- !app_assoc, length_app. lia.
  - intros s9 Hs9. apply HQ. by rewrite <- !app_assoc in *.
Qed.

Lemma build_ps_ok s t0 (Q : unit → procfs C DN → Prop) : holds s t0 s → named (the_sched s) →
  (∀ s2, holds s (ps_text (the_sched s)) s2 → Q tt s2) → wp build_ps Q s.
Proof.
  intros Hs Hn HQ. unfold build_ps. apply wp_bind. eapply holds_cpy; [done|by apply lit_test|text_size|]. intros s1 Hs1.
  eapply (ps_rows_ok s 16); [done|done|text_size|done].
Qed.

Lemma hex_digit k : 0 ≤ k < 16 → ∃ c, arr_get (lit "0123456789ABCDEF") k = Ok c ∧ str "0123456789ABCDEF" !!! Z.to_nat k = c ∧ c ≠ 0.
Proof.
  intros Hk. assert (∃ i : nat, k = Z.of_nat i ∧ (i < 16)%nat) as (i & -> & Hi) by (exists (Z.to_nat k); lia).
  do 16 (destruct i as [|i]; [eexists; split; [reflexivity|split; [reflexivity|done]]|]). lia.
Qed.

Lemma mac_bytes_ok s i mac t s1 (Q : unit → procfs C DN → Prop) :
  holds s t s1 → bytes mac → i + Z.of_nat (length mac) = 6 → (length t + 3 * length mac < Z.to_nat 2048)%nat →
  (∀ s2, holds s (t ++ mac_text mac) s2 → Q tt s2) → wp (mac_bytes i mac) Q s1.
Proof.
  intros Ht Hb. revert i t s1 Ht. induction Hb as [|b mac Hb Hmac IH]; intros i t s1 Ht Hi Hl HQ; cbn [mac_bytes].
  { apply wp_ret, HQ. by rewrite app_nil_r. }
  unfold is_byte in Hb. cbn [length] in Hi, Hl. change 0xF with (2 ^ 4 - 1). rewrite land_low, Z.shiftr_div_pow2 by lia. change (2 ^ 4) with 16.
  destruct (hex_digit (b / 16)) as (h & Eh & Hh & Hh0); [split; [apply Z.div_pos; lia|apply Z.div_lt_upper_bound; lia]|].
  destruct (hex_digit (b mod 16)) as (l & El & Hl' & Hl0); [apply Z.mod_pos_bound; lia|].
  apply wp_bind. eapply wp_lift; [exact Eh|]. apply wp_bind. eapply wp_lift; [exact El|].
  apply wp_bind. eapply (holds_cat s _ [h; l]); [done|exists []; split; [reflexivity|by repeat constructor]|cbn; lia|]. intros s2 Hs2.
  cbn [mac_text foldr] in HQ. fold (mac_text mac) in HQ. unfold hex_pair in HQ. rewrite Hh, Hl' in HQ.
  apply wp_bind. destruct mac as [|b2 mac].
  - rewrite (proj2 (Z.ltb_ge _ _)) by (cbn [length] in *; lia). apply wp_ret, wp_ret. apply HQ. done.
  - rewrite (proj2 (Z.ltb_lt _ _)) by (cbn [length] in *; lia). 
    eapply holds_cat; [done|by apply lit_test|rewrite length_app; change (length (str ":")) with 1%nat; cbn [length] in *; lia|]. intros s3 Hs3.
    apply (IH _ _ _ Hs3); [cbn [length] in *; lia|rewrite !length_app; change (length (str ":")) with 1%nat; cbn [length] in *; lia|]. intros s4 Hs4. apply HQ.
    destruct (mac_text (b2 :: mac)) eqn:E; [done|]. by rewrite <- !app_assoc in *.
Qed.

Lemma mac_text_size mac : length mac = 6%nat → (length (mac_text mac) ≤ 17)%nat.
Proof. intros Hl. explode mac. unfold mac_text, hex_pair. cbn [foldr app length]. change (str ":") with [58]. cbn [app length]. lia. Qed.
Lemma build_net_ok s t0 mac (Q : unit → procfs C DN → Prop) : holds s t0 s →
  net_ready (pf_net s) = true → my_mac (pf_net s) = mac → length mac = 6%nat → bytes mac →
  (∀ s2, holds s (net_text mac) s2 → Q tt s2) → wp build_net Q s.
Proof.
  intros Hs Hr <- Hl Hb HQ. unfold build_net. apply wp_bind. unfold get. unfold wp at 1. rewrite Hr. cbn [negb].
  assert (net_get_mac (replicate 6 0) (pf_net s) = Ok (my_mac (pf_net s))) as E.
  { unfold net_get_mac. change ETH_ALEN with 6%nat. rewrite kmemcpy_copy by (rewrite ?length_replicate; lia).
    rewrite take_ge by lia. by rewrite app_nil_r. }
  apply wp_bind. eapply wp_lift; [exact E|]. apply wp_bind. eapply holds_cpy; [done|by apply lit_test|text_size|]. intros s1 Hs1.
  apply wp_bind. eapply mac_bytes_ok; [done|done|lia|text_size|]. intros s2 Hs2.
  pose proof (mac_text_size _ Hl) as Hlm.
  eapply holds_cat; [done|by apply lit_test|text_size|]. intros s3 Hs3. apply HQ. unfold net_text. by rewrite <- !app_assoc in *.
Qed.

(** ** The date *)

Lemma add_num_ok v t sep sp buf : 0 ≤ v < 256 → cstr buf t → cstr sep sp → (length t + 4 + length sp < length buf)%nat →
  ∃ b, add_num true v sep buf = Ok b ∧ cstr b (t ++ two v ++ sp) ∧ length b = length buf ∧ (length (two v) ≤ 3)%nat.
Proof.
  intros Hv Ht Hs Hl. unfold add_num, two. cbn [andb]. destruct (numeral_spec v 3) as (_ & Hn & _); [change (10 ^ Z.of_nat 3) with 1000; lia|lia|].
  destruct (uint_to_str_ok v 3 (replicate 8 0)) as (n & En & Hnum); [change (10 ^ Z.of_nat 3) with 1000; lia|lia|cbn; lia|].
  assert (v < 10 → (length (numeral v) ≤ 1)%nat) as H10.
  { intros ?. destruct (numeral_spec v 1) as (_ & ? & _); [change (10 ^ Z.of_nat 1) with 10; lia|lia|lia]. }
  set (pre := if v <? 10 then str "0" else []).
  assert (∃ b, (if v <? 10 then kstrcat buf (lit "0") else Ok buf) = Ok b ∧ cstr b (t ++ pre) ∧ length b = length buf) as (b0 & -> & Hb0 & L0).
  { unfold pre. destruct (v <? 10); [|exists buf; by rewrite app_nil_r]. apply (kstrcat_cstr _ _ _ (str "0")); [done|by apply lit_test|change (length (str "0")) with 1%nat; lia]. }
  assert (length pre + length (numeral v) ≤ 3)%nat by (unfold pre; case_if; [specialize (H10 E); change (length (str "0")) with 1%nat|change (length []) with 0%nat]; lia).
  cbn [mbind res_bind]. rewrite En. cbn [mbind res_bind].
  destruct (kstrcat_cstr b0 n (t ++ pre) (numeral v) Hb0 Hnum) as (b1 & -> & Hb1 & L1); [rewrite length_app; lia|]. cbn [mbind res_bind].
  destruct (kstrcat_cstr b1 sep _ sp Hb1 Hs) as (b2 & -> & Hb2 & L2); [rewrite !length_app; lia|].
  assert ((if v <? 10 then str "0" ++ numeral v else numeral v) = pre ++ numeral v) as -> by (unfold pre; by case_if).
  exists b2. split; [done|]. split; [by rewrite <- !app_assoc in *|]. split; [lia|]. rewrite length_app. lia.
Qed.

Lemma date_line_ok t : byte_fields t → ∃ b, date_text t = Ok b ∧ cstr b (date_line t) ∧ (length (date_line t) < 32)%nat.
Proof.
  intros [Hf Hy]. repeat match goal with H : Forall _ (_ :: _) |- _ => apply Forall_cons in H as [? H] end. unfold date_text.
  destruct (numeral_spec (year t) 4) as (_ & Hn & _); [change (10 ^ Z.of_nat 4) with 10000; lia|lia|].
  destruct (uint_to_str_ok (year t) 4 (replicate 8 0)) as (n & -> & Hnum); [change (10 ^ Z.of_nat 4) with 10000; lia|lia|cbn; lia|]. cbn [mbind res_bind].
  destruct (kstrcpy_roundtrip (replicate 32 0) n _ Hnum) as (b & -> & Hb & L); [cbn [length replicate]; lia|]. cbn [mbind res_bind].
  change (length (replicate 32 0)) with 32%nat in L.
  destruct (kstrcat_cstr b (lit "-") _ (str "-") Hb) as (b1 & -> & Hb1 & L1); [by apply lit_test|text_size|]. cbn [mbind res_bind].
  destruct (add_num_ok (month t) _ (lit "-") (str "-") b1 ltac:(done) Hb1) as (b2 & -> & Hb2 & L2 & S2); [by apply lit_test|text_size|]. cbn [mbind res_bind].
  destruct (add_num_ok (day t) _ (lit " ") (str " ") b2 ltac:(done) Hb2) as (b3 & -> & Hb3 & L3 & S3); [by apply lit_test|text_size|]. cbn [mbind res_bind].
  destruct (add_num_ok (hour t) _ (lit ":") (str ":") b3 ltac:(done) Hb3) as (b4 & -> & Hb4 & L4 & S4); [by apply lit_test|text_size|]. cbn [mbind res_bind].
  destruct (add_num_ok (minute t) _ (lit ":") (str ":") b4 ltac:(done) Hb4) as (b5 & -> & Hb5 & L5 & S5); [by apply lit_test|text_size|]. cbn [mbind res_bind].
  destruct (add_num_ok (second t) _ (lit "
") (str "
") b5 ltac:(done) Hb5) as (b6 & -> & Hb6 & L6 & S6); [by apply lit_test|text_size|].
  exists b6. split; [done|]. unfold date_line. split; [by rewrite <- !app_assoc in *|]. text_size.
Qed.

(** ** Opening and reading *)

(** The name does not match: the next one is tried. *)
Ltac next_name :=
  match goal with
  | Hp : cstr ?path ?p |- wp (_ ← lift (kstrcmp ?path (lit ?x)); _) _ _ =>
      let d := fresh "d" in let E := fresh "E" in let T := fresh "T" in
      destruct (kstrcmp_test path (lit x) p (str x) Hp (lit_test x eq_refl)) as (d & E & T);
      apply wp_bind; eapply wp_lift; [exact E|]; cbv beta; rewrite T; clear d E T;
      first [rewrite bool_decide_eq_true_2 by reflexivity | rewrite bool_decide_eq_false_2 by (vm_compute; discriminate)]; cbv iota
  end.

Definition proc_ok s : Prop := length (proc_buf s) = Z.to_nat 2048 ∧ ∃ t, cstr (proc_buf s) t.

Lemma nonzero_take n l : nonzero l → nonzero (take n l).
Proof. apply Forall_take. Qed.

Lemma proc_open_ok s p id t c path flags : proc_ok s → proc_text s p id t c → cstr path p →
  wp (proc_open fuel path flags) (λ r s', r = id ∧ holds (set_pcmos c s) t s') s.
Proof.
  intros [Hl [t0 Hb]] Ht Hp. pose proof (holds_start s t0 Hl Hb) as Hs. unfold proc_open.
  assert (set_pcmos (pf_cmos s) s = s) as Ec by (by destruct s).
  destruct Ht; rewrite ?Ec; repeat next_name; apply wp_bind.
  - eapply build_meminfo_ok; [done|done|]. by intros.
  - eapply build_uptime_ok; [done|done|]. by intros.
  - eapply holds_cpy; [done|by apply lit_test|text_size|]. by intros.
  - eapply build_ps_ok; [done|done|]. by intros.
  - unfold build_net. apply wp_bind. unfold get. unfold wp at 1. rewrite H1. cbn [negb].
    eapply holds_cpy; [done|by apply lit_test|text_size|]. by intros.
  - eapply build_net_ok; [done|done|done|done|done|]. by intros.
  - unfold build_date. apply wp_bind. unfold wp at 1, zoom. rewrite H1.
    destruct (date_line_ok t) as (b & E & Hc & Hlen); [done|]. apply wp_bind. eapply wp_lift; [exact E|].
    eapply (holds_cpy _ _ _ t0); [apply (holds_start (set_pcmos c s)); done|done|change (Z.to_nat 2048) with 2048%nat; lia|]. by intros.
  - unfold wp at 1, peek.
    destruct (dmesg_window [] [] (pf_log s) L (proc_buf s) 2048) as (d' & Ed & _ & Er); [done|constructor|cbn [length]; rewrite Nat.add_0_r; by destruct H1|lia|lia|].
    injection Ed as <-. rewrite app_nil_r in Er. cbv zeta in Er. rewrite Er. cbn [mbind res_bind snd]. apply wp_bind, wp_modify, wp_ret.
    split; [done|]. eexists. split; [done|]. change (2048 - 1) with 2047.
    assert (length (take (Z.to_nat 2047) (window L)) ≤ 2047)%nat by (rewrite length_take; change (Z.to_nat 2047) with 2047%nat; lia).
    split; [rewrite length_app; cbn [length]; rewrite length_drop, Hl; change (Z.to_nat 2048) with 2048%nat; lia|].
    eexists. split; [done|]. apply nonzero_take. unfold window. by apply Forall_drop.
Qed.

Lemma proc_read_ok s t s0 d buf n (Q : Z * list Z → procfs C DN → Prop) :
  holds s0 t (set_ppos (proc_pos s0) s) → 0 ≤ proc_pos s ≤ Z.of_nat (length t) → 0 ≤ n ≤ Z.of_nat (length buf) →
  (let out := take (Z.to_nat n) (drop (Z.to_nat (proc_pos s)) t) in
   Q (Z.of_nat (length out), out ++ drop (length out) buf) (set_ppos (proc_pos s + Z.of_nat (length out)) s)) →
  wp (proc_read d buf n) Q s.
Proof.
  intros (b & Es & Hl & Hb) Hp Hn HQ. assert (proc_buf s = b) as Eb by (apply (f_equal proc_buf) in Es; done).
  unfold proc_read. apply wp_bind. unfold get. unfold wp at 1. rewrite Eb. apply wp_bind. eapply wp_lift; [by apply kstrlen_cstr|].
  pose proof (cstr_length _ _ Hb) as Hlt. rewrite Hl in Hlt. change (Z.to_nat 2048) with 2048%nat in Hlt.
  rewrite (u32_small (proc_pos s)), u32_small by lia. cbv zeta in HQ. set (out := take (Z.to_nat n) (drop (Z.to_nat (proc_pos s)) t)) in *.
  assert (Z.of_nat (length out) = Z.min n (Z.of_nat (length t) - proc_pos s)) as Lo by (unfold out; rewrite length_take, length_drop; lia).
  set (len := if _ <? n then _ else n). assert (len = Z.of_nat (length out)) as -> by (unfold len; case_z; lia).
  case_z.
  - destruct out; [|cbn in *; lia]. apply wp_ret. cbn [length app Z.of_nat] in HQ. rewrite Z.add_0_r, drop_0 in HQ.
    assert (set_ppos (proc_pos s) s = s) as E by (by destruct s). by rewrite E in HQ.
  - rewrite Nat2Z.id. apply wp_bind. eapply wp_lift; [apply kmemcpy_copy; [lia|rewrite length_drop; lia]|].
    apply wp_bind, wp_modify, wp_ret. rewrite !i32_small by lia.
    assert (take (length out) (drop (Z.to_nat (proc_pos s)) b) = out) as ->; [|done].
    destruct Hb as (r & -> & _). rewrite drop_app_le by lia. rewrite take_app_le by (rewrite length_drop; lia).
    unfold out. rewrite length_take, length_drop. destruct (Nat.le_ge_cases (Z.to_nat n) (length t - Z.to_nat (proc_pos s))).
    + by rewrite Nat.min_l by done.
    + rewrite Nat.min_r, !take_ge by (rewrite ?length_drop; lia). done.
Qed.

(** A program reads a file in pieces of the sizes [ls]. *)
Fixpoint reads (ls : list Z) (d : Z) (buf : list Z) : M (procfs C DN) (list Z) :=
  match ls with
  | [] => mret []
  | n :: ls' => r ← proc_read d buf n; out ← reads ls' d r.2; mret (take (Z.to_nat r.1) r.2 ++ out)
  end.
Definition total (ls : list Z) : Z := foldr Z.add 0 ls.

Lemma reads_ok ls s t s0 d buf (Q : list Z → procfs C DN → Prop) :
  holds s0 t (set_ppos (proc_pos s0) s) → 0 ≤ proc_pos s ≤ Z.of_nat (length t) → Forall (λ n, 0 ≤ n ≤ Z.of_nat (length buf)) ls →
  (∀ s', Q (take (Z.to_nat (total ls)) (drop (Z.to_nat (proc_pos s)) t)) s') → wp (reads ls d buf) Q s.
Proof.
  intros Hs Hp Hls. revert s buf Q Hs Hp Hls. induction ls as [|n ls IH]; intros s buf Q Hs Hp Hls HQ; cbn [reads].
  { apply wp_ret. cbn in HQ. by rewrite take_0 in HQ. }
  apply Forall_cons in Hls as [Hn Hls]. assert (0 ≤ total ls) as Ht.
  { clear -Hls. induction Hls; unfold total in *; cbn; lia. }
  apply wp_bind. eapply proc_read_ok; [done|done|done|]. cbv zeta. set (out := take (Z.to_nat n) (drop (Z.to_nat (proc_pos s)) t)).
  assert (Z.of_nat (length out) = Z.min n (Z.of_nat (length t) - proc_pos s)) as Lo by (unfold out; rewrite length_take, length_drop; lia).
  assert (length (out ++ drop (length out) buf) = length buf) as Lb by (rewrite length_app, length_drop; lia).
  cbn [fst snd]. apply wp_bind, IH; [done|cbn; lia|by rewrite Lb|].
  intros s'. apply wp_ret. rewrite Nat2Z.id, take_app_length. cbn [proc_pos set_ppos]. cbn [total foldr] in HQ. fold (total ls) in HQ.
  specialize (HQ s'). rewrite Z2Nat.inj_add in HQ by lia. rewrite <- take_take_drop in HQ. fold out in HQ.
  rewrite drop_drop in *. rewrite Z2Nat.inj_add, Nat2Z.id by lia.
  destruct (Z.le_ge_cases n (Z.of_nat (length t) - proc_pos s)).
  - replace (length out) with (Z.to_nat n) by lia. done.
  - rewrite (drop_ge t (Z.to_nat (proc_pos s) + length out)) by lia. rewrite (drop_ge t (Z.to_nat (proc_pos s) + Z.to_nat n)) in HQ by lia.
    by rewrite take_nil in *.
Qed.

(** C33: reading a file of /proc. Opening it builds its text from the state of the system,
    without leaving the buffers whatever the tasks, the numbers or the clock; reads of any
    sizes then deliver the text piece by piece, and closing resets the position. The reads
    start at the position left by other open files, 0 if there are none. *)
Theorem proc_file_reads s p id t c path flags ls buf :
  proc_ok s → proc_text s p id t c → cstr path p → 0 ≤ proc_pos s ≤ Z.of_nat (length t) →
  Forall (λ n, 0 ≤ n ≤ Z.of_nat (length buf)) ls →
  wp (fd ← proc_open fuel path flags; out ← reads ls fd buf; proc_close fd ;; mret (fd, out))
    (λ r s', r = (id, take (Z.to_nat (total ls)) (drop (Z.to_nat (proc_pos s)) t)) ∧ proc_pos s' = 0) s.
Proof.
  intros Hok Ht Hp Hpos Hls. apply wp_bind. eapply wp_mono; [by eapply proc_open_ok|]. intros r s1 [-> Hs1].
  apply wp_bind. assert (proc_pos s1 = proc_pos s) as Ep by (destruct Hs1 as (b & -> & _); done).
  eapply (reads_ok _ _ t (set_pcmos c s)); [|by rewrite Ep|done|].
  { assert (set_ppos (proc_pos (set_pcmos c s)) s1 = s1) as ->; [|done]. destruct s1. cbn in Ep. by subst. }
  intros s2. unfold proc_close. apply wp_bind, wp_bind, wp_modify, wp_ret, wp_ret. by rewrite Ep.
Qed.
End texts.

(** ** A machine that computes *)
Definition demo_net : net simcard kheap :=
  set_clock (mkTimer 12345 100 [] procs0 worker_sig) (sim_net [2; 0; 0; 0; 0; 1] 0 []).
Definition demo : procfs simclock simcard :=
  mkProcfs 32768 vm0 demo_net (0, λ _, 0, 0%nat) dmesg_init (replicate (Z.to_nat 2048) 0) 0.

Lemma proc_file_reads_witness :
  wp (fd ← proc_open 1 (lit "uptime") 0; out ← reads [2; 5; 100] fd (replicate 128 0); proc_close fd ;; mret (fd, out))
    (λ r s', r = (2, str "123 seconds
") ∧ proc_pos s' = 0) demo.
Proof.
  apply (proc_file_reads 1 demo (str "uptime") 2 (numeral (u32 123) ++ str " seconds
") (pf_cmos demo) (lit "uptime") 0 [2; 5; 100] (replicate 128 0)).
  - split; [reflexivity|]. exists []. eexists. split; [reflexivity|constructor].
  - apply (pt_uptime 1 demo 123). reflexivity.
  - by apply lit_test.
  - vm_compute. split; discriminate.
  - repeat constructor; vm_compute; discriminate.
Defined.

(** What some reads of open files deliver, one descriptor after the other. *)
Definition delivered (m : M (procfs simclock simcard) (list Z)) : res (list Z) := r ← m demo; Ok (r : list Z * _).1.

(** The position is shared: a file opened while another is being read lacks its beginning. *)
Example proc_position_shared :
  delivered (a ← proc_open 1 (lit "version") 0; _ ← reads [3] a (replicate 64 0);
             b ← proc_open 1 (lit "uptime") 0; reads [64] b (replicate 64 0)) = Ok (str " seconds
").
Proof. vm_compute. reflexivity. Qed.
(** A position behind the end of the text wraps the count of what is left. *)
Example proc_position_overreads :
  delivered (a ← proc_open 1 (lit "version") 0; _ ← reads [14] a (replicate 64 0);
             b ← proc_open 1 (lit "uptime") 0; reads [8] b (replicate 64 0)) = Ok [0; 0; 0; 0; 0; 0; 0; 0].
Proof. vm_compute. reflexivity. Qed.
