(* ===== verification/Ext2.v ===== *)
(** * The ext2 reader (src/src/ext2.c)

    Reading through the sector interface [BlockDev.Disk]: inodes, direct and single
    indirect blocks, directories and paths. A failed read of a sector leaves the
    buffer as it was; [junk] is what a local array of 4096 bytes holds before it is
    filled. Division by a field of the super block that is zero is a fault. What the
    format says about the same volume is specified over its bytes alone ([inode_pos],
    [block_of], [file_byte]), and reading by path is proved to follow it. *)

From S2P Require Import Prelude KString Bytes BlockDev Vfs.

Definition EXT2_MAGIC : Z := 0xEF53.
Definition EXT2_ROOT_INO : Z := 2.

(** [sizeof] of the packed structures. *)
Definition SUPER_SIZE : nat := 1030.
Definition BGD_SIZE : nat := 32.
Definition INODE_SIZE : nat := 128.

(** The fields the reader uses. *)
Record ext2_super_t := mkSuper { s_log_block_size : Z; s_inodes_per_group : Z; s_magic : Z; s_inode_size : Z }.
Record ext2_inode_t := mkInode { i_size : Z; i_block : list Z }.

Fixpoint words (n : nat) (off : Z) (b : list Z) : res (list Z) :=
  match n with
  | O => Ok []
  | S n' => w ← ld32 off b; l ← words n' (off + 4) b; Ok (w :: l)
  end.
Definition super_of (b : list Z) : res ext2_super_t :=
  log ← ld32 24 b; ipg ← ld32 40 b; magic ← ld16 56 b; isz ← ld16 88 b; Ok (mkSuper log ipg magic isz).
Definition inode_of (b : list Z) : res ext2_inode_t :=
  size ← ld32 4 b; l ← words 15 40 b; Ok (mkInode size l).

Section ext2.
Context {D : Type} `{Disk D}.
Variable junk : list Z.

(** [bg_inode_table] is the only field used of the group descriptor. *)
Record ext2 := mkExt2 {
  disk : D; sb : ext2_super_t; bg_inode_table : Z; block_size : Z; lba_base : Z; mounted : bool }.
Implicit Types v : ext2.

(** A sector read into the buffer at [pos], the result ignored. *)
Definition sector_into (v : ext2) (lba : Z) (pos : nat) (buf : list Z) : res (list Z) :=
  match ata_read (disk v) 0 (u32 lba) with
  | Some s => memcpy_at pos s 512 buf
  | None => Ok buf
  end.
Fixpoint read_sectors (v : ext2) (n i : nat) (lba : Z) (buf : list Z) : res (list Z) :=
  match n with
  | O => Ok buf
  | S n' => b ← sector_into v (lba + Z.of_nat i) (512 * i) buf; read_sectors v n' (S i) lba b
  end.
Definition read_block (v : ext2) (blk : Z) (buf : list Z) : res (list Z) :=
  let spb := block_size v / 512 in
  read_sectors v (Z.to_nat spb) 0 (u32 (lba_base v + blk * spb)) buf.

Definition div (a b : Z) : res Z := if b =? 0 then Fault else Ok (a / b).

Definition read_inode (v : ext2) (ino : Z) : res ext2_inode_t :=
  inodes_per_block ← div (block_size v) (s_inode_size (sb v));
  group ← div (u32 (ino - 1)) (s_inodes_per_group (sb v));
  let idx := u32 (ino - 1) mod s_inodes_per_group (sb v) in
  q ← div idx inodes_per_block;
  let blk := u32 (bg_inode_table v + q) in
  let offset := u32 (idx mod inodes_per_block * s_inode_size (sb v)) in
  buf ← read_block v blk junk;
  src ← from offset buf;
  out ← kmemcpy (replicate INODE_SIZE 0) src INODE_SIZE;
  inode_of out.

Definition get_block (v : ext2) (ino : ext2_inode_t) (n : Z) : res Z :=
  if n <? 12 then arr_get (i_block ino) n
  else if n <? 12 + block_size v / 4 then
    b12 ← arr_get (i_block ino) 12;
    indirect ← read_block v b12 junk;
    ld32 (4 * (n - 12)) indirect
  else Ok 0.

(** The entries of a block from [off] on; every turn advances. *)
Fixpoint scan_dir (fuel : nat) (blk : list Z) (off bsz nlen : Z) (name : list Z) : res Z :=
  if off <? bsz then
    match fuel with
    | O => Timeout
    | S fuel' =>
        rec_len ← ld16 (off + 4) blk;
        if rec_len =? 0 then Ok 0
        else
          inode ← ld32 off blk;
          name_len ← ld8 (off + 6) blk;
          hit ← (if negb (inode =? 0) && (name_len =? nlen) then
                   n ← from (off + 8) blk; d ← kstrncmp n name (Z.to_nat nlen); Ok (d =? 0)
                 else Ok false);
          if (hit : bool) then Ok inode else scan_dir fuel' blk (off + rec_len) bsz nlen name
    end
  else Ok 0.

(** Block numbers from [b] on: [get_block] is 0 for every number from 12 + a quarter of
    the block size on, so the loop ends. *)
Fixpoint lookup_loop (fuel : nat) (v : ext2) (inode : ext2_inode_t) (b rd nlen : Z) (name : list Z) : res Z :=
  if rd <? i_size inode then
    match fuel with
    | O => Timeout
    | S fuel' =>
        bno ← get_block v inode b;
        if bno =? 0 then Ok 0
        else
          blk ← read_block v bno junk;
          let bsz := if block_size v <? u32 (i_size inode - rd) then block_size v else u32 (i_size inode - rd) in
          r ← scan_dir (Z.to_nat bsz) blk 0 bsz nlen name;
          if negb (r =? 0) then Ok r else lookup_loop fuel' v inode (b + 1) (u32 (rd + block_size v)) nlen name
    end
  else Ok 0.
Definition max_blocks (v : ext2) : nat := S (Z.to_nat (12 + block_size v / 4)).
Definition lookup_dir (v : ext2) (dir_ino : Z) (name : list Z) : res Z :=
  inode ← read_inode v dir_ino;
  nlen ← kstrlen name;
  lookup_loop (max_blocks v) v inode 0 0 nlen name.

(** The path up to a slash or the end, and what follows from there. *)
Fixpoint component (p : list Z) : res (list Z * list Z) :=
  match p with
  | [] => Fault
  | c :: p' => if (c =? 0) || (c =? 47) then Ok ([], p) else r ← component p'; Ok (c :: r.1, r.2)
  end.
Fixpoint walk (fuel : nat) (v : ext2) (p : list Z) (ino : Z) : res Z :=
  c ← arr_get p 0;
  if c =? 0 then Ok ino
  else
    match fuel with
    | O => Timeout
    | S fuel' =>
        r ← component p;
        part ← kmemcpy (replicate 256 0) r.1 (length r.1);
        part ← arr_set part (Z.of_nat (length r.1)) 0;
        ino ← lookup_dir v ino part;
        if ino =? 0 then Ok 0
        else
          c ← arr_get r.2 0;
          walk fuel' v (if c =? 0 then r.2 else drop 1 r.2) ino
    end.
Definition path_to_ino (v : ext2) (path : list Z) : res Z :=
  c ← arr_get path 0;
  if c =? 0 then Ok EXT2_ROOT_INO
  else
    root ← (if c =? 47 then c1 ← arr_get path 1; Ok (c1 =? 0) else Ok false);
    if (root : bool) then Ok EXT2_ROOT_INO
    else walk (length path) v (if c =? 47 then drop 1 path else path) EXT2_ROOT_INO.

(** The result, the volume after the call and what the static structures hold. *)
Definition ext2_init (lba_start : Z) (v : ext2) : res (Z * ext2) :=
  t ← sector_into v (lba_start + 2) 0 (take 1024 junk);
  t ← sector_into v (lba_start + 3) 512 t;
  s ← kmemcpy (replicate SUPER_SIZE 0) t SUPER_SIZE;
  super ← super_of s;
  if negb (s_magic super =? EXT2_MAGIC) then
    Ok (-1, mkExt2 (disk v) super (bg_inode_table v) (block_size v) lba_start (mounted v))
  else
    let bs := u32 (Z.shiftl 1024 (s_log_block_size super)) in
    let bgd_lba := u32 (lba_start + (if bs =? 1024 then 4 else bs / 512)) in
    g ← sector_into v bgd_lba 0 (take 512 junk);
    g ← kmemcpy (replicate BGD_SIZE 0) g BGD_SIZE;
    table ← ld32 8 g;
    Ok (0, mkExt2 (disk v) super table bs lba_start true).

Definition ext2_mounted (v : ext2) : Z := if mounted v then 1 else 0.

(** The blocks of a file from number [b] on, [done] bytes being in the buffer. *)
Fixpoint read_loop (fuel : nat) (v : ext2) (inode : ext2_inode_t) (b done total : Z) (buf : list Z)
    : res (Z * list Z) :=
  if done <? total then
    match fuel with
    | O => Timeout
    | S fuel' =>
        bno ← get_block v inode b;
        if bno =? 0 then Ok (done, buf)
        else
          blk ← read_block v bno junk;
          let chunk := if block_size v <? total - done then block_size v else total - done in
          buf ← memcpy_at (Z.to_nat done) blk (Z.to_nat chunk) buf;
          read_loop fuel' v inode (b + 1) (done + chunk) total buf
    end
  else Ok (done, buf).
Definition read_data (v : ext2) (ino : Z) (buf : list Z) (sz : Z) : res (Z * list Z) :=
  inode ← read_inode v ino;
  let total := if i_size inode <? sz then i_size inode else sz in
  r ← read_loop (max_blocks v) v inode 0 0 total buf;
  Ok (i32 r.1, r.2).

(** [ext2_read_file] and the buffer after the call. *)
Definition ext2_read_file (v : ext2) (path buf : list Z) (sz : Z) : res (Z * list Z) :=
  if negb (mounted v) then Ok (-1, buf)
  else
    ino ← path_to_ino v path;
    if ino =? 0 then Ok (-1, buf) else read_data v ino buf sz.

(** The names of a block, one a line, from [off] on. *)
Fixpoint list_block (fuel : nat) (v : ext2) (blk : list Z) (off pos sz : Z) (buf : list Z) : res (Z * list Z) :=
  if off <? block_size v then
    match fuel with
    | O => Timeout
    | S fuel' =>
        rec_len ← ld16 (off + 4) blk;
        if rec_len =? 0 then Ok (pos, buf)
        else
          inode ← ld32 off blk;
          name_len ← ld8 (off + 6) blk;
          nm ← from (off + 8) blk;
          dot ← (if name_len =? 1 then c ← arr_get nm 0; Ok (c =? 46)
                 else if name_len =? 2 then
                   c ← arr_get nm 0; d ← arr_get nm 1; Ok ((c =? 46) && (d =? 46))
                 else Ok false);
          if negb (inode =? 0) && negb (name_len =? 0) && negb dot && (u32 (pos + name_len + 2) <? sz) then
            buf ← memcpy_at (Z.to_nat pos) nm (Z.to_nat name_len) buf;
            buf ← arr_set buf (pos + name_len) 10;
            list_block fuel' v blk (off + rec_len) (pos + name_len + 1) sz buf
          else list_block fuel' v blk (off + rec_len) pos sz buf
    end
  else Ok (pos, buf).
Fixpoint list_loop (fuel : nat) (v : ext2) (inode : ext2_inode_t) (b rd pos sz : Z) (buf : list Z) : res (Z * list Z) :=
  if rd <? i_size inode then
    match fuel with
    | O => Timeout
    | S fuel' =>
        bno ← get_block v inode b;
        if bno =? 0 then Ok (pos, buf)
        else
          blk ← read_block v bno junk;
          r ← list_block (Z.to_nat (block_size v)) v blk 0 pos sz buf;
          list_loop fuel' v inode (b + 1) (u32 (rd + block_size v)) r.1 sz r.2
    end
  else Ok (pos, buf).
Definition ext2_list_dir (v : ext2) (path buf : list Z) (sz : Z) : res (Z * list Z) :=
  if negb (mounted v) then Ok (-1, buf)
  else
    ino ← path_to_ino v path;
    if ino =? 0 then Ok (-1, buf)
    else
      inode ← read_inode v ino;
      r ← list_loop (max_blocks v) v inode 0 0 0 sz buf;
      b ← arr_set r.2 r.1 0;
      Ok (i32 r.1, b).

(** The result and [*size_out]. *)
Definition ext2_stat (v : ext2) (path : list Z) (size : Z) : res (Z * Z) :=
  if negb (mounted v) then Ok (-1, size)
  else
    ino ← path_to_ino v path;
    if ino =? 0 then Ok (-1, size) else inode ← read_inode v ino; Ok (0, i_size inode).

(** ** The operations behind the file layer *)
Definition look {A} (f : ext2 → res A) : M ext2 A := λ v, a ← f v; Ok (a, v).
Definition e2_open (path : list Z) (flags : Z) : M ext2 Z := look (λ v,
  ino ← path_to_ino v path; Ok (if ino =? 0 then -1 else i32 ino)).
Definition e2_close (d : Z) : M ext2 Z := mret 0.
Definition e2_read (d : Z) (buf : list Z) (len : Z) : M ext2 (Z * list Z) :=
  look (λ v, read_data v (u32 d) buf len).
Definition e2_write (d : Z) (buf : list Z) (len : Z) : M ext2 Z := mret (-1).
Definition e2_stat (path : list Z) (st : vfs_stat_t) : M ext2 (Z * vfs_stat_t) := look (λ v,
  r ← ext2_stat v path 0;
  if r.1 <? 0 then Ok (-1, st)
  else nm ← kstrcpy (st_name st) path; Ok (0, mkStat r.2 VFS_FILE nm)).
Definition e2_readdir (path buf : list Z) (sz : Z) : M ext2 (Z * list Z) := look (λ v, ext2_list_dir v path buf sz).
Definition ext2_vfs_ops : vfs_ops_t ext2 :=
  mkOps (Some e2_open) (Some e2_close) (Some e2_read) (Some e2_write) (Some e2_stat) (Some e2_readdir) None.
End ext2.
Arguments ext2 D : clear implicits.

(** * Proofs *)

Lemma kstrncmp_nonzero a b n :
  (n ≤ length a)%nat → (n ≤ length b)%nat → Forall (λ c, c ≠ 0) (take n b) →
  ∃ d, kstrncmp a b n = Ok d ∧ (d = 0 ↔ take n a = take n b).
Proof.
  revert a b. induction n as [|n IH]; intros a b Ha Hb Hnz; [by exists 0|].
  destruct a as [|x a], b as [|y b]; cbn in Ha, Hb; try lia. cbn in Hnz |- *.
  apply Forall_cons in Hnz as [Hy Hnz]. destruct (Z.eqb_spec x y) as [->|Hne].
  - rewrite (proj2 (Z.eqb_neq y 0)) by done. cbn.
    destruct (IH a b) as (d & -> & Hd); [lia|lia|done|]. exists d. split; [done|]. rewrite Hd.
    split; [by intros ->|by intros [= ->]].
  - rewrite andb_false_r. exists (x - y). split; [done|]. split; [lia|]. intros [= -> _]. done.
Qed.

Lemma memcpy_at_spec pos s n (buf : list Z) :
  (n ≤ length s)%nat → (pos + n ≤ length buf)%nat →
  memcpy_at pos s n buf = Ok (take pos buf ++ take n s ++ drop (pos + n) buf).
Proof.
  intros Hs Hb. rewrite <- (take_drop pos buf) at 1. rewrite <- (take_drop n (drop pos buf)), drop_drop.
  apply memcpy_at_app; rewrite ?length_take, ?length_drop; try done; lia.
Qed.

(** ** Directory entries *)
Record dirent := mkDirent { de_ino : Z; de_type : Z; de_name : list Z; de_pad : list Z }.
Definition de_rec (e : dirent) : Z := 8 + Z.of_nat (length (de_name e)) + Z.of_nat (length (de_pad e)).
Definition enc_dirent (e : dirent) : list Z :=
  le32 (de_ino e) ++ le16 (de_rec e) ++ [Z.of_nat (length (de_name e)); de_type e] ++ de_name e ++ de_pad e.
Definition dirent_ok (e : dirent) : Prop :=
  is_u32 (de_ino e) ∧ de_rec e < 65536 ∧ (length (de_name e) < 256)%nat ∧ Forall (λ c, c ≠ 0) (de_name e).

(** The inode of the first entry in use with the name, 0 if there is none. *)
Definition find_entry (name : list Z) (es : list dirent) : Z :=
  match list_find (λ e, de_ino e ≠ 0 ∧ de_name e = name) es with
  | Some (_, e) => de_ino e
  | None => 0
  end.

Lemma find_entry_cons name e es :
  find_entry name (e :: es) =
    if decide (de_ino e ≠ 0 ∧ de_name e = name) then de_ino e else find_entry name es.
Proof.
  unfold find_entry. cbn [list_find]. destruct (decide (de_ino e ≠ 0 ∧ de_name e = name)); [done|].
  by destruct (list_find _ es) as [[??]|].
Qed.

Lemma length_enc e : Z.of_nat (length (enc_dirent e)) = de_rec e.
Proof. unfold enc_dirent, de_rec. rewrite !length_app. cbn. lia. Qed.

Lemma ld16_app pre v post : 0 ≤ v < 65536 → ld16 (Z.of_nat (length pre)) (pre ++ le16 v ++ post) = Ok v.
Proof.
  intros Hv. unfold ld16.
  assert (arr_get (pre ++ le16 v ++ post) (Z.of_nat (length pre)) = Ok (v mod 256)) as ->.
  { apply arr_get_nat. rewrite lookup_app_r by lia. by rewrite Nat.sub_diag. }
  assert (arr_get (pre ++ le16 v ++ post) (Z.of_nat (length pre) + 1) = Ok (v / 256 mod 256)) as ->.
  { replace (Z.of_nat (length pre) + 1) with (Z.of_nat (S (length pre))) by lia. apply arr_get_nat.
    rewrite lookup_app_r by lia. by replace (S (length pre) - length pre)%nat with 1%nat by lia. }
  cbn [mbind res_bind]. f_equal. by apply le16_ld.
Qed.
Lemma ld32_app pre v post : is_u32 v → ld32 (Z.of_nat (length pre)) (pre ++ le32 v ++ post) = Ok v.
Proof.
  intros Hv. unfold ld32.
  assert (le32 v = le16 (v mod 65536) ++ le16 (v / 65536)) as Hs.
  { assert (v mod 65536 = v mod 256 + 256 * (v / 256 mod 256)) as E by (change 65536 with (256 * 256); apply Z.rem_mul_r; lia).
    pose proof (Z.mod_pos_bound v 256 ltac:(lia)).
    assert (v mod 65536 mod 256 = v mod 256) as E1.
    { rewrite E, (Z.mul_comm 256), Z_mod_plus_full. apply Zmod_mod. }
    assert (v mod 65536 / 256 mod 256 = v / 256 mod 256) as E2.
    { rewrite E, (Z.mul_comm 256), Z.div_add, (Z.div_small (v mod 256)), Z.add_0_l by lia. apply Zmod_mod. }
    unfold le32, le16. cbn [app]. rewrite E1, E2, div_256_3, div_256_2. reflexivity. }
  rewrite Hs, <- app_assoc. rewrite ld16_app by (apply Z.mod_pos_bound; lia). cbn [mbind res_bind].
  replace (Z.of_nat (length pre) + 2) with (Z.of_nat (length (pre ++ le16 (v mod 65536))))
    by (rewrite length_app; cbn; lia).
  rewrite (app_assoc pre). unfold is_u32 in Hv. rewrite ld16_app; cycle 1.
  { split; [apply Z.div_pos; lia|apply Z.div_lt_upper_bound; lia]. }
  cbn [mbind res_bind]. f_equal. pose proof (Z.div_mod v 65536). lia.
Qed.

Lemma scan_dir_spec es fuel pre post name s :
  cstr name s → Forall dirent_ok es →
  let body := mjoin (enc_dirent <$> es) in
  (length body ≤ fuel)%nat →
  scan_dir fuel (pre ++ body ++ post) (Z.of_nat (length pre)) (Z.of_nat (length pre + length body))
    (Z.of_nat (length s)) name = Ok (find_entry s es).
Proof.
  intros Hname Hok. revert fuel pre. induction Hok as [|e es (Hi & Hrec & Hlen & Hnz) Hok IH]; intros fuel pre body Hf.
  { cbn. destruct fuel; cbn; by rewrite (proj2 (Z.ltb_ge _ _)) by lia. }
  assert (body = enc_dirent e ++ mjoin (enc_dirent <$> es)) as -> by done.
  set (rest := mjoin (enc_dirent <$> es)) in *. rewrite length_app in Hf |- *. pose proof (length_enc e) as He.
  assert (8 ≤ de_rec e) as H8 by (unfold de_rec; lia).
  destruct fuel as [|fuel]; [lia|]. cbn [scan_dir]. rewrite (proj2 (Z.ltb_lt _ _)) by lia.
  set (tl := de_name e ++ de_pad e ++ rest ++ post).
  assert ((enc_dirent e ++ rest) ++ post = le32 (de_ino e) ++ le16 (de_rec e) ++
    [Z.of_nat (length (de_name e)); de_type e] ++ tl) as -> by (unfold tl, enc_dirent; by rewrite <- !app_assoc).
  assert (ld16 (Z.of_nat (length pre) + 4) (pre ++ le32 (de_ino e) ++ le16 (de_rec e) ++
    [Z.of_nat (length (de_name e)); de_type e] ++ tl) = Ok (de_rec e)) as ->.
  { rewrite (app_assoc pre). replace (Z.of_nat (length pre) + 4) with (Z.of_nat (length (pre ++ le32 (de_ino e))))
      by (rewrite length_app; cbn; lia). apply ld16_app. lia. }
  cbn [mbind res_bind]. rewrite (proj2 (Z.eqb_neq (de_rec e) 0)), ld32_app by (done || lia). cbn [mbind res_bind].
  assert (ld8 (Z.of_nat (length pre) + 6) (pre ++ le32 (de_ino e) ++ le16 (de_rec e) ++
    [Z.of_nat (length (de_name e)); de_type e] ++ tl) = Ok (Z.of_nat (length (de_name e)))) as ->.
  { unfold ld8. rewrite (app_assoc pre), (app_assoc (pre ++ _)).
    replace (Z.of_nat (length pre) + 6) with (Z.of_nat (length ((pre ++ le32 (de_ino e)) ++ le16 (de_rec e))))
      by (rewrite !length_app; cbn; lia).
    apply arr_get_nat. rewrite lookup_app_r by lia. by rewrite Nat.sub_diag. }
  assert (from (Z.of_nat (length pre) + 8) (pre ++ le32 (de_ino e) ++ le16 (de_rec e) ++
    [Z.of_nat (length (de_name e)); de_type e] ++ tl) = Ok tl) as Hfrom.
  { unfold from. rewrite (proj2 (Z.leb_le _ _)), (proj2 (Z.leb_le _ _)) by (rewrite ?length_app; cbn; lia). cbn [andb].
    rewrite !app_assoc. f_equal. apply drop_app_length'. rewrite !length_app. cbn. lia. }
  rewrite Hfrom. cbn [mbind res_bind].
  assert (scan_dir fuel (pre ++ le32 (de_ino e) ++ le16 (de_rec e) ++ [Z.of_nat (length (de_name e)); de_type e] ++ tl)
    (Z.of_nat (length pre) + de_rec e) (Z.of_nat (length pre + (length (enc_dirent e) + length rest)))
    (Z.of_nat (length s)) name = Ok (find_entry s es)) as Hrest.
  { specialize (IH fuel (pre ++ enc_dirent e) ltac:(lia)). rewrite length_app in IH. fold rest in IH.
    replace (Z.of_nat (length pre) + de_rec e) with (Z.of_nat (length pre + length (enc_dirent e))) by lia.
    rewrite Nat.add_assoc, <- IH. f_equal. unfold tl, enc_dirent. by rewrite <- !app_assoc. }
  rewrite Hrest, find_entry_cons. destruct Hname as (nrest & -> & Hs).
  destruct (Z.eqb_spec (de_ino e) 0) as [E0|E0]; cbn [negb andb].
  { by rewrite decide_False by (by intros [? _]). }
  destruct (Z.eqb_spec (Z.of_nat (length (de_name e))) (Z.of_nat (length s))) as [El|El]; cbn [mbind res_bind].
  2: { rewrite decide_False; [done|]. intros [_ E]. by rewrite E in El. }
  destruct (kstrncmp_nonzero tl (s ++ 0 :: nrest) (Z.to_nat (Z.of_nat (length s)))) as (d & Hd & Hiff).
  { unfold tl. rewrite length_app. lia. } { rewrite length_app. lia. }
  { rewrite Nat2Z.id, take_app_length. done. }
  rewrite Hd. cbn [mbind res_bind]. rewrite Nat2Z.id, take_app_length in Hiff. unfold tl in Hiff.
  rewrite take_app_length' in Hiff by lia.
  destruct (Z.eqb_spec d 0) as [Ed|Ed].
  - rewrite decide_True; [done|]. split; [done|]. by apply Hiff.
  - rewrite decide_False; [done|]. intros [_ E]. by apply Ed, Hiff.
Qed.

(** Reading at most [k] blocks of a file of [total] bytes: the blocks needed. *)
Lemma ceil_blocks total bs k n :
  0 < bs → 0 ≤ k → 0 ≤ total → n = Z.min total (k * bs) →
  let cnt := (n + bs - 1) / bs in 0 ≤ n ∧ Z.min total (cnt * bs) = n ∧ (total ≤ cnt * bs ∨ cnt = k).
Proof.
  intros Hbs Hk Ht -> cnt. set (n := Z.min total (k * bs)) in *. assert (0 ≤ k * bs) by (apply Z.mul_nonneg_nonneg; lia).
  pose proof (Z.div_mod (n + bs - 1) bs ltac:(lia)) as Hdm. pose proof (Z.mod_pos_bound (n + bs - 1) bs ltac:(lia)).
  set (c := (n + bs - 1) / bs) in *. subst cnt. assert (n ≤ c * bs < n + bs) as [Hlo Hhi] by lia. clear Hdm.
  destruct (decide (total ≤ k * bs)); [split_and!; lia|].
  assert (k ≤ c) by (apply (Z.mul_le_mono_pos_r _ _ bs); lia). assert (c < k + 1) by (apply (Z.mul_lt_mono_pos_r bs); lia).
  assert (c = k) as -> by lia. split_and!; lia.
Qed.

Section volume.
Context {D : Type} `{Disk D} (ok : D → Prop) (nsec : Z) `{!ReliableDisk D ok 0 nsec}.
Variable junk : list Z.
Hypothesis Hjunk : length junk = Z.to_nat 4096.
Implicit Types v : ext2 D.

Definition sector v (lba : Z) : list Z := default [] (ata_read (disk v) 0 lba).
Definition sectors v (lba : Z) (n : nat) : list Z := mjoin (sector v <$> seqZ lba (Z.of_nat n)).
Definition spb v : Z := block_size v / 512.
(** The bytes of block [n]. *)
Definition block v (n : Z) : list Z := sectors v (lba_base v + n * spb v) (Z.to_nat (spb v)).
Definition on_disk v (n : Z) : Prop := 0 ≤ n ∧ lba_base v + (n + 1) * spb v ≤ nsec.

Record vol_ok v : Prop := {
  v_disk : ok (disk v);
  v_size : block_size v = 1024 ∨ block_size v = 2048 ∨ block_size v = 4096;
  v_base : 0 ≤ lba_base v;
  v_nsec : nsec < 2 ^ 32
}.

Lemma spb_size v : vol_ok v → block_size v = 512 * spb v ∧ 2 ≤ spb v ≤ 8.
Proof. intros Hv. unfold spb. destruct (v_size v Hv) as [-> | [-> | ->]]; split; done. Qed.

Lemma sector_ok v lba : vol_ok v → 0 ≤ lba < nsec → ata_read (disk v) 0 lba = Some (sector v lba) ∧ length (sector v lba) = 512%nat.
Proof.
  intros Hv Hl. destruct (rd_read (disk v) lba) as (s & Hs & Hlen & _); [apply Hv|done|].
  unfold sector. rewrite Hs. done.
Qed.

Lemma sectors_S v lba n : sectors v lba (S n) = sector v lba ++ sectors v (lba + 1) n.
Proof.
  unfold sectors. rewrite seqZ_cons by lia. cbn [fmap list_fmap mjoin list_join].
  replace (Z.pred (Z.of_nat (S n))) with (Z.of_nat n) by lia. by rewrite <- Z.add_1_r.
Qed.
Lemma sectors_length v lba n : vol_ok v → 0 ≤ lba → lba + Z.of_nat n ≤ nsec → length (sectors v lba n) = (512 * n)%nat.
Proof.
  intros Hv. revert lba. induction n as [|n IH]; intros lba H0 H1; [done|].
  rewrite sectors_S, length_app, IH by lia. destruct (sector_ok v lba Hv) as [_ ->]; lia.
Qed.

Lemma read_sectors_spec v n i lba buf :
  vol_ok v → 0 ≤ lba → lba + Z.of_nat i + Z.of_nat n ≤ nsec → (512 * (i + n) ≤ length buf)%nat →
  read_sectors v n i lba buf =
    Ok (take (512 * i) buf ++ sectors v (lba + Z.of_nat i) n ++ drop (512 * (i + n)) buf).
Proof.
  intros Hv. revert i buf. induction n as [|n IH]; intros i buf H0 H1 Hb.
  { cbn [read_sectors]. change (sectors _ _ 0) with (@nil Z). by rewrite Nat.add_0_r, app_nil_l, take_drop. }
  cbn [read_sectors]. destruct (sector_ok v (lba + Z.of_nat i) Hv ltac:(lia)) as [Hs Hl].
  pose proof (v_nsec v Hv). unfold sector_into. rewrite u32_small, Hs by lia.
  rewrite memcpy_at_spec, (take_ge (sector v _)) by lia. cbn [mbind res_bind].
  rewrite IH; [|lia|lia|rewrite !length_app, length_take, length_drop; lia].
  assert (length (take (512 * i) buf ++ sector v (lba + Z.of_nat i)) = (512 * S i)%nat) as Hlt
    by (rewrite length_app, length_take; lia).
  rewrite sectors_S. f_equal. rewrite (app_assoc (take (512 * i) buf)). rewrite take_app_length' by lia.
  rewrite drop_app_ge by lia. rewrite Hlt, drop_drop, <- !app_assoc. do 2 f_equal.
  replace (lba + Z.of_nat (S i)) with (lba + Z.of_nat i + 1) by lia. do 2 f_equal. lia.
Qed.

Lemma block_length v n : vol_ok v → on_disk v n → Z.of_nat (length (block v n)) = block_size v.
Proof.
  intros Hv [H0 H1]. destruct (spb_size v Hv) as [-> Hs]. unfold block. pose proof (v_base v Hv).
  rewrite sectors_length by (done || nia). lia.
Qed.

Lemma read_block_spec v n buf :
  vol_ok v → on_disk v n → length buf = Z.to_nat 4096 →
  read_block v n buf = Ok (block v n ++ drop (Z.to_nat (block_size v)) buf).
Proof.
  intros Hv [H0 H1] Hb. destruct (spb_size v Hv) as [E Hs]. pose proof (v_base v Hv). pose proof (v_nsec v Hv).
  unfold read_block. fold (spb v). rewrite u32_small by nia. rewrite read_sectors_spec by (done || nia || lia).
  rewrite Z.add_0_r. f_equal. rewrite Nat.mul_0_r, take_0, app_nil_l. unfold block. do 2 f_equal. lia.
Qed.

(** ** The layout of a volume

    The specification the reader is measured by, over the bytes of the disk alone: where
    the ext2 format puts the inode of a number, the blocks of a file and its bytes.
    Nothing here is defined by what the code reads. *)

(** Byte, 16-bit and 32-bit word at an offset from the beginning of the volume. *)
Definition byte_at v (o : Z) : Z := default 0 (sector v (lba_base v + o / 512) !! Z.to_nat (o mod 512)).
Definition half_at v (o : Z) : Z := byte_at v o + 256 * byte_at v (o + 1).
Definition word_at v (o : Z) : Z := half_at v o + 65536 * half_at v (o + 2).
Definition bytes_at v (o n : Z) : list Z := byte_at v <$> seqZ o n.

(** The fields of the super block, at offset 1024, and the table of the group
    descriptors, in the block after the one that holds the super block. *)
Definition d_block_size v : Z := 1024 * 2 ^ word_at v (1024 + 24).
Definition d_per_group v : Z := word_at v (1024 + 40).
Definition d_inode_size v : Z := half_at v (1024 + 88).
Definition groups_at v : Z := (1024 / d_block_size v + 1) * d_block_size v.
(** The inode table of group [g]: its descriptor has 32 bytes, the block is at 8. *)
Definition inode_table v (g : Z) : Z := word_at v (groups_at v + 32 * g + 8).

(** Inode [ino] has index [(ino - 1) mod per_group] in the table of its group. *)
Definition inode_pos v (ino : Z) : Z :=
  inode_table v ((ino - 1) / d_per_group v) * d_block_size v + (ino - 1) mod d_per_group v * d_inode_size v.
Definition file_size v (ino : Z) : Z := word_at v (inode_pos v ino + 4).
Definition block_ptr v (ino k : Z) : Z := word_at v (inode_pos v ino + 40 + 4 * k).
(** Block [n] of a file: twelve direct pointers, then those of the indirect block. *)
Definition block_of v (ino n : Z) : Z :=
  if n <? 12 then block_ptr v ino n else word_at v (block_ptr v ino 12 * d_block_size v + 4 * (n - 12)).
Definition file_byte v (ino i : Z) : Z :=
  byte_at v (block_of v ino (i / d_block_size v) * d_block_size v + i mod d_block_size v).
(** What direct and single indirect blocks can hold. *)
Definition max_file v : Z := (12 + d_block_size v / 4) * d_block_size v.

(** The structures in memory are what [ext2_init] copies: the super block and the first
    group descriptor. *)
Record mounted_from v : Prop := {
  m_bs : block_size v = d_block_size v;
  m_per_group : s_inodes_per_group (sb v) = d_per_group v;
  m_inode_size : s_inode_size (sb v) = d_inode_size v;
  m_table : bg_inode_table v = inode_table v 0;
  m_groups : 0 < d_per_group v;
  m_isz : Z.of_nat INODE_SIZE ≤ d_inode_size v;
  m_div : (d_inode_size v | d_block_size v)
}.

(** The inode is on the disk, in the first group: the only one the code looks in. *)
Definition inode_there v (ino : Z) : Prop :=
  is_u32 ino ∧ 1 ≤ ino ≤ d_per_group v ∧ on_disk v (inode_pos v ino / d_block_size v).
(** So are the first [cnt] blocks of the file, without a hole. *)
Definition blocks_there v (ino cnt : Z) : Prop :=
  0 ≤ cnt ≤ 12 + d_block_size v / 4 ∧ (12 < cnt → on_disk v (block_ptr v ino 12)) ∧
  ∀ n, 0 ≤ n < cnt → block_of v ino n ≠ 0 ∧ on_disk v (block_of v ino n).

(** ** The bytes the code reads *)
Lemma bytes_at_app v o m n : 0 ≤ m → 0 ≤ n → bytes_at v o (m + n) = bytes_at v o m ++ bytes_at v (o + m) n.
Proof. intros. unfold bytes_at. by rewrite seqZ_app, fmap_app. Qed.
Lemma bytes_at_length v o n : length (bytes_at v o n) = Z.to_nat n.
Proof. unfold bytes_at. by rewrite length_fmap, length_seqZ. Qed.
Lemma bytes_at_lookup v o n i : 0 ≤ i < n → bytes_at v o n !! Z.to_nat i = Some (byte_at v (o + i)).
Proof.
  intros. unfold bytes_at. rewrite list_lookup_fmap, (proj2 (lookup_seqZ o n _ (o + i))); [done|]. lia.
Qed.
Lemma bytes_at_drop v o n k : 0 ≤ k ≤ n → drop (Z.to_nat k) (bytes_at v o n) = bytes_at v (o + k) (n - k).
Proof.
  intros. replace n with (k + (n - k)) at 1 by lia. rewrite bytes_at_app by lia.
  apply drop_app_length'. by rewrite bytes_at_length.
Qed.
Lemma bytes_at_take v o n k : 0 ≤ k ≤ n → take (Z.to_nat k) (bytes_at v o n) = bytes_at v o k.
Proof.
  intros. replace n with (k + (n - k)) at 1 by lia. rewrite bytes_at_app by lia.
  apply take_app_length'. by rewrite bytes_at_length.
Qed.

Lemma sector_bytes v s : vol_ok v → 0 ≤ s → lba_base v + s < nsec → sector v (lba_base v + s) = bytes_at v (512 * s) 512.
Proof.
  intros Hv H0 H1. pose proof (v_base v Hv). destruct (sector_ok v (lba_base v + s) Hv ltac:(lia)) as [_ Hl].
  apply list_eq_same_length with 512%nat; [apply bytes_at_length|done|]. intros i x y Hi Hx Hy.
  rewrite <- (Nat2Z.id i) in Hy. rewrite bytes_at_lookup in Hy by lia. injection Hy as <-. unfold byte_at.
  rewrite (Z.add_comm (512 * s)), (Z.mul_comm 512), Z.div_add, Z_mod_plus_full by lia.
  rewrite Z.div_small, Z.mod_small, Z.add_0_l, Nat2Z.id by lia. by rewrite Hx.
Qed.
Lemma sectors_bytes v s n : vol_ok v → 0 ≤ s → lba_base v + s + Z.of_nat n ≤ nsec →
  sectors v (lba_base v + s) n = bytes_at v (512 * s) (512 * Z.of_nat n).
Proof.
  intros Hv. revert s. induction n as [|n IH]; intros s H0 H1; [done|].
  replace (512 * Z.of_nat (S n)) with (512 + 512 * Z.of_nat n) by lia.
  rewrite sectors_S, bytes_at_app, sector_bytes by (done || lia). f_equal.
  replace (lba_base v + s + 1) with (lba_base v + (s + 1)) by lia. rewrite IH by lia. f_equal. lia.
Qed.
Lemma block_bytes v n : vol_ok v → on_disk v n → block v n = bytes_at v (n * block_size v) (block_size v).
Proof.
  intros Hv [H0 H1]. destruct (spb_size v Hv) as [E Hs]. unfold block.
  rewrite sectors_bytes by (done || nia || lia). rewrite E. f_equal; lia.
Qed.

Lemma ld32_bytes v o n t i : 0 ≤ i → i + 4 ≤ n → ld32 i (bytes_at v o n ++ t) = Ok (word_at v (o + i)).
Proof.
  intros H0 H1.
  assert (∀ j, 0 ≤ j < n → arr_get (bytes_at v o n ++ t) j = Ok (byte_at v (o + j))) as Hg.
  { intros j Hj. apply arr_get_Ok. split; [lia|]. apply lookup_app_l_Some. by apply bytes_at_lookup. }
  unfold ld32, ld16. rewrite !Hg by lia. cbn [mbind res_bind]. unfold word_at, half_at.
  by rewrite !Z.add_assoc.
Qed.
Lemma words_bytes v o n k i : 0 ≤ i → i + 4 * Z.of_nat k ≤ n →
  words k i (bytes_at v o n) = Ok ((λ j, word_at v (o + i + 4 * j)) <$> seqZ 0 (Z.of_nat k)).
Proof.
  revert i. induction k as [|k IH]; intros i H0 H1; [done|]. cbn [words].
  rewrite <- (app_nil_r (bytes_at v o n)) at 1. rewrite ld32_bytes, IH by lia. cbn [mbind res_bind]. f_equal.
  rewrite Nat2Z.inj_succ, <- Z.add_1_l, seqZ_app by lia. rewrite fmap_app, <- (fmap_add_seqZ 1 0), <- list_fmap_compose.
  change (seqZ 0 1) with [0]. cbn [fmap list_fmap app]. rewrite Z.mul_0_r, Z.add_0_r. f_equal.
  apply list_fmap_ext. intros ? j _. unfold compose. f_equal. lia.
Qed.

Lemma byte_range v o : vol_ok v → 0 ≤ o → lba_base v + o / 512 < nsec → 0 ≤ byte_at v o < 256.
Proof.
  intros Hv H0 H1. pose proof (v_base v Hv). assert (0 ≤ o / 512) by (apply Z.div_pos; lia).
  destruct (rd_read (disk v) (lba_base v + o / 512)) as (s & Hs & _ & Hb); [apply Hv|lia|].
  unfold byte_at, sector. rewrite Hs. change (default [] (Some s)) with s. destruct (s !! Z.to_nat (o mod 512)) as [x|] eqn:E; [|cbn; lia].
  exact (Forall_lookup_1 _ _ _ _ Hb E).
Qed.

Lemma word_range v n o : vol_ok v → on_disk v n → n * block_size v ≤ o → o + 4 ≤ (n + 1) * block_size v → is_u32 (word_at v o).
Proof.
  intros Hv [H0 H1] Hlo Hhi. destruct (spb_size v Hv) as [E Hs].
  assert (∀ i, 0 ≤ i < 4 → 0 ≤ byte_at v (o + i) < 256) as Hb.
  { intros i Hi. apply byte_range; [done|nia|]. assert ((o + i) / 512 < (n + 1) * spb v); [|lia].
    apply Z.div_lt_upper_bound; nia. }
  pose proof (Hb 0 ltac:(lia)) as B0. rewrite Z.add_0_r in B0. pose proof (Hb 1 ltac:(lia)). pose proof (Hb 2 ltac:(lia)).
  pose proof (Hb 3 ltac:(lia)) as B3. replace (o + 3) with (o + 2 + 1) in B3 by lia.
  unfold is_u32, word_at, half_at. lia.
Qed.

(** Where the inode is: in the block [read_inode] reads, at the offset it uses. *)
Lemma inode_block v ino :
  vol_ok v → mounted_from v → 1 ≤ ino ≤ d_per_group v →
  let ipb := block_size v / d_inode_size v in
  0 < ipb ∧ inode_pos v ino = (inode_table v 0 + (ino - 1) / ipb) * block_size v + (ino - 1) mod ipb * d_inode_size v ∧
  0 ≤ (ino - 1) mod ipb * d_inode_size v ∧ (ino - 1) mod ipb * d_inode_size v + d_inode_size v ≤ block_size v.
Proof.
  intros Hv Hm Hi ipb. destruct (m_div v Hm) as [q Hq]. pose proof (m_isz v Hm) as Hz. change (Z.of_nat INODE_SIZE) with 128 in Hz.
  rewrite <- (m_bs v Hm) in Hq. destruct (spb_size v Hv) as [E Hs].
  assert (ipb = q) as Eq by (unfold ipb; rewrite Hq; apply Z.div_mul; lia). rewrite Eq.
  assert (0 < q) by nia. split; [done|].
  pose proof (Z.mod_pos_bound (ino - 1) q ltac:(done)) as Hr. pose proof (Z.div_mod (ino - 1) q ltac:(lia)) as Hdm.
  split; [|split; nia]. unfold inode_pos. rewrite <- (m_bs v Hm), (Z.div_small (ino - 1)), (Z.mod_small (ino - 1)) by lia.
  rewrite Hdm at 1. rewrite Hq. ring.
Qed.

Lemma inode_block_div v ino :
  vol_ok v → mounted_from v → 1 ≤ ino ≤ d_per_group v →
  inode_pos v ino / block_size v = inode_table v 0 + (ino - 1) / (block_size v / d_inode_size v).
Proof.
  intros Hv Hm Hi. destruct (inode_block v ino Hv Hm Hi) as (H0 & -> & H1 & H2). destruct (spb_size v Hv) as [E Hs].
  pose proof (m_isz v Hm) as Hz. change (Z.of_nat INODE_SIZE) with 128 in Hz.
  rewrite Z.add_comm, Z.div_add, Z.div_small by lia. lia.
Qed.

Lemma read_inode_layout v ino :
  vol_ok v → mounted_from v → inode_there v ino →
  read_inode junk v ino = Ok (mkInode (file_size v ino) (block_ptr v ino <$> seqZ 0 15)).
Proof.
  intros Hv Hm (H32 & Hi & Hon). rewrite <- (m_bs v Hm), inode_block_div in Hon by done.
  destruct (inode_block v ino Hv Hm Hi) as (H0 & Hpos & H1 & H2). destruct (spb_size v Hv) as [E Hs].
  set (ipb := block_size v / d_inode_size v) in *. set (blk := inode_table v 0 + (ino - 1) / ipb) in *.
  set (off := (ino - 1) mod ipb * d_inode_size v) in *. unfold is_u32 in H32.
  pose proof (m_isz v Hm) as Hz. change (Z.of_nat INODE_SIZE) with 128 in Hz.
  assert (0 ≤ blk < 2 ^ 32) as Hblk by (destruct Hon; pose proof (v_nsec v Hv); pose proof (v_base v Hv); nia).
  unfold read_inode. rewrite (m_per_group v Hm), (m_inode_size v Hm), (m_table v Hm). unfold div.
  rewrite (u32_small (ino - 1)) by lia. rewrite (proj2 (Z.eqb_neq _ 0)) by lia. cbn [mbind res_bind].
  rewrite (proj2 (Z.eqb_neq _ 0)) by lia. cbn [mbind res_bind]. rewrite (Z.mod_small (ino - 1)) by lia. fold ipb.
  rewrite (proj2 (Z.eqb_neq _ 0)) by lia. cbn [mbind res_bind]. fold blk off.
  rewrite !u32_small by (lia || destruct (v_size v Hv) as [? | [? | ?]]; lia).
  rewrite read_block_spec, block_bytes by done. cbn [mbind res_bind]. unfold from.
  rewrite length_app, bytes_at_length, length_drop, (proj2 (Z.leb_le 0 _)), (proj2 (Z.leb_le _ _)) by lia.
  cbn [andb mbind res_bind]. rewrite drop_app_le, bytes_at_drop by (rewrite ?bytes_at_length; lia).
  rewrite kmemcpy_copy by (rewrite ?length_replicate, ?length_app, ?bytes_at_length; unfold INODE_SIZE; lia).
  rewrite take_app_le by (rewrite bytes_at_length; unfold INODE_SIZE; lia).
  change INODE_SIZE with (Z.to_nat 128). rewrite bytes_at_take, drop_ge, app_nil_r by (rewrite ?length_replicate; lia).
  cbn [mbind res_bind]. unfold inode_of. rewrite <- (app_nil_r (bytes_at _ _ _)) at 1.
  rewrite ld32_bytes by lia. cbn [mbind res_bind]. rewrite words_bytes by lia. cbn [mbind res_bind].
  by rewrite <- Hpos.
Qed.


Lemma get_block_layout v ino n :
  vol_ok v → mounted_from v → 0 ≤ n < 12 + block_size v / 4 → (12 ≤ n → on_disk v (block_ptr v ino 12)) →
  get_block junk v (mkInode (file_size v ino) (block_ptr v ino <$> seqZ 0 15)) n = Ok (block_of v ino n).
Proof.
  intros Hv Hm Hn Hon. unfold get_block, block_of. cbn [i_block].
  assert (∀ k, 0 ≤ k < 15 → arr_get (block_ptr v ino <$> seqZ 0 15) k = Ok (block_ptr v ino k)) as Hp.
  { intros k Hk. apply arr_get_Ok. split; [lia|]. rewrite list_lookup_fmap, (proj2 (lookup_seqZ 0 15 _ k)); [done|lia]. }
  destruct (Z.ltb_spec n 12); [apply Hp; lia|]. rewrite (proj2 (Z.ltb_lt _ _)), Hp by lia. cbn [mbind res_bind].
  rewrite read_block_spec, block_bytes by (done || auto). cbn [mbind res_bind].
  assert (block_size v = 4 * (block_size v / 4)) as Hq by (destruct (v_size v Hv) as [-> | [-> | ->]]; done).
  rewrite ld32_bytes by lia. by rewrite <- (m_bs v Hm).
Qed.

(** An inode of another group is looked for in the table of the first. *)
Lemma read_inode_ignores_group v ino :
  1 ≤ ino → 0 < s_inodes_per_group (sb v) → ino + s_inodes_per_group (sb v) ≤ 2 ^ 32 →
  read_inode junk v (ino + s_inodes_per_group (sb v)) = read_inode junk v ino.
Proof.
  intros H1 Hg H2. unfold read_inode. rewrite !u32_small by lia. unfold div.
  rewrite (proj2 (Z.eqb_neq (s_inodes_per_group (sb v)) 0)) by lia.
  replace (ino + s_inodes_per_group (sb v) - 1) with (ino - 1 + 1 * s_inodes_per_group (sb v)) by lia.
  rewrite Z_mod_plus_full. cbn [mbind res_bind]. done.
Qed.

(** ** Files *)

(** The code finds the first [cnt] blocks of a file at the numbers [nos], on the disk. *)
Definition file_blocks v (inode : ext2_inode_t) (nos : Z → Z) (cnt : Z) : Prop :=
  0 ≤ cnt ∧ ∀ b, 0 ≤ b < cnt → get_block junk v inode b = Ok (nos b) ∧ nos b ≠ 0 ∧ on_disk v (nos b).
Definition contents v (nos : Z → Z) (b : Z) (n : nat) : list Z := mjoin ((λ b, block v (nos b)) <$> seqZ b (Z.of_nat n)).

Lemma contents_S v nos b n : contents v nos b (S n) = block v (nos b) ++ contents v nos (b + 1) n.
Proof.
  unfold contents. rewrite seqZ_cons by lia. cbn [fmap list_fmap mjoin list_join].
  replace (Z.pred (Z.of_nat (S n))) with (Z.of_nat n) by lia. by rewrite <- Z.add_1_r.
Qed.

(** [n] blocks from [b] on are there; after them the file has no block or is read. *)
Lemma file_loop_spec v inode nos n fuel b done_ total buf :
  vol_ok v → 0 ≤ b → (∀ c, b ≤ c < b + Z.of_nat n → get_block junk v inode c = Ok (nos c) ∧ nos c ≠ 0 ∧ on_disk v (nos c)) →
  (n < fuel)%nat → 0 ≤ done_ ≤ total → total ≤ Z.of_nat (length buf) →
  (total - done_ ≤ Z.of_nat n * block_size v ∨ get_block junk v inode (b + Z.of_nat n) = Ok 0) →
  let k := Z.min (total - done_) (Z.of_nat n * block_size v) in
  read_loop junk fuel v inode b done_ total buf =
    Ok (done_ + k, take (Z.to_nat done_) buf ++ take (Z.to_nat k) (contents v nos b n) ++ drop (Z.to_nat (done_ + k)) buf).
Proof.
  intros Hv. destruct (spb_size v Hv) as [Ebs Hs].
  revert fuel b done_ buf. induction n as [|n IH]; intros fuel b done_ buf Hb Hnos Hf Hd Hbuf Hend k.
  - assert (k = 0) as -> by lia. rewrite Z.add_0_r, take_0, app_nil_l, take_drop.
    destruct fuel as [|fuel]; [lia|]. cbn [read_loop]. destruct (Z.ltb_spec done_ total); [|done].
    destruct Hend as [?|Hz]; [lia|]. rewrite Z.add_0_r in Hz. by rewrite Hz.
  - assert (0 ≤ Z.of_nat n * block_size v) as Hnn by (apply Z.mul_nonneg_nonneg; lia).
    destruct fuel as [|fuel]; [lia|]. cbn [read_loop]. destruct (Z.ltb_spec done_ total) as [Hlt|Hge]; cycle 1.
    { assert (k = 0) as -> by lia. by rewrite Z.add_0_r, take_0, app_nil_l, take_drop. }
    destruct (Hnos b ltac:(lia)) as (Hg & Hz & Hon). rewrite Hg. cbn [mbind res_bind].
    rewrite (proj2 (Z.eqb_neq _ 0)), read_block_spec by done. cbn [mbind res_bind].
    pose proof (block_length v _ Hv Hon) as Hbl.
    set (chunk := if block_size v <? total - done_ then block_size v else total - done_).
    assert (chunk = Z.min (total - done_) (block_size v)) as Ec by (unfold chunk; case_z; lia).
    rewrite memcpy_at_spec by (rewrite ?length_app; lia). cbn [mbind res_bind].
    rewrite take_app_le by lia.
    assert (length (take (Z.to_nat done_) buf ++ take (Z.to_nat chunk) (block v (nos b))) = Z.to_nat (done_ + chunk)) as Hlt2
      by (rewrite length_app, !length_take; lia).
    rewrite IH; try lia; cycle 1.
    { intros c Hc. apply Hnos. lia. } { rewrite !length_app, !length_take, length_drop. lia. }
    { replace (b + 1 + Z.of_nat n) with (b + Z.of_nat (S n)) by lia. destruct Hend; [left; lia|by right]. }
    set (k' := Z.min (total - (done_ + chunk)) (Z.of_nat n * block_size v)).
    assert (k = chunk + k') as -> by lia. rewrite Z.add_assoc. do 2 f_equal.
    set (A := take (Z.to_nat done_) buf) in *. set (B := take (Z.to_nat chunk) (block v (nos b))) in *.
    rewrite !(app_assoc A B). rewrite take_app_length' by lia. rewrite drop_app_ge by lia.
    rewrite Hlt2, drop_drop, <- app_assoc. f_equal. rewrite contents_S, app_assoc. unfold B.
    f_equal; [|f_equal; lia].
    destruct (decide (chunk = block_size v)) as [E|E].
    + rewrite (take_ge (block v (nos b))) by lia. rewrite take_app_ge by lia. do 2 f_equal. lia.
    + assert (k' = 0) as -> by lia. rewrite take_0, app_nil_r, Z.add_0_r. by rewrite take_app_le by lia.
Qed.

Lemma file_blocks_bound v inode nos cnt : vol_ok v → file_blocks v inode nos cnt → (Z.to_nat cnt < max_blocks v)%nat.
Proof.
  intros Hv [H0 Hb]. unfold max_blocks. assert (0 ≤ block_size v / 4) by (destruct (v_size v Hv) as [-> | [-> | ->]]; done).
  destruct (decide (cnt ≤ 12 + block_size v / 4)); [lia|].
  destruct (Hb (12 + block_size v / 4)) as (Hg & Hz & _); [lia|]. unfold get_block in Hg.
  rewrite (proj2 (Z.ltb_ge _ 12)), Z.ltb_irrefl in Hg by lia. injection Hg as Hg. by destruct Hz.
Qed.

Lemma file_blocks_layout v ino cnt :
  vol_ok v → mounted_from v → blocks_there v ino cnt →
  file_blocks v (mkInode (file_size v ino) (block_ptr v ino <$> seqZ 0 15)) (block_of v ino) cnt.
Proof.
  intros Hv Hm (Hc & Hind & Hb). rewrite <- (m_bs v Hm) in Hc. split; [lia|]. intros b Hr.
  split; [|by apply Hb]. apply get_block_layout; [done|done|lia|]. intros. apply Hind. lia.
Qed.
Lemma block_file_bytes v ino b :
  vol_ok v → mounted_from v → on_disk v (block_of v ino b) →
  block v (block_of v ino b) = file_byte v ino <$> seqZ (b * block_size v) (block_size v).
Proof.
  intros Hv Hm Hon. rewrite block_bytes by done. destruct (spb_size v Hv) as [E Hs]. unfold bytes_at.
  replace (b * block_size v) with (b * block_size v + 0) by lia.
  rewrite <- (Z.add_0_r (block_of v ino b * block_size v)), <- !(fmap_add_seqZ _ 0), <- !list_fmap_compose.
  apply list_fmap_ext. intros i j [-> Hj]%lookup_seqZ. unfold compose, file_byte. rewrite <- (m_bs v Hm).
  rewrite Z.add_0_l, (Z.add_comm (b * _)), Z.div_add, Z_mod_plus_full, Z.div_small, Z.mod_small by lia.
  by rewrite Z.add_0_l.
Qed.
Lemma contents_layout v ino b n :
  vol_ok v → mounted_from v → (∀ c, b ≤ c < b + Z.of_nat n → on_disk v (block_of v ino c)) →
  contents v (block_of v ino) b n = file_byte v ino <$> seqZ (b * block_size v) (Z.of_nat n * block_size v).
Proof.
  intros Hv Hm. destruct (spb_size v Hv) as [E Hs]. revert b. induction n as [|n IH]; intros b Hon; [done|].
  rewrite contents_S, block_file_bytes, IH by (done || intros; apply Hon; lia).
  replace (Z.of_nat (S n) * block_size v) with (block_size v + Z.of_nat n * block_size v) by lia.
  rewrite seqZ_app, fmap_app by nia. do 3 f_equal. lia.
Qed.

(** ** Directories and paths *)
Lemma find_entry_app name es es' :
  find_entry name (es ++ es') = if find_entry name es =? 0 then find_entry name es' else find_entry name es.
Proof.
  induction es as [|e es IH]; [done|]. cbn [app]. rewrite !find_entry_cons. case_decide as E; [|done].
  by rewrite (proj2 (Z.eqb_neq _ 0)) by apply E.
Qed.

(** Inode [ino] is a directory: its blocks are the entries [ess], block by block. *)
Definition dir_at v (ino : Z) (ess : list (list dirent)) : Prop :=
  inode_there v ino ∧ blocks_there v ino (Z.of_nat (length ess)) ∧
  file_size v ino = Z.of_nat (length ess) * d_block_size v ∧ file_size v ino < 2 ^ 32 ∧
  ∀ j es, ess !! j = Some es → Forall dirent_ok es ∧
    bytes_at v (block_of v ino (Z.of_nat j) * d_block_size v) (d_block_size v) = mjoin (enc_dirent <$> es).

Lemma lookup_loop_spec v inode nos name s l fuel b :
  vol_ok v → cstr name s → (length l < fuel)%nat → 0 ≤ b →
  i_size inode = (b + Z.of_nat (length l)) * block_size v → i_size inode < 2 ^ 32 →
  (∀ j es, l !! j = Some es → get_block junk v inode (b + Z.of_nat j) = Ok (nos (b + Z.of_nat j)) ∧
     nos (b + Z.of_nat j) ≠ 0 ∧ on_disk v (nos (b + Z.of_nat j)) ∧ Forall dirent_ok es ∧
     block v (nos (b + Z.of_nat j)) = mjoin (enc_dirent <$> es)) →
  lookup_loop junk fuel v inode b (b * block_size v) (Z.of_nat (length s)) name = Ok (find_entry s (mjoin l)).
Proof.
  intros Hv Hn. destruct (spb_size v Hv) as [Ebs Hs].
  revert fuel b. induction l as [|es l IH]; intros fuel b Hf Hb Hsz H32 Hl; cbn [length] in *.
  - destruct fuel as [|fuel]; [lia|]. cbn [lookup_loop]. by rewrite Hsz, Z.add_0_r, Z.ltb_irrefl.
  - assert (0 ≤ Z.of_nat (length l) * block_size v) as Hnn by (apply Z.mul_nonneg_nonneg; lia).
    destruct fuel as [|fuel]; [lia|]. cbn [lookup_loop]. rewrite (proj2 (Z.ltb_lt _ _)) by lia.
    destruct (Hl 0%nat es eq_refl) as (Hg & Hz & Hon & Hok & Hblk). rewrite Z.add_0_r in *.
    rewrite Hg. cbn [mbind res_bind]. rewrite (proj2 (Z.eqb_neq _ 0)), read_block_spec by done. cbn [mbind res_bind].
    pose proof (block_length v _ Hv Hon) as Hbl.
    assert (0 ≤ b * block_size v) by (apply Z.mul_nonneg_nonneg; lia).
    rewrite !(u32_small (i_size inode - b * block_size v)) by lia.
    assert ((if block_size v <? i_size inode - b * block_size v then block_size v else i_size inode - b * block_size v)
      = block_size v) as -> by (case_z; lia).
    pose proof (scan_dir_spec es (Z.to_nat (block_size v)) [] (drop (Z.to_nat (block_size v)) junk) name s Hn Hok) as Hscan.
    cbv zeta in Hscan. rewrite <- Hblk in Hscan. cbn [app length Nat.add] in Hscan. rewrite Hbl in Hscan.
    change (Z.of_nat 0) with 0 in Hscan. rewrite Hscan by lia. cbn [mbind res_bind mjoin list_join].
    fold (mjoin l). rewrite find_entry_app. destruct (Z.eqb_spec (find_entry s es) 0) as [Ez|Ez]; cbn [negb]; [|done].
    rewrite u32_small by lia. replace (b * block_size v + block_size v) with ((b + 1) * block_size v) by lia.
    apply IH; try lia. intros j es' Hj. replace (b + 1 + Z.of_nat j) with (b + Z.of_nat (S j)) by lia. by apply Hl.
Qed.

Lemma lookup_dir_spec v ino ess name s :
  vol_ok v → mounted_from v → dir_at v ino ess → cstr name s → lookup_dir junk v ino name = Ok (find_entry s (mjoin ess)).
Proof.
  intros Hv Hm (Hi & Hbl & Hsz & H32 & Hes) Hn. unfold lookup_dir. rewrite read_inode_layout by done. cbn [mbind res_bind].
  rewrite (kstrlen_cstr _ s) by done. cbn [mbind res_bind].
  pose proof (file_blocks_layout _ _ _ Hv Hm Hbl) as Hfb.
  pose proof (file_blocks_bound _ _ _ _ Hv Hfb) as Hmax. rewrite Nat2Z.id in Hmax. destruct Hfb as [_ Hfb].
  rewrite <- (m_bs v Hm) in Hsz, Hes.
  apply (lookup_loop_spec v _ (block_of v ino) name s ess (max_blocks v) 0); try done.
  intros j es Hj. pose proof (lookup_lt_Some _ _ _ Hj). destruct (Hfb (Z.of_nat j) ltac:(lia)) as (? & ? & ?).
  destruct (Hes j es Hj). rewrite Z.add_0_l. by rewrite block_bytes.
Qed.

(** The names lead from inode [i] to inode [k], every step by the first entry in use with
    the name. *)
Inductive resolves v : Z → list (list Z) → Z → Prop :=
| resolves_here i : resolves v i [] i
| resolves_step i ess n ns k :
    dir_at v i ess → find_entry n (mjoin ess) ≠ 0 → resolves v (find_entry n (mjoin ess)) ns k → resolves v i (n :: ns) k.

Definition name_ok (n : list Z) : Prop := n ≠ [] ∧ (length n < 256)%nat ∧ Forall (λ c, c ≠ 0 ∧ c ≠ 47) n.
Fixpoint join_path (ns : list (list Z)) : list Z :=
  match ns with
  | [] => []
  | [n] => n
  | n :: ns' => n ++ 47 :: join_path ns'
  end.

Lemma component_spec n c rest : Forall (λ c, c ≠ 0 ∧ c ≠ 47) n → (c = 0 ∨ c = 47) →
  component (n ++ c :: rest) = Ok (n, c :: rest).
Proof.
  intros Hn Hc. induction Hn as [|x n [Hx0 Hx1] Hn IH]; cbn [component app].
  - by destruct Hc as [-> | ->].
  - rewrite (proj2 (Z.eqb_neq x 0)), (proj2 (Z.eqb_neq x 47)) by done. cbn [orb]. by rewrite IH.
Qed.

(** The buffer of one component. *)
Lemma part_spec n : (length n < 256)%nat → Forall (λ c, c ≠ 0 ∧ c ≠ 47) n →
  ∃ p p', kmemcpy (replicate 256 0) n (length n) = Ok p ∧ arr_set p (Z.of_nat (length n)) 0 = Ok p' ∧ cstr p' n.
Proof.
  intros Hl Hn. rewrite kmemcpy_copy by (rewrite ?length_replicate; lia). rewrite take_ge by lia.
  eexists _, _. split; [done|]. split.
  - rewrite arr_set_in; [done|]. rewrite length_app, length_drop, length_replicate. lia.
  - rewrite Nat2Z.id, drop_replicate. replace (256 - length n)%nat with (S (255 - length n)) by lia.
    exists (replicate (255 - length n) 0). split.
    + replace (length n) with (length n + 0)%nat at 1 by lia. by rewrite insert_app_r.
    + eapply Forall_impl; [exact Hn|]. by intros ? [? _].
Qed.

Lemma walk_spec v ns ino k fuel rest :
  vol_ok v → mounted_from v → Forall name_ok ns → resolves v ino ns k → (length ns ≤ fuel)%nat →
  walk junk fuel v (join_path ns ++ 0 :: rest) ino = Ok k.
Proof.
  intros Hv Hm Hok Hr. revert fuel. induction Hr as [i|i ess n ns k Hdir Hfind Hr IH]; intros fuel Hf.
  { by destruct fuel. }
  apply Forall_cons in Hok as [(Hne & Hlen & Hchars) Hok]. cbn [length] in Hf.
  destruct fuel as [|fuel]; [lia|].
  assert (∃ c tl, (c = 0 ∨ c = 47) ∧ join_path (n :: ns) ++ 0 :: rest = n ++ c :: tl ∧
    (if c =? 0 then c :: tl else tl) = join_path ns ++ 0 :: rest) as (c & tl & Hc & -> & Htl).
  { destruct ns as [|m ns]; [by exists 0, rest; split; [left|]|].
    exists 47, (join_path (m :: ns) ++ 0 :: rest). split; [by right|]. split; [|done]. cbn [join_path]. by rewrite <- app_assoc. }
  destruct (part_spec n Hlen Hchars) as (p & p' & Hp & Hp' & Hcs).
  destruct n as [|x n]; [done|]. apply Forall_cons in Hchars as [[Hx0 Hx1] Hchars'].
  assert (arr_get ((x :: n) ++ c :: tl) 0 = Ok x) as Hx by done.
  cbn [walk]. rewrite Hx. cbn [mbind res_bind]. rewrite (proj2 (Z.eqb_neq x 0)) by done.
  rewrite component_spec by (done || by constructor). cbn [mbind res_bind fst snd]. rewrite Hp. cbn [mbind res_bind].
  rewrite Hp'. cbn [mbind res_bind]. rewrite (lookup_dir_spec v i ess p' (x :: n)) by done. cbn [mbind res_bind].
  rewrite (proj2 (Z.eqb_neq _ 0)) by done. change (arr_get (c :: tl) 0) with (Ok c). cbn [mbind res_bind drop].
  change (drop 0 tl) with tl. rewrite Htl. apply IH; [done|lia].
Qed.

Lemma path_length ns : Forall name_ok ns → (length ns ≤ length (join_path ns))%nat.
Proof.
  induction 1 as [|n ns (Hne & _) Hns IH]; [cbn; lia|]. destruct n as [|x n]; [done|].
  destruct ns as [|m ns]; cbn [join_path length] in *; [lia|]. rewrite length_app. cbn in *. lia.
Qed.

Lemma path_to_ino_spec v ns k rest :
  vol_ok v → mounted_from v → Forall name_ok ns → resolves v EXT2_ROOT_INO ns k →
  path_to_ino junk v (47 :: join_path ns ++ 0 :: rest) = Ok k.
Proof.
  intros Hv Hm Hok Hr. unfold path_to_ino. cbn -[walk arr_get].
  change (arr_get (47 :: join_path ns ++ 0 :: rest) 0) with (Ok 47). cbn -[walk arr_get].
  destruct ns as [|n ns]; [by inversion Hr|].
  pose proof (path_length _ Hok) as Hl. apply Forall_cons in Hok as [(Hne & Hlen & Hchars) Hok].
  destruct n as [|x n]; [done|]. pose proof Hchars as [[Hx0 Hx1] _]%Forall_cons.
  assert (∃ tl, join_path ((x :: n) :: ns) ++ 0 :: rest = x :: tl) as [tl Htl] by (destruct ns; by eexists).
  assert (arr_get (47 :: join_path ((x :: n) :: ns) ++ 0 :: rest) 1 = Ok x) as -> by (by rewrite Htl).
  cbn [mbind res_bind]. rewrite (proj2 (Z.eqb_neq x 0)) by done. change (drop 0 ?l) with l.
  apply walk_spec; [done|done| |done|].
  - by constructor.
  - rewrite length_app. lia.
Qed.
End volume.

(** C29: reading a file of an ext2 volume by its absolute path, measured by the format on
    the disk ([inode_pos], [block_of], [file_byte], [dir_at]: none of them uses the code).
    If the names of the path lead from the root directory to an inode, each found as the
    first entry in use with its name, then the buffer receives the bytes of the file in
    order, as many as the file has, the caller asked for and direct and single indirect
    blocks hold; nothing else of the buffer changes, and their number is returned. The
    structures in memory are those of the disk ([mounted_from]), and every inode on the
    way lies in the first block group: the code ignores the group
    ([read_inode_ignores_group]). The blocks read are there: a file with a hole is cut
    short by the code. *)
Theorem ext2_read_path {D} `{Disk D} ok nsec `{!ReliableDisk D ok 0 nsec} junk v ns ino rest buf sz :
  length junk = Z.to_nat 4096 → vol_ok ok nsec v → mounted v = true → mounted_from v →
  Forall name_ok ns → resolves nsec v EXT2_ROOT_INO ns ino → ino ≠ 0 → inode_there nsec v ino → 0 ≤ file_size v ino →
  0 ≤ sz < 2 ^ 31 → sz ≤ Z.of_nat (length buf) →
  let n := Z.min (Z.min (file_size v ino) sz) (max_file v) in
  blocks_there nsec v ino ((n + d_block_size v - 1) / d_block_size v) →
  ext2_read_file junk v (47 :: join_path ns ++ 0 :: rest) buf sz =
    Ok (n, (file_byte v ino <$> seqZ 0 n) ++ drop (Z.to_nat n) buf).
Proof.
  intros Hj Hv Hm Hmf Hns Hr Hne Hi Hsz0 Hsz Hbuf n Hbl.
  pose proof (file_blocks_layout ok nsec junk Hj v ino _ Hv Hmf Hbl) as Hfb. destruct (spb_size _ _ v Hv) as [Hb ?].
  rewrite <- (m_bs v Hmf) in Hfb, Hbl. 
  assert (n = Z.min (Z.min (file_size v ino) sz) ((12 + block_size v / 4) * block_size v)) as En
    by (unfold n, max_file; by rewrite <- (m_bs v Hmf)). clearbody n.
  set (cnt := (n + block_size v - 1) / block_size v) in *.
  assert (Z.to_nat cnt < max_blocks v)%nat as Hmax by (by eapply file_blocks_bound). destruct Hfb as [Hc0 Hfb].
  unfold ext2_read_file. rewrite Hm. cbn [negb].
  erewrite path_to_ino_spec by done. cbn [mbind res_bind].
  rewrite (proj2 (Z.eqb_neq ino 0)) by done. unfold read_data. erewrite read_inode_layout by done. cbn [mbind res_bind i_size].
  set (total := if file_size v ino <? sz then file_size v ino else sz).
  assert (total = Z.min (file_size v ino) sz) as Et by (unfold total; case_z; lia).
  set (inode := mkInode _ _) in *.
  assert (get_block junk v inode (12 + block_size v / 4) = Ok 0) as Hend.
  { assert (0 ≤ block_size v / 4) by (apply Z.div_pos; lia).
    unfold get_block. by rewrite (proj2 (Z.ltb_ge _ 12)), Z.ltb_irrefl by lia. }
  rewrite <- Et in En. destruct (ceil_blocks total (block_size v) (12 + block_size v / 4) n) as (Hn0 & Hmin & Hcase);
    [lia|pose proof (Z.div_pos (block_size v) 4); lia|lia|done|]. fold cnt in Hmin, Hcase.
  erewrite (file_loop_spec ok nsec junk Hj v inode (block_of v ino) (Z.to_nat cnt) (max_blocks v) 0 0 total buf Hv); try done; try lia.
  - rewrite Z2Nat.id, Z.sub_0_r, Z.add_0_l, (contents_layout ok nsec junk Hj) by (done || lia || (intros; apply Hfb; lia)).
    rewrite Hmin. cbn [mbind res_bind fst snd].
    rewrite take_0, app_nil_l, i32_small by lia. rewrite Z.mul_0_l. do 3 f_equal.
    rewrite Z2Nat.id by lia. replace (cnt * block_size v) with (n + (cnt * block_size v - n)) by lia.
    rewrite seqZ_app, fmap_app by lia. apply take_app_length'. by rewrite length_fmap, length_seqZ.
  - intros c Hc. apply Hfb. lia.
  - rewrite Z2Nat.id by lia. destruct Hcase as [? | ->]; [left; lia|right; by rewrite Z.add_0_l].
Qed.

(** A volume of nineteen blocks with the file "/hi" of twelve full blocks and three bytes,
    the last of them behind the indirect block. *)
Definition enc_inode (size : Z) (bs : list Z) : list Z :=
  replicate 4 0 ++ le32 size ++ replicate 32 0 ++ mjoin (le32 <$> bs) ++ replicate (88 - 4 * length bs) 0.
Definition pad_block (b : list Z) : list Z := b ++ replicate (Z.to_nat 1024 - length b) 0.
Definition halves (b : list Z) : list (list Z) := [take 512 b; drop 512 b].
Definition example_dir : list dirent :=
  [mkDirent 2 2 [46] (replicate 3 0); mkDirent 3 1 (str "hi") (replicate (Z.to_nat 1002) 0)].
Definition example_super : list Z :=
  replicate 40 0 ++ le32 8 ++ replicate 12 0 ++ le16 EXT2_MAGIC ++ replicate 30 0 ++ le16 128.
Definition example_blocks : list (list Z) :=
  [[]; example_super; replicate 8 0 ++ le32 3; replicate 128 0 ++ enc_inode 1024 [4] ++ enc_inode 12291 (seqZ 5 13);
   mjoin (enc_dirent <$> example_dir)] ++ replicate 12 (replicate (Z.to_nat 1024) 7) ++ [le32 18; str "end"].
Definition example_disk : memdisk := mjoin ((λ b, halves (pad_block b)) <$> example_blocks).
Definition example_vol : ext2 memdisk := mkExt2 example_disk (mkSuper 0 8 EXT2_MAGIC 128) 3 1024 0 true.
Definition example_data : list Z := replicate (Z.to_nat 12288) 7 ++ str "end".

Lemma ext2_read_path_witness :
  ext2_read_file (replicate (Z.to_nat 4096) 0) example_vol (lit "/hi") (replicate (Z.to_nat 12293) 1) 12293 =
    Ok (12291, example_data ++ [1; 1]).
Proof.
  assert (Hv : vol_ok (memdisk_ok 38) 38 example_vol).
  { split; [|left; reflexivity|discriminate|reflexivity]. split; [reflexivity|].
    apply (bool_decide_unpack _). vm_compute. exact I. }
  assert (Hm : mounted_from example_vol).
  { split; try (vm_compute; reflexivity); [vm_compute; congruence|exists 8; vm_compute; reflexivity]. }
  assert (Hi2 : inode_there 38 example_vol 2) by (repeat split; vm_compute; congruence).
  assert (Hi3 : inode_there 38 example_vol 3) by (repeat split; vm_compute; congruence).
  assert (Hb3 : blocks_there 38 example_vol 3 13).
  { split; [split; vm_compute; congruence|]. split; [intros _; split; vm_compute; congruence|].
    apply (Forall_seqZ (λ n, block_of example_vol 3 n ≠ 0 ∧ on_disk 38 example_vol (block_of example_vol 3 n)) 0 13).
    unfold on_disk. apply (bool_decide_unpack _). vm_compute. exact I. }
  assert (Hdir : dir_at 38 example_vol 2 [example_dir]).
  { split; [exact Hi2|]. split; [|split; [vm_compute; reflexivity|split; [vm_compute; reflexivity|]]].
    - split; [split; vm_compute; congruence|]. split; [intros [=]|]. intros n Hn. cbn in Hn. assert (n = 0) as -> by lia.
      repeat split; vm_compute; congruence.
    - intros [|j] es; [intros [= <-]|intros [=]]. split; [|vm_compute; reflexivity].
      repeat constructor; vm_compute; congruence. }
  assert (Hres : resolves 38 example_vol EXT2_ROOT_INO [str "hi"] 3).
  { eapply resolves_step; [exact Hdir|vm_compute; discriminate|].
    assert (find_entry (str "hi") (mjoin [example_dir]) = 3) as -> by (vm_compute; reflexivity). constructor. }
  assert (Hsize : file_size example_vol 3 = 12291) by (vm_compute; reflexivity).
  pose proof (ext2_read_path (memdisk_ok 38) 38 (replicate (Z.to_nat 4096) 0) example_vol [str "hi"] 3 []
    (replicate (Z.to_nat 12293) 1) 12293) as Hr.
  etransitivity; [apply Hr|vm_compute; reflexivity].
  - reflexivity.
  - exact Hv.
  - reflexivity.
  - exact Hm.
  - repeat constructor; vm_compute; congruence.
  - exact Hres.
  - discriminate.
  - exact Hi3.
  - rewrite Hsize. discriminate.
  - split; vm_compute; congruence.
  - vm_compute. discriminate.
  - rewrite Hsize. exact Hb3.
Defined.

(** The super block structure is six bytes longer than the two sectors it is copied from. *)
Lemma ext2_init_overreads {D} `{Disk D} junk lba (v : ext2 D) :
  length junk = Z.to_nat 4096 → (∀ n s, ata_read (disk v) 0 n = Some s → length s = 512%nat) →
  ext2_init junk lba v = Fault.
Proof.
  intros Hj Hd. unfold ext2_init.
  assert (∀ pos l b, length b = 1024%nat → (pos + 512 ≤ 1024)%nat →
    ∃ b', sector_into v l pos b = Ok b' ∧ length b' = 1024%nat) as Hs.
  { intros pos l b Hb Hp. unfold sector_into. destruct (ata_read (disk v) 0 (u32 l)) as [s|] eqn:E; [|by eexists].
    pose proof (Hd _ _ E). rewrite memcpy_at_spec by lia. eexists. split; [done|].
    rewrite !length_app, !length_take, length_drop. lia. }
  destruct (Hs 0%nat (lba + 2) (take 1024 junk)) as (t1 & -> & H1); [rewrite length_take; lia|lia|]. cbn [mbind res_bind].
  destruct (Hs 512%nat (lba + 3) t1) as (t2 & -> & H2); [done|lia|]. cbn [mbind res_bind].
  rewrite kmemcpy_overrun; [done|]. right. rewrite H2. unfold SUPER_SIZE. lia.
Qed.
