(* ===== verification/Syscall.v ===== *)
(** * System calls (src/src/syscall.c)

    The calls compose every component: the state [kernel] holds theirs, and a call is
    the component's operation on its part ([zoom]). Pointers from user programs are
    addresses in the memory of [Paging]; an object behind one is the list of bytes from
    there to the first address without a page ([user_bytes]), and what a call leaves
    in it is stored back through the page tables. The kernel's own tables are not in
    that memory. Calls that wait take what happens meanwhile as parameters. *)

From S2P Require Import Prelude KString Bytes Ring Pipe KMalloc BlockDev Fat12 FatDir Vga Ramfs Ports Idt Process Net NetProps.
From S2P Require Import Serial Keyboard Rtc Vfs VfsBackends Sched Signal Pmm Paging Vmem Elf.

Definition SYSCALL_MAX : Z := 47.
Definition MAX_USER_FD : Z := 8.

(** [return (uint32_t)-1] *)
Definition ERR : Z := u32 (-1).

(** ** Objects in user memory *)

(** The bytes from [v] up to the first unmapped address, at most [n]. *)
Fixpoint read_bytes (n : nat) (v : Z) (s : vm) : list Z :=
  match n with
  | O => []
  | S n' => match view s v with Some b => b :: read_bytes n' (v + 1) s | None => [] end
  end.
Definition user_bytes (v : Z) (s : vm) : list Z := read_bytes (Z.to_nat (2 ^ 32 - v)) v s.

(** What the calls use of a task beyond the scheduler's fields. *)
Record task_ext := mkExt { page_dir_phys : Z; t_cwd : list Z; t_argv : list Z; t_argc : Z }.
(** An entry of [ufd]. *)
Record ufd_t := mkUfd { u_name : list Z; u_open : Z; u_pos : Z }.

Section syscalls.
Context {DD : Type} `{Disk DD} {U : Type} `{Ports U} {C : Type} `{Ports C} {DN : Type} `{Nic DN}
  {K : Type} `{Allocator K}.

Record kernel := mkKernel {
  k_vm : vm; k_net : net DN K; k_vfs : vfs (backend DD); k_uart : U; k_com1 : bool; k_cmos : C;
  k_ext : list task_ext; k_load_buf : list Z; k_ufd : list ufd_t; k_tbuf : list Z }.

Definition set_vm (v : vm) (k : kernel) : kernel :=
  mkKernel v (k_net k) (k_vfs k) (k_uart k) (k_com1 k) (k_cmos k) (k_ext k) (k_load_buf k) (k_ufd k) (k_tbuf k).
Definition set_net (v : net DN K) (k : kernel) : kernel :=
  mkKernel (k_vm k) v (k_vfs k) (k_uart k) (k_com1 k) (k_cmos k) (k_ext k) (k_load_buf k) (k_ufd k) (k_tbuf k).
Definition set_vfs (v : vfs (backend DD)) (k : kernel) : kernel :=
  mkKernel (k_vm k) (k_net k) v (k_uart k) (k_com1 k) (k_cmos k) (k_ext k) (k_load_buf k) (k_ufd k) (k_tbuf k).
Definition set_uart (u : U) (b : bool) (k : kernel) : kernel :=
  mkKernel (k_vm k) (k_net k) (k_vfs k) u b (k_cmos k) (k_ext k) (k_load_buf k) (k_ufd k) (k_tbuf k).
Definition set_cmos (c : C) (k : kernel) : kernel :=
  mkKernel (k_vm k) (k_net k) (k_vfs k) (k_uart k) (k_com1 k) c (k_ext k) (k_load_buf k) (k_ufd k) (k_tbuf k).
Definition set_ext (l : list task_ext) (k : kernel) : kernel :=
  mkKernel (k_vm k) (k_net k) (k_vfs k) (k_uart k) (k_com1 k) (k_cmos k) l (k_load_buf k) (k_ufd k) (k_tbuf k).
Definition set_lbuf (l : list Z) (k : kernel) : kernel :=
  mkKernel (k_vm k) (k_net k) (k_vfs k) (k_uart k) (k_com1 k) (k_cmos k) (k_ext k) l (k_ufd k) (k_tbuf k).
Definition set_ufd (l : list ufd_t) (t : list Z) (k : kernel) : kernel :=
  mkKernel (k_vm k) (k_net k) (k_vfs k) (k_uart k) (k_com1 k) (k_cmos k) (k_ext k) (k_load_buf k) l t.

(** The components. The timer is part of the network's state, the scheduler of the
    timer's, the files and the console of the file layer's. *)
Definition in_vm {A} : M vm A → M kernel A := zoom k_vm set_vm.
Definition in_net {A} : M (net DN K) A → M kernel A := zoom k_net set_net.
Definition in_timer {A} (m : M (timer K) A) : M kernel A := in_net (zoom clock set_clock m).
Definition in_sig {A} (m : M (sigst K) A) : M kernel A :=
  in_timer (zoom t_sig (λ g t, mkTimer (tick_count t) (tick_hz t) (t_ports t) (t_procs t) g) m).
Definition in_sched {A} (m : M (sched K) A) : M kernel A := in_sig (Signal.in_sched m).
Definition in_vfs {A} : M (vfs (backend DD)) A → M kernel A := zoom k_vfs set_vfs.
Definition in_back {A} (m : M (backend DD) A) : M kernel A := in_vfs (on_back m).
Definition in_tty {A} (m : M tty A) : M kernel A := in_back (on_tty m).
Definition in_serial {A} (m : M (serial U) A) : M kernel A :=
  zoom (λ k, mkSerial (k_uart k) (k_com1 k) (t_vga (term_dev (back (k_vfs k)))))
    (λ s k, let b := back (k_vfs k) in
       set_uart (uart s) (com1_ready s)
         (set_vfs (set_back (mkBackend (ram b) (mem_open b) (fat b) (disk_open b)
                               (mkTty (t_kb (term_dev b)) (screen s))) (k_vfs k)) k)) m.
Definition in_cmos {A} : M C A → M kernel A := zoom k_cmos set_cmos.
Definition in_loader {A} (m : M (loader (D := DD) (K := K)) A) : M kernel A :=
  zoom (λ k, let b := back (k_vfs k) in
          mkLoader (k_vm k) (fat b) (ram b) (sg_sched (t_sig (clock (k_net k)))) (k_load_buf k))
    (λ l k, let b := back (k_vfs k) in let t := clock (k_net k) in
       set_lbuf (elf_load_buf l) (set_vm (l_vm l)
         (set_net (set_clock (mkTimer (tick_count t) (tick_hz t) (t_ports t) (t_procs t)
                                (set_sched (l_sched l) (t_sig t))) (k_net k))
         (set_vfs (set_back (mkBackend (l_ram l) (mem_open b) (l_fat l) (disk_open b) (term_dev b)) (k_vfs k)) k)))) m.
Definition look {A} (f : kernel → res A) : M kernel A := λ k, a ← f k; Ok (a, k).

Definition user_obj (v : Z) : M kernel (list Z) := gets (λ k, user_bytes v (k_vm k)).
Definition user_put (v : Z) (l : list Z) : M kernel unit := in_vm (vcopy8 v l (length l)).
(** The 32-bit word a user pointer addresses. *)
Definition user_word (v : Z) : M kernel Z := o ← user_obj v; lift (ld32 0 o).

(** [sched_current()] and its entry in [k_ext]. *)
Definition current : M kernel Z := in_sched sched_current.
Definition cur_task : M kernel task_t := i ← current; in_sched (rd_task i).
Definition rd_ext (i : Z) : M kernel task_ext := look (λ k, arr_get (k_ext k) i).
Definition put_ext (i : Z) (e : task_ext) : M kernel unit := λ k,
  l ← arr_set (k_ext k) i e; Ok (tt, set_ext l k).
Definition set_dir (d : Z) (e : task_ext) : task_ext := mkExt d (t_cwd e) (t_argv e) (t_argc e).
Definition mounted : M kernel bool := gets (λ k, g_mounted (fat (back (k_vfs k)))).
Definition ram_find (name : list Z) : M kernel (option fs_file_t) := look (λ k,
  r ← fs_find name (ram (back (k_vfs k)));
  match r with
  | None => Ok None
  | Some i => f ← arr_get (files (ram (back (k_vfs k)))) (Z.of_nat i); Ok (Some f)
  end).

(** [page_dir] is the address of the kernel's directory, [fuel] bounds what waits;
    [irq] is one timer interrupt, [halt] one wait of the keyboard, [pipe_env],
    [task_env] and [others] are what the other tasks do while this one is in a pipe,
    in [sched_waitpid] or has yielded. *)
Context (page_dir : Z) (fuel : nat) (irq : timer K → res (timer K)) (halt : nat → M kb unit)
  (pipe_env : list pipe_t → list pipe_t) (task_env : nat → M (sched K) unit) (others : M kernel unit).

(** ** Tasks and time *)
Definition sc_exit (code b c : Z) : M kernel Z := in_sched sched_exit ;; mret 0.
Definition sc_getpid (a b c : Z) : M kernel Z := t ← cur_task; mret (u32 (pid t)).
Definition sc_sleep (ms b c : Z) : M kernel Z :=
  in_timer (λ t, t' ← timer_sleep fuel irq ms t; Ok (tt, t')) ;; mret 0.
Definition sc_yield (a b c : Z) : M kernel Z := in_sched sched_yield ;; mret 0.
Definition sc_sbrk (inc b c : Z) : M kernel Z :=
  if inc =? 0 then in_vm heap_brk
  else p ← in_vm (vmalloc page_dir inc); mret (if p =? 0 then ERR else p).
Definition sc_uptime (a b c : Z) : M kernel Z := look (λ k, timer_seconds (clock (k_net k))).
Definition sc_waitpid (pid b c : Z) : M kernel Z :=
  r ← in_sched (sched_waitpid fuel 0 task_env (i32 pid)); mret (u32 r).
Definition sc_wait (code_ptr b c : Z) : M kernel Z :=
  t ← cur_task;
  r ← in_sched (sched_wait fuel 0 task_env (Sched.pid t));
  match r with
  | None => mret ERR
  | Some (p, code) =>
      (if code_ptr =? 0 then mret tt else user_put code_ptr (Bytes.le32 code)) ;; mret (u32 p)
  end.
Definition sc_getppid (a b c : Z) : M kernel Z := t ← cur_task; mret (u32 (parent_pid t)).
Definition sc_kill (pid sig c : Z) : M kernel Z := r ← in_sig (signal_send (i32 pid) (i32 sig)); mret (u32 r).
Definition sc_signal_set (sig handler c : Z) : M kernel Z :=
  r ← in_sig (signal_set_handler (i32 sig) handler); mret (u32 r).

(** ** Console, clock and serial line *)
Definition sc_getkey (a b c : Z) : M kernel Z :=
  ch ← in_tty (on_kb (keyboard_getchar_blocking fuel 0 halt)); mret (u32 (schar ch)).
Definition sc_putchar (ch b c : Z) : M kernel Z := in_tty (on_vga (vga_putchar (u8 ch))) ;; mret 0.
(** [rtc_time_t] in memory; the byte before the year is padding. *)
Definition rtc_bytes (t : rtc_time_t) : list Z :=
  [second t; minute t; hour t; day t; month t; 0] ++ Bytes.le16 (year t).
Definition sc_gettime (buf_addr b c : Z) : M kernel Z :=
  if buf_addr =? 0 then mret ERR
  else t ← in_cmos (rtc_read fuel); user_put buf_addr (rtc_bytes t) ;; mret 0.
Definition sc_serial_write (buf len c : Z) : M kernel Z :=
  if (buf =? 0) || (4096 <? len) then mret ERR
  else
    k ← get;
    o ← user_obj buf;
    (if k_com1 k then in_serial (serial_write COM1 o (Z.to_nat len)) else mret tt) ;;
    mret len.

(** ** Files *)
Definition sc_vfs_open (path flags c : Z) : M kernel Z :=
  if path =? 0 then mret ERR
  else o ← user_obj path; r ← in_vfs (vfs_open o (i32 flags)); mret (u32 r).
Definition sc_vfs_close (fd b c : Z) : M kernel Z := r ← in_vfs (vfs_close (i32 fd)); mret (u32 r).
Definition sc_vfs_read (fd buf len : Z) : M kernel Z :=
  if buf =? 0 then mret ERR
  else
    o ← user_obj buf;
    r ← in_vfs (vfs_read pipe_env fuel (i32 fd) o len);
    user_put buf r.2 ;; mret (u32 r.1).
Definition sc_vfs_write (fd buf len : Z) : M kernel Z :=
  if buf =? 0 then mret ERR
  else o ← user_obj buf; r ← in_vfs (vfs_write pipe_env fuel (i32 fd) o len); mret (u32 r).
Definition sc_vfs_readdir (path buf sz : Z) : M kernel Z :=
  if (path =? 0) || (buf =? 0) then mret 0
  else
    p ← user_obj path; o ← user_obj buf;
    r ← in_vfs (vfs_readdir p o sz);
    user_put buf r.2 ;; mret (u32 r.1).
(** [vfs_stat_t] in memory. *)
Definition stat_of (o : list Z) : res vfs_stat_t :=
  let o := o ++ replicate 69 0 in
  size ← ld32 0 o; ty ← ld8 4 o; nm ← get_at 5 64 o; Ok (mkStat size ty nm).
Definition stat_bytes (st : vfs_stat_t) : list Z := Bytes.le32 (st_size st) ++ [st_type st] ++ st_name st.
Definition sc_vfs_stat (path st c : Z) : M kernel Z :=
  if (path =? 0) || (st =? 0) then mret ERR
  else
    p ← user_obj path; o ← user_obj st; old ← lift (stat_of o);
    r ← in_vfs (vfs_stat p old);
    (if r.1 <? 0 then mret tt else user_put st (stat_bytes r.2)) ;; mret (u32 r.1).
Definition sc_vfs_unlink (path b c : Z) : M kernel Z :=
  if path =? 0 then mret ERR else p ← user_obj path; r ← in_vfs (vfs_unlink p); mret (u32 r).
Definition sc_vfs_pipe (fds b c : Z) : M kernel Z :=
  if fds =? 0 then mret ERR
  else
    r ← in_vfs vfs_pipe;
    (if r.1 <? 0 then mret tt else user_put fds (Bytes.le32 r.2.1 ++ Bytes.le32 r.2.2)) ;; mret (u32 r.1).
Definition sc_vfs_dup2 (old nw c : Z) : M kernel Z := r ← in_vfs (vfs_dup2 (i32 old) (i32 nw)); mret (u32 r).
Definition sc_vfs_getcwd (buf sz c : Z) : M kernel Z :=
  if buf =? 0 then mret ERR
  else o ← user_obj buf; r ← in_vfs (vfs_getcwd o sz); user_put buf r.2 ;; mret (u32 r.1).
Definition sc_vfs_chdir (path b c : Z) : M kernel Z :=
  if path =? 0 then mret ERR else p ← user_obj path; r ← in_vfs (vfs_chdir p); mret (u32 r).
Definition sc_isatty (fd b c : Z) : M kernel Z := r ← look (λ k, vfs_isatty (i32 fd) (k_vfs k)); mret (u32 r).

(** ** Programs *)

(** [upper], with its extension. *)
Definition exec_name (path : Z) : M kernel (list Z) :=
  o ← user_obj path;
  u ← lift (to_upper o);
  d ← lift (kstrchr u 46);
  match d with Some _ => mret u | None => lift (kstrcat u (lit ".ELF")) end.

(** [while (argv[argc] && argc < 15)], [n] turns at most. *)
Fixpoint copy_args (n : nat) (argv_addr argc : Z) (l : list Z) : M kernel (list Z * Z) :=
  match n with
  | O => mret (l, argc)
  | S n' =>
      w ← user_word (u32 (argv_addr + 4 * argc));
      if negb (w =? 0) && (argc <? 15) then
        l' ← lift (arr_set l argc w); copy_args n' argv_addr (argc + 1) l'
      else mret (l, argc)
  end.

Fixpoint exec_stack (n : nat) (va : Z) : M kernel unit :=
  match n with
  | O => mret tt
  | S n' =>
      m ← in_vm (paging_is_mapped page_dir va);
      (if (m : bool) then mret tt
       else
         phys ← in_vm palloc;
         if phys =? 0 then mret tt
         else in_vm (kmemset_page phys ;; paging_map page_dir va phys (Z.lor PAGE_WRITE PAGE_USER))) ;;
      exec_stack n' (va + PAGE_SIZE)
  end.

Definition rename (n : list Z) (t : task_t) : task_t :=
  mkTask (esp t) (stack t) (stack_size t) (state t) (pid t) (parent_pid t) (exit_code t) n (ticks t)
    (sleep_until t) (kum_level t).
Definition adopt (pp k sz e : Z) (t : task_t) : task_t :=
  mkTask e k sz (state t) (pid t) pp (exit_code t) (name t) (ticks t) (sleep_until t) (kum_level t).

Definition sc_execve (path_addr argv_addr envp_addr : Z) : M kernel Z :=
  if path_addr =? 0 then mret ERR
  else
    upper ← exec_name path_addr;
    r ← in_loader (elf_load_disk page_dir upper);
    if negb (error r =? 0) then mret ERR
    else
      cur ← current;
      e ← rd_ext cur;
      (if page_dir_phys e =? 0 then mret tt
       else in_vm (paging_free_user (page_dir_phys e)) ;; put_ext cur (set_dir 0 e)) ;;
      new_dir ← in_vm (paging_clone_dir page_dir);
      if new_dir =? 0 then mret ERR
      else
        e ← rd_ext cur;
        put_ext cur (set_dir new_dir e) ;;
        in_vm (paging_switch new_dir) ;;
        r2 ← in_loader (elf_load_disk page_dir upper);
        if negb (error r2 =? 0) then in_vm (paging_switch 0) ;; mret ERR
        else
          t ← in_sched (rd_task cur);
          nm ← lift (set_name (name t) upper);
          in_sched (upd cur (rename nm)) ;;
          e ← rd_ext cur;
          a ← (if argv_addr =? 0 then mret (t_argv e, 0) else copy_args 16 argv_addr 0 (t_argv e));
          l ← lift (arr_set a.1 a.2 0);
          put_ext cur (mkExt (page_dir_phys e) (t_cwd e) l a.2) ;;
          exec_stack 4 (0x40000000 - 16384) ;;
          k ← in_sched get;
          let '(ksp, m) := push_all (stack t + stack_size t) (user_frame (r_entry r2)) (kmem k) in
          in_sched (modify (set_kmem m)) ;;
          in_sched (upd cur (set_esp ksp)) ;;
          mret 0.

Definition sc_exec (path_addr b c : Z) : M kernel Z := sc_execve path_addr b c.

(** The words on the stack of a new child. *)
Definition fork_frame (parent_esp : Z) : list Z :=
  [0x23; parent_esp; 0x202; 0x1B; 0; 0; 0; 0; 0; 0; 0; 0; 0; 0x23; 0; 0].

(** [kmalloc] and [kfree] on the heap of the scheduler. *)
Definition kalloc (sz : Z) : M (sched K) Z := λ s, r ← alloc sz (heap s); Ok (r.1, Sched.set_heap r.2 s).
Definition krelease (p : Z) : M (sched K) unit := λ s, h ← release p (heap s); Ok (tt, Sched.set_heap h s).

Definition sc_fork (a b c : Z) : M kernel Z :=
  par ← current;
  parent ← in_sched (rd_task par);
  child_dir ← in_vm (paging_clone_dir page_dir);
  if child_dir =? 0 then mret ERR
  else
    kstack ← in_sched (kalloc SCHED_STACK_SIZE);
    if kstack =? 0 then in_vm (paging_free_user child_dir) ;; mret ERR
    else
      child_pid ← in_sched (sched_spawn (name parent) 0 (kum_level parent));
      if child_pid <? 0 then
        in_sched (krelease kstack) ;; in_vm (paging_free_user child_dir) ;; mret ERR
      else
        ch ← in_sched (gets (sched_get_task child_pid));
        match ch with
        | None => mret ERR
        | Some j =>
            let j := Z.of_nat j in
            p ← in_sched (rd_task par);
            pe ← rd_ext par; ce ← rd_ext j;
            cwd ← lift (kstrcpy (t_cwd ce) (t_cwd pe));
            let n := Z.to_nat (Z.min (t_argc pe) 15) in
            put_ext j (mkExt child_dir cwd (take n (t_argv pe) ++ drop n (t_argv ce)) (t_argc pe)) ;;
            t ← in_sched (rd_task j);
            (if stack t =? 0 then mret tt else in_sched (krelease (stack t))) ;;
            k ← in_sched get;
            let '(sp, m) := push_all (kstack + SCHED_STACK_SIZE) (fork_frame (esp p)) (kmem k) in
            in_sched (modify (set_kmem m)) ;;
            in_sched (upd j (adopt (pid p) kstack SCHED_STACK_SIZE sp)) ;;
            mret (u32 child_pid)
        end.

(** ** Sockets and waiting for descriptors *)
Definition sc_tcp_connect (ip port x : Z) : M kernel Z := r ← in_net (tcp_connect fuel irq ip (u16 port)); mret (u32 r).
Definition sc_tcp_send (s buf len : Z) : M kernel Z :=
  o ← user_obj buf; r ← in_net (tcp_send (i32 s) o (u16 len)); mret (u32 r).
Definition sc_tcp_recv (s buf len : Z) : M kernel Z :=
  o ← user_obj buf; r ← in_net (tcp_recv (i32 s) o (u16 len)); user_put buf r.2 ;; mret (u32 r.1).
Definition sc_tcp_close (s b x : Z) : M kernel Z := in_net (tcp_close fuel irq (i32 s)) ;; mret 0.

Definition fd_ready (fd : Z) : M kernel bool := look (λ k,
  f ← vfs_get_fd fd (k_vfs k);
  match f with
  | None => Ok false
  | Some f =>
      Ok (((fd_type f =? VFS_PIPE) && pipe_has_data (pipe_id f) (pipes (k_vfs k)))
          || ((fd_type f =? VFS_DEV) && (fd_data f =? 0) && keyboard_has_input (t_kb (term_dev (back (k_vfs k))))))
  end).
(** The descriptors from [fd] on; [n] of the 32 are left. *)
Fixpoint select_fds (n : nat) (fd nfds rfds ready : Z) : M kernel Z :=
  match n with
  | O => mret ready
  | S n' =>
      if fd <? nfds then
        w ← (if rfds =? 0 then mret 0 else user_word rfds);
        r ← (if Z.testbit w fd then fd_ready fd else mret false);
        select_fds n' (fd + 1) nfds rfds (if (r : bool) then ready + 1 else ready)
      else mret ready
  end.
Fixpoint select_loop (n : nat) (deadline nfds rfds : Z) : M kernel Z :=
  now ← gets (λ k, tick_count (clock (k_net k)));
  if now <? deadline then
    ready ← select_fds 32 0 nfds rfds 0;
    if negb (ready =? 0) then mret ready
    else match n with O => lift Timeout | S n' => others ;; select_loop n' deadline nfds rfds end
  else mret 0.
Definition sc_select (nfds rfds_addr wfds_addr : Z) : M kernel Z :=
  now ← gets (λ k, tick_count (clock (k_net k)));
  select_loop fuel (u32 (now + 5000 / 10)) nfds rfds_addr.
Definition sc_poll (fds_addr nfds timeout_ms : Z) : M kernel Z := sc_select nfds fds_addr 0.

(** ** The table *)
Definition syscall_table (num : Z) : option (Z → Z → Z → M kernel Z) :=
  match num with
  | 0 => Some sc_exit | 1 => Some sc_vfs_write | 2 => Some sc_vfs_read | 3 => Some sc_getpid
  | 4 => Some sc_sleep | 5 => Some sc_yield | 6 => Some sc_sbrk | 7 => Some sc_uptime
  | 8 => Some sc_getkey | 9 => Some sc_putchar | 10 => Some sc_vfs_open | 11 => Some sc_vfs_close
  | 12 => Some sc_vfs_read | 13 => Some sc_vfs_write | 14 => Some sc_vfs_readdir | 15 => Some sc_waitpid
  | 16 => Some sc_wait | 17 => Some sc_gettime | 18 => Some sc_serial_write | 19 => Some sc_exec
  | 20 => Some sc_fork | 21 => Some sc_vfs_pipe | 22 => Some sc_vfs_dup2 | 23 => Some sc_vfs_getcwd
  | 24 => Some sc_vfs_chdir | 25 => Some sc_vfs_stat | 26 => Some sc_vfs_unlink | 28 => Some sc_getppid
  | 29 => Some sc_isatty | 30 => Some sc_kill | 31 => Some sc_signal_set | 40 => Some sc_tcp_connect
  | 41 => Some sc_tcp_send | 42 => Some sc_tcp_recv | 43 => Some sc_tcp_close | 44 => Some sc_execve
  | 45 => Some sc_select | 46 => Some sc_poll
  | _ => None
  end.

Definition syscall_dispatch (num a b c : Z) : M kernel Z :=
  if SYSCALL_MAX <=? num then mret ERR
  else match syscall_table num with
       | None => mret ERR
       | Some f => f a b c
       end.

(** ** The first versions of the file calls, which the table no longer names *)
Fixpoint put_chars (l : list Z) (n : nat) {struct n} : M kernel unit :=
  match n with
  | O => mret tt
  | S n' => match l with
            | [] => lift Fault
            | c :: l' => in_tty (on_vga (vga_putchar c)) ;; put_chars l' n'
            end
  end.
Definition sc_write (buf_addr len c : Z) : M kernel Z :=
  if (buf_addr =? 0) || (0x20000000 <? buf_addr) then mret ERR
  else
    let len := if 4096 <? len then 4096 else len in
    o ← user_obj buf_addr; put_chars o (Z.to_nat len) ;; mret len.
Definition sc_read (buf_addr len c : Z) : M kernel Z :=
  if (buf_addr =? 0) || (len =? 0) then mret 0
  else
    let len := if 256 <? len then 256 else len in
    o ← user_obj buf_addr;
    r ← in_tty (keyboard_getline fuel halt o len);
    user_put buf_addr r.2 ;; mret (u32 r.1).

Definition rd_ufd (fd : Z) : M kernel ufd_t := look (λ k, arr_get (k_ufd k) fd).
Definition put_ufd (fd : Z) (f : ufd_t) : M kernel unit := λ k,
  l ← arr_set (k_ufd k) fd f; Ok (tt, set_ufd l (k_tbuf k) k).
Definition sc_open (name_addr b c : Z) : M kernel Z :=
  if name_addr =? 0 then mret ERR
  else
    k ← get;
    match find_idx (λ f, u_open f =? 0) (k_ufd k) with
    | None => mret ERR
    | Some i =>
        o ← user_obj name_addr;
        mf ← ram_find o;
        m ← mounted;
        if negb (bool_decide (is_Some mf)) && negb m then mret ERR
        else
          f ← rd_ufd (Z.of_nat i);
          nm ← lift (kstrcpy (u_name f) o);
          put_ufd (Z.of_nat i) (mkUfd nm 1 0) ;; mret (Z.of_nat i)
    end.
Definition sc_close (fd b c : Z) : M kernel Z :=
  if MAX_USER_FD <=? fd then mret ERR
  else f ← rd_ufd fd; put_ufd fd (mkUfd (u_name f) 0 (u_pos f)) ;; mret 0.

(** [fd >= MAX_USER_FD || !ufd[fd].open] *)
Definition ufd_bad (fd : Z) : M kernel bool :=
  if MAX_USER_FD <=? fd then mret true else f ← rd_ufd fd; mret (u_open f =? 0).
(** The bytes of an object of [n] bytes from the position of the descriptor on. *)
Definition fread_from (fd buf_addr sz n : Z) (data : list Z) : M kernel Z :=
  f ← rd_ufd fd;
  let avail := u32 (n - u_pos f) in
  let sz := if avail <? sz then avail else sz in
  src ← lift (from (u_pos f) data);
  o ← user_obj buf_addr;
  o' ← lift (kmemcpy o src (Z.to_nat sz));
  user_put buf_addr o' ;;
  put_ufd fd (mkUfd (u_name f) (u_open f) (u32 (u_pos f + sz))) ;; mret sz.
Definition sc_fread (fd buf_addr sz : Z) : M kernel Z :=
  bad ← ufd_bad fd;
  if (bad : bool) then mret ERR
  else if (buf_addr =? 0) || (sz =? 0) then mret 0
  else
    f ← rd_ufd fd;
    mf ← ram_find (u_name f);
    m ← mounted;
    match mf with
    | Some mf => fread_from fd buf_addr sz (f_size mf) (f_data mf)
    | None =>
        if (m : bool) then
          r ← in_back (VfsBackends.on_fat (fat12_read (u_name f) 4096));
          match r with
          | None => mret ERR
          | Some l =>
              k ← get;
              t ← lift (kmemcpy (k_tbuf k) l (length l));
              modify (set_ufd (k_ufd k) t) ;;
              fread_from fd buf_addr sz (Z.of_nat (length l)) t
          end
        else mret ERR
    end.
Definition sc_fwrite (fd buf_addr sz : Z) : M kernel Z :=
  bad ← ufd_bad fd;
  if (bad : bool) then mret ERR
  else if (buf_addr =? 0) || (sz =? 0) then mret 0
  else
    f ← rd_ufd fd;
    o ← user_obj buf_addr;
    mf ← ram_find (u_name f);
    m ← mounted;
    match mf with
    | Some _ => in_back (on_ram (fs_write (u_name f) o)) ;; mret sz
    | None =>
        if (m : bool) then
          r ← in_back (VfsBackends.on_fat (fat12_write (u_name f) o sz));
          mret (if r =? 0 then sz else ERR)
        else mret ERR
    end.

(** Names, one a line, while they fit. *)
Fixpoint list_names (l : list fat12_entry_t) (buf : list Z) (pos sz : Z) : res (list Z * Z) :=
  match l with
  | [] => Ok (buf, pos)
  | e :: l' =>
      if u32 (pos + 16) <? sz then
        b ← kstrcpy (drop (Z.to_nat pos) buf) (fe_name e);
        n ← kstrlen (fe_name e);
        buf' ← arr_set (take (Z.to_nat pos) buf ++ b) (pos + n) 10;
        list_names l' buf' (pos + n + 1) sz
      else Ok (buf, pos)
  end.
Definition sc_listdir (buf_addr sz c : Z) : M kernel Z :=
  if (buf_addr =? 0) || (sz <? 64) then mret 0
  else
    o ← user_obj buf_addr;
    m ← mounted;
    l ← (if (m : bool) then in_back (VfsBackends.on_fat (fat12_list 32)) else mret None);
    r ← lift (list_names (default [] l) o 0 sz);
    o' ← lift (arr_set r.1 r.2 0);
    user_put buf_addr o' ;; mret r.2.
End syscalls.
Arguments kernel DD U C DN K : clear implicits.

(** [syscall_init], with the descriptor table of [Idt]; [isr] is the address of the stub. *)
Definition syscall_init {DD U C DN K I} (isr : Z) : M (kernel DD U C DN K * interrupts I) unit :=
  zoom fst (λ k p, (k, p.2)) (modify (λ k, set_ufd (replicate 8 (mkUfd (replicate 32 0) 0 0)) (k_tbuf k) k)) ;;
  zoom snd (λ i p, (p.1, i)) (idt_set_raw 0x80 isr 0x08 0xEE).

(** * Proofs *)

(** ** Objects *)
Lemma read_bytes_lookup n v s i b : read_bytes n v s !! i = Some b → view s (v + Z.of_nat i) = Some b.
Proof.
  revert v i. induction n as [|n IH]; intros v i; [done|]. cbn.
  destruct (view s v) as [c|] eqn:E; [|done]. destruct i as [|i]; cbn.
  - intros [= <-]. by rewrite Z.add_0_r.
  - intros Hi. rewrite <- (IH _ _ Hi). f_equal. lia.
Qed.

Lemma read_bytes_long n m v s :
  (m ≤ n)%nat → (∀ u, v ≤ u < v + Z.of_nat m → is_Some (view s u)) → (m ≤ length (read_bytes n v s))%nat.
Proof.
  revert n v. induction m as [|m IH]; intros n v Hm Hv; [lia|]. destruct n as [|n]; [lia|]. cbn.
  destruct (Hv v ltac:(lia)) as [b ->]. cbn. apply le_n_S, IH; [lia|]. intros u Hu. apply Hv. lia.
Qed.

Lemma read_bytes_bound n v s : (length (read_bytes n v s) ≤ n)%nat.
Proof. revert v. induction n as [|n IH]; intros v; cbn; [lia|]. destruct (view s v); cbn; [|lia]. specialize (IH (v + 1)). lia. Qed.

Lemma view_byte s v b : view s v = Some b → is_byte b.
Proof.
  unfold view. intros (p & _ & Hb)%fmap_Some. subst b. unfold get_byte, is_byte. apply Z.mod_pos_bound. lia.
Qed.

Lemma user_bytes_spec v n s :
  0 ≤ v → 0 ≤ n → v + n ≤ 2 ^ 32 → (∀ u, v ≤ u < v + n → is_Some (view s u)) →
  n ≤ Z.of_nat (length (user_bytes v s)) ∧ v + Z.of_nat (length (user_bytes v s)) ≤ 2 ^ 32 ∧
  Forall is_byte (user_bytes v s) ∧ (∀ i, 0 ≤ i < Z.of_nat (length (user_bytes v s)) →
    user_bytes v s !! Z.to_nat i = view s (v + i)).
Proof.
  intros H0 Hn Hhi Hv. unfold user_bytes. set (N := Z.to_nat (2 ^ 32 - v)).
  assert (Z.of_nat N = 2 ^ 32 - v) as HN by (apply Z2Nat.id; lia).
  pose proof (read_bytes_bound N v s). clearbody N.
  split; [|split; [lia|split]].
  - assert (Z.to_nat n ≤ length (read_bytes N v s))%nat; [|lia]. apply read_bytes_long; [lia|].
    intros u Hu. apply Hv. lia.
  - apply Forall_lookup_2. intros i b Hb. by eapply view_byte, read_bytes_lookup.
  - intros i Hi. destruct (lookup_lt_is_Some_2 (read_bytes N v s) (Z.to_nat i)) as [b Hb]; [lia|].
    rewrite Hb. apply read_bytes_lookup in Hb. by rewrite Z2Nat.id in Hb by lia.
Qed.

Section proofs.
Context {DD : Type} `{Disk DD} {U : Type} `{Ports U} {C : Type} `{Ports C} {DN : Type} `{Nic DN}
  {K : Type} `{Allocator K}.
Variable page_dir : Z.

(** Storing an object over user memory leaves the object there. *)
Lemma user_put_spec (k : kernel DD U C DN K) v l :
  vm_wf page_dir (k_vm k) → 2 ^ 24 ≤ v → v + Z.of_nat (length l) ≤ 2 ^ 32 → Forall is_byte l →
  (∀ u, v ≤ u < v + Z.of_nat (length l) → is_Some (view (k_vm k) u)) →
  ∃ m, user_put v l k = Ok (tt, set_vm m k) ∧ vm_wf page_dir m ∧
    ∀ u, 2 ^ 24 ≤ u < 2 ^ 32 → view m u =
      if decide (v ≤ u < v + Z.of_nat (length l)) then l !! Z.to_nat (u - v) else view (k_vm k) u.
Proof.
  intros Hw Hlo Hhi Hb Hv.
  destruct (vcopy8_spec page_dir (length l) l v (k_vm k)) as (m & Hr & Hw' & _ & _ & Hview); try done.
  { intros u Hu. rewrite <- not_eq_None_Some, <- (view_None page_dir) by (done || lia).
    apply not_eq_None_Some, Hv. lia. }
  exists m. split; [|split; [done|]].
  - unfold user_put, in_vm, zoom. by rewrite Hr.
  - intros u Hu. rewrite Hview by done. unfold stored. by rewrite firstn_all.
Qed.
End proofs.

(** An open pipe descriptor. *)
Definition pipe_open {S} (fd id : Z) (v : vfs S) : Prop :=
  0 ≤ fd < VFS_MAX_FD ∧ ∃ f, fd_table v !! Z.to_nat fd = Some f ∧ fd_used f ≠ 0 ∧ fd_type f = VFS_PIPE ∧ pipe_id f = id.

Lemma vfs_write_pipe {S} env fuel fd id buf len (v : vfs S) r ps :
  pipe_open fd id v → pipe_write env fuel id buf len (pipes v) = Ok (r, ps) →
  vfs_write env fuel fd buf len v = Ok (r, set_pipes ps v).
Proof.
  intros (Hfd & f & Hf & Hu & Ht & <-) Hw. unfold VFS_MAX_FD in Hfd.
  unfold vfs_write, mbind, M_bind, get, lift, bad_fd, VFS_MAX_FD.
  rewrite (proj2 (Z.ltb_ge fd 0)), (proj2 (Z.leb_gt 32 fd)) by lia. cbn [orb].
  rewrite (proj2 (arr_get_Ok (fd_table v) fd f)) by (split; [lia|done]). cbn [mbind res_bind].
  rewrite (proj2 (Z.eqb_neq (fd_used f) 0)) by done. cbv beta iota.
  unfold get_fd. rewrite (proj2 (arr_get_Ok (fd_table v) fd f)) by (split; [lia|done]). cbn [mbind res_bind].
  rewrite Ht, Z.eqb_refl, Hw. done.
Qed.

Lemma vfs_read_pipe {S} env fuel fd id buf len (v : vfs S) r b ps :
  pipe_open fd id v → pipe_read env fuel id buf len (pipes v) = Ok (r, b, ps) →
  vfs_read env fuel fd buf len v = Ok ((r, b), set_pipes ps v).
Proof.
  intros (Hfd & f & Hf & Hu & Ht & <-) Hw. unfold VFS_MAX_FD in Hfd.
  unfold vfs_read, mbind, M_bind, get, lift, bad_fd, VFS_MAX_FD.
  rewrite (proj2 (Z.ltb_ge fd 0)), (proj2 (Z.leb_gt 32 fd)) by lia. cbn [orb].
  rewrite (proj2 (arr_get_Ok (fd_table v) fd f)) by (split; [lia|done]). cbn [mbind res_bind].
  rewrite (proj2 (Z.eqb_neq (fd_used f) 0)) by done. cbv beta iota.
  unfold get_fd. rewrite (proj2 (arr_get_Ok (fd_table v) fd f)) by (split; [lia|done]). cbn [mbind res_bind].
  rewrite Ht, Z.eqb_refl, Hw. done.
Qed.

(** ** Properties *)

(** Numbers outside the table and numbers the table skips are answered with -1 and change
    nothing at all; so are null pointers by the calls listed, and with 0 by SYS_LISTDIR.
    SYS_TCP_SEND and SYS_TCP_RECV do not look at theirs. *)
Theorem syscall_rejects {DD} `{Disk DD} {U} `{Ports U} {C} `{Ports C} {DN} `{Nic DN} {K} `{Allocator K}
    page_dir fuel irq halt pipe_env task_env others num a b c (k : kernel DD U C DN K) :
  let call := syscall_dispatch page_dir fuel irq halt pipe_env task_env others num a b c k in
  (47 ≤ num ∨ num = 27 ∨ 32 ≤ num < 40 → call = Ok (0xFFFFFFFF, k)) ∧
  (num ∈ [10; 17; 18; 19; 21; 23; 24; 25; 26; 44] → a = 0 → call = Ok (0xFFFFFFFF, k)) ∧
  (num ∈ [1; 2; 12; 13; 25] → b = 0 → call = Ok (0xFFFFFFFF, k)) ∧
  (num = 14 → a = 0 ∨ b = 0 → call = Ok (0, k)).
Proof.
  cbv zeta. unfold syscall_dispatch, SYSCALL_MAX. split; [|split; [|split]].
  - intros Hn. destruct (Z.leb_spec 47 num) as [?|?]; [done|].
    assert (num = 27 ∨ num = 32 ∨ num = 33 ∨ num = 34 ∨ num = 35 ∨ num = 36 ∨ num = 37 ∨ num = 38 ∨ num = 39)
      as Hc by lia. by destruct_or! Hc; subst num.
  - intros Hn ->. set_unfold in Hn. by destruct_or! Hn; subst num.
  - intros Hn ->. set_unfold in Hn. destruct_or! Hn; subst num; try done.
    cbn. unfold sc_vfs_stat. by rewrite orb_true_r.
  - intros -> Hz. cbn. unfold sc_vfs_readdir. destruct Hz as [-> | ->]; [done|]. by rewrite orb_true_r.
Qed.

(** What INT 0x80 does for a program whose next instruction is at 47 or above, as
    that of every program is: the stub passes the return address for the number of the
    call, so whatever the program asked for, nothing changes but its EAX, which
    becomes -1. *)
Theorem int80_always_fails {DD} `{Disk DD} {U} `{Ports U} {C} `{Ports C} {DN} `{Nic DN} {K} `{Allocator K}
    page_dir fuel irq halt pipe_env task_env others clobbered x st (k : kernel DD U C DN K) :
  flat x → ds x = 0x10 → 47 ≤ eip x →
  (cpu_interrupt None ;;
   isr128 (λ num a b c, r ← syscall_dispatch page_dir fuel irq halt pipe_env task_env others num a b c;
                        mret (r, clobbered))) (mkMach x st k) =
    Ok (true, mkMach (set_reg EAX 0xFFFFFFFF x) st k).
Proof.
  intros Hx Hds Heip. destruct clobbered as [d1 d2]. eapply syscall_frame; [done|done|].
  unfold mbind, M_bind, syscall_dispatch, SYSCALL_MAX. rewrite (proj2 (Z.leb_le 47 (eip x))) by done. done.
Qed.

(** The two calls on the ends of a pipe, by what the pipe does. *)
Lemma sys_write_pipe {DD} `{Disk DD} {U} `{Ports U} {C} `{Ports C} {DN} `{Nic DN} {K} `{Allocator K}
    page_dir fuel irq halt pipe_env task_env others w id src n ps (k : kernel DD U C DN K) :
  pipe_open w id (k_vfs k) → 2 ^ 24 ≤ src → 0 ≤ n ≤ 4095 →
  pipe_write pipe_env fuel id (user_bytes src (k_vm k)) n (pipes (k_vfs k)) = Ok (n, ps) →
  syscall_dispatch page_dir fuel irq halt pipe_env task_env others 1 w src n k = Ok (n, set_vfs (set_pipes ps (k_vfs k)) k).
Proof.
  intros Hw Hs Hn Hwrite. pose proof Hw as [Hfd _]. unfold VFS_MAX_FD in Hfd. unfold syscall_dispatch. cbn -[sc_vfs_write]. unfold sc_vfs_write.
  rewrite (proj2 (Z.eqb_neq src 0)) by lia. unfold mbind, M_bind, user_obj, gets, in_vfs, zoom. cbv beta iota.
  rewrite i32_small by lia. erewrite vfs_write_pipe by done. unfold mret, M_ret. by rewrite u32_small by lia.
Qed.
Lemma sys_read_pipe {DD} `{Disk DD} {U} `{Ports U} {C} `{Ports C} {DN} `{Nic DN} {K} `{Allocator K}
    page_dir fuel irq halt pipe_env task_env others r id dst n b ps m (k : kernel DD U C DN K) :
  let k' := set_vfs (set_pipes ps (k_vfs k)) k in
  pipe_open r id (k_vfs k) → 2 ^ 24 ≤ dst → 0 ≤ n ≤ 4095 →
  pipe_read pipe_env fuel id (user_bytes dst (k_vm k)) n (pipes (k_vfs k)) = Ok (n, b, ps) →
  user_put dst b k' = Ok (tt, set_vm m k') →
  syscall_dispatch page_dir fuel irq halt pipe_env task_env others 2 r dst n k = Ok (n, set_vm m k').
Proof.
  intros k' Hr Hd Hn Hread Hput. pose proof Hr as [Hfd _]. unfold VFS_MAX_FD in Hfd. unfold syscall_dispatch. cbn -[sc_vfs_read]. unfold sc_vfs_read.
  rewrite (proj2 (Z.eqb_neq dst 0)) by lia. unfold mbind, M_bind, user_obj, gets, in_vfs, zoom. cbv beta iota.
  rewrite i32_small by lia. erewrite vfs_read_pipe by done. cbn [snd fst]. fold k'. rewrite Hput. unfold mret, M_ret. by rewrite u32_small by lia.
Qed.

(** C27: bytes written to a pipe from one user buffer are read from it into another:
    SYS_WRITE and SYS_READ of up to 4095 bytes on the two ends of an empty pipe
    both return the length, the destination then holds what the source held, every
    other byte of user memory is as before, and the pipe is empty again. The state is
    any in which the address space is well-formed, which includes that the frames in
    use lie below 16 MiB, and user memory is what is mapped at 16 MiB and above. *)
Theorem user_pipe_roundtrip {DD} `{Disk DD} {U} `{Ports U} {C} `{Ports C} {DN} `{Nic DN} {K} `{Allocator K}
    page_dir fuel irq halt pipe_env task_env others w r id p src dst n (k : kernel DD U C DN K) :
  let call := syscall_dispatch page_dir fuel irq halt pipe_env task_env others in
  vm_wf page_dir (k_vm k) → pipe_open w id (k_vfs k) → pipe_open r id (k_vfs k) →
  pipe_get id (pipes (k_vfs k)) = Some p → pipe_wf p → p_readers p ≠ 0 → pipe_queue p = [] →
  0 ≤ n ≤ 4095 → (Z.to_nat n < fuel)%nat →
  2 ^ 24 ≤ src → src + n ≤ 2 ^ 32 → (∀ u, src ≤ u < src + n → is_Some (view (k_vm k) u)) →
  2 ^ 24 ≤ dst → dst + n ≤ 2 ^ 32 → (∀ u, dst ≤ u < dst + n → is_Some (view (k_vm k) u)) →
  ∃ k1 k2 p', call 1 w src n k = Ok (n, k1) ∧ call 2 r dst n k1 = Ok (n, k2) ∧ vm_wf page_dir (k_vm k2) ∧
    (∀ u, 2 ^ 24 ≤ u < 2 ^ 32 → view (k_vm k2) u =
       if decide (dst ≤ u < dst + n) then view (k_vm k) (src + (u - dst)) else view (k_vm k) u) ∧
    pipe_get id (pipes (k_vfs k2)) = Some p' ∧ pipe_queue p' = [].
Proof.
  intros call Hw Hwr Hrd Hget Hpw Hread Hq Hn Hfuel Hs1 Hs2 Hs3 Hd1 Hd2 Hd3.
  destruct (user_bytes_spec src n (k_vm k)) as (Hl1 & Hb1 & Hy1 & Hv1); [lia..|done|].
  destruct (user_bytes_spec dst n (k_vm k)) as (Hl2 & Hb2 & Hy2 & Hv2); [lia..|done|].
  set (o1 := user_bytes src (k_vm k)) in *. set (o2 := user_bytes dst (k_vm k)) in *.
  pose proof Hget as (Hid & Hp & Hu)%pipe_get_Some. pose proof (lookup_lt_Some _ _ _ Hp) as Hlt.
  destruct (pipe_write_appends pipe_env fuel id o1 n (pipes (k_vfs k)) p) as (p1 & Hwrite & Hpw1 & (E1 & E2 & E3) & Hq1);
    try done; [lia|rewrite pipe_free_queue, Hq by done; cbn; lia|].
  rewrite Hq in Hq1. cbn [app] in Hq1.
  assert (pipe_get id (<[Z.to_nat id:=p1]> (pipes (k_vfs k))) = Some p1) as Hget1.
  { apply pipe_get_Some. split; [done|]. split; [by apply list_lookup_insert_eq|]. by rewrite E3. }
  assert (length (take (Z.to_nat n) o1) = Z.to_nat n) as Ht1 by (rewrite length_take; lia).
  destruct (pipe_read_takes pipe_env fuel id o2 n _ p1 (Z.to_nat n) Hget1 Hpw1) as (p2 & Hrd2 & Hpw2 & (F1 & F2 & F3) & Hq2);
    [lia|rewrite Hq1, Ht1; lia|by left|done|].
  rewrite Hq1, firstn_all2 in Hrd2 by lia. rewrite Z2Nat.id in Hrd2 by lia.
  set (res := take (Z.to_nat n) o1 ++ drop (Z.to_nat n) o2) in *.
  assert (length res = length o2) as Hlr by (unfold res; rewrite length_app, Ht1, length_drop; lia).
  set (k1 := set_vfs (set_pipes (<[Z.to_nat id:=p1]> (pipes (k_vfs k))) (k_vfs k)) k).
  set (k2 := set_vfs (set_pipes (<[Z.to_nat id:=p2]> (pipes (k_vfs k1))) (k_vfs k1)) k1).
  assert (∀ u, dst ≤ u < dst + Z.of_nat (length o2) → is_Some (view (k_vm k) u)) as Hd4.
  { intros u Hu'. replace u with (dst + (u - dst)) by lia. rewrite <- Hv2 by lia. apply lookup_lt_is_Some_2. lia. }
  destruct (user_put_spec page_dir k2 dst res) as (m & Hput & Hwm & Hvm); try done; try (rewrite Hlr; done || lia).
  { by apply Forall_app_2; [apply Forall_take|apply Forall_drop]. }
  exists k1, (set_vm m k2), p2. split; [|split; [|split; [done|split]]].
  - by apply (sys_write_pipe _ _ _ _ _ _ _ w id).
  - by apply (sys_read_pipe _ _ _ _ _ _ _ r id dst n res _ m k1).
  - intros u Hu'. cbn [k_vm set_vm]. rewrite Hvm, Hlr by done. change (k_vm k2) with (k_vm k).
    destruct (decide (dst ≤ u < dst + n)) as [Hi|Hi].
    + rewrite decide_True by lia. unfold res. rewrite lookup_app_l, lookup_take_lt by lia. apply Hv1. lia.
    + case_decide; [|done]. unfold res. rewrite lookup_app_r by lia. rewrite Ht1, lookup_drop.
      replace (Z.to_nat n + (Z.to_nat (u - dst) - Z.to_nat n))%nat with (Z.to_nat (u - dst)) by lia.
      rewrite Hv2 by lia. f_equal. lia.
  - split; [|by rewrite Hq2, Hq1, skipn_all2 by lia]. cbn [k_vfs set_vm k2 set_vfs set_pipes pipes k1].
    apply pipe_get_Some. split; [done|]. rewrite list_insert_insert_eq. split; [by apply list_lookup_insert_eq|].
    by rewrite F3, E3.
Qed.

(** ** Examples *)
Definition pipe_end_fd (e : Z) : vfs_fd_t := mkFd 1 0 0 VFS_PIPE (-1) 0 0 e.
Definition example_kernel (v : vm) : kernel memdisk (list Z) simclock simcard kheap :=
  mkKernel v (net_start (mkSim [] false [] 0) sim_timer)
    (mkVfs (replicate 3 fd_zero ++ [pipe_end_fd 0; pipe_end_fd 1] ++ replicate 27 fd_zero) (lit "/") []
       [mkPipe (replicate 4096 0) 0 0 1 1 1]
       (mkBackend (mkRamfs [] 0) [] small_vol [] (mkTty kb_init (mkVga (replicate 2000 0) 0 0 7 0 0))))
    [] false (0, (λ _, 0), O) [] [] [] [].

Definition no_irq (t : timer kheap) : res (timer kheap) := Ok t.
Definition example_call := syscall_dispatch (DD := memdisk) (U := list Z) (C := simclock) (DN := simcard) (K := kheap)
  0x200000 8 no_irq (λ _, mret tt) no_yield (λ _, mret tt) (mret tt).

Lemma syscall_rejects_witness :
  example_call 27 1 2 3 (example_kernel vm0) = Ok (0xFFFFFFFF, example_kernel vm0).
Proof.
  destruct (syscall_rejects 0x200000 8 no_irq (λ _, mret tt) no_yield (λ _, mret tt) (mret tt) 27 1 2 3
    (example_kernel vm0)) as (Hr & _). apply Hr. right. left. reflexivity.
Defined.

Lemma int80_always_fails_witness :
  let x := mkRegs 3 0 0 0 0x9000 0 0 0 0x12345 0x08 0x202 0x10 0x10 0x10 0x10 in
  (cpu_interrupt None ;; isr128 (λ n a b c, r ← example_call n a b c; mret (r, (0, 0))))
    (mkMach x [] (example_kernel vm0)) = Ok (true, mkMach (set_reg EAX 0xFFFFFFFF x) [] (example_kernel vm0)).
Proof.
  cbv zeta. apply (int80_always_fails 0x200000 8 no_irq (λ _, mret tt) no_yield (λ _, mret tt) (mret tt) (0, 0)).
  - repeat split; cbn; lia.
  - reflexivity.
  - cbn. lia.
Defined.

Lemma user_pipe_roundtrip_witness :
  ∃ v k1 k2, example_call 1 4 0x40000000 2 (example_kernel v) = Ok (2, k1) ∧
    example_call 2 3 0x40000100 2 k1 = Ok (2, k2) ∧
    view (k_vm k2) 0x40000101 = view v 0x40000001.
Proof.
  destruct example_mapped as (a & v & Hw & Hal & Hm & _).
  assert (Hv : ∀ u, 0x40000000 ≤ u < 0x40001000 → is_Some (view v u)).
  { intros u Hu. destruct (view v u) eqn:E; [eexists; reflexivity|].
    apply (view_None 0x200000) in E; [|exact Hw|lia].
    assert (u / 4096 = 0x40000) as Hd by (symmetry; apply (Z.div_unique _ _ _ (u - 0x40000000)); lia).
    rewrite Hd, Hm in E. discriminate E. }
  destruct (user_pipe_roundtrip (U := list Z) (C := simclock) 0x200000 8 no_irq (λ _, mret tt) no_yield (λ _, mret tt) (mret tt) 4 3 0
    (mkPipe (replicate 4096 0) 0 0 1 1 1) 0x40000000 0x40000100 2 (example_kernel v)) as (k1 & k2 & p' & H1 & H2 & _ & Hview & _).
  - exact Hw.
  - split; [unfold VFS_MAX_FD; lia|]. eexists. split; [reflexivity|]. split; [discriminate|]. split; reflexivity.
  - split; [unfold VFS_MAX_FD; lia|]. eexists. split; [reflexivity|]. split; [discriminate|]. split; reflexivity.
  - reflexivity.
  - unfold pipe_wf, ring_wf, PIPE_BUF_SIZE. cbn. lia.
  - discriminate.
  - vm_compute. reflexivity.
  - lia.
  - lia.
  - lia.
  - lia.
  - intros u Hu. apply Hv. lia.
  - lia.
  - lia.
  - intros u Hu. apply Hv. lia.
  - exists v, k1, k2. split; [exact H1|]. split; [exact H2|]. rewrite Hview by lia.
    rewrite decide_True by lia. reflexivity.
Defined.

(** The first switch to a forked child continues at address 0 as well. *)
Lemma fork_child_starts_at_null parent_esp top m c :
  c_esp c ≤ top - 64 ∨ top + 16 ≤ c_esp c →
  let '(sp, m') := push_all top (fork_frame parent_esp) m in c_eip (switch_context sp m' c).2 = 0.
Proof.
  intros Hc. cbn [push_all fork_frame]. unfold switch_context. cbn [push_all snd c_eip]. unfold word.
  rewrite !lookup_insert. repeat case_decide; try lia; done.
Qed.

(** Whatever code a program exits with, its parent is told 0. *)
Lemma sc_exit_ignores_code {DD U C DN K} `{Allocator K} code code' b c (k : kernel DD U C DN K) :
  sc_exit code b c k = sc_exit code' b c k.
Proof. done. Qed.
