(* ===== verification/Shell.v ===== *)
(** * The state and the line handling of the kernel shell (src/src/kernel.c)

    The shell stands on all components: those of the system calls ([kernel], in Syscall.v)
    and the ones only the shell uses. Its own variables are the privilege, the host name
    and the history. Text goes to the console through [kprintf] and the operations of
    Vga.v. Commands are in Commands.v, their dispatch is in KernelMain.v. *)

From S2P Require Import Prelude KString KMalloc Pmm Paging BlockDev Fat12 Vga Ports Ata Mouse Process Users Dmesg Keyboard Draw Gui Serial Net Dhcp Sched Signal Vfs VfsBackends Syscall.

Definition CMD_LEN : Z := 256.
Definition HIST_SIZE : Z := 16.

(** ** Formatted output

    [%] takes the next character of the format whatever it is, the terminator included. *)
Definition kconv (f : Z) (args : list va_arg) : M vga (list va_arg) :=
  if f =? 115 then
    match args with
    | AStr s :: l => vga_puts (default (lit "(null)") s) ;; mret l
    | _ => lift Fault
    end
  else if f =? 100 then
    a ← lift (int_arg args);
    let d := i32 a.1 in
    (if d <? 0 then vga_putchar 45 else mret tt) ;;
    vga_put_dec (u32 (Z.abs d)) ;; mret a.2
  else if f =? 117 then a ← lift (int_arg args); vga_put_dec (u32 a.1) ;; mret a.2
  else if f =? 120 then a ← lift (int_arg args); vga_put_hex (u32 a.1) ;; mret a.2
  else if f =? 99 then a ← lift (int_arg args); vga_putchar (u8 a.1) ;; mret a.2
  else if f =? 37 then vga_putchar 37 ;; mret args
  else mret args.
Fixpoint kfmt (n : nat) (fmt : list Z) (args : list va_arg) : M vga unit :=
  match n, fmt with
  | O, _ => λ _, Timeout
  | _, [] => lift Fault
  | S n', c :: fmt' =>
      if c =? 0 then mret tt
      else if c =? 37 then
        match fmt' with
        | [] => lift Fault
        | f :: fmt'' => args ← kconv f args; kfmt n' fmt'' args
        end
      else vga_putchar c ;; kfmt n' fmt' args
  end.

(** ** Lines *)

(** [while ( *line == ' ') line++;] *)
Fixpoint skip_spaces (s : list Z) : res (list Z) :=
  match s with
  | [] => Fault
  | c :: s' => if c =? 32 then skip_spaces s' else Ok s
  end.
(** [while ( *line && *line != ' ' && i < clen-1) cmd[i++] = *line++;]: [room] is [clen-1-i]. *)
Fixpoint word_loop (line : list Z) (i : Z) (room : nat) (cmd : list Z) : res (list Z * Z * list Z) :=
  match line with
  | [] => Fault
  | c :: line' =>
      if (c =? 0) || (c =? 32) then Ok (cmd, i, line)
      else match room with
           | O => Ok (cmd, i, line)
           | S room' => cmd ← arr_set cmd i c; word_loop line' (i + 1) room' cmd
           end
  end.
Definition split_cmd (line cmd rest : list Z) (clen : Z) : res (list Z * list Z) :=
  r ← word_loop line 0 (Z.to_nat (clen - 1)) cmd;
  cmd ← arr_set r.1.1 r.1.2 0;
  line ← skip_spaces r.2;
  rest ← kstrcpy rest line;
  Ok (cmd, rest).

(** [while ( *p >= '0' && *p <= '9') { v = v*10 + ( *p - '0'); p++; }], in [int] or [uint32_t]
    arithmetic by [w]. *)
Fixpoint dec_arg (w : Z → Z) (p : list Z) (v : Z) : res (Z * list Z) :=
  match p with
  | [] => Fault
  | c :: p' => if (48 <=? c) && (c <=? 57) then dec_arg w p' (w (w (v * 10) + (c - 48))) else Ok (v, p)
  end.
Definition is_hex (c : Z) : bool :=
  ((48 <=? c) && (c <=? 57)) || ((97 <=? c) && (c <=? 102)) || ((65 <=? c) && (c <=? 70)).
Definition hex_val (c : Z) : Z := u8 (if 97 <=? c then c - 97 + 10 else if 65 <=? c then c - 65 + 10 else c - 48).
Fixpoint hex_digits_arg (p : list Z) (addr : Z) : res (Z * list Z) :=
  match p with
  | [] => Fault
  | c :: p' => if is_hex c then hex_digits_arg p' (u32 (u32 (addr * 16) + hex_val c)) else Ok (addr, p)
  end.
(** With the prefix 0x skipped. *)
Definition hex_arg (p : list Z) : res (Z * list Z) :=
  c ← arr_get p 0;
  if c =? 48 then
    x ← arr_get p 1; hex_digits_arg (if x =? 120 then drop 2 p else p) 0
  else hex_digits_arg p 0.

(** One operand: an optional sign and digits. *)
Definition operand (p : list Z) : res (Z * list Z) :=
  p ← skip_spaces p;
  c ← arr_get p 0;
  let neg := c =? 45 in
  r ← dec_arg i32 (if neg then tail p else p) 0;
  Ok (if neg then i32 (- r.1) else r.1, r.2).
(** The quotient of [int]s truncates; INT_MIN by -1 traps like a division by zero. *)
Definition idiv (a b : Z) : res Z := if (a =? - 2 ^ 31) && (b =? -1) then Fault else Ok (Z.quot a b).
Definition imod (a b : Z) : res Z := if (a =? - 2 ^ 31) && (b =? -1) then Fault else Ok (Z.rem a b).
Definition calc_parse (e : list Z) : res Z :=
  r ← operand e;
  let a := r.1 in
  p ← skip_spaces r.2;
  op ← arr_get p 0;
  if op =? 0 then Ok a
  else
    r ← operand (tail p);
    let b := r.1 in
    if op =? 43 then Ok (i32 (a + b))
    else if op =? 45 then Ok (i32 (a - b))
    else if op =? 42 then Ok (i32 (a * b))
    else if op =? 47 then (if b =? 0 then Ok 0 else idiv a b)
    else if op =? 37 then (if b =? 0 then Ok 0 else imod a b)
    else Ok 0.

(** [history[0..]] and [hist_count]. *)
Record hist := mkHist { history : list (list Z); hist_count : Z }.
(** [for (i = 0; i < HIST_SIZE-1; i++) kstrcpy(history[i], history[i+1]);] *)
Fixpoint shift_history (n : nat) (i : Z) (l : list (list Z)) : res (list (list Z)) :=
  match n with
  | O => Ok l
  | S n' =>
      dst ← arr_get l i; src ← arr_get l (i + 1);
      s ← kstrcpy dst src; l ← arr_set l i s; shift_history n' (i + 1) l
  end.
Definition set_line (i : Z) (cmd : list Z) (l : list (list Z)) : res (list (list Z)) :=
  dst ← arr_get l i; s ← kstrcpy dst cmd; arr_set l i s.
Definition hist_add (cmd : list Z) (h : hist) : res hist :=
  c ← arr_get cmd 0;
  if c =? 0 then Ok h
  else if hist_count h <? HIST_SIZE then
    l ← set_line (hist_count h) cmd (history h); Ok (mkHist l (hist_count h + 1))
  else
    l ← shift_history (Z.to_nat (HIST_SIZE - 1)) 0 (history h);
    l ← set_line (HIST_SIZE - 1) cmd l; Ok (mkHist l (hist_count h)).

(** ** The machine *)
Section shell.
Context {DD : Type} `{Disk DD} {U : Type} `{Ports U} {C : Type} `{Ports C} {DN : Type} `{Nic DN} {MD : Type} `{Ports MD}.

(** [s_drives] are the drives the ATA driver found, [s_offer] and [s_dns] the variables of
    the DHCP and DNS clients, and [s_fbuf] and [s_ebuf] the static buffers of [cmd_dcat] (and
    [cmd_dcp]) and [elfinfo]. *)
Record shell := mkShell {
  s_k : kernel DD U C DN kheap; s_users : accounts; s_log : dmesg; s_mouse : mouse MD;
  s_fx : gfx; s_term : gterm; s_drives : list ata_drive_t; s_offer : Z * Z * Z; s_dns : Z * Z;
  kum_active : bool; hostname : list Z; s_hist : hist; total_mem_kb : Z }.

Definition set_k (k : kernel DD U C DN kheap) (s : shell) : shell :=
  mkShell k (s_users s) (s_log s) (s_mouse s) (s_fx s) (s_term s) (s_drives s) (s_offer s) (s_dns s) (kum_active s) (hostname s) (s_hist s) (total_mem_kb s).
Definition set_users (u : accounts) (s : shell) : shell :=
  mkShell (s_k s) u (s_log s) (s_mouse s) (s_fx s) (s_term s) (s_drives s) (s_offer s) (s_dns s) (kum_active s) (hostname s) (s_hist s) (total_mem_kb s).
Definition set_slog (l : dmesg) (s : shell) : shell :=
  mkShell (s_k s) (s_users s) l (s_mouse s) (s_fx s) (s_term s) (s_drives s) (s_offer s) (s_dns s) (kum_active s) (hostname s) (s_hist s) (total_mem_kb s).
Definition set_desk (m : mouse MD) (f : gfx) (t : gterm) (s : shell) : shell :=
  mkShell (s_k s) (s_users s) (s_log s) m f t (s_drives s) (s_offer s) (s_dns s) (kum_active s) (hostname s) (s_hist s) (total_mem_kb s).
Definition set_drives (d : list ata_drive_t) (s : shell) : shell :=
  mkShell (s_k s) (s_users s) (s_log s) (s_mouse s) (s_fx s) (s_term s) d (s_offer s) (s_dns s) (kum_active s) (hostname s) (s_hist s) (total_mem_kb s).
Definition set_clients (o : Z * Z * Z) (d : Z * Z) (s : shell) : shell :=
  mkShell (s_k s) (s_users s) (s_log s) (s_mouse s) (s_fx s) (s_term s) (s_drives s) o d (kum_active s) (hostname s) (s_hist s) (total_mem_kb s).
Definition set_kum (b : bool) (s : shell) : shell :=
  mkShell (s_k s) (s_users s) (s_log s) (s_mouse s) (s_fx s) (s_term s) (s_drives s) (s_offer s) (s_dns s) b (hostname s) (s_hist s) (total_mem_kb s).
Definition set_host (h : list Z) (s : shell) : shell :=
  mkShell (s_k s) (s_users s) (s_log s) (s_mouse s) (s_fx s) (s_term s) (s_drives s) (s_offer s) (s_dns s) (kum_active s) h (s_hist s) (total_mem_kb s).
Definition set_hist (h : hist) (s : shell) : shell :=
  mkShell (s_k s) (s_users s) (s_log s) (s_mouse s) (s_fx s) (s_term s) (s_drives s) (s_offer s) (s_dns s) (kum_active s) (hostname s) h (total_mem_kb s).
Definition set_mem_kb (n : Z) (s : shell) : shell :=
  mkShell (s_k s) (s_users s) (s_log s) (s_mouse s) (s_fx s) (s_term s) (s_drives s) (s_offer s) (s_dns s) (kum_active s) (hostname s) (s_hist s) n.

(** The components. *)
Definition in_k {A} : M (kernel DD U C DN kheap) A → M shell A := zoom s_k set_k.
Definition con_do {A} (m : M tty A) : M shell A := in_k (in_tty m).
Definition scr {A} (m : M vga A) : M shell A := con_do (on_vga m).
Definition in_gui {A} (m : M (gui (D := MD) (K := kheap)) A) : M shell A :=
  zoom (λ s, let t := term_dev (back (k_vfs (s_k s))) in
          mkGui (s_fx s) (s_term s) (t_vga t) (t_kb t) (s_mouse s) (clock (k_net (s_k s))))
    (λ g s, let k := s_k s in let b := back (k_vfs k) in
       set_desk (g_mouse g) (g_fx g) (g_term g)
         (set_k (set_net (Net.set_clock (g_timer g) (k_net k))
                  (set_vfs (set_back (mkBackend (ram b) (mem_open b) (fat b) (disk_open b) (mkTty (g_kb g) (g_vga g))) (k_vfs k)) k)) s)) m.
(** The log records of the DHCP client go to the serial line. *)
Definition in_dhcp {A} (m : M (dhcp DN U kheap) A) : M shell A :=
  zoom (λ s, let k := s_k s in let t := term_dev (back (k_vfs k)) in
          mkDhcp (k_net k) (mkSerial (k_uart k) (k_com1 k) (t_vga t)) (s_offer s).1.1 (s_offer s).1.2 (s_offer s).2)
    (λ d s, let k := s_k s in let b := back (k_vfs k) in let l := dlog d in
       set_clients (offered_ip d, offered_gw d, offered_dns d) (s_dns s)
         (set_k (set_net (dnet d) (set_uart (uart l) (com1_ready l)
                  (set_vfs (set_back (mkBackend (ram b) (mem_open b) (fat b) (disk_open b) (mkTty (t_kb (term_dev b)) (screen l))) (k_vfs k)) k))) s)) m.
Definition in_dns {A} (m : M (dns DN kheap) A) : M shell A :=
  zoom (λ s, mkDns (k_net (s_k s)) (s_dns s).1 (s_dns s).2)
    (λ d s, set_clients (s_offer s) (dns_server d, dns_id d) (set_k (set_net (ns_net d) (s_k s)) s)) m.
Definition query {A} (f : shell → res A) : M shell A := λ s, a ← f s; Ok (a, s).

(** What the shell prints. *)
Definition puts (t : String.string) : M shell unit := scr (vga_puts (lit t)).
Definition puts_s (t : list Z) : M shell unit := scr (vga_puts t).
Definition putc (c : Z) : M shell unit := scr (vga_putchar c).
Definition color (c : vga_color) : M shell unit := scr (vga_set_color c VGA_BLACK).
Definition puts_at (t : list Z) (x y : Z) (fg bg : vga_color) : M shell unit := scr (vga_puts_at t x y fg bg).
Definition kprintf_l (fmt : list Z) (args : list va_arg) : M shell unit := scr (kfmt (S (length fmt)) fmt args).
Definition kprintf (fmt : String.string) (args : list va_arg) : M shell unit := kprintf_l (lit fmt) args.
Definition listing (f : shell → res (list con)) : M shell unit := l ← query f; scr (run_con l).
(** A heading in yellow, the text after it in white. *)
Definition heading (t : String.string) : M shell unit := color VGA_YELLOW ;; puts t ;; color VGA_WHITE.

Definition the_timer (s : shell) : timer kheap := clock (k_net (s_k s)).
Definition the_sched (s : shell) : sched kheap := sg_sched (t_sig (the_timer s)).
Definition the_fat (s : shell) : fat12 DD := fat (back (k_vfs (s_k s))).
End shell.
Arguments puts {DD U C DN MD} t%_string_scope.
Arguments heading {DD U C DN MD} t%_string_scope.
Arguments kprintf {DD U C DN MD} fmt%_string_scope args.

(** ** Words of a line *)

(** The characters up to the first space, and the text from the first other one on. *)
Fixpoint word (s : list Z) : list Z := match s with c :: s' => if c =? 32 then [] else c :: word s' | [] => [] end.
Fixpoint lstrip (s : list Z) : list Z := match s with c :: s' => if c =? 32 then lstrip s' else s | [] => [] end.

Lemma skip_spaces_spec b s : cstr b s → ∃ b', skip_spaces b = Ok b' ∧ cstr b' (lstrip s).
Proof.
  revert b. induction s as [|c s IH]; intros b Hb; cstr_cases Hb; cbn [skip_spaces lstrip].
  - eexists. split; [done|]. exists rest. by split; [|constructor].
  - case_match; [by apply IH|]. eexists. split; [done|]. by apply cstr_cons.
Qed.
Lemma lstrip_length s : (length (lstrip s) ≤ length s)%nat.
Proof. induction s as [|c s IH]; cbn; [done|]. case_match; cbn; lia. Qed.
Lemma word_prefix s : ∃ t, s = word s ++ t.
Proof. induction s as [|c s [t IH]]; cbn; [by exists []|]. case_match; [by eexists|]. exists t. cbn. by f_equal. Qed.
Lemma nonzero_word n s : nonzero s → nonzero (take n (word s)).
Proof. intros Hs. destruct (word_prefix s) as [t E]. apply Forall_take. rewrite E in Hs. by apply Forall_app in Hs as [? _]. Qed.

Lemma word_loop_spec line s i room cmd : cstr line s → (i + room < length cmd)%nat →
  let w := take room (word s) in
  ∃ line', word_loop line (Z.of_nat i) room cmd = Ok (take i cmd ++ w ++ drop (i + length w) cmd, Z.of_nat (i + length w), line') ∧
    cstr line' (drop (length w) s).
Proof.
  revert line i room cmd. induction s as [|x s IH]; intros line i room cmd Hl Hr; cbn zeta.
  - pose proof Hl as Hl'. cstr_cases Hl'. cbn [word_loop]. rewrite Z.eqb_refl. cbn [orb word]. rewrite take_nil, Nat.add_0_r, app_nil_l, take_drop. by eexists.
  - pose proof Hl as Hl'. cstr_cases Hl'. cbn [word_loop word]. rewrite (proj2 (Z.eqb_neq _ _)) by done. cbn [orb].
    match goal with |- context [if ?x =? 32 then _ else _] => rename x into c end. destruct (c =? 32); [rewrite take_nil, Nat.add_0_r, app_nil_l, take_drop; by eexists|].
    destruct room as [|room]; [cbn [take length app]; rewrite Nat.add_0_r, take_drop; by eexists|].
    rewrite arr_set_in by lia. cbn [mbind res_bind]. rewrite Nat2Z.id. replace (Z.of_nat i + 1) with (Z.of_nat (S i)) by lia.
    destruct (IH _ (S i) room (<[i := c]> cmd) Hl') as (line' & -> & Hc); [rewrite length_insert; lia|].
    cbn [take app length drop]. rewrite Nat.add_succ_r. eexists. split; [|exact Hc]. do 3 f_equal.
    rewrite (drop_insert_lt cmd) by lia. rewrite (take_S_r _ _ c) by (rewrite list_lookup_insert_eq by lia; done).
    rewrite take_insert_ge by done. by rewrite <- app_assoc.
Qed.

(** The first word, at most [clen - 1] characters of it, and the text behind the spaces after it. *)
Definition cmd_word (clen : Z) (s : list Z) : list Z := take (Z.to_nat (clen - 1)) (word s).
Definition cmd_rest (clen : Z) (s : list Z) : list Z := lstrip (drop (length (cmd_word clen s)) s).

Lemma split_cmd_copy line s cmd rest clen : cstr line s → 1 ≤ clen ≤ Z.of_nat (length cmd) →
  ∃ c l, cstr c (cmd_word clen s) ∧ cstr l (cmd_rest clen s) ∧
    split_cmd line cmd rest clen = (rest ← kstrcpy rest l; Ok (c, rest)).
Proof.
  intros Hl Hc. unfold split_cmd, cmd_rest, cmd_word. set (w := take _ (word s)).
  destruct (word_loop_spec line s 0 (Z.to_nat (clen - 1)) cmd Hl) as (line' & E & Hl'); [lia|].
  change (Z.of_nat 0) with 0 in E. fold w in E, Hl'. rewrite E. cbn [mbind res_bind fst snd].
  rewrite take_0, app_nil_l, Nat.add_0_l. assert (length w ≤ Z.to_nat (clen - 1))%nat by (unfold w; rewrite length_take; lia).
  rewrite arr_set_in by (rewrite length_app, length_drop; lia). cbn [mbind res_bind].
  destruct (skip_spaces_spec _ _ Hl') as (l & -> & Hl2). cbn [mbind res_bind].
  eexists _, l. split_and!; [|exact Hl2|done].
  rewrite Nat2Z.id, insert_app_r_alt, Nat.sub_diag by done.
  destruct (drop (length w) cmd) as [|x l'] eqn:Ed; [apply (f_equal length) in Ed; rewrite length_drop in Ed; cbn in Ed; lia|].
  exists l'. split; [done|]. apply nonzero_word. by eapply cstr_nonzero.
Qed.
Lemma split_cmd_spec line s cmd rest clen : cstr line s → 1 ≤ clen ≤ Z.of_nat (length cmd) → (length (cmd_rest clen s) < length rest)%nat →
  ∃ c r, split_cmd line cmd rest clen = Ok (c, r) ∧ cstr c (cmd_word clen s) ∧ cstr r (cmd_rest clen s).
Proof.
  intros Hl Hc Ht. destruct (split_cmd_copy line s cmd rest clen Hl Hc) as (c & l & Hw & Hr & ->).
  destruct (kstrcpy_roundtrip rest l _ Hr Ht) as (r & -> & Hr' & _). by eexists c, r.
Qed.
(** A rest with no room in the buffer is copied past its end. *)
Lemma split_cmd_overrun line s cmd rest clen : cstr line s → 1 ≤ clen ≤ Z.of_nat (length cmd) →
  (length rest ≤ length (cmd_rest clen s))%nat → split_cmd line cmd rest clen = Fault.
Proof.
  intros Hl Hc Ht. destruct (split_cmd_copy line s cmd rest clen Hl Hc) as (c & l & Hw & Hr & ->).
  by rewrite (kstrcpy_overrun _ _ _ Hr Ht).
Qed.

(** What it returns when it does not fault. *)
Lemma split_cmd_inv line s cmd rest clen c r : cstr line s → 1 ≤ clen ≤ Z.of_nat (length cmd) → split_cmd line cmd rest clen = Ok (c, r) →
  cstr c (cmd_word clen s) ∧ cstr r (cmd_rest clen s).
Proof.
  intros Hl Hc E. destruct (decide (length (cmd_rest clen s) < length rest)%nat) as [Hlt|Hge].
  - destruct (split_cmd_spec line s cmd rest clen Hl Hc Hlt) as (c' & r' & E' & ? & ?). rewrite E in E'. by injection E' as <- <-.
  - by rewrite split_cmd_overrun with (s := s) in E by (done || lia).
Qed.

(** ** The history *)

(** A string is empty when its first cell is 0. *)
Lemma cstr_first b s : cstr b s → ∃ x, arr_get b 0 = Ok x ∧ (x =? 0) = bool_decide (s = []).
Proof.
  intros (r & -> & Hs). destruct s as [|c s]; [by exists 0|]. exists c. split; [done|]. apply Forall_cons in Hs as [Hc _].
  rewrite bool_decide_eq_false_2 by done. by apply Z.eqb_neq.
Qed.

(** The rows hold the lines [L], at most sixteen. *)
Record hist_rep (h : hist) (L : list (list Z)) : Prop := {
  hr_rows : length (history h) = 16%nat;
  hr_size : ∀ i r, history h !! i = Some r → length r = 256%nat;
  hr_count : hist_count h = Z.of_nat (length L) ∧ (length L ≤ 16)%nat;
  hr_lines : ∀ i l, L !! i = Some l → ∃ r, history h !! i = Some r ∧ cstr r l
}.
(** The last sixteen. *)
Definition last16 (L : list (list Z)) : list (list Z) := drop (length L - 16) L.

Lemma set_line_spec i cmd c (l : list (list Z)) : cstr cmd c → (length c < 256)%nat → (i < length l)%nat →
  (∀ j r, l !! j = Some r → length r = 256%nat) →
  ∃ r, set_line (Z.of_nat i) cmd l = Ok (<[i := r]> l) ∧ cstr r c ∧ length r = 256%nat.
Proof.
  intros Hc Hl Hi Hs. unfold set_line. destruct (arr_get_in l (Z.of_nat i)) as (d & -> & Hd); [lia|]. rewrite Nat2Z.id in Hd. cbn [mbind res_bind].
  destruct (kstrcpy_roundtrip d cmd c Hc) as (r & -> & Hr & Lr); [by rewrite (Hs _ _ Hd)|]. cbn [mbind res_bind].
  rewrite arr_set_in, Nat2Z.id by lia. exists r. split_and!; [done..|]. by rewrite Lr, (Hs _ _ Hd).
Qed.

Lemma shift_history_spec n i (l : list (list Z)) : (i + n < length l)%nat →
  (∀ j r, l !! j = Some r → length r = 256%nat) → (∀ j, (i < j ≤ i + n)%nat → ∃ r s, l !! j = Some r ∧ cstr r s) →
  ∃ l', shift_history n (Z.of_nat i) l = Ok l' ∧ length l' = length l ∧ (∀ j r, l' !! j = Some r → length r = 256%nat) ∧
    (∀ j r s, (i ≤ j < i + n)%nat → l !! S j = Some r → cstr r s → ∃ r', l' !! j = Some r' ∧ cstr r' s) ∧
    (∀ j, (j < i)%nat → l' !! j = l !! j).
Proof.
  revert i l. induction n as [|n IH]; intros i l Hn Hs Hc; [exists l; split_and!; [done..|intros; lia|done]|]. cbn [shift_history].
  destruct (Hc (S i)) as (src & s & Hsrc & Es); [lia|].
  destruct (arr_get_in l (Z.of_nat i)) as (dst & E & Hdst); [lia|]. rewrite Nat2Z.id in Hdst.
  rewrite E. cbn [mbind res_bind]. replace (Z.of_nat i + 1) with (Z.of_nat (S i)) by lia. rewrite (arr_get_nat l (S i) src Hsrc). cbn [mbind res_bind].
  destruct (kstrcpy_roundtrip dst src s Es) as (r & -> & Hr & Lr); [rewrite (Hs _ _ Hdst), <- (Hs _ _ Hsrc); by apply cstr_length|]. cbn [mbind res_bind].
  rewrite arr_set_in, Nat2Z.id by lia. cbn [mbind res_bind].
  destruct (IH (S i) (<[i := r]> l)) as (l' & -> & Hl & Hs' & Hlow & Hbelow).
  { rewrite length_insert. lia. }
  { intros j x. destruct (decide (j = i)) as [->|]; [rewrite list_lookup_insert_eq by lia; intros [= <-]; by rewrite Lr, (Hs _ _ Hdst)|rewrite list_lookup_insert_ne by done; apply Hs]. }
  { intros j Hj. rewrite list_lookup_insert_ne by lia. apply Hc. lia. }
  exists l'. split_and!; [done|by rewrite Hl, length_insert|done| |].
  - intros j x t Hj Hx Ht. destruct (decide (j = i)) as [->|].
    + rewrite Hbelow, list_lookup_insert_eq by lia. exists r. split; [done|]. simplify_eq.
      by rewrite <- (cstr_cstring _ _ Ht), (cstr_cstring _ _ Es).
    + apply (Hlow j x t); [lia| |done]. by rewrite list_lookup_insert_ne by lia.
  - intros j Hj. rewrite Hbelow by lia. by rewrite list_lookup_insert_ne by lia.
Qed.

(** The history is the list of the last sixteen lines that were not empty: adding a line
    of up to 255 characters keeps to its rows and drops the oldest line when there are
    sixteen. *)
Theorem hist_add_last h L cmd c : hist_rep h L → cstr cmd c → (length c < 256)%nat →
  ∃ h', hist_add cmd h = Ok h' ∧ hist_rep h' (if decide (c = []) then L else last16 (L ++ [c])).
Proof.
  intros [Hrows Hsize [Hcount Hmax] Hlines] Hc Hlen. unfold hist_add.
  destruct (cstr_first cmd c Hc) as (x & -> & Ex). cbn [mbind res_bind]. rewrite Ex.
  case_bool_decide as E; [rewrite decide_True by done; by eexists|]. rewrite decide_False by done. unfold HIST_SIZE.
  destruct (Z.ltb_spec (hist_count h) 16) as [Hlt|Hge].
  - destruct (set_line_spec (length L) cmd c (history h) Hc Hlen) as (r & Er & Hr & Lr); [lia|done|]. rewrite Hcount, Er. cbn [mbind res_bind].
    eexists. split; [done|]. unfold last16. rewrite length_app. cbn [length]. replace (length L + 1 - 16)%nat with 0%nat by lia. rewrite drop_0.
    split; cbn [history hist_count]; rewrite ?length_insert, ?length_app; cbn [length]; [done| |lia|].
    + intros i x'. destruct (decide (i = length L)) as [->|]; [rewrite list_lookup_insert_eq by lia; by intros [= <-]|rewrite list_lookup_insert_ne by done; apply Hsize].
    + intros i l. destruct (decide (i = length L)) as [->|].
      * rewrite list_lookup_middle by done. intros [= <-]. rewrite list_lookup_insert_eq by lia. by exists r.
      * intros [Hi|[Hle Hi]]%lookup_app_Some; [|destruct (i - length L)%nat eqn:?; [lia|done]]. rewrite list_lookup_insert_ne by done. by apply Hlines.
  - destruct (shift_history_spec 15 0 (history h)) as (l' & E' & Hl & Hs' & Hlow & _); [lia|done| |].
    { intros j Hj. destruct (lookup_lt_is_Some_2 L j) as [l Hl]; [lia|]. destruct (Hlines _ _ Hl) as (r & ? & ?). by exists r, l. }
    change (shift_history (Z.to_nat (16 - 1)) 0 (history h)) with (shift_history 15 (Z.of_nat 0) (history h)). rewrite E'. cbn [mbind res_bind].
    destruct (set_line_spec 15 cmd c l' Hc Hlen) as (r & Er & Hr & Lr); [lia|done|]. change (16 - 1) with (Z.of_nat 15). rewrite Er. cbn [mbind res_bind].
    eexists. split; [done|]. unfold last16. rewrite length_app. cbn [length]. replace (length L + 1 - 16)%nat with 1%nat by lia. rewrite drop_app_le by lia.
    split; cbn [history hist_count]; rewrite ?length_insert, ?length_app, ?length_drop; cbn [length]; [lia| |lia|].
    + intros i x'. destruct (decide (i = 15%nat)) as [->|]; [rewrite list_lookup_insert_eq by lia; by intros [= <-]|rewrite list_lookup_insert_ne by done; apply Hs'].
    + intros i l. destruct (decide (i = 15%nat)) as [->|].
      * rewrite list_lookup_middle by (rewrite length_drop; lia). intros [= <-]. rewrite list_lookup_insert_eq by lia. by exists r.
      * intros [Hi|[Hge' Hi]]%lookup_app_Some.
        -- rewrite lookup_drop in Hi. rewrite list_lookup_insert_ne by done. destruct (Hlines _ _ Hi) as (r' & Hr' & Hcs).
           apply (Hlow i r' l); [|done|done]. apply lookup_lt_Some in Hi. lia.
        -- apply lookup_lt_Some in Hi as Hlt. rewrite length_drop in *. cbn in Hlt. lia.
Qed.

(** ** The calculator *)
Definition is_digit (c : Z) : Prop := 48 ≤ c ≤ 57.
Definition add_digit (v c : Z) : Z := v * 10 + digit_value c.
(** An integer as the calculator reads it: spaces, a sign, digits. *)
Definition shows_int (p : list Z) (z : Z) : Prop :=
  ∃ n (neg : bool) ds, p = replicate n 32 ++ (if neg then [45] else []) ++ ds ∧ ds ≠ [] ∧ Forall is_digit ds ∧
    num_value 10 ds < 2147483648 ∧ z = if neg then - num_value 10 ds else num_value 10 ds.

Lemma digits_grow ds v : Forall is_digit ds → 0 ≤ v → v ≤ foldl add_digit v ds.
Proof.
  intros Hds. revert v. induction Hds as [|c ds Hc Hds IH]; intros v Hv; cbn [foldl]; [done|].
  assert (v ≤ add_digit v c) as Hle by (unfold add_digit, digit_value, is_digit in *; rewrite (proj2 (Z.ltb_lt _ _)) by lia; lia).
  etransitivity; [exact Hle|]. apply IH. lia.
Qed.
Lemma dec_arg_digits ds x rest v : Forall is_digit ds → ¬ is_digit x → 0 ≤ v → foldl add_digit v ds < 2147483648 →
  dec_arg i32 (ds ++ x :: rest) v = Ok (foldl add_digit v ds, x :: rest).
Proof.
  intros Hds Hx. unfold is_digit in Hx. revert v. induction Hds as [|c ds Hc Hds IH]; intros v Hv Hlt; cbn [app dec_arg foldl].
  - replace ((48 <=? x) && (x <=? 57)) with false by (symmetry; apply andb_false_iff; lia). done.
  - unfold is_digit in Hc. rewrite (proj2 (Z.leb_le _ _)), (proj2 (Z.leb_le _ _)) by lia. cbn [andb].
    assert (add_digit v c = v * 10 + (c - 48)) as E by (unfold add_digit, digit_value; by rewrite (proj2 (Z.ltb_lt _ _)) by lia).
    cbn [foldl] in Hlt. pose proof (digits_grow ds (add_digit v c) Hds ltac:(lia)).
    rewrite (i32_small (v * 10)) by lia. rewrite i32_small, <- E by lia. apply IH; [lia|done].
Qed.
Lemma skip_spaces_replicate n c r : c ≠ 32 → skip_spaces (replicate n 32 ++ c :: r) = Ok (c :: r).
Proof. intros Hc. induction n as [|n IH]; cbn; [by rewrite (proj2 (Z.eqb_neq _ _))|done]. Qed.

Lemma arr_get_head {A} (c : A) l : arr_get (c :: l) 0 = Ok c.
Proof. done. Qed.

Lemma operand_spec p z x rest : shows_int p z → ¬ is_digit x → operand (p ++ x :: rest) = Ok (z, x :: rest).
Proof.
  intros (n & neg & ds & -> & Hne & Hds & Hlt & ->) Hx. unfold operand. rewrite <- !app_assoc.
  assert (dec_arg i32 (ds ++ x :: rest) 0 = Ok (num_value 10 ds, x :: rest)) as E by (apply dec_arg_digits; [done|done|lia|exact Hlt]).
  pose proof (digits_grow ds 0 Hds ltac:(lia)) as Hpos. change (foldl add_digit 0 ds) with (num_value 10 ds) in Hpos.
  destruct neg; cbn [app].
  - rewrite skip_spaces_replicate by done. cbn [mbind res_bind]. rewrite arr_get_head. cbn [mbind res_bind].
    cbn [Z.eqb Pos.eqb tail]. rewrite E. cbn [mbind res_bind fst snd]. by rewrite i32_small by lia.
  - destruct ds as [|c ds]; [done|]. apply Forall_cons in Hds as [Hc _]. unfold is_digit in Hc. cbn [app].
    rewrite skip_spaces_replicate by lia. cbn [mbind res_bind]. rewrite arr_get_head. cbn [mbind res_bind].
    rewrite (proj2 (Z.eqb_neq c 45)) by lia. cbn [app] in E. rewrite E. done.
Qed.

Definition calc_op (op a b : Z) : Z :=
  if op =? 43 then i32 (a + b) else if op =? 45 then i32 (a - b) else if op =? 42 then i32 (a * b)
  else if op =? 47 then (if b =? 0 then 0 else Z.quot a b) else if op =? 37 then (if b =? 0 then 0 else Z.rem a b) else 0.

Lemma shows_int_range p z : shows_int p z → -2147483648 < z < 2147483648.
Proof.
  intros (n & neg & ds & _ & _ & Hds & Hlt & ->). pose proof (digits_grow ds 0 Hds ltac:(lia)) as Hpos.
  change (foldl add_digit 0 ds) with (num_value 10 ds) in Hpos. destruct neg; lia.
Qed.

(** The calculator. For two integers of fewer than 31 bits with an operator between them,
    spaces before each, the result is that of [int] arithmetic; a division by zero gives 0,
    and so does an unknown operator. *)
Theorem calc_parse_value pa a pb b m op x rest : shows_int pa a → shows_int pb b →
  ¬ is_digit op → op ≠ 32 → op ≠ 0 → ¬ is_digit x →
  calc_parse (pa ++ replicate m 32 ++ op :: pb ++ x :: rest) = Ok (calc_op op a b).
Proof.
  intros Ha Hb Hd Hs H0 Hx. unfold calc_parse.
  assert (∃ y r, replicate m 32 ++ op :: pb ++ x :: rest = y :: r ∧ ¬ is_digit y) as (y & r & Er & Hy).
  { destruct m; cbn; [by eexists _, _|]. eexists _, _. split; [done|]. unfold is_digit. lia. }
  rewrite Er, (operand_spec pa a y r Ha Hy), <- Er. cbn [mbind res_bind fst snd]. rewrite skip_spaces_replicate by done. cbn [mbind res_bind].
  rewrite arr_get_head. cbn [mbind res_bind]. rewrite (proj2 (Z.eqb_neq op 0)) by done. cbn [tail].
  rewrite (operand_spec pb b x rest Hb Hx). cbn [mbind res_bind fst]. pose proof (shows_int_range _ _ Ha).
  unfold calc_op, idiv, imod. rewrite (proj2 (Z.eqb_neq a (- 2 ^ 31))) by lia. cbn [andb].
  repeat case_match; done.
Qed.

Lemma calc_parse_value_witness : calc_parse (lit "17 *  -5") = Ok (-85).
Proof.
  apply (calc_parse_value (str "17") 17 (str "  -5") (-5) 1 42 0 []).
  - exists 0%nat, false, (str "17"). split_and!; [reflexivity|done| |vm_compute; reflexivity|vm_compute; reflexivity]. repeat constructor; vm_compute; discriminate.
  - exists 2%nat, true, (str "5"). split_and!; [reflexivity|done| |vm_compute; reflexivity|vm_compute; reflexivity]. repeat constructor; vm_compute; discriminate.
  - unfold is_digit. lia.
  - done.
  - done.
  - unfold is_digit. lia.
Defined.

(** 2147483648 is read as the least [int], and dividing that by -1 traps. *)
Example calc_traps : calc_parse (lit "2147483648 / -1") = Fault.
Proof. vm_compute. reflexivity. Qed.

Lemma hist_add_last_witness : ∃ h', hist_add (lit "ls") (mkHist (replicate 16 (replicate 256 0)) 0) = Ok h' ∧ hist_rep h' [str "ls"].
Proof.
  apply (hist_add_last (mkHist (replicate 16 (replicate 256 0)) 0) [] (lit "ls") (str "ls")).
  - split; [done| |by split; [|cbn; lia]|done]. intros i r [-> _]%lookup_replicate. done.
  - by apply lit_test.
  - vm_compute. lia.
Defined.
