(* ===== verification/Commands.v ===== *)
(** * The commands of the kernel shell (src/src/kernel.c, and [user_spawn] of src/src/userspace.c)

    One definition per command. What the machine does while a command waits is a parameter:
    [irq] is one timer interrupt, [halt] a wait of the keyboard, [task_env] what the other
    tasks do while the shell waits for one, [poll_env] what happens between two turns of a
    loop that polls. Local buffers are filled from their start before they are read, so that
    what is in them at first does not matter; they are zeros here. *)

From S2P Require Import Prelude KString KMalloc Pmm Paging Swap Vmem BlockDev Fat12 FatDir Vga Ports Ata Mouse Rtc Ramfs Elf Process Users Dmesg Keyboard Draw Gui Snake Listing.
From S2P Require Import Serial Net Dhcp Sched Signal Vfs VfsBackends Syscall Shell.

Section commands.
Context {DD : Type} `{Disk DD} {U : Type} `{Ports U} {C : Type} `{Ports C} {DN : Type} `{Nic DN} {MD : Type} `{Ports MD}.
Notation Sh := (M (shell (DD := DD) (U := U) (C := C) (DN := DN) (MD := MD))).
Notation kern := (kernel DD U C DN kheap).

Context (page_dir : Z) (fuel : nat) (irq : timer kheap → res (timer kheap)) (halt : nat → M kb unit)
  (pipe_env : list Pipe.pipe_t → list Pipe.pipe_t) (task_env : nat → M (sched kheap) unit) (poll_env : nat → Sh unit)
  (cpuid : Z → Z * Z * Z * Z) (entry_of : Z → Z) (placeholder : Z) (gui_hlt : nat → M (gui (D := MD) (K := kheap)) unit).

(** ** The status bar, the splash screen and the prompt *)
Definition used_heap (s : shell (DD := DD) (U := U) (C := C) (DN := DN) (MD := MD)) : res Z :=
  let h := heap (the_sched s) in kmalloc_used (S (Z.to_nat (u32 (heap_end h - heap_start h)))) h.
Definition free_heap (s : shell (DD := DD) (U := U) (C := C) (DN := DN) (MD := MD)) : res Z :=
  let h := heap (the_sched s) in kmalloc_free (S (Z.to_nat (u32 (heap_end h - heap_start h)))) h.

(** [char ubuf[20]="UP:"; kitoa(...); kstrcat(ubuf, num); kstrcat(ubuf, "s");] *)
Definition up_text (secs : Z) : res (list Z) :=
  num ← kitoa secs (replicate 12 0) 10;
  b ← kstrcpy (replicate 20 0) (lit "UP:"); b ← kstrcat b num; kstrcat b (lit "s").
Definition task_text (nm : list Z) : res (list Z) :=
  b ← kstrcpy (replicate 40 0) (lit "["); b ← kstrcat b nm; kstrcat b (lit "]").
Definition mem_text (n : Z) : res (list Z) := b ← kitoa (n / 1024) (replicate 10 0) 10; kstrcat b (lit "KB").

Definition draw_statusbar : Sh unit :=
  scr (vga_fill_rect 0 0 80 1 32 VGA_BLACK VGA_CYAN) ;;
  puts_at (lit " KumOS v1.1") 0 0 VGA_BLACK VGA_CYAN ;;
  secs ← query (λ s, timer_seconds (the_timer s));
  ubuf ← lift (up_text secs);
  puts_at ubuf 28 0 VGA_BLACK VGA_CYAN ;;
  t ← query (λ s, arr_get (tasks (the_sched s)) (current_idx (the_sched s)));
  tbuf ← lift (task_text (name t));
  puts_at tbuf 44 0 VGA_BLACK VGA_CYAN ;;
  puts_at (lit "MEM:") 60 0 VGA_BLACK VGA_CYAN ;;
  used ← query used_heap;
  mb ← lift (mem_text used);
  puts_at mb 64 0 VGA_BLACK VGA_CYAN ;;
  kum ← gets kum_active;
  puts_at (lit (if kum : bool then "KUM" else "   ")) 76 0 (if kum then VGA_RED else VGA_DARK_GREY) VGA_CYAN.

Definition splash_msgs : list (list Z) := [
  lit "  [ OK ] GDT  Setting up descriptor tables...";
  lit "  [ OK ] IDT  Installing interrupt handlers...";
  lit "  [ OK ] PAG  Paging enabled  (CR0.PG=1, 16MB mapped)...";
  lit "  [ OK ] PIC  Remapping 8259 controller...";
  lit "  [ OK ] PIT  Timer at 100 Hz via IRQ0...";
  lit "  [ OK ] KBD  IRQ1 keyboard handler active...";
  lit "  [ OK ] SCH  Preemptive scheduler started...";
  lit "  [ .. ] SHL  Launching kshell..."].
(** [i] counts the messages. *)
Fixpoint splash_lines (i : Z) (l : list (list Z)) : Sh unit :=
  match l with
  | [] => mret tt
  | m :: l' => puts_at m 12 (14 + i) (if i <? 7 then VGA_GREEN else VGA_YELLOW) VGA_BLACK ;; splash_lines (i + 1) l'
  end.
Definition draw_splash : Sh unit :=
  scr vga_clear ;;
  scr (vga_fill_rect 0 0 80 25 32 VGA_BLACK VGA_BLUE) ;;
  scr (vga_fill_rect 10 3 60 19 32 VGA_WHITE VGA_BLACK) ;;
  scr (vga_draw_box 10 3 60 19 VGA_CYAN VGA_BLACK) ;;
  puts_at (lit "  _  ___   _ __  __  ___  ____  ") 23 5 VGA_CYAN VGA_BLACK ;;
  puts_at (lit " | |/ / | | |  \/  |/ _ \/ ___| ") 23 6 VGA_CYAN VGA_BLACK ;;
  puts_at (lit " | ' /| | | | |\/| | | | \___ \ ") 23 7 VGA_CYAN VGA_BLACK ;;
  puts_at (lit " | . \| |_| | |  | | |_| |___) |") 23 8 VGA_CYAN VGA_BLACK ;;
  puts_at (lit " |_|\_\\___/|_|  |_|\___/|____/ ") 23 9 VGA_CYAN VGA_BLACK ;;
  puts_at (lit "    Minimal x86 OS  v1.2          ") 22 11 VGA_YELLOW VGA_BLACK ;;
  puts_at (lit "  GDT|IDT|PIT|IRQ|Sched|Paging   ") 22 12 VGA_LIGHT_GREY VGA_BLACK ;;
  splash_lines 0 splash_msgs.

Definition print_prompt : Sh unit :=
  draw_statusbar ;;
  s ← get;
  color (if kum_active s then VGA_RED else VGA_GREEN) ;;
  puts_s (lit (if kum_active s then "root" else "user")) ;;
  color VGA_WHITE ;; putc 64 ;;
  color VGA_CYAN ;; puts_s (hostname s) ;;
  color VGA_WHITE ;; putc 58 ;;
  color VGA_YELLOW ;; putc 126 ;;
  color VGA_WHITE ;;
  puts_s (lit (if kum_active s then "# " else "$ ")).

(** ** Machine information *)
Definition cmd_logo : Sh unit :=
  color VGA_CYAN ;;
  puts "
  ##    ## ##     ## ##     ##  #######   ######  
" ;;
  puts "  ##   ##  ##     ## ###   ### ##     ## ##    ## 
" ;;
  puts "  ##  ##   ##     ## #### #### ##     ## ##       
" ;;
  puts "  #####    ##     ## ## ### ## ##     ##  ######  
" ;;
  puts "  ##  ##   ##     ## ##     ## ##     ##       ## 
" ;;
  puts "  ##   ##  ##     ## ##     ## ##     ## ##    ## 
" ;;
  puts "  ##    ##  #######  ##     ##  #######   ######  
" ;;
  color VGA_YELLOW ;;
  puts "       Minimal x86 OS v1.1  |  KumLabs 2025

" ;;
  color VGA_WHITE.

Definition cmd_meminfo : Sh unit :=
  heading "
  === Memory ===

" ;;
  s ← get;
  let v := k_vm (s_k s) in let p := pm v in
  kprintf "  Total RAM:       %u KB (%u MB)
" [AInt (total_mem_kb s); AInt (total_mem_kb s / 1024)] ;;
  kprintf "  Phys frames:     %u total  %u used  %u free
" [AInt (pmm_total_frames p); AInt (pmm_used_frames p); AInt (u32 (pmm_total_frames p - pmm_used_frames p))] ;;
  kprintf "  Demand faults:   %u handled  %u COW copies
" [AInt (fault_count v); AInt (cow_count v)] ;;
  puts "
" ;;
  used ← query used_heap; free ← query free_heap;
  kprintf "  Static heap:     %u used / %u free  (0x200000-0x27FFFF)
" [AInt used; AInt free] ;;
  u ← in_k (in_vm heap_used); brk ← in_k (in_vm heap_brk); cap ← in_k (in_vm heap_capacity);
  kprintf "  Dynamic heap:    %u used  brk=0x%x  cap=%u KB
" [AInt u; AInt brk; AInt (cap / 1024)] ;;
  puts "  vmalloc region:  0x01000000 – 0x02000000  (16 MB)
" ;;
  puts "  Paging:          ENABLED  (CR0.PG=1)

".

Definition cmd_vmem : Sh unit :=
  heading "
  === Virtual Memory Map ===

" ;;
  puts "  Region              Start        End          Info
" ;;
  puts "  ------              -----        ---          ----
" ;;
  puts "  BIOS/IVT            0x00000000   0x000FFFFF   identity
" ;;
  puts "  VGA framebuf        0x000B8000   0x000BFFFF   identity
" ;;
  puts "  Kernel              0x00100000   0x001FFFFF   identity R/W
" ;;
  puts "  Static heap         0x00200000   0x0027FFFF   identity R/W
" ;;
  puts "  Dynamic heap        0x00280000   0x00FFFFFF   demand-paged
" ;;
  puts "  vmalloc             0x01000000   0x02000000   on-demand
" ;;
  puts "  [future user]       0x40000000   0xFFFFFFFF   unmapped

" ;;
  color VGA_CYAN ;;
  puts "  Live mapped ranges (first 16MB):
" ;;
  color VGA_WHITE ;;
  l ← in_k (in_vm (paging_dump_range page_dir (Z.to_nat 4096) 0x00000000 0x01000000));
  scr (run_con l) ;;
  heading "
  Demand paging stats:
" ;;
  s ← get;
  let v := k_vm (s_k s) in
  kprintf "    Page faults handled: %u
" [AInt (fault_count v)] ;;
  kprintf "    COW copies made:     %u
" [AInt (cow_count v)] ;;
  kprintf "    PMM frames used:     %u / %u
" [AInt (pmm_used_frames (pm v)); AInt (pmm_total_frames (pm v))] ;;
  brk ← in_k (in_vm heap_brk); cap ← in_k (in_vm heap_capacity);
  kprintf "    Heap brk:            0x%x  (%u KB used)
" [AInt brk; AInt (cap / 1024)] ;;
  putc 10.

Definition cmd_mmap (args : list Z) : Sh unit :=
  p ← lift (split_cmd args (replicate 32 0) (replicate 256 0) 32);
  let '(sub, rest2) := (p : list Z * list Z) in
  d ← lift (kstrcmp sub (lit "alloc"));
  if d =? 0 then
    n ← lift (dec_arg u32 rest2 0);
    let kb := if n.1 =? 0 then 4 else n.1 in
    ptr ← in_k (in_vm (vmalloc page_dir (u32 (kb * 1024))));
    if ptr =? 0 then puts "  vmalloc failed (OOM or region full)
"
    else
      kprintf "  vmalloc(%u KB) -> 0x%x
" [AInt kb; AInt ptr] ;;
      in_k (in_vm (vstore8 ptr 0xAB)) ;;
      kprintf "  First byte written OK (demand page fired if needed)
" []
  else
  d ← lift (kstrcmp sub (lit "free"));
  if d =? 0 then
    a ← lift (hex_arg rest2);
    in_k (in_vm (vmfree page_dir a.1)) ;;
    kprintf "  vmfree(0x%x) done
" [AInt a.1]
  else
  d ← lift (kstrcmp sub (lit "cow"));
  if d =? 0 then
    a ← lift (hex_arg rest2);
    r ← in_k (in_vm (vmalloc_copy_on_write page_dir a.1));
    if r =? 0 then puts "  COW failed (page not mapped?)
"
    else kprintf "  Page 0x%x marked COW (read-only until write)
" [AInt a.1]
  else
  d ← lift (kstrcmp sub (lit "query"));
  if d =? 0 then
    a ← lift (hex_arg rest2);
    m ← in_k (in_vm (paging_is_mapped page_dir a.1));
    if m : bool then
      phys ← in_k (in_vm (paging_virt_to_phys page_dir a.1));
      s ← get;
      kprintf "  0x%x -> phys 0x%x  refcount=%u
" [AInt a.1; AInt phys; AInt (pmm_refcount phys (pm (k_vm (s_k s))))]
    else kprintf "  0x%x is NOT mapped
" [AInt a.1]
  else
    puts "  Usage:
" ;;
    puts "    mmap alloc <kb>       - allocate virtual region
" ;;
    puts "    mmap free <0xaddr>    - free virtual region
" ;;
    puts "    mmap cow <0xaddr>     - mark page copy-on-write
" ;;
    puts "    mmap query <0xaddr>   - query mapping + refcount
".

(** [if (edx & (1 << bit)) vga_puts(...)] *)
Definition feature (reg bit : Z) (t : String.string) : Sh unit := if Z.testbit reg bit then puts t else mret tt.
#[local] Arguments feature reg bit t%_string_scope.
Definition cmd_cpuinfo : Sh unit :=
  let '(_, ebx, ecx, edx) := cpuid 0 in
  vendor ← lift (arr_set (Bytes.le32 ebx ++ Bytes.le32 edx ++ Bytes.le32 ecx ++ [0]) 12 0);
  let '(eax, _, ecx, edx) := cpuid 1 in
  heading "
  === CPU ===

" ;;
  kprintf "  Vendor:   %s
" [AStr (Some vendor)] ;;
  kprintf "  Family:   %u  Model: %u  Stepping: %u
" [AInt (Z.land (Z.shiftr eax 8) 0xF); AInt (Z.land (Z.shiftr eax 4) 0xF); AInt (Z.land eax 0xF)] ;;
  puts "  Features: " ;;
  feature edx 0 "FPU " ;; feature edx 4 "TSC " ;;
  feature edx 9 "APIC " ;; feature edx 23 "MMX " ;;
  feature edx 25 "SSE " ;; feature edx 26 "SSE2 " ;;
  feature ecx 0 "SSE3 " ;; feature ecx 5 "VMX " ;;
  puts "

".

Definition cmd_irqinfo : Sh unit :=
  heading "
  === Interrupt System ===

" ;;
  puts "  GDT:  6 segments (null/kcode/kdata/ucode/udata/tss)
" ;;
  puts "  IDT:  256 entries  (INT 0-31=exceptions  32-47=IRQs)
" ;;
  puts "  PIC:  8259A  Master=INT32-39  Slave=INT40-47
" ;;
  puts "  IRQ0: PIT timer  100 Hz   ticks=" ;;
  s ← get; scr (vga_put_dec (timer_ticks (the_timer s))) ;; putc 10 ;;
  puts "  IRQ1: PS/2 keyboard  interrupt-driven  buffer=256B
" ;;
  puts "  Sched: preemptive round-robin  quantum=10 ticks

".

(** ** The snake game *)
Fixpoint draws (l : list draw) : Sh unit :=
  match l with [] => mret tt | d :: l' => scr (run_draw d) ;; draws l' end.
(** [turns] bounds the game, of which every turn waits for 80 ms. *)
Fixpoint snake_loop (turns : nat) (g : game) : Sh unit :=
  match turns with
  | O => λ _, Timeout
  | S n =>
      c ← con_do (on_kb keyboard_getchar);
      t ← lift (snake_turn c g);
      draws t.1 ;;
      match t.2 with
      | None => mret tt
      | Some g' => in_k (in_timer (λ t, t' ← timer_sleep fuel irq 80 t; Ok (tt, t'))) ;; snake_loop n g'
      end
  end.
Definition snake_game (junk_x junk_y : list Z) : Sh unit :=
  scr vga_clear ;; draw_statusbar ;;
  scr (vga_fill_rect (SXO - 1) (SYO - 1) (SW + 2) (SH + 2) 32 VGA_BLACK VGA_DARK_GREY) ;;
  scr (vga_fill_rect SXO SYO SW SH 32 VGA_BLACK VGA_BLACK) ;;
  puts_at (lit "SNAKE - WASD to move, Q to quit") 24 1 VGA_YELLOW VGA_BLACK ;;
  puts_at (lit "Score: 0") 24 2 VGA_WHITE VGA_BLACK ;;
  g ← lift (game_start junk_x junk_y);
  puts_at (lit "*") 30 10 VGA_RED VGA_BLACK ;;
  snake_loop fuel g ;;
  puts_at (lit "GAME OVER! Press any key...") 27 23 VGA_RED VGA_BLACK ;;
  con_do (on_kb (keyboard_getchar_blocking fuel 0 halt)) ;; mret tt.

(** ** The disk *)
Definition fat_do {A} (m : M (fat12 DD) A) : Sh A := in_k (in_back (VfsBackends.on_fat m)).
Definition ram_do {A} (m : ramfs → res (A * ramfs)) : Sh A := in_k (in_back (on_ram m)).
Definition mounted : Sh bool := gets (λ s, g_mounted (the_fat s)).
(** The file of the RAM table with the name. *)
Definition ram_file (nm : list Z) : Sh (option fs_file_t) := in_k (ram_find nm).
(** Whether the string is empty. *)
Definition is_empty (s : list Z) : Sh bool := c ← lift (arr_get s 0); mret (c =? 0).

Definition cmd_disk : Sh unit :=
  s ← get; scr (run_con (ata_print_info (mkAta tt (s_drives s)))) ;;
  listing (λ s, fat12_info (the_fat s)).

Definition entry_row (e : fat12_entry_t) : Sh unit :=
  puts "  " ;; puts_s (fe_name e) ;;
  n ← lift (kstrlen (fe_name e));
  scr (run_con (replicate (Z.to_nat (17 - n)) (CPutc 32))) ;;
  scr (vga_put_dec (fe_size e)) ;; puts " B
".
Fixpoint entry_rows (l : list fat12_entry_t) : Sh unit :=
  match l with [] => mret tt | e :: l' => entry_row e ;; entry_rows l' end.
Definition cmd_dls : Sh unit :=
  m ← mounted;
  if negb m then puts "  No disk mounted. Run 'dformat' first or attach a disk.
"
  else
    l ← fat_do (fat12_list 64);
    match l with
    | None | Some [] => puts "  (empty)
"
    | Some l =>
        color VGA_YELLOW ;;
        puts "
  NAME             SIZE
" ;;
        puts "  ----             ----
" ;;
        color VGA_WHITE ;;
        entry_rows l ;;
        putc 10
    end.

Definition cmd_dcat (nm : list Z) : Sh unit :=
  e ← is_empty nm;
  if e : bool then puts "Usage: dcat <filename>
" else
  m ← mounted;
  if negb m then puts "No disk mounted.
" else
  n ← fat_do (fat12_read nm 4095);
  match n with
  | None => kprintf "dcat: '%s' not found on disk.
" [AStr (Some nm)]
  | Some b => putc 10 ;; puts_s (b ++ [0]) ;; putc 10
  end.

Definition cmd_dwrite (args : list Z) : Sh unit :=
  p ← lift (split_cmd args (replicate 32 0) (replicate 256 0) 32);
  let '(nm, data) := (p : list Z * list Z) in
  e1 ← is_empty nm; e2 ← is_empty data;
  if e1 || e2 then puts "Usage: dwrite <filename> <content>
" else
  m ← mounted;
  if negb m then puts "No disk mounted.
" else
  len ← lift (kstrlen data);
  r ← fat_do (fat12_write nm data len);
  if r =? 0 then kprintf "Written '%s' (%u bytes) to disk.
" [AStr (Some nm); AInt len]
  else puts "dwrite: failed (disk full or I/O error)
".

Definition cmd_drm (nm : list Z) : Sh unit :=
  e ← is_empty nm;
  if e : bool then puts "Usage: drm <filename>
" else
  m ← mounted;
  if negb m then puts "No disk mounted.
" else
  kum ← gets kum_active;
  if negb kum then puts "Permission denied. Use 'kum drm <file>'
" else
  r ← fat_do (fat12_delete nm);
  if r =? 0 then kprintf "Deleted '%s' from disk.
" [AStr (Some nm)]
  else kprintf "drm: '%s' not found.
" [AStr (Some nm)].

Definition welcome : list Z := lit "Welcome to KumOS!
This file lives on your ATA disk and survives reboots.
Use dls, dcat, dwrite, drm to manage disk files.
".
Definition cmd_dformat : Sh unit :=
  s ← get;
  if negb (kum_active s) then puts "Permission denied. Use 'kum dformat'
" else
  match ata_get 0 (mkAta tt (s_drives s)) with
  | None => puts "dformat: no ATA drive found.
"
  | Some _ =>
      color VGA_YELLOW ;;
      puts "Formatting drive 0 with FAT12 (label: KUMOS)...
" ;;
      color VGA_WHITE ;;
      r ← fat_do (fat12_format 0 (Some (lit "KUMOS")));
      if r =? 0 then
        puts "Format complete. Drive mounted as FAT12.
" ;;
        len ← lift (kstrlen welcome);
        fat_do (fat12_write (lit "README.TXT") welcome len) ;;
        puts "Created README.TXT on disk.
"
      else puts "dformat: failed.
"
  end.

Definition cmd_dcp (args : list Z) : Sh unit :=
  p ← lift (split_cmd args (replicate 32 0) (replicate 32 0) 32);
  let '(src, dst) := (p : list Z * list Z) in
  e1 ← is_empty src; e2 ← is_empty dst;
  if e1 || e2 then puts "Usage: dcp <diskfile> <memfile>
" else
  m ← mounted;
  if negb m then puts "No disk mounted.
" else
  n ← fat_do (fat12_read src 4095);
  match n with
  | None => kprintf "dcp: '%s' not found on disk.
" [AStr (Some src)]
  | Some b =>
      ram_do (fs_write dst (b ++ [0])) ;;
      kprintf "Copied disk:'%s' -> mem:'%s' (%d bytes)
" [AStr (Some src); AStr (Some dst); AInt (Z.of_nat (length b))]
  end.

(** ** Help *)
Definition cmd_help : Sh unit :=
  color VGA_CYAN ;;
  puts "
 === KumOS Shell v1.1 ===

" ;;
  color VGA_YELLOW ;;
  puts "  General:
" ;;
  color VGA_WHITE ;;
  puts "    help, clear, echo, uname, whoami, hostname, uptime, history
" ;;
  puts "    date              - Current date/time (RTC)
" ;;
  puts "    mouse             - PS/2 mouse state
" ;;
  color VGA_YELLOW ;;
  puts "  Files:
" ;;
  color VGA_WHITE ;;
  puts "    ls, cat <f>, touch <f>, write <f> <data>, rm <f>
" ;;
  color VGA_YELLOW ;;
  puts "  System:
" ;;
  color VGA_WHITE ;;
  puts "    ps       - Task list (real scheduler)
" ;;
  puts "    meminfo  - RAM, frames, heap, demand-paging stats
" ;;
  puts "    vmem     - Virtual memory map + live page table walk
" ;;
  puts "    mmap     - Map/unmap/COW/query virtual pages
" ;;
  puts "    cpuinfo  - CPU via CPUID
" ;;
  puts "    irqinfo  - GDT/IDT/PIC/PIT/Sched live status
" ;;
  puts "    ifconfig          - NIC info + IP address
" ;;
  puts "    ping              - Send UDP to gateway
" ;;
  puts "    netrecv [port]    - Listen for UDP packet
" ;;
  puts "    kill <pid> [sig]  - Send signal to process
" ;;
  puts "    proc [file]       - Read /proc/file (meminfo,ps,uptime...)
" ;;
  puts "    serial   - COM1 status + test message
" ;;
  puts "    gui      - Launch graphical desktop (Mode 13h)
" ;;
  puts "    hexdump <addr> [len] - memory hex dump
" ;;
  color VGA_YELLOW ;;
  puts "  Disk (FAT12 on ATA):
" ;;
  color VGA_WHITE ;;
  puts "    disk              - ATA drive info + FAT12 volume
" ;;
  puts "    dls               - List files on disk
" ;;
  puts "    dcat <f>          - Print file from disk
" ;;
  puts "    dwrite <f> <data> - Write file to disk
" ;;
  puts "    drm <f>           - Delete file from disk (kum)
" ;;
  puts "    dformat           - Format disk FAT12 (kum)
" ;;
  puts "    dcp <disk> <mem>  - Copy disk file to memory fs
" ;;
  color VGA_YELLOW ;;
  puts "  Userspace (ring 3):
" ;;
  color VGA_WHITE ;;
  puts "    run               - List user programs
" ;;
  puts "    run hello         - Hello world from ring 3
" ;;
  puts "    run counter       - Count 0-9 with sleep
" ;;
  puts "    run top           - Live uptime (5 passes)
" ;;
  puts "    run echo          - Read + echo a line
" ;;
  puts "    run cat           - Read README from disk
" ;;
  puts "    reboot   - Reboot (kum required)
" ;;
  puts "    shutdown - Halt   (kum required)
" ;;
  puts "    wait <pid>        - Wait for process to exit
" ;;
  color VGA_YELLOW ;;
  puts "  KUM:
" ;;
  color VGA_WHITE ;;
  puts "    kum              - Enter privileged session
" ;;
  puts "    kum exit         - Drop privileges
" ;;
  puts "    kum <cmd>        - Run one command elevated
" ;;
  puts "    kum kill <pid>   - Kill a task
" ;;
  puts "    kum spawn <name> - Spawn background task
" ;;
  puts "    kum sethost <n>  - Change hostname
" ;;
  color VGA_YELLOW ;;
  puts "  Fun:
" ;;
  color VGA_WHITE ;;
  puts "    snake, calc <expr>, banner <text>, logo, motd

".

(** ** Tasks and programs *)
Definition USER_STACK_SIZE : Z := 8192.
(** What [user_task_setup] pushes. *)
Definition user_words (entry user_esp : Z) : list Z :=
  [USER_DS; user_esp; 0x202; USER_CS; entry; 0; 0; 0; 0; 0; 0; 0; 0; USER_DS; 0; 0].
Definition sched_do {A} (m : M (sched kheap) A) : Sh A := in_k (in_sched m).
Definition user_task_setup (i : Z) (entry user_esp : Z) : Sh unit :=
  sched_do (t ← rd_task i; s ← get;
            let '(sp, m) := push_all (stack t + stack_size t) (user_words entry user_esp) (kmem s) in
            modify (set_kmem m) ;; Sched.upd i (set_esp sp)).
(** The pages of the stack from [virt] on are mapped again for the user. *)
Fixpoint user_pages (n : nat) (virt : Z) : Sh unit :=
  match n with
  | O => mret tt
  | S n' =>
      phys ← in_k (in_vm (paging_virt_to_phys page_dir virt));
      (if phys =? 0 then mret tt else in_k (in_vm (paging_map page_dir virt phys (Z.lor PAGE_WRITE PAGE_USER)))) ;;
      user_pages n' (u32 (virt + PAGE_SIZE))
  end.
Definition user_spawn (nm : list Z) (entry : Z) : Sh Z :=
  kstack ← sched_do (s ← get; a ← lift (alloc SCHED_STACK_SIZE (heap s)); modify (Sched.set_heap a.2) ;; mret a.1);
  if kstack =? 0 then mret (-1)
  else
    let free_kstack := sched_do (s ← get; h ← lift (release kstack (heap s)); modify (Sched.set_heap h)) in
    ustack ← in_k (in_vm (vmalloc page_dir USER_STACK_SIZE));
    if ustack =? 0 then free_kstack ;; mret (-1)
    else
      user_pages (Z.to_nat (USER_STACK_SIZE / PAGE_SIZE)) ustack ;;
      pid ← sched_do (sched_spawn nm entry 0);
      if pid <? 0 then free_kstack ;; in_k (in_vm (vmfree page_dir ustack)) ;; mret (-1)
      else
        s ← get;
        match sched_get_task pid (the_sched s) with
        | None => mret pid
        | Some i => user_task_setup (Z.of_nat i) entry (u32 (ustack + USER_STACK_SIZE - 4)) ;; mret pid
        end.

(** [uprog_list], the entry points by their index. *)
Definition uprog_list : list (list Z) := [lit "hello"; lit "counter"; lit "top"; lit "echo"; lit "cat"].

Definition wait_for (pid : Z) : Sh Z := sched_do (sched_waitpid fuel 0 task_env pid).

Fixpoint run_names (l : list (list Z)) : Sh unit :=
  match l with [] => mret tt | n :: l' => puts "    run " ;; puts_s n ;; putc 10 ;; run_names l' end.
(** Whether the program was found; it was run then. *)
Fixpoint run_found (rest : list Z) (i : Z) (l : list (list Z)) : Sh bool :=
  match l with
  | [] => mret false
  | n :: l' =>
      d ← lift (kstrcmp rest n);
      if d =? 0 then
        pid ← user_spawn rest (entry_of i);
        (if pid <? 0 then puts "run: failed to spawn process
"
         else
           kprintf "  Spawned '%s' as ring-3 process  PID=%d
" [AStr (Some rest); AInt pid] ;;
           code ← wait_for pid;
           kprintf "  Process exited with code %d
" [AInt code]) ;;
        mret true
      else run_found rest (i + 1) l'
  end.
Definition cmd_run (rest : list Z) : Sh unit :=
  e ← is_empty rest;
  if e : bool then
    color VGA_YELLOW ;; puts "  Available programs:
" ;; color VGA_WHITE ;; run_names uprog_list ;; putc 10
  else
    found ← run_found rest 0 uprog_list;
    if found : bool then mret tt
    else kprintf "run: unknown program '%s' — type 'run' to list
" [AStr (Some rest)].

Definition load_do {A} (m : M (loader (D := DD) (K := kheap)) A) : Sh A := in_k (in_loader m).
Definition cmd_kush : Sh unit :=
  color VGA_CYAN ;; puts "Launching kush (userspace shell)...
" ;; color VGA_WHITE ;;
  r ← load_do (elf_load_disk page_dir (lit "KUSH.ELF"));
  if error r =? 0 then
    pid ← load_do (elf_spawn page_dir placeholder (lit "kush") r);
    if 0 <=? pid then code ← wait_for pid; kprintf "
[kush exited with code %d]
" [AInt code]
    else puts "kush: spawn failed
"
  else
    puts "kush: KUSH.ELF not found on disk.
" ;;
    puts "Build it with: make user-programs
".

Definition errs : list (list Z) := [lit ""; lit "bad magic"; lit "bad arch"; lit "OOM"; lit "disk error"].
Definition cmd_exec (rest : list Z) : Sh unit :=
  e ← is_empty rest;
  if e : bool then puts "Usage: exec <file.elf>
" else
  color VGA_CYAN ;; kprintf "Loading '%s'...
" [AStr (Some rest)] ;; color VGA_WHITE ;;
  r ← load_do (elf_load_disk page_dir rest);
  if error r =? 0 then
    kprintf "  entry=0x%x  range=0x%x..0x%x
" [AInt (r_entry r); AInt (load_base r); AInt (load_end r)] ;;
    pid ← load_do (elf_spawn page_dir placeholder rest r);
    if 0 <=? pid then
      kprintf "  Running as ring-3 PID=%d
" [AInt pid] ;;
      code ← wait_for pid;
      kprintf "  Process exited with code %d
" [AInt code]
    else puts "  Spawn failed.
"
  else
    m ← (if (-4 <=? error r) && (error r <=? 0) then lift (arr_get errs (- error r)) else mret (lit "?"));
    kprintf "  Error %d: %s
" [AInt (error r); AStr (Some m)].

Definition cmd_elfinfo (rest : list Z) : Sh unit :=
  e ← is_empty rest;
  if e : bool then puts "Usage: elfinfo <file.elf>
" else
  m ← mounted;
  b ← (if m : bool then fat_do (fat12_read rest 65536) else mret None);
  b ← (match b with
       | None | Some [] => f ← ram_file rest; mret ((λ f, take (Z.to_nat (f_size f)) (f_data f)) <$> f)
       | Some b => mret (Some b)
       end);
  match b with
  | None | Some [] => kprintf "elfinfo: '%s' not found
" [AStr (Some rest)]
  | Some b => l ← lift (elf_print_info b (Z.of_nat (length b))); scr (run_con l)
  end.

Definition cmd_wait (rest : list Z) : Sh unit :=
  e ← is_empty rest;
  if e : bool then puts "Usage: wait <pid>
" else
  n ← lift (dec_arg i32 rest 0);
  kprintf "Waiting for PID %d...
" [AInt n.1] ;;
  code ← wait_for n.1;
  kprintf "PID %d exited with code %d
" [AInt n.1; AInt code].

Definition cmd_kill (rest : list Z) : Sh unit :=
  p ← lift (split_cmd rest (replicate 16 0) (replicate 16 0) 16);
  let '(arg1, arg2) := (p : list Z * list Z) in
  e ← is_empty arg2;
  pid ← lift (dec_arg i32 arg1 0);
  sig ← (if e : bool then mret 15 else r ← lift (dec_arg i32 arg2 0); mret r.1);
  if pid.1 =? 0 then puts "Usage: kill <pid> [signal]
"
  else
    in_k (in_sig (signal_send pid.1 sig)) ;;
    kprintf "Sent signal %d to PID %d
" [AInt sig; AInt pid.1].

(** ** Accounts, clock, mouse and text *)
Definition cmd_whoami : Sh unit :=
  s ← get;
  u ← lift (arr_get (users (s_users s)) (Z.of_nat (users_get_current (s_users s))));
  kprintf "%s (uid=%u)
" [AStr (Some (Users.u_name u)); AInt (uid u)].

Definition getline (maxlen : Z) : Sh (list Z) :=
  r ← con_do (keyboard_getline fuel halt (replicate (Z.to_nat maxlen) 0) maxlen); mret (r : Z * list Z).2.
Definition cmd_login : Sh unit :=
  puts "Username: " ;; uname ← getline 32;
  puts "Password: " ;; upass ← getline 32;
  s ← get;
  r ← lift (users_login uname upass (s_users s));
  modify (set_users r.2) ;;
  if 0 <=? r.1 then
    color VGA_GREEN ;; kprintf "Welcome, %s!
" [AStr (Some uname)] ;; color VGA_WHITE
  else color VGA_RED ;; puts "Login failed.
" ;; color VGA_WHITE.

Definition cmd_date : Sh unit := puts "  " ;; l ← in_k (in_cmos (rtc_print fuel)); scr (run_con l) ;; putc 10.

Definition cmd_mouse : Sh unit :=
  s ← get;
  let m := mouse_get (s_mouse s) in
  if mouse_ready (s_mouse s) =? 0 then puts "  Mouse not detected.
"
  else
    heading "
  === Mouse State ===

" ;;
    kprintf "  Position: x=%d  y=%d
" [AInt (mx m); AInt (my m)] ;;
    kprintf "  Buttons:  L=%d  R=%d  M=%d
" [AInt (mleft m); AInt (mright m); AInt (mmiddle m)] ;;
    kprintf "  Last delta: dx=%d  dy=%d

" [AInt (mdx m); AInt (mdy m)].

Definition cmd_uptime : Sh unit :=
  n ← query (λ s, timer_seconds (the_timer s));
  let m := n / 60 in let secs := n mod 60 in let h := m / 60 in let m := m mod 60 in
  puts "  uptime: " ;;
  (if h =? 0 then mret tt else scr (vga_put_dec h) ;; puts "h ") ;;
  (if m =? 0 then mret tt else scr (vga_put_dec m) ;; puts "m ") ;;
  scr (vga_put_dec secs) ;; puts "s  |  ticks: " ;;
  s ← get; scr (vga_put_dec (timer_ticks (the_timer s))) ;;
  puts "  |  100 Hz PIT
".

Definition cmd_swapinfo : Sh unit :=
  n ← in_k (in_vm swap_used_slots);
  kprintf "
  Swap: %u/%u slots used (%uKB/%uKB)

" [AInt n; AInt 256; AInt (u32 (n * 4)); AInt (256 * 4)].

Fixpoint hist_rows (n : nat) (i : Z) (l : list (list Z)) : Sh unit :=
  match n with
  | O => mret tt
  | S n' =>
      puts "  " ;; scr (vga_put_dec (i + 1)) ;; puts ". " ;;
      h ← lift (arr_get l i); puts_s h ;; putc 10 ;; hist_rows n' (i + 1) l
  end.
Definition cmd_history : Sh unit :=
  puts "
  Command history:
" ;;
  s ← get; hist_rows (Z.to_nat (hist_count (s_hist s))) 0 (history (s_hist s)) ;; putc 10.

Definition cmd_calc (rest : list Z) : Sh unit :=
  e ← is_empty rest;
  if e : bool then puts "Usage: calc <expr>  e.g. calc 6 * 7
"
  else v ← lift (calc_parse rest); kprintf "  = %d
" [AInt v].

(** [while ( *p && p - rest < 8) ...]: three copies of each character and a space. *)
Fixpoint banner_row (n : nat) (p : list Z) : Sh unit :=
  match p with
  | [] => lift Fault
  | c :: p' =>
      if c =? 0 then mret tt
      else match n with
           | O => mret tt
           | S n' => putc c ;; putc c ;; putc c ;; putc 32 ;; banner_row n' p'
           end
  end.
Definition cmd_banner (rest : list Z) : Sh unit :=
  e ← is_empty rest;
  if e : bool then puts "Usage: banner <text>
"
  else
    color VGA_YELLOW ;; puts "
" ;;
    banner_row 8 rest ;;
    putc 10 ;;
    banner_row 8 rest ;;
    puts "
" ;; color VGA_WHITE.

Definition cmd_motd : Sh unit :=
  f ← ram_file (lit "motd.txt");
  match f with
  | None => mret tt
  | Some f => color VGA_CYAN ;; puts_s (f_data f) ;; color VGA_WHITE
  end.

(** ** Files in memory *)
Definition cmd_cat (rest : list Z) : Sh unit :=
  e ← is_empty rest;
  if e : bool then puts "Usage: cat <file>
" else
  f ← ram_file rest;
  match f with
  | None => kprintf "cat: %s: No such file
" [AStr (Some rest)]
  | Some f => putc 10 ;; puts_s (f_data f) ;; putc 10
  end.

Definition cmd_touch (rest : list Z) : Sh unit :=
  e ← is_empty rest;
  if e : bool then puts "Usage: touch <file>
" else
  r ← ram_do (fs_create rest (lit "") 0);
  if r =? 0 then kprintf "Created '%s'
" [AStr (Some rest)]
  else kprintf "touch: '%s' exists or no space
" [AStr (Some rest)].

Definition cmd_write (rest : list Z) : Sh unit :=
  p ← lift (split_cmd rest (replicate 64 0) (replicate 256 0) 64);
  let '(fn, dt) := (p : list Z * list Z) in
  e ← is_empty fn;
  if e : bool then puts "Usage: write <file> <data>
" else
  ram_do (fs_write fn dt) ;;
  kprintf "Written '%s'
" [AStr (Some fn)].

Definition cmd_rm (rest : list Z) : Sh unit :=
  e ← is_empty rest;
  if e : bool then puts "Usage: rm <file>
" else
  kum ← gets kum_active;
  if negb kum then puts "Permission denied. Use 'kum rm <file>'
" else
  r ← ram_do (fs_delete rest);
  if r =? 0 then kprintf "Deleted '%s'
" [AStr (Some rest)]
  else kprintf "rm: '%s': Not found
" [AStr (Some rest)].

(** Reads of 511 bytes until one returns nothing. *)
Fixpoint proc_loop (n : nat) (fd : Z) : Sh unit :=
  match n with
  | O => λ _, Timeout
  | S n' =>
      r ← in_k (in_vfs (vfs_read pipe_env fuel fd (replicate 512 0) 511));
      if 0 <? (r : Z * list Z).1 then b ← lift (arr_set r.2 r.1 0); puts_s b ;; proc_loop n' fd else mret tt
  end.
Definition cmd_proc (rest : list Z) : Sh unit :=
  e ← is_empty rest;
  let file := if e : bool then lit "meminfo" else rest in
  path ← lift (p ← kstrcpy (replicate 64 0) (lit "/proc/"); kstrcat p file);
  fd ← in_k (in_vfs (vfs_open path 0));
  if fd <? 0 then
    kprintf "proc: /proc/%s not found
" [AStr (Some file)] ;;
    puts "  Files: meminfo uptime version ps net date
"
  else putc 10 ;; proc_loop fuel fd ;; in_k (in_vfs (vfs_close fd)) ;; putc 10.

(** ** The network *)
Definition ip_args (ip : Z) : list va_arg :=
  [AInt (Z.land (Z.shiftr ip 24) 0xFF); AInt (Z.land (Z.shiftr ip 16) 0xFF); AInt (Z.land (Z.shiftr ip 8) 0xFF); AInt (Z.land ip 0xFF)].
Definition ready : Sh bool := gets (λ s, net_ready (k_net (s_k s))).
(** [dhcp_get_dns() ? dhcp_get_dns() : NET_IP(8,8,8,8)] *)
Definition the_dns (s : shell (DD := DD) (U := U) (C := C) (DN := DN) (MD := MD)) : Z :=
  if (s_offer s).2 =? 0 then NET_IP 8 8 8 8 else (s_offer s).2.

Definition cmd_dhcp : Sh unit :=
  r ← ready;
  if negb r then puts "No NIC.
" else
  puts "Sending DHCP DISCOVER...
" ;;
  r ← in_dhcp (dhcp_request fuel irq (replicate 240 0) (replicate 256 0) (replicate 1514 0));
  if r =? 0 then
    s ← get;
    kprintf "  IP:  %u.%u.%u.%u
" (ip_args (s_offer s).1.1) ;;
    kprintf "  GW:  %u.%u.%u.%u
" (ip_args (s_offer s).1.2) ;;
    in_dns (dns_init (the_dns s)) ;;
    puts "  DNS updated.
"
  else puts "  DHCP failed.
".

Definition cmd_dns (rest : list Z) : Sh unit :=
  e ← is_empty rest;
  if e : bool then puts "Usage: dns <hostname>
" else
  r ← ready;
  if negb r then puts "No NIC.
" else
  kprintf "Resolving '%s'...
" [AStr (Some rest)] ;;
  ip ← in_dns (dns_resolve fuel irq (replicate 1514 0) (replicate 512 0) rest);
  if ip =? 0 then puts "  Resolution failed.
"
  else kprintf "  %s = %u.%u.%u.%u
" (AStr (Some rest) :: ip_args ip).

Definition cmd_ping : Sh unit :=
  r ← ready;
  if negb r then puts "No NIC.
" else
  puts "Sending UDP ping to 10.0.2.2:7 (echo port)...
" ;;
  r ← in_k (in_net (net_send_udp fuel irq (replicate 1514 0) (NET_IP 10 0 2 2) 1234 7 (lit "KumOS ping") 10));
  kprintf "  Result: %s
" [AStr (Some (lit (if r =? 0 then "sent OK" else "send failed")))].

(** [k] turns are left; [i] have passed. *)
Fixpoint recv_loop (k : nat) (i : nat) (port e : Z) : Sh bool :=
  poll_env i ;;
  now ← gets (λ s, timer_ticks (the_timer s));
  if now <? e then
    match k with
    | O => lift Timeout
    | S k' =>
        in_k (in_net net_poll) ;;
        r ← in_k (in_net (net_recv_udp port (replicate 256 0) 255 0 0));
        let '(n, buf, src_ip, src_port) := (r : Z * list Z * Z * Z) in
        if 0 <? n then
          b ← lift (arr_set buf n 0);
          kprintf_l (str "  From %u.%u.%u.%u:%u  " ++ [34] ++ str "%s" ++ [34; 10; 0]) (ip_args src_ip ++ [AInt src_port; AStr (Some b)]) ;;
          mret true
        else recv_loop k' (S i) port e
    end
  else mret false.
Definition cmd_netrecv (rest : list Z) : Sh unit :=
  r ← ready;
  if negb r then puts "No NIC.
" else
  e ← is_empty rest;
  port ← (if e : bool then mret 1234 else r ← lift (dec_arg u16 rest 0); mret r.1);
  kprintf "Listening on UDP port %u (polling 2s)...
" [AInt port] ;;
  s ← get;
  got ← recv_loop fuel 0 port (u32 (timer_ticks (the_timer s) + 200));
  if got : bool then mret tt else puts "  No packets received.
".

(** ** Serial line, memory and the desktop *)
Definition cmd_serial : Sh unit :=
  heading "
  === Serial Port (COM1) ===

" ;;
  puts "  Port:    0x3F8 (COM1)
" ;;
  puts "  Baud:    115200
" ;;
  puts "  Format:  8N1
" ;;
  puts "  Status:  " ;;
  s ← get;
  if k_com1 (s_k s) then
    color VGA_GREEN ;;
    puts "ONLINE
" ;;
    color VGA_WHITE ;;
    puts "
  QEMU:  -serial stdio        (live terminal)
" ;;
    puts "         -serial file:k.log   (capture to file)

" ;;
    n ← query (λ s, timer_seconds (the_timer s));
    in_k (in_serial (serial_printf ([13; 10] ++ str "[serial] Test message from KumOS shell at uptime=%us" ++ [13; 10; 0]) [AInt n])) ;;
    puts "  Test message sent to serial.

"
  else color VGA_DARK_GREY ;; puts "NOT DETECTED

" ;; color VGA_WHITE.

(** The row of 16 bytes from [i] on: [n] are left. *)
Fixpoint hex_row (n : nat) (i : Z) (bp : list Z) : Sh unit :=
  match n with
  | O => mret tt
  | S n' =>
      b ← lift (arr_get bp i);
      h ← lift (arr_get (lit "0123456789ABCDEF") (Z.shiftr b 4)); l ← lift (arr_get (lit "0123456789ABCDEF") (Z.land b 0xF));
      puts_s [h; l; 0] ;; putc 32 ;; hex_row n' (i + 1) bp
  end.
Fixpoint hex_rows (n : nat) (addr len i : Z) (bp : list Z) : Sh unit :=
  if i <? len then
    match n with
    | O => λ _, Timeout
    | S n' =>
        scr (vga_put_hex (u32 (addr + i))) ;; puts ": " ;;
        hex_row (Z.to_nat (Z.min 16 (len - i))) i bp ;;
        putc 10 ;; hex_rows n' addr len (i + 16) bp
    end
  else mret tt.
Definition cmd_hexdump (rest : list Z) : Sh unit :=
  e ← is_empty rest;
  if e : bool then puts "Usage: hexdump <0xaddr> [len]
" else
  a ← lift (hex_arg rest);
  p ← lift (skip_spaces a.2);
  e ← is_empty p;
  len ← (if e : bool then mret 64 else r ← lift (dec_arg u32 p 0); mret r.1);
  let addr := a.1 in
  let len := if 512 <? len then 512 else len in
  m ← in_k (in_vm (paging_is_mapped page_dir addr));
  if negb m then kprintf "hexdump: 0x%x is not mapped
" [AInt addr]
  else
    color VGA_CYAN ;;
    kprintf "
  hexdump 0x%x  len=%u

" [AInt addr; AInt len] ;;
    color VGA_WHITE ;;
    bp ← in_k (user_obj addr);
    in_k (in_serial (serial_hexdump COM1 bp len)) ;;
    hex_rows 32 addr len 0 bp ;;
    putc 10.

Definition cmd_gui (buf echo junk : list Z) : Sh unit :=
  color VGA_CYAN ;;
  puts "Switching to GUI mode (320x200)...
" ;;
  puts "Press ESC inside GUI to return.
" ;;
  color VGA_WHITE ;;
  in_k (in_timer (λ t, t' ← timer_sleep fuel irq 500 t; Ok (tt, t'))) ;;
  in_gui (gui_run fuel fuel fuel irq gui_hlt buf echo junk) ;;
  scr vga_clear ;;
  draw_statusbar ;;
  color VGA_GREEN ;; puts "  Returned from GUI.

" ;; color VGA_WHITE.
End commands.
