(* ===== verification/KernelMain.v ===== *)
(** * The dispatch of commands and the loop of the kernel shell (src/src/kernel.c)

    [dispatch] runs a line, and [cmd_kum] a line with raised privileges through it. The
    recursion between the two is on fuel; a line's length is proved to be enough of it. Commands
    that stop the machine end the loop ([Stop]). The privilege is proved to change with [kum]
    and [kum exit] only, and the guarded commands to do nothing but print without it. What is
    not here is the start of [kernel_main], which calls the initialisation of each component. *)

From S2P Require Import Prelude KString KMalloc Pmm Paging BlockDev Fat12 FatDir Vga Ports Ata Mouse Ramfs Elf Process Users Dmesg Keyboard Draw Gui Listing.
From S2P Require Import Serial Rtc NetProps Net Dhcp Sched Signal Vfs VfsBackends Syscall Shell Commands.

(** How a line ends: the shell goes on, or the machine has stopped. *)
Inductive power := Rebooted | Halted.
Inductive flow := Go | Stop (p : power).

Section main.
Context {DD : Type} `{Disk DD} {U : Type} `{Ports U} {C : Type} `{Ports C} {DN : Type} `{Nic DN} {MD : Type} `{Ports MD}.
Notation sh := (shell (DD := DD) (U := U) (C := C) (DN := DN) (MD := MD)).
Notation Sh := (M sh).

Context (page_dir : Z) (fuel : nat) (irq : timer kheap → res (timer kheap)) (halt : nat → M kb unit)
  (pipe_env : list Pipe.pipe_t → list Pipe.pipe_t) (task_env : nat → M (sched kheap) unit) (poll_env : nat → Sh unit)
  (cpuid : Z → Z * Z * Z * Z) (entry_of : Z → Z) (placeholder : Z) (gui_hlt : nat → M (gui (D := MD) (K := kheap)) unit).

(** [proc_kill] works on the table of src/src/process.c, which the timer updates. *)
Definition in_procs {A} (m : M procs A) : Sh A :=
  in_k (in_timer (zoom t_procs (λ p t, mkTimer (tick_count t) (tick_hz t) (t_ports t) p (t_sig t)) m)).

(** A command by its name; it gets the rest of the line. *)
Definition handler : Type := list Z → Sh flow.
Definition on_rest (c : list Z → Sh unit) : handler := λ rest, c rest ;; mret Go.
Definition no_args (c : Sh unit) : handler := λ _, c ;; mret Go.

Definition cmd_reboot : handler := λ _,
  kum ← gets kum_active;
  if negb kum then puts "Permission denied. Use 'kum reboot'
" ;; mret Go
  else
    puts "Rebooting...
" ;;
    in_k (in_timer (λ t, t' ← timer_sleep fuel irq 500 t; Ok (tt, t'))) ;; mret (Stop Rebooted).
Definition cmd_shutdown : handler := λ _,
  kum ← gets kum_active;
  if negb kum then puts "Permission denied. Use 'kum shutdown'
" ;; mret Go
  else
    color VGA_YELLOW ;; puts "
System halted. Power off safely.
" ;; mret (Stop Halted).

(** [kum] with [run] for [dispatch]. *)
Definition cmd_kum (run : list Z → Sh flow) : handler := λ args,
  args ← lift (skip_spaces args);
  e ← is_empty args;
  if e : bool then
    modify (set_kum true) ;; heading "[kum] Privileged session. 'kum exit' to leave.
" ;; mret Go
  else
  d ← lift (kstrcmp args (lit "exit"));
  if d =? 0 then modify (set_kum false) ;; heading "[kum] Dropped privileges.
" ;; mret Go
  else
  b ← lift (kstartswith args (lit "spawn "));
  if negb (b =? 0) then
    pid ← sched_do (sched_spawn (drop 6 args) 0 1);
    kprintf "[kum] Background task '%s' spawned  PID=%d
" [AStr (Some (drop 6 args)); AInt pid] ;; mret Go
  else
  b ← lift (kstartswith args (lit "kill "));
  if negb (b =? 0) then
    n ← lift (dec_arg i32 (drop 5 args) 0);
    (if n.1 <=? 1 then puts "[kum] Cannot kill kernel tasks.
"
     else
       in_procs (modify (proc_kill n.1)) ;; kprintf "[kum] Killed PID %d
" [AInt n.1]) ;; mret Go
  else
  b ← lift (kstartswith args (lit "sethost "));
  if negb (b =? 0) then
    s ← get;
    h ← lift (kstrcpy (hostname s) (drop 8 args));
    modify (set_host h) ;;
    kprintf "[kum] Hostname set to '%s'
" [AStr (Some h)] ;; mret Go
  else
    prev ← gets kum_active;
    modify (set_kum true) ;;
    heading "[kum] " ;;
    r ← run args;
    match r with
    | Go => modify (set_kum prev) ;; mret Go
    | Stop p => mret (Stop p)
    end.

Definition cmd_unknown (cmd : list Z) : Sh flow :=
  (kprintf "ksh: command not found: %s
" [AStr (Some cmd)] ;;
   puts "Type 'help' for available commands.
") ;; mret Go.

(** The chain of comparisons in [dispatch]. [junk_x] and [junk_y] are the uninitialised arrays
    of the game. *)
Definition commands (junk_x junk_y : list Z) (kum : handler) : list (list Z * handler) := [
  (lit "help", no_args cmd_help);
  (lit "clear", no_args (scr vga_clear ;; draw_statusbar));
  (lit "logo", no_args cmd_logo);
  (lit "uname", no_args (puts "KumOS 1.4 kumos i686 KumOS/KumLabs
"));
  (lit "whoami", no_args cmd_whoami);
  (lit "users", no_args (listing (λ s, users_list (s_users s))));
  (lit "login", no_args (cmd_login fuel halt));
  (lit "date", no_args (cmd_date fuel));
  (lit "mouse", no_args cmd_mouse);
  (lit "wait", on_rest (cmd_wait fuel task_env));
  (lit "hostname", no_args (s ← get; puts_s (hostname s) ;; putc 10));
  (lit "uptime", no_args cmd_uptime);
  (lit "echo", on_rest (λ rest, puts_s rest ;; putc 10));
  (lit "ls", no_args (putc 10 ;; listing (λ s, fs_list (ram (back (k_vfs (s_k s))))) ;; putc 10));
  (lit "cat", on_rest cmd_cat);
  (lit "touch", on_rest cmd_touch);
  (lit "write", on_rest cmd_write);
  (lit "rm", on_rest cmd_rm);
  (lit "ps", no_args (putc 10 ;; listing (λ s, sched_list (the_sched s)) ;; putc 10));
  (lit "meminfo", no_args cmd_meminfo);
  (lit "vmem", no_args (cmd_vmem page_dir));
  (lit "swapinfo", no_args cmd_swapinfo);
  (lit "mmap", on_rest (cmd_mmap page_dir));
  (lit "cpuinfo", no_args (cmd_cpuinfo cpuid));
  (lit "irqinfo", no_args cmd_irqinfo);
  (lit "ifconfig", no_args (listing (λ s, net_print_info (k_net (s_k s)))));
  (lit "dmesg", no_args (putc 10 ;; listing (λ s, dmesg_print_all (s_log s)) ;; putc 10));
  (lit "dhcp", no_args (cmd_dhcp fuel irq));
  (lit "dns", on_rest (cmd_dns fuel irq));
  (lit "ping", no_args (cmd_ping fuel irq));
  (lit "netrecv", on_rest (cmd_netrecv fuel poll_env));
  (lit "proc", on_rest (cmd_proc fuel pipe_env));
  (lit "kill", on_rest cmd_kill);
  (lit "kush", no_args (cmd_kush page_dir fuel task_env placeholder));
  (lit "gui", no_args (cmd_gui fuel irq gui_hlt (replicate 128 0) (replicate 36 0) (replicate 34 0)));
  (lit "serial", no_args cmd_serial);
  (lit "hexdump", on_rest (cmd_hexdump page_dir));
  (lit "disk", no_args cmd_disk);
  (lit "dls", no_args cmd_dls);
  (lit "dcat", on_rest cmd_dcat);
  (lit "dwrite", on_rest cmd_dwrite);
  (lit "drm", on_rest cmd_drm);
  (lit "dformat", no_args cmd_dformat);
  (lit "dcp", on_rest cmd_dcp);
  (lit "run", on_rest (cmd_run page_dir fuel task_env entry_of));
  (lit "history", no_args cmd_history);
  (lit "calc", on_rest cmd_calc);
  (lit "banner", on_rest cmd_banner);
  (lit "snake", no_args (snake_game fuel irq halt junk_x junk_y ;; scr vga_clear ;; draw_statusbar));
  (lit "motd", no_args cmd_motd);
  (lit "kum", kum);
  (lit "reboot", cmd_reboot);
  (lit "shutdown", cmd_shutdown);
  (lit "halt", cmd_shutdown);
  (lit "exec", on_rest (cmd_exec page_dir fuel task_env placeholder));
  (lit "elfinfo", on_rest cmd_elfinfo)].
Fixpoint select (cmd rest : list Z) (l : list (list Z * handler)) : Sh flow :=
  match l with
  | [] => cmd_unknown cmd
  | (n, h) :: l' => d ← lift (kstrcmp cmd n); if d =? 0 then h rest else select cmd rest l'
  end.

Variables (junk_x junk_y : list Z).

(** One level of [dispatch]; [run] is the call that [kum] makes with the rest of the line. *)
Definition dispatch_level (run : list Z → Sh flow) (line : list Z) : Sh flow :=
  line ← lift (skip_spaces line);
  e ← is_empty line;
  if e : bool then mret Go
  else
    p ← lift (split_cmd line (replicate 64 0) (replicate 256 0) 64);
    select (p : list Z * list Z).1 p.2 (commands junk_x junk_y (cmd_kum run)).
Fixpoint dispatch (n : nat) (line : list Z) : Sh flow :=
  match n with
  | O => lift Timeout
  | S n' => dispatch_level (dispatch n') line
  end.

(** ** The loop of [kernel_main] *)
Definition shell_turn : Sh flow :=
  print_prompt ;;
  line ← getline fuel halt CMD_LEN;
  e ← is_empty line;
  if e : bool then mret Go
  else
    s ← get;
    h ← lift (hist_add line (s_hist s)); modify (set_hist h) ;;
    in_k (in_serial (serial_printf (str "[ksh] %s" ++ [13; 10; 0]) [AStr (Some line)])) ;;
    dispatch (S (length line)) line.
Fixpoint shell_loop (turns : nat) : Sh power :=
  match turns with
  | O => lift Timeout
  | S n => r ← shell_turn; match r with Go => shell_loop n | Stop p => mret p end
  end.

(** What [kernel_main] does once interrupts are on: [pic_mask] and [kb_stat] are what the two
    ports read. *)
Definition kernel_welcome (pic_mask kb_stat : Z) : Sh unit :=
  draw_splash ;;
  scr vga_clear ;;
  draw_statusbar ;;
  color VGA_CYAN ;;
  motd ← ram_file (lit "motd.txt");
  (match motd with Some f => puts_s (f_data f) | None => mret tt end) ;;
  color VGA_LIGHT_GREY ;;
  s ← get;
  kprintf "  KumOS v1.8  |  RAM: %u KB  |  VFS+Net+Signals+kush
" [AInt (total_mem_kb s)] ;;
  in_k (in_serial (serial_printf (str "[boot] Shell started. Type commands below." ++ [13; 10; 0]) [])) ;;
  in_k (in_serial (serial_printf (str "----------------------------------------" ++ [13; 10; 0]) [])) ;;
  puts "  Type 'help' for commands. 'irqinfo' to see interrupt status.
" ;;
  puts "  Use 'kum <cmd>' instead of sudo for privileged ops.

" ;;
  color VGA_DARK_GREY ;;
  puts "  [kbd] PIC1 mask=0x" ;; scr (vga_put_hex pic_mask) ;;
  puts "  IRQ1=" ;; puts_s (lit (if Z.testbit pic_mask 1 then "MASKED(bad)" else "unmasked(ok)")) ;;
  puts "  8042 status=0x" ;; scr (vga_put_hex kb_stat) ;;
  puts "  mode=hybrid(IRQ+poll)

" ;;
  color VGA_WHITE.
Definition kernel_main (pic_mask kb_stat : Z) (turns : nat) : Sh power :=
  kernel_welcome pic_mask kb_stat ;; shell_loop turns.

(** ** What a command leaves alone *)

(** [keeps f m]: [m] does not change what [f] shows of the state. *)
Definition keeps {T A} (f : sh → T) (m : Sh A) : Prop := ∀ s a s', m s = Ok (a, s') → f s' = f s.

Lemma keeps_ret {T A} (f : sh → T) (a : A) : keeps f (mret a).
Proof. by intros s ? ? [= <- <-]. Qed.
Lemma keeps_bind {T A B} (f : sh → T) (m : Sh A) (k : A → Sh B) : keeps f m → (∀ a, keeps f (k a)) → keeps f (m ≫= k).
Proof.
  intros Hm Hk s b s' E. unfold mbind, M_bind in E. destruct (m s) as [[a s1]| |] eqn:Em; [|done..]. rewrite (Hk _ _ _ _ E). by eapply Hm.
Qed.
Lemma keeps_lift {T A} (f : sh → T) (r : res A) : keeps f (lift r).
Proof. intros s a s' E. unfold lift in E. destruct r; by simplify_eq. Qed.
Lemma keeps_get {T} (f : sh → T) : keeps f get.
Proof. by intros s ? ? [= <- <-]. Qed.
Lemma keeps_gets {T A} (f : sh → T) (g : sh → A) : keeps f (gets g).
Proof. by intros s ? ? [= <- <-]. Qed.
Lemma keeps_query {T A} (f : sh → T) (g : sh → res A) : keeps f (query g).
Proof. intros s a s' E. unfold query in E. destruct (g s); cbn in E; by simplify_eq. Qed.
Lemma keeps_modify {T} (f : sh → T) g : (∀ s, f (g s) = f s) → keeps f (modify g).
Proof. intros Hg s a s' [= <- <-]. apply Hg. Qed.
Lemma keeps_zoom {T S' A} (f : sh → T) (g : sh → S') p (m : M S' A) : (∀ x s, f (p x s) = f s) → keeps f (zoom g p m).
Proof. intros Hp s a s' E. unfold zoom in E. destruct (m (g s)) as [[? ?]| |]; simplify_eq. apply Hp. Qed.

(** What belongs to the shell and not to the components below it. *)
Definition own (s : sh) : bool * list Z * hist * list ata_drive_t * Z :=
  (kum_active s, hostname s, s_hist s, s_drives s, total_mem_kb s).

Section frame.
Hypothesis poll_own : ∀ i, keeps own (poll_env i).

Lemma keeps_in_k {A} (m : M (kernel DD U C DN kheap) A) : keeps own (in_k m).
Proof. by apply keeps_zoom. Qed.
Lemma keeps_in_gui {A} (m : M (gui (D := MD) (K := kheap)) A) : keeps own (in_gui m).
Proof. by apply keeps_zoom. Qed.
Lemma keeps_in_dhcp {A} (m : M (dhcp DN U kheap) A) : keeps own (in_dhcp m).
Proof. by apply keeps_zoom. Qed.
Lemma keeps_in_dns {A} (m : M (dns DN kheap) A) : keeps own (in_dns m).
Proof. by apply keeps_zoom. Qed.
Lemma keeps_listing g : keeps own (listing g).
Proof. apply keeps_bind; [apply keeps_query|intros; apply keeps_in_k]. Qed.
Lemma keeps_users u : keeps own (modify (set_users u)).
Proof. by apply keeps_modify. Qed.

Create HintDb keeps.
#[local] Hint Resolve keeps_ret keeps_lift keeps_get keeps_gets keeps_query keeps_in_k keeps_in_gui keeps_in_dhcp
  keeps_in_dns keeps_listing keeps_users : keeps.
#[local] Hint Unfold puts puts_s putc color puts_at kprintf kprintf_l scr con_do heading getline fat_do ram_do sched_do load_do
  mounted ram_file is_empty ready feature wait_for : keeps.
(** Go through the steps of a command. *)
Ltac keep :=
  repeat first
    [ assumption
    | solve [autounfold with keeps; auto with keeps]
    | apply keeps_bind; [|intros ?]
    | progress cbv beta iota zeta
    | match goal with |- keeps _ (match ?x with _ => _ end) => destruct x end
    | progress autounfold with keeps ].

Lemma keeps_statusbar : keeps own draw_statusbar.
Proof. unfold draw_statusbar. keep. Qed.
Lemma keeps_splash_lines l i : keeps own (splash_lines i l).
Proof. revert i. induction l; intros; cbn [splash_lines]; keep; auto. Qed.
Lemma keeps_draws l : keeps own (draws l).
Proof. induction l; cbn [draws]; keep. Qed.
Lemma keeps_snake_loop n g : keeps own (snake_loop fuel irq n g).
Proof. revert g. induction n; intros; cbn [snake_loop]; [by intros ???|]. pose proof keeps_draws. keep; auto. Qed.
Lemma keeps_entry_rows l : keeps own (entry_rows l).
Proof. induction l; cbn [entry_rows]; unfold entry_row; keep. Qed.
Lemma keeps_user_pages n v : keeps own (user_pages page_dir n v).
Proof. revert v. induction n; intros; cbn [user_pages]; keep; auto. Qed.
Lemma keeps_user_spawn nm e : keeps own (user_spawn page_dir nm e).
Proof. unfold user_spawn, user_task_setup. pose proof keeps_user_pages. keep; auto. Qed.
Lemma keeps_run_names l : keeps own (run_names l).
Proof. induction l; cbn [run_names]; keep. Qed.
Lemma keeps_run_found rest i l : keeps own (run_found page_dir fuel task_env entry_of rest i l).
Proof. revert i. induction l; intros; cbn [run_found]; pose proof keeps_user_spawn; keep; auto. Qed.
Lemma keeps_hist_rows n i l : keeps own (hist_rows n i l).
Proof. revert i. induction n; intros; cbn [hist_rows]; keep; auto. Qed.
Lemma keeps_banner_row p n : keeps own (banner_row n p).
Proof. revert p. induction n; intros p; destruct p; cbn [banner_row]; keep; auto. Qed.
Lemma keeps_proc_loop n fd : keeps own (proc_loop fuel pipe_env n fd).
Proof. induction n; cbn [proc_loop]; [by intros ???|]. keep; auto. Qed.
Lemma keeps_recv_loop k i port e : keeps own (recv_loop poll_env k i port e).
Proof. revert i. induction k; intros; cbn [recv_loop]; keep; auto. Qed.
Lemma keeps_hex_row n i bp : keeps own (hex_row n i bp).
Proof. revert i. induction n; intros; cbn [hex_row]; keep; auto. Qed.
Lemma keeps_hex_rows n addr len i bp : keeps own (hex_rows n addr len i bp).
Proof. revert i. induction n; intros; cbn [hex_rows]; pose proof keeps_hex_row; keep; auto. by intros ???. Qed.
#[local] Hint Resolve keeps_statusbar keeps_splash_lines keeps_snake_loop keeps_entry_rows keeps_user_spawn keeps_run_names keeps_run_found
  keeps_hist_rows keeps_banner_row keeps_proc_loop keeps_recv_loop keeps_hex_rows : keeps.

(** ** What a line may do *)

(** [may m Q s]: when [m] returns from [s], its result and state satisfy [Q]. *)
Definition may {A} (m : Sh A) (Q : A → sh → Prop) (s : sh) : Prop := ∀ a s', m s = Ok (a, s') → Q a s'.
Lemma may_ret {A} (a : A) Q s : Q a s → may (mret a) Q s.
Proof. by intros ? ? ? [= <- <-]. Qed.
Lemma may_bind {A B} (m : Sh A) (k : A → Sh B) Q s : may m (λ a s', may (k a) Q s') s → may (m ≫= k) Q s.
Proof.
  intros Hm b s' E. unfold mbind, M_bind in E. destruct (m s) as [[a s1]| |] eqn:Em; [|done..]. exact (Hm _ _ Em _ _ E).
Qed.
Lemma may_lift {A} (r : res A) Q s : (∀ a, r = Ok a → Q a s) → may (lift r) Q s.
Proof. intros HQ a s' E. unfold lift in E. destruct r; simplify_eq. by apply HQ. Qed.
Lemma may_gets {A} (g : sh → A) Q s : Q (g s) s → may (gets g) Q s.
Proof. by intros ? ? ? [= <- <-]. Qed.
Lemma may_modify g Q s : Q tt (g s) → may (modify g) Q s.
Proof. by intros ? ? ? [= <- <-]. Qed.
Lemma may_keeps {A} (m : Sh A) Q s : keeps own m → (∀ a s', own s' = own s → Q a s') → may m Q s.
Proof. intros Hm HQ a s' E. apply HQ. by eapply Hm. Qed.
Lemma may_empty b t Q s : cstr b t → Q (bool_decide (t = [])) s → may (is_empty b) Q s.
Proof.
  intros Hb HQ. destruct (cstr_first b t Hb) as (x & Ex & E). unfold is_empty. rewrite Ex. apply may_bind, may_lift. intros ? [= <-].
  apply may_ret. by rewrite E.
Qed.
Lemma may_strcmp a b u v Q s : cstr a u → cstr b v → (∀ d, (d =? 0) = bool_decide (u = v) → Q d s) → may (lift (kstrcmp a b)) Q s.
Proof. intros Ha Hb HQ. apply may_lift. intros d Ed. destruct (kstrcmp_test a b u v Ha Hb) as (d' & E' & Hd). rewrite Ed in E'. injection E' as <-. apply HQ, Hd. Qed.

(** A command that leaves the shell's own state alone, and stops the machine for the
    privileged only. *)
Definition harmless (m : Sh flow) : Prop := keeps own m ∧ ∀ s, kum_active s = false → may m (λ r _, r = Go) s.
Lemma harmless_then (c : Sh unit) : keeps own c → harmless (c ;; mret Go).
Proof. intros Hc. split; [keep|]. intros s _. apply may_bind, may_keeps; [done|]. intros. by apply may_ret. Qed.
Lemma harmless_on_rest c rest : keeps own (c rest) → harmless (on_rest c rest).
Proof. apply harmless_then. Qed.
Lemma harmless_no_args c rest : keeps own c → harmless (no_args c rest).
Proof. apply harmless_then. Qed.
Lemma harmless_reboot rest : harmless (cmd_reboot rest).
Proof.
  unfold cmd_reboot. split; [keep|]. intros s Hs. apply may_bind, may_gets. rewrite Hs. cbn [negb].
  apply may_bind, may_keeps; [keep|]. intros. by apply may_ret.
Qed.
Lemma harmless_shutdown rest : harmless (cmd_shutdown rest).
Proof.
  unfold cmd_shutdown. split; [keep|]. intros s Hs. apply may_bind, may_gets. rewrite Hs. cbn [negb].
  apply may_bind, may_keeps; [keep|]. intros. by apply may_ret.
Qed.
#[local] Hint Resolve harmless_reboot harmless_shutdown harmless_on_rest harmless_no_args : keeps.

Definition kum_word : list Z := str "kum".
Lemma commands_harmless jx jy kum rest :
  Forall (λ c : list Z * handler, ∃ n, cstr c.1 n ∧ if decide (n = kum_word) then c.2 = kum else harmless (c.2 rest)) (commands jx jy kum).
Proof.
  unfold commands.
  repeat (apply Forall_cons; split; [eexists; split; [cbn [fst]; by apply lit_test|cbn [snd]; first [rewrite decide_False by (vm_compute; discriminate)|rewrite decide_True by reflexivity]]|]); [..|by constructor].
  all: first [reflexivity|apply harmless_reboot|apply harmless_shutdown|apply harmless_on_rest|apply harmless_no_args].
  all: unfold cmd_help, cmd_logo, cmd_whoami, cmd_login, cmd_date, cmd_mouse, cmd_wait, cmd_uptime, cmd_cat, cmd_touch, cmd_write, cmd_rm,
    cmd_meminfo, cmd_vmem, cmd_swapinfo, cmd_mmap, cmd_cpuinfo, cmd_irqinfo, cmd_dhcp, cmd_dns, cmd_ping, cmd_netrecv, cmd_proc, cmd_kill,
    cmd_kush, cmd_gui, cmd_serial, cmd_hexdump, cmd_disk, cmd_dls, cmd_dcat, cmd_dwrite, cmd_drm, cmd_dformat, cmd_dcp, cmd_run, cmd_history,
    cmd_calc, cmd_banner, snake_game, cmd_motd, cmd_exec, cmd_elfinfo; keep.
Qed.

(** The chosen command runs, or the complaint about an unknown one. *)
Lemma select_may cmd w rest Q s (l : list (list Z * handler)) : cstr cmd w →
  Forall (λ c : list Z * handler, ∃ n, cstr c.1 n ∧ (n = w → may (c.2 rest) Q s)) l →
  (Forall (λ c : list Z * handler, ¬ cstr c.1 w) l → may (cmd_unknown cmd) Q s) →
  may (select cmd rest l) Q s.
Proof.
  intros Hc Hl. induction Hl as [|[n h] l (v & Hv & Hh) Hl IH]; intros Hu; cbn [select]; [by apply Hu|].
  apply may_bind. eapply may_strcmp; [exact Hc|exact Hv|]. intros d ->. case_bool_decide as E; [by apply Hh|].
  apply IH. intros HF. apply Hu. constructor; [|done]. cbn. intros Hw. apply E. exact (eq_trans (eq_sym (cstr_cstring _ _ Hw)) (cstr_cstring _ _ Hv)).
Qed.

(** The command of a line and its arguments. *)
Definition command (s : list Z) : list Z := cmd_word 64 (lstrip s).
Definition arguments (s : list Z) : list Z := cmd_rest 64 (lstrip s).
(** What the arguments of [kum] make of the privilege. *)
Definition kum_sets (a : list Z) : option bool :=
  if decide (lstrip a = []) then Some true else if decide (lstrip a = str "exit") then Some false else None.
Definition after_kum (a : list Z) (st : sh) (r : flow) (st' : sh) : Prop :=
  match kum_sets a with Some b => r = Go ∧ kum_active st' = b | None => r = Go → kum_active st' = kum_active st end.

Lemma same_own_kum (st st' : sh) : own st' = own st → kum_active st' = kum_active st.
Proof. unfold own. congruence. Qed.
Lemma may_same (m : Sh flow) (st0 st : sh) : keeps own m → kum_active st0 = kum_active st →
  may m (λ r st', r = Go → kum_active st' = kum_active st) st0.
Proof. intros Hm E. apply may_keeps; [done|]. intros _ s' Es _. by rewrite (same_own_kum _ _ Es). Qed.

Lemma cmd_kum_may run args a st : cstr args a → may (cmd_kum run args) (after_kum a st) st.
Proof.
  intros Ha. unfold cmd_kum, after_kum, kum_sets. destruct (skip_spaces_spec args a Ha) as (b & Eb & Hb).
  apply may_bind, may_lift. intros ? E. rewrite Eb in E. injection E as <-.
  apply may_bind. eapply may_empty; [exact Hb|]. case_bool_decide as E1; [rewrite decide_True by done|rewrite decide_False by done].
  { apply may_bind, may_modify, may_bind, may_keeps; [keep|]. intros _ s' Es. apply may_ret. split; [done|]. by rewrite (same_own_kum _ _ Es). }
  apply may_bind. eapply may_strcmp; [exact Hb|by apply lit_test|]. intros d ->.
  case_bool_decide as E2; [rewrite decide_True by done|rewrite decide_False by done].
  { apply may_bind, may_modify, may_bind, may_keeps; [keep|]. intros _ s' Es. apply may_ret. split; [done|]. by rewrite (same_own_kum _ _ Es). }
  apply may_bind, may_lift. intros k1 _. destruct (negb (k1 =? 0)); [apply may_same; [keep|done]|].
  apply may_bind, may_lift. intros k2 _. destruct (negb (k2 =? 0)); [apply may_same; [unfold in_procs; keep|done]|].
  apply may_bind, may_lift. intros k3 _. destruct (negb (k3 =? 0)).
  { apply may_bind, may_keeps; [keep|]. intros s1 s' Es. apply may_bind, may_lift. intros h _. apply may_bind, may_modify.
    apply may_same; [keep|]. cbn. by apply same_own_kum. }
  apply may_bind, may_gets, may_bind, may_modify, may_bind, may_keeps; [keep|]. intros _ s1 Es.
  apply may_bind. intros r s2 _. destruct r; [|by apply may_ret]. by apply may_bind, may_modify, may_ret.
Qed.

(** The privilege after a line, and what an unprivileged line is kept from. *)
Record line_effect (s : list Z) (st : sh) (r : flow) (st' : sh) : Prop := {
  le_kum : if decide (command s = kum_word) then after_kum (arguments s) st r st' else own st' = own st;
  le_stop : command s ≠ kum_word → kum_active st = false → r = Go
}.

(** C34: privileges change by the commands [kum] and [kum exit] only: after any other line the
    privilege is as before, also after [kum] with a command to run. A line whose command is
    not [kum] changes neither the host name nor the history nor the drives, and stops the
    machine only with the privilege. *)
Theorem dispatch_privilege n line s st : cstr line s → may (dispatch n line) (line_effect s st) st.
Proof.
  intros Hl. destruct n as [|n]; cbn [dispatch]; [by intros ???|]. unfold dispatch_level.
  destruct (skip_spaces_spec line s Hl) as (b & Eb & Hb). apply may_bind, may_lift. intros ? E. rewrite Eb in E. injection E as <-.
  apply may_bind. eapply may_empty; [exact Hb|]. case_bool_decide as E1.
  { apply may_ret. unfold command. split; unfold command; rewrite E1; [by rewrite decide_False by (vm_compute; discriminate)|done]. }
  apply may_bind, may_lift. intros [c rest] Ep. eapply split_cmd_inv in Ep as [Hc Hr]; [|exact Hb|rewrite length_replicate; lia]. cbn [fst snd].
  assert (∀ m : Sh flow, harmless m → command s ≠ kum_word → may m (line_effect s st) st) as Hh.
  { intros m [Hk Hs] Hne r st' Er. split; [rewrite decide_False by done; by eapply Hk|intros _ Hu; by eapply Hs]. }
  eapply select_may; [exact Hc| |].
  - eapply Forall_impl; [apply (commands_harmless junk_x junk_y (cmd_kum (dispatch n)) rest)|]. intros [nm h] (v & Hv & Hd). exists v. split; [exact Hv|].
    intros ->. cbn [snd] in *. fold (command s) in Hd. destruct (decide (command s = kum_word)) as [Ek|Ek]; [|by apply Hh]. subst h.
    intros r st' Er. split; [rewrite decide_True by done; by eapply cmd_kum_may|done].
  - intros Hnone. apply Hh; [apply harmless_then; keep|]. intros Ek.
    assert ((lit "kum", cmd_kum (dispatch n)) ∈ commands junk_x junk_y (cmd_kum (dispatch n))) as Hin by (unfold commands; repeat constructor).
    rewrite Forall_forall in Hnone. apply (Hnone _ Hin). cbn [fst]. fold (command s). rewrite Ek. by apply lit_test.
Qed.
End frame.

(** ** The recursion of [kum] *)
Lemma bind_ext {A B} (m : Sh A) (k k' : A → Sh B) s : (∀ a s', m s = Ok (a, s') → k a s' = k' a s') → (m ≫= k) s = (m ≫= k') s.
Proof. intros Hk. unfold mbind, M_bind. destruct (m s) as [[a s']| |] eqn:E; [by apply Hk|done..]. Qed.

Lemma cmd_kum_ext (run run' : list Z → Sh flow) args a st : cstr args a → (∀ b st', cstr b (lstrip a) → run b st' = run' b st') →
  cmd_kum run args st = cmd_kum run' args st.
Proof.
  intros Ha Hrun. unfold cmd_kum. destruct (skip_spaces_spec args a Ha) as (b & Eb & Hb).
  apply bind_ext. intros ? s1 [E ->]%lift_Ok. rewrite Eb in E. injection E as <-.
  apply bind_ext. intros e s2 _. destruct e; [done|].
  apply bind_ext. intros d s3 _. destruct (d =? 0); [done|].
  apply bind_ext. intros k1 s4 _. destruct (negb (k1 =? 0)); [done|].
  apply bind_ext. intros k2 s5 _. destruct (negb (k2 =? 0)); [done|].
  apply bind_ext. intros k3 s6 _. destruct (negb (k3 =? 0)); [done|].
  do 3 (apply bind_ext; intros ? ? _).
  unfold mbind at 1 3, M_bind at 1 3. by rewrite (Hrun b _ Hb).
Qed.

Lemma select_ext cmd rest st (l l' : list (list Z * handler)) :
  Forall2 (λ c c' : list Z * handler, c.1 = c'.1 ∧ c.2 rest st = c'.2 rest st) l l' → select cmd rest l st = select cmd rest l' st.
Proof.
  intros Hl. induction Hl as [|[n h] [n' h'] l l' [En Eh] Hl IH]; cbn [select]; [done|]. cbn in En, Eh. subst n'.
  unfold mbind, M_bind, lift. destruct (kstrcmp cmd n); [|done..]. by destruct (_ =? 0).
Qed.

Lemma arguments_shorter s : lstrip s ≠ [] → (length (arguments s) < length s)%nat.
Proof.
  intros Hs. unfold arguments, cmd_rest. pose proof (lstrip_length s) as Hl.
  assert (0 < length (cmd_word 64 (lstrip s)))%nat.
  { clear Hl. induction s as [|c s IH]; cbn [lstrip] in *; [done|]. destruct (c =? 32) eqn:E; [by apply IH|]. unfold cmd_word. cbn [word]. rewrite E. change (Z.to_nat (64 - 1)) with 63%nat. cbn. lia. }
  pose proof (lstrip_length (drop (length (cmd_word 64 (lstrip s))) (lstrip s))) as Hr. rewrite length_drop in Hr.
  destruct (lstrip s); [done|]. cbn [length] in *. lia.
Qed.

Lemma dispatch_level_ext (run run' : list Z → Sh flow) line s st : cstr line s →
  (∀ b t st', cstr b t → (length t < length s)%nat → run b st' = run' b st') →
  dispatch_level run line st = dispatch_level run' line st.
Proof.
  intros Hl Hrun. unfold dispatch_level.
  destruct (skip_spaces_spec line s Hl) as (b & Eb & Hb). apply bind_ext. intros ? s1 [E ->]%lift_Ok. rewrite Eb in E. injection E as <-.
  destruct (cstr_first b (lstrip s) Hb) as (x & Ex & Hx). apply bind_ext. intros e s2 Ee.
  unfold is_empty in Ee. rewrite Ex in Ee. injection Ee as <- <-. rewrite Hx. case_bool_decide as Hne; [done|].
  apply bind_ext. intros [c rest] s3 [Ep ->]%lift_Ok. eapply split_cmd_inv in Ep as [_ Hr]; [|exact Hb|rewrite length_replicate; lia]. cbn [fst snd].
  pose proof (arguments_shorter s Hne) as Hlen.
  apply select_ext. unfold commands. repeat (apply Forall2_cons_2; [by split|]).
  apply Forall2_cons_2; [|repeat (apply Forall2_cons_2; [by split|]); apply Forall2_nil_2].
  split; [done|]. cbn [snd]. apply (cmd_kum_ext _ _ _ _ _ Hr). intros b' st' Hb'. apply (Hrun b' _ st' Hb').
  pose proof (lstrip_length (arguments s)). unfold arguments in *. lia.
Qed.

(** [n] levels of [dispatch] with [base] in place of the call of the innermost one. *)
Fixpoint dispatch_over (base : list Z → Sh flow) (n : nat) (line : list Z) : Sh flow :=
  match n with
  | O => base line
  | S n' => dispatch_level (dispatch_over base n') line
  end.

(** C36: the recursion of [dispatch] through [kum] ends within as many levels as the line has
    characters, and one: whatever is put in place of the call that the last of these levels
    could make, the line does the same, so that call is never made. *)
Theorem dispatch_terminates base n line s st :
  cstr line s → (length s < n)%nat → dispatch_over base n line st = dispatch n line st.
Proof.
  revert line s st. induction n as [|n IH]; intros line s st Hl Hn; [lia|]. cbn [dispatch dispatch_over].
  apply (dispatch_level_ext _ _ _ _ _ Hl). intros b t st' Hb Ht. apply (IH b t st' Hb). lia.
Qed.

(** ** Denied commands *)

(** The state with a fixed console: what is not on the screen. *)
Definition off_screen (s : sh) : sh :=
  let b := back (k_vfs (s_k s)) in
  set_k (set_vfs (set_back (mkBackend (ram b) (mem_open b) (fat b) (disk_open b) (mkTty (t_kb (term_dev b)) vga_zero)) (k_vfs (s_k s))) (s_k s)) s.
Lemma keeps_scr {A} (m : M vga A) : keeps off_screen (scr m).
Proof.
  intros s a s' E. unfold scr, con_do, in_k, in_tty, in_back, in_vfs, zoom, on_back, on_tty, on_vga in E.
  destruct (m _) as [[? ?]| |]; [|done..]. cbn in E. by simplify_eq.
Qed.
Lemma keeps_off_modify g : (∀ s, off_screen (g s) = off_screen s) → keeps off_screen (modify g).
Proof. apply keeps_modify. Qed.

Definition denied (st : sh) (r : flow) (st' : sh) : Prop := r = Go ∧ off_screen st' = off_screen st.
Definition hushed (m : Sh unit) (st : sh) : Prop := may m (λ _ st', off_screen st' = off_screen st) st.
Lemma denied_then (m : Sh unit) st : hushed m st → may (m ;; mret Go) (denied st) st.
Proof. intros Hm. apply may_bind. intros a s' E. apply may_ret. split; [done|]. by eapply Hm. Qed.
Lemma hushed_puts t st : hushed (puts t) st.
Proof. intros a s' E. by eapply keeps_scr. Qed.
(** Looking at the state does not change it. *)
Lemma may_look {A} (m : Sh A) Q s : keeps (λ s, s) m → (∀ a, Q a s) → may m Q s.
Proof. intros Hm HQ a s' E. by rewrite (Hm _ _ _ E : s' = s). Qed.
Lemma look_empty b : keeps (λ s, s) (is_empty b).
Proof. apply keeps_bind; [apply keeps_lift|intros; apply keeps_ret]. Qed.

Definition guarded : list (list Z) := [str "rm"; str "drm"; str "dformat"; str "reboot"; str "shutdown"; str "halt"].
(** Up to the test of the privilege a guarded command only looks. *)
Lemma hushed_rm rest st : kum_active st = false → hushed (cmd_rm rest) st.
Proof.
  intros Hst. unfold cmd_rm, hushed. apply may_bind, may_look; [apply look_empty|]. intros []; [apply hushed_puts|].
  apply may_bind, may_gets. rewrite Hst. apply hushed_puts.
Qed.
Lemma hushed_drm rest st : kum_active st = false → hushed (cmd_drm rest) st.
Proof.
  intros Hst. unfold cmd_drm, hushed. apply may_bind, may_look; [apply look_empty|]. intros []; [apply hushed_puts|].
  apply may_bind, may_gets. case_match; [apply hushed_puts|]. apply may_bind, may_gets. rewrite Hst. apply hushed_puts.
Qed.
Lemma hushed_dformat st : kum_active st = false → hushed cmd_dformat st.
Proof.
  intros Hst. unfold cmd_dformat, hushed. apply may_bind. intros ? ? [= <- <-]. rewrite Hst. apply hushed_puts.
Qed.
Lemma denied_reboot rest st : kum_active st = false → may (cmd_reboot rest) (denied st) st.
Proof. intros Hst. unfold cmd_reboot. apply may_bind, may_gets. rewrite Hst. apply denied_then, hushed_puts. Qed.
Lemma denied_shutdown rest st : kum_active st = false → may (cmd_shutdown rest) (denied st) st.
Proof. intros Hst. unfold cmd_shutdown. apply may_bind, may_gets. rewrite Hst. apply denied_then, hushed_puts. Qed.

Lemma commands_denied jx jy kum rest st : kum_active st = false →
  Forall (λ c : list Z * handler, ∃ n, cstr c.1 n ∧ (n ∈ guarded → may (c.2 rest) (denied st) st)) (commands jx jy kum).
Proof.
  intros Hst. unfold commands.
  repeat (apply Forall_cons; split; [eexists; split; [cbn [fst]; by apply lit_test|cbn [snd]]|]); [..|by constructor].
  all: try (intros Hn; exfalso; revert Hn; refine (bool_decide_eq_false_1 _ _); vm_compute; reflexivity).
  all: intros _.
  all: match goal with
    | |- context [cmd_rm] => exact (denied_then _ _ (hushed_rm rest st Hst))
    | |- context [cmd_drm] => exact (denied_then _ _ (hushed_drm rest st Hst))
    | |- context [cmd_dformat] => exact (denied_then _ _ (hushed_dformat st Hst))
    | |- context [cmd_reboot] => exact (denied_reboot rest st Hst)
    | |- context [cmd_shutdown] => exact (denied_shutdown rest st Hst)
    end.
Qed.

(** C35: without the privilege the commands that delete files, format the disk or stop the
    machine do nothing but print: the machine goes on, and its state is the same but for the
    screen. *)
Theorem unprivileged_denied n line s st : cstr line s → kum_active st = false → command s ∈ guarded →
  may (dispatch n line) (denied st) st.
Proof.
  intros Hl Hst Hg. destruct n as [|n]; cbn [dispatch]; [by intros ???|]. unfold dispatch_level.
  destruct (skip_spaces_spec line s Hl) as (b & Eb & Hb). apply may_bind, may_lift. intros ? E. rewrite Eb in E. injection E as <-.
  apply may_bind. eapply may_empty; [exact Hb|]. case_bool_decide as E1; [by apply may_ret|].
  apply may_bind, may_lift. intros [c rest] Ep. eapply split_cmd_inv in Ep as [Hc Hr]; [|exact Hb|rewrite length_replicate; lia]. cbn [fst snd].
  eapply select_may; [exact Hc| |].
  - eapply Forall_impl; [by apply commands_denied|]. intros [nm h] (v & Hv & Hd). exists v. split; [exact Hv|]. intros ->. by apply Hd.
  - intros _. apply denied_then. unfold hushed. intros a s' E. eapply keeps_bind; [| |exact E]; intros; apply keeps_scr.
Qed.

(** [kum kill] works on the table of processes: the tasks of the scheduler, which run, are as
    before. *)
Lemma kum_kill_keeps_tasks {A} (m : M procs A) : keeps the_sched (in_procs m).
Proof.
  intros s a s' E. unfold in_procs, in_k, in_timer, in_net, zoom in E. destruct (m _) as [[? ?]| |]; [|done..]. by simplify_eq.
Qed.
End main.

(** ** A machine that computes *)
Definition demo (kum : bool) : shell (DD := memdisk) (U := list Z) (C := simclock) (DN := simcard) (MD := simclock) :=
  mkShell (example_kernel vm0) (mkAccounts [] 0 0) dmesg_init (g_mouse gui0) (g_fx gui0) (g_term gui0) [no_drive; no_drive] (0, 0, 0) (0, 1)
    kum (str "kumos" ++ replicate 27 0) (mkHist (replicate 16 (replicate 256 0)) 0) 32768.
Notation demo_dispatch := (dispatch (DD := memdisk) (U := list Z) (C := simclock) (DN := simcard) (MD := simclock) 0x200000 8 no_irq
  (λ _, mret tt) Pipe.no_yield (λ _, mret tt) (λ _, mret tt) (λ _, (0, 0, 0, 0)) (λ _, 0) 0 (λ _, mret tt) (replicate 200 0) (replicate 200 0)).
Notation demo_over base := (dispatch_over (DD := memdisk) (U := list Z) (C := simclock) (DN := simcard) (MD := simclock) 0x200000 8 no_irq
  (λ _, mret tt) Pipe.no_yield (λ _, mret tt) (λ _, mret tt) (λ _, (0, 0, 0, 0)) (λ _, 0) 0 (λ _, mret tt) (replicate 200 0) (replicate 200 0) base).
Definition fails (r : res (flow * shell (DD := memdisk) (U := list Z) (C := simclock) (DN := simcard) (MD := simclock))) : bool :=
  match r with Fault => true | _ => false end.

Definition returns (r : res (flow * shell (DD := memdisk) (U := list Z) (C := simclock) (DN := simcard) (MD := simclock))) : bool :=
  match r with Ok _ => true | _ => false end.

Lemma dispatch_privilege_witness : ∃ st', demo_dispatch 9 (lit " kum") (demo false) = Ok (Go, st') ∧ kum_active st' = true.
Proof.
  assert (returns (demo_dispatch 9 (lit " kum") (demo false)) = true) as Hr by (vm_compute; reflexivity).
  destruct (demo_dispatch 9 (lit " kum") (demo false)) as [[r st']| |] eqn:E; [|discriminate Hr..].
  destruct (dispatch_privilege 0x200000 8 no_irq (λ _, mret tt) Pipe.no_yield (λ _, mret tt) (λ _, mret tt) (λ _, (0, 0, 0, 0)) (λ _, 0) 0
    (λ _, mret tt) (replicate 200 0) (replicate 200 0) (λ _, keeps_ret own tt) 9 (lit " kum") (str " kum") (demo false)
    ltac:(by apply lit_test) r st' E) as [Hk _]. clear E.
  assert (command (str " kum") = kum_word) as Ek by (vm_compute; reflexivity). rewrite decide_True in Hk by exact Ek.
  assert (kum_sets (arguments (str " kum")) = Some true) as Es by (vm_compute; reflexivity). unfold after_kum in Hk. rewrite Es in Hk.
  destruct Hk as [-> Hk]. exists st'. split; [reflexivity|exact Hk].
Defined.

Lemma unprivileged_denied_witness : ∃ st', demo_dispatch 9 (lit "shutdown") (demo false) = Ok (Go, st') ∧ off_screen st' = off_screen (demo false).
Proof.
  assert (returns (demo_dispatch 9 (lit "shutdown") (demo false)) = true) as Hr by (vm_compute; reflexivity).
  destruct (demo_dispatch 9 (lit "shutdown") (demo false)) as [[r st']| |] eqn:E; [|discriminate Hr..].
  destruct (unprivileged_denied 0x200000 8 no_irq (λ _, mret tt) Pipe.no_yield (λ _, mret tt) (λ _, mret tt) (λ _, (0, 0, 0, 0)) (λ _, 0) 0
    (λ _, mret tt) (replicate 200 0) (replicate 200 0) 9 (lit "shutdown") (str "shutdown") (demo false)
    ltac:(by apply lit_test) eq_refl ltac:(apply (bool_decide_unpack _); vm_compute; exact I) r st' E) as [Hg Hs]. clear E. subst r.
  exists st'. split; [reflexivity|exact Hs].
Defined.

Lemma dispatch_terminates_witness : demo_over (λ _, lift Fault) 11 (lit "kum kum ls") (demo false) = demo_dispatch 11 (lit "kum kum ls") (demo false).
Proof.
  apply (dispatch_terminates 0x200000 8 no_irq (λ _, mret tt) Pipe.no_yield (λ _, mret tt) (λ _, mret tt) (λ _, (0, 0, 0, 0)) (λ _, 0) 0
    (λ _, mret tt) (replicate 200 0) (replicate 200 0) (λ _, lift Fault) 11 (lit "kum kum ls") (str "kum kum ls") (demo false)).
  - by apply lit_test.
  - vm_compute. lia.
Defined.

(** ** Overruns and other surprises *)
(** A host name of 32 characters overruns [hostname]. *)
Example sethost_overruns : fails (demo_dispatch 3 (lit "kum sethost a23456789012345678901234567890ab") (demo false)) = true.
Proof. vm_compute. reflexivity. Qed.
(** A second argument of [kill] of 16 characters overruns [arg2]. *)
Example kill_overruns : fails (demo_dispatch 3 (lit "kill 5 0000000000000009") (demo false)) = true.
Proof. vm_compute. reflexivity. Qed.
(** A name of 58 characters overruns the path of [proc]. *)
Example proc_overruns : fails (demo_dispatch 3 (lit "proc aaaaaaaaaabbbbbbbbbbaaaaaaaaaabbbbbbbbbbaaaaaaaaaabbbbbbbb") (demo false)) = true.
Proof. vm_compute. reflexivity. Qed.
